(* ===== verification/_CoqProject ===== *)
-Q . S2P
Prelude.v
Sorting.v
BinderAlloc.v
BinderAllocInv.v
BinderAllocNew.v
BinderAllocFree.v
BinderAllocData.v
BinderAllocLife.v
BinderAllocProps.v
Rk817Regs.v
Rk817Gauge.v
Rk817Facts.v
Rk817Algo.v
Rk817Driver.v
Rk817State.v
Rk817Safety.v
Rk817Run.v
Rk817Props.v
Rk817Modes.v
Rk817Charger.v
Rk817ChargerFacts.v
Rk817ChargerProps.v
BinderRef.v
BinderRefInv.v
BinderRefNode.v
BinderRefHandle.v
BinderRefOps.v
BinderRefTxn.v
BinderRefProto.v
BinderRefDeath.v
BinderRefRelease.v
BinderRefRun.v
BinderRefSafe.v
BinderRefStep.v
BinderRefCall.v
BinderRefClose.v
BinderRefProps.v
BinderBuf.v
BinderBufFacts.v
BinderBufInv.v
BinderBufOps.v
BinderBufStep.v
BinderBufObject.v
BinderBufLoop.v
BinderBufFill.v
BinderBufRef.v
BinderBufLayout.v
BinderBufProps.v
BinderCall.v
BinderCallFacts.v
BinderCallFuel.v
BinderCallReply.v
BinderCallAsync.v
BinderCallTrip.v
BinderCallProps.v
PowerSupply.v
PowerSupplyNotify.v
PowerSupplyProps.v
PowerSupplyRk817.v
PowerSupplySysfs.v
