(* ===== verification/Prelude.v ===== *)
(** * A verification library for Core_Technologies

    The repository collects notes and code on operating systems.  Its C code
    has three systems with behaviour worth proving, and a set of algorithms:
    the Android binder driver, the RK817 battery and charger drivers, the power
    supply class of Linux between them, and sorting routines.  Each is modelled
    by executable functions on the state its C structures hold; the names are
    those of the source.

    ** Conventions

    A C struct is a record, and [r <| f := v |>] the assignment [r.f = v].
    Integers are [Z]; an operation that can leave the width of its C type is
    wrapped with [s32], [u32], [u64] and the like, where the source's type
    wraps.  [option] is the monad of faults: [None] is an access out of bounds,
    a division by zero, a use of a freed object, a null pointer or a failing
    BUG_ON; theorems show that it does not come up, or when it does.  Error
    codes are results.  A function that holds a lock is one step.  Loops are
    [loop] with fuel, [for_up] or recursion on a list.

    ** Binder buffer allocator (binder_alloc.c)

    The range of addresses that a process maps for incoming transactions, in
    src/Operating_System/Android_Develop/.../Chapter_1_In-depth_Analysis_of_Binder.
    - BinderAlloc: the state (buffers in order of addresses, the two trees, the
      page array and the LRU list) and all operations;
    - BinderAllocInv, BinderAllocNew, BinderAllocFree, BinderAllocData,
      BinderAllocLife: the invariant, and what allocating, freeing, copying and
      releasing do to it;
    - BinderAllocProps: best fit and the causes of error codes, merging,
      round trips of layout and contents, safety of every sequence of
      operations, termination of the release, and what empty asynchronous
      requests do to the account of asynchronous space.  The invariant
      [alloc_inv] has a flag for that account: without it everything is shown
      for all requests, with it for those that cannot make its counter wrap;
      copies from user space report exactly what did not arrive.
    The search in the tree of free buffers is the class [RbTree], with the laws
    of the kernel's red-black trees.

    ** Binder driver (binder.c)

    Who refers to whom: nodes are the objects of a process, other processes
    refer to them by handles, and counts decide when the owner is told to hold
    an object or to let it go.
    - BinderRef: the stores of nodes, references, notifications, processes and
      threads, the work lists, and the functions of binder.c on them: node and
      reference counts, the commands BC_INCREFS to BC_DECREFS and BC_*_DONE,
      the context manager, death notifications, reading a work, what a
      transaction does from the choice of its target to the release of its
      buffer, and the release of threads and processes;
    - BinderRefInv: the invariant, in a structural half on a [view] of the
      state without counts, and a half on counts that is parametrised by what
      the code in progress holds;
    - BinderRefNode, BinderRefHandle, BinderRefOps, BinderRefTxn,
      BinderRefDeath, BinderRefRelease: a specification for each function: it
      does not fault, keeps the invariant, and what it changes;
    - BinderRefProto: the protocol of the messages about a node as an
      automaton, and how the flags of a node simulate it;
    - BinderRefRun: the driver as a system: any sequence of the events
      (open, start and exit of threads, loopers that register, sleep and wake
      up, commands, transactions in their stages, reading, freeing a buffer,
      closing), interleaved in any order;
    - BinderRefSafe, BinderRefStep, BinderRefCall, BinderRefClose: the
      invariant of the system, and that every event keeps it;
    - BinderRefProps: in every run there is no fault and the counts are exact;
      the messages follow the protocol; notifications are accounted for; a new
      handle is the least one that is free.
    [possible] says which runs are considered.  A transaction succeeds only for
    a receiver that is alive, as binder_proc_transaction checks.  The code does
    not check that the receiver of an object is alive when it is translated:
    runs in which it died meanwhile are left out, and references_exact shows
    what goes wrong in one ([late_translation_dangles]).  Addresses from
    kzalloc are fresh and handles are not used up.  For the contents of a
    transaction [receiver_ok] says the same of its receiver.

    ** Contents of a transaction (binder.c)

    The part of binder_transaction that copies the data of the sender into the
    buffer of the receiver and translates the objects in it, which connects the
    two parts above: objects are parsed from the bytes that BinderAlloc holds,
    and their nodes and handles are those of BinderRef.
    - BinderBuf: binder_get_object, binder_validate_ptr, binder_validate_fixup,
      binder_translate_fd, binder_translate_fd_array, binder_fixup_parent and
      the loop over the objects.  The layout of objects is in a header of the
      kernel that the repository does not have: it is the class [Uapi];
    - BinderBufFacts: the laws of the layout ([UapiLaws]), the contract for
      nodes and handles ([TranslatorLaws]), and the buffer as an array of bytes;
    - BinderBufInv, BinderBufOps, BinderBufStep, BinderBufObject: what holds
      after some objects ([translated], [copied]), what the validation of a
      parent finds, and what each kind of object does to the buffer;
    - BinderBufLoop, BinderBufFill: every object keeps the invariant, and the
      outcome of the whole;
    - BinderBufRef: BinderRef meets the contract for nodes and handles;
    - BinderBufLayout: a layout that meets the laws, for the example;
    - BinderBufProps: nothing outside the buffer is written whatever the sender
      sends; in an accepted transaction pointers are in place and disjoint, and
      the rest is the sender's.

    ** Calls (binder.c)

    How transactions make calls: each thread has a stack of the calls it makes
    and handles, replies go back along it, and one-way transactions of a node
    wait for each other.  A call is given the node it goes to, and the contents
    of its buffer are those of the part before.
    - BinderCall: the two ends of binder_transaction (choice of the target and
      delivery), binder_proc_transaction, reading a transaction,
      binder_free_buf, binder_send_failed_reply, sleep and wake-up, and the
      transactions of a thread or process that dies;
    - BinderCallFacts: work lists, and what each function does when it
      succeeds;
    - BinderCallFuel: the walks over stacks and works end;
    - BinderCallReply: the path of an error to the nearest living caller;
    - BinderCallAsync: one-way transactions as steps of an abstract queue, for
      all sequences of calls, reads, frees, sleeps and wake-ups;
    - BinderCallTrip: a call and its reply, step by step;
    - BinderCallProps: one-way transactions in order and one at a time, errors
      reach the caller, calls come back; and how a thread that leaves can block
      a node for ever.

    ** RK817 battery (rk817_battery.c, Drivers/Power/Supply)

    - Rk817Regs: the register map, the interface [Kernel] to the chip and the
      clocks, the laws of a chip that keeps what is written ([RegmapMemory]),
      and the state of the driver;
    - Rk817Gauge: conversions and the values kept over a power cycle;
    - Rk817Algo: initialisation and the smooth, zero and finish algorithms;
    - Rk817Driver: device tree, properties, interrupts, probe, suspend, resume;
    - Rk817Facts, Rk817State, Rk817Safety, Rk817Run: arithmetic, what each
      operation preserves, that none faults, and runs of the driver;
    - Rk817Props, Rk817Modes: the displayed charge stays in bounds from probe
      on and moves with the current, stored values survive, the register map is
      consistent, the OCV lookup is monotone for the sizes of tables that fit,
      and what a period of the finish algorithm does; and where the code does
      not do what it means to.  The runs are those in which no current of
      exactly zero is measured, which the zero mode divides by.

    ** RK817 charger (rk817_charger.c)

    - Rk817Charger: limits, cables, adapters, OTG power, and the life of the
      driver; [Platform] is the part of the kernel it calls;
    - Rk817ChargerFacts: frames, and the laws [ChargerMemory] and [OtgSwitch]
      of the hardware;
    - Rk817ChargerProps: consistency of what is reported, the limit of a USB
      port, the limits in the chip and their wrap-around, OTG power on boards
      whose DC jack does not supply it and what happens on others, the outcomes
      of probe.

    ** Power supply class (power_supply_core.c, _sysfs.c, _leds.c)

    - PowerSupply: registry, properties, suppliers, registration and removal,
      against callbacks of the drivers on a shared state and the device tree
      ([DeviceTree]);
    - PowerSupplyNotify: notification of changes as a step relation over the
      sections under a lock, with every interleaving, for supplies with and
      without a wakeup source, to the end of the removal;
    - PowerSupplyProps: registration is all or nothing, and the list of
      suppliers;
    - PowerSupplySysfs: attributes, uevents and LED triggers; the kernel's
      string functions are [StringLib], with [StringLaws];
    - PowerSupplyRk817: the descriptions that the two RK817 drivers register,
      and that class, battery and charger agree on the power source.

    ** Sorting (src/Programming/Data_Structure_and_Algorithms/Algorithm/Sort)

    - Sorting: six routines; each terminates, does not leave the array, and
      returns what merge sort returns.  Indices are not bounded to int.

    ** Fuel

    Every use of fuel has a theorem that it is enough, since the functions are
    shown to return: QuickSort gets the length of its range plus one and
    shrinks it at each call; the copying loops of the allocator get the number
    of bytes plus one and copy at least one at each turn; its release and
    [release_nodes] and [release_refs] get the length of the list they empty;
    the search for a supplier's node and the loops of the RK817 algorithms get
    their iteration bounds; the loop over the objects of a transaction gets
    their number, and so does the walk from an object to its parents, which are
    earlier objects.  The walks over stacks of calls get the number of
    transactions plus one, which is enough for stacks that end, and the release
    of works the number of works plus two (BinderCallFuel, BinderCallReply).

    ** Not modelled

    - Of binder.c: the installation of file descriptors in the receiver, the
      release of descriptors, failing copies of messages to user space, the
      loops around commands, ioctl, mmap, poll and debugfs.  Locks are left
      out: a function is atomic, so that races within one are not covered.
      Counts are unbounded.  That stacks always end, which the theorems on
      errors and on the search for a caller suppose, is not shown as an
      invariant of all runs.
    - Wake locks, debug output, statistics and tracing of all drivers.
    - libhwbinder and ServiceManager (C++), the Java services, device trees,
      register headers, textbook exercises and notes: another language, data,
      or programs without state of their own; the manifest lists them.

    This file has what the others share: record update, the fault monad, loops,
    machine integers, arrays and lists. *)

From stdpp Require Export base option list numbers sorting sets gmap.
From Stdlib Require Export ZArith Lia Permutation.

#[export] Set Default Goal Selector "!".

(** ** Record update

    The drivers keep their state in large C structs and assign single fields.
    [r <| f := v |>] is the assignment [r.f = v]; the setter of a projection is
    computed from the eta-expansion of the record, which each record declares
    once as an instance of [Eta]. *)

Class Eta (R : Type) := eta : R -> R.
Class Setter {R T : Type} (proj : R -> T) := set : (T -> T) -> R -> R.
Arguments set {R T} proj {_} _ _.

Ltac build_setter :=
  lazymatch goal with
  | |- @Setter ?R ?T ?proj =>
      let e := eval unfold eta in (@eta R _) in
      let e := (lazymatch e with ?i => let i' := eval red in i in i' end) in
      let p := eval pattern proj in e in
      lazymatch p with
      | ?f proj =>
          let r := eval cbv beta in
            (fun (g : T -> T) (r : R) => f (fun r' => g (proj r')) r) in
          exact r
      end
  end.
#[export] Hint Extern 1 (Setter _) => build_setter : typeclass_instances.

Declare Scope c_scope.
Delimit Scope c_scope with C.

Notation "r <| f := v |>" := (set f (fun _ => v) r)
  (at level 1, left associativity, format "r  <| f  :=  v |>") : c_scope.
Notation "r <| f ::= g |>" := (set f g r)
  (at level 1, left associativity, format "r  <| f  ::=  g |>") : c_scope.

#[global] Open Scope Z_scope.
#[global] Open Scope c_scope.

(** ** C integers

    A C object of an integer type of width [w] is a [Z] in the range of the
    type; a conversion or an operation whose result does not fit wraps.  The
    kernel is built with -fno-strict-overflow, so signed arithmetic wraps too. *)

Definition u8 (x : Z) : Z := x mod 2 ^ 8.
Definition u16 (x : Z) : Z := x mod 2 ^ 16.
Definition u32 (x : Z) : Z := x mod 2 ^ 32.
Definition u64 (x : Z) : Z := x mod 2 ^ 64.
Definition s32 (x : Z) : Z := (x + 2 ^ 31) mod 2 ^ 32 - 2 ^ 31.
Definition s64 (x : Z) : Z := (x + 2 ^ 63) mod 2 ^ 64 - 2 ^ 63.

(** A C truth value and its use in a condition. *)
Definition b2z (b : bool) : Z := if b then 1 else 0.
Definition truth (x : Z) : bool := negb (x =? 0).

(** Division and remainder truncate towards zero; a zero divisor is a fault. *)
Definition cdiv (a b : Z) : option Z := if b =? 0 then None else Some (Z.quot a b).
Definition cmod (a b : Z) : option Z := if b =? 0 then None else Some (Z.rem a b).

(** ** Arrays

    An array is the list of its elements.  An access outside of it is a fault
    ([None]), so a theorem that a routine returns [Some _] says that it stays
    inside its array. *)

Definition zlen {A} (a : list A) : Z := Z.of_nat (length a).

Definition rd {A} (a : list A) (i : Z) : option A :=
  if (0 <=? i) then a !! Z.to_nat i else None.

Definition wr {A} (a : list A) (i : Z) (v : A) : option (list A) :=
  if (0 <=? i) && (i <? zlen a) then Some (<[Z.to_nat i := v]> a) else None.

(** [Swap(&a[i], &a[j])] of the sorting routines. *)
Definition swap {A} (a : list A) (i j : Z) : option (list A) :=
  temp ← rd a i;
  y ← rd a j;
  a ← wr a i y;
  wr a j temp.

(** ** Loops

    [loop fuel step s] runs [step] until it produces a result; [for_up lo hi]
    is the counting loop [for (i = lo; i < hi; i++)]. *)

Fixpoint loop {S R} (fuel : nat) (step : S -> option (S + R)) (s : S) : option R :=
  match fuel with
  | O => None
  | Datatypes.S fuel =>
      r ← step s;
      match r with
      | inl s' => loop fuel step s'
      | inr r => Some r
      end
  end.

Fixpoint iter_up {S} (n : nat) (i : Z) (body : Z -> S -> option S) (s : S) : option S :=
  match n with
  | O => Some s
  | Datatypes.S n => s' ← body i s; iter_up n (i + 1) body s'
  end.

Definition for_up {S} (lo hi : Z) (body : Z -> S -> option S) (s : S) : option S :=
  iter_up (Z.to_nat (hi - lo)) lo body s.

(** * Lemmas *)

Create HintDb cint.
Create HintDb carr.

Lemma u8_id x : 0 <= x < 2 ^ 8 -> u8 x = x.
Proof. apply Z.mod_small. Qed.
Lemma u16_id x : 0 <= x < 2 ^ 16 -> u16 x = x.
Proof. apply Z.mod_small. Qed.
Lemma u32_id x : 0 <= x < 2 ^ 32 -> u32 x = x.
Proof. apply Z.mod_small. Qed.
Lemma u64_id x : 0 <= x < 2 ^ 64 -> u64 x = x.
Proof. apply Z.mod_small. Qed.
Lemma s32_id x : - 2 ^ 31 <= x < 2 ^ 31 -> s32 x = x.
Proof. intros H. unfold s32. rewrite Z.mod_small; lia. Qed.
Lemma s64_id x : - 2 ^ 63 <= x < 2 ^ 63 -> s64 x = x.
Proof. intros H. unfold s64. rewrite Z.mod_small; lia. Qed.

Lemma u8_range x : 0 <= u8 x < 2 ^ 8.
Proof. apply Z.mod_pos_bound; lia. Qed.
Lemma u16_range x : 0 <= u16 x < 2 ^ 16.
Proof. apply Z.mod_pos_bound; lia. Qed.
Lemma u32_range x : 0 <= u32 x < 2 ^ 32.
Proof. apply Z.mod_pos_bound; lia. Qed.
Lemma u64_range x : 0 <= u64 x < 2 ^ 64.
Proof. apply Z.mod_pos_bound; lia. Qed.
Lemma s32_range x : - 2 ^ 31 <= s32 x < 2 ^ 31.
Proof.
  unfold s32. pose proof (Z.mod_pos_bound (x + 2 ^ 31) (2 ^ 32)). lia.
Qed.
#[export] Hint Resolve u8_range u16_range u32_range u64_range s32_range : cint.

Lemma cdiv_Some a b : b <> 0 -> cdiv a b = Some (Z.quot a b).
Proof. intros H. unfold cdiv. by destruct (Z.eqb_spec b 0). Qed.
Lemma cmod_Some a b : b <> 0 -> cmod a b = Some (Z.rem a b).
Proof. intros H. unfold cmod. by destruct (Z.eqb_spec b 0). Qed.

Lemma truth_true x : truth x = true <-> x <> 0.
Proof. unfold truth. destruct (Z.eqb_spec x 0); naive_solver. Qed.
Lemma truth_b2z b : truth (b2z b) = b.
Proof. by destruct b. Qed.

(** Removes every conversion whose argument is provably in range. *)
Ltac cint_id :=
  repeat first
    [ rewrite s32_id by lia | rewrite u32_id by lia | rewrite u16_id by lia
    | rewrite u8_id by lia | rewrite u64_id by lia | rewrite s64_id by lia ].

(** A step of the option monad, for programs on which [cbn] is slow. *)
Lemma Some_bind {A B} (x : A) (k : A -> option B) : (Some x ≫= k) = k x.
Proof. reflexivity. Qed.

Lemma option_map_Some {A B} (f : A -> B) (o : option A) y :
  option_map f o = Some y -> exists x, o = Some x /\ f x = y.
Proof. destruct o as [x|]; [|done]. intros E. injection E as E. eauto. Qed.

(** Runs the option monad without unfolding the program under it. *)
Ltac mstep := cbn [mbind option_bind fmap option_fmap option_map mret option_ret].

(** [lia] for goals with division and remainder by constants. *)
Ltac dlia := Z.to_euclidean_division_equations; lia.

(** Splits on the boolean integer comparisons of the goal. *)
Ltac zcase :=
  match goal with
  | |- context [?x =? ?y] => destruct (Z.eqb_spec x y)
  | |- context [?x <? ?y] => destruct (Z.ltb_spec x y)
  | |- context [?x <=? ?y] => destruct (Z.leb_spec x y)
  | |- context [?x >? ?y] => rewrite (Z.gtb_ltb x y)
  | |- context [?x >=? ?y] => rewrite (Z.geb_leb x y)
  end.
Ltac zcase_in H :=
  match type of H with
  | context [?x =? ?y] => destruct (Z.eqb_spec x y)
  | context [?x <? ?y] => destruct (Z.ltb_spec x y)
  | context [?x <=? ?y] => destruct (Z.leb_spec x y)
  | context [?x >? ?y] => rewrite (Z.gtb_ltb x y) in H
  | context [?x >=? ?y] => rewrite (Z.geb_leb x y) in H
  end.

Section Arrays.
Context {A : Type}.
Implicit Types (a : list A) (i j : Z) (x y v : A).

Lemma zlen_nonneg a : 0 <= zlen a.
Proof. unfold zlen. lia. Qed.

Lemma rd_Some a i x : rd a i = Some x <-> 0 <= i /\ a !! Z.to_nat i = Some x.
Proof.
  unfold rd. destruct (Z.leb_spec 0 i); split; auto; [by intros [_ ?]|done|]. intros [? _]; lia.
Qed.

Lemma rd_lt a i x : rd a i = Some x -> 0 <= i < zlen a.
Proof.
  rewrite rd_Some. intros [? H%lookup_lt_Some]. unfold zlen. lia.
Qed.

Lemma rd_is_Some a i : is_Some (rd a i) <-> 0 <= i < zlen a.
Proof.
  split.
  - intros [x H]. eauto using rd_lt.
  - intros H. unfold rd. destruct (Z.leb_spec 0 i); [|lia].
    apply lookup_lt_is_Some. unfold zlen in *. lia.
Qed.

Lemma rd_ex a i : 0 <= i < zlen a -> exists x, rd a i = Some x.
Proof. apply rd_is_Some. Qed.

Lemma rd_of_nat a (n : nat) : rd a (Z.of_nat n) = a !! n.
Proof. unfold rd. destruct (Z.leb_spec 0 (Z.of_nat n)); [|lia]. by rewrite Nat2Z.id. Qed.

Lemma wr_Some a i v : 0 <= i < zlen a -> wr a i v = Some (<[Z.to_nat i := v]> a).
Proof.
  intros H. unfold wr.
  destruct (Z.leb_spec 0 i), (Z.ltb_spec i (zlen a)); simpl; auto; lia.
Qed.

Lemma wr_inv a i v a' :
  wr a i v = Some a' -> 0 <= i < zlen a /\ a' = <[Z.to_nat i := v]> a.
Proof.
  unfold wr.
  destruct (Z.leb_spec 0 i), (Z.ltb_spec i (zlen a)); simpl; naive_solver.
Qed.

Lemma wr_ex a i v : 0 <= i < zlen a -> exists a', wr a i v = Some a'.
Proof. intros H. rewrite wr_Some by done. eauto. Qed.

Lemma zlen_wr a i v a' : wr a i v = Some a' -> zlen a' = zlen a.
Proof. intros [_ ->]%wr_inv. unfold zlen. by rewrite length_insert. Qed.

Lemma rd_wr_eq a i v a' : wr a i v = Some a' -> rd a' i = Some v.
Proof.
  intros [? ->]%wr_inv. apply rd_Some. split; [lia|].
  apply list_lookup_insert_eq. unfold zlen in *. lia.
Qed.

Lemma rd_wr_ne a i j v a' : wr a i v = Some a' -> i <> j -> rd a' j = rd a j.
Proof.
  intros [? ->]%wr_inv Hne. unfold rd. destruct (Z.leb_spec 0 j); [|done].
  rewrite list_lookup_insert_ne by lia. done.
Qed.

Lemma rd_wr a i j v a' :
  wr a i v = Some a' -> rd a' j = if i =? j then Some v else rd a j.
Proof.
  intros H. destruct (Z.eqb_spec i j) as [->|];
    eauto using rd_wr_eq, rd_wr_ne.
Qed.

Lemma rd_ext a b :
  zlen a = zlen b -> (forall i, 0 <= i < zlen a -> rd a i = rd b i) -> a = b.
Proof.
  unfold zlen. intros Hlen H. apply list_eq. intros i.
  destruct (decide (i < length a)%nat) as [Hi|Hi].
  - rewrite <- !rd_of_nat. apply H. lia.
  - rewrite !lookup_ge_None_2 by lia. done.
Qed.

Lemma swap_ex a i j :
  0 <= i < zlen a -> 0 <= j < zlen a ->
  exists a', swap a i j = Some a'.
Proof.
  intros Hi Hj. unfold swap.
  destruct (rd_ex a i Hi) as [x ->], (rd_ex a j Hj) as [y ->]; simpl.
  destruct (wr_ex a i y Hi) as [a1 H1]. rewrite H1. simpl.
  apply wr_ex. by rewrite (zlen_wr _ _ _ _ H1).
Qed.

Lemma swap_inv a i j a' :
  swap a i j = Some a' ->
  exists x y, rd a i = Some x /\ rd a j = Some y /\
    zlen a' = zlen a /\
    (forall k, rd a' k = if j =? k then Some x else if i =? k then Some y else rd a k).
Proof.
  unfold swap. intros H.
  destruct (rd a i) as [x|] eqn:Hx; simpl in H; [|done].
  destruct (rd a j) as [y|] eqn:Hy; simpl in H; [|done].
  destruct (wr a i y) as [a1|] eqn:H1; simpl in H; [|done].
  exists x, y. split_and!; auto.
  - by rewrite (zlen_wr _ _ _ _ H), (zlen_wr _ _ _ _ H1).
  - intros k. by rewrite (rd_wr _ _ _ _ _ H), (rd_wr _ _ _ _ _ H1).
Qed.

Lemma insert_split (l : list A) (n : nat) (x y : A) :
  l !! n = Some x -> exists l1 l2, l = l1 ++ x :: l2 /\ length l1 = n /\
    <[n := y]> l = l1 ++ y :: l2.
Proof.
  intros H. exists (take n l), (drop (S n) l).
  pose proof (lookup_lt_Some _ _ _ H). split_and!.
  - symmetry. by apply take_drop_middle.
  - rewrite length_take. lia.
  - by rewrite insert_take_drop.
Qed.

(** Overwriting [x] by [y] trades the one for the other. *)
Lemma wr_Permutation a i x y a' :
  rd a i = Some x -> wr a i y = Some a' -> Permutation (x :: a') (y :: a).
Proof.
  intros [_ Hx]%rd_Some [_ ->]%wr_inv.
  destruct (insert_split _ _ _ y Hx) as (l1 & l2 & -> & _ & ->).
  rewrite <- !Permutation_middle. apply perm_swap.
Qed.

Lemma swap_Permutation a i j a' : swap a i j = Some a' -> Permutation a' a.
Proof.
  unfold swap. intros H.
  destruct (rd a i) as [x|] eqn:Hx; simpl in H; [|done].
  destruct (rd a j) as [y|] eqn:Hy; simpl in H; [|done].
  destruct (wr a i y) as [a1|] eqn:H1; simpl in H; [|done].
  pose proof (wr_Permutation _ _ _ _ _ Hx H1) as P1.
  assert (Hy' : rd a1 j = Some y).
  { rewrite (rd_wr _ _ _ _ _ H1). by destruct (i =? j). }
  pose proof (wr_Permutation _ _ _ _ _ Hy' H) as P2.
  apply (Permutation_cons_inv (a := y)). by rewrite P2, P1.
Qed.
End Arrays.

#[export] Hint Resolve rd_lt rd_wr_eq : carr.

(** The invariant rule of the counting loop: it also says that the loop does
    not fault when the body does not. *)
Lemma iter_up_inv {S} (I : Z -> S -> Prop) body n i s :
  I i s ->
  (forall k s, i <= k < i + Z.of_nat n -> I k s ->
     exists s', body k s = Some s' /\ I (k + 1) s') ->
  exists s', iter_up n i body s = Some s' /\ I (i + Z.of_nat n) s'.
Proof.
  revert i s. induction n as [|n IH]; intros i s HI Hb; simpl.
  - exists s. split; [done|]. by replace (i + Z.of_nat 0) with i by lia.
  - destruct (Hb i s) as (s1 & -> & H1); [lia|done|]. simpl.
    destruct (IH (i + 1) s1) as (s2 & -> & H2); [done|..].
    + intros k s' Hk. apply Hb. lia.
    + exists s2. split; [done|].
      by replace (i + Z.of_nat (Datatypes.S n)) with (i + 1 + Z.of_nat n) by lia.
Qed.

Lemma for_up_inv {S} (I : Z -> S -> Prop) lo hi body s :
  lo <= hi -> I lo s ->
  (forall k s, lo <= k < hi -> I k s -> exists s', body k s = Some s' /\ I (k + 1) s') ->
  exists s', for_up lo hi body s = Some s' /\ I hi s'.
Proof.
  intros Hle HI Hb. unfold for_up.
  destruct (iter_up_inv I body (Z.to_nat (hi - lo)) lo s) as (s' & E & H); [done|..].
  - intros k s' Hk. apply Hb. lia.
  - exists s'. split; [done|].
    by replace hi with (lo + Z.of_nat (Z.to_nat (hi - lo))) by lia.
Qed.

Lemma for_up_empty {S} lo hi body (s : S) : hi <= lo -> for_up lo hi body s = Some s.
Proof. intros H. unfold for_up. by replace (Z.to_nat (hi - lo)) with 0%nat by lia. Qed.

(** The invariant rule of the general loop: [measure] bounds the number of
    remaining rounds, so the rule proves termination as well. *)
Lemma loop_inv {S R} (I : S -> Prop) (Q : R -> Prop) (measure : S -> nat) step fuel s :
  I s ->
  (measure s < fuel)%nat ->
  (forall s, I s ->
     (exists s', step s = Some (inl s') /\ I s' /\ (measure s' < measure s)%nat) \/
     (exists r, step s = Some (inr r) /\ Q r)) ->
  exists r, loop fuel step s = Some r /\ Q r.
Proof.
  revert s. induction fuel as [|fuel IH]; intros s HI Hm Hs; [lia|]. simpl.
  destruct (Hs s HI) as [(s' & -> & HI' & Hm')|(r & -> & HQ)]; simpl; eauto.
  apply IH; auto. lia.
Qed.

(** ** Arrays of integers

    [get a i] is the total view of [a[i]] the invariants are stated with. *)

Definition get (a : list Z) (i : Z) : Z := default 0 (rd a i).

Definition sorted_range (a : list Z) (lo hi : Z) : Prop :=
  forall i j, lo <= i -> i < j -> j < hi -> get a i <= get a j.

Lemma rd_get a i : 0 <= i < zlen a -> rd a i = Some (get a i).
Proof. intros H. unfold get. by destruct (rd_ex a i H) as [x ->]. Qed.

Lemma get_wr a i v a' k :
  wr a i v = Some a' -> get a' k = if i =? k then v else get a k.
Proof. intros H. unfold get. rewrite (rd_wr _ _ _ _ _ H). by destruct (i =? k). Qed.

Lemma get_swap a i j a' k :
  swap a i j = Some a' ->
  get a' k = if j =? k then get a i else if i =? k then get a j else get a k.
Proof.
  intros (x & y & Hx & Hy & _ & H)%swap_inv. unfold get. rewrite H, Hx, Hy.
  by destruct (j =? k), (i =? k).
Qed.

Lemma zlen_swap {A} (a : list A) i j a' : swap a i j = Some a' -> zlen a' = zlen a.
Proof. by intros (_ & _ & _ & _ & H & _)%swap_inv. Qed.

Lemma Permutation_zlen {A} (a b : list A) : Permutation a b -> zlen a = zlen b.
Proof. intros H. unfold zlen. by rewrite (Permutation_length H). Qed.

Lemma get_lookup a (n : nat) x : a !! n = Some x -> get a (Z.of_nat n) = x.
Proof. intros H. unfold get. by rewrite rd_of_nat, H. Qed.

Lemma sorted_range_sorted a : sorted_range a 0 (zlen a) -> StronglySorted Z.le a.
Proof.
  induction a as [|x a IH]; intros H; constructor.
  - apply IH. intros i j Hi Hj Hl. specialize (H (i + 1) (j + 1)).
    unfold zlen, get in *. simpl in H. rewrite Nat2Z.inj_succ in H.
    assert (Hs : forall k, 0 <= k -> rd (x :: a) (k + 1) = rd a k).
    { intros k Hk. rewrite <- (Z2Nat.id k) by lia.
      replace (Z.of_nat (Z.to_nat k) + 1) with (Z.of_nat (Datatypes.S (Z.to_nat k))) by lia.
      by rewrite !rd_of_nat. }
    rewrite !Hs in H by lia. apply H; lia.
  - apply Forall_lookup. intros n y Hy.
    pose proof (lookup_lt_Some _ _ _ Hy) as Hn.
    pose proof (get_lookup (x :: a) (Datatypes.S n) y Hy) as H1.
    pose proof (get_lookup (x :: a) 0 x eq_refl) as H2.
    rewrite <- H1, <- H2. apply H; unfold zlen; simpl; lia.
Qed.

(** Two sorted permutations of the same list are equal. *)
Lemma sorted_perm_unique (a b : list Z) :
  StronglySorted Z.le a -> StronglySorted Z.le b -> Permutation a b -> a = b.
Proof. apply (StronglySorted_unique Z.le). Qed.

Ltac get_cases :=
  repeat match goal with
  | H : swap ?a ?i ?j = Some ?a' |- context [get ?a' _] => rewrite !(get_swap _ _ _ _ _ H)
  | H : wr ?a ?i ?v = Some ?a' |- context [get ?a' _] => rewrite !(get_wr _ _ _ _ _ H)
  end; repeat zcase.
