(* ===== verification/Sorting.v ===== *)
(** * Sorting

    The five routines of src/Programming/Data_Structure_and_Algorithms/Algorithm/Sort:
    bubble sort (and its early-exit variant), selection sort, insertion sort,
    Shell sort and quicksort, each on an array of [int] with faulting accesses. *)

From S2P Require Import Prelude.

(** ** BubbleSort.c *)

Definition BubbleSort (arr : list Z) (sz : Z) : option (list Z) :=
  for_up 0 (sz - 1) (fun i arr =>
    for_up 0 (sz - i - 1) (fun j arr =>
      x ← rd arr j;
      y ← rd arr (j + 1);
      if x >? y then swap arr j (j + 1) else Some arr) arr) arr.

(** One pass of the flagged variant; the flag tells whether it swapped. *)
Definition BubbleSortWithFlag_pass (arr : list Z) (hi : Z) : option (list Z * bool) :=
  for_up 0 hi (fun j '(arr, flag) =>
    x ← rd arr j;
    y ← rd arr (j + 1);
    if x >? y then arr ← swap arr j (j + 1); Some (arr, true)
    else Some (arr, flag)) (arr, false).

Definition BubbleSortWithFlag (arr : list Z) (sz : Z) : option (list Z) :=
  loop (S (Z.to_nat sz)) (fun '(i, arr) =>
    if i <? sz - 1 then
      '(arr, flag) ← BubbleSortWithFlag_pass arr (sz - i - 1);
      if negb flag then Some (inr arr) else Some (inl (i + 1, arr))
    else Some (inr arr)) (0, arr).

(** ** SelectionSort.c *)

Definition SelectionSort (arr : list Z) (sz : Z) : option (list Z) :=
  for_up 0 sz (fun i arr =>
    minindex ← for_up (i + 1) sz (fun j minindex =>
      x ← rd arr j;
      y ← rd arr minindex;
      Some (if x <? y then j else minindex)) i;
    swap arr i minindex) arr.

(** ** InsertionSort.c

    The inner loop moves the larger elements one place to the right. *)

Definition InsertionSort_shift (base i : Z) (arr : list Z) : option (Z * list Z) :=
  loop (S (Z.to_nat i)) (fun '(j, arr) =>
    if 0 <=? j then
      x ← rd arr j;
      if x >? base then arr ← wr arr (j + 1) x; Some (inl (j - 1, arr))
      else Some (inr (j, arr))
    else Some (inr (j, arr))) (i - 1, arr).

Definition InsertionSort (arr : list Z) (sz : Z) : option (list Z) :=
  for_up 1 sz (fun i arr =>
    base ← rd arr i;
    '(j, arr) ← InsertionSort_shift base i arr;
    wr arr (j + 1) base) arr.

(** ** ShellSort.c *)

Definition ShellSort_shift (gap temp i : Z) (arr : list Z) : option (Z * list Z) :=
  loop (S (Z.to_nat i)) (fun '(j, arr) =>
    if gap <=? j then
      x ← rd arr (j - gap);
      if x >? temp then arr ← wr arr j x; Some (inl (j - gap, arr))
      else Some (inr (j, arr))
    else Some (inr (j, arr))) (i, arr).

(** [for (i = gap; i < sz; i += gap)]: one insertion pass with stride [gap]. *)
Definition ShellSort_pass (gap sz : Z) (arr : list Z) : option (list Z) :=
  loop (S (Z.to_nat sz)) (fun '(i, arr) =>
    if i <? sz then
      temp ← rd arr i;
      '(j, arr) ← ShellSort_shift gap temp i arr;
      arr ← wr arr j temp;
      Some (inl (i + gap, arr))
    else Some (inr arr)) (gap, arr).

Definition ShellSort (arr : list Z) (sz : Z) : option (list Z) :=
  loop (S (Z.to_nat sz)) (fun '(gap, arr) =>
    if 0 <? gap then arr ← ShellSort_pass gap sz arr; Some (inl (Z.shiftr gap 1, arr))
    else Some (inr arr)) (Z.shiftr sz 1, arr).

(** ** QuickSort.c *)

Definition Partition (arr : list Z) (left right : Z) : option (Z * list Z) :=
  pivot ← rd arr right;
  '(i, arr) ← for_up left right (fun j '(i, arr) =>
    x ← rd arr j;
    if x <=? pivot then arr ← swap arr (i + 1) j; Some (i + 1, arr)
    else Some (i, arr)) (left - 1, arr);
  arr ← swap arr (i + 1) right;
  Some (i + 1, arr).

Fixpoint QuickSort_fuel (fuel : nat) (arr : list Z) (left right : Z) : option (list Z) :=
  match fuel with
  | O => None
  | S fuel =>
      if left >=? right then Some arr
      else
        '(pivot, arr) ← Partition arr left right;
        arr ← QuickSort_fuel fuel arr left (pivot - 1);
        QuickSort_fuel fuel arr (pivot + 1) right
  end.

(** The recursion is at most as deep as the range is long. *)
Definition QuickSort (arr : list Z) (left right : Z) : option (list Z) :=
  QuickSort_fuel (S (Z.to_nat (right - left + 1))) arr left right.

(** * Correctness *)

(** What a sorting routine promises about the array it leaves. *)
Definition sorts (arr arr' : list Z) : Prop :=
  sorted_range arr' 0 (zlen arr') /\ Permutation arr' arr.

(** Everything from [p] on is in its final place. *)
Definition tail_final (arr : list Z) (p : Z) : Prop :=
  forall k l, 0 <= k -> k < l -> p <= l -> l < zlen arr -> get arr k <= get arr l.

(** Everything before [p] is in its final place. *)
Definition head_final (arr : list Z) (p : Z) : Prop :=
  forall k l, 0 <= k -> k < l -> k < p -> l < zlen arr -> get arr k <= get arr l.

Lemma tail_final_swap arr arr' i j p :
  0 <= i < p -> 0 <= j < p -> swap arr i j = Some arr' ->
  tail_final arr p -> tail_final arr' p.
Proof.
  intros Hi Hj Hs H k l Hk Hkl Hpl Hl. rewrite (zlen_swap _ _ _ _ Hs) in Hl.
  get_cases; subst; try lia; apply H; lia.
Qed.

Lemma bubble_pass arr p :
  0 <= p < zlen arr -> tail_final arr (p + 1) ->
  exists arr', for_up 0 p (fun j arr =>
      x ← rd arr j;
      y ← rd arr (j + 1);
      if x >? y then swap arr j (j + 1) else Some arr) arr = Some arr' /\
    Permutation arr' arr /\ tail_final arr' p.
Proof.
  intros Hp Ht.
  edestruct (for_up_inv (fun j arr' => Permutation arr' arr /\ tail_final arr' (p + 1) /\
     forall k, 0 <= k < j -> get arr' k <= get arr' j)) as (arr' & -> & HP & HT & HM).
  - lia.
  - split_and!; [done..|]. lia.
  - intros j a Hj (HP & HT & HM). pose proof (Permutation_zlen _ _ HP).
    rewrite !rd_get by lia. simpl. rewrite Z.gtb_ltb.
    destruct (Z.ltb_spec (get a (j + 1)) (get a j)).
    + destruct (swap_ex a j (j + 1)) as [a' Hs]; [lia..|].
      exists a'. split_and!; [done| |eapply tail_final_swap; [..|done]; try done; lia|].
      * by rewrite (swap_Permutation _ _ _ _ Hs).
      * intros k Hk. get_cases; subst; try lia. apply HM; lia.
    + exists a. split_and!; [done..|]. intros k Hk.
      destruct (Z.eq_dec k j) as [->|]; [done|]. specialize (HM k). lia.
  - exists arr'. split_and!; [done..|]. intros k l Hk Hkl Hpl Hl.
    destruct (Z.eq_dec l p) as [->|]; [apply HM; lia|apply HT; lia].
Qed.

Lemma tail_final_sorts arr arr0 p :
  p <= 1 -> tail_final arr p -> Permutation arr arr0 -> sorts arr0 arr.
Proof.
  intros Hp HT HP. split; [|done]. intros i j Hi Hj Hl. apply HT; lia.
Qed.

Lemma BubbleSort_sorts arr :
  exists arr', BubbleSort arr (zlen arr) = Some arr' /\ sorts arr arr'.
Proof.
  unfold BubbleSort. pose proof (zlen_nonneg arr).
  destruct (Z.leb_spec (zlen arr) 1).
  { rewrite for_up_empty by lia. exists arr. split; [done|].
    apply (tail_final_sorts _ _ 1); [lia| |done]. intros k l; lia. }
  edestruct (for_up_inv (fun i a => Permutation a arr /\ tail_final a (zlen arr - i)))
    as (arr' & -> & HP & HT).
  - lia.
  - split; [done|]. intros k l; lia.
  - intros i a Hi (HP & HT). pose proof (Permutation_zlen _ _ HP).
    destruct (bubble_pass a (zlen arr - i - 1)) as (a' & E & HP' & HT').
    + lia.
    + by replace (zlen arr - i - 1 + 1) with (zlen arr - i) by lia.
    + exists a'. split_and!; [done|by rewrite HP'|].
      by replace (zlen arr - (i + 1)) with (zlen arr - i - 1) by lia.
  - exists arr'. split; [done|]. eapply tail_final_sorts; [|done..]. lia.
Qed.

(** A range whose neighbours are in order is in order. *)
Lemma sorted_range_neighbours arr lo hi :
  (forall k, lo <= k < hi - 1 -> get arr k <= get arr (k + 1)) -> sorted_range arr lo hi.
Proof.
  intros H i j Hi Hij Hj.
  assert (Hd : forall d : nat, i + Z.of_nat d < hi -> get arr i <= get arr (i + Z.of_nat d)).
  { induction d as [|d IH]; intros Hd.
    - by rewrite Z.add_0_r.
    - etrans; [apply IH; lia|].
      replace (i + Z.of_nat (S d)) with (i + Z.of_nat d + 1) by lia. apply H. lia. }
  replace j with (i + Z.of_nat (Z.to_nat (j - i))) by lia. apply Hd. lia.
Qed.

Lemma flag_pass arr p :
  0 <= p < zlen arr -> tail_final arr (p + 1) ->
  exists arr' flag, BubbleSortWithFlag_pass arr p = Some (arr', flag) /\
    Permutation arr' arr /\ tail_final arr' p /\
    (flag = false -> sorted_range arr' 0 (p + 1)).
Proof.
  intros Hp Ht. unfold BubbleSortWithFlag_pass.
  edestruct (for_up_inv (fun j '(arr', flag) =>
     Permutation arr' arr /\ tail_final arr' (p + 1) /\
     (forall k, 0 <= k < j -> get arr' k <= get arr' j) /\
     (flag = false -> forall k, 0 <= k < j -> get arr' k <= get arr' (k + 1))))
    as ([arr' flag] & -> & HP & HT & HM & HF).
  - lia.
  - split_and!; [done..| |]; lia.
  - intros j [a flag] Hj (HP & HT & HM & HF). pose proof (Permutation_zlen _ _ HP).
    rewrite !rd_get by lia. simpl. rewrite Z.gtb_ltb.
    destruct (Z.ltb_spec (get a (j + 1)) (get a j)).
    + destruct (swap_ex a j (j + 1)) as [a' Hs]; [lia..|]. rewrite Hs.
      exists (a', true). split_and!; [done| |eapply tail_final_swap; [..|done]; try done; lia| |done].
      * by rewrite (swap_Permutation _ _ _ _ Hs).
      * intros k Hk. get_cases; subst; try lia. apply HM; lia.
    + exists (a, flag). split_and!; [done..| |].
      * intros k Hk. destruct (Z.eq_dec k j) as [->|]; [done|]. specialize (HM k). lia.
      * intros Hf k Hk. destruct (Z.eq_dec k j) as [->|]; [done|]. apply HF; [done|lia].
  - exists arr', flag. split_and!; [done..| |].
    + intros k l Hk Hkl Hpl Hl.
      destruct (Z.eq_dec l p) as [->|]; [apply HM; lia|apply HT; lia].
    + intros Hf. apply sorted_range_neighbours. intros k Hk. apply HF; [done|lia].
Qed.

(** A pass that swapped nothing leaves the whole array in order. *)
Lemma flag_false_sorts arr arr0 p :
  0 <= p -> tail_final arr p -> sorted_range arr 0 (p + 1) -> Permutation arr arr0 ->
  sorts arr0 arr.
Proof.
  intros Hp HT HS HP. split; [|done]. intros i j Hi Hij Hj.
  destruct (Z.ltb_spec j (p + 1)); [apply HS; lia|apply HT; lia].
Qed.

Lemma BubbleSortWithFlag_sorts arr :
  exists arr', BubbleSortWithFlag arr (zlen arr) = Some arr' /\ sorts arr arr'.
Proof.
  unfold BubbleSortWithFlag. pose proof (zlen_nonneg arr).
  apply (loop_inv
    (fun '(i, a) => 0 <= i /\ Permutation a arr /\ tail_final a (zlen arr - i))
    (sorts arr) (fun '(i, _) => Z.to_nat (zlen arr - i))).
  - split_and!; [lia|done|]. intros k l; lia.
  - lia.
  - intros [i a] (Hi & HP & HT). pose proof (Permutation_zlen _ _ HP).
    destruct (Z.ltb_spec i (zlen arr - 1)).
    + destruct (flag_pass a (zlen arr - i - 1)) as (a' & flag & -> & HP' & HT' & HF).
      * lia.
      * by replace (zlen arr - i - 1 + 1) with (zlen arr - i) by lia.
      * simpl. rewrite HP in HP'. destruct flag; simpl.
        -- left. exists (i + 1, a'). split_and!; [done|lia|done| |lia].
           by replace (zlen arr - (i + 1)) with (zlen arr - i - 1) by lia.
        -- right. eexists. split; [done|].
           apply (flag_false_sorts _ _ (zlen arr - i - 1)); auto; lia.
    + right. eexists. split; [done|]. eapply tail_final_sorts; [|done..]. lia.
Qed.

(** *** Selection sort *)

Lemma select_min a i :
  0 <= i < zlen a ->
  exists m, for_up (i + 1) (zlen a) (fun j minindex =>
      x ← rd a j;
      y ← rd a minindex;
      Some (if x <? y then j else minindex)) i = Some m /\
    i <= m < zlen a /\ forall k, i <= k < zlen a -> get a m <= get a k.
Proof.
  intros Hi.
  edestruct (for_up_inv (fun j m => i <= m < zlen a /\
     forall k, i <= k < j -> get a m <= get a k)) as (m & -> & Hm & HM).
  - lia.
  - split; [lia|]. intros k Hk. by replace k with i by lia.
  - intros j m Hj (Hm & HM). rewrite !rd_get by lia. simpl.
    eexists. split; [done|]. zcase.
    + split; [lia|]. intros k Hk. destruct (Z.eq_dec k j) as [->|]; [lia|].
      specialize (HM k). lia.
    + split; [done|]. intros k Hk. destruct (Z.eq_dec k j) as [->|]; [lia|]. apply HM. lia.
  - by exists m.
Qed.

Lemma SelectionSort_sorts arr :
  exists arr', SelectionSort arr (zlen arr) = Some arr' /\ sorts arr arr'.
Proof.
  unfold SelectionSort. pose proof (zlen_nonneg arr).
  edestruct (for_up_inv (fun i a => Permutation a arr /\ head_final a i))
    as (arr' & -> & HP & HT).
  - lia.
  - split; [done|]. intros k l; lia.
  - intros i a Hi (HP & HT). pose proof (Permutation_zlen _ _ HP) as Hz.
    destruct (select_min a i) as (m & Hm & Hr & HM); [lia|].
    rewrite Hz in Hm. rewrite Hm. simpl.
    destruct (swap_ex a i m) as [a' Hs]; [lia..|].
    exists a'. split_and!; [done|by rewrite (swap_Permutation _ _ _ _ Hs)|].
    intros k l Hk Hkl Hl Hlz. rewrite (zlen_swap _ _ _ _ Hs) in Hlz.
    destruct (Z.eq_dec k i) as [->|].
    + get_cases; subst; try lia; apply HM; lia.
    + get_cases; subst; try lia; apply HT; lia.
  - exists arr'. split; [done|]. split; [|done]. intros i j Hi Hj Hl.
    pose proof (Permutation_zlen _ _ HP). apply HT; lia.
Qed.

(** *** Insertion with a stride

    The inner loops of insertion sort and of Shell sort carry a hole at [h]:
    filling it with the saved element gives back a permutation of the array. *)

Definition hole_perm (temp : Z) (a b : list Z) (h : Z) : Prop :=
  exists full, wr b h temp = Some full /\ Permutation full a.

Lemma hole_perm_start a i : 0 <= i < zlen a -> hole_perm (get a i) a a i.
Proof.
  intros Hi. destruct (wr_ex a i (get a i) Hi) as [f Hf]. exists f. split; [done|].
  apply (Permutation_cons_inv (a := get a i)).
  eapply wr_Permutation; [by apply rd_get|done].
Qed.

Lemma hole_perm_step temp a b h h' b' x :
  h <> h' -> rd b h' = Some x -> wr b h x = Some b' ->
  hole_perm temp a b h -> hole_perm temp a b' h'.
Proof.
  intros Hne Hx Hw (full & Hf & HP).
  pose proof (rd_lt _ _ _ Hx). pose proof (wr_inv _ _ _ _ Hw) as [Hh _].
  pose proof (zlen_wr _ _ _ _ Hw) as Hz.
  destruct (wr_ex b' h' temp) as [full' Hf']; [lia|].
  exists full'. split; [done|]. rewrite <- HP.
  assert (Hx' : rd b' h' = Some x) by (by rewrite (rd_wr_ne _ _ _ _ _ Hw)).
  pose proof (wr_Permutation _ _ _ _ _ Hx' Hf') as P1.
  pose proof (wr_Permutation _ _ _ _ _ (rd_get _ _ Hh) Hw) as P2.
  pose proof (wr_Permutation _ _ _ _ _ (rd_get _ _ Hh) Hf) as P3.
  apply (Permutation_cons_inv (a := x)), (Permutation_cons_inv (a := get b h)).
  rewrite P1, (perm_swap x), P3, (perm_swap temp (get b h)), P2. apply perm_swap.
Qed.

(** The part before [i + 1] is in order but for the hole. *)
Definition hole_sorted (temp : Z) (b : list Z) (h i : Z) : Prop :=
  (forall k l, 0 <= k -> k < l -> l <= i -> k <> h -> l <> h -> get b k <= get b l) /\
  (forall l, h < l -> l <= i -> temp <= get b l).

Lemma hole_sorted_step temp b h i b' :
  1 <= h <= i -> temp <= get b (h - 1) -> wr b h (get b (h - 1)) = Some b' ->
  hole_sorted temp b h i -> hole_sorted temp b' (h - 1) i.
Proof.
  intros Hh Ht Hw [H1 H2]. split.
  - intros k l Hk Hkl Hl Hkh Hlh. get_cases; try lia; apply H1; lia.
  - intros l Hl Hli. get_cases; [lia|]. apply H2; lia.
Qed.

Lemma hole_sorted_fill temp b h i full :
  0 <= h <= i -> (1 <= h -> get b (h - 1) <= temp) -> wr b h temp = Some full ->
  hole_sorted temp b h i -> sorted_range full 0 (i + 1).
Proof.
  intros Hh Hs Hw [H1 H2] k l Hk Hkl Hl. get_cases; try lia; [apply H2; lia| |apply H1; lia].
  transitivity (get b (h - 1)); [|apply Hs; lia].
  destruct (Z.eq_dec k (h - 1)) as [->|]; [done|]. apply H1; lia.
Qed.

Lemma ShellSort_shift_spec gap temp a i :
  1 <= gap -> 0 <= i < zlen a -> temp = get a i ->
  exists h b full, ShellSort_shift gap temp i a = Some (h, b) /\
    wr b h temp = Some full /\ Permutation full a /\
    (gap = 1 -> sorted_range a 0 i -> sorted_range full 0 (i + 1)).
Proof.
  intros Hg Hi ->. unfold ShellSort_shift.
  destruct (loop_inv
    (fun '(h, b) => 0 <= h <= i /\ zlen b = zlen a /\ hole_perm (get a i) a b h /\
      (gap = 1 -> sorted_range a 0 i -> hole_sorted (get a i) b h i))
    (fun '(h, b) => exists full, wr b h (get a i) = Some full /\ Permutation full a /\
      (gap = 1 -> sorted_range a 0 i -> sorted_range full 0 (i + 1)))
    (fun '(h, _) => Z.to_nat h)
    (fun '(j, arr) =>
      if gap <=? j then
        x ← rd arr (j - gap);
        if x >? get a i then arr ← wr arr j x; Some (inl (j - gap, arr))
        else Some (inr (j, arr))
      else Some (inr (j, arr)))
    (S (Z.to_nat i)) (i, a)) as ([h b] & -> & full & Hf & HP & HS).
  - split_and!; [lia..|by apply hole_perm_start|]. intros _ Hs. split; [|lia].
    intros k l Hk Hkl Hl Hkn Hln. apply Hs; lia.
  - lia.
  - intros [h b] (Hh & Hz & HP & HS). rewrite <- Hz in Hi.
    destruct (Z.leb_spec gap h) as [Hgh|Hgh].
    + rewrite rd_get by lia. simpl. rewrite Z.gtb_ltb.
      destruct (Z.ltb_spec (get a i) (get b (h - gap))).
      * left. destruct (wr_ex b h (get b (h - gap))) as [b' Hw]; [lia|].
        rewrite Hw. exists (h - gap, b'). split_and!; try done; try lia.
        -- by rewrite (zlen_wr _ _ _ _ Hw).
        -- eapply hole_perm_step; [..|done]; [|by apply rd_get; lia|done]. lia.
        -- intros -> Hs. eapply hole_sorted_step; eauto; lia.
      * right. eexists. split; [done|]. destruct HP as (full & Hf & HP).
        exists full. split_and!; [done..|]. intros -> Hs.
        eapply hole_sorted_fill; eauto; lia.
    + right. eexists. split; [done|]. destruct HP as (full & Hf & HP).
      exists full. split_and!; [done..|]. intros -> Hs.
      eapply hole_sorted_fill; eauto; lia.
  - exists h, b, full. eauto.
Qed.

(** Insertion sort's inner loop is Shell sort's with stride 1, one place to
    the left. *)
Lemma InsertionSort_shift_eq base i arr :
  InsertionSort_shift base i arr =
  (fun '(h, b) => (h - 1, b)) <$> ShellSort_shift 1 base i arr.
Proof.
  unfold InsertionSort_shift, ShellSort_shift. generalize (S (Z.to_nat i)) as n.
  intros n. revert i arr. induction n as [|n IH]; intros h arr; [done|].
  cbn [loop]. replace (0 <=? h - 1) with (1 <=? h) by (repeat zcase; lia).
  destruct (1 <=? h); [|done].
  destruct (rd arr (h - 1)) as [x|]; [|done]. mstep.
  destruct (x >? base); [|done].
  replace (h - 1 + 1) with h by lia.
  destruct (wr arr h x) as [b|]; [|done]. mstep. apply IH.
Qed.

Lemma InsertionSort_sorts arr :
  exists arr', InsertionSort arr (zlen arr) = Some arr' /\ sorts arr arr'.
Proof.
  unfold InsertionSort. pose proof (zlen_nonneg arr).
  destruct (Z.leb_spec (zlen arr) 1).
  { rewrite for_up_empty by lia. exists arr. split; [done|]. split; [|done].
    intros i j; lia. }
  edestruct (for_up_inv (fun i a => Permutation a arr /\ sorted_range a 0 i))
    as (arr' & -> & HP & HT).
  - lia.
  - split; [done|]. intros k l; lia.
  - intros i a Hi (HP & HS). pose proof (Permutation_zlen _ _ HP).
    rewrite rd_get by lia. mstep. rewrite InsertionSort_shift_eq.
    destruct (ShellSort_shift_spec 1 (get a i) a i) as (h & b & full & -> & Hw & HP' & HS');
      [lia..|done|]. mstep.
    replace (h - 1 + 1) with h by lia. exists full.
    split_and!; [done|by rewrite HP'|auto].
  - exists arr'. split; [done|]. pose proof (Permutation_zlen _ _ HP) as Hz.
    split; [by rewrite Hz|done].
Qed.

(** A pass of any stride permutes; the pass of stride 1 sorts. *)
Lemma ShellSort_pass_spec gap arr :
  1 <= gap ->
  exists arr', ShellSort_pass gap (zlen arr) arr = Some arr' /\
    Permutation arr' arr /\ (gap = 1 -> sorted_range arr' 0 (zlen arr)).
Proof.
  intros Hg. unfold ShellSort_pass.
  apply (loop_inv
    (fun '(i, a) => gap <= i /\ Permutation a arr /\
       (gap = 1 -> sorted_range a 0 (Z.min i (zlen arr))))
    (fun a => Permutation a arr /\ (gap = 1 -> sorted_range a 0 (zlen arr)))
    (fun '(i, _) => Z.to_nat (zlen arr - i))).
  - split_and!; [lia|done|]. intros -> k l; lia.
  - lia.
  - intros [i a] (Hi & HP & HS). pose proof (Permutation_zlen _ _ HP).
    destruct (Z.ltb_spec i (zlen arr)).
    + rewrite rd_get by lia. mstep.
      destruct (ShellSort_shift_spec gap (get a i) a i) as (h & b & full & -> & Hw & HP' & HS');
        [lia..|done|]. mstep. rewrite Hw. mstep.
      left. exists (i + gap, full). split_and!; [done|lia|by rewrite HP'| |lia].
      intros ->. replace (Z.min (i + 1) (zlen arr)) with (i + 1) by lia.
      apply HS'; [done|]. rewrite Z.min_l in HS by lia. auto.
    + right. eexists. split; [done|]. split; [done|].
      intros ->. rewrite Z.min_r in HS by lia. auto.
Qed.

Lemma ShellSort_sorts arr :
  exists arr', ShellSort arr (zlen arr) = Some arr' /\ sorts arr arr'.
Proof.
  unfold ShellSort. pose proof (zlen_nonneg arr).
  assert (Hs : forall x, 0 <= x -> Z.shiftr x 1 = x / 2).
  { intros x Hx. by rewrite Z.shiftr_div_pow2. }
  apply (loop_inv
    (fun '(g, a) => 0 <= g <= zlen arr /\ Permutation a arr /\
       (g = 0 -> sorted_range a 0 (zlen arr)))
    (sorts arr) (fun '(g, _) => Z.to_nat g)).
  - rewrite Hs by lia. split_and!; [|apply Z.div_le_upper_bound; lia|done|].
    + apply Z.div_pos; lia.
    + intros Hz. assert (zlen arr < 2) by (apply Z.div_small_iff in Hz; lia).
      intros k l; lia.
  - rewrite Hs by lia. assert (zlen arr / 2 <= zlen arr); [|lia].
    apply Z.div_le_upper_bound; lia.
  - intros [g a] (Hg & HP & HS). pose proof (Permutation_zlen _ _ HP) as Hz.
    destruct (Z.ltb_spec 0 g).
    + destruct (ShellSort_pass_spec g a) as (a' & E & HP' & HS'); [lia|].
      rewrite <- Hz, E. mstep. left. exists (Z.shiftr g 1, a'). rewrite Hs by lia.
      assert (g / 2 < g) by (apply Z.div_lt; lia).
      assert (0 <= g / 2) by (apply Z.div_pos; lia).
      split_and!; [done|lia|lia|by rewrite HP'| |lia].
      intros Hg0. apply HS'. apply Z.div_small_iff in Hg0; lia.
    + right. eexists. split; [done|]. split; [|done]. rewrite Hz. apply HS. lia.
Qed.

(** *** Quicksort *)

(** Same multiset, and unchanged outside of [lo .. hi]; a bound all elements
    of the range satisfied they still satisfy. *)
Definition range_perm (a b : list Z) (lo hi : Z) : Prop :=
  Permutation b a /\
  (forall k, k < lo \/ hi < k -> get b k = get a k) /\
  (forall P : Z -> Prop, (forall k, lo <= k <= hi -> P (get a k)) ->
     forall k, lo <= k <= hi -> P (get b k)).

Lemma range_perm_refl a lo hi : range_perm a a lo hi.
Proof. split_and!; auto. Qed.

Lemma range_perm_trans a b c lo hi :
  range_perm a b lo hi -> range_perm b c lo hi -> range_perm a c lo hi.
Proof.
  intros (P1 & O1 & R1) (P2 & O2 & R2). split_and!.
  - by rewrite P2.
  - intros k Hk. by rewrite O2, O1.
  - intros P HP. by apply R2, R1.
Qed.

Lemma range_perm_widen a b lo hi lo' hi' :
  lo' <= lo -> hi <= hi' -> range_perm a b lo hi -> range_perm a b lo' hi'.
Proof.
  intros Hl Hh (HP & HO & HR). split_and!; [done| |].
  - intros k Hk. apply HO. lia.
  - intros P HPr k Hk. destruct (decide (lo <= k <= hi)).
    + apply HR; [|done]. intros k' Hk'. apply HPr. lia.
    + rewrite HO by lia. auto.
Qed.

Lemma swap_range_perm a i j b lo hi :
  lo <= i <= hi -> lo <= j <= hi -> swap a i j = Some b -> range_perm a b lo hi.
Proof.
  intros Hi Hj Hs. split_and!.
  - by eapply swap_Permutation.
  - intros k Hk. get_cases; subst; lia.
  - intros P HP k Hk. get_cases; auto.
Qed.

Lemma Partition_spec arr left right :
  0 <= left < right -> right < zlen arr ->
  exists p arr', Partition arr left right = Some (p, arr') /\
    left <= p <= right /\ range_perm arr arr' left right /\
    (forall k, left <= k < p -> get arr' k <= get arr' p) /\
    (forall k, p < k <= right -> get arr' p <= get arr' k).
Proof.
  intros Hl Hr. unfold Partition. rewrite rd_get by lia. mstep.
  set (pivot := get arr right).
  edestruct (for_up_inv (fun j '(i, a) => left - 1 <= i < j /\
     range_perm arr a left right /\ get a right = pivot /\
     (forall k, left <= k <= i -> get a k <= pivot) /\
     (forall k, i < k < j -> pivot < get a k))) as ([i a] & -> & Hi & HR & Hpv & HL & HG).
  - lia.
  - split_and!; try lia. apply range_perm_refl.
  - intros j [i a] Hj (Hi & HR & Hpv & HL & HG). pose proof (Permutation_zlen _ _ (proj1 HR)).
    rewrite rd_get by lia. mstep. destruct (Z.leb_spec (get a j) pivot).
    + destruct (swap_ex a (i + 1) j) as [a' Hs]; [lia..|]. rewrite Hs. mstep.
      exists (i + 1, a'). split_and!; [done|lia|lia| | | |].
      * eapply range_perm_trans; [done|]. eapply swap_range_perm, Hs; lia.
      * get_cases; subst; lia.
      * intros k Hk. get_cases; try lia; [|apply HL; lia].
        replace (i + 1) with j by lia. done.
      * intros k Hk. get_cases; subst; try lia; apply HG; lia.
    + exists (i, a). split_and!; [done|lia|lia|done..|].
      intros k Hk. destruct (Z.eq_dec k j) as [->|]; [done|]. apply HG; lia.
  - pose proof (Permutation_zlen _ _ (proj1 HR)). mstep.
    destruct (swap_ex a (i + 1) right) as [a' Hs]; [lia..|]. rewrite Hs. mstep.
    assert (Hp : get a' (i + 1) = pivot).
    { rewrite (get_swap _ _ _ _ _ Hs). repeat zcase; congruence. }
    exists (i + 1), a'. rewrite Hp. split_and!; [done|lia|lia| | |].
    + eapply range_perm_trans; [done|]. eapply swap_range_perm, Hs; lia.
    + intros k Hk. get_cases; try lia. apply HL; lia.
    + intros k Hk. get_cases; try lia; apply Z.lt_le_incl, HG; lia.
Qed.

Lemma QuickSort_fuel_spec fuel arr left right :
  0 <= left <= right + 1 -> right < zlen arr -> right - left + 1 < Z.of_nat fuel ->
  exists arr', QuickSort_fuel fuel arr left right = Some arr' /\
    range_perm arr arr' left right /\ sorted_range arr' left (right + 1).
Proof.
  revert arr left right. induction fuel as [|fuel IH]; intros arr left right Hl Hr Hf; [lia|].
  cbn [QuickSort_fuel]. rewrite Z.geb_leb. destruct (Z.leb_spec right left).
  { exists arr. split_and!; [done|apply range_perm_refl|]. intros i j; lia. }
  destruct (Partition_spec arr left right) as (p & a & -> & Hp & HR & HL & HG); [lia..|]. mstep.
  pose proof (Permutation_zlen _ _ (proj1 HR)) as Hz.
  destruct (IH a left (p - 1)) as (a1 & -> & HR1 & HS1); [lia..|]. mstep.
  pose proof (Permutation_zlen _ _ (proj1 HR1)) as Hz1.
  destruct (IH a1 (p + 1) right) as (a2 & -> & HR2 & HS2); [lia..|].
  exists a2. split_and!; [done| |].
  { eapply range_perm_trans; [done|].
    eapply range_perm_trans; (eapply range_perm_widen; [..|done]); lia. }
  destruct HR1 as (_ & O1 & R1), HR2 as (_ & O2 & R2).
  assert (Hlow : forall k, left <= k <= p - 1 -> get a2 k <= get a p).
  { intros k Hk. rewrite O2 by lia.
    apply (R1 (fun x => x <= get a p)); [|done]. intros k' Hk'. apply HL; lia. }
  assert (Hhigh : forall k, p + 1 <= k <= right -> get a p <= get a2 k).
  { intros k Hk. apply (R2 (fun x => get a p <= x)); [|done]. intros k' Hk'.
    rewrite O1 by lia. apply HG; lia. }
  assert (Hpiv : get a2 p = get a p) by (by rewrite O2, O1 by lia).
  intros i j Hi Hij Hj.
  destruct (Z.lt_trichotomy i p) as [Hip|[->|Hip]], (Z.lt_trichotomy j p) as [Hjp|[->|Hjp]]; try lia.
  - rewrite !O2 by lia. apply HS1; lia.
  - rewrite Hpiv. apply Hlow; lia.
  - transitivity (get a p); [apply Hlow|apply Hhigh]; lia.
  - rewrite Hpiv. apply Hhigh; lia.
  - apply HS2; lia.
Qed.

Lemma QuickSort_sorts arr :
  exists arr', QuickSort arr 0 (zlen arr - 1) = Some arr' /\ sorts arr arr'.
Proof.
  unfold QuickSort. pose proof (zlen_nonneg arr).
  destruct (QuickSort_fuel_spec (S (Z.to_nat (zlen arr - 1 - 0 + 1))) arr 0 (zlen arr - 1))
    as (arr' & -> & HR & HS); [lia..|].
  exists arr'. split; [done|]. destruct HR as (HP & _). split; [|done].
  rewrite (Permutation_zlen _ _ HP).
  by replace (zlen arr - 1 + 1) with (zlen arr) in HS by lia.
Qed.

Lemma sorts_merge_sort arr arr' : sorts arr arr' -> arr' = merge_sort Z.le arr.
Proof.
  intros [HS HP]. apply sorted_perm_unique.
  - by apply sorted_range_sorted.
  - apply (StronglySorted_merge_sort Z.le).
  - rewrite HP. symmetry. apply merge_sort_Permutation.
Qed.

Lemma sorts_eq (f : option (list Z)) arr :
  (exists arr', f = Some arr' /\ sorts arr arr') -> f = Some (merge_sort Z.le arr).
Proof. intros (arr' & -> & H). by rewrite (sorts_merge_sort _ _ H). Qed.

(** C40.  Every sorting routine of the repository (both bubble sorts, selection,
    insertion, Shell and quick sort), run on a whole array, terminates, never
    accesses an element outside of the array, and leaves exactly the sorted
    permutation of its input, the one the reference merge sort computes.
    (Indices are unbounded: in an array of more than about 1.4 * 10^9 elements
    the int index of the Shell sort would overflow when a gap is added.) *)
Theorem sorting_routines_refine_merge_sort (arr : list Z) :
  let n := zlen arr in
  let result := Some (merge_sort Z.le arr) in
  BubbleSort arr n = result /\ BubbleSortWithFlag arr n = result /\
  SelectionSort arr n = result /\ InsertionSort arr n = result /\
  ShellSort arr n = result /\ QuickSort arr 0 (n - 1) = result.
Proof.
  split_and!; apply sorts_eq;
    auto using BubbleSort_sorts, BubbleSortWithFlag_sorts, SelectionSort_sorts,
      InsertionSort_sorts, ShellSort_sorts, QuickSort_sorts.
Qed.
