(* ===== verification/BinderAlloc.v ===== *)
(** * The binder buffer allocator

    Model of src/.../Chapter_1_In-depth_Analysis_of_Binder/binder_alloc.c: the
    allocator of the address range a process maps for incoming transactions.
    The range is tiled by buffers kept in address order; free buffers are in a
    tree ordered by size, allocated ones in a tree ordered by address; pages
    are populated on demand and put on an LRU list when no buffer uses them.

    [None] is a kernel fault: a [BUG_ON] that fires, a use of a freed struct
    or an access outside of the page array.  A [WARN_ON] sets [warned].

    The kernel's own rbtree code is not part of the repository: the class
    [RbTree] has its two operations and the laws of their documentation. *)

From S2P Require Import Prelude.

Definition ptr := positive.

Definition PAGE_SHIFT : Z := 12.
Definition PAGE_SIZE : Z := 2 ^ PAGE_SHIFT.
Definition SZ_4M : Z := 4194304.

Definition EPERM : Z := 1.
Definition ESRCH : Z := 3.
Definition ENOMEM : Z := 12.
Definition EBUSY : Z := 16.
Definition EINVAL : Z := 22.
Definition ENOSPC : Z := 28.

(** [x & PAGE_MASK], [PAGE_ALIGN(x)] and [ALIGN(x, sizeof(void * ))]. *)
Definition page_floor (x : Z) : Z := Z.land x (Z.lnot (PAGE_SIZE - 1)).
Definition PAGE_ALIGN (x : Z) : Z := page_floor (u64 (x + (PAGE_SIZE - 1))).
Definition ALIGN8 (x : Z) : Z := Z.land (u64 (x + 7)) (Z.lnot 7).

(** ** Trees

    A node is the address of the struct that embeds its [rb_node]. *)

Inductive rb_tree := Leaf | Node (rb_left : rb_tree) (n : ptr) (rb_right : rb_tree).

Fixpoint inorder (t : rb_tree) : list ptr :=
  match t with
  | Leaf => []
  | Node l n r => inorder l ++ n :: inorder r
  end.

(** Linking at the leaf the descent ends in ([rb_link_node]); [go_left] is the
    comparison of the descent and may fault. *)
Fixpoint rb_link (go_left : ptr -> option bool) (new : ptr) (t : rb_tree) : option rb_tree :=
  match t with
  | Leaf => Some (Node Leaf new Leaf)
  | Node l n r =>
      b ← go_left n;
      if (b : bool) then l' ← rb_link go_left new l; Some (Node l' n r)
      else r' ← rb_link go_left new r; Some (Node l n r')
  end.

Class RbTree := {
  rb_insert_color : rb_tree -> rb_tree;
  rb_erase : ptr -> rb_tree -> rb_tree;
  inorder_insert_color t : inorder (rb_insert_color t) = inorder t;
  inorder_erase n t : inorder (rb_erase n t) = filter (fun m => m ≠ n) (inorder t);
}.

(** ** State *)

Record binder_buffer := {
  entry : ptr;                 (* the address of the struct *)
  user_data : Z;
  free : bool;
  clear_on_free : bool;
  allow_user_free : bool;
  async_transaction : bool;
  transaction : option ptr;
  data_size : Z;
  offsets_size : Z;
  extra_buffers_size : Z;
  buf_pid : Z;
}.

#[export] Instance eta_binder_buffer : Eta binder_buffer := fun b =>
  Build_binder_buffer (entry b) (user_data b) (free b) (clear_on_free b)
    (allow_user_free b) (async_transaction b) (transaction b) (data_size b)
    (offsets_size b) (extra_buffers_size b) (buf_pid b).

(** A page slot: the page it holds, by content, and whether it is on the LRU. *)
Record binder_lru_page := {
  page_ptr : option (list Z);
  lru : bool;
}.

#[export] Instance eta_binder_lru_page : Eta binder_lru_page := fun p =>
  Build_binder_lru_page (page_ptr p) (lru p).

Record binder_alloc := {
  vma : bool;                  (* alloc->vma != NULL *)
  vma_vm_mm : bool;
  buffer : Z;
  buffers : list binder_buffer;
  free_buffers : rb_tree;
  allocated_buffers : rb_tree;
  free_async_space : Z;
  pages : list binder_lru_page;
  pages_high : Z;
  buffer_size : Z;
  pid : Z;
  warned : bool;
}.

#[export] Instance eta_binder_alloc : Eta binder_alloc := fun a =>
  Build_binder_alloc (vma a) (vma_vm_mm a) (buffer a) (buffers a) (free_buffers a)
    (allocated_buffers a) (free_async_space a) (pages a) (pages_high a)
    (buffer_size a) (pid a) (warned a).

(** What the kernel answers to the calls of one operation: page allocation and
    mapping, per page index; a fresh struct; the owner's [mm]. *)
Record kenv := {
  mmget_not_zero : bool;
  alloc_page : Z -> bool;
  vm_insert_page : Z -> Z;
  kzalloc : option ptr;
}.

Definition zero_page : list Z := replicate (Z.to_nat PAGE_SIZE) 0.

Definition WARN_ON (c : bool) (alloc : binder_alloc) : binder_alloc :=
  if c then alloc <| warned := true |> else alloc.

(** ** The buffer list *)

Fixpoint find_buf (l : list binder_buffer) (b : ptr) : option binder_buffer :=
  match l with
  | [] => None
  | x :: l => if decide (entry x = b) then Some x else find_buf l b
  end.

(** The entry after and the entry before [b] in the list. *)
Fixpoint binder_buffer_next (l : list binder_buffer) (b : ptr) : option binder_buffer :=
  match l with
  | [] => None
  | x :: l => if decide (entry x = b) then head l else binder_buffer_next l b
  end.

Fixpoint binder_buffer_prev (l : list binder_buffer) (b : ptr) : option binder_buffer :=
  match l with
  | x :: ((y :: _) as l) => if decide (entry y = b) then Some x else binder_buffer_prev l b
  | _ => None
  end.

Definition upd_buf (f : binder_buffer -> binder_buffer) (b : ptr)
    (l : list binder_buffer) : list binder_buffer :=
  map (fun x => if decide (entry x = b) then f x else x) l.

(** [list_add(&new->entry, &b->entry)] and [list_del]. *)
Fixpoint list_add (new : binder_buffer) (b : ptr) (l : list binder_buffer) : list binder_buffer :=
  match l with
  | [] => []
  | x :: l => if decide (entry x = b) then x :: new :: l else x :: list_add new b l
  end.

Definition list_del (b : ptr) (l : list binder_buffer) : list binder_buffer :=
  filter (fun x => entry x ≠ b) l.

Definition binder_alloc_buffer_size (alloc : binder_alloc) (b : ptr) : option Z :=
  x ← find_buf (buffers alloc) b;
  match binder_buffer_next (buffers alloc) b with
  | None => Some (u64 (buffer alloc + buffer_size alloc - user_data x))
  | Some y => Some (u64 (user_data y - user_data x))
  end.

(** ** Operations *)

Section Operations.
Context `{RbTree}.
(** [sizeof(struct binder_buffer)], declared in a header outside of the repository. *)
Context (sizeof_binder_buffer : Z).

Definition binder_insert_free_buffer (alloc : binder_alloc) (new_buffer : ptr)
    : option binder_alloc :=
  new ← find_buf (buffers alloc) new_buffer;
  if negb (free new) then None  (* BUG_ON(!new_buffer->free) *)
  else
    new_buffer_size ← binder_alloc_buffer_size alloc new_buffer;
    t ← rb_link (fun n =>
      b ← find_buf (buffers alloc) n;
      if negb (free b) then None  (* BUG_ON(!buffer->free) *)
      else
        bsize ← binder_alloc_buffer_size alloc n;
        Some (new_buffer_size <? bsize)) new_buffer (free_buffers alloc);
    Some (alloc <| free_buffers := rb_insert_color t |>).

Definition binder_insert_allocated_buffer_locked (alloc : binder_alloc) (new_buffer : ptr)
    : option binder_alloc :=
  new ← find_buf (buffers alloc) new_buffer;
  if free new then None  (* BUG_ON(new_buffer->free) *)
  else
    t ← rb_link (fun n =>
      b ← find_buf (buffers alloc) n;
      if free b then None  (* BUG_ON(buffer->free) *)
      else if user_data new <? user_data b then Some true
      else if user_data new >? user_data b then Some false
      else None  (* BUG() *)) new_buffer (allocated_buffers alloc);
    Some (alloc <| allocated_buffers := rb_insert_color t |>).

(** The search of [binder_alloc_prepare_to_free_locked]. *)
Fixpoint find_allocated (l : list binder_buffer) (uptr : Z) (n : rb_tree)
    : option (option binder_buffer) :=
  match n with
  | Leaf => Some None
  | Node rb_left n rb_right =>
      b ← find_buf l n;
      if free b then None  (* BUG_ON(buffer->free) *)
      else if uptr <? user_data b then find_allocated l uptr rb_left
      else if uptr >? user_data b then find_allocated l uptr rb_right
      else Some (Some b)
  end.

(** The result is the buffer, NULL ([inl None]) or an error. *)
Definition binder_alloc_prepare_to_free (alloc : binder_alloc) (user_ptr : Z)
    : option ((option ptr + Z) * binder_alloc) :=
  r ← find_allocated (buffers alloc) user_ptr (allocated_buffers alloc);
  match r with
  | None => Some (inl None, alloc)
  | Some b =>
      if negb (allow_user_free b) then Some (inr (- EPERM), alloc)
      else Some (inl (Some (entry b)),
                 alloc <| buffers ::= upd_buf (set allow_user_free (fun _ => false)) (entry b) |>)
  end.

(** *** Pages *)

Definition page_index (alloc : binder_alloc) (page_addr : Z) : Z :=
  Z.quot (page_addr - buffer alloc) PAGE_SIZE.

Definition set_page (alloc : binder_alloc) (index : Z) (p : binder_lru_page)
    : option binder_alloc :=
  ps ← wr (pages alloc) index p;
  Some (alloc <| pages := ps |>).

(** [list_lru_del] and [list_lru_add] tell whether they changed the list. *)
Definition list_lru_del (alloc : binder_alloc) (index : Z) : option (bool * binder_alloc) :=
  page ← rd (pages alloc) index;
  alloc' ← set_page alloc index (page <| lru := false |>);
  Some (lru page, alloc').

Definition list_lru_add (alloc : binder_alloc) (index : Z) : option (bool * binder_alloc) :=
  page ← rd (pages alloc) index;
  alloc' ← set_page alloc index (page <| lru := true |>);
  Some (negb (lru page), alloc').

(** The number of rounds of [for (p = start; p < end; p += PAGE_SIZE)]. *)
Definition page_rounds (start end_ : Z) : nat :=
  Z.to_nat ((end_ - start + PAGE_SIZE - 1) / PAGE_SIZE).

(** The first loop: is some page of the range missing? *)
Fixpoint need_pages (n : nat) (alloc : binder_alloc) (page_addr : Z) : option bool :=
  match n with
  | O => Some false
  | S n =>
      page ← rd (pages alloc) (page_index alloc page_addr);
      match page_ptr page with
      | None => Some true
      | Some _ => need_pages n alloc (page_addr + PAGE_SIZE)
      end
  end.

(** [free_range], entered at [page_addr] (the error paths enter it one page
    below the page that failed); [n] bounds the rounds. *)
Fixpoint free_range (n : nat) (alloc : binder_alloc) (page_addr start : Z)
    : option binder_alloc :=
  match n with
  | O => None
  | S n =>
      '(ret, alloc) ← list_lru_add alloc (page_index alloc page_addr);
      let alloc := WARN_ON (negb ret) alloc in
      if page_addr =? start then Some alloc
      else free_range n alloc (page_addr - PAGE_SIZE) start
  end.

(** The error labels: [if (page_addr == start) break;] and on with the loop. *)
Definition unwind_range (n : nat) (alloc : binder_alloc) (page_addr start : Z)
    : option binder_alloc :=
  if page_addr =? start then Some alloc
  else free_range n alloc (page_addr - PAGE_SIZE) start.

(** The allocating loop; [have_vma] is the local [vma]. *)
Fixpoint allocate_range (n : nat) (env : kenv) (have_vma : bool) (alloc : binder_alloc)
    (page_addr start : Z) (rounds : nat) : option (Z * binder_alloc) :=
  match n with
  | O => Some (0, alloc)
  | S n =>
      let index := page_index alloc page_addr in
      page ← rd (pages alloc) index;
      match page_ptr page with
      | Some _ =>
          '(on_lru, alloc) ← list_lru_del alloc index;
          allocate_range n env have_vma (WARN_ON (negb on_lru) alloc)
            (page_addr + PAGE_SIZE) start rounds
      | None =>
          if negb have_vma then
            let alloc := WARN_ON true alloc in
            alloc ← unwind_range rounds alloc page_addr start;
            Some (- ESRCH, alloc)
          else if negb (alloc_page env index) then
            alloc ← unwind_range rounds alloc page_addr start;
            Some (- ENOMEM, alloc)
          else
            alloc ← set_page alloc index {| page_ptr := Some zero_page; lru := false |};
            if truth (vm_insert_page env index) then
              alloc ← set_page alloc index {| page_ptr := None; lru := false |};
              alloc ← unwind_range rounds alloc page_addr start;
              Some (- ENOMEM, alloc)
            else
              let alloc := if index + 1 >? pages_high alloc
                           then alloc <| pages_high := index + 1 |> else alloc in
              allocate_range n env have_vma alloc (page_addr + PAGE_SIZE) start rounds
      end
  end.

Definition binder_update_page_range (env : kenv) (alloc : binder_alloc) (allocate : bool)
    (start end_ : Z) : option (Z * binder_alloc) :=
  if end_ <=? start then Some (0, alloc)
  else
    let rounds := page_rounds start end_ in
    if negb allocate then
      (* the function then returns [vma ? -ENOMEM : -ESRCH] with [vma == NULL] *)
      alloc ← free_range rounds alloc (end_ - PAGE_SIZE) start;
      Some (- ESRCH, alloc)
    else
      need_mm ← need_pages rounds alloc start;
      if need_mm && negb (vma_vm_mm alloc) then None  (* mmget_not_zero(NULL) *)
      else
        let mm := need_mm && mmget_not_zero env in
        let have_vma := mm && vma alloc in
        if negb have_vma && need_mm then Some (- ESRCH, alloc)
        else allocate_range rounds env have_vma alloc start start rounds.

(** *** Allocation *)

(** The best-fit search: the candidate so far, and whether an exact match
    stopped the descent ([n != NULL]). *)
Fixpoint best_fit_search (alloc : binder_alloc) (size : Z) (n : rb_tree)
    (best_fit : option ptr) : option (option ptr) :=
  match n with
  | Leaf => Some best_fit
  | Node rb_left n rb_right =>
      b ← find_buf (buffers alloc) n;
      if negb (free b) then None  (* BUG_ON(!buffer->free) *)
      else
        bsize ← binder_alloc_buffer_size alloc n;
        if size <? bsize then best_fit_search alloc size rb_left (Some n)
        else if size >? bsize then best_fit_search alloc size rb_right best_fit
        else Some (Some n)
  end.

(** The sizes of a request, each rounded up, with the overflow checks. *)
Definition request_size (data_sz offsets_sz extra_sz : Z) : Z + Z :=
  let data_offsets_size := u64 (ALIGN8 data_sz + ALIGN8 offsets_sz) in
  if (data_offsets_size <? data_sz) || (data_offsets_size <? offsets_sz) then inr (- EINVAL)
  else
    let size := u64 (data_offsets_size + ALIGN8 extra_sz) in
    if (size <? data_offsets_size) || (size <? extra_sz) then inr (- EINVAL)
    else inl size.

(** The part of [binder_alloc_new_buf_locked] after the pages are in place. *)
Definition carve_buffer (env : kenv) (alloc : binder_alloc) (b : binder_buffer)
    (bsize size data_sz offsets_sz extra_sz : Z) (is_async : bool) (pid_ : Z)
    (end_page_addr : Z) : option ((ptr + Z) * binder_alloc) :=
  r ← (if negb (bsize =? size) then
         match kzalloc env with
         | None => Some None
         | Some new =>
             let new_buffer := {|
               entry := new; user_data := u64 (user_data b + size); free := true;
               clear_on_free := false; allow_user_free := false;
               async_transaction := false; transaction := None; data_size := 0;
               offsets_size := 0; extra_buffers_size := 0; buf_pid := 0 |} in
             let alloc := alloc <| buffers ::= list_add new_buffer (entry b) |> in
             alloc ← binder_insert_free_buffer alloc new;
             Some (Some alloc)
         end
       else Some (Some alloc));
  match r with
  | None =>
      '(_, alloc) ← binder_update_page_range env alloc false
                      (PAGE_ALIGN (user_data b)) end_page_addr;
      Some (inr (- ENOMEM), alloc)
  | Some alloc =>
      let alloc := alloc <| free_buffers ::= rb_erase (entry b) |> in
      let alloc := alloc <| buffers ::= upd_buf (fun x =>
        x <| free := false |> <| allow_user_free := false |>) (entry b) |> in
      alloc ← binder_insert_allocated_buffer_locked alloc (entry b);
      let alloc := alloc <| buffers ::= upd_buf (fun x =>
        x <| data_size := data_sz |> <| offsets_size := offsets_sz |>
          <| async_transaction := is_async |> <| extra_buffers_size := extra_sz |>
          <| buf_pid := pid_ |>) (entry b) |> in
      let alloc := if is_async
        then alloc <| free_async_space ::= fun a => u64 (a - u64 (size + sizeof_binder_buffer)) |>
        else alloc in
      Some (inl (entry b), alloc)
  end.

Definition binder_alloc_new_buf_locked (env : kenv) (alloc : binder_alloc)
    (data_sz offsets_sz extra_sz : Z) (is_async : bool) (pid_ : Z)
    : option ((ptr + Z) * binder_alloc) :=
  if negb (vma alloc) then Some (inr (- ESRCH), alloc)
  else
    match request_size data_sz offsets_sz extra_sz with
    | inr e => Some (inr e, alloc)
    | inl size =>
        if is_async && (free_async_space alloc <? u64 (size + sizeof_binder_buffer))
        then Some (inr (- ENOSPC), alloc)
        else
          let size := Z.max size 8 in
          best_fit ← best_fit_search alloc size (free_buffers alloc) None;
          match best_fit with
          | None => Some (inr (- ENOSPC), alloc)
          | Some best_fit =>
              b ← find_buf (buffers alloc) best_fit;
              bsize ← binder_alloc_buffer_size alloc best_fit;
              let has_page_addr := page_floor (u64 (user_data b + bsize)) in
              let end_page_addr := Z.min (PAGE_ALIGN (u64 (user_data b + size))) has_page_addr in
              '(ret, alloc) ← binder_update_page_range env alloc true
                                (PAGE_ALIGN (user_data b)) end_page_addr;
              if truth ret then Some (inr ret, alloc)
              else carve_buffer env alloc b bsize size data_sz offsets_sz extra_sz
                     is_async pid_ end_page_addr
          end
    end.

(** *** Freeing *)

Definition buffer_start_page (b : binder_buffer) : Z := page_floor (user_data b).
Definition prev_buffer_end_page (b : binder_buffer) : Z := page_floor (u64 (user_data b - 1)).

Definition binder_delete_free_buffer (env : kenv) (alloc : binder_alloc) (b : ptr)
    : option binder_alloc :=
  buf ← find_buf (buffers alloc) b;
  prev ← binder_buffer_prev (buffers alloc) b;  (* BUG_ON(alloc->buffers.next == &buffer->entry) *)
  if negb (free prev) then None  (* BUG_ON(!prev->free) *)
  else
    let to_free := negb (prev_buffer_end_page prev =? buffer_start_page buf) in
    let to_free := to_free &&
      match binder_buffer_next (buffers alloc) b with
      | None => true
      | Some next => negb (buffer_start_page next =? buffer_start_page buf)
      end in
    let to_free := to_free && negb (user_data buf =? page_floor (user_data buf)) in
    alloc ← (if to_free then
               '(_, alloc) ← binder_update_page_range env alloc false (buffer_start_page buf)
                               (u64 (buffer_start_page buf + PAGE_SIZE));
               Some alloc
             else Some alloc);
    Some (alloc <| buffers ::= list_del b |>).

(** The sum of the rounded sizes, as [binder_free_buf_locked] computes it. *)
Definition stored_size (b : binder_buffer) : Z :=
  u64 (u64 (ALIGN8 (data_size b) + ALIGN8 (offsets_size b)) + ALIGN8 (extra_buffers_size b)).

Definition binder_free_buf_locked (env : kenv) (alloc : binder_alloc) (b : ptr)
    : option binder_alloc :=
  buf ← find_buf (buffers alloc) b;
  bsize ← binder_alloc_buffer_size alloc b;
  let size := stored_size buf in
  (* the five BUG_ONs *)
  if free buf || (size >? bsize) || bool_decide (transaction buf <> None) ||
     (user_data buf <? buffer alloc) || (user_data buf >? u64 (buffer alloc + buffer_size alloc))
  then None
  else
    let alloc := if async_transaction buf
      then alloc <| free_async_space ::= fun a => u64 (a + u64 (size + sizeof_binder_buffer)) |>
      else alloc in
    '(_, alloc) ← binder_update_page_range env alloc false (PAGE_ALIGN (user_data buf))
                    (page_floor (u64 (user_data buf + bsize)));
    let alloc := alloc <| allocated_buffers ::= rb_erase b |> in
    let alloc := alloc <| buffers ::= upd_buf (set free (fun _ => true)) b |> in
    alloc ← match binder_buffer_next (buffers alloc) b with
            | Some next =>
                if free next then
                  let alloc := alloc <| free_buffers ::= rb_erase (entry next) |> in
                  binder_delete_free_buffer env alloc (entry next)
                else Some alloc
            | None => Some alloc
            end;
    '(alloc, b) ← match binder_buffer_prev (buffers alloc) b with
                  | Some prev =>
                      if free prev then
                        alloc ← binder_delete_free_buffer env alloc b;
                        Some (alloc <| free_buffers ::= rb_erase (entry prev) |>, entry prev)
                      else Some (alloc, b)
                  | None => Some (alloc, b)
                  end;
    binder_insert_free_buffer alloc b.

(** *** Access to the contents of a buffer *)

Definition check_buffer (alloc : binder_alloc) (b : ptr) (offset bytes : Z) : option bool :=
  buf ← find_buf (buffers alloc) b;
  bsize ← binder_alloc_buffer_size alloc b;
  Some ((bytes <=? bsize) && (offset <=? u64 (bsize - bytes)) && (Z.land offset 3 =? 0) &&
        negb (free buf) && (negb (allow_user_free buf) || bool_decide (transaction buf = None))).

(** The index of the page at an offset into a buffer, and the offset in it. *)
Definition binder_alloc_get_page (alloc : binder_alloc) (b : ptr) (buffer_offset : Z)
    : option (Z * Z) :=
  buf ← find_buf (buffers alloc) b;
  let buffer_space_offset := u64 (buffer_offset + (user_data buf - buffer alloc)) in
  Some (Z.shiftr buffer_space_offset PAGE_SHIFT,
        Z.land buffer_space_offset (PAGE_SIZE - 1)).

(** [kmap]: the contents of a page; there must be one. *)
Definition kmap (alloc : binder_alloc) (index : Z) : option (list Z) :=
  page ← rd (pages alloc) index;
  page_ptr page.

Definition overwrite (l : list Z) (off : Z) (bs : list Z) : list Z :=
  take (Z.to_nat off) l ++ bs ++ drop (Z.to_nat off + length bs) l.

(** [memcpy(kmap(page) + pgoff, bs, ...)]. *)
Definition store_page (alloc : binder_alloc) (index pgoff : Z) (bs : list Z)
    : option binder_alloc :=
  page ← rd (pages alloc) index;
  c ← page_ptr page;
  set_page alloc index (page <| page_ptr := Some (overwrite c pgoff bs) |>).

Definition load_page (alloc : binder_alloc) (index pgoff size : Z) : option (list Z) :=
  c ← kmap alloc index;
  Some (take (Z.to_nat size) (drop (Z.to_nat pgoff) c)).

Definition binder_alloc_clear_buf (alloc : binder_alloc) (b : ptr) : option binder_alloc :=
  bytes ← binder_alloc_buffer_size alloc b;
  loop (S (Z.to_nat bytes)) (fun '(alloc, bytes, buffer_offset) =>
    if truth bytes then
      '(index, pgoff) ← binder_alloc_get_page alloc b buffer_offset;
      let size := Z.min bytes (PAGE_SIZE - pgoff) in
      alloc ← store_page alloc index pgoff (replicate (Z.to_nat size) 0);
      Some (inl (alloc, bytes - size, buffer_offset + size))
    else Some (inr alloc)) (alloc, bytes, 0).

(** [copy_from_user(to, from, size)] returns the number of bytes it could not
    copy and fills the rest of [to] with zeros; [fault from size] is that
    number. *)
Definition copy_from_user (fault : Z -> Z -> Z) (user : list Z) (from size : Z) : list Z * Z :=
  let ret := fault from size in
  (take (Z.to_nat (size - ret)) (drop (Z.to_nat from) user) ++ replicate (Z.to_nat ret) 0, ret).

Definition binder_alloc_copy_user_to_buffer (fault : Z -> Z -> Z) (alloc : binder_alloc)
    (b : ptr) (buffer_offset : Z) (user : list Z) (bytes : Z) : option (Z * binder_alloc) :=
  ok ← check_buffer alloc b buffer_offset bytes;
  if negb (ok : bool) then Some (bytes, alloc)
  else
    loop (S (Z.to_nat bytes)) (fun '(alloc, bytes, from, buffer_offset) =>
      if truth bytes then
        '(index, pgoff) ← binder_alloc_get_page alloc b buffer_offset;
        let size := Z.min bytes (PAGE_SIZE - pgoff) in
        let '(bs, ret) := copy_from_user fault user from size in
        alloc ← store_page alloc index pgoff bs;
        if truth ret then Some (inr (bytes - size + ret, alloc))
        else Some (inl (alloc, bytes - size, from + size, buffer_offset + size))
      else Some (inr (0, alloc))) (alloc, bytes, 0, buffer_offset).

(** [binder_alloc_do_buffer_copy] with [to_buffer]: [src] is the kernel buffer. *)
Definition binder_alloc_copy_to_buffer (alloc : binder_alloc) (b : ptr) (buffer_offset : Z)
    (src : list Z) (bytes : Z) : option (Z * binder_alloc) :=
  ok ← check_buffer alloc b buffer_offset bytes;
  if negb (ok : bool) then Some (- EINVAL, alloc)
  else
    loop (S (Z.to_nat bytes)) (fun '(alloc, bytes, src, buffer_offset) =>
      if truth bytes then
        '(index, pgoff) ← binder_alloc_get_page alloc b buffer_offset;
        let size := Z.min bytes (PAGE_SIZE - pgoff) in
        alloc ← store_page alloc index pgoff (take (Z.to_nat size) src);
        Some (inl (alloc, bytes - size, drop (Z.to_nat size) src, buffer_offset + size))
      else Some (inr (0, alloc))) (alloc, bytes, src, buffer_offset).

(** The other direction: the bytes it stores into the destination. *)
Definition binder_alloc_copy_from_buffer (alloc : binder_alloc) (b : ptr) (buffer_offset : Z)
    (bytes : Z) : option (Z * list Z) :=
  ok ← check_buffer alloc b buffer_offset bytes;
  if negb (ok : bool) then Some (- EINVAL, [])
  else
    loop (S (Z.to_nat bytes)) (fun '(dest, bytes, buffer_offset) =>
      if truth bytes then
        '(index, pgoff) ← binder_alloc_get_page alloc b buffer_offset;
        let size := Z.min bytes (PAGE_SIZE - pgoff) in
        bs ← load_page alloc index pgoff size;
        Some (inl (dest ++ bs, bytes - size, buffer_offset + size))
      else Some (inr (0, dest))) ([], bytes, buffer_offset).

(** *** Life cycle *)

Definition binder_alloc_free_buf (env : kenv) (alloc : binder_alloc) (b : ptr)
    : option binder_alloc :=
  buf ← find_buf (buffers alloc) b;
  alloc ← (if clear_on_free buf then
             alloc ← binder_alloc_clear_buf alloc b;
             Some (alloc <| buffers ::= upd_buf (set clear_on_free (fun _ => false)) b |>)
           else Some alloc);
  binder_free_buf_locked env alloc b.

(** The zero-initialised struct embedded in [binder_proc]. *)
Definition binder_alloc_init (current_pid : Z) : binder_alloc := {|
  vma := false; vma_vm_mm := false; buffer := 0; buffers := []; free_buffers := Leaf;
  allocated_buffers := Leaf; free_async_space := 0; pages := []; pages_high := 0;
  buffer_size := 0; pid := current_pid; warned := false |}.

(** [kcalloc_ok] tells whether the page array could be allocated. *)
Definition binder_alloc_mmap_handler (env : kenv) (kcalloc_ok : bool) (alloc : binder_alloc)
    (vm_start vm_end : Z) : option (Z * binder_alloc) :=
  if truth (buffer_size alloc) then Some (- EBUSY, alloc)
  else
    let alloc := alloc <| buffer_size := Z.min (u64 (vm_end - vm_start)) SZ_4M |> in
    let alloc := alloc <| buffer := vm_start |> in
    if negb kcalloc_ok then
      Some (- ENOMEM, alloc <| pages := [] |> <| buffer := 0 |> <| buffer_size := 0 |>)
    else
      let alloc := alloc <| pages := replicate (Z.to_nat (buffer_size alloc / PAGE_SIZE))
                                       {| page_ptr := None; lru := false |} |> in
      match kzalloc env with
      | None =>
          Some (- ENOMEM, alloc <| pages := [] |> <| buffer := 0 |> <| buffer_size := 0 |>)
      | Some b =>
          let buf := {|
            entry := b; user_data := buffer alloc; free := true; clear_on_free := false;
            allow_user_free := false; async_transaction := false; transaction := None;
            data_size := 0; offsets_size := 0; extra_buffers_size := 0; buf_pid := 0 |} in
          let alloc := alloc <| buffers ::= cons buf |> in
          alloc ← binder_insert_free_buffer alloc b;
          let alloc := alloc <| free_async_space := buffer_size alloc / 2 |> in
          let alloc := alloc <| vma_vm_mm := true |> <| vma := true |> in
          Some (0, alloc)
      end.

Definition binder_alloc_vma_close (alloc : binder_alloc) : binder_alloc :=
  alloc <| vma := false |>.

Definition rb_first (t : rb_tree) : option ptr := head (inorder t).

(** One round of the loop over the allocated buffers. *)
Definition release_one (env : kenv) (s : Z * binder_alloc)
    : option ((Z * binder_alloc) + (Z * binder_alloc)) :=
  let '(n, alloc) := s in
  match rb_first (allocated_buffers alloc) with
  | None => Some (inr (n, alloc))
  | Some b =>
      buf ← find_buf (buffers alloc) b;
      if bool_decide (transaction buf <> None) then None  (* BUG_ON(buffer->transaction) *)
      else
        alloc ← (if clear_on_free buf then
                   alloc ← binder_alloc_clear_buf alloc b;
                   Some (alloc <| buffers ::= upd_buf (set clear_on_free (fun _ => false)) b |>)
                 else Some alloc);
        alloc ← binder_free_buf_locked env alloc b;
        Some (inl (n + 1, alloc))
  end.

(** Every round frees one buffer. *)
Definition release_allocated (env : kenv) (alloc : binder_alloc) : option (Z * binder_alloc) :=
  loop (S (length (inorder (allocated_buffers alloc)))) (release_one env) (0, alloc).

(** [while (!list_empty(&alloc->buffers))], with its two WARN_ONs. *)
Fixpoint release_buffers (l : list binder_buffer) (alloc : binder_alloc) : binder_alloc :=
  match l with
  | [] => alloc <| buffers := [] |>
  | b :: l =>
      let alloc := WARN_ON (negb (free b)) alloc in
      let alloc := WARN_ON (negb (bool_decide (l = []))) alloc in
      release_buffers l alloc
  end.

(** The numbers of buffers and pages it released, and the state it leaves. *)
Definition binder_alloc_deferred_release (env : kenv) (alloc : binder_alloc)
    : option (Z * Z * binder_alloc) :=
  if vma alloc then None  (* BUG_ON(alloc->vma) *)
  else
    '(n, alloc) ← release_allocated env alloc;
    let alloc := release_buffers (buffers alloc) alloc in
    let page_count := length (filter (fun p => is_Some (page_ptr p)) (pages alloc)) in
    Some (n, Z.of_nat page_count, alloc <| pages := [] |>).

Definition binder_alloc_get_allocated_count (alloc : binder_alloc) : Z :=
  Z.of_nat (length (inorder (allocated_buffers alloc))).

(** [active], [lru] and [free] of [binder_alloc_print_pages]. *)
Definition binder_alloc_print_pages (alloc : binder_alloc) : Z * Z * Z :=
  if negb (vma alloc) then (0, 0, 0)
  else
    foldl (fun '(active, on_lru, nfree) p =>
      match page_ptr p with
      | None => (active, on_lru, nfree + 1)
      | Some _ => if lru p then (active, on_lru + 1, nfree) else (active + 1, on_lru, nfree)
      end) (0, 0, 0) (pages alloc).

Inductive lru_status := LRU_REMOVED_RETRY | LRU_SKIP.

(** The shrinker's callback on the LRU page [index]; the three try-locks may fail. *)
Definition binder_alloc_free_page (mutex_trylock mmget mmap_read_trylock : bool)
    (alloc : binder_alloc) (index : Z) : option (lru_status * binder_alloc) :=
  if negb mutex_trylock then Some (LRU_SKIP, alloc)
  else
    page ← rd (pages alloc) index;
    match page_ptr page with
    | None => Some (LRU_SKIP, alloc)
    | Some _ =>
        if negb (vma_vm_mm alloc) then None  (* mmget_not_zero(NULL) *)
        else if negb mmget then Some (LRU_SKIP, alloc)
        else if negb mmap_read_trylock then Some (LRU_SKIP, alloc)
        else
          alloc ← set_page alloc index {| page_ptr := None; lru := false |};
          Some (LRU_REMOVED_RETRY, alloc)
    end.

(** [debug_low_async_space_locked]: does [pid_] hold too many async buffers? *)
Definition debug_low_async_space_locked (alloc : binder_alloc) (pid_ : Z) : option bool :=
  '(total_alloc_size, num_buffers) ← foldl (fun acc n =>
    '(total, num) ← acc;
    b ← find_buf (buffers alloc) n;
    if negb (buf_pid b =? pid_) then Some (total, num)
    else if negb (async_transaction b) then Some (total, num)
    else
      bsize ← binder_alloc_buffer_size alloc n;
      Some (u64 (total + bsize + sizeof_binder_buffer), num + 1))
    (Some (0, 0)) (inorder (allocated_buffers alloc));
  Some ((num_buffers >? 50) || (total_alloc_size >? buffer_size alloc / 4)).

End Operations.
