(* ===== verification/BinderAllocInv.v ===== *)
(** * Invariant of the binder buffer allocator

    The well-formedness of an allocator and the lemmas about its parts: address
    arithmetic, the buffer list, the two trees and the page array. *)

From S2P Require Import Prelude BinderAlloc.

(** ** Address arithmetic *)

Lemma page_floor_eq x : page_floor x = PAGE_SIZE * (x / PAGE_SIZE).
Proof.
  unfold page_floor, PAGE_SIZE.
  replace (2 ^ PAGE_SHIFT - 1) with (Z.ones 12) by reflexivity.
  rewrite <- Z.ldiff_land, Z.ldiff_ones_r by lia.
  rewrite Z.shiftl_mul_pow2, Z.shiftr_div_pow2 by lia.
  change (2 ^ PAGE_SHIFT) with (2 ^ 12). lia.
Qed.

Lemma PAGE_ALIGN_eq x :
  0 <= x -> x + PAGE_SIZE <= 2 ^ 64 ->
  PAGE_ALIGN x = PAGE_SIZE * ((x + (PAGE_SIZE - 1)) / PAGE_SIZE).
Proof.
  intros H1 H2. unfold PAGE_ALIGN. rewrite page_floor_eq.
  rewrite u64_id; [done|]. change PAGE_SIZE with 4096 in *. lia.
Qed.

Lemma ALIGN8_eq x : 0 <= x -> x + 8 <= 2 ^ 64 -> ALIGN8 x = 8 * ((x + 7) / 8).
Proof.
  intros H1 H2. unfold ALIGN8. rewrite u64_id by lia.
  replace 7 with (Z.ones 3) at 2 by reflexivity.
  rewrite <- Z.ldiff_land, Z.ldiff_ones_r by lia.
  rewrite Z.shiftl_mul_pow2, Z.shiftr_div_pow2 by lia.
  change (2 ^ 3) with 8. lia.
Qed.

(** ALIGN wraps to zero at the very end of the address space. *)
Lemma ALIGN8_wrap x : 2 ^ 64 - 7 <= x < 2 ^ 64 -> ALIGN8 x = 0.
Proof.
  intros Hx. unfold ALIGN8.
  replace (u64 (x + 7)) with (x + 7 - 2 ^ 64).
  - replace 7 with (Z.ones 3) at 2 by reflexivity.
    rewrite <- Z.ldiff_land, Z.ldiff_ones_r by lia.
    rewrite Z.shiftr_div_pow2 by lia.
    rewrite (Z.div_small (x + 7 - 2 ^ 64)) by lia. done.
  - unfold u64. apply (Z.mod_unique_pos _ _ 1); lia.
Qed.

(** The exact rounded-up size of a request. *)
Definition round8 (x : Z) : Z := 8 * ((x + 7) / 8).
Definition exact_size (d o e : Z) : Z := round8 d + round8 o + round8 e.

Lemma round8_bounds x : x <= round8 x < x + 8.
Proof. unfold round8. dlia. Qed.

Lemma ALIGN8_cases x :
  0 <= x < 2 ^ 64 ->
  (ALIGN8 x = round8 x /\ round8 x < 2 ^ 64) \/ (ALIGN8 x = 0 /\ 2 ^ 64 <= round8 x).
Proof.
  intros Hx. destruct (Z.le_gt_cases x (2 ^ 64 - 8)).
  - left. unfold round8. rewrite ALIGN8_eq by lia. split; [done|]. dlia.
  - right. split; [apply ALIGN8_wrap; lia|]. unfold round8. dlia.
Qed.

Lemma u64_add x y : 0 <= x < 2 ^ 64 -> 0 <= y < 2 ^ 64 ->
  u64 (x + y) = if x + y <? 2 ^ 64 then x + y else x + y - 2 ^ 64.
Proof.
  intros Hx Hy. destruct (Z.ltb_spec (x + y) (2 ^ 64)).
  - apply u64_id. lia.
  - unfold u64. symmetry. apply (Z.mod_unique_pos _ _ 1); lia.
Qed.

(** The overflow checks are exact: a request is refused precisely when the
    true sum does not fit in a [size_t]. *)
Lemma request_size_exact d o e :
  0 <= d < 2 ^ 64 -> 0 <= o < 2 ^ 64 -> 0 <= e < 2 ^ 64 ->
  request_size d o e =
    if exact_size d o e <? 2 ^ 64 then inl (exact_size d o e) else inr (- EINVAL).
Proof.
  intros Hd Ho He. unfold request_size, exact_size.
  pose proof (round8_bounds d). pose proof (round8_bounds o). pose proof (round8_bounds e).
  assert (Hm : forall x, exists k, round8 x = 8 * k) by (unfold round8; eauto).
  destruct (Hm d) as [kd Hkd], (Hm o) as [ko Hko], (Hm e) as [ke Hke].
  destruct (ALIGN8_cases d Hd) as [[-> ?]|[-> ?]], (ALIGN8_cases o Ho) as [[-> ?]|[-> ?]],
    (ALIGN8_cases e He) as [[-> ?]|[-> ?]];
    rewrite !u64_add by (repeat zcase; lia); repeat zcase; cbn [orb]; try done; try lia.
Qed.

(** ** The buffer list *)

Definition start_of (l : list binder_buffer) (hi : Z) : Z :=
  match l with [] => hi | b :: _ => user_data b end.

(** Every buffer starts at a pointer-aligned address and is not empty. *)
Fixpoint tiled (l : list binder_buffer) (hi : Z) : Prop :=
  match l with
  | [] => True
  | b :: l => user_data b mod 8 = 0 /\ user_data b < start_of l hi /\ tiled l hi
  end.

(** Free neighbours have been merged. *)
Fixpoint coalesced (l : list binder_buffer) : Prop :=
  match l with
  | x :: ((y :: _) as l) => ~ (free x = true /\ free y = true) /\ coalesced l
  | _ => True
  end.

(** The buffers with their sizes. *)
Fixpoint sized (l : list binder_buffer) (hi : Z) : list (binder_buffer * Z) :=
  match l with
  | [] => []
  | b :: l => (b, start_of l hi - user_data b) :: sized l hi
  end.

Abbreviation ids l := (map entry l).

Lemma start_of_app l1 l2 hi : start_of (l1 ++ l2) hi = start_of l1 (start_of l2 hi).
Proof. by destruct l1. Qed.

Lemma tiled_app l1 l2 hi :
  tiled (l1 ++ l2) hi <-> tiled l1 (start_of l2 hi) /\ tiled l2 hi.
Proof.
  induction l1 as [|b l1 IH]; simpl; [tauto|]. rewrite start_of_app, IH. tauto.
Qed.

Lemma sized_app l1 l2 hi : sized (l1 ++ l2) hi = sized l1 (start_of l2 hi) ++ sized l2 hi.
Proof.
  induction l1 as [|b l1 IH]; simpl; [done|]. by rewrite start_of_app, IH.
Qed.

Lemma tiled_bounds l hi : tiled l hi -> start_of l hi <= hi /\
  forall b, b ∈ l -> start_of l hi <= user_data b < hi.
Proof.
  induction l as [|x l IH]; simpl; [intros _; split; [lia|]; set_solver|].
  intros (_ & Hx & Ht). destruct (IH Ht) as [H1 H2]. split; [lia|].
  intros b [->|Hb]%elem_of_cons; [lia|]. specialize (H2 b Hb). lia.
Qed.

Lemma coalesced_app l1 b l2 :
  coalesced (l1 ++ b :: l2) <->
  coalesced l1 /\ coalesced (b :: l2) /\
  (forall p, last l1 = Some p -> ~ (free p = true /\ free b = true)).
Proof.
  induction l1 as [|x l1 IH]; [simpl; naive_solver|].
  destruct l1 as [|y l1].
  - simpl. naive_solver.
  - simpl app in *. simpl coalesced at 1. rewrite IH. simpl. tauto.
Qed.

Lemma mid_in l1 b l2 : entry b ∈ ids (l1 ++ b :: l2).
Proof. rewrite map_app. apply elem_of_app. right. left. Qed.

Lemma find_buf_mid l1 b l2 : NoDup (ids (l1 ++ b :: l2)) -> find_buf (l1 ++ b :: l2) (entry b) = Some b.
Proof.
  induction l1 as [|x l1 IH]; simpl; intros Hnd.
  - by rewrite decide_True.
  - apply NoDup_cons in Hnd as [Hx Hnd]. rewrite decide_False; [auto|].
    intros E. apply Hx. rewrite E. apply mid_in.
Qed.

Lemma find_buf_split l n b : find_buf l n = Some b -> entry b = n /\ exists l1 l2, l = l1 ++ b :: l2.
Proof.
  induction l as [|x l IH]; simpl; [done|]. case_decide as E.
  - intros [= ->]. split; [done|]. by exists [], l.
  - intros H. destruct (IH H) as (? & l1 & l2 & ->). split; [done|]. by exists (x :: l1), l2.
Qed.

Lemma next_mid l1 b l2 :
  NoDup (ids (l1 ++ b :: l2)) -> binder_buffer_next (l1 ++ b :: l2) (entry b) = head l2.
Proof.
  induction l1 as [|x l1 IH]; simpl; intros Hnd.
  - by rewrite decide_True.
  - apply NoDup_cons in Hnd as [Hx Hnd]. rewrite decide_False; [auto|].
    intros E. apply Hx. rewrite E. apply mid_in.
Qed.

Lemma prev_mid l1 b l2 :
  NoDup (ids (l1 ++ b :: l2)) -> binder_buffer_prev (l1 ++ b :: l2) (entry b) = last l1.
Proof.
  intros Hnd. induction l1 as [|x l1 IH].
  - simpl. destruct l2 as [|y l2]; [done|]. simpl in Hnd.
    apply NoDup_cons in Hnd as [Hb Hnd]. rewrite decide_False by set_solver.
    clear -Hb. assert (Hl : entry b ∉ ids l2) by set_solver.
    revert y Hb. induction l2 as [|z l2 IH]; intros y Hb; [done|].
    simpl. rewrite decide_False by set_solver. apply IH; set_solver.
  - apply NoDup_cons in Hnd as [Hx Hnd]. specialize (IH Hnd).
    destruct l1 as [|y l1].
    + simpl. by rewrite decide_True.
    + simpl app in *. cbn [binder_buffer_prev]. rewrite decide_False; [exact IH|].
      apply NoDup_cons in Hnd as [Hy _]. intros E. apply Hy. rewrite E. apply mid_in.
Qed.

Lemma upd_buf_notin f n l : n ∉ ids l -> upd_buf f n l = l.
Proof.
  induction l as [|x l IH]; simpl; [done|]. intros Hn.
  rewrite decide_False by set_solver. f_equal. apply IH. set_solver.
Qed.

Lemma NoDup_mid l1 b l2 : NoDup (ids (l1 ++ b :: l2)) -> entry b ∉ ids l1 /\ entry b ∉ ids l2.
Proof.
  rewrite map_app. simpl. intros (_ & H1 & H2)%NoDup_app.
  apply NoDup_cons in H2 as [H2 _]. split; [|done]. intros Hin. eapply H1; set_solver.
Qed.

Lemma upd_buf_mid f l1 b l2 :
  NoDup (ids (l1 ++ b :: l2)) -> upd_buf f (entry b) (l1 ++ b :: l2) = l1 ++ f b :: l2.
Proof.
  intros [H1 H2]%NoDup_mid. unfold upd_buf. rewrite map_app. simpl.
  rewrite decide_True by done.
  pose proof (upd_buf_notin f _ _ H1) as E1. pose proof (upd_buf_notin f _ _ H2) as E2.
  unfold upd_buf in E1, E2. by rewrite E1, E2.
Qed.

Lemma list_add_mid new l1 b l2 :
  NoDup (ids (l1 ++ b :: l2)) ->
  list_add new (entry b) (l1 ++ b :: l2) = l1 ++ b :: new :: l2.
Proof.
  induction l1 as [|x l1 IH]; simpl; intros Hnd.
  - by rewrite decide_True.
  - apply NoDup_cons in Hnd as [Hx Hnd]. rewrite decide_False; [by rewrite IH|].
    intros E. apply Hx. rewrite E. apply mid_in.
Qed.

Lemma list_del_notin n l : n ∉ ids l -> list_del n l = l.
Proof.
  induction l as [|x l IH]; [done|]. simpl. intros Hn. unfold list_del.
  rewrite filter_cons_True by set_solver. f_equal. apply IH. set_solver.
Qed.

Lemma list_del_mid l1 b l2 :
  NoDup (ids (l1 ++ b :: l2)) -> list_del (entry b) (l1 ++ b :: l2) = l1 ++ l2.
Proof.
  intros [H1 H2]%NoDup_mid.
  pose proof (list_del_notin _ _ H1) as E1. pose proof (list_del_notin _ _ H2) as E2.
  unfold list_del in *. rewrite filter_app, filter_cons_False by tauto. by rewrite E1, E2.
Qed.

(** Decomposing the list around a buffer known by its address. *)
Lemma ids_split n l : n ∈ ids l -> exists b l1 l2, l = l1 ++ b :: l2 /\ entry b = n.
Proof.
  intros (b & -> & (l1 & l2 & ->)%list_elem_of_split)%list_elem_of_fmap. by exists b, l1, l2.
Qed.

(** ** Trees

    [rb_link] puts the new node where the descent's comparison, monotone along
    the in-order sequence, changes. *)

Lemma rb_link_spec go_left new t A C :
  inorder t = A ++ C ->
  (forall n, n ∈ A -> go_left n = Some false) ->
  (forall n, n ∈ C -> go_left n = Some true) ->
  exists t', rb_link go_left new t = Some t' /\ inorder t' = A ++ new :: C.
Proof.
  revert A C. induction t as [|l IHl n r IHr]; intros A C E HA HC; simpl in *.
  { symmetry in E. apply app_nil in E as [-> ->]. by eexists. }
  assert (Hleft : forall k, inorder l = A ++ k -> C = k ++ n :: inorder r ->
    exists t', (b ← go_left n;
      if (b : bool) then l' ← rb_link go_left new l; Some (Node l' n r)
      else r' ← rb_link go_left new r; Some (Node l n r')) = Some t' /\
      inorder t' = A ++ new :: C).
  { intros k E1 ->. rewrite (HC n) by set_solver. mstep.
    destruct (IHl A k) as (l' & -> & El); [done|done|set_solver|].
    mstep. eexists. split; [done|]. simpl. rewrite El. by rewrite <- app_assoc. }
  apply app_eq_inv in E as [(k & E1 & E2)|(k & E1 & E2)]; [by eapply Hleft|].
  destruct k as [|x k]; simplify_eq/=.
  { apply (Hleft []); by rewrite ?app_nil_r. }
  rewrite (HA x) by set_solver. mstep.
  destruct (IHr k C) as (r' & -> & Er); [done|set_solver|done|].
  mstep. eexists. split; [done|]. simpl. rewrite Er. by rewrite <- app_assoc.
Qed.

(** A monotone comparison splits a sequence. *)
Lemma monotone_split (p : ptr -> bool) l :
  StronglySorted (fun x y => p x = true -> p y = true) l ->
  exists A C, l = A ++ C /\ (forall n, n ∈ A -> p n = false) /\ (forall n, n ∈ C -> p n = true).
Proof.
  induction 1 as [|x l _ (A & C & -> & HA & HC) HF].
  { exists [], []. set_solver. }
  destruct (p x) eqn:Hx.
  - exists [], (x :: A ++ C). split_and!; [done|set_solver|].
    intros n [->|Hn]%elem_of_cons; [done|].
    rewrite Forall_forall in HF. by apply HF.
  - exists (x :: A), C. split_and!; [done| |done]. intros n [->|Hn]%elem_of_cons; auto.
Qed.

(** ** Page slots *)

Definition page_of (base x : Z) : Z := (x - base) / PAGE_SIZE.

(** Page [i] holds a byte of the buffer [b] of size [sz]. *)
Definition touches (base : Z) (b : binder_buffer) (sz i : Z) : Prop :=
  page_of base (user_data b) <= i <= page_of base (user_data b + sz - 1).

(** Page [i] holds a byte of an allocated buffer. *)
Definition in_use (base hi : Z) (l : list binder_buffer) (i : Z) : Prop :=
  exists b sz, (b, sz) ∈ sized l hi /\ free b = false /\ touches base b sz i.

(** What an unused page slot may be: empty, or populated and on the LRU. *)
Definition page_idle (p : binder_lru_page) : Prop :=
  match page_ptr p with
  | None => lru p = false
  | Some c => lru p = true /\ zlen c = PAGE_SIZE
  end.

Definition page_active (p : binder_lru_page) : Prop :=
  exists c, page_ptr p = Some c /\ zlen c = PAGE_SIZE /\ lru p = false.

(** ** Well-formed allocators *)

Definition hi_of (a : binder_alloc) : Z := buffer a + buffer_size a.

(** The size of a buffer as a function of its address. *)
Definition size_of (a : binder_alloc) (n : ptr) : Z :=
  default 0 (binder_alloc_buffer_size a n).

Definition free_ids (l : list binder_buffer) : list ptr :=
  ids (filter (fun b => free b = true) l).
Definition allocated_ids (l : list binder_buffer) : list ptr :=
  ids (filter (fun b => free b = false) l).

(** The asynchronous space a buffer gives back when it is freed. *)
Definition async_charge (sizeof : Z) (b : binder_buffer) : Z :=
  if free b then 0 else if async_transaction b then stored_size b + sizeof else 0.
Fixpoint async_total (sizeof : Z) (l : list binder_buffer) : Z :=
  match l with
  | [] => 0
  | b :: l => async_charge sizeof b + async_total sizeof l
  end.

Record layout_wf (a : binder_alloc) : Prop := {
  wf_buffer : 0 < buffer a /\ buffer a mod PAGE_SIZE = 0;
  wf_size : 0 < buffer_size a <= SZ_4M /\ buffer_size a mod PAGE_SIZE = 0;
  wf_space : hi_of a < 2 ^ 62;  (* a user address *)
  wf_start : start_of (buffers a) (hi_of a) = buffer a;
  wf_tiled : tiled (buffers a) (hi_of a);
  wf_ids : NoDup (ids (buffers a));
}.

Record pages_wf (a : binder_alloc) : Prop := {
  wf_npages : zlen (pages a) = buffer_size a / PAGE_SIZE;
  wf_active i p : rd (pages a) i = Some p ->
    in_use (buffer a) (hi_of a) (buffers a) i -> page_active p;
  wf_idle i p : rd (pages a) i = Some p ->
    ~ in_use (buffer a) (hi_of a) (buffers a) i -> page_idle p;
}.

(** [account]: the asynchronous space and what the asynchronous buffers are
    charged add up to at most half of the area. *)
Record alloc_inv (account : bool) (sizeof : Z) (a : binder_alloc) : Prop := {
  wf_layout : layout_wf a;
  wf_pages : pages_wf a;
  wf_coalesced : coalesced (buffers a);
  wf_fit b sz : (b, sz) ∈ sized (buffers a) (hi_of a) -> free b = false -> stored_size b <= sz;
  wf_allocated : inorder (allocated_buffers a) = allocated_ids (buffers a);
  wf_free : Permutation (inorder (free_buffers a)) (free_ids (buffers a));
  wf_by_size : StronglySorted (fun n m => size_of a n <= size_of a m) (inorder (free_buffers a));
  wf_async : 0 <= free_async_space a < 2 ^ 64;
  wf_account : account = true -> free_async_space a + async_total sizeof (buffers a) <= buffer_size a / 2;
  wf_mm : vma a = true -> vma_vm_mm a = true;
  wf_nowarn : warned a = false;
}.
#[global] Arguments wf_layout {account} sizeof a _.
#[global] Arguments wf_pages {account} sizeof a _.
#[global] Arguments wf_coalesced {account} sizeof a _.
#[global] Arguments wf_fit {account} sizeof a _ _ _ _ _.
#[global] Arguments wf_allocated {account} sizeof a _.
#[global] Arguments wf_free {account} sizeof a _.
#[global] Arguments wf_by_size {account} sizeof a _.
#[global] Arguments wf_async {account} sizeof a _.
#[global] Arguments wf_account {account} sizeof a _ _.
#[global] Arguments wf_mm {account} sizeof a _.
#[global] Arguments wf_nowarn {account} sizeof a _.

Abbreviation alloc_wf := (alloc_inv true).

(** ** Sizes *)

Lemma layout_range a b : layout_wf a -> b ∈ buffers a -> 0 < user_data b < hi_of a.
Proof.
  intros [? ? ? Hs Ht ?] Hb. destruct (tiled_bounds _ _ Ht) as [_ H]. specialize (H b Hb). lia.
Qed.

Lemma start_of_le a l1 b l2 :
  layout_wf a -> buffers a = l1 ++ b :: l2 ->
  user_data b < start_of l2 (hi_of a) <= hi_of a.
Proof.
  intros [? ? ? Hs Ht ?] E. rewrite E, tiled_app in Ht. destruct Ht as (_ & _ & Hlt & Ht).
  split; [done|]. by destruct (tiled_bounds _ _ Ht).
Qed.

Lemma buffer_size_mid a l1 b l2 :
  layout_wf a -> buffers a = l1 ++ b :: l2 ->
  binder_alloc_buffer_size a (entry b) = Some (start_of l2 (hi_of a) - user_data b).
Proof.
  intros Hwf E. pose proof (start_of_le _ _ _ _ Hwf E) as Hle.
  pose proof (layout_range a b Hwf ltac:(rewrite E; set_solver)) as Hr.
  destruct Hwf as [Hb Hsz Hsp Hs Ht Hid]. unfold binder_alloc_buffer_size. rewrite E in *.
  rewrite find_buf_mid, next_mid by done. mstep.
  destruct l2 as [|y l2]; simpl in *; rewrite u64_id; unfold hi_of in *; auto; lia.
Qed.

Lemma size_of_mid a l1 b l2 :
  layout_wf a -> buffers a = l1 ++ b :: l2 ->
  size_of a (entry b) = start_of l2 (hi_of a) - user_data b.
Proof. intros H E. unfold size_of. by rewrite (buffer_size_mid _ _ _ _ H E). Qed.

Lemma size_of_eq a n : layout_wf a -> n ∈ ids (buffers a) ->
  binder_alloc_buffer_size a n = Some (size_of a n).
Proof.
  intros H (b & l1 & l2 & E & <-)%ids_split.
  by rewrite (buffer_size_mid _ _ _ _ H E), (size_of_mid _ _ _ _ H E).
Qed.

Lemma sized_size_of a b sz :
  layout_wf a -> (b, sz) ∈ sized (buffers a) (hi_of a) ->
  exists l1 l2, buffers a = l1 ++ b :: l2 /\ sz = start_of l2 (hi_of a) - user_data b.
Proof.
  intros _. generalize (hi_of a) as hi. generalize (buffers a) as l. intros l hi.
  induction l as [|x l IH]; simpl; [set_solver|].
  intros [[= -> ->]|(l1 & l2 & -> & ->)%IH]%elem_of_cons.
  - by exists [], l.
  - by exists (x :: l1), l2.
Qed.

Lemma sized_mid l1 b l2 hi : (b, start_of l2 hi - user_data b) ∈ sized (l1 ++ b :: l2) hi.
Proof. rewrite sized_app. simpl. set_solver. Qed.

(** ** The operations on the trees *)

Section Trees.
Context `{RbTree}.

Definition members (a : binder_alloc) (fr : bool) (l : list ptr) : Prop :=
  forall n, n ∈ l -> exists b, find_buf (buffers a) n = Some b /\ free b = fr.

Lemma free_ids_members a l :
  layout_wf a -> Permutation l (free_ids (buffers a)) -> members a true l.
Proof.
  intros [_ _ _ _ _ Hid] HP n Hn. rewrite HP in Hn. unfold free_ids in Hn.
  apply list_elem_of_fmap in Hn as (b & -> & [Hf Hb]%list_elem_of_filter).
  apply list_elem_of_split in Hb as (l1 & l2 & E).
  exists b. split; [|done]. rewrite E in *. by apply find_buf_mid.
Qed.

Lemma find_buf_ids l n b : find_buf l n = Some b -> n ∈ ids l.
Proof. intros (<- & l1 & l2 & ->)%find_buf_split. apply mid_in. Qed.

Lemma insert_free_spec a n b A C :
  layout_wf a -> find_buf (buffers a) n = Some b -> free b = true ->
  inorder (free_buffers a) = A ++ C -> members a true (A ++ C) ->
  (forall m, m ∈ A -> size_of a m <= size_of a n) ->
  (forall m, m ∈ C -> size_of a n < size_of a m) ->
  exists t, binder_insert_free_buffer a n = Some (a <| free_buffers := t |>) /\
    inorder t = A ++ n :: C.
Proof.
  intros Hwf Hb Hf E Hm HA HC. unfold binder_insert_free_buffer. rewrite Hb. mstep.
  rewrite Hf. cbn [negb]. rewrite (size_of_eq a n) by eauto using find_buf_ids. mstep.
  edestruct (rb_link_spec) as (t & -> & Et); [exact E|..].
  - intros m Hin. destruct (Hm m) as (x & Hx & Hfx); [set_solver|].
    rewrite Hx. mstep. rewrite Hfx. cbn [negb].
    rewrite (size_of_eq a m) by eauto using find_buf_ids. mstep.
    f_equal. apply Z.ltb_ge. auto.
  - intros m Hin. destruct (Hm m) as (x & Hx & Hfx); [set_solver|].
    rewrite Hx. mstep. rewrite Hfx. cbn [negb].
    rewrite (size_of_eq a m) by eauto using find_buf_ids. mstep.
    f_equal. apply Z.ltb_lt. auto.
  - mstep. eexists. split; [done|]. by rewrite inorder_insert_color.
Qed.

Lemma allocated_ids_app l1 l2 : allocated_ids (l1 ++ l2) = allocated_ids l1 ++ allocated_ids l2.
Proof. unfold allocated_ids. by rewrite filter_app, map_app. Qed.
Lemma free_ids_app l1 l2 : free_ids (l1 ++ l2) = free_ids l1 ++ free_ids l2.
Proof. unfold free_ids. by rewrite filter_app, map_app. Qed.

Lemma allocated_ids_find a l l1 l2 n :
  layout_wf a -> buffers a = l1 ++ l ++ l2 -> n ∈ allocated_ids l ->
  exists b, b ∈ l /\ find_buf (buffers a) n = Some b /\ free b = false.
Proof.
  intros Hwf E Hn. apply list_elem_of_fmap in Hn as (b & -> & [Hf Hb]%list_elem_of_filter).
  exists b. split_and!; [done| |done].
  apply list_elem_of_split in Hb as (k1 & k2 & ->).
  pose proof (wf_ids _ Hwf) as Hid. rewrite E in *.
  replace (l1 ++ (k1 ++ b :: k2) ++ l2) with ((l1 ++ k1) ++ b :: (k2 ++ l2)) in *
    by (by rewrite <- !app_assoc).
  by apply find_buf_mid.
Qed.

Lemma tiled_order a l1 b l2 :
  layout_wf a -> buffers a = l1 ++ b :: l2 ->
  (forall c, c ∈ l1 -> user_data c < user_data b) /\
  (forall c, c ∈ l2 -> start_of l2 (hi_of a) <= user_data c).
Proof.
  intros [_ _ _ _ Ht _] E. rewrite E, tiled_app in Ht. destruct Ht as (H1 & _ & H2 & H3).
  split; intros c Hc.
  - by apply (tiled_bounds _ _ H1).
  - by apply (tiled_bounds _ _ H3).
Qed.

Lemma insert_allocated_spec a l1 b l2 :
  layout_wf a -> buffers a = l1 ++ b :: l2 -> free b = false ->
  inorder (allocated_buffers a) = allocated_ids l1 ++ allocated_ids l2 ->
  exists t, binder_insert_allocated_buffer_locked a (entry b) =
      Some (a <| allocated_buffers := t |>) /\
    inorder t = allocated_ids (l1 ++ b :: l2).
Proof.
  intros Hwf E Hf Ei. unfold binder_insert_allocated_buffer_locked.
  pose proof (wf_ids _ Hwf) as Hid. pose proof (start_of_le _ _ _ _ Hwf E) as Hlt.
  destruct (tiled_order _ _ _ _ Hwf E) as [Hlow Hhigh].
  assert (Hfind : find_buf (buffers a) (entry b) = Some b).
  { rewrite E in *. by apply find_buf_mid. }
  rewrite Hfind. mstep. rewrite Hf.
  edestruct (rb_link_spec) as (t & -> & Et); [exact Ei|..].
  - intros m Hin.
    destruct (allocated_ids_find a l1 [] (b :: l2) m) as (c & Hc & -> & Hfc); [done..|].
    mstep. rewrite Hfc. specialize (Hlow c Hc). rewrite Z.gtb_ltb.
    by rewrite (proj2 (Z.ltb_ge _ _)), (proj2 (Z.ltb_lt _ _)) by lia.
  - intros m Hin.
    destruct (allocated_ids_find a l2 (l1 ++ [b]) [] m) as (c & Hc & -> & Hfc);
      [done|by rewrite E, app_nil_r, <- app_assoc|done|].
    mstep. rewrite Hfc. specialize (Hhigh c Hc).
    by rewrite (proj2 (Z.ltb_lt _ _)) by lia.
  - mstep. eexists. split; [done|]. rewrite inorder_insert_color, Et.
    rewrite allocated_ids_app. unfold allocated_ids at 4. by rewrite filter_cons_True.
Qed.

(** *** The best fit *)

Lemma best_fit_search_spec a size t P Q best :
  layout_wf a -> members a true (inorder t) ->
  StronglySorted (fun n m => size_of a n <= size_of a m) (P ++ inorder t ++ Q) ->
  (forall m, m ∈ P -> size_of a m < size) ->
  best = head Q -> (forall n, head Q = Some n -> size < size_of a n) ->
  exists r, best_fit_search a size t best = Some r /\
    match r with
    | None => forall m, m ∈ P ++ inorder t ++ Q -> size_of a m < size
    | Some n => size <= size_of a n /\ exists A C, P ++ inorder t ++ Q = A ++ n :: C /\
        (size_of a n = size \/ forall m, m ∈ A -> size_of a m < size)
    end.
Proof.
  intros Hwf. revert P Q best.
  induction t as [|l IHl n r IHr]; intros P Q best Hm HS HP -> HQ; cbn [inorder best_fit_search] in *.
  - exists (head Q). split; [done|]. destruct Q as [|q Q]; simpl.
    + rewrite app_nil_r. auto.
    + split; [apply Z.lt_le_incl; by apply HQ|]. exists P, Q. eauto.
  - destruct (Hm n) as (b & Hb & Hf); [set_solver|]. rewrite Hb. mstep. rewrite Hf. cbn [negb].
    rewrite (size_of_eq a n) by eauto using find_buf_ids. mstep.
    destruct (Z.ltb_spec size (size_of a n)) as [Hlt|Hge].
    + destruct (IHl P (n :: inorder r ++ Q) (Some n)) as (res & -> & Hres);
        try done.
      * intros m Hin. apply Hm. set_solver.
      * by rewrite <- app_assoc in HS.
      * by intros ? [= <-].
      * exists res. split; [done|]. by rewrite <- app_assoc.
    + rewrite Z.gtb_ltb. destruct (Z.ltb_spec (size_of a n) size) as [Hlt|Hge'].
      * destruct (IHr (P ++ inorder l ++ [n]) Q (head Q)) as (res & -> & Hres); try done.
        -- intros m Hin. apply Hm. set_solver.
        -- by rewrite <- !app_assoc in *.
        -- intros m [Hin|[Hin| ->%list_elem_of_singleton]%elem_of_app]%elem_of_app; auto.
           apply StronglySorted_app_1_r in HS. rewrite <- app_assoc in HS.
           assert (size_of a m <= size_of a n); [|lia].
           apply (StronglySorted_app_1_elem_of _ _ _ m n HS); set_solver.
        -- exists res. split; [done|]. by rewrite <- !app_assoc in *.
      * exists (Some n). split; [done|]. split; [lia|].
        exists (P ++ inorder l), (inorder r ++ Q). rewrite <- !app_assoc. split; [done|].
        left. lia.
Qed.

End Trees.

(** ** The page array

    [pages_are a Act] says which slots are active; every page operation is
    described by what it does to that set.  No operation on a slot in the
    expected class triggers a [WARN_ON]. *)

Definition pages_are (a : binder_alloc) (Act : Z -> Prop) : Prop :=
  zlen (pages a) = buffer_size a / PAGE_SIZE /\
  forall i p, rd (pages a) i = Some p -> (Act i -> page_active p) /\ (~ Act i -> page_idle p).

(** The state but for its page slots. *)
Definition with_pages (a : binder_alloc) (ps : list binder_lru_page) (high : Z) : binder_alloc :=
  a <| pages := ps |> <| pages_high := high |>.

Lemma with_pages_twice a ps h ps' h' : with_pages (with_pages a ps h) ps' h' = with_pages a ps' h'.
Proof. by destruct a. Qed.

Lemma with_pages_id a : a = with_pages a (pages a) (pages_high a).
Proof. by destruct a. Qed.

Lemma pages_are_ext a P Q : (forall i, P i <-> Q i) -> pages_are a P -> pages_are a Q.
Proof.
  intros HPQ [Hn H]. split; [done|]. intros i p Hp. rewrite <- HPQ. by apply H.
Qed.

Lemma pages_wf_are a :
  pages_wf a <-> pages_are a (in_use (buffer a) (hi_of a) (buffers a)).
Proof.
  split.
  - intros [Hn HA HI]. split; [done|]. intros i p Hp. eauto.
  - intros [Hn H]. split; [done|..]; intros i p Hp; by apply (H i p Hp).
Qed.

Lemma pages_are_zlen a Act ps h Act' :
  pages_are a Act -> pages_are (with_pages a ps h) Act' -> zlen ps = zlen (pages a).
Proof. intros [H1 _] [H2 _]. change (zlen ps = buffer_size a / PAGE_SIZE) in H2. congruence. Qed.

Lemma set_page_spec a Act (Act' : Z -> Prop) i p :
  pages_are a Act -> 0 <= i < zlen (pages a) ->
  (Act' i -> page_active p) -> (~ Act' i -> page_idle p) ->
  (forall j, j <> i -> Act' j <-> Act j) ->
  exists ps, set_page a i p = Some (with_pages a ps (pages_high a)) /\
    pages_are (with_pages a ps (pages_high a)) Act' /\
    rd ps i = Some p /\ (forall j, j <> i -> rd ps j = rd (pages a) j).
Proof.
  intros [Hn H] Hi Ha Hd Ho. unfold set_page. rewrite wr_Some by done. mstep.
  exists (<[Z.to_nat i:=p]> (pages a)). pose proof (wr_Some (pages a) i p Hi) as Hw.
  split_and!.
  - destruct a; reflexivity.
  - split; [etransitivity; [apply (zlen_wr _ _ _ _ Hw)|exact Hn]|].
    intros j q. change (rd (<[Z.to_nat i:=p]> (pages a)) j = Some q ->
      (Act' j -> page_active q) /\ (~ Act' j -> page_idle q)).
    rewrite (rd_wr _ _ _ _ _ Hw). zcase.
    + intros [= <-]. subst. tauto.
    + intros Hq. rewrite Ho by done. by apply H.
  - apply (rd_wr_eq _ _ _ _ Hw).
  - intros j Hj. by apply (rd_wr_ne _ _ _ _ _ Hw).
Qed.

Lemma page_index_eq a i : 0 <= i -> page_index a (buffer a + PAGE_SIZE * i) = i.
Proof.
  intros Hi. unfold page_index.
  replace (buffer a + PAGE_SIZE * i - buffer a) with (i * PAGE_SIZE) by lia.
  by apply Z.quot_mul.
Qed.

Lemma lru_add_spec a Act i :
  pages_are a Act -> 0 <= i < zlen (pages a) -> Act i ->
  exists ps, list_lru_add a i = Some (true, with_pages a ps (pages_high a)) /\
    pages_are (with_pages a ps (pages_high a)) (fun j => Act j /\ j <> i).
Proof.
  intros Hp Hi Ha. unfold list_lru_add. destruct (rd_ex (pages a) i Hi) as [p Hrd].
  destruct (proj1 (proj2 Hp i p Hrd) Ha) as (c & Hc & Hz & Hl).
  rewrite Hrd. mstep.
  destruct (set_page_spec a Act (fun j => Act j /\ j <> i) i (p <| lru := true |>))
    as (ps & -> & Hps & _); [done|done|tauto| |tauto|].
  { intros _. unfold page_idle. simpl. rewrite Hc. done. }
  mstep. exists ps. by rewrite Hl.
Qed.

Lemma free_range_spec n a Act k s :
  pages_are a Act -> 0 <= s <= k -> k < zlen (pages a) ->
  (forall j, s <= j <= k -> Act j) -> k - s < Z.of_nat n ->
  exists ps, free_range n a (buffer a + PAGE_SIZE * k) (buffer a + PAGE_SIZE * s) =
      Some (with_pages a ps (pages_high a)) /\
    pages_are (with_pages a ps (pages_high a)) (fun j => Act j /\ ~ (s <= j <= k)).
Proof.
  revert a Act k. induction n as [|n IH]; intros a Act k Hp Hs Hk Ha Hn; [lia|].
  cbn [free_range]. rewrite page_index_eq by lia.
  destruct (lru_add_spec a Act k) as (ps & -> & Hps); [done|lia|apply Ha; lia|].
  mstep. cbn [negb WARN_ON].
  assert (HP : PAGE_SIZE = 4096) by reflexivity.
  destruct (Z.eqb_spec (buffer a + PAGE_SIZE * k) (buffer a + PAGE_SIZE * s)) as [E|E].
  - exists ps. split; [done|]. eapply pages_are_ext; [|done]. simpl. intros i.
    assert (k = s) by lia. intuition lia.
  - set (a1 := with_pages a ps (pages_high a)) in *.
    destruct (IH a1 (fun j => Act j /\ j <> k) (k - 1)) as (ps' & E' & Hps').
    + done.
    + lia.
    + transitivity k; [lia|]. destruct Hp as [Hp _], Hps as [Hps _]. simpl in Hps. subst a1. simpl. lia.
    + intros j Hj. split; [apply Ha|]; lia.
    + lia.
    + change (buffer a1) with (buffer a) in E'.
      replace (buffer a + PAGE_SIZE * (k - 1)) with (buffer a + PAGE_SIZE * k - PAGE_SIZE) in E' by lia.
      rewrite E'. exists ps'. subst a1. rewrite with_pages_twice in *. split; [done|].
      eapply pages_are_ext; [|done]. simpl. intros i. intuition lia.
Qed.

Lemma unwind_range_spec n a Act k s :
  pages_are a Act -> 0 <= s <= k -> k < zlen (pages a) ->
  (forall j, s <= j < k -> Act j) -> k - s <= Z.of_nat n ->
  exists ps, unwind_range n a (buffer a + PAGE_SIZE * k) (buffer a + PAGE_SIZE * s) =
      Some (with_pages a ps (pages_high a)) /\
    pages_are (with_pages a ps (pages_high a)) (fun j => Act j /\ ~ (s <= j < k)).
Proof.
  intros Hp Hs Hk Ha Hn. unfold unwind_range.
  assert (HP : PAGE_SIZE = 4096) by reflexivity.
  destruct (Z.eqb_spec (buffer a + PAGE_SIZE * k) (buffer a + PAGE_SIZE * s)) as [E|E].
  - exists (pages a). split; [by rewrite <- with_pages_id|]. rewrite <- with_pages_id.
    eapply pages_are_ext; [|done]. simpl. intros i. intuition lia.
  - replace (buffer a + PAGE_SIZE * k - PAGE_SIZE) with (buffer a + PAGE_SIZE * (k - 1)) by lia.
    destruct (free_range_spec n a Act (k - 1) s) as (ps & -> & Hps); [done|lia|lia| |lia|].
    { intros j Hj. apply Ha; lia. }
    exists ps. split; [done|]. eapply pages_are_ext; [|done]. simpl. intros i. intuition lia.
Qed.

(** Taking an idle, populated page off the LRU. *)
Lemma lru_del_spec a Act i p :
  pages_are a Act -> rd (pages a) i = Some p -> ~ Act i -> page_ptr p <> None ->
  exists ps, list_lru_del a i = Some (true, with_pages a ps (pages_high a)) /\
    pages_are (with_pages a ps (pages_high a)) (fun j => Act j \/ j = i) /\
    (forall j, j <> i -> rd ps j = rd (pages a) j).
Proof.
  intros Hp Hrd Ha Hpp. unfold list_lru_del.
  pose proof (proj2 (proj2 Hp i p Hrd) Ha) as Hidle. unfold page_idle in Hidle.
  destruct (page_ptr p) as [c|] eqn:Hc; [|done]. destruct Hidle as [Hl Hz].
  rewrite Hrd. mstep.
  destruct (set_page_spec a Act (fun j => Act j \/ j = i) i (p <| lru := false |>))
    as (ps & -> & Hps & _ & Ho); [done|by eapply rd_lt| |tauto|tauto|].
  { intros _. exists c. done. }
  mstep. exists ps. by rewrite Hl.
Qed.

(** All slots of [k .. k + n) hold a page. *)
Definition populated (a : binder_alloc) (k : Z) (n : nat) : Prop :=
  forall j p, k <= j < k + Z.of_nat n -> rd (pages a) j = Some p -> page_ptr p <> None.

Lemma need_pages_spec n a k :
  0 <= k -> k + Z.of_nat n <= zlen (pages a) ->
  exists r, need_pages n a (buffer a + PAGE_SIZE * k) = Some r /\
    (r = false -> populated a k n).
Proof.
  revert k. induction n as [|n IH]; intros k Hk Hn; cbn [need_pages].
  { exists false. split; [done|]. intros _ j p Hj. lia. }
  rewrite page_index_eq by lia. destruct (rd_ex (pages a) k) as [p Hrd]; [lia|].
  rewrite Hrd. mstep. destruct (page_ptr p) as [c|] eqn:Hc; [|by exists true].
  replace (buffer a + PAGE_SIZE * k + PAGE_SIZE) with (buffer a + PAGE_SIZE * (k + 1)) by lia.
  destruct (IH (k + 1)) as (r & -> & Hr); [lia..|]. exists r. split; [done|].
  intros E j q Hj Hq. destruct (Z.eq_dec j k) as [->|]; [congruence|].
  apply (Hr E j q); [lia|done].
Qed.

Definition ptr_err (ret : Z) : Prop := ret = - ENOMEM \/ ret = - ESRCH.

(** The kernel cannot supply what an operation asks for. *)
Definition env_fails (env : kenv) : Prop :=
  mmget_not_zero env = false \/
  exists i, alloc_page env i = false \/ vm_insert_page env i <> 0.

(** The outcome of populating [s .. e): all active, or nothing changed. *)
Definition range_result (env : kenv) (a : binder_alloc) (Act : Z -> Prop) (s e : Z)
    (r : option (Z * binder_alloc)) : Prop :=
  exists ret ps high, r = Some (ret, with_pages a ps high) /\
    ((ret = 0 /\ pages_are (with_pages a ps high) (fun j => Act j \/ s <= j < e)) \/
     (ptr_err ret /\ env_fails env /\
      pages_are (with_pages a ps high) (fun j => Act j /\ ~ (s <= j < e)))).

Lemma range_result_widen env a Act Act1 ps high s k e r :
  s <= k < e ->
  (forall j, Act1 j <-> Act j \/ j = k) ->
  range_result env (with_pages a ps high) Act1 s e r -> range_result env a Act s e r.
Proof.
  intros Hk HA (ret & ps' & h' & -> & Hr). exists ret, ps', h'.
  rewrite with_pages_twice in *. split; [done|].
  destruct Hr as [[-> Hr]|(He & Hf & Hr)]; [left|right]; (split; [done|]); try (split; [done|]);
    (eapply pages_are_ext; [|exact Hr]); intros j; simpl; specialize (HA j); intuition lia.
Qed.

Lemma allocate_range_spec n env hv a Act k s rounds :
  pages_are a Act -> 0 <= s <= k -> k + Z.of_nat n <= zlen (pages a) ->
  (forall j, s <= j < k -> Act j) -> (forall j, k <= j < k + Z.of_nat n -> ~ Act j) ->
  hv = true \/ populated a k n -> k - s + Z.of_nat n <= Z.of_nat rounds ->
  range_result env a Act s (k + Z.of_nat n)
    (allocate_range n env hv a (buffer a + PAGE_SIZE * k) (buffer a + PAGE_SIZE * s) rounds).
Proof.
  revert a Act k. induction n as [|n IH]; intros a Act k Hp Hs Hn Ha Hi Hv Hr.
  { exists 0, (pages a), (pages_high a). rewrite <- with_pages_id. split; [done|]. left.
    split; [done|]. eapply pages_are_ext; [|done]. simpl. intros j.
    split; [auto|]. intros [?|?]; [done|]. apply Ha. lia. }
  cbn [allocate_range]. rewrite page_index_eq by lia.
  destruct (rd_ex (pages a) k) as [p Hrd]; [lia|]. rewrite Hrd. mstep.
  assert (Hik : ~ Act k) by (apply Hi; lia).
  replace (buffer a + PAGE_SIZE * k + PAGE_SIZE) with (buffer a + PAGE_SIZE * (k + 1)) by lia.
  replace (k + Z.of_nat (S n)) with (k + 1 + Z.of_nat n) in * by lia.
  assert (Hfail : forall a1 ps high, pages_are a1 Act -> a1 = with_pages a ps high ->
    zlen (pages a1) = zlen (pages a) -> env_fails env -> forall e, ptr_err e ->
    range_result env a Act s (k + 1 + Z.of_nat n)
      (alloc ← unwind_range rounds a1 (buffer a + PAGE_SIZE * k) (buffer a + PAGE_SIZE * s);
       Some (e, alloc))).
  { intros a1 ps high Hp1 -> Hz Hf e He.
    destruct (unwind_range_spec rounds (with_pages a ps high) Act k s)
      as (ps' & E & Hps'); [done|lia|lia|done|lia|].
    change (buffer (with_pages a ps high)) with (buffer a) in E. rewrite E. mstep.
    rewrite with_pages_twice in *. eexists e, ps', _. split; [done|]. right. split; [done|].
    split; [done|]. eapply pages_are_ext; [|done]. simpl. intros j. split; [|intuition lia].
    intros [HA Hj]. split; [done|]. intros Hj'. apply (Hi j); [lia|done]. }
  destruct (page_ptr p) as [c|] eqn:Hc.
  - destruct (lru_del_spec a Act k p) as (ps & -> & Hps & Ho); [done..|by rewrite Hc|].
    mstep. cbn [negb WARN_ON].
    eapply (range_result_widen _ _ Act (fun j => Act j \/ j = k) ps (pages_high a) s k); [lia|done|].
    assert (Hz : zlen ps = zlen (pages a)) by (by eapply pages_are_zlen).
    apply (IH (with_pages a ps (pages_high a))); [done|lia|..|lia].
    + change (k + 1 + Z.of_nat n <= zlen ps). lia.
    + intros j Hj. destruct (Z.eq_dec j k); [auto|]. left. apply Ha. lia.
    + intros j Hj [HA| ->]; [|lia]. apply (Hi j); [lia|done].
    + destruct Hv as [->|Hv]; [by left|right]. intros j q Hj Hq.
      change (rd ps j = Some q) in Hq. rewrite Ho in Hq by lia. apply (Hv j q); [lia|done].
  - destruct Hv as [->|Hv]; [|exfalso; by apply (Hv k p); [lia|..]]. cbn [negb].
    destruct (alloc_page env k) eqn:Hal; cbn [negb];
      [|by eapply (Hfail a); [done|apply with_pages_id|done|right; exists k; left|left]].
    destruct (set_page_spec a Act (fun j => Act j \/ j = k) k
      {| page_ptr := Some zero_page; lru := false |}) as (ps & -> & Hps & _ & Ho);
      [done|lia|by exists zero_page|tauto|tauto|].
    mstep. assert (Hz : zlen ps = zlen (pages a)) by (by eapply pages_are_zlen).
    destruct (truth (vm_insert_page env k)) eqn:Hin.
    + destruct (set_page_spec (with_pages a ps (pages_high a)) _ Act k
        {| page_ptr := None; lru := false |} Hps) as (ps' & -> & Hps' & _);
        [change (0 <= k < zlen ps); lia|done|done|intuition congruence|].
      mstep. rewrite with_pages_twice in *.
      assert (Hz' : zlen ps' = zlen (pages a)) by (by eapply pages_are_zlen).
      by eapply Hfail; [done|done|done|right; exists k; right; by apply truth_true|left].
    + set (high := if k + 1 >? pages_high a then k + 1 else pages_high a).
      replace (if k + 1 >? pages_high (with_pages a ps (pages_high a)) then _ else _)
        with (with_pages a ps high).
      2: { unfold high. change (pages_high (with_pages a ps (pages_high a))) with (pages_high a).
           by destruct (k + 1 >? pages_high a), a. }
      eapply (range_result_widen _ _ Act (fun j => Act j \/ j = k) ps high s k); [lia|done|].
      apply (IH (with_pages a ps high)); [done|lia|..|by left|lia].
      * change (k + 1 + Z.of_nat n <= zlen ps). lia.
      * intros j Hj. destruct (Z.eq_dec j k); [auto|]. left. apply Ha. lia.
      * intros j Hj [HA| ->]; [|lia]. apply (Hi j); [lia|done].
Qed.
