(* ===== verification/BinderAllocNew.v ===== *)
(** * Allocation in the binder buffer allocator

    What [binder_update_page_range] and [binder_alloc_new_buf_locked] do to a
    well-formed allocator. *)

From S2P Require Import Prelude BinderAlloc BinderAllocInv.

(** ** Page ranges *)

Lemma page_rounds_eq base s e :
  page_rounds (base + PAGE_SIZE * s) (base + PAGE_SIZE * e) = Z.to_nat (e - s).
Proof.
  unfold page_rounds. f_equal.
  replace (base + PAGE_SIZE * e - (base + PAGE_SIZE * s) + PAGE_SIZE - 1)
    with ((PAGE_SIZE - 1) + (e - s) * PAGE_SIZE) by lia.
  rewrite Z.div_add by done. rewrite Z.div_small by done. lia.
Qed.

Lemma free_pages_spec env a Act s e :
  pages_are a Act -> (s < e -> 0 <= s /\ e <= zlen (pages a)) ->
  (forall j, s <= j < e -> Act j) ->
  exists ret ps,
    binder_update_page_range env a false (buffer a + PAGE_SIZE * s) (buffer a + PAGE_SIZE * e) =
      Some (ret, with_pages a ps (pages_high a)) /\
    pages_are (with_pages a ps (pages_high a)) (fun j => Act j /\ ~ (s <= j < e)).
Proof.
  intros Hp Hb Ha. unfold binder_update_page_range. assert (HP : PAGE_SIZE = 4096) by done.
  zcase; mstep.
  - exists 0, (pages a). rewrite <- with_pages_id. split; [done|].
    eapply pages_are_ext; [|done]. simpl. intros j. intuition lia.
  - cbn [negb]. rewrite page_rounds_eq.
    replace (buffer a + PAGE_SIZE * e - PAGE_SIZE) with (buffer a + PAGE_SIZE * (e - 1)) by lia.
    destruct (free_range_spec (Z.to_nat (e - s)) a Act (e - 1) s) as (ps & -> & Hps);
      [done|lia|lia|intros; apply Ha; lia|lia|].
    mstep. exists (- ESRCH), ps. split; [done|].
    eapply pages_are_ext; [|done]. simpl. intros j. intuition lia.
Qed.

Lemma alloc_pages_spec env a Act s e :
  pages_are a Act -> 0 <= s -> e <= zlen (pages a) ->
  (forall j, s <= j < e -> ~ Act j) -> vma a = true -> vma_vm_mm a = true ->
  range_result env a Act s e
    (binder_update_page_range env a true (buffer a + PAGE_SIZE * s) (buffer a + PAGE_SIZE * e)).
Proof.
  intros Hp Hs He Hi Hv Hm. unfold binder_update_page_range.
  assert (HP : PAGE_SIZE = 4096) by done. zcase.
  { exists 0, (pages a), (pages_high a). rewrite <- with_pages_id. split; [done|]. left.
    split; [done|]. eapply pages_are_ext; [|done]. simpl. intros j. intuition lia. }
  cbn [negb]. rewrite page_rounds_eq.
  destruct (need_pages_spec (Z.to_nat (e - s)) a s) as (need & -> & Hneed); [lia|lia|].
  mstep. rewrite Hm, Hv. rewrite andb_false_r, andb_true_r.
  assert (Hgo : forall hv, hv = true \/ need = false -> range_result env a Act s e
    (allocate_range (Z.to_nat (e - s)) env hv a (buffer a + PAGE_SIZE * s)
       (buffer a + PAGE_SIZE * s) (Z.to_nat (e - s)))).
  { intros hv Hhv. replace e with (s + Z.of_nat (Z.to_nat (e - s))) at 1 by lia.
    apply allocate_range_spec; [done|lia|lia|intros; lia|intros; apply Hi; lia| |lia].
    destruct Hhv as [?| ->]; [by left|right; auto]. }
  destruct need; cbn [andb]; [destruct (mmget_not_zero env) eqn:Hmg|]; cbn [negb andb]; auto.
  exists (- ESRCH), (pages a), (pages_high a). rewrite <- with_pages_id. split; [done|]. right.
  split; [by right|]. split; [by left|]. eapply pages_are_ext; [|done]. simpl. intros j.
  split; [|tauto]. intros Hj. split; [done|]. intros ?. by apply (Hi j).
Qed.

(** ** Which pages the allocated buffers touch *)

Lemma in_use_app base hi l1 l2 i :
  in_use base hi (l1 ++ l2) i <->
  in_use base (start_of l2 hi) l1 i \/ in_use base hi l2 i.
Proof.
  unfold in_use. rewrite sized_app. setoid_rewrite elem_of_app. split.
  - intros (b & sz & [H|H] & ? & ?); [left|right]; by exists b, sz.
  - intros [(b & sz & H & ? & ?)|(b & sz & H & ? & ?)]; exists b, sz; auto.
Qed.

Lemma in_use_cons base hi b l i :
  in_use base hi (b :: l) i <->
  (free b = false /\ touches base b (start_of l hi - user_data b) i) \/ in_use base hi l i.
Proof.
  unfold in_use. simpl. setoid_rewrite elem_of_cons. split.
  - intros (c & sz & [[= -> ->]|H] & ? & ?); [by left|right]; by exists c, sz.
  - intros [[? ?]|(c & sz & H & ? & ?)]; [exists b, (start_of l hi - user_data b)|exists c, sz]; auto.
Qed.

Lemma in_use_nil base hi i : in_use base hi [] i <-> False.
Proof. split; [|done]. intros (? & ? & ?%elem_of_nil & _). done. Qed.

Lemma page_of_mono base x y : x <= y -> page_of base x <= page_of base y.
Proof. intros H. unfold page_of. apply Z.div_le_mono; [done|lia]. Qed.

Lemma in_use_bounds base l hi i :
  tiled l hi -> in_use base hi l i -> page_of base (start_of l hi) <= i <= page_of base (hi - 1).
Proof.
  induction l as [|b l IH]; [by rewrite in_use_nil|].
  intros (_ & Hlt & Ht). rewrite in_use_cons. destruct (tiled_bounds _ _ Ht) as [Hhi _].
  intros [(_ & H1 & H2)|Hin].
  - simpl. split; [done|]. etransitivity; [exact H2|]. apply page_of_mono. lia.
  - destruct (IH Ht Hin) as [H1 H2]. simpl. split; [|done].
    etransitivity; [|exact H1]. apply page_of_mono. lia.
Qed.

(** The end of the last allocated buffer before address [x], if the buffers
    before it are [l]; and the start of the first allocated one in [l]. *)
Definition low_end (l : list binder_buffer) (x : Z) : Z :=
  match last l with Some p => if free p then user_data p else x | None => x end.
Definition high_start (l : list binder_buffer) (hi : Z) : Z :=
  match l with n :: l' => if free n then start_of l' hi else user_data n | [] => hi end.

Lemma in_use_low base l x i :
  tiled l x -> coalesced l -> start_of l x = base ->
  base <= low_end l x <= x /\
  (in_use base x l i -> i <= page_of base (low_end l x - 1)) /\
  (base < low_end l x -> in_use base x l (page_of base (low_end l x - 1))).
Proof.
  intros Ht Hc Hs. unfold low_end. destruct (tiled_bounds _ _ Ht) as [Hsx _].
  destruct l as [|p l _] using rev_ind; simpl in *.
  { split; [lia|split]; [by rewrite in_use_nil|lia]. }
  rewrite last_snoc. rewrite tiled_app in Ht. destruct Ht as (Ht & _ & Hp & _). simpl in Hp, Ht.
  rewrite in_use_app, in_use_cons. rewrite start_of_app in Hs. simpl in Hs.
  destruct (tiled_bounds _ _ Ht) as [Hsp _]. rewrite Hs in Hsp. simpl.
  setoid_rewrite in_use_app. setoid_rewrite in_use_cons. setoid_rewrite in_use_nil. simpl.
  destruct (free p) eqn:Hf.
  - split; [lia|split].
    + intros [H|[[Hx _]|[]]]; [|done]. by apply in_use_bounds in H as [? ?].
    + intros Hlt. left. destruct l as [|q l _] using rev_ind; simpl in Hs; [lia|].
      rewrite <- app_assoc in Hc. apply coalesced_app in Hc as (_ & Hc & _).
      simpl in Hc. rewrite in_use_app, in_use_cons. right. left. simpl.
      rewrite tiled_app in Ht. destruct Ht as (_ & _ & Hq & _). simpl in Hq.
      split; [destruct (free q); [tauto|done]|]. split; [apply page_of_mono; lia|].
      replace (user_data q + (user_data p - user_data q) - 1) with (user_data p - 1) by lia. done.
  - split; [lia|split].
    + intros [H|[[_ [_ H]]|[]]].
      * apply in_use_bounds in H; [|done]. etransitivity; [apply H|]. apply page_of_mono. lia.
      * by replace (user_data p + (x - user_data p) - 1) with (x - 1) in H by lia.
    + intros _. right. left. split; [done|]. split; [apply page_of_mono; lia|].
      by replace (user_data p + (x - user_data p) - 1) with (x - 1) by lia.
Qed.

Lemma in_use_high base l hi i :
  tiled l hi -> coalesced l ->
  start_of l hi <= high_start l hi <= hi /\
  (in_use base hi l i -> page_of base (high_start l hi) <= i) /\
  (high_start l hi < hi -> in_use base hi l (page_of base (high_start l hi))).
Proof.
  intros Ht Hc. destruct (tiled_bounds _ _ Ht) as [Hsh _].
  destruct l as [|n l]; simpl in *; [split; [lia|split]; [by rewrite in_use_nil|lia]|].
  destruct Ht as (_ & Hn & Ht). destruct (tiled_bounds _ _ Ht) as [Hs2 _].
  setoid_rewrite in_use_cons. destruct (free n) eqn:Hf.
  - split; [lia|split].
    + intros [[? _]|H]; [done|]. by apply in_use_bounds in H as [? ?].
    + intros Hlt. right. destruct l as [|m l]; simpl in *; [lia|].
      rewrite in_use_cons. left. destruct Ht as (_ & Hm & _).
      split; [destruct (free m); [tauto|done]|]. split; [done|]. apply page_of_mono. lia.
  - split; [lia|split].
    + intros [[_ [H _]]|H]; [done|]. apply in_use_bounds in H; [|done].
      etransitivity; [|apply H]. apply page_of_mono. lia.
    + intros _. left. split; [done|]. split; [done|]. apply page_of_mono. lia.
Qed.

(** ** The pages of a new buffer

    [first_page] is the index of [PAGE_ALIGN(addr)]. *)
Definition first_page (base x : Z) : Z := (x - base + (PAGE_SIZE - 1)) / PAGE_SIZE.

Lemma PAGE_ALIGN_index base x :
  0 <= base -> base mod PAGE_SIZE = 0 -> base <= x < 2 ^ 62 ->
  PAGE_ALIGN x = base + PAGE_SIZE * first_page base x.
Proof.
  intros Hb Hm Hx. rewrite PAGE_ALIGN_eq; [|lia|change PAGE_SIZE with 4096; lia].
  unfold first_page. change PAGE_SIZE with 4096 in *. dlia.
Qed.

Lemma page_floor_index base x :
  base mod PAGE_SIZE = 0 -> page_floor x = base + PAGE_SIZE * page_of base x.
Proof.
  intros Hm. rewrite page_floor_eq. unfold page_of. change PAGE_SIZE with 4096 in *. dlia.
Qed.

Lemma low_end_free l b x : coalesced (l ++ [b]) -> free b = true -> low_end l x = x.
Proof.
  intros Hc Hb. unfold low_end. destruct (last l) as [p|] eqn:Hl; [|done].
  apply coalesced_app in Hc as (_ & _ & Hc). specialize (Hc p Hl).
  destruct (free p); [tauto|done].
Qed.

Lemma high_start_free b l hi : coalesced (b :: l) -> free b = true -> high_start l hi = start_of l hi.
Proof.
  destruct l as [|n l]; simpl; [done|]. intros [Hc _] Hb. destruct (free n); [tauto|done].
Qed.

Lemma coalesced_app_l l1 l2 : coalesced (l1 ++ l2) -> coalesced l1.
Proof.
  destruct l2 as [|b l2]; [by rewrite app_nil_r|]. intros Hc. by apply coalesced_app in Hc as [? _].
Qed.

Lemma coalesced_snoc l1 b l2 : coalesced (l1 ++ b :: l2) -> coalesced (l1 ++ [b]).
Proof.
  rewrite (cons_middle b l1 l2), app_assoc. apply coalesced_app_l.
Qed.

Lemma coalesced_tail b l : coalesced (b :: l) -> coalesced l.
Proof. destruct l; [done|]. by intros [_ ?]. Qed.

(** What surrounds the buffer [b] at [x .. y): nothing allocated within the
    page of [x] but below, or within the page of [y] but above, goes unseen. *)
Lemma in_use_around a l1 b l2 :
  layout_wf a -> coalesced (buffers a) -> buffers a = l1 ++ b :: l2 ->
  let base := buffer a in let hi := hi_of a in let y := start_of l2 hi in
  let L := low_end l1 (user_data b) in let H := high_start l2 hi in
  (base <= L <= user_data b /\ user_data b < y /\ y <= H <= hi) /\
  (forall i, in_use base (user_data b) l1 i -> i <= page_of base (L - 1)) /\
  (base < L -> in_use base (user_data b) l1 (page_of base (L - 1))) /\
  (forall i, in_use base hi l2 i -> page_of base H <= i) /\
  (H < hi -> in_use base hi l2 (page_of base H)).
Proof.
  intros Hwf Hc E. simpl. pose proof (start_of_le _ _ _ _ Hwf E) as Hy.
  destruct Hwf as [_ _ _ Hs Ht _]. rewrite E in *. rewrite start_of_app in Hs. simpl in Hs.
  apply tiled_app in Ht as (Ht1 & _ & _ & Ht2). simpl in Ht1.
  apply coalesced_app in Hc as (Hc1 & Hc2%coalesced_tail & _).
  pose proof (fun i => in_use_low (buffer a) l1 (user_data b) i Ht1 Hc1 Hs) as HL.
  pose proof (fun i => in_use_high (buffer a) l2 (hi_of a) i Ht2 Hc2) as HH.
  destruct (HL 0) as (? & _ & ?), (HH 0) as (? & _ & ?).
  split; [lia|]. split; [intros i; by apply HL|]. split; [done|].
  split; [intros i; by apply HH|done].
Qed.

(** Populating [s .. e) is what makes the new buffer usable, and nothing more. *)
Lemma in_use_carve a l1 b l2 b' r size :
  layout_wf a -> coalesced (buffers a) -> buffers a = l1 ++ b :: l2 -> free b = true ->
  free b' = false -> user_data b' = user_data b ->
  (forall x, x ∈ r -> free x = true) -> start_of (r ++ l2) (hi_of a) = user_data b + size ->
  start_of r (start_of l2 (hi_of a)) = user_data b + size ->
  0 < size <= start_of l2 (hi_of a) - user_data b ->
  let base := buffer a in let hi := hi_of a in
  let s := first_page base (user_data b) in
  let e := Z.min (first_page base (user_data b + size)) (page_of base (start_of l2 hi)) in
  (forall i, s <= i < e -> ~ in_use base hi (buffers a) i) /\
  (forall i, in_use base hi (l1 ++ b' :: r ++ l2) i <->
             in_use base hi (buffers a) i \/ s <= i < e) /\
  (0 <= s /\ e <= buffer_size a / PAGE_SIZE).
Proof.
  intros Hwf Hc E Hf Hf' Hd Hr Hst Hst2 Hsz base hi s e.
  destruct (in_use_around _ _ _ _ Hwf Hc E) as ((HL & Hby & HH) & Hl1 & Hl2 & Hh1 & Hh2).
  rewrite E in Hc. pose proof (coalesced_snoc _ _ _ Hc) as Hcs.
  apply coalesced_app in Hc as (_ & Hc2 & _).
  rewrite (low_end_free _ _ _ Hcs Hf) in *. rewrite (high_start_free _ _ _ Hc2 Hf) in *.
  fold base hi in HL, Hby, HH, Hl1, Hl2, Hh1, Hh2, Hst, Hst2, Hsz. destruct (wf_buffer _ Hwf) as [Hb Hbm], (wf_size _ Hwf) as [Hs Hsm].
  assert (Hr0 : forall i, ~ in_use base (start_of l2 hi) r i).
  { intros i (c & sz & Hin & Hcf & _). rewrite Hr in Hcf; [done|].
    clear -Hin. induction r as [|d r IH]; simpl in *; [set_solver|].
    apply elem_of_cons in Hin as [[= -> ->]|Hin]; [left|right; auto]. }
  assert (HP : PAGE_SIZE = 4096) by done.
  assert (Hhi : hi = base + PAGE_SIZE * (buffer_size a / PAGE_SIZE)).
  { unfold hi, hi_of, base. rewrite HP in *. dlia. }
  assert (Hold : forall i, in_use base hi (buffers a) i <->
    in_use base (user_data b) l1 i \/ in_use base hi l2 i).
  { intros i. rewrite E, in_use_app, in_use_cons, Hf. simpl. naive_solver. }
  assert (Hnew : forall i, in_use base hi (l1 ++ b' :: r ++ l2) i <->
    in_use base (user_data b) l1 i \/ in_use base hi l2 i \/
    page_of base (user_data b) <= i <= page_of base (user_data b + size - 1)).
  { intros i. rewrite in_use_app, in_use_cons, in_use_app. simpl. rewrite Hd, Hst.
    unfold touches. rewrite Hd.
    replace (user_data b + (user_data b + size - user_data b) - 1)
      with (user_data b + size - 1) by lia.
    specialize (Hr0 i). naive_solver. }
  unfold s, e, first_page in *. clear E Hr Hst Hst2.
  split; [|split].
  - intros i Hi. rewrite Hold. intros [Hu%Hl1|Hu%Hh1]; unfold page_of in *;
      rewrite HP in *; dlia.
  - intros i. rewrite Hnew, Hold. split; [|].
    + intros [?|[?|Hi]]; [tauto..|].
      destruct (Z.le_gt_cases (first_page base (user_data b)) i) as [Hge|Hlt]; unfold first_page in *.
      * destruct (Z.le_gt_cases (page_of base (start_of l2 hi)) i) as [Hge'|Hlt'].
        -- left. right. assert (i = page_of base (start_of l2 hi)) as ->.
           { unfold page_of in *. rewrite HP in *. dlia. }
           apply Hh2. unfold page_of in *. rewrite HP in *. dlia.
        -- right. unfold page_of in *. rewrite HP in *. dlia.
      * left. left. assert (i = page_of base (user_data b - 1)) as ->.
        { unfold page_of in *. rewrite HP in *. dlia. }
        apply Hl2. unfold page_of in *. rewrite HP in *. dlia.
    + intros [[?|?]|Hi]; [tauto..|]. right. right. unfold page_of in *. rewrite HP in *. dlia.
  - unfold page_of, base in *. rewrite HP in *. dlia.
Qed.

(** ** Sizes and the free tree across a change of the list *)

Lemma sorted_filter {A} (R : A -> A -> Prop) P `{!forall x, Decision (P x)} (l : list A) :
  StronglySorted R l -> StronglySorted R (filter P l).
Proof.
  induction 1 as [|x l _ IH HF]; [constructor|]. destruct (decide (P x)).
  - rewrite filter_cons_True by done. constructor; [done|].
    rewrite Forall_forall in *. intros y [_ Hy]%list_elem_of_filter. auto.
  - by rewrite filter_cons_False.
Qed.

Lemma sorted_sublist {A} (R : A -> A -> Prop) (k l : list A) :
  sublist k l -> StronglySorted R l -> StronglySorted R k.
Proof.
  induction 1 as [|x k l Hs IH|x k l Hs IH]; [done|..]; rewrite ?StronglySorted_cons; [|tauto].
  intros [HF HS]. split; [|auto]. rewrite Forall_forall in *. intros y Hy. apply HF.
  by eapply elem_of_submseteq, sublist_submseteq.
Qed.

Lemma sorted_by_ext (f g : ptr -> Z) l :
  (forall n, n ∈ l -> f n = g n) ->
  StronglySorted (fun n m => f n <= f m) l -> StronglySorted (fun n m => g n <= g m) l.
Proof.
  intros Hfg HS. induction HS as [|x l _ IH HF]; constructor.
  - apply IH. intros n Hn. apply Hfg. set_solver.
  - rewrite Forall_forall in *. intros y Hy. rewrite <- !Hfg by set_solver. auto.
Qed.

Lemma sorted_by_insert (f : ptr -> Z) n A C :
  StronglySorted (fun x y => f x <= f y) (A ++ C) ->
  (forall m, m ∈ A -> f m <= f n) -> (forall m, m ∈ C -> f n < f m) ->
  StronglySorted (fun x y => f x <= f y) (A ++ n :: C).
Proof.
  intros HS HA HC. induction A as [|x A IH]; simpl in *.
  - constructor; [done|]. apply Forall_forall. intros m Hm. apply Z.lt_le_incl. auto.
  - apply StronglySorted_cons in HS as [HF HS]. constructor.
    + apply IH; [done|]. intros m Hm. apply HA. set_solver.
    + rewrite Forall_forall in *. intros m [Hm|[->|Hm]%elem_of_cons]%elem_of_app.
      * apply HF. set_solver.
      * apply HA. set_solver.
      * apply HF. set_solver.
Qed.

(** Replacing a segment of the list keeps the sizes of the others. *)
Lemma size_of_replace a a' l1 m m' l2 n :
  layout_wf a -> layout_wf a' -> hi_of a' = hi_of a ->
  buffers a = l1 ++ m ++ l2 -> buffers a' = l1 ++ m' ++ l2 ->
  start_of (m' ++ l2) (hi_of a) = start_of (m ++ l2) (hi_of a) ->
  n ∈ ids l1 \/ n ∈ ids l2 -> size_of a' n = size_of a n.
Proof.
  intros Hwf Hwf' Hhi E E' Hst [Hn|Hn]; apply ids_split in Hn as (b & k1 & k2 & -> & <-).
  - rewrite <- app_assoc in E, E'. simpl in E, E'.
    rewrite (size_of_mid _ _ _ _ Hwf E), (size_of_mid _ _ _ _ Hwf' E').
    by rewrite Hhi, !(start_of_app k2), Hst.
  - replace (l1 ++ m ++ k1 ++ b :: k2) with ((l1 ++ m ++ k1) ++ b :: k2) in E
      by (by rewrite <- !app_assoc).
    replace (l1 ++ m' ++ k1 ++ b :: k2) with ((l1 ++ m' ++ k1) ++ b :: k2) in E'
      by (by rewrite <- !app_assoc).
    by rewrite (size_of_mid _ _ _ _ Hwf E), (size_of_mid _ _ _ _ Hwf' E'), Hhi.
Qed.

Section FreeTree.
Context `{RbTree}.

Definition by_size (a : binder_alloc) (l : list ptr) : Prop :=
  StronglySorted (fun n m => size_of a n <= size_of a m) l.

(** Inserting a free buffer keeps the tree ordered by size. *)
Lemma insert_free_sorted a n b :
  layout_wf a -> find_buf (buffers a) n = Some b -> free b = true ->
  members a true (inorder (free_buffers a)) -> by_size a (inorder (free_buffers a)) ->
  exists t, binder_insert_free_buffer a n = Some (a <| free_buffers := t |>) /\
    Permutation (inorder t) (n :: inorder (free_buffers a)) /\ by_size a (inorder t).
Proof.
  intros Hwf Hb Hf Hm HS.
  destruct (monotone_split (fun m => size_of a n <? size_of a m) (inorder (free_buffers a)))
    as (A & C & E & HA & HC).
  { induction HS as [|x l _ IH HF]; constructor.
    - apply IH. intros m Hin. apply Hm. set_solver.
    - rewrite Forall_forall in *. intros y Hy. specialize (HF y Hy).
      rewrite !Z.ltb_lt. lia. }
  assert (HA' : forall m, m ∈ A -> size_of a m <= size_of a n).
  { intros m Hin. by apply Z.ltb_ge, HA. }
  assert (HC' : forall m, m ∈ C -> size_of a n < size_of a m).
  { intros m Hin. by apply Z.ltb_lt, HC. }
  rewrite E in *.
  destruct (insert_free_spec a n b A C) as (t & -> & Et); try done.
  exists t. rewrite Et. split; [done|]. split; [symmetry; apply Permutation_middle|].
  by apply sorted_by_insert.
Qed.
End FreeTree.

(** ** Carving the new buffer out of a free one *)

(** A change of the list that keeps the range. *)
Lemma layout_wf_change a a' :
  layout_wf a -> buffer a' = buffer a -> buffer_size a' = buffer_size a ->
  start_of (buffers a') (hi_of a) = buffer a -> tiled (buffers a') (hi_of a) ->
  NoDup (ids (buffers a')) -> layout_wf a'.
Proof.
  intros [H1 H2 H3 _ _ _] E1 E2 Hs Ht Hn.
  assert (Hhi : hi_of a' = hi_of a) by (unfold hi_of; congruence).
  constructor; rewrite ?Hhi, ?E1, ?E2; done.
Qed.

Lemma size_of_same a a' n :
  buffer a' = buffer a -> buffer_size a' = buffer_size a -> buffers a' = buffers a ->
  size_of a' n = size_of a n.
Proof.
  intros E1 E2 E3. unfold size_of, binder_alloc_buffer_size. by rewrite E1, E2, E3.
Qed.

Lemma stored_size_exact b :
  0 <= data_size b < 2 ^ 64 -> 0 <= offsets_size b < 2 ^ 64 ->
  0 <= extra_buffers_size b < 2 ^ 64 ->
  exact_size (data_size b) (offsets_size b) (extra_buffers_size b) < 2 ^ 64 ->
  stored_size b = exact_size (data_size b) (offsets_size b) (extra_buffers_size b).
Proof.
  intros Hd Ho He Hx. unfold stored_size, exact_size in *.
  pose proof (round8_bounds (data_size b)). pose proof (round8_bounds (offsets_size b)).
  pose proof (round8_bounds (extra_buffers_size b)).
  destruct (ALIGN8_cases _ Hd) as [[-> ?]|[-> ?]]; [|lia].
  destruct (ALIGN8_cases _ Ho) as [[-> ?]|[-> ?]]; [|lia].
  destruct (ALIGN8_cases _ He) as [[-> ?]|[-> ?]]; [|lia].
  rewrite (u64_id (round8 _ + round8 _)) by lia. apply u64_id. lia.
Qed.

Lemma exact_size_mod8 d o e : exact_size d o e mod 8 = 0.
Proof. unfold exact_size, round8. dlia. Qed.

Lemma exact_size_nonneg d o e : 0 <= d -> 0 <= o -> 0 <= e -> 0 <= exact_size d o e.
Proof.
  intros. pose proof (round8_bounds d). pose proof (round8_bounds o). pose proof (round8_bounds e).
  unfold exact_size. lia.
Qed.

Lemma async_total_app sizeof l1 l2 :
  async_total sizeof (l1 ++ l2) = async_total sizeof l1 + async_total sizeof l2.
Proof. induction l1 as [|b l1 IH]; simpl; [done|]. rewrite IH. lia. Qed.

Lemma ids_not_free l1 b l2 n :
  NoDup (ids (l1 ++ b :: l2)) -> n ∈ ids l1 \/ n ∈ ids l2 -> n <> entry b.
Proof. intros [H1 H2]%NoDup_mid. naive_solver. Qed.

Lemma free_ids_in l n : n ∈ free_ids l -> n ∈ ids l.
Proof.
  unfold free_ids. intros (b & -> & [_ Hb]%list_elem_of_filter)%list_elem_of_fmap.
  by apply list_elem_of_fmap_2.
Qed.

Lemma filter_id {A} (P : A -> Prop) `{!forall x, Decision (P x)} (l : list A) :
  (forall x, x ∈ l -> P x) -> filter P l = l.
Proof.
  induction l as [|x l IH]; [done|]. intros Hl.
  rewrite filter_cons_True by set_solver. f_equal. apply IH. set_solver.
Qed.

(** Dropping [b] from the free ids of a list that contains it as free. *)
Lemma erase_free_ids l l1 b l2 :
  NoDup (ids (l1 ++ b :: l2)) -> free b = true ->
  Permutation l (free_ids (l1 ++ b :: l2)) ->
  Permutation (filter (fun m => m ≠ entry b) l) (free_ids (l1 ++ l2)).
Proof.
  intros Hnd Hf HP. rewrite HP. rewrite !free_ids_app.
  unfold free_ids at 2. rewrite filter_cons_True by done. simpl.
  rewrite filter_app, filter_cons_False by tauto.
  change (ids (filter (fun b => free b = true) l2)) with (free_ids l2).
  rewrite (filter_id _ (free_ids l1)), (filter_id _ (free_ids l2)); [done|..];
    intros n Hn%free_ids_in; eapply ids_not_free; eauto.
Qed.

(** The fields [binder_alloc_new_buf_locked] sets in the buffer it returns. *)
Definition claimed (b : binder_buffer) (d o e : Z) (is_async : bool) (p : Z) : binder_buffer :=
  b <| free := false |> <| allow_user_free := false |>
    <| data_size := d |> <| offsets_size := o |>
    <| async_transaction := is_async |> <| extra_buffers_size := e |> <| buf_pid := p |>.

(** The buffer a split leaves behind the new one. *)
Definition fresh_buffer (n : ptr) (addr : Z) : binder_buffer := {|
  entry := n; user_data := addr; free := true; clear_on_free := false;
  allow_user_free := false; async_transaction := false; transaction := None;
  data_size := 0; offsets_size := 0; extra_buffers_size := 0; buf_pid := 0 |}.

(** The part of the invariant about the list and the two trees. *)
Record trees_wf (a : binder_alloc) : Prop := {
  tw_layout : layout_wf a;
  tw_allocated : inorder (allocated_buffers a) = allocated_ids (buffers a);
  tw_free : Permutation (inorder (free_buffers a)) (free_ids (buffers a));
  tw_by_size : by_size a (inorder (free_buffers a));
}.

Lemma alloc_wf_trees {account} sizeof a : alloc_inv account sizeof a -> trees_wf a.
Proof. by intros []. Qed.

Lemma trees_wf_pages a ps h : trees_wf a -> trees_wf (with_pages a ps h).
Proof. intros [H ? ? ?]. constructor; try done. by eapply layout_wf_change; [exact H|..]; destruct H. Qed.

(** A free buffer stays in the tree with its size when the list around changes. *)
Lemma by_size_replace a a' l1 m m' l2 l :
  layout_wf a -> layout_wf a' -> hi_of a' = hi_of a ->
  buffers a = l1 ++ m ++ l2 -> buffers a' = l1 ++ m' ++ l2 ->
  start_of (m' ++ l2) (hi_of a) = start_of (m ++ l2) (hi_of a) ->
  (forall n, n ∈ l -> n ∈ ids l1 \/ n ∈ ids l2) -> by_size a l -> by_size a' l.
Proof.
  intros Hwf Hwf' Hhi E E' Hst Hin. apply sorted_by_ext. intros n Hn. symmetry.
  eapply (size_of_replace a a'); eauto.
Qed.

Section Carve.
Context `{RbTree}.

Lemma split_spec a l1 b l2 size new A C :
  inorder (free_buffers a) = A ++ entry b :: C -> (forall m, m ∈ A -> size_of a m < size) ->
  trees_wf a -> buffers a = l1 ++ b :: l2 -> free b = true ->
  0 < size < start_of l2 (hi_of a) - user_data b -> size mod 8 = 0 -> new ∉ ids (buffers a) ->
  let a1 := a <| buffers := l1 ++ b :: fresh_buffer new (user_data b + size) :: l2 |> in
  exists t, binder_insert_free_buffer a1 new = Some (a1 <| free_buffers := t |>) /\
    trees_wf (a1 <| free_buffers := t |>).
Proof.
  intros HAC HA [Hl Ha Hf Hb] E Hfree Hsz Hm Hnew. set (x := fresh_buffer new (user_data b + size)).
  intros a1. pose proof Hl as [H1 H2 H3 H4 H5 H6]. rewrite E in *.
  assert (Hl1 : layout_wf a1).
  { eapply layout_wf_change; [exact Hl|done|done|..]; unfold a1; simpl.
    - by rewrite start_of_app in *.
    - apply tiled_app in H5 as (Ht1 & Hm8 & Hlt & Ht2). apply tiled_app. split; [done|].
      simpl. split_and?; [done|lia|dlia|lia|done].
    - rewrite map_app in *. simpl in *. rewrite (cons_middle (entry b)), app_assoc.
      rewrite <- Permutation_middle, <- app_assoc. by apply NoDup_cons. }
  assert (Hfind : find_buf (buffers a1) new = Some x).
  { unfold a1. simpl. rewrite (cons_middle b l1), app_assoc. apply (find_buf_mid _ x).
    rewrite <- app_assoc. apply Hl1. }
  assert (Hst : forall n, n ∈ free_ids (buffers a) -> n <> entry b -> n ∈ ids l1 \/ n ∈ ids l2).
  { intros n Hn Hne. apply free_ids_in in Hn. rewrite E, map_app in Hn. simpl in Hn. set_solver. }
  assert (Hin : forall n, n ∈ inorder (free_buffers a) -> n ∈ free_ids (buffers a)).
  { intros n Hn. by rewrite E, <- Hf. }
  destruct (insert_free_sorted a1 new x) as (t & Et & Hp & Hs); [done..| | |].
  - intros n Hn. destruct (free_ids_members a1 (free_ids (buffers a1)) Hl1 (Permutation_refl _) n)
      as (c & Hc & Hfc); [|by exists c].
    unfold a1. simpl. change (n ∈ inorder (free_buffers a)) in Hn. rewrite Hf in Hn.
    rewrite free_ids_app in *. unfold free_ids in *. simpl in *.
    rewrite !filter_cons_True in * by done. set_solver.
  - (* the split buffer shrinks in place *)
    change (by_size a1 (inorder (free_buffers a))).
    assert (Hnd : NoDup (A ++ entry b :: C)).
    { rewrite <- HAC, Hf. unfold free_ids.
      eapply sublist_NoDup; [exact H6|]. apply fmap_sublist, sublist_filter. }
    assert (Hnb : forall n, n ∈ A ++ C -> n ∈ ids l1 \/ n ∈ ids l2).
    { intros n Hn. apply Hst; [apply Hin; rewrite HAC; set_solver|].
      intros ->. rewrite <- Permutation_middle in Hnd. by apply NoDup_cons in Hnd as [? _]. }
    assert (Hsame : forall n, n ∈ A ++ C -> size_of a1 n = size_of a n).
    { intros n Hn. eapply (size_of_replace a a1 l1 [b] [b; x] l2); try done. by apply Hnb. }
    assert (Hsb : size_of a1 (entry b) = size).
    { rewrite (size_of_mid a1 l1 b (x :: l2)) by done. simpl. lia. }
    unfold by_size in *. rewrite HAC in *. apply sorted_by_insert.
    + apply (sorted_by_ext (size_of a)); [intros; symmetry; by apply Hsame|].
      eapply sorted_sublist; [|exact Hb]. apply sublist_app; [done|]. by constructor.
    + intros m Hm'. rewrite (Hsame m), Hsb by (apply elem_of_app; auto). apply Z.lt_le_incl. auto.
    + intros m Hm'. rewrite (Hsame m), Hsb by (apply elem_of_app; auto).
      apply StronglySorted_app_1_r, StronglySorted_cons in Hb as [HF _].
      rewrite Forall_forall in HF. specialize (HF m Hm').
      rewrite (size_of_mid a l1 b l2) in HF by done. lia.
  - exists t. split; [done|]. constructor.
    + by eapply layout_wf_change; [exact Hl1|..]; destruct Hl1.
    + simpl. rewrite Ha. rewrite !allocated_ids_app. f_equal.
    + simpl. rewrite Hp. simpl. change (free_buffers a1) with (free_buffers a). rewrite Hf.
      rewrite !free_ids_app. unfold free_ids. rewrite !filter_cons_True by done. simpl.
      rewrite Permutation_middle. f_equiv. apply perm_swap.
    + done.
Qed.

(** Taking a free buffer out of the free tree and into the allocated one. *)
Lemma claim_spec a l1 b l2 d o e is_async p :
  trees_wf a -> buffers a = l1 ++ b :: l2 -> free b = true ->
  let a1 := a <| free_buffers ::= rb_erase (entry b) |>
              <| buffers ::= upd_buf (fun x =>
                   x <| free := false |> <| allow_user_free := false |>) (entry b) |> in
  exists t a2, binder_insert_allocated_buffer_locked a1 (entry b) = Some a2 /\
    a2 <| buffers ::= upd_buf (fun x =>
        x <| data_size := d |> <| offsets_size := o |>
          <| async_transaction := is_async |> <| extra_buffers_size := e |>
          <| buf_pid := p |>) (entry b) |> =
      a1 <| buffers := l1 ++ claimed b d o e is_async p :: l2 |> <| allocated_buffers := t |> /\
    trees_wf (a1 <| buffers := l1 ++ claimed b d o e is_async p :: l2 |>
                 <| allocated_buffers := t |>).
Proof.
  intros [Hl Ha Hf Hs] E Hfree. pose proof (wf_ids _ Hl) as Hnd. rewrite E in Hnd.
  set (b1 := b <| free := false |> <| allow_user_free := false |>). intros a1.
  assert (Hids : forall c, entry c = entry b -> NoDup (ids (l1 ++ c :: l2))).
  { intros c Hc. rewrite map_app in *. simpl in *. by rewrite Hc. }
  assert (E1 : buffers a1 = l1 ++ b1 :: l2).
  { unfold a1. simpl. rewrite E. by apply upd_buf_mid. }
  assert (Hlay : forall a' c, buffer a' = buffer a -> buffer_size a' = buffer_size a ->
    buffers a' = l1 ++ c :: l2 -> entry c = entry b -> user_data c = user_data b -> layout_wf a').
  { intros a' c H1 H2 H3 H4 H5. destruct Hl as [? ? ? Hst Ht _]. rewrite E in Hst, Ht.
    eapply (layout_wf_change a); [by constructor; rewrite ?E|done|done|..]; rewrite H3; [| |auto].
    - rewrite start_of_app in *. simpl in *. by rewrite H5.
    - rewrite tiled_app in *. simpl in *. by rewrite H5. }
  assert (Hl1 : layout_wf a1) by (by eapply Hlay).
  destruct (insert_allocated_spec a1 l1 b1 l2) as (t & Et & Ei); [done|done|done|..].
  { change (inorder (allocated_buffers a) = allocated_ids l1 ++ allocated_ids l2).
    rewrite Ha, E, allocated_ids_app. f_equal. unfold allocated_ids.
    by rewrite filter_cons_False by (by rewrite Hfree). }
  exists t, (a1 <| allocated_buffers := t |>). change (entry b) with (entry b1) at 1.
  split; [done|]. set (b2 := claimed b d o e is_async p).
  split; [|constructor].
  - transitivity (a1 <| allocated_buffers := t |> <| buffers := l1 ++ b2 :: l2 |>); [|done].
    transitivity (a1 <| allocated_buffers := t |> <| buffers :=
      upd_buf (fun x => x <| data_size := d |> <| offsets_size := o |>
          <| async_transaction := is_async |> <| extra_buffers_size := e |>
          <| buf_pid := p |>) (entry b1) (buffers a1) |>); [done|].
    rewrite E1, upd_buf_mid by (by apply Hids). done.
  - by eapply (Hlay _ b2).
  - simpl. rewrite Ei. rewrite !allocated_ids_app. done.
  - simpl. rewrite inorder_erase. rewrite E in Hf.
    rewrite (erase_free_ids _ _ _ _ Hnd Hfree Hf). by rewrite !free_ids_app.
  - assert (Hn : forall n, n ∈ filter (fun m => m ≠ entry b) (inorder (free_buffers a)) ->
      n ∈ ids l1 \/ n ∈ ids l2).
    { intros n [Hne Hn]%list_elem_of_filter. rewrite Hf in Hn. apply free_ids_in in Hn.
      rewrite E, map_app in Hn. apply elem_of_app in Hn as [?|[?|?]%elem_of_cons]; auto. done. }
    simpl. rewrite inorder_erase.
    eapply (by_size_replace a _ l1 [b] [b2] l2); [done|by eapply (Hlay _ b2)|done..|].
    by apply sorted_filter.
Qed.
End Carve.

(** ** The whole allocation *)

Section Allocate.
Context `{RbTree} (sizeof : Z) (Hsizeof : 0 <= sizeof < 2 ^ 32) {account : bool}.

(** The allocator keeps its range and its owner. *)
Definition same_range (a a' : binder_alloc) : Prop :=
  buffer a' = buffer a /\ buffer_size a' = buffer_size a /\ vma a' = vma a /\
  vma_vm_mm a' = vma_vm_mm a /\ pid a' = pid a.

(** [a'] is [a] with the first [size] bytes of the hole [b] allocated; the
    asynchronous space is an unsigned counter. *)
Definition carved (a : binder_alloc) (size d o e : Z) (is_async : bool) (p : Z)
    (l1 : list binder_buffer) (b : binder_buffer) (l2 : list binder_buffer)
    (a' : binder_alloc) : Prop :=
  let bsize := start_of l2 (hi_of a) - user_data b in
  exists rest, buffers a' = l1 ++ claimed b d o e is_async p :: rest ++ l2 /\
    ((rest = [] /\ size = bsize) \/
     exists m, rest = [fresh_buffer m (user_data b + size)] /\ m ∉ ids (buffers a) /\
       size < bsize) /\
    free_async_space a' = u64 (free_async_space a - (if is_async then size + sizeof else 0)).

(** The outcome of a successful allocation of [size] bytes: the front of a
    smallest hole that is large enough. *)
Definition new_buffer_at (a : binder_alloc) (size d o e : Z) (is_async : bool) (p : Z)
    (n : ptr) (a' : binder_alloc) : Prop :=
  exists l1 b l2, entry b = n /\ free b = true /\ buffers a = l1 ++ b :: l2 /\
    size <= start_of l2 (hi_of a) - user_data b /\
    (forall c sz, (c, sz) ∈ sized (buffers a) (hi_of a) -> free c = true -> size <= sz ->
       start_of l2 (hi_of a) - user_data b <= sz) /\
    carved a size d o e is_async p l1 b l2 a'.

Lemma async_total_nonneg l :
  (forall b, b ∈ l -> 0 <= stored_size b) -> 0 <= async_total sizeof l.
Proof.
  induction l as [|b l IH]; simpl; [lia|]. intros Hl.
  assert (0 <= async_total sizeof l) by (apply IH; intros; apply Hl; set_solver).
  assert (0 <= stored_size b) by (apply Hl; set_solver).
  unfold async_charge. destruct (free b), (async_transaction b); lia.
Qed.

Lemma stored_size_nonneg b : 0 <= stored_size b.
Proof. apply u64_range. Qed.

Lemma coalesced_carve l1 b b' rest l2 :
  coalesced (l1 ++ b :: l2) -> free b = true -> free b' = false ->
  rest = [] \/ (exists x, rest = [x] /\ free x = true) -> coalesced (l1 ++ b' :: rest ++ l2).
Proof.
  intros Hc Hb Hb' Hr. pose proof (coalesced_app_l _ _ Hc) as Hc1.
  apply coalesced_app in Hc as (_ & Hc2 & _). apply coalesced_app.
  split; [done|]. split; [|intros p _ [_ ?]; congruence].
  assert (Hc3 : coalesced (rest ++ l2)).
  { destruct Hr as [->|(x & -> & Hx)]; [by eapply coalesced_tail|].
    destruct l2; simpl in *; [done|]. rewrite Hx. by rewrite Hb in Hc2. }
  simpl. destruct (rest ++ l2) eqn:E; [done|]. split; [|done]. intros [? _]. congruence.
Qed.

Lemma alloc_wf_carved a a' size d o e is_async p l1 b l2 :
  alloc_inv account sizeof a -> buffers a = l1 ++ b :: l2 -> free b = true ->
  0 <= d < 2 ^ 64 -> 0 <= o < 2 ^ 64 -> 0 <= e < 2 ^ 64 ->
  exact_size d o e <= size -> size < 2 ^ 64 ->
  (account = true -> is_async = true -> size + sizeof <= free_async_space a) ->
  same_range a a' -> warned a' = warned a -> trees_wf a' ->
  pages_are a' (in_use (buffer a) (hi_of a) (buffers a')) ->
  carved a size d o e is_async p l1 b l2 a' -> alloc_inv account sizeof a'.
Proof.
  intros [Hl Hp Hc Hfit Ha Hf Hs Hrange Hasync Hmm Hw] E Hfree Hd Ho He Hx Hx2 Hspace
    (R1 & R2 & R3 & R4 & R5) Hw' [Hl' Ha' Hf' Hs'] Hp' (rest & Eb & Hrest & Easync).
  assert (Hhi : hi_of a' = hi_of a) by (unfold hi_of; congruence).
  assert (Hstart : start_of (rest ++ l2) (hi_of a) = user_data b + size).
  { destruct Hrest as [[-> ->]|(m & -> & _ & _)]; simpl; lia. }
  assert (Hrf : forall x, x ∈ rest -> free x = true).
  { destruct Hrest as [[-> _]|(m & -> & _)]; [by intros ? ?%elem_of_nil|].
    by intros x ->%list_elem_of_singleton. }
  set (b' := claimed b d o e is_async p) in *.
  assert (Hst : stored_size b' = exact_size d o e) by (apply stored_size_exact; simpl; lia).
  constructor; try done.
  - rewrite pages_wf_are. by rewrite R1, Hhi.
  - rewrite Eb. rewrite E in Hc. eapply coalesced_carve; [done..|].
    destruct Hrest as [[-> _]|(m & -> & _)]; [by left|right; by eexists].
  - rewrite Hhi, Eb. intros c sz Hin Hcf. rewrite E, sized_app in Hfit. simpl in Hfit.
    rewrite sized_app in Hin. simpl in Hin. rewrite sized_app in Hin.
    apply elem_of_app in Hin as [Hin|[Hin|[Hin|Hin]%elem_of_app]%elem_of_cons].
    + apply Hfit; [|done]. apply elem_of_app. by left.
    + injection Hin as -> ->. rewrite Hst, Hstart. lia.
    + assert (free c = true); [|congruence]. apply Hrf. clear -Hin.
      induction rest as [|x rest IH]; simpl in *; [by apply elem_of_nil in Hin|].
      apply elem_of_cons in Hin as [[= -> ->]|Hin]; [left|right; auto].
    + apply Hfit; [|done]. apply elem_of_app. right. right. done.
  - rewrite Easync. apply u64_range.
  - intros Hacc. specialize (Hasync Hacc). specialize (Hspace Hacc).
    pose proof (exact_size_nonneg d o e ltac:(lia) ltac:(lia) ltac:(lia)) as Hx0.
    rewrite Easync, R2, Eb, u64_id by (clear - Hrange Hspace Hx Hx0 Hsizeof; destruct is_async; [specialize (Hspace eq_refl)|]; lia).
    rewrite E, async_total_app in Hasync. simpl in Hasync.
    rewrite !async_total_app. simpl. rewrite async_total_app.
    assert (Hr0 : async_total sizeof rest = 0).
    { destruct Hrest as [[-> _]|(m & -> & _)]; done. }
    rewrite Hr0.
    assert (Hb0 : async_charge sizeof b = 0) by (unfold async_charge; by rewrite Hfree).
    unfold async_charge at 1. rewrite Hst. simpl. destruct is_async; [specialize (Hspace eq_refl)|]; lia.
  - by rewrite R3, R4.
  - congruence.
Qed.

(** The tail of the function, from a state with its trees in order. *)
Definition finish_carve (alloc : binder_alloc) (b : ptr) (size d o e : Z) (is_async : bool)
    (p : Z) : option ((ptr + Z) * binder_alloc) :=
  let alloc := alloc <| free_buffers ::= rb_erase b |> in
  let alloc := alloc <| buffers ::= upd_buf (fun x =>
    x <| free := false |> <| allow_user_free := false |>) b |> in
  alloc ← binder_insert_allocated_buffer_locked alloc b;
  let alloc := alloc <| buffers ::= upd_buf (fun x =>
    x <| data_size := d |> <| offsets_size := o |>
      <| async_transaction := is_async |> <| extra_buffers_size := e |>
      <| buf_pid := p |>) b |> in
  let alloc := if is_async
    then alloc <| free_async_space ::= fun a => u64 (a - u64 (size + sizeof)) |>
    else alloc in
  Some (inl b, alloc).

Lemma finish_carve_spec a0 a l1 b rest l2 size d o e is_async p :
  alloc_inv account sizeof a0 -> buffers a0 = l1 ++ b :: l2 -> free b = true ->
  0 <= d < 2 ^ 64 -> 0 <= o < 2 ^ 64 -> 0 <= e < 2 ^ 64 ->
  exact_size d o e <= size -> 0 <= size < 2 ^ 32 ->
  (account = true -> is_async = true -> size + sizeof <= free_async_space a0) ->
  trees_wf a -> same_range a0 a -> warned a = warned a0 ->
  free_async_space a = free_async_space a0 ->
  buffers a = l1 ++ b :: rest ++ l2 ->
  ((rest = [] /\ size = start_of l2 (hi_of a0) - user_data b) \/
   exists m, rest = [fresh_buffer m (user_data b + size)] /\ m ∉ ids (buffers a0) /\
     size < start_of l2 (hi_of a0) - user_data b) ->
  pages_are a (in_use (buffer a0) (hi_of a0) (l1 ++ claimed b d o e is_async p :: rest ++ l2)) ->
  exists a', finish_carve a (entry b) size d o e is_async p = Some (inl (entry b), a') /\
    alloc_inv account sizeof a' /\ same_range a0 a' /\ carved a0 size d o e is_async p l1 b l2 a'.
Proof.
  intros Hwf E Hfree Hd Ho He Hx Hsz Hsp Htw Hr Hw Ha Eb Hrest Hp.
  destruct (claim_spec a l1 b (rest ++ l2) d o e is_async p Htw Eb Hfree)
    as (t & a2 & E2 & E3 & Htw2).
  unfold finish_carve. cbv zeta. rewrite E2. mstep. rewrite E3.
  set (f := a <| free_buffers ::= _ |> <| buffers ::= _ |> <| buffers := _ |>
              <| allocated_buffers := t |>) in *.
  assert (Hf : exists a', (if is_async
      then f <| free_async_space ::= fun x => u64 (x - u64 (size + sizeof)) |> else f) = a' /\
    a' = f <| free_async_space := u64 (free_async_space a0 - (if is_async then size + sizeof else 0)) |>).
  { eexists. split; [reflexivity|].
    pose proof (wf_async _ _ Hwf) as Ha0.
    assert (Hset : forall x v, free_async_space x = v -> x = x <| free_async_space := v |>)
      by (intros [] ? <-; done).
    destruct is_async; [|apply Hset; rewrite Z.sub_0_r, u64_id by lia; done].
    transitivity (f <| free_async_space := u64 (free_async_space a - u64 (size + sizeof)) |>); [done|].
    by rewrite Ha, (u64_id (size + sizeof)) by lia. }
  destruct Hf as (a' & -> & ->).
  set (a' := f <| free_async_space := _ |>). exists a'. split; [done|].
  assert (Hc : carved a0 size d o e is_async p l1 b l2 a') by (exists rest; done).
  assert (Hr' : same_range a0 a') by done.
  split; [|done]. apply (alloc_wf_carved a0 a' size d o e is_async p l1 b l2); try done; [lia|].
  destruct Htw2 as [H1 H2 H3 H4]. constructor; try done.
  by eapply layout_wf_change; [exact H1|..]; destruct H1.
Qed.

Lemma same_range_pages a ps h : same_range a (with_pages a ps h).
Proof. by repeat split. Qed.

(** Pages [s .. e) of a hole were idle, so giving them up restores the state. *)
Lemma release_pages_spec env a ps high s e :
  alloc_inv account sizeof a ->
  pages_are (with_pages a ps high)
    (fun i => in_use (buffer a) (hi_of a) (buffers a) i \/ s <= i < e) ->
  (forall i, s <= i < e -> ~ in_use (buffer a) (hi_of a) (buffers a) i) ->
  0 <= s -> e <= buffer_size a / PAGE_SIZE ->
  exists ret a', binder_update_page_range env (with_pages a ps high) false
      (buffer a + PAGE_SIZE * s) (buffer a + PAGE_SIZE * e) = Some (ret, a') /\
    alloc_inv account sizeof a' /\ exists ps' h', a' = with_pages a ps' h'.
Proof.
  intros Hwf Hp Hi Hs He.
  destruct (free_pages_spec env (with_pages a ps high) _ s e Hp) as (ret & ps' & E & Hps).
  - intros _. split; [done|]. destruct Hp as [Hz _]. rewrite Hz. done.
  - intros j Hj. by right.
  - change (buffer (with_pages a ps high)) with (buffer a) in E. rewrite E.
    rewrite with_pages_twice in *. eexists _, _. split; [done|]. split; [|by eexists _, _].
    destruct Hwf as [Hl _ ? ? ? ? ? ? ? ? ?]. constructor; try done.
    + by eapply layout_wf_change; [exact Hl|..]; destruct Hl.
    + apply pages_wf_are. eapply pages_are_ext; [|exact Hps]. simpl. intros j.
      specialize (Hi j). tauto.
Qed.

Lemma carve_buffer_spec env a ps high l1 b l2 A C size d o e is_async p :
  alloc_inv account sizeof a -> buffers a = l1 ++ b :: l2 -> free b = true ->
  inorder (free_buffers a) = A ++ entry b :: C ->
  (size_of a (entry b) = size \/ forall m, m ∈ A -> size_of a m < size) ->
  0 <= d < 2 ^ 64 -> 0 <= o < 2 ^ 64 -> 0 <= e < 2 ^ 64 ->
  size = Z.max (exact_size d o e) 8 ->
  size <= start_of l2 (hi_of a) - user_data b ->
  (forall n, kzalloc env = Some n -> n ∉ ids (buffers a)) ->
  (account = true -> is_async = true -> size + sizeof <= free_async_space a) ->
  let base := buffer a in let hi := hi_of a in
  let s := first_page base (user_data b) in
  let e' := Z.min (first_page base (user_data b + size)) (page_of base (start_of l2 hi)) in
  pages_are (with_pages a ps high) (fun i => in_use base hi (buffers a) i \/ s <= i < e') ->
  PAGE_ALIGN (user_data b) = base + PAGE_SIZE * s ->
  exists r a', carve_buffer sizeof env (with_pages a ps high) b
      (start_of l2 hi - user_data b) size d o e is_async p (base + PAGE_SIZE * e') = Some (r, a') /\
    alloc_inv account sizeof a' /\ same_range a a' /\
    ((r = inl (entry b) /\ carved a size d o e is_async p l1 b l2 a') \/
     (r = inr (- ENOMEM) /\ kzalloc env = None /\ exists ps' h', a' = with_pages a ps' h')).
Proof.
  intros Hwf E Hfree HAC HA Hd Ho He Esz Hfit Hnew Hsp base hi s e' Hp Hal.
  pose proof (alloc_wf_trees _ _ Hwf) as Htw. pose proof (wf_layout _ _ Hwf) as Hl.
  assert (Hm8 : size mod 8 = 0) by (pose proof (exact_size_mod8 d o e); subst size; dlia).
  pose proof (start_of_le _ _ _ _ Hl E) as Hlt.
  assert (Hsz32 : 0 <= size < 2 ^ 32).
  { destruct (wf_size _ Hl) as [Hbs _], (layout_range a b Hl ltac:(rewrite E; set_solver)).
    destruct (wf_start _ Hl). unfold hi_of, SZ_4M in *.
    assert (buffer a <= user_data b); [|lia].
    destruct (tiled_bounds _ _ (wf_tiled _ Hl)) as [_ Hb]. rewrite (wf_start _ Hl) in Hb.
    apply (Hb b). rewrite E. set_solver. }
  assert (Hpages : forall rest, (forall x, x ∈ rest -> free x = true) ->
    start_of (rest ++ l2) hi = user_data b + size ->
    start_of rest (start_of l2 hi) = user_data b + size ->
    pages_are (with_pages a ps high)
      (in_use base hi (l1 ++ claimed b d o e is_async p :: rest ++ l2)) /\
    (forall i, s <= i < e' -> ~ in_use base hi (buffers a) i) /\
    0 <= s /\ e' <= buffer_size a / PAGE_SIZE).
  { intros rest Hrf Hst Hst2.
    destruct (in_use_carve a l1 b l2 (claimed b d o e is_async p) rest size)
      as (H1 & H2 & H3 & H4); try done; [by destruct Hwf|lia|].
    split; [|done]. eapply pages_are_ext; [|exact Hp]. intros i. symmetry. apply H2. }
  assert (Hud : 0 < user_data b /\ hi < 2 ^ 62).
  { split; [|apply Hl]. apply (layout_range a b Hl). rewrite E. set_solver. }
  unfold carve_buffer.
  zcase; cbn [negb].
  - mstep. destruct (Hpages []) as [Hp1 _]; [by intros ? ?%elem_of_nil|simpl; lia|simpl; lia|].
    destruct (finish_carve_spec a (with_pages a ps high) l1 b [] l2 size d o e is_async p)
      as (a' & Ef & H1 & H2 & H3); try done; [lia|by apply trees_wf_pages|by left|].
    unfold finish_carve in Ef. rewrite Ef. eexists _, a'. split_and?; auto.
  - destruct (kzalloc env) as [new|] eqn:Hk; mstep.
    + specialize (Hnew new eq_refl).
      destruct (Hpages [fresh_buffer new (user_data b + size)]) as [Hp1 _];
        [by intros x ->%list_elem_of_singleton|done|done|].
      change (buffers (with_pages a ps high)) with (buffers a).
      destruct (split_spec (with_pages a ps high) l1 b l2 size new A C) as (t & Et & Htw1); try done.
      { destruct HA as [HA|HA]; [|done]. rewrite (size_of_mid a l1 b l2) in HA by done.
        unfold hi in *. lia. }
      { by apply trees_wf_pages. }
      { change (hi_of (with_pages a ps high)) with hi. unfold hi in *. lia. }
      rewrite (u64_id (user_data b + size)) by (unfold hi in *; lia).
      replace ((with_pages a ps high) <| buffers ::= _ |>) with
        ((with_pages a ps high) <| buffers := l1 ++ b :: fresh_buffer new (user_data b + size) :: l2 |>).
      2: { transitivity ((with_pages a ps high) <| buffers :=
             list_add (fresh_buffer new (user_data b + size)) (entry b) (buffers a) |>); [|done].
           rewrite E, list_add_mid; [done|]. rewrite <- E. apply Hl. }
      rewrite Et. mstep.
      destruct (finish_carve_spec a ((with_pages a ps high) <| buffers :=
          l1 ++ b :: fresh_buffer new (user_data b + size) :: l2 |> <| free_buffers := t |>)
          l1 b [fresh_buffer new (user_data b + size)] l2 size d o e is_async p)
        as (a' & Ef & H1 & H2 & H3); try done; [lia|right; exists new; split_and?; try done; unfold hi in *; lia|].
      unfold finish_carve in Ef. rewrite Ef. eexists _, a'. split_and?; auto.
    + destruct (Hpages [fresh_buffer 1%positive (user_data b + size)]) as (_ & Hi & Hs1 & He1);
        [by intros x ->%list_elem_of_singleton|done|done|].
      destruct (release_pages_spec env a ps high s e') as (ret & a' & E' & Hwf' & ps' & h' & ->);
        [done..|].
      fold base in E'. rewrite Hal, E'. mstep. eexists _, _. split; [done|]. split_and?; [done|apply same_range_pages|].
      right. split_and?; [done..|]. by eexists _, _.
Qed.

(** Why an allocation is refused. *)
Definition new_buffer_error (env : kenv) (a : binder_alloc) (d o e : Z) (is_async : bool)
    (err : Z) : Prop :=
  (err = - ESRCH /\ vma a = false) \/
  (err = - EINVAL /\ 2 ^ 64 <= exact_size d o e) \/
  (err = - ENOSPC /\ is_async = true /\
     free_async_space a < u64 (exact_size d o e + sizeof)) \/
  (err = - ENOSPC /\ forall c sz, (c, sz) ∈ sized (buffers a) (hi_of a) -> free c = true ->
     sz < Z.max (exact_size d o e) 8) \/
  (ptr_err err /\ (env_fails env \/ kzalloc env = None)).

Lemma sized_free_id a c sz :
  trees_wf a -> (c, sz) ∈ sized (buffers a) (hi_of a) -> free c = true ->
  entry c ∈ inorder (free_buffers a) /\ size_of a (entry c) = sz.
Proof.
  intros [Hl _ Hf _] Hin Hc.
  destruct (sized_size_of a c sz Hl Hin) as (l1 & l2 & E & ->).
  split; [|by eapply size_of_mid]. rewrite Hf. unfold free_ids.
  apply list_elem_of_fmap_2, list_elem_of_filter. split; [done|]. rewrite E. set_solver.
Qed.

Lemma best_fit_alloc a size :
  trees_wf a ->
  exists r, best_fit_search a size (free_buffers a) None = Some r /\
    match r with
    | None => forall c sz, (c, sz) ∈ sized (buffers a) (hi_of a) -> free c = true -> sz < size
    | Some n => exists l1 b l2 A C, entry b = n /\ free b = true /\ buffers a = l1 ++ b :: l2 /\
        size <= start_of l2 (hi_of a) - user_data b /\
        inorder (free_buffers a) = A ++ n :: C /\
        (size_of a n = size \/ forall m, m ∈ A -> size_of a m < size) /\
        (forall c sz, (c, sz) ∈ sized (buffers a) (hi_of a) -> free c = true -> size <= sz ->
           start_of l2 (hi_of a) - user_data b <= sz)
    end.
Proof.
  intros Htw. pose proof Htw as [Hl _ Hf Hs].
  assert (Hmem : members a true (inorder (free_buffers a))) by (by apply free_ids_members).
  destruct (best_fit_search_spec a size (free_buffers a) [] [] None) as (r & Er & Hr);
    try done; [by rewrite app_nil_r|by intros ? ?%elem_of_nil|].
  exists r. split; [done|]. rewrite app_nil_r in Hr. simpl in Hr. destruct r as [n|].
  - destruct Hr as (Hn & A & C & EA & HA).
    destruct (Hmem n) as (b & Hb & Hfb); [rewrite EA; set_solver|].
    apply find_buf_split in Hb as (Hbn & l1 & l2 & E).
    assert (Hsz : size_of a n = start_of l2 (hi_of a) - user_data b).
    { rewrite <- Hbn. by eapply size_of_mid. }
    exists l1, b, l2, A, C. rewrite <- Hsz. split_and?; try done.
    intros c sz Hin Hc Hge. destruct (sized_free_id a c sz Htw Hin Hc) as [Hid Hcs].
    unfold by_size in Hs. rewrite EA in *. apply elem_of_app in Hid as [Hid|[Hid|Hid]%elem_of_cons].
    + destruct HA as [HA|HA]; [lia|]. specialize (HA _ Hid). lia.
    + rewrite Hid in Hcs. lia.
    + apply StronglySorted_app_1_r, StronglySorted_cons in Hs as [HF _].
      rewrite Forall_forall in HF. specialize (HF _ Hid). lia.
  - intros c sz Hin Hc. destruct (sized_free_id a c sz Htw Hin Hc) as [Hid <-]. auto.
Qed.

Lemma new_buf_spec env a d o e is_async p :
  alloc_inv account sizeof a ->
  0 <= d < 2 ^ 64 -> 0 <= o < 2 ^ 64 -> 0 <= e < 2 ^ 64 ->
  (forall n, kzalloc env = Some n -> n ∉ ids (buffers a)) ->
  (account = true -> is_async = true -> 0 < exact_size d o e \/ 8 + sizeof <= free_async_space a) ->
  exists r a', binder_alloc_new_buf_locked sizeof env a d o e is_async p = Some (r, a') /\
    alloc_inv account sizeof a' /\ same_range a a' /\
    match r with
    | inl n => new_buffer_at a (Z.max (exact_size d o e) 8) d o e is_async p n a'
    | inr err => (exists ps h, a' = with_pages a ps h) /\
        new_buffer_error env a d o e is_async err
    end.
Proof.
  intros Hwf Hd Ho He Hnew Hsp. pose proof (alloc_wf_trees _ _ Hwf) as Htw.
  pose proof (wf_layout _ _ Hwf) as Hl.
  assert (Hrefuse : forall err, new_buffer_error env a d o e is_async err ->
    exists r a', Some (inr err, a) = Some (r, a') /\ alloc_inv account sizeof a' /\ same_range a a' /\
    match r with
    | inl n => new_buffer_at a (Z.max (exact_size d o e) 8) d o e is_async p n a'
    | inr err => (exists ps h, a' = with_pages a ps h) /\
        new_buffer_error env a d o e is_async err
    end).
  { intros err Herr. exists (inr err), a. split; [done|]. split; [done|]. split; [done|].
    split; [|done]. exists (pages a), (pages_high a). apply with_pages_id. }
  unfold binder_alloc_new_buf_locked. destruct (vma a) eqn:Hv; cbn [negb]; [|apply Hrefuse; by left].
  rewrite request_size_exact by done. zcase; [|apply Hrefuse; right; by left].
  destruct (is_async && (free_async_space a <? u64 (exact_size d o e + sizeof))) eqn:Has.
  { apply andb_true_iff in Has as [-> Has%Z.ltb_lt]. apply Hrefuse. right. right. by left. }
  cbv zeta. set (size := Z.max (exact_size d o e) 8).
  destruct (best_fit_alloc a size Htw) as (r & -> & Hr). mstep.
  destruct r as [n|]; [|apply Hrefuse; do 3 right; by left].
  destruct Hr as (l1 & b & l2 & A & C & <- & Hfb & E & Hfit & EA & HA & Hbest).
  assert (Hfind : find_buf (buffers a) (entry b) = Some b).
  { rewrite E. apply find_buf_mid. rewrite <- E. apply Hl. }
  rewrite Hfind. mstep. rewrite (buffer_size_mid a l1 b l2) by done. mstep.
  pose proof (layout_range a b Hl ltac:(rewrite E; set_solver)) as Hub.
  pose proof (start_of_le _ _ _ _ Hl E) as Hlt.
  destruct (wf_buffer _ Hl) as [Hb0 Hbm], (wf_size _ Hl) as [Hbs Hbsm].
  pose proof (wf_space _ Hl) as Hspace. unfold SZ_4M in Hbs.
  assert (Hlow : buffer a <= user_data b).
  { destruct (tiled_bounds _ _ (wf_tiled _ Hl)) as [_ Hx]. rewrite (wf_start _ Hl) in Hx.
    apply (Hx b). rewrite E. set_solver. }
  assert (Hx8 : 8 <= size) by (unfold size; lia).
  rewrite (u64_id (user_data b + (_ - _))) by lia.
  replace (user_data b + (start_of l2 (hi_of a) - user_data b)) with (start_of l2 (hi_of a)) by lia.
  rewrite (u64_id (user_data b + size)) by lia.
  rewrite (page_floor_index (buffer a)) by done.
  rewrite !(PAGE_ALIGN_index (buffer a)) by (done || lia).
  set (s := first_page (buffer a) (user_data b)).
  replace (Z.min (buffer a + PAGE_SIZE * first_page (buffer a) (user_data b + size)) _) with
    (buffer a + PAGE_SIZE * Z.min (first_page (buffer a) (user_data b + size))
       (page_of (buffer a) (start_of l2 (hi_of a)))) by (change PAGE_SIZE with 4096; lia).
  set (e' := Z.min _ _).
  destruct (in_use_carve a l1 b l2 (b <| free := false |>)
    [b <| user_data := user_data b + size |>] size) as (Hidle & _ & Hs0 & He0);
    try done; [by destruct Hwf|by intros x ->%list_elem_of_singleton|lia|].
  destruct (alloc_pages_spec env a _ s e' (proj1 (pages_wf_are a) (wf_pages _ _ Hwf)))
    as (ret & ps & high & -> & Hres); try done.
  { by rewrite (wf_npages _ (wf_pages _ _ Hwf)). }
  { by apply (wf_mm _ _ Hwf). }
  mstep. destruct Hres as [[-> Hps]|(Herr & Hfail & Hps)].
  - change (truth 0) with false. cbv iota. unfold e'.
    destruct (carve_buffer_spec env a ps high l1 b l2 A C size d o e is_async p)
      as (r & a' & -> & Hwf' & Hsame & Hr); try done.
    { intros Hacc ->. apply andb_false_iff in Has as [?|Has%Z.ltb_ge]; [done|].
      pose proof (exact_size_nonneg d o e ltac:(lia) ltac:(lia) ltac:(lia)).
      rewrite u64_id in Has by (unfold size in *; lia).
      specialize (Hsp Hacc eq_refl). pose proof (exact_size_mod8 d o e). unfold size. dlia. }
    { by apply PAGE_ALIGN_index; [lia|done|lia]. }
    exists r, a'. split; [done|]. split; [done|]. split; [done|].
    destruct Hr as [[-> Hc]|(-> & Hk & Hpg)].
    + by exists l1, b, l2.
    + split; [done|]. do 4 right. split; [by left|by right].
  - assert (Ht : truth ret = true) by (by destruct Herr as [-> | ->]). rewrite Ht.
    eexists _, _. split; [done|]. split; [|split; [apply same_range_pages|]].
    + destruct Hwf as [_ _ ? ? ? ? ? ? ? ?]. constructor; try done.
      * by eapply layout_wf_change; [exact Hl|..]; destruct Hl.
      * apply pages_wf_are. eapply pages_are_ext; [|exact Hps]. simpl. intros j.
        specialize (Hidle j). tauto.
    + split; [by eexists _, _|]. do 4 right. auto.
Qed.

End Allocate.
