(* ===== verification/BinderAllocFree.v ===== *)
(** * Freeing in the binder buffer allocator

    [binder_free_buf_locked] gives the pages of a buffer back, merges it with
    its free neighbours and returns the result to the free tree. *)

From S2P Require Import Prelude BinderAlloc BinderAllocInv BinderAllocNew.

(** ** Pages given back

    A buffer at [x .. y) is freed; the allocated ones nearest to it end at [L]
    and start at [H].  [U1] and [U2] are the pages of those below and above. *)
Section FreedPages.
Context (base hi x y L H : Z) (U1 U2 : Z -> Prop) (prev_free next_free : bool).
Context (Hbase : base mod PAGE_SIZE = 0) (Hhi : hi mod PAGE_SIZE = 0).
Context (HL : base <= L <= x) (Hxy : x < y) (HH : y <= H <= hi).
Context (HU1 : forall i, U1 i -> i <= page_of base (L - 1)).
Context (HU1' : base < L -> U1 (page_of base (L - 1))).
Context (HU2 : forall i, U2 i -> page_of base H <= i).
Context (HU2' : H < hi -> U2 (page_of base H)).
Context (Hprev : prev_free = false -> L = x) (Hnext : next_free = false -> H = y).

Definition range_freed (j : Z) : Prop := first_page base x <= j < page_of base y.

(** The conditions under which [binder_delete_free_buffer] frees the page the
    buffer above, and the page [x] itself, start in. *)
Definition next_freed : Prop :=
  next_free = true /\ y mod PAGE_SIZE <> 0 /\ page_of base (x - 1) <> page_of base y /\
  page_of base H <> page_of base y.
Definition prev_freed : Prop :=
  prev_free = true /\ x mod PAGE_SIZE <> 0 /\ page_of base (L - 1) <> page_of base x /\
  page_of base H <> page_of base x.

Definition was_active (j : Z) : Prop :=
  U1 j \/ U2 j \/ page_of base x <= j <= page_of base (y - 1).

Lemma page_of_spec z : base + 4096 * page_of base z <= z < base + 4096 * page_of base z + 4096.
Proof.
  unfold page_of. change PAGE_SIZE with 4096.
  pose proof (Z_div_mod_eq_full (z - base) 4096). pose proof (Z.mod_pos_bound (z - base) 4096). lia.
Qed.

Lemma first_page_spec z :
  base + 4096 * first_page base z - 4096 < z <= base + 4096 * first_page base z.
Proof.
  unfold first_page. change (PAGE_SIZE - 1) with 4095. change PAGE_SIZE with 4096.
  pose proof (Z_div_mod_eq_full (z - base + 4095) 4096).
  pose proof (Z.mod_pos_bound (z - base + 4095) 4096). lia.
Qed.

Lemma aligned_spec z : z mod PAGE_SIZE = 0 <-> z = base + 4096 * page_of base z.
Proof.
  unfold page_of. change PAGE_SIZE with 4096 in *. clear - Hbase.
  pose proof (Z_div_mod_eq_full (z - base) 4096). rewrite Zminus_mod, Hbase, Z.sub_0_r, Zmod_mod in H.
  set (q := (z - base) / 4096) in *. set (r := z mod 4096) in *. clearbody q r. lia.
Qed.

(** Reduces page arithmetic to linear arithmetic over the page indices. *)
Ltac pages :=
  clear HU1 HU1' HU2 HU2' Hprev Hnext; unfold range_freed in *; rewrite ?aligned_spec in *;
  pose proof (first_page_spec x);
  pose proof (page_of_spec x); pose proof (page_of_spec (x - 1)); pose proof (page_of_spec y);
  pose proof (page_of_spec (y - 1)); pose proof (page_of_spec (L - 1));
  pose proof (page_of_spec H); pose proof (page_of_spec hi); lia.

Lemma next_page_active : next_freed -> was_active (page_of base y) /\ ~ range_freed (page_of base y).
Proof. intros (_ & H1 & _). split; [right; right|]; pages. Qed.

Lemma prev_page_active :
  prev_freed -> was_active (page_of base x) /\ ~ range_freed (page_of base x) /\
    ~ (next_freed /\ page_of base x = page_of base y).
Proof.
  intros (_ & H1 & _). split; [right; right; pages|]. split; [pages|].
  intros ((_ & _ & H2 & _) & H3). pages.
Qed.

Lemma freed_sound j :
  U1 j \/ U2 j ->
  ~ range_freed j /\ ~ (next_freed /\ j = page_of base y) /\ ~ (prev_freed /\ j = page_of base x).
Proof.
  intros [Hj%HU1|Hj%HU2].
  - split; [pages|]. split; [intros [(_ & _ & ? & _) ->]|intros [(_ & _ & ? & _) ->]]; pages.
  - split; [pages|]. split; [intros [(_ & _ & _ & ?) ->]|intros [(_ & _ & _ & ?) ->]]; pages.
Qed.

Lemma freed_complete j :
  was_active j -> ~ range_freed j -> ~ (next_freed /\ j = page_of base y) ->
  ~ (prev_freed /\ j = page_of base x) -> U1 j \/ U2 j.
Proof.
  intros [?|[?|Hj]] H1 H2 H3; [auto..|].
  assert (Hup : page_of base H = j -> U2 j) by (intros <-; apply HU2'; pages).
  assert (Hlow : page_of base (L - 1) = j -> U1 j) by (intros <-; apply HU1'; pages).
  destruct (Z.le_gt_cases (first_page base x) j) as [Hs|Hs].
  - assert (Hjy : j = page_of base y) by pages. right. apply Hup.
    destruct (Z.eq_dec (page_of base H) j) as [|Hne]; [done|]. exfalso.
    assert (Hf : next_free = true).
    { destruct next_free eqn:E; [done|]. rewrite (Hnext eq_refl) in Hne. pages. }
    apply H2. split; [|done]. repeat split; try done; pages.
  - assert (Hjx : j = page_of base x) by pages.
    destruct (Z.eq_dec (page_of base H) j) as [|Hne]; [auto|].
    destruct (Z.eq_dec (page_of base (L - 1)) j) as [|Hne']; [auto|]. exfalso.
    assert (Hf : prev_free = true).
    { destruct prev_free eqn:E; [done|]. rewrite (Hprev eq_refl) in Hne'. pages. }
    apply H3. split; [|done]. repeat split; try done; pages.
Qed.

Lemma freed_exact j :
  (((was_active j /\ ~ range_freed j) /\ ~ (next_freed /\ j = page_of base y)) /\
   ~ (prev_freed /\ j = page_of base x)) <-> U1 j \/ U2 j.
Proof.
  split.
  - intros [[[? ?] ?] ?]. by apply freed_complete.
  - intros Hj. destruct (freed_sound j Hj) as (? & ? & ?). unfold was_active. tauto.
Qed.

End FreedPages.

(** ** Deleting a free buffer after a free one *)

Section Free.
Context `{RbTree} (sizeof : Z) (Hsizeof : 0 <= sizeof < 2 ^ 32) {account : bool}.

Lemma layout_drop a a' l1 x y l2 :
  layout_wf a -> buffers a = l1 ++ x :: y :: l2 -> buffers a' = l1 ++ x :: l2 ->
  buffer a' = buffer a -> buffer_size a' = buffer_size a -> layout_wf a'.
Proof.
  intros Hl E E' E1 E2. eapply layout_wf_change; [exact Hl|done|done|..]; rewrite E';
    destruct Hl as [_ _ _ Hs Ht Hn]; rewrite E in *.
  - by rewrite start_of_app in *.
  - rewrite tiled_app in *. simpl in *. destruct Ht as (? & ? & ? & ? & ? & ?).
    split_and?; try done. lia.
  - rewrite map_app in *. eapply sublist_NoDup; [exact Hn|].
    apply sublist_app; [done|]. simpl. by do 2 constructor.
Qed.

(** The buffers below a page boundary of the range, and the page they end in. *)
Lemma page_neq a u v :
  layout_wf a -> (page_floor u =? page_floor v) = (page_of (buffer a) u =? page_of (buffer a) v).
Proof.
  intros Hl. destruct (wf_buffer _ Hl) as [_ Hm].
  rewrite !(page_floor_index (buffer a)) by done. change PAGE_SIZE with 4096 in *.
  repeat zcase; lia.
Qed.

Lemma page_aligned u : (u =? page_floor u) = (u mod PAGE_SIZE =? 0).
Proof.
  rewrite page_floor_eq. pose proof (Z_div_mod_eq_full u PAGE_SIZE). repeat zcase; lia.
Qed.

(** When [binder_delete_free_buffer] frees the page [x] starts in. *)
Definition page_dropped (a : binder_alloc) (p x : binder_buffer) (l2 : list binder_buffer) : Prop :=
  user_data x mod PAGE_SIZE <> 0 /\
  page_of (buffer a) (user_data p - 1) <> page_of (buffer a) (user_data x) /\
  page_of (buffer a) (start_of l2 (hi_of a)) <> page_of (buffer a) (user_data x).

Lemma page_in_range a b : layout_wf a -> b ∈ buffers a ->
  0 <= page_of (buffer a) (user_data b) /\
  page_of (buffer a) (user_data b) + 1 <= buffer_size a / PAGE_SIZE.
Proof.
  intros Hl Hb. pose proof (layout_range a b Hl Hb). destruct (wf_size _ Hl) as [_ Hm].
  destruct (tiled_bounds _ _ (wf_tiled _ Hl)) as [_ Hx]. rewrite (wf_start _ Hl) in Hx.
  specialize (Hx b Hb). unfold page_of, hi_of in *. change PAGE_SIZE with 4096 in *.
  clear - Hx Hm. dlia.
Qed.

Lemma delete_free_spec env a l1 p x l2 Act :
  layout_wf a -> buffers a = l1 ++ p :: x :: l2 -> free p = true -> pages_are a Act ->
  (page_dropped a p x l2 -> Act (page_of (buffer a) (user_data x))) ->
  exists ps, binder_delete_free_buffer env a (entry x) =
      Some ((with_pages a ps (pages_high a)) <| buffers := l1 ++ p :: l2 |>) /\
    pages_are (with_pages a ps (pages_high a)) (fun j =>
      Act j /\ ~ (page_dropped a p x l2 /\ j = page_of (buffer a) (user_data x))).
Proof.
  intros Hl E Hf Hp Hact. pose proof (wf_ids _ Hl) as Hn.
  assert (E' : buffers a = (l1 ++ [p]) ++ x :: l2) by (by rewrite <- app_assoc).
  assert (Hpx : p ∈ buffers a /\ x ∈ buffers a) by (rewrite E; set_solver).
  destruct Hpx as [Hip Hix]. pose proof (layout_range a p Hl Hip). pose proof (layout_range a x Hl Hix).
  pose proof (wf_space _ Hl). destruct (wf_buffer _ Hl) as [Hb Hbm].
  unfold binder_delete_free_buffer. rewrite E'. rewrite E' in Hn.
  rewrite find_buf_mid, prev_mid, next_mid, last_snoc by done. mstep. rewrite Hf. cbn [negb].
  unfold prev_buffer_end_page, buffer_start_page. rewrite u64_id by lia.
  rewrite (page_neq a) by done.
  replace (match head l2 with Some next => _ | None => true end) with
    (negb (page_of (buffer a) (start_of l2 (hi_of a)) =? page_of (buffer a) (user_data x))).
  2: { destruct l2 as [|n l2]; simpl; [|by rewrite (page_neq a)].
       destruct (page_in_range a x Hl Hix). destruct (wf_size _ Hl) as [_ Hm].
       unfold page_of at 1. unfold hi_of.
       replace (buffer a + buffer_size a - buffer a) with (buffer_size a) by lia.
       zcase; [lia|done]. }
  rewrite page_aligned.
  assert (Hdel : forall a', buffers a' = buffers a ->
    (a' <| buffers ::= list_del (entry x) |>) = (a' <| buffers := l1 ++ p :: l2 |>)).
  { intros a' Ea. transitivity (a' <| buffers := list_del (entry x) (buffers a') |>); [by destruct a'|].
    rewrite Ea, E', list_del_mid by done. by rewrite <- app_assoc. }
  destruct (_ && _) eqn:Hc.
  - assert (Hd : page_dropped a p x l2).
    { repeat zcase_in Hc; cbn [negb andb] in Hc; try done. }
    destruct (page_in_range a x Hl Hix) as [Hp1 Hp2].
    rewrite (page_floor_index (buffer a)) by done.
    set (k := page_of (buffer a) (user_data x)) in *.
    rewrite u64_id by (clear - Hp1 Hp2 H2 Hb; unfold hi_of in *; change PAGE_SIZE with 4096 in *; dlia).
    replace (buffer a + PAGE_SIZE * k + PAGE_SIZE) with (buffer a + PAGE_SIZE * (k + 1)) by lia.
    destruct (free_pages_spec env a Act k (k + 1)) as (ret & ps & -> & Hps); [done|..].
    { intros _. destruct Hp as [-> _]. done. }
    { intros j Hj. replace j with k by lia. auto. }
    mstep. exists ps. rewrite Hdel by done. split; [done|].
    eapply pages_are_ext; [|exact Hps]. simpl. intros j. intuition lia.
  - assert (Hd : ~ page_dropped a p x l2).
    { intros (H3 & H4 & H5). repeat zcase_in Hc; cbn [negb andb] in Hc; done. }
    mstep. exists (pages a). rewrite <- with_pages_id, Hdel by done. split; [done|].
    eapply pages_are_ext; [|exact Hp]. simpl. intros j. tauto.
Qed.

(** ** Merging

    While [b], free, waits to be inserted, the free tree holds the others. *)
Record merging (a : binder_alloc) (l1 : list binder_buffer) (b : binder_buffer)
    (l2 : list binder_buffer) : Prop := {
  mg_layout : layout_wf a;
  mg_buffers : buffers a = l1 ++ b :: l2;
  mg_free : free b = true;
  mg_allocated : inorder (allocated_buffers a) = allocated_ids (l1 ++ l2);
  mg_tree : Permutation (inorder (free_buffers a)) (free_ids (l1 ++ l2));
  mg_by_size : by_size a (inorder (free_buffers a));
}.

Lemma merging_members a l1 b l2 :
  merging a l1 b l2 -> members a true (inorder (free_buffers a)).
Proof.
  intros [Hl E Hf _ Ht _] n Hn. apply (free_ids_members a (free_ids (buffers a)) Hl); [done|].
  rewrite Ht in Hn. rewrite E, free_ids_app in *. unfold free_ids at 2.
  rewrite filter_cons_True by done. set_solver.
Qed.

Lemma merging_insert a l1 b l2 :
  merging a l1 b l2 -> exists t, binder_insert_free_buffer a (entry b) =
      Some (a <| free_buffers := t |>) /\ trees_wf (a <| free_buffers := t |>).
Proof.
  intros Hm. pose proof (merging_members _ _ _ _ Hm) as Hmem. destruct Hm as [Hl E Hf Ha Ht Hs].
  destruct (insert_free_sorted a (entry b) b) as (t & Et & Hp & Hst); try done.
  { rewrite E. apply find_buf_mid. rewrite <- E. apply Hl. }
  exists t. split; [done|]. constructor; simpl; try done.
  - by eapply layout_wf_change; [exact Hl|..]; destruct Hl.
  - rewrite Ha, E, !allocated_ids_app. f_equal. unfold allocated_ids.
    by rewrite filter_cons_False by (by rewrite Hf).
  - rewrite Hp, Ht, E, !free_ids_app. unfold free_ids at 4.
    rewrite filter_cons_True by done. simpl. apply Permutation_middle.
Qed.

(** Dropping a free neighbour [x] from the list and from the tree. *)
Lemma merging_drop a a' l1 l1' b b' x l2 l2' :
  merging a l1 b l2 -> layout_wf a' -> hi_of a' = hi_of a ->
  buffers a' = l1' ++ b' :: l2' -> free b' = true -> free x = true ->
  (l1 = l1' /\ l2 = x :: l2' /\ b' = b) \/ (l1 = l1' ++ [x] /\ l2 = l2' /\ b' = x) ->
  allocated_buffers a' = allocated_buffers a ->
  free_buffers a' = rb_erase (entry x) (free_buffers a) -> merging a' l1' b' l2'.
Proof.
  intros [Hl E Hf Ha Ht Hs] Hl' Hhi E' Hf' Hx Hcase Ea Ef.
  assert (Hl12 : exists m m', l1 ++ l2 = l1' ++ x :: l2' /\ buffers a = l1' ++ m ++ l2' /\
    buffers a' = l1' ++ m' ++ l2' /\ start_of (m' ++ l2') (hi_of a) = start_of (m ++ l2') (hi_of a)).
  { destruct Hcase as [(-> & -> & ->)|(-> & -> & ->)].
    - exists [b; x], [b]. done.
    - exists [x; b], [x]. rewrite E, <- !app_assoc. done. }
  destruct Hl12 as (m & m' & E12 & Em & Em' & Hst).
  assert (Hnd : NoDup (ids (l1 ++ l2))).
  { pose proof (wf_ids _ Hl) as Hn. rewrite E in Hn. rewrite map_app in *. simpl in Hn.
    eapply sublist_NoDup; [exact Hn|]. apply sublist_app; [done|]. by constructor. }
  rewrite E12 in *.
  assert (Hin : forall n, n ∈ filter (fun m => m ≠ entry x) (inorder (free_buffers a)) ->
    n ∈ ids l1' \/ n ∈ ids l2').
  { intros n [Hne Hn]%list_elem_of_filter. rewrite Ht in Hn. apply free_ids_in in Hn.
    rewrite map_app in Hn. apply elem_of_app in Hn as [?|[?|?]%elem_of_cons]; auto. done. }
  constructor; try done.
  - rewrite Ea, Ha, !allocated_ids_app. f_equal. unfold allocated_ids.
    by rewrite filter_cons_False by (by rewrite Hx).
  - rewrite Ef, inorder_erase. by apply erase_free_ids.
  - rewrite Ef, inorder_erase. eapply (by_size_replace a a' l1' m m' l2'); try done.
    by apply sorted_filter.
Qed.

(** The neighbours [binder_free_buf_locked] leaves. *)
Definition merged_next (l2 : list binder_buffer) : list binder_buffer :=
  match l2 with n :: k => if free n then k else l2 | [] => [] end.

Definition next_is_free (l2 : list binder_buffer) : bool :=
  match l2 with n :: _ => free n | [] => false end.

Lemma merge_next_spec env a l1 b l2 Act :
  merging a l1 b l2 -> pages_are a Act ->
  let dropped := next_freed (buffer a) (user_data b) (start_of l2 (hi_of a))
                   (high_start l2 (hi_of a)) (next_is_free l2) in
  (dropped -> Act (page_of (buffer a) (start_of l2 (hi_of a)))) ->
  exists a',
    match binder_buffer_next (buffers a) (entry b) with
    | Some next =>
        if free next then
          let alloc := a <| free_buffers ::= rb_erase (entry next) |> in
          binder_delete_free_buffer env alloc (entry next)
        else Some a
    | None => Some a
    end = Some a' /\
    merging a' l1 b (merged_next l2) /\ same_range a a' /\ warned a' = warned a /\
    free_async_space a' = free_async_space a /\
    pages_are a' (fun j => Act j /\ ~ (dropped /\ j = page_of (buffer a) (start_of l2 (hi_of a)))).
Proof.
  intros Hm Hp dropped Hact. pose proof Hm as [Hl E Hf Ha Ht Hs].
  assert (Hsame : ~ dropped -> pages_are a (fun j => Act j /\
    ~ (dropped /\ j = page_of (buffer a) (start_of l2 (hi_of a))))).
  { intros Hd. eapply pages_are_ext; [|exact Hp]. simpl. tauto. }
  rewrite E, next_mid by (rewrite <- E; apply Hl).
  destruct l2 as [|n k]; [|simpl in *; destruct (free n) eqn:Hfn]; simpl.
  - exists a. split_and?; try done. apply Hsame. by intros [? _].
  - set (a1 := a <| free_buffers ::= rb_erase (entry n) |>).
    assert (Hl1 : layout_wf a1) by (by eapply layout_wf_change; [exact Hl|..]; destruct Hl).
    destruct (delete_free_spec env a1 l1 b n k Act) as (ps & -> & Hps); try done.
    { intros Hd. apply Hact. by split. }
    eexists. split; [done|]. split; [|split; [done|split; [done|split; [done|]]]].
    + eapply (merging_drop a _ l1 l1 b b n (n :: k) k); try done; [|by left].
      by eapply layout_drop; [exact Hl|exact E|..].
    + eapply pages_are_ext; [|exact Hps]. simpl. intros j.
      unfold dropped, next_freed, page_dropped. simpl.
      change (buffer a1) with (buffer a). change (hi_of a1) with (hi_of a). tauto.
  - exists a. split_and?; try done. apply Hsame. by intros [? _].
Qed.

Definition prev_is_free (l1 : list binder_buffer) : bool :=
  match last l1 with Some p => free p | None => false end.

(** The list once [b] is merged with a free buffer before it. *)
Definition merge_prev (l1 : list binder_buffer) (b : binder_buffer) : list binder_buffer :=
  match last l1 with Some p => if free p then l1 else l1 ++ [b] | None => [b] end.

Lemma merge_prev_spec env a l1 b l2 Act :
  merging a l1 b l2 -> pages_are a Act ->
  let dropped := prev_freed (buffer a) (user_data b) (low_end l1 (user_data b))
                   (start_of l2 (hi_of a)) (prev_is_free l1) in
  (dropped -> Act (page_of (buffer a) (user_data b))) ->
  exists a' l1' m,
    match binder_buffer_prev (buffers a) (entry b) with
    | Some prev =>
        if free prev then
          alloc ← binder_delete_free_buffer env a (entry b);
          Some (alloc <| free_buffers ::= rb_erase (entry prev) |>, entry prev)
        else Some (a, entry b)
    | None => Some (a, entry b)
    end = Some (a', entry m) /\
    merging a' l1' m l2 /\ l1' ++ [m] = merge_prev l1 b /\ same_range a a' /\
    warned a' = warned a /\ free_async_space a' = free_async_space a /\
    pages_are a' (fun j => Act j /\ ~ (dropped /\ j = page_of (buffer a) (user_data b))).
Proof.
  intros Hm Hp dropped Hact. pose proof Hm as [Hl E Hf Ha Ht Hs].
  assert (Hsame : ~ dropped -> pages_are a (fun j => Act j /\
    ~ (dropped /\ j = page_of (buffer a) (user_data b)))).
  { intros Hd. eapply pages_are_ext; [|exact Hp]. simpl. tauto. }
  rewrite E, prev_mid by (rewrite <- E; apply Hl). unfold merge_prev.
  destruct l1 as [|p k _] using rev_ind.
  { exists a, [], b. split_and?; try done. apply Hsame. by intros [? _]. }
  unfold dropped, prev_is_free, low_end in *. rewrite last_snoc in *.
  destruct (free p) eqn:Hfp.
  - assert (E2 : buffers a = k ++ p :: b :: l2) by (by rewrite E, <- app_assoc).
    destruct (delete_free_spec env a k p b l2 Act) as (ps & -> & Hps); try done.
    { intros Hd. apply Hact. by split. }
    mstep. eexists _, k, p. split; [done|].
    split; [|split; [done|split; [done|split; [done|split; [done|]]]]].
    + eapply (merging_drop a _ (k ++ [p]) k b p p l2 l2); try done; [|by right].
      by eapply layout_drop; [exact Hl|exact E2|..].
    + eapply pages_are_ext; [|exact Hps]. simpl. intros j.
      unfold prev_freed, page_dropped. tauto.
  - exists a, (k ++ [p]), b. split_and?; try done. apply Hsame. by intros [? _].
Qed.

(** ** The whole operation *)

Definition released (l1 : list binder_buffer) (b : binder_buffer) (l2 : list binder_buffer)
    : list binder_buffer :=
  merge_prev l1 (b <| free := true |>) ++ merged_next l2.

(** Merging touches no allocated buffer: neither which there are nor their extent. *)
Lemma sized_released l1 b l2 hi c sz :
  free c = false -> (c, sz) ∈ sized (released l1 b l2) hi -> (c, sz) ∈ sized (l1 ++ b :: l2) hi.
Proof.
  intros Hc. unfold released. rewrite !sized_app. simpl. rewrite !elem_of_app, elem_of_cons.
  assert (Hnext : (c, sz) ∈ sized (merged_next l2) hi -> (c, sz) ∈ sized l2 hi).
  { destruct l2 as [|n k]; [done|]. simpl. destruct (free n); [by right|done]. }
  intros [Hin|Hin]; [|auto]. unfold merge_prev in Hin.
  destruct l1 as [|p k _] using rev_ind.
  { simpl in Hin. apply list_elem_of_singleton in Hin. injection Hin as -> ->. done. }
  rewrite last_snoc in Hin. destruct (free p) eqn:Hp.
  - left. rewrite sized_app in *. simpl in *. apply elem_of_app in Hin as [Hin|Hin].
    + apply elem_of_app. by left.
    + apply list_elem_of_singleton in Hin. congruence.
  - rewrite !sized_app in *. simpl in *.
    apply elem_of_app in Hin as [Hin|Hin]; [left|].
    + exact Hin.
    + apply list_elem_of_singleton in Hin. injection Hin as -> ->. done.
Qed.

Lemma allocated_released l1 b l2 :
  allocated_ids (released l1 b l2) = allocated_ids l1 ++ allocated_ids l2.
Proof.
  unfold released. rewrite allocated_ids_app. f_equal.
  - unfold merge_prev. destruct l1 as [|p k _] using rev_ind; [done|].
    rewrite last_snoc. destruct (free p); [done|]. rewrite allocated_ids_app.
    unfold allocated_ids at 2. by rewrite filter_cons_False, app_nil_r.
  - destruct l2 as [|n k]; [done|]. simpl. destruct (free n) eqn:Hn; [|done].
    unfold allocated_ids. by rewrite filter_cons_False by (by rewrite Hn).
Qed.

Lemma async_total_released l1 b l2 :
  async_total sizeof (released l1 b l2) = async_total sizeof (l1 ++ l2).
Proof.
  unfold released. rewrite !async_total_app. f_equal.
  - unfold merge_prev. destruct l1 as [|p k _] using rev_ind; [done|].
    rewrite last_snoc. destruct (free p); [done|]. rewrite async_total_app. apply Z.add_0_r.
  - destruct l2 as [|n k]; [done|]. simpl. destruct (free n) eqn:Hn; [|done].
    unfold async_charge. by rewrite Hn.
Qed.

Lemma coalesced_released l1 b l2 :
  coalesced (l1 ++ b :: l2) -> coalesced (released l1 b l2).
Proof.
  intros Hc. set (b' := b <| free := true |>).
  assert (Hn : coalesced (b' :: merged_next l2)).
  { apply coalesced_app in Hc as (_ & Hc & _). destruct l2 as [|n k]; [done|].
    apply coalesced_tail in Hc. simpl. destruct (free n) eqn:Hfn.
    - destruct k as [|m k]; [done|]. simpl in *. destruct Hc as [Hc ?]. split; [|done].
      rewrite Hfn in Hc. tauto.
    - split; [rewrite Hfn; by intros [_ ?]|exact Hc]. }
  unfold released, merge_prev. destruct l1 as [|p k _] using rev_ind; [done|].
  rewrite last_snoc. destruct (free p) eqn:Hfp.
  - rewrite <- app_assoc in *. simpl in *.
    apply coalesced_app in Hc as (H1 & _ & H3). apply coalesced_app. split; [done|].
    split; [|done]. simpl in *. destruct (merged_next l2); [done|].
    simpl in *. by rewrite Hfp.
  - rewrite <- app_assoc. simpl. pose proof (coalesced_app_l _ _ Hc) as Hc1.
    apply coalesced_app. split; [done|]. split; [done|]. intros q.
    rewrite last_snoc. intros [= <-] [? _]. congruence.
Qed.

(** The buffer taken out of the allocated tree and marked free. *)
Lemma merging_start a ps h v l1 b l2 :
  alloc_inv account sizeof a -> buffers a = l1 ++ b :: l2 -> free b = false ->
  let a1 := (with_pages (a <| free_async_space := v |>) ps h)
              <| allocated_buffers ::= rb_erase (entry b) |>
              <| buffers ::= upd_buf (set free (fun _ => true)) (entry b) |> in
  merging a1 l1 (b <| free := true |>) l2 /\ same_range a a1 /\ warned a1 = false /\
  free_async_space a1 = v.
Proof.
  intros [Hl Hp Hc Hfit Ha Hf Hs Hrange Hasync Hmm Hw] E Hfree a1.
  assert (Hn : NoDup (ids (l1 ++ b :: l2))) by (rewrite <- E; apply Hl).
  assert (E1 : buffers a1 = l1 ++ (b <| free := true |>) :: l2).
  { unfold a1. simpl. rewrite E. by apply upd_buf_mid. }
  assert (Hl1 : layout_wf a1).
  { eapply layout_wf_change; [exact Hl|done|done|..]; rewrite E1;
      destruct Hl as [_ _ _ Hst Ht _]; rewrite E in *.
    - by rewrite start_of_app in *.
    - by rewrite tiled_app in *.
    - by rewrite map_app in *. }
  assert (Hal : allocated_ids (l1 ++ b :: l2) = allocated_ids l1 ++ entry b :: allocated_ids l2).
  { rewrite allocated_ids_app. f_equal. unfold allocated_ids. by rewrite filter_cons_True. }
  assert (Hfr : free_ids (l1 ++ b :: l2) = free_ids (l1 ++ l2)).
  { rewrite !free_ids_app. f_equal. unfold free_ids.
    by rewrite filter_cons_False by (by rewrite Hfree). }
  split; [|done]. constructor; try done.
  - unfold a1. simpl. rewrite inorder_erase, Ha, E, Hal, allocated_ids_app.
    rewrite filter_app, filter_cons_False by tauto.
    assert (Hid : forall l n, n ∈ allocated_ids l -> n ∈ ids l).
    { intros l n (c & -> & [_ Hin]%list_elem_of_filter)%list_elem_of_fmap.
      by apply list_elem_of_fmap_2. }
    rewrite (filter_id _ (allocated_ids l1)), (filter_id _ (allocated_ids l2)); [done|..];
      intros n Hin%Hid; eapply ids_not_free; eauto.
  - unfold a1. simpl. by rewrite Hf, E, Hfr.
  - eapply (by_size_replace a a1 l1 [b] [b <| free := true |>] l2); try done.
    intros n Hin. change (n ∈ inorder (free_buffers a)) in Hin.
    rewrite Hf, E, Hfr in Hin. apply free_ids_in in Hin. rewrite map_app in Hin.
    by apply elem_of_app.
Qed.

Lemma in_use_released base hi l1 b l2 i :
  in_use base hi (released l1 b l2) i <->
  in_use base (user_data b) l1 i \/ in_use base hi l2 i.
Proof.
  unfold released. rewrite in_use_app.
  assert (Hn : in_use base hi (merged_next l2) i <-> in_use base hi l2 i).
  { destruct l2 as [|n k]; [done|]. simpl. destruct (free n) eqn:Hn; [|done].
    rewrite in_use_cons, Hn. naive_solver. }
  rewrite Hn. clear Hn. apply or_iff_compat_r. unfold merge_prev.
  destruct l1 as [|p k _] using rev_ind.
  { cbn [last]. rewrite in_use_cons, !in_use_nil. simpl. naive_solver. }
  rewrite last_snoc. destruct (free p) eqn:Hp.
  - rewrite !in_use_app, !in_use_cons, !in_use_nil, Hp. simpl. naive_solver.
  - rewrite in_use_app, (in_use_cons _ _ (b <| free := true |>)), in_use_nil. simpl. naive_solver.
Qed.

Lemma start_of_merged_next l2 hi : start_of (merged_next l2) hi = high_start l2 hi.
Proof. destruct l2 as [|n k]; [done|]. simpl. by destruct (free n). Qed.

(** As long as the accounts are right the refund does not overflow. *)
Lemma refund_exact a l1 b l2 :
  alloc_inv account sizeof a -> account = true -> buffers a = l1 ++ b :: l2 ->
  u64 (free_async_space a + async_charge sizeof b) = free_async_space a + async_charge sizeof b.
Proof.
  intros Hwf Hacc E. pose proof (wf_async _ _ Hwf) as H1. pose proof (wf_account _ _ Hwf Hacc) as H2.
  destruct (wf_size _ (wf_layout _ _ Hwf)) as [Hbs _]. unfold SZ_4M in Hbs.
  rewrite E, async_total_app in H2. simpl in H2. pose proof (stored_size_nonneg b) as H0.
  pose proof (async_total_nonneg sizeof Hsizeof l1 (fun b _ => stored_size_nonneg b)) as H3.
  pose proof (async_total_nonneg sizeof Hsizeof l2 (fun b _ => stored_size_nonneg b)) as H4.
  assert (0 <= async_charge sizeof b).
  { unfold async_charge. destruct (free b), (async_transaction b); lia. }
  apply u64_id. clear - H1 H2 H3 H4 H5 Hbs. dlia.
Qed.

(** The end of the operation: merging with both neighbours, and the tree. *)
Lemma merge_insert_spec env a a1 l1 b l2 :
  let x := user_data b in let y := start_of l2 (hi_of a) in let b1 := b <| free := true |> in
  alloc_inv account sizeof a -> buffers a = l1 ++ b :: l2 -> free b = false ->
  merging a1 l1 b1 l2 -> same_range a a1 -> warned a1 = false ->
  free_async_space a1 = u64 (free_async_space a + async_charge sizeof b) ->
  pages_are a1 (fun j =>
    was_active (buffer a) x y (in_use (buffer a) x l1) (in_use (buffer a) (hi_of a) l2) j /\
    ~ range_freed (buffer a) x y j) ->
  exists a',
    (alloc ← match binder_buffer_next (buffers a1) (entry b1) with
             | Some next =>
                 if free next then
                   let alloc := a1 <| free_buffers ::= rb_erase (entry next) |> in
                   binder_delete_free_buffer env alloc (entry next)
                 else Some a1
             | None => Some a1
             end;
     '(alloc, b) ← match binder_buffer_prev (buffers alloc) (entry b1) with
                   | Some prev =>
                       if free prev then
                         alloc ← binder_delete_free_buffer env alloc (entry b1);
                         Some (alloc <| free_buffers ::= rb_erase (entry prev) |>, entry prev)
                       else Some (alloc, entry b1)
                   | None => Some (alloc, entry b1)
                   end;
     binder_insert_free_buffer alloc b) = Some a' /\
    alloc_inv account sizeof a' /\ same_range a a' /\ buffers a' = released l1 b l2 /\
    free_async_space a' = u64 (free_async_space a + async_charge sizeof b).
Proof.
  intros x y b1 Hwf E Hfree Hm1 Hr1 Hw1 Hv1 Hp1. pose proof (wf_layout _ _ Hwf) as Hl.
  destruct (in_use_around _ _ _ _ Hl (wf_coalesced _ _ Hwf) E)
    as ((HL & Hxy & HH) & HU1 & HU1' & HU2 & HU2').
  assert (Hhi : forall a', same_range a a' -> hi_of a' = hi_of a).
  { intros a' (H1 & H2 & _). unfold hi_of. congruence. }
  destruct (wf_buffer _ Hl) as [_ Hbm], (wf_size _ Hl) as [_ Hsm].
  assert (Hhm : hi_of a mod PAGE_SIZE = 0).
  { unfold hi_of. rewrite Zplus_mod, Hbm, Hsm. done. }
  assert (Hpf : prev_is_free l1 = false -> low_end l1 x = x).
  { unfold prev_is_free, low_end. destruct (last l1); [|done]. by intros ->. }
  assert (Hnf : next_is_free l2 = false -> high_start l2 (hi_of a) = y).
  { unfold next_is_free, high_start, y. destruct l2; [done|]. simpl. by intros ->. }
  destruct (merge_next_spec env a1 l1 b1 l2 _ Hm1 Hp1) as (a2 & -> & Hm2 & Hr2 & Hw2 & Hv2 & Hp2).
  { rewrite (Hhi a1 Hr1), (proj1 Hr1). by eapply (next_page_active (buffer a) (hi_of a) x y (low_end l1 x)). }
  mstep. rewrite (Hhi a1 Hr1), (proj1 Hr1) in Hp2.
  assert (Hr12 : same_range a a2) by (unfold same_range in *; intuition congruence).
  destruct (merge_prev_spec env a2 l1 b1 (merged_next l2) _ Hm2 Hp2)
    as (a3 & l1' & m & -> & Hm3 & El & Hr3 & Hw3 & Hv3 & Hp3).
  { rewrite (Hhi a2 Hr12), (proj1 Hr12), start_of_merged_next. intros Hd.
    destruct (prev_page_active (buffer a) (hi_of a) x y (low_end l1 x) (high_start l2 (hi_of a))
      (in_use (buffer a) x l1) (in_use (buffer a) (hi_of a) l2) (prev_is_free l1)
      (next_is_free l2)) as (? & ? & ?); done. }
  mstep. rewrite (Hhi a2 Hr12), (proj1 Hr12), start_of_merged_next in Hp3.
  assert (Hr13 : same_range a a3) by (unfold same_range in *; intuition congruence).
  destruct (merging_insert a3 l1' m (merged_next l2) Hm3) as (t & -> & Htw).
  set (a4 := a3 <| free_buffers := t |>) in *. exists a4. split; [done|].
  assert (Eb : buffers a4 = released l1 b l2).
  { change (buffers a4) with (buffers a3). rewrite (mg_buffers _ _ _ _ Hm3). unfold released.
    change (b <| free := true |>) with b1. by rewrite <- El, <- app_assoc. }
  assert (Hv4 : free_async_space a4 = u64 (free_async_space a + async_charge sizeof b))
    by (change (free_async_space a4) with (free_async_space a3); congruence).
  split; [|done]. destruct Htw as [H1 H2 H3 H4]. constructor; try done.
  - apply pages_wf_are. change (buffer a4) with (buffer a3). change (hi_of a4) with (hi_of a3).
    rewrite (Hhi a3 Hr13), (proj1 Hr13), Eb. eapply pages_are_ext; [|exact Hp3].
    intros j. rewrite in_use_released. by apply (freed_exact (buffer a) (hi_of a)).
  - rewrite Eb. apply coalesced_released. rewrite <- E. apply Hwf.
  - rewrite Eb. change (hi_of a4) with (hi_of a3). rewrite (Hhi a3 Hr13). intros c sz Hin Hc.
    apply (wf_fit _ _ Hwf); [|done]. rewrite E. by apply sized_released.
  - rewrite Hv4. apply u64_range.
  - intros Hacc. pose proof (wf_account _ _ Hwf Hacc) as Ha2.
    rewrite Eb, async_total_released, Hv4, (refund_exact a l1 b l2) by done.
    rewrite E, async_total_app in Ha2. rewrite async_total_app. simpl in Ha2.
    change (buffer_size a4) with (buffer_size a3). destruct Hr13 as (_ & -> & _).
    pose proof (stored_size_nonneg b). unfold async_charge in *. rewrite Hfree in *.
    destruct (async_transaction b); lia.
  - destruct Hr13 as (_ & _ & Hv & Hm & _). change (vma a3 = true -> vma_vm_mm a3 = true).
    rewrite Hv, Hm. apply (wf_mm _ _ Hwf).
  - change (warned a3 = false). congruence.
Qed.

Lemma free_buf_spec env a l1 b l2 :
  alloc_inv account sizeof a -> buffers a = l1 ++ b :: l2 -> free b = false -> transaction b = None ->
  exists a', binder_free_buf_locked sizeof env a (entry b) = Some a' /\
    alloc_inv account sizeof a' /\ same_range a a' /\ buffers a' = released l1 b l2 /\
    free_async_space a' = u64 (free_async_space a + async_charge sizeof b).
Proof.
  intros Hwf E Hfree Htr. pose proof (wf_layout _ _ Hwf) as Hl.
  assert (Hin : b ∈ buffers a) by (rewrite E; set_solver).
  pose proof (layout_range a b Hl Hin) as Hub. pose proof (wf_space _ Hl) as Hsp.
  pose proof (start_of_le _ _ _ _ Hl E) as Hlt.
  destruct (wf_buffer _ Hl) as [Hb0 Hbm], (wf_size _ Hl) as [Hbs Hbsm]. unfold SZ_4M in Hbs.
  destruct (in_use_around _ _ _ _ Hl (wf_coalesced _ _ Hwf) E)
    as ((HL & Hxy & HH) & HU1 & HU1' & HU2 & HU2').
  set (y := start_of l2 (hi_of a)) in *. set (x := user_data b) in *.
  unfold binder_free_buf_locked.
  assert (Hfind : find_buf (buffers a) (entry b) = Some b).
  { rewrite E. apply find_buf_mid. rewrite <- E. apply Hl. }
  rewrite Hfind. mstep. rewrite (buffer_size_mid a l1 b l2) by done. mstep.
  assert (Hst : stored_size b <= y - x).
  { apply (wf_fit _ _ Hwf); [|done]. rewrite E. apply sized_mid. }
  rewrite Hfree, Htr. rewrite (u64_id (buffer a + buffer_size a)) by (unfold hi_of in *; lia).
  fold x y. rewrite (proj2 (Z.ltb_ge x (buffer a))) by lia.
  rewrite !Z.gtb_ltb, (proj2 (Z.ltb_ge _ (stored_size b))) by lia.
  rewrite (proj2 (Z.ltb_ge _ x)) by (unfold hi_of in *; lia).
  rewrite bool_decide_eq_false_2 by tauto. cbn [orb].
  pose proof (stored_size_nonneg b) as Hst0.
  pose proof (wf_async _ _ Hwf) as Hasync.
  match goal with |- context [if async_transaction b then ?u else a] =>
    replace (if async_transaction b then u else a) with
      (a <| free_async_space := u64 (free_async_space a + async_charge sizeof b) |>) end.
  2: { unfold async_charge in *. rewrite Hfree in *. destruct (async_transaction b).
       - rewrite (u64_id (stored_size b + sizeof)) in * by lia.
         done.
       - rewrite Z.add_0_r, u64_id by lia. by destruct a. }
  set (v := u64 (free_async_space a + async_charge sizeof b)) in *.
  replace (x + (y - x)) with y by lia. rewrite (u64_id y) by lia.
  rewrite (PAGE_ALIGN_index (buffer a)), (page_floor_index (buffer a)) by (done || lia).
  assert (Hact : pages_are (a <| free_async_space := v |>)
    (was_active (buffer a) x y (in_use (buffer a) x l1) (in_use (buffer a) (hi_of a) l2))).
  { eapply pages_are_ext; [|exact (proj1 (pages_wf_are a) (wf_pages _ _ Hwf))]. intros i. unfold was_active.
    rewrite E, in_use_app, in_use_cons. unfold touches. fold x y. simpl.
    change (start_of (b :: l2) (hi_of a)) with x.
    replace (x + (y - x) - 1) with (y - 1) by lia. naive_solver. }
  destruct (free_pages_spec env (a <| free_async_space := v |>) _ (first_page (buffer a) x)
    (page_of (buffer a) y) Hact) as (ret & ps & Eu & Hps).
  { intros _. destruct Hact as [-> _]. split; [|].
    - unfold first_page. apply Z.div_pos; [|done]. change PAGE_SIZE with 4096. lia.
    - unfold page_of. apply Z.div_le_mono; [done|]. unfold hi_of in *. simpl. lia. }
  { intros j Hj. right. right.
    pose proof (first_page_spec (buffer a) x). pose proof (page_of_spec (buffer a) x).
    pose proof (page_of_spec (buffer a) y). pose proof (page_of_spec (buffer a) (y - 1)). lia. }
  change (buffer (a <| free_async_space := v |>)) with (buffer a) in Eu. rewrite Eu. mstep.
  destruct (merging_start a ps (pages_high (a <| free_async_space := v |>)) v l1 b l2)
    as (Hm1 & Hr1 & Hw1 & Hv1); try done.
  cbv zeta. fold x y in Hps |- *.
  set (b1 := b <| free := true |>) in *. change (entry b) with (entry b1).
  match type of Hm1 with merging ?s _ _ _ => set (a1 := s) in * end.
  apply (merge_insert_spec env a a1 l1 b l2); try done.
Qed.
End Free.
