(* ===== verification/BinderAllocData.v ===== *)
(** * The contents of binder buffers

    The copying routines go through the page array one page at a time; seen
    byte by byte they are reads and writes of one flat memory. *)

From S2P Require Import Prelude BinderAlloc BinderAllocInv BinderAllocNew BinderAllocFree.

(** The byte at a user address, if its page is populated. *)
Definition mem (a : binder_alloc) (x : Z) : option Z :=
  c ← kmap a (page_of (buffer a) x);
  rd c ((x - buffer a) mod PAGE_SIZE).

(** Lists as byte arrays. *)

Lemma rd_app {A} (l k : list A) i :
  rd (l ++ k) i = if i <? zlen l then rd l i else rd k (i - zlen l).
Proof.
  unfold rd, zlen. destruct (Z.ltb_spec i (Z.of_nat (length l))), (Z.leb_spec 0 i);
    try (destruct (Z.leb_spec 0 (i - Z.of_nat (length l)))); try done; try lia.
  - by rewrite lookup_app_l by lia.
  - rewrite lookup_app_r by lia. f_equal. lia.
Qed.

Lemma rd_take {A} (l : list A) n i : i < Z.of_nat n -> rd (take n l) i = rd l i.
Proof. intros Hi. unfold rd. zcase; [|done]. by rewrite lookup_take_lt by lia. Qed.

Lemma rd_drop {A} (l : list A) n i : 0 <= i -> rd (drop n l) i = rd l (i + Z.of_nat n).
Proof.
  intros Hi. unfold rd. rewrite (proj2 (Z.leb_le _ _)), (proj2 (Z.leb_le _ _)) by lia.
  rewrite lookup_drop. f_equal. lia.
Qed.

Lemma zlen_take {A} (l : list A) n : Z.of_nat n <= zlen l -> zlen (take n l) = Z.of_nat n.
Proof. unfold zlen. rewrite length_take. lia. Qed.
Lemma zlen_drop {A} (l : list A) n : Z.of_nat n <= zlen l -> zlen (drop n l) = zlen l - Z.of_nat n.
Proof. unfold zlen. rewrite length_drop. lia. Qed.
Lemma zlen_app {A} (l k : list A) : zlen (l ++ k) = zlen l + zlen k.
Proof. unfold zlen. rewrite length_app. lia. Qed.
Lemma zlen_replicate {A} n (x : A) : zlen (replicate n x) = Z.of_nat n.
Proof. unfold zlen. by rewrite length_replicate. Qed.
Lemma rd_replicate {A} n (x : A) i : 0 <= i < Z.of_nat n -> rd (replicate n x) i = Some x.
Proof.
  intros Hi. unfold rd. rewrite (proj2 (Z.leb_le _ _)) by lia.
  apply lookup_replicate_2. lia.
Qed.
Lemma rd_None {A} (l : list A) i : i < 0 \/ zlen l <= i -> rd l i = None.
Proof.
  intros Hi. unfold rd. zcase; [|done]. apply lookup_ge_None_2. unfold zlen in Hi. lia.
Qed.

Lemma overwrite_spec l off bs :
  0 <= off -> off + zlen bs <= zlen l ->
  zlen (overwrite l off bs) = zlen l /\
  forall i, rd (overwrite l off bs) i =
    if (off <=? i) && (i <? off + zlen bs) then rd bs (i - off) else rd l i.
Proof.
  intros Ho Hl. unfold overwrite.
  assert (Hlen : Z.of_nat (Z.to_nat off + length bs) = off + zlen bs) by (unfold zlen; lia).
  pose proof (zlen_nonneg bs). split.
  - rewrite !zlen_app, zlen_take, zlen_drop by lia. lia.
  - intros i. rewrite rd_app, zlen_take, Z2Nat.id by lia.
    destruct (Z.leb_spec off i), (Z.ltb_spec i off); cbn [andb]; try lia.
    + rewrite rd_app. destruct (Z.ltb_spec (i - off) (zlen bs)), (Z.ltb_spec i (off + zlen bs));
        try lia; [done|].
      rewrite rd_drop by lia. f_equal. lia.
    + by rewrite rd_take by lia.
Qed.

(** ** One page *)

Lemma kmap_active a Act i :
  pages_are a Act -> 0 <= i < zlen (pages a) -> Act i ->
  exists c, kmap a i = Some c /\ zlen c = PAGE_SIZE.
Proof.
  intros Hp Hi Ha. destruct (rd_ex (pages a) i Hi) as [p Hrd].
  destruct (proj1 (proj2 Hp i p Hrd) Ha) as (c & Hc & Hz & _).
  exists c. split; [|done]. unfold kmap. rewrite Hrd. by mstep.
Qed.

Lemma store_page_spec a Act i off bs :
  pages_are a Act -> 0 <= i < zlen (pages a) -> Act i ->
  0 <= off -> off + zlen bs <= PAGE_SIZE ->
  exists ps, store_page a i off bs = Some (with_pages a ps (pages_high a)) /\
    pages_are (with_pages a ps (pages_high a)) Act /\
    forall x, mem (with_pages a ps (pages_high a)) x =
      let o := x - (buffer a + PAGE_SIZE * i) - off in
      if (0 <=? o) && (o <? zlen bs) then rd bs o else mem a x.
Proof.
  intros Hp Hi Ha Ho Hl. unfold store_page. destruct (rd_ex (pages a) i Hi) as [p Hrd].
  destruct (proj1 (proj2 Hp i p Hrd) Ha) as (c & Hc & Hz & Hlru). rewrite Hrd. mstep. rewrite Hc. mstep.
  destruct (overwrite_spec c off bs) as [Hoz Ho2]; [done|lia|].
  destruct (set_page_spec a Act Act i (p <| page_ptr := Some (overwrite c off bs) |>))
    as (ps & -> & Hps & Hpi & Hpo); [done|done| |tauto|done|].
  { intros _. exists (overwrite c off bs). by rewrite Hoz. }
  exists ps. split; [done|]. split; [done|]. intros x. unfold mem, kmap.
  change (pages (with_pages a ps (pages_high a))) with ps.
  change (buffer (with_pages a ps (pages_high a))) with (buffer a).
  set (r := x - buffer a). pose proof (Z_div_mod_eq_full r PAGE_SIZE).
  pose proof (Z.mod_pos_bound r PAGE_SIZE ltac:(done)). unfold page_of. fold r. cbv zeta.
  replace (x - (buffer a + PAGE_SIZE * i) - off) with (r - PAGE_SIZE * i - off) by (unfold r; lia).
  assert (HP : PAGE_SIZE = 4096) by done.
  destruct (Z.eq_dec (r / PAGE_SIZE) i) as [Ei|Ei].
  - rewrite Ei, Hpi, Hrd. mstep. simpl. rewrite Hc. mstep. rewrite Ho2.
    replace (r - PAGE_SIZE * i - off) with (r mod PAGE_SIZE - off) by lia.
    destruct (Z.leb_spec off (r mod PAGE_SIZE)), (Z.leb_spec 0 (r mod PAGE_SIZE - off));
      try lia; cbn [andb]; [|done].
    destruct (Z.ltb_spec (r mod PAGE_SIZE) (off + zlen bs)),
      (Z.ltb_spec (r mod PAGE_SIZE - off) (zlen bs)); try lia; done.
  - rewrite Hpo by done.
    destruct (Z.leb_spec 0 (r - PAGE_SIZE * i - off)), (Z.ltb_spec (r - PAGE_SIZE * i - off) (zlen bs));
      cbn [andb]; try done. exfalso. apply Ei. rewrite HP in *. lia.
Qed.

Lemma load_page_spec a Act i off size :
  pages_are a Act -> 0 <= i < zlen (pages a) -> Act i ->
  0 <= off -> 0 <= size -> off + size <= PAGE_SIZE ->
  exists bs, load_page a i off size = Some bs /\ zlen bs = size /\
    forall o, 0 <= o < size -> rd bs o = mem a (buffer a + PAGE_SIZE * i + off + o).
Proof.
  intros Hp Hi Ha Ho Hs Hl. destruct (kmap_active a Act i Hp Hi Ha) as (c & Hk & Hz).
  unfold load_page. rewrite Hk. mstep. eexists. split; [done|]. split.
  - rewrite zlen_take; [lia|]. rewrite zlen_drop; lia.
  - intros o Hoo. rewrite rd_take by lia. rewrite rd_drop by lia. rewrite Z2Nat.id by lia.
    unfold mem, page_of.
    replace (buffer a + PAGE_SIZE * i + off + o - buffer a) with (off + o + i * PAGE_SIZE) by lia.
    rewrite Z.div_add, Z.mod_add by done. rewrite Z.div_small, Z.mod_small by lia.
    rewrite Z.add_0_l, Hk. mstep. f_equal. lia.
Qed.

(** ** A range of bytes of a buffer *)

Lemma get_page_spec a n b off :
  find_buf (buffers a) n = Some b -> 0 <= off + (user_data b - buffer a) < 2 ^ 64 ->
  binder_alloc_get_page a n off =
    Some (page_of (buffer a) (user_data b + off), (user_data b + off - buffer a) mod PAGE_SIZE).
Proof.
  intros Hb Hr. unfold binder_alloc_get_page. rewrite Hb. mstep. rewrite u64_id by done.
  unfold PAGE_SHIFT. rewrite Z.shiftr_div_pow2 by lia.
  replace (PAGE_SIZE - 1) with (Z.ones 12) by done. rewrite Z.land_ones by lia.
  unfold page_of. change (2 ^ 12) with PAGE_SIZE.
  by replace (off + (user_data b - buffer a)) with (user_data b + off - buffer a) by lia.
Qed.

(** The range [x .. x + n) is within the pages of [a], all of them active. *)
Definition accessible (a : binder_alloc) (Act : Z -> Prop) (x n : Z) : Prop :=
  pages_are a Act /\ buffer a <= x /\ x + n < 2 ^ 63 /\ 0 < buffer a /\
  forall y, x <= y < x + n -> Act (page_of (buffer a) y) /\ page_of (buffer a) y < zlen (pages a).

Lemma accessible_tail a Act x n k ps :
  accessible a Act x n -> 0 <= k <= n -> pages_are (with_pages a ps (pages_high a)) Act ->
  accessible (with_pages a ps (pages_high a)) Act (x + k) (n - k).
Proof.
  intros (Hp & H1 & H2 & H3 & H4) Hk Hps.
  change (buffer a <= x + k) with (buffer (with_pages a ps (pages_high a)) <= x + k) in *.
  split; [done|]. change (buffer (with_pages a ps (pages_high a))) with (buffer a).
  split; [lia|]. split; [lia|]. split; [done|]. intros y Hy. destruct (H4 y) as [? ?]; [lia|].
  change (pages (with_pages a ps (pages_high a))) with ps.
  rewrite (pages_are_zlen _ _ _ _ _ Hp Hps). done.
Qed.

(** The piece of a range that lies in its first page. *)
Definition chunk (a : binder_alloc) (x n : Z) : Z :=
  Z.min n (PAGE_SIZE - (x - buffer a) mod PAGE_SIZE).

Lemma chunk_spec a Act x n :
  accessible a Act x n -> 0 < n ->
  0 < chunk a x n <= n /\ (x - buffer a) mod PAGE_SIZE + chunk a x n <= PAGE_SIZE /\
  0 <= (x - buffer a) mod PAGE_SIZE /\
  buffer a + PAGE_SIZE * page_of (buffer a) x + (x - buffer a) mod PAGE_SIZE = x /\
  0 <= page_of (buffer a) x < zlen (pages a) /\ Act (page_of (buffer a) x).
Proof.
  intros (Hp & H1 & H2 & H3 & H4) Hn. unfold chunk.
  pose proof (Z.mod_pos_bound (x - buffer a) PAGE_SIZE ltac:(done)).
  destruct (H4 x) as [? ?]; [lia|].
  assert (buffer a + PAGE_SIZE * page_of (buffer a) x + (x - buffer a) mod PAGE_SIZE = x).
  { unfold page_of. pose proof (Z_div_mod_eq_full (x - buffer a) PAGE_SIZE). lia. }
  assert (0 <= page_of (buffer a) x) by (apply Z.div_pos; [lia|done]).
  split; [lia|]. split; [lia|]. split; [lia|]. done.
Qed.

(** Storing the first chunk of [src] at [x]. *)
Lemma store_chunk a Act x n bs :
  accessible a Act x n -> 0 < n -> zlen bs = chunk a x n ->
  exists ps, store_page a (page_of (buffer a) x) ((x - buffer a) mod PAGE_SIZE) bs =
      Some (with_pages a ps (pages_high a)) /\
    accessible (with_pages a ps (pages_high a)) Act (x + chunk a x n) (n - chunk a x n) /\
    forall y, mem (with_pages a ps (pages_high a)) y =
      if (x <=? y) && (y <? x + chunk a x n) then rd bs (y - x) else mem a y.
Proof.
  intros Hacc Hn Hz.
  destruct (chunk_spec a Act x n Hacc Hn) as (Hc & Hc2 & Ho & Hx & Hi & Ha).
  destruct (store_page_spec a Act _ _ bs (proj1 Hacc) Hi Ha Ho) as (ps & -> & Hps & Hm); [lia|].
  exists ps. split; [done|]. split; [apply accessible_tail; [done|lia|done]|].
  intros y. rewrite Hm. cbv zeta.
  set (q := PAGE_SIZE * page_of (buffer a) x) in *. set (r := (x - buffer a) mod PAGE_SIZE) in *.
  replace (y - (buffer a + q) - r) with (y - x) by lia. rewrite Hz.
  destruct (Z.leb_spec 0 (y - x)), (Z.leb_spec x y); try lia; cbn [andb]; [|done].
  destruct (Z.ltb_spec (y - x) (chunk a x n)), (Z.ltb_spec y (x + chunk a x n)); try lia; done.
Qed.

(** *** The loops *)

Lemma copy_to_loop fuel a Act n b off src bytes :
  find_buf (buffers a) n = Some b -> 0 <= bytes < Z.of_nat fuel -> bytes <= zlen src ->
  0 <= off -> buffer a <= user_data b -> accessible a Act (user_data b + off) bytes ->
  exists ps, loop fuel (fun '(alloc, bytes, src, buffer_offset) =>
      if truth bytes then
        '(index, pgoff) ← binder_alloc_get_page alloc n buffer_offset;
        let size := Z.min bytes (PAGE_SIZE - pgoff) in
        alloc ← store_page alloc index pgoff (take (Z.to_nat size) src);
        Some (inl (alloc, bytes - size, drop (Z.to_nat size) src, buffer_offset + size))
      else Some (inr (0, alloc))) (a, bytes, src, off) =
    Some (0, with_pages a ps (pages_high a)) /\
    pages_are (with_pages a ps (pages_high a)) Act /\
    forall y, mem (with_pages a ps (pages_high a)) y =
      if (user_data b + off <=? y) && (y <? user_data b + off + bytes)
      then rd src (y - (user_data b + off)) else mem a y.
Proof.
  revert a off src bytes. induction fuel as [|fuel IH]; intros a off src bytes Hb Hf Hs Ho Hu Hacc; [lia|].
  cbn [loop]. destruct (Z.eq_dec bytes 0) as [->|Hne]; [change (truth 0) with false|rewrite (proj2 (truth_true bytes) Hne)]; mstep.
  { exists (pages a). rewrite <- with_pages_id. split; [done|]. split; [apply Hacc|].
    intros y. repeat zcase; cbn [andb]; try done; lia. }
  pose proof Hacc as (_ & _ & Hlim & Hb0 & _).
  rewrite (get_page_spec a n b off Hb) by lia. mstep.
  set (x := user_data b + off) in *.
  change (Z.min bytes (PAGE_SIZE - (x - buffer a) mod PAGE_SIZE)) with (chunk a x bytes).
  destruct (chunk_spec a Act x bytes Hacc) as (Hc & _); [lia|]. set (k := chunk a x bytes) in *.
  destruct (store_chunk a Act x bytes (take (Z.to_nat k) src) Hacc) as (ps & -> & Hacc' & Hm);
    [lia|rewrite zlen_take; unfold k in *; lia|]. mstep.
  fold k in Hacc', Hm.
  destruct (IH (with_pages a ps (pages_high a)) (off + k) (drop (Z.to_nat k) src) (bytes - k))
    as (ps' & E & Hp' & Hm'); try done; try lia.
  { rewrite zlen_drop; lia. }
  { by replace (user_data b + (off + k)) with (x + k) by (unfold x; lia). }
  rewrite with_pages_twice in *. exists ps'. split; [exact E|]. split; [done|].
  intros y. rewrite Hm', Hm. replace (user_data b + (off + k)) with (x + k) by (unfold x; lia).
  replace (x + k + (bytes - k)) with (x + bytes) by lia.
  destruct (Z.leb_spec (x + k) y), (Z.ltb_spec y (x + bytes)), (Z.leb_spec x y), (Z.ltb_spec y (x + k));
    cbn [andb]; try lia; try done.
  - rewrite rd_drop by lia. f_equal. lia.
  - apply rd_take. lia.
Qed.

Lemma clear_loop fuel a Act n b off bytes :
  find_buf (buffers a) n = Some b -> 0 <= bytes < Z.of_nat fuel ->
  0 <= off -> buffer a <= user_data b -> accessible a Act (user_data b + off) bytes ->
  exists ps, loop fuel (fun '(alloc, bytes, buffer_offset) =>
      if truth bytes then
        '(index, pgoff) ← binder_alloc_get_page alloc n buffer_offset;
        let size := Z.min bytes (PAGE_SIZE - pgoff) in
        alloc ← store_page alloc index pgoff (replicate (Z.to_nat size) 0);
        Some (inl (alloc, bytes - size, buffer_offset + size))
      else Some (inr alloc)) (a, bytes, off) =
    Some (with_pages a ps (pages_high a)) /\
    pages_are (with_pages a ps (pages_high a)) Act /\
    forall y, mem (with_pages a ps (pages_high a)) y =
      if (user_data b + off <=? y) && (y <? user_data b + off + bytes) then Some 0 else mem a y.
Proof.
  revert a off bytes. induction fuel as [|fuel IH]; intros a off bytes Hb Hf Ho Hu Hacc; [lia|].
  cbn [loop]. destruct (Z.eq_dec bytes 0) as [->|Hne];
    [change (truth 0) with false|rewrite (proj2 (truth_true bytes) Hne)]; mstep.
  { exists (pages a). rewrite <- with_pages_id. split; [done|]. split; [apply Hacc|].
    intros y. repeat zcase; cbn [andb]; try done; lia. }
  pose proof Hacc as (_ & _ & Hlim & Hb0 & _).
  rewrite (get_page_spec a n b off Hb) by lia. mstep.
  set (x := user_data b + off) in *.
  change (Z.min bytes (PAGE_SIZE - (x - buffer a) mod PAGE_SIZE)) with (chunk a x bytes).
  destruct (chunk_spec a Act x bytes Hacc) as (Hc & _); [lia|]. set (k := chunk a x bytes) in *.
  destruct (store_chunk a Act x bytes (replicate (Z.to_nat k) 0) Hacc) as (ps & -> & Hacc' & Hm);
    [lia|rewrite zlen_replicate; unfold k in *; lia|]. mstep.
  fold k in Hacc', Hm.
  destruct (IH (with_pages a ps (pages_high a)) (off + k) (bytes - k))
    as (ps' & E & Hp' & Hm'); try done; try lia.
  { by replace (user_data b + (off + k)) with (x + k) by (unfold x; lia). }
  rewrite with_pages_twice in *. exists ps'. split; [exact E|]. split; [done|].
  intros y. rewrite Hm', Hm. replace (user_data b + (off + k)) with (x + k) by (unfold x; lia).
  replace (x + k + (bytes - k)) with (x + bytes) by lia.
  destruct (Z.leb_spec (x + k) y), (Z.ltb_spec y (x + bytes)), (Z.leb_spec x y), (Z.ltb_spec y (x + k));
    cbn [andb]; try lia; try done.
  apply rd_replicate. lia.
Qed.

Lemma copy_from_loop fuel a Act n b off dest bytes :
  find_buf (buffers a) n = Some b -> 0 <= bytes < Z.of_nat fuel ->
  0 <= off -> buffer a <= user_data b -> accessible a Act (user_data b + off) bytes ->
  exists bs, loop fuel (fun '(dest, bytes, buffer_offset) =>
      if truth bytes then
        '(index, pgoff) ← binder_alloc_get_page a n buffer_offset;
        let size := Z.min bytes (PAGE_SIZE - pgoff) in
        bs ← load_page a index pgoff size;
        Some (inl (dest ++ bs, bytes - size, buffer_offset + size))
      else Some (inr (0, dest))) (dest, bytes, off) = Some (0, dest ++ bs) /\
    zlen bs = bytes /\
    forall i, 0 <= i < bytes -> rd bs i = mem a (user_data b + off + i).
Proof.
  revert off dest bytes. induction fuel as [|fuel IH]; intros off dest bytes Hb Hf Ho Hu Hacc; [lia|].
  cbn [loop]. destruct (Z.eq_dec bytes 0) as [->|Hne];
    [change (truth 0) with false|rewrite (proj2 (truth_true bytes) Hne)]; mstep.
  { exists []. rewrite app_nil_r. split; [done|]. split; [done|]. intros; lia. }
  pose proof Hacc as (Hp & _ & Hlim & Hb0 & _).
  rewrite (get_page_spec a n b off Hb) by lia. mstep.
  set (x := user_data b + off) in *.
  change (Z.min bytes (PAGE_SIZE - (x - buffer a) mod PAGE_SIZE)) with (chunk a x bytes).
  destruct (chunk_spec a Act x bytes Hacc) as (Hc & Hc2 & Hr & Hx & Hi & Ha); [lia|].
  set (k := chunk a x bytes) in *.
  destruct (load_page_spec a Act _ _ k Hp Hi Ha Hr) as (bs & -> & Hz & Hbs); [lia|lia|]. mstep.
  destruct (IH (off + k) (dest ++ bs) (bytes - k)) as (bs' & E & Hz' & Hbs'); try done; try lia.
  { rewrite (with_pages_id a). replace (user_data b + (off + k)) with (x + k) by (unfold x; lia).
    apply accessible_tail; [done|lia|]. by rewrite <- with_pages_id. }
  rewrite <- app_assoc in E. exists (bs ++ bs'). split; [exact E|].
  rewrite zlen_app. split; [lia|]. intros i Hi'. rewrite rd_app, Hz. zcase.
  - rewrite Hbs by lia. f_equal. lia.
  - rewrite Hbs' by lia. f_equal. lia.
Qed.

(** [copy_from_user] reports at most the whole of the piece as not copied. *)
Definition fault_ok (fault : Z -> Z -> Z) : Prop :=
  forall from size, 0 <= size -> 0 <= fault from size <= size.

(** The copy of [n] bytes to [x] is made in pieces that end at the page
    boundaries of the area at [base]: [s] bytes from position [f] are one. *)
Definition piece (base x n f s : Z) : Prop :=
  0 <= f < n /\ (f = 0 \/ (x + f - base) mod PAGE_SIZE = 0) /\
  s = Z.min (n - f) (PAGE_SIZE - (x + f - base) mod PAGE_SIZE).

(** The number [r] of bytes not copied by the pieces from [from] on, and the end
    [stop] of the last piece that was begun: it is the first one that faults. *)
Definition partial_copy (fault : Z -> Z -> Z) (base x n from r stop : Z) : Prop :=
  (r = 0 /\ stop = n /\ forall f s, piece base x n f s -> from <= f -> fault f s = 0) \/
  (exists f s, piece base x n f s /\ from <= f /\ fault f s <> 0 /\
     (forall f' s', piece base x n f' s' -> from <= f' < f -> fault f' s' = 0) /\
     r = n - (f + s) + fault f s /\ stop = f + s).

Lemma piece_next base x n f s f' s' : piece base x n f s -> piece base x n f' s' -> f <= f' ->
  (f' = f /\ s' = s) \/ f + s <= f'.
Proof.
  unfold piece. change PAGE_SIZE with 4096. intros (H1 & _ & ->) (H2 & H3 & ->) Hle.
  destruct (Z.eq_dec f' f) as [->|]; [by left|right].
  destruct H3 as [H3|H3]; [lia|]. dlia.
Qed.

Lemma partial_copy_step fault base x n from k r stop : piece base x n from k -> fault from k = 0 -> 0 < k ->
  partial_copy fault base x n (from + k) r stop -> partial_copy fault base x n from r stop.
Proof.
  intros Hp H0 Hk Hc. assert (Hno : forall f s, piece base x n f s -> from <= f -> f < from + k -> fault f s = 0).
  { intros f s Hf Hle Hlt. destruct (piece_next _ _ _ _ _ _ _ Hp Hf Hle) as [[-> ->]|]; [done|lia]. }
  destruct Hc as [(-> & -> & Hall)|(f & s & Hf & Hle & Hne & Hall & -> & ->)].
  - left. split_and!; [done..|]. intros f s Hf Hle. destruct (Z.lt_ge_cases f (from + k)); eauto.
  - right. exists f, s. split_and!; try done; [lia|]. intros f' s' Hf' Hle'.
    destruct (Z.lt_ge_cases f' (from + k)); [|apply (Hall f' s' Hf'); lia]. apply (Hno f' s' Hf'); lia.
Qed.

Lemma copy_user_loop fault fuel a Act n b off user from bytes :
  fault_ok fault ->
  find_buf (buffers a) n = Some b -> 0 <= bytes < Z.of_nat fuel ->
  0 <= from -> from + bytes <= zlen user ->
  (bytes = 0 \/ from = 0 \/ (user_data b + off - buffer a) mod PAGE_SIZE = 0) ->
  0 <= off -> buffer a <= user_data b -> accessible a Act (user_data b + off) bytes ->
  let x := user_data b + off - from in
  exists r ps stop, loop fuel (fun '(alloc, bytes, from, buffer_offset) =>
      if truth bytes then
        '(index, pgoff) ← binder_alloc_get_page alloc n buffer_offset;
        let size := Z.min bytes (PAGE_SIZE - pgoff) in
        let '(bs, ret) := copy_from_user fault user from size in
        alloc ← store_page alloc index pgoff bs;
        if truth ret then Some (inr (bytes - size + ret, alloc))
        else Some (inl (alloc, bytes - size, from + size, buffer_offset + size))
      else Some (inr (0, alloc))) (a, bytes, from, off) =
    Some (r, with_pages a ps (pages_high a)) /\ 0 <= r <= bytes /\ from + bytes - r <= stop <= from + bytes /\
    partial_copy fault (buffer a) x (from + bytes) from r stop /\
    pages_are (with_pages a ps (pages_high a)) Act /\
    forall y, mem (with_pages a ps (pages_high a)) y =
      if (user_data b + off <=? y) && (y <? x + (from + bytes - r)) then rd user (y - x)
      else if (x + (from + bytes - r) <=? y) && (y <? x + stop) then Some 0 else mem a y.
Proof.
  intros Hfault. revert a off from bytes.
  induction fuel as [|fuel IH]; intros a off from bytes Hb Hf Hfr Hs Hal Ho Hu Hacc x0; [lia|].
  cbn [loop]. destruct (Z.eq_dec bytes 0) as [->|Hne];
    [change (truth 0) with false|rewrite (proj2 (truth_true bytes) Hne)]; mstep.
  { exists 0, (pages a), from. rewrite <- with_pages_id. split; [done|]. split; [lia|]. split; [lia|]. split.
    { left. split_and!; [done|lia|]. intros f s (H & _). lia. }
    split; [apply Hacc|]. intros y. unfold x0. repeat zcase; cbn [andb]; try done; lia. }
  pose proof Hacc as (_ & _ & Hlim & Hb0 & _).
  rewrite (get_page_spec a n b off Hb) by lia. mstep.
  set (x := user_data b + off) in *.
  assert (Hpiece : piece (buffer a) x0 (from + bytes) from (chunk a x bytes)).
  { unfold piece, chunk. replace (x0 + from - buffer a) with (x - buffer a) by (unfold x0; lia).
    replace (from + bytes - from) with bytes by lia. split; [lia|]. split; [|done]. destruct Hal as [?|]; [lia|done]. }
  change (Z.min bytes (PAGE_SIZE - (x - buffer a) mod PAGE_SIZE)) with (chunk a x bytes).
  destruct (chunk_spec a Act x bytes Hacc) as (Hc & _); [lia|].
  assert (Hnext : bytes - chunk a x bytes = 0 \/ (x + chunk a x bytes - buffer a) mod PAGE_SIZE = 0).
  { unfold chunk. change PAGE_SIZE with 4096. clear. dlia. }
  set (k := chunk a x bytes) in *.
  unfold copy_from_user. cbv zeta. mstep. set (ret := fault from k).
  assert (Hret : 0 <= ret <= k) by (apply Hfault; lia).
  set (bs := take (Z.to_nat (k - ret)) (drop (Z.to_nat from) user) ++ replicate (Z.to_nat ret) 0).
  assert (Hz1 : zlen (take (Z.to_nat (k - ret)) (drop (Z.to_nat from) user)) = k - ret).
  { rewrite zlen_take; [lia|]. rewrite zlen_drop; lia. }
  assert (Hz : zlen bs = k) by (unfold bs; rewrite zlen_app, Hz1, zlen_replicate; lia).
  assert (Hbs : forall i, 0 <= i < k -> rd bs i = if i <? k - ret then rd user (from + i) else Some 0).
  { intros i Hi. unfold bs. rewrite rd_app, Hz1. zcase; [|apply rd_replicate; lia].
    rewrite rd_take, rd_drop by lia. f_equal. lia. }
  destruct (store_chunk a Act x bytes bs Hacc) as (ps & -> & Hacc' & Hm); [lia|done|]. mstep.
  fold k in Hacc', Hm.
  destruct (Z.eq_dec ret 0) as [E0|E0];
    [rewrite E0; change (truth 0) with false|rewrite (proj2 (truth_true ret) E0)]; mstep.
  - destruct (IH (with_pages a ps (pages_high a)) (off + k) (from + k) (bytes - k))
      as (r & ps' & stop & E & Hr & Hst & Hcp & Hp' & Hm'); try done; try lia.
    { change (buffer (with_pages a ps (pages_high a))) with (buffer a).
      replace (user_data b + (off + k)) with (x + k) by (unfold x; lia). tauto. }
    { by replace (user_data b + (off + k)) with (x + k) by (unfold x; lia). }
    change (buffer (with_pages a ps (pages_high a))) with (buffer a) in Hcp.
    replace (user_data b + (off + k) - (from + k)) with x0 in * by (unfold x0, x; lia).
    replace (from + k + (bytes - k)) with (from + bytes) in * by lia.
    rewrite with_pages_twice in *. exists r, ps', stop. split; [exact E|]. split; [lia|]. split; [lia|].
    split; [apply (partial_copy_step _ _ _ _ _ k); (done || lia)|]. split; [done|]. intros y. rewrite Hm', Hm.
    replace (user_data b + (off + k)) with (x + k) by (unfold x; lia).
    assert (x0 = x - from) by done. clearbody x0.
    destruct (Z.leb_spec (x + k) y), (Z.ltb_spec y (x0 + (from + bytes - r))), (Z.leb_spec x y),
      (Z.ltb_spec y (x + k)), (Z.leb_spec (x0 + (from + bytes - r)) y); cbn [andb]; try lia; try done.
    all: try (rewrite Hbs by lia; rewrite (proj2 (Z.ltb_lt _ _)) by lia; f_equal; lia).
    all: zcase; try lia; done.
  - exists (bytes - k + ret), ps, (from + k). split; [done|]. split; [lia|]. split; [lia|].
    split. { right. exists from, k. split_and!; try done; try lia. }
    split; [apply Hacc'|]. intros y. rewrite Hm. assert (x0 = x - from) by done. clearbody x0.
    destruct (Z.ltb_spec y (x0 + (from + bytes - (bytes - k + ret)))), (Z.leb_spec x y),
      (Z.ltb_spec y (x + k)), (Z.leb_spec (x0 + (from + bytes - (bytes - k + ret))) y),
      (Z.ltb_spec y (x0 + (from + k))); cbn [andb]; try lia; try done.
    all: rewrite Hbs by lia; zcase; try lia; try done; f_equal; lia.
Qed.
