(* ===== verification/BinderAllocLife.v ===== *)
(** * The life of a binder buffer allocator

    Every operation a client may perform keeps a well-formed allocator well
    formed and never faults; the last one releases everything. *)

From S2P Require Import Prelude BinderAlloc BinderAllocInv BinderAllocNew BinderAllocFree BinderAllocData.

Section Life.
Context `{RbTree} (sizeof : Z) (Hsizeof : 0 <= sizeof < 2 ^ 32) {account : bool}.

(** ** Updates that leave the layout alone *)

(** Two buffers that differ in flags only. *)
Definition same_extent (b c : binder_buffer) : Prop :=
  entry c = entry b /\ user_data c = user_data b /\ free c = free b /\
  async_transaction c = async_transaction b /\ data_size c = data_size b /\
  offsets_size c = offsets_size b /\ extra_buffers_size c = extra_buffers_size b.

Lemma alloc_wf_flags a a' l1 b c l2 :
  alloc_inv account sizeof a -> buffers a = l1 ++ b :: l2 -> same_extent b c ->
  a' = a <| buffers := l1 ++ c :: l2 |> -> alloc_inv account sizeof a'.
Proof.
  intros Hwf E (E1 & E2 & E3 & E4 & E5 & E6 & E7) ->. pose proof (alloc_wf_trees _ _ Hwf) as Htw.
  destruct Hwf as [Hl Hp Hc Hfit Ha Hf Hs Hrange Hasync Hmm Hw].
  set (a' := a <| buffers := l1 ++ c :: l2 |>).
  assert (Hst : stored_size c = stored_size b) by (unfold stored_size; congruence).
  assert (Hl' : layout_wf a').
  { eapply layout_wf_change; [exact Hl|done|done|..]; unfold a'; simpl;
      destruct Hl as [_ _ _ Hst' Ht Hn]; rewrite E in *.
    - rewrite start_of_app in *. simpl in *. congruence.
    - rewrite tiled_app in *. simpl in *. by rewrite E2.
    - rewrite map_app in *. simpl in *. by rewrite E1. }
  assert (Hal : allocated_ids (buffers a') = allocated_ids (buffers a)).
  { unfold a'. simpl. rewrite E, !allocated_ids_app. f_equal. unfold allocated_ids.
    destruct (free b) eqn:Hb.
    - by rewrite !filter_cons_False by (by rewrite ?Hb, ?E3).
    - rewrite !filter_cons_True by congruence. simpl. congruence. }
  assert (Hfr : free_ids (buffers a') = free_ids (buffers a)).
  { unfold a'. simpl. rewrite E, !free_ids_app. f_equal. unfold free_ids.
    destruct (free b) eqn:Hb.
    - rewrite !filter_cons_True by congruence. simpl. congruence.
    - by rewrite !filter_cons_False by (by rewrite ?Hb, ?E3). }
  assert (Hso : forall n, size_of a' n = size_of a n \/ n ∉ ids (buffers a)).
  { intros n. destruct (decide (n ∈ ids (buffers a))) as [Hn|]; [left|by right].
    rewrite E, map_app in Hn. apply elem_of_app in Hn as [Hn|[->|Hn]%elem_of_cons].
    - apply (size_of_replace a a' l1 [b] [c] l2 n Hl Hl' eq_refl E eq_refl); [|by left].
      simpl. congruence.
    - rewrite (size_of_mid a l1 b l2) by done. rewrite <- E1.
      rewrite (size_of_mid a' l1 c l2) by done. rewrite E2. done.
    - apply (size_of_replace a a' l1 [b] [c] l2 n Hl Hl' eq_refl E eq_refl); [|by right].
      simpl. congruence. }
  constructor; try done.
  - apply pages_wf_are. eapply pages_are_ext; [|exact (proj1 (pages_wf_are a) Hp)]. intros i.
    change (hi_of a') with (hi_of a). change (buffer a') with (buffer a).
    rewrite E. unfold a'. simpl. rewrite !in_use_app, !in_use_cons. simpl.
    unfold touches. by rewrite E2, E3.
  - unfold a'. simpl. rewrite E in Hc.
    pose proof (coalesced_app_l _ _ Hc). apply coalesced_app in Hc as (_ & Hc & Hlast).
    apply coalesced_app. split; [done|]. split; [|by rewrite E3].
    destruct l2; [done|]. simpl in *. by rewrite E3.
  - unfold a'. simpl. change (hi_of _) with (hi_of a) in *. intros d sz Hin Hd.
    rewrite E in Hfit. rewrite sized_app in *. simpl in *.
    apply elem_of_app in Hin as [Hin|[Hin|Hin]%elem_of_cons].
    + apply Hfit; [|done]. apply elem_of_app. left. by rewrite <- E2.
    + injection Hin as -> ->. rewrite Hst. apply Hfit; [|congruence].
      rewrite E2. apply elem_of_app. right. by left.
    + apply Hfit; [|done]. apply elem_of_app. right. by right.
  - by rewrite Hal.
  - by rewrite Hfr.
  - apply (sorted_by_ext (size_of a)); [|done]. intros n Hn.
    change (n ∈ inorder (free_buffers a)) in Hn. destruct (Hso n) as [->|Hno]; [done|].
    exfalso. apply Hno, free_ids_in. by rewrite <- Hf.
  - unfold a'. simpl. rewrite E, async_total_app in Hasync. rewrite async_total_app. simpl in *.
    unfold async_charge in *. by rewrite E3, E4, Hst.
Qed.

(** Pages changed without a change of which are active. *)
Lemma alloc_wf_pages a ps h :
  alloc_inv account sizeof a ->
  pages_are (with_pages a ps h) (in_use (buffer a) (hi_of a) (buffers a)) ->
  alloc_inv account sizeof (with_pages a ps h).
Proof.
  intros Hwf Hp. destruct (trees_wf_pages a ps h (alloc_wf_trees _ _ Hwf)) as [Hl _ _ Hs].
  destruct Hwf as [_ _ ? ? ? ? ? ? ? ? ?]. constructor; try done. by apply pages_wf_are.
Qed.

(** ** Reading and writing *)

Lemma in_use_mid a l1 b l2 y :
  buffers a = l1 ++ b :: l2 -> free b = false ->
  user_data b <= y < start_of l2 (hi_of a) ->
  in_use (buffer a) (hi_of a) (buffers a) (page_of (buffer a) y).
Proof.
  intros E Hf Hy. rewrite E, in_use_app, in_use_cons. right. left. split; [done|].
  split; apply page_of_mono; lia.
Qed.

Lemma accessible_buffer a l1 b l2 off n :
  alloc_inv account sizeof a -> buffers a = l1 ++ b :: l2 -> free b = false ->
  0 <= off -> 0 <= n -> off + n <= start_of l2 (hi_of a) - user_data b ->
  accessible a (in_use (buffer a) (hi_of a) (buffers a)) (user_data b + off) n.
Proof.
  intros Hwf E Hf Ho Hn Hsz. pose proof (wf_layout _ _ Hwf) as Hl.
  pose proof (start_of_le _ _ _ _ Hl E) as Hlt.
  assert (Hin : b ∈ buffers a) by (rewrite E; set_solver).
  destruct (tiled_bounds _ _ (wf_tiled _ Hl)) as [_ Hx]. rewrite (wf_start _ Hl) in Hx.
  specialize (Hx b Hin). pose proof (wf_space _ Hl). destruct (wf_buffer _ Hl) as [Hb _].
  split; [by apply pages_wf_are, Hwf|]. split; [lia|]. split; [lia|]. split; [done|].
  intros y Hy. split; [by eapply in_use_mid; [exact E|done|lia]|].
  rewrite (wf_npages _ (wf_pages _ _ Hwf)). destruct (wf_size _ Hl) as [_ Hm].
  unfold page_of. apply Z.div_lt_upper_bound; [done|]. unfold hi_of in *.
  pose proof (Z_div_mod_eq_full (buffer_size a) PAGE_SIZE). lia.
Qed.

Lemma find_mid a l1 b l2 :
  alloc_inv account sizeof a -> buffers a = l1 ++ b :: l2 -> find_buf (buffers a) (entry b) = Some b.
Proof. intros Hwf E. rewrite E. apply find_buf_mid. rewrite <- E. apply Hwf. Qed.

Lemma base_le a l1 b l2 :
  alloc_inv account sizeof a -> buffers a = l1 ++ b :: l2 -> buffer a <= user_data b.
Proof.
  intros Hwf E. pose proof (wf_layout _ _ Hwf) as Hl.
  destruct (tiled_bounds _ _ (wf_tiled _ Hl)) as [_ Hx]. rewrite (wf_start _ Hl) in Hx.
  apply (Hx b). rewrite E. set_solver.
Qed.

(** Which accesses to a buffer are let through. *)
Definition may_access (b : binder_buffer) (sz off n : Z) : Prop :=
  n <= sz /\ off <= sz - n /\ off mod 4 = 0 /\ free b = false /\
  (allow_user_free b = false \/ transaction b = None).

Lemma check_buffer_spec a l1 b l2 off n :
  alloc_inv account sizeof a -> buffers a = l1 ++ b :: l2 -> 0 <= off -> 0 <= n ->
  exists ok, check_buffer a (entry b) off n = Some ok /\
    (ok = true <-> may_access b (start_of l2 (hi_of a) - user_data b) off n).
Proof.
  intros Hwf E Ho Hn. pose proof (wf_layout _ _ Hwf) as Hl.
  unfold check_buffer. rewrite (find_mid a l1 b l2), (buffer_size_mid a l1 b l2) by done. mstep.
  eexists. split; [done|]. set (sz := start_of l2 (hi_of a) - user_data b).
  assert (Hsz : 0 < sz < 2 ^ 62).
  { pose proof (start_of_le _ _ _ _ Hl E). pose proof (wf_space _ Hl).
    pose proof (base_le a l1 b l2 Hwf E). destruct (wf_buffer _ Hl). unfold sz. lia. }
  unfold may_access. replace 3 with (Z.ones 2) by done. rewrite Z.land_ones by lia.
  change (2 ^ 2) with 4. rewrite !andb_true_iff, orb_true_iff, !negb_true_iff, bool_decide_eq_true.
  rewrite !Z.leb_le, Z.eqb_eq.
  split; [intros ((((H1 & H2) & H3) & H4) & H5)|intros (H1 & H2 & H3 & H4 & H5)];
    (rewrite u64_id in * by lia); tauto.
Qed.

(** Writing into an allocated buffer: [n] bytes at [off], taken from [src]. *)
Definition written (a a' : binder_alloc) (x n : Z) (src : Z -> option Z) : Prop :=
  forall y, mem a' y = if (x <=? y) && (y <? x + n) then src (y - x) else mem a y.

Lemma copy_to_spec a l1 b l2 off src n :
  alloc_inv account sizeof a -> buffers a = l1 ++ b :: l2 -> 0 <= off -> 0 <= n <= zlen src ->
  exists r a', binder_alloc_copy_to_buffer a (entry b) off src n = Some (r, a') /\
    alloc_inv account sizeof a' /\ (exists ps, a' = with_pages a ps (pages_high a)) /\
    ((r = 0 /\ may_access b (start_of l2 (hi_of a) - user_data b) off n /\
      written a a' (user_data b + off) n (rd src)) \/
     (r = - EINVAL /\ ~ may_access b (start_of l2 (hi_of a) - user_data b) off n /\ a' = a)).
Proof.
  intros Hwf E Ho Hn. unfold binder_alloc_copy_to_buffer.
  destruct (check_buffer_spec a l1 b l2 off n Hwf E) as (ok & -> & Hok); [lia..|]. mstep.
  destruct ok; cbn [negb].
  - pose proof (proj1 Hok eq_refl) as Hacc. destruct Hacc as (H1 & H2 & H3 & H4 & H5).
    destruct (copy_to_loop (S (Z.to_nat n)) a (in_use (buffer a) (hi_of a) (buffers a)) (entry b) b off src n)
      as (ps & E' & Hp & Hm); [by eapply find_mid|lia|lia|done|by eapply base_le| |].
    { eapply accessible_buffer; eauto; lia. }
    eexists _, _. split; [exact E'|]. split; [by apply alloc_wf_pages|].
    split; [by eexists|]. left. split; [done|]. split; [done|]. intros y. apply Hm.
  - exists (- EINVAL), a. split; [done|]. split; [done|].
    split; [exists (pages a); apply with_pages_id|]. right. split; [done|]. split; [|done].
    intros Hacc. by apply Hok in Hacc.
Qed.

Lemma copy_from_spec a l1 b l2 off n :
  alloc_inv account sizeof a -> buffers a = l1 ++ b :: l2 -> 0 <= off -> 0 <= n ->
  exists r bs, binder_alloc_copy_from_buffer a (entry b) off n = Some (r, bs) /\
    ((r = 0 /\ may_access b (start_of l2 (hi_of a) - user_data b) off n /\ zlen bs = n /\
      forall i, 0 <= i < n -> rd bs i = mem a (user_data b + off + i)) \/
     (r = - EINVAL /\ ~ may_access b (start_of l2 (hi_of a) - user_data b) off n /\ bs = [])).
Proof.
  intros Hwf E Ho Hn. unfold binder_alloc_copy_from_buffer.
  destruct (check_buffer_spec a l1 b l2 off n Hwf E) as (ok & -> & Hok); [lia..|]. mstep.
  destruct ok; cbn [negb].
  - pose proof (proj1 Hok eq_refl) as Hacc. destruct Hacc as (H1 & H2 & H3 & H4 & H5).
    destruct (copy_from_loop (S (Z.to_nat n)) a (in_use (buffer a) (hi_of a) (buffers a))
      (entry b) b off [] n) as (bs & E' & Hz & Hm);
      [by eapply find_mid|lia|done|by eapply base_le| |].
    { eapply accessible_buffer; eauto; lia. }
    exists 0, bs. split; [exact E'|]. left. done.
  - exists (- EINVAL), []. split; [done|]. right. split; [done|]. split; [|done].
    intros Hacc. by apply Hok in Hacc.
Qed.

Lemma copy_user_exact fault a l1 b l2 off user n (x := user_data b + off) :
  fault_ok fault ->
  alloc_inv account sizeof a -> buffers a = l1 ++ b :: l2 -> 0 <= off -> 0 <= n <= zlen user ->
  exists r a', binder_alloc_copy_user_to_buffer fault a (entry b) off user n = Some (r, a') /\
    alloc_inv account sizeof a' /\ (exists ps, a' = with_pages a ps (pages_high a)) /\ 0 <= r <= n /\
    ((may_access b (start_of l2 (hi_of a) - user_data b) off n /\
      exists stop, n - r <= stop <= n /\ partial_copy fault (buffer a) x n 0 r stop /\
      forall y, mem a' y = if (x <=? y) && (y <? x + (n - r)) then rd user (y - x)
                           else if (x + (n - r) <=? y) && (y <? x + stop) then Some 0 else mem a y) \/
     (r = n /\ ~ may_access b (start_of l2 (hi_of a) - user_data b) off n /\ a' = a)).
Proof.
  intros Hfault Hwf E Ho Hn. unfold binder_alloc_copy_user_to_buffer.
  destruct (check_buffer_spec a l1 b l2 off n Hwf E) as (ok & -> & Hok); [lia..|]. mstep.
  destruct ok; cbn [negb].
  - pose proof (proj1 Hok eq_refl) as Hacc. destruct Hacc as (H1 & H2 & H3 & H4 & H5).
    destruct (copy_user_loop fault (S (Z.to_nat n)) a (in_use (buffer a) (hi_of a) (buffers a))
      (entry b) b off user 0 n) as (r & ps & stop & E' & Hr & Hst & Hcp & Hp & Hm);
      [done|by eapply find_mid|lia|lia|lia|auto|done|by eapply base_le| |].
    { eapply accessible_buffer; eauto; lia. }
    rewrite Z.add_0_l, Z.sub_0_r in *. fold x in Hst, Hcp, Hm.
    eexists r, _. split; [exact E'|]. split; [by apply alloc_wf_pages|].
    split; [by eexists|]. split; [done|]. left. split; [done|]. exists stop. split_and!; [lia..|done|exact Hm].
  - exists n, a. split; [done|]. split; [done|].
    split; [exists (pages a); apply with_pages_id|]. split; [lia|]. right.
    split; [done|]. split; [|done]. intros Hacc. by apply Hok in Hacc.
Qed.

Lemma partial_copy_whole fault base x n from r stop :
  partial_copy fault base x n from r stop -> (forall f s, fault f s = 0) -> r = 0.
Proof. intros [(-> & _)|(f & s & _ & _ & Hf & _)] H0; [done|by destruct (Hf (H0 f s))]. Qed.

Lemma copy_user_spec fault a l1 b l2 off user n :
  fault_ok fault ->
  alloc_inv account sizeof a -> buffers a = l1 ++ b :: l2 -> 0 <= off -> 0 <= n <= zlen user ->
  exists r a', binder_alloc_copy_user_to_buffer fault a (entry b) off user n = Some (r, a') /\
    alloc_inv account sizeof a' /\ (exists ps, a' = with_pages a ps (pages_high a)) /\ 0 <= r <= n /\
    ((may_access b (start_of l2 (hi_of a) - user_data b) off n /\
      ((forall f s, fault f s = 0) -> r = 0) /\
      forall y, ~ (user_data b + off + n - r <= y < user_data b + off + n) ->
        mem a' y = if (user_data b + off <=? y) && (y <? user_data b + off + n)
                   then rd user (y - (user_data b + off)) else mem a y) \/
     (r = n /\ ~ may_access b (start_of l2 (hi_of a) - user_data b) off n /\ a' = a)).
Proof.
  intros Hfault Hwf E Ho Hn.
  destruct (copy_user_exact fault a l1 b l2 off user n Hfault Hwf E Ho Hn) as
    (r & a' & E' & Hwf' & Hps & Hr & [(Hacc & stop & Hst & Hcp & Hm)|Hno]); exists r, a'; [|by auto 6].
  split_and!; [done..|lia|lia|]. left. split; [done|]. split; [by eapply partial_copy_whole|].
  intros y Hy. rewrite Hm. repeat zcase; cbn [andb]; try lia; done.
Qed.

Lemma clear_buf_spec a l1 b l2 :
  alloc_inv account sizeof a -> buffers a = l1 ++ b :: l2 -> free b = false ->
  exists a', binder_alloc_clear_buf a (entry b) = Some a' /\ alloc_inv account sizeof a' /\
    (exists ps, a' = with_pages a ps (pages_high a)) /\
    written a a' (user_data b) (start_of l2 (hi_of a) - user_data b) (fun _ => Some 0).
Proof.
  intros Hwf E Hf. pose proof (start_of_le _ _ _ _ (wf_layout _ _ Hwf) E) as Hlt.
  unfold binder_alloc_clear_buf. rewrite (buffer_size_mid a l1 b l2) by (done || apply Hwf). mstep.
  set (n := start_of l2 (hi_of a) - user_data b).
  destruct (clear_loop (S (Z.to_nat n)) a (in_use (buffer a) (hi_of a) (buffers a)) (entry b) b 0 n)
    as (ps & E' & Hp & Hm); [by eapply find_mid|unfold n; lia|done|by eapply base_le| |].
  { eapply accessible_buffer; eauto; unfold n; lia. }
  eexists. split; [exact E'|]. split; [by apply alloc_wf_pages|]. split; [by eexists|].
  intros y. rewrite Hm, Z.add_0_r. done.
Qed.

(** ** Freeing *)

Lemma free_buf_whole_spec env a l1 b l2 :
  alloc_inv account sizeof a -> buffers a = l1 ++ b :: l2 -> free b = false -> transaction b = None ->
  exists a', binder_alloc_free_buf sizeof env a (entry b) = Some a' /\ alloc_inv account sizeof a' /\
    same_range a a' /\
    buffers a' = released l1 (b <| clear_on_free := false |>) l2 /\
    free_async_space a' = u64 (free_async_space a + async_charge sizeof b).
Proof.
  intros Hwf E Hf Ht. unfold binder_alloc_free_buf. rewrite (find_mid a l1 b l2) by done. mstep.
  set (b0 := b <| clear_on_free := false |>).
  destruct (clear_on_free b) eqn:Hc.
  - destruct (clear_buf_spec a l1 b l2) as (a1 & -> & Hwf1 & (ps & ->) & _); try done. mstep.
    set (a2 := (with_pages a ps (pages_high a)) <| buffers := l1 ++ b0 :: l2 |>).
    replace ((with_pages a ps (pages_high a)) <| buffers ::= _ |>) with a2.
    2: { unfold a2. transitivity ((with_pages a ps (pages_high a)) <| buffers :=
           upd_buf (set clear_on_free (fun _ => false)) (entry b) (buffers a) |>); [|done].
         rewrite E, upd_buf_mid; [done|]. rewrite <- E. apply Hwf. }
    assert (Hwf2 : alloc_inv account sizeof a2) by (by eapply (alloc_wf_flags _ a2 l1 b b0 l2 Hwf1)).
    destruct (free_buf_spec (account:=account) sizeof Hsizeof env a2 l1 b0 l2) as (a' & E' & ? & ? & ? & ?); try done.
    exists a'. split; [exact E'|]. done.
  - mstep. replace b0 with b by (unfold b0; destruct b; simpl in *; by subst).
    by apply free_buf_spec.
Qed.

(** A user pointer names the allocated buffer that starts at it. *)
Lemma find_allocated_spec a t uptr A C :
  (forall n, n ∈ inorder t -> exists b, find_buf (buffers a) n = Some b /\ free b = false) ->
  StronglySorted (fun n m => forall b c, find_buf (buffers a) n = Some b ->
    find_buf (buffers a) m = Some c -> user_data b < user_data c) (A ++ inorder t ++ C) ->
  exists r, find_allocated (buffers a) uptr t = Some r /\
    match r with
    | Some b => entry b ∈ inorder t /\ find_buf (buffers a) (entry b) = Some b /\ user_data b = uptr
    | None => forall n b, n ∈ inorder t -> find_buf (buffers a) n = Some b -> user_data b <> uptr
    end.
Proof.
  revert A C. induction t as [|l IHl n r IHr]; intros A C Hm HS; cbn [inorder find_allocated] in *.
  { exists None. split; [done|]. by intros ? ? ?%elem_of_nil. }
  destruct (Hm n) as (b & Hb & Hf); [set_solver|]. rewrite Hb. mstep. rewrite Hf.
  rewrite <- app_assoc in HS. simpl in HS.
  assert (Hlo : forall m c, m ∈ inorder l -> find_buf (buffers a) m = Some c ->
    user_data c < user_data b).
  { intros m c Hin Hc. apply StronglySorted_app_1_r in HS.
    refine (StronglySorted_app_1_elem_of _ _ _ m n HS Hin _ c b Hc Hb). by left. }
  assert (Hhi : forall m c, m ∈ inorder r -> find_buf (buffers a) m = Some c ->
    user_data b < user_data c).
  { intros m c Hin Hc. do 2 apply StronglySorted_app_1_r in HS.
    apply StronglySorted_cons in HS as [HF _]. rewrite Forall_forall in HF.
    apply (HF m); [set_solver|done..]. }
  destruct (Z.ltb_spec uptr (user_data b)) as [Hlt|Hge].
  - destruct (IHl A (n :: inorder r ++ C)) as (res & -> & Hr); [intros; apply Hm; set_solver|done|].
    exists res. split; [done|]. destruct res as [c|].
    + destruct Hr as (? & ? & ?). split; [set_solver|done].
    + intros m c [Hin|[->|Hin]%elem_of_cons]%elem_of_app Hc; [by eapply Hr| |].
      * rewrite Hb in Hc. injection Hc as <-. lia.
      * specialize (Hhi m c Hin Hc). lia.
  - rewrite Z.gtb_ltb. destruct (Z.ltb_spec (user_data b) uptr) as [Hlt|Hge'].
    + destruct (IHr (A ++ inorder l ++ [n]) C) as (res & -> & Hr);
        [intros; apply Hm; set_solver|by rewrite <- !app_assoc|].
      exists res. split; [done|]. destruct res as [c|].
      * destruct Hr as (? & ? & ?). split; [set_solver|done].
      * intros m c [Hin|[->|Hin]%elem_of_cons]%elem_of_app Hc; [| |by eapply Hr].
        -- specialize (Hlo m c Hin Hc). lia.
        -- rewrite Hb in Hc. injection Hc as <-. lia.
    + exists (Some b). split; [done|]. apply find_buf_split in Hb as HH.
      destruct HH as [<- _]. split; [set_solver|]. split; [done|lia].
Qed.

Lemma allocated_order l hi L :
  tiled l hi -> (forall b, b ∈ l -> find_buf L (entry b) = Some b) ->
  StronglySorted (fun n m => forall b c, find_buf L n = Some b ->
    find_buf L m = Some c -> user_data b < user_data c) (allocated_ids l).
Proof.
  intros Ht HL. induction l as [|b l IH]; [constructor|]. destruct Ht as (_ & Hlt & Ht).
  destruct (tiled_bounds _ _ Ht) as [_ Hb].
  assert (HS : StronglySorted (fun n m => forall b c, find_buf L n = Some b ->
    find_buf L m = Some c -> user_data b < user_data c) (allocated_ids l)).
  { apply IH; [done|]. intros c Hc. apply HL. by right. }
  unfold allocated_ids in *. destruct (free b) eqn:Hf.
  - by rewrite filter_cons_False by (by rewrite Hf).
  - rewrite filter_cons_True by done. simpl. constructor; [done|].
    apply Forall_forall. intros m (c & -> & [_ Hc]%list_elem_of_filter)%list_elem_of_fmap b' c'.
    rewrite (HL b) by (by left). rewrite (HL c) by (by right). intros [= <-] [= <-].
    specialize (Hb c Hc). lia.
Qed.

Lemma find_buf_in a b : alloc_inv account sizeof a -> b ∈ buffers a -> find_buf (buffers a) (entry b) = Some b.
Proof. intros Hwf (l1 & l2 & E)%list_elem_of_split. by eapply find_mid. Qed.

Lemma prepare_to_free_spec a uptr :
  alloc_inv account sizeof a ->
  exists r a', binder_alloc_prepare_to_free a uptr = Some (r, a') /\ alloc_inv account sizeof a' /\
    same_range a a' /\
    match r with
    | inl None => a' = a /\ forall b, b ∈ buffers a -> free b = false -> user_data b <> uptr
    | inr e => e = - EPERM /\ a' = a /\ exists b, b ∈ buffers a /\ free b = false /\
        user_data b = uptr /\ allow_user_free b = false
    | inl (Some n) => exists l1 b l2, buffers a = l1 ++ b :: l2 /\ entry b = n /\ free b = false /\
        user_data b = uptr /\ allow_user_free b = true /\
        a' = a <| buffers := l1 ++ (b <| allow_user_free := false |>) :: l2 |>
    end.
Proof.
  intros Hwf. pose proof (wf_layout _ _ Hwf) as Hl. unfold binder_alloc_prepare_to_free.
  assert (Hids : forall n, n ∈ inorder (allocated_buffers a) ->
    exists b, b ∈ buffers a /\ entry b = n /\ free b = false).
  { intros n Hn. rewrite (wf_allocated _ _ Hwf) in Hn.
    apply list_elem_of_fmap in Hn as (b & -> & [Hf Hb]%list_elem_of_filter). eauto. }
  destruct (find_allocated_spec a (allocated_buffers a) uptr [] []) as (r & -> & Hr).
  { intros n Hn. destruct (Hids n Hn) as (b & Hb & <- & Hf). exists b. split; [|done].
    by apply find_buf_in. }
  { rewrite app_nil_r. simpl. rewrite (wf_allocated _ _ Hwf).
    eapply allocated_order; [apply Hl|]. intros b Hb. by apply find_buf_in. }
  mstep. destruct r as [b|].
  - destruct Hr as (Hin & Hb & Hu). destruct (Hids _ Hin) as (b' & Hb' & He & Hf).
    assert (b' = b) as -> by (pose proof (find_buf_in a b' Hwf Hb') as H1; rewrite He in H1; congruence).
    destruct (allow_user_free b) eqn:Ha; cbn [negb].
    + apply list_elem_of_split in Hb' as (l1 & l2 & E).
      set (a' := a <| buffers := l1 ++ (b <| allow_user_free := false |>) :: l2 |>).
      exists (inl (Some (entry b))), a'.
      split.
      { f_equal. f_equal. transitivity (a <| buffers :=
          upd_buf (set allow_user_free (fun _ => false)) (entry b) (buffers a) |>); [done|].
        unfold a'. rewrite E, upd_buf_mid; [done|]. rewrite <- E. apply Hl. }
      split; [by eapply (alloc_wf_flags a a' l1 b (b <| allow_user_free := false |>) l2 Hwf E)|]. split; [done|]. exists l1, b, l2. done.
    + exists (inr (- EPERM)), a. do 3 (split; [done|]). split; [done|]. split; [done|]. by exists b.
  - exists (inl None), a. split; [done|]. split; [done|]. split; [done|]. split; [done|].
    intros b Hb Hf. apply (Hr (entry b)); [|by apply find_buf_in].
    rewrite (wf_allocated _ _ Hwf). apply list_elem_of_fmap_2, list_elem_of_filter. done.
Qed.

(** ** Mapping the area *)

Lemma mmap_spec env kcalloc_ok current vm_start vm_end :
  0 < vm_start -> vm_start mod PAGE_SIZE = 0 -> vm_start < vm_end ->
  vm_end mod PAGE_SIZE = 0 -> vm_end < 2 ^ 62 ->
  exists ret a', binder_alloc_mmap_handler env kcalloc_ok (binder_alloc_init current)
      vm_start vm_end = Some (ret, a') /\
    ((ret = 0 /\ alloc_inv account sizeof a' /\ vma a' = true /\ vma_vm_mm a' = true /\
      buffer a' = vm_start /\ buffer_size a' = Z.min (vm_end - vm_start) SZ_4M /\
      free_async_space a' = buffer_size a' / 2 /\
      exists b, buffers a' = [b] /\ free b = true) \/
     (ret = - ENOMEM /\ (kcalloc_ok = false \/ kzalloc env = None) /\
      a' = binder_alloc_init current)).
Proof.
  intros Hs Hsm Hlt Hem He. unfold binder_alloc_mmap_handler.
  change (truth (buffer_size (binder_alloc_init current))) with false. cbv iota zeta.
  assert (Hm8 : forall x, x mod PAGE_SIZE = 0 -> x mod 8 = 0).
  { intros x Hx. change PAGE_SIZE with 4096 in *. clear - Hx. dlia. }
  rewrite u64_id by lia. set (n := Z.min (vm_end - vm_start) SZ_4M).
  assert (Hn : 0 < n <= SZ_4M /\ n mod PAGE_SIZE = 0 /\ vm_start + n < 2 ^ 62).
  { unfold n, SZ_4M. change PAGE_SIZE with 4096 in *. clear - Hs Hsm Hlt Hem He. dlia. }
  destruct Hn as (Hn & Hnm & Hn62).
  destruct kcalloc_ok; cbn [negb]; [|eexists _, _; split; [done|right; split; [done|]; split; [by left|done]]].
  destruct (kzalloc env) as [k|] eqn:Hk;
    [|eexists _, _; split; [done|right; split; [done|]; split; [by right|done]]].
  set (b := {| entry := k; user_data := vm_start; free := true; clear_on_free := false;
    allow_user_free := false; async_transaction := false; transaction := None; data_size := 0;
    offsets_size := 0; extra_buffers_size := 0; buf_pid := 0 |}).
  match goal with |- context [binder_insert_free_buffer ?s k] =>
    set (a0 := {| vma := false; vma_vm_mm := false; buffer := vm_start; buffers := [b];
      free_buffers := Leaf; allocated_buffers := Leaf; free_async_space := 0;
      pages := replicate (Z.to_nat (n / PAGE_SIZE)) {| page_ptr := None; lru := false |};
      pages_high := 0; buffer_size := n; pid := current; warned := false |});
    change s with a0 end.
  assert (Hl : layout_wf a0).
  { constructor; unfold hi_of; simpl; try done; try lia.
    - split; [by apply Hm8|]. split; [lia|done].
    - apply NoDup_singleton. }
  destruct (insert_free_sorted a0 k b Hl) as (t & -> & Hp & Hst);
    [simpl; by rewrite decide_True|done|by intros ? ?%elem_of_nil|constructor|].
  mstep. eexists _, _. split; [done|]. left. split; [done|].
  split; [|split_and?; try done; by exists b].
  assert (Hnu : forall i, ~ in_use vm_start (vm_start + n) [b] i).
  { intros i. rewrite in_use_cons, in_use_nil. simpl. intros [[? _]|[]]; done. }
  assert (Hnp : 0 <= n / PAGE_SIZE) by (apply Z.div_pos; [lia|done]).
  constructor; simpl; try done.
  - by eapply layout_wf_change; [exact Hl|..]; destruct Hl.
  - apply pages_wf_are. split; simpl; [rewrite zlen_replicate; lia|].
    intros i p Hrd. split; [intros Hu; by apply Hnu in Hu|]. intros _.
    apply rd_Some in Hrd as [_ Hrd]. apply lookup_replicate in Hrd as [-> _]. done.
  - unfold hi_of. simpl. intros c sz [[= -> ->]|Hin%elem_of_nil]%elem_of_cons; done.
  - unfold SZ_4M in Hn. clear - Hn. dlia.
  - intros _. by rewrite Z.add_0_r.
Qed.

(** ** The shrinker *)

Lemma free_page_spec t1 t2 t3 a i p :
  alloc_inv account sizeof a -> vma_vm_mm a = true -> rd (pages a) i = Some p -> lru p = true ->
  exists r a', binder_alloc_free_page t1 t2 t3 a i = Some (r, a') /\ alloc_inv account sizeof a' /\
    exists ps, a' = with_pages a ps (pages_high a).
Proof.
  intros Hwf Hmm Hrd Hlru.
  assert (Hsame : exists ps, a = with_pages a ps (pages_high a))
    by (exists (pages a); apply with_pages_id).
  unfold binder_alloc_free_page. destruct t1; cbn [negb]; [|by eexists _, a].
  rewrite Hrd. mstep. destruct (page_ptr p) as [c|] eqn:Hc; [|by eexists _, a].
  rewrite Hmm. destruct t2; cbn [negb]; [|by eexists _, a].
  destruct t3; cbn [negb]; [|by eexists _, a].
  pose proof (proj1 (pages_wf_are a) (wf_pages _ _ Hwf)) as Hp.
  assert (Hnot : ~ in_use (buffer a) (hi_of a) (buffers a) i).
  { intros Hu. destruct (proj1 (proj2 Hp i p Hrd) Hu) as (? & _ & _ & ?). congruence. }
  destruct (set_page_spec a _ (in_use (buffer a) (hi_of a) (buffers a)) i
    {| page_ptr := None; lru := false |} Hp) as (ps & -> & Hps & _);
    [by eapply rd_lt|done|done|done|].
  mstep. eexists _, _. split; [done|]. split; [by apply alloc_wf_pages|by eexists].
Qed.

(** ** Releasing everything *)

Definition no_transactions (l : list binder_buffer) : Prop :=
  forall b, b ∈ l -> free b = false -> transaction b = None.

Lemma no_transactions_released l1 b l2 :
  no_transactions (l1 ++ b :: l2) -> no_transactions (released l1 b l2).
Proof.
  intros Hn c Hc Hf. unfold released in Hc.
  assert (Hcase : c = b <| free := true |> \/ c ∈ l1 \/ c ∈ l2).
  { apply elem_of_app in Hc as [Hc|Hc].
    - unfold merge_prev in Hc. destruct (last l1) as [p|]; [destruct (free p)|].
      + auto.
      + apply elem_of_app in Hc as [?| ->%list_elem_of_singleton]; auto.
      + apply list_elem_of_singleton in Hc as ->. auto.
    - right. right. destruct l2 as [|n k]; [done|]. simpl in Hc.
      destruct (free n); [by right|done]. }
  destruct Hcase as [->|Hcase]; [done|]. apply (Hn c); [|done].
  apply elem_of_app. destruct Hcase; [by left|right; by right].
Qed.

Lemma no_transactions_flags l1 b c l2 :
  no_transactions (l1 ++ b :: l2) -> (free c = false -> free b = false) ->
  transaction c = transaction b -> no_transactions (l1 ++ c :: l2).
Proof.
  intros Hn Hf Ht d [Hd|[->|Hd]%elem_of_cons]%elem_of_app Hfd.
  - apply Hn; [|done]. apply elem_of_app. by left.
  - rewrite Ht. apply Hn; [|auto]. apply elem_of_app. right. by left.
  - apply Hn; [|done]. apply elem_of_app. right. by right.
Qed.

(** One round frees the buffer with the lowest address. *)
Lemma release_one_spec env a n l1 b l2 rest :
  alloc_inv account sizeof a -> no_transactions (buffers a) -> buffers a = l1 ++ b :: l2 ->
  free b = false -> allocated_ids (buffers a) = entry b :: rest ->
  exists a', release_one sizeof env (n, a) = Some (inl (n + 1, a')) /\ alloc_inv account sizeof a' /\
    same_range a a' /\ buffers a' = released l1 (b <| clear_on_free := false |>) l2.
Proof.
  intros Hwf Hnt E Hf Eids. assert (Hb : b ∈ buffers a) by (rewrite E; set_solver).
  pose proof (find_mid a l1 b l2 Hwf E) as Hfind. pose proof (Hnt b Hb Hf) as Ht.
  destruct (free_buf_whole_spec env a l1 b l2 Hwf E Hf Ht) as (a1 & E1 & Hwf1 & Hr1 & Eb1 & _).
  exists a1. split; [|done]. unfold binder_alloc_free_buf in E1. rewrite Hfind in E1.
  unfold release_one, rb_first. rewrite (wf_allocated _ _ Hwf), Eids. cbv beta iota. cbn [head].
  rewrite Hfind. cbn [mbind option_bind] in *. rewrite bool_decide_eq_false_2 by tauto.
  destruct (clear_on_free b).
  - destruct (binder_alloc_clear_buf a (entry b)) as [a0|]; [|done].
    cbn [mbind option_bind] in *. by rewrite E1.
  - cbn [mbind option_bind] in *. by rewrite E1.
Qed.

Lemma release_loop_spec fuel env a n :
  alloc_inv account sizeof a -> no_transactions (buffers a) ->
  (length (allocated_ids (buffers a)) < fuel)%nat ->
  exists a', loop fuel (release_one sizeof env) (n, a) = Some (n + Z.of_nat (length (allocated_ids (buffers a))), a') /\
    alloc_inv account sizeof a' /\ same_range a a' /\ allocated_ids (buffers a') = [].
Proof.
  revert a n. induction fuel as [|fuel IH]; intros a n Hwf Hnt Hlen; [lia|].
  cbn [loop]. destruct (allocated_ids (buffers a)) as [|m rest] eqn:Eids.
  { exists a. unfold release_one at 1. simpl. unfold rb_first. rewrite (wf_allocated _ _ Hwf), Eids.
    simpl. by rewrite Z.add_0_r. }
  assert (Hm : m ∈ allocated_ids (buffers a)) by (rewrite Eids; by left).
  unfold allocated_ids in Hm.
  apply list_elem_of_fmap in Hm as (b & -> & [Hf Hb]%list_elem_of_filter).
  apply list_elem_of_split in Hb as (l1 & l2 & E).
  destruct (release_one_spec env a n l1 b l2 rest) as (a1 & -> & Hwf1 & Hr1 & Eb1); try done.
  assert (Hlen1 : length (allocated_ids (buffers a1)) = length rest).
  { rewrite Eb1, allocated_released. rewrite E, allocated_ids_app in Eids.
    assert (H1 : length (allocated_ids l1 ++ allocated_ids (b :: l2)) = S (length rest))
      by (by rewrite Eids).
    unfold allocated_ids at 2 in H1. rewrite filter_cons_True in H1 by done. simpl in H1.
    rewrite length_app in *. simpl in H1. unfold allocated_ids at 2. lia. }
  mstep.
  destruct (IH a1 (n + 1)) as (a' & E' & Hwf' & Hr' & Hids'); [done| |rewrite Hlen1; simpl in Hlen; lia|].
  { rewrite Eb1. apply no_transactions_released. rewrite E in Hnt.
    by eapply no_transactions_flags; [exact Hnt|..]. }
  exists a'. split; [|split; [done|split; [|done]]].
  - rewrite E', Hlen1. simpl length. do 2 f_equal. lia.
  - unfold same_range in *. intuition congruence.
Qed.

Lemma all_free_single a :
  alloc_inv account sizeof a -> allocated_ids (buffers a) = [] -> exists b, buffers a = [b] /\ free b = true.
Proof.
  intros Hwf Hn.
  assert (Hall : forall b, b ∈ buffers a -> free b = true).
  { intros b Hb. destruct (free b) eqn:Hf; [done|].
    assert (entry b ∈ allocated_ids (buffers a)) as Hin.
    { by apply list_elem_of_fmap_2, list_elem_of_filter. }
    rewrite Hn in Hin. by apply elem_of_nil in Hin. }
  pose proof (wf_coalesced _ _ Hwf) as Hc. pose proof (wf_start _ (wf_layout _ _ Hwf)) as Hs.
  destruct (buffers a) as [|b [|c l]].
  - simpl in Hs. pose proof (wf_size _ (wf_layout _ _ Hwf)). unfold hi_of in Hs. lia.
  - exists b. split; [done|]. apply Hall. by left.
  - exfalso. simpl in Hc. destruct Hc as [Hc _]. apply Hc.
    split; apply Hall; [by left|right; by left].
Qed.

Lemma deferred_release_spec env a :
  alloc_inv account sizeof a -> vma a = false -> no_transactions (buffers a) ->
  exists n pgs a', binder_alloc_deferred_release sizeof env a = Some (n, pgs, a') /\
    n = binder_alloc_get_allocated_count a /\
    buffers a' = [] /\ pages a' = [] /\ warned a' = false /\
    inorder (allocated_buffers a') = [].
Proof.
  intros Hwf Hv Hnt. unfold binder_alloc_deferred_release, release_allocated. rewrite Hv.
  destruct (release_loop_spec (S (length (inorder (allocated_buffers a)))) env a 0 Hwf Hnt)
    as (a' & -> & Hwf' & _ & Hids); [rewrite (wf_allocated _ _ Hwf); lia|].
  mstep. destruct (all_free_single a' Hwf' Hids) as (b & Eb & Hfb). rewrite Eb.
  cbn [release_buffers]. rewrite Hfb. rewrite bool_decide_eq_true_2 by done. cbn [negb WARN_ON].
  eexists _, _, _. split; [done|].
  split; [unfold binder_alloc_get_allocated_count; rewrite (wf_allocated _ _ Hwf); lia|].
  split; [done|]. split; [done|]. split; [apply (wf_nowarn _ _ Hwf')|].
  change (inorder (allocated_buffers a') = []). by rewrite (wf_allocated _ _ Hwf').
Qed.

(** ** Sequences of operations *)

Inductive alloc_op :=
  | NewBuf (env : kenv) (d o e : Z) (is_async : bool) (p : Z)
  | PrepareToFree (user_ptr : Z)
  | SetFlags (b : ptr) (user_free clear : bool) (t : option ptr)
  | FreeBuf (env : kenv) (b : ptr)
  | CopyTo (b : ptr) (off : Z) (src : list Z) (n : Z)
  | CopyUser (fault : Z -> Z -> Z) (b : ptr) (off : Z) (user : list Z) (n : Z)
  | Shrink (t1 t2 t3 : bool) (index : Z)
  | VmaClose.

Definition run_op (a : binder_alloc) (op : alloc_op) : option binder_alloc :=
  match op with
  | NewBuf env d o e is_async p =>
      snd <$> binder_alloc_new_buf_locked sizeof env a d o e is_async p
  | PrepareToFree u => snd <$> binder_alloc_prepare_to_free a u
  | SetFlags b user_free clear t =>
      Some (a <| buffers ::= upd_buf (fun x => x <| allow_user_free := user_free |>
                 <| clear_on_free := clear |> <| transaction := t |>) b |>)
  | FreeBuf env b => binder_alloc_free_buf sizeof env a b
  | CopyTo b off src n => snd <$> binder_alloc_copy_to_buffer a b off src n
  | CopyUser fault b off user n => snd <$> binder_alloc_copy_user_to_buffer fault a b off user n
  | Shrink t1 t2 t3 i => snd <$> binder_alloc_free_page t1 t2 t3 a i
  | VmaClose => Some (binder_alloc_vma_close a)
  end.

(** What the callers of the allocator and the kernel guarantee; and, only to
    keep the accounts of the asynchronous space right, that there is space for
    an empty asynchronous request. *)
Definition op_ok (a : binder_alloc) (op : alloc_op) : Prop :=
  match op with
  | NewBuf env d o e is_async p =>
      0 <= d < 2 ^ 64 /\ 0 <= o < 2 ^ 64 /\ 0 <= e < 2 ^ 64 /\
      (forall n, kzalloc env = Some n -> n ∉ ids (buffers a)) /\
      (account = true -> is_async = true -> 0 < exact_size d o e \/ 8 + sizeof <= free_async_space a)
  | PrepareToFree u => True
  | SetFlags b _ _ _ => b ∈ ids (buffers a)
  | FreeBuf env n => exists b, find_buf (buffers a) n = Some b /\ free b = false /\
      transaction b = None
  | CopyTo n off src k => n ∈ ids (buffers a) /\ 0 <= off /\ 0 <= k <= zlen src
  | CopyUser fault n off user k =>
      n ∈ ids (buffers a) /\ fault_ok fault /\ 0 <= off /\ 0 <= k <= zlen user
  | Shrink _ _ _ i => exists p, rd (pages a) i = Some p /\ lru p = true
  | VmaClose => True
  end.

Fixpoint run_ops (a : binder_alloc) (ops : list alloc_op) : option binder_alloc :=
  match ops with
  | [] => Some a
  | op :: ops => a' ← run_op a op; run_ops a' ops
  end.

Fixpoint ops_ok (a : binder_alloc) (ops : list alloc_op) : Prop :=
  match ops with
  | [] => True
  | op :: ops => op_ok a op /\ forall a', run_op a op = Some a' -> ops_ok a' ops
  end.

Lemma run_op_safe a op :
  alloc_inv account sizeof a -> vma_vm_mm a = true -> op_ok a op ->
  exists a', run_op a op = Some a' /\ alloc_inv account sizeof a' /\ vma_vm_mm a' = true.
Proof.
  intros Hwf Hmm Hok. destruct op; simpl in Hok |- *.
  - destruct Hok as (Hd & Ho & He & Hnew & Hsp).
    destruct (new_buf_spec (account:=account) sizeof Hsizeof env a d o e is_async p) as (r & a' & -> & Hwf' & Hr & _);
      try done.
    exists a'. split; [done|]. split; [done|]. destruct Hr as (_ & _ & _ & -> & _). done.
  - destruct (prepare_to_free_spec a user_ptr Hwf) as (r & a' & -> & Hwf' & Hr & _).
    exists a'. split; [done|]. split; [done|]. destruct Hr as (_ & _ & _ & -> & _). done.
  - apply ids_split in Hok as (x & l1 & l2 & E & <-).
    set (c := x <| allow_user_free := user_free |> <| clear_on_free := clear |>
                <| transaction := t |>).
    set (a' := a <| buffers := l1 ++ c :: l2 |>). exists a'.
    split; [|split; [by apply (alloc_wf_flags a a' l1 x c l2)|done]].
    f_equal. transitivity (a <| buffers := upd_buf (fun x => x <| allow_user_free := user_free |>
      <| clear_on_free := clear |> <| transaction := t |>) (entry x) (buffers a) |>); [done|].
    rewrite E, upd_buf_mid; [done|]. rewrite <- E. apply Hwf.
  - destruct Hok as (x & Hx & Hf & Ht). apply find_buf_split in Hx as (<- & l1 & l2 & E).
    destruct (free_buf_whole_spec env a l1 x l2) as (a' & -> & Hwf' & Hr & _); try done.
    exists a'. split; [done|]. split; [done|]. destruct Hr as (_ & _ & _ & -> & _). done.
  - destruct Hok as (Hx & Ho & Hn). apply ids_split in Hx as (x & l1 & l2 & E & <-).
    destruct (copy_to_spec a l1 x l2 off src n) as (r & a' & -> & Hwf' & (ps & ->) & _); try done.
    by eexists.
  - destruct Hok as (Hx & Hfault & Ho & Hn). apply ids_split in Hx as (x & l1 & l2 & E & <-).
    destruct (copy_user_spec fault a l1 x l2 off user n) as (r & a' & -> & Hwf' & (ps & ->) & _);
      try done.
    by eexists.
  - destruct Hok as (p & Hrd & Hl).
    destruct (free_page_spec t1 t2 t3 a index p) as (r & a' & -> & Hwf' & ps & ->); try done.
    by eexists.
  - exists (binder_alloc_vma_close a). split; [done|]. split; [|done].
    destruct Hwf as [Hl [? ? ?] ? ? ? ? ? ? ? ? ?]. constructor; try done.
    by eapply layout_wf_change; [exact Hl|..]; destruct Hl.
Qed.

Lemma run_ops_safe a ops :
  alloc_inv account sizeof a -> vma_vm_mm a = true -> ops_ok a ops ->
  exists a', run_ops a ops = Some a' /\ alloc_inv account sizeof a'.
Proof.
  revert a. induction ops as [|op ops IH]; intros a Hwf Hmm Hok; [by exists a|].
  destruct Hok as [H1 H2]. destruct (run_op_safe a op Hwf Hmm H1) as (a' & E & Hwf' & Hmm').
  simpl. rewrite E. mstep. apply IH; auto.
Qed.
End Life.

#[global] Arguments op_ok sizeof account a op : clear implicits.
#[global] Arguments ops_ok {_} sizeof account a ops.
