(* ===== verification/BinderAllocProps.v ===== *)
(** * What the binder buffer allocator guarantees

    The properties of binder_alloc.c as its client, the binder driver, relies
    on them, each with a concrete instance. *)

From S2P Require Import Prelude BinderAlloc BinderAllocInv BinderAllocNew BinderAllocFree BinderAllocData BinderAllocLife.

(** ** A concrete allocator *)

(** Trees as right spines: an implementation of the red-black tree interface. *)
Fixpoint spine (l : list ptr) : rb_tree :=
  match l with [] => Leaf | n :: l => Node Leaf n (spine l) end.

Lemma inorder_spine l : inorder (spine l) = l.
Proof. induction l as [|n l IH]; simpl; congruence. Qed.

Definition spine_rb : RbTree.
Proof.
  refine {| rb_insert_color := fun t => t;
            rb_erase := fun n t => spine (filter (fun m => m ≠ n) (inorder t)) |}; [done|].
  intros n t. apply inorder_spine.
Defined.

Definition demo_env (k : ptr) : kenv := {|
  mmget_not_zero := true; alloc_page := fun _ => true; vm_insert_page := fun _ => 0;
  kzalloc := Some k |}.

(** Four pages at 0x10000, as mapped. *)
Definition demo : binder_alloc :=
  match @binder_alloc_mmap_handler spine_rb (demo_env 1%positive) true (binder_alloc_init 7) 65536 81920 with
  | Some (_, a) => a
  | None => binder_alloc_init 7
  end.

Lemma demo_wf : alloc_wf 120 demo.
Proof.
  destruct (@mmap_spec spine_rb 120 true (demo_env 1%positive) true 7 65536 81920)
    as (ret & a & E & [(_ & Hwf & _)|(Hr & [H|H] & _)]); try done.
  unfold demo. by rewrite E.
Qed.

(** 100 bytes of it allocated, for an asynchronous transaction. *)
Definition demo_used : binder_alloc :=
  match @binder_alloc_new_buf_locked spine_rb 120 (demo_env 2%positive) demo 80 16 0 true 9 with
  | Some (_, a) => a
  | None => demo
  end.

Lemma demo_used_wf : alloc_wf 120 demo_used.
Proof.
  destruct (@new_buf_spec spine_rb 120 ltac:(lia) true (demo_env 2%positive) demo 80 16 0 true 9 demo_wf)
    as (r & a & E & Hwf & _); try lia.
  - intros n [= <-]. apply (bool_decide_unpack _). vm_compute. exact I.
  - intros _. left. reflexivity.
  - unfold demo_used. by rewrite E.
Qed.

(** ** Allocation and freeing *)

Section Props.
Context `{RbTree} (sizeof : Z) (Hsizeof : 0 <= sizeof < 2 ^ 32).

(** What a buffer occupies and whether it is free. *)
Definition extent (b : binder_buffer) : ptr * Z * bool := (entry b, user_data b, free b).

(** C10. [binder_alloc_new_buf_locked] on a well-formed allocator never faults
    and leaves it well formed.  On success it returns the front of a smallest
    free buffer that can hold the rounded-up request, leaves all other buffers
    where they are and charges the asynchronous space, an unsigned counter; on
    failure only page slots changed and the error code tells why: no mapping,
    an overflowing request, no room, or no memory.  All this holds for every
    request.  What an empty asynchronous request can break is the account of the
    asynchronous space: it passes the check with its size before padding and is
    charged with its size after padding, so that with less than eight bytes
    (and the header) left the counter wraps ([async_space_underflow]).  The
    account is kept ([account]) by the requests that are not empty, or find
    this space. *)
Theorem new_buf_refines account env a d o e is_async p :
  alloc_inv account sizeof a ->
  0 <= d < 2 ^ 64 -> 0 <= o < 2 ^ 64 -> 0 <= e < 2 ^ 64 ->
  (forall n, kzalloc env = Some n -> n ∉ ids (buffers a)) ->
  (account = true -> is_async = true -> 0 < exact_size d o e \/ 8 + sizeof <= free_async_space a) ->
  exists r a', binder_alloc_new_buf_locked sizeof env a d o e is_async p = Some (r, a') /\
    alloc_inv account sizeof a' /\ same_range a a' /\
    match r with
    | inl n => new_buffer_at sizeof a (Z.max (exact_size d o e) 8) d o e is_async p n a'
    | inr err => (exists ps h, a' = with_pages a ps h) /\
        new_buffer_error sizeof env a d o e is_async err
    end.
Proof. intros. by apply new_buf_spec. Qed.

(** C11. [binder_alloc_free_buf] on an allocated buffer without a transaction
    never faults: it merges the buffer with its free neighbours, gives back
    exactly the pages no allocated buffer needs any more (so that the page
    invariant of [alloc_wf] holds again) and refunds the asynchronous space. *)
Theorem free_buf_refines env a l1 b l2 :
  alloc_wf sizeof a -> buffers a = l1 ++ b :: l2 -> free b = false -> transaction b = None ->
  exists a', binder_alloc_free_buf sizeof env a (entry b) = Some a' /\ alloc_wf sizeof a' /\
    same_range a a' /\
    map extent (buffers a') = map extent (released l1 b l2) /\
    allocated_ids (buffers a') = allocated_ids l1 ++ allocated_ids l2 /\
    free_async_space a' = free_async_space a + async_charge sizeof b.
Proof.
  intros Hwf E Hf Ht.
  destruct (free_buf_whole_spec sizeof Hsizeof env a l1 b l2 Hwf E Hf Ht)
    as (a' & E' & Hwf' & Hr & Eb & Ha).
  rewrite (refund_exact sizeof Hsizeof a l1 b l2) in Ha by done.
  exists a'. rewrite Eb, allocated_released. split_and?; try done; try apply Hr.
  unfold released, merge_prev. destruct (last l1) as [q|]; [|done].
  destruct (free q); [done|]. by rewrite <- !app_assoc, !map_app.
Qed.

Lemma released_carved l1 b c rest l2 :
  coalesced (l1 ++ b :: l2) -> free b = true -> rest = [] \/ (exists x, rest = [x] /\ free x = true) ->
  released l1 c (rest ++ l2) = l1 ++ (c <| free := true |>) :: l2.
Proof.
  intros Hc Hb Hr. unfold released.
  assert (Hp : merge_prev l1 (c <| free := true |>) = l1 ++ [c <| free := true |>]).
  { unfold merge_prev. destruct l1 as [|q k _] using rev_ind; [done|]. rewrite last_snoc.
    apply coalesced_app in Hc as (_ & _ & Hc). specialize (Hc q (last_snoc _ _)).
    destruct (free q); [tauto|done]. }
  assert (Hn : merged_next (rest ++ l2) = l2).
  { apply coalesced_app in Hc as (_ & Hc & _).
    destruct Hr as [->|(x & -> & Hx)]; simpl; [|by rewrite Hx].
    destruct l2 as [|n k]; [done|]. simpl in *. destruct (free n); [tauto|done]. }
  by rewrite Hp, Hn, <- app_assoc.
Qed.

(** C12. Allocating and then freeing the buffer again restores the layout, and
    the asynchronous space too unless the request was empty: then the eight
    bytes [binder_alloc_new_buf_locked] pads it to are charged but never
    refunded. *)
Theorem alloc_free_round_trip env env' a d o e is_async p n a' :
  alloc_wf sizeof a -> (forall b, b ∈ buffers a -> free b = true -> transaction b = None) ->
  0 <= d < 2 ^ 64 -> 0 <= o < 2 ^ 64 -> 0 <= e < 2 ^ 64 ->
  (forall m, kzalloc env = Some m -> m ∉ ids (buffers a)) ->
  (is_async = true -> 0 < exact_size d o e \/ 8 + sizeof <= free_async_space a) ->
  binder_alloc_new_buf_locked sizeof env a d o e is_async p = Some (inl n, a') ->
  exists a'', binder_alloc_free_buf sizeof env' a' n = Some a'' /\ alloc_wf sizeof a'' /\
    map extent (buffers a'') = map extent (buffers a) /\
    free_async_space a'' =
      free_async_space a - (if is_async && (exact_size d o e =? 0) then 8 else 0).
Proof.
  intros Hwf Hnt Hd Ho He Hnew Hsp E.
  destruct (new_buf_spec (account:=true) sizeof Hsizeof env a d o e is_async p) as (r & a1 & E1 & Hwf1 & Hr & Hres);
    try done.
  rewrite E in E1. injection E1 as <- <-.
  destruct Hres as (l1 & b & l2 & <- & Hf & Eb & Hfit & _ & rest & Eb' & Hrest & Ha).
  set (c := claimed b d o e is_async p) in *.
  assert (Hx : 0 <= exact_size d o e < 2 ^ 64 /\ exact_size d o e mod 8 = 0).
  { split; [|apply exact_size_mod8]. split; [apply exact_size_nonneg; lia|].
    pose proof (start_of_le _ _ _ _ (wf_layout _ _ Hwf) Eb).
    pose proof (wf_space _ (wf_layout _ _ Hwf)). destruct (wf_buffer _ (wf_layout _ _ Hwf)).
    pose proof (base_le sizeof Hsizeof a l1 b l2 Hwf Eb). lia. }
  destruct (free_buf_whole_spec (account:=true) sizeof Hsizeof env' a' l1 c (rest ++ l2)) as (a'' & E2 & Hwf2 & _ & Eb2 & Ha2);
    try done.
  { apply (Hnt b); [|done]. rewrite Eb. set_solver. }
  exists a''. split; [exact E2|]. split; [done|]. split.
  - rewrite Eb2, (released_carved l1 b).
    + rewrite Eb, !map_app. simpl. unfold extent at 2. simpl. by rewrite <- Hf.
    + rewrite <- Eb. apply Hwf.
    + done.
    + destruct Hrest as [[-> _]|(m & -> & _)]; [by left|right; by eexists].
  - assert (Hst : stored_size c = exact_size d o e) by (apply stored_size_exact; simpl; lia).
    pose proof (wf_async _ _ Hwf) as Hfa.
    rewrite Ha2, Ha. unfold u64 at 1 2. rewrite Zplus_mod_idemp_l. fold (u64 (free_async_space a -
      (if is_async then Z.max (exact_size d o e) 8 + sizeof else 0) + async_charge sizeof c)).
    unfold async_charge. rewrite Hst. simpl.
    destruct is_async; cbn [andb]; [|rewrite u64_id by lia; lia]. specialize (Hsp eq_refl).
    zcase; [rewrite u64_id by lia; lia|].
    assert (8 <= exact_size d o e); [|rewrite u64_id by lia; lia]. destruct Hx as [? Hm]. clear - H0 Hm n. dlia.
Qed.

(** C13. From the moment the area is mapped, no sequence of operations (new
    buffers, frees, lookups by user pointer, copies, page reclaim, closing the
    mapping) faults or triggers a warning, whatever the kernel answers and
    whatever is requested, as long as the driver frees, marks and copies only
    allocated buffers ([op_ok] with [account] false).  Along a sequence whose
    empty asynchronous requests find eight bytes and a header of asynchronous
    space ([account] true) the account of that space stays right too; others
    can make its unsigned counter wrap ([async_space_underflow]). *)
Theorem allocator_safe account env kcalloc_ok current vm_start vm_end a ops :
  0 < vm_start -> vm_start mod PAGE_SIZE = 0 -> vm_start < vm_end ->
  vm_end mod PAGE_SIZE = 0 -> vm_end < 2 ^ 62 ->
  binder_alloc_mmap_handler env kcalloc_ok (binder_alloc_init current) vm_start vm_end =
    Some (0, a) ->
  ops_ok sizeof account a ops ->
  exists a', run_ops sizeof a ops = Some a' /\ alloc_inv account sizeof a'.
Proof.
  intros Hs Hsm Hlt Hem He E Hok.
  destruct (mmap_spec sizeof (account:=account) env kcalloc_ok current vm_start vm_end)
    as (ret & a1 & E1 & Hr); try done.
  rewrite E in E1. injection E1 as <- <-. destruct Hr as [(_ & Hwf & _ & Hmm & _)|(? & _)]; [|done].
  by apply run_ops_safe.
Qed.

(** C14. [binder_alloc_deferred_release], once the mapping is closed and no
    buffer has a transaction, frees every allocated buffer, leaves none in
    either list, and neither its BUG_ON nor its two WARN_ON_ONCEs trigger: the
    free buffers have merged into one. *)
Theorem deferred_release_complete env a :
  alloc_wf sizeof a -> vma a = false -> no_transactions (buffers a) ->
  exists n pgs a', binder_alloc_deferred_release sizeof env a = Some (n, pgs, a') /\
    n = binder_alloc_get_allocated_count a /\
    buffers a' = [] /\ pages a' = [] /\ warned a' = false /\
    inorder (allocated_buffers a') = [].
Proof. intros. by eapply deferred_release_spec. Qed.

(** ** Access to the contents *)

Lemma extents_disjoint a l1 b l2 k1 c k2 :
  layout_wf a -> buffers a = l1 ++ b :: l2 -> buffers a = k1 ++ c :: k2 -> entry c <> entry b ->
  start_of k2 (hi_of a) <= user_data b \/ start_of l2 (hi_of a) <= user_data c.
Proof.
  intros Hl E E' Hne. pose proof (wf_tiled _ Hl) as Ht.
  assert (Hc : forall m l x, tiled (m ++ x :: l) (hi_of a) ->
    start_of (m ++ x :: l) (hi_of a) <= user_data x).
  { intros m l x Hm. destruct (tiled_bounds _ _ Hm) as [_ Hb]. apply Hb. set_solver. }
  assert (Htail : forall l x k, buffers a = l ++ x :: k -> tiled k (hi_of a)).
  { intros l x k Ek. rewrite Ek in Ht. by apply tiled_app in Ht as (_ & _ & _ & ?). }
  rewrite E in E'. apply app_eq_inv in E' as [(k & E1 & E2)|(k & E1 & E2)];
    destruct k as [|x k]; simplify_eq/=.
  - left. apply Hc. eapply (Htail k1 x). by rewrite E, <- app_assoc.
  - right. apply Hc. eapply (Htail l1 x). done.
Qed.

(** C15. The bytes stored in a buffer by [binder_alloc_copy_to_buffer] are those
    [binder_alloc_copy_from_buffer] reads back, across page boundaries, and
    storing them does not change what any other buffer reads; an access out of
    bounds, unaligned or to a buffer user space may free is refused. *)
Theorem copy_round_trip a l1 b l2 off src n :
  alloc_wf sizeof a -> buffers a = l1 ++ b :: l2 -> 0 <= off -> 0 <= n <= zlen src ->
  (may_access b (start_of l2 (hi_of a) - user_data b) off n /\
   exists a', binder_alloc_copy_to_buffer a (entry b) off src n = Some (0, a') /\
     binder_alloc_copy_from_buffer a' (entry b) off n = Some (0, take (Z.to_nat n) src) /\
     forall c off' m, c ∈ buffers a -> entry c <> entry b -> 0 <= off' -> 0 <= m ->
       binder_alloc_copy_from_buffer a' (entry c) off' m =
       binder_alloc_copy_from_buffer a (entry c) off' m) \/
  (~ may_access b (start_of l2 (hi_of a) - user_data b) off n /\
   binder_alloc_copy_to_buffer a (entry b) off src n = Some (- EINVAL, a)).
Proof.
  intros Hwf E Ho Hn. destruct (copy_to_spec (account:=true) sizeof Hsizeof a l1 b l2 off src n) as
    (r & a' & E1 & Hwf' & (ps & Ea') & [(-> & Hacc & Hw)|(-> & Hacc & ->)]); [done..| |by right].
  left. split; [done|]. exists a'. split; [done|].
  assert (Ebuf : buffers a' = buffers a /\ hi_of a' = hi_of a) by (by subst a').
  destruct Ebuf as [Ebuf Ehi]. rewrite <- Ebuf in E. split.
  - destruct (copy_from_spec (account:=true) sizeof Hsizeof a' l1 b l2 off n) as (r & bs & -> & Hr); [done..|lia|].
    rewrite Ehi in Hr. destruct Hr as [(-> & _ & Hz & Hbs)|(_ & ? & _)]; [|done].
    do 2 f_equal. apply rd_ext; [rewrite zlen_take; lia|]. intros i Hi. rewrite Hz in Hi.
    rewrite Hbs, Hw, rd_take by lia.
    rewrite (proj2 (Z.leb_le _ _)), (proj2 (Z.ltb_lt _ _)) by lia. cbn [andb]. f_equal. lia.
  - intros c off' m (k1 & k2 & Ec)%list_elem_of_split Hne Ho' Hm.
    pose proof Ec as Ec'. rewrite <- Ebuf in Ec'.
    destruct (copy_from_spec (account:=true) sizeof Hsizeof a k1 c k2 off' m) as (r & bs & -> & Hr); [done..|].
    destruct (copy_from_spec (account:=true) sizeof Hsizeof a' k1 c k2 off' m) as (r' & bs' & -> & Hr'); [done..|].
    rewrite Ehi in Hr'.
    destruct Hr as [(-> & Hm1 & Hz & Hbs)|(-> & Hm1 & ->)],
      Hr' as [(-> & Hm2 & Hz' & Hbs')|(-> & Hm2 & ->)]; try done.
    do 2 f_equal. apply rd_ext; [congruence|]. intros i Hi. rewrite Hz' in Hi.
    rewrite Hbs, Hbs', Hw by done.
    destruct (extents_disjoint a' l1 b l2 k1 c k2) as [Hd|Hd]; try done; [apply Hwf'|..];
      rewrite Ehi in Hd; destruct Hm1 as (H1 & H2 & _), Hacc as (H3 & H4 & _).
    + rewrite (proj2 (Z.leb_gt _ _)) by lia. done.
    + rewrite (proj2 (Z.ltb_ge (user_data c + off' + i) _)) by lia. by rewrite andb_false_r.
Qed.

(** C16. [binder_alloc_copy_user_to_buffer] returns exactly the number of bytes
    that did not arrive.  The copy is made in [piece]s that end at the page
    boundaries of the area.  If none of them faults the result is zero;
    otherwise it is what the first faulting one left over and all that comes
    after it.  Everything before arrives in the buffer, the rest of the faulting
    piece is filled with zeros, and nothing else changes.  A target range out of
    bounds is refused as a whole. *)
Theorem copy_user_partial fault a l1 b l2 off user n (x := user_data b + off) :
  fault_ok fault -> alloc_wf sizeof a -> buffers a = l1 ++ b :: l2 ->
  0 <= off -> 0 <= n <= zlen user ->
  exists r a', binder_alloc_copy_user_to_buffer fault a (entry b) off user n = Some (r, a') /\
    alloc_wf sizeof a' /\
    (may_access b (start_of l2 (hi_of a) - user_data b) off n ->
      ((forall f s, piece (buffer a) x n f s -> fault f s = 0) -> r = 0) /\
      (forall f s, piece (buffer a) x n f s -> fault f s <> 0 ->
         (forall f' s', piece (buffer a) x n f' s' -> f' < f -> fault f' s' = 0) ->
         r = n - (f + s) + fault f s /\
         (forall i, n - r <= i < f + s -> mem a' (x + i) = Some 0) /\
         (forall i, f + s <= i -> mem a' (x + i) = mem a (x + i))) /\
      (forall i, 0 <= i < n - r -> mem a' (x + i) = rd user i) /\
      (forall y, y < x \/ x + n <= y -> mem a' y = mem a y)) /\
    (~ may_access b (start_of l2 (hi_of a) - user_data b) off n -> r = n /\ a' = a).
Proof.
  intros Hf Hwf E Ho Hn. destruct (copy_user_exact (account:=true) sizeof Hsizeof fault a l1 b l2 off user n) as
    (r & a' & E1 & Hwf' & _ & Hr & Hcase); try done. fold x in Hcase.
  exists r, a'. split; [done|]. split; [done|].
  destruct Hcase as [(Hacc & stop & Hst & Hcp & Hm)|(-> & Hacc & ->)]; split; try done. intros _.
  assert (Hrest : forall y, y < x \/ x + stop <= y -> mem a' y = mem a y).
  { intros y Hy. rewrite Hm. repeat zcase; cbn [andb]; try lia; done. }
  split_and!; [| | |intros y Hy; apply Hrest; lia].
  - intros H0. destruct Hcp as [[-> _]|(f & s & Hp & _ & Hne & _)]; [done|]. by destruct (Hne (H0 f s Hp)).
  - intros f s Hp Hne Hbefore.
    assert (Hfirst : r = n - (f + s) + fault f s /\ stop = f + s).
    { pose proof (proj1 Hp) as Hp0. destruct Hcp as [(_ & _ & Hall)|(f' & s' & Hp' & Hf' & Hne' & Hall & -> & ->)].
      - destruct (Hne (Hall f s Hp ltac:(lia))).
      - destruct (Z.lt_trichotomy f f') as [Hlt|[->|Hlt]].
        + destruct (Hne (Hall f s Hp ltac:(lia))).
        + by destruct (piece_next _ _ _ _ _ _ _ Hp Hp') as [[_ ->]|]; [lia| |destruct Hp as (? & _ & ->); change PAGE_SIZE with 4096 in *; clear Hbefore Hall Hm Hrest; dlia].
        + destruct (Hne' (Hbefore f' s' Hp' Hlt)). }
    destruct Hfirst as [Er ->]. split; [done|]. split; [|intros i Hi; apply Hrest; lia].
    intros i Hi. rewrite Hm. repeat zcase; cbn [andb]; try lia; done.
  - intros i Hi. rewrite Hm. rewrite (proj2 (Z.leb_le _ _)), (proj2 (Z.ltb_lt _ _)) by lia. cbn [andb]. f_equal. lia.
Qed.

(** A buffer is handed out for freeing at most once: after
    [binder_alloc_prepare_to_free] returned the buffer a user pointer names,
    a second lookup of the same pointer is refused with -EPERM and changes
    nothing, until the driver sets [allow_user_free] again. *)
Lemma prepare_to_free_once a uptr n a' :
  alloc_wf sizeof a -> binder_alloc_prepare_to_free a uptr = Some (inl (Some n), a') ->
  (exists b, find_buf (buffers a) n = Some b /\ user_data b = uptr /\ free b = false /\
     allow_user_free b = true) /\
  alloc_wf sizeof a' /\
  binder_alloc_prepare_to_free a' uptr = Some (inr (- EPERM), a').
Proof.
  intros Hwf E. destruct (prepare_to_free_spec (account:=true) sizeof Hsizeof a uptr Hwf) as (r & a1 & E1 & Hwf1 & _ & Hr).
  rewrite E in E1. injection E1 as <- <-. destruct Hr as (l1 & b & l2 & Eb & <- & Hf & Hu & Hal & Ea').
  split; [|split; [done|]].
  { exists b. split; [|done]. by eapply find_mid. }
  set (c := b <| allow_user_free := false |>) in *.
  destruct (prepare_to_free_spec (account:=true) sizeof Hsizeof a' uptr Hwf1) as (r & a2 & E2 & _ & _ & Hr2).
  rewrite E2. assert (Eb' : buffers a' = l1 ++ c :: l2) by (by subst a').
  assert (Hc : c ∈ buffers a') by (rewrite Eb'; set_solver).
  destruct r as [[m|]|e].
  - exfalso. destruct Hr2 as (k1 & d & k2 & Ed & _ & Hfd & Hud & Hald & _).
    destruct (decide (entry d = entry c)) as [Hdc|Hdc].
    + assert (Hd : d ∈ buffers a') by (rewrite Ed; set_solver).
      pose proof (find_buf_in (account:=true) sizeof a' d Hwf1 Hd) as H1.
      pose proof (find_buf_in (account:=true) sizeof a' c Hwf1 Hc) as H2. rewrite Hdc, H2 in H1.
      injection H1 as <-. simpl in Hald. done.
    + pose proof (start_of_le _ _ _ _ (wf_layout _ _ Hwf1) Eb').
      pose proof (start_of_le _ _ _ _ (wf_layout _ _ Hwf1) Ed).
      destruct (extents_disjoint a' l1 c l2 k1 d k2) as [Hd|Hd]; try done; [apply Hwf1|..];
        change (user_data c) with (user_data b) in *; lia.
  - exfalso. destruct Hr2 as [_ Hno]. by apply (Hno c).
  - destruct Hr2 as (-> & -> & _). done.
Qed.

(** The size computation of a request refuses exactly the requests whose
    true rounded-up size does not fit in a [size_t]; every other request gets
    that size, so no wrapped-around size is ever allocated. *)
Lemma request_size_bounds d o e :
  0 <= d < 2 ^ 64 -> 0 <= o < 2 ^ 64 -> 0 <= e < 2 ^ 64 ->
  (request_size d o e = inl (exact_size d o e) /\ exact_size d o e < 2 ^ 64 /\
   d + o + e <= exact_size d o e < d + o + e + 24) \/
  (request_size d o e = inr (- EINVAL) /\ 2 ^ 64 <= exact_size d o e).
Proof.
  intros Hd Ho He. rewrite request_size_exact by done.
  pose proof (round8_bounds d). pose proof (round8_bounds o). pose proof (round8_bounds e).
  unfold exact_size in *. zcase; [left|right]; repeat split; lia.
Qed.
End Props.

(** Empty asynchronous requests can drain the account below zero: a
    request of zero bytes passes the check of [free_async_space] with its size
    before padding and is charged with its size after padding, so the unsigned
    counter wraps around to almost 2^64 (after which the limit on asynchronous
    transactions no longer holds). *)
Lemma async_space_underflow :
  option_map free_async_space (@run_ops spine_rb 120 demo
    [NewBuf (demo_env 2%positive) 7952 0 0 true 9;
     NewBuf (demo_env 3%positive) 0 0 0 true 9]) = Some (2 ^ 64 - 8).
Proof. vm_compute. reflexivity. Qed.

(** ** Concrete instances *)

Lemma new_buf_refines_witness :
  exists r a', @binder_alloc_new_buf_locked spine_rb 120 (demo_env 2%positive) demo 80 16 0 true 9 =
    Some (r, a') /\ alloc_wf 120 a' /\ r = inl 1%positive.
Proof.
  destruct (@new_buf_refines spine_rb 120 ltac:(lia) true (demo_env 2%positive) demo 80 16 0 true 9)
    as (r & a' & E & Hwf & _ & _).
  - exact demo_wf.
  - lia.
  - lia.
  - lia.
  - intros n [= <-]. apply (bool_decide_unpack _). vm_compute. exact I.
  - intros _. left. reflexivity.
  - exists r, a'. split; [exact E|]. split; [exact Hwf|].
    assert (Hr : option_map fst (@binder_alloc_new_buf_locked spine_rb 120
      (demo_env 2%positive) demo 80 16 0 true 9) = Some (inl 1%positive)) by (vm_compute; reflexivity).
    rewrite E in Hr. by injection Hr.
Defined.

(** The allocated buffer of [demo_used] and what follows it. *)
Definition demo_buf : binder_buffer :=
  default (fresh_buffer 9%positive 0) (head (buffers demo_used)).
Definition demo_rest : list binder_buffer := drop 1 (buffers demo_used).

Lemma demo_split : buffers demo_used = [] ++ demo_buf :: demo_rest.
Proof. vm_compute. reflexivity. Qed.

Lemma free_buf_refines_witness :
  exists a', @binder_alloc_free_buf spine_rb 120 (demo_env 3%positive) demo_used (entry demo_buf) =
    Some a' /\ alloc_wf 120 a' /\ allocated_ids (buffers a') = [].
Proof.
  destruct (@free_buf_refines spine_rb 120 ltac:(lia) (demo_env 3%positive) demo_used
    [] demo_buf demo_rest) as (a' & E & Hwf & _ & _ & Hids & _).
  - exact demo_used_wf.
  - exact demo_split.
  - vm_compute. reflexivity.
  - vm_compute. reflexivity.
  - exists a'. split; [exact E|]. split; [exact Hwf|]. rewrite Hids. vm_compute. reflexivity.
Defined.

Lemma alloc_free_round_trip_witness :
  exists a'', @binder_alloc_free_buf spine_rb 120 (demo_env 3%positive) demo_used 1%positive =
      Some a'' /\ free_async_space a'' = 8192.
Proof.
  destruct (@alloc_free_round_trip spine_rb 120 ltac:(lia) (demo_env 2%positive)
    (demo_env 3%positive) demo 80 16 0 true 9 1%positive demo_used) as (a'' & E & _ & _ & Ha).
  - exact demo_wf.
  - intros b Hb _. revert b Hb. apply Forall_forall. vm_compute. repeat constructor.
  - lia.
  - lia.
  - lia.
  - intros n [= <-]. apply (bool_decide_unpack _). vm_compute. exact I.
  - intros _. left. reflexivity.
  - vm_compute. reflexivity.
  - exists a''. split; [exact E|]. rewrite Ha. vm_compute. reflexivity.
Defined.

Lemma allocator_safe_witness :
  exists a', @run_ops spine_rb 120 demo [NewBuf (demo_env 2%positive) 80 16 0 true 9;
    PrepareToFree 65536; FreeBuf (demo_env 3%positive) 1%positive; VmaClose] = Some a' /\
    alloc_wf 120 a'.
Proof.
  apply (@allocator_safe spine_rb 120 ltac:(lia) true (demo_env 1%positive) true 7 65536 81920); try lia.
  - reflexivity.
  - reflexivity.
  - vm_compute. reflexivity.
  - split; [|intros a1 E1; split; [exact I|intros a2 E2; split; [|intros a3 E3; split; [exact I|done]]]].
    + split; [lia|]. split; [lia|]. split; [lia|].
      split; [|intros _; left; reflexivity].
      intros n [= <-]. apply (bool_decide_unpack _). vm_compute. exact I.
    + vm_compute in E1. injection E1 as <-. vm_compute in E2. injection E2 as <-.
      eexists. split; [vm_compute; reflexivity|]. split; reflexivity.
Defined.

Lemma deferred_release_complete_witness :
  exists n pgs a', @binder_alloc_deferred_release spine_rb 120 (demo_env 4%positive)
      (binder_alloc_vma_close demo_used) = Some (n, pgs, a') /\ n = 1 /\ warned a' = false.
Proof.
  destruct (@deferred_release_complete spine_rb 120 ltac:(lia) (demo_env 4%positive)
    (binder_alloc_vma_close demo_used)) as (n & pgs & a' & E & Hn & _ & _ & Hw & _).
  - destruct (@run_op_safe spine_rb 120 ltac:(lia) true demo_used VmaClose demo_used_wf
      ltac:(vm_compute; reflexivity) I) as (a' & [= <-] & Hwf & _). exact Hwf.
  - reflexivity.
  - intros b Hb _. revert b Hb. apply Forall_forall. vm_compute. repeat constructor.
  - exists n, pgs, a'. split; [exact E|]. split; [|exact Hw]. rewrite Hn. vm_compute. reflexivity.
Defined.

Lemma copy_round_trip_witness :
  exists a', binder_alloc_copy_to_buffer demo_used 1%positive 8 [1; 2; 3; 4] 4 = Some (0, a') /\
    binder_alloc_copy_from_buffer a' 1%positive 8 4 = Some (0, [1; 2; 3; 4]).
Proof.
  destruct (copy_round_trip 120 ltac:(lia) demo_used [] demo_buf demo_rest 8 [1; 2; 3; 4] 4)
    as [(_ & a' & E1 & E2 & _)|(_ & E)].
  - exact demo_used_wf.
  - exact demo_split.
  - lia.
  - vm_compute. split; discriminate.
  - exists a'. split; [exact E1|exact E2].
  - exfalso. assert (Hr : option_map fst (binder_alloc_copy_to_buffer demo_used
      (entry demo_buf) 8 [1; 2; 3; 4] 4) = Some 0) by (vm_compute; reflexivity).
    rewrite E in Hr. discriminate Hr.
Defined.

(** Of four bytes one can not be read. *)
Lemma copy_user_partial_witness :
  exists a', binder_alloc_copy_user_to_buffer (fun _ s => Z.min s 1) demo_used 1%positive 8 [1; 2; 3; 4] 4 =
    Some (1, a') /\ mem a' 65546 = Some 3 /\ mem a' 65547 = Some 0.
Proof.
  destruct (copy_user_partial 120 ltac:(lia) (fun _ s => Z.min s 1) demo_used [] demo_buf demo_rest 8
    [1; 2; 3; 4] 4) as (r & a' & E & _ & Hr & _).
  - intros f s Hs. lia.
  - exact demo_used_wf.
  - exact demo_split.
  - lia.
  - vm_compute. split; discriminate.
  - assert (Ha : may_access demo_buf (start_of demo_rest (hi_of demo_used) - user_data demo_buf) 8 4)
      by (unfold may_access; vm_compute; intuition congruence).
    destruct (Hr Ha) as (_ & H1 & H2 & _).
    assert (Hp : piece (buffer demo_used) (user_data demo_buf + 8) 4 0 4)
      by (unfold piece; vm_compute; intuition congruence).
    destruct (H1 0 4 Hp) as (Er & H3 & _); [lia|intros f' s' (? & _); lia|].
    change (r = 1) in Er. subst r. exists a'. split; [exact E|].
    split; [exact (H2 2 ltac:(lia))|exact (H3 3 ltac:(lia))].
Defined.

(** [demo_used] with its buffer handed to user space. *)
Definition demo_user : binder_alloc :=
  default demo (@run_op spine_rb 120 demo_used (SetFlags 1%positive true false None)).

Lemma demo_user_wf : alloc_wf 120 demo_user.
Proof.
  destruct (@run_op_safe spine_rb 120 ltac:(lia) true demo_used (SetFlags 1%positive true false None)
    demo_used_wf ltac:(vm_compute; reflexivity)) as (a' & E & Hwf & _).
  - change (1%positive ∈ ids (buffers demo_used)). apply (bool_decide_unpack _). vm_compute. exact I.
  - unfold demo_user. rewrite E. exact Hwf.
Qed.

Lemma prepare_to_free_once_witness :
  exists a', binder_alloc_prepare_to_free demo_user 65536 = Some (inl (Some 1%positive), a') /\
    binder_alloc_prepare_to_free a' 65536 = Some (inr (- EPERM), a').
Proof.
  destruct (binder_alloc_prepare_to_free demo_user 65536) as [[r a']|] eqn:E;
    [|vm_compute in E; discriminate E].
  assert (Hr : r = inl (Some 1%positive)).
  { assert (H : option_map fst (binder_alloc_prepare_to_free demo_user 65536) =
      Some (inl (Some 1%positive))) by (vm_compute; reflexivity).
    rewrite E in H. by injection H. }
  subst r. exists a'. split; [reflexivity|].
  apply (prepare_to_free_once 120 ltac:(lia) demo_user 65536 1%positive a' demo_user_wf E).
Defined.

Lemma request_size_bounds_witness : request_size 80 16 1 = inl 104.
Proof.
  destruct (request_size_bounds 80 16 1) as [(E & _)|(_ & E)]; [lia|lia|lia|exact E|].
  exfalso. vm_compute in E. by apply E.
Defined.
