(* ===== verification/Rk817Regs.v ===== *)
(** * Registers and state of the RK817/RK809 fuel gauge

    Model of src/.../Power/Supply/rk817_battery.c, first part: the register
    fields of the chip, the interface of the kernel's regmap library they are
    accessed through, and the driver's state.

    The registers hold still during one handler but for the driver's own
    writes, so that a read is a function of the hardware state. *)

From S2P Require Import Prelude.

(** ** Register fields *)

Record reg_field := REG_FIELD { reg : Z; lsb : Z; msb : Z }.

Inductive rk817_battery_fields :=
  | ADC_SLP_RATE | BAT_CUR_ADC_EN | BAT_VOL_ADC_EN | USB_VOL_ADC_EN | TS_ADC_EN | SYS_VOL_ADC_EN
  | GG_EN | CUR_ADC_DITH_SEL | CUR_ADC_DIH_EN | CUR_ADC_CHOP_EN | CUR_ADC_CHOP_SEL
  | CUR_ADC_CHOP_VREF_EN | CUR_ADC_VCOM_SEL | CUR_ADC_VCOM_BUF_INC | CUR_ADC_VREF_BUF_INC
  | CUR_ADC_BIAS_DEC | CUR_ADC_IBIAS_SEL | VOL_ADC_EXT_VREF_EN | VOL_ADC_DITH_SEL
  | VOL_ADC_DITH_EN | VOL_ADC_CHOP_EN | VOL_ADC_CHOP_SEL | VOL_ADC_CHOP_VREF_EN
  | VOL_ADC_VCOM_SEL | VOL_ADC_VCOM_BUF_INC | VOL_ADC_VREF_BUF_INC | VOL_ADC_IBIAS_SEL
  | RLX_CUR_FILTER | TS_FUN | VOL_ADC_TSCUR_SEL | VOL_CALIB_UPD | CUR_CALIB_UPD | CUR_OUT_MOD
  | VOL_OUT_MOD | FRAME_SMP_INTERV | ADC_OFF_CAL_INTERV | RLX_SPT | OCV_UPD | RELAX_STS
  | RELAX_VOL2_UPD | RELAX_VOL1_UPD | BAT_CON | QMAX_UPD_SOFT | TERM_UPD | OCV_STS | RELAX_THRE_H
  | RELAX_THRE_L | RELAX_VOL1_H | RELAX_VOL1_L | RELAX_VOL2_H | RELAX_VOL2_L | RELAX_CUR1_H
  | RELAX_CUR1_L | RELAX_CUR2_H | RELAX_CUR2_L | OCV_THRE_VOL | OCV_VOL_H | OCV_VOL_L
  | OCV_VOL0_H | OCV_VOL0_L | OCV_CUR_H | OCV_CUR_L | OCV_CUR0_H | OCV_CUR0_L | PWRON_VOL_H
  | PWRON_VOL_L | PWRON_CUR_H | PWRON_CUR_L | OFF_CNT | Q_INIT_H3 | Q_INIT_H2 | Q_INIT_L1
  | Q_INIT_L0 | Q_PRESS_H3 | Q_PRESS_H2 | Q_PRESS_L1 | Q_PRESS_L0 | BAT_VOL_H | BAT_VOL_L
  | BAT_CUR_H | BAT_CUR_L | BAT_TS_H | BAT_TS_L | USB_VOL_H | USB_VOL_L | SYS_VOL_H | SYS_VOL_L
  | Q_MAX_H3 | Q_MAX_H2 | Q_MAX_L1 | Q_MAX_L0 | Q_TERM_H3 | Q_TERM_H2 | Q_TERM_L1 | Q_TERM_L0
  | Q_OCV_H3 | Q_OCV_H2 | Q_OCV_L1 | Q_OCV_L0 | OCV_CNT | SLEEP_CON_SAMP_CUR_H
  | SLEEP_CON_SAMP_CUR_L | CAL_OFFSET_H | CAL_OFFSET_L | VCALIB0_H | VCALIB0_L | VCALIB1_H
  | VCALIB1_L | IOFFSET_H | IOFFSET_L | BAT_R0 | SOC_REG0 | SOC_REG1 | SOC_REG2 | REMAIN_CAP_REG2
  | REMAIN_CAP_REG1 | REMAIN_CAP_REG0 | NEW_FCC_REG2 | NEW_FCC_REG1 | NEW_FCC_REG0 | RESET_MODE
  | FG_INIT | HALT_CNT_REG | CALC_REST_REGL | CALC_REST_REGH | VOL_ADC_B3 | VOL_ADC_B2
  | VOL_ADC_B1 | VOL_ADC_B0 | VOL_ADC_K3 | VOL_ADC_K2 | VOL_ADC_K1 | VOL_ADC_K0 | BAT_EXS
  | CHG_STS | BAT_OVP_STS | CHRG_IN_CLAMP | CHIP_NAME_H | CHIP_NAME_L | PLUG_IN_STS.

Definition rk817_battery_reg_fields (f : rk817_battery_fields) : reg_field :=
  match f with
  | ADC_SLP_RATE => REG_FIELD 0x50 0 0
  | BAT_CUR_ADC_EN => REG_FIELD 0x50 2 2
  | BAT_VOL_ADC_EN => REG_FIELD 0x50 3 3
  | USB_VOL_ADC_EN => REG_FIELD 0x50 4 4
  | TS_ADC_EN => REG_FIELD 0x50 5 5
  | SYS_VOL_ADC_EN => REG_FIELD 0x50 6 6
  | GG_EN => REG_FIELD 0x50 7 7
  | CUR_ADC_DITH_SEL => REG_FIELD 0x51 1 3
  | CUR_ADC_DIH_EN => REG_FIELD 0x51 4 4
  | CUR_ADC_CHOP_EN => REG_FIELD 0x51 5 5
  | CUR_ADC_CHOP_SEL => REG_FIELD 0x51 6 6
  | CUR_ADC_CHOP_VREF_EN => REG_FIELD 0x51 7 7
  | CUR_ADC_VCOM_SEL => REG_FIELD 0x52 0 1
  | CUR_ADC_VCOM_BUF_INC => REG_FIELD 0x52 2 2
  | CUR_ADC_VREF_BUF_INC => REG_FIELD 0x52 3 3
  | CUR_ADC_BIAS_DEC => REG_FIELD 0x52 4 4
  | CUR_ADC_IBIAS_SEL => REG_FIELD 0x52 5 6
  | VOL_ADC_EXT_VREF_EN => REG_FIELD 0x53 0 0
  | VOL_ADC_DITH_SEL => REG_FIELD 0x53 1 3
  | VOL_ADC_DITH_EN => REG_FIELD 0x53 4 4
  | VOL_ADC_CHOP_EN => REG_FIELD 0x53 5 5
  | VOL_ADC_CHOP_SEL => REG_FIELD 0x53 6 6
  | VOL_ADC_CHOP_VREF_EN => REG_FIELD 0x53 7 7
  | VOL_ADC_VCOM_SEL => REG_FIELD 0x54 0 1
  | VOL_ADC_VCOM_BUF_INC => REG_FIELD 0x54 2 2
  | VOL_ADC_VREF_BUF_INC => REG_FIELD 0x54 3 3
  | VOL_ADC_IBIAS_SEL => REG_FIELD 0x54 5 6
  | RLX_CUR_FILTER => REG_FIELD 0x55 0 1
  | TS_FUN => REG_FIELD 0x55 3 3
  | VOL_ADC_TSCUR_SEL => REG_FIELD 0x55 4 5
  | VOL_CALIB_UPD => REG_FIELD 0x55 6 6
  | CUR_CALIB_UPD => REG_FIELD 0x55 7 7
  | CUR_OUT_MOD => REG_FIELD 0x56 0 0
  | VOL_OUT_MOD => REG_FIELD 0x56 1 1
  | FRAME_SMP_INTERV => REG_FIELD 0x56 2 3
  | ADC_OFF_CAL_INTERV => REG_FIELD 0x56 4 5
  | RLX_SPT => REG_FIELD 0x56 6 7
  | OCV_UPD => REG_FIELD 0x57 0 0
  | RELAX_STS => REG_FIELD 0x57 1 1
  | RELAX_VOL2_UPD => REG_FIELD 0x57 2 2
  | RELAX_VOL1_UPD => REG_FIELD 0x57 3 3
  | BAT_CON => REG_FIELD 0x57 4 4
  | QMAX_UPD_SOFT => REG_FIELD 0x57 5 5
  | TERM_UPD => REG_FIELD 0x57 6 6
  | OCV_STS => REG_FIELD 0x57 7 7
  | RELAX_THRE_H => REG_FIELD 0x58 0 7
  | RELAX_THRE_L => REG_FIELD 0x59 0 7
  | RELAX_VOL1_H => REG_FIELD 0x5A 0 7
  | RELAX_VOL1_L => REG_FIELD 0x5B 0 7
  | RELAX_VOL2_H => REG_FIELD 0x5C 0 7
  | RELAX_VOL2_L => REG_FIELD 0x5D 0 7
  | RELAX_CUR1_H => REG_FIELD 0x5E 0 7
  | RELAX_CUR1_L => REG_FIELD 0x5F 0 7
  | RELAX_CUR2_H => REG_FIELD 0x60 0 7
  | RELAX_CUR2_L => REG_FIELD 0x61 0 7
  | OCV_THRE_VOL => REG_FIELD 0x62 0 7
  | OCV_VOL_H => REG_FIELD 0x63 0 7
  | OCV_VOL_L => REG_FIELD 0x64 0 7
  | OCV_VOL0_H => REG_FIELD 0x65 0 7
  | OCV_VOL0_L => REG_FIELD 0x66 0 7
  | OCV_CUR_H => REG_FIELD 0x67 0 7
  | OCV_CUR_L => REG_FIELD 0x68 0 7
  | OCV_CUR0_H => REG_FIELD 0x69 0 7
  | OCV_CUR0_L => REG_FIELD 0x6A 0 7
  | PWRON_VOL_H => REG_FIELD 0x6B 0 7
  | PWRON_VOL_L => REG_FIELD 0x6C 0 7
  | PWRON_CUR_H => REG_FIELD 0x6D 0 7
  | PWRON_CUR_L => REG_FIELD 0x6E 0 7
  | OFF_CNT => REG_FIELD 0x6F 0 7
  | Q_INIT_H3 => REG_FIELD 0x70 0 7
  | Q_INIT_H2 => REG_FIELD 0x71 0 7
  | Q_INIT_L1 => REG_FIELD 0x72 0 7
  | Q_INIT_L0 => REG_FIELD 0x73 0 7
  | Q_PRESS_H3 => REG_FIELD 0x74 0 7
  | Q_PRESS_H2 => REG_FIELD 0x75 0 7
  | Q_PRESS_L1 => REG_FIELD 0x76 0 7
  | Q_PRESS_L0 => REG_FIELD 0x77 0 7
  | BAT_VOL_H => REG_FIELD 0x78 0 7
  | BAT_VOL_L => REG_FIELD 0x79 0 7
  | BAT_CUR_H => REG_FIELD 0x7A 0 7
  | BAT_CUR_L => REG_FIELD 0x7B 0 7
  | BAT_TS_H => REG_FIELD 0x7C 0 7
  | BAT_TS_L => REG_FIELD 0x7D 0 7
  | USB_VOL_H => REG_FIELD 0x7E 0 7
  | USB_VOL_L => REG_FIELD 0x7F 0 7
  | SYS_VOL_H => REG_FIELD 0x80 0 7
  | SYS_VOL_L => REG_FIELD 0x81 0 7
  | Q_MAX_H3 => REG_FIELD 0x82 0 7
  | Q_MAX_H2 => REG_FIELD 0x83 0 7
  | Q_MAX_L1 => REG_FIELD 0x84 0 7
  | Q_MAX_L0 => REG_FIELD 0x85 0 7
  | Q_TERM_H3 => REG_FIELD 0x86 0 7
  | Q_TERM_H2 => REG_FIELD 0x87 0 7
  | Q_TERM_L1 => REG_FIELD 0x88 0 7
  | Q_TERM_L0 => REG_FIELD 0x89 0 7
  | Q_OCV_H3 => REG_FIELD 0x8A 0 7
  | Q_OCV_H2 => REG_FIELD 0x8B 0 7
  | Q_OCV_L1 => REG_FIELD 0x8C 0 7
  | Q_OCV_L0 => REG_FIELD 0x8D 0 7
  | OCV_CNT => REG_FIELD 0x8E 0 7
  | SLEEP_CON_SAMP_CUR_H => REG_FIELD 0x8F 0 7
  | SLEEP_CON_SAMP_CUR_L => REG_FIELD 0x90 0 7
  | CAL_OFFSET_H => REG_FIELD 0x91 0 7
  | CAL_OFFSET_L => REG_FIELD 0x92 0 7
  | VCALIB0_H => REG_FIELD 0x93 0 7
  | VCALIB0_L => REG_FIELD 0x94 0 7
  | VCALIB1_H => REG_FIELD 0x95 0 7
  | VCALIB1_L => REG_FIELD 0x96 0 7
  | IOFFSET_H => REG_FIELD 0x97 0 7
  | IOFFSET_L => REG_FIELD 0x98 0 7
  | BAT_R0 => REG_FIELD 0x99 0 7
  | SOC_REG0 => REG_FIELD 0x9A 0 7
  | SOC_REG1 => REG_FIELD 0x9B 0 7
  | SOC_REG2 => REG_FIELD 0x9C 0 7
  | REMAIN_CAP_REG2 => REG_FIELD 0x9F 0 7
  | REMAIN_CAP_REG1 => REG_FIELD 0x9E 0 7
  | REMAIN_CAP_REG0 => REG_FIELD 0x9D 0 7
  | NEW_FCC_REG2 => REG_FIELD 0xA2 0 7
  | NEW_FCC_REG1 => REG_FIELD 0xA1 0 7
  | NEW_FCC_REG0 => REG_FIELD 0xA0 0 7
  | RESET_MODE => REG_FIELD 0xA3 0 3
  | FG_INIT => REG_FIELD 0xA5 7 7
  | HALT_CNT_REG => REG_FIELD 0xA6 0 7
  | CALC_REST_REGL => REG_FIELD 0xA7 0 7
  | CALC_REST_REGH => REG_FIELD 0xA8 0 7
  | VOL_ADC_B3 => REG_FIELD 0xA9 0 7
  | VOL_ADC_B2 => REG_FIELD 0xAA 0 7
  | VOL_ADC_B1 => REG_FIELD 0xAB 0 7
  | VOL_ADC_B0 => REG_FIELD 0xAC 0 7
  | VOL_ADC_K3 => REG_FIELD 0xAD 0 7
  | VOL_ADC_K2 => REG_FIELD 0xAE 0 7
  | VOL_ADC_K1 => REG_FIELD 0xAF 0 7
  | VOL_ADC_K0 => REG_FIELD 0xB0 0 7
  | BAT_EXS => REG_FIELD 0xEB 7 7
  | CHG_STS => REG_FIELD 0xEB 4 6
  | BAT_OVP_STS => REG_FIELD 0xEB 3 3
  | CHRG_IN_CLAMP => REG_FIELD 0xEB 2 2
  | CHIP_NAME_H => REG_FIELD 0xED 0 7
  | CHIP_NAME_L => REG_FIELD 0xEE 0 7
  | PLUG_IN_STS => REG_FIELD 0xF0 6 6
  end.

(** The fields in the order of the enumeration, up to [F_MAX_FIELDS]. *)
Definition all_fields : list rk817_battery_fields := [
  ADC_SLP_RATE; BAT_CUR_ADC_EN; BAT_VOL_ADC_EN; USB_VOL_ADC_EN; TS_ADC_EN; SYS_VOL_ADC_EN; GG_EN;
  CUR_ADC_DITH_SEL; CUR_ADC_DIH_EN; CUR_ADC_CHOP_EN; CUR_ADC_CHOP_SEL; CUR_ADC_CHOP_VREF_EN;
  CUR_ADC_VCOM_SEL; CUR_ADC_VCOM_BUF_INC; CUR_ADC_VREF_BUF_INC; CUR_ADC_BIAS_DEC;
  CUR_ADC_IBIAS_SEL; VOL_ADC_EXT_VREF_EN; VOL_ADC_DITH_SEL; VOL_ADC_DITH_EN; VOL_ADC_CHOP_EN;
  VOL_ADC_CHOP_SEL; VOL_ADC_CHOP_VREF_EN; VOL_ADC_VCOM_SEL; VOL_ADC_VCOM_BUF_INC;
  VOL_ADC_VREF_BUF_INC; VOL_ADC_IBIAS_SEL; RLX_CUR_FILTER; TS_FUN; VOL_ADC_TSCUR_SEL;
  VOL_CALIB_UPD; CUR_CALIB_UPD; CUR_OUT_MOD; VOL_OUT_MOD; FRAME_SMP_INTERV; ADC_OFF_CAL_INTERV;
  RLX_SPT; OCV_UPD; RELAX_STS; RELAX_VOL2_UPD; RELAX_VOL1_UPD; BAT_CON; QMAX_UPD_SOFT; TERM_UPD;
  OCV_STS; RELAX_THRE_H; RELAX_THRE_L; RELAX_VOL1_H; RELAX_VOL1_L; RELAX_VOL2_H; RELAX_VOL2_L;
  RELAX_CUR1_H; RELAX_CUR1_L; RELAX_CUR2_H; RELAX_CUR2_L; OCV_THRE_VOL; OCV_VOL_H; OCV_VOL_L;
  OCV_VOL0_H; OCV_VOL0_L; OCV_CUR_H; OCV_CUR_L; OCV_CUR0_H; OCV_CUR0_L; PWRON_VOL_H; PWRON_VOL_L;
  PWRON_CUR_H; PWRON_CUR_L; OFF_CNT; Q_INIT_H3; Q_INIT_H2; Q_INIT_L1; Q_INIT_L0; Q_PRESS_H3;
  Q_PRESS_H2; Q_PRESS_L1; Q_PRESS_L0; BAT_VOL_H; BAT_VOL_L; BAT_CUR_H; BAT_CUR_L; BAT_TS_H;
  BAT_TS_L; USB_VOL_H; USB_VOL_L; SYS_VOL_H; SYS_VOL_L; Q_MAX_H3; Q_MAX_H2; Q_MAX_L1; Q_MAX_L0;
  Q_TERM_H3; Q_TERM_H2; Q_TERM_L1; Q_TERM_L0; Q_OCV_H3; Q_OCV_H2; Q_OCV_L1; Q_OCV_L0; OCV_CNT;
  SLEEP_CON_SAMP_CUR_H; SLEEP_CON_SAMP_CUR_L; CAL_OFFSET_H; CAL_OFFSET_L; VCALIB0_H; VCALIB0_L;
  VCALIB1_H; VCALIB1_L; IOFFSET_H; IOFFSET_L; BAT_R0; SOC_REG0; SOC_REG1; SOC_REG2;
  REMAIN_CAP_REG2; REMAIN_CAP_REG1; REMAIN_CAP_REG0; NEW_FCC_REG2; NEW_FCC_REG1; NEW_FCC_REG0;
  RESET_MODE; FG_INIT; HALT_CNT_REG; CALC_REST_REGL; CALC_REST_REGH; VOL_ADC_B3; VOL_ADC_B2;
  VOL_ADC_B1; VOL_ADC_B0; VOL_ADC_K3; VOL_ADC_K2; VOL_ADC_K1; VOL_ADC_K0; BAT_EXS; CHG_STS;
  BAT_OVP_STS; CHRG_IN_CLAMP; CHIP_NAME_H; CHIP_NAME_L; PLUG_IN_STS].

(** ** The kernel around the driver

    regmap, the clocks and the other power supplies are not part of the
    repository. *)
Class Kernel := {
  hw : Type;
  (** the return code and the value it stores *)
  regmap_field_read : hw -> reg_field -> Z * Z;
  regmap_field_write : hw -> reg_field -> Z -> hw;
  (** [ts.tv_sec] of [get_monotonic_boottime] *)
  boottime : hw -> Z;
  (** [rtc_read_time]: the seconds, unless it fails or the date is invalid *)
  rtc_time : hw -> option Z;
  (** the ONLINE property of the USB and of the mains supply, if there is one
      and it answers *)
  usb_online : hw -> option Z;
  ac_online : hw -> option Z;
}.

Definition field_mask (f : reg_field) : Z := 2 ^ (msb f - lsb f + 1).

Definition overlap (f g : reg_field) : bool :=
  (reg f =? reg g) && (lsb f <=? msb g) && (lsb g <=? msb f).

(** A field with its bits in order, and the registers the driver keeps its own
    values in ([SOC_REG0] to [NEW_FCC_REG2]). *)
Definition field_wf (f : reg_field) : bool := (0 <=? lsb f) && (lsb f <=? msb f) && (msb f <=? 7).
Definition storage (f : reg_field) : bool := (0x9A <=? reg f) && (reg f <=? 0xA2) && field_wf f.

(** Reads succeed; a write reaches the bits of its field only; and the storage
    registers keep what is written to them. *)
Class RegmapMemory `{Kernel} := {
  read_range h f : field_wf f = true ->
    0 <= fst (regmap_field_read h f) /\ 0 <= snd (regmap_field_read h f) < field_mask f;
  read_written h f v : storage f = true ->
    snd (regmap_field_read (regmap_field_write h f v) f) = v mod field_mask f;
  read_other h f g v : field_wf f = true -> field_wf g = true -> overlap f g = false ->
    regmap_field_read (regmap_field_write h f v) g = regmap_field_read h g;
}.

(** A register file with a clock: the concrete instance. *)
Record regfile := { reg_byte : Z -> Z; clock : Z; rtc_clock : Z; usb_plugged : Z; ac_plugged : Z }.

Definition regfile_kernel : Kernel := {|
  hw := regfile;
  regmap_field_read h f :=
    (0, (reg_byte h (reg f) / 2 ^ lsb f) mod field_mask f);
  regmap_field_write h f v := {|
    reg_byte r :=
      if r =? reg f then
        let b := reg_byte h r in
        b - (b / 2 ^ lsb f) mod field_mask f * 2 ^ lsb f + v mod field_mask f * 2 ^ lsb f
      else reg_byte h r;
    clock := clock h; rtc_clock := rtc_clock h;
    usb_plugged := usb_plugged h; ac_plugged := ac_plugged h |};
  boottime := clock;
  rtc_time h := Some (rtc_clock h);
  usb_online h := Some (usb_plugged h);
  ac_online h := Some (ac_plugged h);
|}.

Lemma field_wf_spec f : field_wf f = true <-> 0 <= lsb f /\ lsb f <= msb f /\ msb f <= 7.
Proof. unfold field_wf. rewrite !andb_true_iff, !Z.leb_le. tauto. Qed.

Lemma field_mask_pos f : field_wf f = true -> 0 < field_mask f.
Proof. intros H%field_wf_spec. unfold field_mask. apply Z.pow_pos_nonneg; lia. Qed.

(** A byte with a field of it replaced, bit by bit. *)
Definition field_insert (b l n v : Z) : Z := b - (b / 2 ^ l) mod 2 ^ n * 2 ^ l + v mod 2 ^ n * 2 ^ l.

Lemma field_insert_split b l n v : 0 <= l -> 0 <= n ->
  field_insert b l n v = b mod 2 ^ l + v mod 2 ^ n * 2 ^ l + b / 2 ^ (l + n) * 2 ^ (l + n).
Proof.
  intros Hl Hn. unfold field_insert. rewrite Z.pow_add_r by lia.
  assert (0 < 2 ^ l) by (apply Z.pow_pos_nonneg; lia).
  assert (0 < 2 ^ n) by (apply Z.pow_pos_nonneg; lia).
  pose proof (Z.div_mod b (2 ^ l) ltac:(lia)) as E1.
  pose proof (Z.div_mod (b / 2 ^ l) (2 ^ n) ltac:(lia)) as E2.
  rewrite Z.div_div in E2 by lia.
  set (c := b / (2 ^ l * 2 ^ n)) in *. set (r := (b / 2 ^ l) mod 2 ^ n) in *.
  set (m := b mod 2 ^ l) in *. rewrite E2 in E1. clearbody c r m. rewrite E1. ring.
Qed.

(** The bits of the field are those of [v]; those below and above are kept. *)
Lemma field_insert_same b l n v : 0 <= l -> 0 <= n ->
  (field_insert b l n v / 2 ^ l) mod 2 ^ n = v mod 2 ^ n.
Proof.
  intros Hl Hn. rewrite field_insert_split by auto. rewrite Z.pow_add_r by lia.
  assert (0 < 2 ^ l) by (apply Z.pow_pos_nonneg; lia).
  assert (0 < 2 ^ n) by (apply Z.pow_pos_nonneg; lia).
  set (c := b / (2 ^ l * 2 ^ n)).
  replace (b mod 2 ^ l + v mod 2 ^ n * 2 ^ l + c * (2 ^ l * 2 ^ n))
    with (b mod 2 ^ l + (v mod 2 ^ n + c * 2 ^ n) * 2 ^ l) by ring.
  rewrite Z.div_add by lia. rewrite Z.div_small by (apply Z.mod_pos_bound; lia).
  rewrite Z.add_0_l, Z.mod_add by lia. apply Z.mod_mod. lia.
Qed.

Lemma field_insert_below b l n v k m : 0 <= k -> 0 <= m -> k + m <= l -> 0 <= n ->
  (field_insert b l n v / 2 ^ k) mod 2 ^ m = (b / 2 ^ k) mod 2 ^ m.
Proof.
  intros Hk Hm Hl Hn. unfold field_insert.
  replace (b - (b / 2 ^ l) mod 2 ^ n * 2 ^ l + v mod 2 ^ n * 2 ^ l)
    with (b + (v mod 2 ^ n - (b / 2 ^ l) mod 2 ^ n) * 2 ^ (l - k - m) * 2 ^ m * 2 ^ k).
  - assert (0 < 2 ^ k) by (apply Z.pow_pos_nonneg; lia).
    assert (0 < 2 ^ m) by (apply Z.pow_pos_nonneg; lia).
    rewrite Z.div_add by lia. by rewrite Z.mod_add by lia.
  - rewrite <- !Z.mul_assoc, <- !Z.pow_add_r by lia. replace (l - k - m + (m + k)) with l by lia. ring.
Qed.

Lemma field_insert_above b l n v k m : 0 <= l -> 0 <= n -> l + n <= k -> 0 <= m ->
  (field_insert b l n v / 2 ^ k) mod 2 ^ m = (b / 2 ^ k) mod 2 ^ m.
Proof.
  intros Hl Hn Hk Hm. f_equal. replace k with ((l + n) + (k - l - n)) by lia.
  rewrite Z.pow_add_r by lia. assert (0 < 2 ^ (l + n)) by (apply Z.pow_pos_nonneg; lia).
  assert (0 < 2 ^ (k - l - n)) by (apply Z.pow_pos_nonneg; lia).
  rewrite <- !Z.div_div by lia. f_equal. rewrite field_insert_split by auto.
  assert (0 < 2 ^ l) by (apply Z.pow_pos_nonneg; lia).
  assert (0 < 2 ^ n) by (apply Z.pow_pos_nonneg; lia).
  pose proof (Z.mod_pos_bound b (2 ^ l) ltac:(lia)). pose proof (Z.mod_pos_bound v (2 ^ n) ltac:(lia)).
  rewrite Z.div_add by lia. rewrite Z.div_small; [lia|]. rewrite Z.pow_add_r by lia. nia.
Qed.

#[export] Instance regfile_memory : @RegmapMemory regfile_kernel.
Proof.
  constructor; cbn.
  - intros h f Hf. split; [lia|]. apply Z.mod_pos_bound, field_mask_pos, Hf.
  - intros h f v Hf. unfold storage in Hf. apply andb_prop in Hf as [_ Hf%field_wf_spec].
    rewrite Z.eqb_refl. apply field_insert_same; lia.
  - intros h f g v Hf%field_wf_spec Hg%field_wf_spec Ho. f_equal.
    destruct (Z.eqb_spec (reg g) (reg f)) as [E|]; [|done].
    unfold overlap in Ho. rewrite E, Z.eqb_refl in Ho. cbn in Ho.
    apply andb_false_iff in Ho. rewrite !Z.leb_gt in Ho. unfold field_mask.
    destruct Ho; [apply field_insert_below | apply field_insert_above]; lia.
Qed.

Lemma driver_field_wf f : field_wf (rk817_battery_reg_fields f) = true.
Proof. destruct f; reflexivity. Qed.

(** ** State *)

Definition RK809_ID : Z := 0x8090.
Definition RK817_ID : Z := 0x8170.

Record battery_platform_data := {
  ocv_table : list Z;
  ocv_size : Z;
  bat_mode : Z;
  pwroff_vol : Z;
  monitor_sec : Z;
  zero_algorithm_vol : Z;
  zero_reserve_dsoc : Z;
  pd_bat_res : Z;
  design_capacity : Z;
  design_qmax : Z;
  sleep_enter_current : Z;
  sleep_exit_current : Z;
  sleep_filter_current : Z;
  max_soc_offset : Z;
  energy_mode : Z;
  sample_res : Z;
  bat_res_up : Z;
  bat_res_down : Z;
  design_max_voltage : Z;
  low_pwr_sleep : Z;
}.

Inductive work_mode_t := MODE_ZERO | MODE_FINISH | MODE_SMOOTH_CHRG | MODE_SMOOTH_DISCHRG | MODE_SMOOTH.

Section State.
Context `{Kernel}.

(** The fields the modelled functions use; the [static] locals of four of them
    are the fields [save_cap_old_cap], [save_dsoc_last_soc], [changed_old_soc]
    and [lowpwr_time]; [reports] is what [power_supply_changed] was told. *)
Record rk817_battery_device := {
  regs : hw;
  pdata : battery_platform_data;
  res_div : Z;
  bat_res : Z;
  is_first_power_on : bool;
  chrg_status : Z;
  is_initialized : bool;
  ac_in : Z;
  usb_in : Z;
  current_avg : Z;
  voltage_usb : Z;
  voltage_sys : Z;
  voltage_avg : Z;
  voltage_ocv : Z;
  voltage_relax : Z;
  voltage_k : Z;
  voltage_b : Z;
  remain_cap : Z;
  design_cap : Z;
  nac : Z;
  fcc : Z;
  qmax : Z;
  dsoc : Z;
  rsoc : Z;
  fake_offline : Z;
  age_ocv_soc : Z;
  age_allow_update : bool;
  age_level : Z;
  age_ocv_cap : Z;
  pwron_voltage : Z;
  age_voltage : Z;
  age_adjust_cap : Z;
  age_keep_sec : Z;
  zero_timeout_cnt : Z;
  zero_remain_cap : Z;
  zero_dsoc : Z;
  zero_linek : Z;
  zero_drop_sec : Z;
  shtd_drop_sec : Z;
  zero_voltage_avg : Z;
  zero_current_avg : Z;
  zero_vsys : Z;
  zero_dead_voltage : Z;
  zero_dead_soc : Z;
  zero_dead_cap : Z;
  zero_batvol_to_ocv : Z;
  zero_batocv_to_soc : Z;
  zero_batocv_to_cap : Z;
  zero_xsoc : Z;
  finish_base : Z;
  rtc_base : Z;
  sm_remain_cap : Z;
  sm_linek : Z;
  smooth_soc : Z;
  sleep_sum_cap : Z;
  sleep_dischrg_sec : Z;
  sleep_sum_sec : Z;
  sleep_chrg_online : bool;
  sleep_chrg_status : Z;
  s2r : bool;
  work_mode : work_mode_t;
  temperature : Z;
  monitor_ms : Z;
  pwroff_min : Z;
  halt_cnt : Z;
  is_halt : bool;
  is_max_soc_offset : bool;
  is_ocv_calib : bool;
  is_force_calib : bool;
  last_dsoc : Z;
  ocv_pre_dsoc : Z;
  ocv_new_dsoc : Z;
  force_pre_dsoc : Z;
  force_new_dsoc : Z;
  dbg_pwr_dsoc : Z;
  dbg_pwr_rsoc : Z;
  dbg_pwr_vol : Z;
  dbg_meet_soc : Z;
  dbg_calc_dsoc : Z;
  dbg_calc_rsoc : Z;
  is_charging : Z;
  charge_count : Z;
  plugin_trigger : Z;
  plugout_trigger : Z;
  chip_id : Z;
  is_register_chg_psy : bool;
  change : bool;
  save_cap_old_cap : Z;
  save_dsoc_last_soc : Z;
  changed_old_soc : Z;
  lowpwr_time : Z;
  reports : list Z;
}.

#[global] Instance eta_battery : Eta rk817_battery_device := fun b =>
  Build_rk817_battery_device (regs b) (pdata b) (res_div b) (bat_res b) (is_first_power_on b) (chrg_status b)
    (is_initialized b) (ac_in b) (usb_in b) (current_avg b) (voltage_usb b) (voltage_sys b)
    (voltage_avg b) (voltage_ocv b) (voltage_relax b) (voltage_k b) (voltage_b b)
    (remain_cap b) (design_cap b) (nac b) (fcc b) (qmax b) (dsoc b) (rsoc b) (fake_offline b)
    (age_ocv_soc b) (age_allow_update b) (age_level b) (age_ocv_cap b) (pwron_voltage b)
    (age_voltage b) (age_adjust_cap b) (age_keep_sec b) (zero_timeout_cnt b)
    (zero_remain_cap b) (zero_dsoc b) (zero_linek b) (zero_drop_sec b) (shtd_drop_sec b)
    (zero_voltage_avg b) (zero_current_avg b) (zero_vsys b) (zero_dead_voltage b)
    (zero_dead_soc b) (zero_dead_cap b) (zero_batvol_to_ocv b) (zero_batocv_to_soc b)
    (zero_batocv_to_cap b) (zero_xsoc b) (finish_base b) (rtc_base b) (sm_remain_cap b)
    (sm_linek b) (smooth_soc b) (sleep_sum_cap b) (sleep_dischrg_sec b) (sleep_sum_sec b)
    (sleep_chrg_online b) (sleep_chrg_status b) (s2r b) (work_mode b) (temperature b)
    (monitor_ms b) (pwroff_min b) (halt_cnt b) (is_halt b) (is_max_soc_offset b)
    (is_ocv_calib b) (is_force_calib b) (last_dsoc b) (ocv_pre_dsoc b) (ocv_new_dsoc b)
    (force_pre_dsoc b) (force_new_dsoc b) (dbg_pwr_dsoc b) (dbg_pwr_rsoc b) (dbg_pwr_vol b)
    (dbg_meet_soc b) (dbg_calc_dsoc b) (dbg_calc_rsoc b) (is_charging b) (charge_count b)
    (plugin_trigger b) (plugout_trigger b) (chip_id b) (is_register_chg_psy b) (change b)
    (save_cap_old_cap b) (save_dsoc_last_soc b) (changed_old_soc b) (lowpwr_time b)
    (reports b).
End State.
