(* ===== verification/Rk817Gauge.v ===== *)
(** * Reading the RK817 fuel gauge

    Model of rk817_battery.c, lines 640-1646: conversions between register
    values, voltages, currents and capacities, the values kept in registers
    across a power cycle, and the charge status.

    [None] is a division by zero or an access outside of the OCV table.  Debug
    output is left out; what it reads has no effect. *)

From S2P Require Import Prelude Rk817Regs.

Definition MAX_INTERPOLATE : Z := 1000.
Definition MAX_PERCENTAGE : Z := 100.
Definition MAX_INT : Z := 0x7FFF.
Definition MIN_FCC : Z := 500.
Definition CAP_INVALID : Z := 0x80.
Definition TIMER_MS_COUNTS : Z := 1000.
Definition SAMPLE_RES_20MR : Z := 20.
Definition SAMPLE_RES_DIV1 : Z := 1.
Definition SAMPLE_RES_DIV2 : Z := 2.
Definition MINUTE (x : Z) : Z := x * 60.
Definition S_8_MIN : Z := 0.
Definition AVERAGE_MODE : Z := 0.
Definition ENABLE : Z := 1.
Definition VIRTUAL_TEMPERATURE : Z := 188.

(** enum charge_status *)
Definition CHRG_OFF : Z := 0.
Definition DEAD_CHRG : Z := 1.
Definition TRICKLE_CHRG : Z := 2.
Definition CC_OR_CV_CHRG : Z := 3.
Definition CHARGE_FINISH : Z := 4.
Definition USB_OVER_VOL : Z := 5.
Definition BAT_TMP_ERR : Z := 6.
Definition BAT_TIM_ERR : Z := 7.

(** [DIV(x)] guards a divisor. *)
Definition DIV (x : Z) : Z := if truth x then x else 1.

(** [abs] of an int. *)
Definition iabs (x : Z) : Z := s32 (Z.abs x).

(** ** Conversions *)

Definition ADC_TO_CURRENT (adc_value samp_res : Z) : option Z :=
  cdiv (Z.quot (s32 (adc_value * 172)) 1000) samp_res.

(** The three capacity conversions; in all uses the operands are unsigned but
    for the signed [val] of [rk817_bat_get_qmax]. *)
Definition CAPACITY_TO_ADC (capacity samp_res : Z) : Z :=
  u32 (Z.quot (u32 (u32 (capacity * samp_res) * 3600)) 172 * 1000).
Definition ADC_TO_CAPACITY (adc_value samp_res : Z) : option Z :=
  cdiv (Z.quot (u32 (Z.quot adc_value 1000 * 172)) 3600) samp_res.
Definition ADC_TO_CAPACITY_UAH (adc_value samp_res : Z) : option Z :=
  cdiv (u32 (Z.quot adc_value 3600 * 172)) samp_res.

(** The first loop of [interpolate]; [i] is a u8. *)
Definition interpolate_index (value : Z) (table : list Z) (size : Z) : option Z :=
  loop 300 (fun i =>
    if i <? size then
      t ← rd table i;
      if u32 value <? t then Some (inr i) else Some (inl (u8 (i + 1)))
    else Some (inr i)) 0.

Definition interpolate (value : Z) (table : list Z) (size : Z) : option Z :=
  i ← interpolate_index value table size;
  d ← (if (i >? 0) && (i <? size) then
         step ← cdiv MAX_INTERPOLATE (size - 1);
         lo ← rd table (i - 1);
         hi ← rd table i;
         let d := u16 (u32 (u32 (u32 value - lo) * step)) in
         q ← cdiv d (u32 (hi - lo));
         Some (u16 (u16 q + (i - 1) * step))
       else
         q ← cdiv (MAX_INTERPOLATE + Z.quot size 2) size;
         Some (u16 (i * q)));
  Some (if d >? 1000 then 1000 else d).

(** [(a * b) / c] *)
Definition ab_div_c (a b c : Z) : Z :=
  let sign := truth (Z.land (Z.lxor (Z.lxor a b) c) 0x80000000) in
  let ans :=
    if truth c then
      let c := if sign then u32 (- c) else c in
      let tmp := s32 (u32 (u32 (a * b) + Z.shiftr c 1) / c) in
      if tmp <? MAX_INT then u32 tmp else MAX_INT
    else MAX_INT in
  s32 (if sign then u32 (- ans) else ans).

Section Gauge.
Context `{Kernel}.
Implicit Types b : rk817_battery_device.

Definition get_boot_sec b : Z := u64 (boottime (regs b)).

Definition base2sec b (x : Z) : Z :=
  if truth x then
    if get_boot_sec b >? x then u64 (get_boot_sec b - x) else 0
  else 0.

(** ** Field access *)

Definition rk817_bat_field_read b (field_id : rk817_battery_fields) : Z :=
  let '(ret, val) := regmap_field_read (regs b) (rk817_battery_reg_fields field_id) in
  if ret <? 0 then ret else s32 val.

Definition rk817_bat_field_write b (field_id : rk817_battery_fields) (val : Z)
    : rk817_battery_device :=
  b <| regs ::= fun h => regmap_field_write h (rk817_battery_reg_fields field_id) (u32 val) |>.

Definition rk817_is_bat_exist b : bool :=
  if chip_id b =? RK817_ID then truth (rk817_bat_field_read b BAT_EXS) else true.

(** [field_read(H) << 8 | field_read(L)], and the same for three and four bytes. *)
Definition read16 b (h l : rk817_battery_fields) : Z :=
  Z.lor (s32 (Z.shiftl (rk817_bat_field_read b h) 8)) (rk817_bat_field_read b l).

Definition read24 b (f2 f1 f0 : rk817_battery_fields) : Z :=
  Z.lor (Z.lor (s32 (Z.shiftl (rk817_bat_field_read b f2) 16))
               (s32 (Z.shiftl (rk817_bat_field_read b f1) 8)))
        (rk817_bat_field_read b f0).

Definition read32 b (f3 f2 f1 f0 : rk817_battery_fields) : Z :=
  Z.lor (s32 (Z.shiftl (rk817_bat_field_read b f3) 24)) (read24 b f2 f1 f0).

(** [buf = (val >> sh) & 0xff; field_write(f, buf)] *)
Definition write_byte b (f : rk817_battery_fields) (val sh : Z) : rk817_battery_device :=
  rk817_bat_field_write b f (Z.land (Z.shiftr val sh) 0xff).

(** ** Calibration *)

Definition rk817_bat_get_coffset b : Z := read16 b CAL_OFFSET_H CAL_OFFSET_L.

Definition rk817_bat_set_coffset b (val : Z) : rk817_battery_device :=
  write_byte (write_byte b CAL_OFFSET_H val 8) CAL_OFFSET_L val 0.

Definition rk817_bat_get_ioffset b : Z := read16 b IOFFSET_H IOFFSET_L.

Definition rk817_bat_current_calibration b : rk817_battery_device :=
  rk817_bat_set_coffset b (rk817_bat_get_ioffset b).

Definition rk817_bat_get_vaclib0 b : Z := read16 b VCALIB0_H VCALIB0_L.
Definition rk817_bat_get_vaclib1 b : Z := read16 b VCALIB1_H VCALIB1_L.

Definition rk817_bat_init_voltage_kb b : rk817_battery_device :=
  let vcalib0 := rk817_bat_get_vaclib0 b in
  let vcalib1 := rk817_bat_get_vaclib1 b in
  let '(hi, lo) := if chip_id b =? RK809_ID then (1050, 600) else (4025, 2300) in
  let k := s32 (Z.quot ((hi - lo) * 1000) (DIV (s32 (vcalib1 - vcalib0)))) in
  b <| voltage_k := k |> <| voltage_b := s32 (hi - Z.quot (s32 (k * vcalib1)) 1000) |>.

(** ** Voltages *)

(** [voltage_k * val / 1000 + voltage_b] *)
Definition adc_voltage b (val : Z) : Z :=
  s32 (Z.quot (s32 (voltage_k b * val)) 1000 + voltage_b b).

(** The divider in front of the ADC of the RK809; the resistances are u32, so
    the computation is unsigned. *)
Definition rk809_scale b (vol : Z) : option Z :=
  if chip_id b =? RK809_ID then
    q ← cdiv (u32 (u32 vol * bat_res_up (pdata b))) (bat_res_down (pdata b));
    Some (s32 (u32 (q + u32 vol)))
  else Some vol.

Definition rk817_bat_restart_relax b : rk817_battery_device :=
  rk817_bat_field_write (rk817_bat_field_write b RELAX_VOL1_UPD 0) RELAX_VOL2_UPD 0.

Definition is_rk817_bat_relax_mode b : bool :=
  truth (u8 (rk817_bat_field_read b RELAX_STS)) &&
  truth (u8 (rk817_bat_field_read b RELAX_VOL1_UPD)) &&
  truth (u8 (rk817_bat_field_read b RELAX_VOL2_UPD)).

(** [val] and the result are u16 here. *)
Definition rk817_bat_get_relax_vol1 b : Z :=
  u16 (adc_voltage b (u16 (read16 b RELAX_VOL1_H RELAX_VOL1_L))).
Definition rk817_bat_get_relax_vol2 b : Z :=
  u16 (adc_voltage b (u16 (read16 b RELAX_VOL2_H RELAX_VOL2_L))).

Definition rk817_bat_get_relax_voltage b : Z :=
  if negb (is_rk817_bat_relax_mode b) then 0
  else Z.max (rk817_bat_get_relax_vol1 b) (rk817_bat_get_relax_vol2 b).

Definition CURRENT_TO_ADC (current samp_res : Z) : Z :=
  Z.quot (u32 (u32 (current * 1000) * u32 samp_res)) 172.

Definition rk817_bat_set_relax_sample b : rk817_battery_device :=
  let enter_thres := s32 (CURRENT_TO_ADC (sleep_enter_current (pdata b)) (res_div b)) in
  let filter_thres := s32 (CURRENT_TO_ADC (sleep_filter_current (pdata b)) (res_div b)) in
  let b := write_byte b RELAX_THRE_H enter_thres 8 in
  let b := write_byte b RELAX_THRE_L enter_thres 0 in
  let b := write_byte b SLEEP_CON_SAMP_CUR_H filter_thres 8 in
  let b := write_byte b SLEEP_CON_SAMP_CUR_L filter_thres 0 in
  rk817_bat_restart_relax b.

Definition rk817_bat_ocv_thre b (value : Z) : rk817_battery_device :=
  rk817_bat_field_write b OCV_THRE_VOL value.

Definition rk817_bat_get_ocv_voltage b : option Z :=
  rk809_scale b (adc_voltage b (read16 b OCV_VOL_H OCV_VOL_L)).
Definition rk817_bat_get_ocv0_voltage0 b : option Z :=
  rk809_scale b (adc_voltage b (read16 b OCV_VOL0_H OCV_VOL0_L)).
Definition rk817_bat_get_pwron_voltage b : option Z :=
  rk809_scale b (adc_voltage b (read16 b PWRON_VOL_H PWRON_VOL_L)).
Definition rk817_bat_get_battery_voltage b : option Z :=
  rk809_scale b (adc_voltage b (read16 b BAT_VOL_H BAT_VOL_L)).

(** These two are behind a divider of their own. *)
Definition divided_voltage b (val : Z) : Z := Z.quot (s32 (adc_voltage b val * 60)) 46.

Definition rk817_bat_get_USB_voltage b : option (Z * rk817_battery_device) :=
  let b := rk817_bat_field_write b USB_VOL_ADC_EN 0x01 in
  vol ← rk809_scale b (divided_voltage b (read16 b USB_VOL_H USB_VOL_L));
  Some (vol, b).
Definition rk817_bat_get_sys_voltage b : option Z :=
  rk809_scale b (divided_voltage b (read16 b SYS_VOL_H SYS_VOL_L)).

(** ** Currents *)

(** Sign extension of the 16-bit register value and conversion to mA. *)
Definition adc_current b (val : Z) : option Z :=
  ADC_TO_CURRENT (if truth (Z.land val 0x8000) then val - 0x10000 else val) (res_div b).

Definition rk817_bat_get_avg_current b : option Z :=
  adc_current b (read16 b BAT_CUR_H BAT_CUR_L).
Definition rk817_bat_get_relax_cur1 b : option Z :=
  adc_current b (read16 b RELAX_CUR1_H RELAX_CUR1_L).
(** The low byte is assigned, not or-ed, to [val]: the high byte is lost. *)
Definition rk817_bat_get_relax_cur2 b : option Z :=
  adc_current b (rk817_bat_field_read b RELAX_CUR2_L).

Definition rk817_bat_get_relax_current b : option Z :=
  if negb (is_rk817_bat_relax_mode b) then Some 0
  else
    relax_cur1 ← rk817_bat_get_relax_cur1 b;
    relax_cur2 ← rk817_bat_get_relax_cur2 b;
    Some (if relax_cur1 <? relax_cur2 then relax_cur1 else relax_cur2).

Definition rk817_bat_get_ocv_current b : option Z :=
  adc_current b (read16 b OCV_CUR_H OCV_CUR_L).
Definition rk817_bat_get_ocv_current0 b : option Z :=
  adc_current b (read16 b OCV_CUR0_H OCV_CUR0_L).
Definition rk817_bat_get_pwron_current b : option Z :=
  adc_current b (read16 b PWRON_CUR_H PWRON_CUR_L).

(** ** Capacities *)

Definition rk817_bat_remain_cap_is_valid b : bool :=
  negb (truth (Z.land (rk817_bat_field_read b Q_PRESS_H3) CAP_INVALID)).

Definition rk817_bat_get_capacity_uah b : option Z :=
  if rk817_bat_remain_cap_is_valid b then
    ADC_TO_CAPACITY_UAH (u32 (read32 b Q_PRESS_H3 Q_PRESS_H2 Q_PRESS_L1 Q_PRESS_L0)) (res_div b)
  else Some 0.

Definition rk817_bat_get_capacity_mah b : option Z :=
  if rk817_bat_remain_cap_is_valid b then
    ADC_TO_CAPACITY (u32 (read32 b Q_PRESS_H3 Q_PRESS_H2 Q_PRESS_L1 Q_PRESS_L0)) (res_div b)
  else Some 0.

Definition rk817_bat_init_coulomb_cap b (capacity : Z) : option rk817_battery_device :=
  let cap := CAPACITY_TO_ADC capacity (res_div b) in
  let b := write_byte b Q_INIT_H3 cap 24 in
  let b := write_byte b Q_INIT_H2 cap 16 in
  let b := write_byte b Q_INIT_L1 cap 8 in
  let b := write_byte b Q_INIT_L0 cap 0 in
  (* unsigned: [capacity] is a u32 and [fcc] is converted *)
  q ← cdiv (u32 (u32 (capacity * 1000) * 100)) (u32 (fcc b));
  Some (b <| rsoc := s32 q |> <| remain_cap := u32 (capacity * 1000) |>).

Definition rk817_bat_save_cap b (capacity : Z) : rk817_battery_device :=
  let capacity := if capacity >=? qmax b then qmax b else capacity in
  let capacity := if capacity <=? 0 then 0 else capacity in
  if save_cap_old_cap b =? u32 capacity then b
  else
    let b := b <| save_cap_old_cap := u32 capacity |> in
    let b := write_byte b REMAIN_CAP_REG2 capacity 16 in
    let b := write_byte b REMAIN_CAP_REG1 capacity 8 in
    write_byte b REMAIN_CAP_REG0 capacity 0.

Definition rk817_bat_update_qmax b (capacity : Z) : rk817_battery_device :=
  let cap_adc := CAPACITY_TO_ADC capacity (res_div b) in
  let b := write_byte b Q_MAX_H3 cap_adc 24 in
  let b := write_byte b Q_MAX_H2 cap_adc 16 in
  let b := write_byte b Q_MAX_L1 cap_adc 8 in
  let b := write_byte b Q_MAX_L0 cap_adc 0 in
  b <| qmax := s32 capacity |>.

(** [val] is an int here, so [ADC_TO_CAPACITY] computes with signs. *)
Definition rk817_bat_get_qmax b : option (Z * rk817_battery_device) :=
  let val := read32 b Q_MAX_H3 Q_MAX_H2 Q_MAX_L1 Q_MAX_L0 in
  q ← cdiv (Z.quot (s32 (Z.quot val 1000 * 172)) 3600) (res_div b);
  Some (s32 q, b <| qmax := s32 (u32 q) |>).

Definition rk817_bat_save_fcc b (v : Z) : rk817_battery_device :=
  let b := write_byte b NEW_FCC_REG2 v 16 in
  let b := write_byte b NEW_FCC_REG1 v 8 in
  write_byte b NEW_FCC_REG0 v 0.

Definition rk817_bat_get_fcc b : Z * rk817_battery_device :=
  let v := u32 (read24 b NEW_FCC_REG2 NEW_FCC_REG1 NEW_FCC_REG0) in
  if v <? MIN_FCC then
    let v := design_capacity (pdata b) in (s32 v, rk817_bat_save_fcc b (s32 v))
  else if v >? design_qmax (pdata b) then
    let v := design_qmax (pdata b) in (s32 v, rk817_bat_save_fcc b (s32 v))
  else (s32 v, b).

Definition rk817_bat_get_rsoc b : option Z :=
  remain ← rk817_bat_get_capacity_uah b;
  Some (s32 (Z.quot (s32 (s32 remain * 100)) (DIV (fcc b)))).

Definition rk817_bat_get_off_count b : Z := rk817_bat_field_read b OFF_CNT.
Definition rk817_bat_get_ocv_count b : Z := rk817_bat_field_read b OCV_CNT.

Definition rk817_bat_vol_to_soc b (voltage : Z) : option Z :=
  temp ← interpolate voltage (ocv_table (pdata b)) (ocv_size (pdata b));
  Some (ab_div_c temp MAX_PERCENTAGE MAX_INTERPOLATE).

Definition rk817_bat_vol_to_cap b (voltage : Z) : option Z :=
  temp ← interpolate voltage (ocv_table (pdata b)) (ocv_size (pdata b));
  Some (ab_div_c temp (u32 (fcc b)) MAX_INTERPOLATE).

(** ** Values kept across a power cycle *)

Definition rk817_bat_save_dsoc b (save_soc : Z) : rk817_battery_device :=
  if save_dsoc_last_soc b =? save_soc then b
  else
    let b := write_byte b SOC_REG0 save_soc 0 in
    let b := write_byte b SOC_REG1 save_soc 8 in
    let b := write_byte b SOC_REG2 save_soc 16 in
    b <| save_dsoc_last_soc := save_soc |>.

Definition rk817_bat_get_prev_dsoc b : Z := read24 b SOC_REG2 SOC_REG1 SOC_REG0.

Definition is_rk817_bat_first_pwron b : bool * rk817_battery_device :=
  if truth (rk817_bat_field_read b BAT_CON)
  then (true, rk817_bat_field_write b BAT_CON 0)
  else (false, b).

Definition rk817_bat_get_prev_cap b : Z :=
  read24 b REMAIN_CAP_REG2 REMAIN_CAP_REG1 REMAIN_CAP_REG0.

Definition rk817_bat_get_halt_cnt b : Z := u8 (rk817_bat_field_read b HALT_CNT_REG).

Definition rk817_bat_inc_halt_cnt b : rk817_battery_device :=
  let cnt := u8 (rk817_bat_field_read b HALT_CNT_REG) in
  rk817_bat_field_write b HALT_CNT_REG (u8 (cnt + 1)).

Definition is_rk817_bat_last_halt b : option (bool * rk817_battery_device) :=
  let pre_cap := rk817_bat_get_prev_cap b in
  now ← rk817_bat_get_capacity_mah b;
  let now_cap := s32 now in
  if iabs (s32 (now_cap - pre_cap)) >? Z.quot (fcc b) 10
  then Some (true, rk817_bat_inc_halt_cnt b)
  else Some (false, b).

Definition is_rk817_bat_initialized b : bool * rk817_battery_device :=
  if truth (u8 (rk817_bat_field_read b FG_INIT))
  then (true, rk817_bat_field_write b FG_INIT 0)
  else (false, b).

Definition is_rk817_bat_ocv_valid b : bool :=
  negb (is_initialized b) && (pwroff_min b >=? 30).

(** ** Charge status *)

Definition rk817_bat_get_charge_status b : Z :=
  if chip_id b =? RK809_ID then
    (* [voltage_avg] is compared as an unsigned number *)
    if (u32 (voltage_avg b) >? design_max_voltage (pdata b)) && (current_avg b >? 0) &&
       ((current_avg b <? 500) || (Z.quot (rsoc b) 1000 =? 100))
    then CHARGE_FINISH
    else if truth (plugin_trigger b) then CC_OR_CV_CHRG else CHRG_OFF
  else
    let status := rk817_bat_field_read b CHG_STS in
    if (status =? CC_OR_CV_CHRG) && (rsoc b =? 100 * 1000) then CHARGE_FINISH else status.

Definition rk817_bat_fake_finish_mode b : bool :=
  (rsoc b =? 100) && (rk817_bat_get_charge_status b =? CC_OR_CV_CHRG) &&
  (iabs (current_avg b) <=? 100).

Definition get_charge_status b : Z := rk817_bat_get_charge_status b.

(** ** Initialisation of the ADC *)

Definition rk817_bat_gas_gaugle_enable b : rk817_battery_device :=
  rk817_bat_field_write b GG_EN ENABLE.

Definition rk817_bat_gg_con_init b : rk817_battery_device :=
  let b := rk817_bat_field_write b RLX_SPT S_8_MIN in
  let b := rk817_bat_field_write b ADC_OFF_CAL_INTERV S_8_MIN in
  let b := rk817_bat_field_write b VOL_OUT_MOD AVERAGE_MODE in
  rk817_bat_field_write b CUR_OUT_MOD AVERAGE_MODE.

Definition rk817_bat_adc_init b : rk817_battery_device :=
  let b := rk817_bat_field_write b SYS_VOL_ADC_EN ENABLE in
  let b := rk817_bat_field_write b TS_ADC_EN ENABLE in
  let b := rk817_bat_field_write b USB_VOL_ADC_EN ENABLE in
  let b := rk817_bat_field_write b BAT_VOL_ADC_EN ENABLE in
  rk817_bat_field_write b BAT_CUR_ADC_EN ENABLE.

Definition rk817_bat_init_info b : rk817_battery_device :=
  b <| design_cap := s32 (design_capacity (pdata b)) |>
    <| qmax := s32 (design_qmax (pdata b)) |>
    <| bat_res := s32 (pd_bat_res (pdata b)) |>
    <| monitor_ms := u32 (monitor_sec (pdata b) * TIMER_MS_COUNTS) |>
    <| res_div := if sample_res (pdata b) =? SAMPLE_RES_20MR
                  then SAMPLE_RES_DIV2 else SAMPLE_RES_DIV1 |>.

End Gauge.
