(* ===== verification/Rk817Facts.v ===== *)
(** * The arithmetic of the RK817 driver

    Lemmas about the conversions of Rk817Gauge: the OCV table lookup, scaling,
    and the coulomb counter. *)

From S2P Require Import Prelude Rk817Regs Rk817Gauge.

(** ** The OCV table *)

(** A table the lookup can work with; its index is a u8. *)
Record table_ok (table : list Z) (size : Z) : Prop := {
  tb_size : size = zlen table;
  tb_nonempty : 1 <= size <= 255;
  tb_u32 : Forall (fun x => 0 <= x < 2 ^ 32) table;
}.

Lemma table_u32 table size i : table_ok table size -> 0 <= i < size -> 0 <= get table i < 2 ^ 32.
Proof.
  intros [-> _ Hu] Hi. pose proof (rd_get table i Hi) as [_ Hl]%rd_Some.
  rewrite Forall_lookup in Hu. eauto.
Qed.

(** The index is that of the first entry above [value], or the size. *)
Lemma interpolate_index_spec value table size :
  table_ok table size ->
  exists i, interpolate_index value table size = Some i /\ 0 <= i <= size /\
    (forall j, 0 <= j < i -> get table j <= u32 value) /\
    (i < size -> u32 value < get table i).
Proof.
  intros H. pose proof (tb_nonempty _ _ H) as Hn. pose proof (tb_size _ _ H) as Hs.
  unfold interpolate_index.
  apply (loop_inv (fun i => 0 <= i <= size /\ forall j, 0 <= j < i -> get table j <= u32 value)
           _ (fun i => Z.to_nat (size - i))).
  - split; [lia|]. intros j Hj. lia.
  - lia.
  - intros i [Hi Hlow]. destruct (Z.ltb_spec i size) as [Hlt|Hge].
    + rewrite (rd_get table i) by lia. mstep.
      destruct (Z.ltb_spec (u32 value) (get table i)) as [Hv|Hv].
      * right. eexists. split; [done|]. auto.
      * left. eexists. split; [done|]. rewrite u8_id by lia. split; [|lia].
        split; [lia|]. intros j Hj. destruct (Z.eq_dec j i) as [->|]; [done|]. apply Hlow. lia.
    + right. eexists. split; [done|]. split; [lia|]. split; [done|]. lia.
Qed.

(** The slope between two entries, and the value past the last one. *)
Definition interp_step (size : Z) : Z := Z.quot MAX_INTERPOLATE (size - 1).
Definition interp_top (size : Z) : Z := Z.quot (MAX_INTERPOLATE + Z.quot size 2) size.

Definition interp_inner (value lo hi step i : Z) : Z :=
  u16 (u16 (Z.quot (u16 (u32 (u32 (u32 value - lo) * step))) (u32 (hi - lo))) + (i - 1) * step).

Definition interp_at (value : Z) (table : list Z) (size i : Z) : Z :=
  Z.min 1000
    (if (i >? 0) && (i <? size)
     then interp_inner value (get table (i - 1)) (get table i) (interp_step size) i
     else u16 (i * interp_top size)).

(** The lookup never faults: the entry after the bracket is above the value,
    the entry before it is not. *)
Lemma interpolate_total value table size :
  table_ok table size ->
  exists i, interpolate value table size = Some (interp_at value table size i) /\ 0 <= i <= size /\
    (forall j, 0 <= j < i -> get table j <= u32 value) /\
    (i < size -> u32 value < get table i).
Proof.
  intros H. pose proof (tb_nonempty _ _ H) as Hn. pose proof (tb_size _ _ H) as Hs.
  destruct (interpolate_index_spec value table size H) as (i & E & Hi & Hlow & Hup).
  exists i. split; [|auto]. unfold interpolate, interp_at. rewrite E. mstep.
  assert (Hcap : forall d, (if d >? 1000 then 1000 else d) = Z.min 1000 d).
  { intros d. repeat zcase; lia. }
  rewrite Z.gtb_ltb.
  destruct (Z.ltb_spec 0 i), (Z.ltb_spec i size); simpl andb; cbv iota.
  2-4: rewrite cdiv_Some by lia; mstep; by rewrite Hcap.
  rewrite cdiv_Some by lia. mstep. rewrite !(rd_get table) by lia. mstep.
  pose proof (table_u32 _ _ i H ltac:(lia)). pose proof (table_u32 _ _ (i - 1) H ltac:(lia)).
  specialize (Hup ltac:(lia)). specialize (Hlow (i - 1) ltac:(lia)).
  rewrite cdiv_Some by (rewrite u32_id; lia). mstep. by rewrite Hcap.
Qed.

Lemma interpolate_range value table size :
  table_ok table size ->
  exists d, interpolate value table size = Some d /\ 0 <= d <= 1000.
Proof.
  intros H. destruct (interpolate_total value table size H) as (i & -> & _).
  eexists. split; [done|]. unfold interp_at, interp_inner.
  destruct (_ && _); match goal with |- context [u16 ?x] => pose proof (u16_range x) end; lia.
Qed.

(** In a table whose entries rise, and not too steeply for the 16-bit product. *)
Record table_sorted (table : list Z) (size : Z) : Prop := {
  ts_ok : table_ok table size;
  ts_two : 2 <= size;
  ts_step : forall i, 0 <= i -> i + 1 < size ->
    get table i < get table (i + 1) /\
    (get table (i + 1) - get table i) * interp_step size < 2 ^ 16;
}.

Lemma interp_step_bounds size : 2 <= size <= 255 ->
  1 <= interp_step size /\ (size - 1) * interp_step size <= 1000.
Proof.
  intros H. unfold interp_step, MAX_INTERPOLATE. rewrite Z.quot_div_nonneg by lia.
  split; [apply Z.div_le_lower_bound; lia|]. apply Z.mul_div_le. lia.
Qed.

Lemma interp_top_bounds size : 1 <= size <= 255 -> 0 <= interp_top size /\ size * interp_top size <= 1127.
Proof.
  intros H. unfold interp_top, MAX_INTERPOLATE.
  pose proof (Z.div_pos size 2 ltac:(lia) ltac:(lia)).
  rewrite (Z.quot_div_nonneg size) by lia. rewrite Z.quot_div_nonneg by lia.
  pose proof (Z.mul_div_le (1000 + size / 2) size ltac:(lia)).
  pose proof (Z.div_pos (1000 + size / 2) size ltac:(lia) ltac:(lia)).
  assert (size / 2 < 128) by (apply Z.div_lt_upper_bound; lia). lia.
Qed.

Lemma interp_inner_value value table size i :
  table_sorted table size -> 0 < i < size ->
  get table (i - 1) <= value < get table i ->
  interp_inner value (get table (i - 1)) (get table i) (interp_step size) i =
    (value - get table (i - 1)) * interp_step size / (get table i - get table (i - 1)) +
    (i - 1) * interp_step size.
Proof.
  intros H Hi Hv. pose proof (ts_two _ _ H) as H2. pose proof (ts_ok _ _ H) as Hok.
  pose proof (tb_nonempty _ _ Hok) as Hn.
  destruct (interp_step_bounds size ltac:(lia)) as [Hs1 Hs2].
  destruct (ts_step _ _ H (i - 1) ltac:(lia) ltac:(lia)) as [_ Hsteep].
  replace (i - 1 + 1) with i in Hsteep by lia.
  pose proof (table_u32 _ _ i Hok ltac:(lia)). pose proof (table_u32 _ _ (i - 1) Hok ltac:(lia)).
  unfold interp_inner. set (lo := get table (i - 1)) in *. set (hi := get table i) in *.
  set (s := interp_step size) in *.
  assert (0 <= (value - lo) * s < 2 ^ 16) by nia.
  rewrite (u32_id value), (u32_id (value - lo)), (u32_id ((value - lo) * s)),
    (u16_id ((value - lo) * s)), (u32_id (hi - lo)) by lia.
  rewrite Z.quot_div_nonneg by lia.
  assert (0 <= (value - lo) * s / (hi - lo) < s).
  { split; [apply Z.div_pos; lia|]. apply Z.div_lt_upper_bound; nia. }
  assert (s * i <= 1000 /\ 0 <= s * (i - 1)) by nia.
  set (q := (value - lo) * s / (hi - lo)) in *.
  rewrite (u16_id q) by lia. rewrite u16_id by lia. done.
Qed.

Lemma get_table_mono table size i j :
  table_sorted table size -> 0 <= i -> i <= j -> j < size -> get table i <= get table j.
Proof.
  intros H Hi Hij Hj. replace j with (i + Z.of_nat (Z.to_nat (j - i))) in * by lia.
  remember (Z.to_nat (j - i)) as n eqn:En. clear En Hij.
  induction n as [|n IH]; [replace (i + Z.of_nat 0) with i by lia; lia|].
  destruct (ts_step _ _ H (i + Z.of_nat n)) as [Hs _]; [lia..|].
  replace (i + Z.of_nat (S n)) with (i + Z.of_nat n + 1) in * by lia.
  specialize (IH ltac:(lia)). lia.
Qed.

(** The bracket rises with the value. *)
Lemma bracket_mono table size v w i j :
  table_sorted table size -> 0 <= v <= w ->
  0 <= i <= size -> 0 <= j <= size ->
  (forall k, 0 <= k < i -> get table k <= v) -> (i < size -> v < get table i) ->
  (forall k, 0 <= k < j -> get table k <= w) -> (j < size -> w < get table j) -> i <= j.
Proof.
  intros H Hvw Hi Hj Hlo _ _ Hup. destruct (Z.le_gt_cases i j) as [|Hgt]; [done|].
  specialize (Hlo j ltac:(lia)). specialize (Hup ltac:(lia)). lia.
Qed.

(** [interp_at] between two neighbouring entries. *)
Lemma interp_at_inner_bounds value table size i :
  table_sorted table size -> 0 < i < size ->
  get table (i - 1) <= value < get table i ->
  (i - 1) * interp_step size <= interp_at value table size i < i * interp_step size /\
  interp_at value table size i <= 1000.
Proof.
  intros H Hi Hv. pose proof (ts_two _ _ H). pose proof (tb_nonempty _ _ (ts_ok _ _ H)).
  destruct (interp_step_bounds size ltac:(lia)) as [Hs1 Hs2].
  unfold interp_at. rewrite Z.gtb_ltb.
  destruct (Z.ltb_spec 0 i), (Z.ltb_spec i size); try lia. simpl andb; cbv iota.
  rewrite interp_inner_value by auto.
  set (lo := get table (i - 1)) in *. set (hi := get table i) in *. set (s := interp_step size) in *.
  assert (0 <= (value - lo) * s / (hi - lo) < s).
  { split; [apply Z.div_pos; nia|]. apply Z.div_lt_upper_bound; nia. }
  split; [|lia]. nia.
Qed.

(** The value past the end is not below the values before it. *)
Definition top_ok (size : Z) : Prop :=
  (size - 1) * interp_step size - 1 <= Z.min 1000 (size * interp_top size).

Lemma interp_at_ends value table size :
  1 <= size <= 255 -> interp_at value table size 0 = 0 /\
  interp_at value table size size = Z.min 1000 (size * interp_top size).
Proof.
  intros H. unfold interp_at. rewrite Z.ltb_irrefl, andb_false_r. simpl. split; [done|].
  destruct (interp_top_bounds size H). rewrite u16_id by nia. done.
Qed.

Lemma interp_at_mono table size v w i j :
  table_sorted table size -> top_ok size -> 0 <= v <= w ->
  0 <= i <= size -> 0 <= j <= size ->
  (forall k, 0 <= k < i -> get table k <= v) -> (i < size -> v < get table i) ->
  (forall k, 0 <= k < j -> get table k <= w) -> (j < size -> w < get table j) ->
  interp_at v table size i <= interp_at w table size j.
Proof.
  intros H Htop Hvw Hi Hj Hlo Hup Hlo' Hup'.
  pose proof (bracket_mono _ _ _ _ _ _ H Hvw Hi Hj Hlo Hup Hlo' Hup') as Hij.
  pose proof (ts_two _ _ H). pose proof (tb_nonempty _ _ (ts_ok _ _ H)) as Hn.
  destruct (interp_step_bounds size ltac:(lia)) as [Hs1 Hs2].
  destruct (interp_top_bounds size ltac:(lia)) as [Ht1 Ht2].
  destruct (interp_at_ends v table size Hn) as [E0 E1].
  destruct (interp_at_ends w table size Hn) as [F0 F1].
  assert (Hin : forall x k, 0 < k < size -> (forall l, 0 <= l < k -> get table l <= x) ->
                (k < size -> x < get table k) ->
                (k - 1) * interp_step size <= interp_at x table size k < k * interp_step size /\
                interp_at x table size k <= 1000).
  { intros x k Hk Ha Hb. apply interp_at_inner_bounds; auto.
    split; [apply Ha; lia | apply Hb; lia]. }
  destruct (Z.eq_dec i 0) as [->|]; [|destruct (Z.eq_dec i size) as [->|]].
  - rewrite E0. destruct (Z.eq_dec j 0) as [->|]; [lia|].
    destruct (Z.eq_dec j size) as [->|]; [rewrite F1; nia|].
    destruct (Hin w j ltac:(lia) Hlo' Hup'). nia.
  - replace j with size by lia. lia.
  - destruct (Hin v i ltac:(lia) Hlo Hup) as [Hv1 Hv2].
    destruct (Z.eq_dec j size) as [->|]; [rewrite F1; unfold top_ok in Htop; nia|].
    destruct (Hin w j ltac:(lia) Hlo' Hup') as [Hw1 Hw2].
    destruct (Z.eq_dec i j) as [->|]; [|nia].
    specialize (Hlo' (j - 1) ltac:(lia)). specialize (Hup' ltac:(lia)).
    specialize (Hlo (j - 1) ltac:(lia)). specialize (Hup ltac:(lia)).
    unfold interp_at. rewrite Z.gtb_ltb.
    destruct (Z.ltb_spec 0 j), (Z.ltb_spec j size); try lia. simpl andb; cbv iota.
    rewrite !interp_inner_value by (auto; lia).
    apply Z.min_le_compat_l, Z.add_le_mono_r, Z.div_le_mono; [lia|nia].
Qed.

(** ** Scaling *)

(** [ab_div_c] rounds to the nearest, when nothing wraps. *)
Lemma ab_div_c_pos a b c :
  0 <= a -> 0 <= b -> 0 < c < 2 ^ 31 -> a < 2 ^ 31 -> b < 2 ^ 31 -> a * b + c / 2 < 2 ^ 31 ->
  (a * b + c / 2) / c < MAX_INT ->
  ab_div_c a b c = (a * b + c / 2) / c.
Proof.
  intros Ha Hb Hc Ha' Hb' Hab Hq. unfold ab_div_c.
  assert (Hs : Z.land (Z.lxor (Z.lxor a b) c) 0x80000000 = 0).
  { apply Z.bits_inj'. intros k Hk. rewrite Z.land_spec, !Z.lxor_spec, Z.bits_0.
    change 0x80000000 with (2 ^ 31). rewrite Z.pow2_bits_eqb by lia.
    destruct (Z.eqb_spec 31 k) as [<-|]; [|by rewrite andb_false_r].
    rewrite !(Z.testbit_eqb _ 31) by lia. rewrite !Z.div_small by lia. done. }
  rewrite Hs. change (truth 0) with false. cbv iota zeta.
  rewrite (proj2 (truth_true c)) by lia.
  rewrite Z.shiftr_div_pow2 by lia. change (2 ^ 1) with 2.
  assert (0 <= c / 2 < c) by (split; [apply Z.div_pos | apply Z.div_lt]; lia).
  assert (0 <= (a * b + c / 2) / c) by (apply Z.div_pos; nia).
  assert ((a * b + c / 2) / c < 2 ^ 15) by (unfold MAX_INT in Hq; lia).
  rewrite (u32_id (a * b)) by nia. rewrite u32_id by nia.
  rewrite (s32_id ((a * b + c / 2) / c)) by lia.
  destruct (Z.ltb_spec ((a * b + c / 2) / c) MAX_INT); [|lia].
  rewrite u32_id, s32_id by lia. done.
Qed.

(** ** The coulomb counter *)

Definition adc_of (c r : Z) : Z := c * r * 3600 / 172 * 1000.

Lemma capacity_to_adc_eq c r :
  0 <= c -> 1 <= r <= 2 -> c * r * 3600 < 172 * 4294967 ->
  CAPACITY_TO_ADC c r = adc_of c r /\ 0 <= adc_of c r < 2 ^ 32.
Proof.
  intros Hc Hr Hb. unfold CAPACITY_TO_ADC, adc_of.
  rewrite (u32_id (c * r)) by nia. rewrite (u32_id (c * r * 3600)) by nia.
  rewrite Z.quot_div_nonneg by nia.
  assert (0 <= c * r * 3600 / 172 < 4294967).
  { split; [apply Z.div_pos; nia|]. apply Z.div_lt_upper_bound; lia. }
  rewrite u32_id by lia. lia.
Qed.

Lemma adc_to_capacity_eq c r :
  0 <= c -> 1 <= r <= 2 -> c * r * 3600 < 172 * 4294967 ->
  exists d, ADC_TO_CAPACITY (adc_of c r) r = Some d /\ c - 1 <= d <= c.
Proof.
  intros Hc Hr Hb. destruct (capacity_to_adc_eq c r Hc Hr Hb) as [_ Hadc].
  unfold ADC_TO_CAPACITY, adc_of in *.
  assert (0 <= c * r * 3600 / 172 < 4294967).
  { split; [apply Z.div_pos; nia|]. apply Z.div_lt_upper_bound; lia. }
  rewrite (Z.quot_div_nonneg _ 1000), Z.div_mul by lia.
  pose proof (Z.mul_div_le (c * r * 3600) 172 ltac:(lia)).
  pose proof (Z.mul_succ_div_gt (c * r * 3600) 172 ltac:(lia)).
  rewrite u32_id by lia. rewrite (Z.quot_div_nonneg _ 3600) by lia.
  rewrite cdiv_Some by lia. eexists. split; [done|].
  set (m := c * r * 3600 / 172 * 172) in *.
  rewrite Z.quot_div_nonneg by (try apply Z.div_pos; lia).
  assert (c * r - 1 <= m / 3600 <= c * r) by (Z.to_euclidean_division_equations; nia).
  destruct (Z.eq_dec r 1) as [->|]; [rewrite Z.div_1_r; lia|].
  assert (r = 2) as -> by lia. Z.to_euclidean_division_equations; nia.
Qed.
