(* ===== verification/Rk817Algo.v ===== *)
(** * The state of charge shown to the user

    Model of rk817_battery.c, lines 1570-1838 and 2318-3079: initialisation of
    the fuel gauge, the smooth, zero and finish algorithms that move the
    displayed state of charge [dsoc] (in thousandths of a percent) after the
    measured one [rsoc], and the periodic work.

    Line 2546 of the source carries a stray identifier after the statement; the
    statement is modelled, the identifier is not. *)

From S2P Require Import Prelude Rk817Regs Rk817Gauge.

Definition DEF_PWRPATH_RES : Z := 50.
Definition ZERO_LOAD_LVL1 : Z := 1400.
Definition ZERO_LOAD_LVL2 : Z := 600.
Definition MIN_ZERO_DSOC_ACCURACY : Z := 10.
Definition MIN_ZERO_OVERCNT : Z := 100.
Definition WAIT_DSOC_DROP_SEC : Z := 15.
Definition WAIT_SHTD_DROP_SEC : Z := 30.
Definition MIN_ZERO_GAP_XSOC1 : Z := 10.
Definition MIN_ZERO_GAP_XSOC2 : Z := 5.
Definition MIN_ZERO_GAP_XSOC3 : Z := 3.
Definition MIN_ZERO_GAP_CALIB : Z := 5.
Definition FINISH_CHRG_CUR1 : Z := 1000.
Definition FINISH_CHRG_CUR2 : Z := 1500.
Definition FINISH_MAX_SOC_DELAY : Z := 20.

(** Division of ints whose divisor is not zero. *)
Definition sdiv (a b : Z) : Z := s32 (Z.quot a b).

Section Algo.
Context `{Kernel}.
Implicit Types b : rk817_battery_device.

(** ** Preparing the algorithms *)

(** The slope for the direction of the current: 3/4 or 4/3 of the change of
    the measured capacity, so that [dsoc] and [rsoc] meet. *)
Definition sm_linek_of (current_avg dsoc rsoc delta diff : Z) : Z :=
  if current_avg >? 0 then
    if dsoc <? rsoc then sdiv (s32 (1000 * s32 (delta + diff))) (DIV diff)
    else if dsoc >? rsoc then sdiv (s32 (1000 * diff)) (DIV (s32 (delta + diff)))
    else 1000
  else
    if dsoc <? rsoc then sdiv (s32 (-1000 * diff)) (DIV (s32 (delta + diff)))
    else if dsoc >? rsoc then sdiv (s32 (-1000 * s32 (delta + diff))) (DIV diff)
    else -1000.

Definition rk817_bat_calc_sm_linek b : option rk817_battery_device :=
  current_avg ← rk817_bat_get_avg_current b;
  let delta := iabs (s32 (dsoc b - rsoc b)) in
  let diff := s32 (delta * 3) in
  let linek := sm_linek_of current_avg (dsoc b) (rsoc b) delta diff in
  let b := b <| dbg_meet_soc := if dsoc b >=? rsoc b then s32 (dsoc b - diff)
                                else s32 (rsoc b - diff) |> in
  Some (b <| sm_linek := linek |> <| sm_remain_cap := s32 (remain_cap b) |>
          <| dbg_calc_dsoc := dsoc b |> <| dbg_calc_rsoc := rsoc b |>).

Definition rk817_bat_smooth_algo_prepare b : option rk817_battery_device :=
  rk817_bat_calc_sm_linek (b <| smooth_soc := dsoc b |>).

Definition rk817_bat_finish_algo_prepare b : rk817_battery_device :=
  let b := b <| finish_base := get_boot_sec b |> in
  if truth (finish_base b) then b else b <| finish_base := 1 |>.

Definition rk817_bat_init_dsoc_algorithm b : option rk817_battery_device :=
  let b := if dsoc b >=? 100 * 1000 then b <| dsoc := 100 * 1000 |>
           else if dsoc b <=? 0 then b <| dsoc := 0 |> else b in
  v ← rk817_bat_get_battery_voltage b;
  let b := b <| voltage_avg := v |> in
  c ← rk817_bat_get_avg_current b;
  let b := b <| current_avg := c |> in
  if get_charge_status b =? CHARGE_FINISH then
    Some ((rk817_bat_finish_algo_prepare b) <| work_mode := MODE_FINISH |>)
  else
    b ← rk817_bat_smooth_algo_prepare b;
    Some (b <| work_mode := MODE_SMOOTH |>).

(** ** Initial state of charge *)

Definition rk817_bat_first_pwron b : option rk817_battery_device :=
  soc ← rk817_bat_vol_to_soc b (pwron_voltage b);
  let b := b <| rsoc := s32 (soc * 1000) |> in
  let b := b <| dsoc := rsoc b |> <| fcc := s32 (design_capacity (pdata b)) |> in
  cap ← rk817_bat_vol_to_cap b (pwron_voltage b);
  let b := b <| nac := cap |> in
  Some (rk817_bat_save_fcc (rk817_bat_update_qmax b (qmax b)) (fcc b)).

(** The three readings of the OCV of [rk817_bat_not_first_pwron]. *)
Definition ocv_reading b : option (Z * Z) :=
  ocv_vol ← rk817_bat_get_ocv_voltage b;
  ocv_soc ← rk817_bat_vol_to_soc b ocv_vol;
  ocv_cap ← rk817_bat_vol_to_cap b ocv_vol;
  Some (ocv_soc, ocv_cap).

(** The label [finish]. *)
Definition not_first_pwron_finish b (pre_soc pre_cap : Z) : rk817_battery_device :=
  let b := b <| dsoc := pre_soc |> <| nac := pre_cap |> in
  if nac b <? 0 then b <| nac := 0 |> else b.

Definition rk817_bat_not_first_pwron b : option rk817_battery_device :=
  let '(v, b) := rk817_bat_get_fcc b in
  let b := b <| fcc := v |> in
  let pre_soc := rk817_bat_get_prev_dsoc b in
  let pre_cap := rk817_bat_get_prev_cap b in
  now ← rk817_bat_get_capacity_mah b;
  let now_cap := s32 now in
  let b := b <| remain_cap := u32 (pre_cap * 1000) |> in
  '(h, b) ← is_rk817_bat_last_halt b;
  let b := b <| is_halt := h |> in
  let b := b <| halt_cnt := rk817_bat_get_halt_cnt b |> in
  let '(i, b) := is_rk817_bat_initialized b in
  let b := b <| is_initialized := i |> in
  let b := b <| is_ocv_calib := is_rk817_bat_ocv_valid b |> in
  if is_halt b then
    let now_cap := if now_cap <? 0 then 0 else now_cap in
    b ← rk817_bat_init_coulomb_cap b (u32 now_cap);
    Some (not_first_pwron_finish b (rsoc b) now_cap)
  else if is_initialized b then
    Some (not_first_pwron_finish b pre_soc pre_cap)
  else if is_ocv_calib b then
    '(ocv_soc, ocv_cap) ← ocv_reading b;
    let b := b <| ocv_pre_dsoc := pre_soc |> <| ocv_new_dsoc := ocv_soc |> in
    if u32 (iabs (s32 (ocv_soc - pre_soc))) >=? max_soc_offset (pdata b) then
      Some (not_first_pwron_finish (b <| is_max_soc_offset := true |>) ocv_soc ocv_cap)
    else Some (not_first_pwron_finish b pre_soc ocv_cap)
  else if pwroff_min b >? 0 then
    '(ocv_soc, ocv_cap) ← ocv_reading b;
    let b := b <| force_pre_dsoc := pre_soc |> <| force_new_dsoc := ocv_soc |> in
    if iabs (s32 (ocv_soc - pre_soc)) >=? 80 then
      Some (not_first_pwron_finish (b <| is_force_calib := true |>) ocv_soc ocv_cap)
    else Some (not_first_pwron_finish b pre_soc pre_cap)
  else Some (not_first_pwron_finish b pre_soc pre_cap).

Definition rk817_bat_rsoc_init b : option rk817_battery_device :=
  let '(first, b) := is_rk817_bat_first_pwron b in
  let b := b <| is_first_power_on := first |> in
  let b := b <| pwroff_min := u32 (rk817_bat_get_off_count b) |> in
  v ← rk817_bat_get_pwron_voltage b;
  let b := b <| pwron_voltage := v |> in
  b ← (if is_first_power_on b then rk817_bat_first_pwron b else rk817_bat_not_first_pwron b);
  let b := rk817_bat_save_dsoc b (dsoc b) in
  Some (if is_initialized b || is_ocv_calib b then
          if (Z.quot (rsoc b) 1000 =? 100) && (dsoc b <? 100 * 1000) then
            let b := b <| dsoc := 100 * 1000 |> in
            rk817_bat_save_dsoc b (dsoc b)
          else b
        else b).

(** The calibration timer only queues a work that returns at once. *)
Definition rk817_bat_init_fg b : option rk817_battery_device :=
  let b := rk817_bat_adc_init b in
  let b := rk817_bat_gas_gaugle_enable b in
  let b := rk817_bat_gg_con_init b in
  let b := rk817_bat_init_voltage_kb b in
  let b := rk817_bat_set_relax_sample b in
  let b := rk817_bat_ocv_thre b 0xff in
  b ← rk817_bat_rsoc_init b;
  b ← rk817_bat_init_coulomb_cap b (u32 (nac b));
  b ← rk817_bat_init_dsoc_algorithm b;
  '(q, b) ← rk817_bat_get_qmax b;
  let b := b <| qmax := q |> in
  v ← rk817_bat_get_battery_voltage b;
  let b := b <| voltage_avg := v |> in
  v ← rk817_bat_get_sys_voltage b;
  let b := b <| voltage_sys := v |> in
  v ← rk817_bat_get_ocv_voltage b;
  let b := b <| voltage_ocv := v |> in
  let b := b <| voltage_relax := rk817_bat_get_relax_voltage b |> in
  c ← rk817_bat_get_avg_current b;
  let b := b <| current_avg := c |> in
  Some (b <| dbg_pwr_dsoc := dsoc b |> <| dbg_pwr_rsoc := rsoc b |>
          <| dbg_pwr_vol := voltage_avg b |> <| temperature := VIRTUAL_TEMPERATURE |>).

(** ** Reporting *)

Definition rk817_bat_power_supply_changed b : rk817_battery_device :=
  let b := if dsoc b >? 100 * 1000 then b <| dsoc := 100 * 1000 |>
           else if dsoc b <? 0 then b <| dsoc := 0 |> else b in
  if (dsoc b =? changed_old_soc b) && negb (change b) then b
  else
    b <| change := false |> <| changed_old_soc := dsoc b |> <| last_dsoc := dsoc b |>
      <| reports ::= cons (dsoc b) |>.

(** The supplies are looked up until they are found; one that is missing or
    does not answer leaves its field as it was. *)
Definition rk817_bat_get_charge_state b : bool * rk817_battery_device :=
  let b := match usb_online (regs b) with Some v => b <| usb_in := u8 v |> | None => b end in
  let b := match ac_online (regs b) with Some v => b <| ac_in := u8 v |> | None => b end in
  (truth (usb_in b) || truth (ac_in b), b).

Definition rk817_bat_update_charging_status b : rk817_battery_device :=
  let '(c, b) := rk817_bat_get_charge_state b in
  if b2z c =? is_charging b then b
  else
    let b := b <| change := true |> <| is_charging := b2z c |> in
    if c then b <| charge_count ::= fun n => u64 (n + 1) |> else b.

(** The readings at the start of [rk817_bat_update_info]. *)
Definition update_readings b : option rk817_battery_device :=
  v ← rk817_bat_get_battery_voltage b;
  let b := b <| voltage_avg := v |> in
  v ← rk817_bat_get_sys_voltage b;
  let b := b <| voltage_sys := v |> in
  c ← rk817_bat_get_avg_current b;
  let b := b <| current_avg := c |> in
  let b := b <| voltage_relax := rk817_bat_get_relax_voltage b |> in
  r ← rk817_bat_get_rsoc b;
  let b := b <| rsoc := r |> in
  q ← rk817_bat_get_capacity_uah b;
  let b := b <| remain_cap := u32 q |> in
  '(v, b) ← rk817_bat_get_USB_voltage b;
  Some (b <| voltage_usb := v |>).

Definition rk817_bat_update_info b : option rk817_battery_device :=
  b ← update_readings b;
  let b := b <| chrg_status := get_charge_status b |> in
  let b := rk817_bat_update_charging_status b in
  b ← (if Z.quot (remain_cap b) 1000 >? u32 (fcc b) then
         let b := b <| sm_remain_cap := s32 (fcc b * 1000) |> in
         b ← rk817_bat_init_coulomb_cap b (u32 (fcc b + 100));
         rk817_bat_init_coulomb_cap b (u32 (fcc b))
       else Some b);
  Some (if negb (chrg_status b =? CHARGE_FINISH)
        then b <| finish_base := get_boot_sec b |> else b).

Definition rk817_bat_save_data b : rk817_battery_device :=
  let b := rk817_bat_save_dsoc b (dsoc b) in
  rk817_bat_save_cap b (s32 (Z.quot (remain_cap b) 1000)).

Definition rk817_bat_lowpwr_check b : rk817_battery_device :=
  let pwr_off_thresd := s32 (pwroff_vol (pdata b)) in
  if (current_avg b <? 0) && (voltage_avg b <? pwr_off_thresd) then
    let b := if truth (lowpwr_time b) then b else b <| lowpwr_time := get_boot_sec b |> in
    if (base2sec b (lowpwr_time b) >? MINUTE 1) ||
       (voltage_avg b <=? s32 (pwr_off_thresd - 50)) then
      if base2sec b (lowpwr_time b) >? MINUTE 1 then
        let b := b <| fake_offline := 1 |> in
        if voltage_avg b <=? s32 (pwr_off_thresd - 50)
        then b <| dsoc := s32 (dsoc b - 1000) |> else b
      else b
    else b
  else b <| lowpwr_time := 0 |> <| fake_offline := 0 |>.

(** ** The smooth algorithm *)

Definition rk817_bat_calc_smooth_dischrg b : rk817_battery_device :=
  let b := if smooth_soc b <? 0 then b <| smooth_soc := 0 |> else b in
  let tmp_soc := Z.quot (smooth_soc b) 1000 in
  if negb (tmp_soc =? Z.quot (dsoc b) 1000) then
    if smooth_soc b >? dsoc b then b
    else
      let b := if s32 (smooth_soc b + 1000) >? dsoc b then b <| dsoc := smooth_soc b |>
               else b <| dsoc := s32 (dsoc b - 1000) |> in
      if dsoc b <=? 0 then b <| dsoc := 0 |> else b
  else b.

(** The other branch: charging; [true] is the early return. *)
Definition smooth_chrg b : rk817_battery_device * bool :=
  let b := if smooth_soc b <? 0 then b <| smooth_soc := 0 |> else b in
  let tmp_soc := Z.quot (smooth_soc b) 1000 in
  if negb (tmp_soc =? Z.quot (dsoc b) 1000) then
    if smooth_soc b <? dsoc b then (b, true)
    else
      let b := b <| dsoc := smooth_soc b |> in
      (if dsoc b <=? 0 then b <| dsoc := 0 |> else b, false)
  else (b, false).

Definition rk817_bat_smooth_algorithm b : option rk817_battery_device :=
  b ← (if s32 (sm_linek b * current_avg b) <=? 0
       then rk817_bat_calc_sm_linek b else Some b);
  q ← rk817_bat_get_capacity_uah b;
  let b := b <| remain_cap := u32 q |> in
  let delta_cap := s32 (remain_cap b - sm_remain_cap b) in
  if delta_cap =? 0 then Some b
  else
    let ydsoc := sdiv (s32 (sm_linek b * iabs (Z.quot delta_cap 10))) (DIV (fcc b)) in
    if ydsoc =? 0 then Some b
    else
      let b := b <| sm_remain_cap := s32 (remain_cap b) |> in
      let b := b <| smooth_soc := s32 (smooth_soc b + ydsoc) |> in
      let '(b, return_early) :=
        if ydsoc <? 0 then (rk817_bat_calc_smooth_dischrg b, false) else smooth_chrg b in
      if return_early then Some b
      else if s2r b then rk817_bat_calc_sm_linek (b <| s2r := false |>)
      else Some b.

(** ** The zero algorithm: close to the shutdown voltage *)

(** The corrections of [zero_linek], in the order of the source. *)
Definition zero_linek_adjust b (xsoc min_gap_xsoc linek : Z) : Z :=
  let soc := Z.quot (dsoc b) 1000 in
  let gap := s32 (xsoc - soc) in
  if truth (energy_mode (pdata b)) && (gap >=? MIN_ZERO_GAP_XSOC3) && (soc <=? 10) && (linek <? 300)
  then 300
  else if (gap >=? min_gap_xsoc) || ((gap >=? MIN_ZERO_GAP_XSOC2) && (soc <=? 10) && (xsoc >? 15))
  then
    if (xsoc <=? 20) && (u32 soc >=? zero_reserve_dsoc (pdata b)) then 1200
    else if gap >=? 2 * min_gap_xsoc then 400
    else if gap >=? 3 + min_gap_xsoc then 600
    else 800
  else if (linek >? 1800) && (soc >? 70) then 1800
  else if (linek >? 1000) && (linek <? 1200) then 1200
  else if ((soc <=? 15) && (dsoc b >? 5)) && (linek <=? 1200) then
    if gap >=? min_gap_xsoc then 800 else 1200
  else if (linek <? 1000) && (soc >=? 5) then
    if gap <? min_gap_xsoc then 1200
    else if iabs (current_avg b) >? 500 then 900 else 1000
  else if (linek <? 1000) && (soc <=? 5) then
    if gap <=? 3 then 1200 else 800
  else linek.

(** The three ways to set [zero_linek]. *)
Definition zero_set_linek b (xsoc min_gap_xsoc : Z) : rk817_battery_device :=
  let b := b <| zero_remain_cap := s32 (remain_cap b) |> <| zero_timeout_cnt := 0 |> in
  if (Z.quot (dsoc b) 1000 <=? 1) && (xsoc >? 0) then
    b <| zero_linek := 400 |> <| zero_drop_sec := 0 |>
  else if xsoc >=? 0 then
    let b := b <| zero_drop_sec := 0 |> in
    b <| zero_linek := zero_linek_adjust b xsoc min_gap_xsoc
                         (sdiv (s32 (zero_dsoc b + Z.quot xsoc 2)) (DIV xsoc)) |>
  else
    let b := b <| zero_linek := 1000 |> in
    let b := if truth (zero_drop_sec b) then b else b <| zero_drop_sec := get_boot_sec b |> in
    if base2sec b (zero_drop_sec b) >=? WAIT_DSOC_DROP_SEC then
      let b := b <| zero_drop_sec := 0 |> <| dsoc := s32 (dsoc b - 1000) |> in
      let b := if dsoc b <? 0 then b <| dsoc := 0 |> else b in
      b <| zero_dsoc := dsoc b |>
    else b.

(** The shutdown at an extremely low voltage. *)
Definition zero_shutdown b (voltage_avg pwroff_vol : Z) : rk817_battery_device :=
  if voltage_avg <? s32 (pwroff_vol - 70) then
    let b := if truth (shtd_drop_sec b) then b else b <| shtd_drop_sec := get_boot_sec b |> in
    if base2sec b (shtd_drop_sec b) >? WAIT_SHTD_DROP_SEC
    then b <| shtd_drop_sec := 0 |> <| dsoc := 0 |> else b
  else b <| shtd_drop_sec := 0 |>.

Definition zero_min_gap b (current_avg xsoc : Z) : Z :=
  let g := if iabs current_avg >? ZERO_LOAD_LVL1 then MIN_ZERO_GAP_XSOC3
           else if iabs current_avg >? ZERO_LOAD_LVL2 then MIN_ZERO_GAP_XSOC2
           else MIN_ZERO_GAP_XSOC1 in
  if (xsoc <=? 30) && (u32 (dsoc b) >=? zero_reserve_dsoc (pdata b))
  then g + MIN_ZERO_GAP_CALIB else g.

Definition zero_pwroff_vol b : Z :=
  if (iabs (current_avg b) <? 400) && (Z.quot (dsoc b) 1000 >? 5)
  then s32 (pwroff_vol (pdata b) + 50) else s32 (pwroff_vol (pdata b)).

(** The estimates of [rk817_bat_calc_zero_linek]: what is left of the capacity
    above the one at which the system shuts down.  The resistance
    [powerpatch_res] is only printed. *)
Definition zero_measured b (voltage_avg current_avg vsys : Z) : rk817_battery_device :=
  b <| zero_voltage_avg := voltage_avg |> <| zero_current_avg := current_avg |>
    <| zero_vsys := vsys |>.

Definition zero_estimated b (dead_voltage dead_soc dead_cap ocv_voltage ocv_soc ocv_cap xsoc : Z)
    : rk817_battery_device :=
  b <| zero_dead_voltage := dead_voltage |> <| zero_dead_soc := dead_soc |>
    <| zero_dead_cap := dead_cap |> <| zero_batvol_to_ocv := ocv_voltage |>
    <| zero_batocv_to_soc := ocv_soc |> <| zero_batocv_to_cap := ocv_cap |>
    <| zero_xsoc := xsoc |>.

Definition zero_dead_voltage_of b (pwroff_vol current_avg : Z) : Z :=
  s32 (pwroff_vol - Z.quot (s32 (current_avg * s32 (bat_res b + DEF_PWRPATH_RES))) 1000).

Definition zero_ocv_voltage_of b (voltage_avg current_avg : Z) : Z :=
  s32 (voltage_avg - Z.quot (s32 (current_avg * bat_res b)) 1000).

Definition zero_estimate b (pwroff_vol voltage_avg current_avg : Z)
    : option (Z * rk817_battery_device) :=
  let vsys := s32 (voltage_avg + Z.quot (s32 (current_avg * DEF_PWRPATH_RES)) 1000) in
  powerpatch_res ← cdiv (s32 (s32 (voltage_avg - vsys) * 1000)) current_avg;
  let b := zero_measured b voltage_avg current_avg vsys in
  let dead_voltage := zero_dead_voltage_of b pwroff_vol current_avg in
  let ocv_voltage := zero_ocv_voltage_of b voltage_avg current_avg in
  dead_soc ← rk817_bat_vol_to_soc b dead_voltage;
  dead_cap ← rk817_bat_vol_to_cap b dead_voltage;
  ocv_soc ← rk817_bat_vol_to_soc b ocv_voltage;
  ocv_cap ← rk817_bat_vol_to_cap b ocv_voltage;
  let xsoc := s32 (ocv_soc - dead_soc) in
  Some (xsoc, zero_estimated b dead_voltage dead_soc dead_cap ocv_voltage ocv_soc ocv_cap xsoc).

Definition rk817_bat_calc_zero_linek b : option rk817_battery_device :=
  let pwroff_vol := zero_pwroff_vol b in
  voltage_avg ← rk817_bat_get_battery_voltage b;
  current_avg ← rk817_bat_get_avg_current b;
  '(xsoc, b) ← zero_estimate b pwroff_vol voltage_avg current_avg;
  let b := zero_set_linek b xsoc (zero_min_gap b current_avg xsoc) in
  Some (zero_shutdown b voltage_avg pwroff_vol).

Definition rk817_bat_zero_algo_prepare b : option rk817_battery_device :=
  let tmp_dsoc := Z.quot (zero_dsoc b) 1000 in
  let b := if negb (tmp_dsoc =? Z.quot (smooth_soc b) 1000)
           then b <| zero_dsoc := smooth_soc b |> else b in
  rk817_bat_calc_zero_linek b.

Definition rk817_bat_calc_zero_algorithm b : rk817_battery_device :=
  let tmp_soc := Z.quot (zero_dsoc b) 1000 in
  if tmp_soc =? Z.quot (dsoc b) 1000 then b
  else if zero_dsoc b >? dsoc b then b
  else if zero_dsoc b <? s32 (dsoc b - 1000) then b <| dsoc := s32 (dsoc b - 1000) |>
  else b <| dsoc := zero_dsoc b |>.

Definition rk817_bat_zero_algorithm b : option rk817_battery_device :=
  let b := b <| zero_timeout_cnt ::= fun n => s32 (n + 1) |> in
  let delta_cap := s32 (zero_remain_cap b - remain_cap b) in
  let delta_soc := Z.quot (sdiv (s32 (zero_linek b * delta_cap)) (DIV (fcc b))) 10 in
  b ← (if (delta_soc >=? MIN_ZERO_DSOC_ACCURACY) ||
          (zero_timeout_cnt b >? MIN_ZERO_OVERCNT) || (zero_linek b =? 0) then
         let b := b <| zero_timeout_cnt := 0 |>
                    <| zero_dsoc := s32 (zero_dsoc b - delta_soc) |> in
         rk817_bat_calc_zero_linek (rk817_bat_calc_zero_algorithm b)
       else Some b);
  if (Z.quot (rsoc b) 1000 <? 1) && (zero_batocv_to_cap b >? Z.quot (fcc b) 100) then
    b ← rk817_bat_init_coulomb_cap b (u32 (zero_batocv_to_cap b));
    rk817_bat_calc_zero_linek b
  else Some b.

(** ** The finish algorithm: the charger is done, [dsoc] rises to 100% *)

Definition finish_dsoc b : option rk817_battery_device :=
  let b := if truth (finish_base b) then b else b <| finish_base := get_boot_sec b |> in
  let finish_current := if s32 (rsoc b - dsoc b) >? FINISH_MAX_SOC_DELAY
                        then FINISH_CHRG_CUR2 else FINISH_CHRG_CUR1 in
  let finish_sec := base2sec b (finish_base b) in
  let soc_sec := u64 (Z.quot (Z.quot (s32 (fcc b * 3600)) 100) (DIV finish_current)) in
  let plus_soc := s32 (Z.quot finish_sec (DIV soc_sec)) in
  b ← (if finish_sec >? soc_sec then
         rest ← cmod finish_sec soc_sec;
         let rest := s32 rest in
         let b := b <| dsoc := s32 (dsoc b + s32 (plus_soc * 1000)) |>
                    <| finish_base := get_boot_sec b |> in
         Some (if finish_base b >? u64 rest
               then b <| finish_base := u64 (get_boot_sec b - rest) |> else b)
       else Some b);
  Some (if (Z.quot (rsoc b) 1000 =? 100) && (dsoc b <? 100 * 1000) then
          let b := b <| dsoc := 100 * 1000 |> in
          rk817_bat_save_dsoc b (dsoc b)
        else b).

Definition rk817_bat_finish_algorithm b : option rk817_battery_device :=
  b ← (if negb (remain_cap b =? u32 (fcc b)) && (get_charge_status b =? CHARGE_FINISH) then
         let b := b <| age_adjust_cap := s32 (age_adjust_cap b + s32 (fcc b * 1000) - remain_cap b) |> in
         rk817_bat_init_coulomb_cap b (u32 (fcc b))
       else Some b);
  if dsoc b <? 100 * 1000 then finish_dsoc b else Some b.

(** ** The modes *)

Definition below_zero_vol b : bool :=
  (current_avg b <? 0) && (u32 (voltage_avg b) <? zero_algorithm_vol (pdata b)).

Definition charge_finished b : bool :=
  (get_charge_status b =? CHARGE_FINISH) || rk817_bat_fake_finish_mode b.

Definition enter_zero b : option rk817_battery_device :=
  b ← rk817_bat_zero_algo_prepare b; Some (b <| work_mode := MODE_ZERO |>).
Definition enter_smooth b : option rk817_battery_device :=
  b ← rk817_bat_smooth_algo_prepare b; Some (b <| work_mode := MODE_SMOOTH |>).
Definition enter_finish b : rk817_battery_device :=
  (rk817_bat_finish_algo_prepare b) <| work_mode := MODE_FINISH |>.

Definition rk817_bat_display_smooth b : option rk817_battery_device :=
  if s2r b && negb (sleep_chrg_online b) then
    b ← rk817_bat_zero_algo_prepare (b <| s2r := false |>);
    rk817_bat_smooth_algo_prepare b
  else
    match work_mode b with
    | MODE_FINISH =>
        b ← rk817_bat_finish_algorithm b;
        if negb (get_charge_status b =? CHARGE_FINISH) && negb (rk817_bat_fake_finish_mode b) then
          if below_zero_vol b then enter_zero b else enter_smooth b
        else Some b
    | MODE_ZERO =>
        b ← rk817_bat_zero_algorithm b;
        if (u32 (voltage_avg b) >=? u32 (zero_algorithm_vol (pdata b) + 50)) ||
           (current_avg b >=? 0) then enter_smooth b
        else if charge_finished b then Some (enter_finish b)
        else Some b
    | _ =>
        b ← rk817_bat_smooth_algorithm b;
        if below_zero_vol b then enter_zero b
        else if charge_finished b then Some (enter_finish b)
        else Some b
    end.

(** The periodic work; the delay after which it runs again is [monitor_ms]. *)
Definition rk817_battery_work b : option rk817_battery_device :=
  b ← rk817_bat_update_info b;
  let b := rk817_bat_lowpwr_check b in
  b ← rk817_bat_display_smooth b;
  let b := rk817_bat_power_supply_changed b in
  let b := rk817_bat_save_data b in
  Some (if truth (rk817_bat_field_read b CUR_CALIB_UPD) then
          let b := rk817_bat_current_calibration b in
          let b := rk817_bat_init_voltage_kb b in
          rk817_bat_field_write b CUR_CALIB_UPD 0x01
        else b).

End Algo.
