(* ===== verification/Rk817Driver.v ===== *)
(** * The RK817 battery driver

    Model of rk817_battery.c, lines 1840-2291, 2351-2371 and 3081-3609: the
    device tree, the properties reported to the kernel, the interrupts,
    probe, suspend and resume.

    Allocation and registration with the kernel succeed; wake locks and work
    queues are left out: the works are the operations of this model. *)

From Stdlib Require Export Strings.String.
From S2P Require Import Prelude Rk817Regs Rk817Gauge Rk817Algo.

Definition MODE_BATTARY : Z := 0.
Definition MODE_VIRTUAL : Z := 1.
Definition VIRTUAL_CURRENT : Z := 1000.
Definition VIRTUAL_VOLTAGE : Z := 3888.
Definition VIRTUAL_SOC : Z := 66.
Definition DEFAULT_BAT_RES : Z := 135.
Definition DEFAULT_SLP_ENTER_CUR : Z := 300.
Definition DEFAULT_SLP_EXIT_CUR : Z := 300.
Definition DEFAULT_SLP_FILTER_CUR : Z := 100.
Definition DEFAULT_PWROFF_VOL_THRESD : Z := 3400.
Definition DEFAULT_MONITOR_SEC : Z := 5.
Definition DEFAULT_MAX_SOC_OFFSET : Z := 60.
Definition DEFAULT_ENERGY_MODE : Z := 0.
Definition DEFAULT_ZERO_RESERVE_DSOC : Z := 10.
Definition DEFAULT_SAMPLE_RES : Z := 20.
Definition SLP_CURR_MAX : Z := 40.
Definition SLP_CURR_MIN : Z := 6.
Definition LOW_PWR_SLP_CURR_MAX : Z := 20.
Definition LOW_PWR_SLP_CURR_MIN : Z := 1.
Definition DISCHRG_TIME_STEP1 : Z := MINUTE 10.
Definition DISCHRG_TIME_STEP2 : Z := MINUTE 60.
Definition EINVAL : Z := 22.

(** The properties of the device, a device-tree node: arrays of u32 and the
    first cell of a property, when it is there. *)
Record device_node := {
  of_u32_array : string -> option (list Z);
  of_u32 : string -> option Z;
}.

(** enum power_supply_property, as far as the drivers name it, and the values
    of the enumerated properties. *)
Inductive power_supply_property :=
  | POWER_SUPPLY_PROP_STATUS | POWER_SUPPLY_PROP_CURRENT_NOW | POWER_SUPPLY_PROP_VOLTAGE_NOW
  | POWER_SUPPLY_PROP_HEALTH | POWER_SUPPLY_PROP_CAPACITY | POWER_SUPPLY_PROP_CAPACITY_LEVEL
  | POWER_SUPPLY_PROP_TEMP | POWER_SUPPLY_PROP_CHARGE_COUNTER | POWER_SUPPLY_PROP_CHARGE_FULL
  | POWER_SUPPLY_PROP_CHARGE_FULL_DESIGN | POWER_SUPPLY_PROP_TIME_TO_FULL_NOW
  | POWER_SUPPLY_PROP_VOLTAGE_MAX | POWER_SUPPLY_PROP_CURRENT_MAX | POWER_SUPPLY_PROP_ONLINE
  | POWER_SUPPLY_PROP_OTHER.

Inductive power_supply_status :=
  | POWER_SUPPLY_STATUS_UNKNOWN | POWER_SUPPLY_STATUS_CHARGING | POWER_SUPPLY_STATUS_DISCHARGING
  | POWER_SUPPLY_STATUS_NOT_CHARGING | POWER_SUPPLY_STATUS_FULL.

Inductive power_supply_level :=
  | POWER_SUPPLY_CAPACITY_LEVEL_CRITICAL | POWER_SUPPLY_CAPACITY_LEVEL_LOW
  | POWER_SUPPLY_CAPACITY_LEVEL_NORMAL | POWER_SUPPLY_CAPACITY_LEVEL_HIGH
  | POWER_SUPPLY_CAPACITY_LEVEL_FULL.

Inductive propval :=
  | intval (z : Z)
  | status_val (s : power_supply_status)
  | level_val (l : power_supply_level)
  | HEALTH_GOOD.

Section Driver.
Context `{Kernel}.
Implicit Types b : rk817_battery_device.

(** ** The device tree *)

(** [of_property_read_u32(np, name, &field)]: a missing property leaves the
    field as it was. *)
Definition dt_u32 (np : device_node) (name : string) (old : Z) : Z :=
  default old (of_u32 np name).

Local Open Scope string_scope.
Local Open Scope Z_scope.

Definition default_pdata : battery_platform_data := {|
  ocv_table := []; ocv_size := 0;
  bat_mode := MODE_BATTARY;
  pwroff_vol := DEFAULT_PWROFF_VOL_THRESD;
  monitor_sec := DEFAULT_MONITOR_SEC;
  zero_algorithm_vol := 0;
  zero_reserve_dsoc := DEFAULT_ZERO_RESERVE_DSOC * 1000;
  pd_bat_res := DEFAULT_BAT_RES;
  design_capacity := 0; design_qmax := 0;
  sleep_enter_current := DEFAULT_SLP_ENTER_CUR;
  sleep_exit_current := DEFAULT_SLP_EXIT_CUR;
  sleep_filter_current := DEFAULT_SLP_FILTER_CUR;
  max_soc_offset := DEFAULT_MAX_SOC_OFFSET;
  energy_mode := DEFAULT_ENERGY_MODE;
  sample_res := DEFAULT_SAMPLE_RES;
  bat_res_up := 0; bat_res_down := 0; design_max_voltage := 0; low_pwr_sleep := 0;
|}.

Definition rk817_bat_parse_dt b (np : device_node) : Z + rk817_battery_device :=
  let p := default_pdata in
  match of_u32_array np "ocv_table" with
  | None => inl (- EINVAL)
  | Some table =>
    if zlen table <=? 0 then inl (- EINVAL) else
    match of_u32 np "design_capacity" with
    | None => inl (- EINVAL)
    | Some cap =>
      match of_u32 np "design_qmax" with
      | None => inl (- EINVAL)
      | Some qmax =>
        let rk809 name old := if chip_id b =? RK809_ID then dt_u32 np name old else old in
        let p' := {|
          ocv_table := table; ocv_size := zlen table;
          design_capacity := cap; design_qmax := qmax;
          sample_res := dt_u32 np "sample_res" (sample_res p);
          energy_mode := dt_u32 np "energy_mode" (energy_mode p);
          max_soc_offset := dt_u32 np "max_soc_offset" (max_soc_offset p);
          monitor_sec := dt_u32 np "monitor_sec" (monitor_sec p);
          zero_algorithm_vol := dt_u32 np "zero_algorithm_vol" (zero_algorithm_vol p);
          zero_reserve_dsoc := u32 (dt_u32 np "zero_reserve_dsoc" (zero_reserve_dsoc p) * 1000);
          bat_mode := if rk817_is_bat_exist b then dt_u32 np "virtual_power" (bat_mode p)
                      else MODE_VIRTUAL;
          pd_bat_res := dt_u32 np "bat_res" (pd_bat_res p);
          sleep_enter_current := dt_u32 np "sleep_enter_current" (sleep_enter_current p);
          sleep_exit_current := dt_u32 np "sleep_exit_current" (sleep_exit_current p);
          sleep_filter_current := dt_u32 np "sleep_filter_current" (sleep_filter_current p);
          pwroff_vol := dt_u32 np "power_off_thresd" (pwroff_vol p);
          low_pwr_sleep := dt_u32 np "low_power_sleep" (low_pwr_sleep p);
          bat_res_up := rk809 "bat_res_up" (bat_res_up p);
          bat_res_down := rk809 "bat_res_down" (bat_res_down p);
          design_max_voltage := rk809 "design_max_voltage" (design_max_voltage p);
        |} in
        inr (b <| pdata := p' |>
               <| is_register_chg_psy ::= fun old =>
                    truth (rk809 "register_chg_psy" (b2z old)) |>)
      end
    end
  end.

(** ** Properties *)

Definition rk817_get_capacity_leve b : power_supply_level :=
  if bat_mode (pdata b) =? MODE_VIRTUAL then POWER_SUPPLY_CAPACITY_LEVEL_NORMAL
  else
    let dsoc := Z.quot (s32 (dsoc b + 500)) 1000 in
    if dsoc <? 1 then POWER_SUPPLY_CAPACITY_LEVEL_CRITICAL
    else if dsoc <=? 20 then POWER_SUPPLY_CAPACITY_LEVEL_LOW
    else if dsoc <=? 70 then POWER_SUPPLY_CAPACITY_LEVEL_NORMAL
    else if dsoc <=? 90 then POWER_SUPPLY_CAPACITY_LEVEL_HIGH
    else POWER_SUPPLY_CAPACITY_LEVEL_FULL.

Definition rk817_battery_time_to_full b : Z :=
  if bat_mode (pdata b) =? MODE_VIRTUAL then 3600
  else if voltage_avg b >? 0 then
    let cap_temp := s32 (design_cap b - Z.quot (remain_cap b) 1000) in
    let cap_temp := if cap_temp <? 0 then 0 else cap_temp in
    Z.quot (s32 (3600 * cap_temp)) (voltage_avg b)
  else 3600 * 24.

Definition rk817_battery_get_property b (psp : power_supply_property)
    : (Z + propval) * rk817_battery_device :=
  let virtual v x := intval (if bat_mode (pdata b) =? MODE_VIRTUAL then v else x) in
  match psp with
  | POWER_SUPPLY_PROP_CURRENT_NOW =>
      (inr (virtual (VIRTUAL_CURRENT * 1000) (s32 (current_avg b * 1000))), b)
  | POWER_SUPPLY_PROP_VOLTAGE_NOW =>
      (inr (virtual (VIRTUAL_VOLTAGE * 1000) (s32 (voltage_avg b * 1000))), b)
  | POWER_SUPPLY_PROP_CAPACITY =>
      (inr (virtual VIRTUAL_SOC (Z.quot (s32 (dsoc b + 500)) 1000)), b)
  | POWER_SUPPLY_PROP_CAPACITY_LEVEL => (inr (level_val (rk817_get_capacity_leve b)), b)
  | POWER_SUPPLY_PROP_HEALTH => (inr HEALTH_GOOD, b)
  | POWER_SUPPLY_PROP_TEMP => (inr (virtual VIRTUAL_TEMPERATURE (temperature b)), b)
  | POWER_SUPPLY_PROP_STATUS =>
      if bat_mode (pdata b) =? MODE_VIRTUAL then (inr (status_val POWER_SUPPLY_STATUS_CHARGING), b)
      else if dsoc b =? 100 * 1000 then (inr (status_val POWER_SUPPLY_STATUS_FULL), b)
      else
        let '(c, b) := if negb (chip_id b =? RK809_ID) then rk817_bat_get_charge_state b
                       else (false, b) in
        if c then (inr (status_val POWER_SUPPLY_STATUS_CHARGING), b)
        else if (chip_id b =? RK809_ID) && truth (plugin_trigger b)
        then (inr (status_val POWER_SUPPLY_STATUS_CHARGING), b)
        else (inr (status_val POWER_SUPPLY_STATUS_DISCHARGING), b)
  | POWER_SUPPLY_PROP_CHARGE_COUNTER => (inr (intval (s32 (charge_count b))), b)
  | POWER_SUPPLY_PROP_CHARGE_FULL | POWER_SUPPLY_PROP_CHARGE_FULL_DESIGN =>
      (inr (intval (s32 (design_capacity (pdata b) * 1000))), b)
  | POWER_SUPPLY_PROP_TIME_TO_FULL_NOW => (inr (intval (rk817_battery_time_to_full b)), b)
  | POWER_SUPPLY_PROP_VOLTAGE_MAX => (inr (intval (4500 * 1000)), b)
  | POWER_SUPPLY_PROP_CURRENT_MAX => (inr (intval (5000 * 1000)), b)
  | _ => (inl (- EINVAL), b)
  end.

Definition rk809_chg_get_property b (psp : power_supply_property) : Z + propval :=
  let online := if truth (plugin_trigger b) then 1 else 0 in
  match psp with
  | POWER_SUPPLY_PROP_ONLINE => inr (intval online)
  | POWER_SUPPLY_PROP_STATUS =>
      inr (status_val (if truth online then POWER_SUPPLY_STATUS_CHARGING
                       else POWER_SUPPLY_STATUS_DISCHARGING))
  | _ => inl (- EINVAL)
  end.

(** ** Interrupts *)

(** Both tell the kernel that the supply changed; what it reads then is the
    displayed state of charge.  (They tell it about the charger as well.) *)
Definition rk809_plug_in_isr b : rk817_battery_device :=
  b <| plugin_trigger := 1 |> <| plugout_trigger := 0 |> <| reports ::= cons (dsoc b) |>.

Definition rk809_plug_out_isr b : rk817_battery_device :=
  b <| plugin_trigger := 0 |> <| plugout_trigger := 1 |> <| reports ::= cons (dsoc b) |>.

Definition rk809_charge_init_irqs b : rk817_battery_device :=
  let b := b <| plugin_trigger := 0 |> <| plugout_trigger := 0 |> in
  if truth (rk817_bat_field_read b PLUG_IN_STS)
  then b <| plugin_trigger := 1 |> <| plugout_trigger := 0 |> else b.

(** ** Probe *)

Definition rk817_battery_debug_info b : option rk817_battery_device :=
  _ ← rk817_bat_get_battery_voltage b;
  _ ← rk817_bat_get_sys_voltage b;
  '(_, b) ← rk817_bat_get_USB_voltage b;
  _ ← rk817_bat_get_pwron_voltage b;
  _ ← rk817_bat_get_ocv_voltage b;
  _ ← rk817_bat_get_ocv0_voltage0 b;
  let b := rk817_bat_current_calibration b in
  _ ← rk817_bat_get_avg_current b;
  _ ← rk817_bat_get_relax_current b;
  Some (rk817_bat_save_dsoc b (dsoc b)).

(** [devm_kzalloc], the [static] locals and the link to the registers. *)
Definition battery_kzalloc (h : hw) (variant : Z) : rk817_battery_device := {|
  regs := h; pdata := default_pdata; chip_id := variant;
  res_div := 0; bat_res := 0; is_first_power_on := false; chrg_status := 0;
  is_initialized := false; ac_in := 0; usb_in := 0; current_avg := 0; voltage_usb := 0;
  voltage_sys := 0; voltage_avg := 0; voltage_ocv := 0; voltage_relax := 0; voltage_k := 0;
  voltage_b := 0; remain_cap := 0; design_cap := 0; nac := 0; fcc := 0; qmax := 0; dsoc := 0;
  rsoc := 0; fake_offline := 0; age_ocv_soc := 0; age_allow_update := false; age_level := 0;
  age_ocv_cap := 0; pwron_voltage := 0; age_voltage := 0; age_adjust_cap := 0; age_keep_sec := 0;
  zero_timeout_cnt := 0; zero_remain_cap := 0; zero_dsoc := 0; zero_linek := 0;
  zero_drop_sec := 0; shtd_drop_sec := 0; zero_voltage_avg := 0; zero_current_avg := 0;
  zero_vsys := 0; zero_dead_voltage := 0; zero_dead_soc := 0; zero_dead_cap := 0;
  zero_batvol_to_ocv := 0; zero_batocv_to_soc := 0; zero_batocv_to_cap := 0; zero_xsoc := 0;
  finish_base := 0; rtc_base := 0; sm_remain_cap := 0; sm_linek := 0; smooth_soc := 0;
  sleep_sum_cap := 0; sleep_dischrg_sec := 0; sleep_sum_sec := 0; sleep_chrg_online := false;
  sleep_chrg_status := 0; s2r := false; work_mode := MODE_ZERO; temperature := 0;
  monitor_ms := 0; pwroff_min := 0; halt_cnt := 0; is_halt := false; is_max_soc_offset := false;
  is_ocv_calib := false; is_force_calib := false; last_dsoc := 0; ocv_pre_dsoc := 0;
  ocv_new_dsoc := 0; force_pre_dsoc := 0; force_new_dsoc := 0; dbg_pwr_dsoc := 0;
  dbg_pwr_rsoc := 0; dbg_pwr_vol := 0; dbg_meet_soc := 0; dbg_calc_dsoc := 0; dbg_calc_rsoc := 0;
  is_charging := 0; charge_count := 0; plugin_trigger := 0; plugout_trigger := 0;
  is_register_chg_psy := false; change := false; save_cap_old_cap := 0;
  save_dsoc_last_soc := -1; changed_old_soc := -1; lowpwr_time := 0; reports := [];
|}.

(** [inl] is a failed device tree; the device then stays unbound. *)
Definition rk817_battery_probe (np : device_node) (h : hw) (variant : Z)
    : option (Z + rk817_battery_device) :=
  match rk817_bat_parse_dt (battery_kzalloc h variant) np with
  | inl ret => Some (inl ret)
  | inr b =>
      b ← rk817_bat_init_fg (rk817_bat_init_info b);
      b ← rk817_battery_debug_info b;
      b ← rk817_bat_update_info b;
      Some (inr (if chip_id b =? RK809_ID then rk809_charge_init_irqs b else b))
  end.

(** ** Suspend and resume *)

Definition rk817_get_rtc_sec b : Z := default 0 (rtc_time (regs b)).

Definition rk817_bat_pm_suspend b : option rk817_battery_device :=
  let b := b <| s2r := false |> in
  let b := b <| sleep_chrg_status := u8 (get_charge_status b) |> in
  c ← rk817_bat_get_avg_current b;
  let b := b <| current_avg := c |> in
  let b := b <| sleep_chrg_online :=
                  (current_avg b >? 0) || (sleep_chrg_status b =? CC_OR_CV_CHRG) ||
                  (sleep_chrg_status b =? CHARGE_FINISH) |> in
  q ← rk817_bat_get_capacity_uah b;
  let b := b <| remain_cap := u32 q |> in
  r ← rk817_bat_get_rsoc b;
  let b := b <| rsoc := r |> in
  let b := b <| rtc_base := rk817_get_rtc_sec b |> in
  let b := rk817_bat_save_data b in
  let b := if negb (sleep_chrg_status b =? CHARGE_FINISH)
           then b <| finish_base := get_boot_sec b |> else b in
  match work_mode b with
  | MODE_ZERO =>
      if current_avg b >=? 0 then
        if sleep_chrg_status b =? CHARGE_FINISH then
          Some (b <| work_mode := MODE_FINISH |> <| finish_base := get_boot_sec b |>)
        else rk817_bat_smooth_algo_prepare (b <| work_mode := MODE_SMOOTH |>)
      else Some b
  | _ => Some b
  end.

Definition rk817_bat_rtc_sleep_sec b : Z :=
  let interval_sec := s32 (rk817_get_rtc_sec b - rtc_base b) in
  if interval_sec >? 0 then interval_sec else 0.

Definition rk817_bat_relife_age_flag b : option rk817_battery_device :=
  if voltage_relax b <=? 0 then Some b
  else
    soc ← rk817_bat_vol_to_soc b (voltage_relax b);
    cap ← rk817_bat_vol_to_cap b (voltage_relax b);
    let ocv_soc := u8 soc in
    let ocv_cap := u8 cap in
    Some (if negb (age_allow_update b) && (ocv_soc <=? 10) then
            let b := b <| age_voltage := voltage_relax b |> <| age_ocv_cap := ocv_cap |>
                       <| age_ocv_soc := ocv_soc |> <| age_adjust_cap := 0 |> in
            let b := b <| age_level := if ocv_soc <=? 1 then 100
                                       else if ocv_soc <? 5 then 90 else 80 |> in
            let soc_level := 0 in
            if soc_level >? age_level b then b <| age_allow_update := false |>
            else b <| age_allow_update := true |> <| age_keep_sec := get_boot_sec b |>
          else b).

Definition rk817_bat_init_capacity b (cap : Z) : option rk817_battery_device :=
  let delta_cap := s32 (cap - remain_cap b) in
  if delta_cap =? 0 then Some b
  else
    let b := b <| age_adjust_cap := s32 (age_adjust_cap b + delta_cap) |> in
    b ← rk817_bat_init_coulomb_cap b cap;
    b ← rk817_bat_smooth_algo_prepare b;
    rk817_bat_zero_algo_prepare b.

Definition rk817_bat_relax_vol_calib b : option rk817_battery_device :=
  soc ← rk817_bat_vol_to_soc b (voltage_relax b);
  cap ← rk817_bat_vol_to_cap b (voltage_relax b);
  rk817_bat_init_capacity b (u32 cap).

(** The calibration at the start of [rk817_bat_sleep_dischrg]. *)
Definition sleep_calib b : option (bool * rk817_battery_device) :=
  if voltage_relax b >=? voltage_avg b then
    b ← rk817_bat_relax_vol_calib b;
    b ← rk817_bat_relife_age_flag (rk817_bat_restart_relax b);
    Some (true, b)
  else Some (false, b).

(** [sleep_sum_cap] for the current drawn while asleep. *)
Definition sleep_cap (sleep_cur sleep_sec : Z) : Z :=
  s32 (Z.quot (u64 (sleep_cur * sleep_sec)) 3600).

(** The displayed value is not above the measured one. *)
Definition sleep_dsoc_below b (sleep_sec : Z) : Z * rk817_battery_device :=
  let sleep_cur := if truth (low_pwr_sleep (pdata b)) then LOW_PWR_SLP_CURR_MIN else SLP_CURR_MIN in
  let b := b <| sleep_sum_cap := sleep_cap sleep_cur sleep_sec |> in
  let sleep_soc := sdiv (s32 (sleep_sum_cap b * 100)) (DIV (fcc b)) in
  let tgt_dsoc := s32 (dsoc b - s32 (sleep_soc * 1000)) in
  (sleep_soc,
   if sleep_soc >? 0 then
     if Z.quot (dsoc b) 1000 <? 5 then b <| dsoc := s32 (dsoc b - 1000) |>
     else if (Z.quot tgt_dsoc 1000 <? 5) && (Z.quot (dsoc b) 1000 >=? 5) then
       if Z.quot (dsoc b) 1000 =? 5 then b <| dsoc := s32 (dsoc b - 1000) |>
       else b <| dsoc := 5 * 1000 |>
     else if Z.quot tgt_dsoc 1000 >? 5 then b <| dsoc := tgt_dsoc |>
     else b
   else b).

Definition sleep_dsoc_above b (sleep_sec : Z) : Z * rk817_battery_device :=
  let sleep_cur := if truth (low_pwr_sleep (pdata b)) then LOW_PWR_SLP_CURR_MAX else SLP_CURR_MAX in
  let b := b <| sleep_sum_cap := sleep_cap sleep_cur sleep_sec |> in
  let sleep_soc := sdiv (sleep_sum_cap b) (DIV (Z.quot (fcc b) 100)) in
  let gap_soc := s32 (dsoc b - rsoc b) in
  (sleep_soc,
   if Z.quot gap_soc 1000 >? sleep_soc then
     if s32 (gap_soc - 5000) >? s32 (s32 (sleep_soc * 2) * 1000)
     then b <| dsoc := s32 (dsoc b - s32 (s32 (sleep_soc * 2) * 1000)) |>
     else b <| dsoc := s32 (dsoc b - s32 (sleep_soc * 1000)) |>
   else b <| dsoc := rsoc b |>).

(** The corrections at the end. *)
Definition sleep_reserve b (ocv_soc_updated : bool) (sleep_soc : Z) : rk817_battery_device :=
  let b := if voltage_avg b <=? s32 (s32 (pwroff_vol (pdata b)) - 70)
           then b <| dsoc := 0 |> else b in
  let b := if ocv_soc_updated && truth sleep_soc && (s32 (rsoc b - dsoc b) <? 5000) &&
              (dsoc b <? 40 * 1000)
           then b <| dsoc := s32 (dsoc b - 1000) |> else b in
  if dsoc b <=? 0 then b <| dsoc := 0 |> else b.

Definition rk817_bat_sleep_dischrg b : option (Z * rk817_battery_device) :=
  let sleep_sec := sleep_dischrg_sec b in
  '(ocv_soc_updated, b) ← sleep_calib b;
  let '(sleep_soc, b) :=
    if dsoc b <=? rsoc b then sleep_dsoc_below b sleep_sec else sleep_dsoc_above b sleep_sec in
  Some (sleep_soc, sleep_reserve b ocv_soc_updated sleep_soc).

(** The readings and the sleeping time of [rk817_bat_resume_work]. *)
Definition resume_readings b : option (Z * rk817_battery_device) :=
  let b := b <| s2r := true |> in
  c ← rk817_bat_get_avg_current b;
  let b := b <| current_avg := c |> in
  let b := b <| voltage_relax := rk817_bat_get_relax_voltage b |> in
  v ← rk817_bat_get_battery_voltage b;
  let b := b <| voltage_avg := v |> in
  q ← rk817_bat_get_capacity_uah b;
  let b := b <| remain_cap := u32 q |> in
  r ← rk817_bat_get_rsoc b;
  let b := b <| rsoc := r |> in
  let interval_sec := rk817_bat_rtc_sleep_sec b in
  Some (interval_sec, b <| sleep_sum_sec ::= fun s => u64 (s + interval_sec) |>).

Definition rk817_bat_resume_work b : option rk817_battery_device :=
  '(interval_sec, b) ← resume_readings b;
  let pwroff_vol := s32 (pwroff_vol (pdata b)) in
  let '(time_step, b) :=
    if negb (sleep_chrg_online b) then
      (if voltage_avg b <=? s32 (pwroff_vol + 50) then DISCHRG_TIME_STEP1 else DISCHRG_TIME_STEP2,
       b <| sleep_dischrg_sec ::= fun s => u64 (s + interval_sec) |>)
    else (0, b) in
  b ← (if negb (sleep_chrg_online b) && (sleep_dischrg_sec b >? time_step) then
         '(sleep_soc, b) ← rk817_bat_sleep_dischrg b;
         Some (if truth sleep_soc then b <| sleep_dischrg_sec := 0 |> else b)
       else Some b);
  Some (rk817_bat_save_data b).

End Driver.
