(* ===== verification/Rk817State.v ===== *)
(** * What the operations of the RK817 driver preserve

    The configuration of the driver and the measured current are untouched by
    every handler ([view]), no handler faults on a well-formed device, and none
    but the algorithms moves the displayed state of charge. *)

From S2P Require Import Prelude Rk817Regs Rk817Gauge Rk817Facts Rk817Algo Rk817Driver.

Section State.
Context `{RegmapMemory}.
Implicit Types b : rk817_battery_device.

Definition cur_reads (h : hw) :=
  (regmap_field_read h (rk817_battery_reg_fields BAT_CUR_H),
   regmap_field_read h (rk817_battery_reg_fields BAT_CUR_L)).

(** What no operation of the periodic work changes, but for the reports. *)
Definition view b :=
  (pdata b, chip_id b, res_div b, fcc b, cur_reads (regs b), sleep_dischrg_sec b).

Definition dview b := (view b, dsoc b, reports b).

(** A configured driver. *)
Record gauge_ok b : Prop := {
  gk_table : table_ok (ocv_table (pdata b)) (ocv_size (pdata b));
  gk_div : 1 <= res_div b <= 2;
  gk_fcc : MIN_FCC <= fcc b <= 500000;
  gk_809 : chip_id b = RK809_ID -> bat_res_down (pdata b) <> 0;
}.

(** The measured current is not zero: [rk817_bat_calc_zero_linek] divides by it. *)
Definition current_nonzero b : Prop := rk817_bat_get_avg_current b <> Some 0.

Definition dsoc_ok (d : Z) : Prop := 0 <= d <= 100 * 1000.

Lemma gauge_ok_view b b' : view b' = view b -> gauge_ok b -> gauge_ok b'.
Proof.
  intros E [Ht Hd Hf H8]. unfold view in E. injection E as Ep Ec Er Ef _ _.
  constructor; by rewrite ?Ep, ?Ec, ?Er, ?Ef.
Qed.

Lemma avg_current_view b b' :
  view b' = view b -> rk817_bat_get_avg_current b' = rk817_bat_get_avg_current b.
Proof.
  intros E. unfold view, cur_reads in E. injection E as _ _ Er _ Eh El _.
  unfold rk817_bat_get_avg_current, adc_current, read16, rk817_bat_field_read.
  cbn [rk817_battery_reg_fields] in *. by rewrite Er, Eh, El.
Qed.

Lemma current_nonzero_view b b' : view b' = view b -> current_nonzero b -> current_nonzero b'.
Proof. unfold current_nonzero. intros E. by rewrite (avg_current_view _ _ E). Qed.

(** ** Register writes *)

Definition not_current (f : rk817_battery_fields) : bool :=
  match f with BAT_CUR_H | BAT_CUR_L => false | _ => true end.

Lemma not_current_overlap f : not_current f = true ->
  overlap (rk817_battery_reg_fields f) (rk817_battery_reg_fields BAT_CUR_H) = false /\
  overlap (rk817_battery_reg_fields f) (rk817_battery_reg_fields BAT_CUR_L) = false.
Proof.
  assert (E : implb (not_current f)
    (negb (overlap (rk817_battery_reg_fields f) (rk817_battery_reg_fields BAT_CUR_H)) &&
     negb (overlap (rk817_battery_reg_fields f) (rk817_battery_reg_fields BAT_CUR_L))) = true)
    by (destruct f; reflexivity).
  intros Hf. rewrite Hf in E. cbn [implb] in E.
  by apply andb_prop in E as [->%negb_true_iff ->%negb_true_iff].
Qed.

Lemma dview_field_write b f v : not_current f = true -> dview (rk817_bat_field_write b f v) = dview b.
Proof.
  intros [Hh Hl]%not_current_overlap. unfold dview, view, cur_reads, rk817_bat_field_write. cbn.
  by rewrite !read_other by (assumption || apply driver_field_wf || reflexivity).
Qed.

Lemma dview_write_byte b f v sh : not_current f = true -> dview (write_byte b f v sh) = dview b.
Proof. apply dview_field_write. Qed.
End State.

(** Drops the assignments of fields that [V] does not look at; one at a time,
    and from a variable, since the conversion of nested records is slow. *)
Ltac drop_set V :=
  match goal with
  | |- context [V (set ?p ?g ?x)] =>
      let E := fresh in
      assert (E : forall g' x', V (set p g' x') = V x') by reflexivity;
      rewrite (E g x); clear E
  end.
Ltac drop_sets :=
  repeat match goal with |- ?V (set _ _ _) = _ => drop_set V end.

(** Proves [dview (f b) = dview b] for a straight-line [f]. *)
Ltac dview_step :=
  match goal with
  | |- dview (set ?p ?g ?x) = _ => drop_set (@dview _)
  | |- dview (rk817_bat_field_write _ _ _) = _ => rewrite dview_field_write by reflexivity
  | |- dview (write_byte _ _ _ _) = _ => rewrite dview_write_byte by reflexivity
  | |- dview (if ?c then _ else _) = _ => destruct c
  | |- ?x = ?x => reflexivity
  end.
Ltac dview_solve := cbv zeta; repeat dview_step.

Section Writes.
Context `{RegmapMemory}.
Implicit Types b : rk817_battery_device.

Lemma dview_init_voltage_kb b : dview (rk817_bat_init_voltage_kb b) = dview b.
Proof. unfold rk817_bat_init_voltage_kb. by destruct (chip_id b =? RK809_ID). Qed.

Lemma dview_current_calibration b : dview (rk817_bat_current_calibration b) = dview b.
Proof. unfold rk817_bat_current_calibration, rk817_bat_set_coffset. dview_solve. Qed.

Lemma dview_set_relax_sample b : dview (rk817_bat_set_relax_sample b) = dview b.
Proof. unfold rk817_bat_set_relax_sample, rk817_bat_restart_relax. dview_solve. Qed.

Lemma dview_ocv_thre b v : dview (rk817_bat_ocv_thre b v) = dview b.
Proof. by apply dview_field_write. Qed.

Lemma dview_gg_con_init b : dview (rk817_bat_gg_con_init b) = dview b.
Proof. unfold rk817_bat_gg_con_init. dview_solve. Qed.

Lemma dview_gauge_enable b : dview (rk817_bat_gas_gaugle_enable b) = dview b.
Proof. by apply dview_field_write. Qed.

Lemma dview_adc_init b : dview (rk817_bat_adc_init b) = dview b.
Proof. unfold rk817_bat_adc_init. dview_solve. Qed.

Lemma dview_restart_relax b : dview (rk817_bat_restart_relax b) = dview b.
Proof. unfold rk817_bat_restart_relax. dview_solve. Qed.

Lemma dview_save_dsoc b v : dview (rk817_bat_save_dsoc b v) = dview b.
Proof. unfold rk817_bat_save_dsoc. dview_solve. Qed.

Lemma dview_save_cap b v : dview (rk817_bat_save_cap b v) = dview b.
Proof. unfold rk817_bat_save_cap. dview_solve. Qed.

Lemma dview_save_data b : dview (rk817_bat_save_data b) = dview b.
Proof. unfold rk817_bat_save_data. by rewrite dview_save_cap, dview_save_dsoc. Qed.

Lemma dview_save_fcc b v : dview (rk817_bat_save_fcc b v) = dview b.
Proof. unfold rk817_bat_save_fcc. dview_solve. Qed.

Lemma dview_update_qmax b v : dview (rk817_bat_update_qmax b v) = dview b.
Proof. unfold rk817_bat_update_qmax. dview_solve. Qed.

Lemma dview_finish_algo_prepare b : dview (rk817_bat_finish_algo_prepare b) = dview b.
Proof. unfold rk817_bat_finish_algo_prepare. dview_solve. Qed.

Lemma dview_charge_state b : dview (rk817_bat_get_charge_state b).2 = dview b.
Proof.
  unfold rk817_bat_get_charge_state.
  by destruct (usb_online (regs b)); cbn; destruct (ac_online _).
Qed.

Lemma dview_update_charging_status b : dview (rk817_bat_update_charging_status b) = dview b.
Proof.
  unfold rk817_bat_update_charging_status. pose proof (dview_charge_state b) as E.
  destruct (rk817_bat_get_charge_state b) as [c b1]. cbn [snd] in E.
  rewrite <- E. dview_solve.
Qed.

End Writes.

(** ** No faults

    [total V b o]: the computation [o] returns, in a state with the [V] of [b]. *)

Section Total.
Context `{RegmapMemory}.
Implicit Types b : rk817_battery_device.

Definition total {T} (V : rk817_battery_device -> T) b (o : option rk817_battery_device) : Prop :=
  exists b', o = Some b' /\ V b' = V b.

(** Everything but the displayed state of charge. *)
Definition rview b := (view b, reports b).

Lemma rview_dview b b' : dview b' = dview b -> rview b' = rview b.
Proof. unfold dview, rview. congruence. Qed.
Lemma view_rview b b' : rview b' = rview b -> view b' = view b.
Proof. unfold rview. congruence. Qed.
Lemma view_dview b b' : dview b' = dview b -> view b' = view b.
Proof. unfold dview. congruence. Qed.
Lemma dsoc_dview b b' : dview b' = dview b -> dsoc b' = dsoc b.
Proof. unfold dview. congruence. Qed.
Lemma reports_dview b b' : dview b' = dview b -> reports b' = reports b.
Proof. unfold dview. congruence. Qed.

Lemma gauge_ok_dview b b' : dview b' = dview b -> gauge_ok b -> gauge_ok b'.
Proof. intros E. by apply gauge_ok_view, view_dview. Qed.
Lemma gauge_ok_rview b b' : rview b' = rview b -> gauge_ok b -> gauge_ok b'.
Proof. intros E. by apply gauge_ok_view, view_rview. Qed.
Lemma current_nonzero_dview b b' : dview b' = dview b -> current_nonzero b -> current_nonzero b'.
Proof. intros E. by apply current_nonzero_view, view_dview. Qed.
Lemma current_nonzero_rview b b' : rview b' = rview b -> current_nonzero b -> current_nonzero b'.
Proof. intros E. by apply current_nonzero_view, view_rview. Qed.

Lemma total_Some {T} (V : _ -> T) b b' : V b' = V b -> total V b (Some b').
Proof. unfold total. eauto. Qed.

Lemma total_from {T} (V : _ -> T) b b1 o : V b1 = V b -> total V b1 o -> total V b o.
Proof. intros E (b' & -> & E'). exists b'. by rewrite E', E. Qed.

Lemma total_bind {T} (V : _ -> T) b o (k : _ -> option rk817_battery_device) :
  total V b o -> (forall b', V b' = V b -> total V b (k b')) -> total V b (o ≫= k).
Proof. intros (b' & -> & E) Hk. mstep. by apply Hk. Qed.

Lemma total_read {A T} (V : _ -> T) b (o : option A) (k : A -> option rk817_battery_device) :
  (exists v, o = Some v) -> (forall v, total V b (k v)) -> total V b (o ≫= k).
Proof. intros [v ->] Hk. mstep. apply Hk. Qed.

Lemma total_rview b o : total dview b o -> total rview b o.
Proof. intros (b' & E & Ev). exists b'. split; [done|]. by apply rview_dview. Qed.

(** Readings *)

Lemma scale_total_809 b vol : (chip_id b = RK809_ID -> bat_res_down (pdata b) <> 0) ->
  exists v, rk809_scale b vol = Some v.
Proof.
  intros H8. unfold rk809_scale. destruct (Z.eqb_spec (chip_id b) RK809_ID) as [E|]; [|eauto].
  rewrite cdiv_Some by auto. mstep. eauto.
Qed.

Lemma scale_total b vol : gauge_ok b -> exists v, rk809_scale b vol = Some v.
Proof. intros Hg. apply scale_total_809, gk_809, Hg. Qed.

Lemma adc_current_total b val : gauge_ok b -> exists v, adc_current b val = Some v.
Proof.
  intros Hg. unfold adc_current, ADC_TO_CURRENT. pose proof (gk_div _ Hg).
  rewrite cdiv_Some by lia. eauto.
Qed.

Lemma battery_voltage_total b : gauge_ok b -> exists v, rk817_bat_get_battery_voltage b = Some v.
Proof. apply scale_total. Qed.
Lemma sys_voltage_total b : gauge_ok b -> exists v, rk817_bat_get_sys_voltage b = Some v.
Proof. apply scale_total. Qed.
Lemma ocv_voltage_total b : gauge_ok b -> exists v, rk817_bat_get_ocv_voltage b = Some v.
Proof. apply scale_total. Qed.
Lemma ocv0_voltage_total b : gauge_ok b -> exists v, rk817_bat_get_ocv0_voltage0 b = Some v.
Proof. apply scale_total. Qed.
Lemma pwron_voltage_total b : gauge_ok b -> exists v, rk817_bat_get_pwron_voltage b = Some v.
Proof. apply scale_total. Qed.
Lemma avg_current_total b : gauge_ok b -> exists v, rk817_bat_get_avg_current b = Some v.
Proof. apply adc_current_total. Qed.

Lemma capacity_uah_total b : gauge_ok b -> exists v, rk817_bat_get_capacity_uah b = Some v.
Proof.
  intros Hg. unfold rk817_bat_get_capacity_uah, ADC_TO_CAPACITY_UAH. pose proof (gk_div _ Hg).
  destruct (rk817_bat_remain_cap_is_valid b); [rewrite cdiv_Some by lia|]; eauto.
Qed.
Lemma capacity_mah_total b : gauge_ok b -> exists v, rk817_bat_get_capacity_mah b = Some v.
Proof.
  intros Hg. unfold rk817_bat_get_capacity_mah, ADC_TO_CAPACITY. pose proof (gk_div _ Hg).
  destruct (rk817_bat_remain_cap_is_valid b); [rewrite cdiv_Some by lia|]; eauto.
Qed.
Lemma rsoc_total b : gauge_ok b -> exists v, rk817_bat_get_rsoc b = Some v.
Proof.
  intros Hg. unfold rk817_bat_get_rsoc. destruct (capacity_uah_total b Hg) as [v ->]. mstep. eauto.
Qed.
Lemma vol_to_soc_total b v : gauge_ok b -> exists s, rk817_bat_vol_to_soc b v = Some s.
Proof.
  intros Hg. unfold rk817_bat_vol_to_soc.
  destruct (interpolate_range v _ _ (gk_table _ Hg)) as (d & -> & _). mstep. eauto.
Qed.
Lemma vol_to_cap_total b v : gauge_ok b -> exists c, rk817_bat_vol_to_cap b v = Some c.
Proof.
  intros Hg. unfold rk817_bat_vol_to_cap.
  destruct (interpolate_range v _ _ (gk_table _ Hg)) as (d & -> & _). mstep. eauto.
Qed.
Lemma relax_current_total b : gauge_ok b -> exists v, rk817_bat_get_relax_current b = Some v.
Proof.
  intros Hg. unfold rk817_bat_get_relax_current. destruct (is_rk817_bat_relax_mode b); simpl; [|eauto].
  destruct (adc_current_total b (read16 b RELAX_CUR1_H RELAX_CUR1_L) Hg) as [v1 E1].
  destruct (adc_current_total b (rk817_bat_field_read b RELAX_CUR2_L) Hg) as [v2 E2].
  unfold rk817_bat_get_relax_cur1, rk817_bat_get_relax_cur2. rewrite E1, E2. mstep. eauto.
Qed.
Lemma qmax_total b : gauge_ok b ->
  exists q b', rk817_bat_get_qmax b = Some (q, b') /\ dview b' = dview b.
Proof.
  intros Hg. unfold rk817_bat_get_qmax. pose proof (gk_div _ Hg).
  rewrite cdiv_Some by lia. mstep. eauto.
Qed.
Lemma USB_voltage_total b : gauge_ok b ->
  exists v b', rk817_bat_get_USB_voltage b = Some (v, b') /\ dview b' = dview b.
Proof.
  intros Hg. unfold rk817_bat_get_USB_voltage. cbv zeta.
  set (b1 := rk817_bat_field_write b USB_VOL_ADC_EN 1).
  assert (E : dview b1 = dview b) by (by apply dview_field_write).
  destruct (scale_total b1 (divided_voltage b1 (read16 b1 USB_VOL_H USB_VOL_L))) as [v ->];
    [by apply (gauge_ok_dview b)|]. mstep. eauto.
Qed.
End Total.

Create HintDb total.

(** The device at hand has the view of one that is known to be well formed. *)
Ltac view_eq :=
  first [ assumption | congruence
        | drop_sets; first [ assumption | congruence | reflexivity ]
        | etransitivity; [|eassumption]; reflexivity ].
Ltac same_view :=
  match goal with
  | Hg : ?P ?b0 |- ?P ?b1 =>
      first
        [ apply (gauge_ok_dview b0); [view_eq|exact Hg]
        | apply (gauge_ok_rview b0); [view_eq|exact Hg]
        | apply (current_nonzero_dview b0); [view_eq|exact Hg]
        | apply (current_nonzero_rview b0); [view_eq|exact Hg] ]
  end.
#[export] Hint Extern 5 (gauge_ok (set _ _ ?x)) =>
  apply (gauge_ok_rview x); [reflexivity|] : total.
#[export] Hint Extern 5 (current_nonzero (set _ _ ?x)) =>
  apply (current_nonzero_rview x); [reflexivity|] : total.
#[export] Hint Extern 4 (gauge_ok _) => same_view : total.
#[export] Hint Extern 4 (current_nonzero _) => same_view : total.

(** A reading at the head of the program. *)
Ltac reading :=
  match goal with
  | |- exists _, rk817_bat_get_battery_voltage _ = _ => apply battery_voltage_total
  | |- exists _, rk817_bat_get_sys_voltage _ = _ => apply sys_voltage_total
  | |- exists _, rk817_bat_get_ocv_voltage _ = _ => apply ocv_voltage_total
  | |- exists _, rk817_bat_get_ocv0_voltage0 _ = _ => apply ocv0_voltage_total
  | |- exists _, rk817_bat_get_pwron_voltage _ = _ => apply pwron_voltage_total
  | |- exists _, rk817_bat_get_avg_current _ = _ => apply avg_current_total
  | |- exists _, rk817_bat_get_capacity_uah _ = _ => apply capacity_uah_total
  | |- exists _, rk817_bat_get_capacity_mah _ = _ => apply capacity_mah_total
  | |- exists _, rk817_bat_get_rsoc _ = _ => apply rsoc_total
  | |- exists _, rk817_bat_vol_to_soc _ _ = _ => apply vol_to_soc_total
  | |- exists _, rk817_bat_vol_to_cap _ _ = _ => apply vol_to_cap_total
  | |- exists _, rk817_bat_get_relax_current _ = _ => apply relax_current_total
  end; eauto with total.
Ltac total_read := cbv zeta; apply total_read; [solve [reading]|intros ?]; cbv zeta.
