(* ===== verification/Rk817Safety.v ===== *)
(** * The handlers of the RK817 driver do not fault

    Every operation of Rk817Algo and Rk817Driver returns on a configured
    device whose measured current is not zero, and keeps the configuration;
    what each does to the displayed state of charge. *)

From S2P Require Import Prelude Rk817Regs Rk817Gauge Rk817Facts Rk817Algo Rk817Driver Rk817State.

Section Safety.
Context `{RegmapMemory}.
Implicit Types b : rk817_battery_device.

Lemma init_coulomb_cap_total b c : gauge_ok b -> total dview b (rk817_bat_init_coulomb_cap b c).
Proof.
  intros Hg. unfold rk817_bat_init_coulomb_cap. cbv zeta. set (b1 := write_byte _ Q_INIT_L0 _ _).
  assert (E : dview b1 = dview b) by (unfold b1; dview_solve).
  assert (Ef : fcc b1 = fcc b) by (unfold dview, view in E; congruence).
  rewrite cdiv_Some; [|rewrite Ef; pose proof (gk_fcc _ Hg); unfold MIN_FCC in *; rewrite u32_id; lia].
  mstep. by apply total_Some.
Qed.

Lemma calc_sm_linek_total b : gauge_ok b -> total dview b (rk817_bat_calc_sm_linek b).
Proof.
  intros Hg. unfold rk817_bat_calc_sm_linek. total_read. by apply total_Some.
Qed.

Lemma smooth_prepare_total b : gauge_ok b -> total dview b (rk817_bat_smooth_algo_prepare b).
Proof.
  intros Hg. unfold rk817_bat_smooth_algo_prepare.
  eapply total_from, calc_sm_linek_total; [reflexivity|]. eauto with total.
Qed.

Lemma update_readings_total b : gauge_ok b -> total dview b (update_readings b).
Proof.
  intros Hg. unfold update_readings. do 5 total_read.
  match goal with |- total _ _ (rk817_bat_get_USB_voltage ?x ≫= _) => set (b1 := x) end.
  destruct (USB_voltage_total b1) as (v' & b' & -> & E); [eauto with total|].
  mstep. apply total_Some. exact E.
Qed.

Lemma update_info_total b : gauge_ok b -> total dview b (rk817_bat_update_info b).
Proof.
  intros Hg. unfold rk817_bat_update_info. apply total_bind; [by apply update_readings_total|].
  intros b1 E1. cbv zeta. set (b2 := rk817_bat_update_charging_status _).
  assert (E2 : dview b2 = dview b) by (unfold b2; rewrite dview_update_charging_status; exact E1).
  apply (total_from _ _ b2); [done|].
  assert (Hg2 : gauge_ok b2) by eauto with total. clearbody b2.
  apply total_bind.
  - destruct (Z.quot (remain_cap b2) 1000 >? u32 (fcc b2)); [|by apply total_Some].
    match goal with |- context [rk817_bat_init_coulomb_cap ?x _ ≫= _] => set (b3 := x) end.
    apply (total_from _ _ b3); [reflexivity|]. apply total_bind.
    + apply init_coulomb_cap_total. eauto with total.
    + intros b4 E4. eapply total_from; [exact E4|]. apply init_coulomb_cap_total. eauto with total.
  - intros b5 E5. apply total_Some. dview_solve; exact E5.
Qed.

(** ** The smooth algorithm *)

Lemma rview_lowpwr b : rview (rk817_bat_lowpwr_check b) = rview b.
Proof.
  unfold rk817_bat_lowpwr_check. destruct (_ && _); [|reflexivity].
  destruct (truth (lowpwr_time b)); destruct (_ || _); try reflexivity;
    destruct (_ >? MINUTE 1); try reflexivity; destruct (_ <=? _); reflexivity.
Qed.

Lemma rview_smooth_dischrg b : rview (rk817_bat_calc_smooth_dischrg b) = rview b.
Proof.
  unfold rk817_bat_calc_smooth_dischrg.
  destruct (smooth_soc b <? 0); destruct (negb _); try reflexivity; destruct (_ >? _);
    try reflexivity; destruct (_ >? _); destruct (_ <=? _); reflexivity.
Qed.

Lemma rview_smooth_chrg b : rview (smooth_chrg b).1 = rview b.
Proof.
  unfold smooth_chrg.
  destruct (smooth_soc b <? 0); destruct (negb _); try reflexivity; destruct (_ <? _);
    try reflexivity; cbn [fst]; destruct (_ <=? _); reflexivity.
Qed.

Lemma smooth_algorithm_total b : gauge_ok b -> total rview b (rk817_bat_smooth_algorithm b).
Proof.
  intros Hg. unfold rk817_bat_smooth_algorithm. apply total_bind.
  { destruct (_ <=? 0); [by apply total_rview, calc_sm_linek_total | by apply total_Some]. }
  intros b1 E1. eapply total_from; [exact E1|]. total_read.
  destruct (_ =? 0); [by apply total_Some|]. destruct (_ =? 0); [by apply total_Some|].
  match goal with |- context [rk817_bat_calc_smooth_dischrg ?x] => set (b2 := x) end.
  match goal with |- context [if ?c then (rk817_bat_calc_smooth_dischrg b2, false) else _] =>
    set (p := if c then (rk817_bat_calc_smooth_dischrg b2, false) else smooth_chrg b2);
    assert (E2 : rview p.1 = rview b1)
      by (unfold p; destruct c; [exact (rview_smooth_dischrg b2) | exact (rview_smooth_chrg b2)])
  end.
  destruct p as [b3 early].
  cbn [fst] in E2. destruct early; [by apply total_Some|].
  destruct (s2r b3); [|by apply total_Some].
  eapply total_from; [|apply total_rview, calc_sm_linek_total]; [exact E2|]. eauto with total.
Qed.

(** ** The zero algorithm *)

(** It may only lower the displayed state of charge. *)
Definition rsview b := (rview b, rsoc b).
Definition dsview b := (dview b, rsoc b).

Definition lowers b b' : Prop := rsview b' = rsview b /\ (dsoc_ok (dsoc b) -> 0 <= dsoc b' <= dsoc b).

Lemma lowers_refl b b' : dsview b' = dsview b -> lowers b b'.
Proof.
  intros E. assert (Ed : dview b' = dview b) by (unfold dsview in E; congruence). split.
  - pose proof (rview_dview _ _ Ed). unfold dsview, rsview in *. congruence.
  - rewrite (dsoc_dview _ _ Ed). unfold dsoc_ok. lia.
Qed.
Lemma lowers_trans b1 b2 b3 : lowers b1 b2 -> lowers b2 b3 -> lowers b1 b3.
Proof.
  intros [E1 H1] [E2 H2]. split; [congruence|]. unfold dsoc_ok in *. lia.
Qed.

Lemma zero_set_linek_lowers b x g : lowers b (zero_set_linek b x g).
Proof.
  unfold zero_set_linek. destruct (_ && _); [by apply lowers_refl|].
  destruct (x >=? 0); [by apply lowers_refl|]. cbv zeta.
  set (b1 := if truth _ then _ else _).
  assert (E1 : dsview b1 = dsview b).
  { unfold b1. destruct (truth _); reflexivity. }
  apply (lowers_trans _ b1); [by apply lowers_refl|]. clearbody b1.
  destruct (_ >=? WAIT_DSOC_DROP_SEC); [|by apply lowers_refl].
  set (b2 := b1 <| zero_drop_sec := 0 |> <| dsoc := s32 (dsoc b1 - 1000) |>).
  change (dsoc b2) with (s32 (dsoc b1 - 1000)).
  destruct (Z.ltb_spec (s32 (dsoc b1 - 1000)) 0); (split; [reflexivity|]); cbn; unfold dsoc_ok.
  - lia.
  - intros Hd. change (dsoc b2) with (s32 (dsoc b1 - 1000)).
    rewrite s32_id in * by lia. lia.
Qed.

Lemma zero_shutdown_lowers b v p : lowers b (zero_shutdown b v p).
Proof.
  unfold zero_shutdown. destruct (_ <? _); [|by apply lowers_refl].
  set (b1 := if truth _ then _ else _).
  assert (E1 : dsview b1 = dsview b).
  { unfold b1. destruct (truth _); reflexivity. }
  apply (lowers_trans _ b1); [by apply lowers_refl|]. clearbody b1.
  destruct (_ >? WAIT_SHTD_DROP_SEC); [|by apply lowers_refl].
  split; [reflexivity|]. cbn. unfold dsoc_ok. lia.
Qed.

Lemma dsview_zero_measured b v c y : dsview (zero_measured b v c y) = dsview b.
Proof. unfold zero_measured. by drop_sets. Qed.

Lemma dsview_zero_estimated b x1 x2 x3 x4 x5 x6 x7 :
  dsview (zero_estimated b x1 x2 x3 x4 x5 x6 x7) = dsview b.
Proof. unfold zero_estimated. by drop_sets. Qed.

Lemma gauge_ok_dsview b b' : dsview b' = dsview b -> gauge_ok b -> gauge_ok b'.
Proof. intros E. apply gauge_ok_dview. unfold dsview in E. congruence. Qed.

Lemma zero_estimate_total b p v c : gauge_ok b -> c <> 0 ->
  exists x b', zero_estimate b p v c = Some (x, b') /\ dsview b' = dsview b.
Proof.
  intros Hg Hc. unfold zero_estimate. rewrite cdiv_Some by done. rewrite Some_bind. cbv zeta.
  set (vsys := s32 (v + _)). clearbody vsys.
  pose proof (dsview_zero_measured b v c vsys) as E1.
  set (b1 := zero_measured b v c vsys) in *. clearbody b1.
  assert (Hg1 : gauge_ok b1) by (by apply (gauge_ok_dsview b)).
  set (dead := zero_dead_voltage_of b1 p c). set (ocv := zero_ocv_voltage_of b1 v c).
  destruct (vol_to_soc_total b1 dead Hg1) as [s1 ->]. destruct (vol_to_cap_total b1 dead Hg1) as [s2 ->].
  destruct (vol_to_soc_total b1 ocv Hg1) as [s3 ->]. destruct (vol_to_cap_total b1 ocv Hg1) as [s4 ->].
  mstep. eexists _, _. split; [reflexivity|]. by rewrite dsview_zero_estimated.
Qed.

Lemma calc_zero_linek_lowers b : gauge_ok b -> current_nonzero b ->
  exists b', rk817_bat_calc_zero_linek b = Some b' /\ lowers b b'.
Proof.
  intros Hg Hc. unfold rk817_bat_calc_zero_linek.
  destruct (battery_voltage_total b Hg) as [v ->].
  destruct (avg_current_total b Hg) as [c Ec].
  assert (Hc0 : c <> 0) by (intros ->; by apply Hc). rewrite Ec. mstep.
  destruct (zero_estimate_total b (zero_pwroff_vol b) v c Hg Hc0) as (x & b1 & -> & E1). mstep.
  eexists. split; [done|].
  eapply lowers_trans; [|apply zero_shutdown_lowers].
  eapply lowers_trans; [|apply zero_set_linek_lowers]. by apply lowers_refl.
Qed.

Lemma zero_prepare_lowers b : gauge_ok b -> current_nonzero b ->
  exists b', rk817_bat_zero_algo_prepare b = Some b' /\ lowers b b'.
Proof.
  intros Hg Hc. unfold rk817_bat_zero_algo_prepare. cbv zeta.
  set (b1 := if negb _ then _ else _).
  assert (E1 : dsview b1 = dsview b) by (unfold b1; destruct (negb _); reflexivity).
  assert (E2 : dview b1 = dview b) by (unfold dsview in E1; congruence).
  destruct (calc_zero_linek_lowers b1) as (b' & -> & Hl); [eauto with total..|].
  eexists. split; [done|]. eapply lowers_trans; [|exact Hl]. by apply lowers_refl.
Qed.

Lemma lowers_total b o : (exists b', o = Some b' /\ lowers b b') -> total rview b o.
Proof. intros (b' & E & [Ev _]). exists b'. unfold rsview in Ev. split; congruence. Qed.

Lemma rview_calc_zero_algorithm b : rview (rk817_bat_calc_zero_algorithm b) = rview b.
Proof. unfold rk817_bat_calc_zero_algorithm. repeat case_match; reflexivity. Qed.

Lemma zero_algorithm_total b : gauge_ok b -> current_nonzero b ->
  total rview b (rk817_bat_zero_algorithm b).
Proof.
  intros Hg Hc. unfold rk817_bat_zero_algorithm. apply total_bind.
  { destruct (_ || _); [|by apply total_Some].
    match goal with |- context [rk817_bat_calc_zero_algorithm ?x] => set (b1 := x) end.
    assert (E : rview (rk817_bat_calc_zero_algorithm b1) = rview b)
      by (rewrite rview_calc_zero_algorithm; reflexivity).
    eapply total_from; [exact E|]. apply lowers_total, calc_zero_linek_lowers; eauto with total. }
  intros b1 E1. destruct (_ && _); [|by apply total_Some].
  eapply total_from; [exact E1|]. apply total_bind.
  - apply total_rview, init_coulomb_cap_total. eauto with total.
  - intros b2 E2. eapply total_from; [exact E2|]. 
    apply lowers_total, calc_zero_linek_lowers; eauto with total.
Qed.


(** ** The finish algorithm *)

(** The seconds in which one percent is charged. *)
Definition soc_sec_of (fcc finish_current : Z) : Z :=
  u64 (Z.quot (Z.quot (s32 (fcc * 3600)) 100) (DIV finish_current)).

Lemma soc_sec_pos fcc c : MIN_FCC <= fcc <= 500000 -> c = FINISH_CHRG_CUR1 \/ c = FINISH_CHRG_CUR2 ->
  12 <= soc_sec_of fcc c < 2 ^ 31 /\ soc_sec_of fcc c = fcc * 36 / c.
Proof.
  unfold MIN_FCC, FINISH_CHRG_CUR1, FINISH_CHRG_CUR2, soc_sec_of. intros Hf Hc.
  assert (DIV c = c) as -> by (destruct Hc as [-> | ->]; reflexivity).
  rewrite s32_id by lia. rewrite !Z.quot_div_nonneg by dlia.
  replace (fcc * 3600) with (fcc * 36 * 100) by lia. rewrite Z.div_mul by lia.
  assert (12 <= fcc * 36 / c) by (apply Z.div_le_lower_bound; lia).
  assert (fcc * 36 / c < 2 ^ 31) by (apply Z.div_lt_upper_bound; lia).
  rewrite u64_id by lia. lia.
Qed.

Lemma finish_dsoc_total b : gauge_ok b -> total rview b (finish_dsoc b).
Proof.
  intros Hg. unfold finish_dsoc. cbv zeta.
  set (b1 := if truth (finish_base b) then b else _).
  assert (E1 : dview b1 = dview b) by (unfold b1; destruct (truth _); reflexivity).
  assert (Hg1 : gauge_ok b1) by eauto with total. clearbody b1.
  eapply total_from; [by apply rview_dview|]. apply total_bind.
  - destruct (_ >? _); [|by apply total_Some].
    rewrite cmod_Some.
    { mstep. apply total_Some. destruct (_ >? _); reflexivity. }
    set (c := if _ >? FINISH_MAX_SOC_DELAY then _ else _).
    destruct (soc_sec_pos (fcc b1) c (gk_fcc _ Hg1)) as [Hpos _].
    { unfold c. destruct (_ >? _); auto. }
    unfold soc_sec_of in Hpos. lia.
  - intros b2 E2. apply total_Some. destruct (_ && _); [|exact E2].
    rewrite <- E2. apply rview_dview in E1.
    pose proof (dview_save_dsoc (b2 <| dsoc := 100 * 1000 |>) (100 * 1000)) as E3.
    exact (rview_dview _ _ E3).
Qed.

Lemma finish_algorithm_total b : gauge_ok b -> total rview b (rk817_bat_finish_algorithm b).
Proof.
  intros Hg. unfold rk817_bat_finish_algorithm. apply total_bind.
  { destruct (_ && _); [|by apply total_Some]. eapply total_from; [|apply total_rview, init_coulomb_cap_total].
    - reflexivity.
    - eauto with total. }
  intros b1 E1. eapply total_from; [exact E1|].
  destruct (_ <? _); [|by apply total_Some]. apply finish_dsoc_total. eauto with total.
Qed.

(** ** The modes *)

Lemma enter_zero_total b : gauge_ok b -> current_nonzero b -> total rview b (enter_zero b).
Proof.
  intros Hg Hc. unfold enter_zero. apply total_bind.
  - by apply lowers_total, zero_prepare_lowers.
  - intros b1 E1. apply total_Some. exact E1.
Qed.

Lemma enter_smooth_total b : gauge_ok b -> total rview b (enter_smooth b).
Proof.
  intros Hg. unfold enter_smooth. apply total_bind.
  - by apply total_rview, smooth_prepare_total.
  - intros b1 E1. apply total_Some. exact E1.
Qed.

Lemma rview_enter_finish b : rview (enter_finish b) = rview b.
Proof.
  unfold enter_finish. pose proof (rview_dview _ _ (dview_finish_algo_prepare b)) as E. exact E.
Qed.

Lemma display_smooth_total b : gauge_ok b -> current_nonzero b ->
  total rview b (rk817_bat_display_smooth b).
Proof.
  intros Hg Hc. unfold rk817_bat_display_smooth. destruct (_ && _).
  { eapply (total_from _ _ (b <| s2r := false |>)); [reflexivity|]. apply total_bind.
    - apply lowers_total, zero_prepare_lowers; eauto with total.
    - intros b1 E1. eapply total_from; [exact E1|]. apply total_rview, smooth_prepare_total.
      eauto with total. }
  assert (Hsmooth : total rview b
    (b ← rk817_bat_smooth_algorithm b;
     if below_zero_vol b then enter_zero b
     else if charge_finished b then Some (enter_finish b) else Some b)).
  { apply total_bind; [by apply smooth_algorithm_total|]. intros b1 E1. eapply total_from; [exact E1|].
    destruct (below_zero_vol b1); [apply enter_zero_total; eauto with total|].
    destruct (charge_finished b1); apply total_Some; [apply rview_enter_finish|done]. }
  destruct (work_mode b); try exact Hsmooth; clear Hsmooth.
  - apply total_bind; [by apply zero_algorithm_total|]. intros b1 E1. eapply total_from; [exact E1|].
    destruct (_ || _); [apply enter_smooth_total; eauto with total|].
    destruct (charge_finished b1); apply total_Some; [apply rview_enter_finish|done].
  - apply total_bind; [by apply finish_algorithm_total|]. intros b1 E1. eapply total_from; [exact E1|].
    destruct (_ && _); [|by apply total_Some].
    destruct (below_zero_vol b1); [apply enter_zero_total | apply enter_smooth_total]; eauto with total.
Qed.

(** ** The periodic work *)

(** What [rk817_bat_power_supply_changed] does: clamp, and report a change. *)
Definition clamp_dsoc (d : Z) : Z := if d >? 100 * 1000 then 100 * 1000 else if d <? 0 then 0 else d.

Lemma clamp_dsoc_ok d : dsoc_ok (clamp_dsoc d).
Proof. unfold dsoc_ok, clamp_dsoc. repeat zcase; lia. Qed.

Lemma power_supply_changed_eq b :
  let b' := rk817_bat_power_supply_changed b in
  dsoc b' = clamp_dsoc (dsoc b) /\ view b' = view b /\
  reports b' = if (clamp_dsoc (dsoc b) =? changed_old_soc b) && negb (change b)
               then reports b else clamp_dsoc (dsoc b) :: reports b.
Proof.
  unfold rk817_bat_power_supply_changed, clamp_dsoc. cbv zeta.
  repeat case_match; cbn in *; split_and!; try reflexivity; congruence.
Qed.

(** The reports so far were sensible. *)
Definition reports_ok b : Prop := Forall dsoc_ok (reports b).

Lemma battery_work_total b : gauge_ok b -> current_nonzero b -> reports_ok b ->
  exists b', rk817_battery_work b = Some b' /\ view b' = view b /\ dsoc_ok (dsoc b') /\ reports_ok b' /\
    (reports b' = reports b \/ reports b' = dsoc b' :: reports b).
Proof.
  intros Hg Hc Hr. unfold rk817_battery_work.
  destruct (update_info_total b Hg) as (b1 & -> & E1%rview_dview). mstep. cbv zeta.
  pose proof (rview_lowpwr b1) as E2. set (b2 := rk817_bat_lowpwr_check b1) in *. clearbody b2.
  destruct (display_smooth_total b2) as (b3 & -> & E3); [eauto with total..|]. mstep.
  destruct (power_supply_changed_eq b3) as (Ed & Ev & Erep).
  set (b4 := rk817_bat_power_supply_changed b3) in *. clearbody b4.
  set (b5 := if truth _ then _ else _).
  assert (E5 : dview b5 = dview b4).
  { unfold b5. destruct (truth _);
      [rewrite dview_field_write by reflexivity;
       rewrite dview_init_voltage_kb, dview_current_calibration|]; apply dview_save_data. }
  clearbody b5. exists b5.
  assert (Hr3 : reports b3 = reports b) by (unfold rview in *; congruence).
  assert (Hv3 : view b3 = view b) by (unfold rview in *; congruence).
  pose proof (clamp_dsoc_ok (dsoc b3)) as Hok.
  rewrite (dsoc_dview _ _ E5), (view_dview _ _ E5), Ed, Ev.
  unfold reports_ok in *. rewrite (reports_dview _ _ E5), Erep, Hr3.
  split_and!; auto; destruct (_ && _); auto.
Qed.

(** ** Suspend and resume *)

Lemma suspend_total b : gauge_ok b -> total dview b (rk817_bat_pm_suspend b).
Proof.
  intros Hg. unfold rk817_bat_pm_suspend. cbv zeta. do 3 total_read.
  match goal with |- context [rk817_bat_save_data ?x] => set (b1 := x) end.
  set (b2 := if negb _ then _ else _).
  assert (E2 : dview b2 = dview b).
  { transitivity (dview (rk817_bat_save_data b1)); [unfold b2; destruct (negb _); reflexivity|].
    rewrite dview_save_data. reflexivity. }
  clearbody b2. clear b1. destruct (work_mode b2); try (by apply total_Some).
  destruct (_ >=? 0); [|by apply total_Some]. destruct (_ =? _); [apply total_Some; exact E2|].
  eapply total_from; [|apply smooth_prepare_total]; [exact E2|]. eauto with total.
Qed.

(** *** The sleeping device *)

(** Bounds under which the computations of [rk817_bat_sleep_dischrg] do not wrap. *)
Definition rsoc_small (r : Z) : Prop := - 2 ^ 24 <= r <= 2 ^ 24.

Lemma quot_small a q : - 2 ^ 31 <= a < 2 ^ 32 -> MIN_FCC <= q -> rsoc_small (Z.quot a q).
Proof. unfold rsoc_small, MIN_FCC. intros Ha Hq. Z.to_euclidean_division_equations; nia. Qed.

Lemma rsoc_small_s32 r : rsoc_small r -> s32 r = r.
Proof. unfold rsoc_small. intros Hr. apply s32_id. lia. Qed.

Lemma get_rsoc_small b r : gauge_ok b -> rk817_bat_get_rsoc b = Some r -> rsoc_small r.
Proof.
  intros Hg. unfold rk817_bat_get_rsoc. destruct (rk817_bat_get_capacity_uah b) as [q|]; [|done].
  mstep. intros E. injection E as E. subst r. pose proof (gk_fcc _ Hg) as Hf.
  replace (DIV (fcc b)) with (fcc b)
    by (unfold DIV; rewrite (proj2 (truth_true (fcc b))); unfold MIN_FCC in *; lia || done).
  pose proof (s32_range (s32 q * 100)). rewrite rsoc_small_s32; apply quot_small; lia.
Qed.

Lemma init_coulomb_cap_rsoc b c b' : gauge_ok b -> rk817_bat_init_coulomb_cap b c = Some b' ->
  rsoc_small (rsoc b').
Proof.
  intros Hg. unfold rk817_bat_init_coulomb_cap. cbv zeta. set (b1 := write_byte _ Q_INIT_L0 _ _).
  assert (E : dview b1 = dview b) by (unfold b1; dview_solve).
  assert (Ef : fcc b1 = fcc b) by (unfold dview, view in E; congruence).
  pose proof (gk_fcc _ Hg) as Hf. unfold MIN_FCC in Hf.
  rewrite Ef, (u32_id (fcc b)) by lia. rewrite cdiv_Some by lia. mstep. intros Eq. injection Eq as <-.
  change (rsoc_small (s32 (Z.quot (u32 (u32 (c * 1000) * 100)) (fcc b)))).
  pose proof (u32_range (u32 (c * 1000) * 100)).
  rewrite rsoc_small_s32; apply quot_small; unfold MIN_FCC; lia.
Qed.

Lemma init_capacity_lowers b c : gauge_ok b -> current_nonzero b -> rsoc_small (rsoc b) ->
  exists b', rk817_bat_init_capacity b c = Some b' /\ rview b' = rview b /\ rsoc_small (rsoc b') /\
    (dsoc_ok (dsoc b) -> 0 <= dsoc b' <= dsoc b).
Proof.
  intros Hg Hc Hr. unfold rk817_bat_init_capacity. cbv zeta.
  destruct (_ =? 0). { exists b. unfold dsoc_ok. split_and!; auto; lia. }
  set (b1 := b <| age_adjust_cap := _ |>).
  assert (Hg1 : gauge_ok b1) by eauto with total.
  destruct (init_coulomb_cap_total b1 c Hg1) as (b2 & E & E2). rewrite E. mstep.
  pose proof (init_coulomb_cap_rsoc _ _ _ Hg1 E) as Hr2.
  assert (Hg2 : gauge_ok b2) by eauto with total.
  destruct (smooth_prepare_total b2 Hg2) as (b3 & E3 & E3'). rewrite E3. mstep.
  assert (Hr3 : rsoc b3 = rsoc b2).
  { revert E3. unfold rk817_bat_smooth_algo_prepare, rk817_bat_calc_sm_linek.
    destruct (rk817_bat_get_avg_current _); [|done]. mstep. intros Eq. by injection Eq as <-. }
  assert (E23 : dview b3 = dview b) by (rewrite E3', E2; reflexivity).
  destruct (zero_prepare_lowers b3) as (b4 & -> & [E4 Hl]); [eauto with total..|].
  exists b4. unfold rsview in E4.
  assert (E4a : rview b4 = rview b3) by congruence. assert (E4b : rsoc b4 = rsoc b3) by congruence.
  clear E4.
  rewrite E4b, Hr3. rewrite <- (dsoc_dview _ _ E23). split_and!; auto.
  rewrite E4a. by apply rview_dview.
Qed.

Lemma relife_total b : gauge_ok b ->
  exists b', rk817_bat_relife_age_flag b = Some b' /\ dsview b' = dsview b.
Proof.
  intros Hg. unfold rk817_bat_relife_age_flag. destruct (_ <=? 0); [eauto|].
  destruct (vol_to_soc_total b (voltage_relax b) Hg) as [s ->].
  destruct (vol_to_cap_total b (voltage_relax b) Hg) as [c ->]. mstep.
  eexists. split; [done|]. destruct (_ && _); [|done]. cbv zeta. destruct (_ >? _); reflexivity.
Qed.

Lemma sleep_calib_total b : gauge_ok b -> current_nonzero b -> rsoc_small (rsoc b) ->
  exists u b', sleep_calib b = Some (u, b') /\ rview b' = rview b /\ rsoc_small (rsoc b') /\
    (dsoc_ok (dsoc b) -> 0 <= dsoc b' <= dsoc b).
Proof.
  intros Hg Hc Hr. unfold sleep_calib.
  destruct (_ >=? _). 2: { exists false, b. unfold dsoc_ok. split_and!; auto; lia. }
  unfold rk817_bat_relax_vol_calib.
  destruct (vol_to_soc_total b (voltage_relax b) Hg) as [s ->].
  destruct (vol_to_cap_total b (voltage_relax b) Hg) as [c ->]. mstep.
  destruct (init_capacity_lowers b (u32 c) Hg Hc Hr) as (b1 & -> & E1 & Hr1 & Hd). mstep.
  pose proof (dview_restart_relax b1) as E2.
  assert (Hrs : rsoc (rk817_bat_restart_relax b1) = rsoc b1) by reflexivity.
  set (b2 := rk817_bat_restart_relax b1) in *. clearbody b2.
  assert (Hg2 : gauge_ok b2).
  { apply (gauge_ok_rview b); [|done]. rewrite <- E1. by apply rview_dview. }
  destruct (relife_total b2 Hg2) as (b3 & -> & E3). mstep. exists true, b3.
  unfold dsview in E3. assert (E3r : rsoc b3 = rsoc b2) by congruence.
  assert (E : dview b3 = dview b1) by congruence.
  split_and!; auto; [|congruence|].
  - rewrite <- E1. by apply rview_dview.
  - by rewrite (dsoc_dview _ _ E).
Qed.

(** The charge drawn while asleep. *)
Lemma sleep_cap_bounds c s : 1 <= c <= 40 -> 0 <= s < 2 ^ 32 ->
  sleep_cap c s = c * s / 3600 /\ 0 <= c * s / 3600 <= c * 1193047.
Proof.
  intros Hc Hs. unfold sleep_cap. rewrite u64_id by nia. rewrite Z.quot_div_nonneg by nia.
  assert (0 <= c * s / 3600 <= c * 1193047).
  { split; [apply Z.div_pos; nia|]. apply Z.div_le_upper_bound; nia. }
  rewrite s32_id by lia. done.
Qed.

Lemma sleep_cap_zero c s k : 1 <= c -> 0 <= s -> c * s / 3600 < k -> s < 3600 * k.
Proof. intros Hc Hs Hk. pose proof (Z.mul_succ_div_gt (c * s) 3600 ltac:(lia)). nia. Qed.

(** What both halves of [rk817_bat_sleep_dischrg] do. *)
Definition sleep_lowers b (sec : Z) (r : Z * rk817_battery_device) : Prop :=
  rview r.2 = rview b /\ rsoc r.2 = rsoc b /\ - 2 ^ 25 <= dsoc r.2 <= dsoc b /\
  0 <= r.1 /\ (r.1 = 0 -> sec < 2 ^ 25).

Lemma sleep_below_lowers b sec : gauge_ok b -> dsoc_ok (dsoc b) -> 0 <= sec < 2 ^ 32 ->
  sleep_lowers b sec (sleep_dsoc_below b sec).
Proof.
  intros Hg Hd Hs. unfold sleep_dsoc_below. cbv zeta.
  set (c := if truth _ then LOW_PWR_SLP_CURR_MIN else _).
  assert (Hc : 1 <= c <= 6) by (unfold c, LOW_PWR_SLP_CURR_MIN, SLP_CURR_MIN; destruct (truth _); lia).
  destruct (sleep_cap_bounds c sec ltac:(lia) Hs) as [Ecap Hcap].
  set (b1 := b <| sleep_sum_cap := _ |>).
  change (sleep_sum_cap b1) with (sleep_cap c sec). change (fcc b1) with (fcc b).
  change (dsoc b1) with (dsoc b). rewrite Ecap.
  pose proof (gk_fcc _ Hg) as Hf. unfold MIN_FCC in Hf.
  replace (DIV (fcc b)) with (fcc b)
    by (unfold DIV; rewrite (proj2 (truth_true (fcc b))); [done|lia]).
  unfold sdiv. set (cap := c * sec / 3600) in *.
  rewrite (s32_id (cap * 100)) by lia. rewrite Z.quot_div_nonneg by lia.
  assert (Hq : 0 <= cap * 100 / fcc b <= 1431657).
  { split; [apply Z.div_pos; lia|]. apply Z.div_le_upper_bound; nia. }
  rewrite (s32_id (cap * 100 / fcc b)) by lia.
  assert (Hz : cap * 100 / fcc b = 0 -> sec < 2 ^ 25).
  { intros E. apply Z.div_small_iff in E; [|lia].
    pose proof (sleep_cap_zero c sec 5000 ltac:(lia) ltac:(lia) ltac:(lia)). lia. }
  set (q := cap * 100 / fcc b) in *. clearbody q.
  unfold dsoc_ok in Hd. rewrite (s32_id (q * 1000)) by lia. rewrite (s32_id (dsoc b - q * 1000)) by lia.
  rewrite (s32_id (dsoc b - 1000)) by lia.
  unfold sleep_lowers. cbn [fst snd]. rewrite (Z.gtb_ltb q).
  destruct (Z.ltb_spec 0 q); [|split_and!; try reflexivity; auto; cbn; lia].
  destruct (Z.ltb_spec (Z.quot (dsoc b) 1000) 5) as [|H5];
    [split_and!; try reflexivity; auto; cbn; lia|].
  assert (5000 <= dsoc b).
  { rewrite Z.quot_div_nonneg in H5 by lia. pose proof (Z.mul_div_le (dsoc b) 1000). lia. }
  repeat case_match; split_and!; try reflexivity; auto; cbn; try lia.
  match goal with E : (_ >? 5) = true |- _ => apply Z.gtb_lt in E end. clear -H3 H4 Hd Hq. dlia.
Qed.

Lemma sleep_above_lowers b sec : gauge_ok b -> dsoc_ok (dsoc b) -> rsoc_small (rsoc b) ->
  rsoc b < dsoc b -> 0 <= sec < 2 ^ 32 -> sleep_lowers b sec (sleep_dsoc_above b sec).
Proof.
  intros Hg Hd Hr Hlt Hs. unfold sleep_dsoc_above. cbv zeta.
  set (c := if truth _ then LOW_PWR_SLP_CURR_MAX else _).
  assert (Hc : 20 <= c <= 40) by (unfold c, LOW_PWR_SLP_CURR_MAX, SLP_CURR_MAX; destruct (truth _); lia).
  destruct (sleep_cap_bounds c sec ltac:(lia) Hs) as [Ecap Hcap].
  set (b1 := b <| sleep_sum_cap := _ |>).
  change (sleep_sum_cap b1) with (sleep_cap c sec). change (fcc b1) with (fcc b).
  change (dsoc b1) with (dsoc b). change (rsoc b1) with (rsoc b). rewrite Ecap.
  pose proof (gk_fcc _ Hg) as Hf. unfold MIN_FCC in Hf.
  assert (Hf100 : 5 <= Z.quot (fcc b) 100 <= 5000).
  { rewrite Z.quot_div_nonneg by lia.
    split; [apply Z.div_le_lower_bound | apply Z.div_le_upper_bound]; lia. }
  replace (DIV (Z.quot (fcc b) 100)) with (Z.quot (fcc b) 100)
    by (unfold DIV; rewrite (proj2 (truth_true (Z.quot (fcc b) 100))); [done|lia]).
  unfold sdiv. set (cap := c * sec / 3600) in *. set (f := Z.quot (fcc b) 100) in *.
  rewrite Z.quot_div_nonneg by lia.
  assert (Hq : 0 <= cap / f <= 9544376).
  { split; [apply Z.div_pos; lia|]. apply Z.div_le_upper_bound; nia. }
  rewrite (s32_id (cap / f)) by lia.
  assert (Hz : cap / f = 0 -> sec < 2 ^ 25).
  { intros E. apply Z.div_small_iff in E; [|lia].
    pose proof (sleep_cap_zero c sec 5000 ltac:(lia) ltac:(lia) ltac:(lia)). lia. }
  set (q := cap / f) in *. clearbody q. unfold dsoc_ok, rsoc_small in *.
  rewrite (s32_id (dsoc b - rsoc b)) by lia. set (gap := dsoc b - rsoc b) in *.
  unfold sleep_lowers. cbn [fst snd]. rewrite (Z.gtb_ltb (Z.quot gap 1000)).
  destruct (Z.ltb_spec q (Z.quot gap 1000)).
  - rewrite Z.quot_div_nonneg in * by lia. pose proof (Z.mul_div_le gap 1000 ltac:(lia)).
    assert (0 <= q * 1000 < gap) by lia.
    rewrite (s32_id (q * 2)), (s32_id (q * 2 * 1000)), (s32_id (gap - 5000)), (s32_id (q * 1000)) by lia.
    rewrite (Z.gtb_ltb (gap - 5000)).
    destruct (Z.ltb_spec (q * 2 * 1000) (gap - 5000)).
    + rewrite s32_id by lia. split_and!; try reflexivity; auto; cbn; lia.
    + rewrite s32_id by lia. split_and!; try reflexivity; auto; cbn; lia.
  - split_and!; try reflexivity; auto; cbn; lia.
Qed.

Lemma sleep_reserve_lowers b u s : - 2 ^ 25 <= dsoc b <= 100 * 1000 ->
  rview (sleep_reserve b u s) = rview b /\ 0 <= dsoc (sleep_reserve b u s) <= Z.max 0 (dsoc b).
Proof.
  intros Hd. unfold sleep_reserve. cbv zeta.
  set (b1 := if voltage_avg b <=? _ then _ else b).
  assert (H1 : rview b1 = rview b /\ - 2 ^ 25 <= dsoc b1 <= Z.max 0 (dsoc b)).
  { unfold b1. destruct (_ <=? _); (split; [reflexivity|]); cbn; lia. }
  set (b2 := if u && _ && _ && _ then _ else b1).
  assert (H2 : rview b2 = rview b /\ dsoc b2 <= Z.max 0 (dsoc b)).
  { unfold b2. destruct (_ && _); [|tauto]. destruct H1 as [<- ?]. split; [reflexivity|].
    cbn. rewrite s32_id by lia. lia. }
  clearbody b1 b2. destruct H2 as [<- ?]. destruct (Z.leb_spec (dsoc b2) 0); (split; [reflexivity|]); cbn; lia.
Qed.

Lemma sleep_dischrg_lowers b : gauge_ok b -> current_nonzero b -> rsoc_small (rsoc b) ->
  dsoc_ok (dsoc b) -> 0 <= sleep_dischrg_sec b < 2 ^ 32 ->
  exists s b', rk817_bat_sleep_dischrg b = Some (s, b') /\ rview b' = rview b /\
    0 <= dsoc b' <= dsoc b /\ 0 <= s /\ (s = 0 -> sleep_dischrg_sec b < 2 ^ 25).
Proof.
  intros Hg Hc Hr Hd Hs. unfold rk817_bat_sleep_dischrg. cbv zeta.
  destruct (sleep_calib_total b Hg Hc Hr) as (u & b1 & -> & E1 & Hr1 & Hd1). mstep.
  specialize (Hd1 Hd). assert (Hg1 : gauge_ok b1) by eauto with total.
  assert (Hd1' : dsoc_ok (dsoc b1)) by (unfold dsoc_ok in *; lia).
  set (p := if dsoc b1 <=? rsoc b1 then _ else _).
  assert (Hp : sleep_lowers b1 (sleep_dischrg_sec b) p).
  { unfold p. destruct (Z.leb_spec (dsoc b1) (rsoc b1));
      [by apply sleep_below_lowers | by apply sleep_above_lowers]. }
  clearbody p. destruct p as [s b2]. destruct Hp as (E2 & _ & Hd2 & Hs0 & Hs1). cbn [fst snd] in *.
  unfold dsoc_ok in *. destruct (sleep_reserve_lowers b2 u s) as [E3 Hd3]; [lia|].
  eexists _, _. split; [done|]. split_and!; auto; [congruence|lia..].
Qed.

End Safety.
