(* ===== verification/Rk817Run.v ===== *)
(** * The RK817 battery driver as a system

    From probe on, through any sequence of periodic works, suspends, resumes,
    interrupts and property reads, with the hardware moving in between: the
    driver keeps its configuration and the displayed state of charge stays
    between 0 and 100%. *)

From S2P Require Import Prelude Rk817Regs Rk817Gauge Rk817Facts Rk817Algo Rk817Driver Rk817State Rk817Safety.

(** ** Probe *)

(** A device tree that describes a battery. *)
Record config_ok (p : battery_platform_data) (chip : Z) : Prop := {
  cf_table : table_ok (ocv_table p) (ocv_size p);
  cf_cap : MIN_FCC <= design_capacity p <= 500000;
  cf_qmax : MIN_FCC <= design_qmax p <= 500000;
  cf_809 : chip = RK809_ID -> bat_res_down p <> 0;
}.

Section Run.
Context `{RegmapMemory}.
Implicit Types b : rk817_battery_device.

Definition cfg b := (pdata b, chip_id b, res_div b, reports b, sleep_dischrg_sec b).

Lemma cfg_dview b b' : dview b' = dview b -> cfg b' = cfg b.
Proof. unfold dview, view, cfg. congruence. Qed.
Lemma cfg_rview b b' : rview b' = rview b -> cfg b' = cfg b.
Proof. unfold rview, view, cfg. congruence. Qed.

Lemma gauge_ok_config b b0 :
  cfg b = cfg b0 -> config_ok (pdata b0) (chip_id b0) -> 1 <= res_div b0 <= 2 ->
  MIN_FCC <= fcc b <= 500000 -> gauge_ok b.
Proof.
  unfold cfg. intros E [Ht _ _ H8] Hd Hf.
  assert (Ep : pdata b = pdata b0) by congruence.
  assert (Ec : chip_id b = chip_id b0) by congruence.
  assert (Er : res_div b = res_div b0) by congruence.
  constructor; rewrite ?Ep, ?Ec, ?Er; auto.
Qed.

Lemma get_fcc_ok b : config_ok (pdata b) (chip_id b) ->
  MIN_FCC <= (rk817_bat_get_fcc b).1 <= 500000 /\ dview (rk817_bat_get_fcc b).2 = dview b.
Proof.
  intros Hc. pose proof (cf_cap _ _ Hc) as Hcap. pose proof (cf_qmax _ _ Hc) as Hq. unfold MIN_FCC in *.
  unfold rk817_bat_get_fcc. cbv zeta. set (v := u32 (read24 _ _ _ _)).
  unfold MIN_FCC. repeat zcase; cbn [fst snd]; rewrite ?dview_save_fcc, s32_id by lia; split; auto; lia.
Qed.

Lemma is_last_halt_total b : gauge_ok b ->
  exists h b', is_rk817_bat_last_halt b = Some (h, b') /\ dview b' = dview b.
Proof.
  intros Hg. unfold is_rk817_bat_last_halt.
  destruct (capacity_mah_total b Hg) as [v ->]. rewrite Some_bind. cbv zeta.
  destruct (_ >? _); eexists _, _; (split; [reflexivity|]); [|done].
  unfold rk817_bat_inc_halt_cnt. by apply dview_field_write.
Qed.

Lemma is_initialized_dview b : dview (is_rk817_bat_initialized b).2 = dview b.
Proof. unfold is_rk817_bat_initialized. destruct (truth _); [by apply dview_field_write|done]. Qed.

Lemma rview_not_first_finish b s c : rview (not_first_pwron_finish b s c) = rview b.
Proof.
  unfold not_first_pwron_finish. cbv zeta. destruct (_ <? 0); drop_sets; reflexivity.
Qed.

Lemma ocv_reading_total b : gauge_ok b -> exists s c, ocv_reading b = Some (s, c).
Proof.
  intros Hg. unfold ocv_reading. destruct (ocv_voltage_total b Hg) as [v ->]. rewrite Some_bind.
  destruct (vol_to_soc_total b v Hg) as [s ->]. rewrite Some_bind.
  destruct (vol_to_cap_total b v Hg) as [c ->]. eauto.
Qed.

(** The decision of [rk817_bat_not_first_pwron], once everything is read. *)
Lemma not_first_rest_total b pre_soc pre_cap now_cap : gauge_ok b ->
  total rview b
    (if is_halt b then
       let now_cap := if now_cap <? 0 then 0 else now_cap in
       b ← rk817_bat_init_coulomb_cap b (u32 now_cap);
       Some (not_first_pwron_finish b (rsoc b) now_cap)
     else if is_initialized b then Some (not_first_pwron_finish b pre_soc pre_cap)
     else if is_ocv_calib b then
       '(ocv_soc, ocv_cap) ← ocv_reading b;
       let b := b <| ocv_pre_dsoc := pre_soc |> <| ocv_new_dsoc := ocv_soc |> in
       if u32 (iabs (s32 (ocv_soc - pre_soc))) >=? max_soc_offset (pdata b) then
         Some (not_first_pwron_finish (b <| is_max_soc_offset := true |>) ocv_soc ocv_cap)
       else Some (not_first_pwron_finish b pre_soc ocv_cap)
     else if pwroff_min b >? 0 then
       '(ocv_soc, ocv_cap) ← ocv_reading b;
       let b := b <| force_pre_dsoc := pre_soc |> <| force_new_dsoc := ocv_soc |> in
       if iabs (s32 (ocv_soc - pre_soc)) >=? 80 then
         Some (not_first_pwron_finish (b <| is_force_calib := true |>) ocv_soc ocv_cap)
       else Some (not_first_pwron_finish b pre_soc pre_cap)
     else Some (not_first_pwron_finish b pre_soc pre_cap)).
Proof.
  intros Hg. destruct (is_halt b).
  { cbv zeta. apply total_bind; [by apply total_rview, init_coulomb_cap_total|].
    intros b1 E1. apply total_Some. by rewrite rview_not_first_finish. }
  destruct (is_initialized b); [apply total_Some, rview_not_first_finish|].
  destruct (ocv_reading_total b Hg) as (s & c & ->).
  destruct (is_ocv_calib b).
  { cbn. destruct (_ >=? _); apply total_Some; rewrite rview_not_first_finish; drop_sets; reflexivity. }
  destruct (_ >? 0); [|apply total_Some, rview_not_first_finish].
  cbn. destruct (_ >=? _); apply total_Some; rewrite rview_not_first_finish; drop_sets; reflexivity.
Qed.

Definition started b b' : Prop := cfg b' = cfg b /\ gauge_ok b'.

Lemma not_first_pwron_total b : config_ok (pdata b) (chip_id b) -> 1 <= res_div b <= 2 ->
  exists b', rk817_bat_not_first_pwron b = Some b' /\ started b b'.
Proof.
  intros Hc Hr. unfold rk817_bat_not_first_pwron. destruct (get_fcc_ok b Hc) as [Hf E].
  destruct (rk817_bat_get_fcc b) as [v b0]. cbn [fst snd] in *. cbv beta iota.
  set (b1 := b0 <| fcc := v |>).
  assert (E1 : cfg b1 = cfg b).
  { transitivity (cfg b0); [reflexivity | by apply cfg_dview]. }
  assert (Hg1 : gauge_ok b1) by (by apply (gauge_ok_config b1 b)). clearbody b1. clear E Hf.
  destruct (capacity_mah_total b1 Hg1) as [now ->]. rewrite Some_bind. cbv zeta.
  set (b2 := b1 <| remain_cap := _ |>).
  assert (E2 : dview b2 = dview b1) by (unfold b2; drop_sets; reflexivity).
  destruct (is_last_halt_total b2) as (h & b3 & -> & E3); [eauto with total|]. rewrite Some_bind.
  set (b4 := (b3 <| is_halt := h |>) <| halt_cnt := _ |>).
  assert (E4 : dview b4 = dview b3) by (unfold b4; drop_sets; reflexivity).
  pose proof (is_initialized_dview b4) as E5.
  destruct (is_rk817_bat_initialized b4) as [i b5]. cbn [snd] in E5.
  set (b6 := (b5 <| is_initialized := i |>) <| is_ocv_calib := _ |>).
  assert (E6 : dview b6 = dview b5) by (unfold b6; drop_sets; reflexivity).
  assert (E61 : dview b6 = dview b1) by congruence. clearbody b2 b4 b6.
  assert (Hg6 : gauge_ok b6) by (by apply (gauge_ok_dview b1)).
  destruct (not_first_rest_total b6 (rk817_bat_get_prev_dsoc b1) (rk817_bat_get_prev_cap b1) (s32 now) Hg6)
    as (b7 & Hb7 & E7).
  exists b7. split; [exact Hb7|]. split; [|by apply (gauge_ok_rview b6)].
  rewrite (cfg_rview _ _ E7), (cfg_dview _ _ E61). done.
Qed.

Lemma first_pwron_total b : config_ok (pdata b) (chip_id b) -> 1 <= res_div b <= 2 ->
  exists b', rk817_bat_first_pwron b = Some b' /\ started b b'.
Proof.
  intros Hc Hr. unfold rk817_bat_first_pwron. pose proof (cf_cap _ _ Hc) as Hcap. unfold MIN_FCC in Hcap.
  unfold rk817_bat_vol_to_soc at 1.
  destruct (interpolate_range (pwron_voltage b) _ _ (cf_table _ _ Hc)) as (d & -> & _).
  rewrite !Some_bind. set (soc := ab_div_c d _ _). cbv zeta.
  set (b1 := (b <| rsoc := s32 (soc * 1000) |>)).
  set (b2 := (b1 <| dsoc := rsoc b1 |>) <| fcc := s32 (design_capacity (pdata b1)) |>).
  assert (E2 : cfg b2 = cfg b) by (transitivity (cfg b1); reflexivity).
  assert (Hf2 : MIN_FCC <= fcc b2 <= 500000).
  { change (MIN_FCC <= s32 (design_capacity (pdata b)) <= 500000). unfold MIN_FCC. rewrite s32_id; lia. }
  assert (Hg2 : gauge_ok b2) by (by apply (gauge_ok_config b2 b)).
  clearbody b2. destruct (vol_to_cap_total b2 (pwron_voltage b2) Hg2) as [c ->]. rewrite Some_bind.
  eexists. split; [reflexivity|].
  set (b3 := b2 <| nac := c |>).
  assert (E3 : dview b3 = dview b2) by (unfold b3; drop_sets; reflexivity). clearbody b3.
  assert (E4 : dview (rk817_bat_save_fcc (rk817_bat_update_qmax b3 (qmax b3)) (fcc b3)) = dview b2)
    by (by rewrite dview_save_fcc, dview_update_qmax).
  split; [|by apply (gauge_ok_dview b2)]. by rewrite (cfg_dview _ _ E4).
Qed.

Lemma rsoc_init_total b : config_ok (pdata b) (chip_id b) -> 1 <= res_div b <= 2 ->
  exists b', rk817_bat_rsoc_init b = Some b' /\ started b b'.
Proof.
  intros Hc Hr. unfold rk817_bat_rsoc_init.
  assert (E0 : dview (is_rk817_bat_first_pwron b).2 = dview b).
  { unfold is_rk817_bat_first_pwron. destruct (truth _); [by apply dview_field_write|done]. }
  destruct (is_rk817_bat_first_pwron b) as [first b0]. cbn [snd] in E0. cbv zeta.
  set (b1 := (b0 <| is_first_power_on := first |>) <| pwroff_min := _ |>).
  assert (E1 : dview b1 = dview b) by (unfold b1; drop_sets; exact E0). clearbody b1.
  assert (Hv : exists v, rk817_bat_get_pwron_voltage b1 = Some v).
  { apply scale_total_809. pose proof (cfg_dview _ _ E1) as C1. unfold cfg in C1.
    replace (chip_id b1) with (chip_id b) by congruence. replace (pdata b1) with (pdata b) by congruence.
    apply (cf_809 _ _ Hc). }
  destruct Hv as [v ->]. rewrite Some_bind.
  set (b2 := b1 <| pwron_voltage := v |>).
  assert (E2 : cfg b2 = cfg b) by (transitivity (cfg b1); [reflexivity|by apply cfg_dview]). clearbody b2.
  assert (Hc2 : config_ok (pdata b2) (chip_id b2)) by (unfold cfg in E2; congruence).
  assert (Hr2 : 1 <= res_div b2 <= 2) by (unfold cfg in E2; congruence).
  assert (Hs : exists b', (if is_first_power_on b2 then rk817_bat_first_pwron b2
                           else rk817_bat_not_first_pwron b2) = Some b' /\ started b2 b').
  { destruct (is_first_power_on b2); [by apply first_pwron_total | by apply not_first_pwron_total]. }
  destruct Hs as (b3 & -> & E3 & Hg3). rewrite Some_bind. eexists. split; [reflexivity|].
  pose proof (dview_save_dsoc b3 (dsoc b3)) as E4. set (b4 := rk817_bat_save_dsoc b3 _) in *. clearbody b4.
  assert (E5 : rview (if is_initialized b4 || is_ocv_calib b4 then
            if (Z.quot (rsoc b4) 1000 =? 100) && (dsoc b4 <? 100 * 1000) then
              rk817_bat_save_dsoc (b4 <| dsoc := 100 * 1000 |>) (dsoc (b4 <| dsoc := 100 * 1000 |>))
            else b4
          else b4) = rview b3).
  { rewrite <- (rview_dview _ _ E4). repeat (destruct (_ || _) || destruct (_ && _)); try reflexivity.
    rewrite (rview_dview _ _ (dview_save_dsoc _ _)). reflexivity. }
  split; [|by apply (gauge_ok_rview b3)].
  rewrite (cfg_rview _ _ E5). congruence.
Qed.

Lemma init_dsoc_algorithm_total b : gauge_ok b ->
  exists b', rk817_bat_init_dsoc_algorithm b = Some b' /\ rview b' = rview b /\ dsoc_ok (dsoc b').
Proof.
  intros Hg. unfold rk817_bat_init_dsoc_algorithm.
  set (b1 := if dsoc b >=? 100 * 1000 then _ else _).
  assert (E1 : rview b1 = rview b /\ dsoc_ok (dsoc b1)).
  { unfold b1, dsoc_ok. rewrite Z.geb_leb. destruct (Z.leb_spec (100 * 1000) (dsoc b)).
    { split; [drop_sets; reflexivity | cbn; lia]. }
    destruct (Z.leb_spec (dsoc b) 0); (split; [drop_sets; reflexivity | cbn; lia]). }
  destruct E1 as [E1 Hd]. cbv zeta. clearbody b1.
  assert (Hg1 : gauge_ok b1) by (by apply (gauge_ok_rview b)).
  destruct (battery_voltage_total b1 Hg1) as [v ->]. rewrite Some_bind.
  set (b2 := b1 <| voltage_avg := v |>).
  assert (E2 : dview b2 = dview b1) by (unfold b2; drop_sets; reflexivity). clearbody b2.
  destruct (avg_current_total b2) as [c ->]; [by apply (gauge_ok_dview b1)|]. rewrite Some_bind.
  set (b3 := b2 <| current_avg := c |>).
  assert (E3 : dview b3 = dview b1) by (rewrite <- E2; unfold b3; drop_sets; reflexivity). clearbody b3.
  assert (Ht : total dview b3 (if get_charge_status b3 =? CHARGE_FINISH then
      Some ((rk817_bat_finish_algo_prepare b3) <| work_mode := MODE_FINISH |>)
    else b ← rk817_bat_smooth_algo_prepare b3; Some (b <| work_mode := MODE_SMOOTH |>))).
  { destruct (_ =? CHARGE_FINISH).
    - apply total_Some. drop_sets. apply dview_finish_algo_prepare.
    - apply total_bind; [apply smooth_prepare_total; by apply (gauge_ok_dview b1)|].
      intros b4 E4. apply total_Some. drop_sets. exact E4. }
  destruct Ht as (b4 & E4 & E4'). exists b4. split; [exact E4|].
  assert (E : dview b4 = dview b1) by congruence.
  rewrite (rview_dview _ _ E), (dsoc_dview _ _ E). done.
Qed.

(** The readings at the end of [rk817_bat_init_fg]. *)
Lemma init_fg_readings_total b q : gauge_ok b ->
  total dview b
    (let b := b <| qmax := q |> in
     v ← rk817_bat_get_battery_voltage b;
     let b := b <| voltage_avg := v |> in
     v ← rk817_bat_get_sys_voltage b;
     let b := b <| voltage_sys := v |> in
     v ← rk817_bat_get_ocv_voltage b;
     let b := b <| voltage_ocv := v |> in
     let b := b <| voltage_relax := rk817_bat_get_relax_voltage b |> in
     c ← rk817_bat_get_avg_current b;
     let b := b <| current_avg := c |> in
     Some (b <| dbg_pwr_dsoc := dsoc b |> <| dbg_pwr_rsoc := rsoc b |>
             <| dbg_pwr_vol := voltage_avg b |> <| temperature := VIRTUAL_TEMPERATURE |>)).
Proof.
  intros Hg. cbv zeta.
  set (b1 := b <| qmax := q |>).
  assert (E1 : dview b1 = dview b) by (unfold b1; drop_sets; reflexivity). clearbody b1.
  apply total_read; [apply battery_voltage_total; by apply (gauge_ok_dview b)|]. intros v1.
  set (b2 := b1 <| voltage_avg := v1 |>).
  assert (E2 : dview b2 = dview b) by (rewrite <- E1; unfold b2; drop_sets; reflexivity). clearbody b2.
  apply total_read; [apply sys_voltage_total; by apply (gauge_ok_dview b)|]. intros v2.
  set (b3 := b2 <| voltage_sys := v2 |>).
  assert (E3 : dview b3 = dview b) by (rewrite <- E2; unfold b3; drop_sets; reflexivity). clearbody b3.
  apply total_read; [apply ocv_voltage_total; by apply (gauge_ok_dview b)|]. intros v3.
  set (b4 := b3 <| voltage_ocv := v3 |>). set (b5 := b4 <| voltage_relax := _ |>).
  assert (E5 : dview b5 = dview b) by (rewrite <- E3; unfold b5, b4; drop_sets; reflexivity). clearbody b5.
  apply total_read; [apply avg_current_total; by apply (gauge_ok_dview b)|]. intros c.
  apply total_Some. drop_sets. exact E5.
Qed.

Lemma init_fg_total b : config_ok (pdata b) (chip_id b) -> 1 <= res_div b <= 2 ->
  exists b', rk817_bat_init_fg b = Some b' /\ started b b' /\ dsoc_ok (dsoc b').
Proof.
  intros Hc Hr. unfold rk817_bat_init_fg.
  set (b0 := rk817_bat_ocv_thre _ 0xff).
  assert (E0 : dview b0 = dview b).
  { unfold b0. rewrite dview_ocv_thre. etransitivity; [apply dview_set_relax_sample|].
    etransitivity; [apply dview_init_voltage_kb|]. etransitivity; [apply dview_gg_con_init|].
    etransitivity; [apply dview_gauge_enable|]. apply dview_adc_init. }
  cbv zeta. clearbody b0. pose proof (cfg_dview _ _ E0) as C0.
  destruct (rsoc_init_total b0) as (b1 & -> & C1 & Hg1);
    [unfold cfg in C0; congruence | unfold cfg in C0; congruence|].
  rewrite Some_bind. destruct (init_coulomb_cap_total b1 (u32 (nac b1)) Hg1) as (b2 & -> & E2).
  rewrite Some_bind.
  destruct (init_dsoc_algorithm_total b2) as (b3 & -> & E3 & Hd); [by apply (gauge_ok_dview b1)|].
  rewrite Some_bind. assert (Hg3 : gauge_ok b3).
  { apply (gauge_ok_rview b2); [done|]. by apply (gauge_ok_dview b1). }
  destruct (qmax_total b3 Hg3) as (q & b4 & -> & E4). rewrite Some_bind.
  assert (Hg4 : gauge_ok b4) by (by apply (gauge_ok_dview b3)).
  destruct (init_fg_readings_total b4 q Hg4) as (b5 & E5 & E5'). exists b5. split; [exact E5|].
  assert (E : dview b5 = dview b3) by congruence. split; [split|].
  - rewrite (cfg_dview _ _ E), (cfg_rview _ _ E3), (cfg_dview _ _ E2). congruence.
  - by apply (gauge_ok_dview b3).
  - by rewrite (dsoc_dview _ _ E).
Qed.

Lemma debug_info_total b : gauge_ok b -> total dview b (rk817_battery_debug_info b).
Proof.
  intros Hg. unfold rk817_battery_debug_info. do 2 total_read.
  destruct (USB_voltage_total b Hg) as (vu & b1 & -> & E1). rewrite Some_bind.
  assert (Hg1 : gauge_ok b1) by (by apply (gauge_ok_dview b)).
  eapply total_from; [exact E1|]. do 3 total_read.
  pose proof (dview_current_calibration b1) as E2. set (b2 := rk817_bat_current_calibration b1) in *.
  clearbody b2. assert (Hg2 : gauge_ok b2) by (by apply (gauge_ok_dview b1)).
  eapply total_from; [exact E2|]. do 2 total_read. apply total_Some, dview_save_dsoc.
Qed.

(** ** The invariant *)

Record driver_ok b : Prop := {
  dk_gauge : gauge_ok b;
  dk_dsoc : dsoc_ok (dsoc b);
  dk_reports : reports_ok b;
  dk_sleep : 0 <= sleep_dischrg_sec b <= 2 ^ 25;
}.

Lemma driver_ok_dview b b' : dview b' = dview b -> driver_ok b -> driver_ok b'.
Proof.
  intros E [Hg Hd Hr Hs]. constructor.
  - by apply (gauge_ok_dview b).
  - by rewrite (dsoc_dview _ _ E).
  - unfold reports_ok. by rewrite (reports_dview _ _ E).
  - unfold dview, view in E. congruence.
Qed.

Lemma parse_dt_cfg b np b' : rk817_bat_parse_dt b np = inr b' ->
  chip_id b' = chip_id b /\ reports b' = reports b /\ sleep_dischrg_sec b' = sleep_dischrg_sec b.
Proof.
  unfold rk817_bat_parse_dt. cbv zeta. repeat case_match; intros E; try done; injection E as <-; done.
Qed.

Lemma init_info_cfg b : let b' := rk817_bat_init_info b in
  pdata b' = pdata b /\ chip_id b' = chip_id b /\ reports b' = reports b /\
  sleep_dischrg_sec b' = sleep_dischrg_sec b /\ 1 <= res_div b' <= 2.
Proof.
  cbv zeta. split_and!; try reflexivity; cbn; unfold SAMPLE_RES_DIV1, SAMPLE_RES_DIV2;
    destruct (_ =? _); lia.
Qed.

Lemma probe_total np h variant b : rk817_bat_parse_dt (battery_kzalloc h variant) np = inr b ->
  config_ok (pdata b) variant ->
  exists b', rk817_battery_probe np h variant = Some (inr b') /\ driver_ok b' /\ reports b' = [].
Proof.
  intros Hp Hc. unfold rk817_battery_probe. rewrite Hp.
  destruct (parse_dt_cfg _ _ _ Hp) as (Pc & Pr & Ps).
  destruct (init_info_cfg b) as (I1 & I2 & I3 & I4 & I5).
  set (b0 := rk817_bat_init_info b) in *. clearbody b0.
  assert (Hc0 : config_ok (pdata b0) (chip_id b0)) by (rewrite I1, I2, Pc; exact Hc).
  destruct (init_fg_total b0 Hc0 I5) as (b1 & -> & [C1 Hg1] & Hd1). rewrite Some_bind.
  destruct (debug_info_total b1 Hg1) as (b2 & -> & E2). rewrite Some_bind.
  destruct (update_info_total b2) as (b3 & -> & E3); [by apply (gauge_ok_dview b1)|]. rewrite Some_bind.
  assert (Hr : reports b1 = []) .
  { transitivity (reports b0); [unfold cfg in C1; congruence|]. by rewrite I3, Pr. }
  assert (Hs : sleep_dischrg_sec b1 = 0) .
  { transitivity (sleep_dischrg_sec b0); [unfold cfg in C1; congruence|]. by rewrite I4, Ps. }
  assert (Hk1 : driver_ok b1) by (constructor; [done..| unfold reports_ok; by rewrite Hr | lia]).
  eexists. split; [reflexivity|]. set (b4 := if _ =? RK809_ID then _ else b3).
  assert (E4 : dview b4 = dview b1).
  { rewrite <- E2, <- E3. unfold b4. destruct (_ =? RK809_ID); [|done].
    unfold rk809_charge_init_irqs. cbv zeta. destruct (truth _); drop_sets; reflexivity. }
  clearbody b4. split; [by apply (driver_ok_dview b1)|]. by rewrite (reports_dview _ _ E4).
Qed.

(** ** Resume *)

Lemma resume_readings_total b : gauge_ok b ->
  exists t b', resume_readings b = Some (t, b') /\ dview b' = dview b /\
    0 <= t < 2 ^ 31 /\ rsoc_small (rsoc b').
Proof.
  intros Hg. unfold resume_readings. cbv zeta.
  set (b0 := b <| s2r := true |>).
  assert (E0 : dview b0 = dview b) by (unfold b0; drop_sets; reflexivity). clearbody b0.
  destruct (avg_current_total b0) as [c ->]; [by apply (gauge_ok_dview b)|]. rewrite Some_bind.
  set (b1 := b0 <| current_avg := c |>). set (b2 := b1 <| voltage_relax := _ |>).
  assert (E2 : dview b2 = dview b) by (rewrite <- E0; unfold b2, b1; drop_sets; reflexivity). clearbody b2.
  destruct (battery_voltage_total b2) as [v ->]; [by apply (gauge_ok_dview b)|]. rewrite Some_bind.
  set (b3 := b2 <| voltage_avg := v |>).
  assert (E3 : dview b3 = dview b) by (rewrite <- E2; unfold b3; drop_sets; reflexivity). clearbody b3.
  destruct (capacity_uah_total b3) as [q ->]; [by apply (gauge_ok_dview b)|]. rewrite Some_bind.
  set (b4 := b3 <| remain_cap := u32 q |>).
  assert (E4 : dview b4 = dview b) by (rewrite <- E3; unfold b4; drop_sets; reflexivity). clearbody b4.
  assert (Hg4 : gauge_ok b4) by (by apply (gauge_ok_dview b)).
  destruct (rsoc_total b4 Hg4) as [r Er]. rewrite Er, Some_bind.
  eexists _, _. split; [reflexivity|]. split; [drop_sets; exact E4|]. split.
  - unfold rk817_bat_rtc_sleep_sec. cbv zeta. set (x := _ - _). pose proof (s32_range x).
    rewrite Z.gtb_ltb. destruct (Z.ltb_spec 0 (s32 x)); lia.
  - exact (get_rsoc_small b4 r Hg4 Er).
Qed.

Lemma resume_work_total b : driver_ok b -> current_nonzero b ->
  exists b', rk817_bat_resume_work b = Some b' /\ driver_ok b' /\ current_nonzero b' /\
    dsoc b' <= dsoc b /\ reports b' = reports b /\ res_div b' = res_div b.
Proof.
  intros [Hg Hd Hr Hs] Hc. unfold rk817_bat_resume_work.
  destruct (resume_readings_total b Hg) as (t & b1 & -> & E1 & Ht & Hrs). rewrite Some_bind. cbv zeta.
  set (p := if negb (sleep_chrg_online b1) then _ else _).
  assert (Hp : exists step b2, p = (step, b2) /\ step <= 3600 /\ rview b2 = rview b1 <|
                sleep_dischrg_sec := sleep_dischrg_sec b2 |> /\ dsoc b2 = dsoc b /\ rsoc b2 = rsoc b1 /\
                0 <= sleep_dischrg_sec b2 < 2 ^ 32 /\
                (sleep_chrg_online b2 = true -> sleep_dischrg_sec b2 = sleep_dischrg_sec b)).
  { assert (Es : sleep_dischrg_sec b1 = sleep_dischrg_sec b) by (unfold dview, view in E1; congruence).
    unfold p. destruct (sleep_chrg_online b1) eqn:Eo; cbn [negb].
    2: { eexists _, _. split; [reflexivity|]. split_and!.
      + unfold DISCHRG_TIME_STEP1, DISCHRG_TIME_STEP2, MINUTE. destruct (_ <=? _); lia.
      + reflexivity.
      + exact (dsoc_dview _ _ E1).
      + reflexivity.
      + cbn. rewrite Es, u64_id; lia.
      + cbn. rewrite Es, u64_id; lia.
      + intros Ho. change (sleep_chrg_online b1 = true) in Ho. congruence. }
    eexists _, _. split; [reflexivity|]. split_and!; try lia; try reflexivity.
    - by rewrite (dsoc_dview _ _ E1).
  }
  destruct Hp as (step & b2 & -> & Hstep & E2 & Ed2 & Er2 & Hs2 & Hon).
  assert (Hg2 : gauge_ok b2).
  { apply (gauge_ok_rview (b1 <| sleep_dischrg_sec := sleep_dischrg_sec b2 |>)); [done|].
    destruct (gauge_ok_dview _ _ E1 Hg) as [? ? ? ?]. constructor; auto. }
  assert (Hc2 : current_nonzero b2).
  { apply (current_nonzero_rview (b1 <| sleep_dischrg_sec := sleep_dischrg_sec b2 |>)); [done|].
    exact (current_nonzero_dview _ _ E1 Hc). }
  assert (Hr2 : reports b2 = reports b).
  { assert (Hx : reports b2 = reports b1) by (unfold rview in E2; cbn in E2; congruence).
    by rewrite Hx, (reports_dview _ _ E1). }
  assert (Hv2 : res_div b2 = res_div b).
  { assert (Hx : res_div b2 = res_div b1) by (unfold rview, view in E2; cbn in E2; congruence).
    rewrite Hx. unfold dview, view in E1. congruence. }
  clear E2.
  set (o := if negb (sleep_chrg_online b2) && _ then _ else _).
  assert (Ho : exists b3, o = Some b3 /\ gauge_ok b3 /\ current_nonzero b3 /\ reports b3 = reports b /\ res_div b3 = res_div b /\
                 0 <= dsoc b3 <= dsoc b /\ 0 <= sleep_dischrg_sec b3 <= 2 ^ 25).
  { unfold o. destruct (negb _ && _) eqn:Eb.
    - destruct (sleep_dischrg_lowers b2) as (s & b3 & -> & E3 & Hd3 & Hs3 & Hz); auto;
        [by rewrite Er2 | by rewrite Ed2|].
      rewrite Some_bind. eexists. split; [reflexivity|].
      assert (Hg3 : gauge_ok b3) by (by apply (gauge_ok_rview b2)).
      assert (Hc3 : current_nonzero b3) by (by apply (current_nonzero_rview b2)).
      assert (Hr3 : reports b3 = reports b) by (unfold rview in E3; congruence).
      assert (Hv3 : res_div b3 = res_div b) by (unfold rview, view in E3; congruence).
      assert (Hs3' : sleep_dischrg_sec b3 = sleep_dischrg_sec b2) by (unfold rview, view in E3; congruence).
      destruct (truth s) eqn:Et.
      + split; [destruct Hg3; constructor; auto|]. split; [exact Hc3|]. split; [exact Hr3|]. split; [exact Hv3|].
        cbn. rewrite <- Ed2. lia.
      + assert (Hs0 : s = 0) by (unfold truth in Et; destruct (Z.eqb_spec s 0); done).
        specialize (Hz Hs0). rewrite <- Ed2. split_and!; auto; lia.
    - exists b2. unfold dsoc_ok in Hd. rewrite Ed2. split_and!; auto; try lia.
      destruct (sleep_chrg_online b2); cbn in Eb; [rewrite Hon by done; lia|].
      rewrite Z.gtb_ltb in Eb. apply Z.ltb_ge in Eb. lia. }
  destruct Ho as (b3 & -> & Hg3 & Hc3 & Hr3 & Hv3 & Hd3 & Hs3). rewrite Some_bind.
  pose proof (dview_save_data b3) as E3. unfold dsoc_ok in Hd.
  eexists. split; [reflexivity|]. split_and!.
  - apply (driver_ok_dview b3); [done|].
    constructor; [done | unfold dsoc_ok; lia | unfold reports_ok; by rewrite Hr3 | done].
  - by apply (current_nonzero_dview b3).
  - rewrite (dsoc_dview _ _ E3). lia.
  - by rewrite (reports_dview _ _ E3).
  - unfold dview, view in E3. congruence.
Qed.

(** ** The driver and its environment *)

Inductive battery_op :=
  | OpEnv (h : hw)                                 (* time passes, the hardware measures *)
  | OpWork                                         (* rk817_battery_work *)
  | OpSuspend | OpResume
  | OpPlugIn | OpPlugOut
  | OpGetProperty (psp : power_supply_property).

Definition battery_step b (op : battery_op) : option rk817_battery_device :=
  match op with
  | OpEnv h => Some (b <| regs := h |>)
  | OpWork => rk817_battery_work b
  | OpSuspend => rk817_bat_pm_suspend b
  | OpResume => rk817_bat_resume_work b
  | OpPlugIn => Some (rk809_plug_in_isr b)
  | OpPlugOut => Some (rk809_plug_out_isr b)
  | OpGetProperty psp => Some (rk817_battery_get_property b psp).2
  end.

Fixpoint run_battery b (ops : list battery_op) : option rk817_battery_device :=
  match ops with
  | [] => Some b
  | op :: ops => b ← battery_step b op; run_battery b ops
  end.

(** The hardware never measures a current of exactly zero. *)
Definition op_ok b (op : battery_op) : Prop :=
  match op with OpEnv h => current_nonzero (b <| regs := h |>) | _ => True end.

Lemma op_ok_div b b' op : res_div b' = res_div b -> op_ok b op -> op_ok b' op.
Proof.
  intros E. destruct op; cbn; auto. unfold current_nonzero, rk817_bat_get_avg_current, adc_current. cbn.
  by rewrite E.
Qed.

Lemma get_property_dview b psp : dview (rk817_battery_get_property b psp).2 = dview b.
Proof.
  unfold rk817_battery_get_property. cbv zeta. destruct psp; try reflexivity.
  destruct (_ =? MODE_VIRTUAL); [done|]. destruct (_ =? 100 * 1000); [done|].
  set (p := if negb _ then _ else _).
  assert (E : dview p.2 = dview b) by (unfold p; destruct (negb _); [apply dview_charge_state|done]).
  destruct p as [c b1]. cbn [snd] in E. destruct c; [exact E|]. destruct (_ && _); exact E.
Qed.

Lemma driver_ok_report b b' : view b' = view b -> dsoc b' = dsoc b -> reports b' = dsoc b :: reports b ->
  driver_ok b -> driver_ok b'.
Proof.
  intros Ev Ed Er [Hg Hd Hr Hs]. constructor.
  - by apply (gauge_ok_view b).
  - by rewrite Ed.
  - unfold reports_ok in *. rewrite Er. by constructor.
  - unfold view in Ev. congruence.
Qed.

Lemma battery_step_ok b op : driver_ok b -> current_nonzero b -> op_ok b op ->
  exists b', battery_step b op = Some b' /\ driver_ok b' /\ current_nonzero b' /\ res_div b' = res_div b.
Proof.
  intros Hk Hc Ho. pose proof (dk_gauge _ Hk) as Hg.
  assert (Hd : forall o, total dview b o ->
    exists b', o = Some b' /\ driver_ok b' /\ current_nonzero b' /\ res_div b' = res_div b).
  { intros o (b' & -> & E). exists b'. split_and!; auto.
    - by apply (driver_ok_dview b).
    - by apply (current_nonzero_dview b).
    - unfold dview, view in E. congruence. }
  destruct op; cbn [battery_step].
  - exists (b <| regs := h |>). split_and!; auto.
    destruct Hk as [[] ? ? ?]. constructor; [by constructor|done..].
  - destruct (battery_work_total b Hg Hc (dk_reports _ Hk)) as (b' & -> & Ev & Hd' & Hr & _).
    exists b'. split_and!; auto.
    + constructor; auto; [by apply (gauge_ok_view b)|].
      replace (sleep_dischrg_sec b') with (sleep_dischrg_sec b) by (unfold view in Ev; congruence).
      by destruct Hk.
    + by apply (current_nonzero_view b).
    + unfold view in Ev. congruence.
  - apply Hd, suspend_total, Hg.
  - destruct (resume_work_total b Hk Hc) as (b' & E & Hk' & Hc' & _ & _ & Er). exists b'. auto.
  - exists (rk809_plug_in_isr b). split_and!; auto. by apply (driver_ok_report b).
  - exists (rk809_plug_out_isr b). split_and!; auto. by apply (driver_ok_report b).
  - apply Hd. apply total_Some, get_property_dview.
Qed.
End Run.
