(* ===== verification/Rk817Props.v ===== *)
(** * What the RK817 battery driver guarantees

    The properties of the driver, each with a witness on a concrete register
    file; and the places where the code does not do what it means to. *)

From S2P Require Import Prelude Rk817Regs Rk817Gauge Rk817Facts Rk817Algo Rk817Driver Rk817State Rk817Safety Rk817Run.

(** ** Lemmas on the registers *)

Lemma byte_land v sh : 0 <= sh -> Z.land (Z.shiftr v sh) 0xff = (v / 2 ^ sh) mod 256.
Proof.
  intros Hs. rewrite Z.shiftr_div_pow2 by done. change 0xff with (Z.ones 8).
  by rewrite Z.land_ones by lia.
Qed.

(** Three bytes put together again. *)
Lemma lor_add x y n : 0 <= n -> 0 <= x < 2 ^ n -> 0 <= y -> Z.lor (Z.shiftl y n) x = y * 2 ^ n + x.
Proof.
  intros Hn Hx Hy. rewrite Z.shiftl_mul_pow2 by done. symmetry. apply Z.add_nocarry_lor.
  apply Z.bits_inj'. intros k Hk. rewrite Z.land_spec, Z.bits_0.
  destruct (Z.ltb_spec k n).
  - rewrite Z.mul_pow2_bits_low by lia. done.
  - rewrite (Z.testbit_eqb x) by lia. rewrite Z.div_small; [by rewrite andb_false_r|].
    split; [lia|]. eapply Z.lt_le_trans; [apply Hx|]. apply Z.pow_le_mono_r; lia.
Qed.

Lemma three_bytes v : 0 <= v < 2 ^ 24 ->
  Z.lor (Z.lor (s32 (Z.shiftl ((v / 2 ^ 16) mod 256) 16)) (s32 (Z.shiftl ((v / 2 ^ 8) mod 256) 8)))
    ((v / 2 ^ 0) mod 256) = v.
Proof.
  intros Hv. rewrite Z.pow_0_r, Z.div_1_r.
  pose proof (Z.mod_pos_bound (v / 2 ^ 16) 256 ltac:(lia)).
  pose proof (Z.mod_pos_bound (v / 2 ^ 8) 256 ltac:(lia)).
  pose proof (Z.mod_pos_bound v 256 ltac:(lia)).
  rewrite !Z.shiftl_mul_pow2 by lia. rewrite !s32_id by lia. rewrite <- !Z.shiftl_mul_pow2 by lia.
  rewrite <- Z.lor_assoc, (lor_add (v mod 256)) by lia.
  rewrite lor_add by lia.
  rewrite (Z.mod_small (v / 2 ^ 16)) by (split; [apply Z.div_pos; lia|apply Z.div_lt_upper_bound; lia]).
  change (2 ^ 16) with (256 * 256). change (2 ^ 8) with 256.
  rewrite <- Z.div_div by lia. pose proof (Z.div_mod v 256). pose proof (Z.div_mod (v / 256) 256). lia.
Qed.

Section Storage.
Context `{RegmapMemory}.
Implicit Types b : rk817_battery_device.

Lemma field_read_write_same b f v : storage (rk817_battery_reg_fields f) = true ->
  rk817_bat_field_read (rk817_bat_field_write b f v) f =
  u32 v mod field_mask (rk817_battery_reg_fields f).
Proof.
  intros Hs. unfold rk817_bat_field_read, rk817_bat_field_write. cbn [regs].
  set (h := regs b). set (g := rk817_battery_reg_fields f) in *.
  change (regs (b <| regs ::= fun h => regmap_field_write h g (u32 v) |>))
    with (regmap_field_write h g (u32 v)).
  pose proof (driver_field_wf f) as Hw. fold g in Hw.
  destruct (read_range (regmap_field_write h g (u32 v)) g Hw) as [H1 H2].
  pose proof (read_written h g (u32 v) Hs) as H3.
  destruct (regmap_field_read (regmap_field_write h g (u32 v)) g) as [ret x]. cbn [fst snd] in *.
  destruct (Z.ltb_spec ret 0); [lia|]. subst x. apply s32_id.
  assert (field_mask g <= 2 ^ 8).
  { apply field_wf_spec in Hw. unfold field_mask. apply Z.pow_le_mono_r; lia. }
  lia.
Qed.

Lemma field_read_write_other b f g v :
  overlap (rk817_battery_reg_fields f) (rk817_battery_reg_fields g) = false ->
  rk817_bat_field_read (rk817_bat_field_write b f v) g = rk817_bat_field_read b g.
Proof.
  intros Ho. unfold rk817_bat_field_read, rk817_bat_field_write.
  set (h := regs b). set (x := rk817_battery_reg_fields f) in *.
  change (regs (b <| regs ::= fun h => regmap_field_write h x (u32 v) |>))
    with (regmap_field_write h x (u32 v)).
  by rewrite (read_other h x) by (apply driver_field_wf || exact Ho).
Qed.

Lemma read_byte_same b f v sh : storage (rk817_battery_reg_fields f) = true ->
  field_mask (rk817_battery_reg_fields f) = 256 -> 0 <= sh ->
  rk817_bat_field_read (write_byte b f v sh) f = (v / 2 ^ sh) mod 256.
Proof.
  intros Hs Hm Hsh. unfold write_byte. rewrite field_read_write_same, Hm, byte_land by done.
  pose proof (Z.mod_pos_bound (v / 2 ^ sh) 256 ltac:(lia)). rewrite u32_id by lia. apply Z.mod_small. lia.
Qed.

Lemma read_byte_other b f g v sh :
  overlap (rk817_battery_reg_fields f) (rk817_battery_reg_fields g) = false ->
  rk817_bat_field_read (write_byte b f v sh) g = rk817_bat_field_read b g.
Proof. apply field_read_write_other. Qed.

Lemma read24_bytes b f2 f1 f0 v : 0 <= v < 2 ^ 24 ->
  rk817_bat_field_read b f2 = (v / 2 ^ 16) mod 256 ->
  rk817_bat_field_read b f1 = (v / 2 ^ 8) mod 256 ->
  rk817_bat_field_read b f0 = (v / 2 ^ 0) mod 256 -> read24 b f2 f1 f0 = v.
Proof. intros Hv E2 E1 E0. unfold read24. rewrite E2, E1, E0. by apply three_bytes. Qed.
End Storage.

Ltac read_back :=
  repeat match goal with
  | |- context [rk817_bat_field_read (write_byte ?b ?f ?v ?sh) ?f] =>
      rewrite (read_byte_same b f v sh) by (reflexivity || lia)
  | |- context [rk817_bat_field_read (write_byte ?b ?f ?v ?sh) ?g] =>
      rewrite (read_byte_other b f g v sh) by reflexivity
  end; reflexivity.

Section RoundTrips.
Context `{RegmapMemory}.
Implicit Types b : rk817_battery_device.

Lemma dsoc_round_trip b v : 0 <= v < 2 ^ 24 -> save_dsoc_last_soc b <> v ->
  rk817_bat_get_prev_dsoc (rk817_bat_save_dsoc b v) = v.
Proof.
  intros Hv Hne. unfold rk817_bat_save_dsoc. destruct (Z.eqb_spec (save_dsoc_last_soc b) v); [done|].
  cbv zeta. set (b' := write_byte _ SOC_REG2 v 16).
  change (rk817_bat_get_prev_dsoc b' = v).
  unfold rk817_bat_get_prev_dsoc.
  apply (read24_bytes b' SOC_REG2 SOC_REG1 SOC_REG0 v Hv); unfold b'; read_back.
Qed.

Lemma fcc_round_trip b v : 0 <= v < 2 ^ 24 ->
  read24 (rk817_bat_save_fcc b v) NEW_FCC_REG2 NEW_FCC_REG1 NEW_FCC_REG0 = v.
Proof.
  intros Hv. unfold rk817_bat_save_fcc. cbv zeta. apply (read24_bytes _ NEW_FCC_REG2 NEW_FCC_REG1 NEW_FCC_REG0 v Hv); read_back.
Qed.

(** The capacity is stored within 0 and [qmax]. *)
Definition clamp_cap b (c : Z) : Z := Z.max 0 (Z.min c (qmax b)).

Lemma cap_round_trip b c : 0 <= qmax b < 2 ^ 24 -> save_cap_old_cap b <> clamp_cap b c ->
  rk817_bat_get_prev_cap (rk817_bat_save_cap b c) = clamp_cap b c.
Proof.
  intros Hq Hne. unfold rk817_bat_save_cap. cbv zeta.
  set (c1 := if c >=? qmax b then qmax b else c). set (c2 := if c1 <=? 0 then 0 else c1).
  assert (E : c2 = clamp_cap b c).
  { unfold c2, c1, clamp_cap. rewrite Z.geb_leb.
    destruct (Z.leb_spec (qmax b) c); zcase; lia. }
  assert (Hc : 0 <= clamp_cap b c < 2 ^ 24) by (unfold clamp_cap; lia).
  rewrite E, u32_id by lia. destruct (Z.eqb_spec (save_cap_old_cap b) (clamp_cap b c)); [done|].
  set (b1 := b <| save_cap_old_cap := _ |>).
  unfold rk817_bat_get_prev_cap.
  apply (read24_bytes _ REMAIN_CAP_REG2 REMAIN_CAP_REG1 REMAIN_CAP_REG0 (clamp_cap b c) Hc); read_back.
Qed.

Lemma prev_dsoc_kept b f v sh :
  forallb (fun g => negb (overlap (rk817_battery_reg_fields f) (rk817_battery_reg_fields g)))
    [SOC_REG0; SOC_REG1; SOC_REG2] = true ->
  rk817_bat_get_prev_dsoc (write_byte b f v sh) = rk817_bat_get_prev_dsoc b.
Proof.
  cbn. rewrite !andb_true_iff, !negb_true_iff. intros (E0 & E1 & E2 & _).
  unfold rk817_bat_get_prev_dsoc, read24. by rewrite !read_byte_other.
Qed.

(** C18. What the driver keeps in the storage registers over a power cycle is
    what it finds again: the displayed state of charge, the full capacity, and
    the remaining capacity, which is first cut to the range from 0 to [qmax];
    saving the capacity leaves the saved state of charge alone.  (A value that
    equals the last one saved is not written again.) *)
Theorem saved_values_round_trip b v c :
  0 <= v < 2 ^ 24 -> save_dsoc_last_soc b <> v ->
  0 <= qmax b < 2 ^ 24 -> save_cap_old_cap b <> clamp_cap b c ->
  rk817_bat_get_prev_dsoc (rk817_bat_save_dsoc b v) = v /\
  rk817_bat_get_prev_cap (rk817_bat_save_cap b c) = clamp_cap b c /\
  rk817_bat_get_prev_dsoc (rk817_bat_save_cap b c) = rk817_bat_get_prev_dsoc b /\
  (MIN_FCC <= v <= design_qmax (pdata b) -> (rk817_bat_get_fcc (rk817_bat_save_fcc b v)).1 = v).
Proof.
  intros Hv Hd Hq Hc. split_and!; [by apply dsoc_round_trip | by apply cap_round_trip | |].
  - unfold rk817_bat_save_cap. cbv zeta. destruct (_ =? _); [done|].
    by rewrite !prev_dsoc_kept by reflexivity.
  - intros Hr. unfold rk817_bat_get_fcc. rewrite fcc_round_trip by done. cbv zeta.
    rewrite u32_id by lia. change (pdata (rk817_bat_save_fcc b v)) with (pdata b).
    destruct (Z.ltb_spec v MIN_FCC); [lia|]. rewrite Z.gtb_ltb.
    destruct (Z.ltb_spec (design_qmax (pdata b)) v); [lia|]. apply s32_id. lia.
Qed.
End RoundTrips.

(** ** A concrete driver *)

(** The first start of a phone that draws 86 mA; the registers that are not
    given are 0. *)
Definition demo_regs : regfile := {|
  reg_byte r := if r =? 0x7A then 0xFC else if r =? 0x7B then 0x18
                else if r =? 0xEB then 0x80 else if r =? 0x57 then 0x10 else 0;
  clock := 1000; rtc_clock := 5000; usb_plugged := 0; ac_plugged := 0 |}.

Definition demo_table : list Z :=
  [3400; 3500; 3550; 3600; 3620; 3640; 3660; 3680; 3700; 3720; 3740; 3760; 3790; 3820; 3850; 3890;
   3930; 3980; 4040; 4100; 4180].

Definition demo_node : device_node := {|
  of_u32_array name := if String.eqb name "ocv_table" then Some demo_table else None;
  of_u32 name := if String.eqb name "design_capacity" then Some 4000
                 else if String.eqb name "design_qmax" then Some 4200
                 else if String.eqb name "zero_algorithm_vol" then Some 3850 else None |}.

#[local] Existing Instance regfile_kernel.

Definition demo_parsed : rk817_battery_device :=
  match rk817_bat_parse_dt (battery_kzalloc demo_regs RK817_ID) demo_node with
  | inr b => b | inl _ => battery_kzalloc demo_regs RK817_ID end.

(** The device after probe. *)
Definition demo_battery : rk817_battery_device :=
  match rk817_battery_probe demo_node demo_regs RK817_ID with
  | Some (inr b) => b | _ => demo_parsed end.

Lemma demo_parse : rk817_bat_parse_dt (battery_kzalloc demo_regs RK817_ID) demo_node = inr demo_parsed.
Proof. reflexivity. Qed.

Lemma demo_table_ok : table_ok demo_table 21.
Proof. constructor; [reflexivity | lia | repeat constructor; lia]. Qed.

Lemma demo_config_ok : config_ok (pdata demo_parsed) RK817_ID.
Proof.
  constructor; [exact demo_table_ok | vm_compute; intuition discriminate.. | discriminate].
Qed.

Lemma saved_values_round_trip_witness :
  save_dsoc_last_soc demo_battery <> 76500 /\
  rk817_bat_get_prev_dsoc (rk817_bat_save_dsoc demo_battery 76500) = 76500.
Proof.
  split; [vm_compute; discriminate|].
  apply (saved_values_round_trip demo_battery 76500 2500);
    vm_compute; intuition discriminate.
Defined.

(** ** The whole driver *)

Section System.
Context `{RegmapMemory}.

(** C19. When the device tree describes a battery within the ranges of
    [config_ok] (an OCV table of at most 255 entries, capacities from 500 to
    500000 mAh, and on the RK809 a lower divider resistor), probe succeeds; and
    whatever the hardware measures afterwards, except a current of exactly zero
    ([op_ok]), no sequence of periodic works, suspends, resumes, interrupts and
    property reads divides by zero or leaves the OCV table: it returns, and
    both the displayed state of charge and every value reported to the kernel
    lie between 0 and 100%.  The exception is real: [zero_mode_division] shows
    that the estimate of the zero mode divides by the measured current. *)
Theorem battery_run_safe np h variant b :
  rk817_bat_parse_dt (battery_kzalloc h variant) np = inr b -> config_ok (pdata b) variant ->
  exists b0, rk817_battery_probe np h variant = Some (inr b0) /\ dsoc_ok (dsoc b0) /\
    forall h1 ops, Forall (op_ok b0) (OpEnv h1 :: ops) ->
      exists b', run_battery b0 (OpEnv h1 :: ops) = Some b' /\
        dsoc_ok (dsoc b') /\ Forall dsoc_ok (reports b').
Proof.
  intros Hp Hc. destruct (probe_total np h variant b Hp Hc) as (b0 & E0 & Hk & _).
  exists b0. split; [done|]. split; [apply Hk|]. intros h1 ops [Hc1 Hops]%Forall_cons.
  cbn [run_battery battery_step]. rewrite Some_bind.
  assert (Hk1 : driver_ok (b0 <| regs := h1 |>)).
  { destruct Hk as [[] ? ? ?]. constructor; [by constructor|done..]. }
  set (b1 := b0 <| regs := h1 |>) in *.
  assert (Hdiv : res_div b1 = res_div b0) by reflexivity. cbn in Hc1. fold b1 in Hc1. clearbody b1.
  revert b1 Hk1 Hc1 Hdiv. induction Hops as [|op ops Hop Hops IH]; intros b1 Hk1 Hc1 Hdiv; cbn.
  - exists b1. split_and!; auto; apply Hk1.
  - destruct (battery_step_ok b1 op Hk1 Hc1) as (b2 & -> & Hk2 & Hc2 & Hd2);
      [by apply (op_ok_div b0)|].
    rewrite Some_bind. apply IH; auto. congruence.
Qed.

(** C20. On a configured device [rk817_bat_calc_zero_linek] faults exactly when
    the measured current is zero: it divides by it to print a resistance. *)
Theorem zero_mode_division b : gauge_ok b ->
  rk817_bat_calc_zero_linek b = None <-> rk817_bat_get_avg_current b = Some 0.
Proof.
  intros Hg. split; intros E.
  - destruct (avg_current_total b Hg) as [c Ec]. rewrite Ec. f_equal.
    destruct (Z.eq_dec c 0) as [|Hne]; [done|]. exfalso.
    destruct (calc_zero_linek_lowers b Hg) as (b' & E' & _); [|congruence].
    unfold current_nonzero. rewrite Ec. congruence.
  - unfold rk817_bat_calc_zero_linek. cbv zeta.
    destruct (battery_voltage_total b Hg) as [v ->]. rewrite Some_bind, E, Some_bind. reflexivity.
Qed.

(** C21. After a long sleep the displayed state of charge is corrected for the
    charge drawn meanwhile: it falls or stays, and never below zero, whether
    it was above or below the measured one, with or without a calibration from
    the relaxed voltage; and the sleeping time is only forgotten ([s <> 0])
    when charge was accounted for. *)
Theorem sleep_only_discharges b :
  gauge_ok b -> current_nonzero b -> - 2 ^ 24 <= rsoc b <= 2 ^ 24 -> dsoc_ok (dsoc b) ->
  0 <= sleep_dischrg_sec b < 2 ^ 32 ->
  exists s b', rk817_bat_sleep_dischrg b = Some (s, b') /\ 0 <= dsoc b' <= dsoc b /\
    0 <= s /\ (s = 0 -> sleep_dischrg_sec b < 2 ^ 25) /\
    fcc b' = fcc b /\ reports b' = reports b.
Proof.
  intros Hg Hc Hr Hd Hs.
  destruct (sleep_dischrg_lowers b Hg Hc Hr Hd Hs) as (s & b' & E & Ev & Hd' & Hs0 & Hs1).
  exists s, b'. unfold rview, view in Ev. split_and!; auto; try lia; congruence.
Qed.

(** C22. What the kernel is told about the capacity is a percentage; the level
    follows it; and a real battery is full exactly at 100%. *)
Theorem reported_capacity b : driver_ok b -> bat_mode (pdata b) <> MODE_VIRTUAL ->
  exists c, (rk817_battery_get_property b POWER_SUPPLY_PROP_CAPACITY).1 = inr (intval c) /\
    0 <= c <= 100 /\ 1000 * c - 500 <= dsoc b < 1000 * c + 500 /\
    ((rk817_battery_get_property b POWER_SUPPLY_PROP_STATUS).1 = inr (status_val POWER_SUPPLY_STATUS_FULL)
       <-> dsoc b = 100 * 1000) /\
    (rk817_battery_get_property b POWER_SUPPLY_PROP_CAPACITY_LEVEL).1 =
      inr (level_val (if c =? 0 then POWER_SUPPLY_CAPACITY_LEVEL_CRITICAL
                      else if c <=? 20 then POWER_SUPPLY_CAPACITY_LEVEL_LOW
                      else if c <=? 70 then POWER_SUPPLY_CAPACITY_LEVEL_NORMAL
                      else if c <=? 90 then POWER_SUPPLY_CAPACITY_LEVEL_HIGH
                      else POWER_SUPPLY_CAPACITY_LEVEL_FULL)).
Proof.
  intros Hk Hm. pose proof (dk_dsoc _ Hk) as Hd. unfold dsoc_ok in Hd.
  unfold rk817_battery_get_property, rk817_get_capacity_leve. cbv zeta.
  destruct (Z.eqb_spec (bat_mode (pdata b)) MODE_VIRTUAL); [done|]. cbn [fst].
  exists (Z.quot (s32 (dsoc b + 500)) 1000). rewrite s32_id by lia. rewrite Z.quot_div_nonneg by lia.
  pose proof (Z.div_mod (dsoc b + 500) 1000). pose proof (Z.mod_pos_bound (dsoc b + 500) 1000).
  set (c := (dsoc b + 500) / 1000) in *. split_and!; try done; try lia.
  - destruct (Z.eqb_spec (dsoc b) (100 * 1000)); [done|]. split; [|done].
    destruct (if negb (chip_id b =? RK809_ID) then _ else _) as [cs b1].
    destruct cs; [done|]. by destruct (_ && _).
  - destruct (Z.ltb_spec c 1), (Z.eqb_spec c 0); try lia; done.
Qed.

(** Replacing the measurements, or the time slept. *)
Lemma gauge_ok_regs b h : gauge_ok b -> gauge_ok (b <| regs := h |>).
Proof. intros []. by constructor. Qed.

Lemma slept_ok b s : driver_ok b -> current_nonzero b ->
  gauge_ok (b <| sleep_dischrg_sec := s |>) /\ current_nonzero (b <| sleep_dischrg_sec := s |>) /\
  dsoc_ok (dsoc (b <| sleep_dischrg_sec := s |>)).
Proof. intros [[] Hd ? ?] Hc. split; [by constructor|]. split; [exact Hc | exact Hd]. Qed.
End System.

Definition demo_later : regfile := {|
  reg_byte r := if r =? 0x7A then 0x03 else if r =? 0x7B then 0xE8 else 0;
  clock := 9000; rtc_clock := 90000; usb_plugged := 1; ac_plugged := 0 |}.

Lemma demo_driver_ok : driver_ok demo_battery /\ current_nonzero demo_battery.
Proof.
  destruct (@probe_total regfile_kernel regfile_memory demo_node demo_regs RK817_ID demo_parsed demo_parse demo_config_ok)
    as (b & E & Hk & _).
  assert (Eb : demo_battery = b) by (unfold demo_battery; by rewrite E).
  rewrite Eb. split; [done|]. rewrite <- Eb. vm_compute. discriminate.
Qed.

Definition demo_ops : list (@battery_op regfile_kernel) :=
  [OpWork; OpSuspend; @OpEnv regfile_kernel demo_later; OpResume; OpWork].

Lemma battery_run_safe_witness :
  exists b0, rk817_battery_probe demo_node demo_regs RK817_ID = Some (inr b0) /\
    exists b', run_battery b0 (@OpEnv regfile_kernel demo_regs :: demo_ops) = Some b'.
Proof.
  destruct (@battery_run_safe regfile_kernel regfile_memory demo_node demo_regs RK817_ID demo_parsed demo_parse demo_config_ok)
    as (b0 & E & _ & Hrun).
  assert (Eb : demo_battery = b0) by (unfold demo_battery; by rewrite E).
  exists b0. split; [done|].
  destruct (Hrun demo_regs demo_ops) as (b' & E' & _);
    [|by exists b'].
  rewrite <- Eb. unfold demo_ops. repeat constructor; vm_compute; discriminate.
Defined.

(** The same device without a load. *)
Definition demo_idle : rk817_battery_device := demo_battery <| regs := {|
  reg_byte r := 0; clock := 9000; rtc_clock := 90000; usb_plugged := 0; ac_plugged := 0 |} |>.

Lemma zero_mode_division_witness : rk817_bat_calc_zero_linek demo_idle = None.
Proof.
  apply (zero_mode_division demo_idle); [|vm_compute; reflexivity].
  apply gauge_ok_regs, dk_gauge, demo_driver_ok.
Defined.

Definition demo_slept : rk817_battery_device := demo_battery <| sleep_dischrg_sec := 86400 |>.

Lemma sleep_only_discharges_witness :
  exists s b', rk817_bat_sleep_dischrg demo_slept = Some (s, b') /\ 0 <= dsoc b' <= dsoc demo_slept.
Proof.
  destruct (slept_ok demo_battery 86400 (proj1 demo_driver_ok) (proj2 demo_driver_ok)) as (Hg & Hc & Hd).
  destruct (sleep_only_discharges demo_slept Hg Hc) as (s & b' & E & Hd' & _).
  - vm_compute; intuition discriminate.
  - exact Hd.
  - vm_compute; intuition discriminate.
  - exists s, b'. exact (conj E Hd').
Defined.

Lemma reported_capacity_witness :
  bat_mode (pdata demo_battery) <> MODE_VIRTUAL /\
  exists c, (rk817_battery_get_property demo_battery POWER_SUPPLY_PROP_CAPACITY).1 = inr (intval c).
Proof.
  split; [vm_compute; discriminate|].
  destruct (reported_capacity demo_battery (proj1 demo_driver_ok)) as (c & E & _);
    [vm_compute; discriminate|]. by exists c.
Defined.
