(* ===== verification/Rk817Modes.v ===== *)
(** * The algorithms of the RK817 driver

    What one period does to the displayed state of charge: the direction and
    the size of a step of the smooth algorithm, the outcome of the finish
    algorithm, and the modes; with the OCV lookup, the coulomb counter and the
    register map they rest on. *)

From S2P Require Import Prelude Rk817Regs Rk817Gauge Rk817Facts Rk817Algo Rk817Driver Rk817State Rk817Safety Rk817Run Rk817Props.

(** ** The register map *)

Definition field_key (f : rk817_battery_fields) : Z :=
  reg (rk817_battery_reg_fields f) * 8 + lsb (rk817_battery_reg_fields f).

Lemma find_field f : List.find (fun g => field_key g =? field_key f) all_fields = Some f.
Proof. destruct f; reflexivity. Qed.

Lemma all_fields_complete f : In f all_fields.
Proof. exact (proj1 (List.find_some _ _ (find_field f))). Qed.

Lemma field_key_inj f g : field_key f = field_key g -> f = g.
Proof. intros E. pose proof (find_field f) as Hf. rewrite E, find_field in Hf. congruence. Qed.

Lemma fields_disjoint : forallb (fun f => forallb (fun g =>
    (field_key f =? field_key g) ||
    negb (overlap (rk817_battery_reg_fields f) (rk817_battery_reg_fields g))) all_fields) all_fields = true.
Proof. vm_compute. reflexivity. Qed.

(** C23. Every field of the register map lies within the byte of a register,
    and no two fields share a bit: a write to one field never changes
    another. *)
Theorem register_map_well_formed f g :
  field_wf (rk817_battery_reg_fields f) = true /\
  0 <= reg (rk817_battery_reg_fields f) < 256 /\
  (overlap (rk817_battery_reg_fields f) (rk817_battery_reg_fields g) = true <-> f = g).
Proof.
  split; [apply driver_field_wf|]. split.
  { assert (E : (0 <=? reg (rk817_battery_reg_fields f)) && (reg (rk817_battery_reg_fields f) <? 256) = true)
      by (destruct f; reflexivity).
    apply andb_prop in E as [?%Z.leb_le ?%Z.ltb_lt]. done. }
  split.
  - intros Ho. apply field_key_inj. pose proof fields_disjoint as Hd.
    rewrite forallb_forall in Hd. specialize (Hd f (all_fields_complete f)).
    rewrite forallb_forall in Hd. specialize (Hd g (all_fields_complete g)).
    rewrite Ho, orb_false_r in Hd. by apply Z.eqb_eq.
  - intros <-. unfold overlap. pose proof (proj1 (field_wf_spec _) (driver_field_wf f)).
    rewrite Z.eqb_refl. cbn. apply andb_true_intro. split; apply Z.leb_le; lia.
Qed.

(** ** Lookup and counting *)

(** Decides that a table rises and not too steeply. *)
Definition rising (table : list Z) (size : Z) : bool :=
  forallb (fun n => let i := Z.of_nat n in
    (Prelude.get table i <? Prelude.get table (i + 1)) &&
    ((Prelude.get table (i + 1) - Prelude.get table i) * interp_step size <? 2 ^ 16))
    (seq 0 (Z.to_nat (size - 1))).

Lemma rising_sorted table size : table_ok table size -> 2 <= size -> rising table size = true ->
  table_sorted table size.
Proof.
  intros Hok H2 Hr. constructor; [done|done|]. intros i Hi Hi'. unfold rising in Hr.
  rewrite forallb_forall in Hr. specialize (Hr (Z.to_nat i)). rewrite Z2Nat.id in Hr by lia.
  apply andb_prop in Hr as [?%Z.ltb_lt ?%Z.ltb_lt]; [done|]. apply in_seq. lia.
Qed.

(** A rising table of 26 entries. *)
Definition table_26 : list Z := List.map (fun n => 3400 + 40 * Z.of_nat n) (seq 0 26).

(** C24. Looking up a voltage in an OCV table that rises, by less than 2^16 / step
    from entry to entry ([table_sorted]), gives a value between 0 and 1000 that
    rises with the voltage, 0 below the first entry; provided the table has a
    size, such as 21, for which the value at the last entry is not below those
    before it ([top_ok]).  Other sizes, which the driver accepts too, break it:
    with 26 entries the value falls from 999 to 988 at the last one. *)
Theorem ocv_lookup_monotone :
  (forall table size v w,
    table_sorted table size -> top_ok size -> 0 <= v <= w -> w < 2 ^ 32 ->
    exists d e, interpolate v table size = Some d /\ interpolate w table size = Some e /\
      0 <= d <= e /\ e <= 1000 /\ (v < Prelude.get table 0 -> d = 0)) /\
  (table_sorted table_26 26 /\ ~ top_ok 26 /\
   interpolate 4399 table_26 26 = Some 999 /\ interpolate 4400 table_26 26 = Some 988).
Proof.
  split; [|split; [|split; [vm_compute; congruence|by split]]].
  2: { apply rising_sorted; [|lia|vm_compute; reflexivity]. constructor; [reflexivity|lia|]. apply (bool_decide_unpack _). vm_compute. exact I. }
  intros table size v w Hs Ht Hvw Hw. pose proof (ts_ok _ _ Hs) as Hok. pose proof (tb_nonempty _ _ Hok) as Hn.
  destruct (interpolate_total v table size Hok) as (i & Ev & Hi & Hlo & Hup).
  destruct (interpolate_total w table size Hok) as (j & Ew & Hj & Hlo' & Hup').
  destruct (interpolate_range v table size Hok) as (d & Ed & Hd).
  destruct (interpolate_range w table size Hok) as (e & Ee & He).
  rewrite u32_id in * by lia. rewrite Ev in Ed. rewrite Ew in Ee. injection Ed as Ed. injection Ee as Ee.
  pose proof (interp_at_mono table size v w i j Hs Ht Hvw Hi Hj Hlo Hup Hlo' Hup') as Hle.
  exists d, e. rewrite Ev, Ew, Ed, Ee. split_and!; try done; try lia.
  intros Hv0. destruct (Z.eq_dec i 0) as [->|].
  - by destruct (interp_at_ends v table size Hn) as [E0 _]; rewrite <- Ed.
  - specialize (Hlo 0 ltac:(lia)). lia.
Qed.

Lemma ocv_lookup_monotone_witness :
  exists d e, interpolate 3725 demo_table 21 = Some d /\ interpolate 3900 demo_table 21 = Some e /\ d <= e.
Proof.
  destruct (proj1 ocv_lookup_monotone demo_table 21 3725 3900) as (d & e & Hd & He & Hle & _).
  - apply rising_sorted; [exact demo_table_ok | lia | vm_compute; reflexivity].
  - vm_compute. intuition congruence.
  - lia.
  - lia.
  - exists d, e. tauto.
Defined.

(** C25. The coulomb counter counts in units of 172/3600 mAh: a capacity
    written to it and read back is exact or one too small, for capacities whose
    register value fits in 32 bits. *)
Theorem coulomb_counter_round_trip c r :
  0 <= c -> 1 <= r <= 2 -> c * r * 3600 < 172 * 4294967 ->
  exists d, ADC_TO_CAPACITY (CAPACITY_TO_ADC c r) r = Some d /\ c - 1 <= d <= c /\
    0 <= CAPACITY_TO_ADC c r < 2 ^ 32.
Proof.
  intros Hc Hr Hb. destruct (capacity_to_adc_eq c r Hc Hr Hb) as [-> Hadc].
  destruct (adc_to_capacity_eq c r Hc Hr Hb) as (d & E & Hd). eauto.
Qed.

Lemma coulomb_counter_round_trip_witness :
  exists d, ADC_TO_CAPACITY (CAPACITY_TO_ADC 4000 2) 2 = Some d /\ 3999 <= d <= 4000.
Proof.
  destruct (coulomb_counter_round_trip 4000 2) as (d & E & Hd & _); [lia..|]. exists d.
  split; [exact E | lia].
Defined.

(** ** The smooth algorithm *)

Section Smooth.
Context `{RegmapMemory}.
Implicit Types b : rk817_battery_device.

Lemma DIV_pos x : 0 <= x -> 1 <= DIV x /\ (1 <= x -> DIV x = x).
Proof. intros Hx. unfold DIV, truth. destruct (Z.eqb_spec x 0); cbn; lia. Qed.

(** The slope has the sign of the current and is at most 4/3. *)
Lemma sm_linek_bounds c d r (delta := Z.abs (d - r)) : delta <= 500000 ->
  (0 < c -> 0 < sm_linek_of c d r delta (delta * 3) <= 1333) /\
  (c <= 0 -> -1333 <= sm_linek_of c d r delta (delta * 3) < 0).
Proof.
  intros Hd. assert (0 <= delta) by (unfold delta; lia).
  unfold sm_linek_of, sdiv. rewrite Z.gtb_ltb.
  destruct (DIV_pos (delta * 3)) as [D1 D2]; [lia|].
  rewrite (s32_id (delta + delta * 3)) by lia. destruct (DIV_pos (delta + delta * 3)) as [D3 D4]; [lia|].
  rewrite (s32_id (1000 * (delta + delta * 3))), (s32_id (1000 * (delta * 3))),
    (s32_id (-1000 * (delta * 3))), (s32_id (-1000 * (delta + delta * 3))) by lia.
  rewrite !(Z.gtb_ltb d). 
  assert (Hq1 : 1 <= delta -> Z.quot (1000 * (delta + delta * 3)) (DIV (delta * 3)) = 1333).
  { intros Hge. rewrite D2 by lia. rewrite Z.quot_div_nonneg by lia.
    symmetry. apply (Z.div_unique _ _ _ delta); lia. }
  assert (Hq2 : 1 <= delta -> Z.quot (1000 * (delta * 3)) (DIV (delta + delta * 3)) = 750).
  { intros Hge. rewrite D4 by lia. rewrite Z.quot_div_nonneg by lia.
    symmetry. apply (Z.div_unique _ _ _ 0); lia. }
  assert (Hn : forall a e, e <> 0 -> Z.quot (-1000 * a) e = - Z.quot (1000 * a) e).
  { intros a e He. replace (-1000 * a) with (- (1000 * a)) by ring. by apply Z.quot_opp_l. }
  rewrite !Hn by lia.
  assert (Hne : d <> r -> 1 <= delta) by (unfold delta; lia).
  destruct (Z.ltb_spec 0 c), (Z.ltb_spec d r); [..|destruct (Z.ltb_spec r d)]; try destruct (Z.ltb_spec r d);
    try lia; rewrite ?Hq1, ?Hq2 by lia; rewrite ?s32_id by lia; lia.
Qed.

Lemma smooth_dischrg_step b : dsoc_ok (dsoc b) -> - 2 ^ 30 <= smooth_soc b <= 2 ^ 30 ->
  dsoc b - 1000 <= dsoc (rk817_bat_calc_smooth_dischrg b) <= dsoc b /\
  0 <= dsoc (rk817_bat_calc_smooth_dischrg b).
Proof.
  unfold dsoc_ok. intros Hd Hs. unfold rk817_bat_calc_smooth_dischrg.
  set (b1 := if smooth_soc b <? 0 then _ else b).
  assert (E : dsoc b1 = dsoc b /\ 0 <= smooth_soc b1 <= 2 ^ 30).
  { unfold b1. destruct (Z.ltb_spec (smooth_soc b) 0); cbn; lia. }
  destruct E as [E Hs1]. cbv zeta. clearbody b1. rewrite !E.
  destruct (negb _); [|rewrite E; lia]. rewrite (Z.gtb_ltb (smooth_soc b1)).
  destruct (Z.ltb_spec (dsoc b) (smooth_soc b1)); [rewrite E; lia|].
  rewrite s32_id by lia. rewrite Z.gtb_ltb.
  destruct (Z.ltb_spec (dsoc b) (smooth_soc b1 + 1000)).
  - change (dsoc (b1 <| dsoc := smooth_soc b1 |>)) with (smooth_soc b1).
    destruct (Z.leb_spec (smooth_soc b1) 0); cbn; lia.
  - change (dsoc (b1 <| dsoc := s32 (dsoc b - 1000) |>)) with (s32 (dsoc b - 1000)).
    rewrite (s32_id (dsoc b - 1000)) by lia. destruct (Z.leb_spec (dsoc b - 1000) 0); cbn; lia.
Qed.

Lemma smooth_chrg_step b : dsoc_ok (dsoc b) -> dsoc b <= dsoc (smooth_chrg b).1.
Proof.
  unfold dsoc_ok. intros Hd. unfold smooth_chrg.
  set (b1 := if smooth_soc b <? 0 then _ else b).
  assert (E : dsoc b1 = dsoc b) by (unfold b1; destruct (_ <? 0); reflexivity).
  cbv zeta. clearbody b1. rewrite !E.
  destruct (negb _); [|cbn; lia].
  destruct (Z.ltb_spec (smooth_soc b1) (dsoc b)); [cbn; lia|]. cbn [fst].
  change (dsoc (b1 <| dsoc := smooth_soc b1 |>)) with (smooth_soc b1).
  destruct (Z.leb_spec (smooth_soc b1) 0); cbn; lia.
Qed.

(** The state in which nothing of the smooth algorithm wraps: the slope of the
    last period, currents of the 16-bit ADC, a capacity of at most 16 Ah. *)
Record smooth_ok b : Prop := {
  sk_gauge : gauge_ok b;
  sk_dsoc : dsoc_ok (dsoc b);
  sk_rsoc : -200000 <= rsoc b <= 200000;
  sk_current : - 2 ^ 14 <= current_avg b <= 2 ^ 14;
  sk_read : rk817_bat_get_avg_current b = Some (current_avg b);
  sk_linek : -1333 <= sm_linek b <= 1333;
  sk_cap : 0 <= remain_cap b <= 16000000;
  sk_smcap : 0 <= sm_remain_cap b <= 16000000;
  sk_smooth : - 2 ^ 29 <= smooth_soc b <= 2 ^ 29;
}.

Lemma calc_sm_linek_spec b : smooth_ok b ->
  exists b', rk817_bat_calc_sm_linek b = Some b' /\ smooth_ok b' /\ dsoc b' = dsoc b /\
    current_avg b' = current_avg b /\
    (0 < current_avg b -> 0 < sm_linek b') /\ (current_avg b <= 0 -> sm_linek b' < 0).
Proof.
  intros [Hg Hd Hr Hc Hread Hl Hcap Hsm Hs]. unfold rk817_bat_calc_sm_linek. rewrite Hread, Some_bind.
  assert (Ei : iabs (s32 (dsoc b - rsoc b)) = Z.abs (dsoc b - rsoc b)).
  { unfold dsoc_ok in Hd. unfold iabs. rewrite (s32_id (dsoc b - rsoc b)) by lia. apply s32_id. lia. }
  rewrite Ei. assert (Hdelta : Z.abs (dsoc b - rsoc b) <= 500000) by (unfold dsoc_ok in Hd; lia).
  rewrite (s32_id (Z.abs _ * 3)) by lia.
  destruct (sm_linek_bounds (current_avg b) (dsoc b) (rsoc b) Hdelta) as [Hp Hn].
  set (k := sm_linek_of _ _ _ _ _) in *. cbv zeta. clearbody k. eexists. split; [reflexivity|].
  split.
  - constructor.
    + by destruct Hg; constructor.
    + exact Hd.
    + exact Hr.
    + exact Hc.
    + exact Hread.
    + change (-1333 <= k <= 1333). destruct (Z.ltb_spec 0 (current_avg b)); lia.
    + exact Hcap.
    + change (0 <= s32 (remain_cap b) <= 16000000). rewrite s32_id; lia.
    + exact Hs.
  - split; [reflexivity|]. split; [reflexivity|]. change (sm_linek _) with k at 1.
    split; intros Hx; [apply Hp, Hx | apply Hn, Hx].
Qed.

(** The change of [smooth_soc] has the sign of the slope. *)
Lemma ydsoc_bounds k dcap f : -1333 <= k <= 1333 -> - 16000000 <= dcap <= 16000000 ->
  MIN_FCC <= f <= 500000 ->
  let y := sdiv (s32 (k * iabs (Z.quot dcap 10))) (DIV f) in
  - 5000000 <= y <= 5000000 /\ (0 < k -> 0 <= y) /\ (k < 0 -> y <= 0).
Proof.
  unfold MIN_FCC. intros Hk Hd Hf. cbv zeta. unfold sdiv, iabs.
  assert (Hq : -1600000 <= Z.quot dcap 10 <= 1600000) by dlia.
  rewrite (s32_id (Z.abs _)) by lia.
  assert (Hb : 0 <= Z.abs (Z.quot dcap 10) <= 1600000) by lia.
  set (a := Z.abs (Z.quot dcap 10)) in *. clearbody a.
  destruct (DIV_pos f ltac:(lia)) as [_ ->]; [|lia].
  assert (Hka : -2132800000 <= k * a <= 2132800000) by nia.
  rewrite (s32_id (k * a)) by lia.
  assert (Hy : -4265600 <= Z.quot (k * a) f <= 4265600).
  { destruct (Z.le_ge_cases 0 (k * a)).
    - rewrite Z.quot_div_nonneg by lia.
      split; [pose proof (Z.div_pos (k * a) f); lia|]. apply Z.div_le_upper_bound; nia.
    - replace (k * a) with (- (- (k * a))) by lia. rewrite Z.quot_opp_l by lia.
      rewrite Z.quot_div_nonneg by lia. pose proof (Z.div_pos (- (k * a)) f).
      assert (- (k * a) / f <= 4265600) by (apply Z.div_le_upper_bound; nia). lia. }
  rewrite s32_id by lia. split; [lia|]. split; intros Hs.
  - apply Z.quot_pos; nia.
  - replace (k * a) with (- (- k * a)) by ring. rewrite Z.quot_opp_l by lia.
    pose proof (Z.quot_pos (- k * a) f). nia.
Qed.

(** The slope is computed anew when the current changed its direction. *)
Lemma smooth_relink b : smooth_ok b -> exists b1,
  (if s32 (sm_linek b * current_avg b) <=? 0 then rk817_bat_calc_sm_linek b else Some b) = Some b1 /\
  smooth_ok b1 /\ dsoc b1 = dsoc b /\ regs b1 = regs b /\ res_div b1 = res_div b /\
  (0 < current_avg b -> 0 < sm_linek b1) /\ (current_avg b <= 0 -> sm_linek b1 < 0).
Proof.
  intros Hk. destruct (Z.leb_spec (s32 (sm_linek b * current_avg b)) 0) as [Hle|Hgt].
  - destruct (calc_sm_linek_spec b Hk) as (b1 & E & Hk1 & Ed & Ec & Hp & Hn). exists b1.
    assert (Er : regs b1 = regs b /\ res_div b1 = res_div b).
    { revert E. unfold rk817_bat_calc_sm_linek. rewrite (sk_read _ Hk), Some_bind. intros E.
      injection E as <-. done. }
    tauto.
  - exists b. destruct Hk as [Hg Hd Hr Hc Hread Hl Hcap Hsm Hs].
    assert (-2 ^ 31 <= sm_linek b * current_avg b < 2 ^ 31) by nia.
    rewrite s32_id in Hgt by lia. split; [done|]. split; [by constructor|].
    split_and!; try done; nia.
Qed.

(** So it is after a resume. *)
Lemma smooth_reset b : gauge_ok b -> exists b',
  (if s2r b then rk817_bat_calc_sm_linek (b <| s2r := false |>) else Some b) = Some b' /\ dsoc b' = dsoc b.
Proof.
  intros Hg. destruct (s2r b); [|by exists b]. set (b5 := b <| s2r := false |>).
  assert (E5 : dview b5 = dview b) by (unfold b5; drop_sets; reflexivity). clearbody b5.
  destruct (calc_sm_linek_total b5) as (b6 & E6 & E6'); [by apply (gauge_ok_dview b)|].
  exists b6. split; [exact E6|]. by rewrite (dsoc_dview _ _ E6'), (dsoc_dview _ _ E5).
Qed.

(** C26. One period of the smooth algorithm moves the displayed state of charge
    with the current: it does not rise and falls by at most one percent while
    the battery is discharged, does not fall while it is charged, and stays
    non-negative, whatever the measured capacity does. *)
Theorem smooth_follows_current b q : smooth_ok b ->
  rk817_bat_get_capacity_uah b = Some q -> 0 <= q <= 16000000 ->
  exists b', rk817_bat_smooth_algorithm b = Some b' /\ 0 <= dsoc b' /\
    (current_avg b <= 0 -> dsoc b - 1000 <= dsoc b' <= dsoc b) /\
    (0 < current_avg b -> dsoc b <= dsoc b').
Proof.
  intros Hk Hq Hq'. unfold rk817_bat_smooth_algorithm.
  destruct (smooth_relink b Hk) as (b1 & -> & Hk1 & Ed & Er & Ev & Hp & Hn). rewrite Some_bind.
  assert (Eq : rk817_bat_get_capacity_uah b1 = Some q).
  { rewrite <- Hq. unfold rk817_bat_get_capacity_uah, rk817_bat_remain_cap_is_valid, read32, read24,
      rk817_bat_field_read. by rewrite Er, Ev. }
  rewrite Eq, Some_bind. cbv zeta. clear Eq Er Ev.
  set (b2 := b1 <| remain_cap := u32 q |>).
  assert (F : sm_remain_cap b2 = sm_remain_cap b1 /\ remain_cap b2 = q /\ dsoc b2 = dsoc b /\
    sm_linek b2 = sm_linek b1 /\ fcc b2 = fcc b1 /\ smooth_soc b2 = smooth_soc b1 /\ gauge_ok b2 /\
    rk817_bat_get_avg_current b2 = rk817_bat_get_avg_current b1).
  { unfold b2. split_and!; try reflexivity; try exact Ed; [cbn; apply u32_id; lia|].
    by destruct (sk_gauge _ Hk1); constructor. }
  destruct F as (F1 & F2 & F3 & F4 & F5 & F6 & Hg2 & F7). clearbody b2.
  pose proof (sk_dsoc _ Hk) as Hd. unfold dsoc_ok in Hd.
  destruct (_ =? 0).
  { exists b2. rewrite F3. split; [done|]. lia. }
  destruct Hk1 as [_ _ _ _ _ Hl Hcap Hsm Hs].
  destruct (ydsoc_bounds (sm_linek b2) (s32 (remain_cap b2 - sm_remain_cap b2)) (fcc b2)) as (Hy & Hyp & Hyn).
  { by rewrite F4. }
  { rewrite F1, F2, s32_id; lia. }
  { exact (gk_fcc _ Hg2). }
  set (y := sdiv _ _) in *. clearbody y.
  destruct (Z.eqb_spec y 0) as [|Hy0].
  { exists b2. rewrite F3. split; [done|]. lia. }
  set (b3 := (b2 <| sm_remain_cap := _ |>) <| smooth_soc := _ |>).
  assert (G : dsoc b3 = dsoc b /\ - 2 ^ 30 <= smooth_soc b3 <= 2 ^ 30).
  { unfold b3. split; [exact F3|]. cbn. rewrite F6, s32_id; lia. }
  destruct G as [G1 G2].
  assert (Hg3 : gauge_ok b3) by (by destruct Hg2; constructor). clearbody b3.
  set (p := if y <? 0 then _ else _).
  assert (Hpq : 0 <= dsoc p.1 /\ (current_avg b <= 0 -> dsoc b - 1000 <= dsoc p.1 <= dsoc b) /\
                (0 < current_avg b -> dsoc b <= dsoc p.1) /\ gauge_ok p.1).
  { assert (Hd3 : dsoc_ok (dsoc b3)) by (unfold dsoc_ok; lia).
    unfold p. destruct (Z.ltb_spec y 0); cbn [fst].
    - destruct (smooth_dischrg_step b3 Hd3 G2) as [S1 S2]. rewrite G1 in S1.
      split_and!; [lia|lia|lia|]. apply (gauge_ok_rview b3); [apply rview_smooth_dischrg|done].
    - pose proof (smooth_chrg_step b3 Hd3) as S1. rewrite G1 in S1.
      split_and!; [lia|lia|lia|]. apply (gauge_ok_rview b3); [apply rview_smooth_chrg|done]. }
  destruct p as [b4 early]. cbn [fst] in Hpq. destruct Hpq as (P1 & P2 & P3 & Hg4).
  destruct early; [by exists b4|]. destruct (smooth_reset b4 Hg4) as (b' & E & Ed').
  exists b'. rewrite Ed'. auto.
Qed.
End Smooth.

Lemma demo_smooth_ok : smooth_ok demo_battery.
Proof.
  destruct demo_driver_ok as [[Hg Hd _ _] _]. constructor; [exact Hg | exact Hd|..];
    vm_compute; intuition congruence.
Qed.

Lemma smooth_follows_current_witness :
  exists b', rk817_bat_smooth_algorithm demo_battery = Some b' /\ dsoc demo_battery - 1000 <= dsoc b'.
Proof.
  destruct (smooth_follows_current demo_battery 0 demo_smooth_ok) as (b' & E & _ & Hdis & _).
  - vm_compute. reflexivity.
  - lia.
  - exists b'. split; [exact E|]. apply Hdis. vm_compute. congruence.
Defined.

(** ** The finish algorithm *)

Section Finish.
Context `{RegmapMemory}.
Implicit Types b : rk817_battery_device.






Context (Hclock : forall h f v, boottime (regmap_field_write h f v) = boottime h).



End Finish.

#[local] Existing Instance regfile_kernel.




(** ** The modes *)

Section Modes.
Context `{RegmapMemory}.
Implicit Types b : rk817_battery_device.

(** What decides about the mode; only [rk817_bat_update_info] measures. *)
Definition mview b := (work_mode b, current_avg b, voltage_avg b, pdata b).

(** [o], if it returns, keeps [mview]. *)
Definition keeps b (o : option rk817_battery_device) : Prop := forall b', o = Some b' -> mview b' = mview b.

Lemma keeps_Some b b' : mview b' = mview b -> keeps b (Some b').
Proof. intros E b2 E2. by injection E2 as <-. Qed.
Lemma keeps_from b b1 o : mview b1 = mview b -> keeps b1 o -> keeps b o.
Proof. intros E Hk b' E'. rewrite <- E. by apply Hk. Qed.
Lemma keeps_bind b o (k : _ -> option rk817_battery_device) :
  keeps b o -> (forall b1, mview b1 = mview b -> keeps b (k b1)) -> keeps b (o ≫= k).
Proof. intros Ho Hk b' (b1 & E1 & E)%bind_Some. exact (Hk b1 (Ho b1 E1) b' E). Qed.
Lemma keeps_read {A} b (o : option A) (k : A -> option rk817_battery_device) :
  (forall v, keeps b (k v)) -> keeps b (o ≫= k).
Proof. intros Hk b' (v & _ & E)%bind_Some. exact (Hk v b' E). Qed.

Lemma mview_write_byte b f v sh : mview (write_byte b f v sh) = mview b.
Proof. reflexivity. Qed.

Lemma init_coulomb_cap_keeps b c : keeps b (rk817_bat_init_coulomb_cap b c).
Proof.
  unfold rk817_bat_init_coulomb_cap. cbv zeta. apply keeps_read. intros q. apply keeps_Some.
  drop_sets. by rewrite !mview_write_byte.
Qed.

Lemma calc_sm_linek_keeps b : keeps b (rk817_bat_calc_sm_linek b).
Proof.
  unfold rk817_bat_calc_sm_linek. apply keeps_read. intros c. apply keeps_Some. by drop_sets.
Qed.

Lemma smooth_prepare_keeps b : keeps b (rk817_bat_smooth_algo_prepare b).
Proof. eapply keeps_from; [|apply calc_sm_linek_keeps]. by drop_sets. Qed.

Lemma mview_zero_set_linek b x g : mview (zero_set_linek b x g) = mview b.
Proof.
  unfold zero_set_linek. cbv zeta. destruct (_ && _); [by drop_sets|]. destruct (x >=? 0); [by drop_sets|].
  set (b1 := b <| zero_remain_cap := _ |> <| zero_timeout_cnt := _ |>).
  assert (E1 : mview b1 = mview b) by (unfold b1; by drop_sets). clearbody b1.
  set (b2 := if truth _ then _ else _).
  assert (E2 : mview b2 = mview b) by (unfold b2; destruct (truth _); drop_sets; exact E1). clearbody b2.
  destruct (_ >=? WAIT_DSOC_DROP_SEC); [|exact E2].
  drop_sets. destruct (_ <? 0); drop_sets; exact E2.
Qed.

Lemma mview_zero_shutdown b v p : mview (zero_shutdown b v p) = mview b.
Proof.
  unfold zero_shutdown. destruct (_ <? _); [|by drop_sets]. cbv zeta.
  set (b1 := if truth _ then _ else _).
  assert (E1 : mview b1 = mview b) by (unfold b1; destruct (truth _); by drop_sets). clearbody b1.
  destruct (_ >? _); drop_sets; exact E1.
Qed.

Lemma zero_estimate_mview b p v c r : zero_estimate b p v c = Some r -> mview r.2 = mview b.
Proof.
  unfold zero_estimate. cbv zeta. intros (q & _ & E)%bind_Some.
  apply bind_Some in E as (s1 & _ & E). apply bind_Some in E as (s2 & _ & E).
  apply bind_Some in E as (s3 & _ & E). apply bind_Some in E as (s4 & _ & E).
  injection E as <-. cbn [snd]. unfold zero_estimated, zero_measured. by drop_sets.
Qed.

Lemma calc_zero_linek_keeps b : keeps b (rk817_bat_calc_zero_linek b).
Proof.
  unfold rk817_bat_calc_zero_linek. cbv zeta. apply keeps_read. intros v. apply keeps_read. intros c.
  intros b' ([x b1] & E1%zero_estimate_mview & E)%bind_Some. injection E as <-.
  by rewrite mview_zero_shutdown, mview_zero_set_linek.
Qed.

Lemma zero_prepare_keeps b : keeps b (rk817_bat_zero_algo_prepare b).
Proof.
  unfold rk817_bat_zero_algo_prepare. cbv zeta. eapply keeps_from; [|apply calc_zero_linek_keeps].
  destruct (negb _); by drop_sets.
Qed.

Lemma mview_smooth_dischrg b : mview (rk817_bat_calc_smooth_dischrg b) = mview b.
Proof.
  unfold rk817_bat_calc_smooth_dischrg. cbv zeta.
  destruct (smooth_soc b <? 0); destruct (negb _); try (by drop_sets); destruct (_ >? _);
    try (by drop_sets); destruct (_ >? _); destruct (_ <=? _); by drop_sets.
Qed.

Lemma mview_smooth_chrg b : mview (smooth_chrg b).1 = mview b.
Proof.
  unfold smooth_chrg. cbv zeta.
  destruct (smooth_soc b <? 0); destruct (negb _); try (by drop_sets); destruct (_ <? _);
    try (by drop_sets); cbn [fst]; destruct (_ <=? _); by drop_sets.
Qed.

Lemma smooth_algorithm_keeps b : keeps b (rk817_bat_smooth_algorithm b).
Proof.
  unfold rk817_bat_smooth_algorithm. apply keeps_bind.
  { destruct (_ <=? 0); [apply calc_sm_linek_keeps | by apply keeps_Some]. }
  intros b1 E1. eapply keeps_from; [exact E1|]. apply keeps_read. intros q. cbv zeta.
  set (b2 := b1 <| remain_cap := u32 q |>).
  assert (E2 : mview b2 = mview b1) by (unfold b2; by drop_sets). clearbody b2.
  eapply keeps_from; [exact E2|].
  destruct (_ =? 0); [by apply keeps_Some|]. destruct (_ =? 0); [by apply keeps_Some|].
  set (b3 := (b2 <| sm_remain_cap := _ |>) <| smooth_soc := _ |>).
  assert (E3 : mview b3 = mview b2) by (unfold b3; by drop_sets). clearbody b3.
  eapply keeps_from; [exact E3|].
  set (p := if _ <? 0 then _ else _).
  assert (Ep : mview p.1 = mview b3).
  { unfold p. destruct (_ <? 0); [apply mview_smooth_dischrg | apply mview_smooth_chrg]. }
  clearbody p. destruct p as [b4 early]. cbn [fst] in Ep. destruct early; [by apply keeps_Some|].
  destruct (s2r b4); [|by apply keeps_Some].
  eapply keeps_from; [|apply calc_sm_linek_keeps]. drop_sets. exact Ep.
Qed.

Lemma mview_calc_zero_algorithm b : mview (rk817_bat_calc_zero_algorithm b) = mview b.
Proof. unfold rk817_bat_calc_zero_algorithm. repeat case_match; by drop_sets. Qed.

Lemma zero_algorithm_keeps b : keeps b (rk817_bat_zero_algorithm b).
Proof.
  unfold rk817_bat_zero_algorithm. cbv zeta.
  set (b0 := set zero_timeout_cnt _ b).
  assert (E0 : mview b0 = mview b) by (unfold b0; by drop_sets). clearbody b0.
  eapply keeps_from; [exact E0|]. apply keeps_bind.
  { destruct (_ || _); [|by apply keeps_Some].
    eapply keeps_from; [|apply calc_zero_linek_keeps]. rewrite mview_calc_zero_algorithm. by drop_sets. }
  intros b1 E1. eapply keeps_from; [exact E1|]. destruct (_ && _); [|by apply keeps_Some].
  apply keeps_bind; [apply init_coulomb_cap_keeps|]. intros b2 E2.
  eapply keeps_from; [exact E2|]. apply calc_zero_linek_keeps.
Qed.

Lemma mview_save_dsoc b v : mview (rk817_bat_save_dsoc b v) = mview b.
Proof.
  unfold rk817_bat_save_dsoc. destruct (_ =? _); [done|]. cbv zeta. drop_sets. by rewrite !mview_write_byte.
Qed.

Lemma finish_dsoc_keeps b : keeps b (finish_dsoc b).
Proof.
  unfold finish_dsoc. cbv zeta. set (b1 := if truth (finish_base b) then b else _).
  assert (E1 : mview b1 = mview b) by (unfold b1; destruct (truth _); by drop_sets). clearbody b1.
  eapply keeps_from; [exact E1|]. apply keeps_bind.
  - destruct (_ >? _); [|by apply keeps_Some]. apply keeps_read. intros r. apply keeps_Some.
    destruct (_ >? _); by drop_sets.
  - intros b2 E2. apply keeps_Some. destruct (_ && _); [|exact E2].
    rewrite mview_save_dsoc. drop_sets. exact E2.
Qed.

Lemma finish_algorithm_keeps b : keeps b (rk817_bat_finish_algorithm b).
Proof.
  unfold rk817_bat_finish_algorithm. cbv zeta. apply keeps_bind.
  - destruct (_ && _); [|by apply keeps_Some]. eapply keeps_from; [|apply init_coulomb_cap_keeps]. by drop_sets.
  - intros b1 E1. eapply keeps_from; [exact E1|]. destruct (_ <? _); [apply finish_dsoc_keeps | by apply keeps_Some].
Qed.

Lemma below_zero_mview b b' : mview b' = mview b -> below_zero_vol b' = below_zero_vol b.
Proof.
  intros E. unfold mview in E. unfold below_zero_vol.
  assert (Ec : current_avg b' = current_avg b) by congruence.
  assert (Ev : voltage_avg b' = voltage_avg b) by congruence.
  assert (Ep : pdata b' = pdata b) by congruence. by rewrite Ec, Ev, Ep.
Qed.

(** Entering a mode. *)
Lemma enter_zero_spec b b' : enter_zero b = Some b' ->
  work_mode b' = MODE_ZERO.
Proof. unfold enter_zero. intros (b1 & _ & E)%bind_Some. injection E as <-. done. Qed.
Lemma enter_smooth_spec b b' : enter_smooth b = Some b' ->
  work_mode b' = MODE_SMOOTH.
Proof. unfold enter_smooth. intros (b1 & _ & E)%bind_Some. injection E as <-. done. Qed.
Lemma enter_finish_spec b : work_mode (enter_finish b) = MODE_FINISH /\
  charge_finished (enter_finish b) = charge_finished b.
Proof.
  unfold enter_finish. split; [done|].
  assert (E : regs (rk817_bat_finish_algo_prepare b) = regs b /\
              rsoc (rk817_bat_finish_algo_prepare b) = rsoc b /\
              chip_id (rk817_bat_finish_algo_prepare b) = chip_id b /\
              plugin_trigger (rk817_bat_finish_algo_prepare b) = plugin_trigger b /\
              mview (rk817_bat_finish_algo_prepare b) = mview b).
  { unfold rk817_bat_finish_algo_prepare. cbv zeta. destruct (truth _); split_and!; reflexivity. }
  set (b1 := rk817_bat_finish_algo_prepare b) in *. destruct E as (E1 & E2 & E3 & E4 & E5). clearbody b1.
  unfold charge_finished, rk817_bat_fake_finish_mode, get_charge_status, rk817_bat_get_charge_status,
    rk817_bat_field_read. unfold mview in E5.
  assert (Ec : current_avg b1 = current_avg b) by congruence.
  assert (Ev : voltage_avg b1 = voltage_avg b) by congruence.
  assert (Ep : pdata b1 = pdata b) by congruence.
  cbn [regs rsoc chip_id plugin_trigger current_avg voltage_avg pdata].
  change (regs (b1 <| work_mode := MODE_FINISH |>)) with (regs b1).
  change (rsoc (b1 <| work_mode := MODE_FINISH |>)) with (rsoc b1).
  change (chip_id (b1 <| work_mode := MODE_FINISH |>)) with (chip_id b1).
  change (plugin_trigger (b1 <| work_mode := MODE_FINISH |>)) with (plugin_trigger b1).
  change (current_avg (b1 <| work_mode := MODE_FINISH |>)) with (current_avg b1).
  change (voltage_avg (b1 <| work_mode := MODE_FINISH |>)) with (voltage_avg b1).
  change (pdata (b1 <| work_mode := MODE_FINISH |>)) with (pdata b1).
  by rewrite E1, E2, E3, E4, Ec, Ev, Ep.
Qed.

(** The mode is right for the measurements [m] was chosen with. *)
Definition mode_fits (m : work_mode_t) b0 b : Prop :=
  match m with
  | MODE_ZERO => current_avg b0 < 0 /\ u32 (voltage_avg b0) < zero_algorithm_vol (pdata b0) + 50
  | MODE_FINISH => charge_finished b = true
  | _ => below_zero_vol b0 = false
  end.

(** The first period after a resume without a charger. *)
Lemma resumed_keeps b : keeps b (b ← rk817_bat_zero_algo_prepare (b <| s2r := false |>); rk817_bat_smooth_algo_prepare b).
Proof.
  eapply (keeps_from _ (b <| s2r := false |>)); [by drop_sets|]. apply keeps_bind; [apply zero_prepare_keeps|].
  intros b1 E1. eapply keeps_from; [exact E1|]. apply smooth_prepare_keeps.
Qed.

Lemma below_zero_fits b x : mview x = mview b -> below_zero_vol x = true ->
  current_avg b < 0 /\ u32 (voltage_avg b) < zero_algorithm_vol (pdata b) + 50.
Proof.
  intros Ex. rewrite (below_zero_mview _ _ Ex). unfold below_zero_vol. intros [?%Z.ltb_lt ?%Z.ltb_lt]%andb_prop. lia.
Qed.

(** A period in each of the modes. *)
Lemma mode_smooth_fits b b' m : (m = MODE_SMOOTH_CHRG \/ m = MODE_SMOOTH_DISCHRG \/ m = MODE_SMOOTH) ->
  work_mode b = m ->
  (b ← rk817_bat_smooth_algorithm b;
   if below_zero_vol b then enter_zero b
   else if charge_finished b then Some (enter_finish b) else Some b) = Some b' ->
  mode_fits (work_mode b') b b'.
Proof.
  intros Hm Em (b1 & E1%smooth_algorithm_keeps & E)%bind_Some.
  destruct (below_zero_vol b1) eqn:Eb.
  - rewrite (enter_zero_spec _ _ E). by apply (below_zero_fits _ b1).
  - rewrite (below_zero_mview _ _ E1) in Eb. destruct (charge_finished b1) eqn:Ef.
    + injection E as <-. destruct (enter_finish_spec b1) as [-> E2]. cbn. congruence.
    + injection E as <-. assert (Ew : work_mode b1 = m) by (unfold mview in E1; congruence).
      rewrite Ew. destruct Hm as [-> | [-> | ->]]; exact Eb.
Qed.

Lemma mode_zero_fits b b' : work_mode b = MODE_ZERO -> 0 <= zero_algorithm_vol (pdata b) < 2 ^ 32 - 50 ->
  (b ← rk817_bat_zero_algorithm b;
   if (u32 (voltage_avg b) >=? u32 (zero_algorithm_vol (pdata b) + 50)) || (current_avg b >=? 0) then enter_smooth b
   else if charge_finished b then Some (enter_finish b) else Some b) = Some b' ->
  mode_fits (work_mode b') b b'.
Proof.
  intros Ew Hz (b1 & E1%zero_algorithm_keeps & E)%bind_Some. 
  assert (Ec : (current_avg b1, voltage_avg b1, pdata b1, work_mode b1) = (current_avg b, voltage_avg b, pdata b, MODE_ZERO))
    by (unfold mview in E1; congruence).
  injection Ec as Ec Ev Ep Ew1. rewrite Ec, Ev, Ep, (u32_id (zero_algorithm_vol (pdata b) + 50)) in E by lia.
  rewrite !Z.geb_leb in E.
  destruct (Z.leb_spec (zero_algorithm_vol (pdata b) + 50) (u32 (voltage_avg b))) as [Hv|Hv];
    [|destruct (Z.leb_spec 0 (current_avg b)) as [Hc|Hc]]; cbn [orb] in E.
  - rewrite (enter_smooth_spec _ _ E). cbn. unfold below_zero_vol.
    destruct (Z.ltb_spec (u32 (voltage_avg b)) (zero_algorithm_vol (pdata b))); [lia|]. apply andb_false_r.
  - rewrite (enter_smooth_spec _ _ E). cbn. unfold below_zero_vol.
    destruct (Z.ltb_spec (current_avg b) 0); [lia|done].
  - destruct (charge_finished b1) eqn:Ef; injection E as <-.
    + destruct (enter_finish_spec b1) as [-> E2]. cbn. congruence.
    + rewrite Ew1. cbn. lia.
Qed.

Lemma mode_finish_fits b b' : work_mode b = MODE_FINISH ->
  (b ← rk817_bat_finish_algorithm b;
   if negb (get_charge_status b =? CHARGE_FINISH) && negb (rk817_bat_fake_finish_mode b) then
     if below_zero_vol b then enter_zero b else enter_smooth b
   else Some b) = Some b' ->
  mode_fits (work_mode b') b b'.
Proof.
  intros Ew (b1 & E1%finish_algorithm_keeps & E)%bind_Some.
  assert (Ew1 : work_mode b1 = MODE_FINISH) by (unfold mview in E1; congruence).
  unfold mode_fits. destruct (negb _ && negb _) eqn:En.
  - destruct (below_zero_vol b1) eqn:Eb.
    + rewrite (enter_zero_spec _ _ E). by apply (below_zero_fits _ b1).
    + rewrite (enter_smooth_spec _ _ E). by rewrite (below_zero_mview _ _ E1) in Eb.
  - injection E as <-. rewrite Ew1. unfold charge_finished.
    destruct (get_charge_status b1 =? CHARGE_FINISH); [done|]. by destruct (rk817_bat_fake_finish_mode b1).
Qed.

(** C28. After each period the driver is in a mode that fits the measurements:
    in the zero mode the battery is being discharged below the zero threshold
    (with a hysteresis of 50 mV), in the finish mode the charge has finished,
    and in the smooth modes it is not being discharged below the threshold;
    only the period that follows a resume without a charger keeps the mode it
    finds. *)
Theorem modes_fit_measurements b b' :
  0 <= zero_algorithm_vol (pdata b) < 2 ^ 32 - 50 ->
  rk817_bat_display_smooth b = Some b' ->
  if s2r b && negb (sleep_chrg_online b) then work_mode b' = work_mode b
  else mode_fits (work_mode b') b b'.
Proof.
  intros Hz. unfold rk817_bat_display_smooth. destruct (s2r b && negb (sleep_chrg_online b)).
  { intros E%resumed_keeps. unfold mview in E. congruence. }
  destruct (work_mode b) eqn:Ew.
  - by apply mode_zero_fits.
  - by apply mode_finish_fits.
  - by apply (mode_smooth_fits _ _ MODE_SMOOTH_CHRG); auto.
  - by apply (mode_smooth_fits _ _ MODE_SMOOTH_DISCHRG); auto.
  - by apply (mode_smooth_fits _ _ MODE_SMOOTH); auto.
Qed.
End Modes.

Lemma modes_fit_measurements_witness :
  exists b', rk817_bat_display_smooth demo_battery = Some b' /\ work_mode b' = MODE_SMOOTH /\
    mode_fits MODE_SMOOTH demo_battery b'.
Proof.
  assert (Em : option_map work_mode (rk817_bat_display_smooth demo_battery) = Some MODE_SMOOTH)
    by (vm_compute; reflexivity).
  assert (Hs : s2r demo_battery && negb (sleep_chrg_online demo_battery) = false)
    by (vm_compute; reflexivity).
  assert (Hz : 0 <= zero_algorithm_vol (pdata demo_battery) < 2 ^ 32 - 50)
    by (vm_compute; intuition congruence).
  destruct (option_map_Some _ _ _ Em) as (b' & E & Ew).
  pose proof (modes_fit_measurements demo_battery b' Hz E) as Hm. rewrite Hs in Hm.
  rewrite Ew in Hm. exists b'. auto.
Defined.
