(* ===== verification/Rk817Charger.v ===== *)
(** * The RK817 charger driver

    Model of src/.../Power/Supply/rk817_charger.c: the charge and input limits
    programmed into the chip, the cables and adapters the driver tracks, the
    power it gives to a USB device (OTG), and its life from probe to shutdown.

    The state is the C structure with, next to it, what the calls into the
    kernel leave behind: the depth to which each interrupt is disabled, the
    queued works and the registered notifiers.  A work, an interrupt handler
    or a callback is one step; debug output is left out. *)

From S2P Require Import Prelude Rk817Regs Rk817Gauge Rk817Driver.

Definition DISABLE : Z := 0x00.
Definition OTG_SLP_ENABLE : Z := 0x01.
Definition OTG_SLP_DISABLE : Z := 0x00.
Definition OTG_DISABLE : Z := 0x10.
Definition RK817_BOOST_ENABLE : Z := 0x11.
Definition RK817_BOOST_DISABLE : Z := 0x10.
Definition DEFAULT_INPUT_VOLTAGE : Z := 4500.
Definition DEFAULT_INPUT_CURRENT : Z := 2000.
Definition DEFAULT_CHRG_VOLTAGE : Z := 4200.
Definition DEFAULT_CHRG_CURRENT : Z := 1400.
Definition DEFAULT_CHRG_TERM_MODE : Z := 1.
Definition DEFAULT_CHRG_TERM_CUR : Z := 150.
Definition SAMPLE_RES_10MR : Z := 10.
Definition INPUT_450MA : Z := 450.
Definition INPUT_1500MA : Z := 1500.
Definition ENODEV : Z := 19.
Definition ENOMEM : Z := 12.

Definition CURRENT_TO_ADC (current samp_res : Z) : Z :=
  Z.quot (s32 (s32 (current * 1000) * samp_res)) 172.

(** ** Levels of the chip *)

Inductive charge_current :=
  | CHRG_CUR_1000MA | CHRG_CUR_1500MA | CHRG_CUR_2000MA | CHRG_CUR_2500MA | CHRG_CUR_2750MA
  | CHRG_CUR_3000MA | CHRG_CUR_3500MA | CHRG_CUR_500MA.

Definition charge_current_code (c : charge_current) : Z :=
  match c with
  | CHRG_CUR_1000MA => 0 | CHRG_CUR_1500MA => 1 | CHRG_CUR_2000MA => 2 | CHRG_CUR_2500MA => 3
  | CHRG_CUR_2750MA => 4 | CHRG_CUR_3000MA => 5 | CHRG_CUR_3500MA => 6 | CHRG_CUR_500MA => 7
  end.

Definition CHRG_VOL_4100MV : Z := 0.
Definition INPUT_VOL_4000MV : Z := 0.

Inductive input_current :=
  | INPUT_CUR_450MA | INPUT_CUR_80MA | INPUT_CUR_850MA | INPUT_CUR_1500MA | INPUT_CUR_1750MA
  | INPUT_CUR_2000MA | INPUT_CUR_2500MA | INPUT_CUR_3000MA.

Definition input_current_code (c : input_current) : Z :=
  match c with
  | INPUT_CUR_450MA => 0 | INPUT_CUR_80MA => 1 | INPUT_CUR_850MA => 2 | INPUT_CUR_1500MA => 3
  | INPUT_CUR_1750MA => 4 | INPUT_CUR_2000MA => 5 | INPUT_CUR_2500MA => 6 | INPUT_CUR_3000MA => 7
  end.

Inductive charge_term_sel := CHRG_TERM_150MA | CHRG_TERM_200MA | CHRG_TERM_300MA | CHRG_TERM_400MA.

Definition charge_term_code (c : charge_term_sel) : Z :=
  match c with
  | CHRG_TERM_150MA => 0 | CHRG_TERM_200MA => 1 | CHRG_TERM_300MA => 2 | CHRG_TERM_400MA => 3
  end.

(** enum charge_clk and enum charge_term_mode *)
Definition CHRG_CLK_2M : Z := 1.
Definition CHRG_ANALOG : Z := 0.

Inductive charger_t :=
  | USB_TYPE_UNKNOWN_CHARGER | USB_TYPE_NONE_CHARGER | USB_TYPE_USB_CHARGER | USB_TYPE_AC_CHARGER
  | USB_TYPE_CDP_CHARGER | DC_TYPE_DC_CHARGER | DC_TYPE_NONE_CHARGER.
#[global] Instance charger_t_eq_dec : EqDecision charger_t.
Proof. solve_decision. Defined.

(** enum charger_state *)
Definition OFFLINE : Z := 0.
Definition ONLINE : Z := 1.

(** ** Register fields *)

Inductive rk817_charge_fields :=
  | BOOST_EN | OTG_EN | OTG_SLP_EN | CHRG_CLK_SEL | CHRG_EN | CHRG_VOL_SEL | CHRG_CT_EN
  | CHRG_CUR_SEL | USB_VLIM_EN | USB_VLIM_SEL | USB_ILIM_EN | USB_ILIM_SEL | SYS_CAN_SD
  | USB_SYS_EN | BAT_OVP_EN | CHRG_TERM_ANA_DIG | CHRG_TERM_ANA_SEL | CHRG_TERM_DIG | BAT_HTS_TS
  | BAT_LTS_TS | CHRG_TIMER_TRIKL_EN | CHRG_TIMER_TRIKL | CHRG_TIMER_CCCV_EN | CHRG_TIMER_CCCV
  | BAT_EXS | CHG_STS | BAT_OVP_STS | CHRG_IN_CLAMP | USB_EXS | USB_EFF | BAT_DIS_ILIM_STS
  | BAT_SYS_CMP_DLY | BAT_DIS_ILIM_EN | BAT_DISCHRG_ILIM | PLUG_IN_STS | SOC_REG0 | SOC_REG1
  | SOC_REG2.
#[global] Instance charge_fields_eq_dec : EqDecision rk817_charge_fields.
Proof. solve_decision. Defined.

Definition rk817_charge_reg_fields (f : rk817_charge_fields) : reg_field :=
  match f with
  | SOC_REG0 => REG_FIELD 0x9A 0 7
  | SOC_REG1 => REG_FIELD 0x9B 0 7
  | SOC_REG2 => REG_FIELD 0x9C 0 7
  | BOOST_EN => REG_FIELD 0xB4 1 5
  | OTG_EN => REG_FIELD 0xB4 2 6
  | OTG_SLP_EN => REG_FIELD 0xB5 6 6
  | CHRG_EN => REG_FIELD 0xE4 7 7
  | CHRG_VOL_SEL => REG_FIELD 0xE4 4 6
  | CHRG_CT_EN => REG_FIELD 0xE4 3 3
  | CHRG_CUR_SEL => REG_FIELD 0xE4 0 2
  | USB_VLIM_EN => REG_FIELD 0xE5 7 7
  | USB_VLIM_SEL => REG_FIELD 0xE5 4 6
  | USB_ILIM_EN => REG_FIELD 0xE5 3 3
  | USB_ILIM_SEL => REG_FIELD 0xE5 0 2
  | SYS_CAN_SD => REG_FIELD 0xE6 7 7
  | USB_SYS_EN => REG_FIELD 0xE6 6 6
  | BAT_OVP_EN => REG_FIELD 0xE6 3 3
  | CHRG_TERM_ANA_DIG => REG_FIELD 0xE6 2 2
  | CHRG_TERM_ANA_SEL => REG_FIELD 0xE6 0 1
  | CHRG_TERM_DIG => REG_FIELD 0xE7 0 7
  | BAT_HTS_TS => REG_FIELD 0xE8 0 7
  | BAT_LTS_TS => REG_FIELD 0xE9 0 7
  | CHRG_TIMER_TRIKL_EN => REG_FIELD 0xEA 7 7
  | CHRG_TIMER_TRIKL => REG_FIELD 0xEA 4 6
  | CHRG_TIMER_CCCV_EN => REG_FIELD 0xEA 3 3
  | CHRG_TIMER_CCCV => REG_FIELD 0xEA 0 2
  | BAT_EXS => REG_FIELD 0xEB 7 7
  | CHG_STS => REG_FIELD 0xEB 4 6
  | BAT_OVP_STS => REG_FIELD 0xEB 3 3
  | CHRG_IN_CLAMP => REG_FIELD 0xEB 2 2
  | USB_EXS => REG_FIELD 0xEB 1 1
  | USB_EFF => REG_FIELD 0xEB 0 0
  | BAT_DIS_ILIM_STS => REG_FIELD 0xEC 6 6
  | BAT_SYS_CMP_DLY => REG_FIELD 0xEC 4 5
  | BAT_DIS_ILIM_EN => REG_FIELD 0xEC 3 3
  | BAT_DISCHRG_ILIM => REG_FIELD 0xEC 0 2
  | PLUG_IN_STS => REG_FIELD 0xF0 6 6
  | CHRG_CLK_SEL => REG_FIELD 0xF3 6 6
  end.

(** ** The kernel around the driver *)

(** The cables an extcon device knows, as far as the driver names them, and
    the events of the battery charging detection. *)
Inductive extcon_id :=
  EXTCON_CHG_USB_SDP | EXTCON_CHG_USB_DCP | EXTCON_CHG_USB_CDP | EXTCON_USB_VBUS_EN | EXTCON_USB.
#[global] Instance extcon_id_eq_dec : EqDecision extcon_id.
Proof. solve_decision. Defined.

Inductive bc_port_type :=
  | USB_BC_TYPE_DISCNT | USB_BC_TYPE_SDP | USB_BC_TYPE_DCP | USB_BC_TYPE_CDP | USB_BC_TYPE_UNKNOWN
  | USB_OTG_POWER_ON | USB_OTG_POWER_OFF.

(** The regulator of the 5V output, the detection pin of the DC jack and the
    extcon device; none is part of the repository. *)
Class Platform `{Kernel} := {
  regulator_is_enabled : hw -> Z;
  (** the return code and the hardware after the call *)
  regulator_enable : hw -> Z * hw;
  regulator_disable : hw -> Z * hw;
  gpio_is_valid : Z -> bool;
  gpio_get_value : hw -> Z -> Z;
  extcon_get_state : hw -> extcon_id -> Z;
}.

Inductive work := dc_work | usb_work | host_work | discnt_work | irq_work.
#[global] Instance work_eq_dec : EqDecision work.
Proof. solve_decision. Defined.

(** The functions [usb_work] is initialised with. *)
Inductive usb_worker := CHARGER_EVT | BC_EVT.

Inductive notifier_block := bc_nb | cable_cg_nb | cable_host_nb | cable_discnt_nb.
#[global] Instance notifier_block_eq_dec : EqDecision notifier_block.
Proof. solve_decision. Defined.

Inductive power_supply := ac_psy | usb_psy.

Inductive irq_trigger := IRQF_TRIGGER_LOW | IRQF_TRIGGER_HIGH.

(** ** State *)

Record charger_platform_data := {
  pd_max_input_current : Z;
  pd_min_input_voltage : Z;
  pd_max_chrg_current : Z;
  pd_max_chrg_voltage : Z;
  pd_chrg_finish_cur : Z;
  pd_chrg_term_mode : Z;
  power_dc2otg : Z;
  dc_det_level : Z;
  dc_det_pin : Z;
  support_dc_det : bool;
  virtual_power : Z;
  pd_sample_res : Z;
  otg5v_suspend_enable : Z;
  extcon : bool;
  gate_function_disable : Z;
}.

Section State.
Context `{Kernel}.

(** [plugin_depth] and [plugout_depth] count the [disable_irq] calls that were
    not undone; [irq_unbalanced] records an [enable_irq] of an interrupt that
    was not disabled, which the kernel warns about; [notifiers] holds the
    registered notifier blocks (the battery charging detection is [None]);
    [changed] lists the calls of [power_supply_changed]. *)
Record rk817_charger := {
  regs : hw;
  pdata : charger_platform_data;
  bc_event : bc_port_type;
  usb_charger : charger_t;
  dc_charger : charger_t;
  ac_in : Z;
  usb_in : Z;
  otg_in : Z;
  dc_in : Z;
  prop_status : power_supply_status;
  max_input_current : Z;
  min_input_voltage : Z;
  max_chrg_current : Z;
  max_chrg_voltage : Z;
  chrg_finish_cur : Z;
  chrg_term_mode : Z;
  res_div : Z;
  otg_slp_state : Z;
  plugin_trigger : Z;
  plugout_trigger : Z;
  plugin_depth : Z;
  plugout_depth : Z;
  irq_unbalanced : bool;
  dc_irq : option irq_trigger;
  usb_work_fn : option usb_worker;
  pending : list work;
  notifiers : list (option extcon_id * notifier_block);
  changed : list power_supply;
}.

#[global] Instance eta_charger : Eta rk817_charger := fun c =>
  Build_rk817_charger (regs c) (pdata c) (bc_event c) (usb_charger c) (dc_charger c) (ac_in c)
    (usb_in c) (otg_in c) (dc_in c) (prop_status c) (max_input_current c) (min_input_voltage c)
    (max_chrg_current c) (max_chrg_voltage c) (chrg_finish_cur c) (chrg_term_mode c) (res_div c)
    (otg_slp_state c) (plugin_trigger c) (plugout_trigger c) (plugin_depth c) (plugout_depth c)
    (irq_unbalanced c) (dc_irq c) (usb_work_fn c) (pending c) (notifiers c) (changed c).
End State.

Section Charger.
Context `{Platform}.
Implicit Types c : rk817_charger.

(** ** Properties *)

Definition rk817_charge_ac_get_property c (psp : power_supply_property) : Z + propval :=
  match psp with
  | POWER_SUPPLY_PROP_ONLINE =>
      inr (intval (if truth (virtual_power (pdata c)) then 1 else Z.lor (ac_in c) (dc_in c)))
  | POWER_SUPPLY_PROP_STATUS =>
      inr (status_val (if truth (virtual_power (pdata c)) then POWER_SUPPLY_STATUS_CHARGING
                       else prop_status c))
  | POWER_SUPPLY_PROP_VOLTAGE_MAX => inr (intval (s32 (max_chrg_voltage c * 1000)))
  | POWER_SUPPLY_PROP_CURRENT_MAX => inr (intval (s32 (max_chrg_current c * 1000)))
  | _ => inl (- EINVAL)
  end.

Definition rk817_charge_usb_get_property c (psp : power_supply_property) : Z + propval :=
  match psp with
  | POWER_SUPPLY_PROP_ONLINE =>
      inr (intval (if truth (virtual_power (pdata c)) then 1 else usb_in c))
  | POWER_SUPPLY_PROP_STATUS =>
      inr (status_val (if truth (virtual_power (pdata c)) then POWER_SUPPLY_STATUS_CHARGING
                       else prop_status c))
  | POWER_SUPPLY_PROP_VOLTAGE_MAX => inr (intval (s32 (max_chrg_voltage c)))
  | POWER_SUPPLY_PROP_CURRENT_MAX => inr (intval (s32 (max_chrg_current c)))
  | _ => inl (- EINVAL)
  end.

(** ** Field access *)

Definition rk817_charge_field_read c (field_id : rk817_charge_fields) : Z :=
  let '(ret, val) := regmap_field_read (regs c) (rk817_charge_reg_fields field_id) in
  if ret <? 0 then ret else s32 val.

Definition rk817_charge_field_write c (field_id : rk817_charge_fields) (val : Z) : rk817_charger :=
  c <| regs ::= fun h => regmap_field_write h (rk817_charge_reg_fields field_id) (u32 val) |>.

Definition rk817_charge_get_otg_state c : Z := regulator_is_enabled (regs c).

Definition rk817_charge_boost_disable c : rk817_charger :=
  rk817_charge_field_write c BOOST_EN RK817_BOOST_DISABLE.
Definition rk817_charge_boost_enable c : rk817_charger :=
  rk817_charge_field_write c BOOST_EN RK817_BOOST_ENABLE.

(** A failure is only logged. *)
Definition rk817_charge_otg_disable c : rk817_charger :=
  c <| regs := snd (regulator_disable (regs c)) |>.
Definition rk817_charge_otg_enable c : rk817_charger :=
  c <| regs := snd (regulator_enable (regs c)) |>.

Definition rk817_charge_get_otg_slp_state c : Z :=
  Z.land (rk817_charge_field_read c OTG_SLP_EN) OTG_SLP_ENABLE.
Definition rk817_charge_otg_slp_disable c : rk817_charger :=
  rk817_charge_field_write c OTG_SLP_EN OTG_SLP_DISABLE.
Definition rk817_charge_otg_slp_enable c : rk817_charger :=
  rk817_charge_field_write c OTG_SLP_EN OTG_SLP_ENABLE.

Definition rk817_charge_enable_charge c : rk817_charger :=
  rk817_charge_field_write c CHRG_EN ENABLE.
Definition rk817_charge_usb_to_sys_enable c : rk817_charger :=
  rk817_charge_field_write c USB_SYS_EN ENABLE.
Definition rk817_charge_sys_can_sd_disable c : rk817_charger :=
  rk817_charge_field_write c SYS_CAN_SD DISABLE.
Definition rk817_charge_get_plug_in_status c : Z := rk817_charge_field_read c PLUG_IN_STS.
Definition rk817_charge_set_charge_clock c (clock : Z) : rk817_charger :=
  rk817_charge_field_write c CHRG_CLK_SEL clock.
Definition is_battery_exist c : Z := rk817_charge_field_read c BAT_EXS.

(** ** Limits *)

Definition rk817_charge_set_chrg_voltage c (chrg_vol : Z) : rk817_charger :=
  if (chrg_vol <? 4100) || (chrg_vol >? 4500) then c
  else
    let voltage := Z.quot (chrg_vol - 4100) 50 in
    rk817_charge_field_write c CHRG_VOL_SEL (CHRG_VOL_4100MV + voltage).

Definition chrg_current_level (chrg_current : Z) : charge_current :=
  if chrg_current <? 1000 then CHRG_CUR_500MA
  else if chrg_current <? 1500 then CHRG_CUR_1000MA
  else if chrg_current <? 2000 then CHRG_CUR_1500MA
  else if chrg_current <? 2500 then CHRG_CUR_2000MA
  else if chrg_current <? 3000 then CHRG_CUR_2500MA
  else if chrg_current <? 3500 then CHRG_CUR_3000MA
  else CHRG_CUR_3500MA.

Definition rk817_charge_set_chrg_current c (chrg_current : Z) : rk817_charger :=
  rk817_charge_field_write c CHRG_CUR_SEL (charge_current_code (chrg_current_level chrg_current)).

Definition rk817_charge_vlimit_enable c : rk817_charger :=
  rk817_charge_field_write c USB_VLIM_EN ENABLE.

Definition rk817_charge_set_input_voltage c (input_voltage : Z) : rk817_charger :=
  let voltage := INPUT_VOL_4000MV + Z.quot (s32 (input_voltage - 4000)) 100 in
  let c := rk817_charge_field_write c USB_VLIM_SEL voltage in
  rk817_charge_vlimit_enable c.

Definition rk817_charge_ilimit_enable c : rk817_charger :=
  rk817_charge_field_write c USB_ILIM_EN ENABLE.

Definition input_current_level (current : Z) : input_current :=
  if current <? 450 then INPUT_CUR_80MA
  else if current <? 850 then INPUT_CUR_450MA
  else if current <? 1500 then INPUT_CUR_850MA
  else if current <? 1750 then INPUT_CUR_1500MA
  else if current <? 2000 then INPUT_CUR_1750MA
  else if current <? 2500 then INPUT_CUR_2000MA
  else if current <? 3000 then INPUT_CUR_2500MA
  else INPUT_CUR_3000MA.

Definition rk817_charge_set_input_current c (input_current : Z) : rk817_charger :=
  let c := rk817_charge_field_write c USB_ILIM_SEL
             (input_current_code (input_current_level input_current)) in
  rk817_charge_ilimit_enable c.

Definition rk817_charge_set_chrg_term_mod c (mode : Z) : rk817_charger :=
  rk817_charge_field_write c CHRG_TERM_ANA_DIG mode.

Definition term_current_level (chrg_current : Z) : charge_term_sel :=
  if chrg_current <? 200 then CHRG_TERM_150MA
  else if chrg_current <? 300 then CHRG_TERM_200MA
  else if chrg_current <? 400 then CHRG_TERM_300MA
  else CHRG_TERM_400MA.

Definition rk817_charge_set_term_current_analog c (chrg_current : Z) : rk817_charger :=
  rk817_charge_field_write c CHRG_TERM_ANA_SEL (charge_term_code (term_current_level chrg_current)).

Definition rk817_charge_set_term_current_digital c (chrg_current : Z) : rk817_charger :=
  let value := CURRENT_TO_ADC chrg_current (res_div c) in
  let value := Z.land value (Z.shiftl 0xff 5) in
  let current_adc := u8 (Z.shiftr value 5) in
  rk817_charge_field_write c CHRG_TERM_DIG current_adc.

Definition rk817_charge_set_chrg_finish_condition c : rk817_charger :=
  let c := if chrg_term_mode c =? CHRG_ANALOG
           then rk817_charge_set_term_current_analog c (s32 (chrg_finish_cur c))
           else rk817_charge_set_term_current_digital c (s32 (chrg_finish_cur c)) in
  rk817_charge_set_chrg_term_mod c (s32 (chrg_term_mode c)).

(** ** Cables and adapters *)

Definition rk817_charge_online c : Z := Z.lor (Z.lor (ac_in c) (usb_in c)) (dc_in c).

Definition rk817_charge_get_dsoc c : Z :=
  let soc_save := rk817_charge_field_read c SOC_REG0 in
  let soc_save := Z.lor soc_save (s32 (Z.shiftl (rk817_charge_field_read c SOC_REG1) 8)) in
  let soc_save := Z.lor soc_save (s32 (Z.shiftl (rk817_charge_field_read c SOC_REG2) 16)) in
  Z.quot soc_save 1000.

Definition rk817_charge_set_otg_in c (online : Z) : rk817_charger := c <| otg_in := u8 online |>.

(** The pair of notifications the cases of [rk817_charge_set_chrg_param] end with. *)
Definition psy_changed c : rk817_charger :=
  c <| changed ::= fun l => l ++ [usb_psy; ac_psy] |>.

Definition chrg_param_case c (charger : charger_t) : rk817_charger :=
  match charger with
  | USB_TYPE_NONE_CHARGER =>
      let c := c <| usb_in := 0 |> <| ac_in := 0 |> in
      let c := if dc_in c =? 0 then
                 let c := c <| prop_status := POWER_SUPPLY_STATUS_DISCHARGING |> in
                 rk817_charge_set_input_current c INPUT_450MA
               else c in
      psy_changed c
  | USB_TYPE_USB_CHARGER =>
      let c := c <| usb_in := 1 |> <| ac_in := 0 |>
                 <| prop_status := POWER_SUPPLY_STATUS_CHARGING |> in
      let c := if dc_in c =? 0 then rk817_charge_set_input_current c INPUT_450MA else c in
      psy_changed c
  | USB_TYPE_AC_CHARGER | USB_TYPE_CDP_CHARGER =>
      let c := c <| ac_in := 1 |> <| usb_in := 0 |>
                 <| prop_status := POWER_SUPPLY_STATUS_CHARGING |> in
      let c := if decide (charger = USB_TYPE_AC_CHARGER)
               then rk817_charge_set_input_current c (s32 (max_input_current c))
               else rk817_charge_set_input_current c INPUT_1500MA in
      psy_changed c
  | DC_TYPE_DC_CHARGER =>
      let c := c <| dc_in := 1 |> <| prop_status := POWER_SUPPLY_STATUS_CHARGING |> in
      psy_changed (rk817_charge_set_input_current c (s32 (max_input_current c)))
  | DC_TYPE_NONE_CHARGER =>
      let c := c <| dc_in := 0 |> in
      let c := if negb (truth (rk817_charge_get_plug_in_status c)) then
                 let c := c <| ac_in := 0 |> <| usb_in := 0 |>
                            <| prop_status := POWER_SUPPLY_STATUS_DISCHARGING |> in
                 rk817_charge_set_input_current c INPUT_450MA
               else if truth (usb_in c) then
                 let c := rk817_charge_set_input_current c INPUT_450MA in
                 c <| prop_status := POWER_SUPPLY_STATUS_CHARGING |>
               else c in
      psy_changed c
  | USB_TYPE_UNKNOWN_CHARGER =>
      let c := c <| prop_status := POWER_SUPPLY_STATUS_DISCHARGING |> in
      rk817_charge_set_input_current c INPUT_450MA
  end.

Definition rk817_charge_set_chrg_param c (charger : charger_t) : rk817_charger :=
  let c := chrg_param_case c charger in
  if truth (rk817_charge_online c) && (rk817_charge_get_dsoc c =? 100)
  then c <| prop_status := POWER_SUPPLY_STATUS_FULL |> else c.

(** ** OTG power *)

(** [disable_irq] and [enable_irq] of the two plug interrupts. *)
Definition disable_plug_irqs c : rk817_charger :=
  c <| plugin_depth ::= Z.add 1 |> <| plugout_depth ::= Z.add 1 |>.

Definition enable_plug_irqs c : rk817_charger :=
  let bad := (plugin_depth c <=? 0) || (plugout_depth c <=? 0) in
  c <| plugin_depth ::= fun d => Z.max 0 (d - 1) |>
    <| plugout_depth ::= fun d => Z.max 0 (d - 1) |>
    <| irq_unbalanced ::= fun old => old || bad |>.

Definition otg_power_on c : rk817_charger :=
  if truth (otg_in c) then c
  else
    let enabled := truth (rk817_charge_get_otg_state c) in
    let c := if enabled then c else rk817_charge_otg_enable c in
    if negb enabled && negb (truth (rk817_charge_get_otg_state c)) then c
    else disable_plug_irqs c.

Definition otg_power_off c : rk817_charger :=
  if negb (truth (otg_in c)) then c
  else
    let enabled := truth (rk817_charge_get_otg_state c) in
    let c := if enabled then rk817_charge_otg_disable c else c in
    if enabled && truth (rk817_charge_get_otg_state c) then c
    else enable_plug_irqs c.

Definition rk817_charge_set_otg_state c (state : bc_port_type) : rk817_charger :=
  match state with
  | USB_OTG_POWER_ON => otg_power_on c
  | USB_OTG_POWER_OFF => otg_power_off c
  | _ => c
  end.

(** ** Works *)

(** [queue_delayed_work]: a work that is pending already is not queued again. *)
Definition queue_delayed_work c (w : work) : rk817_charger :=
  c <| pending ::= fun l => if decide (w ∈ l) then l else l ++ [w] |>.

Definition rk817_charge_dc_det_isr c : rk817_charger :=
  let c := c <| dc_irq := Some (if truth (gpio_get_value (regs c) (dc_det_pin (pdata c)))
                                then IRQF_TRIGGER_LOW else IRQF_TRIGGER_HIGH) |> in
  queue_delayed_work c dc_work.

Definition rk817_charge_get_dc_state c : charger_t :=
  if negb (gpio_is_valid (dc_det_pin (pdata c))) then DC_TYPE_NONE_CHARGER
  else if u32 (gpio_get_value (regs c) (dc_det_pin (pdata c))) =? dc_det_level (pdata c)
  then DC_TYPE_DC_CHARGER else DC_TYPE_NONE_CHARGER.

Definition rk817_charge_dc_det_worker c : rk817_charger :=
  if decide (rk817_charge_get_dc_state c = DC_TYPE_DC_CHARGER) then
    let c := rk817_charge_set_chrg_param c DC_TYPE_DC_CHARGER in
    let c := if truth (otg_in c) && truth (power_dc2otg (pdata c))
             then rk817_charge_set_otg_state c USB_OTG_POWER_OFF else c in
    rk817_charge_boost_disable c
  else
    let c := rk817_charge_set_chrg_param c DC_TYPE_NONE_CHARGER in
    let c := rk817_charge_boost_enable c in
    if truth (otg_in c) then rk817_charge_set_otg_state c USB_OTG_POWER_ON else c.

Definition rk817_charge_host_evt_worker c : rk817_charger :=
  if extcon_get_state (regs c) EXTCON_USB_VBUS_EN >? 0 then
    let c := if truth (dc_in c) && truth (power_dc2otg (pdata c)) then
               if truth (otg_in c) then rk817_charge_set_otg_state c USB_OTG_POWER_OFF else c
             else rk817_charge_set_otg_state c USB_OTG_POWER_ON in
    rk817_charge_set_otg_in c ONLINE
  else if extcon_get_state (regs c) EXTCON_USB_VBUS_EN =? 0 then
    let c := rk817_charge_set_otg_state c USB_OTG_POWER_OFF in
    rk817_charge_set_otg_in c OFFLINE
  else c.

Definition rk817_charger_evt_worker c : rk817_charger :=
  let charger :=
    if extcon_get_state (regs c) EXTCON_CHG_USB_SDP >? 0 then USB_TYPE_USB_CHARGER
    else if extcon_get_state (regs c) EXTCON_CHG_USB_DCP >? 0 then USB_TYPE_AC_CHARGER
    else if extcon_get_state (regs c) EXTCON_CHG_USB_CDP >? 0 then USB_TYPE_CDP_CHARGER
    else USB_TYPE_UNKNOWN_CHARGER in
  if decide (charger = USB_TYPE_UNKNOWN_CHARGER) then c
  else
    let c := c <| usb_charger := charger |> in
    rk817_charge_set_chrg_param c charger.

Definition rk817_charge_discnt_evt_worker c : rk817_charger :=
  if extcon_get_state (regs c) EXTCON_USB =? 0
  then rk817_charge_set_chrg_param c USB_TYPE_NONE_CHARGER else c.

Definition rk817_charge_bc_evt_worker c : rk817_charger :=
  match bc_event c with
  | USB_BC_TYPE_DISCNT => rk817_charge_set_chrg_param c USB_TYPE_NONE_CHARGER
  | USB_BC_TYPE_SDP => rk817_charge_set_chrg_param c USB_TYPE_USB_CHARGER
  | USB_BC_TYPE_DCP => rk817_charge_set_chrg_param c USB_TYPE_AC_CHARGER
  | USB_BC_TYPE_CDP => rk817_charge_set_chrg_param c USB_TYPE_CDP_CHARGER
  | USB_OTG_POWER_ON =>
      if truth (power_dc2otg (pdata c)) && truth (dc_in c) then c
      else rk817_charge_set_otg_state c USB_OTG_POWER_ON
  | USB_OTG_POWER_OFF => rk817_charge_set_otg_state c USB_OTG_POWER_OFF
  | USB_BC_TYPE_UNKNOWN => c
  end.

Definition rk817_charger_evt_notifier c : rk817_charger := queue_delayed_work c usb_work.
Definition rk817_charge_host_evt_notifier c : rk817_charger := queue_delayed_work c host_work.
Definition rk817_charge_discnt_evt_notfier c : rk817_charger := queue_delayed_work c discnt_work.
Definition rk817_charge_bc_evt_notifier c (event : bc_port_type) : rk817_charger :=
  queue_delayed_work (c <| bc_event := event |>) usb_work.

Definition rk817_charge_irq_delay_work c : rk817_charger :=
  if truth (plugin_trigger c) then
    let c := c <| plugin_trigger := 0 |> in
    if extcon (pdata c) then queue_delayed_work c usb_work else c
  else if truth (plugout_trigger c) then
    let c := c <| plugout_trigger := 0 |> in
    let c := rk817_charge_set_chrg_param c USB_TYPE_NONE_CHARGER in
    rk817_charge_set_chrg_param c DC_TYPE_NONE_CHARGER
  else c.

Definition rk817_plug_in_isr c : rk817_charger :=
  queue_delayed_work (c <| plugin_trigger := 1 |>) irq_work.
Definition rk817_plug_out_isr c : rk817_charger :=
  queue_delayed_work (c <| plugout_trigger := 1 |>) irq_work.

(** ** The device tree *)

(** The node of the charger: its integer properties, whether it names an
    extcon device, and the detection pin of the DC jack, when the property is
    there: the pin and whether it is active low. *)
Record charger_node := {
  dt_node : device_node;
  dt_extcon : bool;
  dt_dc_det_gpio : option (Z * bool);
}.

Local Open Scope string_scope.
Local Open Scope Z_scope.

Definition rk817_charge_parse_dt c (alloc : bool) (np : charger_node) : Z * rk817_charger :=
  if negb alloc then (- ENOMEM, c)
  else
    let dt name old := dt_u32 (dt_node np) name old in
    let pin := default (0, false) (dt_dc_det_gpio np) in
    let p := {|
      extcon := dt_extcon np;
      pd_max_chrg_current := dt "max_chrg_current" DEFAULT_CHRG_CURRENT;
      pd_max_input_current := dt "max_input_current" DEFAULT_INPUT_CURRENT;
      pd_max_chrg_voltage := dt "max_chrg_voltage" DEFAULT_CHRG_VOLTAGE;
      pd_min_input_voltage := dt "min_input_voltage" DEFAULT_INPUT_VOLTAGE;
      pd_chrg_finish_cur := dt "chrg_finish_cur" DEFAULT_CHRG_TERM_CUR;
      pd_chrg_term_mode := dt "chrg_term_mode" DEFAULT_CHRG_TERM_MODE;
      virtual_power := if truth (is_battery_exist c) then dt "virtual_power" 0 else 1;
      power_dc2otg := dt "power_dc2otg" 0;
      pd_sample_res := dt "sample_res" SAMPLE_RES_10MR;
      otg5v_suspend_enable := dt "otg5v_suspend_enable" 1;
      gate_function_disable := dt "gate_function_disable" 0;
      support_dc_det := bool_decide (is_Some (dt_dc_det_gpio np));
      dc_det_pin := pin.1;
      dc_det_level :=
        if bool_decide (is_Some (dt_dc_det_gpio np)) && gpio_is_valid pin.1
        then b2z (negb pin.2) else 0;
    |} in
    let c := c <| pdata := p |>
      <| res_div := if pd_sample_res p =? SAMPLE_RES_10MR then SAMPLE_RES_DIV1
                    else SAMPLE_RES_DIV2 |> in
    if support_dc_det p && negb (gpio_is_valid (dc_det_pin p)) then (- EINVAL, c) else (0, c).

(** ** Probe *)

Definition rk817_charge_pre_init c : rk817_charger :=
  let c := c <| max_chrg_current := pd_max_chrg_current (pdata c) |>
             <| max_input_current := pd_max_input_current (pdata c) |>
             <| max_chrg_voltage := pd_max_chrg_voltage (pdata c) |>
             <| min_input_voltage := pd_min_input_voltage (pdata c) |>
             <| chrg_finish_cur := pd_chrg_finish_cur (pdata c) |>
             <| chrg_term_mode := pd_chrg_term_mode (pdata c) |> in
  let c := rk817_charge_set_input_voltage c (s32 (min_input_voltage c)) in
  let c := rk817_charge_set_chrg_voltage c (s32 (max_chrg_voltage c)) in
  let c := rk817_charge_set_chrg_current c (s32 (max_chrg_current c)) in
  let c := rk817_charge_set_chrg_finish_condition c in
  let c := if truth (rk817_charge_get_otg_state c) then rk817_charge_otg_disable c else c in
  let c := rk817_charge_field_write c OTG_EN OTG_DISABLE in
  let c := rk817_charge_set_otg_in c OFFLINE in
  let c := if negb (truth (gate_function_disable (pdata c)))
           then rk817_charge_sys_can_sd_disable c else c in
  let c := rk817_charge_usb_to_sys_enable c in
  let c := rk817_charge_enable_charge c in
  rk817_charge_set_charge_clock c CHRG_CLK_2M.

(** What the kernel answers to the requests made in probe: return codes, a
    missing extcon device, and the port the detection sees at registration. *)
Record probe_env := {
  of_match : bool;
  kzalloc_charge : bool;
  regmap_ok : bool;
  regmap_field_alloc : Z;
  kzalloc_pdata : bool;
  register_psy : power_supply -> Z;
  devm_gpio_request : Z;
  gpio_direction_input : Z;
  request_dc_irq : Z;
  extcon_get_edev : Z;
  extcon_register : extcon_id -> Z;
  bc_register : Z;
  bc_port : bc_port_type;
  plug_in_virq : Z;
  plug_out_virq : Z;
  request_plug_in : Z;
  request_plug_out : Z;
}.

Definition rk817_charge_init_power_supply (env : probe_env) : Z :=
  if register_psy env usb_psy <? 0 then register_psy env usb_psy
  else if register_psy env ac_psy <? 0 then register_psy env ac_psy
  else 0.

Definition rk817_charge_init_dc (env : probe_env) c : Z * rk817_charger :=
  let c := c <| dc_charger := DC_TYPE_NONE_CHARGER |> in
  if negb (support_dc_det (pdata c)) then (0, c)
  else if devm_gpio_request env <? 0 then (devm_gpio_request env, c)
  else if truth (gpio_direction_input env) then (gpio_direction_input env, c)
  else
    let level := gpio_get_value (regs c) (dc_det_pin (pdata c)) in
    let c := c <| dc_charger := if u32 level =? dc_det_level (pdata c)
                                then DC_TYPE_DC_CHARGER else DC_TYPE_NONE_CHARGER |> in
    if truth (request_dc_irq env) then (request_dc_irq env, c)
    else
      let c := c <| dc_irq := Some (if truth level then IRQF_TRIGGER_LOW
                                    else IRQF_TRIGGER_HIGH) |> in
      (0, if decide (dc_charger c = DC_TYPE_NONE_CHARGER) then c
          else rk817_charge_set_chrg_param c (dc_charger c)).

Definition register_notifier c (n : option extcon_id * notifier_block) : rk817_charger :=
  c <| notifiers ::= cons n |>.
Definition unregister_notifier c (n : option extcon_id * notifier_block) : rk817_charger :=
  c <| notifiers ::= filter (fun m => m <> n) |>.
Definition unregister_notifiers c (l : list (option extcon_id * notifier_block)) : rk817_charger :=
  fold_left unregister_notifier l c.

Definition sdp_nb : option extcon_id * notifier_block := (Some EXTCON_CHG_USB_SDP, cable_cg_nb).
Definition dcp_nb : option extcon_id * notifier_block := (Some EXTCON_CHG_USB_DCP, cable_cg_nb).
Definition cdp_nb : option extcon_id * notifier_block := (Some EXTCON_CHG_USB_CDP, cable_cg_nb).
Definition vbus_nb : option extcon_id * notifier_block := (Some EXTCON_USB_VBUS_EN, cable_host_nb).
Definition usb_nb : option extcon_id * notifier_block := (Some EXTCON_USB, cable_discnt_nb).

(** The branch of [rk817_charge_usb_init] for a type-C port. *)
Definition usb_init_extcon (env : probe_env) c : Z * rk817_charger :=
  let reg := extcon_register env in
  if extcon_get_edev env <? 0 then (extcon_get_edev env, c)
  else
    let c := c <| usb_work_fn := Some CHARGER_EVT |> in
    if reg EXTCON_CHG_USB_SDP <? 0 then (reg EXTCON_CHG_USB_SDP, c)
    else
    let c := register_notifier c sdp_nb in
    if reg EXTCON_CHG_USB_DCP <? 0
    then (reg EXTCON_CHG_USB_DCP, unregister_notifiers c [sdp_nb])
    else
    let c := register_notifier c dcp_nb in
    if reg EXTCON_CHG_USB_CDP <? 0
    then (reg EXTCON_CHG_USB_CDP, unregister_notifiers c [sdp_nb; dcp_nb])
    else
    let c := register_notifier c cdp_nb in
    if reg EXTCON_USB_VBUS_EN <? 0
    then (reg EXTCON_USB_VBUS_EN, unregister_notifiers c [sdp_nb; dcp_nb; cdp_nb])
    else
    let c := register_notifier c vbus_nb in
    if reg EXTCON_USB <? 0
    then (reg EXTCON_USB, unregister_notifiers c [sdp_nb; dcp_nb; cdp_nb; vbus_nb])
    else (0, register_notifier c usb_nb).

(** The branch for the battery charging detection. *)
Definition usb_init_bc (env : probe_env) c : Z * rk817_charger :=
  let c := c <| usb_work_fn := Some BC_EVT |> in
  if truth (bc_register env) then (- EINVAL, c)
  else
    let c := register_notifier c (None, bc_nb) in
    let charger := match bc_port env with
                   | USB_BC_TYPE_DISCNT => USB_TYPE_NONE_CHARGER
                   | USB_BC_TYPE_SDP | USB_BC_TYPE_CDP => USB_TYPE_USB_CHARGER
                   | USB_BC_TYPE_DCP => USB_TYPE_AC_CHARGER
                   | _ => USB_TYPE_NONE_CHARGER
                   end in
    let c := c <| usb_charger := charger |> in
    (0, if decide (dc_charger c = DC_TYPE_NONE_CHARGER) then c
        else rk817_charge_set_chrg_param c (usb_charger c)).

Definition rk817_charge_usb_init (env : probe_env) c : Z * rk817_charger :=
  if extcon (pdata c) then usb_init_extcon env c else usb_init_bc env c.

Definition rk817_charge_init_irqs (env : probe_env) : Z :=
  if plug_in_virq env <? 0 then plug_in_virq env
  else if plug_out_virq env <? 0 then plug_out_virq env
  else if truth (request_plug_in env) then request_plug_in env
  else request_plug_out env.

Definition cancel_work c (w : work) : rk817_charger :=
  c <| pending ::= filter (fun v => v <> w) |>.

(** What the failure path of probe and shutdown share. *)
Definition cancel_extcon_works c : rk817_charger :=
  if extcon (pdata c) then cancel_work (cancel_work c host_work) discnt_work else c.
Definition cancel_works c : rk817_charger :=
  cancel_work (cancel_work (cancel_work c usb_work) dc_work) irq_work.
Definition drop_notifiers c : rk817_charger :=
  if extcon (pdata c) then unregister_notifiers c [sdp_nb; dcp_nb; cdp_nb; vbus_nb; usb_nb]
  else unregister_notifier c (None, bc_nb).

(** [devm_kzalloc]: everything is 0; the platform data come with [parse_dt]. *)
Definition charger_kzalloc (h : hw) : rk817_charger := {|
  regs := h;
  pdata := {| pd_max_input_current := 0; pd_min_input_voltage := 0; pd_max_chrg_current := 0;
    pd_max_chrg_voltage := 0; pd_chrg_finish_cur := 0; pd_chrg_term_mode := 0; power_dc2otg := 0;
    dc_det_level := 0; dc_det_pin := 0; support_dc_det := false; virtual_power := 0;
    pd_sample_res := 0; otg5v_suspend_enable := 0; extcon := false; gate_function_disable := 0 |};
  bc_event := USB_BC_TYPE_DISCNT;
  usb_charger := USB_TYPE_UNKNOWN_CHARGER; dc_charger := USB_TYPE_UNKNOWN_CHARGER;
  ac_in := 0; usb_in := 0; otg_in := 0; dc_in := 0; prop_status := POWER_SUPPLY_STATUS_UNKNOWN;
  max_input_current := 0; min_input_voltage := 0; max_chrg_current := 0; max_chrg_voltage := 0;
  chrg_finish_cur := 0; chrg_term_mode := 0; res_div := 0; otg_slp_state := 0;
  plugin_trigger := 0; plugout_trigger := 0; plugin_depth := 0; plugout_depth := 0;
  irq_unbalanced := false; dc_irq := None; usb_work_fn := None;
  pending := []; notifiers := []; changed := [] |}.

Definition rk817_charge_probe (env : probe_env) (np : charger_node) (h : hw)
    : Z * rk817_charger :=
  let c := charger_kzalloc h in
  if negb (of_match env) then (- ENODEV, c)
  else if negb (kzalloc_charge env) then (- EINVAL, c)
  else if negb (regmap_ok env) then (- EINVAL, c)
  else if regmap_field_alloc env <? 0 then (regmap_field_alloc env, c)
  else
    let '(ret, c) := rk817_charge_parse_dt c (kzalloc_pdata env) np in
    if ret <? 0 then (ret, c)
    else
      let c := rk817_charge_pre_init c in
      let ret := rk817_charge_init_power_supply env in
      if truth ret then (ret, c)
      else
        let '(ret, c) := rk817_charge_init_dc env c in
        if truth ret then (ret, c)
        else
          let '(ret, c) := rk817_charge_usb_init env c in
          if truth ret then (ret, c)
          else
            let ret := rk817_charge_init_irqs env in
            if truth ret then (ret, drop_notifiers (cancel_works (cancel_extcon_works c)))
            else if extcon (pdata c)
            then (0, queue_delayed_work (queue_delayed_work c host_work) usb_work)
            else (0, c).

(** ** Suspend, resume, shutdown *)

Definition rk817_charge_pm_suspend c : rk817_charger :=
  let c := c <| otg_slp_state := u8 (rk817_charge_get_otg_slp_state c) |> in
  if truth (otg5v_suspend_enable (pdata c)) &&
     ((truth (otg_in c) && negb (truth (dc_in c))) ||
      (truth (otg_in c) && truth (dc_in c) && negb (truth (power_dc2otg (pdata c)))))
  then rk817_charge_otg_slp_enable c
  else rk817_charge_otg_slp_disable c.

Definition rk817_charge_pm_resume c : rk817_charger :=
  if truth (otg_slp_state c) then rk817_charge_otg_slp_enable c else c.

Definition rk817_charger_shutdown c : rk817_charger :=
  let c := cancel_extcon_works c in
  let c := rk817_charge_set_otg_state c USB_OTG_POWER_OFF in
  let c := rk817_charge_boost_disable c in
  let c := disable_plug_irqs c in
  drop_notifiers (cancel_works c).

(** ** Events

    What can happen to a running driver: the hardware moves on, an interrupt
    comes if it is not disabled, a registered notifier is called, a queued work
    runs, and the system sleeps. *)

Inductive charger_event :=
  | HardwareEvent (h : hw)
  | PlugInIrq | PlugOutIrq | DcDetIrq
  | CableEvent (id : extcon_id)
  | BcEvent (event : bc_port_type)
  | RunWork (w : work)
  | Suspend | Resume.

Definition run_work c (w : work) : rk817_charger :=
  match w with
  | dc_work => rk817_charge_dc_det_worker c
  | usb_work => match usb_work_fn c with
                | Some CHARGER_EVT => rk817_charger_evt_worker c
                | Some BC_EVT => rk817_charge_bc_evt_worker c
                | None => c
                end
  | host_work => rk817_charge_host_evt_worker c
  | discnt_work => rk817_charge_discnt_evt_worker c
  | irq_work => rk817_charge_irq_delay_work c
  end.

Definition run_notifier c (nb : notifier_block) : rk817_charger :=
  match nb with
  | cable_cg_nb => rk817_charger_evt_notifier c
  | cable_host_nb => rk817_charge_host_evt_notifier c
  | cable_discnt_nb => rk817_charge_discnt_evt_notfier c
  | bc_nb => c
  end.

Definition charger_step c (e : charger_event) : rk817_charger :=
  match e with
  | HardwareEvent h => c <| regs := h |>
  | PlugInIrq => if plugin_depth c =? 0 then rk817_plug_in_isr c else c
  | PlugOutIrq => if plugout_depth c =? 0 then rk817_plug_out_isr c else c
  | DcDetIrq => if decide (dc_irq c = None) then c else rk817_charge_dc_det_isr c
  | CableEvent id =>
      fold_left run_notifier (snd <$> filter (fun n => n.1 = Some id) (notifiers c)) c
  | BcEvent event =>
      if decide ((None, bc_nb) ∈ notifiers c) then rk817_charge_bc_evt_notifier c event else c
  | RunWork w => if decide (w ∈ pending c) then run_work (cancel_work c w) w else c
  | Suspend => rk817_charge_pm_suspend c
  | Resume => rk817_charge_pm_resume c
  end.

Definition run_charger c (es : list charger_event) : rk817_charger := fold_left charger_step es c.
End Charger.
