(* ===== verification/Rk817ChargerFacts.v ===== *)
(** * Facts about the RK817 charger driver

    What each operation leaves alone, the invariants of the cable flags and of
    the input current limit, and the laws of the hardware they rest on. *)

From S2P Require Import Prelude Rk817Regs Rk817Gauge Rk817Driver Rk817Charger.

Section Flags.
Context `{Platform}.
Implicit Types c : rk817_charger.

(** ** What a step leaves alone *)

(** The flags the driver keeps about cables and adapters. *)
Definition flags c : Z * Z * Z * Z * power_supply_status :=
  (ac_in c, usb_in c, dc_in c, otg_in c, prop_status c).

Definition charging (s : power_supply_status) : Prop :=
  s = POWER_SUPPLY_STATUS_CHARGING \/ s = POWER_SUPPLY_STATUS_FULL.

(** The flags are booleans; a USB port is not a wall charger; and with any
    source there the status is charging or full. *)
Definition flags_wf (f : Z * Z * Z * Z * power_supply_status) : Prop :=
  let '(ac, usb, dc, otg, status) := f in
  (ac = 0 \/ ac = 1) /\ (usb = 0 \/ usb = 1) /\ (dc = 0 \/ dc = 1) /\ (otg = 0 \/ otg = 1) /\
  ac + usb <= 1 /\ (ac + usb + dc <> 0 -> charging status).
Definition flags_ok c : Prop := flags_wf (flags c).

Lemma flags_write c f v : flags (rk817_charge_field_write c f v) = flags c.
Proof. reflexivity. Qed.
Lemma flags_current c i : flags (rk817_charge_set_input_current c i) = flags c.
Proof. reflexivity. Qed.
Lemma flags_changed c : flags (psy_changed c) = flags c.
Proof. reflexivity. Qed.
Lemma flags_queue c w : flags (queue_delayed_work c w) = flags c.
Proof. reflexivity. Qed.
Lemma flags_otg_state c s : flags (rk817_charge_set_otg_state c s) = flags c.
Proof.
  destruct s; try reflexivity; cbn; unfold otg_power_on, otg_power_off;
    repeat case_match; reflexivity.
Qed.

Lemma flags_param_case c ch : ch <> USB_TYPE_UNKNOWN_CHARGER ->
  flags_ok c -> flags_ok (chrg_param_case c ch).
Proof.
  intros Hch Hc. unfold flags_ok in *. destruct ch; [done|..]; unfold chrg_param_case; cbv zeta iota;
    rewrite flags_changed; repeat case_match; rewrite ?flags_current;
    unfold flags, flags_wf, charging, truth in *; cbn; naive_solver lia.
Qed.

Lemma flags_param c ch : ch <> USB_TYPE_UNKNOWN_CHARGER ->
  flags_ok c -> flags_ok (rk817_charge_set_chrg_param c ch).
Proof.
  intros Hch Hc%(flags_param_case c ch Hch). unfold rk817_charge_set_chrg_param. cbv zeta.
  set (c' := chrg_param_case c ch) in *. clearbody c'. case_match; [|done].
  unfold flags_ok, flags, flags_wf, charging in *. cbn. naive_solver.
Qed.

Lemma flags_otg_in c v : v = 0 \/ v = 1 -> flags_ok c -> flags_ok (rk817_charge_set_otg_in c v).
Proof. intros [-> | ->]; unfold flags_ok, flags, flags_wf; cbn; naive_solver. Qed.

(** A change of state that keeps the flags. *)
Lemma flags_same c c' : flags c' = flags c -> flags_ok c -> flags_ok c'.
Proof. unfold flags_ok. by intros ->. Qed.

Lemma flags_dc_worker c : flags_ok c -> flags_ok (rk817_charge_dc_det_worker c).
Proof.
  intros Hc. unfold rk817_charge_dc_det_worker. case_decide; cbv zeta.
  - apply (flags_param c DC_TYPE_DC_CHARGER) in Hc; [|done].
    eapply flags_same; [|exact Hc]. unfold rk817_charge_boost_disable. rewrite flags_write.
    case_match; [apply flags_otg_state|done].
  - apply (flags_param c DC_TYPE_NONE_CHARGER) in Hc; [|done].
    eapply flags_same; [|exact Hc]. case_match; [rewrite flags_otg_state|]; apply flags_write.
Qed.

Lemma flags_host_worker c : flags_ok c -> flags_ok (rk817_charge_host_evt_worker c).
Proof.
  intros Hc. unfold rk817_charge_host_evt_worker. repeat case_match; cbv zeta; try done;
    (apply flags_otg_in; [by cbv; auto|]); eapply flags_same; [|exact Hc| |exact Hc| |exact Hc| |exact Hc];
    try done; apply flags_otg_state.
Qed.

Lemma flags_run_work c w : flags_ok c -> flags_ok (run_work c w).
Proof.
  intros Hc. destruct w; cbn [run_work].
  - by apply flags_dc_worker.
  - destruct (usb_work_fn c) as [[]|]; [| |done].
    + unfold rk817_charger_evt_worker. cbv zeta. case_decide; [done|]. by apply flags_param.
    + unfold rk817_charge_bc_evt_worker. destruct (bc_event c); try (by apply flags_param); try done.
      * case_match; [done|]. by eapply flags_same; [apply flags_otg_state|].
      * by eapply flags_same; [apply flags_otg_state|].
  - by apply flags_host_worker.
  - unfold rk817_charge_discnt_evt_worker. case_match; [by apply flags_param|done].
  - unfold rk817_charge_irq_delay_work. repeat case_match; cbv zeta; try done.
    by repeat (apply flags_param; [done|]).
Qed.

Lemma flags_notifiers nbs c : flags (fold_left run_notifier nbs c) = flags c.
Proof. revert c. induction nbs as [|[] nbs IH]; intros c; cbn [fold_left]; [done|..]; by rewrite IH. Qed.

Lemma flags_step c e : flags_ok c -> flags_ok (charger_step c e).
Proof.
  intros Hc. destruct e; cbn [charger_step]; try case_decide; try case_match; try done.
  - eapply flags_same; [apply flags_notifiers|done].
  - by apply flags_run_work.
  - eapply flags_same; [|exact Hc]. unfold rk817_charge_pm_suspend. cbv zeta. by case_match.
  - eapply flags_same; [|exact Hc]. unfold rk817_charge_pm_resume. by case_match.
Qed.

Lemma flags_run c es : flags_ok c -> flags_ok (run_charger c es).
Proof. revert c. induction es as [|e es IH]; intros c Hc; [done|]. by apply IH, flags_step. Qed.

Lemma flags_pre_init c : flags (rk817_charge_pre_init c) =
  (ac_in c, usb_in c, dc_in c, 0, prop_status c).
Proof.
  unfold rk817_charge_pre_init, rk817_charge_set_chrg_finish_condition, rk817_charge_set_chrg_voltage.
  destruct c. cbn. by repeat case_match.
Qed.

Lemma flags_parse_dt c alloc np : flags (snd (rk817_charge_parse_dt c alloc np)) = flags c.
Proof. unfold rk817_charge_parse_dt. cbv zeta. by repeat case_match. Qed.

Lemma flags_init_dc env c : flags_ok c -> flags_ok (snd (rk817_charge_init_dc env c)).
Proof.
  intros Hc. unfold rk817_charge_init_dc. cbv zeta.
  destruct (support_dc_det _); [|done]. destruct (_ <? 0); [done|]. cbn [negb].
  destruct (truth (gpio_direction_input env)); [done|]. destruct (truth (request_dc_irq env)); [done|].
  cbn [snd]. case_decide; [done|]. apply flags_param; [|done]. cbn. by destruct (_ =? _).
Qed.

Lemma flags_notifier c n : flags (register_notifier c n) = flags c.
Proof. reflexivity. Qed.

Lemma flags_unregister c l : flags (unregister_notifiers c l) = flags c.
Proof. revert c. induction l as [|n l IH]; intros c; [done|]. exact (IH (unregister_notifier c n)). Qed.

Lemma flags_usb_init env c : flags_ok c -> flags_ok (snd (rk817_charge_usb_init env c)).
Proof.
  intros Hc. unfold rk817_charge_usb_init. case_match.
  - unfold usb_init_extcon. cbv zeta. repeat case_match; cbn [snd]; try done;
      (eapply flags_same; [|exact Hc]); rewrite ?flags_unregister; reflexivity.
  - unfold usb_init_bc. cbv zeta. case_match; [done|]. cbn [snd]. case_decide; [done|].
    apply flags_param; [|done]. cbn. by case_match.
Qed.

Lemma flags_drop_notifiers c : flags (drop_notifiers c) = flags c.
Proof. unfold drop_notifiers. case_match; [apply flags_unregister|done]. Qed.

(** What every stage of probe keeps holds after it, whether it fails or not. *)
Lemma probe_invariant (I : rk817_charger -> Prop) env np h :
  I (charger_kzalloc h) ->
  (forall c, I c -> I (snd (rk817_charge_parse_dt c (kzalloc_pdata env) np))) ->
  (forall c, I c -> I (rk817_charge_pre_init c)) ->
  (forall c, I c -> I (snd (rk817_charge_init_dc env c))) ->
  (forall c, I c -> I (snd (rk817_charge_usb_init env c))) ->
  (forall c, I c -> I (drop_notifiers (cancel_works (cancel_extcon_works c)))) ->
  (forall c w, I c -> I (queue_delayed_work c w)) ->
  I (snd (rk817_charge_probe env np h)).
Proof.
  intros Hk Hp Hi Hd Hu Hf Hq. unfold rk817_charge_probe.
  destruct (of_match env); [|done]. destruct (kzalloc_charge env); [|done].
  destruct (regmap_ok env); [|done]. destruct (regmap_field_alloc env <? 0); [done|].
  cbn [negb]. cbv zeta.
  apply Hp in Hk. destruct (rk817_charge_parse_dt _ _ _) as [r1 c1]. destruct (r1 <? 0); [done|].
  apply Hi in Hk. destruct (truth (rk817_charge_init_power_supply env)); [done|].
  apply Hd in Hk. destruct (rk817_charge_init_dc _ _) as [r2 c2]. destruct (truth r2); [done|].
  apply Hu in Hk. destruct (rk817_charge_usb_init _ _) as [r3 c3]. destruct (truth r3); [done|].
  destruct (truth (rk817_charge_init_irqs env)); [by apply Hf|]. destruct (extcon (pdata c3)); [|done].
  by apply Hq, Hq.
Qed.

Lemma flags_undo c : flags (drop_notifiers (cancel_works (cancel_extcon_works c))) = flags c.
Proof. rewrite flags_drop_notifiers. unfold cancel_extcon_works. by case_match. Qed.

Lemma flags_kzalloc h : flags_ok (charger_kzalloc h).
Proof. unfold flags_ok, flags, flags_wf. cbn. lia. Qed.

Lemma flags_ok_pre_init c : flags_ok c -> flags_ok (rk817_charge_pre_init c).
Proof.
  unfold flags_ok. rewrite flags_pre_init. unfold flags, flags_wf. naive_solver.
Qed.

Lemma flags_probe env np h : flags_ok (snd (rk817_charge_probe env np h)).
Proof.
  apply (probe_invariant flags_ok).
  - apply flags_kzalloc.
  - intros c. apply flags_same, flags_parse_dt.
  - apply flags_ok_pre_init.
  - apply flags_init_dc.
  - apply flags_usb_init.
  - intros c. apply flags_same, flags_undo.
  - intros c w. by apply flags_same.
Qed.
End Flags.

(** ** The laws of the hardware

    The configuration registers of the charger keep what is written to them,
    also when the regulator is switched. *)

Definition config (f : reg_field) : bool := (0xE4 <=? reg f) && (reg f <=? 0xE7) && field_wf f.

Class ChargerMemory `{Platform} := {
  config_written h f v : config f = true ->
    snd (regmap_field_read (regmap_field_write h f v) f) = v mod field_mask f;
  config_enable h f : config f = true ->
    regmap_field_read (snd (regulator_enable h)) f = regmap_field_read h f;
  config_disable h f : config f = true ->
    regmap_field_read (snd (regulator_disable h)) f = regmap_field_read h f;
}.

(** What the hardware does on its own: it changes neither the configuration
    nor the regulator. *)
Definition keeps `{Platform} (h h' : hw) : Prop :=
  (forall f, config f = true -> regmap_field_read h' f = regmap_field_read h f) /\
  regulator_is_enabled h' = regulator_is_enabled h.

Definition event_ok `{Platform} (c : rk817_charger) (e : charger_event) : Prop :=
  match e with HardwareEvent h => keeps (regs c) h | _ => True end.

Fixpoint events_ok `{Platform} (c : rk817_charger) (es : list charger_event) : Prop :=
  match es with
  | [] => True
  | e :: es => event_ok c e /\ events_ok (charger_step c e) es
  end.

(** An invariant of the steps is one of the runs. *)
Lemma run_invariant `{Platform} (I : rk817_charger -> Prop) c es :
  (forall c e, I c -> event_ok c e -> I (charger_step c e)) ->
  I c -> events_ok c es -> I (run_charger c es).
Proof.
  intros Hs. revert c. induction es as [|e es IH]; intros c Hc He; [done|].
  destruct He as [He Hes]. apply IH; auto.
Qed.

Lemma events_ok_last `{Platform} c es e : events_ok c (es ++ [e]) ->
  events_ok c es /\ event_ok (run_charger c es) e.
Proof.
  revert c. induction es as [|e' es IH]; intros c; [by intros [He _]|].
  intros [Ha Hb]. destruct (IH _ Hb) as [Hc Hd]. by repeat split.
Qed.

Lemma charge_field_wf f : field_wf (rk817_charge_reg_fields f) = true.
Proof. by destruct f. Qed.

(** Names the state a [let] of the goal [V (let c := x in _) = V c0] binds,
    keeping of it that its view is the same. *)
Tactic Notation "let_step" tactic3(tac) :=
  lazymatch goal with
  | |- ?V (let c := ?x in @?k c) = ?V ?c0 =>
      let c := fresh "c" in let E := fresh "E" in
      assert (E : V x = V c0) by tac;
      change (V (k x) = V c0); revert E; generalize x; intros c E; cbv beta; rewrite <- E; clear E
  end.

(** ** The input current limit *)

Section Limit.
Context `{Platform}.
Context `{!RegmapMemory} `{!ChargerMemory}.
Implicit Types c : rk817_charger.

Lemma regs_write c f v : regs (rk817_charge_field_write c f v)
  = regmap_field_write (regs c) (rk817_charge_reg_fields f) (u32 v).
Proof. reflexivity. Qed.

Lemma field_read_val c f :
  rk817_charge_field_read c f = snd (regmap_field_read (regs c) (rk817_charge_reg_fields f)).
Proof.
  unfold rk817_charge_field_read.
  pose proof (read_range (regs c) _ (charge_field_wf f)) as [Hr Hv].
  destruct (regmap_field_read _ _) as [ret v]. cbn in *. destruct (Z.ltb_spec ret 0); [lia|].
  apply s32_id. assert (field_mask (rk817_charge_reg_fields f) <= 256) by (by destruct f). lia.
Qed.

(** A field of a configuration register reads back as written. *)
Lemma field_written c f v : config (rk817_charge_reg_fields f) = true -> 0 <= v < 2 ^ 32 ->
  rk817_charge_field_read (rk817_charge_field_write c f v) f
  = v mod field_mask (rk817_charge_reg_fields f).
Proof.
  intros Hf Hv. rewrite field_read_val, regs_write, u32_id by lia. by apply config_written.
Qed.

Lemma field_other c f g v : overlap (rk817_charge_reg_fields f) (rk817_charge_reg_fields g) = false ->
  rk817_charge_field_read (rk817_charge_field_write c f v) g = rk817_charge_field_read c g.
Proof.
  intros Ho. unfold rk817_charge_field_read. rewrite regs_write.
  by rewrite read_other by (done || apply charge_field_wf).
Qed.

Lemma field_regs c c' f :
  regmap_field_read (regs c') (rk817_charge_reg_fields f)
  = regmap_field_read (regs c) (rk817_charge_reg_fields f) ->
  rk817_charge_field_read c' f = rk817_charge_field_read c f.
Proof. unfold rk817_charge_field_read. by intros ->. Qed.

(** The limit in force, and what decides it. *)
Definition limit c : Z * Z := (rk817_charge_field_read c USB_ILIM_SEL, rk817_charge_field_read c USB_ILIM_EN).
Definition limit_view c : Z * Z * (Z * Z) := (usb_in c, dc_in c, limit c).

(** A USB port that is the only source is limited to 450 mA. *)
Definition draw_ok c : Prop :=
  usb_in c = 1 -> dc_in c = 0 -> limit c = (input_current_code INPUT_CUR_450MA, 1).

Lemma draw_view c c' : limit_view c' = limit_view c -> draw_ok c -> draw_ok c'.
Proof. unfold limit_view, draw_ok. intros [[Eu Ed]%pair_eq El]%pair_eq. by rewrite Eu, Ed, El. Qed.

Lemma limit_write c f v :
  overlap (rk817_charge_reg_fields f) (rk817_charge_reg_fields USB_ILIM_SEL) = false ->
  overlap (rk817_charge_reg_fields f) (rk817_charge_reg_fields USB_ILIM_EN) = false ->
  limit_view (rk817_charge_field_write c f v) = limit_view c.
Proof. intros Hs He. unfold limit_view, limit. by rewrite !field_other by assumption. Qed.

Lemma limit_set c i : limit (rk817_charge_set_input_current c i)
  = (input_current_code (input_current_level i), 1).
Proof.
  unfold rk817_charge_set_input_current, rk817_charge_ilimit_enable, limit. cbv zeta.
  assert (Hc : 0 <= input_current_code (input_current_level i) < 8)
    by (destruct (input_current_level i); cbn; lia).
  rewrite field_other by done. rewrite !field_written by (done || cbn; lia).
  by rewrite Z.mod_small.
Qed.

Lemma limit_otg_state c s : limit_view (rk817_charge_set_otg_state c s) = limit_view c.
Proof.
  assert (He : limit_view (rk817_charge_otg_enable c) = limit_view c).
  { unfold limit_view, limit.
    by rewrite !(field_regs c (rk817_charge_otg_enable c)) by (by apply config_enable). }
  assert (Hd : limit_view (rk817_charge_otg_disable c) = limit_view c).
  { unfold limit_view, limit.
    by rewrite !(field_regs c (rk817_charge_otg_disable c)) by (by apply config_disable). }
  destruct s; try reflexivity; cbn [rk817_charge_set_otg_state]; unfold otg_power_on, otg_power_off;
    cbv zeta; repeat case_match; solve [exact He | exact Hd | reflexivity].
Qed.

Lemma draw_no_usb c : usb_in c = 0 -> draw_ok c.
Proof. intros E Hu. lia. Qed.
Lemma draw_dc c : dc_in c <> 0 -> draw_ok c.
Proof. intros E _ Hd. lia. Qed.
Lemma draw_450 c : draw_ok (psy_changed (rk817_charge_set_input_current c INPUT_450MA)).
Proof. intros _ _. exact (limit_set c INPUT_450MA). Qed.
Lemma draw_450_status c s :
  draw_ok (psy_changed ((rk817_charge_set_input_current c INPUT_450MA) <| prop_status := s |>)).
Proof. intros _ _. exact (limit_set c INPUT_450MA). Qed.

(** Each case either sets the limit, or leaves no USB port, or has a DC source. *)
Lemma draw_case c ch : ch <> USB_TYPE_UNKNOWN_CHARGER -> flags_ok c -> draw_ok (chrg_param_case c ch).
Proof.
  intros Hch Hc. unfold flags_ok, flags, flags_wf in Hc.
  destruct ch; [done|..]; unfold chrg_param_case; cbv zeta iota.
  - apply draw_no_usb. by case_match.
  - destruct (dc_in _ =? 0) eqn:E.
    + apply draw_450.
    + apply draw_dc. cbn in *. lia.
  - apply draw_no_usb. by case_decide.
  - apply draw_no_usb. by case_decide.
  - by apply draw_dc.
  - destruct (negb _); [by apply draw_no_usb|]. destruct (truth _) eqn:E.
    + apply draw_450_status.
    + apply draw_no_usb. unfold truth in E. cbn in *. lia.
Qed.

Lemma draw_param c ch : ch <> USB_TYPE_UNKNOWN_CHARGER -> flags_ok c ->
  draw_ok (rk817_charge_set_chrg_param c ch).
Proof.
  intros Hch Hc. pose proof (draw_case c ch Hch Hc) as Hd. unfold rk817_charge_set_chrg_param. cbv zeta.
  case_match; [|done]. by apply (draw_view (chrg_param_case c ch)).
Qed.

(** The two invariants together; a change of state that keeps what they are about. *)
Definition limited c : Prop := flags_ok c /\ draw_ok c.

Lemma limited_param c ch : ch <> USB_TYPE_UNKNOWN_CHARGER -> limited c ->
  limited (rk817_charge_set_chrg_param c ch).
Proof. intros Hch [Hf _]. split; [by apply flags_param | by apply draw_param]. Qed.

Lemma draw_same c c' : limit_view c' = limit_view c -> flags_ok c' -> limited c -> limited c'.
Proof. intros E Hf [_ Hd]. split; [done|]. by eapply draw_view. Qed.

Lemma limit_boost c v : limit_view (rk817_charge_field_write c BOOST_EN v) = limit_view c.
Proof. by apply limit_write. Qed.

Lemma limited_dc_worker c : limited c -> limited (rk817_charge_dc_det_worker c).
Proof.
  intros Hc. pose proof (flags_dc_worker c (proj1 Hc)) as Hf. revert Hf.
  unfold rk817_charge_dc_det_worker, rk817_charge_boost_disable, rk817_charge_boost_enable.
  cbv zeta. case_decide; intros Hf.
  - apply (limited_param c DC_TYPE_DC_CHARGER) in Hc; [|done]. eapply draw_same; [|done|exact Hc].
    rewrite limit_boost. case_match; [apply limit_otg_state|done].
  - apply (limited_param c DC_TYPE_NONE_CHARGER) in Hc; [|done]. eapply draw_same; [|done|exact Hc].
    case_match; [rewrite limit_otg_state|]; apply limit_boost.
Qed.

Lemma limit_host_worker c : limit_view (rk817_charge_host_evt_worker c) = limit_view c.
Proof.
  assert (Ho : forall c v, limit_view (rk817_charge_set_otg_in c v) = limit_view c) by done.
  unfold rk817_charge_host_evt_worker.
  repeat case_match; cbv zeta; rewrite ?Ho; try apply limit_otg_state; done.
Qed.

Lemma limited_run_work c w : limited c -> limited (run_work c w).
Proof.
  intros Hc. pose proof (flags_run_work c w (proj1 Hc)) as Hf. destruct w; cbn [run_work] in *.
  - by apply limited_dc_worker.
  - destruct (usb_work_fn c) as [[]|]; [| |done].
    + unfold rk817_charger_evt_worker. cbv zeta. case_decide; [done|]. by apply limited_param.
    + revert Hf. unfold rk817_charge_bc_evt_worker.
      destruct (bc_event c); intros Hf; try (by apply limited_param); try done.
      * revert Hf. case_match; [done|]. intros Hf. by eapply draw_same; [apply limit_otg_state|..].
      * by eapply draw_same; [apply limit_otg_state|..].
  - by eapply draw_same; [apply limit_host_worker|..].
  - unfold rk817_charge_discnt_evt_worker. case_match; [by apply limited_param|done].
  - unfold rk817_charge_irq_delay_work. repeat case_match; cbv zeta; try done.
    by repeat (apply limited_param; [done|]).
Qed.

Lemma limit_notifiers nbs c : limit_view (fold_left run_notifier nbs c) = limit_view c.
Proof.
  assert (Hn : forall c nb, limit_view (run_notifier c nb) = limit_view c) by (by intros ? []).
  revert c. induction nbs as [|nb nbs IH]; intros c; cbn [fold_left]; [done|]. by rewrite IH, Hn.
Qed.

Lemma limited_step c e : limited c -> event_ok c e -> limited (charger_step c e).
Proof.
  intros Hc He. pose proof (flags_step c e (proj1 Hc)) as Hf.
  destruct e; cbn [charger_step] in *.
  - eapply draw_same; [|done|exact Hc]. unfold limit_view, limit. destruct He as [He _].
    by rewrite !(field_regs c (c <| regs := h |>)) by (by apply He).
  - case_match; [|done]. by eapply draw_same; [|exact Hf|exact Hc].
  - case_match; [|done]. by eapply draw_same; [|exact Hf|exact Hc].
  - case_decide; [done|]. by eapply draw_same; [|exact Hf|exact Hc].
  - eapply draw_same; [apply limit_notifiers|done..].
  - case_decide; [|done]. by eapply draw_same; [|exact Hf|exact Hc].
  - case_decide; [|done]. by apply limited_run_work.
  - eapply draw_same; [|done|exact Hc]. unfold rk817_charge_pm_suspend. cbv zeta.
    set (c' := c <| otg_slp_state := _ |>). transitivity (limit_view c'); [|done].
    by case_match; apply limit_write.
  - eapply draw_same; [|done|exact Hc]. unfold rk817_charge_pm_resume.
    case_match; [|done]. by apply limit_write.
Qed.

Lemma flags_usb c c' : flags c' = flags c -> usb_in c' = usb_in c.
Proof. intros E. exact (f_equal (fun f => f.1.1.1.2) E). Qed.

Lemma limit_unregister l c : limit_view (unregister_notifiers c l) = limit_view c.
Proof. revert c. induction l as [|n l IH]; intros c; [done|]. exact (IH (unregister_notifier c n)). Qed.

Lemma limited_init_dc env c : limited c -> limited (snd (rk817_charge_init_dc env c)).
Proof.
  intros Hc. pose proof (flags_init_dc env c (proj1 Hc)) as Hf. revert Hf.
  unfold rk817_charge_init_dc. cbv zeta.
  destruct (support_dc_det _); [|done]. destruct (_ <? 0); [done|]. cbn [negb].
  destruct (truth (gpio_direction_input env)); [done|]. destruct (truth (request_dc_irq env)); [done|].
  cbn [snd]. case_decide; [done|]. intros _. apply limited_param; [|done]. cbn. by destruct (_ =? _).
Qed.

Lemma limit_usb_extcon env c : limit_view (snd (usb_init_extcon env c)) = limit_view c.
Proof.
  assert (Hr : forall c n, limit_view (register_notifier c n) = limit_view c) by done.
  unfold usb_init_extcon. cbv zeta. repeat case_match; cbn [snd]; rewrite ?limit_unregister, ?Hr; done.
Qed.

Lemma limited_usb_init env c : limited c -> limited (snd (rk817_charge_usb_init env c)).
Proof.
  intros Hc. pose proof (flags_usb_init env c (proj1 Hc)) as Hf. revert Hf.
  unfold rk817_charge_usb_init. case_match; intros Hf.
  - by eapply draw_same; [apply limit_usb_extcon|..].
  - revert Hf. unfold usb_init_bc. cbv zeta. case_match; [done|]. cbn [snd]. case_decide; [done|].
    intros _. apply limited_param; [|done]. cbn. by case_match.
Qed.

Lemma limit_undo c : limit_view (drop_notifiers (cancel_works (cancel_extcon_works c))) = limit_view c.
Proof.
  unfold drop_notifiers, cancel_extcon_works. repeat case_match; rewrite ?limit_unregister; done.
Qed.

Lemma limit_otg_disable c : limit_view (rk817_charge_otg_disable c) = limit_view c.
Proof.
  unfold limit_view, limit.
  by rewrite !(field_regs c (rk817_charge_otg_disable c)) by (by apply config_disable).
Qed.

Lemma limit_pre_init c : limit_view (rk817_charge_pre_init c) = limit_view c.
Proof.
  cbv beta delta [rk817_charge_pre_init].
  let_step (done).
  let_step (unfold rk817_charge_set_input_voltage, rk817_charge_vlimit_enable; cbv zeta;
            by rewrite !limit_write).
  let_step (unfold rk817_charge_set_chrg_voltage; case_match; [done|]; cbv zeta; by rewrite limit_write).
  let_step (by apply limit_write).
  let_step (unfold rk817_charge_set_chrg_finish_condition, rk817_charge_set_chrg_term_mod,
              rk817_charge_set_term_current_analog, rk817_charge_set_term_current_digital;
            cbv zeta; case_match; by rewrite !limit_write).
  let_step (case_match; [apply limit_otg_disable|done]).
  let_step (by apply limit_write).
  let_step (done).
  let_step (case_match; [by apply limit_write|done]).
  let_step (by apply limit_write).
  let_step (by apply limit_write).
  etransitivity; [by apply limit_write|done].
Qed.

Lemma limited_probe env np h : limited (snd (rk817_charge_probe env np h)).
Proof.
  apply (probe_invariant limited).
  - split; [apply flags_kzalloc|by apply draw_no_usb].
  - intros c Hc. eapply draw_same; [|eapply flags_same; [apply flags_parse_dt|apply Hc]|exact Hc].
    unfold rk817_charge_parse_dt. cbv zeta. by repeat case_match.
  - intros c Hc. eapply draw_same; [apply limit_pre_init|apply flags_ok_pre_init, Hc|done].
  - apply limited_init_dc.
  - apply limited_usb_init.
  - intros c Hc. eapply draw_same; [apply limit_undo| |exact Hc]. eapply flags_same; [apply flags_undo|apply Hc].
  - intros c w Hc. by eapply draw_same; [|apply Hc|].
Qed.
End Limit.

(** ** OTG power *)

(** A regulator that obeys: switching works, only writes to [OTG_EN] reach its
    bit, and [OTG_DISABLE] clears it. *)
Class OtgSwitch `{Platform} := {
  enable_on h : truth (regulator_is_enabled (snd (regulator_enable h))) = true;
  disable_off h : truth (regulator_is_enabled (snd (regulator_disable h))) = false;
  write_keeps h f v : f <> OTG_EN ->
    regulator_is_enabled (regmap_field_write h (rk817_charge_reg_fields f) v) = regulator_is_enabled h;
  write_off h :
    truth (regulator_is_enabled (regmap_field_write h (rk817_charge_reg_fields OTG_EN) OTG_DISABLE)) = false;
}.

(** What a step asks of the OTG power: the cable worker asks for what the
    extcon device reports, nothing else asks. *)
Definition cable_request `{Platform} (c : rk817_charger) (e : charger_event) : option bool :=
  match e with
  | RunWork host_work =>
      if decide (host_work ∈ pending c) then
        let vbus := extcon_get_state (regs c) EXTCON_USB_VBUS_EN in
        if vbus >? 0 then Some true else if vbus =? 0 then Some false else None
      else None
  | _ => None
  end.

Section Otg.
Context `{Platform} `{!OtgSwitch}.
Implicit Types c : rk817_charger.

(** The output is on, and both plug interrupts are disabled once, exactly when
    the driver holds the OTG power. *)
Definition otg_state_is c (on : bool) : Prop :=
  otg_in c = b2z on /\ truth (rk817_charge_get_otg_state c) = on /\
  plugin_depth c = b2z on /\ plugout_depth c = b2z on /\ irq_unbalanced c = false.

Definition otg_view c : Z * Z * Z * Z * bool :=
  (otg_in c, rk817_charge_get_otg_state c, plugin_depth c, plugout_depth c, irq_unbalanced c).

Lemma otg_view_is c c' on : otg_view c' = otg_view c -> otg_state_is c on -> otg_state_is c' on.
Proof.
  unfold otg_view, otg_state_is.
  intros [[[[E1 E2]%pair_eq E3]%pair_eq E4]%pair_eq E5]%pair_eq. by rewrite E1, E2, E3, E4, E5.
Qed.

Lemma otg_write c f v : f <> OTG_EN -> otg_view (rk817_charge_field_write c f v) = otg_view c.
Proof.
  intros Hf. unfold otg_view, rk817_charge_get_otg_state. rewrite regs_write.
  by rewrite (write_keeps (regs c) f _ Hf).
Qed.

Lemma otg_current c i : otg_view (rk817_charge_set_input_current c i) = otg_view c.
Proof.
  unfold rk817_charge_set_input_current, rk817_charge_ilimit_enable. cbv zeta. by rewrite !otg_write.
Qed.

Lemma otg_changed c : otg_view (psy_changed c) = otg_view c.
Proof. reflexivity. Qed.

Lemma otg_param c ch : otg_view (rk817_charge_set_chrg_param c ch) = otg_view c.
Proof.
  assert (Hc : otg_view (chrg_param_case c ch) = otg_view c).
  { destruct ch; unfold chrg_param_case; cbv zeta iota; rewrite ?otg_changed;
      repeat case_match; rewrite ?otg_current; try reflexivity.
    by etransitivity; [|apply otg_current]. }
  unfold rk817_charge_set_chrg_param. cbv zeta. by case_match.
Qed.

(** What the driver needs to know of its set-up, and of the DC jack. *)
Definition setup c : charger_platform_data * option usb_worker := (pdata c, usb_work_fn c).
Definition jack c : Z * option irq_trigger * list work := (dc_in c, dc_irq c, pending c).

(** The DC jack does not power the OTG output: it is not configured to, or
    there is no jack. *)
Definition dc_harmless c : Prop :=
  power_dc2otg (pdata c) = 0 \/ (dc_in c = 0 /\ dc_irq c = None /\ dc_work ∉ pending c).

Definition otg_ok c (on : bool) : Prop :=
  otg_state_is c on /\ usb_work_fn c <> Some BC_EVT /\ dc_harmless c.

Lemma setup_param c ch : setup (rk817_charge_set_chrg_param c ch) = setup c.
Proof.
  assert (Hc : setup (chrg_param_case c ch) = setup c).
  { destruct ch; unfold chrg_param_case; cbv zeta iota; repeat case_match; reflexivity. }
  unfold rk817_charge_set_chrg_param. cbv zeta. by case_match.
Qed.

Lemma jack_param c ch : ch <> DC_TYPE_DC_CHARGER ->
  let c' := rk817_charge_set_chrg_param c ch in
  (dc_in c' = dc_in c \/ dc_in c' = 0) /\ dc_irq c' = dc_irq c /\ pending c' = pending c.
Proof.
  intros Hch. assert (Hc : let c' := chrg_param_case c ch in
    (dc_in c' = dc_in c \/ dc_in c' = 0) /\ dc_irq c' = dc_irq c /\ pending c' = pending c).
  { destruct ch; try done; unfold chrg_param_case; cbv zeta iota; repeat case_match; cbn; auto. }
  unfold rk817_charge_set_chrg_param. cbv zeta. by case_match.
Qed.

Lemma otg_ok_same c c' on : otg_view c' = otg_view c -> setup c' = setup c -> jack c' = jack c ->
  otg_ok c on -> otg_ok c' on.
Proof.
  unfold setup, jack, otg_ok, dc_harmless. intros Ev [Ep Eu]%pair_eq [[E1 E2]%pair_eq E3]%pair_eq.
  rewrite Ep, Eu, E1, E2, E3. intros (Hs & Hr). split; [by eapply otg_view_is|done].
Qed.

Lemma otg_ok_param c ch on : ch <> DC_TYPE_DC_CHARGER -> otg_ok c on ->
  otg_ok (rk817_charge_set_chrg_param c ch) on.
Proof.
  intros Hch (Hs & Hu & Hd). pose proof (setup_param c ch) as [Ep Eu]%pair_eq.
  pose proof (jack_param c ch Hch) as (E1 & E2 & E3). split_and!.
  - eapply otg_view_is; [apply otg_param|done].
  - by rewrite Eu.
  - unfold dc_harmless in *. rewrite Ep, E2, E3. destruct Hd as [|(? & ? & ?)]; [by left|right].
    split_and!; try done. lia.
Qed.

(** Switching, for a driver that is in one of its two states. *)
Lemma otg_on_ok c on : otg_state_is c on -> otg_state_is (rk817_charge_set_otg_in (otg_power_on c) 1) true.
Proof.
  intros (Ei & Es & E1 & E2 & Eb). unfold otg_power_on. rewrite Ei, truth_b2z, Es.
  destruct on; cbn [negb andb]; [by split_and!|].
  unfold otg_state_is, rk817_charge_get_otg_state, rk817_charge_otg_enable. cbn.
  rewrite (enable_on (regs c)). cbn. rewrite enable_on, E1, E2, Eb. by split_and!.
Qed.

Lemma otg_off_ok c on : otg_state_is c on -> otg_state_is (rk817_charge_set_otg_in (otg_power_off c) 0) false.
Proof.
  intros (Ei & Es & E1 & E2 & Eb). unfold otg_power_off. rewrite Ei, truth_b2z, Es.
  destruct on; cbn [negb andb]; [|by split_and!].
  unfold otg_state_is, rk817_charge_get_otg_state, rk817_charge_otg_disable. cbn.
  rewrite (disable_off (regs c)). cbn. rewrite disable_off, E1, E2, Eb. by split_and!.
Qed.

Lemma otg_state_frame c s : setup (rk817_charge_set_otg_state c s) = setup c /\
  jack (rk817_charge_set_otg_state c s) = jack c.
Proof.
  destruct s; try done; cbn [rk817_charge_set_otg_state]; unfold otg_power_on, otg_power_off; cbv zeta;
    by repeat case_match.
Qed.

Lemma otg_harmless c : dc_harmless c -> truth (dc_in c) && truth (power_dc2otg (pdata c)) = false.
Proof. intros [E|[E _]]; rewrite E; [apply andb_false_r|done]. Qed.

Lemma otg_ok_switch c s v on on' : otg_ok c on ->
  otg_state_is (rk817_charge_set_otg_in (rk817_charge_set_otg_state c s) v) on' ->
  otg_ok (rk817_charge_set_otg_in (rk817_charge_set_otg_state c s) v) on'.
Proof.
  intros (_ & Hu & Hd) Hs. destruct (otg_state_frame c s) as [[Ep Eu]%pair_eq [[E1 E2]%pair_eq E3]%pair_eq].
  set (c' := rk817_charge_set_otg_state c s) in *. split; [done|]. unfold dc_harmless in *.
  change (usb_work_fn (rk817_charge_set_otg_in c' v)) with (usb_work_fn c').
  change (pdata (rk817_charge_set_otg_in c' v)) with (pdata c').
  change (dc_in (rk817_charge_set_otg_in c' v)) with (dc_in c').
  change (dc_irq (rk817_charge_set_otg_in c' v)) with (dc_irq c').
  change (pending (rk817_charge_set_otg_in c' v)) with (pending c').
  by rewrite Ep, Eu, E1, E2, E3.
Qed.

Lemma otg_host c on : otg_ok c on -> otg_ok (rk817_charge_host_evt_worker c) (default on
  (let vbus := extcon_get_state (regs c) EXTCON_USB_VBUS_EN in
   if vbus >? 0 then Some true else if vbus =? 0 then Some false else None)).
Proof.
  intros Hc. pose proof Hc as (Hs & Hu & Hd). unfold rk817_charge_host_evt_worker. cbv zeta.
  rewrite (otg_harmless c Hd). case_match; [|case_match; [|done]]; cbn [default].
  - apply (otg_ok_switch c USB_OTG_POWER_ON 1 on); [done|]. exact (otg_on_ok c on Hs).
  - apply (otg_ok_switch c USB_OTG_POWER_OFF 0 on); [done|]. exact (otg_off_ok c on Hs).
Qed.

(** Power for the OTG output is not taken from the jack, whatever it reports. *)
Lemma otg_dc c on : power_dc2otg (pdata c) = 0 -> otg_ok c on -> otg_ok (rk817_charge_dc_det_worker c) on.
Proof.
  intros Hp (Hs & Hu & Hd). unfold rk817_charge_dc_det_worker. cbv zeta. case_decide.
  - pose proof (setup_param c DC_TYPE_DC_CHARGER) as E. pose proof (otg_param c DC_TYPE_DC_CHARGER) as Eo.
    set (c1 := rk817_charge_set_chrg_param c DC_TYPE_DC_CHARGER) in *. clearbody c1.
    apply pair_eq in E as [Ep Eu]. rewrite Ep, Hp, andb_false_r. split_and!.
    + eapply otg_view_is; [|exact Hs]. unfold rk817_charge_boost_disable. by rewrite otg_write.
    + by rewrite <- Eu in Hu.
    + left. by rewrite <- Ep in Hp.
  - pose proof (otg_ok_param c DC_TYPE_NONE_CHARGER on ltac:(done) (conj Hs (conj Hu Hd))) as Hc.
    set (c1 := rk817_charge_set_chrg_param c DC_TYPE_NONE_CHARGER) in *. clearbody c1.
    assert (Hb : otg_ok (rk817_charge_boost_enable c1) on).
    { eapply otg_ok_same; [| | |exact Hc]; [|done..]. by apply otg_write. }
    destruct (truth (otg_in _)) eqn:E; [|done]. destruct Hb as ((Ei & Hb) & Hr).
    cbn [rk817_charge_set_otg_state]. unfold otg_power_on. rewrite E. by split.
Qed.

Lemma otg_run_work c w on : w <> host_work -> (w = dc_work -> power_dc2otg (pdata c) = 0) ->
  otg_ok c on -> otg_ok (run_work c w) on.
Proof.
  intros Hw Hdc Hc. destruct w; cbn [run_work]; [by apply otg_dc; auto| |done| |].
  - pose proof Hc as (_ & Hu & _). destruct (usb_work_fn c) as [[]|]; [|done..].
    unfold rk817_charger_evt_worker. cbv zeta. case_decide; [done|].
    apply otg_ok_param; [repeat case_match; done|]. by eapply otg_ok_same; [..|exact Hc].
  - unfold rk817_charge_discnt_evt_worker. case_match; [by apply otg_ok_param|done].
  - unfold rk817_charge_irq_delay_work. cbv zeta. case_match; [|case_match; [|done]].
    + case_match; [|by eapply otg_ok_same; [..|exact Hc]].
      destruct Hc as (Hs & Hu & Hd). split_and!; [done..|]. destruct Hd as [|(? & ? & Hn)]; [by left|right].
      split_and!; try done. cbn. case_decide; [done|]. set_solver.
    + repeat (apply otg_ok_param; [done|]). by eapply otg_ok_same; [..|exact Hc].
Qed.

Lemma otg_queue c w on : w <> dc_work -> otg_ok c on -> otg_ok (queue_delayed_work c w) on.
Proof.
  intros Hw (Hs & Hu & Hd). split_and!; [done..|]. destruct Hd as [|(? & ? & Hn)]; [by left|right].
  split_and!; try done. cbn. case_decide; [done|]. set_solver.
Qed.

Lemma otg_cancel c w on : otg_ok c on -> otg_ok (cancel_work c w) on.
Proof.
  intros (Hs & Hu & Hd). split_and!; [done..|]. destruct Hd as [|(? & ? & Hn)]; [by left|right].
  split_and!; try done. cbn. intros [_ Hin]%list_elem_of_filter. done.
Qed.

Lemma otg_notifiers nbs c on : otg_ok c on -> otg_ok (fold_left run_notifier nbs c) on.
Proof.
  revert c. induction nbs as [|[] nbs IH]; intros c Hc; cbn [fold_left]; [done|..]; apply IH; [done|..];
    by apply otg_queue.
Qed.

Lemma otg_step c e on : otg_ok c on -> event_ok c e ->
  otg_ok (charger_step c e) (default on (cable_request c e)).
Proof.
  intros Hc He. destruct e; cbn [charger_step cable_request default].
  - eapply otg_ok_same; [..|exact Hc]; try done. unfold otg_view, rk817_charge_get_otg_state.
    destruct He as [_ He]. cbn. by rewrite He.
  - case_match; [|done]. apply otg_queue; [done|]. by eapply otg_ok_same; [..|exact Hc].
  - case_match; [|done]. apply otg_queue; [done|]. by eapply otg_ok_same; [..|exact Hc].
  - case_decide as Hn; [done|]. destruct Hc as (Hs & Hu & [Hd|(_ & Hd & _)]); [|done].
    split_and!; [done..|]. by left.
  - by apply otg_notifiers.
  - case_decide; [|done]. apply otg_queue; [done|]. by eapply otg_ok_same; [..|exact Hc].
  - case_decide as Hin; [|destruct w; [done..|by rewrite decide_False|done|done]].
    pose proof (otg_cancel c w on Hc) as Hc'. destruct w; [|by apply otg_run_work| |by apply otg_run_work..].
    + apply otg_run_work; [done| |done]. intros _. by destruct Hc as (_ & _ & [Hd|(_ & _ & ?)]).
    + rewrite decide_True by done. exact (otg_host (cancel_work c host_work) on Hc').
  - eapply otg_ok_same; [..|exact Hc]; unfold rk817_charge_pm_suspend; cbv zeta; [|by case_match..].
    set (c' := c <| otg_slp_state := _ |>). transitivity (otg_view c'); [|done].
    case_match; by apply otg_write.
  - eapply otg_ok_same; [..|exact Hc]; unfold rk817_charge_pm_resume; [|by case_match..].
    case_match; [by apply otg_write|done].
Qed.

Lemma otg_run c es on : otg_ok c on -> events_ok c es -> exists on', otg_ok (run_charger c es) on'.
Proof.
  intros Hc He. apply (run_invariant (fun c => exists on, otg_ok c on)); [|by exists on|done].
  intros c' e [on' Hc'] He'. exists (default on' (cable_request c' e)). by apply otg_step.
Qed.

(** *** Probe *)

Definition otg_power c : bool := truth (rk817_charge_get_otg_state c).
Definition frame c := (setup c, jack c, plugin_depth c, plugout_depth c, irq_unbalanced c, notifiers c).

Lemma power_write c f v : f <> OTG_EN -> otg_power (rk817_charge_field_write c f v) = otg_power c.
Proof.
  intros Hf. unfold otg_power, rk817_charge_get_otg_state. rewrite regs_write.
  by rewrite (write_keeps (regs c) f _ Hf).
Qed.

Lemma power_off_write c : otg_power (rk817_charge_field_write c OTG_EN OTG_DISABLE) = false.
Proof. unfold otg_power, rk817_charge_get_otg_state. rewrite regs_write. apply write_off. Qed.

Lemma power_pre_init c : otg_power (rk817_charge_pre_init c) = false.
Proof.
  cbv beta delta [rk817_charge_pre_init].
  do 6 match goal with
  | |- ?V (let c := ?x in @?k c) = ?r =>
      let c := fresh "c" in change (V (k x) = r); generalize x; intros c; cbv beta
  end.
  lazymatch goal with
  | |- ?V (let c := ?x in @?k c) = ?r =>
      change (V (k x) = r); rewrite <- (power_off_write c5 : V x = r); generalize x; intros c6; cbv beta
  end.
  let_step (reflexivity).
  let_step (case_match; [by apply power_write|done]).
  let_step (by apply power_write).
  let_step (by apply power_write).
  by apply power_write.
Qed.

Lemma frame_write c f v : frame (rk817_charge_field_write c f v) = frame c.
Proof. reflexivity. Qed.

Lemma frame_pre_init c : frame (rk817_charge_pre_init c) = frame c.
Proof.
  cbv beta delta [rk817_charge_pre_init].
  let_step (reflexivity).
  let_step (reflexivity).
  let_step (unfold rk817_charge_set_chrg_voltage; by case_match).
  let_step (reflexivity).
  let_step (unfold rk817_charge_set_chrg_finish_condition; cbv zeta; by case_match).
  let_step (by case_match).
  let_step (reflexivity).
  let_step (reflexivity).
  let_step (by case_match).
  let_step (reflexivity).
  let_step (reflexivity).
  reflexivity.
Qed.

Lemma otg_init_dc env c on : power_dc2otg (pdata c) = 0 \/ support_dc_det (pdata c) = false ->
  otg_ok c on -> otg_ok (snd (rk817_charge_init_dc env c)) on.
Proof.
  intros Hp Hc. unfold rk817_charge_init_dc. cbv zeta.
  assert (Hc' : otg_ok (c <| dc_charger := DC_TYPE_NONE_CHARGER |>) on) by (by eapply otg_ok_same; [..|exact Hc]).
  change (pdata (c <| dc_charger := DC_TYPE_NONE_CHARGER |>)) with (pdata c).
  destruct Hp as [Hp|Hp]; [|by rewrite Hp].
  destruct (support_dc_det _); [|done]. destruct (_ <? 0); [done|]. cbn [negb].
  destruct (truth (gpio_direction_input env)); [done|].
  assert (Hcr : forall v, otg_ok (c <| dc_charger := DC_TYPE_NONE_CHARGER |> <| dc_charger := v |>) on)
    by (intros v; by eapply otg_ok_same; [..|exact Hc]).
  destruct (truth (request_dc_irq env)); [apply Hcr|]. cbn [snd].
  lazymatch goal with |- context [dc_charger ?x] => set (c1 := x) in * end.
  assert (Eo : otg_view c1 = otg_view c) by done. assert (Es : setup c1 = setup c) by done. clearbody c1.
  destruct Hc as (Hs & Hu & _). apply pair_eq in Es as [Ep Eu].
  assert (Hd : forall c2, otg_view c2 = otg_view c1 -> setup c2 = setup c1 -> otg_ok c2 on).
  { intros c2 Ev [Ep' Eu']%pair_eq. split_and!; [|by rewrite Eu', Eu|left; by rewrite Ep', Ep].
    eapply otg_view_is; [|exact Hs]. by rewrite Ev. }
  case_decide; apply Hd; try done; [apply otg_param|apply setup_param].
Qed.

Lemma setup_init_dc env c : setup (snd (rk817_charge_init_dc env c)) = setup c.
Proof.
  unfold rk817_charge_init_dc. cbv zeta.
  repeat (case_match; [done|]). cbn [snd]. case_decide; [done|]. by rewrite setup_param.
Qed.

Lemma frame_unregister l c : otg_view (unregister_notifiers c l) = otg_view c /\
  setup (unregister_notifiers c l) = setup c /\ jack (unregister_notifiers c l) = jack c.
Proof. revert c. induction l as [|n l IH]; intros c; [done|]. exact (IH (unregister_notifier c n)). Qed.

Lemma otg_usb_init env c on : extcon (pdata c) = true -> otg_ok c on ->
  otg_ok (snd (rk817_charge_usb_init env c)) on.
Proof.
  intros He (Hs & Hu & Hd). unfold rk817_charge_usb_init. rewrite He. unfold usb_init_extcon. cbv zeta.
  assert (Hn : forall c', otg_view c' = otg_view c -> pdata c' = pdata c -> jack c' = jack c ->
    usb_work_fn c' = Some CHARGER_EVT -> otg_ok c' on).
  { intros c' Ev Ep [[E1 E2]%pair_eq E3]%pair_eq Eu. split_and!; [by eapply otg_view_is|by rewrite Eu|].
    unfold dc_harmless in *. by rewrite Ep, E1, E2, E3. }
  assert (Hl : forall l c', otg_ok c' on -> otg_ok (unregister_notifiers c' l) on).
  { intros l c' Hc'. destruct (frame_unregister l c') as (E1 & E2 & E3). by eapply otg_ok_same. }
  repeat case_match; cbn [snd]; try apply Hl; first [by split_and! | by apply Hn].
Qed.

(** The DC jack of a board does not power the OTG output. *)
Definition node_harmless (np : charger_node) : Prop :=
  dt_u32 (dt_node np) "power_dc2otg" 0 = 0 \/ dt_dc_det_gpio np = None.

Lemma parse_dt_ok c alloc np r c' : rk817_charge_parse_dt c alloc np = (r, c') -> (r <? 0) = false ->
  extcon (pdata c') = dt_extcon np /\
  power_dc2otg (pdata c') = dt_u32 (dt_node np) "power_dc2otg" 0 /\
  support_dc_det (pdata c') = bool_decide (is_Some (dt_dc_det_gpio np)) /\
  usb_work_fn c' = usb_work_fn c /\ jack c' = jack c /\
  (plugin_depth c', plugout_depth c', irq_unbalanced c') = (plugin_depth c, plugout_depth c, irq_unbalanced c) /\
  notifiers c' = notifiers c.
Proof.
  unfold rk817_charge_parse_dt. cbv zeta. destruct alloc; cbn [negb]; [|by intros E; injection E as <- <-].
  case_match; intros E Hr; injection E as <- <-; [done|]. by split_and!.
Qed.

(** A successful probe, stage by stage. *)
Lemma probe_stages env np h c : rk817_charge_probe env np h = (0, c) ->
  exists r c1 c2 c3,
    rk817_charge_parse_dt (charger_kzalloc h) (kzalloc_pdata env) np = (r, c1) /\ (r <? 0) = false /\
    rk817_charge_init_dc env (rk817_charge_pre_init c1) = (0, c2) /\
    rk817_charge_usb_init env c2 = (0, c3) /\
    c = (if extcon (pdata c3) then queue_delayed_work (queue_delayed_work c3 host_work) usb_work else c3).
Proof.
  unfold rk817_charge_probe.
  destruct (of_match env); [|done]. destruct (kzalloc_charge env); [|done].
  destruct (regmap_ok env); [|done]. destruct (Z.ltb_spec (regmap_field_alloc env) 0); [intros [= E _]; lia|].
  cbn [negb]. cbv zeta.
  assert (Ht : forall r, truth r = false -> r = 0) by (intros r; unfold truth; destruct (Z.eqb_spec r 0); done).
  destruct (rk817_charge_parse_dt _ _ _) as [r1 c1] eqn:E1. destruct (r1 <? 0) eqn:Hr1; [intros [= -> _]; done|].
  destruct (truth (rk817_charge_init_power_supply env)) eqn:Hp; [intros [= E _]; by rewrite E in Hp|].
  destruct (rk817_charge_init_dc _ _) as [r2 c2] eqn:E2. destruct (truth r2) eqn:Hr2; [intros [= -> _]; done|].
  destruct (rk817_charge_usb_init _ _) as [r3 c3] eqn:E3. destruct (truth r3) eqn:Hr3; [intros [= -> _]; done|].
  destruct (truth (rk817_charge_init_irqs env)) eqn:Hi; [intros [= E _]; by rewrite E in Hi|].
  intros E. exists r1, c1, c2, c3. rewrite (Ht _ Hr2) in E2. rewrite (Ht _ Hr3) in E3.
  split_and!; try done. by destruct (extcon (pdata c3)); injection E.
Qed.

Lemma otg_probe env np h c : rk817_charge_probe env np h = (0, c) ->
  dt_extcon np = true -> node_harmless np -> otg_ok c false.
Proof.
  intros (r & c1 & c2 & c3 & Ep & Hr & Ed & Eu & ->)%probe_stages Hx Hn.
  destruct (parse_dt_ok _ _ _ _ _ Ep Hr) as (Hex & Hpo & Hsu & Hw & Hj & Hd & _).
  pose proof (frame_pre_init c1) as [[[[[Es Ej]%pair_eq E3]%pair_eq E4]%pair_eq E5]%pair_eq _]%pair_eq.
  apply pair_eq in Es as [Epd Ew]. apply pair_eq in Hd as [[F1 F2]%pair_eq F3].
  pose proof (f_equal (fun f => f.1.2) (flags_pre_init c1) : otg_in (rk817_charge_pre_init c1) = 0) as Eo.
  pose proof (power_pre_init c1) as Epo.
  set (c0 := rk817_charge_pre_init c1) in *. clearbody c0.
  assert (Hp : power_dc2otg (pdata c0) = 0 \/ support_dc_det (pdata c0) = false).
  { rewrite Epd, Hpo, Hsu. destruct Hn as [Hn| ->]; auto. }
  assert (Hc : otg_ok c0 false).
  { split_and!; [|by rewrite Ew, Hw|].
    - split_and!; [done|exact Epo|by rewrite E3, F1|by rewrite E4, F2|by rewrite E5, F3].
    - unfold dc_harmless. rewrite Epd, Hpo. destruct Hn as [Hn|_]; [by left|right].
      rewrite Hj in Ej. apply pair_eq in Ej as [[-> ->]%pair_eq ->].
      split_and!; [done..|]. apply not_elem_of_nil. }
  pose proof (otg_init_dc env c0 false Hp Hc) as Hc2. rewrite Ed in Hc2. cbn [snd] in Hc2.
  pose proof (setup_init_dc env c0) as Es. rewrite Ed in Es. apply pair_eq in Es as [Epd2 _]. cbn [snd] in Epd2.
  assert (Hx2 : extcon (pdata c2) = true) by (by rewrite Epd2, Epd, Hex).
  pose proof (otg_usb_init env c2 false Hx2 Hc2) as Hc3. rewrite Eu in Hc3. cbn [snd] in Hc3.
  case_match; [|done]. by apply otg_queue, otg_queue.
Qed.
End Otg.

(** ** Notifiers and works *)

Section Notifiers.
Context `{Platform}.
Implicit Types c : rk817_charger.

Definition nview c : list (option extcon_id * notifier_block) * list work := (notifiers c, pending c).

Lemma nview_param c ch : nview (rk817_charge_set_chrg_param c ch) = nview c.
Proof.
  assert (Hc : nview (chrg_param_case c ch) = nview c).
  { destruct ch; unfold chrg_param_case; cbv zeta iota; repeat case_match; reflexivity. }
  unfold rk817_charge_set_chrg_param. cbv zeta. by case_match.
Qed.

Lemma nview_parse_dt c alloc np : nview (snd (rk817_charge_parse_dt c alloc np)) = nview c.
Proof. unfold rk817_charge_parse_dt. cbv zeta. by repeat case_match. Qed.

Lemma nview_pre_init c : nview (rk817_charge_pre_init c) = nview c.
Proof.
  pose proof (frame_pre_init c) as [[[[[_ [_ Ep]%pair_eq]%pair_eq _]%pair_eq _]%pair_eq _]%pair_eq En]%pair_eq.
  unfold nview. by rewrite Ep, En.
Qed.

Lemma nview_init_dc env c : nview (snd (rk817_charge_init_dc env c)) = nview c.
Proof.
  unfold rk817_charge_init_dc. cbv zeta.
  repeat (case_match; [done|]). cbn [snd]. case_decide; [done|]. by rewrite nview_param.
Qed.

(** A registration that fails undoes those before it. *)
Lemma nview_usb_init env c : nview c = ([], []) ->
  let c' := snd (rk817_charge_usb_init env c) in
  extcon (pdata c') = extcon (pdata c) /\
  nview c' = (if truth (fst (rk817_charge_usb_init env c)) then []
              else if extcon (pdata c) then [usb_nb; vbus_nb; cdp_nb; dcp_nb; sdp_nb] else [(None, bc_nb)], []).
Proof.
  intros [En Ep]%pair_eq. unfold rk817_charge_usb_init. destruct (extcon (pdata c)) eqn:Hx.
  - unfold usb_init_extcon. cbv zeta.
    assert (Hneg : forall r, (r <? 0) = true -> truth r = true).
    { intros r Hr%Z.ltb_lt. apply truth_true. lia. }
    repeat (case_match; cbn [fst snd]; [rewrite Hneg by done; split; [by rewrite <- Hx|];
                         unfold nview; cbn; rewrite ?En, ?Ep; reflexivity|]).
    split; [done|]. unfold nview. cbn. by rewrite En, Ep.
  - unfold usb_init_bc. cbv zeta. case_match; cbn [fst snd]; [by split; [|unfold nview; cbn; rewrite En, Ep]|].
    cbn [truth]. case_decide.
    + split; [done|]. unfold nview. cbn. by rewrite En, Ep.
    + split; [by rewrite (f_equal fst (setup_param _ _) : pdata _ = pdata _)|].
      rewrite nview_param. unfold nview. cbn. by rewrite En, Ep.
Qed.

Lemma nview_undo c : nview c = (if extcon (pdata c) then [usb_nb; vbus_nb; cdp_nb; dcp_nb; sdp_nb]
                                else [(None, bc_nb)], []) ->
  nview (drop_notifiers (cancel_works (cancel_extcon_works c))) = ([], []).
Proof.
  intros [En Ep]%pair_eq. unfold drop_notifiers, cancel_extcon_works, nview.
  destruct (extcon (pdata c)) eqn:Hx; cbn; rewrite Hx; cbn; by rewrite En, Ep.
Qed.
End Notifiers.

(** ** The registers after [pre_init] *)

Section PreInit.
Context `{Platform}.
Implicit Types c : rk817_charger.

Definition wr_field (f : rk817_charge_fields) (v : Z) (h : hw) : hw :=
  regmap_field_write h (rk817_charge_reg_fields f) (u32 v).
Definition rd_field (f : rk817_charge_fields) (h : hw) : Z :=
  snd (regmap_field_read h (rk817_charge_reg_fields f)).

Definition wr_chrg_vol (vol : Z) (h : hw) : hw :=
  if (vol <? 4100) || (vol >? 4500) then h else wr_field CHRG_VOL_SEL (Z.quot (vol - 4100) 50) h.

Definition wr_finish (mode cur res_div : Z) (h : hw) : hw :=
  wr_field CHRG_TERM_ANA_DIG (s32 mode)
    (if mode =? CHRG_ANALOG
     then wr_field CHRG_TERM_ANA_SEL (charge_term_code (term_current_level (s32 cur))) h
     else wr_field CHRG_TERM_DIG
            (u8 (Z.shiftr (Z.land (CURRENT_TO_ADC (s32 cur) res_div) (Z.shiftl 0xff 5)) 5)) h).

Definition wr_otg_off (h : hw) : hw :=
  wr_field OTG_EN OTG_DISABLE
    (if truth (regulator_is_enabled h) then snd (regulator_disable h) else h).

(** The settings taken from the device tree. *)
Definition settings c :=
  (pdata c, (min_input_voltage c, max_chrg_voltage c, max_chrg_current c), (chrg_finish_cur c, chrg_term_mode c),
   res_div c).

(** Names the state a [let] of the goal binds, with its equation. *)
Ltac let_name :=
  lazymatch goal with
  | |- ?V (let c := ?x in @?k c) = ?r =>
      let c := fresh "c" in let E := fresh "E" in
      assert (exists y, y = x) as [c E] by eauto;
      change (V (k x) = r); rewrite <- E; cbv beta
  end.

Lemma regs_pre_init c : let p := pdata c in
  regs (rk817_charge_pre_init c) =
  wr_field CHRG_CLK_SEL CHRG_CLK_2M (wr_field CHRG_EN ENABLE (wr_field USB_SYS_EN ENABLE
    ((if truth (gate_function_disable p) then id else wr_field SYS_CAN_SD DISABLE)
    (wr_otg_off (wr_finish (pd_chrg_term_mode p) (pd_chrg_finish_cur p) (res_div c)
    (wr_field CHRG_CUR_SEL (charge_current_code (chrg_current_level (s32 (pd_max_chrg_current p))))
    (wr_chrg_vol (s32 (pd_max_chrg_voltage p))
    (wr_field USB_VLIM_EN ENABLE
    (wr_field USB_VLIM_SEL (Z.quot (s32 (s32 (pd_min_input_voltage p) - 4000)) 100) (regs c)))))))))).
Proof.
  cbv zeta beta. cbv beta delta [rk817_charge_pre_init]. do 11 let_name.
  assert (S0 : settings c0 = (pdata c, (pd_min_input_voltage (pdata c), pd_max_chrg_voltage (pdata c),
    pd_max_chrg_current (pdata c)), (pd_chrg_finish_cur (pdata c), pd_chrg_term_mode (pdata c)), res_div c))
    by (by rewrite E).
  assert (S1 : settings c1 = settings c0) by (by rewrite E0).
  assert (S2 : settings c2 = settings c1) by (rewrite E1; unfold rk817_charge_set_chrg_voltage; by destruct (_ || _)).
  assert (S3 : settings c3 = settings c2) by (by rewrite E2).
  assert (S4 : settings c4 = settings c3)
    by (rewrite E3; unfold rk817_charge_set_chrg_finish_condition; by destruct (chrg_term_mode c3 =? CHRG_ANALOG)).
  assert (S5 : settings c5 = settings c4) by (rewrite E4; by destruct (truth _)).
  assert (S7 : settings c7 = settings c5) by (by rewrite E6, E5).
  assert (R1 : regs c1 = wr_field USB_VLIM_EN ENABLE (wr_field USB_VLIM_SEL
    (Z.quot (s32 (s32 (min_input_voltage c0) - 4000)) 100) (regs c0))) by (by rewrite E0).
  assert (R2 : regs c2 = wr_chrg_vol (s32 (max_chrg_voltage c1)) (regs c1))
    by (rewrite E1; unfold rk817_charge_set_chrg_voltage, wr_chrg_vol; by destruct (_ || _)).
  assert (R3 : regs c3 = wr_field CHRG_CUR_SEL
    (charge_current_code (chrg_current_level (s32 (max_chrg_current c2)))) (regs c2)) by (by rewrite E2).
  assert (R4 : regs c4 = wr_finish (chrg_term_mode c3) (chrg_finish_cur c3) (res_div c3) (regs c3)).
  { rewrite E3; unfold rk817_charge_set_chrg_finish_condition, wr_finish; cbv zeta.
    by destruct (chrg_term_mode c3 =? CHRG_ANALOG). }
  assert (R6 : regs c6 = wr_otg_off (regs c4)).
  { rewrite E5, E4. unfold wr_otg_off, rk817_charge_get_otg_state. by destruct (truth _). }
  assert (R8 : regs c8 = (if truth (gate_function_disable (pdata c7)) then id else wr_field SYS_CAN_SD DISABLE)
    (regs c6)).
  { rewrite E7. destruct (truth (gate_function_disable (pdata c7))); cbn [negb]; by rewrite E6. }
  rewrite E9, E8.
  transitivity (wr_field CHRG_CLK_SEL CHRG_CLK_2M (wr_field CHRG_EN ENABLE (wr_field USB_SYS_EN ENABLE (regs c8))));
    [done|].
  assert (R0 : regs c0 = regs c) by (by rewrite E).
  unfold settings in *. repeat match goal with H : (_, _) = _ |- _ => apply pair_eq in H as [? ?] end.
  rewrite R8, R6, R4, R3, R2, R1, R0. clear E E0 E1 E2 E3 E4 E5 E6 E7 E8 E9.
  repeat match goal with H : ?f ?x = _ |- context [?f ?x] => rewrite H end. reflexivity.
Qed.
End PreInit.
