(* ===== verification/Rk817ChargerProps.v ===== *)
(** * Properties of the RK817 charger driver

    The theorems about the charger, and a concrete chip with a regulator, a
    jack and a type-C port to evaluate the driver on. *)

From S2P Require Import Prelude Rk817Regs Rk817Gauge Rk817Driver Rk817Charger Rk817ChargerFacts.

(** ** A chip

    A register file whose power register takes a bit together with its mask:
    a write of [OTG_EN] with bit 4 set switches the output to bit 0. *)
Record chip := { file : regfile; otg_on : bool; jack_level : Z; cable : extcon_id -> Z }.

Definition chip_kernel : Kernel := {|
  hw := chip;
  regmap_field_read h f := @regmap_field_read regfile_kernel (file h) f;
  regmap_field_write h f v := {|
    file := @regmap_field_write regfile_kernel (file h) f v;
    otg_on := if (reg f =? 0xB4) && (lsb f =? 2) && Z.testbit v 4 then Z.testbit v 0 else otg_on h;
    jack_level := jack_level h; cable := cable h |};
  boottime h := clock (file h);
  rtc_time h := Some (rtc_clock (file h));
  usb_online h := Some (usb_plugged (file h));
  ac_online h := Some (ac_plugged (file h));
|}.

Definition switch_otg (on : bool) (h : chip) : chip :=
  {| file := file h; otg_on := on; jack_level := jack_level h; cable := cable h |}.

#[local] Existing Instance chip_kernel.

Definition chip_platform : Platform := {|
  regulator_is_enabled (h : hw) := b2z (otg_on h);
  regulator_enable h := (0, switch_otg true h);
  regulator_disable h := (0, switch_otg false h);
  gpio_is_valid pin := 0 <=? pin;
  gpio_get_value h _ := jack_level h;
  extcon_get_state h id := cable h id;
|}.
#[local] Existing Instance chip_platform.

#[export] Instance chip_regmap : @RegmapMemory chip_kernel.
Proof.
  constructor.
  - intros h. exact (@read_range _ regfile_memory (file h)).
  - intros h. exact (@read_written _ regfile_memory (file h)).
  - intros h. exact (@read_other _ regfile_memory (file h)).
Qed.

#[export] Instance chip_memory : @ChargerMemory chip_kernel chip_platform.
Proof.
  constructor; [|done..]. intros h f v Hf. unfold config in Hf. apply andb_prop in Hf as [_ Hf%field_wf_spec].
  cbn. rewrite Z.eqb_refl. apply field_insert_same; lia.
Qed.

#[export] Instance chip_switch : @OtgSwitch chip_kernel chip_platform.
Proof.
  constructor; try done. intros h f v Hf. by destruct f.
Qed.

(** Hardware that does as asked, a type-C board without and one with a DC jack
    that powers the OTG output, and a board with charging detection. *)
Definition good_env : probe_env := {|
  of_match := true; kzalloc_charge := true; regmap_ok := true; regmap_field_alloc := 0;
  kzalloc_pdata := true; register_psy _ := 0; devm_gpio_request := 0; gpio_direction_input := 0;
  request_dc_irq := 0; extcon_get_edev := 0; extcon_register _ := 0; bc_register := 0;
  bc_port := USB_BC_TYPE_SDP; plug_in_virq := 40; plug_out_virq := 41; request_plug_in := 0;
  request_plug_out := 0 |}.

Definition board (typec : bool) (dc : option (Z * bool)) (dc2otg : Z) : charger_node := {|
  dt_node := {| of_u32_array _ := None;
                of_u32 name := if String.eqb name "power_dc2otg" then Some dc2otg else None |};
  dt_extcon := typec; dt_dc_det_gpio := dc |}.

Definition chip_with (jack_level : Z) (cable : extcon_id -> Z) : chip := {|
  file := {| reg_byte r := if r =? 0xEB then 0x80 else if r =? 0xF0 then 0x40 else 0;
             clock := 0; rtc_clock := 0; usb_plugged := 0; ac_plugged := 0 |};
  otg_on := false; jack_level := jack_level; cable := cable |}.

(** Nothing is plugged in; a cable that asks for power; an SDP port. *)
Definition no_cable (id : extcon_id) : Z := 0.
Definition otg_cable (id : extcon_id) : Z := match id with EXTCON_USB_VBUS_EN => 1 | _ => 0 end.
Definition sdp_cable (id : extcon_id) : Z := match id with EXTCON_CHG_USB_SDP => 1 | _ => 0 end.

(** The cables and the jack change, the registers stay. *)
Definition move (jack : Z) (cable : extcon_id -> Z) (c : @rk817_charger chip_kernel) : charger_event :=
  HardwareEvent (H := chip_kernel) {| file := file (regs c); otg_on := otg_on (regs c); jack_level := jack; cable := cable |}.

(** ** Cables and adapters *)

(** C29. Whatever happens, from probe on: the mains and the USB supply report a
    boolean, the driver never takes one port for both, both supplies report
    the same status, and it is charging or full as soon as one of them is
    online. *)
Theorem charger_status_consistent `{Platform} env np h es :
  let c := run_charger (snd (rk817_charge_probe env np h)) es in
  exists a u s,
    rk817_charge_ac_get_property c POWER_SUPPLY_PROP_ONLINE = inr (intval a) /\
    rk817_charge_usb_get_property c POWER_SUPPLY_PROP_ONLINE = inr (intval u) /\
    rk817_charge_ac_get_property c POWER_SUPPLY_PROP_STATUS = inr (status_val s) /\
    rk817_charge_usb_get_property c POWER_SUPPLY_PROP_STATUS = inr (status_val s) /\
    (a = 0 \/ a = 1) /\ (u = 0 \/ u = 1) /\
    (a + u <> 0 -> s = POWER_SUPPLY_STATUS_CHARGING \/ s = POWER_SUPPLY_STATUS_FULL) /\
    ac_in c + usb_in c <= 1.
Proof.
  cbv zeta. pose proof (flags_run _ es (flags_probe env np h)) as Hf.
  set (c := run_charger _ es) in *. clearbody c. unfold flags_ok, flags, flags_wf in Hf.
  destruct Hf as (Ha & Hu & Hd & _ & Hx & Hc).
  cbn [rk817_charge_ac_get_property rk817_charge_usb_get_property].
  destruct (truth (virtual_power (pdata c))).
  - exists 1, 1, POWER_SUPPLY_STATUS_CHARGING. split_and!; auto; lia.
  - eexists _, _, _. split_and!; [done..| |done| |done].
    + destruct Ha as [-> | ->], Hd as [-> | ->]; cbn; auto.
    + intros Hn. apply Hc. destruct Ha as [E1 | E1], Hd as [E2 | E2]; rewrite E1, E2 in *; revert Hn; destruct Hu as [E3 | E3]; rewrite E3; vm_compute; congruence.
Qed.

(** C30. A USB port that is the only source is never drawn on with more than
    450 mA: whatever happened since probe, the limit is programmed and
    enabled. *)
Theorem usb_port_not_overdrawn `{Platform} `{!RegmapMemory} `{!ChargerMemory} env np h es :
  let c0 := snd (rk817_charge_probe env np h) in
  events_ok c0 es ->
  let c := run_charger c0 es in
  usb_in c = 1 -> dc_in c = 0 ->
  ac_in c = 0 /\
  rk817_charge_field_read c USB_ILIM_SEL = input_current_code INPUT_CUR_450MA /\
  rk817_charge_field_read c USB_ILIM_EN = 1.
Proof.
  cbv zeta. intros He Hu Hd.
  destruct (run_invariant limited _ es limited_step (limited_probe env np h) He) as [Hf Hl].
  set (c := run_charger _ es) in *. clearbody c. specialize (Hl Hu Hd).
  destruct Hf as (Ha & _ & _ & _ & Hx & _). unfold limit in Hl. injection Hl as -> ->.
  split_and!; [lia|done..].
Qed.

(** A type-C board that is plugged into a computer. *)
Definition plug_sdp (c : @rk817_charger chip_kernel) : list charger_event :=
  [move 0 sdp_cable c; CableEvent EXTCON_CHG_USB_SDP; RunWork usb_work].

Lemma move_ok jack cab c : event_ok c (move jack cab c).
Proof. done. Qed.

#[local] Notation typec_charger :=
  (snd (rk817_charge_probe good_env (board true None 0) (chip_with 0 no_cable))).

Lemma usb_port_not_overdrawn_witness :
  let c := run_charger typec_charger (plug_sdp typec_charger) in
  usb_in c = 1 /\ dc_in c = 0 /\ rk817_charge_field_read c USB_ILIM_EN = 1.
Proof.
  assert (E1 : usb_in (run_charger typec_charger (plug_sdp typec_charger)) = 1) by (vm_compute; reflexivity).
  assert (E2 : dc_in (run_charger typec_charger (plug_sdp typec_charger)) = 0) by (vm_compute; reflexivity).
  refine (conj E1 (conj E2 _)).
  refine (proj2 (proj2 (usb_port_not_overdrawn good_env (board true None 0) (chip_with 0 no_cable)
    (plug_sdp typec_charger) _ E1 E2))).
  exact (conj (move_ok 0 sdp_cable typec_charger) (conj I (conj I I))).
Defined.

(** ** Limits *)

(** What the levels mean, in mV and mA. *)
Definition input_voltage_mV (sel : Z) : Z := 4000 + 100 * sel.
Definition charge_voltage_mV (sel : Z) : Z := 4100 + 50 * sel.
Definition charge_current_mA (c : charge_current) : Z :=
  match c with
  | CHRG_CUR_1000MA => 1000 | CHRG_CUR_1500MA => 1500 | CHRG_CUR_2000MA => 2000
  | CHRG_CUR_2500MA => 2500 | CHRG_CUR_2750MA => 2750 | CHRG_CUR_3000MA => 3000
  | CHRG_CUR_3500MA => 3500 | CHRG_CUR_500MA => 500
  end.
Definition input_current_mA (c : input_current) : Z :=
  match c with
  | INPUT_CUR_450MA => 450 | INPUT_CUR_80MA => 80 | INPUT_CUR_850MA => 850 | INPUT_CUR_1500MA => 1500
  | INPUT_CUR_1750MA => 1750 | INPUT_CUR_2000MA => 2000 | INPUT_CUR_2500MA => 2500
  | INPUT_CUR_3000MA => 3000
  end.

Section Limits.
Context `{Platform} `{!RegmapMemory} `{!ChargerMemory}.
Implicit Types c : rk817_charger.

Lemma rd_wr_same f v h : config (rk817_charge_reg_fields f) = true -> 0 <= v < 2 ^ 32 ->
  rd_field f (wr_field f v h) = v mod field_mask (rk817_charge_reg_fields f).
Proof. intros Hf Hv. unfold rd_field, wr_field. rewrite u32_id by lia. by apply config_written. Qed.

Lemma rd_wr_other f g v h : overlap (rk817_charge_reg_fields f) (rk817_charge_reg_fields g) = false ->
  rd_field g (wr_field f v h) = rd_field g h.
Proof. intros Ho. unfold rd_field, wr_field. by rewrite read_other by (done || apply charge_field_wf). Qed.

Lemma rd_read c f : rk817_charge_field_read c f = rd_field f (regs c).
Proof. apply field_read_val. Qed.

(** A field of the configuration, but for those that finish the set-up. *)
Lemma rd_otg_off f h : config (rk817_charge_reg_fields f) = true -> rd_field f (wr_otg_off h) = rd_field f h.
Proof.
  intros Hf. unfold wr_otg_off. rewrite rd_wr_other by (by destruct f).
  case_match; [|done]. unfold rd_field. by rewrite config_disable.
Qed.

Lemma rd_finish f mode cur div h : f <> CHRG_TERM_ANA_DIG -> f <> CHRG_TERM_ANA_SEL -> f <> CHRG_TERM_DIG ->
  rd_field f (wr_finish mode cur div h) = rd_field f h.
Proof.
  intros Ha Hs Hd. unfold wr_finish. case_match; rewrite !rd_wr_other; try done; by destruct f.
Qed.

Lemma rd_vol f v h : f <> CHRG_VOL_SEL -> rd_field f (wr_chrg_vol v h) = rd_field f h.
Proof. intros Hf. unfold wr_chrg_vol. case_match; [done|]. apply rd_wr_other. by destruct f. Qed.

(** A configuration field the second half of [pre_init] does not write. *)
Lemma rd_pre_init f c : let p := pdata c in
  config (rk817_charge_reg_fields f) = true ->
  f ∉ [CHRG_EN; USB_SYS_EN; SYS_CAN_SD; CHRG_TERM_ANA_DIG; CHRG_TERM_ANA_SEL; CHRG_TERM_DIG] ->
  rk817_charge_field_read (rk817_charge_pre_init c) f =
  rd_field f (wr_field CHRG_CUR_SEL (charge_current_code (chrg_current_level (s32 (pd_max_chrg_current p))))
    (wr_chrg_vol (s32 (pd_max_chrg_voltage p)) (wr_field USB_VLIM_EN ENABLE
    (wr_field USB_VLIM_SEL (Z.quot (s32 (s32 (pd_min_input_voltage p) - 4000)) 100) (regs c))))).
Proof.
  cbv zeta. intros Hf Hn. rewrite rd_read, regs_pre_init.
  rewrite !not_elem_of_cons in Hn. destruct Hn as (N1 & N2 & N3 & N4 & N5 & N6 & _).
  rewrite 3!rd_wr_other by (by destruct f). set (h := wr_otg_off _).
  transitivity (rd_field f h); [case_match; [done|]; apply rd_wr_other; by destruct f|].
  unfold h. by rewrite rd_otg_off, rd_finish.
Qed.

Lemma rd_enabled c : rk817_charge_field_read (rk817_charge_pre_init c) CHRG_EN = 1 /\
  rk817_charge_field_read (rk817_charge_pre_init c) USB_SYS_EN = 1.
Proof.
  rewrite !rd_read, regs_pre_init. split.
  - rewrite rd_wr_other by done. by rewrite rd_wr_same by (done || cbn; lia).
  - rewrite 2!rd_wr_other by done. by rewrite rd_wr_same by (done || cbn; lia).
Qed.

Lemma charge_level_spec i : 500 <= i ->
  charge_current_mA (chrg_current_level i) <= i /\
  forall l, l <> CHRG_CUR_2750MA -> charge_current_mA l <= i ->
    charge_current_mA l <= charge_current_mA (chrg_current_level i).
Proof.
  intros Hi. unfold chrg_current_level. split; [repeat zcase; cbn; lia|].
  intros l Hl. destruct l; try done; repeat zcase; cbn; lia.
Qed.

Lemma input_level_spec i : 80 <= i ->
  input_current_mA (input_current_level i) <= i /\
  forall l, input_current_mA l <= i -> input_current_mA l <= input_current_mA (input_current_level i).
Proof.
  intros Hi. unfold input_current_level. split; [repeat zcase; cbn; lia|].
  intros l. destruct l; repeat zcase; cbn; lia.
Qed.

(** The selectors [pre_init] programs, for any settings: they wrap at the
    width of their field. *)
Lemma selectors c (p := pdata c) (c' := rk817_charge_pre_init c) :
  - 2 ^ 31 <= pd_min_input_voltage p - 4000 < 2 ^ 31 -> - 2 ^ 31 <= pd_min_input_voltage p < 2 ^ 31 ->
  rk817_charge_field_read c' USB_VLIM_EN = 1 /\
  rk817_charge_field_read c' USB_VLIM_SEL = u32 (Z.quot (pd_min_input_voltage p - 4000) 100) mod 8 /\
  rk817_charge_field_read c' CHRG_CUR_SEL
    = charge_current_code (chrg_current_level (s32 (pd_max_chrg_current p))) /\
  (4100 <= pd_max_chrg_voltage p <= 4500 ->
   rk817_charge_field_read c' CHRG_VOL_SEL = ((pd_max_chrg_voltage p - 4100) / 50) mod 8).
Proof.
  intros Hv Hw. unfold c', p in *. clear c' p. split_and!.
  - rewrite rd_pre_init by (done || set_solver). rewrite rd_wr_other, rd_vol by done.
    by rewrite rd_wr_same by (done || cbn; lia).
  - rewrite rd_pre_init by (done || set_solver). rewrite rd_wr_other, rd_vol, rd_wr_other by done.
    rewrite (s32_id (pd_min_input_voltage _)), s32_id by lia.
    unfold rd_field, wr_field. by rewrite config_written.
  - rewrite rd_pre_init by (done || set_solver).
    rewrite rd_wr_same by (done || (destruct (chrg_current_level _); cbn; lia)).
    by destruct (chrg_current_level _).
  - intros Hc. rewrite rd_pre_init by (done || set_solver). rewrite rd_wr_other by done.
    rewrite s32_id by lia. unfold wr_chrg_vol. repeat zcase; try lia. cbn [orb].
    rewrite Z.quot_div_nonneg by lia. apply rd_wr_same; [done|]. split; [apply Z.div_pos; lia|].
    apply Z.div_lt_upper_bound; lia.
Qed.
End Limits.

(** C31. After probe's set-up the chip holds the limits of the device tree, for
    an input voltage from 4000 mV, a charge voltage from 4100 to 4500 mV (others
    are refused) and a charge current from 500 mA.  The input voltage limit is
    programmed modulo 800 mV: it is the highest step that does not exceed the
    setting for settings below 4800 mV, and a lower one above.  The charge
    voltage is the highest step that does not exceed the setting, except that
    for 4500 mV, which the driver accepts, 4100 mV are programmed.  The charge
    current is the highest level that does not exceed the setting, but for
    2750 mA, which is never chosen.  The limits are enabled, and charging is
    on. *)
Theorem limits_programmed `{Platform} `{!RegmapMemory} `{!ChargerMemory} c :
  let p := pdata c in
  let c' := rk817_charge_pre_init c in
  4000 <= pd_min_input_voltage p < 2 ^ 31 -> 4100 <= pd_max_chrg_voltage p <= 4500 ->
  500 <= pd_max_chrg_current p < 2 ^ 31 ->
  let vin := input_voltage_mV (rk817_charge_field_read c' USB_VLIM_SEL) in
  let vchg := charge_voltage_mV (rk817_charge_field_read c' CHRG_VOL_SEL) in
  let level := chrg_current_level (pd_max_chrg_current p) in
  (vin = 4000 + 100 * (((pd_min_input_voltage p - 4000) / 100) mod 8) /\ vin <= pd_min_input_voltage p /\
   (pd_min_input_voltage p < 4800 <-> pd_min_input_voltage p - 100 < vin)) /\
  (vchg <= pd_max_chrg_voltage p /\ (pd_max_chrg_voltage p < 4500 -> pd_max_chrg_voltage p - 50 < vchg) /\
   (pd_max_chrg_voltage p = 4500 -> vchg = 4100)) /\
  rk817_charge_field_read c' CHRG_CUR_SEL = charge_current_code level /\
  level <> CHRG_CUR_2750MA /\ charge_current_mA level <= pd_max_chrg_current p /\
  (forall l, l <> CHRG_CUR_2750MA -> charge_current_mA l <= pd_max_chrg_current p ->
     charge_current_mA l <= charge_current_mA level) /\
  rk817_charge_field_read c' USB_VLIM_EN = 1 /\ rk817_charge_field_read c' CHRG_EN = 1 /\
  rk817_charge_field_read c' USB_SYS_EN = 1.
Proof.
  cbv zeta. intros Hv Hc Hi. destruct (selectors c) as (Een & Ev & Ei & Ec); [lia..|].
  destruct (rd_enabled c) as [E1 E2]. rewrite Een, Ev, Ei, Ec, E1, E2 by lia.
  rewrite s32_id by lia. destruct (charge_level_spec (pd_max_chrg_current (pdata c))) as [L1 L2]; [lia|].
  rewrite Z.quot_div_nonneg, u32_id by dlia. unfold input_voltage_mV, charge_voltage_mV.
  assert (Hlevel : chrg_current_level (pd_max_chrg_current (pdata c)) <> CHRG_CUR_2750MA).
  { unfold chrg_current_level. repeat zcase; done. }
  split_and!; try done; try dlia.
Qed.

(** Settings beyond the steps wrap to low ones: the driver accepts a
    charge voltage of 4500 mV and programs 4100 mV, and an input voltage
    limit is programmed modulo 800 mV. *)
Lemma limits_wrap `{Platform} `{!RegmapMemory} `{!ChargerMemory} c :
  let p := pdata c in
  let c' := rk817_charge_pre_init c in
  pd_max_chrg_voltage p = 4500 -> 4000 <= pd_min_input_voltage p < 2 ^ 31 ->
  charge_voltage_mV (rk817_charge_field_read c' CHRG_VOL_SEL) = 4100 /\
  input_voltage_mV (rk817_charge_field_read c' USB_VLIM_SEL)
    = 4000 + 100 * (((pd_min_input_voltage p - 4000) / 100) mod 8).
Proof.
  cbv zeta. intros Hc Hv. destruct (selectors c) as (_ & Ev & _ & Ec); [lia..|].
  rewrite Ev, Ec, Hc by lia. rewrite Z.quot_div_nonneg, u32_id by dlia. by split.
Qed.

Definition parsed (np : charger_node) : rk817_charger :=
  snd (rk817_charge_parse_dt (charger_kzalloc (chip_with 0 no_cable)) true np).

Definition high_node : charger_node := {|
  dt_node := {| of_u32_array _ := None;
                of_u32 name := if String.eqb name "max_chrg_voltage" then Some 4500
                               else if String.eqb name "min_input_voltage" then Some 4800 else None |};
  dt_extcon := true; dt_dc_det_gpio := None |}.

Lemma limits_programmed_witness :
  pd_max_chrg_voltage (pdata (parsed (board true None 0))) = 4200 /\
  4200 - 50 < charge_voltage_mV (rk817_charge_field_read
    (rk817_charge_pre_init (parsed (board true None 0))) CHRG_VOL_SEL) <= 4200.
Proof.
  split; [reflexivity|].
  destruct (limits_programmed (parsed (board true None 0)) ltac:(by vm_compute) ltac:(by vm_compute)
    ltac:(by vm_compute)) as (_ & (H1 & H2 & _) & _).
  exact (conj (H2 eq_refl) H1).
Defined.

Lemma limits_wrap_witness :
  charge_voltage_mV (rk817_charge_field_read (rk817_charge_pre_init (parsed high_node)) CHRG_VOL_SEL) = 4100.
Proof. refine (proj1 (limits_wrap (parsed high_node) _ _)); by vm_compute. Defined.

(** ** OTG power *)

Lemma pair_zero {A} (p : Z * A) : fst p = 0 -> p = (0, snd p).
Proof. destruct p. cbn. by intros ->. Qed.

(** A change of the hardware that leaves the regulator alone. *)
Definition same_power `{Platform} (c : rk817_charger) (h : hw) : Prop :=
  regulator_is_enabled h = regulator_is_enabled (regs c).

(** The driver takes itself to hold the OTG power, which is off. *)
Definition stranded `{Platform} (c : rk817_charger) : Prop :=
  otg_in c = 1 /\ otg_power c = false /\ plugin_depth c = 0 /\ irq_unbalanced c = false.

Lemma dc_takes_over `{Platform} `{!OtgSwitch} c :
  otg_state_is c true -> power_dc2otg (pdata c) <> 0 ->
  rk817_charge_get_dc_state c = DC_TYPE_DC_CHARGER -> stranded (rk817_charge_dc_det_worker c).
Proof.
  intros Hs Hp Hd. unfold rk817_charge_dc_det_worker, stranded. rewrite decide_True by done. cbv zeta.
  pose proof (otg_param c DC_TYPE_DC_CHARGER) as Eo. pose proof (setup_param c DC_TYPE_DC_CHARGER) as Es.
  set (c0 := rk817_charge_set_chrg_param c DC_TYPE_DC_CHARGER) in *. clearbody c0.
  apply pair_eq in Es as [Ep _]. apply (otg_view_is _ c0) in Hs; [|done].
  destruct Hs as (Ei & Es & E1 & E2 & Eb). rewrite Ei, Ep. cbn [b2z] in *.
  rewrite (proj2 (truth_true _) Hp). change (truth 1) with true. cbn [andb rk817_charge_set_otg_state].
  unfold rk817_charge_boost_disable. rewrite power_write by done.
  unfold otg_power_off, rk817_charge_otg_disable. rewrite Ei, Es. change (truth 1) with true. cbn [negb andb].
  unfold otg_power, rk817_charge_get_otg_state. cbn. rewrite disable_off. cbn.
  by rewrite disable_off, Ei, E1, E2, Eb.
Qed.

Lemma dc_removal_keeps_off `{Platform} `{!OtgSwitch} c : stranded c ->
  rk817_charge_get_dc_state c <> DC_TYPE_DC_CHARGER ->
  otg_in (rk817_charge_dc_det_worker c) = 1 /\ otg_power (rk817_charge_dc_det_worker c) = false.
Proof.
  intros (Ei & Es & _) Hn. unfold rk817_charge_dc_det_worker. rewrite decide_False by done. cbv zeta.
  pose proof (otg_param c DC_TYPE_NONE_CHARGER) as Eo.
  set (c0 := rk817_charge_set_chrg_param _ DC_TYPE_NONE_CHARGER) in *. clearbody c0.
  assert (Hb : otg_in (rk817_charge_boost_enable c0) = 1 /\ otg_power (rk817_charge_boost_enable c0) = false).
  { unfold rk817_charge_boost_enable. rewrite power_write by done. unfold otg_view in Eo.
    apply pair_eq in Eo as [[[[Ex Ey]%pair_eq _]%pair_eq _]%pair_eq _]. split; [by rewrite <- Ei|].
    unfold otg_power in *. by rewrite Ey. }
  set (c3 := rk817_charge_boost_enable c0) in *. clearbody c3. destruct Hb as [Hi Ho]. rewrite Hi.
  change (truth 1) with true. cbn [rk817_charge_set_otg_state]. unfold otg_power_on. rewrite Hi. by split.
Qed.

Lemma unplug_unbalances `{Platform} c : stranded c ->
  extcon_get_state (regs c) EXTCON_USB_VBUS_EN = 0 -> irq_unbalanced (rk817_charge_host_evt_worker c) = true.
Proof.
  intros (Ei & Es & E1 & _) Hv. unfold rk817_charge_host_evt_worker. rewrite Hv.
  cbn [Z.gtb Z.compare Z.eqb rk817_charge_set_otg_state]. unfold otg_power_off. rewrite Ei.
  change (truth 1) with true. unfold otg_power in Es. rewrite Es. cbn. rewrite E1. cbn. by rewrite orb_true_r.
Qed.

(** When the DC jack takes over the OTG output, the driver loses it: it
    still takes itself to hold the power, so removing the DC adapter does not
    switch the output on again, and unplugging the cable enables interrupts
    that are not disabled. *)
Lemma dc_takeover_strands_otg `{Platform} `{!OtgSwitch} c :
  otg_state_is c true -> power_dc2otg (pdata c) <> 0 ->
  rk817_charge_get_dc_state c = DC_TYPE_DC_CHARGER ->
  let c1 := rk817_charge_dc_det_worker c in
  otg_in c1 = 1 /\ otg_power c1 = false /\ irq_unbalanced c1 = false /\
  (forall h, same_power c1 h -> let c2 := c1 <| regs := h |> in
   (rk817_charge_get_dc_state c2 <> DC_TYPE_DC_CHARGER ->
    otg_in (rk817_charge_dc_det_worker c2) = 1 /\ otg_power (rk817_charge_dc_det_worker c2) = false) /\
   (extcon_get_state h EXTCON_USB_VBUS_EN = 0 -> irq_unbalanced (rk817_charge_host_evt_worker c2) = true)).
Proof.
  intros Hs Hp Hd. cbv zeta. pose proof (dc_takes_over c Hs Hp Hd) as Hc.
  set (c1 := rk817_charge_dc_det_worker c) in *. clearbody c1. pose proof Hc as (Ei & Es & E1 & Eb).
  split_and!; try done. intros h Hh.
  assert (Hc2 : stranded (c1 <| regs := h |>)).
  { split_and!; try done. unfold otg_power, rk817_charge_get_otg_state in *. cbn. by rewrite Hh. }
  split; [exact (dc_removal_keeps_off _ Hc2)|exact (unplug_unbalances _ Hc2)].
Qed.

(** The OTG output is on when the DC adapter is plugged in. *)
Lemma dc_takeover_strands_otg_witness : exists c : rk817_charger,
  otg_state_is c true /\ otg_in (rk817_charge_dc_det_worker c) = 1 /\
  otg_power (rk817_charge_dc_det_worker c) = false.
Proof.
  pose (c := (parsed (board true (Some (7, false)) 1)) <| otg_in := 1 |> <| plugin_depth := 1 |>
    <| plugout_depth := 1 |> <| regs ::= fun h => switch_otg true
         {| file := file h; otg_on := true; jack_level := 1; cable := otg_cable |} |>).
  assert (Hs : otg_state_is c true) by (split_and!; vm_compute; reflexivity).
  assert (Hp : power_dc2otg (pdata c) <> 0) by (vm_compute; discriminate).
  assert (Hd : rk817_charge_get_dc_state c = DC_TYPE_DC_CHARGER) by (vm_compute; reflexivity).
  clearbody c. exists c. destruct (dc_takeover_strands_otg c Hs Hp Hd) as (H1 & H2 & _). exact (conj Hs (conj H1 H2)).
Defined.

(** C32. On a board with an extcon whose DC jack does not power the OTG output
    ([node_harmless]: no power_dc2otg property or no DC jack), with a regulator
    that obeys: after every run of the driver the output is on, and both plug
    interrupts are disabled once, exactly when the driver holds the OTG power;
    no interrupt is enabled twice; and the next step makes the driver hold it
    exactly when the cable asks for it.  On the other boards the driver does not
    keep this up: when the DC adapter is plugged in while the output is on, the
    worker switches the output off and still takes itself to hold the power. *)
Theorem otg_follows_cable `{Platform} `{!OtgSwitch} :
  (forall env np h c es e,
    rk817_charge_probe env np h = (0, c) -> dt_extcon np = true -> node_harmless np ->
    events_ok c (es ++ [e]) ->
    let c1 := run_charger c es in
    let c2 := charger_step c1 e in
    exists on, otg_state_is c1 on /\ otg_state_is c2 (default on (cable_request c1 e))) /\
  (forall c, otg_state_is c true -> power_dc2otg (pdata c) <> 0 ->
    rk817_charge_get_dc_state c = DC_TYPE_DC_CHARGER -> stranded (rk817_charge_dc_det_worker c)).
Proof.
  split; [|by apply dc_takes_over]. intros env np h c es e Hp Hx Hn He. cbv zeta.
  apply events_ok_last in He as [Hes He'].
  destruct (otg_run c es false (otg_probe _ _ _ _ Hp Hx Hn) Hes) as [on Hon].
  exists on. split; [apply Hon|]. by apply otg_step.
Qed.

Lemma otg_follows_cable_witness : exists c,
  rk817_charge_probe good_env (board true None 0) (chip_with 0 otg_cable) = (0, c) /\
  otg_state_is (charger_step c (RunWork host_work)) true.
Proof.
  assert (E : fst (rk817_charge_probe good_env (board true None 0) (chip_with 0 otg_cable)) = 0)
    by (vm_compute; reflexivity).
  assert (Er : cable_request (snd (rk817_charge_probe good_env (board true None 0) (chip_with 0 otg_cable)))
    (RunWork host_work) = Some true) by (vm_compute; reflexivity).
  apply pair_zero in E. revert E Er. generalize (snd (rk817_charge_probe good_env (board true None 0)
    (chip_with 0 otg_cable))). intros c E Er. exists c. split; [exact E|].
  destruct (proj1 (@otg_follows_cable chip_kernel chip_platform chip_switch) good_env (board true None 0)
    (chip_with 0 otg_cable) c [] (RunWork host_work) E eq_refl (or_intror eq_refl) (conj I I))
    as (on & _ & H2).
  change (run_charger c []) with c in H2. rewrite Er in H2. exact H2.
Defined.

(** ** Probe and the battery charging detection *)

Lemma nview_probe `{Platform} env np h :
  let '(ret, c) := rk817_charge_probe env np h in
  nview c = (if truth ret then ([], [])
             else if dt_extcon np then ([usb_nb; vbus_nb; cdp_nb; dcp_nb; sdp_nb], [host_work; usb_work])
             else ([(None, bc_nb)], [])).
Proof.
  assert (Hneg : forall r, (r <? 0) = true -> truth r = true)
    by (intros r Hr%Z.ltb_lt; apply truth_true; lia).
  unfold rk817_charge_probe.
  destruct (of_match env); [|done]. destruct (kzalloc_charge env); [|done].
  destruct (regmap_ok env); [|done]. cbn [negb]. destruct (regmap_field_alloc env <? 0) eqn:Hf; [cbv beta iota; by rewrite Hneg|].
  cbv zeta.
  pose proof (nview_parse_dt (charger_kzalloc h) (kzalloc_pdata env) np) as N1.
  destruct (rk817_charge_parse_dt _ _ _) as [r1 c1] eqn:Ep. cbn [snd] in N1.
  change (nview (charger_kzalloc h)) with (@nil (option extcon_id * notifier_block), @nil work) in N1.
  destruct (r1 <? 0) eqn:Hr1; [cbv beta iota; by rewrite Hneg|]. destruct (parse_dt_ok _ _ _ _ _ Ep Hr1) as (Hx & _).
  pose proof (nview_pre_init c1) as N2. rewrite N1 in N2.
  pose proof (frame_pre_init c1) as [[[[[[Epd _]%pair_eq _]%pair_eq _]%pair_eq _]%pair_eq _]%pair_eq _]%pair_eq.
  set (c2 := rk817_charge_pre_init c1) in *. clearbody c2.
  destruct (truth (rk817_charge_init_power_supply env)) eqn:Hp; [cbv beta iota; by rewrite Hp|].
  pose proof (nview_init_dc env c2) as N3. rewrite N2 in N3.
  pose proof (setup_init_dc env c2) as [Epd3 _]%pair_eq.
  destruct (rk817_charge_init_dc _ _) as [r3 c3]. cbn [snd] in *. destruct (truth r3) eqn:Hr3; [cbv beta iota; by rewrite Hr3|].
  destruct (nview_usb_init env c3 N3) as [Hx4 N4].
  destruct (rk817_charge_usb_init _ _) as [r4 c4]. cbn [fst snd] in *.
  assert (Hxn : extcon (pdata c3) = dt_extcon np) by (by rewrite Epd3, Epd, Hx).
  destruct (truth r4) eqn:Hr4; [cbv beta iota; by rewrite Hr4|]. rewrite Hxn in *.
  destruct (truth (rk817_charge_init_irqs env)) eqn:Hi.
  - cbv beta iota. rewrite Hi. apply nview_undo. by rewrite Hx4.
  - rewrite Hx4. apply pair_eq in N4 as [E1 E2].
    destruct (dt_extcon np); unfold nview; cbn; rewrite ?E1, ?E2; done.
Qed.

Lemma init_dc_none `{Platform} env c : support_dc_det (pdata c) = false ->
  rk817_charge_init_dc env c = (0, c <| dc_charger := DC_TYPE_NONE_CHARGER |>).
Proof.
  intros Hs. unfold rk817_charge_init_dc. cbv zeta.
  change (pdata (c <| dc_charger := DC_TYPE_NONE_CHARGER |>)) with (pdata c). by rewrite Hs.
Qed.

Lemma usb_init_bc_flags `{Platform} env c : dc_charger c = DC_TYPE_NONE_CHARGER ->
  flags (snd (usb_init_bc env c)) = flags c.
Proof. intros Hd. unfold usb_init_bc. cbv zeta. case_match; [done|]. by rewrite decide_True. Qed.

Lemma flags_kzalloc_val `{Platform} h : flags (charger_kzalloc h) = (0, 0, 0, 0, POWER_SUPPLY_STATUS_UNKNOWN).
Proof. reflexivity. Qed.

Lemma boot_flags_inits `{Platform} env c0 c2 c3 :
  support_dc_det (pdata c0) = false -> extcon (pdata c0) = false ->
  rk817_charge_init_dc env c0 = (0, c2) -> rk817_charge_usb_init env c2 = (0, c3) -> flags c3 = flags c0.
Proof.
  intros Hs Hx Ed Eu. rewrite init_dc_none in Ed by done. apply (f_equal snd) in Ed. cbn [snd] in Ed.
  assert (Hd : dc_charger c2 = DC_TYPE_NONE_CHARGER) by (by rewrite <- Ed).
  assert (F3 : flags c2 = flags c0) by (by rewrite <- Ed). assert (Hx2 : extcon (pdata c2) = false) by (by rewrite <- Ed).
  unfold rk817_charge_usb_init in Eu. rewrite Hx2 in Eu.
  pose proof (usb_init_bc_flags env c2 Hd) as F4. by rewrite Eu, F3 in F4.
Qed.

Lemma boot_flags_setup `{Platform} env np h r c1 :
  rk817_charge_parse_dt (charger_kzalloc h) (kzalloc_pdata env) np = (r, c1) ->
  flags (rk817_charge_pre_init c1) = (0, 0, 0, 0, POWER_SUPPLY_STATUS_UNKNOWN).
Proof.
  intros Ep. pose proof (flags_parse_dt (charger_kzalloc h) (kzalloc_pdata env) np) as F1.
  rewrite Ep, flags_kzalloc_val in F1. cbn [snd] in F1. unfold flags in F1. injection F1 as A1 A2 A3 _ A4.
  by rewrite flags_pre_init, A1, A2, A3, A4.
Qed.

Lemma boot_flags `{Platform} env np h c : rk817_charge_probe env np h = (0, c) ->
  dt_extcon np = false -> dt_dc_det_gpio np = None ->
  flags c = (0, 0, 0, 0, POWER_SUPPLY_STATUS_UNKNOWN).
Proof.
  intros (r & c1 & c2 & c3 & Ep & Hr & Ed & Eu & ->)%probe_stages Hx Hn.
  pose proof (boot_flags_setup _ _ _ _ _ Ep) as F.
  destruct (parse_dt_ok _ _ _ _ _ Ep Hr) as (Hex & _ & Hsu & _). rewrite Hx in Hex. rewrite Hn in Hsu.
  pose proof (frame_pre_init c1) as [[[[[[Epd _]%pair_eq _]%pair_eq _]%pair_eq _]%pair_eq _]%pair_eq _]%pair_eq.
  rewrite <- Epd in Hsu, Hex. rewrite <- F, <- (boot_flags_inits env _ c2 c3 Hsu Hex Ed Eu).
  case_match; [by rewrite !flags_queue|done].
Qed.

(** C33. A probe that fails leaves no notifier and no work behind, whatever
    step it fails in; one that succeeds has registered every notifier of its
    kind of port and, for type-C, queued a look at the cable.  But on a board
    with charging detection and no DC jack the charger found at boot is
    ignored: nothing is online and the status is unknown. *)
Theorem probe_outcome `{Platform} env np h :
  let ret := fst (rk817_charge_probe env np h) in
  let c := snd (rk817_charge_probe env np h) in
  (ret <> 0 -> notifiers c = [] /\ pending c = []) /\
  (ret = 0 -> dt_extcon np = true ->
     notifiers c = [usb_nb; vbus_nb; cdp_nb; dcp_nb; sdp_nb] /\ pending c = [host_work; usb_work]) /\
  (ret = 0 -> dt_extcon np = false -> notifiers c = [(None, bc_nb)] /\ pending c = []) /\
  (ret = 0 -> dt_extcon np = false -> dt_dc_det_gpio np = None ->
     rk817_charge_online c = 0 /\ prop_status c = POWER_SUPPLY_STATUS_UNKNOWN).
Proof.
  pose proof (nview_probe env np h) as Hn. pose proof (boot_flags env np h) as Hb.
  destruct (rk817_charge_probe env np h) as [ret c]. cbn [fst snd]. cbv zeta. unfold nview in Hn.
  split_and!.
  - intros Hr%truth_true. rewrite Hr in Hn. by injection Hn.
  - intros -> Hx. rewrite Hx in Hn. by injection Hn.
  - intros -> Hx. rewrite Hx in Hn. by injection Hn.
  - intros -> Hx Hd. specialize (Hb c eq_refl Hx Hd). unfold flags in Hb. injection Hb as E1 E2 E3 E4 E5.
    unfold rk817_charge_online. by rewrite E1, E2, E3.
Qed.

Lemma probe_outcome_witness :
  fst (rk817_charge_probe good_env (board true None 0) (chip_with 0 no_cable)) = 0 /\
  pending (snd (rk817_charge_probe good_env (board true None 0) (chip_with 0 no_cable))) = [host_work; usb_work].
Proof.
  assert (E : fst (rk817_charge_probe good_env (board true None 0) (chip_with 0 no_cable)) = 0)
    by (vm_compute; reflexivity).
  split; [exact E|].
  exact (proj2 (proj1 (proj2 (probe_outcome good_env (board true None 0) (chip_with 0 no_cable))) E eq_refl)).
Defined.

(** *** OTG power with charging detection *)

Section BatteryCharging.
Context `{Platform} `{!OtgSwitch}.
Implicit Types c : rk817_charger.

Definition bc_ok c : Prop :=
  otg_in c = 0 /\ notifiers c = [(None, bc_nb)] /\ host_work ∉ pending c.

(** Nothing that leaves the OTG power and the depth of the interrupts lower. *)
Definition no_less c c' : Prop :=
  plugin_depth c <= plugin_depth c' /\ plugout_depth c <= plugout_depth c' /\
  (otg_power c = true -> otg_power c' = true).

Lemma no_less_view c c' : otg_view c' = otg_view c -> no_less c c'.
Proof.
  intros [[[[E1 E2]%pair_eq E3]%pair_eq E4]%pair_eq E5]%pair_eq. unfold no_less, otg_power.
  rewrite E2, E3, E4. split_and!; (lia || done).
Qed.

(** What matters of a step in this mode. *)
Definition bc_same c c' : Prop := otg_view c' = otg_view c /\ nview c' = nview c.

Lemma bc_same_param c ch : bc_same c (rk817_charge_set_chrg_param c ch).
Proof. split; [apply otg_param|apply nview_param]. Qed.

Lemma bc_same_trans c1 c2 c3 : bc_same c1 c2 -> bc_same c2 c3 -> bc_same c1 c3.
Proof. intros [E1 E2] [E3 E4]. split; congruence. Qed.

Lemma bc_same_ok c c' : bc_same c c' -> bc_ok c -> bc_ok c' /\ no_less c c'.
Proof.
  intros [Ev En] (Hi & Hn & Hp). split; [|by apply no_less_view].
  unfold otg_view in Ev. apply pair_eq in Ev as [[[[E1 _]%pair_eq _]%pair_eq _]%pair_eq _].
  unfold nview in En. apply pair_eq in En as [E2 E3]. unfold bc_ok. by rewrite E1, E2, E3.
Qed.

Lemma bc_queue c c' w : otg_view c' = otg_view c -> notifiers c' = notifiers c ->
  pending c' = pending c -> w <> host_work -> bc_ok c ->
  bc_ok (queue_delayed_work c' w) /\ no_less c (queue_delayed_work c' w).
Proof.
  intros Ev En Ep Hw (Hi & Hn & Hp). split; [|apply no_less_view; exact Ev].
  unfold otg_view in Ev. apply pair_eq in Ev as [[[[E1 _]%pair_eq _]%pair_eq _]%pair_eq _].
  split_and!; [by rewrite <- Hi|by rewrite <- Hn|]. cbn. rewrite Ep. case_decide; [done|]. set_solver.
Qed.

(** Taking the OTG power: the driver does not note that it has it. *)
Lemma bc_power_on c : bc_ok c -> bc_ok (otg_power_on c) /\ no_less c (otg_power_on c).
Proof.
  intros (Hi & Hn & Hp). unfold otg_power_on. rewrite Hi. change (truth 0) with false. cbv iota zeta.
  destruct (truth (rk817_charge_get_otg_state c)) eqn:Es; cbn [negb andb].
  - split; [done|]. unfold no_less, otg_power. cbn. split_and!; (lia || done).
  - unfold rk817_charge_get_otg_state, rk817_charge_otg_enable. cbn. rewrite enable_on. cbn.
    split; [done|]. unfold no_less, otg_power, rk817_charge_get_otg_state. cbn. rewrite enable_on.
    split_and!; (lia || done).
Qed.

Lemma bc_same_boost c v : bc_same c (rk817_charge_field_write c BOOST_EN v).
Proof. split; [by apply otg_write|done]. Qed.

(** The two branches of the worker, when no OTG device is plugged in. *)
Lemma bc_dc_in c : otg_in c = 0 ->
  bc_same c (let c := if truth (otg_in c) && truth (power_dc2otg (pdata c))
                      then rk817_charge_set_otg_state c USB_OTG_POWER_OFF else c in
             rk817_charge_boost_disable c).
Proof. intros ->. apply bc_same_boost. Qed.

Lemma bc_dc_out c : otg_in c = 0 ->
  bc_same c (let c := rk817_charge_boost_enable c in
             if truth (otg_in c) then rk817_charge_set_otg_state c USB_OTG_POWER_ON else c).
Proof.
  intros E. cbv zeta. change (otg_in (rk817_charge_boost_enable c)) with (otg_in c). rewrite E. apply bc_same_boost.
Qed.

Lemma bc_same_param_in c ch : bc_ok c -> otg_in (rk817_charge_set_chrg_param c ch) = 0.
Proof. intros Hc. apply (bc_same_ok _ _ (bc_same_param c ch) Hc). Qed.

Lemma bc_dc_worker c : bc_ok c -> bc_ok (rk817_charge_dc_det_worker c) /\ no_less c (rk817_charge_dc_det_worker c).
Proof.
  intros Hc. apply bc_same_ok; [|done]. unfold rk817_charge_dc_det_worker.
  case_decide; (eapply bc_same_trans; [apply bc_same_param|]); [apply bc_dc_in|apply bc_dc_out]; by apply bc_same_param_in.
Qed.

Lemma bc_run_work c w : w <> host_work -> bc_ok c -> bc_ok (run_work c w) /\ no_less c (run_work c w).
Proof.
  intros Hw Hc. destruct w; cbn [run_work]; [by apply bc_dc_worker| |done| |].
  - destruct (usb_work_fn c) as [[]|]; [| |by apply bc_same_ok].
    + unfold rk817_charger_evt_worker. cbv zeta. case_decide; apply bc_same_ok; try done.
      eapply bc_same_trans; [|apply bc_same_param]. done.
    + unfold rk817_charge_bc_evt_worker. destruct (bc_event c); try (apply bc_same_ok; [apply bc_same_param|done]).
      * by apply bc_same_ok.
      * case_match; [by apply bc_same_ok|]. by apply bc_power_on.
      * cbn [rk817_charge_set_otg_state]. unfold otg_power_off. destruct Hc as (Hi & Hr). rewrite Hi.
        apply bc_same_ok; done.
  - unfold rk817_charge_discnt_evt_worker. case_match; apply bc_same_ok; try done. apply bc_same_param.
  - unfold rk817_charge_irq_delay_work. cbv zeta. case_match; [|case_match].
    + case_match; [|by apply bc_same_ok]. by apply bc_queue.
    + apply bc_same_ok; [|done]. eapply bc_same_trans; [|apply bc_same_param].
      eapply bc_same_trans; [|apply bc_same_param]. done.
    + by apply bc_same_ok.
Qed.

Lemma bc_step c e : bc_ok c -> event_ok c e -> bc_ok (charger_step c e) /\ no_less c (charger_step c e).
Proof.
  intros Hc He. assert (Hid : bc_ok c /\ no_less c c) by (by apply bc_same_ok).
  destruct e; cbn [charger_step].
  - apply bc_same_ok; [|done]. split; [|done]. destruct He as [_ He].
    unfold otg_view, rk817_charge_get_otg_state. cbn. by rewrite He.
  - case_match; [|done]. by apply bc_queue.
  - case_match; [|done]. by apply bc_queue.
  - case_decide; [done|]. by apply bc_queue.
  - destruct Hc as (Hi & Hn & Hp). rewrite Hn. apply bc_same_ok; done.
  - case_decide; [|done]. by apply bc_queue.
  - case_decide as Hin; [|done].
    assert (Hc' : bc_ok (cancel_work c w)).
    { destruct Hc as (Hi & Hn & Hp). split_and!; try done. cbn. intros [_ Hx]%list_elem_of_filter. done. }
    apply (bc_run_work (cancel_work c w) w); [|done]. intros ->. by destruct Hc as (_ & _ & ?).
  - apply bc_same_ok; [|done]. split; [|unfold rk817_charge_pm_suspend; cbv zeta; by case_match].
    unfold rk817_charge_pm_suspend. cbv zeta.
    set (c' := c <| otg_slp_state := _ |>). transitivity (otg_view c'); [|done].
    case_match; by apply otg_write.
  - apply bc_same_ok; [|done]. unfold rk817_charge_pm_resume. split; case_match; try done. by apply otg_write.
Qed.
End BatteryCharging.

Lemma otg_in_param `{Platform} c ch : otg_in (rk817_charge_set_chrg_param c ch) = otg_in c.
Proof.
  assert (Hc : otg_in (chrg_param_case c ch) = otg_in c)
    by (destruct ch; unfold chrg_param_case; cbv zeta iota; repeat case_match; reflexivity).
  unfold rk817_charge_set_chrg_param. cbv zeta. by case_match.
Qed.

Lemma otg_in_unregister `{Platform} l c : otg_in (unregister_notifiers c l) = otg_in c.
Proof. revert c. induction l as [|n l IH]; intros c; [done|]. exact (IH (unregister_notifier c n)). Qed.

Lemma otg_in_inits `{Platform} env c :
  otg_in (snd (rk817_charge_init_dc env c)) = otg_in c /\ otg_in (snd (rk817_charge_usb_init env c)) = otg_in c.
Proof.
  split.
  - unfold rk817_charge_init_dc. cbv zeta. repeat (case_match; [done|]). cbn [snd].
    case_decide; [done|]. by rewrite otg_in_param.
  - unfold rk817_charge_usb_init. case_match.
    + unfold usb_init_extcon. cbv zeta. repeat case_match; cbn [snd]; rewrite ?otg_in_unregister; done.
    + unfold usb_init_bc. cbv zeta. case_match; [done|]. cbn [snd]. case_decide; [done|]. by rewrite otg_in_param.
Qed.

(** The OTG power is not held after probe. *)
Lemma otg_in_probe `{Platform} env np h c : rk817_charge_probe env np h = (0, c) -> otg_in c = 0.
Proof.
  intros (r & c1 & c2 & c3 & _ & _ & Ed & Eu & ->)%probe_stages.
  pose proof (f_equal (fun f => f.1.2) (flags_pre_init c1) : otg_in (rk817_charge_pre_init c1) = 0) as Ho.
  destruct (otg_in_inits env (rk817_charge_pre_init c1)) as [E2 _]. rewrite Ed in E2.
  destruct (otg_in_inits env c2) as [_ E3]. rewrite Eu in E3. cbn [snd] in *.
  assert (Hq : forall c w, otg_in (queue_delayed_work c w) = otg_in c) by done.
  case_match; rewrite ?Hq; congruence.
Qed.

(** On a board with charging detection the driver never notes that it
    powers an OTG device: in every run it holds no OTG power, a request to
    switch the output off does nothing, and no step switches the output off
    or takes back a disabling of the plug interrupts. *)
Lemma bc_otg_one_way `{Platform} `{!OtgSwitch} env np h c es e :
  rk817_charge_probe env np h = (0, c) -> dt_extcon np = false -> events_ok c (es ++ [e]) ->
  let c1 := run_charger c es in
  let c2 := charger_step c1 e in
  otg_in c1 = 0 /\ rk817_charge_set_otg_state c1 USB_OTG_POWER_OFF = c1 /\
  plugin_depth c1 <= plugin_depth c2 /\ plugout_depth c1 <= plugout_depth c2 /\
  (otg_power c1 = true -> otg_power c2 = true).
Proof.
  intros Hp Hx He. cbv zeta. apply events_ok_last in He as [Hes He].
  assert (Hc : bc_ok c).
  { pose proof (nview_probe env np h) as Hn. pose proof (otg_in_probe env np h c Hp) as Hi. rewrite Hp in Hn.
    cbn [truth negb Z.eqb] in Hn. rewrite Hx in Hn. unfold nview in Hn. change (truth 0) with false in Hn.
    injection Hn as En Ep. split_and!; [done..|]. rewrite Ep. apply not_elem_of_nil. }
  assert (Hr : bc_ok (run_charger c es)).
  { apply (run_invariant bc_ok); [|done..]. intros c' e' Hc' He'. by apply bc_step. }
  destruct (bc_step _ e Hr He) as [_ (D1 & D2 & D3)]. destruct Hr as (Hi & _). split_and!; try done.
  cbn [rk817_charge_set_otg_state]. unfold otg_power_off. by rewrite Hi.
Qed.

Lemma bc_otg_one_way_witness : exists c : rk817_charger,
  rk817_charge_probe good_env (board false None 0) (chip_with 0 no_cable) = (0, c) /\
  rk817_charge_set_otg_state c USB_OTG_POWER_OFF = c.
Proof.
  assert (E : fst (rk817_charge_probe good_env (board false None 0) (chip_with 0 no_cable)) = 0)
    by (vm_compute; reflexivity).
  apply pair_zero in E. revert E. generalize (snd (rk817_charge_probe good_env (board false None 0)
    (chip_with 0 no_cable))). intros c E. exists c. split; [exact E|].
  exact (proj1 (proj2 (@bc_otg_one_way chip_kernel chip_platform chip_switch good_env (board false None 0)
    (chip_with 0 no_cable) c [] PlugInIrq E eq_refl (conj I I)))).
Defined.
