(* ===== verification/BinderRef.v ===== *)
(** * Binder driver: nodes, references and death notifications

    Model of the part of binder.c that keeps track of who refers to whom: the
    nodes (objects of a process), the references other processes hold to them
    by handle, the reference counts of both, the works that tell a process
    about its nodes, and death notifications.

    Objects are addressed by integers and live in stores; freeing removes them,
    and a use of a freed object, a null pointer or a failing BUG_ON is a fault
    ([None]).  A red-black tree is the list of its entries in order; the search
    loops over it find a key iff it is there.  Each function runs under the
    locks it takes and is one step.  Reference counts are not bounded: it takes
    2^31 commands to overflow them. *)

From S2P Require Import Prelude.

Definition EPERM : Z := 1.
Definition ENOMEM : Z := 12.
Definition EINVAL : Z := 22.
Definition EBUSY : Z := 16.

(** ** Data *)

(** A work is an entry embedded in another object; works of transactions are
    known by their address only. *)
Inductive binder_work := WNode (node : Z) | WDeath (death : Z) | WOther (work : Z).

(** The lists a work can be on. *)
Inductive work_list := ThreadTodo (thread : Z) | ProcTodo (proc : Z) | DeliveredDeath (proc : Z).

#[export] Instance binder_work_eq : EqDecision binder_work.
Proof. solve_decision. Defined.
#[export] Instance work_list_eq : EqDecision work_list.
Proof. solve_decision. Defined.

Record binder_node := {
  n_proc : option Z;
  n_refs : list Z;
  internal_strong_refs : Z;
  local_weak_refs : Z;
  local_strong_refs : Z;
  tmp_refs : Z;
  n_ptr : Z;
  n_cookie : Z;
  has_strong_ref : bool;
  pending_strong_ref : bool;
  has_weak_ref : bool;
  pending_weak_ref : bool;
}.

#[global] Instance eta_node : Eta binder_node := fun n =>
  Build_binder_node (n_proc n) (n_refs n) (internal_strong_refs n) (local_weak_refs n)
    (local_strong_refs n) (tmp_refs n) (n_ptr n) (n_cookie n) (has_strong_ref n)
    (pending_strong_ref n) (has_weak_ref n) (pending_weak_ref n).

(** The type of a notification's work.  In the code it is set when the work is
    first queued; until then it counts as DEAD_BINDER here, and is not read. *)
Inductive death_type := DEAD_BINDER | DEAD_BINDER_AND_CLEAR | CLEAR_DEATH_NOTIFICATION.

Record binder_ref_death := { d_type : death_type; d_cookie : Z }.

#[global] Instance eta_death : Eta binder_ref_death := fun d =>
  Build_binder_ref_death (d_type d) (d_cookie d).

Record binder_ref := {
  r_desc : Z;
  r_strong : Z;
  r_weak : Z;
  r_proc : Z;
  r_node : option Z;
  r_death : option Z;
}.

#[global] Instance eta_ref : Eta binder_ref := fun r =>
  Build_binder_ref (r_desc r) (r_strong r) (r_weak r) (r_proc r) (r_node r) (r_death r).

(** The trees of a process: nodes by user pointer, references by handle and by
    node. *)
Record binder_proc := {
  p_nodes : list (Z * Z);
  refs_by_desc : list (Z * Z);
  refs_by_node : list (Z * Z);
  waiting_threads : list Z;
  is_dead : bool;
  p_tmp_ref : Z;
}.

#[global] Instance eta_proc : Eta binder_proc := fun p =>
  Build_binder_proc (p_nodes p) (refs_by_desc p) (refs_by_node p) (waiting_threads p) (is_dead p)
    (p_tmp_ref p).

Record binder_thread := { t_proc : Z; looper : Z; process_todo : bool }.

#[global] Instance eta_thread : Eta binder_thread := fun t =>
  Build_binder_thread (t_proc t) (looper t) (process_todo t).

Inductive br_command := BR_INCREFS | BR_ACQUIRE | BR_RELEASE | BR_DECREFS.

(** The stores; [works] are the entries of all lists, each list in order. *)

Record binder_state := {
  nodes : gmap Z binder_node;
  refs : gmap Z binder_ref;
  deaths : gmap Z binder_ref_death;
  procs : gmap Z binder_proc;
  threads : gmap Z binder_thread;
  works : list (work_list * binder_work);
  dead_nodes : list Z;
  context_mgr_node : option Z;
}.

#[global] Instance eta_state : Eta binder_state := fun s =>
  Build_binder_state (nodes s) (refs s) (deaths s) (procs s) (threads s) (works s) (dead_nodes s)
    (context_mgr_node s).

(** ** Trees *)

Fixpoint tree_insert {A} (k : Z) (v : A) (t : list (Z * A)) : list (Z * A) :=
  match t with
  | [] => [(k, v)]
  | (k', v') :: t' => if k <? k' then (k, v) :: t else (k', v') :: tree_insert k v t'
  end.

Definition tree_find {A} (k : Z) (t : list (Z * A)) : option A :=
  snd <$> List.find (fun e => fst e =? k) t.

Definition tree_erase {A} (k : Z) (t : list (Z * A)) : list (Z * A) :=
  filter (fun e => fst e ≠ k) t.

(** ** Assignments *)

Section Driver.
Implicit Types s : binder_state.

Definition on_node (n : Z) (f : binder_node -> binder_node) s : binder_state :=
  s <| nodes ::= alter f n |>.
Definition on_ref (r : Z) (f : binder_ref -> binder_ref) s : binder_state :=
  s <| refs ::= alter f r |>.
Definition on_proc (p : Z) (f : binder_proc -> binder_proc) s : binder_state :=
  s <| procs ::= alter f p |>.
Definition on_death (d : Z) (f : binder_ref_death -> binder_ref_death) s : binder_state :=
  s <| deaths ::= alter f d |>.

(** ** Work lists *)

(** [!list_empty(&w->entry)] *)
Definition queued (w : binder_work) s : bool := bool_decide (w ∈ (works s).*2).

Definition binder_enqueue_work_ilocked (w : binder_work) (l : work_list) s : option binder_state :=
  if queued w s then None else Some (s <| works ::= fun ws => ws ++ [(l, w)] |>).

Definition binder_enqueue_deferred_thread_work_ilocked (thread : Z) (w : binder_work) s :=
  binder_enqueue_work_ilocked w (ThreadTodo thread) s.

Definition binder_enqueue_thread_work_ilocked (thread : Z) (w : binder_work) s
    : option binder_state :=
  s ← binder_enqueue_work_ilocked w (ThreadTodo thread) s;
  Some (s <| threads ::= alter (fun t => t <| process_todo := true |>) thread |>).

Definition binder_dequeue_work_ilocked (w : binder_work) s : binder_state :=
  s <| works ::= filter (fun e => e.2 ≠ w) |>.

Definition work_head (l : work_list) s : option binder_work :=
  snd <$> List.find (fun e => bool_decide (e.1 = l)) (works s).

Definition binder_dequeue_work_head_ilocked (l : work_list) s : option binder_work * binder_state :=
  match work_head l s with
  | Some w => (Some w, binder_dequeue_work_ilocked w s)
  | None => (None, s)
  end.

Definition binder_worklist_empty_ilocked (l : work_list) s : bool :=
  match work_head l s with Some _ => false | None => true end.

Definition binder_select_thread_ilocked (proc : Z) s : option Z * binder_state :=
  match procs s !! proc with
  | Some p =>
      match waiting_threads p with
      | t :: ts => (Some t, on_proc proc (fun p => p <| waiting_threads := ts |>) s)
      | [] => (None, s)
      end
  | None => (None, s)
  end.

(** A wake-up has no effect on the state of the driver. *)
Definition binder_wakeup_proc_ilocked (proc : Z) s : binder_state :=
  snd (binder_select_thread_ilocked proc s).

(** ** Nodes *)

Definition binder_inc_node_tmpref_ilocked (n : Z) s : option binder_state :=
  _ ← nodes s !! n;
  Some (on_node n (fun nd => nd <| tmp_refs ::= Z.add 1 |>) s).

Definition binder_get_node (proc ptr : Z) s : option (option Z * binder_state) :=
  p ← procs s !! proc;
  match tree_find ptr (p_nodes p) with
  | Some n => s ← binder_inc_node_tmpref_ilocked n s; Some (Some n, s)
  | None => Some (None, s)
  end.

(** [new] is the address of the node that kzalloc returned. *)
Definition binder_init_node_ilocked (proc new ptr cookie : Z) s : option (Z * binder_state) :=
  p ← procs s !! proc;
  match tree_find ptr (p_nodes p) with
  | Some n => s ← binder_inc_node_tmpref_ilocked n s; Some (n, s)
  | None =>
      let nd := {| n_proc := Some proc; n_refs := []; internal_strong_refs := 0;
                   local_weak_refs := 0; local_strong_refs := 0; tmp_refs := 1; n_ptr := ptr;
                   n_cookie := cookie; has_strong_ref := false; pending_strong_ref := false;
                   has_weak_ref := false; pending_weak_ref := false |} in
      let s := s <| nodes ::= <[new := nd]> |> in
      Some (new, on_proc proc (fun p => p <| p_nodes ::= tree_insert ptr new |>) s)
  end.

(** [alloc] is the answer of kzalloc. *)
Definition binder_new_node (proc : Z) (alloc : option Z) (ptr cookie : Z) s
    : option (option Z * binder_state) :=
  match alloc with
  | None => Some (None, s)
  | Some new => '(n, s) ← binder_init_node_ilocked proc new ptr cookie s; Some (Some n, s)
  end.

Definition binder_free_node (n : Z) s : binder_state := s <| nodes ::= delete n |>.

Definition is_context_mgr (n : Z) s : bool := bool_decide (context_mgr_node s = Some n).

Definition inc_strong (internal : bool) (nd : binder_node) : binder_node :=
  if internal then nd <| internal_strong_refs ::= Z.add 1 |>
  else nd <| local_strong_refs ::= Z.add 1 |>.

Definition binder_inc_node_nilocked (n : Z) (strong internal : bool)
    (target_list : option work_list) s : option (Z * binder_state) :=
  nd ← nodes s !! n;
  if strong then
    if internal && bool_decide (target_list = None) && (internal_strong_refs nd =? 0)
       && negb (bool_decide (is_Some (n_proc nd)) && is_context_mgr n s && has_strong_ref nd)
    then Some (- EINVAL, s)
    else
      let s := on_node n (inc_strong internal) s in
      match target_list with
      | Some l =>
          if negb (has_strong_ref nd) then
            match l with
            | ThreadTodo thread =>
                let s := binder_dequeue_work_ilocked (WNode n) s in
                s ← binder_enqueue_deferred_thread_work_ilocked thread (WNode n) s;
                Some (0, s)
            | _ => None
            end
          else Some (0, s)
      | None => Some (0, s)
      end
  else
    let s := if internal then s else on_node n (fun nd => nd <| local_weak_refs ::= Z.add 1 |>) s in
    if negb (has_weak_ref nd) && negb (queued (WNode n) s) then
      match target_list with
      | None => Some (- EINVAL, s)
      | Some l => s ← binder_enqueue_work_ilocked (WNode n) l s; Some (0, s)
      end
    else Some (0, s).

(** What [binder_dec_node_nilocked] does once no reference of the kind is left:
    tell the process, or unlink the node. *)
Definition dec_node_last (n : Z) s : option (bool * binder_state) :=
  nd ← nodes s !! n;
  match n_proc nd with
  | Some proc =>
      if has_strong_ref nd || has_weak_ref nd then
        if negb (queued (WNode n) s) then
          s ← binder_enqueue_work_ilocked (WNode n) (ProcTodo proc) s;
          Some (false, binder_wakeup_proc_ilocked proc s)
        else Some (false, s)
      else if bool_decide (n_refs nd = []) && (local_strong_refs nd =? 0)
              && (local_weak_refs nd =? 0) && (tmp_refs nd =? 0) then
        let s := binder_dequeue_work_ilocked (WNode n) s in
        Some (true, on_proc proc (fun p => p <| p_nodes ::= tree_erase (n_ptr nd) |>) s)
      else Some (false, s)
  | None =>
      if bool_decide (n_refs nd = []) && (local_strong_refs nd =? 0)
         && (local_weak_refs nd =? 0) && (tmp_refs nd =? 0) then
        if queued (WNode n) s then None
        else Some (true, s <| dead_nodes ::= filter (fun m => m ≠ n) |>)
      else Some (false, s)
  end.

(** The count that a decrement of this kind is about. *)
Definition dec_count (strong internal : bool) (nd : binder_node) : binder_node :=
  if strong then
    if internal then nd <| internal_strong_refs ::= fun c => c - 1 |>
    else nd <| local_strong_refs ::= fun c => c - 1 |>
  else if internal then nd
  else nd <| local_weak_refs ::= fun c => c - 1 |>.

Definition binder_dec_node_nilocked (n : Z) (strong internal : bool) s
    : option (bool * binder_state) :=
  let s := on_node n (dec_count strong internal) s in
  nd ← nodes s !! n;
  if strong then
    if truth (local_strong_refs nd) || truth (internal_strong_refs nd) then Some (false, s)
    else dec_node_last n s
  else
    if truth (local_weak_refs nd) || truth (tmp_refs nd) || negb (bool_decide (n_refs nd = []))
    then Some (false, s)
    else dec_node_last n s.

Definition binder_dec_node (n : Z) (strong internal : bool) s : option binder_state :=
  '(free, s) ← binder_dec_node_nilocked n strong internal s;
  Some (if free : bool then binder_free_node n s else s).

Definition binder_dec_node_tmpref (n : Z) s : option binder_state :=
  let s := on_node n (fun nd => nd <| tmp_refs ::= fun c => c - 1 |>) s in
  nd ← nodes s !! n;
  if tmp_refs nd <? 0 then None
  else
    '(free, s) ← binder_dec_node_nilocked n false true s;
    Some (if free : bool then binder_free_node n s else s).

Definition binder_put_node (n : Z) s : option binder_state := binder_dec_node_tmpref n s.
End Driver.

(** ** References *)

Section Refs.
Implicit Types s : binder_state.

Definition binder_get_ref_olocked (proc desc : Z) (need_strong_ref : bool) s
    : option (option Z) :=
  p ← procs s !! proc;
  match tree_find desc (refs_by_desc p) with
  | None => Some None
  | Some r =>
      rf ← refs s !! r;
      Some (if need_strong_ref && (r_strong rf =? 0) then None else Some r)
  end.

(** The loop that looks for the first gap among the handles in use. *)
Fixpoint first_gap (desc : Z) (t : list (Z * Z)) : Z :=
  match t with
  | [] => desc
  | (d, _) :: t => if d >? desc then desc else first_gap (u32 (d + 1)) t
  end.

(** [new_ref] is the address of the new reference, or null. *)
Definition binder_get_ref_for_node_olocked (proc node : Z) (new_ref : option Z) s
    : option (option Z * binder_state) :=
  p ← procs s !! proc;
  match tree_find node (refs_by_node p) with
  | Some r => Some (Some r, s)
  | None =>
      match new_ref with
      | None => Some (None, s)
      | Some r =>
          let desc := first_gap (if is_context_mgr node s then 0 else 1) (refs_by_desc p) in
          match tree_find desc (refs_by_desc p) with
          | Some _ => None
          | None =>
              _ ← nodes s !! node;
              let rf := {| r_desc := desc; r_strong := 0; r_weak := 0; r_proc := proc;
                           r_node := Some node; r_death := None |} in
              let s := s <| refs ::= <[r := rf]> |> in
              let s := on_proc proc (fun p => p <| refs_by_node ::= tree_insert node r |>
                                                <| refs_by_desc ::= tree_insert desc r |>) s in
              Some (Some r, on_node node (fun nd => nd <| n_refs ::= cons r |>) s)
          end
      end
  end.

Definition binder_cleanup_ref_olocked (r : Z) s : option binder_state :=
  rf ← refs s !! r;
  node ← r_node rf;
  let s := on_proc (r_proc rf) (fun p => p <| refs_by_desc ::= tree_erase (r_desc rf) |>
                                           <| refs_by_node ::= tree_erase node |>) s in
  s ← (if truth (r_strong rf) then
         '(_, s) ← binder_dec_node_nilocked node true true s; Some s
       else Some s);
  let s := on_node node (fun nd => nd <| n_refs ::= filter (fun r' => r' ≠ r) |>) s in
  '(delete_node, s) ← binder_dec_node_nilocked node false true s;
  let s := if delete_node : bool then s else on_ref r (fun rf => rf <| r_node := None |>) s in
  Some (match r_death rf with
        | Some d => binder_dequeue_work_ilocked (WDeath d) s
        | None => s
        end).

Definition binder_inc_ref_olocked (r : Z) (strong : bool) (target_list : option work_list) s
    : option (Z * binder_state) :=
  rf ← refs s !! r;
  node ← r_node rf;
  if strong then
    '(ret, s) ← (if r_strong rf =? 0 then binder_inc_node_nilocked node true true target_list s
                 else Some (0, s));
    if truth ret then Some (ret, s)
    else Some (0, on_ref r (fun rf => rf <| r_strong ::= Z.add 1 |>) s)
  else
    '(ret, s) ← (if r_weak rf =? 0 then binder_inc_node_nilocked node false true target_list s
                 else Some (0, s));
    if truth ret then Some (ret, s)
    else Some (0, on_ref r (fun rf => rf <| r_weak ::= Z.add 1 |>) s).

Definition binder_dec_ref_olocked (r : Z) (strong : bool) s : option (bool * binder_state) :=
  rf ← refs s !! r;
  node ← r_node rf;
  if strong then
    if r_strong rf =? 0 then Some (false, s)
    else
      let s := on_ref r (fun rf => rf <| r_strong ::= fun c => c - 1 |>) s in
      s ← (if r_strong rf =? 1 then binder_dec_node node true true s else Some s);
      if (r_strong rf =? 1) && (r_weak rf =? 0) then
        s ← binder_cleanup_ref_olocked r s; Some (true, s)
      else Some (false, s)
  else
    if r_weak rf =? 0 then Some (false, s)
    else
      let s := on_ref r (fun rf => rf <| r_weak ::= fun c => c - 1 |>) s in
      if (r_strong rf =? 0) && (r_weak rf =? 1) then
        s ← binder_cleanup_ref_olocked r s; Some (true, s)
      else Some (false, s).

Definition binder_get_node_from_ref (proc desc : Z) (need_strong_ref : bool) s
    : option (option Z * binder_state) :=
  r ← binder_get_ref_olocked proc desc need_strong_ref s;
  match r with
  | None => Some (None, s)
  | Some r =>
      rf ← refs s !! r;
      node ← r_node rf;
      s ← binder_inc_node_tmpref_ilocked node s;
      Some (Some node, s)
  end.

Definition binder_free_ref (r : Z) s : option binder_state :=
  rf ← refs s !! r;
  let s := match r_node rf with Some n => binder_free_node n s | None => s end in
  let s := match r_death rf with Some d => s <| deaths ::= delete d |> | None => s end in
  Some (s <| refs ::= delete r |>).

(** The result is the error code and the reference's counts as the caller sees
    them: its handle. *)
Definition binder_update_ref_for_handle (proc desc : Z) (increment strong : bool) s
    : option (Z * option binder_ref * binder_state) :=
  r ← binder_get_ref_olocked proc desc strong s;
  match r with
  | None => Some (- EINVAL, None, s)
  | Some r =>
      '(ret, delete_ref, s) ←
        (if increment then '(ret, s) ← binder_inc_ref_olocked r strong None s; Some (ret, false, s)
         else '(delete_ref, s) ← binder_dec_ref_olocked r strong s; Some (0, delete_ref, s));
      rdata ← refs s !! r;
      s ← (if delete_ref : bool then binder_free_ref r s else Some s);
      Some (ret, Some rdata, s)
  end.

Definition binder_dec_ref_for_handle (proc desc : Z) (strong : bool) s :=
  binder_update_ref_for_handle proc desc false strong s.

Definition binder_inc_ref_for_node (proc node : Z) (alloc : option Z) (strong : bool)
    (target_list : option work_list) s : option (Z * option binder_ref * binder_state) :=
  '(ref, s) ← binder_get_ref_for_node_olocked proc node None s;
  match ref, alloc with
  | None, None => Some (- ENOMEM, None, s)
  | _, _ =>
      '(ref, s) ← (match ref with
                   | Some r => Some (Some r, s)
                   | None => binder_get_ref_for_node_olocked proc node alloc s
                   end);
      r ← ref;
      '(ret, s) ← binder_inc_ref_olocked r strong target_list s;
      rdata ← refs s !! r;
      Some (ret, Some rdata, s)
  end.

(** ** Objects in transactions *)

(** The object of a transaction as the receiver sees it. *)
Inductive flat_binder_object :=
  | BINDER (strong : bool) (ptr cookie : Z)
  | HANDLE (strong : bool) (handle : Z).

(** [node_alloc] and [ref_alloc] are the answers of kzalloc, [allowed] that of
    the security module. *)
Definition binder_translate_binder (node_alloc ref_alloc : option Z) (allowed : bool)
    (strong : bool) (ptr cookie : Z) (target_proc thread : Z) s
    : option (Z * option flat_binder_object * binder_state) :=
  t ← threads s !! thread;
  '(node, s) ← binder_get_node (t_proc t) ptr s;
  '(node, s) ← (match node with
                | Some n => Some (Some n, s)
                | None => binder_new_node (t_proc t) node_alloc ptr cookie s
                end);
  match node with
  | None => Some (- ENOMEM, None, s)
  | Some node =>
      nd ← nodes s !! node;
      '(ret, fp, s) ←
        (if negb (cookie =? n_cookie nd) then Some (- EINVAL, None, s)
         else if negb allowed then Some (- EPERM, None, s)
         else
           '(ret, rdata, s) ← binder_inc_ref_for_node target_proc node ref_alloc strong
                                (Some (ThreadTodo thread)) s;
           Some (ret, if truth ret then None
                      else HANDLE strong <$> (r_desc <$> rdata), s));
      s ← binder_put_node node s;
      Some (ret, fp, s)
  end.

Definition binder_translate_handle (ref_alloc : option Z) (allowed : bool) (strong : bool)
    (handle : Z) (target_proc thread : Z) s
    : option (Z * option flat_binder_object * binder_state) :=
  t ← threads s !! thread;
  '(node, s) ← binder_get_node_from_ref (t_proc t) handle strong s;
  match node with
  | None => Some (- EINVAL, None, s)
  | Some node =>
      nd ← nodes s !! node;
      '(ret, fp, s) ←
        (if negb allowed then Some (- EPERM, None, s)
         else if bool_decide (n_proc nd = Some target_proc) then
           '(_, s) ← binder_inc_node_nilocked node strong false None s;
           Some (0, Some (BINDER strong (n_ptr nd) (n_cookie nd)), s)
         else
           '(ret, rdata, s) ← binder_inc_ref_for_node target_proc node ref_alloc strong None s;
           Some (ret, if truth ret then None
                      else HANDLE strong <$> (r_desc <$> rdata), s));
      s ← binder_put_node node s;
      Some (ret, fp, s)
  end.

(** The target of a transaction: [None] is BR_DEAD_REPLY. *)
Definition binder_get_node_refs_for_txn (node : Z) s : option (option Z * binder_state) :=
  nd ← nodes s !! node;
  match n_proc nd with
  | Some proc =>
      '(_, s) ← binder_inc_node_nilocked node true false None s;
      s ← binder_inc_node_tmpref_ilocked node s;
      _ ← procs s !! proc;
      Some (Some proc, on_proc proc (fun p => p <| p_tmp_ref ::= Z.add 1 |>) s)
  | None => Some (None, s)
  end.

(** The context manager: [fbo] are the pointer and the cookie of its object.
    Its user and its permission are checked before. *)
Definition binder_ioctl_set_ctx_mgr (proc : Z) (node_alloc : option Z) (fbo : Z * Z) s
    : option (Z * binder_state) :=
  match context_mgr_node s with
  | Some _ => Some (- EBUSY, s)
  | None =>
      '(node, s) ← binder_new_node proc node_alloc fbo.1 fbo.2 s;
      match node with
      | None => Some (- ENOMEM, s)
      | Some n =>
          let s := on_node n (fun nd => nd <| local_weak_refs ::= Z.add 1 |>
            <| local_strong_refs ::= Z.add 1 |> <| has_strong_ref := true |>
            <| has_weak_ref := true |>) s in
          let s := s <| context_mgr_node := Some n |> in
          s ← binder_put_node n s;
          Some (0, s)
      end
  end.

(** ** Commands *)

(** BC_INCREFS, BC_ACQUIRE, BC_RELEASE and BC_DECREFS.  The result is the error
    code of the command; user space sees it only in the case of the context
    manager. *)
Definition bc_refcount (proc target : Z) (ref_alloc : option Z) (increment strong : bool) s
    : option (Z * binder_state) :=
  r ← (if increment && (target =? 0) then
         match context_mgr_node s with
         | Some n =>
             nd ← nodes s !! n;
             if bool_decide (n_proc nd = Some proc) then Some (inl (- EINVAL))
             else
               '(ret, _, s) ← binder_inc_ref_for_node proc n ref_alloc strong None s;
               Some (inr (ret, s))
         | None => Some (inr (-1, s))
         end
       else Some (inr (-1, s)));
  match r with
  | inl err => Some (err, s)
  | inr (ret, s) =>
      if truth ret then
        '(ret, _, s) ← binder_update_ref_for_handle proc target increment strong s;
        Some (ret, s)
      else Some (0, s)
  end.

(** BC_INCREFS_DONE and BC_ACQUIRE_DONE. *)
Definition bc_done (acquire : bool) (proc node_ptr cookie : Z) s : option binder_state :=
  '(node, s) ← binder_get_node proc node_ptr s;
  match node with
  | None => Some s
  | Some n =>
      nd ← nodes s !! n;
      if negb (cookie =? n_cookie nd) then binder_put_node n s
      else if negb (if acquire then pending_strong_ref nd else pending_weak_ref nd) then
        binder_put_node n s
      else
        let s := on_node n (fun nd => if acquire then nd <| pending_strong_ref := false |>
                                      else nd <| pending_weak_ref := false |>) s in
        '(_, s) ← binder_dec_node_nilocked n acquire false s;
        binder_put_node n s
  end.

(** The case BINDER_WORK_NODE of binder_thread_read: the commands written to
    the process [proc] that reads. *)
Definition read_node_work (proc n : Z) s : option (list br_command * binder_state) :=
  nd ← nodes s !! n;
  if negb (bool_decide (n_proc nd = Some proc)) then None
  else
    let strong := truth (internal_strong_refs nd) || truth (local_strong_refs nd) in
    let weak := negb (bool_decide (n_refs nd = [])) || truth (local_weak_refs nd)
                || truth (tmp_refs nd) || strong in
    let had_strong := has_strong_ref nd in
    let had_weak := has_weak_ref nd in
    let s := if weak && negb had_weak then
               on_node n (fun nd => nd <| has_weak_ref := true |> <| pending_weak_ref := true |>
                                      <| local_weak_refs ::= Z.add 1 |>) s else s in
    let s := if strong && negb had_strong then
               on_node n (fun nd => nd <| has_strong_ref := true |> <| pending_strong_ref := true |>
                                      <| local_strong_refs ::= Z.add 1 |>) s else s in
    let s := if negb strong && had_strong then on_node n (fun nd => nd <| has_strong_ref := false |>) s
             else s in
    let s := if negb weak && had_weak then on_node n (fun nd => nd <| has_weak_ref := false |>) s
             else s in
    let s := if negb weak && negb strong then
               binder_free_node n
                 (on_proc proc (fun p => p <| p_nodes ::= tree_erase (n_ptr nd) |>) s)
             else s in
    Some ((if weak && negb had_weak then [BR_INCREFS] else [])
          ++ (if strong && negb had_strong then [BR_ACQUIRE] else [])
          ++ (if negb strong && had_strong then [BR_RELEASE] else [])
          ++ (if negb weak && had_weak then [BR_DECREFS] else []), s).
End Refs.

(** ** Death notifications *)

Section Death.
Implicit Types s : binder_state.

Definition BINDER_LOOPER_STATE_REGISTERED : Z := 1.
Definition BINDER_LOOPER_STATE_ENTERED : Z := 2.
Definition BINDER_LOOPER_STATE_EXITED : Z := 4.
Definition BINDER_LOOPER_STATE_INVALID : Z := 8.

(** [thread->looper |= flag] *)
Definition looper_set (flag : Z) (t : binder_thread) : binder_thread := t <| looper ::= fun l => Z.lor l flag |>.

(** BC_REGISTER_LOOPER; [requested] is [proc->requested_threads != 0]. *)
Definition bc_register_looper (requested : bool) (thread : Z) s : option binder_state :=
  t ← threads s !! thread;
  let t := if truth (Z.land (looper t) BINDER_LOOPER_STATE_ENTERED) then looper_set BINDER_LOOPER_STATE_INVALID t
           else if negb requested then looper_set BINDER_LOOPER_STATE_INVALID t else t in
  Some (s <| threads ::= <[thread := looper_set BINDER_LOOPER_STATE_REGISTERED t]> |>).

(** BC_ENTER_LOOPER *)
Definition bc_enter_looper (thread : Z) s : option binder_state :=
  t ← threads s !! thread;
  let t := if truth (Z.land (looper t) BINDER_LOOPER_STATE_REGISTERED) then looper_set BINDER_LOOPER_STATE_INVALID t else t in
  Some (s <| threads ::= <[thread := looper_set BINDER_LOOPER_STATE_ENTERED t]> |>).

(** BC_EXIT_LOOPER *)
Definition bc_exit_looper (thread : Z) s : option binder_state :=
  t ← threads s !! thread;
  Some (s <| threads ::= <[thread := looper_set BINDER_LOOPER_STATE_EXITED t]> |>).

(** [idle]: the transaction stack of the thread is empty. *)
Definition binder_available_for_proc_work_ilocked (idle : bool) (thread : Z) (t : binder_thread) s : bool :=
  idle && binder_worklist_empty_ilocked (ThreadTodo thread) s &&
  truth (Z.land (looper t) (Z.lor BINDER_LOOPER_STATE_ENTERED BINDER_LOOPER_STATE_REGISTERED)).

(** A thread that finds nothing to read goes to sleep.  One that may do work of
    its process is then on the list of those that wait for it; when it wakes up
    for whatever reason, it is taken off. *)
Definition binder_wait_for_work (idle : bool) (thread : Z) s : option binder_state :=
  t ← threads s !! thread;
  let do_proc_work := binder_available_for_proc_work_ilocked idle thread t s in
  if process_todo t || (do_proc_work && negb (binder_worklist_empty_ilocked (ProcTodo (t_proc t)) s)) then Some s
  else if do_proc_work then Some (on_proc (t_proc t) (fun p => p <| waiting_threads ::= cons thread |>) s)
  else Some s.

Definition wake_up (thread : Z) s : option binder_state :=
  t ← threads s !! thread;
  Some (on_proc (t_proc t) (fun p => p <| waiting_threads ::= filter (fun t' => t' ≠ thread) |>) s).

(** To the thread if it is a looper, else to the process. *)
Definition enqueue_for_looper (proc thread : Z) (w : binder_work) s : option binder_state :=
  t ← threads s !! thread;
  if truth (Z.land (looper t) (Z.lor BINDER_LOOPER_STATE_REGISTERED BINDER_LOOPER_STATE_ENTERED))
  then binder_enqueue_thread_work_ilocked thread w s
  else
    s ← binder_enqueue_work_ilocked w (ProcTodo proc) s;
    Some (binder_wakeup_proc_ilocked proc s).

(** BC_REQUEST_DEATH_NOTIFICATION; [alloc] is the answer of kzalloc, whose
    failure is reported to the thread and changes nothing here. *)
Definition bc_request_death (proc target cookie : Z) (alloc : option Z) s : option binder_state :=
  match alloc with
  | None => Some s
  | Some d =>
      r ← binder_get_ref_olocked proc target false s;
      match r with
      | None => Some s
      | Some r =>
          rf ← refs s !! r;
          node ← r_node rf;
          nd ← nodes s !! node;
          match r_death rf with
          | Some _ => Some s
          | None =>
              let s := s <| deaths ::= <[d := {| d_type := DEAD_BINDER; d_cookie := cookie |}]> |> in
              let s := on_ref r (fun rf => rf <| r_death := Some d |>) s in
              match n_proc nd with
              | None =>
                  s ← binder_enqueue_work_ilocked (WDeath d) (ProcTodo proc) s;
                  Some (binder_wakeup_proc_ilocked proc s)
              | Some _ => Some s
              end
          end
      end
  end.

(** BC_CLEAR_DEATH_NOTIFICATION *)
Definition bc_clear_death (proc thread target cookie : Z) s : option binder_state :=
  r ← binder_get_ref_olocked proc target false s;
  match r with
  | None => Some s
  | Some r =>
      rf ← refs s !! r;
      node ← r_node rf;
      _ ← nodes s !! node;
      match r_death rf with
      | None => Some s
      | Some d =>
          death ← deaths s !! d;
          if negb (d_cookie death =? cookie) then Some s
          else
            let s := on_ref r (fun rf => rf <| r_death := None |>) s in
            if negb (queued (WDeath d) s) then
              enqueue_for_looper proc thread (WDeath d)
                (on_death d (fun x => x <| d_type := CLEAR_DEATH_NOTIFICATION |>) s)
            else
              match d_type death with
              | DEAD_BINDER => Some (on_death d (fun x => x <| d_type := DEAD_BINDER_AND_CLEAR |>) s)
              | _ => None
              end
      end
  end.

(** The deaths delivered to a process, in order. *)
Definition delivered (proc : Z) s : list Z :=
  omap (fun e : work_list * binder_work => match e with
                    | (DeliveredDeath p, WDeath d) => if p =? proc then Some d else None
                    | _ => None
                    end) (works s).

(** BC_DEAD_BINDER_DONE *)
Definition bc_dead_binder_done (proc thread cookie : Z) s : option binder_state :=
  match List.find (fun d => match deaths s !! d with
                            | Some x => d_cookie x =? cookie
                            | None => false
                            end) (delivered proc s) with
  | None => Some s
  | Some d =>
      death ← deaths s !! d;
      let s := binder_dequeue_work_ilocked (WDeath d) s in
      match d_type death with
      | DEAD_BINDER_AND_CLEAR =>
          enqueue_for_looper proc thread (WDeath d)
            (on_death d (fun x => x <| d_type := CLEAR_DEATH_NOTIFICATION |>) s)
      | _ => Some s
      end
  end.

(** The death works of binder_thread_read: whether BR_DEAD_BINDER (and not
    BR_CLEAR_DEATH_NOTIFICATION_DONE) was written, and the cookie. *)
Definition read_death_work (proc d : Z) s : option ((bool * Z) * binder_state) :=
  death ← deaths s !! d;
  match d_type death with
  | CLEAR_DEATH_NOTIFICATION => Some ((false, d_cookie death), s <| deaths ::= delete d |>)
  | _ =>
      s ← binder_enqueue_work_ilocked (WDeath d) (DeliveredDeath proc) s;
      Some ((true, d_cookie death), s)
  end.

(** ** Reading a work *)

(** What is written to user space for a work. *)
Inductive br_message :=
  | BR_NODE (cmds : list br_command) (ptr cookie : Z)
  | BR_DEAD_BINDER (cookie : Z)
  | BR_CLEAR_DEATH_NOTIFICATION_DONE (cookie : Z)
  | BR_OTHER (work : Z).

(** One round of the loop of binder_thread_read: the thread's list first, and
    the process's if the thread may do its work. *)
Definition read_work (thread : Z) (wait_for_proc_work : bool) s
    : option (option br_message * binder_state) :=
  t ← threads s !! thread;
  let proc := t_proc t in
  let list := if negb (binder_worklist_empty_ilocked (ThreadTodo thread) s)
              then Some (ThreadTodo thread)
              else if negb (binder_worklist_empty_ilocked (ProcTodo proc) s) && wait_for_proc_work
              then Some (ProcTodo proc) else None in
  match list with
  | None => Some (None, s)
  | Some list =>
      let '(w, s) := binder_dequeue_work_head_ilocked list s in
      let s := if binder_worklist_empty_ilocked (ThreadTodo thread) s
               then s <| threads ::= alter (fun t => t <| process_todo := false |>) thread |>
               else s in
      w ← w;
      match w with
      | WNode n =>
          nd ← nodes s !! n;
          '(cmds, s) ← read_node_work proc n s;
          Some (Some (BR_NODE cmds (n_ptr nd) (n_cookie nd)), s)
      | WDeath d =>
          '(m, s) ← read_death_work proc d s;
          Some (Some (if m.1 : bool then BR_DEAD_BINDER m.2
                      else BR_CLEAR_DEATH_NOTIFICATION_DONE m.2), s)
      | WOther x => Some (Some (BR_OTHER x), s)
      end
  end.

(** ** Release *)

(** [binder_release_work] of one work that is dequeued: only deaths that no
    reference has any more are freed. *)
Definition release_one_work (w : binder_work) s : option binder_state :=
  match w with
  | WDeath d =>
      death ← deaths s !! d;
      Some (match d_type death with
            | DEAD_BINDER => s
            | _ => s <| deaths ::= delete d |>
            end)
  | _ => Some s
  end.

Fixpoint release_works (ws : list binder_work) s : option binder_state :=
  match ws with
  | [] => Some s
  | w :: ws => s ← release_one_work w (binder_dequeue_work_ilocked w s); release_works ws s
  end.

(** The loop ends when the list is empty: it goes through the works that are
    on it. *)
Definition binder_release_work (l : work_list) s : option binder_state :=
  release_works (filter (fun e => e.1 = l) (works s)).*2 s.

(** The loop over [node->refs]: the death notifications of a node that dies. *)
Fixpoint notify_deaths (rs : list Z) s : option binder_state :=
  match rs with
  | [] => Some s
  | r :: rs =>
      rf ← refs s !! r;
      match r_death rf with
      | None => notify_deaths rs s
      | Some d =>
          _ ← deaths s !! d;
          let s := on_death d (fun x => x <| d_type := DEAD_BINDER |>) s in
          s ← binder_enqueue_work_ilocked (WDeath d) (ProcTodo (r_proc rf)) s;
          notify_deaths rs (binder_wakeup_proc_ilocked (r_proc rf) s)
      end
  end.

(** Asynchronous transactions of the node are left out. *)
Definition binder_node_release (n : Z) s : option binder_state :=
  nd ← nodes s !! n;
  let s := binder_dequeue_work_ilocked (WNode n) s in
  if tmp_refs nd =? 0 then None
  else if bool_decide (n_refs nd = []) && (tmp_refs nd =? 1) then Some (binder_free_node n s)
  else
    let s := on_node n (fun nd => nd <| n_proc := None |> <| local_strong_refs := 0 |>
                                     <| local_weak_refs := 0 |>) s in
    let s := s <| dead_nodes ::= cons n |> in
    s ← notify_deaths (n_refs nd) s;
    binder_put_node n s.

(** The loops of binder_deferred_release over the nodes and the references of
    the process: [while ((n = rb_first(..)))]. *)
Fixpoint release_nodes (fuel : nat) (proc : Z) s : option binder_state :=
  p ← procs s !! proc;
  match p_nodes p with
  | [] => Some s
  | (ptr, n) :: _ =>
      match fuel with
      | O => None
      | S fuel =>
          s ← binder_inc_node_tmpref_ilocked n s;
          let s := on_proc proc (fun p => p <| p_nodes ::= tree_erase ptr |>) s in
          s ← binder_node_release n s;
          release_nodes fuel proc s
      end
  end.

Fixpoint release_refs (fuel : nat) (proc : Z) s : option binder_state :=
  p ← procs s !! proc;
  match refs_by_desc p with
  | [] => Some s
  | (_, r) :: _ =>
      match fuel with
      | O => None
      | S fuel =>
          s ← binder_cleanup_ref_olocked r s;
          s ← binder_free_ref r s;
          release_refs fuel proc s
      end
  end.

(** ** Life of a process and its threads *)

(** [proc->threads] *)
Definition proc_threads (proc : Z) s : list Z :=
  (map_to_list (filter (fun e : Z * binder_thread => t_proc e.2 = proc) (threads s))).*1.

Definition binder_free_proc (proc : Z) s : option binder_state :=
  if negb (binder_worklist_empty_ilocked (ProcTodo proc) s) then None
  else if negb (binder_worklist_empty_ilocked (DeliveredDeath proc) s) then None
  else Some (s <| procs ::= delete proc |>).

Definition binder_proc_dec_tmpref (proc : Z) s : option binder_state :=
  let s := on_proc proc (fun p => p <| p_tmp_ref ::= fun c => c - 1 |>) s in
  p ← procs s !! proc;
  if is_dead p && bool_decide (proc_threads proc s = []) && (p_tmp_ref p =? 0)
  then binder_free_proc proc s
  else Some s.

(** The last reference to the thread is gone. *)
Definition binder_free_thread (thread proc : Z) s : option binder_state :=
  if negb (binder_worklist_empty_ilocked (ThreadTodo thread) s) then None
  else binder_proc_dec_tmpref proc s.

(** The transaction stack of the thread is left out: no transaction holds the
    thread, and it is freed. *)
Definition binder_thread_release (proc thread : Z) s : option binder_state :=
  _ ← procs s !! proc;
  let s := on_proc proc (fun p => p <| p_tmp_ref ::= Z.add 1 |>) s in
  s ← binder_release_work (ThreadTodo thread) s;
  binder_free_thread thread proc (s <| threads ::= delete thread |>).

Fixpoint release_threads (ts : list Z) (proc : Z) s : option binder_state :=
  match ts with
  | [] => Some s
  | t :: ts => s ← binder_thread_release proc t s; release_threads ts proc s
  end.

(** [while ((n = rb_first(&proc->threads)))] goes through the threads. *)
Definition binder_deferred_release (proc : Z) s : option binder_state :=
  s ← (match context_mgr_node s with
       | Some n =>
           nd ← nodes s !! n;
           Some (if bool_decide (n_proc nd = Some proc) then s <| context_mgr_node := None |> else s)
       | None => Some s
       end);
  let s := on_proc proc (fun p => p <| p_tmp_ref ::= Z.add 1 |> <| is_dead := true |>) s in
  s ← release_threads (proc_threads proc s) proc s;
  p ← procs s !! proc;
  s ← release_nodes (length (p_nodes p)) proc s;
  p ← procs s !! proc;
  s ← release_refs (length (refs_by_desc p)) proc s;
  s ← binder_release_work (ProcTodo proc) s;
  s ← binder_release_work (DeliveredDeath proc) s;
  binder_proc_dec_tmpref proc s.
End Death.

(** ** Transactions

    What binder_transaction does to nodes, references and the target process.
    The buffer, the work of the transaction and the transaction stack are left
    out. *)

Section Transaction.
Implicit Types s : binder_state.

(** The target of BC_TRANSACTION to a handle: its node and its process.  For
    none, the sender gets BR_FAILED_REPLY or BR_DEAD_REPLY. *)
Definition find_target (proc handle : Z) s : option (option (Z * Z) * binder_state) :=
  node ← (if truth handle then
            r ← binder_get_ref_olocked proc handle true s;
            match r with
            | Some r => Some <$> (rf ← refs s !! r; r_node rf)
            | None => Some None
            end
          else Some (context_mgr_node s));
  match node with
  | Some n =>
      '(target_proc, s) ← binder_get_node_refs_for_txn n s;
      Some (match target_proc with Some q => Some (n, q) | None => None end, s)
  | None => Some (None, s)
  end.

(** From the label err_invalid_target_handle on. *)
Definition abort_transaction (target_node target_proc : Z) s : option binder_state :=
  s ← binder_proc_dec_tmpref target_proc s;
  s ← binder_dec_node target_node true false s;
  binder_dec_node_tmpref target_node s.

(** [allowed] is the answer of the security module and of the comparison of the
    pids. *)
Definition begin_transaction (proc handle : Z) (allowed : bool) s
    : option (option (Z * Z) * binder_state) :=
  '(target, s) ← find_target proc handle s;
  match target with
  | Some (n, q) =>
      if (proc =? q) || negb allowed then s ← abort_transaction n q s; Some (None, s)
      else Some (Some (n, q), s)
  | None => Some (None, s)
  end.

(** BC_REPLY: the process that waits for the reply is kept. *)
Definition begin_reply (target_proc : Z) s : option binder_state :=
  _ ← procs s !! target_proc;
  Some (on_proc target_proc (fun p => p <| p_tmp_ref ::= Z.add 1 |>) s).

(** Objects of other types are left out. *)
Definition release_object (proc : Z) (fp : flat_binder_object) s : option binder_state :=
  match fp with
  | BINDER strong ptr _ =>
      '(node, s) ← binder_get_node proc ptr s;
      match node with
      | None => Some s
      | Some n => s ← binder_dec_node n strong false s; binder_put_node n s
      end
  | HANDLE strong handle =>
      '(_, _, s) ← binder_dec_ref_for_handle proc handle strong s; Some s
  end.

Fixpoint release_objects (proc : Z) (fps : list flat_binder_object) s : option binder_state :=
  match fps with
  | [] => Some s
  | fp :: fps => s ← release_object proc fp s; release_objects proc fps s
  end.

Definition binder_transaction_buffer_release (proc : Z) (target_node : option Z)
    (fps : list flat_binder_object) s : option binder_state :=
  s ← (match target_node with Some n => binder_dec_node n true false s | None => Some s end);
  release_objects proc fps s.

(** The end of binder_transaction, and its end from the label
    err_translate_failed on: [fps] are the objects translated so far. *)
Definition end_transaction (target_node : option Z) (target_proc : Z) s : option binder_state :=
  s ← binder_proc_dec_tmpref target_proc s;
  match target_node with Some n => binder_dec_node_tmpref n s | None => Some s end.

Definition fail_transaction (target_node : option Z) (target_proc : Z)
    (fps : list flat_binder_object) s : option binder_state :=
  s ← binder_transaction_buffer_release target_proc target_node fps s;
  s ← (match target_node with Some n => binder_dec_node_tmpref n s | None => Some s end);
  binder_proc_dec_tmpref target_proc s.
End Transaction.
