(* ===== verification/BinderRefInv.v ===== *)
(** * Binder driver: the invariant of nodes and references

    The invariant has a structural half, about which objects exist and point
    to each other, which does not look at reference counts, and a half about
    the counts.  Both are parametrised by what the code in progress holds:
    temporary references [T], local strong and weak references [LS] and [LW],
    internal strong references not yet or no longer booked at a reference [C],
    and the reference that is being torn down, [L]. *)

From S2P Require Import Prelude BinderRef.

Create HintDb binder.

(** ** Structure *)

Record nview := { v_owner : option Z; v_refs : list Z; v_ptr : Z }.
Record rview := { v_desc : Z; v_proc : Z; v_node : option Z; v_death : option Z }.
Record pview := {
  v_nodes : list (Z * Z);
  v_by_desc : list (Z * Z);
  v_by_node : list (Z * Z);
  v_dead : bool;
}.

Definition view_node (nd : binder_node) : nview :=
  {| v_owner := n_proc nd; v_refs := n_refs nd; v_ptr := n_ptr nd |}.
Definition view_ref (rf : binder_ref) : rview :=
  {| v_desc := r_desc rf; v_proc := r_proc rf; v_node := r_node rf; v_death := r_death rf |}.
Definition view_proc (p : binder_proc) : pview :=
  {| v_nodes := p_nodes p; v_by_desc := refs_by_desc p; v_by_node := refs_by_node p;
     v_dead := is_dead p |}.

Record sview := {
  vn : gmap Z nview;
  vr : gmap Z rview;
  vp : gmap Z pview;
  vt : gmap Z Z;
  vd : gmap Z death_type;
  vw : list (work_list * binder_work);
}.

#[global] Instance eta_nview : Eta nview := fun v => Build_nview (v_owner v) (v_refs v) (v_ptr v).
#[global] Instance eta_rview : Eta rview := fun v =>
  Build_rview (v_desc v) (v_proc v) (v_node v) (v_death v).
#[global] Instance eta_pview : Eta pview := fun v =>
  Build_pview (v_nodes v) (v_by_desc v) (v_by_node v) (v_dead v).
#[global] Instance eta_sview : Eta sview := fun v =>
  Build_sview (vn v) (vr v) (vp v) (vt v) (vd v) (vw v).

Definition view (s : binder_state) : sview := {|
  vn := view_node <$> nodes s; vr := view_ref <$> refs s; vp := view_proc <$> procs s;
  vt := t_proc <$> threads s; vd := d_type <$> deaths s; vw := works s |}.

(** The list [l] belongs to the process [p]. *)
Definition list_of (vt : gmap Z Z) (l : work_list) (p : Z) : Prop :=
  match l with
  | ThreadTodo t => vt !! t = Some p
  | ProcTodo q | DeliveredDeath q => q = p
  end.

Definition sorted_keys {A} (t : list (Z * A)) : Prop := StronglySorted Z.lt t.*1.

(** The process is not dead, or it is the one that is being released. *)
Definition alive (D : option Z) (v : sview) (p : Z) : Prop :=
  exists pr, vp v !! p = Some pr /\ (v_dead pr = true -> D = Some p).

(** The list [l] belongs to a process that is alive. *)
Definition list_alive (D : option Z) (v : sview) (l : work_list) : Prop :=
  exists p, list_of (vt v) l p /\ alive D v p.

Definition same_dead (v v' : sview) : Prop :=
  vt v' = vt v /\ forall p, v_dead <$> vp v' !! p = v_dead <$> vp v !! p.

Lemma alive_same D v v' p : same_dead v v' -> alive D v p -> alive D v' p.
Proof.
  intros [_ Hs] (pr & E & Hd). specialize (Hs p). rewrite E in Hs. destruct (vp v' !! p) as [pr'|] eqn:E'; [|done].
  cbn in Hs. injection Hs as Hs. exists pr'. rewrite Hs. done.
Qed.

Lemma list_alive_same D v v' l : same_dead v v' -> list_alive D v l -> list_alive D v' l.
Proof.
  intros Hs (p & H1 & H2). exists p. split; [by rewrite (proj1 Hs)|]. by eapply alive_same.
Qed.

Lemma same_dead_alter v v' f p :
  vt v' = vt v -> vp v' = alter f p (vp v) -> (forall pr, v_dead (f pr) = v_dead pr) -> same_dead v v'.
Proof.
  intros Et Ep Hf. split; [done|]. intros q. rewrite Ep. destruct (decide (p = q)) as [->|].
  - rewrite lookup_alter_eq. destruct (vp v !! q); [|done]. cbn. by rewrite Hf.
  - by rewrite lookup_alter_ne.
Qed.

Record struct_ok (D L : option Z) (v : sview) : Prop := {
  (** A reference has its node, in both directions, and is in both trees of its
      process. *)
  ok_ref r rf : vr v !! r = Some rf -> L <> Some r -> exists n nd p,
    v_node rf = Some n /\ vn v !! n = Some nd /\ r ∈ v_refs nd /\
    vp v !! v_proc rf = Some p /\ (v_desc rf, r) ∈ v_by_desc p /\ (n, r) ∈ v_by_node p;
  ok_desc r rf : vr v !! r = Some rf -> 0 <= v_desc rf;
  ok_refs n nd r : vn v !! n = Some nd -> r ∈ v_refs nd -> exists rf,
    vr v !! r = Some rf /\ v_node rf = Some n;
  ok_refs_nodup n nd : vn v !! n = Some nd -> NoDup (v_refs nd);
  ok_by_desc p pr d r : vp v !! p = Some pr -> (d, r) ∈ v_by_desc pr -> exists rf,
    vr v !! r = Some rf /\ v_desc rf = d /\ v_proc rf = p /\ L <> Some r;
  ok_by_node p pr n r : vp v !! p = Some pr -> (n, r) ∈ v_by_node pr -> exists rf,
    vr v !! r = Some rf /\ v_node rf = Some n /\ v_proc rf = p /\ L <> Some r;
  ok_sorted p pr : vp v !! p = Some pr ->
    sorted_keys (v_nodes pr) /\ sorted_keys (v_by_desc pr) /\ sorted_keys (v_by_node pr);
  (** The nodes of a process. *)
  ok_nodes p pr ptr n : vp v !! p = Some pr -> (ptr, n) ∈ v_nodes pr -> exists nd,
    vn v !! n = Some nd /\ v_owner nd = Some p /\ v_ptr nd = ptr;
  ok_owner n nd p : vn v !! n = Some nd -> v_owner nd = Some p -> exists pr,
    vp v !! p = Some pr /\ (v_ptr nd, n) ∈ v_nodes pr;
  ok_thread t p : vt v !! t = Some p -> alive D v p;
  (** A dead process has nothing left. *)
  ok_dead p pr : vp v !! p = Some pr -> v_dead pr = true -> D <> Some p ->
    v_nodes pr = [] /\ v_by_desc pr = [] /\ v_by_node pr = [];
  (** Works: on one list only, a node's on a list of its process. *)
  ok_works : NoDup (vw v).*2;
  ok_list l w : (l, w) ∈ vw v -> list_alive D v l;
  ok_node_work l n : (l, WNode n) ∈ vw v -> exists nd p,
    vn v !! n = Some nd /\ v_owner nd = Some p /\ list_of (vt v) l p /\ l <> DeliveredDeath p;
  ok_death_work l d : (l, WDeath d) ∈ vw v -> is_Some (vd v !! d);
  ok_delivered p d : (DeliveredDeath p, WDeath d) ∈ vw v -> vd v !! d <> Some CLEAR_DEATH_NOTIFICATION;
  (** Death notifications: one per reference, queued only after the death of the
      node; a notification without reference is on its way out. *)
  ok_death r rf d : vr v !! r = Some rf -> v_death rf = Some d -> is_Some (vd v !! d) /\
    (forall r' rf', vr v !! r' = Some rf' -> v_death rf' = Some d -> r' = r) /\
    (L <> Some r -> vd v !! d = Some DEAD_BINDER /\
     (WDeath d ∈ (vw v).*2 -> exists n nd, v_node rf = Some n /\ vn v !! n = Some nd /\ v_owner nd = None));
  ok_detached d x : vd v !! d = Some x ->
    (exists r rf, vr v !! r = Some rf /\ v_death rf = Some d) \/
    (WDeath d ∈ (vw v).*2 /\ x <> DEAD_BINDER);
}.

Arguments ok_ref {D}. Arguments ok_desc {D}. Arguments ok_refs {D}. Arguments ok_refs_nodup {D}.
Arguments ok_by_desc {D}. Arguments ok_by_node {D}. Arguments ok_sorted {D}. Arguments ok_nodes {D}.
Arguments ok_owner {D}. Arguments ok_thread {D}. Arguments ok_works {D}. Arguments ok_list {D}.
Arguments ok_node_work {D}. Arguments ok_death_work {D}. Arguments ok_delivered {D}.
Arguments ok_death {D}. Arguments ok_detached {D}. Arguments ok_dead {D}.

(** ** Counts *)

Definition occ (n : Z) (l : list Z) : Z := zlen (filter (fun m => m = n) l).

(** The reference is strong, and not being torn down. *)
Definition is_strong (L : option Z) (m : gmap Z binder_ref) (r : Z) : bool :=
  negb (bool_decide (L = Some r)) &&
  match m !! r with Some rf => negb (r_strong rf =? 0) | None => false end.

Definition strong_count (L : option Z) (m : gmap Z binder_ref) (rs : list Z) : Z :=
  zlen (filter (fun r => is_strong L m r = true) rs).

Record node_counts (L : option Z) (T LS LW C : list Z) (m : gmap Z binder_ref) (n : Z)
    (nd : binder_node) : Prop := {
  cnt_internal : internal_strong_refs nd = strong_count L m (n_refs nd) + occ n C;
  cnt_tmp : tmp_refs nd = occ n T;
  cnt_live : is_Some (n_proc nd) ->
    local_strong_refs nd = b2z (pending_strong_ref nd) + occ n LS /\
    local_weak_refs nd = b2z (pending_weak_ref nd) + occ n LW /\
    (pending_strong_ref nd = true -> has_strong_ref nd = true) /\
    (pending_weak_ref nd = true -> has_weak_ref nd = true) /\
    (has_strong_ref nd = true -> has_weak_ref nd = true);
  cnt_dead : n_proc nd = None ->
    local_strong_refs nd <= 0 /\ local_weak_refs nd = 0 /\ occ n LS <= occ n T /\ occ n LW = 0;
}.

Record counts_ok (L : option Z) (T LS LW C : list Z) (s : binder_state) : Prop := {
  ok_counts n nd : nodes s !! n = Some nd -> node_counts L T LS LW C (refs s) n nd;
  ok_positive r rf : refs s !! r = Some rf -> 0 <= r_strong rf /\ 0 <= r_weak rf;
  ok_held n : n ∈ T \/ n ∈ LS \/ n ∈ LW \/ n ∈ C -> is_Some (nodes s !! n);
}.

Definition inv (D L : option Z) (T LS LW C : list Z) (s : binder_state) : Prop :=
  struct_ok D L (view s) /\ counts_ok L T LS LW C s.

(** ** Lookups in views *)

Lemma vn_Some s n v : vn (view s) !! n = Some v <-> exists nd, nodes s !! n = Some nd /\ v = view_node nd.
Proof. cbn. rewrite lookup_fmap_Some. naive_solver. Qed.
Lemma vr_Some s r v : vr (view s) !! r = Some v <-> exists rf, refs s !! r = Some rf /\ v = view_ref rf.
Proof. cbn. rewrite lookup_fmap_Some. naive_solver. Qed.
Lemma vp_Some s p v : vp (view s) !! p = Some v <-> exists pr, procs s !! p = Some pr /\ v = view_proc pr.
Proof. cbn. rewrite lookup_fmap_Some. naive_solver. Qed.

Lemma vn_lookup s n nd : nodes s !! n = Some nd -> vn (view s) !! n = Some (view_node nd).
Proof. intros E. cbn. by rewrite lookup_fmap, E. Qed.
Lemma vr_lookup s r rf : refs s !! r = Some rf -> vr (view s) !! r = Some (view_ref rf).
Proof. intros E. cbn. by rewrite lookup_fmap, E. Qed.
Lemma vp_lookup s p pr : procs s !! p = Some pr -> vp (view s) !! p = Some (view_proc pr).
Proof. intros E. cbn. by rewrite lookup_fmap, E. Qed.

(** An assignment that the view does not see. *)
Lemma fmap_alter_same {A B} (g : A -> B) (f : A -> A) (k : Z) (m : gmap Z A) :
  (forall x, m !! k = Some x -> g (f x) = g x) -> g <$> alter f k m = g <$> m.
Proof.
  intros Hf. apply map_eq. intros i. rewrite !lookup_fmap.
  destruct (decide (i = k)) as [->|].
  - rewrite lookup_alter_eq. destruct (m !! k) as [x|] eqn:E; [|done]. cbn. by rewrite Hf.
  - by rewrite lookup_alter_ne.
Qed.

(** An assignment that the view sees as the assignment [h]. *)
Lemma fmap_alter_view {A B} (g : A -> B) (f : A -> A) (h : B -> B) (k : Z) (m : gmap Z A) :
  (forall x, g (f x) = h (g x)) -> g <$> alter f k m = alter h k (g <$> m).
Proof.
  intros Hf. apply map_eq. intros i. rewrite lookup_fmap.
  destruct (decide (i = k)) as [->|].
  - rewrite !lookup_alter_eq, lookup_fmap. destruct (m !! k); [|done]. cbn. by rewrite Hf.
  - by rewrite !lookup_alter_ne, lookup_fmap.
Qed.

Lemma view_on_node n f s :
  (forall nd, nodes s !! n = Some nd -> view_node (f nd) = view_node nd) -> view (on_node n f s) = view s.
Proof. intros Hf. unfold view, on_node; cbn. by rewrite fmap_alter_same. Qed.
Lemma view_on_ref r f s :
  (forall rf, refs s !! r = Some rf -> view_ref (f rf) = view_ref rf) -> view (on_ref r f s) = view s.
Proof. intros Hf. unfold view, on_ref; cbn. by rewrite fmap_alter_same. Qed.
Lemma view_on_proc p f s :
  (forall pr, procs s !! p = Some pr -> view_proc (f pr) = view_proc pr) -> view (on_proc p f s) = view s.
Proof. intros Hf. unfold view, on_proc; cbn. by rewrite fmap_alter_same. Qed.

(** ** Occurrences *)

Lemma occ_nil n : occ n [] = 0.
Proof. done. Qed.
Lemma occ_cons n m l : occ n (m :: l) = (if decide (m = n) then 1 else 0) + occ n l.
Proof.
  unfold occ, zlen. rewrite filter_cons. destruct (decide (m = n)); cbn [length]; lia.
Qed.
Lemma occ_nonneg n l : 0 <= occ n l.
Proof. apply zlen_nonneg. Qed.
Lemma occ_pos n l : n ∈ l <-> 0 < occ n l.
Proof.
  induction l as [|m l IH]; [rewrite occ_nil; split; [by intros ?%not_elem_of_nil|lia]|].
  rewrite occ_cons, elem_of_cons, IH. pose proof (occ_nonneg n l).
  destruct (decide (m = n)); naive_solver lia.
Qed.
Lemma occ_zero n l : n ∉ l <-> occ n l = 0.
Proof. rewrite occ_pos. pose proof (occ_nonneg n l). lia. Qed.
Lemma occ_app n l k : occ n (l ++ k) = occ n l + occ n k.
Proof. unfold occ, zlen. rewrite filter_app, length_app. lia. Qed.

(** ** Trees *)

Lemma tree_find_Some {A} k (t : list (Z * A)) v :
  sorted_keys t -> tree_find k t = Some v <-> (k, v) ∈ t.
Proof.
  intros Hs. unfold tree_find. induction t as [|[k' v'] t IH]; cbn.
  - split; [done | by intros ?%not_elem_of_nil].
  - unfold sorted_keys in Hs. cbn in Hs. apply StronglySorted_inv in Hs as [Hs Hlt].
    rewrite elem_of_cons. destruct (Z.eqb_spec k' k) as [->|Hne]; cbn.
    + split; [intros [= ->]; by left|]. intros [[= ->]|Hin]; [done|].
      rewrite Forall_forall in Hlt. assert (k < k); [|lia]. apply Hlt.
      apply list_elem_of_fmap. by exists (k, v).
    + rewrite IH by done. naive_solver.
Qed.

Lemma tree_find_None {A} k (t : list (Z * A)) : tree_find k t = None <-> k ∉ t.*1.
Proof.
  unfold tree_find. induction t as [|[k' v'] t IH]; cbn.
  - split; [intros _; apply not_elem_of_nil|done].
  - rewrite not_elem_of_cons, <- IH. destruct (Z.eqb_spec k' k) as [->|]; cbn; naive_solver.
Qed.

#[global] Arguments tree_find : simpl never.

Lemma elem_of_tree_insert {A} k (v : A) t e : e ∈ tree_insert k v t <-> e = (k, v) \/ e ∈ t.
Proof.
  induction t as [|[k' v'] t IH]; cbn; [rewrite list_elem_of_singleton, elem_of_nil; tauto|].
  destruct (k <? k'); rewrite !elem_of_cons; [done|]. rewrite IH. tauto.
Qed.

Lemma sorted_tree_insert {A} k (v : A) t :
  sorted_keys t -> k ∉ t.*1 -> sorted_keys (tree_insert k v t).
Proof.
  unfold sorted_keys. induction t as [|[k' v'] t IH]; cbn; intros Hs Hk.
  - repeat constructor.
  - apply StronglySorted_inv in Hs as [Hs Hlt]. apply not_elem_of_cons in Hk as [Hne Hk].
    destruct (Z.ltb_spec k k'); cbn.
    + constructor; [by constructor|]. constructor; [done|].
      eapply Forall_impl; [exact Hlt|]. cbn. lia.
    + constructor; [auto|]. apply Forall_forall. intros x Hx.
      apply list_elem_of_fmap in Hx as ([x' y] & -> & Hx). apply elem_of_tree_insert in Hx as [[= -> ->]|Hx].
      * cbn. lia.
      * rewrite Forall_forall in Hlt. apply Hlt, list_elem_of_fmap. by exists (x', y).
Qed.

Lemma elem_of_tree_erase {A} k (t : list (Z * A)) e : e ∈ tree_erase k t <-> fst e <> k /\ e ∈ t.
Proof. unfold tree_erase. by rewrite list_elem_of_filter. Qed.

Lemma sorted_tree_erase {A} k (t : list (Z * A)) : sorted_keys t -> sorted_keys (tree_erase k t).
Proof.
  unfold sorted_keys, tree_erase. induction t as [|[k' v'] t IH]; cbn -[filter]; [done|].
  intros [Hs Hlt]%StronglySorted_inv. rewrite filter_cons. destruct (decide _); cbn -[filter]; [|auto].
  constructor; [auto|]. apply Forall_forall. intros x Hx.
  apply list_elem_of_fmap in Hx as (e & -> & Hx). apply list_elem_of_filter in Hx as [_ Hx].
  rewrite Forall_forall in Hlt. apply Hlt, list_elem_of_fmap. eauto.
Qed.

Lemma sorted_unique {A} (t : list (Z * A)) k v v' : sorted_keys t -> (k, v) ∈ t -> (k, v') ∈ t -> v = v'.
Proof. intros Hs H1%(tree_find_Some _ _ _ Hs) H2%(tree_find_Some _ _ _ Hs). congruence. Qed.

Lemma sorted_keys_nodup {A} (t : list (Z * A)) : sorted_keys t -> NoDup t.*1.
Proof.
  unfold sorted_keys. induction t.*1 as [|k l IH]; intros Hs; [constructor|].
  apply StronglySorted_inv in Hs as [Hs Hlt]. apply NoDup_cons. split; [|auto].
  intros Hk. rewrite Forall_forall in Hlt. specialize (Hlt k Hk). lia.
Qed.

Lemma filter_same {A} (P : A -> Prop) `{forall x, Decision (P x)} (l : list A) :
  (forall x, x ∈ l -> P x) -> filter P l = l.
Proof.
  intros Hl. induction l as [|x l IH]; [done|]. rewrite filter_cons, decide_True by (apply Hl; left).
  f_equal. apply IH. intros y Hy. apply Hl. by right.
Qed.

(** ** Assignments of counts *)

Definition same_else (n : Z) (l l' : list Z) : Prop := forall m, m <> n -> occ m l' = occ m l.

Lemma same_else_refl n l : same_else n l l.
Proof. done. Qed.
Lemma same_else_cons n l : same_else n l (n :: l).
Proof. intros m Hm. rewrite occ_cons, decide_False by done. lia. Qed.
Lemma same_else_tail n l : same_else n (n :: l) l.
Proof. intros m Hm. rewrite occ_cons, decide_False by done. lia. Qed.
Lemma same_else_elem n l l' m : same_else n l l' -> m <> n -> m ∈ l' -> m ∈ l.
Proof. intros Hs Hm. rewrite !occ_pos. by rewrite Hs. Qed.
#[export] Hint Resolve same_else_refl same_else_cons same_else_tail : binder.

Lemma occ_head n l : occ n (n :: l) = 1 + occ n l.
Proof. by rewrite occ_cons, decide_True. Qed.

Section Counts.
Context {D : option Z} (L : option Z).
Implicit Types (T LS LW C : list Z) (s : binder_state).

(** The counters of one node change. *)
Lemma counts_on_node T LS LW C T' LS' LW' C' s n nd f :
  counts_ok L T LS LW C s -> nodes s !! n = Some nd ->
  same_else n T T' -> same_else n LS LS' -> same_else n LW LW' -> same_else n C C' ->
  node_counts L T' LS' LW' C' (refs s) n (f nd) ->
  counts_ok L T' LS' LW' C' (on_node n f s).
Proof.
  intros [Hc Hp Hh] Hn HT HLS HLW HC Hnd. split; cbn.
  - intros m md. destruct (decide (m = n)) as [->|Hm].
    + rewrite lookup_alter_eq, Hn. by intros [= <-].
    + rewrite lookup_alter_ne by done. intros Hmd.
      destruct (Hc _ _ Hmd) as [H1 H2 H3 H4]. split; rewrite ?HT, ?HLS, ?HLW, ?HC by done; auto.
  - exact Hp.
  - intros m Hm. destruct (decide (m = n)) as [->|Hne].
    + rewrite lookup_alter_eq, Hn. by eexists.
    + rewrite lookup_alter_ne by done. apply Hh.
      naive_solver eauto using same_else_elem.
Qed.

Lemma inv_on_node T LS LW C T' LS' LW' C' s n nd f :
  inv D L T LS LW C s -> nodes s !! n = Some nd -> view_node (f nd) = view_node nd ->
  same_else n T T' -> same_else n LS LS' -> same_else n LW LW' -> same_else n C C' ->
  node_counts L T' LS' LW' C' (refs s) n (f nd) ->
  inv D L T' LS' LW' C' (on_node n f s).
Proof.
  intros [Hs Hc] Hn Hv HT HLS HLW HC Hnd. split.
  - rewrite view_on_node; [done|]. intros nd' E. rewrite Hn in E. by injection E as <-.
  - eapply counts_on_node; eauto.
Qed.

(** The counts of a reference change: those of its node follow if it becomes or
    stops being strong. *)
Lemma strong_count_split m r rs : NoDup rs -> r ∈ rs ->
  strong_count L m rs =
  b2z (is_strong L m r) + strong_count L m (filter (fun r' => r' ≠ r) rs).
Proof.
  intros Hd Hr. unfold strong_count, zlen. induction rs as [|x rs IH]; [by apply not_elem_of_nil in Hr|].
  apply NoDup_cons in Hd as [Hx Hd]. rewrite !filter_cons. destruct (decide (x = r)) as [->|Hne].
  - rewrite (decide_False (P := r ≠ r)) by naive_solver.
    rewrite (filter_same (fun r' => r' ≠ r) rs) by (intros y Hy ->; done).
    destruct (is_strong L m r); cbn [length b2z decide]; destruct (decide _); cbn [length]; (lia || done).
  - rewrite (decide_True (P := x ≠ r)) by done. rewrite filter_cons.
    apply elem_of_cons in Hr as [->|Hr]; [done|]. specialize (IH Hd Hr).
    destruct (decide (is_strong L m x = true)); cbn [length]; lia.
Qed.

Lemma strong_count_ext L' m m' rs :
  (forall r, r ∈ rs -> is_strong L m r = is_strong L' m' r) -> strong_count L m rs = strong_count L' m' rs.
Proof.
  intros Hs. unfold strong_count. f_equal. induction rs as [|r rs IH]; [done|].
  rewrite !filter_cons, (Hs r) by left.
  rewrite IH by (intros; apply Hs; by right). done.
Qed.

(** Who owns a node or a reference is alive. *)
Lemma node_alive v p pr e : struct_ok D L v -> vp v !! p = Some pr ->
  e ∈ v_nodes pr \/ e ∈ v_by_desc pr -> alive D v p.
Proof.
  intros Hs Hp He. exists pr. split; [done|]. intros Hd.
  destruct (decide (D = Some p)) as [|HD]; [done|].
  destruct (ok_dead _ _ Hs p pr Hp Hd HD) as (E1 & E2 & _). rewrite E1, E2 in He.
  destruct He as [He|He]; by apply not_elem_of_nil in He.
Qed.

Lemma owner_alive s n nd p : struct_ok D L (view s) -> nodes s !! n = Some nd -> n_proc nd = Some p ->
  alive D (view s) p.
Proof.
  intros Hs Hn Hp. destruct (ok_owner _ _ Hs n _ p (vn_lookup _ _ _ Hn) Hp) as (pr & E & Hin).
  eapply node_alive; eauto.
Qed.

Lemma thread_alive s t th : struct_ok D L (view s) -> threads s !! t = Some th ->
  alive D (view s) (t_proc th).
Proof. intros Hs Ht. apply (ok_thread _ _ Hs t). cbn. by rewrite lookup_fmap, Ht. Qed.

(** What the structure says about a reference and its node. *)
Lemma struct_ref s r rf : struct_ok D L (view s) -> refs s !! r = Some rf -> L <> Some r ->
  exists n nd p, r_node rf = Some n /\ nodes s !! n = Some nd /\ r ∈ n_refs nd /\
    procs s !! r_proc rf = Some p /\ (r_desc rf, r) ∈ refs_by_desc p /\ (n, r) ∈ refs_by_node p.
Proof.
  intros Hs Hr HL. destruct (ok_ref _ _ Hs r _ (vr_lookup _ _ _ Hr) HL) as (n & v & p & H1 & H2 & H3 & H4 & H5).
  apply vn_Some in H2 as (nd & H2 & ->). apply vp_Some in H4 as (pr & H4 & ->).
  exists n, nd, pr. done.
Qed.

Lemma struct_refs s n nd r : struct_ok D L (view s) -> nodes s !! n = Some nd -> r ∈ n_refs nd ->
  exists rf, refs s !! r = Some rf /\ r_node rf = Some n.
Proof.
  intros Hs Hn Hr. destruct (ok_refs _ _ Hs n _ r (vn_lookup _ _ _ Hn) Hr) as (v & H1 & H2).
  apply vr_Some in H1 as (rf & H1 & ->). eauto.
Qed.

Lemma inv_on_ref T LS LW C C' s r rf n f :
  inv D L T LS LW C s -> refs s !! r = Some rf -> L <> Some r -> r_node rf = Some n ->
  view_ref (f rf) = view_ref rf -> 0 <= r_strong (f rf) -> 0 <= r_weak (f rf) ->
  same_else n C C' ->
  occ n C' = occ n C + b2z (truth (r_strong rf)) - b2z (truth (r_strong (f rf))) ->
  (n ∈ C' -> is_Some (nodes s !! n)) ->
  inv D L T LS LW C' (on_ref r f s).
Proof.
  intros [Hs [Hc Hp Hh]] Hr HL Hrn Hv H1 H2 HC Hocc Hin. split.
  - rewrite view_on_ref; [done|]. intros rf' E. rewrite Hr in E. by injection E as <-.
  - split; cbn.
    + intros m md Hm. destruct (Hc m md Hm) as [Hi Ht Hl Hd]. split; auto. rewrite Hi.
      destruct (decide (m = n)) as [->|Hne].
      * destruct (struct_ref _ _ _ Hs Hr HL) as (n' & nd & p & E1 & E2 & E3 & _).
        rewrite E1 in Hrn. injection Hrn as ->. rewrite Hm in E2. injection E2 as <-.
        pose proof (ok_refs_nodup _ _ Hs n _ (vn_lookup _ _ _ Hm)) as Hnd. cbn in Hnd.
        rewrite !(strong_count_split _ r (n_refs md)) by done.
        assert (Ha : is_strong L (alter f r (refs s)) r = truth (r_strong (f rf))).
        { unfold is_strong. rewrite lookup_alter_eq, Hr. cbn. by rewrite bool_decide_false. }
        assert (Hb : is_strong L (refs s) r = truth (r_strong rf)).
        { unfold is_strong. rewrite Hr. by rewrite bool_decide_false. }
        rewrite Ha, Hb, Hocc.
        rewrite (strong_count_ext L (alter f r (refs s)) (refs s)
          (filter (fun r' => r' ≠ r) (n_refs md))); [lia|].
        intros x [Hx _]%list_elem_of_filter. unfold is_strong. by rewrite lookup_alter_ne.
      * rewrite HC by done. f_equal. apply strong_count_ext. intros x Hx. unfold is_strong.
        rewrite lookup_alter_ne; [done|]. intros <-.
        destruct (struct_refs _ _ _ _ Hs Hm Hx) as (rf' & E1 & E2). congruence.
    + intros x xf. destruct (decide (x = r)) as [->|Hx].
      * rewrite lookup_alter_eq, Hr. by intros [= <-].
      * rewrite lookup_alter_ne by done. apply Hp.
    + intros m Hm. destruct (decide (m = n)) as [->|Hne]; [|naive_solver eauto using same_else_elem].
      naive_solver.
Qed.

(** ** Work lists *)

Lemma queued_true w s : queued w s = true <-> exists l, (l, w) ∈ works s.
Proof.
  unfold queued. rewrite bool_decide_eq_true, list_elem_of_fmap. split.
  - intros ([l w'] & -> & Hl). by exists l.
  - intros (l & Hl). by exists (l, w).
Qed.

Lemma in_snd (l : work_list) (w : binder_work) ws : (l, w) ∈ ws -> w ∈ ws.*2.
Proof. intros Hl. apply list_elem_of_fmap. by exists (l, w). Qed.

(** An entry that may be on a work list. *)
Definition entry_ok (v : sview) (l : work_list) (w : binder_work) : Prop :=
  list_alive D v l /\
  match w with
  | WNode n => exists nd p, vn v !! n = Some nd /\ v_owner nd = Some p /\ list_of (vt v) l p /\
                 l <> DeliveredDeath p
  | WDeath d => is_Some (vd v !! d) /\
      (forall p, l = DeliveredDeath p -> vd v !! d <> Some CLEAR_DEATH_NOTIFICATION) /\
      forall r rf, vr v !! r = Some rf -> v_death rf = Some d ->
      L <> Some r -> exists n nd, v_node rf = Some n /\ vn v !! n = Some nd /\ v_owner nd = None
  | WOther _ => True
  end.

(** The work lists change. *)
Lemma struct_works v ws :
  struct_ok D L v -> NoDup ws.*2 ->
  (forall l w, (l, w) ∈ ws -> (l, w) ∈ vw v \/ entry_ok v l w) ->
  (forall d, WDeath d ∈ (vw v).*2 -> WDeath d ∉ ws.*2 ->
     exists r rf, vr v !! r = Some rf /\ v_death rf = Some d) ->
  struct_ok D L (v <| vw := ws |>).
Proof.
  intros [] Hn He Hd. split; cbn; auto.
  - intros l w Hl. destruct (He l w Hl) as [|[? _]]; [by apply (ok_list0 l w)|done].
  - intros l n Hl. destruct (He _ _ Hl) as [|[_ ?]]; eauto.
  - intros l d Hl. destruct (He _ _ Hl) as [|(_ & ? & _)]; eauto.
  - intros p d Hl. destruct (He _ _ Hl) as [|(_ & _ & Hp & _)]; eauto.
  - intros r rf d Hr Hrd. destruct (ok_death0 r rf d Hr Hrd) as (H1 & H2 & H3).
    split; [done|]. split; [done|]. intros HL. destruct (H3 HL) as (H4 & H5). split; [done|].
    intros Hq. apply list_elem_of_fmap in Hq as ([l w] & E & Hl). cbn in E. subst w.
    destruct (He _ _ Hl) as [Hl'|(_ & _ & _ & Hw)]; [|eauto]. apply H5, list_elem_of_fmap. by exists (l, WDeath d).
  - intros d x Hx. destruct (ok_detached0 d x Hx) as [|[Hq Ht]]; [by left|].
    destruct (decide (WDeath d ∈ ws.*2)); [right; done|left; eauto].
Qed.

Lemma struct_dequeue s w : struct_ok D L (view s) ->
  (forall d, w = WDeath d -> forall x, deaths s !! d = Some x ->
     exists r rf, refs s !! r = Some rf /\ r_death rf = Some d) ->
  struct_ok D L (view (binder_dequeue_work_ilocked w s)).
Proof.
  intros Hs Hd. apply (struct_works _ (filter (fun e => e.2 ≠ w) (works s)) Hs).
  - eapply sublist_NoDup; [apply (ok_works _ _ Hs)|]. apply (fmap_sublist snd), sublist_filter.
  - intros l w' [_ Hl]%list_elem_of_filter. by left.
  - intros d Hq Hnq.
    assert (Hw : w = WDeath d).
    { destruct (decide (w = WDeath d)) as [|Hne]; [done|]. destruct Hnq.
      apply list_elem_of_fmap in Hq as ([l w'] & E & Hl). cbn in E. subst w'. apply list_elem_of_fmap.
      exists (l, WDeath d). split; [done|]. apply list_elem_of_filter. split; [cbn; congruence|done]. }
    assert (Hx : is_Some (vd (view s) !! d)).
    { apply list_elem_of_fmap in Hq as ([l w'] & E & Hl). cbn in E. subst w'.
      eapply (ok_death_work _ _ Hs), Hl. }
    destruct Hx as [x Hx]. cbn in Hx. rewrite lookup_fmap_Some in Hx. destruct Hx as (y & _ & Hy).
    destruct (Hd d Hw y Hy) as (r & rf & Hr & Hrd). exists r, (view_ref rf).
    split; [by apply vr_lookup|done].
Qed.

Lemma dequeued_gone w s : queued w (binder_dequeue_work_ilocked w s) = false.
Proof.
  apply bool_decide_eq_false. intros (e & -> & He)%list_elem_of_fmap.
  apply list_elem_of_filter in He as [He _]. done.
Qed.

Lemma enqueue_spec s w l : queued w s = false ->
  binder_enqueue_work_ilocked w l s = Some (s <| works ::= fun ws => ws ++ [(l, w)] |>).
Proof. intros Hq. unfold binder_enqueue_work_ilocked. by rewrite Hq. Qed.

Lemma struct_enqueue s w l : struct_ok D L (view s) -> queued w s = false ->
  entry_ok (view s) l w -> struct_ok D L (view (s <| works ::= fun ws => ws ++ [(l, w)] |>)).
Proof.
  intros Hs Hq He. apply (struct_works _ (works s ++ [(l, w)]) Hs).
  - rewrite fmap_app. apply NoDup_app. split; [apply (ok_works _ _ Hs)|]. split; [|apply NoDup_singleton].
    intros x Hx ->%list_elem_of_singleton. by apply bool_decide_eq_false in Hq.
  - intros l' w' [Hl|Hl]%elem_of_app; [by left|]. apply list_elem_of_singleton in Hl as [= -> ->]. by right.
  - intros d Hd Hnd. destruct Hnd. rewrite fmap_app. apply elem_of_app. by left.
Qed.

(** Counts do not see the work lists, the processes and the threads. *)
Lemma counts_same T LS LW C s s' :
  nodes s' = nodes s -> refs s' = refs s -> counts_ok L T LS LW C s -> counts_ok L T LS LW C s'.
Proof. intros E1 E2 []. split; rewrite ?E1, ?E2; auto. Qed.

Lemma view_wakeup p s : view (binder_wakeup_proc_ilocked p s) = view s.
Proof.
  unfold binder_wakeup_proc_ilocked, binder_select_thread_ilocked.
  destruct (procs s !! p) as [pr|]; [|done]. destruct (waiting_threads pr); [done|].
  cbn [snd]. by apply view_on_proc.
Qed.

Lemma nodes_wakeup p s : nodes (binder_wakeup_proc_ilocked p s) = nodes s /\
  refs (binder_wakeup_proc_ilocked p s) = refs s.
Proof.
  unfold binder_wakeup_proc_ilocked, binder_select_thread_ilocked.
  destruct (procs s !! p) as [pr|]; [|done]. by destruct (waiting_threads pr).
Qed.

Lemma inv_wakeup T LS LW C p s : inv D L T LS LW C s -> inv D L T LS LW C (binder_wakeup_proc_ilocked p s).
Proof.
  intros [Hs Hc]. destruct (nodes_wakeup p s) as [E1 E2]. split; [by rewrite view_wakeup|].
  by apply (counts_same _ _ _ _ s).
Qed.

(** ** Freeing a node *)

Definition unlink_node (nd : nview) (n : Z) (v : sview) : sview :=
  v <| vn ::= delete n |>
    <| vp ::= match v_owner nd with
              | Some p => alter (fun pr => pr <| v_nodes ::= tree_erase (v_ptr nd) |>) p
              | None => id
              end |>.

Definition erased (nd : nview) (p : Z) (t : list (Z * Z)) : list (Z * Z) :=
  if decide (v_owner nd = Some p) then tree_erase (v_ptr nd) t else t.

#[local] Arguments erased : simpl never.

(** Looking a process up after its tree of nodes lost an entry. *)
Lemma unlink_proc nd n v p : vp (unlink_node nd n v) !! p =
  (fun pr => pr <| v_nodes ::= erased nd p |>) <$> vp v !! p.
Proof.
  destruct (decide (v_owner nd = Some p)) as [Ho|Ho].
  - assert (Et : forall t, erased nd p t = tree_erase (v_ptr nd) t) by (intros; unfold erased; by rewrite decide_True).
    cbn. rewrite Ho, lookup_alter_eq. destruct (vp v !! p); [|done].
    unfold set; cbn. by rewrite Et.
  - assert (Et : forall t, erased nd p t = t) by (intros; unfold erased; by rewrite decide_False).
    cbn. destruct (v_owner nd) as [q|].
    + rewrite lookup_alter_ne by congruence. destruct (vp v !! p) as [[]|]; [|done].
      unfold set; cbn. by rewrite Et.
    + cbn. destruct (vp v !! p) as [[]|]; [|done].
      unfold set; cbn. by rewrite Et.
Qed.

Lemma unlink_proc_Some nd n v p pr : vp (unlink_node nd n v) !! p = Some pr -> exists pr0,
  vp v !! p = Some pr0 /\ v_by_desc pr = v_by_desc pr0 /\ v_by_node pr = v_by_node pr0 /\
  v_nodes pr = erased nd p (v_nodes pr0) /\ v_dead pr = v_dead pr0.
Proof. rewrite unlink_proc. intros (pr0 & E & ->)%fmap_Some. exists pr0. done. Qed.

Lemma elem_of_erased nd p t e : e ∈ erased nd p t <-> e ∈ t /\ (v_owner nd = Some p -> e.1 <> v_ptr nd).
Proof. unfold erased. case_decide; [rewrite elem_of_tree_erase|]; naive_solver. Qed.

Lemma unlink_dead nd n v : same_dead v (unlink_node nd n v).
Proof. split; [done|]. intros p. rewrite unlink_proc. by destruct (vp v !! p). Qed.

Lemma struct_unlink v n nd :
  struct_ok D L v -> vn v !! n = Some nd -> v_refs nd = [] -> (forall l, (l, WNode n) ∉ vw v) ->
  struct_ok D L (unlink_node nd n v).
Proof.
  intros Hs Hn Hr Hw. pose proof Hs as []. split.
  - intros r rf Hrf HL. destruct (ok_ref0 r rf Hrf HL) as (m & md & p & H1 & H2 & H3 & H4 & H5 & H6).
    exists m, md, (p <| v_nodes ::= erased nd (v_proc rf) |>). rewrite unlink_proc, H4.
    split_and!; auto. cbn. rewrite lookup_delete_ne; [done|].
    intros ->. rewrite Hn in H2. injection H2 as <-. rewrite Hr in H3. by apply not_elem_of_nil in H3.
  - exact ok_desc0.
  - cbn. intros m md r [Hne Hm]%lookup_delete_Some. eauto.
  - cbn. intros m md [Hne Hm]%lookup_delete_Some. eauto.
  - intros p pr d r (pr0 & E1 & E2 & E3 & _)%unlink_proc_Some. rewrite E2. eauto.
  - intros p pr m r (pr0 & E1 & E2 & E3 & _)%unlink_proc_Some. rewrite E3. eauto.
  - intros p pr (pr0 & E1 & E2 & E3 & E4 & _)%unlink_proc_Some. rewrite E2, E3, E4.
    destruct (ok_sorted0 _ _ E1) as (S1 & S2 & S3). split_and!; auto.
    unfold erased. case_decide; [by apply sorted_tree_erase|done].
  - intros p pr ptr m (pr0 & E1 & E2 & E3 & E4 & _)%unlink_proc_Some Hm. rewrite E4 in Hm.
    apply elem_of_erased in Hm as [Hm Hne].
    destruct (ok_nodes0 _ _ _ _ E1 Hm) as (md & H1 & H2 & H3). exists md. split; [|done].
    cbn. rewrite lookup_delete_ne; [done|]. intros <-. rewrite Hn in H1. injection H1 as <-.
    by apply Hne.
  - intros m md p Hm Ho. cbn in Hm. apply lookup_delete_Some in Hm as [Hne Hm].
    destruct (ok_owner0 m md p Hm Ho) as (pr & E1 & E2).
    exists (pr <| v_nodes ::= erased nd p |>). rewrite unlink_proc, E1. split; [done|].
    apply elem_of_erased. split; [done|]. cbn. intros Hop Hptr.
    destruct (ok_owner0 n nd p Hn Hop) as (pr' & E1' & E2'). rewrite E1 in E1'. injection E1' as <-.
    rewrite Hptr in E2. destruct (ok_sorted0 _ _ E1) as (S1 & _). by pose proof (sorted_unique _ _ _ _ S1 E2 E2').
  - intros t p Ht. eapply alive_same; [apply unlink_dead|]. by apply (ok_thread0 t p).
  - intros p pr (pr0 & E1 & E2 & E3 & E4 & E5)%unlink_proc_Some. rewrite E2, E3, E4, E5.
    intros Hd HD. destruct (ok_dead0 _ _ E1 Hd HD) as (-> & -> & ->). split_and!; try done.
    unfold erased. by case_decide.
  - exact ok_works0.
  - intros l w Hl. eapply list_alive_same; [apply unlink_dead|]. by apply (ok_list0 l w).
  - intros l m Hl. destruct (ok_node_work0 l m Hl) as (md & p & H1 & H2). exists md, p. split; [|done].
    cbn. rewrite lookup_delete_ne; [done|]. intros <-. by destruct (Hw l).
  - exact ok_death_work0.
  - exact ok_delivered0.
  - intros r rf d Hrf Hd. destruct (ok_death0 r rf d Hrf Hd) as (H1 & H2 & H3). split; [done|].
    split; [done|]. intros HL. destruct (H3 HL) as (H4 & H5). split; [done|]. intros Hq.
    destruct (H5 Hq) as (m & md & E1 & E2 & E3). exists m, md. split; [done|]. split; [|done].
    cbn. rewrite lookup_delete_ne; [done|]. intros <-.
    destruct (ok_ref0 r rf Hrf HL) as (m' & md' & p & F1 & F2 & F3 & _).
    rewrite E1 in F1. injection F1 as <-. rewrite Hn in F2. injection F2 as <-.
    rewrite Hr in F3. by apply not_elem_of_nil in F3.
  - exact ok_detached0.
Qed.

Lemma counts_delete T LS LW C s n :
  counts_ok L T LS LW C s -> occ n T = 0 -> occ n LS = 0 -> occ n LW = 0 -> occ n C = 0 ->
  counts_ok L T LS LW C (binder_free_node n s).
Proof.
  intros [Hc Hp Hh] HT HLS HLW HC. split; cbn; auto.
  - intros m md [Hne Hm]%lookup_delete_Some. auto.
  - intros m Hm. rewrite lookup_delete_ne; [auto|]. intros <-. rewrite !occ_pos in Hm. lia.
Qed.

(** What a node is and what its process was told of it. *)
Definition ident (nd : binder_node) :=
  (n_proc nd, n_ptr nd, n_cookie nd, (has_strong_ref nd, pending_strong_ref nd),
   (has_weak_ref nd, pending_weak_ref nd)).

(** A node may disappear if its process is dead or holds nothing for it. *)
Definition gone (nd : binder_node) : Prop :=
  n_proc nd = None \/ has_strong_ref nd = false /\ has_weak_ref nd = false.

(** No node is new or tells something new to its process. *)
Definition quiet s s' : Prop :=
  (forall m, is_Some (nodes s' !! m) -> is_Some (nodes s !! m)) /\
  (forall m nd, nodes s !! m = Some nd ->
     match nodes s' !! m with Some nd' => ident nd' = ident nd | None => gone nd end).

Lemma quiet_nodes s s' : nodes s' = nodes s -> quiet s s'.
Proof. intros E. split; rewrite E; [done|]. by intros m nd ->. Qed.

Lemma quiet_trans s1 s2 s3 : quiet s1 s2 -> quiet s2 s3 -> quiet s1 s3.
Proof.
  intros [A1 A2] [B1 B2]. split; [auto|]. intros m nd Hm. specialize (A2 m nd Hm).
  destruct (nodes s2 !! m) as [nd2|] eqn:E2.
  - specialize (B2 m nd2 E2). destruct (nodes s3 !! m); [congruence|].
    unfold gone in *. unfold ident in A2. naive_solver congruence.
  - destruct (nodes s3 !! m) eqn:E3; [|done]. destruct (B1 m) as [? E]; [by eexists|congruence].
Qed.

Lemma quiet_on_node n f s :
  (forall nd, nodes s !! n = Some nd -> ident (f nd) = ident nd) -> quiet s (on_node n f s).
Proof.
  intros Hf. split; cbn.
  - intros m. by rewrite lookup_alter_is_Some.
  - intros m nd Hm. destruct (decide (m = n)) as [->|].
    + rewrite lookup_alter_eq, Hm. by apply Hf.
    + by rewrite lookup_alter_ne, Hm.
Qed.

Lemma quiet_free n s : (forall nd, nodes s !! n = Some nd -> gone nd) -> quiet s (binder_free_node n s).
Proof.
  intros Hg. split; cbn.
  - intros m. rewrite lookup_delete_is_Some. tauto.
  - intros m nd Hm. destruct (decide (m = n)) as [->|].
    + rewrite lookup_delete_eq. by apply Hg.
    + by rewrite lookup_delete_ne, Hm.
Qed.

(** The parts of a process that operations on nodes leave alone. *)
Definition life (pr : binder_proc) := (is_dead pr, p_tmp_ref pr).
Definition proc_refs (pr : binder_proc) := (refs_by_desc pr, refs_by_node pr, life pr).

(** What an operation on the counts of a node leaves alone. *)
Definition node_frame (n : Z) s s' : Prop :=
  refs s' = refs s /\ deaths s' = deaths s /\ threads s' = threads s /\
  context_mgr_node s' = context_mgr_node s /\
  (forall m, m <> n -> nodes s' !! m = nodes s !! m) /\
  (forall w, w <> WNode n -> queued w s' = queued w s) /\
  (forall p, proc_refs <$> procs s' !! p = proc_refs <$> procs s !! p) /\
  quiet s s'.

Lemma node_frame_refl n s : node_frame n s s.
Proof. split_and!; try done. by apply quiet_nodes. Qed.
#[local] Hint Resolve node_frame_refl : core.

Lemma node_frame_trans n s1 s2 s3 : node_frame n s1 s2 -> node_frame n s2 s3 -> node_frame n s1 s3.
Proof.
  intros (A1 & A2 & A3 & A4 & A5 & A6 & A7 & A8) (B1 & B2 & B3 & B4 & B5 & B6 & B7 & B8).
  split_and!; try congruence; [..|by eapply quiet_trans]; intros; rewrite ?B5, ?B6, ?B7; auto.
Qed.

Lemma node_frame_on_node n f s :
  (forall nd, ident (f nd) = ident nd) -> node_frame n s (on_node n f s).
Proof.
  intros Hf. split_and!; try done; [|by apply quiet_on_node]. intros m Hm. cbn. by rewrite lookup_alter_ne.
Qed.

Lemma node_frame_free n s :
  (forall nd, nodes s !! n = Some nd -> gone nd) -> node_frame n s (binder_free_node n s).
Proof.
  intros Hg. split_and!; try done; [|by apply quiet_free]. intros m Hm. cbn. by rewrite lookup_delete_ne.
Qed.

Lemma node_frame_wakeup n p s : node_frame n s (binder_wakeup_proc_ilocked p s).
Proof.
  unfold binder_wakeup_proc_ilocked, binder_select_thread_ilocked.
  destruct (procs s !! p) as [pr|] eqn:E; [|apply node_frame_refl].
  destruct (waiting_threads pr); [apply node_frame_refl|].
  split_and!; try done; [|by apply quiet_nodes]. intros q. cbn. destruct (decide (p = q)) as [->|].
  - by rewrite lookup_alter_eq, E.
  - by rewrite lookup_alter_ne.
Qed.

Lemma node_frame_dequeue n s : node_frame n s (binder_dequeue_work_ilocked (WNode n) s).
Proof.
  split_and!; try done; [|by apply quiet_nodes]. intros w Hw. apply eq_true_iff_eq. rewrite !queued_true. cbn.
  setoid_rewrite list_elem_of_filter. cbn. naive_solver.
Qed.

Lemma node_frame_enqueue n l s : node_frame n s (s <| works ::= fun ws => ws ++ [(l, WNode n)] |>).
Proof.
  split_and!; try done; [|by apply quiet_nodes]. intros w Hw. apply eq_true_iff_eq. rewrite !queued_true. cbn.
  setoid_rewrite elem_of_app. setoid_rewrite list_elem_of_singleton. naive_solver.
Qed.

Lemma node_frame_erase n p k s : node_frame n s (on_proc p (fun pr => pr <| p_nodes ::= tree_erase k |>) s).
Proof.
  split_and!; try done; [|by apply quiet_nodes]. intros q. cbn. destruct (decide (p = q)) as [->|].
  - rewrite lookup_alter_eq. by destruct (procs s !! q).
  - by rewrite lookup_alter_ne.
Qed.

(** A node that nothing refers to leaves the tree of its process and is freed. *)
Lemma inv_unlink T LS LW C s n nd p :
  inv D L T LS LW C s -> nodes s !! n = Some nd -> n_proc nd = Some p -> n_refs nd = [] ->
  occ n T = 0 -> occ n LS = 0 -> occ n LW = 0 -> occ n C = 0 -> queued (WNode n) s = false ->
  inv D L T LS LW C (binder_free_node n (on_proc p (fun p => p <| p_nodes ::= tree_erase (n_ptr nd) |>) s)).
Proof.
  intros [Hs Hc] Hn Hp Hr H1 H2 H3 H4 Hq. split.
  - eapply eq_ind; [apply (struct_unlink (view s) n (view_node nd) Hs); [by apply vn_lookup|done|]|].
    + intros l Hw. assert (queued (WNode n) s = true) by (apply queued_true; eauto). congruence.
    + unfold unlink_node, view. cbn. rewrite Hp, fmap_delete. unfold set; cbn. f_equal.
      symmetry. by apply fmap_alter_view.
  - apply counts_delete; [by apply (counts_same _ _ _ _ s)|done..].
Qed.

(** The node is freed, or its process is told, or nothing: in every case the
    invariant holds once the caller has freed the node. *)
Lemma dec_node_last_spec T LS LW C s n nd :
  inv D L T LS LW C s -> nodes s !! n = Some nd -> occ n C = 0 ->
  exists b s', dec_node_last n s = Some (b, s') /\
    inv D L T LS LW C (if b : bool then binder_free_node n s' else s') /\
    nodes s' = nodes s /\ node_frame n s s' /\ (b = true -> n_refs nd = [] /\ tmp_refs nd = 0 /\ gone nd).
Proof.
  intros [Hs Hc] Hn HC. unfold dec_node_last. rewrite Hn. cbn [mbind option_bind].
  pose proof (ok_counts _ _ _ _ _ _ Hc n nd Hn) as [Hi Ht Hl Hd].
  pose proof (occ_nonneg n LS). pose proof (occ_nonneg n LW).
  destruct (n_proc nd) as [p|] eqn:Ep.
  - destruct (Hl ltac:(done)) as (Hls & Hlw & _). clear Hl Hd.
    destruct (_ || _) eqn:Eg.
    + destruct (queued (WNode n) s) eqn:Eq; cbn [negb].
      * exists false, s. split_and!; done.
      * rewrite enqueue_spec by done. cbn [mbind option_bind].
        eexists false, _. split; [done|].
        destruct (nodes_wakeup p (s <| works ::= fun ws => ws ++ [(ProcTodo p, WNode n)] |>)) as [E1 _].
        split; [apply inv_wakeup; split|split; [exact E1|split; [|done]]].
        -- apply struct_enqueue; [done..|].
           split; [exists p; split; [done|by eapply owner_alive]|].
           exists (view_node nd), p. split_and!; [by apply vn_lookup|done|done|done].
        -- by apply (counts_same _ _ _ _ s).
        -- eapply node_frame_trans; [apply node_frame_enqueue|apply node_frame_wakeup].
    + destruct (_ && _) eqn:Ez; [|exists false, s; split_and!; done].
      rewrite !andb_true_iff, bool_decide_eq_true, !Z.eqb_eq in Ez. destruct Ez as [[[Er Es] Ew] Et].
      apply orb_false_iff in Eg.
      eexists true, _. split; [done|]. split; [|split; [done|split; [|intros _; split_and!; [done..|by right]]]].
      2: { eapply node_frame_trans; [apply node_frame_dequeue|apply node_frame_erase]. }
      apply inv_unlink; try done; [split; [by apply struct_dequeue|by apply (counts_same _ _ _ _ s)]|..| |apply dequeued_gone];
        destruct (pending_strong_ref nd), (pending_weak_ref nd); cbn in *; lia.
  - destruct (Hd eq_refl) as (Hls & Hlw & Hle & Hw0). clear Hl Hd.
    destruct (_ && _) eqn:Ez; [|exists false, s; split_and!; done].
    rewrite !andb_true_iff, bool_decide_eq_true, !Z.eqb_eq in Ez. destruct Ez as [[[Er Es] Ew] Et].
    assert (Hnw : forall l, (l, WNode n) ∉ works s).
    { intros l Hw. destruct (ok_node_work _ _ Hs l n Hw) as (v & q & E1 & E2 & _).
      rewrite (vn_lookup _ _ _ Hn) in E1. injection E1 as <-. cbn in E2. congruence. }
    destruct (queued (WNode n) s) eqn:Eq.
    { apply queued_true in Eq as (l & Hw). by destruct (Hnw l). }
    eexists true, _. split; [done|]. split; [|split; [done|split; [|intros _; split_and!; [done..|by left]]]].
    2: { split_and!; try done. by apply quiet_nodes. }
    split.
    + replace (view _) with (unlink_node (view_node nd) n (view s)).
      * by apply struct_unlink; [|by apply vn_lookup| |].
      * unfold unlink_node, view. cbn. rewrite Ep, fmap_delete. done.
    + apply counts_delete; [by apply (counts_same _ _ _ _ s)|lia..].
Qed.

(** ** Decrements *)

Lemma on_node_id n f s : (forall nd, f nd = nd) -> on_node n f s = s.
Proof. intros Hf. unfold on_node, set. destruct s; cbn. by rewrite alter_id. Qed.

Lemma view_dec_count strong internal nd : view_node (dec_count strong internal nd) = view_node nd.
Proof. by destruct strong, internal. Qed.

Lemma dec_node_spec T LS LW C s n nd strong internal :
  inv D L T LS LW C (on_node n (dec_count strong internal) s) ->
  nodes s !! n = Some nd -> occ n C = 0 ->
  exists b s', binder_dec_node_nilocked n strong internal s = Some (b, s') /\
    inv D L T LS LW C (if b : bool then binder_free_node n s' else s') /\
    nodes s' = nodes (on_node n (dec_count strong internal) s) /\ node_frame n s s' /\
    (b = true -> n_refs nd = [] /\ tmp_refs (dec_count strong internal nd) = 0 /\ gone nd).
Proof.
  intros Hi Hn HC. unfold binder_dec_node_nilocked.
  set (s1 := on_node n (dec_count strong internal) s) in *.
  assert (Hn1 : nodes s1 !! n = Some (dec_count strong internal nd)).
  { unfold s1. cbn. by rewrite lookup_alter_eq, Hn. }
  rewrite Hn1. cbn [mbind option_bind].
  assert (Hrefs : n_refs (dec_count strong internal nd) = n_refs nd) by (by destruct strong, internal).
  assert (Hid : forall nd, ident (dec_count strong internal nd) = ident nd) by (by destruct strong, internal).
  assert (Hf : node_frame n s s1) by by apply node_frame_on_node.
  destruct (dec_node_last_spec T LS LW C s1 n _ Hi Hn1 HC) as (b & s' & E & I' & N' & F' & B').
  assert (Hg : gone (dec_count strong internal nd) -> gone nd).
  { specialize (Hid nd). unfold gone. unfold ident in Hid. naive_solver congruence. }
  rewrite E. assert (Hf' : node_frame n s s') by (eapply node_frame_trans; eauto).
  rewrite Hrefs in B'.
  destruct strong; (destruct (_ || _); [exists false, s1; split_and!; done|]);
    exists b, s'; split_and!; naive_solver.
Qed.

(** A temporary reference is dropped. *)
Lemma put_node_spec T LS LW C s n :
  inv D L (n :: T) LS LW C s -> occ n C = 0 ->
  (forall nd, nodes s !! n = Some nd -> n_proc nd = None -> occ n LS <= occ n T) ->
  exists s', binder_put_node n s = Some s' /\ inv D L T LS LW C s' /\ node_frame n s s' /\
    (forall nd, nodes s !! n = Some nd -> n_refs nd <> [] \/ 0 < occ n T -> exists nd',
       nodes s' !! n = Some nd' /\ view_node nd' = view_node nd).
Proof.
  intros Hi HC Hle. pose proof Hi as [Hs Hc].
  destruct (ok_held _ _ _ _ _ _ Hc n) as [nd Hn]; [left; left|].
  unfold binder_put_node, binder_dec_node_tmpref.
  set (s1 := on_node n (fun nd => nd <| tmp_refs ::= fun c => c - 1 |>) s).
  assert (Hn1 : nodes s1 !! n = Some (nd <| tmp_refs ::= fun c => c - 1 |>)).
  { unfold s1. cbn. by rewrite lookup_alter_eq, Hn. }
  pose proof (ok_counts _ _ _ _ _ _ Hc n nd Hn) as [Hin Ht Hl Hd]. rewrite occ_head in Ht.
  pose proof (occ_nonneg n T) as HT0.
  assert (Hi1 : inv D L T LS LW C s1).
  { eapply (inv_on_node (n :: T) LS LW C); eauto with binder. split; cbn; [done|lia|done|].
    intros Hdead. destruct (Hd Hdead) as (? & ? & ? & ?). split_and!; eauto. }
  rewrite Hn1. cbn [mbind option_bind]. rewrite (proj2 (Z.ltb_ge _ 0)) by (cbn; lia).
  assert (Ho : on_node n (dec_count false true) s1 = s1).
  { by apply on_node_id. }
  destruct (dec_node_spec T LS LW C s1 n _ false true ltac:(by rewrite Ho) Hn1 HC)
    as (b & s' & E & I' & N' & F' & B'). rewrite E. cbn [mbind option_bind].
  assert (Hf : node_frame n s s') by (apply (node_frame_trans n s s1); [by apply node_frame_on_node|exact F']).
  eexists. split; [done|]. split; [exact I'|]. split.
  - destruct b; [|exact Hf]. eapply node_frame_trans; [exact Hf|apply node_frame_free].
    rewrite N', Ho, Hn1. intros ? [= <-]. by destruct (B' eq_refl) as (_ & _ & ?).
  - intros nd' Hn' Hcond. rewrite Hn in Hn'. injection Hn' as <-. destruct b.
    + destruct (B' eq_refl) as (B1 & B2 & _). cbn in B1, B2. destruct Hcond; [done|lia].
    + rewrite N', Ho, Hn1. eexists. split; [done|]. by destruct nd.
Qed.

Lemma inc_tmpref_spec T LS LW C s n nd :
  inv D L T LS LW C s -> nodes s !! n = Some nd ->
  binder_inc_node_tmpref_ilocked n s = Some (on_node n (fun nd => nd <| tmp_refs ::= Z.add 1 |>) s) /\
  inv D L (n :: T) LS LW C (on_node n (fun nd => nd <| tmp_refs ::= Z.add 1 |>) s).
Proof.
  intros Hi Hn. unfold binder_inc_node_tmpref_ilocked. rewrite Hn. split; [done|].
  pose proof Hi as [Hs Hc]. pose proof (ok_counts _ _ _ _ _ _ Hc n nd Hn) as [Hin Ht Hl Hd].
  eapply (inv_on_node T LS LW C); eauto with binder. split; cbn; rewrite ?occ_head; [done|lia|done|].
  intros Hdead. destruct (Hd Hdead) as (? & ? & ? & ?). split_and!; auto; lia.
Qed.

(** ** Increments *)

(** A list that work about the node [n] may be put on. *)
Definition target_ok (n : Z) (target_list : option work_list) s : Prop :=
  forall l, target_list = Some l -> exists t th nd,
    l = ThreadTodo t /\ threads s !! t = Some th /\ nodes s !! n = Some nd /\ n_proc nd = Some (t_proc th).

Lemma target_entry s n t th nd : struct_ok D L (view s) -> threads s !! t = Some th ->
  nodes s !! n = Some nd -> n_proc nd = Some (t_proc th) ->
  entry_ok (view s) (ThreadTodo t) (WNode n).
Proof.
  intros Hs Ht Hn Hp. assert (Hvt : vt (view s) !! t = Some (t_proc th)) by (cbn; by rewrite lookup_fmap, Ht).
  split.
  - exists (t_proc th). split; [done|]. by apply (ok_thread _ _ Hs t).
  - exists (view_node nd), (t_proc th). split_and!; [by apply vn_lookup|done|done|done].
Qed.

Lemma inv_enqueue_node T LS LW C s n t th nd :
  inv D L T LS LW C s -> threads s !! t = Some th ->
  nodes s !! n = Some nd -> n_proc nd = Some (t_proc th) -> queued (WNode n) s = false ->
  exists s', binder_enqueue_work_ilocked (WNode n) (ThreadTodo t) s = Some s' /\
    inv D L T LS LW C s' /\ nodes s' = nodes s /\ node_frame n s s'.
Proof.
  intros [Hs Hc] Ht Hn Hp Hq. rewrite enqueue_spec by done. eexists. split; [done|].
  split; [|split; [done|apply node_frame_enqueue]]. split.
  - apply struct_enqueue; [done..|]. eapply target_entry; eauto.
  - by apply (counts_same _ _ _ _ s).
Qed.

Lemma inv_dequeue_node T LS LW C s n :
  inv D L T LS LW C s -> inv D L T LS LW C (binder_dequeue_work_ilocked (WNode n) s).
Proof.
  intros [Hs Hc]. split; [by apply struct_dequeue|]. by apply (counts_same _ _ _ _ s).
Qed.

(** A strong increment: an error leaves everything as it was and is possible
    only for an internal one without a list, on a node without strong
    references. *)
Lemma inc_strong_spec T LS LW C LS' C' s n nd internal target_list :
  inv D L T LS LW C s -> nodes s !! n = Some nd -> target_ok n target_list s ->
  inv D L T LS' LW C' (on_node n (inc_strong internal) s) ->
  exists ret s', binder_inc_node_nilocked n true internal target_list s = Some (ret, s') /\
    node_frame n s s' /\
    (ret = 0 /\ inv D L T LS' LW C' s' /\ nodes s' = nodes (on_node n (inc_strong internal) s) \/
     ret = - EINVAL /\ s' = s /\ internal = true /\ target_list = None /\ internal_strong_refs nd = 0).
Proof.
  intros Hi Hn Ht Hi'. unfold binder_inc_node_nilocked. rewrite Hn. cbn [mbind option_bind].
  destruct (_ && _) eqn:Ee.
  { rewrite !andb_true_iff, bool_decide_eq_true, Z.eqb_eq in Ee. destruct Ee as [[[Ei ->] E0] _].
    exists (- EINVAL), s. split; [done|]. split; [done|]. right. done. }
  set (s1 := on_node n (inc_strong internal) s) in *.
  assert (Hn1 : nodes s1 !! n = Some (inc_strong internal nd)).
  { unfold s1. cbn. by rewrite lookup_alter_eq, Hn. }
  destruct target_list as [l|].
  - destruct (Ht l eq_refl) as (t & th & nd' & -> & Hth & Hn' & Hp). rewrite Hn in Hn'. injection Hn' as <-.
    destruct (has_strong_ref nd); cbn [negb].
    + exists 0, s1. split; [done|]. split; [by apply node_frame_on_node; destruct internal|]. by left.
    + unfold binder_enqueue_deferred_thread_work_ilocked.
      destruct (inv_enqueue_node T LS' LW C' (binder_dequeue_work_ilocked (WNode n) s1) n t th
                  (inc_strong internal nd)) as (s' & E & I' & N' & F').
      * by apply inv_dequeue_node.
      * done.
      * done.
      * by destruct internal.
      * apply dequeued_gone.
      * rewrite E. cbn [mbind option_bind]. exists 0, s'. split; [done|]. split.
        -- apply (node_frame_trans n s s1); [by apply node_frame_on_node; destruct internal|].
           eapply node_frame_trans; [apply node_frame_dequeue|exact F'].
        -- left. done.
  - exists 0, s1. split; [done|]. split; [by apply node_frame_on_node; destruct internal|]. by left.
Qed.

Definition inc_weak (internal : bool) (nd : binder_node) : binder_node :=
  if internal then nd else nd <| local_weak_refs ::= Z.add 1 |>.

(** A weak increment: an error keeps the count that was taken. *)
Lemma inc_weak_spec T LS LW C LW' s n nd internal target_list :
  inv D L T LS LW C s -> nodes s !! n = Some nd -> target_ok n target_list s ->
  inv D L T LS LW' C (on_node n (inc_weak internal) s) ->
  exists ret s', binder_inc_node_nilocked n false internal target_list s = Some (ret, s') /\
    node_frame n s s' /\ inv D L T LS LW' C s' /\ nodes s' = nodes (on_node n (inc_weak internal) s) /\
    (ret = 0 \/ ret = - EINVAL /\ target_list = None /\ has_weak_ref nd = false).
Proof.
  intros Hi Hn Ht Hi'. unfold binder_inc_node_nilocked. rewrite Hn. cbn [mbind option_bind].
  assert (Hs1 : (if internal then s else on_node n (fun nd => nd <| local_weak_refs ::= Z.add 1 |>) s) =
                on_node n (inc_weak internal) s).
  { destruct internal; [|done]. symmetry. by apply on_node_id. }
  rewrite Hs1. set (s1 := on_node n (inc_weak internal) s) in *.
  assert (Hf : node_frame n s s1) by (apply node_frame_on_node; by destruct internal).
  assert (Hn1 : nodes s1 !! n = Some (inc_weak internal nd)).
  { unfold s1. cbn. by rewrite lookup_alter_eq, Hn. }
  destruct (has_weak_ref nd) eqn:Eh; cbn [negb andb].
  { exists 0, s1. split; [done|]. split; [exact Hf|]. split_and!; auto. }
  destruct (queued (WNode n) s1) eqn:Eq; cbn [negb].
  { exists 0, s1. split; [done|]. split; [exact Hf|]. split_and!; auto. }
  destruct target_list as [l|].
  - destruct (Ht l eq_refl) as (t & th & nd' & -> & Hth & Hn' & Hp). rewrite Hn in Hn'. injection Hn' as <-.
    destruct (inv_enqueue_node T LS LW' C s1 n t th (inc_weak internal nd)) as (s' & E & I' & N' & F'); auto.
    { by destruct internal. }
    rewrite E. cbn [mbind option_bind]. exists 0, s'. split; [done|].
    split; [eapply node_frame_trans; [exact Hf|exact F']|]. split_and!; auto.
  - exists (- EINVAL), s1. split; [done|]. split; [exact Hf|]. split_and!; auto.
Qed.

Lemma inv_inc_internal T LS LW C s n nd : inv D L T LS LW C s -> nodes s !! n = Some nd ->
  inv D L T LS LW (n :: C) (on_node n (inc_strong true) s).
Proof.
  intros Hi Hn. pose proof Hi as [_ Hc]. pose proof (ok_counts _ _ _ _ _ _ Hc n nd Hn) as [Hin Ht Hl Hd].
  eapply (inv_on_node T LS LW C); eauto with binder. split; cbn; rewrite ?occ_head; [lia|done..].
Qed.

Lemma inv_inc_local T LS LW C s n nd : inv D L T LS LW C s -> nodes s !! n = Some nd ->
  is_Some (n_proc nd) -> inv D L T (n :: LS) LW C (on_node n (inc_strong false) s).
Proof.
  intros Hi Hn Hp. pose proof Hi as [_ Hc]. pose proof (ok_counts _ _ _ _ _ _ Hc n nd Hn) as [Hin Ht Hl Hd].
  eapply (inv_on_node T LS LW C); eauto with binder. split; cbn; rewrite ?occ_head; [done..| |].
  - intros _. destruct (Hl Hp) as (? & ? & ?). split_and!; auto; try lia; naive_solver.
  - intros E. rewrite E in Hp. by destruct Hp.
Qed.

Lemma inv_inc_weak T LS LW C s n nd : inv D L T LS LW C s -> nodes s !! n = Some nd ->
  is_Some (n_proc nd) -> inv D L T LS (n :: LW) C (on_node n (inc_weak false) s).
Proof.
  intros Hi Hn Hp. pose proof Hi as [_ Hc]. pose proof (ok_counts _ _ _ _ _ _ Hc n nd Hn) as [Hin Ht Hl Hd].
  eapply (inv_on_node T LS LW C); eauto with binder. split; cbn; rewrite ?occ_head; [done..| |].
  - intros _. destruct (Hl Hp) as (? & ? & ?). split_and!; auto; try lia; naive_solver.
  - intros E. rewrite E in Hp. by destruct Hp.
Qed.
End Counts.
