(* ===== verification/BinderRefNode.v ===== *)
(** * Binder driver: creating and removing references

    The specifications of the operations on nodes and references: each keeps
    the invariant, faults never, and changes only what it should. *)

From S2P Require Import Prelude BinderRef BinderRefInv.

Section Node.
Context {D : option Z} (L : option Z).
Implicit Types (T LS LW C : list Z) (s : binder_state).

(** ** Decrements of the three kinds *)

Lemma inv_dec_internal T LS LW C s n nd : inv D L T LS LW (n :: C) s -> nodes s !! n = Some nd ->
  inv D L T LS LW C (on_node n (dec_count true true) s).
Proof.
  intros Hi Hn. pose proof Hi as [_ Hc]. pose proof (ok_counts _ _ _ _ _ _ Hc n nd Hn) as [Hin Ht Hl Hd].
  rewrite occ_head in Hin. eapply (inv_on_node L T LS LW (n :: C)); eauto with binder.
  split; cbn; [lia|done..].
Qed.

(** A local strong reference on a dead node is not counted any more: its count
    becomes negative. *)
Lemma inv_dec_local T LS LW C s n nd : inv D L T (n :: LS) LW C s -> nodes s !! n = Some nd ->
  inv D L T LS LW C (on_node n (dec_count true false) s).
Proof.
  intros Hi Hn. pose proof Hi as [_ Hc]. pose proof (ok_counts _ _ _ _ _ _ Hc n nd Hn) as [Hin Ht Hl Hd].
  rewrite occ_head in Hl, Hd.
  eapply (inv_on_node L T (n :: LS) LW C); eauto with binder.
  split; cbn; [done..| |].
  - intros Hp. destruct (Hl Hp) as (? & ? & ?). split_and!; naive_solver lia.
  - intros Hp. destruct (Hd Hp) as (? & ? & ?). split_and!; lia.
Qed.

Lemma inv_dec_weak T LS LW C s n nd : inv D L T LS (n :: LW) C s -> nodes s !! n = Some nd ->
  inv D L T LS LW C (on_node n (dec_count false false) s).
Proof.
  intros Hi Hn. pose proof Hi as [_ Hc]. pose proof (ok_counts _ _ _ _ _ _ Hc n nd Hn) as [Hin Ht Hl Hd].
  rewrite occ_head in Hl, Hd. pose proof (occ_nonneg n LW).
  eapply (inv_on_node L T LS (n :: LW) C); eauto with binder.
  split; cbn; [done..| |].
  - intros Hp. destruct (Hl Hp) as (? & ? & ?). split_and!; naive_solver lia.
  - intros Hp. destruct (Hd Hp) as (? & ? & ?). split_and!; lia.
Qed.

(** What is left of the node after its count went down. *)
Definition keeps (n : Z) s s' : Prop :=
  (forall nd, nodes s !! n = Some nd -> exists nd', nodes s' !! n = Some nd' /\ view_node nd' = view_node nd).

Lemma dec_node_free T LS LW C s n nd strong internal :
  inv D L T LS LW C (on_node n (dec_count strong internal) s) ->
  nodes s !! n = Some nd -> occ n C = 0 ->
  exists s', binder_dec_node n strong internal s = Some s' /\ inv D L T LS LW C s' /\
    node_frame n s s' /\ (n_refs nd <> [] \/ 0 < tmp_refs nd -> keeps n s s').
Proof.
  intros Hi Hn HC. destruct (dec_node_spec L T LS LW C s n nd strong internal Hi Hn HC)
    as (b & s' & E & I' & N' & F' & B').
  unfold binder_dec_node. rewrite E. cbn [mbind option_bind].
  eexists. split; [done|]. split; [exact I'|]. split.
  - destruct b; [|done]. eapply node_frame_trans; [exact F'|apply node_frame_free].
    rewrite N'. cbn. rewrite lookup_alter_eq, Hn. intros ? [= <-]. destruct (B' eq_refl) as (_ & _ & Hg).
    unfold gone in *. by destruct strong, internal.
  - intros Hk. destruct b.
    + destruct (B' eq_refl) as (H1 & H2 & _). destruct Hk as [|Hk]; [done|].
      destruct strong, internal; cbn in H2; lia.
    + intros nd' Hn'. rewrite Hn in Hn'. injection Hn' as <-. rewrite N'. cbn. rewrite lookup_alter_eq, Hn.
      eexists. split; [done|apply view_dec_count].
Qed.
End Node.

(** ** New objects *)

(** The process was told nothing about the node yet. *)
Definition born (nd : binder_node) : Prop :=
  is_Some (n_proc nd) /\ has_strong_ref nd = false /\ has_weak_ref nd = false /\
  pending_strong_ref nd = false /\ pending_weak_ref nd = false.

(** As [quiet], but nodes may be new. *)
Definition told (s s' : binder_state) : Prop :=
  (forall m nd, nodes s' !! m = Some nd -> nodes s !! m = None -> born nd) /\
  (forall m nd, nodes s !! m = Some nd ->
     match nodes s' !! m with Some nd' => ident nd' = ident nd | None => gone nd end).

Lemma quiet_told s s' : quiet s s' -> told s s'.
Proof. intros [H1 H2]. split; [|done]. intros m nd Hm E. destruct (H1 m) as [? ?]; [by eexists|congruence]. Qed.

Lemma told_quiet s1 s2 s3 : told s1 s2 -> quiet s2 s3 -> told s1 s3.
Proof.
  intros [A1 A2] [B1 B2]. split.
  - intros m nd3 H3 H1. destruct (B1 m) as [nd2 H2]; [by eexists|].
    specialize (A1 m nd2 H2 H1). specialize (B2 m nd2 H2). rewrite H3 in B2.
    unfold ident in B2. unfold born in *. naive_solver congruence.
  - intros m nd Hm. specialize (A2 m nd Hm). destruct (nodes s2 !! m) as [nd2|] eqn:E2.
    + specialize (B2 m nd2 E2). destruct (nodes s3 !! m); [congruence|].
      unfold gone in *. unfold ident in A2. naive_solver congruence.
    + destruct (nodes s3 !! m) eqn:E3; [|done]. destruct (B1 m) as [? E]; [by eexists|congruence].
Qed.

Section New.
Context {D : option Z}.
Implicit Types (T LS LW C : list Z) (s : binder_state).

Definition add_node (n p : Z) (ptr : Z) (v : sview) : sview :=
  v <| vn ::= <[n := {| v_owner := Some p; v_refs := []; v_ptr := ptr |}]> |>
    <| vp ::= alter (fun pr => pr <| v_nodes ::= tree_insert ptr n |>) p |>.

Lemma add_node_proc n p ptr v q pr : vp (add_node n p ptr v) !! q = Some pr -> exists pr0,
  vp v !! q = Some pr0 /\ v_by_desc pr = v_by_desc pr0 /\ v_by_node pr = v_by_node pr0 /\
  v_nodes pr = (if decide (p = q) then tree_insert ptr n (v_nodes pr0) else v_nodes pr0).
Proof.
  cbn. rewrite lookup_alter_Some. intros [(-> & pr0 & E & ->)|[Hne E]].
  - exists pr0. by rewrite decide_True.
  - exists pr. by rewrite decide_False.
Qed.

Lemma add_node_proc_is n p ptr v q : is_Some (vp v !! q) -> is_Some (vp (add_node n p ptr v) !! q).
Proof. cbn. by rewrite lookup_alter_is_Some. Qed.

Lemma add_node_dead n p ptr v : same_dead v (add_node n p ptr v).
Proof. by eapply same_dead_alter. Qed.

Lemma struct_add_node v n p ptr pr :
  struct_ok D None v -> vn v !! n = None -> vp v !! p = Some pr -> alive D v p -> ptr ∉ (v_nodes pr).*1 ->
  struct_ok D None (add_node n p ptr v).
Proof.
  intros Hs Hn Hp Halive Hptr. pose proof Hs as [].
  assert (Hfresh : forall m md, vn v !! m = Some md -> vn (add_node n p ptr v) !! m = Some md).
  { intros m md Hm. cbn. rewrite lookup_insert_ne; [done|]. congruence. }
  assert (Hback : forall m md, vn (add_node n p ptr v) !! m = Some md ->
    vn v !! m = Some md \/ m = n /\ md = {| v_owner := Some p; v_refs := []; v_ptr := ptr |}).
  { intros m md. cbn. rewrite lookup_insert_Some. naive_solver. }
  split.
  - intros r rf Hrf HL. destruct (ok_ref r rf Hrf HL) as (m & md & q & H1 & H2 & H3 & H4 & H5 & H6).
    destruct (add_node_proc_is n p ptr v (v_proc rf)) as [q' Hq']; [by eexists|].
    destruct (add_node_proc _ _ _ _ _ _ Hq') as (q0 & E1 & E2 & E3 & _).
    rewrite H4 in E1. injection E1 as <-.
    exists m, md, q'. rewrite E2, E3. split_and!; auto.
  - exact ok_desc.
  - intros m md r Hm Hr. destruct (Hback _ _ Hm) as [Hm'|[-> ->]]; [exact (ok_refs _ _ _ Hm' Hr)|].
    by apply not_elem_of_nil in Hr.
  - intros m md Hm. destruct (Hback _ _ Hm) as [Hm'|[-> ->]]; [eauto|constructor].
  - intros q qr d r (q0 & E1 & E2 & E3 & _)%add_node_proc. rewrite E2. by eapply ok_by_desc.
  - intros q qr m r (q0 & E1 & E2 & E3 & _)%add_node_proc. rewrite E3. by eapply ok_by_node.
  - intros q qr (q0 & E1 & E2 & E3 & E4)%add_node_proc. rewrite E2, E3, E4.
    destruct (ok_sorted _ _ E1) as (S1 & S2 & S3). split_and!; auto.
    case_decide; [|done]. subst q. apply sorted_tree_insert; [done|]. congruence.
  - intros q qr k m (q0 & E1 & E2 & E3 & E4)%add_node_proc Hm. rewrite E4 in Hm.
    case_decide as Hq; [apply elem_of_tree_insert in Hm as [[= -> ->]|Hm]|].
    + subst q. eexists. cbn. rewrite lookup_insert_eq. done.
    + destruct (ok_nodes _ _ _ _ E1 Hm) as (md & ? & ?). eauto.
    + destruct (ok_nodes _ _ _ _ E1 Hm) as (md & ? & ?). eauto.
  - intros m md q Hm Ho. destruct (Hback _ _ Hm) as [Hm'|[-> ->]].
    + destruct (ok_owner m md q Hm' Ho) as (qr & E1 & E2).
      destruct (add_node_proc_is n p ptr v q) as [q' Hq']; [by eexists|]. exists q'. split; [done|].
      destruct (add_node_proc _ _ _ _ _ _ Hq') as (q0 & F1 & _ & _ & ->). rewrite E1 in F1. injection F1 as <-.
      case_decide; [|done]. apply elem_of_tree_insert. by right.
    + cbn in Ho. injection Ho as <-. exists (pr <| v_nodes ::= tree_insert ptr n |>). cbn.
      rewrite lookup_alter_eq, Hp. split; [done|]. apply elem_of_tree_insert. by left.
  - intros t q Ht. eapply alive_same; [apply add_node_dead|]. by apply (ok_thread t q).
  - intros q qr Hq Hd HD. destruct (decide (p = q)) as [<-|Hne].
    + destruct Halive as (pr' & E & Hpd). cbn in Hq. rewrite lookup_alter_eq, E in Hq. injection Hq as <-.
      by destruct HD; auto.
    + cbn in Hq. rewrite lookup_alter_ne in Hq by done. eauto.
  - exact ok_works.
  - intros l w Hl. eapply list_alive_same; [apply add_node_dead|]. by apply (ok_list l w).
  - intros l m Hl. destruct (ok_node_work l m Hl) as (md & q & H1 & H2). exists md, q. auto.
  - exact ok_death_work.
  - exact ok_delivered.
  - intros r rf d Hrf Hd. destruct (ok_death r rf d Hrf Hd) as (H1 & H2 & H3). split; [done|].
    split; [done|]. intros HL. destruct (H3 HL) as (H4 & H5). split; [done|]. intros Hq.
    destruct (H5 Hq) as (m & md & E1 & E2 & E3). exists m, md. auto.
  - exact ok_detached.
Qed.

(** The node of a process at a user pointer, created if there is none. *)
Lemma init_node_spec T LS LW C s p pr new ptr cookie :
  inv D None T LS LW C s -> procs s !! p = Some pr -> alive D (view s) p -> nodes s !! new = None ->
  exists n s' nd, binder_init_node_ilocked p new ptr cookie s = Some (n, s') /\
    inv D None (n :: T) LS LW C s' /\ nodes s' !! n = Some nd /\ n_proc nd = Some p /\ n_ptr nd = ptr /\
    (tree_find ptr (p_nodes pr) = Some n \/
     n = new /\ nd = {| n_proc := Some p; n_refs := []; internal_strong_refs := 0;
                   local_weak_refs := 0; local_strong_refs := 0; tmp_refs := 1; n_ptr := ptr;
                   n_cookie := cookie; has_strong_ref := false; pending_strong_ref := false;
                   has_weak_ref := false; pending_weak_ref := false |} /\
     nodes s' = <[n := nd]> (nodes s)) /\
    (forall m, m <> n -> nodes s' !! m = nodes s !! m) /\
    refs s' = refs s /\ deaths s' = deaths s /\ threads s' = threads s /\
    context_mgr_node s' = context_mgr_node s /\ works s' = works s /\
    (forall q, proc_refs <$> procs s' !! q = proc_refs <$> procs s !! q) /\
    told s s'.
Proof.
  intros Hi Hp Halive Hnew. pose proof Hi as [Hs Hc]. unfold binder_init_node_ilocked. rewrite Hp. cbn [mbind option_bind].
  destruct (ok_sorted _ _ Hs p _ (vp_lookup _ _ _ Hp)) as (S1 & _).
  destruct (tree_find ptr (p_nodes pr)) as [n|] eqn:Ef.
  - apply (tree_find_Some _ _ _ S1) in Ef.
    destruct (ok_nodes _ _ Hs p _ ptr n (vp_lookup _ _ _ Hp) Ef) as (v & Hn & H1 & H2).
    apply vn_Some in Hn as (nd & Hn & ->).
    destruct (inc_tmpref_spec None T LS LW C s n nd Hi Hn) as [-> I']. cbn [mbind option_bind].
    eexists n, _, _. split; [done|]. split; [exact I'|]. split; [cbn; by rewrite lookup_alter_eq, Hn|].
    split_and!; try done; [by left| |].
    + intros m Hm. cbn. by rewrite lookup_alter_ne.
    + by apply quiet_told, quiet_on_node.
  - apply tree_find_None in Ef.
    eexists new, _, _. split; [done|]. split; [|split; [cbn; apply lookup_insert_eq|]].
    + split.
      * replace (view _) with (add_node new p ptr (view s)).
        -- eapply struct_add_node; [done| |by apply vp_lookup|done..]. cbn. by rewrite lookup_fmap, Hnew.
        -- unfold add_node, view. cbn. rewrite fmap_insert. unfold set; cbn. f_equal.
           symmetry. by apply fmap_alter_view.
      * destruct Hc as [Hc Hpos Hh].
        assert (Hno : forall l, (forall m, m ∈ l -> is_Some (nodes s !! m)) -> occ new l = 0).
        { intros l Hl. apply occ_zero. intros Hin. destruct (Hl _ Hin) as [? E]. congruence. }
        split; cbn.
        -- intros m md. rewrite lookup_insert_Some. intros [[<- <-]|[Hne Hm]].
           ++ split; cbn; rewrite ?occ_head, !Hno by naive_solver; [done|done|done|done].
           ++ destruct (Hc _ _ Hm) as [H1 H2 H3 H4]. split; rewrite ?(occ_cons m new), ?decide_False by done; auto.
        -- done.
        -- intros m Hm. destruct (decide (m = new)) as [->|Hne]; [rewrite lookup_insert_eq; by eexists|].
           rewrite lookup_insert_ne by done. apply Hh. rewrite elem_of_cons in Hm. naive_solver.
    + split_and!; try done.
      * right. done.
      * intros m Hm. cbn. by rewrite lookup_insert_ne.
      * intros q. cbn. destruct (decide (p = q)) as [->|]; [rewrite lookup_alter_eq|by rewrite lookup_alter_ne].
        by destruct (procs s !! q).
      * split; cbn.
        -- intros m md. rewrite lookup_insert_Some. intros [[<- <-]|[Hne Hm]]; [done|congruence].
        -- intros m md Hm. rewrite lookup_insert_ne, Hm by congruence. done.
Qed.

(** A reference of the process [p] to the node [n]. *)
Definition add_ref (r d p n : Z) (v : sview) : sview :=
  v <| vr ::= <[r := {| v_desc := d; v_proc := p; v_node := Some n; v_death := None |}]> |>
    <| vp ::= alter (fun pr => pr <| v_by_node ::= tree_insert n r |> <| v_by_desc ::= tree_insert d r |>) p |>
    <| vn ::= alter (fun nd => nd <| v_refs ::= cons r |>) n |>.

Lemma add_ref_proc r d p n v q pr : vp (add_ref r d p n v) !! q = Some pr -> exists pr0,
  vp v !! q = Some pr0 /\ v_nodes pr = v_nodes pr0 /\
  v_by_desc pr = (if decide (p = q) then tree_insert d r (v_by_desc pr0) else v_by_desc pr0) /\
  v_by_node pr = (if decide (p = q) then tree_insert n r (v_by_node pr0) else v_by_node pr0).
Proof.
  cbn. rewrite lookup_alter_Some. intros [(-> & pr0 & E & ->)|[Hne E]].
  - exists pr0. by rewrite !decide_True.
  - exists pr. by rewrite !decide_False.
Qed.

Lemma add_ref_proc_of r d p n v q pr0 : vp v !! q = Some pr0 -> exists pr,
  vp (add_ref r d p n v) !! q = Some pr /\ v_nodes pr = v_nodes pr0 /\
  (forall e, e ∈ v_by_desc pr0 -> e ∈ v_by_desc pr) /\ (forall e, e ∈ v_by_node pr0 -> e ∈ v_by_node pr) /\
  (p = q -> (d, r) ∈ v_by_desc pr /\ (n, r) ∈ v_by_node pr).
Proof.
  intros E. cbn. destruct (decide (p = q)) as [->|].
  - rewrite lookup_alter_eq, E. eexists. split; [done|]. cbn. split_and!; [done|..].
    1, 2: intros e He; rewrite elem_of_tree_insert; by right.
    intros _. rewrite !elem_of_tree_insert. auto.
  - rewrite lookup_alter_ne by done. eexists. split_and!; naive_solver.
Qed.

Lemma add_ref_node r d p n v m md : vn (add_ref r d p n v) !! m = Some md -> exists md0,
  vn v !! m = Some md0 /\ v_owner md = v_owner md0 /\ v_ptr md = v_ptr md0 /\
  v_refs md = (if decide (m = n) then r :: v_refs md0 else v_refs md0).
Proof.
  cbn. rewrite lookup_alter_Some. intros [(-> & pr0 & E & ->)|[Hne E]].
  - exists pr0. by rewrite !decide_True.
  - exists md. by rewrite !decide_False.
Qed.

Lemma add_ref_node_of r d p n v m md0 : vn v !! m = Some md0 -> exists md,
  vn (add_ref r d p n v) !! m = Some md /\ v_owner md = v_owner md0 /\ v_ptr md = v_ptr md0 /\
  (forall x, x ∈ v_refs md0 -> x ∈ v_refs md) /\ (m = n -> r ∈ v_refs md).
Proof.
  intros E. cbn. destruct (decide (m = n)) as [->|].
  - rewrite lookup_alter_eq, E. eexists. split; [done|]. cbn. split_and!; [done|done| |intros _; left].
    intros x Hx. by right.
  - rewrite lookup_alter_ne by done. eexists. split_and!; naive_solver.
Qed.

Lemma add_ref_dead r d p n v : same_dead v (add_ref r d p n v).
Proof. by eapply same_dead_alter. Qed.

Lemma struct_add_ref v r d p n pr nd :
  struct_ok D None v -> vr v !! r = None -> vp v !! p = Some pr -> alive D v p -> vn v !! n = Some nd ->
  0 <= d -> d ∉ (v_by_desc pr).*1 -> n ∉ (v_by_node pr).*1 -> struct_ok D None (add_ref r d p n v).
Proof.
  intros Hs Hr Hp Halive Hn H0 Hd Hbn. pose proof Hs as [].
  set (v' := add_ref r d p n v).
  assert (Hfresh : forall m rf, vr v !! m = Some rf -> vr v' !! m = Some rf).
  { intros m rf Hm. cbn. rewrite lookup_insert_ne; [done|]. congruence. }
  assert (Hnew : vr v' !! r = Some {| v_desc := d; v_proc := p; v_node := Some n; v_death := None |})
    by apply lookup_insert_eq.
  assert (Hback : forall m rf, vr v' !! m = Some rf -> vr v !! m = Some rf \/
    m = r /\ rf = {| v_desc := d; v_proc := p; v_node := Some n; v_death := None |}).
  { intros m rf. cbn. rewrite lookup_insert_Some. naive_solver. }
  split.
  - intros m rf Hm _. destruct (Hback _ _ Hm) as [Hm'|[-> ->]].
    + destruct (ok_ref m rf Hm' ltac:(done)) as (k & kd & q & H1 & H2 & H3 & H4 & H5 & H6).
      destruct (add_ref_proc_of r d p n _ _ _ H4) as (q' & F1 & F2 & F3 & F4 & _).
      destruct (add_ref_node_of r d p n _ _ _ H2) as (k' & G1 & G2 & G3 & G4 & _).
      exists k, k', q'. split_and!; auto.
    + destruct (add_ref_proc_of r d p n _ _ _ Hp) as (q' & F1 & _ & _ & _ & F2).
      destruct (add_ref_node_of r d p n _ _ _ Hn) as (k' & G1 & _ & _ & _ & G2).
      destruct F2; [done|]. exists n, k', q'. split_and!; auto.
  - intros m rf Hm. destruct (Hback _ _ Hm) as [Hm'|[-> ->]]; eauto.
  - intros m md x (md0 & E1 & _ & _ & E2)%add_ref_node Hx. rewrite E2 in Hx.
    case_decide; [apply elem_of_cons in Hx as [->|Hx]|].
    + subst m. eauto.
    + destruct (ok_refs _ _ _ E1 Hx) as (rf & ? & ?). eauto.
    + destruct (ok_refs _ _ _ E1 Hx) as (rf & ? & ?). eauto.
  - intros m md (md0 & E1 & _ & _ & E2)%add_ref_node. rewrite E2. specialize (ok_refs_nodup _ _ E1).
    case_decide; [|done]. apply NoDup_cons. split; [|done]. intros Hx.
    destruct (ok_refs _ _ _ E1 Hx) as (rf & ? & ?). congruence.
  - intros q qr k x (q0 & E1 & _ & E2 & _)%add_ref_proc Hx. rewrite E2 in Hx.
    case_decide; [apply elem_of_tree_insert in Hx as [[= -> ->]|Hx]|].
    + subst q. eauto 10.
    + destruct (ok_by_desc _ _ _ _ E1 Hx) as (rf & ? & ? & ? & ?). eauto 10.
    + destruct (ok_by_desc _ _ _ _ E1 Hx) as (rf & ? & ? & ? & ?). eauto 10.
  - intros q qr k x (q0 & E1 & _ & _ & E2)%add_ref_proc Hx. rewrite E2 in Hx.
    case_decide; [apply elem_of_tree_insert in Hx as [[= -> ->]|Hx]|].
    + subst q. eauto 10.
    + destruct (ok_by_node _ _ _ _ E1 Hx) as (rf & ? & ? & ? & ?). eauto 10.
    + destruct (ok_by_node _ _ _ _ E1 Hx) as (rf & ? & ? & ? & ?). eauto 10.
  - intros q qr (q0 & E1 & E2 & E3 & E4)%add_ref_proc. rewrite E2, E3, E4.
    destruct (ok_sorted _ _ E1) as (S1 & S2 & S3). case_decide; [|done]. subst q.
    rewrite Hp in E1. injection E1 as <-. split_and!; auto using sorted_tree_insert.
  - intros q qr k m (q0 & E1 & E2 & _)%add_ref_proc Hm. rewrite E2 in Hm.
    destruct (ok_nodes _ _ _ _ E1 Hm) as (md & H1 & H2 & H3).
    destruct (add_ref_node_of r d p n _ _ _ H1) as (k' & G1 & G2 & G3 & _). exists k'. split_and!; [exact G1|congruence..].
  - intros m md q (md0 & E1 & E2 & E3 & _)%add_ref_node Ho. rewrite E2 in Ho.
    destruct (ok_owner _ _ _ E1 Ho) as (qr & F1 & F2).
    destruct (add_ref_proc_of r d p n _ _ _ F1) as (q' & G1 & G2 & _). exists q'. rewrite G2, E3. done.
  - intros t q Ht. eapply alive_same; [apply add_ref_dead|]. by apply (ok_thread t q).
  - intros q qr Hq Hdd HD. destruct (decide (p = q)) as [<-|Hne].
    + destruct Halive as (pr' & E & Hpd). cbn in Hq. rewrite lookup_alter_eq, E in Hq. injection Hq as <-.
      by destruct HD; auto.
    + cbn in Hq. rewrite lookup_alter_ne in Hq by done. eauto.
  - exact ok_works.
  - intros l w Hl. eapply list_alive_same; [apply add_ref_dead|]. by apply (ok_list l w).
  - intros l m Hl. destruct (ok_node_work l m Hl) as (md & q & H1 & H2 & H3).
    destruct (add_ref_node_of r d p n _ _ _ H1) as (k' & G1 & G2 & _). exists k', q. by rewrite G2.
  - exact ok_death_work.
  - exact ok_delivered.
  - intros m rf x Hm Hx. destruct (Hback _ _ Hm) as [Hm'|[-> ->]]; [|done].
    destruct (ok_death m rf x Hm' Hx) as (H1 & H2 & H3). split; [done|]. split.
    { intros r' rf' Hr' Hx'. destruct (Hback _ _ Hr') as [?|[-> ->]]; [eauto|done]. }
    intros HL. destruct (H3 HL) as (H4 & H5). split; [done|]. intros Hq.
    destruct (H5 Hq) as (k & kd & E1 & E2 & E3).
    destruct (add_ref_node_of r d p n _ _ _ E2) as (k' & G1 & G2 & _). exists k, k'. by rewrite G2.
  - intros x y Hx. destruct (ok_detached x y Hx) as [(m & rf & H1 & H2)|]; [|by right]. left. eauto.
Qed.

(** ** Handles *)

(** The search finds the least handle from [desc] on that is free. *)
Lemma first_gap_spec (t : list (Z * Z)) desc :
  sorted_keys t -> (forall k, k ∈ t.*1 -> desc - 1 <= k) -> 0 <= desc -> desc + zlen t < 2 ^ 32 ->
  let g := first_gap desc t in
  desc <= g <= desc + zlen t /\ g ∉ t.*1 /\ forall k, desc <= k < g -> k ∈ t.*1.
Proof.
  revert desc. induction t as [|[d v] t IH]; intros desc Hs Hk H0 Hlen; cbn -[Z.pow].
  - unfold zlen. cbn. split; [lia|]. split; [apply not_elem_of_nil|lia].
  - unfold sorted_keys in Hs. cbn in Hs. apply StronglySorted_inv in Hs as [Hs Hlt]. rewrite Forall_forall in Hlt.
    assert (Hd : desc - 1 <= d) by (apply Hk; left). unfold zlen in *. cbn [length] in *.
    destruct (Z.gtb_spec d desc) as [Hg|Hg].
    + split; [lia|]. split; [|lia]. rewrite not_elem_of_cons. split; [lia|].
      intros Hin%Hlt. lia.
    + assert (Hu : u32 (d + 1) = d + 1) by (apply u32_id; split; [lia|change (2 ^ 32) with 4294967296 in *; lia]).
      rewrite Hu. destruct (IH (d + 1) Hs) as (H1 & H2 & H3).
      * intros k Hin%Hlt. lia.
      * lia.
      * lia.
      * split; [lia|]. rewrite not_elem_of_cons. split; [split; [lia|done]|].
        intros k Hkk. rewrite elem_of_cons. destruct (decide (k = d)); [by left|right]. apply H3. lia.
Qed.
End New.
