(* ===== verification/BinderRefHandle.v ===== *)
(** * Binder driver: operations on references

    Specifications of the operations on the references of a process: finding
    or creating one, counting, and tearing one down. *)

From S2P Require Import Prelude BinderRef BinderRefInv BinderRefNode.

Lemma frame_alive D s s' p : threads s' = threads s ->
  (forall p, life <$> procs s' !! p = life <$> procs s !! p) -> alive D (view s) p -> alive D (view s') p.
Proof.
  intros Et Hl. apply alive_same. split; [cbn; by rewrite Et|]. intros q. cbn. rewrite !lookup_fmap.
  specialize (Hl q). apply (f_equal (fmap fst)) in Hl. rewrite <- !option_fmap_compose in Hl.
  rewrite <- !option_fmap_compose. exact Hl.
Qed.

Section Handle.
Context {D : option Z}.
Implicit Types (T LS LW C : list Z) (s : binder_state).

(** What the operations on references leave alone. *)
Definition ref_frame s s' : Prop :=
  threads s' = threads s /\ context_mgr_node s' = context_mgr_node s /\ quiet s s' /\
  (forall p, life <$> procs s' !! p = life <$> procs s !! p).

Lemma ref_frame_refl s : ref_frame s s.
Proof. split_and!; try done. by apply quiet_nodes. Qed.

Lemma ref_frame_trans s1 s2 s3 : ref_frame s1 s2 -> ref_frame s2 s3 -> ref_frame s1 s3.
Proof.
  intros (A1 & A2 & A3 & A4) (B1 & B2 & B3 & B4). split_and!; try congruence. by eapply quiet_trans.
Qed.

Lemma node_ref_frame n s s' : node_frame n s s' -> ref_frame s s'.
Proof.
  intros (A1 & A2 & A3 & A4 & A5 & A6 & A7 & A8). split_and!; [done..|]. intros p.
  specialize (A7 p). apply (f_equal (fmap snd)) in A7. by rewrite <- !option_fmap_compose in A7.
Qed.

Lemma ref_frame_on_ref r f s : ref_frame s (on_ref r f s).
Proof. split_and!; try done. by apply quiet_nodes. Qed.
#[local] Hint Resolve ref_frame_refl ref_frame_on_ref : core.

Lemma handles_nonneg s p pr k : struct_ok D None (view s) -> procs s !! p = Some pr ->
  k ∈ (refs_by_desc pr).*1 -> 0 <= k.
Proof.
  intros Hs Hp ([d r] & -> & Hin)%list_elem_of_fmap.
  destruct (ok_by_desc _ _ Hs p _ d r (vp_lookup _ _ _ Hp) Hin) as (rf & H1 & <- & _).
  by apply (ok_desc _ _ Hs r).
Qed.

(** The handle of a new reference: the least free one from 1 on, or from 0 for
    the context manager. *)
Definition new_handle (n : Z) (pr : binder_proc) s : Z :=
  first_gap (if is_context_mgr n s then 0 else 1) (refs_by_desc pr).

Lemma new_handle_spec s p pr n : struct_ok D None (view s) -> procs s !! p = Some pr ->
  zlen (refs_by_desc pr) < 2 ^ 32 - 1 ->
  let lo := if is_context_mgr n s then 0 else 1 in
  lo <= new_handle n pr s /\ new_handle n pr s ∉ (refs_by_desc pr).*1 /\
  forall k, lo <= k < new_handle n pr s -> k ∈ (refs_by_desc pr).*1.
Proof.
  intros Hs Hp Hlen lo. destruct (ok_sorted _ _ Hs p _ (vp_lookup _ _ _ Hp)) as (_ & S2 & _).
  destruct (first_gap_spec (refs_by_desc pr) lo S2) as (H1 & H2 & H3).
  - intros k Hk. pose proof (handles_nonneg _ _ _ _ Hs Hp Hk). unfold lo. destruct (is_context_mgr n s); lia.
  - unfold lo. destruct (is_context_mgr n s); lia.
  - unfold lo. destruct (is_context_mgr n s); lia.
  - split_and!; [apply H1|exact H2|exact H3].
Qed.

Definition zero_ref (d p n : Z) : binder_ref :=
  {| r_desc := d; r_strong := 0; r_weak := 0; r_proc := p; r_node := Some n; r_death := None |}.

(** A reference of zero counts is added. *)
Lemma inv_add_ref T LS LW C s p pr n nd r d :
  inv D None T LS LW C s -> refs s !! r = None -> procs s !! p = Some pr -> alive D (view s) p -> nodes s !! n = Some nd ->
  0 <= d -> d ∉ (refs_by_desc pr).*1 -> n ∉ (refs_by_node pr).*1 ->
  let s' := on_node n (fun nd => nd <| n_refs ::= cons r |>)
    (on_proc p (fun p => p <| refs_by_node ::= tree_insert n r |> <| refs_by_desc ::= tree_insert d r |>)
      (s <| refs ::= <[r := zero_ref d p n]> |>)) in
  inv D None T LS LW C s' /\ ref_frame s s'.
Proof.
  intros [Hs Hc] Hr Hp Halive Hn H0 Hd Hbn s'. split; [split|].
  - replace (view s') with (add_ref r d p n (view s)).
    + eapply struct_add_ref; [done| |by apply vp_lookup|done|by apply vn_lookup|done..].
      cbn. by rewrite lookup_fmap, Hr.
    + unfold add_ref, view, s'. cbn. rewrite fmap_insert. unfold set; cbn.
      f_equal; symmetry; by apply fmap_alter_view.
  - destruct Hc as [Hc Hpos Hh]. split; cbn.
    + assert (Hsame : forall m md, nodes s !! m = Some md ->
        strong_count None (<[r:=zero_ref d p n]> (refs s)) (n_refs md) = strong_count None (refs s) (n_refs md)).
      { intros m md Hm. apply strong_count_ext. intros x Hx. unfold is_strong.
        rewrite lookup_insert_ne; [done|]. intros ->.
        destruct (struct_refs None _ _ _ _ Hs Hm Hx) as (rf & E & _). congruence. }
      intros m md. rewrite lookup_alter_Some. intros [(<- & md0 & Hm & ->)|[Hne Hm]];
        destruct (Hc _ _ Hm) as [H1 H2 H3 H4]; (split; [|done..]); cbn; rewrite H1, <- (Hsame _ _ Hm); [|done].
      f_equal. unfold strong_count. rewrite filter_cons, decide_False; [done|].
      unfold is_strong. by rewrite lookup_insert_eq.
    + intros x xf. rewrite lookup_insert_Some. intros [[<- <-]|[Hne Hx]]; [cbn; lia|eauto].
    + intros m Hm. rewrite lookup_alter_is_Some. auto.
  - split_and!; try done.
    + eapply quiet_trans; [|by apply (quiet_on_node n)]. by apply quiet_nodes.
    + intros q. cbn. destruct (decide (p = q)) as [->|]; [rewrite lookup_alter_eq|by rewrite lookup_alter_ne].
      by destruct (procs s !! q).
Qed.

Lemma get_ref_for_node_spec T LS LW C s p pr n nd new_ref :
  inv D None T LS LW C s -> procs s !! p = Some pr -> alive D (view s) p -> nodes s !! n = Some nd ->
  (forall r, new_ref = Some r -> refs s !! r = None /\ zlen (refs_by_desc pr) < 2 ^ 32 - 1) ->
  exists ret s', binder_get_ref_for_node_olocked p n new_ref s = Some (ret, s') /\
    inv D None T LS LW C s' /\ ref_frame s s' /\
    (is_Some (tree_find n (refs_by_node pr)) \/ new_ref = None -> s' = s /\ ret = tree_find n (refs_by_node pr)) /\
    (tree_find n (refs_by_node pr) = None -> ret = new_ref) /\
    (forall r, ret = Some r -> exists rf, refs s' !! r = Some rf /\ r_node rf = Some n /\ r_proc rf = p /\
       (tree_find n (refs_by_node pr) = None -> rf = zero_ref (new_handle n pr s) p n)) /\
    exists nd', nodes s' !! n = Some nd' /\ ident nd' = ident nd.
Proof.
  intros Hi Hp Halive Hn Hnew. pose proof Hi as [Hs Hc]. unfold binder_get_ref_for_node_olocked. rewrite Hp. cbn [mbind option_bind].
  destruct (ok_sorted _ _ Hs p _ (vp_lookup _ _ _ Hp)) as (_ & S2 & S3).
  destruct (tree_find n (refs_by_node pr)) as [r|] eqn:Ef.
  { apply (tree_find_Some _ _ _ S3) in Ef.
    destruct (ok_by_node _ _ Hs p _ n r (vp_lookup _ _ _ Hp) Ef) as (v & H1 & H2 & H3 & _).
    apply vr_Some in H1 as (rf & H1 & ->). exists (Some r), s. split_and!; try done; [|by exists nd].
    intros r' [= <-]. by exists rf. }
  destruct new_ref as [r|].
  2: { exists None, s. split_and!; try done. by exists nd. }
  destruct (Hnew r eq_refl) as [Hr Hlen].
  destruct (new_handle_spec s p pr n Hs Hp Hlen) as (Hlo & Hfree & _). fold (new_handle n pr s).
  assert (H0 : 0 <= new_handle n pr s) by (destruct (is_context_mgr n s); lia).
  rewrite (proj2 (tree_find_None _ _) Hfree), Hn. cbn [mbind option_bind].
  destruct (inv_add_ref T LS LW C s p pr n nd r (new_handle n pr s) Hi Hr Hp Halive Hn H0 Hfree) as [I' F'].
  { by apply tree_find_None. }
  eexists (Some r), _. split; [done|]. split; [exact I'|]. split; [exact F'|].
  split_and!; try done.
  - by intros [[]|].
  - intros r' [= <-]. cbn. rewrite lookup_insert_eq. by eexists.
  - eexists. cbn. rewrite lookup_alter_eq, Hn. done.
Qed.

(** ** Counting *)

Definition ref_count (strong : bool) (rf : binder_ref) : Z := if strong then r_strong rf else r_weak rf.

Definition add_count (strong : bool) (d : Z) (rf : binder_ref) : binder_ref :=
  if strong then rf <| r_strong ::= Z.add d |> else rf <| r_weak ::= Z.add d |>.

Lemma truth_pos z : 0 < z -> truth z = true.
Proof. intros Hz. unfold truth. destruct (Z.eqb_spec z 0); [lia|done]. Qed.

(** A reference that has counts of the kind, or whose node was counted for it. *)
Lemma inv_add_count T LS LW C s r rf n strong :
  inv D None T LS LW (if strong && (r_strong rf =? 0) then n :: C else C) s ->
  refs s !! r = Some rf -> r_node rf = Some n ->
  inv D None T LS LW C (on_ref r (add_count strong 1) s).
Proof.
  intros Hi Hr Hn. pose proof Hi as [Hs Hc]. destruct (ok_positive _ _ _ _ _ _ Hc r rf Hr) as [P1 P2].
  eapply (inv_on_ref None T LS LW (if strong && (r_strong rf =? 0) then n :: C else C) C s r rf n); try done.
  - by destruct strong.
  - destruct strong; cbn; lia.
  - destruct strong; cbn; lia.
  - destruct (_ && _); auto with binder.
  - destruct strong; cbn [andb add_count]; [|cbn; lia].
    unfold set; cbn [r_strong]. rewrite (truth_pos (1 + r_strong rf)) by lia. unfold truth.
    destruct (Z.eqb_spec (r_strong rf) 0); cbn; rewrite ?occ_head; lia.
  - intros Hin. apply (ok_held _ _ _ _ _ _ Hc). do 3 right. destruct (_ && _); [by right|done].
Qed.

Lemma inc_ref_spec T LS LW C s r rf n strong target_list :
  inv D None T LS LW C s -> refs s !! r = Some rf -> r_node rf = Some n -> target_ok n target_list s ->
  exists ret s', binder_inc_ref_olocked r strong target_list s = Some (ret, s') /\
    inv D None T LS LW C s' /\ ref_frame s s' /\
    (ret = 0 /\ refs s' = alter (add_count strong 1) r (refs s) \/
     ret = - EINVAL /\ refs s' = refs s /\ target_list = None /\ ref_count strong rf = 0).
Proof.
  intros Hi Hr Hn Ht. pose proof Hi as [Hs Hc].
  destruct (struct_ref None _ _ _ Hs Hr ltac:(done)) as (n' & nd & p & E1 & E2 & _).
  rewrite Hn in E1. injection E1 as <-. unfold binder_inc_ref_olocked. rewrite Hr. cbn [mbind option_bind].
  rewrite Hn. cbn [mbind option_bind].
  destruct strong.
  - destruct (Z.eqb_spec (r_strong rf) 0) as [E0|E0].
    + destruct (inc_strong_spec (D:=D) None T LS LW C LS (n :: C) s n nd true target_list) as
        (ret & s1 & -> & F1 & [(-> & I1 & N1)|(-> & -> & _ & -> & _)]); [done..|by eapply inv_inc_internal| |].
      * cbn [mbind option_bind truth Z.eqb negb]. eexists 0, _. split; [done|].
        assert (Hr1 : refs s1 = refs s) by apply F1.
        split; [|split; [eapply ref_frame_trans; [by eapply node_ref_frame|apply ref_frame_on_ref]|]].
        -- apply (inv_add_count T LS LW C s1 r rf n true); [|congruence|done]. by rewrite E0.
        -- left. split; [done|]. cbn. by rewrite Hr1.
      * cbn [mbind option_bind]. exists (- EINVAL), s. split_and!; try done. right. done.
    + cbn [mbind option_bind truth Z.eqb negb]. eexists 0, _. split; [done|].
      split; [|split; [apply ref_frame_on_ref|by left]].
      apply (inv_add_count T LS LW C s r rf n true); [|done..]. by rewrite (proj2 (Z.eqb_neq _ _) E0).
  - destruct (Z.eqb_spec (r_weak rf) 0) as [E0|E0].
    + destruct (inc_weak_spec (D:=D) None T LS LW C LW s n nd true target_list) as
        (ret & s1 & -> & F1 & I1 & N1 & Hret); [done..|by rewrite on_node_id|].
      cbn [mbind option_bind]. assert (Hr1 : refs s1 = refs s) by apply F1.
      destruct Hret as [->|(-> & -> & _)].
      * cbn [truth Z.eqb negb]. eexists 0, _. split; [done|].
        split; [|split; [eapply ref_frame_trans; [by eapply node_ref_frame|apply ref_frame_on_ref]|]].
        -- apply (inv_add_count T LS LW C s1 r rf n false); [done|congruence|done].
        -- left. split; [done|]. cbn. by rewrite Hr1.
      * exists (- EINVAL), s1. split_and!; try done; [by eapply node_ref_frame|]. right. done.
    + cbn [mbind option_bind truth Z.eqb negb]. eexists 0, _. split; [done|].
      split; [|split; [apply ref_frame_on_ref|by left]].
      by apply (inv_add_count T LS LW C s r rf n false).
Qed.

(** ** Tearing down *)

(** A reference leaves the trees of its process. *)
Definition erase_ref (d n p : Z) (v : sview) : sview :=
  v <| vp ::= alter (fun pr => pr <| v_by_desc ::= tree_erase d |> <| v_by_node ::= tree_erase n |>) p |>.

Lemma erase_ref_proc d n p v q pr : vp (erase_ref d n p v) !! q = Some pr -> exists pr0,
  vp v !! q = Some pr0 /\ v_nodes pr = v_nodes pr0 /\
  (forall e, e ∈ v_by_desc pr <-> e ∈ v_by_desc pr0 /\ (q = p -> e.1 <> d)) /\
  (forall e, e ∈ v_by_node pr <-> e ∈ v_by_node pr0 /\ (q = p -> e.1 <> n)) /\
  (sorted_keys (v_by_desc pr0) -> sorted_keys (v_by_desc pr)) /\
  (sorted_keys (v_by_node pr0) -> sorted_keys (v_by_node pr)).
Proof.
  cbn. rewrite lookup_alter_Some. intros [(-> & pr0 & E & ->)|[Hne E]].
  - exists pr0. cbn. setoid_rewrite elem_of_tree_erase.
    split_and!; [done|done|naive_solver|naive_solver|apply sorted_tree_erase..].
  - exists pr. split_and!; try done; naive_solver.
Qed.

Lemma erase_ref_proc_of d n p v q pr0 : vp v !! q = Some pr0 -> exists pr,
  vp (erase_ref d n p v) !! q = Some pr /\ v_nodes pr = v_nodes pr0 /\
  (forall e, e ∈ v_by_desc pr0 -> (q = p -> e.1 <> d) -> e ∈ v_by_desc pr) /\
  (forall e, e ∈ v_by_node pr0 -> (q = p -> e.1 <> n) -> e ∈ v_by_node pr).
Proof.
  intros E. cbn. destruct (decide (p = q)) as [->|].
  - rewrite lookup_alter_eq, E. eexists. split; [done|]. cbn. setoid_rewrite elem_of_tree_erase. naive_solver.
  - rewrite lookup_alter_ne by done. eexists. split_and!; naive_solver.
Qed.

Lemma erase_ref_dead d n p v : same_dead v (erase_ref d n p v).
Proof. by eapply same_dead_alter. Qed.

Lemma struct_limbo v r rf n : struct_ok D None v -> vr v !! r = Some rf -> v_node rf = Some n ->
  struct_ok D (Some r) (erase_ref (v_desc rf) n (v_proc rf) v).
Proof.
  intros Hs Hr Hn. pose proof Hs as []. set (v' := erase_ref _ _ _ _).
  destruct (ok_ref r rf Hr ltac:(done)) as (n' & nd & p & R1 & R2 & R3 & R4 & R5 & R6).
  rewrite Hn in R1. injection R1 as <-. destruct (ok_sorted _ _ R4) as (_ & S2 & S3).
  split; try done.
  - intros x xf Hx Hne. destruct (ok_ref x xf Hx ltac:(done)) as (m & md & q & H1 & H2 & H3 & H4 & H5 & H6).
    destruct (erase_ref_proc_of (v_desc rf) n (v_proc rf) _ _ _ H4) as (q' & F1 & F2 & F3 & F4).
    exists m, md, q'. split_and!; auto.
    + apply F3; [done|]. cbn. intros Hp Hd. rewrite Hp, R4 in H4. injection H4 as <-. rewrite Hd in H5.
      pose proof (sorted_unique _ _ _ _ S2 R5 H5). congruence.
    + apply F4; [done|]. cbn. intros Hp ->. rewrite Hp, R4 in H4. injection H4 as <-.
      pose proof (sorted_unique _ _ _ _ S3 R6 H6). congruence.
  - intros q qr k x (q0 & E1 & _ & E2 & _)%erase_ref_proc Hx. apply E2 in Hx as [Hx Hk].
    destruct (ok_by_desc _ _ _ _ E1 Hx) as (xf & H1 & H2 & H3 & _). exists xf. split_and!; try done.
    intros [= ->]. rewrite Hr in H1. injection H1 as <-. cbn in Hk. by apply Hk.
  - intros q qr k x (q0 & E1 & _ & _ & E2 & _)%erase_ref_proc Hx. apply E2 in Hx as [Hx Hk].
    destruct (ok_by_node _ _ _ _ E1 Hx) as (xf & H1 & H2 & H3 & _). exists xf. split_and!; try done.
    intros [= ->]. rewrite Hr in H1. injection H1 as <-. cbn in Hk. apply Hk; congruence.
  - intros q qr (q0 & E1 & E2 & _ & _ & E3 & E4)%erase_ref_proc. destruct (ok_sorted _ _ E1) as (T1 & T2 & T3).
    rewrite E2. auto.
  - intros q qr k m (q0 & E1 & E2 & _)%erase_ref_proc Hm. rewrite E2 in Hm. eauto.
  - intros m md q Hm Ho. destruct (ok_owner m md q Hm Ho) as (qr & E1 & E2).
    destruct (erase_ref_proc_of (v_desc rf) n (v_proc rf) _ _ _ E1) as (q' & F1 & F2 & _). exists q'. by rewrite F2.
  - intros t q Ht. eapply alive_same; [apply erase_ref_dead|]. by apply (ok_thread t q).
  - intros q qr Hq Hd HD. cbn in Hq. rewrite lookup_alter_Some in Hq. destruct Hq as [(<- & q0 & Hq & ->)|[Hne Hq]]; [|eauto].
    destruct (ok_dead _ _ Hq Hd HD) as (E1 & E2 & E3). cbn. by rewrite E1, E2, E3.
  - intros l w Hl. eapply list_alive_same; [apply erase_ref_dead|]. by apply (ok_list l w).
  - intros x xf d Hx Hd. destruct (ok_death x xf d Hx Hd) as (H1 & H2 & H3). eauto.
Qed.

(** It leaves the list of its node. *)
Lemma struct_unhook v r n : struct_ok D (Some r) v ->
  struct_ok D (Some r) (v <| vn ::= alter (fun nd => nd <| v_refs ::= filter (fun r' => r' ≠ r) |>) n |>).
Proof.
  intros Hs. pose proof Hs as []. set (v' := set vn _ v).
  assert (Hto : forall m md, vn v !! m = Some md -> exists md', vn v' !! m = Some md' /\ v_owner md' = v_owner md /\
    v_ptr md' = v_ptr md /\ (forall x, x ∈ v_refs md -> x <> r -> x ∈ v_refs md')).
  { intros m md Hm. cbn. destruct (decide (n = m)) as [->|].
    - rewrite lookup_alter_eq, Hm. eexists. split; [done|]. cbn -[filter]. setoid_rewrite list_elem_of_filter. naive_solver.
    - rewrite lookup_alter_ne by done. eauto 10. }
  assert (Hback : forall m md', vn v' !! m = Some md' -> exists md, vn v !! m = Some md /\ v_owner md' = v_owner md /\
    v_ptr md' = v_ptr md /\ (forall x, x ∈ v_refs md' -> x ∈ v_refs md) /\ (NoDup (v_refs md) -> NoDup (v_refs md'))).
  { intros m md'. cbn. rewrite lookup_alter_Some. intros [(<- & md & Hm & ->)|[Hne Hm]]; [|eauto 10].
    exists md. cbn -[filter]. setoid_rewrite list_elem_of_filter. split_and!; try done; [naive_solver|apply NoDup_filter]. }
  split; try done.
  - intros x xf Hx Hne. destruct (ok_ref x xf Hx Hne) as (m & md & q & H1 & H2 & H3 & H4 & H5 & H6).
    destruct (Hto _ _ H2) as (md' & E1 & E2 & E3 & E4). exists m, md', q. split_and!; auto.
    apply E4; [done|]. congruence.
  - intros m md' x Hm Hx. destruct (Hback _ _ Hm) as (md & E1 & E2 & E3 & E4 & _). eauto.
  - intros m md' Hm. destruct (Hback _ _ Hm) as (md & E1 & E2 & E3 & E4 & E5). eauto.
  - intros q qr k m Hq Hm. destruct (ok_nodes _ _ _ _ Hq Hm) as (md & H1 & H2 & H3).
    destruct (Hto _ _ H1) as (md' & E1 & E2 & E3 & _). exists md'. split_and!; congruence.
  - intros m md' q Hm Ho. destruct (Hback _ _ Hm) as (md & E1 & E2 & E3 & _). rewrite E2 in Ho. rewrite E3. eauto.
  - intros l m Hl. destruct (ok_node_work l m Hl) as (md & q & H1 & H2 & H3).
    destruct (Hto _ _ H1) as (md' & E1 & E2 & _). exists md', q. by rewrite E2.
  - intros x xf d Hx Hd. destruct (ok_death x xf d Hx Hd) as (H1 & H2 & H3). split; [done|]. split; [done|].
    intros HL. destruct (H3 HL) as (H4 & H5). split; [done|]. intros Hq.
    destruct (H5 Hq) as (k & kd & E1 & E2 & E3). destruct (Hto _ _ E2) as (md' & F1 & F2 & _).
    exists k, md'. by rewrite F2.
Qed.

(** It is freed with its death notification. *)
Lemma struct_forget v r rf : struct_ok D (Some r) v -> vr v !! r = Some rf ->
  (forall n nd, vn v !! n = Some nd -> r ∉ v_refs nd) ->
  (forall d, v_death rf = Some d -> WDeath d ∉ (vw v).*2) ->
  struct_ok D None (v <| vr ::= delete r |>
    <| vd ::= match v_death rf with Some d => delete d | None => id end |>).
Proof.
  intros Hs Hr Hnr Hnq. pose proof Hs as []. set (v' := set vd _ _).
  assert (Hdv : forall d x, v_death rf <> Some d -> vd v !! d = x -> vd v' !! d = x).
  { intros d x Hne <-. cbn. destruct (v_death rf); [|done]. rewrite lookup_delete_ne; congruence. }
  assert (Hdb : forall d x, vd v' !! d = Some x -> vd v !! d = Some x /\ v_death rf <> Some d).
  { intros d x. cbn. destruct (v_death rf) as [e|]; cbn; [|done]. rewrite lookup_delete_Some. intros []. split; congruence. }
  assert (Hback : forall x xf, vr v' !! x = Some xf -> vr v !! x = Some xf /\ Some r <> Some x).
  { intros x xf. cbn. rewrite lookup_delete_Some. intros []. split; congruence. }
  assert (Hto : forall x xf, vr v !! x = Some xf -> x <> r -> vr v' !! x = Some xf).
  { intros x xf Hx Hne. cbn. by rewrite lookup_delete_ne. }
  assert (Hnd : forall l d, (l, WDeath d) ∈ vw v -> v_death rf <> Some d).
  { intros l d Hl Hd. apply (Hnq d Hd). by eapply in_snd. }
  split; try done.
  - intros x xf Hx _. apply Hback in Hx as [Hx Hne]. eauto.
  - intros x xf Hx. apply Hback in Hx as [Hx Hne]. eauto.
  - intros m md x Hm Hx. destruct (ok_refs m md x Hm Hx) as (xf & H1 & H2). exists xf. split; [|done].
    apply Hto; [done|]. intros ->. by apply (Hnr m md).
  - intros q qr d x Hq Hx. destruct (ok_by_desc q qr d x Hq Hx) as (xf & H1 & H2 & H3 & H4). exists xf.
    split_and!; try done. apply Hto; [done|congruence].
  - intros q qr m x Hq Hx. destruct (ok_by_node q qr m x Hq Hx) as (xf & H1 & H2 & H3 & H4). exists xf.
    split_and!; try done. apply Hto; [done|congruence].
  - intros l d Hl. destruct (ok_death_work l d Hl) as [x Hx]. exists x. apply Hdv; [by eapply Hnd|done].
  - intros q d Hl. rewrite (Hdv d _ (Hnd _ _ Hl) eq_refl). eauto.
  - intros x xf d Hx Hd. apply Hback in Hx as [Hx Hne]. destruct (ok_death x xf d Hx Hd) as (H1 & H2 & H3).
    assert (Hxd : v_death rf <> Some d). { intros E. pose proof (H2 r rf Hr E). congruence. }
    destruct H1 as [y Hy]. split; [exists y; by apply Hdv|]. split.
    + intros x' xf' [Hx' _]%Hback Hd'. eauto.
    + intros _. destruct (H3 Hne) as (H4 & H5). split; [by apply Hdv|done].
  - intros d x Hx. apply Hdb in Hx as [Hx Hne]. destruct (ok_detached d x Hx) as [(y & yf & H1 & H2)|]; [|by right].
    left. exists y, yf. split; [|done]. apply Hto; [done|]. intros ->. congruence.
Qed.

Lemma strong_count_limbo r m rs :
  strong_count (Some r) m (filter (fun r' => r' ≠ r) rs) = strong_count (Some r) m rs.
Proof.
  unfold strong_count, zlen. induction rs as [|x rs IH]; [done|]. rewrite !filter_cons.
  destruct (decide (x = r)) as [->|Hne].
  - rewrite (decide_False (P := r ≠ r)) by naive_solver. rewrite IH.
    rewrite (decide_False (P := is_strong _ _ _ = true)); [done|]. unfold is_strong. by rewrite bool_decide_true.
  - rewrite (decide_True (P := x ≠ r)), filter_cons by done. destruct (decide _); cbn [length]; lia.
Qed.

Lemma inv_limbo T LS LW C s r rf n :
  inv D None T LS LW C s -> refs s !! r = Some rf -> r_node rf = Some n ->
  inv D (Some r) T LS LW (if truth (r_strong rf) then n :: C else C)
    (on_proc (r_proc rf) (fun p => p <| refs_by_desc ::= tree_erase (r_desc rf) |>
                                     <| refs_by_node ::= tree_erase n |>) s).
Proof.
  intros [Hs [Hc Hp Hh]] Hr Hn. split.
  - replace (view _) with (erase_ref (r_desc rf) n (r_proc rf) (view s)).
    + apply (struct_limbo (view s) r (view_ref rf) n Hs); [by apply vr_lookup|done].
    + unfold erase_ref, view; cbn. unfold set; cbn. f_equal. symmetry. by apply fmap_alter_view.
  - destruct (struct_ref None _ _ _ Hs Hr ltac:(done)) as (n' & nd' & p & E1 & E2 & E3 & _).
    rewrite Hn in E1. injection E1 as <-.
    split; cbn; [|exact Hp|].
    + intros m md Hm. destruct (Hc m md Hm) as [H1 H2 H3 H4]. split; [|done..]. rewrite H1.
      assert (Hext : forall rs, strong_count None (refs s) (filter (fun r' => r' ≠ r) rs) =
                          strong_count (Some r) (refs s) (filter (fun r' => r' ≠ r) rs)).
      { intros rs. apply strong_count_ext. intros x [Hx _]%list_elem_of_filter. unfold is_strong.
        by rewrite !bool_decide_false by congruence. }
      rewrite <- (strong_count_limbo r), <- Hext.
      destruct (decide (m = n)) as [->|Hne].
      * rewrite Hm in E2. injection E2 as ->.
        rewrite (strong_count_split None _ r (n_refs nd')).
        2: { apply (ok_refs_nodup _ _ Hs n _ (vn_lookup _ _ _ Hm)). }
        2: done.
        replace (is_strong None (refs s) r) with (truth (r_strong rf)) by (unfold is_strong; by rewrite Hr).
        destruct (truth (r_strong rf)); rewrite ?occ_head; cbn [b2z]; lia.
      * rewrite (filter_same _ (n_refs md)).
        2: { intros x Hx ->. destruct (struct_refs None _ _ _ _ Hs Hm Hx) as (rf' & ? & ?). congruence. }
        f_equal. destruct (truth _); [|done]. rewrite occ_cons, decide_False by congruence. lia.
    + intros m Hm. destruct (truth _); [|auto]. rewrite elem_of_cons in Hm.
      destruct (decide (m = n)) as [->|]; [by eexists|]. naive_solver.
Qed.

Lemma inv_unhook T LS LW C s r n :
  inv D (Some r) T LS LW C s ->
  inv D (Some r) T LS LW C (on_node n (fun nd => nd <| n_refs ::= filter (fun r' => r' ≠ r) |>) s).
Proof.
  intros [Hs [Hc Hp Hh]]. split.
  - eapply eq_ind; [apply (struct_unhook (view s) r n Hs)|].
    unfold view; cbn -[filter]. unfold set; cbn -[filter]. f_equal. symmetry. by apply fmap_alter_view.
  - split; cbn -[filter].
    + intros m md. rewrite lookup_alter_Some. intros [(<- & md0 & Hm & ->)|[Hne Hm]]; [|eauto].
      destruct (Hc _ _ Hm) as [H1 H2 H3 H4]. split; [|done..]. cbn -[filter]. by rewrite H1, strong_count_limbo.
    + exact Hp.
    + intros m Hm. rewrite lookup_alter_is_Some. auto.
Qed.

(** The last steps: the notification is dequeued and freed, the reference freed. *)
Definition forget_death (rf : binder_ref) s : binder_state :=
  match r_death rf with
  | Some d => (binder_dequeue_work_ilocked (WDeath d) s) <| deaths ::= delete d |>
  | None => s
  end.

Lemma inv_forget T LS LW C s r rf :
  inv D (Some r) T LS LW C s -> refs s !! r = Some rf ->
  (forall n nd, nodes s !! n = Some nd -> r ∉ n_refs nd) ->
  inv D None T LS LW C ((forget_death rf s) <| refs ::= delete r |>).
Proof.
  intros [Hs [Hc Hp Hh]] Hr Hnr.
  assert (Hnr' : forall n nd, vn (view s) !! n = Some nd -> r ∉ v_refs nd).
  { intros n nd (md & Hm & ->)%vn_Some. exact (Hnr _ _ Hm). }
  assert (En : nodes (forget_death rf s) = nodes s) by (unfold forget_death; by destruct (r_death rf)).
  assert (Er : refs (forget_death rf s) = refs s) by (unfold forget_death; by destruct (r_death rf)).
  split.
  - unfold forget_death. destruct (r_death rf) as [d|] eqn:Ed.
    + assert (Hs1 : struct_ok D (Some r) (view (binder_dequeue_work_ilocked (WDeath d) s))).
      { apply struct_dequeue; [done|]. intros d' [= <-] x Hx. eauto. }
      pose proof (struct_forget _ r (view_ref rf) Hs1 (vr_lookup s _ _ Hr) Hnr') as H.
      eapply eq_ind; [apply H|].
      * cbn -[filter]. rewrite Ed. intros d' [= <-]. pose proof (dequeued_gone (WDeath d) s) as Hq.
        by apply bool_decide_eq_false in Hq.
      * unfold view; cbn -[filter]. rewrite Ed, !fmap_delete. done.
    + pose proof (struct_forget _ r (view_ref rf) Hs (vr_lookup s _ _ Hr) Hnr') as H.
      eapply eq_ind; [apply H|].
      * cbn. by rewrite Ed.
      * unfold view; cbn -[filter]. rewrite Ed, !fmap_delete. done.
  - split; cbn -[forget_death]; rewrite ?En, ?Er.
    + intros m md Hm. destruct (Hc _ _ Hm) as [H1 H2 H3 H4]. split; [|done..]. rewrite H1. f_equal.
      apply strong_count_ext. intros x Hx. assert (Hne : r <> x) by (intros ->; by eapply Hnr).
      unfold is_strong. rewrite lookup_delete_ne by done. by rewrite !bool_decide_false by congruence.
    + intros x xf [Hne Hx]%lookup_delete_Some. eauto.
    + exact Hh.
Qed.

(** Tearing a reference down and freeing it: no fault, and the node is freed if
    nothing else kept it. *)
Lemma cleanup_free_spec T LS LW C s r rf :
  inv D None T LS LW C s -> refs s !! r = Some rf ->
  (forall n, r_node rf = Some n -> occ n C = 0) ->
  exists s1 rf1 s2, binder_cleanup_ref_olocked r s = Some s1 /\ refs s1 !! r = Some rf1 /\
    r_desc rf1 = r_desc rf /\
    binder_free_ref r s1 = Some s2 /\ inv D None T LS LW C s2 /\ ref_frame s s2 /\
    refs s2 = delete r (refs s) /\
    forall q, refs_by_desc <$> procs s2 !! q =
      (fun pr => if decide (q = r_proc rf) then tree_erase (r_desc rf) (refs_by_desc pr) else refs_by_desc pr)
        <$> procs s !! q.
Proof.
  intros Hi Hr HC. pose proof Hi as [Hs Hc].
  destruct (struct_ref None _ _ _ Hs Hr ltac:(done)) as (n & nd & pr & Hrn & Hn & Hin & Hpr & _).
  specialize (HC n Hrn). pose proof (inv_limbo T LS LW C s r rf n Hi Hr Hrn) as I0.
  unfold binder_cleanup_ref_olocked. rewrite Hr. cbn [mbind option_bind]. rewrite Hrn. cbn [mbind option_bind].
  set (s0 := on_proc _ _ s) in *.
  (* the strong count *)
  assert (H1 : exists s1, (if truth (r_strong rf) then
      '(_, s) ← binder_dec_node_nilocked n true true s0; Some s else Some s0) = Some s1 /\
      inv D (Some r) T LS LW C s1 /\ node_frame n s0 s1 /\
      exists nd1, nodes s1 !! n = Some nd1).
  { destruct (truth (r_strong rf)); [|eauto 10 using node_frame_refl].
    destruct (dec_node_spec (D:=D) (Some r) T LS LW C s0 n nd true true) as (b & s1 & E & I1 & N1 & F1 & B1);
      [by eapply (inv_dec_internal (Some r))|done..|].
    rewrite E. cbn [mbind option_bind]. exists s1. split; [done|].
    destruct b; [destruct (B1 eq_refl) as (B2 & _); rewrite B2 in Hin; by apply not_elem_of_nil in Hin|].
    split_and!; try done. rewrite N1. cbn. rewrite lookup_alter_eq, Hn. eauto. }
  destruct H1 as (s1 & -> & I1 & F1 & nd1 & Hn1). cbn [mbind option_bind].
  (* the list of the node *)
  pose proof (inv_unhook T LS LW C s1 r n I1) as I2. set (s2 := on_node n _ s1) in *.
  assert (Hn2 : nodes s2 !! n = Some (nd1 <| n_refs ::= filter (fun r' => r' ≠ r) |>)).
  { unfold s2. cbn -[filter]. by rewrite lookup_alter_eq, Hn1. }
  destruct (dec_node_spec (D:=D) (Some r) T LS LW C s2 n _ false true ltac:(by rewrite on_node_id) Hn2 HC)
    as (b & s3 & E3 & I3 & N3 & F3 & B3). rewrite E3. cbn [mbind option_bind].
  rewrite on_node_id in N3 by done.
  set (base := if b : bool then binder_free_node n s3 else s3) in *.
  assert (F2 : node_frame n s1 s2) by by apply (node_frame_on_node n).
  assert (Fb : node_frame n s0 base).
  { do 2 (eapply node_frame_trans; [eassumption|]). unfold base. destruct b; [|done].
    eapply node_frame_trans; [exact F3|apply node_frame_free]. rewrite N3, Hn2. intros ? [= <-].
    by destruct (B3 eq_refl) as (_ & _ & ?). }
  assert (Hr3 : refs s3 = refs s).
  { pose proof (proj1 F3) as E. rewrite E. pose proof (proj1 F2) as E'. rewrite E'. apply (proj1 F1). }
  assert (Hrb : refs base = refs s) by (unfold base; by destruct b).
  assert (Hnr : forall m md, nodes base !! m = Some md -> r ∉ n_refs md).
  { intros m md Hm Hx. destruct I3 as [Hs3 _]. destruct (struct_refs (Some r) _ _ _ _ Hs3 Hm Hx) as (xf & X1 & X2).
    rewrite Hrb, Hr in X1. injection X1 as <-. rewrite Hrn in X2. injection X2 as <-.
    unfold base in Hm. destruct b; cbn in Hm; [by rewrite lookup_delete_eq in Hm|].
    rewrite N3, Hn2 in Hm. injection Hm as <-. cbn -[filter] in Hx.
    apply list_elem_of_filter in Hx as [Hx _]. done. }
  pose proof (inv_forget T LS LW C base r rf I3 ltac:(by rewrite Hrb) Hnr) as I4.
  set (s4 := if b : bool then s3 else on_ref r (fun rf => rf <| r_node := None |>) s3).
  set (rf4 := if b : bool then rf else rf <| r_node := None |>).
  set (s5 := match r_death rf with Some d => binder_dequeue_work_ilocked (WDeath d) s4 | None => s4 end).
  assert (Hr5 : refs s5 !! r = Some rf4).
  { replace (refs s5) with (refs s4) by (unfold s5; by destruct (r_death rf)). unfold s4, rf4.
    destruct b; cbn; [by rewrite Hr3|by rewrite lookup_alter_eq, Hr3, Hr]. }
  assert (Hfree : binder_free_ref r s5 = Some ((forget_death rf base) <| refs ::= delete r |>)).
  { unfold binder_free_ref. rewrite Hr5. cbn [mbind option_bind]. f_equal.
    assert (Ed : r_death rf4 = r_death rf) by (unfold rf4; by destruct b). rewrite Ed.
    assert (Hda : forall f (m : gmap Z binder_ref), delete r (alter f r m) = delete r m).
    { intros f m. apply map_eq. intros i. destruct (decide (i = r)) as [->|];
        [by rewrite !lookup_delete_eq|by rewrite !lookup_delete_ne, lookup_alter_ne]. }
    unfold s5, s4, rf4, base, forget_death. destruct b, (r_death rf); cbn -[filter]; rewrite ?Hrn; try done;
      unfold set, on_ref; cbn -[filter]; by rewrite ?Hda. }
  eexists s5, rf4, _. split; [done|]. split; [exact Hr5|]. split; [unfold rf4; by destruct b|].
  split; [exact Hfree|]. split; [exact I4|].
  assert (Ff : forall s', threads (forget_death rf s') = threads s' /\ context_mgr_node (forget_death rf s') = context_mgr_node s' /\
    nodes (forget_death rf s') = nodes s' /\ procs (forget_death rf s') = procs s' /\ refs (forget_death rf s') = refs s').
  { intros s'. unfold forget_death. by destruct (r_death rf). }
  destruct (Ff base) as (G1 & G2 & G3 & G4 & G5). destruct Fb as (A1 & A2 & A3 & A4 & A5 & A6 & A7 & A8).
  split; [|split].
  - eapply ref_frame_trans; [|eapply ref_frame_trans; [apply (node_ref_frame n s0 base)|]].
    + split_and!; try done; [by apply quiet_nodes|]. intros q. cbn.
      destruct (decide (r_proc rf = q)) as [->|]; [rewrite lookup_alter_eq|by rewrite lookup_alter_ne].
      by destruct (procs s !! q).
    + split_and!; done.
    + split_and!; [done..|by apply quiet_nodes|]. intros q. cbn. by rewrite G4.
  - cbn. by rewrite G5, Hrb.
  - intros q. cbn. rewrite G4. specialize (A7 q). apply (f_equal (fmap (fun x => fst (fst x)))) in A7.
    rewrite <- !option_fmap_compose in A7.
    etrans; [exact A7|]. cbn. destruct (decide (q = r_proc rf)) as [->|Hne].
    + rewrite lookup_alter_eq. by destruct (procs s !! r_proc rf).
    + rewrite lookup_alter_ne by done. by destruct (procs s !! q).
Qed.
End Handle.
#[export] Hint Resolve ref_frame_refl ref_frame_on_ref : core.
