(* ===== verification/BinderRefOps.v ===== *)
(** * Binder driver: commands and objects

    Specifications of what the commands of a process and the objects in its
    transactions do to references and nodes.  None of them faults, and each
    keeps the invariant. *)

From S2P Require Import Prelude BinderRef BinderRefInv BinderRefNode BinderRefHandle.

Section Ops.
Context {D : option Z}.
Implicit Types (T LS LW : list Z) (s : binder_state).

(** ** Commands on a handle *)

Lemma get_ref_spec T LS LW s p desc strong :
  inv D None T LS LW [] s -> is_Some (procs s !! p) ->
  exists o, binder_get_ref_olocked p desc strong s = Some o /\
  forall r, o = Some r -> exists rf n nd, refs s !! r = Some rf /\ r_desc rf = desc /\ r_proc rf = p /\
    r_node rf = Some n /\ nodes s !! n = Some nd /\ (strong = true -> r_strong rf <> 0).
Proof.
  intros [Hs _] [pr Hp]. unfold binder_get_ref_olocked. rewrite Hp. cbn [mbind option_bind].
  destruct (ok_sorted _ _ Hs p _ (vp_lookup _ _ _ Hp)) as (_ & S2 & _).
  destruct (tree_find desc (refs_by_desc pr)) as [r|] eqn:Ef; [|by exists None].
  apply (tree_find_Some _ _ _ S2) in Ef.
  destruct (ok_by_desc _ _ Hs p _ desc r (vp_lookup _ _ _ Hp) Ef) as (v & H1 & H2 & H3 & _).
  apply vr_Some in H1 as (rf & H1 & ->).
  destruct (struct_ref None _ _ _ Hs H1 ltac:(done)) as (n & nd & pr' & E1 & E2 & _).
  rewrite H1. cbn [mbind option_bind]. eexists. split; [done|]. intros r' Hr'.
  destruct (_ && _) eqn:Eb; [done|]. injection Hr' as <-. exists rf, n, nd. split_and!; try done.
  intros ->. cbn in Eb. by apply Z.eqb_neq.
Qed.

(** A count is dropped: the node's count for a reference that is not strong any
    more has to follow. *)
Lemma inv_sub_count T LS LW s r rf n (strong : bool) :
  inv D None T LS LW [] s -> refs s !! r = Some rf -> r_node rf = Some n -> ref_count strong rf <> 0 ->
  inv D None T LS LW (if strong && (r_strong rf =? 1) then [n] else [])
    (on_ref r (add_count strong (-1)) s).
Proof.
  intros Hi Hr Hn H0. pose proof Hi as [Hs Hc]. destruct (ok_positive _ _ _ _ _ _ Hc r rf Hr) as [P1 P2].
  destruct (struct_ref None _ _ _ Hs Hr ltac:(done)) as (n' & nd & p & E1 & E2 & _).
  rewrite Hn in E1. injection E1 as <-.
  eapply (inv_on_ref None T LS LW [] _ s r rf n); try done.
  - by destruct strong.
  - destruct strong; cbn in *; lia.
  - destruct strong; cbn in *; lia.
  - destruct (_ && _); auto with binder.
  - destruct strong; cbn [andb add_count]; [|cbn; lia].
    unfold set; cbn [r_strong]. unfold truth. cbn in H0.
    rewrite (proj2 (Z.eqb_neq (r_strong rf) 0)) by done.
    destruct (Z.eqb_spec (r_strong rf) 1) as [->|]; [cbn; by rewrite occ_head|].
    rewrite (proj2 (Z.eqb_neq (-1 + r_strong rf) 0)) by lia. cbn. lia.
Qed.

Lemma on_ref_ext r f g s : (forall rf, f rf = g rf) -> on_ref r f s = on_ref r g s.
Proof.
  intros Hfg. unfold on_ref, set. f_equal. apply map_eq. intros i.
  destruct (decide (r = i)) as [->|]; [|by rewrite !lookup_alter_ne].
  rewrite !lookup_alter_eq. destruct (refs s !! i); [|done]. cbn. by rewrite Hfg.
Qed.

(** The decrement and, if it was the last, the end of the reference. *)
Lemma dec_ref_spec T LS LW s r rf n strong :
  inv D None T LS LW [] s -> refs s !! r = Some rf -> r_node rf = Some n ->
  exists b s1 rf1 s2, binder_dec_ref_olocked r strong s = Some (b, s1) /\ refs s1 !! r = Some rf1 /\
    r_desc rf1 = r_desc rf /\
    (if b : bool then binder_free_ref r s1 else Some s1) = Some s2 /\ inv D None T LS LW [] s2 /\ ref_frame s s2.
Proof.
  intros Hi Hr Hn. unfold binder_dec_ref_olocked. rewrite Hr. cbn [mbind option_bind]. rewrite Hn. cbn [mbind option_bind].
  destruct (struct_ref None _ _ _ (proj1 Hi) Hr ltac:(done)) as (n' & nd & p & E1 & E2 & E3 & _).
  rewrite Hn in E1. injection E1 as <-.
  assert (Hext : forall strong : bool, on_ref r (if strong then fun rf => rf <| r_strong ::= fun c => c - 1 |>
      else fun rf => rf <| r_weak ::= fun c => c - 1 |>) s = on_ref r (add_count strong (-1)) s).
  { intros b. apply on_ref_ext. intros x. destruct b; unfold add_count, set; cbn; f_equal; lia. }
  destruct strong.
  - destruct (Z.eqb_spec (r_strong rf) 0) as [E0|E0]; [by exists false, s, rf, s|].
    rewrite (Hext true). pose proof (inv_sub_count T LS LW s r rf n true Hi Hr Hn E0) as I1.
    set (s1 := on_ref r (add_count true (-1)) s) in *. cbn [andb] in I1.
    assert (Hr1 : refs s1 !! r = Some (add_count true (-1) rf)) by (unfold s1; cbn -[add_count]; by rewrite lookup_alter_eq, Hr).
    assert (H2 : exists s2, (if r_strong rf =? 1 then binder_dec_node n true true s1 else Some s1) = Some s2 /\
      inv D None T LS LW [] s2 /\ node_frame n s1 s2).
    { destruct (r_strong rf =? 1); [|eauto using node_frame_refl].
      destruct (dec_node_free (D:=D) None T LS LW [] s1 n nd true true) as (s2 & ? & ? & ? & _);
        [by eapply inv_dec_internal|done..|eauto]. }
    destruct H2 as (s2 & -> & I2 & F2). cbn [mbind option_bind].
    assert (Hr2 : refs s2 !! r = Some (add_count true (-1) rf)) by (by rewrite (proj1 F2)).
    assert (F : ref_frame s s2) by (eapply ref_frame_trans; [apply ref_frame_on_ref|by eapply node_ref_frame]).
    destruct (_ && _); [|by exists false, s2, (add_count true (-1) rf), s2].
    destruct (cleanup_free_spec T LS LW [] s2 r _ I2 Hr2) as (s3 & rf3 & s4 & -> & R3 & D3 & F4 & I4 & F5 & _);
      [done|]. cbn [mbind option_bind].
    exists true, s3, rf3, s4. split_and!; try done. by eapply ref_frame_trans.
  - destruct (Z.eqb_spec (r_weak rf) 0) as [E0|E0]; [by exists false, s, rf, s|].
    rewrite (Hext false). pose proof (inv_sub_count T LS LW s r rf n false Hi Hr Hn E0) as I2.
    set (s2 := on_ref r (add_count false (-1)) s) in *. cbn [andb] in I2.
    assert (Hr2 : refs s2 !! r = Some (add_count false (-1) rf)) by (unfold s2; cbn -[add_count]; by rewrite lookup_alter_eq, Hr).
    assert (F : ref_frame s s2) by apply ref_frame_on_ref.
    destruct (_ && _); [|by exists false, s2, (add_count false (-1) rf), s2].
    destruct (cleanup_free_spec T LS LW [] s2 r _ I2 Hr2) as (s3 & rf3 & s4 & -> & R3 & D3 & F4 & I4 & F5 & _);
      [done|]. cbn [mbind option_bind].
    exists true, s3, rf3, s4. by split_and!.
Qed.

Lemma update_ref_spec T LS LW s p desc increment strong :
  inv D None T LS LW [] s -> is_Some (procs s !! p) ->
  exists ret rd s', binder_update_ref_for_handle p desc increment strong s = Some (ret, rd, s') /\
    inv D None T LS LW [] s' /\ ref_frame s s' /\ (ret = 0 -> exists rf, rd = Some rf /\ r_desc rf = desc).
Proof.
  intros Hi Hp. unfold binder_update_ref_for_handle.
  destruct (get_ref_spec T LS LW s p desc strong Hi Hp) as (o & -> & Ho). cbn [mbind option_bind].
  destruct o as [r|]; [|by exists (- EINVAL), None, s].
  destruct (Ho r eq_refl) as (rf & n & nd & Hr & Hd & Hrp & Hn & Hnd & Hst).
  destruct increment.
  - destruct (inc_ref_spec T LS LW [] s r rf n strong None Hi Hr Hn) as (ret & s' & -> & I' & F' & Hret); [done|].
    cbn [mbind option_bind].
    assert (H1 : exists rf', refs s' !! r = Some rf' /\ r_desc rf' = desc).
    { destruct Hret as [(_ & E)|(_ & E & _)]; rewrite E; [rewrite lookup_alter_eq, Hr|eauto].
      eexists. split; [done|]. by destruct strong. }
    destruct H1 as (rf' & -> & H2). cbn [mbind option_bind]. eexists _, _, _. split; [done|]. split_and!; eauto.
  - destruct (dec_ref_spec T LS LW s r rf n strong Hi Hr Hn) as (b & s1 & rf1 & s2 & -> & H1 & H2 & H3 & I2 & F2).
    cbn [mbind option_bind]. rewrite H1. cbn [mbind option_bind]. rewrite H3. cbn [mbind option_bind].
    eexists _, _, _. split; [done|]. split_and!; eauto. intros _. exists rf1. split; [done|congruence].
Qed.

(** ** Commands on a node *)

(** The answer of kzalloc for a reference of the process [pr]: an address not
    in use; the handles are not exhausted. *)
Definition ref_alloc_ok (alloc : option Z) (pr : binder_proc) s : Prop :=
  forall r, alloc = Some r -> refs s !! r = None /\ zlen (refs_by_desc pr) < 2 ^ 32 - 1.

Lemma target_ok_frame n nd nd' target_list s s' :
  target_ok n target_list s -> threads s' = threads s ->
  nodes s !! n = Some nd -> nodes s' !! n = Some nd' -> ident nd' = ident nd -> target_ok n target_list s'.
Proof.
  intros Ht Eth Hn Hn' Hid l Hl. destruct (Ht l Hl) as (t & th & md & -> & H1 & H2 & H3).
  exists t, th, nd'. split; [done|]. rewrite Eth. split_and!; try done.
  rewrite Hn in H2. injection H2 as <-. unfold ident in Hid. congruence.
Qed.

(** The reference that was found or created, counted once more. *)
Lemma inc_ref_for_node_spec T LS LW s p pr n nd alloc strong target_list :
  inv D None T LS LW [] s -> procs s !! p = Some pr -> alive D (view s) p -> nodes s !! n = Some nd ->
  ref_alloc_ok alloc pr s -> target_ok n target_list s ->
  exists ret rd s', binder_inc_ref_for_node p n alloc strong target_list s = Some (ret, rd, s') /\
    inv D None T LS LW [] s' /\ ref_frame s s' /\ (ret = 0 -> is_Some rd) /\
    (forall r, tree_find n (refs_by_node pr) = None -> alloc = Some r ->
       let rf := zero_ref (new_handle n pr s) p n in
       let rf' := if ret =? 0 then add_count strong 1 rf else rf in
       refs s' = <[r := rf']> (refs s) /\ rd = Some rf') /\
    (forall r rf, tree_find n (refs_by_node pr) = Some r -> refs s !! r = Some rf -> ret = 0 ->
       rd = Some (add_count strong 1 rf)).
Proof.
  intros Hi Hp Halive Hn Ha Ht. unfold binder_inc_ref_for_node.
  destruct (get_ref_for_node_spec T LS LW [] s p pr n nd None Hi Hp Halive Hn) as
    (o & s0 & -> & _ & _ & Hs0 & _ & Ho & _); [done|]. cbn [mbind option_bind].
  destruct Hs0 as [-> ->]; [by right|].
  assert (Hboth : match tree_find n (refs_by_node pr), alloc with None, None => True | _, _ =>
    exists r s1, (match tree_find n (refs_by_node pr) with
                   | Some r => Some (Some r, s)
                   | None => binder_get_ref_for_node_olocked p n alloc s
                   end) = Some (Some r, s1) /\ inv D None T LS LW [] s1 /\ ref_frame s s1 /\
      (exists rf, refs s1 !! r = Some rf /\ r_node rf = Some n /\
        (tree_find n (refs_by_node pr) = None -> alloc = Some r /\ rf = zero_ref (new_handle n pr s) p n /\
           refs s1 = <[r := rf]> (refs s)) /\
        (tree_find n (refs_by_node pr) = Some r -> s1 = s)) /\
      (forall r', tree_find n (refs_by_node pr) = Some r' -> r' = r) /\
      exists nd', nodes s1 !! n = Some nd' /\ ident nd' = ident nd end).
  { destruct (tree_find n (refs_by_node pr)) as [r|] eqn:Ef.
    - exists r, s. split_and!; try done; [| |by exists nd].
      + destruct (Ho r eq_refl) as (rf & H1 & H2 & _). by exists rf.
      + by intros r' [= <-].
    - destruct alloc as [r|]; [|done].
      destruct (get_ref_for_node_spec T LS LW [] s p pr n nd (Some r) Hi Hp Halive Hn) as
        (o & s1 & E1 & I1 & F1 & _ & Hret & Hrf & Hnd).
      { intros r' [= <-]. by apply Ha. }
      rewrite (Hret Ef) in *. exists r, s1. split_and!; try done.
      destruct (Hrf r eq_refl) as (rf & H1 & H2 & H3 & H4). rewrite (H4 Ef) in *. eexists. split_and!; try done.
      intros _. split_and!; try done. unfold binder_get_ref_for_node_olocked in E1. rewrite Hp in E1. cbn [mbind option_bind] in E1.
      rewrite Ef in E1. destruct (tree_find (first_gap _ _) _); [done|]. rewrite Hn in E1. cbn [mbind option_bind] in E1.
      injection E1 as <-. done. }
  destruct (tree_find n (refs_by_node pr)) as [r0|] eqn:Ef; [|destruct alloc as [a|]].
  3: { exists (- ENOMEM), None, s. by split_and!. }
  all: destruct Hboth as (r & s1 & -> & I1 & F1 & (rf & Hr & Hrn & Hnew & Hold) & Heq & nd' & Hn' & Hid); cbn [mbind option_bind];
    destruct (inc_ref_spec T LS LW [] s1 r rf n strong target_list I1 Hr Hrn) as (ret & s2 & -> & I2 & F2 & Hret);
    [eapply target_ok_frame; [exact Ht|apply F1|exact Hn|exact Hn'|exact Hid]|]; cbn [mbind option_bind];
    (assert (Hr2 : refs s2 !! r = Some (if ret =? 0 then add_count strong 1 rf else rf));
     [destruct Hret as [(-> & E)|(-> & E & _)]; rewrite E; [by rewrite lookup_alter_eq, Hr|done]|]);
    rewrite Hr2; cbn [mbind option_bind]; eexists _, _, _; (split; [done|]);
    (split; [done|]); (split; [by eapply ref_frame_trans|]); (split; [done|]); (split; [|]).
  - done.
  - intros r1 rf1 [= <-] Hrf1 ->. rewrite <- (Heq r0 eq_refl) in *. rewrite (Hold eq_refl) in *. by simplify_eq.
  - intros r1 _ [= <-]. destruct (Hnew eq_refl) as ([= <-] & -> & Hrefs). split; [|done].
    destruct Hret as [(-> & E)|(-> & E & _)]; rewrite E, Hrefs; [|done]. cbn [Z.eqb].
    apply map_eq. intros i. destruct (decide (i = a)) as [->|];
      [by rewrite lookup_alter_eq, !lookup_insert_eq|by rewrite lookup_alter_ne, !lookup_insert_ne].
  - done.
Qed.

(** ** Objects in transactions *)

(** As [ref_frame], where nodes may be new. *)
Definition cmd_frame s s' : Prop :=
  threads s' = threads s /\ context_mgr_node s' = context_mgr_node s /\ told s s' /\
  (forall p, life <$> procs s' !! p = life <$> procs s !! p).

Lemma ref_cmd_frame s s' : ref_frame s s' -> cmd_frame s s'.
Proof. intros (A1 & A2 & A3 & A4). split_and!; try done. by apply quiet_told. Qed.

Lemma cmd_frame_refl s : cmd_frame s s.
Proof. apply ref_cmd_frame, ref_frame_refl. Qed.
#[local] Hint Resolve cmd_frame_refl : core.

Lemma cmd_ref_frame s1 s2 s3 : cmd_frame s1 s2 -> ref_frame s2 s3 -> cmd_frame s1 s3.
Proof.
  intros (A1 & A2 & A3 & A4) (B1 & B2 & B3 & B4). split_and!; try congruence. by eapply told_quiet.
Qed.

Lemma quiet_node s s' n nd : quiet s s' -> nodes s !! n = Some nd -> is_Some (nodes s' !! n) ->
  exists nd', nodes s' !! n = Some nd' /\ ident nd' = ident nd.
Proof. intros [_ H2] Hn [nd' Hn']. specialize (H2 n nd Hn). rewrite Hn' in *. eauto. Qed.

(** A temporary reference is dropped. *)
Lemma put_frame T LS LW s0 s n nd : inv D None (n :: T) LS LW [] s -> ref_frame s0 s ->
  nodes s0 !! n = Some nd -> (n_proc nd = None -> occ n LS <= occ n T) ->
  exists s', binder_put_node n s = Some s' /\ inv D None T LS LW [] s' /\ ref_frame s0 s'.
Proof.
  intros Hi Hf Hn Hp. destruct (quiet_node s0 s n nd) as (nd' & Hn' & Hid); [apply Hf|done|..].
  { apply (ok_held _ _ _ _ _ _ (proj2 Hi)). left. by left. }
  destruct (put_node_spec None T LS LW [] s n Hi eq_refl) as (s' & E & I' & F' & _).
  - intros nd2 Hn2 Hd. rewrite Hn' in Hn2. injection Hn2 as <-. apply Hp. unfold ident in Hid. congruence.
  - exists s'. split_and!; [done..|]. eapply ref_frame_trans; [done|by eapply node_ref_frame].
Qed.

(** The node of the sender's object, with a temporary reference. *)
Lemma sender_node_spec T LS LW s t th ptr cookie node_alloc :
  inv D None T LS LW [] s -> threads s !! t = Some th ->
  (forall new, node_alloc = Some new -> nodes s !! new = None) ->
  exists o s', ('(node, s) ← binder_get_node (t_proc th) ptr s;
    match node with
    | Some n => Some (Some n, s)
    | None => binder_new_node (t_proc th) node_alloc ptr cookie s
    end) = Some (o, s') /\
  match o with
  | None => s' = s
  | Some n => exists nd, inv D None (n :: T) LS LW [] s' /\ nodes s' !! n = Some nd /\
      n_proc nd = Some (t_proc th) /\ n_ptr nd = ptr /\ cmd_frame s s' /\ refs s' = refs s /\
      (forall q, proc_refs <$> procs s' !! q = proc_refs <$> procs s !! q)
  end.
Proof.
  intros Hi Ht Ha.
  pose proof (thread_alive None _ _ _ (proj1 Hi) Ht) as Halive. pose proof Halive as (v & Hv & _).
  apply vp_Some in Hv as (pr & Hp & ->).
  unfold binder_get_node. rewrite Hp. cbn [mbind option_bind].
  destruct (tree_find ptr (p_nodes pr)) as [n|] eqn:Ef.
  - destruct (ok_sorted _ _ (proj1 Hi) _ _ (vp_lookup _ _ _ Hp)) as (S1 & _).
    apply (tree_find_Some _ _ _ S1) in Ef.
    destruct (ok_nodes _ _ (proj1 Hi) _ _ ptr n (vp_lookup _ _ _ Hp) Ef) as (v & Hn & H1 & H2).
    apply vn_Some in Hn as (nd & Hn & ->).
    destruct (inc_tmpref_spec None T LS LW [] s n nd Hi Hn) as [-> I']. cbn [mbind option_bind].
    eexists (Some n), _. split; [done|]. eexists. split; [exact I'|]. cbn. rewrite lookup_alter_eq, Hn.
    do 3 (split; [done|]). split; [|done]. by apply ref_cmd_frame, (node_ref_frame n), node_frame_on_node.
  - cbn [mbind option_bind]. destruct node_alloc as [new|]; [|by exists None, s].
    unfold binder_new_node.
    destruct (init_node_spec T LS LW [] s (t_proc th) pr new ptr cookie Hi Hp Halive (Ha new eq_refl)) as
      (n & s' & nd & -> & I' & H1 & H2 & H3 & _ & _ & H4 & _ & H5 & H6 & _ & H7 & H8).
    cbn [mbind option_bind]. exists (Some n), s'. split; [done|]. exists nd.
    do 4 (split; [done|]). split; [|done]. split; [done|]. split; [done|]. split; [done|].
    intros q. specialize (H7 q). apply (f_equal (fmap snd)) in H7. by rewrite <- !option_fmap_compose in H7.
Qed.

(** A sender's object becomes a handle of the receiver. *)
Lemma translate_binder_spec T LS LW s node_alloc ref_alloc allowed strong ptr cookie q pq t th :
  inv D None T LS LW [] s -> threads s !! t = Some th -> procs s !! q = Some pq -> alive D (view s) q ->
  (forall new, node_alloc = Some new -> nodes s !! new = None) -> ref_alloc_ok ref_alloc pq s ->
  exists ret fp s', binder_translate_binder node_alloc ref_alloc allowed strong ptr cookie q t s = Some (ret, fp, s') /\
    inv D None T LS LW [] s' /\ cmd_frame s s' /\ (ret = 0 -> exists d, fp = Some (HANDLE strong d)).
Proof.
  intros Hi Ht Hq Halive Hna Hra. unfold binder_translate_binder. rewrite Ht. cbn [mbind option_bind].
  destruct (sender_node_spec T LS LW s t th ptr cookie node_alloc Hi Ht Hna) as (o & s1 & E & Ho).
  destruct (binder_get_node (t_proc th) ptr s) as [[o0 s0]|] eqn:Eg; [|done]. cbn [mbind option_bind] in E |- *.
  rewrite E. cbn [mbind option_bind]. clear E Eg o0 s0.
  destruct o as [n|]; [|rewrite Ho; by exists (- ENOMEM), None, s].
  destruct Ho as (nd & I1 & Hn & Hnp & Hptr & F1 & Hr1 & Hp1). rewrite Hn. cbn [mbind option_bind].
  assert (Hput : forall s2, inv D None (n :: T) LS LW [] s2 -> ref_frame s1 s2 ->
    exists s', binder_put_node n s2 = Some s' /\ inv D None T LS LW [] s' /\ cmd_frame s s').
  { intros s2 I2 F2. destruct (put_frame T LS LW s1 s2 n nd I2 F2 Hn) as (s' & ? & ? & ?); [by rewrite Hnp|].
    exists s'. split_and!; [done..|by eapply cmd_ref_frame]. }
  destruct (negb (cookie =? n_cookie nd)).
  { cbn [mbind option_bind]. destruct (Hput s1 I1) as (s' & -> & I' & F'); [done|]. by eexists _, _, _. }
  destruct (negb allowed).
  { cbn [mbind option_bind]. destruct (Hput s1 I1) as (s' & -> & I' & F'); [done|]. by eexists _, _, _. }
  specialize (Hp1 q) as Hq1. rewrite Hq in Hq1. destruct (procs s1 !! q) as [pq1|] eqn:Eq1; [|done].
  cbn in Hq1. injection Hq1 as Hd1 Hn1 _ _.
  destruct (inc_ref_for_node_spec (n :: T) LS LW s1 q pq1 n nd ref_alloc strong (Some (ThreadTodo t)) I1 Eq1
    ltac:(by eapply frame_alive; [apply F1|apply F1|exact Halive]) Hn)
    as (ret & rd & s2 & -> & I2 & F2 & Hrd & _).
  - intros r Hr. rewrite Hr1, Hd1. by apply Hra.
  - intros l [= <-]. exists t, th, nd. split_and!; try done. by rewrite (proj1 F1).
  - cbn [mbind option_bind]. destruct (Hput s2 I2 F2) as (s' & -> & I' & F'). cbn [mbind option_bind].
    eexists _, _, _. split; [done|]. split_and!; try done. intros ->. cbn. destruct (Hrd eq_refl) as [rf ->]. cbn. eauto.
Qed.
(** The node behind a handle, with a temporary reference. *)
Lemma get_node_from_ref_spec T LS LW s p handle strong :
  inv D None T LS LW [] s -> is_Some (procs s !! p) ->
  exists o s', binder_get_node_from_ref p handle strong s = Some (o, s') /\
  match o with
  | None => s' = s
  | Some n => exists nd nd', nodes s !! n = Some nd /\ inv D None (n :: T) LS LW [] s' /\
      nodes s' !! n = Some nd' /\ ident nd' = ident nd /\ refs s' = refs s /\ procs s' = procs s /\ ref_frame s s'
  end.
Proof.
  intros Hi Hp. unfold binder_get_node_from_ref.
  destruct (get_ref_spec T LS LW s p handle strong Hi Hp) as (o & -> & Ho). cbn [mbind option_bind].
  destruct o as [r|]; [|by exists None, s].
  destruct (Ho r eq_refl) as (rf & n & nd & Hr & _ & _ & Hn & Hnd & _).
  rewrite Hr. cbn [mbind option_bind]. rewrite Hn. cbn [mbind option_bind].
  destruct (inc_tmpref_spec None T LS LW [] s n nd Hi Hnd) as [-> I1]. cbn [mbind option_bind].
  eexists (Some n), _. split; [done|]. exists nd. eexists. split; [done|]. split; [exact I1|].
  split; [cbn; by rewrite lookup_alter_eq, Hnd|]. split; [done|]. split; [done|]. split; [done|].
  by apply (node_ref_frame n), node_frame_on_node.
Qed.

(** A dead node is held by transactions in progress only. *)
Lemma dead_held T LS LW s n nd : inv D None T LS LW [] s -> nodes s !! n = Some nd ->
  n_proc nd = None -> occ n LS <= occ n T /\ occ n LW = 0.
Proof. intros [_ Hc] Hn Hp. by destruct (cnt_dead _ _ _ _ _ _ _ _ (ok_counts _ _ _ _ _ _ Hc n nd Hn) Hp) as (_ & _ & ?). Qed.

(** A local reference, strong or weak: it does not fail, or its failure is
    ignored. *)
Lemma inc_local_spec T LS LW s n nd (strong : bool) :
  inv D None T LS LW [] s -> nodes s !! n = Some nd -> is_Some (n_proc nd) ->
  exists ret s', binder_inc_node_nilocked n strong false None s = Some (ret, s') /\
    inv D None T (if strong then n :: LS else LS) (if strong then LW else n :: LW) [] s' /\ node_frame n s s' /\
    (strong = true -> ret = 0).
Proof.
  intros Hi Hn Hp. destruct strong.
  - destruct (inc_strong_spec (D:=D) None T LS LW [] (n :: LS) [] s n nd false None) as
      (ret & s' & -> & F & [(-> & I & _)|(_ & _ & ? & _)]); [done..|by eapply inv_inc_local| |done].
    by exists 0, s'.
  - destruct (inc_weak_spec (D:=D) None T LS LW [] (n :: LW) s n nd false None) as
      (ret & s' & -> & F & I & _); [done..|by eapply inv_inc_weak|]. by exists ret, s'.
Qed.

(** A sender's handle becomes an object of the receiver, which holds the node,
    or another handle. *)
Lemma translate_handle_spec T LS LW s ref_alloc allowed strong handle q pq t th :
  inv D None T LS LW [] s -> threads s !! t = Some th -> procs s !! q = Some pq -> alive D (view s) q ->
  ref_alloc_ok ref_alloc pq s ->
  exists ret fp s', binder_translate_handle ref_alloc allowed strong handle q t s = Some (ret, fp, s') /\
    ref_frame s s' /\
    match fp with
    | Some (BINDER st ptr _) => st = strong /\ ret = 0 /\ exists n nd,
        inv D None T (if strong then n :: LS else LS) (if strong then LW else n :: LW) [] s' /\
        nodes s' !! n = Some nd /\ n_proc nd = Some q /\ n_ptr nd = ptr
    | _ => inv D None T LS LW [] s'
    end /\ (ret = 0 -> is_Some fp).
Proof.
  intros Hi Ht Hq Halive Hra. unfold binder_translate_handle. rewrite Ht. cbn [mbind option_bind].
  destruct (thread_alive None _ _ _ (proj1 Hi) Ht) as (v & (pr & Hp & _)%vp_Some & _).
  destruct (get_node_from_ref_spec T LS LW s (t_proc th) handle strong Hi) as (o & s1 & -> & Ho); [by eexists|].
  cbn [mbind option_bind]. destruct o as [n|]; [|rewrite Ho; by exists (- EINVAL), None, s].
  destruct Ho as (nd0 & nd & Hn0 & I1 & Hn & Hid & Hr1 & Hp1 & F1). rewrite Hn. cbn [mbind option_bind].
  assert (Hdead : n_proc nd = None -> occ n LS <= occ n T).
  { intros Hd. eapply (dead_held T LS LW s n nd0); [done..|]. unfold ident in Hid. congruence. }
  destruct (negb allowed).
  { cbn [mbind option_bind].
    destruct (put_frame T LS LW s1 s1 n nd I1) as (s' & -> & I' & F'); [done..|].
    eexists _, _, _. split; [done|]. split; [by eapply ref_frame_trans|]. done. }
  destruct (bool_decide (n_proc nd = Some q)) eqn:Eown.
  - apply bool_decide_eq_true in Eown.
    destruct (inc_local_spec (n :: T) LS LW s1 n nd strong I1 Hn) as (ret & s2 & -> & I2 & F2 & _); [by rewrite Eown|].
    cbn [mbind option_bind].
    destruct (put_frame T _ _ s1 s2 n nd I2) as (s' & E' & I' & F'); [by eapply node_ref_frame|done|by rewrite Eown|].
    rewrite E'. cbn [mbind option_bind]. eexists _, _, _. split; [done|]. split; [by eapply ref_frame_trans|].
    split; [|done]. split; [done|]. split; [done|].
    assert (Hs' : is_Some (nodes s' !! n)).
    { apply (ok_held _ _ _ _ _ _ (proj2 I')). destruct strong; [right; left|do 2 right; left]; by left. }
    destruct (quiet_node s1 s' n nd) as (nd' & Hn' & Hid'); [apply F'|done..|].
    exists n, nd'. split; [done|]. split; [done|]. unfold ident in Hid'. split; congruence.
  - destruct (inc_ref_for_node_spec (n :: T) LS LW s1 q pq n nd ref_alloc strong None I1) as
      (ret & rd & s2 & -> & I2 & F2 & Hrd & _); [by rewrite Hp1| |done| |done|].
    { eapply frame_alive; [apply F1|apply F1|exact Halive]. }
    { intros r Hr. rewrite Hr1. by apply Hra. }
    cbn [mbind option_bind].
    destruct (put_frame T LS LW s1 s2 n nd I2 F2 Hn Hdead) as (s' & -> & I' & F'). cbn [mbind option_bind].
    eexists _, _, _. split; [done|]. split; [by eapply ref_frame_trans|]. split.
    + destruct (truth ret); [done|]. by destruct rd.
    + intros ->. cbn. destruct (Hrd eq_refl) as [rf ->]. by eexists.
Qed.

(** BC_INCREFS, BC_ACQUIRE, BC_RELEASE and BC_DECREFS *)
Lemma bc_refcount_spec T LS LW s p pr handle alloc increment strong :
  inv D None T LS LW [] s -> procs s !! p = Some pr -> alive D (view s) p -> ref_alloc_ok alloc pr s ->
  (forall n, context_mgr_node s = Some n -> is_Some (nodes s !! n)) ->
  exists ret s', bc_refcount p handle alloc increment strong s = Some (ret, s') /\
    inv D None T LS LW [] s' /\ ref_frame s s'.
Proof.
  intros Hi Hp Hal Ha Hctx. unfold bc_refcount.
  assert (Hupd : forall s1, inv D None T LS LW [] s1 -> ref_frame s s1 ->
    exists ret s', ('(ret, _, s) ← binder_update_ref_for_handle p handle increment strong s1; Some (ret, s)) = Some (ret, s') /\
      inv D None T LS LW [] s' /\ ref_frame s s').
  { intros s1 I1 F1. destruct (update_ref_spec T LS LW s1 p handle increment strong I1) as (ret & rd & s' & -> & I' & F' & _).
    - destruct F1 as (_ & _ & _ & F1). specialize (F1 p). rewrite Hp in F1. by destruct (procs s1 !! p).
    - cbn [mbind option_bind]. eexists _, s'. split; [done|]. split; [done|]. by eapply ref_frame_trans. }
  destruct (increment && (handle =? 0)); [|cbn [mbind option_bind truth Z.eqb negb]; by apply Hupd].
  destruct (context_mgr_node s) as [n|] eqn:Ec; [|cbn [mbind option_bind truth Z.eqb negb]; by apply Hupd].
  destruct (Hctx n eq_refl) as [nd Hn]. rewrite Hn. cbn [mbind option_bind].
  destruct (bool_decide (n_proc nd = Some p)); [by eexists _, s|].
  destruct (inc_ref_for_node_spec T LS LW s p pr n nd alloc strong None Hi Hp Hal Hn Ha) as
    (ret & rd & s1 & -> & I1 & F1 & _); [done|]. cbn [mbind option_bind].
  destruct (truth ret); [by apply Hupd|]. by eexists _, s1.
Qed.
End Ops.
