(* ===== verification/BinderRefTxn.v ===== *)
(** * Binder driver: transactions and the references they hold

    Specifications of what a transaction holds from its start to the release
    of its buffer, and of the process that it keeps. *)

From S2P Require Import Prelude BinderRef BinderRefInv BinderRefNode BinderRefHandle BinderRefOps.

(** ** Held references as multisets *)

Lemma occ_elem (l l' : list Z) : (forall n, occ n l = occ n l') -> forall n, n ∈ l' -> n ∈ l.
Proof. intros Ho n. rewrite !occ_pos. by rewrite Ho. Qed.

Section Txn.
Context {D : option Z}.
Implicit Types (T LS LW : list Z) (s : binder_state).

Lemma inv_perm L T LS LW C T' LS' LW' s :
  (forall n, occ n T = occ n T') -> (forall n, occ n LS = occ n LS') -> (forall n, occ n LW = occ n LW') ->
  inv D L T LS LW C s -> inv D L T' LS' LW' C s.
Proof.
  intros HT HS HW [Hs [Hc Hp Hh]]. split; [done|]. split; [|done|].
  - intros n nd Hn. destruct (Hc n nd Hn) as [H1 H2 H3 H4]. split; rewrite <- ?HT, <- ?HS, <- ?HW; auto.
  - intros n Hn. apply Hh. destruct Hn as [Hn|[Hn|[Hn|Hn]]]; [left|right; left|right; right; left|do 3 right; done].
    + by eapply occ_elem.
    + by eapply occ_elem.
    + by eapply occ_elem.
Qed.

(** ** The process that a transaction keeps *)

Lemma inv_on_proc L T LS LW C s p f :
  (forall pr, view_proc (f pr) = view_proc pr) -> inv D L T LS LW C s -> inv D L T LS LW C (on_proc p f s).
Proof.
  intros Hf [Hs Hc]. split; [by rewrite view_on_proc|]. by apply (counts_same _ _ _ _ _ s).
Qed.

Lemma worklist_empty l s : (forall w, (l, w) ∉ works s) -> binder_worklist_empty_ilocked l s = true.
Proof.
  intros Hl. unfold binder_worklist_empty_ilocked, work_head.
  destruct (List.find _ _) as [[l' w]|] eqn:E; [|done]. apply find_some in E as [Hin Hd].
  apply bool_decide_eq_true in Hd. cbn in Hd. subst l'. apply list_elem_of_In in Hin. by destruct (Hl w).
Qed.

Lemma proc_threads_elem p s t : t ∈ proc_threads p s <-> exists th, threads s !! t = Some th /\ t_proc th = p.
Proof.
  unfold proc_threads. rewrite list_elem_of_fmap. split.
  - intros ([t' th] & -> & Hin). apply elem_of_map_to_list in Hin. apply map_lookup_filter_Some in Hin. by exists th.
  - intros (th & H1 & H2). exists (t, th). split; [done|]. apply elem_of_map_to_list.
    by apply map_lookup_filter_Some.
Qed.

(** A process with nothing left goes. *)
Lemma struct_free_proc D' v p pr :
  struct_ok D None v -> vp v !! p = Some pr -> v_nodes pr = [] -> v_by_desc pr = [] ->
  (forall t, vt v !! t <> Some p) -> (forall l w, (l, w) ∈ vw v -> ~ list_of (vt v) l p) ->
  (forall q, q <> p -> D = Some q <-> D' = Some q) ->
  struct_ok D' None (v <| vp ::= delete p |>).
Proof.
  intros Hs Hp Hn Hd Ht Hw HD. pose proof Hs as [].
  assert (Hto : forall q qr, vp v !! q = Some qr -> q <> p -> vp (v <| vp ::= delete p |>) !! q = Some qr).
  { intros q qr Hq Hne. cbn. by rewrite lookup_delete_ne. }
  assert (Hback : forall q qr, vp (v <| vp ::= delete p |>) !! q = Some qr -> vp v !! q = Some qr /\ q <> p).
  { intros q qr. cbn. rewrite lookup_delete_Some. intros []. split; congruence. }
  assert (Hal : forall q, alive D v q -> q <> p -> alive D' (v <| vp ::= delete p |>) q).
  { intros q (qr & E & Hq) Hne. exists qr. split; [by apply Hto|]. intros Hd'. apply HD; auto. }
  split; try done.
  - intros r rf Hr HL. destruct (ok_ref r rf Hr HL) as (n & nd & qr & H1 & H2 & H3 & H4 & H5 & H6).
    exists n, nd, qr. split_and!; try done. apply Hto; [done|]. intros E. rewrite E, Hp in H4. injection H4 as <-.
    rewrite Hd in H5. by apply not_elem_of_nil in H5.
  - intros q qr d r [Hq _]%Hback. eauto.
  - intros q qr d r [Hq _]%Hback. eauto.
  - intros q qr [Hq _]%Hback. eauto.
  - intros q qr d r [Hq _]%Hback. eauto.
  - intros n nd q Hn' Ho. destruct (ok_owner n nd q Hn' Ho) as (qr & E1 & E2). exists qr. split; [|done].
    apply Hto; [done|]. intros ->. rewrite Hp in E1. injection E1 as <-. rewrite Hn in E2. by apply not_elem_of_nil in E2.
  - intros t q Hq. apply Hal; [eauto|]. intros ->. by apply (Ht t).
  - intros q qr Hq Hqd HDq. apply Hback in Hq as [Hq Hne]. apply (ok_dead q qr); try done. intros E. by apply HDq, HD.
  - intros l w Hl. destruct (ok_list l w Hl) as (q & H1 & H2). exists q. split; [done|].
    apply Hal; [done|]. intros ->. by apply (Hw l w).
Qed.

(** What is said about the process after a decrement of its temporary
    references. *)
Lemma proc_dec_keep T LS LW s p pr :
  inv D None T LS LW [] s -> procs s !! p = Some pr -> is_dead pr = false \/ p_tmp_ref pr <> 1 ->
  exists s', binder_proc_dec_tmpref p s = Some s' /\
    s' = on_proc p (fun p => p <| p_tmp_ref ::= fun c => c - 1 |>) s /\ inv D None T LS LW [] s'.
Proof.
  intros Hi Hp Hd. unfold binder_proc_dec_tmpref. set (s1 := on_proc p _ s).
  assert (Hp1 : procs s1 !! p = Some (pr <| p_tmp_ref ::= fun c => c - 1 |>)).
  { unfold s1. cbn. by rewrite lookup_alter_eq, Hp. }
  rewrite Hp1. cbn [mbind option_bind].
  exists s1. split; [|split; [done|by apply inv_on_proc]].
  destruct (_ && _) eqn:E; [|done]. rewrite !andb_true_iff, Z.eqb_eq in E. destruct E as [[E1 _] E2].
  cbn in E1, E2. destruct Hd; [congruence|lia].
Qed.

Lemma proc_dec_free D' T LS LW s p pr :
  inv D None T LS LW [] s -> procs s !! p = Some pr -> is_dead pr = true -> p_tmp_ref pr = 1 ->
  p_nodes pr = [] -> refs_by_desc pr = [] -> proc_threads p s = [] ->
  (forall l w, (l, w) ∈ works s -> ~ list_of (vt (view s)) l p) ->
  (forall q, q <> p -> D = Some q <-> D' = Some q) ->
  exists s', binder_proc_dec_tmpref p s = Some s' /\ inv D' None T LS LW [] s' /\
    nodes s' = nodes s /\ threads s' = threads s /\ context_mgr_node s' = context_mgr_node s /\
    procs s' = delete p (procs s) /\ works s' = works s.
Proof.
  intros Hi Hp Hd Ht Hn Hr Hth Hw HD. unfold binder_proc_dec_tmpref. set (s1 := on_proc p _ s).
  assert (Hp1 : procs s1 !! p = Some (pr <| p_tmp_ref ::= fun c => c - 1 |>)).
  { unfold s1. cbn. by rewrite lookup_alter_eq, Hp. }
  rewrite Hp1. cbn [mbind option_bind].
  replace (proc_threads p s1) with (proc_threads p s) by done. rewrite Hth.
  assert (Hcond : is_dead (pr <| p_tmp_ref ::= fun c => c - 1 |>) && bool_decide (@nil Z = []) &&
    (p_tmp_ref (pr <| p_tmp_ref ::= fun c => c - 1 |>) =? 0) = true).
  { cbn. rewrite Hd, Ht. done. }
  rewrite Hcond. unfold binder_free_proc.
  rewrite (worklist_empty (ProcTodo p)), (worklist_empty (DeliveredDeath p)); cbn [negb].
  2, 3: intros w Hin; by apply (Hw _ _ Hin).
  eexists. split; [done|].
  assert (Hdel : forall f (m : gmap Z binder_proc), delete p (alter f p m) = delete p m).
  { intros f m. apply map_eq. intros i. destruct (decide (i = p)) as [->|];
      [by rewrite !lookup_delete_eq|by rewrite !lookup_delete_ne, lookup_alter_ne]. }
  split; [|cbn; by rewrite Hdel]. destruct Hi as [Hs Hc]. split; [|by apply (counts_same _ _ _ _ _ s)].
  eapply eq_ind; [eapply (struct_free_proc D' (view s) p (view_proc pr) Hs); try done|].
  - by apply vp_lookup.
  - intros t E. cbn in E. apply lookup_fmap_Some in E as (th & E1 & E2).
    assert (Hin : t ∈ proc_threads p s) by (apply proc_threads_elem; eauto).
    rewrite Hth in Hin. by apply not_elem_of_nil in Hin.
  - unfold view, s1, on_proc, set; cbn. by rewrite Hdel, fmap_delete.
Qed.
End Txn.

(** ** Outside the release of a process *)

Section Live.
Implicit Types (T LS LW : list Z) (s : binder_state).

(** What a decrement of the temporary references of [q] does to the processes. *)
Definition life_dec (q : Z) (l : option (bool * Z)) : option (bool * Z) :=
  match l with
  | Some (dead, c) => if dead && (c =? 1) then None else Some (dead, c - 1)
  | None => None
  end.

Definition lives (s : binder_state) (p : Z) : option (bool * Z) := life <$> procs s !! p.

Definition dec_frame (q : Z) s s' : Prop :=
  threads s' = threads s /\ context_mgr_node s' = context_mgr_node s /\ quiet s s' /\
  (forall p, lives s' p = if decide (p = q) then life_dec q (lives s p) else lives s p).

Lemma dead_empty T LS LW s p pr : inv None None T LS LW [] s -> procs s !! p = Some pr -> is_dead pr = true ->
  p_nodes pr = [] /\ refs_by_desc pr = [] /\ refs_by_node pr = [] /\ proc_threads p s = [] /\
  (forall l w, (l, w) ∈ works s -> ~ list_of (vt (view s)) l p).
Proof.
  intros [Hs _] Hp Hd. destruct (ok_dead _ _ Hs p _ (vp_lookup _ _ _ Hp) Hd ltac:(done)) as (E1 & E2 & E3).
  assert (Hal : ~ alive None (view s) p).
  { intros (v & E & Hv). rewrite (vp_lookup _ _ _ Hp) in E. injection E as <-. by discriminate (Hv Hd). }
  split_and!; try done.
  - destruct (proc_threads p s) as [|t ts] eqn:Et; [done|].
    assert (Hin : t ∈ proc_threads p s) by (rewrite Et; left). apply proc_threads_elem in Hin as (th & H1 & H2).
    destruct Hal. rewrite <- H2. by apply (thread_alive None s t).
  - intros l w Hl Hlp. destruct (ok_list _ _ Hs l w Hl) as (q & H1 & H2).
    assert (q = p); [|by subst q]. destruct l; cbn in *; congruence.
Qed.

Lemma proc_dec_spec T LS LW s q :
  inv None None T LS LW [] s -> is_Some (procs s !! q) ->
  exists s', binder_proc_dec_tmpref q s = Some s' /\ inv None None T LS LW [] s' /\
    nodes s' = nodes s /\ dec_frame q s s'.
Proof.
  intros Hi [pr Hp]. destruct (is_dead pr && (p_tmp_ref pr =? 1)) eqn:E.
  - apply andb_true_iff in E as [E1 E2%Z.eqb_eq].
    destruct (dead_empty T LS LW s q pr Hi Hp E1) as (H1 & H2 & _ & H3 & H4).
    destruct (proc_dec_free (D:=None) None T LS LW s q pr) as (s' & E & I' & N' & T' & C' & P' & _); try done.
    exists s'. do 3 (split; [done|]). split_and!; [done..|by apply quiet_nodes|].
    intros p. unfold lives. rewrite P'. destruct (decide (p = q)) as [->|].
    + rewrite lookup_delete_eq, Hp. cbn. by rewrite E1, E2.
    + by rewrite lookup_delete_ne.
  - destruct (proc_dec_keep T LS LW s q pr Hi Hp) as (s' & E' & -> & I').
    { apply andb_false_iff in E as [E|E%Z.eqb_neq]; auto. }
    eexists. do 3 (split; [done|]). split_and!; [done..|by apply quiet_nodes|].
    intros p. unfold lives. cbn. destruct (decide (p = q)) as [->|].
    + rewrite lookup_alter_eq, Hp. cbn. by rewrite E.
    + by rewrite lookup_alter_ne.
Qed.

Lemma ref_dec_frame q s1 s2 s3 : ref_frame s1 s2 -> dec_frame q s2 s3 -> dec_frame q s1 s3.
Proof.
  intros (A1 & A2 & A3 & A4) (B1 & B2 & B3 & B4). split_and!; try congruence; [by eapply quiet_trans|].
  intros p. rewrite B4. unfold lives. by rewrite A4.
Qed.

Lemma dec_ref_frame q s1 s2 s3 : dec_frame q s1 s2 -> ref_frame s2 s3 -> dec_frame q s1 s3.
Proof.
  intros (A1 & A2 & A3 & A4) (B1 & B2 & B3 & B4). split_and!; try congruence; [by eapply quiet_trans|].
  intros p. rewrite <- A4. unfold lives. by rewrite B4.
Qed.

(** As [put_frame], after a decrement of the process as well. *)
Lemma put_quiet T LS LW s0 s n nd : inv None None (n :: T) LS LW [] s -> quiet s0 s ->
  nodes s0 !! n = Some nd -> (n_proc nd = None -> occ n LS <= occ n T) ->
  exists s', binder_put_node n s = Some s' /\ inv None None T LS LW [] s' /\ ref_frame s s'.
Proof.
  intros Hi Hq Hn Hp.
  destruct (quiet_node s0 s n nd) as (nd' & Hn' & Hid); [done..| |].
  { apply (ok_held _ _ _ _ _ _ (proj2 Hi)). left. by left. }
  apply (put_frame T LS LW s s n nd' Hi); [apply ref_frame_refl|done|]. intros Hd. apply Hp. unfold ident in Hid. congruence.
Qed.

(** The local strong reference of a transaction or a buffer is dropped. *)
Lemma dec_local_spec T LS LW s n :
  inv None None T (n :: LS) LW [] s ->
  exists s', binder_dec_node n true false s = Some s' /\ inv None None T LS LW [] s' /\ ref_frame s s'.
Proof.
  intros Hi. destruct (ok_held _ _ _ _ _ _ (proj2 Hi) n) as [nd Hn]; [right; left; left|].
  destruct (dec_node_free (D:=None) None T LS LW [] s n nd true false) as (s' & E & I' & F' & _);
    [by eapply (inv_dec_local None)|done..|]. exists s'. split_and!; [done..|by eapply node_ref_frame].
Qed.

(** ** The start of a transaction *)

(** A transaction holds its target node, and keeps its process. *)
Definition begin_frame (q : Z) s s' : Prop :=
  threads s' = threads s /\ context_mgr_node s' = context_mgr_node s /\ quiet s s' /\
  (forall p, lives s' p = if decide (p = q) then prod_map id (Z.add 1) <$> lives s p else lives s p).

Lemma begin_frame_bump q s : begin_frame q s (on_proc q (fun p => p <| p_tmp_ref ::= Z.add 1 |>) s).
Proof.
  split_and!; try done; [by apply quiet_nodes|]. intros p. unfold lives. cbn.
  destruct (decide (p = q)) as [->|]; [rewrite lookup_alter_eq|by rewrite lookup_alter_ne].
  by destruct (procs s !! q).
Qed.

Lemma get_node_refs_spec T LS LW s n nd :
  inv None None T LS LW [] s -> nodes s !! n = Some nd ->
  exists s', binder_get_node_refs_for_txn n s = Some (n_proc nd, s') /\
  match n_proc nd with
  | Some q => inv None None (n :: T) (n :: LS) LW [] s' /\ begin_frame q s s' /\ is_Some (procs s !! q)
  | None => s' = s
  end.
Proof.
  intros Hi Hn. unfold binder_get_node_refs_for_txn. rewrite Hn. cbn [mbind option_bind].
  destruct (n_proc nd) as [q|] eqn:Eq; [|by exists s].
  destruct (inc_local_spec T LS LW s n nd true Hi Hn) as (ret & s1 & -> & I1 & F1 & _); [by rewrite Eq|].
  cbn [mbind option_bind].
  destruct (ok_held _ _ _ _ _ _ (proj2 I1) n) as [nd1 Hn1]; [right; left; left|].
  destruct (inc_tmpref_spec None T (n :: LS) LW [] s1 n nd1 I1 Hn1) as [-> I2]. cbn [mbind option_bind].
  set (s2 := on_node n _ s1) in *.
  assert (F2 : ref_frame s s2).
  { eapply ref_frame_trans; [by eapply node_ref_frame|]. by apply (node_ref_frame n), node_frame_on_node. }
  destruct (owner_alive None s n nd q (proj1 Hi) Hn Eq) as (v & (pr & Hp & _)%vp_Some & _).
  assert (Hp2 : is_Some (procs s2 !! q)).
  { destruct F2 as (_ & _ & _ & F2). specialize (F2 q). rewrite Hp in F2. by destruct (procs s2 !! q). }
  destruct Hp2 as [pr2 Hp2]. rewrite Hp2. cbn [mbind option_bind]. eexists. split; [done|].
  split; [by apply inv_on_proc|]. split; [|by eexists].
  destruct (begin_frame_bump q s2) as (B1 & B2 & B3 & B4), F2 as (A1 & A2 & A3 & A4).
  split_and!; try congruence; [by eapply quiet_trans|]. intros p. rewrite B4. unfold lives. by rewrite A4.
Qed.

Lemma find_target_spec T LS LW s p handle :
  inv None None T LS LW [] s -> is_Some (procs s !! p) ->
  (forall n, context_mgr_node s = Some n -> is_Some (nodes s !! n)) ->
  exists o s', find_target p handle s = Some (o, s') /\
  match o with
  | Some (n, q) => inv None None (n :: T) (n :: LS) LW [] s' /\ begin_frame q s s' /\
      (exists nd, nodes s !! n = Some nd /\ n_proc nd = Some q) /\ is_Some (procs s !! q)
  | None => s' = s
  end.
Proof.
  intros Hi Hp Hctx. unfold find_target.
  assert (Hnode : exists o, (if truth handle then
            r ← binder_get_ref_olocked p handle true s;
            match r with
            | Some r => Some <$> (rf ← refs s !! r; r_node rf)
            | None => Some None
            end
          else Some (context_mgr_node s)) = Some o /\ forall n, o = Some n -> is_Some (nodes s !! n)).
  { destruct (truth handle); [|eauto].
    destruct (get_ref_spec T LS LW s p handle true Hi Hp) as (o & -> & Ho). cbn [mbind option_bind].
    destruct o as [r|]; [|by eexists]. destruct (Ho r eq_refl) as (rf & n & nd & Hr & _ & _ & Hn & Hnd & _).
    rewrite Hr. cbn. rewrite Hn. cbn. eexists. split; [done|]. intros ? [= <-]. by eexists. }
  destruct Hnode as (o & -> & Ho). cbn [mbind option_bind].
  destruct o as [n|]; [|by exists None, s]. destruct (Ho n eq_refl) as [nd Hn].
  destruct (get_node_refs_spec T LS LW s n nd Hi Hn) as (s' & -> & Hs'). cbn [mbind option_bind].
  eexists _, s'. split; [done|]. destruct (n_proc nd) as [q|] eqn:Eq; [|done].
  destruct Hs' as (? & ? & ?). split_and!; try done. by exists nd.
Qed.

(** ** The objects of a buffer *)

(** An object translated for the process [q], with the node it holds; a process
    that has died holds none. *)
Definition held_object (q : Z) s (o : flat_binder_object * option Z) : Prop :=
  match o with
  | (BINDER _ ptr _, Some n) => exists nd, nodes s !! n = Some nd /\ n_proc nd = Some q /\ n_ptr nd = ptr
  | (BINDER _ _ _, None) => exists c, lives s q = Some (true, c)
  | (HANDLE _ _, g) => g = None
  end.

Definition strong_node (o : flat_binder_object * option Z) : option Z :=
  match o with (BINDER true _ _, g) => g | _ => None end.
Definition weak_node (o : flat_binder_object * option Z) : option Z :=
  match o with (BINDER false _ _, g) => g | _ => None end.
Definition strong_nodes (os : list (flat_binder_object * option Z)) : list Z := omap strong_node os.
Definition weak_nodes (os : list (flat_binder_object * option Z)) : list Z := omap weak_node os.

Definition opt_list (o : option Z) : list Z := match o with Some n => [n] | None => [] end.

Lemma strong_nodes_cons o os : strong_nodes (o :: os) = opt_list (strong_node o) ++ strong_nodes os.
Proof. unfold strong_nodes. cbn [omap list_omap]. by destruct (strong_node o). Qed.
Lemma weak_nodes_cons o os : weak_nodes (o :: os) = opt_list (weak_node o) ++ weak_nodes os.
Proof. unfold weak_nodes. cbn [omap list_omap]. by destruct (weak_node o). Qed.

Lemma held_frame q o s s' : held_object q s o -> quiet s s' -> lives s' q = lives s q ->
  (forall n, o.2 = Some n -> is_Some (nodes s' !! n)) -> held_object q s' o.
Proof.
  intros Ho Hq Hl Hn. destruct o as [[st ptr c|st h] [n|]]; cbn in *; try done.
  - destruct Ho as (nd & H1 & H2 & H3). destruct (quiet_node s s' n nd Hq H1) as (nd' & H4 & H5); [by apply Hn|].
    exists nd'. unfold ident in H5. split_and!; congruence.
  - by rewrite Hl.
Qed.

Lemma held_in n os : Some n ∈ os.*2 -> (forall o, o ∈ os -> exists q s, held_object q s o) ->
  n ∈ strong_nodes os \/ n ∈ weak_nodes os.
Proof.
  intros ([fp g] & E & Hin)%list_elem_of_fmap Ho. cbn in E. subst g.
  destruct (Ho _ Hin) as (q & s & Hh). destruct fp as [[] ptr c|st h]; [left|right|done];
    apply list_elem_of_omap; eexists; split; done.
Qed.

(** The node of a process at a user pointer. *)
Lemma get_node_spec T LS LW s q n nd :
  inv None None T LS LW [] s -> nodes s !! n = Some nd -> n_proc nd = Some q ->
  exists s', binder_get_node q (n_ptr nd) s = Some (Some n, s') /\ inv None None (n :: T) LS LW [] s' /\
    ref_frame s s'.
Proof.
  intros Hi Hn Hq. destruct (ok_owner _ _ (proj1 Hi) n _ q (vn_lookup _ _ _ Hn) Hq) as (v & (pr & Hp & ->)%vp_Some & Hin).
  destruct (ok_sorted _ _ (proj1 Hi) q _ (vp_lookup _ _ _ Hp)) as (S1 & _).
  unfold binder_get_node. rewrite Hp. cbn [mbind option_bind].
  assert (Hf : tree_find (n_ptr nd) (p_nodes pr) = Some n) by (by apply tree_find_Some). rewrite Hf.
  destruct (inc_tmpref_spec None T LS LW [] s n nd Hi Hn) as [-> I1]. cbn [mbind option_bind].
  eexists. split; [done|]. split; [exact I1|]. by apply (node_ref_frame n), node_frame_on_node.
Qed.

Lemma release_object_spec T LS LW s q fp g :
  inv None None T (strong_nodes [(fp, g)] ++ LS) (weak_nodes [(fp, g)] ++ LW) [] s ->
  held_object q s (fp, g) -> is_Some (procs s !! q) ->
  exists s', release_object q fp s = Some s' /\ inv None None T LS LW [] s' /\ ref_frame s s'.
Proof.
  intros Hi Ho Hp. destruct fp as [strong ptr c|strong h].
  - unfold release_object. destruct g as [n|].
    + destruct Ho as (nd & Hn & Hq & <-).
      destruct (get_node_spec T _ _ s q n nd Hi Hn Hq) as (s1 & -> & I1 & F1). cbn [mbind option_bind].
      destruct (quiet_node s s1 n nd) as (nd1 & Hn1 & Hid); [apply F1|done| |].
      { apply (ok_held _ _ _ _ _ _ (proj2 I1)). left; left. }
      assert (H2 : exists s2, binder_dec_node n strong false s1 = Some s2 /\
        inv None None (n :: T) LS LW [] s2 /\ node_frame n s1 s2).
      { destruct (dec_node_free (D:=None) None (n :: T) LS LW [] s1 n nd1 strong false) as (s2 & ? & ? & ? & _); [|done..|eauto].
        destruct strong; cbn in I1; [by eapply (inv_dec_local None)|by eapply (inv_dec_weak None)]. }
      destruct H2 as (s2 & -> & I2 & F2). cbn [mbind option_bind].
      assert (F : ref_frame s s2) by (eapply ref_frame_trans; [exact F1|by eapply node_ref_frame]).
      destruct (put_frame T LS LW s s2 n nd I2 F Hn) as (s3 & -> & I3 & F3); [by rewrite Hq|]. by exists s3.
    + destruct Ho as (cnt & Hd). unfold lives in Hd. destruct Hp as [pr Hp]. rewrite Hp in Hd. cbn in Hd.
      injection Hd as Hd _. destruct (dead_empty _ _ _ s q pr Hi Hp Hd) as (E & _).
      unfold binder_get_node. rewrite Hp. cbn [mbind option_bind]. rewrite E. cbn.
      exists s. split_and!; [done| |apply ref_frame_refl]. by destruct strong.
  - destruct (update_ref_spec (D:=None) T LS LW s q h false strong) as (ret & rd & s' & E & I' & F' & _); [|done|].
    { cbn in Ho. subst g. by destruct strong. }
    unfold release_object, binder_dec_ref_for_handle. rewrite E. cbn. by exists s'.
Qed.

Lemma release_objects_spec T LS LW s q os :
  inv None None T (strong_nodes os ++ LS) (weak_nodes os ++ LW) [] s ->
  (forall o, o ∈ os -> held_object q s o) -> is_Some (procs s !! q) ->
  exists s', release_objects q os.*1 s = Some s' /\ inv None None T LS LW [] s' /\ ref_frame s s'.
Proof.
  revert s. induction os as [|[fp g] os IH]; intros s Hi Ho Hp; [by exists s|]. cbn [fmap list_fmap release_objects fst].
  destruct (release_object_spec T (strong_nodes os ++ LS) (weak_nodes os ++ LW) s q fp g) as (s1 & -> & I1 & F1).
  - eapply inv_perm; [done|..|exact Hi]; intros n.
    + rewrite !strong_nodes_cons, !occ_app. change (strong_nodes []) with (@nil Z). rewrite occ_nil. lia.
    + rewrite !weak_nodes_cons, !occ_app. change (weak_nodes []) with (@nil Z). rewrite occ_nil. lia.
  - apply Ho. by left.
  - done.
  - cbn [mbind option_bind]. pose proof F1 as (A1 & A2 & A3 & A4).
    destruct (IH s1 I1) as (s' & -> & I' & F').
    + intros o Hin. eapply held_frame; [apply Ho; by right|done|unfold lives; by rewrite A4|].
      intros n Hn. apply (ok_held _ _ _ _ _ _ (proj2 I1)). rewrite !elem_of_app.
      destruct (held_in n os) as [|]; [|intros o' ?; exists q, s; apply Ho; by right|tauto..].
      rewrite <- Hn. apply list_elem_of_fmap. by exists o.
    + specialize (A4 q). destruct Hp as [pr Hp]. rewrite Hp in A4. by destruct (procs s1 !! q).
    + exists s'. split_and!; [done..|]. by eapply ref_frame_trans.
Qed.

Lemma buffer_release_spec T LS LW s q target os :
  inv None None T (opt_list target ++ strong_nodes os ++ LS) (weak_nodes os ++ LW) [] s ->
  (forall o, o ∈ os -> held_object q s o) -> is_Some (procs s !! q) ->
  exists s', binder_transaction_buffer_release q target os.*1 s = Some s' /\ inv None None T LS LW [] s' /\ ref_frame s s'.
Proof.
  intros Hi Ho Hp. unfold binder_transaction_buffer_release. destruct target as [n|]; cbn [opt_list app] in Hi.
  - destruct (dec_local_spec T _ _ s n Hi) as (s1 & -> & I1 & F1). cbn [mbind option_bind].
    pose proof F1 as (A1 & A2 & A3 & A4).
    destruct (release_objects_spec T LS LW s1 q os I1) as (s' & -> & I' & F').
    + intros o Hin. eapply held_frame; [by apply Ho|done|unfold lives; by rewrite A4|].
      intros m Hm. apply (ok_held _ _ _ _ _ _ (proj2 I1)). rewrite !elem_of_app.
      destruct (held_in m os) as [|]; [|intros o' ?; exists q, s; by apply Ho|tauto..].
      rewrite <- Hm. apply list_elem_of_fmap. by exists o.
    + specialize (A4 q). destruct Hp as [pr Hp]. rewrite Hp in A4. by destruct (procs s1 !! q).
    + exists s'. split_and!; [done..|]. by eapply ref_frame_trans.
  - cbn [mbind option_bind]. by apply release_objects_spec.
Qed.

(** ** The end of a transaction *)

(** A target is held with a temporary reference; a dead one is held by
    transactions only. *)
Lemma put_target T LS LW s0 s n :
  inv None None (n :: T) LS LW [] s -> quiet s0 s -> inv None None (n :: T) (n :: LS) LW [] s0 ->
  exists s', binder_dec_node_tmpref n s = Some s' /\ inv None None T LS LW [] s' /\ ref_frame s s'.
Proof.
  intros Hi Hq H0. destruct (ok_held _ _ _ _ _ _ (proj2 H0) n) as [nd Hn]; [left; left|].
  eapply (put_quiet T LS LW s0 s n nd); try done.
  intros Hd. destruct (dead_held (n :: T) (n :: LS) LW s0 n nd H0 Hn Hd) as [H1 _]. rewrite !occ_head in H1. lia.
Qed.

Lemma abort_spec T LS LW s n q :
  inv None None (n :: T) (n :: LS) LW [] s -> is_Some (procs s !! q) ->
  exists s', abort_transaction n q s = Some s' /\ inv None None T LS LW [] s' /\ dec_frame q s s'.
Proof.
  intros Hi Hq. unfold abort_transaction.
  destruct (proc_dec_spec (n :: T) (n :: LS) LW s q Hi Hq) as (s1 & -> & I1 & N1 & F1). cbn [mbind option_bind].
  destruct (dec_local_spec (n :: T) LS LW s1 n I1) as (s2 & -> & I2 & F2). cbn [mbind option_bind].
  destruct (put_target T LS LW s1 s2 n I2) as (s3 & -> & I3 & F3); [apply F2|done|].
  exists s3. split_and!; [done..|]. do 2 (eapply dec_ref_frame; [|done]). done.
Qed.

Lemma end_spec T LS LW s target q :
  inv None None (opt_list target ++ T) (opt_list target ++ LS) LW [] s -> is_Some (procs s !! q) ->
  (forall n nd, target = Some n -> nodes s !! n = Some nd -> is_Some (n_proc nd)) ->
  exists s', end_transaction target q s = Some s' /\ inv None None T (opt_list target ++ LS) LW [] s' /\
    dec_frame q s s'.
Proof.
  intros Hi Hq Hlive. unfold end_transaction.
  destruct (proc_dec_spec _ _ LW s q Hi Hq) as (s1 & -> & I1 & N1 & F1). cbn [mbind option_bind].
  destruct target as [n|]; [|by exists s1]. cbn [opt_list app] in *.
  destruct (ok_held _ _ _ _ _ _ (proj2 I1) n) as [nd Hn]; [left; left|].
  destruct (put_quiet T (n :: LS) LW s1 s1 n nd I1) as (s2 & E2 & I2 & F2); [by apply quiet_nodes|done| |].
  { intros Hd. rewrite N1 in Hn. destruct (Hlive n nd eq_refl Hn). congruence. }
  unfold binder_put_node in E2. exists s2. split_and!; [done..|]. by eapply dec_ref_frame.
Qed.

Lemma fail_spec T LS LW s target q os :
  inv None None (opt_list target ++ T) (opt_list target ++ strong_nodes os ++ LS) (weak_nodes os ++ LW) [] s ->
  (forall o, o ∈ os -> held_object q s o) -> is_Some (procs s !! q) ->
  exists s', fail_transaction target q os.*1 s = Some s' /\ inv None None T LS LW [] s' /\ dec_frame q s s'.
Proof.
  intros Hi Ho Hq. unfold fail_transaction.
  destruct (buffer_release_spec (opt_list target ++ T) LS LW s q target os Hi Ho Hq) as (s1 & -> & I1 & F1).
  cbn [mbind option_bind].
  assert (Hq1 : forall s', ref_frame s s' -> is_Some (procs s' !! q)).
  { intros s' (_ & _ & _ & A4). specialize (A4 q). destruct Hq as [pr Hq]. rewrite Hq in A4. by destruct (procs s' !! q). }
  destruct target as [n|]; cbn [opt_list app] in *.
  - assert (Hdead : exists nd, nodes s !! n = Some nd /\ (n_proc nd = None -> occ n LS <= occ n T)).
    { destruct (ok_held _ _ _ _ _ _ (proj2 Hi) n) as [nd Hn]; [left; left|]. exists nd. split; [done|].
      intros Hd. destruct (dead_held _ _ _ s n nd Hi Hn Hd) as [H1 _]. rewrite !occ_head, occ_app in H1.
      pose proof (occ_nonneg n (strong_nodes os)). lia. }
    destruct Hdead as (nd & Hn & Hd).
    destruct (put_quiet T LS LW s s1 n nd I1) as (s2 & E2 & I2 & F2); [apply F1|done..|].
    unfold binder_put_node in E2. rewrite E2. cbn [mbind option_bind].
    assert (F : ref_frame s s2) by by eapply ref_frame_trans.
    destruct (proc_dec_spec T LS LW s2 q I2 (Hq1 s2 F)) as (s3 & -> & I3 & _ & F3).
    exists s3. split_and!; [done..|]. by eapply ref_dec_frame.
  - cbn [mbind option_bind]. destruct (proc_dec_spec T LS LW s1 q I1 (Hq1 s1 F1)) as (s3 & -> & I3 & _ & F3).
    exists s3. split_and!; [done..|]. by eapply ref_dec_frame.
Qed.

Lemma begin_abort q s1 s2 s3 : begin_frame q s1 s2 -> dec_frame q s2 s3 -> is_Some (lives s1 q) ->
  (forall c, lives s1 q = Some (true, c) -> c <> 0) -> ref_frame s1 s3.
Proof.
  intros (A1 & A2 & A3 & A4) (B1 & B2 & B3 & B4) [[d c] Hl] Hc. split_and!; try congruence; [by eapply quiet_trans|].
  intros p. change (lives s3 p = lives s1 p). rewrite B4, A4. case_decide as Hp; [|done]. subst p. rewrite Hl. cbn.
  assert (Hcond : d && (1 + c =? 1) = false).
  { destruct d; [|done]. apply Z.eqb_neq. specialize (Hc c Hl). lia. }
  rewrite Hcond. do 2 f_equal. lia.
Qed.

(** BC_TRANSACTION up to the allocation of the buffer. *)
Lemma begin_transaction_spec T LS LW s p handle allowed :
  inv None None T LS LW [] s -> is_Some (procs s !! p) ->
  (forall n, context_mgr_node s = Some n -> is_Some (nodes s !! n)) ->
  (forall q c, lives s q = Some (true, c) -> c <> 0) ->
  exists o s', begin_transaction p handle allowed s = Some (o, s') /\
  match o with
  | Some (n, q) => inv None None (n :: T) (n :: LS) LW [] s' /\ begin_frame q s s' /\
      (exists nd, nodes s !! n = Some nd /\ n_proc nd = Some q) /\ is_Some (procs s !! q)
  | None => inv None None T LS LW [] s' /\ ref_frame s s'
  end.
Proof.
  intros Hi Hp Hctx Hl. unfold begin_transaction.
  destruct (find_target_spec T LS LW s p handle Hi Hp Hctx) as (o & s1 & -> & Ho). cbn [mbind option_bind].
  destruct o as [[n q]|]; [|rewrite Ho; exists None, s; split; [done|]; split; [done|apply ref_frame_refl]].
  destruct Ho as (I1 & F1 & Hn & [qr Hq]). destruct (_ || _); [|exists (Some (n, q)), s1; by split_and!].
  assert (Hq1 : is_Some (procs s1 !! q)).
  { destruct F1 as (_ & _ & _ & F1). specialize (F1 q). unfold lives in F1. rewrite decide_True, Hq in F1 by done.
    by destruct (procs s1 !! q). }
  destruct (abort_spec T LS LW s1 n q I1 Hq1) as (s2 & -> & I2 & F2). cbn [mbind option_bind].
  exists None, s2. split; [done|]. split; [done|]. eapply (begin_abort q); try done.
  - unfold lives. rewrite Hq. by eexists.
  - intros c. apply Hl.
Qed.
End Live.
