(* ===== verification/BinderRefProto.v ===== *)
(** * Binder driver: what a process is told about its nodes

    The protocol of BR_INCREFS, BR_ACQUIRE, BR_RELEASE and BR_DECREFS as an
    automaton, and the operations that take part in it: reading a node's work,
    the answers BC_INCREFS_DONE and BC_ACQUIRE_DONE, and becoming the context
    manager. *)

From S2P Require Import Prelude BinderRef BinderRefInv BinderRefNode BinderRefHandle BinderRefOps BinderRefTxn.

(** ** The protocol *)

(** A reference that the process was asked to hold: not, asked but not
    acknowledged, or held. *)
Inductive held := No | Pending | Yes.

#[export] Instance held_eq : EqDecision held.
Proof. solve_decision. Defined.

Inductive message :=
  | Told (c : br_command)
  | Done (acquire : bool)
  | Manager.

(** The weak and the strong reference of a node. *)
Definition proto_step (st : held * held) (m : message) : option (held * held) :=
  let '(weak, strong) := st in
  match m with
  | Told BR_INCREFS => if decide (weak = No) then Some (Pending, strong) else None
  | Told BR_ACQUIRE => if decide (strong = No /\ weak <> No) then Some (weak, Pending) else None
  | Told BR_RELEASE => if decide (strong = Yes) then Some (weak, No) else None
  | Told BR_DECREFS => if decide (weak = Yes /\ strong = No) then Some (No, strong) else None
  | Done false => if decide (weak = Pending) then Some (Yes, strong) else None
  | Done true => if decide (strong = Pending) then Some (weak, Yes) else None
  | Manager => Some (if decide (weak = No) then Yes else weak, if decide (strong = No) then Yes else strong)
  end.

Fixpoint protocol (st : held * held) (ms : list message) : option (held * held) :=
  match ms with
  | [] => Some st
  | m :: ms => st ← proto_step st m; protocol st ms
  end.

Lemma protocol_app st ms ms' st' :
  protocol st ms = Some st' -> protocol st (ms ++ ms') = protocol st' ms'.
Proof.
  revert st. induction ms as [|m ms IH]; cbn; intros st; [by intros [= ->]|].
  destruct (proto_step st m); cbn; [apply IH|done].
Qed.

Definition flag (has pending : bool) : held := if has then if pending then Pending else Yes else No.

Definition flags (nd : binder_node) : held * held :=
  (flag (has_weak_ref nd) (pending_weak_ref nd), flag (has_strong_ref nd) (pending_strong_ref nd)).

(** What a process was told about its object at a user pointer. *)
Definition known (s : binder_state) (p ptr : Z) : held * held :=
  match procs s !! p with
  | Some pr =>
      match tree_find ptr (p_nodes pr) with
      | Some n => match nodes s !! n with Some nd => flags nd | None => (No, No) end
      | None => (No, No)
      end
  | None => (No, No)
  end.

Section Known.
Implicit Types s : binder_state.

Lemma known_node L s n nd p : struct_ok None L (view s) -> nodes s !! n = Some nd -> n_proc nd = Some p ->
  known s p (n_ptr nd) = flags nd.
Proof.
  intros Hs Hn Hp. destruct (ok_owner _ _ Hs n _ p (vn_lookup _ _ _ Hn) Hp) as (v & (pr & E & ->)%vp_Some & Hin).
  destruct (ok_sorted _ _ Hs p _ (vp_lookup _ _ _ E)) as (S1 & _).
  assert (Hf : tree_find (n_ptr nd) (p_nodes pr) = Some n) by (by apply tree_find_Some).
  unfold known. by rewrite E, Hf, Hn.
Qed.

Lemma known_cases L s p ptr : struct_ok None L (view s) ->
  (exists n nd, nodes s !! n = Some nd /\ n_proc nd = Some p /\ n_ptr nd = ptr /\ known s p ptr = flags nd) \/
  known s p ptr = (No, No) /\ forall n nd, nodes s !! n = Some nd -> n_proc nd = Some p -> n_ptr nd <> ptr.
Proof.
  intros Hs. unfold known. destruct (procs s !! p) as [pr|] eqn:E.
  - destruct (ok_sorted _ _ Hs p _ (vp_lookup _ _ _ E)) as (S1 & _).
    destruct (tree_find ptr (p_nodes pr)) as [n|] eqn:Ef.
    + left. apply (tree_find_Some _ _ _ S1) in Ef.
      destruct (ok_nodes _ _ Hs p _ ptr n (vp_lookup _ _ _ E) Ef) as (v & (nd & Hn & ->)%vn_Some & H1 & H2).
      exists n, nd. by rewrite Hn.
    + right. split; [done|]. intros n nd Hn Hp <-.
      destruct (ok_owner _ _ Hs n _ p (vn_lookup _ _ _ Hn) Hp) as (v & (pr' & E' & ->)%vp_Some & Hin).
      rewrite E in E'. injection E' as <-. apply (tree_find_Some _ _ _ S1) in Hin. cbn in Hin, Ef. congruence.
  - right. split; [done|]. intros n nd Hn Hp <-.
    destruct (ok_owner _ _ Hs n _ p (vn_lookup _ _ _ Hn) Hp) as (v & (pr' & E' & ->)%vp_Some & Hin). congruence.
Qed.

(** Two nodes of a process have different user pointers. *)
Lemma node_unique L s n nd m md p : struct_ok None L (view s) -> nodes s !! n = Some nd -> nodes s !! m = Some md ->
  n_proc nd = Some p -> n_proc md = Some p -> n_ptr nd = n_ptr md -> n = m.
Proof.
  intros Hs Hn Hm Hnp Hmp Hptr.
  destruct (ok_owner _ _ Hs n _ p (vn_lookup _ _ _ Hn) Hnp) as (v & (pr & E & ->)%vp_Some & Hin).
  destruct (ok_owner _ _ Hs m _ p (vn_lookup _ _ _ Hm) Hmp) as (v & (pr' & E' & ->)%vp_Some & Hin').
  rewrite E in E'. injection E' as <-. destruct (ok_sorted _ _ Hs p _ (vp_lookup _ _ _ E)) as (S1 & _).
  cbn in Hin, Hin'. rewrite Hptr in Hin. by eapply sorted_unique.
Qed.

Lemma gone_flags nd p : gone nd -> n_proc nd = Some p -> flags nd = (No, No).
Proof. intros [|[H1 H2]]; [congruence|]. intros _. unfold flags. by rewrite H1, H2. Qed.

(** Nothing is told about the nodes of the process [p]. *)
Definition told_for (p : Z) s s' : Prop :=
  (forall m nd', nodes s' !! m = Some nd' -> n_proc nd' = Some p ->
     match nodes s !! m with Some nd => ident nd' = ident nd | None => born nd' end) /\
  (forall m nd, nodes s !! m = Some nd -> n_proc nd = Some p ->
     match nodes s' !! m with Some nd' => ident nd' = ident nd | None => gone nd end).

Lemma told_told_for p s s' : told s s' -> told_for p s s'.
Proof.
  intros [H1 H2]. split; [|by intros m nd Hm _; apply H2]. intros m nd' Hm Hp.
  destruct (nodes s !! m) as [nd|] eqn:E; [|by apply (H1 m)]. specialize (H2 m nd E). by rewrite Hm in H2.
Qed.

Lemma told_for_known s s' p ptr : struct_ok None None (view s) -> struct_ok None None (view s') -> told_for p s s' ->
  known s' p ptr = known s p ptr.
Proof.
  intros Hs Hs' [H1 H2].
  destruct (known_cases None s' p ptr Hs') as [(n & nd & Hn & Hp & Hptr & ->)|[-> Hnone]].
  - specialize (H1 n nd Hn Hp). destruct (nodes s !! n) as [nd0|] eqn:E.
    + unfold ident in H1.
      assert (Hk : known s p ptr = flags nd0).
      { rewrite <- Hptr. replace (n_ptr nd) with (n_ptr nd0) by congruence. eapply known_node; [done..|congruence]. }
      rewrite Hk. unfold flags. congruence.
    + destruct H1 as (_ & B1 & B2 & _). unfold flags. rewrite B1, B2. cbn.
      destruct (known_cases None s p ptr Hs) as [(m & md & Hm & Hmp & Hmptr & ->)|[-> _]]; [|done].
      specialize (H2 m md Hm Hmp). destruct (nodes s' !! m) as [md'|] eqn:Em; [|symmetry; by eapply gone_flags].
      unfold ident in H2. assert (n = m) by (eapply (node_unique None s'); try done; congruence). subst m. congruence.
  - destruct (known_cases None s p ptr Hs) as [(m & md & Hm & Hmp & Hmptr & ->)|[-> _]]; [|done].
    specialize (H2 m md Hm Hmp). destruct (nodes s' !! m) as [md'|] eqn:Em; [|symmetry; by eapply gone_flags].
    unfold ident in H2. destruct (Hnone m md' Em); congruence.
Qed.

(** Nobody learns anything from the operations that tell nothing. *)
Lemma told_known s s' p ptr : struct_ok None None (view s) -> struct_ok None None (view s') -> told s s' ->
  known s' p ptr = known s p ptr.
Proof. intros. apply told_for_known; [done..|]. by apply told_told_for. Qed.

(** A node learns something: only this node's object is concerned. *)
Lemma on_node_known s n nd f p ptr q : struct_ok None None (view s) -> nodes s !! n = Some nd -> n_proc nd = Some q ->
  view_node (f nd) = view_node nd ->
  known (on_node n f s) p ptr = if decide (p = q /\ ptr = n_ptr nd) then flags (f nd) else known s p ptr.
Proof.
  intros Hs Hn Hq Hv. unfold view_node in Hv. injection Hv as V1 V2 V3. unfold known. cbn [procs on_node].
  destruct (procs (on_node n f s) !! p) as [pr|] eqn:E; cbn in E; rewrite E.
  - destruct (ok_sorted _ _ Hs p _ (vp_lookup _ _ _ E)) as (S1 & _).
    destruct (tree_find ptr (p_nodes pr)) as [m|] eqn:Ef.
    + apply (tree_find_Some _ _ _ S1) in Ef.
      destruct (ok_nodes _ _ Hs p _ ptr m (vp_lookup _ _ _ E) Ef) as (v & (md & Hm & ->)%vn_Some & H1 & H2).
      cbn in H1, H2 |- *. destruct (decide (n = m)) as [<-|Hne].
      * rewrite Hn in Hm. injection Hm as <-. rewrite lookup_alter_eq, Hn. cbn. by rewrite decide_True by (split; congruence).
      * rewrite lookup_alter_ne by done. rewrite decide_False; [done|]. intros [-> ->].
        destruct Hne. eapply (node_unique None s); done.
    + rewrite decide_False; [done|]. intros [-> ->].
      pose proof (known_node None s n nd q Hs Hn Hq) as Hk.
      destruct (ok_owner _ _ Hs n _ q (vn_lookup _ _ _ Hn) Hq) as (v & (pr' & E' & ->)%vp_Some & Hin).
      rewrite E in E'. injection E' as <-. apply (tree_find_Some _ _ _ S1) in Hin. cbn in Hin, Ef. congruence.
  - rewrite decide_False; [done|]. intros [-> ->].
    destruct (ok_owner _ _ Hs n _ q (vn_lookup _ _ _ Hn) Hq) as (v & (pr' & E' & ->)%vp_Some & Hin). congruence.
Qed.
End Known.

(** ** The operations that tell something *)

Section Tell.
Implicit Types (T LS LW : list Z) (s : binder_state).

(** The process [p] gets these messages about its object at [ptr], in turn. *)
Definition learns (p ptr : Z) (ms : list message) s s' : Prop :=
  protocol (known s p ptr) ms = Some (known s' p ptr) /\
  forall q ptr', ~ (q = p /\ ptr' = ptr) -> known s' q ptr' = known s q ptr'.

(** Nodes stay where they are. *)
Definition places s s' : Prop := forall n nd nd', nodes s !! n = Some nd -> nodes s' !! n = Some nd' ->
  n_proc nd' = n_proc nd /\ n_ptr nd' = n_ptr nd.

Lemma told_places s s' : told s s' -> places s s'.
Proof. intros [_ H2] n nd nd' Hn Hn'. specialize (H2 n nd Hn). rewrite Hn' in H2. unfold ident in H2. split; congruence. Qed.

Lemma on_node_then s s' n nd f p ms :
  struct_ok None None (view s) -> struct_ok None None (view s') -> nodes s !! n = Some nd -> n_proc nd = Some p ->
  view_node (f nd) = view_node nd -> quiet (on_node n f s) s' -> protocol (flags nd) ms = Some (flags (f nd)) ->
  learns p (n_ptr nd) ms s s' /\ places s s'.
Proof.
  intros Hs Hs' Hn Hp Hv Hq Hm.
  assert (Hs1 : struct_ok None None (view (on_node n f s))).
  { rewrite view_on_node; [done|]. intros nd' E. rewrite Hn in E. by injection E as <-. }
  assert (Hk : forall q ptr, known s' q ptr = known (on_node n f s) q ptr).
  { intros q ptr. apply told_known; [done..|]. by apply quiet_told. }
  split.
  - split.
    + rewrite Hk, (on_node_known s n nd f p (n_ptr nd) p Hs Hn Hp Hv), decide_True by done.
      by rewrite (known_node None s n nd p Hs Hn Hp).
    + intros q ptr Hne. by rewrite Hk, (on_node_known s n nd f q ptr p Hs Hn Hp Hv), decide_False.
  - intros m md md' Hm1 Hm2. destruct Hq as [_ H2].
    destruct (decide (m = n)) as [->|Hne].
    + rewrite Hn in Hm1. injection Hm1 as <-. specialize (H2 n (f nd)). cbn in H2. rewrite lookup_alter_eq, Hn in H2.
      specialize (H2 eq_refl). rewrite Hm2 in H2. unfold ident, view_node in *. split; congruence.
    + specialize (H2 m md). cbn in H2. rewrite lookup_alter_ne in H2 by done. specialize (H2 Hm1). rewrite Hm2 in H2.
      unfold ident in *. split; congruence.
Qed.

(** *** Reading the work of a node *)

Definition wants_strong (nd : binder_node) : bool :=
  truth (internal_strong_refs nd) || truth (local_strong_refs nd).
Definition wants_weak (nd : binder_node) : bool :=
  negb (bool_decide (n_refs nd = [])) || truth (local_weak_refs nd) || truth (tmp_refs nd) || wants_strong nd.

(** What reading does to the node if it stays. *)
Definition read_update (nd : binder_node) : binder_node :=
  let new_weak := wants_weak nd && negb (has_weak_ref nd) in
  let new_strong := wants_strong nd && negb (has_strong_ref nd) in
  nd <| has_weak_ref := wants_weak nd |> <| has_strong_ref := wants_strong nd |>
     <| pending_weak_ref := pending_weak_ref nd || new_weak |>
     <| pending_strong_ref := pending_strong_ref nd || new_strong |>
     <| local_weak_refs ::= Z.add (b2z new_weak) |> <| local_strong_refs ::= Z.add (b2z new_strong) |>.

Definition read_commands (nd : binder_node) : list br_command :=
  (if wants_weak nd && negb (has_weak_ref nd) then [BR_INCREFS] else []) ++
  (if wants_strong nd && negb (has_strong_ref nd) then [BR_ACQUIRE] else []) ++
  (if negb (wants_strong nd) && has_strong_ref nd then [BR_RELEASE] else []) ++
  (if negb (wants_weak nd) && has_weak_ref nd then [BR_DECREFS] else []).

(** The commands take the process from what it was told to what it has to
    hold. *)
Lemma read_protocol nd :
  (pending_strong_ref nd = true -> has_strong_ref nd = true) ->
  (pending_weak_ref nd = true -> has_weak_ref nd = true) ->
  (has_strong_ref nd = true -> has_weak_ref nd = true) ->
  (wants_strong nd = true -> wants_weak nd = true) ->
  (wants_strong nd = false -> pending_strong_ref nd = false) ->
  (wants_weak nd = false -> pending_weak_ref nd = false) ->
  protocol (flags nd) (Told <$> read_commands nd) = Some (flags (read_update nd)).
Proof.
  unfold read_commands, read_update, flags. cbn -[wants_strong wants_weak].
  generalize (wants_strong nd), (wants_weak nd), (has_strong_ref nd), (has_weak_ref nd), (pending_strong_ref nd),
    (pending_weak_ref nd).
  intros [] [] [] [] [] []; cbn; intros; intuition discriminate.
Qed.

Lemma on_node_compose n f g s : on_node n f (on_node n g s) = on_node n (fun nd => f (g nd)) s.
Proof.
  unfold on_node, set; cbn. f_equal. apply map_eq. intros i.
  destruct (decide (n = i)) as [->|]; [rewrite !lookup_alter_eq|by rewrite !lookup_alter_ne].
  by destruct (nodes s !! i).
Qed.

Lemma on_node_if (b : bool) n f s :
  (if b then on_node n f s else s) = on_node n (fun nd => if b then f nd else nd) s.
Proof. destruct b; [done|]. symmetry. by apply on_node_id. Qed.

Lemma on_node_at n nd f g s : nodes s !! n = Some nd -> f nd = g nd -> on_node n f s = on_node n g s.
Proof.
  intros Hn Hfg. unfold on_node, set; cbn. f_equal. apply map_eq. intros i.
  destruct (decide (i = n)) as [->|]; [by rewrite !lookup_alter_eq, Hn; cbn; rewrite Hfg|by rewrite !lookup_alter_ne].
Qed.

Lemma read_node_eq p n nd s : nodes s !! n = Some nd -> n_proc nd = Some p ->
  read_node_work p n s = Some (read_commands nd,
    let s := on_node n read_update s in
    if wants_weak nd then s
    else binder_free_node n (on_proc p (fun p => p <| p_nodes ::= tree_erase (n_ptr nd) |>) s)).
Proof.
  intros Hn Hp. unfold read_node_work. rewrite Hn. cbn [mbind option_bind]. rewrite Hp, bool_decide_true by done. cbn [negb].
  fold (wants_strong nd). fold (wants_weak nd). unfold read_commands. rewrite !on_node_if, !on_node_compose.
  assert (Hws : wants_strong nd = true -> wants_weak nd = true) by (unfold wants_weak; intros ->; by rewrite orb_true_r).
  rewrite (on_node_at n nd _ read_update s Hn).
  - destruct (wants_strong nd), (wants_weak nd); try done. by specialize (Hws eq_refl).
  - unfold read_update. destruct (wants_strong nd), (wants_weak nd), (has_strong_ref nd) eqn:Eh, (has_weak_ref nd) eqn:Eg;
      try by specialize (Hws eq_refl).
    all: cbn [andb negb b2z]; rewrite ?orb_false_r, ?orb_true_r; destruct nd; cbn in *; subst; done.
Qed.

Lemma truth_false z : truth z = false -> z = 0.
Proof. unfold truth. by destruct (Z.eqb_spec z 0). Qed.

Lemma read_node_spec T LS LW s p n nd :
  inv None None T LS LW [] s -> nodes s !! n = Some nd -> n_proc nd = Some p -> queued (WNode n) s = false ->
  exists s', read_node_work p n s = Some (read_commands nd, s') /\ inv None None T LS LW [] s' /\
    threads s' = threads s /\ context_mgr_node s' = context_mgr_node s /\ (forall q, lives s' q = lives s q) /\
    learns p (n_ptr nd) (Told <$> read_commands nd) s s' /\ places s s'.
Proof.
  intros Hi Hn Hp Hq. pose proof Hi as [Hs Hc]. rewrite (read_node_eq p n nd s Hn Hp).
  destruct (ok_counts _ _ _ _ _ _ Hc n nd Hn) as [Hci Hct Hcl _].
  destruct (Hcl ltac:(by rewrite Hp)) as (Hls & Hlw & Hps & Hpw & Hsw). clear Hcl.
  pose proof (occ_nonneg n T). pose proof (occ_nonneg n LS). pose proof (occ_nonneg n LW).
  set (s1 := on_node n read_update s).
  assert (Hws : wants_strong nd = true -> wants_weak nd = true) by (unfold wants_weak; intros ->; by rewrite orb_true_r).
  assert (Hstrong0 : wants_strong nd = false -> internal_strong_refs nd = 0 /\ local_strong_refs nd = 0).
  { unfold wants_strong. intros [E1%truth_false E2%truth_false]%orb_false_iff. done. }
  assert (Hweak0 : wants_weak nd = false -> n_refs nd = [] /\ local_weak_refs nd = 0 /\ tmp_refs nd = 0).
  { unfold wants_weak. intros [[[E1 E2%truth_false]%orb_false_iff E3%truth_false]%orb_false_iff _]%orb_false_iff.
    split_and!; try done. apply negb_false_iff in E1. by apply bool_decide_eq_true in E1. }
  assert (Hps0 : wants_strong nd = false -> pending_strong_ref nd = false).
  { intros [_ E]%Hstrong0. destruct (pending_strong_ref nd); [cbn in *; lia|done]. }
  assert (Hpw0 : wants_weak nd = false -> pending_weak_ref nd = false).
  { intros (_ & E & _)%Hweak0. destruct (pending_weak_ref nd); [cbn in *; lia|done]. }
  assert (Hv : view_node (read_update nd) = view_node nd) by done.
  assert (I1 : inv None None T LS LW [] s1).
  { eapply (inv_on_node None T LS LW []); try done. split; try done; [|cbn; congruence].
    intros _. cbn. split_and!; [..|exact Hws].
    - destruct (wants_strong nd), (has_strong_ref nd), (pending_strong_ref nd); cbn in *; try lia; by specialize (Hps eq_refl).
    - destruct (wants_weak nd), (has_weak_ref nd), (pending_weak_ref nd); cbn in *; try lia; by specialize (Hpw eq_refl).
    - destruct (wants_strong nd); [done|]. rewrite (Hps0 eq_refl). by destruct (has_strong_ref nd).
    - destruct (wants_weak nd); [done|]. rewrite (Hpw0 eq_refl). by destruct (has_weak_ref nd). }
  assert (Hproto : protocol (flags nd) (Told <$> read_commands nd) = Some (flags (read_update nd))).
  { by apply read_protocol. }
  assert (Hthen : forall s', inv None None T LS LW [] s' -> quiet s1 s' ->
    learns p (n_ptr nd) (Told <$> read_commands nd) s s' /\ places s s').
  { intros s' [Hs' _] Hqs. by eapply on_node_then. }
  eexists. split; [done|]. cbv zeta. fold s1. destruct (wants_weak nd) eqn:Ew.
  - split; [done|]. do 3 (split; [done|]). apply Hthen; [done|]. by apply quiet_nodes.
  - destruct (Hweak0 eq_refl) as (E1 & E2 & E3).
    assert (Es : wants_strong nd = false) by (destruct (wants_strong nd); [by specialize (Hws eq_refl)|done]).
    destruct (Hstrong0 Es) as [E4 E5].
    assert (Hn1 : nodes s1 !! n = Some (read_update nd)) by (unfold s1; cbn -[read_update]; by rewrite lookup_alter_eq, Hn).
    assert (I2 : inv None None T LS LW [] (binder_free_node n
      (on_proc p (fun p => p <| p_nodes ::= tree_erase (n_ptr nd) |>) s1))).
    { apply (inv_unlink None T LS LW [] s1 n (read_update nd) p); try done;
        destruct (pending_strong_ref nd), (pending_weak_ref nd); cbn in *; lia. }
    split; [done|]. split; [done|]. split; [done|]. split; [|apply Hthen; [done|]].
    + intros q. unfold lives. cbn. destruct (decide (p = q)) as [->|]; [rewrite lookup_alter_eq|by rewrite lookup_alter_ne].
      by destruct (procs s !! q).
    + eapply quiet_trans; [|apply quiet_free]; [by apply quiet_nodes|]. intros nd' Hn'. cbn in Hn'.
      fold s1 in Hn'. change (nodes s1 !! n = Some nd') in Hn'. rewrite Hn1 in Hn'. injection Hn' as <-.
      right. unfold read_update. cbn. by rewrite Es, Ew.
Qed.

(** *** Acknowledgements *)

(** The acknowledgement is expected: otherwise it is refused. *)
Definition done_expected (acquire : bool) (p ptr cookie : Z) s : bool :=
  match procs s !! p with
  | Some pr =>
      match tree_find ptr (p_nodes pr) with
      | Some n =>
          match nodes s !! n with
          | Some nd => (cookie =? n_cookie nd) && (if acquire then pending_strong_ref nd else pending_weak_ref nd)
          | None => false
          end
      | None => false
      end
  | None => false
  end.

Definition acknowledge (acquire : bool) (nd : binder_node) : binder_node :=
  if acquire then nd <| pending_strong_ref := false |> else nd <| pending_weak_ref := false |>.

Lemma inv_acknowledge T LS LW s n nd (acquire : bool) :
  inv None None T LS LW [] s -> nodes s !! n = Some nd -> is_Some (n_proc nd) ->
  (if acquire then pending_strong_ref nd else pending_weak_ref nd) = true ->
  inv None None T LS LW [] (on_node n (dec_count acquire false) (on_node n (acknowledge acquire) s)).
Proof.
  intros Hi Hn Hp Hpend. rewrite on_node_compose. pose proof Hi as [_ Hc].
  destruct (ok_counts _ _ _ _ _ _ Hc n nd Hn) as [Hci Hct Hcl _].
  destruct (Hcl Hp) as (Hls & Hlw & Hps & Hpw & Hsw).
  eapply (inv_on_node None T LS LW []); try done; [by destruct acquire|].
  split; try (by destruct acquire); [|destruct acquire; cbn; intros E; rewrite E in Hp; by destruct Hp].
  intros _. destruct acquire; cbn in *; rewrite Hpend in *; cbn in *; split_and!; (done || lia).
Qed.

Lemma bc_done_spec T LS LW s p ptr cookie acquire :
  inv None None T LS LW [] s -> is_Some (procs s !! p) ->
  exists s', bc_done acquire p ptr cookie s = Some s' /\ inv None None T LS LW [] s' /\
    threads s' = threads s /\ context_mgr_node s' = context_mgr_node s /\ (forall q, lives s' q = lives s q) /\
    (if done_expected acquire p ptr cookie s then learns p ptr [Done acquire] s s' /\ places s s' else quiet s s').
Proof.
  intros Hi [pr Hp]. pose proof Hi as [Hs _]. unfold bc_done, binder_get_node, done_expected. rewrite Hp. cbn [mbind option_bind].
  destruct (tree_find ptr (p_nodes pr)) as [n|] eqn:Ef.
  2: { cbn [mbind option_bind]. exists s. split_and!; [done..|by apply quiet_nodes]. }
  destruct (ok_sorted _ _ Hs p _ (vp_lookup _ _ _ Hp)) as (S1 & _).
  apply (tree_find_Some _ _ _ S1) in Ef.
  destruct (ok_nodes _ _ Hs p _ ptr n (vp_lookup _ _ _ Hp) Ef) as (v & (nd & Hn & ->)%vn_Some & Hq & Hptr).
  cbn in Hq, Hptr. rewrite Hn.
  destruct (inc_tmpref_spec None T LS LW [] s n nd Hi Hn) as [-> I1]. cbn [mbind option_bind].
  set (s1 := on_node n _ s) in *.
  assert (F1 : ref_frame s s1) by by apply (node_ref_frame n), node_frame_on_node.
  assert (Hn1 : nodes s1 !! n = Some (nd <| tmp_refs ::= Z.add 1 |>)) by (unfold s1; cbn; by rewrite lookup_alter_eq, Hn).
  rewrite Hn1. cbn [mbind option_bind].
  assert (Hno : exists s', binder_put_node n s1 = Some s' /\ inv None None T LS LW [] s' /\
    threads s' = threads s /\ context_mgr_node s' = context_mgr_node s /\ (forall q, lives s' q = lives s q) /\ quiet s s').
  { destruct (put_frame T LS LW s s1 n nd I1 F1 Hn) as (s' & E & I' & F'); [by rewrite Hq|].
    destruct F' as (A1 & A2 & A3 & A4). exists s'. by split_and!. }
  change (n_cookie (nd <| tmp_refs ::= Z.add 1 |>)) with (n_cookie nd).
  destruct (cookie =? n_cookie nd); [|exact Hno]. cbn [negb andb].
  change (pending_strong_ref (nd <| tmp_refs ::= Z.add 1 |>)) with (pending_strong_ref nd).
  change (pending_weak_ref (nd <| tmp_refs ::= Z.add 1 |>)) with (pending_weak_ref nd).
  destruct (if acquire then pending_strong_ref nd else pending_weak_ref nd) eqn:Epend; [|exact Hno]. cbn [negb].
  fold (acknowledge acquire). set (s2 := on_node n (acknowledge acquire) s1).
  change (on_node n (fun nd => if acquire then nd <| pending_strong_ref := false |> else nd <| pending_weak_ref := false |>) s1)
    with s2.
  assert (Hn2 : nodes s2 !! n = Some (acknowledge acquire (nd <| tmp_refs ::= Z.add 1 |>))).
  { change (nodes s2) with (alter (acknowledge acquire) n (nodes s1)). by rewrite lookup_alter_eq, Hn1. }
  assert (I2 : inv None None (n :: T) LS LW [] (on_node n (dec_count acquire false) s2)).
  { eapply inv_acknowledge; [exact I1|exact Hn1|cbn; by rewrite Hq|]. by destruct acquire. }
  destruct (dec_node_spec (D:=None) None (n :: T) LS LW [] s2 n _ acquire false I2 Hn2) as (b & s3 & -> & I3 & N3 & F3 & B3); [done|].
  cbn [mbind option_bind].
  destruct b.
  { destruct (B3 eq_refl) as (_ & B4 & _). exfalso.
    destruct (ok_counts _ _ _ _ _ _ (proj2 Hi) n nd Hn) as [_ Hct _ _]. pose proof (occ_nonneg n T).
    destruct acquire; cbn in B4; lia. }
  assert (Hq2 : quiet (on_node n (acknowledge acquire) s) s2).
  { unfold s2, s1. replace (on_node n (acknowledge acquire) (on_node n (fun nd => nd <| tmp_refs ::= Z.add 1 |>) s))
      with (on_node n (fun nd => nd <| tmp_refs ::= Z.add 1 |>) (on_node n (acknowledge acquire) s)).
    - by apply quiet_on_node.
    - rewrite !on_node_compose. apply (on_node_at n nd); [done|]. by destruct acquire. }
  destruct (put_quiet T LS LW s3 s3 n (dec_count acquire false (acknowledge acquire (nd <| tmp_refs ::= Z.add 1 |>))) I3)
    as (s' & E' & I' & F'); [by apply quiet_nodes| | |].
  { rewrite N3. change (alter (dec_count acquire false) n (nodes s2) !! n =
      Some (dec_count acquire false (acknowledge acquire (nd <| tmp_refs ::= Z.add 1 |>)))).
    by rewrite lookup_alter_eq, Hn2. }
  { intros E. destruct acquire; cbn in E; congruence. }
  exists s'. split; [done|]. split; [done|].
  assert (F3' : ref_frame s2 s') by (eapply ref_frame_trans; [by eapply node_ref_frame|done]).
  destruct F3' as (A1 & A2 & A3 & A4). split; [done|]. split; [done|]. split.
  { intros q. unfold lives. by rewrite A4. }
  rewrite <- Hptr. eapply (on_node_then s s' n nd (acknowledge acquire)); try done.
  - apply I'.
  - by destruct acquire.
  - by eapply quiet_trans.
  - destruct (ok_counts _ _ _ _ _ _ (proj2 Hi) n nd Hn) as [_ _ Hcl _].
    destruct (Hcl ltac:(by rewrite Hq)) as (_ & _ & Hps & Hpw & _).
    unfold flags. destruct acquire; cbn.
    + rewrite (Hps Epend), Epend. done.
    + rewrite (Hpw Epend), Epend. done.
Qed.

(** *** The context manager *)

Definition become_manager (nd : binder_node) : binder_node :=
  nd <| local_weak_refs ::= Z.add 1 |> <| local_strong_refs ::= Z.add 1 |> <| has_strong_ref := true |>
     <| has_weak_ref := true |>.

Lemma set_ctx_mgr_spec T LS LW s p node_alloc fbo :
  inv None None T LS LW [] s -> alive None (view s) p ->
  (forall new, node_alloc = Some new -> nodes s !! new = None) ->
  exists ret s', binder_ioctl_set_ctx_mgr p node_alloc fbo s = Some (ret, s') /\
    (ret <> 0 /\ s' = s \/
     ret = 0 /\ context_mgr_node s = None /\ exists n nd, context_mgr_node s' = Some n /\
       inv None None T (n :: LS) (n :: LW) [] s' /\ nodes s' !! n = Some nd /\ n_proc nd = Some p /\
       threads s' = threads s /\ (forall q, lives s' q = lives s q) /\
       learns p fbo.1 [Manager] s s' /\
       (forall m md md', nodes s !! m = Some md -> nodes s' !! m = Some md' -> n_proc md' = n_proc md /\ n_ptr md' = n_ptr md)).
Proof.
  intros Hi Hal Ha. unfold binder_ioctl_set_ctx_mgr.
  destruct (context_mgr_node s) as [m|]; [exists (- EBUSY), s; by split; [|left]|].
  destruct node_alloc as [new|]; cbn [binder_new_node mbind option_bind]; [|exists (- ENOMEM), s; by split; [|left]].
  pose proof Hal as (v & (pr & Hp & ->)%vp_Some & _).
  destruct (init_node_spec T LS LW [] s p pr new fbo.1 fbo.2 Hi Hp Hal (Ha new eq_refl)) as
    (n & s1 & nd & -> & I1 & Hn & Hnp & Hptr & _ & _ & _ & _ & Hth & Hctx & _ & Hlv & Htold).
  cbn [mbind option_bind].
  pose proof I1 as [_ Hc1]. destruct (ok_counts _ _ _ _ _ _ Hc1 n nd Hn) as [Hci Hct Hcl _].
  destruct (Hcl ltac:(by rewrite Hnp)) as (Hls & Hlw & Hps & Hpw & Hsw).
  fold become_manager. set (s2 := on_node n become_manager s1).
  assert (I2 : inv None None (n :: T) (n :: LS) (n :: LW) [] s2).
  { eapply (inv_on_node None (n :: T) LS LW []); eauto with binder.
    split; cbn; rewrite ?occ_head; [done|cbn in Hct; by rewrite occ_head in Hct| |congruence].
    intros _. split_and!; try done; lia. }
  assert (I3 : inv None None (n :: T) (n :: LS) (n :: LW) [] (s2 <| context_mgr_node := Some n |>)).
  { destruct I2 as [Hs2 Hc2]. split; [exact Hs2|]. by apply (counts_same _ _ _ _ _ s2). }
  assert (Hn2 : nodes (s2 <| context_mgr_node := Some n |>) !! n = Some (become_manager nd)).
  { change (alter become_manager n (nodes s1) !! n = Some (become_manager nd)). by rewrite lookup_alter_eq, Hn. }
  destruct (put_quiet T (n :: LS) (n :: LW) (s2 <| context_mgr_node := Some n |>) _ n (become_manager nd) I3) as (s' & E' & I' & F');
    [by apply quiet_nodes|done|cbn; congruence|].
  rewrite E'. cbn [mbind option_bind]. exists 0, s'. split; [done|]. right. split; [done|]. split; [done|].
  destruct F' as (A1 & A2 & A3 & A4).
  destruct (quiet_node _ s' n _ A3 Hn2) as (nd' & Hn' & Hid).
  { apply (ok_held _ _ _ _ _ _ (proj2 I')). right; left; left. }
  destruct (on_node_then s1 s' n nd become_manager p [Manager]) as [Hl Hpl]; try done.
  { apply I1. }
  { apply I'. }
  { unfold flags, flag. cbn. destruct (has_weak_ref nd) eqn:Ew, (pending_weak_ref nd) eqn:Epw; try (by specialize (Hpw eq_refl));
    destruct (has_strong_ref nd) eqn:Es, (pending_strong_ref nd) eqn:Eps; try (by specialize (Hps eq_refl)); done. }
  exists n, nd'. split; [done|]. split; [done|]. split; [done|].
  unfold ident in Hid. cbn in Hid. split; [congruence|]. split; [by etrans|]. split; [|split].
  - intros q. specialize (Hlv q). apply (f_equal (fmap snd)) in Hlv. rewrite <- !option_fmap_compose in Hlv.
    unfold lives. rewrite A4. exact Hlv.
  - assert (Hk : forall q ptr, known s1 q ptr = known s q ptr).
    { intros q ptr. apply told_known; [apply Hi|apply I1|done]. }
    rewrite Hptr in Hl. destruct Hl as [Hl1 Hl2]. split; [by rewrite <- Hk|]. intros q ptr Hne. by rewrite Hl2, Hk.
  - intros m md md' Hm Hm'. pose proof (told_places _ _ Htold) as Hpl1.
    destruct (nodes s1 !! m) as [md1|] eqn:E1.
    + destruct (Hpl1 m md md1 Hm E1) as [B1 B2], (Hpl m md1 md' E1 Hm') as [B3 B4]. split; congruence.
    + destruct A3 as [A3 _]. destruct (A3 m) as [x Hx]; [by eexists|]. cbn -[become_manager] in Hx.
      apply lookup_alter_Some in Hx as [(_ & y & Hy & _)|[_ Hy]]; congruence.
Qed.
End Tell.
