(* ===== verification/BinderRefDeath.v ===== *)
(** * Binder driver: death notifications and reading

    Specifications of the commands about death notifications and of a round of
    the read loop. *)

From S2P Require Import Prelude BinderRef BinderRefInv BinderRefNode BinderRefHandle BinderRefOps BinderRefTxn BinderRefProto.

(** ** Changes of notifications and work lists *)

(** What the structure says of notifications. *)
Record deaths_ok (v : sview) : Prop := {
  dk_nodup : NoDup (vw v).*2;
  dk_work l d : (l, WDeath d) ∈ vw v -> is_Some (vd v !! d);
  dk_delivered p d : (DeliveredDeath p, WDeath d) ∈ vw v -> vd v !! d <> Some CLEAR_DEATH_NOTIFICATION;
  dk_ref r rf d : vr v !! r = Some rf -> v_death rf = Some d ->
    vd v !! d = Some DEAD_BINDER /\
    (forall r' rf', vr v !! r' = Some rf' -> v_death rf' = Some d -> r' = r) /\
    (WDeath d ∈ (vw v).*2 -> exists n nd, v_node rf = Some n /\ vn v !! n = Some nd /\ v_owner nd = None);
  dk_detached d x : vd v !! d = Some x ->
    (exists r rf, vr v !! r = Some rf /\ v_death rf = Some d) \/ (WDeath d ∈ (vw v).*2 /\ x <> DEAD_BINDER);
}.

Section Deaths.
Context {D : option Z}.

Lemma struct_deaths_ok v : struct_ok D None v -> deaths_ok v.
Proof.
  intros []. split; try done. intros r rf d Hr Hd. destruct (ok_death r rf d Hr Hd) as (H1 & H2 & H3).
  destruct (H3 ltac:(done)). done.
Qed.

(** A reference but for its notification. *)
Definition ref_place (rf : rview) := (v_desc rf, v_proc rf, v_node rf).

Lemma struct_deaths v v' :
  struct_ok D None v -> vn v' = vn v -> vp v' = vp v -> vt v' = vt v ->
  (forall r, ref_place <$> vr v' !! r = ref_place <$> vr v !! r) ->
  (forall l w, (l, w) ∈ vw v' -> (l, w) ∈ vw v \/ (exists d, w = WDeath d) /\ list_alive D v l) ->
  deaths_ok v' -> struct_ok D None v'.
Proof.
  intros Hs En Ep Et Er Hw []. pose proof Hs as [].
  assert (Hto : forall r rf, vr v !! r = Some rf -> exists rf', vr v' !! r = Some rf' /\ ref_place rf' = ref_place rf).
  { intros r rf E. specialize (Er r). rewrite E in Er. destruct (vr v' !! r); [|done]. apply (inj Some) in Er. eauto. }
  assert (Hback : forall r rf', vr v' !! r = Some rf' -> exists rf, vr v !! r = Some rf /\ ref_place rf' = ref_place rf).
  { intros r rf E. specialize (Er r). rewrite E in Er. destruct (vr v !! r); [|done]. apply (inj Some) in Er. eauto. }
  assert (Hal : forall p, alive D v' p <-> alive D v p) by (intros p; unfold alive; by rewrite Ep).
  split; rewrite ?En, ?Ep, ?Et; try done.
  - intros r rf' Hr HL. destruct (Hback _ _ Hr) as (rf & H1 & H2). injection H2 as E1 E2 E3.
    destruct (ok_ref r rf H1 HL) as (n & nd & p & F1 & F2 & F3 & F4 & F5 & F6). exists n, nd, p. split_and!; congruence.
  - intros r rf' Hr. destruct (Hback _ _ Hr) as (rf & H1 & H2). injection H2 as -> _ _. eauto.
  - intros n nd r Hn Hr. destruct (ok_refs n nd r Hn Hr) as (rf & H1 & H2).
    destruct (Hto _ _ H1) as (rf' & H3 & H4). injection H4 as _ _ E. exists rf'. split; [done|congruence].
  - intros p pr d r Hp Hr. destruct (ok_by_desc p pr d r Hp Hr) as (rf & H1 & H2 & H3 & H4).
    destruct (Hto _ _ H1) as (rf' & F1 & F2). injection F2 as E1 E2 E3. exists rf'. split_and!; congruence.
  - intros p pr d r Hp Hr. destruct (ok_by_node p pr d r Hp Hr) as (rf & H1 & H2 & H3 & H4).
    destruct (Hto _ _ H1) as (rf' & F1 & F2). injection F2 as E1 E2 E3. exists rf'. split_and!; congruence.
  - intros t p Ht. apply Hal. eauto.
  - intros l w Hl. assert (H : list_alive D v l) by (destruct (Hw l w Hl) as [|[_ ?]]; eauto).
    destruct H as (p & H1 & H2). exists p. rewrite Et, Hal. done.
  - intros l n Hl. destruct (Hw l _ Hl) as [Hl'|[[d ?] _]]; [eauto|done].
  - intros r rf d Hr Hd. destruct (dk_ref0 r rf d Hr Hd) as (H1 & H2 & H3). rewrite En in H3. split; [by eexists|]. by split.
Qed.
End Deaths.

Lemma counts_refs L T LS LW C s s' :
  nodes s' = nodes s ->
  (forall r, (fun rf => (r_strong rf, r_weak rf)) <$> refs s' !! r = (fun rf => (r_strong rf, r_weak rf)) <$> refs s !! r) ->
  counts_ok L T LS LW C s -> counts_ok L T LS LW C s'.
Proof.
  intros En Er [Hc Hp Hh]. split; rewrite ?En; [..|done].
  - intros n nd Hn. destruct (Hc n nd Hn) as [H1 H2 H3 H4]. split; [|done..]. rewrite H1. f_equal.
    apply strong_count_ext. intros r _. unfold is_strong. specialize (Er r). f_equal.
    destruct (refs s !! r), (refs s' !! r); try done. injection Er as -> _. done.
  - intros r rf Hr. specialize (Er r). rewrite Hr in Er. destruct (refs s !! r) as [rf0|] eqn:E; [|done].
    injection Er as -> ->. eauto.
Qed.

Section Notifications.
Implicit Types (T LS LW : list Z) (s : binder_state).

(** What these operations leave alone. *)
Definition note_frame s s' : Prop :=
  nodes s' = nodes s /\ vt (view s') = vt (view s) /\ context_mgr_node s' = context_mgr_node s /\
  (forall p, lives s' p = lives s p).

Lemma note_frame_refl s : note_frame s s.
Proof. done. Qed.
Lemma note_frame_trans s1 s2 s3 : note_frame s1 s2 -> note_frame s2 s3 -> note_frame s1 s3.
Proof. intros (A1 & A2 & A3 & A4) (B1 & B2 & B3 & B4). split_and!; congruence. Qed.

Lemma note_frame_wakeup p s : note_frame s (binder_wakeup_proc_ilocked p s).
Proof.
  unfold binder_wakeup_proc_ilocked, binder_select_thread_ilocked.
  destruct (procs s !! p) as [pr|] eqn:E; [|done]. destruct (waiting_threads pr); [done|].
  split_and!; try done. intros q. unfold lives. cbn. destruct (decide (p = q)) as [->|].
  - by rewrite lookup_alter_eq, E.
  - by rewrite lookup_alter_ne.
Qed.

Lemma not_queued w s : queued w s = false -> forall l, (l, w) ∉ works s.
Proof. intros Hq l Hl. assert (queued w s = true) by (apply queued_true; eauto). congruence. Qed.

Lemma queued_works w s : queued w s = true <-> w ∈ (works s).*2.
Proof. unfold queued. by rewrite bool_decide_eq_true. Qed.

(** Where a looper or its process finds the work. *)
Lemma enqueue_for_looper_spec T LS LW s p t th w :
  threads s !! t = Some th -> queued w s = false ->
  exists l s', enqueue_for_looper p t w s = Some s' /\ (l = ThreadTodo t \/ l = ProcTodo p) /\
    view s' = view (s <| works ::= fun ws => ws ++ [(l, w)] |>) /\ note_frame s s' /\ refs s' = refs s.
Proof.
  intros Ht Hq. unfold enqueue_for_looper. rewrite Ht. cbn [mbind option_bind].
  destruct (truth _).
  - unfold binder_enqueue_thread_work_ilocked. rewrite (enqueue_spec s w _ Hq). cbn [mbind option_bind].
    assert (Ev : t_proc <$> alter (fun t => t <| process_todo := true |>) t (threads s) = t_proc <$> threads s).
    { by apply fmap_alter_same. }
    eexists (ThreadTodo t), _. split; [done|]. split; [by left|]. split; [|split; [|done]].
    + unfold view; cbn. by rewrite Ev.
    + split_and!; [done|exact Ev|done..].
  - rewrite (enqueue_spec s w _ Hq). cbn [mbind option_bind].
    eexists (ProcTodo p), _. split; [done|]. split; [by right|].
    split; [by rewrite view_wakeup|]. split; [|etrans; [apply nodes_wakeup|done]].
    eapply note_frame_trans; [|apply note_frame_wakeup]. done.
Qed.

(** BC_REQUEST_DEATH_NOTIFICATION *)
Lemma request_death_spec T LS LW s p target cookie alloc :
  inv None None T LS LW [] s -> alive None (view s) p -> (forall d, alloc = Some d -> deaths s !! d = None) ->
  exists s', bc_request_death p target cookie alloc s = Some s' /\ inv None None T LS LW [] s' /\ note_frame s s'.
Proof.
  intros Hi Hal Ha. unfold bc_request_death. destruct alloc as [d|]; [|by exists s].
  specialize (Ha d eq_refl). pose proof Hal as (v & (pr & Hp & ->)%vp_Some & _).
  destruct (get_ref_spec (D:=None) T LS LW s p target false Hi) as (o & -> & Ho); [by eexists|]. cbn [mbind option_bind].
  destruct o as [r|]; [|by exists s]. destruct (Ho r eq_refl) as (rf & n & nd & Hr & Hd & Hrp & Hn & Hnd & _).
  rewrite Hr. cbn [mbind option_bind]. rewrite Hn. cbn [mbind option_bind]. rewrite Hnd. cbn [mbind option_bind].
  destruct (r_death rf) as [d0|] eqn:Erd; [by exists s|].
  set (s1 := on_ref r _ _). pose proof Hi as [Hs Hc]. pose proof (struct_deaths_ok _ Hs) as [Knd Kw Kd Kr Kdet].
  assert (Hvd : vd (view s) !! d = None) by (cbn; by rewrite lookup_fmap, Ha).
  assert (Hnq : forall l, (l, WDeath d) ∉ works s).
  { intros l Hl. destruct (Kw l d Hl) as [x Hx]. congruence. }
  assert (Hvr : vr (view s1) = alter (fun v => v <| v_death := Some d |>) r (vr (view s))).
  { unfold s1; cbn. by apply fmap_alter_view. }
  assert (Hvds : vd (view s1) = <[d := DEAD_BINDER]> (vd (view s))) by (unfold s1; cbn; by rewrite fmap_insert).
  assert (Hback : forall x xf, vr (view s1) !! x = Some xf ->
    x = r /\ xf = (view_ref rf) <| v_death := Some d |> \/ x <> r /\ vr (view s) !! x = Some xf).
  { intros x xf. rewrite Hvr, lookup_alter_Some. intros [(<- & y & Hy & ->)|[Hne Hx]]; [left|right; by split].
    rewrite (vr_lookup s r rf Hr) in Hy. by injection Hy as <-. }
  assert (Hne : forall x xf e, vr (view s) !! x = Some xf -> v_death xf = Some e -> e <> d).
  { intros x xf e Hx He ->. destruct (Kr x xf d Hx He) as (E & _). congruence. }
  assert (I1 : inv None None T LS LW [] s1).
  { split.
    - apply (struct_deaths (view s)); try done; [|by left|split].
      + intros x. rewrite Hvr. destruct (decide (r = x)) as [->|]; [rewrite lookup_alter_eq|by rewrite lookup_alter_ne].
        by destruct (vr (view s) !! x).
      + done.
      + intros l e Hl. rewrite Hvds. apply lookup_insert_is_Some'. right. by eapply Kw.
      + intros q e Hl. rewrite Hvds, lookup_insert_ne; [by eapply Kd|]. intros <-. by eapply Hnq.
      + intros x xf e Hx He. destruct (Hback x xf Hx) as [[-> ->]|[Hxr Hx']].
        * cbn in He. injection He as <-. split; [rewrite Hvds; apply lookup_insert_eq|]. split.
          -- intros x' xf' Hx' He'. destruct (Hback x' xf' Hx') as [[-> _]|[_ Hx'']]; [done|]. by destruct (Hne _ _ _ Hx'' He').
          -- intros ([l w] & E & Hl)%list_elem_of_fmap. cbn in E. subst w. by destruct (Hnq l).
        * destruct (Kr x xf e Hx' He) as (H1 & H2 & H3). pose proof (Hne _ _ _ Hx' He).
          split; [rewrite Hvds; by rewrite lookup_insert_ne|]. split; [|done].
          intros x' xf' Hx2 He2. destruct (Hback x' xf' Hx2) as [[-> ->]|[_ Hx'']]; [|eauto].
          cbn in He2. congruence.
      + intros e x. rewrite Hvds, lookup_insert_Some. intros [[<- <-]|[Hed He]].
        * left. exists r, ((view_ref rf) <| v_death := Some d |>). split; [|done].
          rewrite Hvr, lookup_alter_eq, (vr_lookup s r rf Hr). done.
        * destruct (Kdet e x He) as [(y & yf & H1 & H2)|]; [|by right]. left. exists y, yf. split; [|done].
          rewrite Hvr, lookup_alter_ne; [done|]. intros <-. rewrite (vr_lookup s r rf Hr) in H1. injection H1 as <-.
          cbn in H2. congruence.
    - apply (counts_refs _ _ _ _ _ s); [done| |done]. intros x. unfold s1; cbn.
      destruct (decide (r = x)) as [->|]; [rewrite lookup_alter_eq|by rewrite lookup_alter_ne]. by destruct (refs s !! x). }
  destruct (n_proc nd) as [q|] eqn:Eq; [by exists s1|].
  assert (Hq1 : queued (WDeath d) s1 = false).
  { destruct (queued (WDeath d) s1) eqn:E; [|done]. apply queued_true in E as (l & Hl). by destruct (Hnq l). }
  rewrite (enqueue_spec s1 _ _ Hq1). cbn [mbind option_bind]. eexists. split; [done|].
  split; [|eapply note_frame_trans; [|apply note_frame_wakeup]; done].
  apply inv_wakeup. destruct I1 as [Hs1 Hc1]. split; [|by apply (counts_same _ _ _ _ _ s1)].
  apply struct_enqueue; [done..|]. split; [by exists p|]. split.
  - rewrite Hvds, lookup_insert_eq. by eexists.
  - split; [done|]. intros x xf Hx He _.
    destruct (Hback x xf Hx) as [[-> ->]|[_ Hx']]; [|by destruct (Hne _ _ _ Hx' He)].
    exists n, (view_node nd). split; [done|]. split; [by apply vn_lookup|done].
Qed.

(** A notification that has no reference, or loses it, waits in a list under
    another type. *)
Lemma struct_retype D v m d ty ws :
  struct_ok D None v -> is_Some (vd v !! d) -> ty <> DEAD_BINDER ->
  (forall r, ref_place <$> m !! r = ref_place <$> vr v !! r) ->
  (forall r rf e, m !! r = Some rf -> v_death rf = Some e -> vr v !! r = Some rf /\ e <> d) ->
  (forall r rf e, vr v !! r = Some rf -> v_death rf = Some e -> e <> d -> m !! r = Some rf) ->
  NoDup ws.*2 -> WDeath d ∈ ws.*2 ->
  (forall l w, (l, w) ∈ ws -> (l, w) ∈ vw v \/ w = WDeath d /\ list_alive D v l) ->
  (forall w, w ∈ (vw v).*2 -> w <> WDeath d -> w ∈ ws.*2) ->
  (ty = CLEAR_DEATH_NOTIFICATION -> forall p, (DeliveredDeath p, WDeath d) ∉ ws) ->
  struct_ok D None (v <| vr := m |> <| vd ::= alter (fun _ => ty) d |> <| vw := ws |>).
Proof.
  intros Hs [y Hy] Hty Hm Hm1 Hm2 Hnd Hq Hws Hws2 Hdel. pose proof (struct_deaths_ok _ Hs) as [Knd Kw Kd Kr Kdet].
  assert (Hold : forall e, e <> d -> WDeath e ∈ ws.*2 -> WDeath e ∈ (vw v).*2).
  { intros e Hne ([l w] & E & Hl)%list_elem_of_fmap. cbn in E. subst w. apply list_elem_of_fmap.
    exists (l, WDeath e). split; [done|]. destruct (Hws l _ Hl) as [|[[= ?] _]]; done. }
  apply (struct_deaths v); try done.
  - intros l w Hl. destruct (Hws l w Hl) as [|[-> ?]]; [by left|right]. eauto.
  - split; cbn.
    + done.
    + intros l e Hl. rewrite lookup_alter_is_Some. destruct (Hws l _ Hl) as [Hl'|[[= ->] _]]; [by eapply Kw|by eexists].
    + intros p e Hl. destruct (decide (e = d)) as [->|Hne].
      * rewrite lookup_alter_eq, Hy. cbn. intros [= E]. by eapply Hdel.
      * rewrite lookup_alter_ne by done. destruct (Hws _ _ Hl) as [Hl'|[[= ?] _]]; [by eapply Kd|done].
    + intros r rf e Hr He. destruct (Hm1 r rf e Hr He) as [Hr' Hne]. destruct (Kr r rf e Hr' He) as (H1 & H2 & H3).
      rewrite lookup_alter_ne by done. split; [done|]. split; [|auto].
      intros r' rf' Hr2 He2. destruct (Hm1 r' rf' e Hr2 He2) as [Hr2' _]. eauto.
    + intros e x. rewrite lookup_alter_Some. intros [(<- & z & Hz & ->)|[Hne He]]; [by right|].
      destruct (Kdet e x He) as [(r & rf & H1 & H2)|[H1 H2]]; [left; eauto|right]. split; [|done]. apply Hws2; [done|].
      by intros [= ->].
Qed.

(** The notification of a reference is cleared. *)
Lemma clear_view s r d ty ws :
  view ((on_death d (fun x => x <| d_type := ty |>) (on_ref r (fun rf => rf <| r_death := None |>) s)) <| works := ws |>) =
  (view s) <| vr := alter (fun rf => rf <| v_death := None |>) r (vr (view s)) |> <| vd ::= alter (fun _ => ty) d |> <| vw := ws |>.
Proof.
  unfold view, on_death, on_ref, set; cbn. f_equal; by apply fmap_alter_view.
Qed.

Lemma struct_clear s r rf d ty ws :
  struct_ok None None (view s) -> refs s !! r = Some rf -> r_death rf = Some d -> ty <> DEAD_BINDER ->
  NoDup ws.*2 -> WDeath d ∈ ws.*2 ->
  (forall l w, (l, w) ∈ ws -> (l, w) ∈ works s \/ w = WDeath d /\ list_alive None (view s) l) ->
  (forall w, w ∈ (works s).*2 -> w <> WDeath d -> w ∈ ws.*2) ->
  (ty = CLEAR_DEATH_NOTIFICATION -> forall p, (DeliveredDeath p, WDeath d) ∉ ws) ->
  struct_ok None None (view ((on_death d (fun x => x <| d_type := ty |>) (on_ref r (fun rf => rf <| r_death := None |>) s))
    <| works := ws |>)).
Proof.
  intros Hs Hr Hd Hty Hnd Hq Hws Hws2 Hdel. rewrite clear_view. pose proof (struct_deaths_ok _ Hs) as [Knd Kw Kd Kr Kdet].
  pose proof (vr_lookup s r rf Hr) as Hvr. destruct (Kr r _ d Hvr Hd) as (H1 & H2 & _).
  apply struct_retype; try done.
  - intros x. destruct (decide (r = x)) as [->|]; [rewrite lookup_alter_eq|by rewrite lookup_alter_ne].
    by destruct (vr (view s) !! x).
  - intros x xf e. rewrite lookup_alter_Some. intros [(<- & y & Hy & ->)|[Hne Hx]] He; [done|].
    split; [done|]. intros ->. by destruct Hne, (H2 x xf).
  - intros x xf e Hx He Hne. rewrite lookup_alter_ne; [done|]. intros <-. rewrite Hvr in Hx. injection Hx as <-.
    cbn in He. congruence.
Qed.

Lemma snd_app l w ws : ((ws ++ [(l, w)] : list (work_list * binder_work)).*2) = ws.*2 ++ [w].
Proof. by rewrite fmap_app. Qed.

Lemma in_works_snd (l : work_list) (w : binder_work) ws : (l, w) ∈ ws -> w ∈ ws.*2.
Proof. intros Hl. apply list_elem_of_fmap. by exists (l, w). Qed.

(** The list of a thread or of its process. *)
Lemma looper_list_alive T LS LW s t th l : inv None None T LS LW [] s -> threads s !! t = Some th ->
  l = ThreadTodo t \/ l = ProcTodo (t_proc th) -> list_alive None (view s) l /\ forall p, l <> DeliveredDeath p.
Proof.
  intros [Hs _] Ht Hl. pose proof (thread_alive None _ _ _ Hs Ht) as Hal.
  split; [|by destruct Hl; subst]. exists (t_proc th). split; [|done].
  destruct Hl as [->| ->]; cbn; [by rewrite lookup_fmap, Ht|done].
Qed.

(** BC_CLEAR_DEATH_NOTIFICATION *)
Lemma clear_death_spec T LS LW s t th target cookie :
  inv None None T LS LW [] s -> threads s !! t = Some th ->
  exists s', bc_clear_death (t_proc th) t target cookie s = Some s' /\ inv None None T LS LW [] s' /\ note_frame s s'.
Proof.
  intros Hi Ht. unfold bc_clear_death.
  destruct (thread_alive None _ _ _ (proj1 Hi) Ht) as (v & (pr & Hp & ->)%vp_Some & _).
  destruct (get_ref_spec (D:=None) T LS LW s (t_proc th) target false Hi) as (o & -> & Ho); [by eexists|].
  cbn [mbind option_bind].
  destruct o as [r|]; [|by exists s]. destruct (Ho r eq_refl) as (rf & n & nd & Hr & Hd & Hrp & Hn & Hnd & _).
  rewrite Hr. cbn [mbind option_bind]. rewrite Hn. cbn [mbind option_bind]. rewrite Hnd. cbn [mbind option_bind].
  destruct (r_death rf) as [d|] eqn:Erd; [|by exists s].
  pose proof Hi as [Hs Hc]. pose proof (struct_deaths_ok _ Hs) as [Knd Kw Kd Kr Kdet].
  destruct (Kr r _ d (vr_lookup _ _ _ Hr) Erd) as (Hvd & _). cbn in Hvd. rewrite lookup_fmap_Some in Hvd.
  destruct Hvd as (x & Hxt & Hx). rewrite Hx. cbn [mbind option_bind].
  destruct (negb (d_cookie x =? cookie)); [by exists s|].
  set (s1 := on_ref r _ s).
  assert (Hc1 : forall f s', nodes s' = nodes s -> refs s' = refs (on_death d f s1) -> counts_ok None T LS LW [] s').
  { intros f s' En Er. apply (counts_refs _ _ _ _ _ s); [done| |done]. intros y. rewrite Er. unfold s1; cbn.
    destruct (decide (r = y)) as [->|]; [rewrite lookup_alter_eq|by rewrite lookup_alter_ne]. by destruct (refs s !! y). }
  destruct (queued (WDeath d) s1) eqn:Eq; cbn [negb].
  - rewrite Hxt. eexists. split; [done|]. split; [|done]. split; [|by eapply Hc1].
    apply queued_works in Eq. eapply eq_ind; [apply (struct_clear s r rf d DEAD_BINDER_AND_CLEAR (works s)); by auto|done].
  - destruct (enqueue_for_looper_spec T LS LW (on_death d (fun x => x <| d_type := CLEAR_DEATH_NOTIFICATION |>) s1)
      (t_proc th) t th (WDeath d) Ht Eq) as (l & s' & -> & Hl & Hv & Hf & Hrefs).
    destruct (looper_list_alive T LS LW s t th l Hi Ht Hl) as [Hla Hnd'].
    exists s'. split; [done|]. split; [|eapply note_frame_trans; [|exact Hf]; done].
    split; [|eapply Hc1; [apply Hf|exact Hrefs]].
    rewrite Hv. apply (struct_clear s r rf d CLEAR_DEATH_NOTIFICATION (works s ++ [(l, WDeath d)])); try done.
    + rewrite snd_app. apply NoDup_app. split; [done|]. split; [|apply NoDup_singleton].
      intros w Hw ->%list_elem_of_singleton. apply bool_decide_eq_false in Eq. done.
    + rewrite snd_app. apply elem_of_app. right. by left.
    + intros l' w [Hlw|Hlw]%elem_of_app; [by left|]. apply list_elem_of_singleton in Hlw as [= -> ->]. by right.
    + intros w Hw _. rewrite snd_app. apply elem_of_app. by left.
    + intros _ p [Hlw|Hlw]%elem_of_app; [by eapply not_queued|]. apply list_elem_of_singleton in Hlw as [= E]. by destruct (Hnd' p).
Qed.

Lemma elem_dequeue (e : work_list * binder_work) w (ws : list (work_list * binder_work)) : e ∈ filter (fun e => e.2 ≠ w) ws <-> e.2 <> w /\ e ∈ ws.
Proof. by rewrite list_elem_of_filter. Qed.

Lemma nodup_dequeue (w : binder_work) (ws : list (work_list * binder_work)) :
  NoDup ws.*2 -> NoDup (filter (fun e => e.2 ≠ w) ws).*2.
Proof. intros Hn. eapply sublist_NoDup; [exact Hn|]. apply (fmap_sublist snd), sublist_filter. Qed.

Lemma gone_dequeue (w : binder_work) (ws : list (work_list * binder_work)) : w ∉ (filter (fun e => e.2 ≠ w) ws).*2.
Proof. intros ([l w'] & -> & He)%list_elem_of_fmap. by apply elem_dequeue in He as [He _]. Qed.

Lemma kept_dequeue (w x : binder_work) (ws : list (work_list * binder_work)) :
  x ∈ ws.*2 -> x <> w -> x ∈ (filter (fun e => e.2 ≠ w) ws).*2.
Proof.
  intros ([l w'] & -> & He)%list_elem_of_fmap Hne. apply list_elem_of_fmap. exists (l, w'). split; [done|].
  by apply elem_dequeue.
Qed.

(** A queued work moves to the end of another list. *)
Lemma moved_nodup (w : binder_work) l (ws : list (work_list * binder_work)) :
  NoDup ws.*2 -> NoDup (filter (fun e => e.2 ≠ w) ws ++ [(l, w)]).*2.
Proof.
  intros Hn. rewrite snd_app. apply NoDup_app. split; [by apply nodup_dequeue|]. split; [|apply NoDup_singleton].
  intros x Hx ->%list_elem_of_singleton. by eapply gone_dequeue.
Qed.

Lemma moved_elem (w : binder_work) l (ws : list (work_list * binder_work)) l' w' :
  (l', w') ∈ filter (fun e => e.2 ≠ w) ws ++ [(l, w)] -> (l', w') ∈ ws /\ w' <> w \/ w' = w /\ l' = l.
Proof.
  intros [Hl|Hl]%elem_of_app; [apply elem_dequeue in Hl as [? ?]; by left|].
  apply list_elem_of_singleton in Hl as [= -> ->]. by right.
Qed.

Lemma moved_works (w x : binder_work) l (ws : list (work_list * binder_work)) :
  x ∈ (filter (fun e => e.2 ≠ w) ws ++ [(l, w)]).*2 <-> x ∈ ws.*2 /\ x <> w \/ x = w.
Proof.
  rewrite snd_app, elem_of_app, list_elem_of_singleton. split; intros [Hx|Hx]; auto.
  - left. split; [|intros ->; by eapply gone_dequeue].
    apply list_elem_of_fmap in Hx as ([l' w'] & -> & Hx). apply elem_dequeue in Hx as [_ Hx]. by eapply in_works_snd.
  - left. destruct Hx. by apply kept_dequeue.
Qed.

(** A notification without reference changes its type and its list. *)
Lemma struct_move s d ty l :
  struct_ok None None (view s) -> (forall r rf, refs s !! r = Some rf -> r_death rf <> Some d) ->
  is_Some (deaths s !! d) -> WDeath d ∈ (works s).*2 -> ty <> DEAD_BINDER -> list_alive None (view s) l ->
  (forall p, l <> DeliveredDeath p) ->
  struct_ok None None (view ((on_death d (fun x => x <| d_type := ty |>) s)
    <| works := filter (fun e => e.2 ≠ WDeath d) (works s) ++ [(l, WDeath d)] |>)).
Proof.
  intros Hs Hno [x Hx] Hq Hty Hl Hnd. pose proof (struct_deaths_ok _ Hs) as [Knd Kw Kd Kr Kdet].
  eapply eq_ind; [apply (struct_retype None (view s) (vr (view s)) d ty (filter (fun e => e.2 ≠ WDeath d) (works s) ++ [(l, WDeath d)]) Hs); try done|].
  - cbn. rewrite lookup_fmap, Hx. by eexists.
  - intros r v e (rf & Hr & ->)%vr_Some He. split; [by apply vr_lookup|]. intros ->. by eapply Hno.
  - by apply moved_nodup.
  - apply moved_works. by right.
  - intros l' w Hlw. apply moved_elem in Hlw as [[? _]|[-> ->]]; [by left|by right].
  - intros w Hw Hne. apply moved_works. by left.
  - intros _ p Hp. apply moved_elem in Hp as [[_ ?]|[_ E]]; [done|]. by destruct (Hnd p).
  - unfold view, on_death, set; cbn -[filter]. f_equal. symmetry. by apply fmap_alter_view.
Qed.

(** BC_DEAD_BINDER_DONE *)
Lemma dead_binder_done_spec T LS LW s t th cookie :
  inv None None T LS LW [] s -> threads s !! t = Some th ->
  exists s', bc_dead_binder_done (t_proc th) t cookie s = Some s' /\ inv None None T LS LW [] s' /\ note_frame s s'.
Proof.
  intros Hi Ht. unfold bc_dead_binder_done. destruct (List.find _ _) as [d|] eqn:Ef; [|by exists s].
  apply find_some in Ef as [Hin%list_elem_of_In Hck].
  assert (Hdel : (DeliveredDeath (t_proc th), WDeath d) ∈ works s).
  { unfold delivered in Hin. apply list_elem_of_omap in Hin as ([l w] & Hl & E).
    destruct l as [| |p]; try done. destruct w as [|d'|]; try done.
    destruct (Z.eqb_spec p (t_proc th)); [|done]. injection E as ->. by subst. }
  pose proof Hi as [Hs Hc]. pose proof (struct_deaths_ok _ Hs) as [Knd Kw Kd Kr Kdet].
  destruct (deaths s !! d) as [x|] eqn:Ex; [|done]. cbn [mbind option_bind].
  assert (Hvd : vd (view s) !! d = Some (d_type x)) by (cbn; by rewrite lookup_fmap, Ex).
  pose proof (Kd _ _ Hdel) as Hnc. rewrite Hvd in Hnc.
  destruct (d_type x) eqn:Ety; [| |done].
  - eexists. split; [done|]. split; [|done]. split; [|by apply (counts_same _ _ _ _ _ s)].
    apply struct_dequeue; [done|]. intros d' [= <-] y Hy.
    destruct (Kdet d _ Hvd) as [(r & v & (rf & Hr & ->)%vr_Some & Hrd)|[_ ?]]; [eauto|done].
  - assert (Hno : forall r rf, refs s !! r = Some rf -> r_death rf <> Some d).
    { intros r rf Hr Hrd. destruct (Kr r _ d (vr_lookup _ _ _ Hr) Hrd) as (E & _). congruence. }
    destruct (enqueue_for_looper_spec T LS LW (on_death d (fun x => x <| d_type := CLEAR_DEATH_NOTIFICATION |>)
      (binder_dequeue_work_ilocked (WDeath d) s)) (t_proc th) t th (WDeath d) Ht) as (l & s' & -> & Hl & Hv & Hf & Hrefs).
    { apply (dequeued_gone (WDeath d) s). }
    destruct (looper_list_alive T LS LW s t th l Hi Ht Hl) as [Hla Hnd'].
    exists s'. split; [done|]. split; [|eapply note_frame_trans; [|exact Hf]; done].
    split; [|apply (counts_same _ _ _ _ _ s); [apply Hf|exact Hrefs|done]].
    rewrite Hv. eapply eq_ind; [apply (struct_move s d CLEAR_DEATH_NOTIFICATION l); try done|].
    + by eapply in_works_snd.
    + done.
Qed.

(** A notification without reference goes. *)
Lemma struct_drop D s d :
  struct_ok D None (view s) -> (forall r rf, refs s !! r = Some rf -> r_death rf <> Some d) ->
  struct_ok D None (view ((binder_dequeue_work_ilocked (WDeath d) s) <| deaths ::= delete d |>)).
Proof.
  intros Hs Hno. pose proof (struct_deaths_ok _ Hs) as [Knd Kw Kd Kr Kdet].
  assert (Hvd : forall e x, (d_type <$> delete d (deaths s)) !! e = Some x <-> d <> e /\ vd (view s) !! e = Some x).
  { intros e x. rewrite fmap_delete, lookup_delete_Some. done. }
  assert (Hq : forall e, WDeath e ∈ (filter (fun e => e.2 ≠ WDeath d) (works s)).*2 -> d <> e /\ WDeath e ∈ (works s).*2).
  { intros e ([l w] & E & He)%list_elem_of_fmap. cbn in E. subst w. apply elem_dequeue in He as [Hne He]. cbn in Hne.
    split; [congruence|by eapply in_works_snd]. }
  apply (struct_deaths (view s)); try done.
  - intros l w Hl. left. cbn in Hl. by apply elem_dequeue in Hl as [_ Hl].
  - split; cbn -[filter].
    + by apply nodup_dequeue.
    + intros l e Hl. apply elem_dequeue in Hl as [Hne Hl]. cbn in Hne. destruct (Kw l e Hl) as [x Hx]. exists x.
      apply Hvd. split; [congruence|done].
    + intros p e Hl. apply elem_dequeue in Hl as [Hne Hl]. cbn in Hne. intros [_ E]%Hvd. by eapply Kd.
    + intros r rf e Hr He. destruct (Kr r rf e Hr He) as (H1 & H2 & H3).
      apply vr_Some in Hr as (rf0 & Hr & ->). split; [|split; [done|]].
      * apply Hvd. split; [|done]. intros <-. by eapply Hno.
      * intros Hq'. apply H3. by apply Hq.
    + intros e x [Hne He]%Hvd. destruct (Kdet e x He) as [|[H1 H2]]; [by left|right]. split; [|done].
      apply kept_dequeue; [done|]. congruence.
Qed.

(** ** A round of the read loop *)

Lemma work_head_in l s w : work_head l s = Some w -> (l, w) ∈ works s.
Proof.
  unfold work_head. destruct (List.find _ _) as [[l' w']|] eqn:E; [|done]. intros [= <-].
  apply find_some in E as [Hin Hl]. apply bool_decide_eq_true in Hl. cbn in Hl. subst l'. by apply list_elem_of_In.
Qed.

Definition not_busy (b : bool) (thread : Z) s : binder_state :=
  if b then s <| threads ::= alter (fun t => t <| process_todo := false |>) thread |> else s.

Lemma note_frame_not_busy b t s : note_frame s (not_busy b t s) /\ view (not_busy b t s) = view s.
Proof.
  unfold not_busy. destruct b; [|done].
  assert (Ev : t_proc <$> alter (fun t => t <| process_todo := false |>) t (threads s) = t_proc <$> threads s).
  { by apply fmap_alter_same. }
  split; [split_and!; [done|exact Ev|done..]|]. unfold view; cbn. by rewrite Ev.
Qed.

Lemma not_busy_eq b t s :
  works (not_busy b t s) = works s /\ deaths (not_busy b t s) = deaths s /\ refs (not_busy b t s) = refs s /\
  nodes (not_busy b t s) = nodes s /\ procs (not_busy b t s) = procs s.
Proof. by destruct b. Qed.

(** The list that a thread reads from belongs to its process. *)
Definition read_list (thread : Z) (wait : bool) s : option work_list :=
  match threads s !! thread with
  | Some t =>
      if negb (binder_worklist_empty_ilocked (ThreadTodo thread) s) then Some (ThreadTodo thread)
      else if negb (binder_worklist_empty_ilocked (ProcTodo (t_proc t)) s) && wait then Some (ProcTodo (t_proc t)) else None
  | None => None
  end.

Lemma read_list_head t th wait s l : threads s !! t = Some th -> read_list t wait s = Some l ->
  (l = ThreadTodo t \/ l = ProcTodo (t_proc th)) /\ exists w, work_head l s = Some w.
Proof.
  intros Ht. unfold read_list. rewrite Ht. unfold binder_worklist_empty_ilocked.
  destruct (work_head (ThreadTodo t) s) as [w|] eqn:E1; cbn [negb andb].
  - intros [= <-]. rewrite E1. eauto.
  - destruct (work_head (ProcTodo (t_proc th)) s) as [w|] eqn:E2; cbn [negb andb]; [|done].
    destruct wait; [|done]. intros [= <-]. rewrite E2. eauto.
Qed.

Lemma known_same s s' p ptr : nodes s' = nodes s -> procs s' = procs s -> known s' p ptr = known s p ptr.
Proof. intros E1 E2. unfold known. by rewrite E1, E2. Qed.

Lemma read_death_spec T LS LW s p d l b t :
  inv None None T LS LW [] s -> (l, WDeath d) ∈ works s -> alive None (view s) p ->
  exists m s', read_death_work p d (not_busy b t (binder_dequeue_work_ilocked (WDeath d) s)) = Some (m, s') /\
    inv None None T LS LW [] s' /\ note_frame s s'.
Proof.
  intros Hi Hl Hal. pose proof Hi as [Hs Hc]. pose proof (struct_deaths_ok _ Hs) as [Knd Kw Kd Kr Kdet].
  set (s0 := binder_dequeue_work_ilocked (WDeath d) s).
  destruct (not_busy_eq b t s0) as (W1 & D1 & R1 & N1 & P1). destruct (note_frame_not_busy b t s0) as [F1 V1].
  set (s1 := not_busy b t s0) in *.
  destruct (Kw l d Hl) as [ty Hty]. cbn in Hty. apply lookup_fmap_Some in Hty as (x & <- & Hx).
  assert (Hvd : vd (view s) !! d = Some (d_type x)) by (cbn; by rewrite lookup_fmap, Hx).
  unfold read_death_work. rewrite D1. change (deaths s0) with (deaths s). rewrite Hx. cbn [mbind option_bind].
  destruct (d_type x) eqn:Ety.
  3: { eexists _, _. split; [done|]. split; [|eapply note_frame_trans; [exact F1|done]].
    split; [|apply (counts_same _ _ _ _ _ s); [exact N1|exact R1|done]].
    eapply eq_ind; [apply (struct_drop None s d Hs)|].
    - intros r rf Hr Hrd. destruct (Kr r _ d (vr_lookup _ _ _ Hr) Hrd) as (E & _). congruence.
    - transitivity ((view s1) <| vd ::= delete d |>); [rewrite V1|];
        unfold view, set; cbn -[filter not_busy]; by rewrite !fmap_delete. }
  all: assert (Hq : queued (WDeath d) s1 = false) by
    (unfold queued; rewrite W1; apply (dequeued_gone (WDeath d) s));
    rewrite (enqueue_spec s1 _ _ Hq); cbn [mbind option_bind]; eexists _, _; (split; [done|]);
    (split; [|eapply note_frame_trans; [exact F1|done]]);
    (split; [|apply (counts_same _ _ _ _ _ s); [exact N1|exact R1|done]]);
    (assert (Ev : view (s1 <| works ::= fun ws => ws ++ [(DeliveredDeath p, WDeath d)] |>) =
      (view s) <| vw := filter (fun e => e.2 ≠ WDeath d) (works s) ++ [(DeliveredDeath p, WDeath d)] |>) by
      (transitivity ((view s1) <| vw ::= fun ws => ws ++ [(DeliveredDeath p, WDeath d)] |>); [done|];
       by rewrite V1));
    rewrite Ev; apply struct_works; [done|by apply moved_nodup|..].
  all: try (intros l' w Hlw; apply moved_elem in Hlw as [[? _]|[-> ->]]; [by left|right];
    split; [by exists p|]; split; [rewrite Hvd; by eexists|]; split; [intros q _; rewrite Hvd; done|];
    intros r rf Hr Hrd _; destruct (Kr r rf d Hr Hrd) as (_ & _ & H3); apply H3; by eapply in_works_snd).
  all: intros e He Hne; exfalso; apply Hne, moved_works; destruct (decide (e = d)) as [->|]; [by right|left; split; [done|congruence]].
Qed.

Lemma read_work_spec T LS LW s t th wait :
  inv None None T LS LW [] s -> threads s !! t = Some th ->
  exists m s', read_work t wait s = Some (m, s') /\ inv None None T LS LW [] s' /\
    vt (view s') = vt (view s) /\ context_mgr_node s' = context_mgr_node s /\ (forall p, lives s' p = lives s p) /\
    match m with
    | Some (BR_NODE cmds ptr _) => learns (t_proc th) ptr (Told <$> cmds) s s' /\ places s s'
    | _ => nodes s' = nodes s
    end.
Proof.
  intros Hi Ht. pose proof Hi as [Hs Hc]. unfold read_work. rewrite Ht. cbn [mbind option_bind].
  pose proof (read_list_head t th wait s) as Hhead. unfold read_list in Hhead. rewrite Ht in Hhead.
  destruct (if negb (binder_worklist_empty_ilocked (ThreadTodo t) s) then _ else _) as [l|] eqn:El; [|by exists None, s].
  destruct (Hhead l eq_refl eq_refl) as (Hl & w & Hw). pose proof (work_head_in _ _ _ Hw) as Hin.
  unfold binder_dequeue_work_head_ilocked. rewrite Hw. cbn [mbind option_bind]. cbv beta iota zeta.
  set (s0 := binder_dequeue_work_ilocked w s).
  set (b := binder_worklist_empty_ilocked (ThreadTodo t) s0). fold (not_busy b t s0).
  destruct (not_busy_eq b t s0) as (W1 & D1 & R1 & N1 & P1). destruct (note_frame_not_busy b t s0) as [F1 V1].
  assert (F0 : note_frame s (not_busy b t s0)) by (eapply note_frame_trans; [|exact F1]; done).
  assert (I1 : (forall d, w <> WDeath d) -> inv None None T LS LW [] (not_busy b t s0)).
  { intros Hw'. split; [|apply (counts_same _ _ _ _ _ s); [exact N1|exact R1|done]].
    rewrite V1. apply struct_dequeue; [done|]. intros d ->. by destruct (Hw' d). }
  destruct w as [n|d|x].
  - destruct (ok_node_work _ _ Hs l n Hin) as (v & p & (nd & Hn & ->)%vn_Some & Hp & Hlp & _).
    assert (p = t_proc th) as ->.
    { destruct Hl as [->| ->]; cbn in Hlp; [rewrite lookup_fmap, Ht in Hlp; by injection Hlp|done]. }
    rewrite N1. change (nodes s0) with (nodes s). rewrite Hn. cbn [mbind option_bind].
    destruct (read_node_spec T LS LW (not_busy b t s0) (t_proc th) n nd) as (s' & -> & I' & Ht' & Hc' & Hlv & Hle & Hpl).
    + by apply I1.
    + rewrite N1. exact Hn.
    + exact Hp.
    + unfold queued. rewrite W1. apply (dequeued_gone (WNode n) s).
    + cbn [mbind option_bind]. eexists _, s'. split; [done|]. split; [done|]. destruct F0 as (A1 & A2 & A3 & A4).
      split; [cbn; rewrite Ht'; exact A2|]. split; [congruence|]. split; [intros p; by rewrite Hlv|].
      assert (Hk : forall q ptr, known (not_busy b t s0) q ptr = known s q ptr) by (intros; by apply known_same).
      destruct Hle as [L1 L2]. split; [split|].
      * by rewrite <- Hk.
      * intros q ptr Hne. by rewrite L2, Hk.
      * intros m md md' Hm Hm'. eapply Hpl; [|exact Hm']. by rewrite N1.
  - assert (Hal : alive None (view s) (t_proc th)) by by eapply thread_alive.
    destruct (read_death_spec T LS LW s (t_proc th) d l b t Hi Hin Hal) as (m & s' & E & I' & F').
    fold s0 in E. rewrite E. cbn [mbind option_bind]. destruct F' as (A1 & A2 & A3 & A4).
    eexists _, s'. split; [done|]. split; [done|]. split; [done|]. split; [done|]. split; [done|].
    by destruct m as [[] ?].
  - cbn [mbind option_bind]. eexists _, _. split; [done|]. split; [by apply I1|]. destruct F0 as (A1 & A2 & A3 & A4). done.
Qed.
End Notifications.
