(* ===== verification/BinderRefRelease.v ===== *)
(** * Binder driver: the end of threads and processes

    Specifications of the release of work lists, threads, nodes, references
    and processes. *)

From S2P Require Import Prelude BinderRef BinderRefInv BinderRefNode BinderRefHandle BinderRefOps BinderRefTxn BinderRefProto BinderRefDeath.

Section Release.
Context {D : option Z}.
Implicit Types (T LS LW : list Z) (s : binder_state).

(** ** Work lists *)

(** As [note_frame], and the processes stay as they are. *)
Definition work_frame s s' : Prop :=
  nodes s' = nodes s /\ refs s' = refs s /\ threads s' = threads s /\ context_mgr_node s' = context_mgr_node s /\
  procs s' = procs s.

Lemma release_one_work_spec T LS LW s w :
  inv D None T LS LW [] s -> w ∈ (works s).*2 ->
  exists s', release_one_work w (binder_dequeue_work_ilocked w s) = Some s' /\ inv D None T LS LW [] s' /\
    work_frame s s' /\ works s' = filter (fun e => e.2 ≠ w) (works s).
Proof.
  intros [Hs Hc] Hw. pose proof (struct_deaths_ok _ Hs) as [Knd Kw Kd Kr Kdet]. destruct w as [n|d|x]; cbn [release_one_work].
  - eexists. split; [done|]. split; [|done]. split; [by apply struct_dequeue|by apply (counts_same _ _ _ _ _ s)].
  - apply list_elem_of_fmap in Hw as ([l w] & E & Hl). cbn in E. subst w.
    destruct (Kw l d Hl) as [ty Hty]. pose proof Hty as Hvd. cbn in Hty. apply lookup_fmap_Some in Hty as (x & <- & Hx).
    cbn -[filter]. rewrite Hx. cbn [mbind option_bind].
    assert (Hdead : d_type x = DEAD_BINDER -> inv D None T LS LW [] (binder_dequeue_work_ilocked (WDeath d) s)).
    { intros E. split; [|by apply (counts_same _ _ _ _ _ s)]. apply struct_dequeue; [done|]. intros d' [= <-] y Hy.
      destruct (Kdet d _ Hvd) as [(r & v & (rf & Hr & ->)%vr_Some & Hrd)|[_ Hne]]; [eauto|]. by rewrite E in Hne. }
    assert (Hfree : d_type x <> DEAD_BINDER -> inv D None T LS LW []
      ((binder_dequeue_work_ilocked (WDeath d) s) <| deaths ::= delete d |>)).
    { intros E. split; [|by apply (counts_same _ _ _ _ _ s)]. apply struct_drop; [done|]. intros r rf Hr Hrd.
      destruct (Kr r _ d (vr_lookup _ _ _ Hr) Hrd) as (E' & _). rewrite Hvd in E'. by injection E'. }
    destruct (d_type x); eexists; (split; [done|]); (split; [|done]); auto.
  - eexists. split; [done|]. split; [|done]. split; [by apply struct_dequeue|by apply (counts_same _ _ _ _ _ s)].
Qed.

Lemma release_works_spec T LS LW ws s :
  inv D None T LS LW [] s -> NoDup ws -> (forall w, w ∈ ws -> w ∈ (works s).*2) ->
  exists s', release_works ws s = Some s' /\ inv D None T LS LW [] s' /\ work_frame s s' /\
    (forall e, e ∈ works s' <-> e ∈ works s /\ e.2 ∉ ws).
Proof.
  revert s. induction ws as [|w ws IH]; intros s Hi Hnd Hin.
  - exists s. split_and!; try done. intros e. split; [intros; split; [done|apply not_elem_of_nil]|by intros []].
  - apply NoDup_cons in Hnd as [Hw Hnd]. cbn [release_works].
    destruct (release_one_work_spec T LS LW s w Hi) as (s1 & -> & I1 & F1 & W1); [apply Hin; by left|]. cbn [mbind option_bind].
    destruct (IH s1 I1 Hnd) as (s' & -> & I' & F' & W').
    + intros x Hx. rewrite W1. apply kept_dequeue; [apply Hin; by right|]. by intros ->.
    + exists s'. split; [done|]. split; [done|]. split.
      * destruct F1 as (A1 & A2 & A3 & A4 & A5), F' as (B1 & B2 & B3 & B4 & B5). split_and!; congruence.
      * intros e. rewrite W', W1, elem_dequeue, not_elem_of_cons. tauto.
Qed.

Lemma release_work_spec T LS LW s l :
  inv D None T LS LW [] s ->
  exists s', binder_release_work l s = Some s' /\ inv D None T LS LW [] s' /\ work_frame s s' /\
    (forall l' w, (l', w) ∈ works s' -> (l', w) ∈ works s /\ l' <> l).
Proof.
  intros Hi. unfold binder_release_work. pose proof (ok_works _ _ (proj1 Hi)) as Hnd. cbn in Hnd.
  destruct (release_works_spec T LS LW (filter (fun e => e.1 = l) (works s)).*2 s Hi) as (s' & E & I' & F' & W').
  - eapply sublist_NoDup; [exact Hnd|]. apply (fmap_sublist snd), sublist_filter.
  - intros w ([l' w'] & -> & Hin)%list_elem_of_fmap. apply list_elem_of_filter in Hin as [_ Hin]. by eapply in_works_snd.
  - exists s'. split_and!; try done. intros l' w Hin. apply W' in Hin as [Hin Hn]. split; [done|]. intros ->. apply Hn.
    apply list_elem_of_fmap. exists (l, w). split; [done|]. by apply list_elem_of_filter.
Qed.

(** ** Threads *)

Lemma struct_no_thread v t : struct_ok D None v -> (forall w, (ThreadTodo t, w) ∉ vw v) ->
  struct_ok D None (v <| vt ::= delete t |>).
Proof.
  intros Hs Hw. pose proof Hs as [].
  assert (Hl : forall l w p, (l, w) ∈ vw v -> list_of (vt v) l p -> list_of (delete t (vt v)) l p).
  { intros l w p Hin. destruct l; cbn; try done. rewrite lookup_delete_ne; [done|]. intros ->. by apply (Hw w). }
  split; try done.
  - cbn. intros t' p [_ Ht]%lookup_delete_Some. by apply (ok_thread t' p).
  - intros l w Hin. destruct (ok_list l w Hin) as (p & H1 & H2). exists p. split; [|done]. by eapply Hl.
  - intros l n Hin. destruct (ok_node_work l n Hin) as (nd & p & H1 & H2 & H3 & H4). exists nd, p. split_and!; try done. by eapply Hl.
Qed.

Lemma thread_release_spec T LS LW s p t th pr :
  inv D None T LS LW [] s -> threads s !! t = Some th -> procs s !! p = Some pr ->
  is_dead pr = false \/ p_tmp_ref pr <> 0 ->
  exists s', binder_thread_release p t s = Some s' /\ inv D None T LS LW [] s' /\ nodes s' = nodes s /\
    context_mgr_node s' = context_mgr_node s /\ procs s' = procs s /\ threads s' = delete t (threads s).
Proof.
  intros Hi Ht Hp Hd. unfold binder_thread_release. rewrite Hp. cbn [mbind option_bind].
  set (s0 := on_proc p _ s).
  assert (I0 : inv D None T LS LW [] s0) by by apply inv_on_proc.
  destruct (release_work_spec T LS LW s0 (ThreadTodo t) I0) as (s1 & -> & I1 & F1 & W1). cbn [mbind option_bind].
  destruct F1 as (A1 & A2 & A3 & A4 & A5).
  set (s2 := s1 <| threads ::= delete t |>).
  assert (I2 : inv D None T LS LW [] s2).
  { destruct I1 as [Hs1 Hc1]. split; [|by apply (counts_same _ _ _ _ _ s1)].
    eapply eq_ind; [apply (struct_no_thread (view s1) t Hs1)|].
    - intros w Hin. by destruct (W1 _ _ Hin).
    - unfold view, s2, set; cbn. by rewrite fmap_delete. }
  unfold binder_free_thread. rewrite (worklist_empty (ThreadTodo t) s2).
  2: { intros w Hin. by destruct (W1 _ _ Hin). }
  cbn [negb].
  assert (Hp2 : procs s2 !! p = Some (pr <| p_tmp_ref ::= Z.add 1 |>)).
  { unfold s2. cbn. rewrite A5. unfold s0. cbn. by rewrite lookup_alter_eq, Hp. }
  destruct (proc_dec_keep T LS LW s2 p _ I2 Hp2) as (s' & -> & -> & I').
  { cbn. destruct Hd; [by left|right; lia]. }
  eexists. split; [done|]. split; [done|]. split; [done|]. split; [done|]. split; [|cbn; by rewrite A3].
  cbn. rewrite A5. apply map_eq. intros q. unfold s0. cbn.
  destruct (decide (p = q)) as [->|]; [|by rewrite !lookup_alter_ne].
  rewrite !lookup_alter_eq, Hp. cbn. f_equal. destruct pr; unfold set; cbn. f_equal. lia.
Qed.

Lemma release_threads_spec T LS LW ts s p pr :
  inv D None T LS LW [] s -> NoDup ts -> (forall t, t ∈ ts -> is_Some (threads s !! t)) -> procs s !! p = Some pr ->
  is_dead pr = false \/ p_tmp_ref pr <> 0 ->
  exists s', release_threads ts p s = Some s' /\ inv D None T LS LW [] s' /\ nodes s' = nodes s /\
    context_mgr_node s' = context_mgr_node s /\ procs s' = procs s /\
    (forall t, threads s' !! t = if decide (t ∈ ts) then None else threads s !! t).
Proof.
  revert s. induction ts as [|t ts IH]; intros s Hi Hnd Hin Hp Hd.
  - exists s. split_and!; done.
  - apply NoDup_cons in Hnd as [Ht Hnd]. destruct (Hin t) as [th Hth]; [by left|]. cbn [release_threads].
    destruct (thread_release_spec T LS LW s p t th pr Hi Hth Hp Hd) as (s1 & -> & I1 & N1 & C1 & P1 & T1).
    cbn [mbind option_bind].
    destruct (IH s1 I1 Hnd) as (s' & -> & I' & N' & C' & P' & T').
    + intros x Hx. rewrite T1, lookup_delete_ne; [apply Hin; by right|]. by intros ->.
    + by rewrite P1.
    + done.
    + exists s'. split_and!; try congruence. intros x. rewrite T', T1.
      destruct (decide (x = t)) as [->|Hne].
      * rewrite lookup_delete_eq. rewrite (decide_True (P := t ∈ t :: ts)) by left. by case_decide.
      * rewrite lookup_delete_ne by done. destruct (decide (x ∈ ts)) as [Hx|Hx].
        -- rewrite decide_True; [done|by right].
        -- rewrite decide_False; [done|]. rewrite elem_of_cons. naive_solver.
Qed.

(** ** Nodes *)

(** A node leaves its process, dead. *)
Definition kill_node (n p ptr : Z) (v : sview) : sview :=
  v <| vn ::= alter (fun nd => nd <| v_owner := None |>) n |>
    <| vp ::= alter (fun pr => pr <| v_nodes ::= tree_erase ptr |>) p |>.

Lemma kill_node_dead n p ptr v : same_dead v (kill_node n p ptr v).
Proof. by eapply same_dead_alter. Qed.

Lemma struct_kill v n nd p :
  struct_ok D None v -> vn v !! n = Some nd -> v_owner nd = Some p -> (forall l, (l, WNode n) ∉ vw v) ->
  struct_ok D None (kill_node n p (v_ptr nd) v).
Proof.
  intros Hs Hn Hp Hw. pose proof Hs as []. set (v' := kill_node _ _ _ _).
  destruct (ok_owner n nd p Hn Hp) as (pr & Hpr & Hin). destruct (ok_sorted _ _ Hpr) as (S1 & _).
  assert (Hto : forall m md, vn v !! m = Some md -> exists md', vn v' !! m = Some md' /\ v_refs md' = v_refs md /\
    v_ptr md' = v_ptr md /\ (v_owner md = None -> v_owner md' = None) /\ (m <> n -> v_owner md' = v_owner md)).
  { intros m md Hm. cbn. destruct (decide (n = m)) as [->|].
    - rewrite lookup_alter_eq, Hm. eexists. by split_and!.
    - rewrite lookup_alter_ne by done. by exists md. }
  assert (Hback : forall m md', vn v' !! m = Some md' -> exists md, vn v !! m = Some md /\ v_refs md' = v_refs md /\
    v_ptr md' = v_ptr md /\ (v_owner md' = v_owner md /\ m <> n \/ v_owner md' = None)).
  { intros m md'. cbn. rewrite lookup_alter_Some. intros [(<- & md & Hm & ->)|[Hne Hm]].
    - exists md. split_and!; try done. by right.
    - exists md'. split_and!; try done. left. by split. }
  assert (Hpb : forall q qr', vp v' !! q = Some qr' -> exists qr, vp v !! q = Some qr /\ v_by_desc qr' = v_by_desc qr /\
    v_by_node qr' = v_by_node qr /\ v_dead qr' = v_dead qr /\
    v_nodes qr' = (if decide (p = q) then tree_erase (v_ptr nd) (v_nodes qr) else v_nodes qr)).
  { intros q qr'. cbn. rewrite lookup_alter_Some. intros [(<- & qr & Hq & ->)|[Hne Hq]].
    - exists qr. by rewrite decide_True.
    - exists qr'. by rewrite decide_False. }
  assert (Hpt : forall q qr, vp v !! q = Some qr -> exists qr', vp v' !! q = Some qr' /\ v_by_desc qr' = v_by_desc qr /\
    v_by_node qr' = v_by_node qr /\
    v_nodes qr' = (if decide (p = q) then tree_erase (v_ptr nd) (v_nodes qr) else v_nodes qr)).
  { intros q qr Hq. cbn. destruct (decide (p = q)) as [<-|].
    - rewrite lookup_alter_eq, Hq. eexists. by split_and!.
    - rewrite lookup_alter_ne by done. by exists qr. }
  split; try done.
  - intros r rf Hr HL. destruct (ok_ref r rf Hr HL) as (m & md & qr & H1 & H2 & H3 & H4 & H5 & H6).
    destruct (Hto _ _ H2) as (md' & E1 & E2 & _). destruct (Hpt _ _ H4) as (qr' & F1 & F2 & F3 & _).
    exists m, md', qr'. rewrite E2, F2, F3. done.
  - intros m md' r Hm Hr. destruct (Hback _ _ Hm) as (md & E1 & E2 & _). rewrite E2 in Hr. eauto.
  - intros m md' Hm. destruct (Hback _ _ Hm) as (md & E1 & E2 & _). rewrite E2. eauto.
  - intros q qr' d r Hq Hr. destruct (Hpb _ _ Hq) as (qr & E1 & E2 & _). rewrite E2 in Hr. eauto.
  - intros q qr' d r Hq Hr. destruct (Hpb _ _ Hq) as (qr & E1 & _ & E2 & _). rewrite E2 in Hr. eauto.
  - intros q qr' Hq. destruct (Hpb _ _ Hq) as (qr & E1 & E2 & E3 & _ & E4). destruct (ok_sorted _ _ E1) as (T1 & T2 & T3).
    rewrite E2, E3, E4. split_and!; try done. case_decide; [by apply sorted_tree_erase|done].
  - intros q qr' ptr m Hq Hm. destruct (Hpb _ _ Hq) as (qr & E1 & _ & _ & _ & E4). rewrite E4 in Hm.
    assert (Hm' : (ptr, m) ∈ v_nodes qr /\ (p = q -> ptr <> v_ptr nd)).
    { case_decide; [apply elem_of_tree_erase in Hm as [? ?]; by split|by split]. }
    destruct Hm' as [Hm1 Hm2]. destruct (ok_nodes _ _ _ _ E1 Hm1) as (md & F1 & F2 & F3).
    destruct (Hto _ _ F1) as (md' & G1 & G2 & G3 & G4 & G5). exists md'. split; [done|]. rewrite G3. split; [|done].
    rewrite G5; [done|]. intros ->. rewrite Hn in F1. injection F1 as <-. apply Hm2; congruence.
  - intros m md' q Hm Ho. destruct (Hback _ _ Hm) as (md & E1 & E2 & E3 & [[E4 Hne]|E4]); [|congruence].
    rewrite E4 in Ho. destruct (ok_owner _ _ _ E1 Ho) as (qr & F1 & F2). destruct (Hpt _ _ F1) as (qr' & G1 & _ & _ & G2).
    exists qr'. split; [done|]. rewrite G2, E3. case_decide as Hpq; [|done]. apply elem_of_tree_erase. split; [|done].
    cbn. intros Hptr. subst q. rewrite Hpr in F1. injection F1 as <-. rewrite Hptr in F2.
    by pose proof (sorted_unique _ _ _ _ S1 F2 Hin).
  - intros t q Ht. eapply alive_same; [apply kill_node_dead|]. by apply (ok_thread t q).
  - intros q qr' Hq Hd HD. destruct (Hpb _ _ Hq) as (qr & E1 & E2 & E3 & E4 & E5). rewrite E4 in Hd.
    destruct (ok_dead _ _ E1 Hd HD) as (F1 & F2 & F3). rewrite E2, E3, E5, F1, F2, F3. by case_decide.
  - intros l w Hl. eapply list_alive_same; [apply kill_node_dead|]. by apply (ok_list l w).
  - intros l m Hl. destruct (ok_node_work l m Hl) as (md & q & H1 & H2 & H3 & H4).
    destruct (Hto _ _ H1) as (md' & G1 & _ & _ & _ & G5). exists md', q. rewrite G5; [done|]. intros ->. by destruct (Hw l).
  - intros r rf d Hr Hd. destruct (ok_death r rf d Hr Hd) as (H1 & H2 & H3). split; [done|]. split; [done|].
    intros HL. destruct (H3 HL) as (H4 & H5). split; [done|]. intros Hq.
    destruct (H5 Hq) as (m & md & E1 & E2 & E3). destruct (Hto _ _ E2) as (md' & G1 & _ & _ & G4 & _). exists m, md'. auto.
Qed.

(** The death notifications of a dead node. *)
Lemma notify_spec T LS LW s n rs :
  inv D None T LS LW [] s -> NoDup rs ->
  (exists nd, nodes s !! n = Some nd /\ n_proc nd = None) ->
  (forall r, r ∈ rs -> exists rf, refs s !! r = Some rf /\ r_node rf = Some n /\
     forall d, r_death rf = Some d -> queued (WDeath d) s = false) ->
  exists s', notify_deaths rs s = Some s' /\ inv D None T LS LW [] s' /\ nodes s' = nodes s /\
    threads s' = threads s /\ context_mgr_node s' = context_mgr_node s /\ (forall p, lives s' p = lives s p).
Proof.
  revert s. induction rs as [|r rs IH]; intros s Hi Hnd Hdead Hr; [by exists s|]. cbn [notify_deaths].
  apply NoDup_cons in Hnd as [Hrn Hnd]. destruct (Hr r) as (rf & Hrf & Hrnode & Hq); [by left|].
  rewrite Hrf. cbn [mbind option_bind]. pose proof Hi as [Hs Hc].
  pose proof (struct_deaths_ok _ Hs) as [Knd Kw Kd Kr Kdet].
  destruct (r_death rf) as [d|] eqn:Ed.
  2: { apply (IH s Hi Hnd Hdead). intros x Hx. apply Hr. by right. }
  destruct (Kr r _ d (vr_lookup _ _ _ Hrf) Ed) as (Hvd & Huniq & _). pose proof Hvd as Hd.
  cbn in Hd. apply lookup_fmap_Some in Hd as (x & Hxt & Hx). rewrite Hx. cbn [mbind option_bind].
  assert (Hsame : on_death d (fun x => x <| d_type := DEAD_BINDER |>) s = s).
  { unfold on_death, set. destruct s as [a b c e f g h i]; cbn in *. f_equal. apply map_eq. intros j.
    destruct (decide (d = j)) as [->|]; [rewrite lookup_alter_eq, Hx|by rewrite lookup_alter_ne].
    cbn. f_equal. destruct x; cbn in *. by subst. }
  rewrite Hsame, (enqueue_spec s _ _ (Hq d eq_refl)). cbn [mbind option_bind].
  set (s1 := s <| works ::= fun ws => ws ++ [(ProcTodo (r_proc rf), WDeath d)] |>).
  destruct Hdead as (nd & Hn & Hnp).
  assert (I1 : inv D None T LS LW [] s1).
  { split; [|by apply (counts_same _ _ _ _ _ s)]. apply struct_enqueue; [done|by apply Hq|]. split.
    - exists (r_proc rf). split; [done|].
      destruct (struct_ref None _ _ _ Hs Hrf ltac:(done)) as (n' & nd' & pr & _ & _ & _ & Hpr & Hdesc & _).
      eapply node_alive; [exact Hs|by apply vp_lookup|]. by right.
    - split; [by eexists|]. split; [done|]. intros r' v (rf' & Hr' & ->)%vr_Some Hd' _.
      assert (r' = r) as -> by (eapply Huniq; [by apply vr_lookup|done]).
      rewrite Hrf in Hr'. injection Hr' as <-. exists n, (view_node nd). split; [done|]. split; [by apply vn_lookup|done]. }
  pose proof (inv_wakeup None T LS LW [] (r_proc rf) s1 I1) as I2.
  destruct (note_frame_wakeup (r_proc rf) s1) as (A1 & _ & A3 & A4).
  destruct (nodes_wakeup (r_proc rf) s1) as [N2 R2].
  assert (T2 : threads (binder_wakeup_proc_ilocked (r_proc rf) s1) = threads s).
  { unfold binder_wakeup_proc_ilocked, binder_select_thread_ilocked.
    destruct (procs s1 !! r_proc rf) as [pr|]; [|done]. by destruct (waiting_threads pr). }
  assert (W2 : works (binder_wakeup_proc_ilocked (r_proc rf) s1) = works s1).
  { unfold binder_wakeup_proc_ilocked, binder_select_thread_ilocked.
    destruct (procs s1 !! r_proc rf) as [pr|]; [|done]. by destruct (waiting_threads pr). }
  destruct (IH _ I2 Hnd) as (s' & -> & I' & N' & T' & C' & L').
  - exists nd. by rewrite N2.
  - intros x' Hx'. destruct (Hr x') as (xf & H1 & H2 & H3); [by right|]. exists xf. rewrite R2. split; [done|]. split; [done|].
    intros e He. unfold queued. rewrite W2. unfold s1. cbn. apply bool_decide_eq_false. rewrite snd_app, elem_of_app, list_elem_of_singleton.
    intros [Hin|[= ->]].
    + specialize (H3 e He). by apply bool_decide_eq_false in H3.
    + assert (x' = r) as ->; [|done]. eapply Huniq; [by apply vr_lookup|done].
  - exists s'. split; [done|]. split; [done|]. split; [by rewrite N', N2|]. split; [by rewrite T', T2|].
    split; [by rewrite C'|]. intros p. by rewrite L', A4.
Qed.

(** One round of the loop over the nodes of a process. *)
Definition release_node (n proc ptr : Z) s : option binder_state :=
  s ← binder_inc_node_tmpref_ilocked n s;
  binder_node_release n (on_proc proc (fun p => p <| p_nodes ::= tree_erase ptr |>) s).

Lemma free_released T LS LW LS1 LW1 s n nd p s1 :
  inv D None T LS LW [] s -> nodes s !! n = Some nd -> n_proc nd = Some p -> n_refs nd = [] -> occ n T = 0 ->
  same_else n LS LS1 -> same_else n LW LW1 -> occ n LS1 = 0 -> occ n LW1 = 0 ->
  view s1 = unlink_node (view_node nd) n (view (binder_dequeue_work_ilocked (WNode n) s)) ->
  nodes s1 = delete n (nodes s) -> refs s1 = refs s -> inv D None T LS1 LW1 [] s1.
Proof.
  intros [Hs [Hc Hp Hh]] Hn Hnp Hr HT HS HW HS0 HW0 Ev En Er. split.
  - rewrite Ev. apply struct_unlink; [by apply struct_dequeue|by apply vn_lookup|done|].
    intros l Hl. cbn in Hl. by apply elem_dequeue in Hl as [Hl _].
  - split; rewrite ?En, ?Er; [|done|].
    + intros m md [Hne Hm]%lookup_delete_Some. destruct (Hc m md Hm) as [H1 H2 H3 H4].
      split; rewrite ?HS, ?HW by done; auto.
    + intros m Hm. rewrite lookup_delete_ne; [|intros <-; rewrite !occ_pos, HS0, HW0, occ_nil in Hm; lia].
      apply Hh. destruct (decide (m = n)) as [->|Hne]; [rewrite !occ_pos, HS0, HW0, occ_nil in Hm; lia|].
      rewrite !occ_pos in *. by rewrite HS, HW in Hm by done.
Qed.

Lemma dead_released T LS LW LS1 LW1 s n nd p s1 :
  inv D None T LS LW [] s -> nodes s !! n = Some nd -> n_proc nd = Some p ->
  same_else n LS LS1 -> same_else n LW LW1 -> occ n LS1 <= occ n T -> occ n LW1 = 0 ->
  view s1 = kill_node n p (n_ptr nd) (view (binder_dequeue_work_ilocked (WNode n) s)) ->
  nodes s1 = alter (fun nd => nd <| tmp_refs ::= Z.add 1 |> <| n_proc := None |> <| local_strong_refs := 0 |>
                                 <| local_weak_refs := 0 |>) n (nodes s) ->
  refs s1 = refs s -> inv D None (n :: T) LS1 LW1 [] s1.
Proof.
  intros [Hs [Hc Hp Hh]] Hn Hnp HS HW HST HW0 Ev En Er. split.
  - rewrite Ev. apply (struct_kill _ n (view_node nd)); [by apply struct_dequeue|by apply vn_lookup|done|].
    intros l Hl. cbn in Hl. by apply elem_dequeue in Hl as [Hl _].
  - split; rewrite ?En, ?Er; [|done|].
    + intros m md. rewrite lookup_alter_Some. intros [(<- & md0 & Hm & ->)|[Hne Hm]].
      * rewrite Hn in Hm. injection Hm as <-. destruct (Hc n nd Hn) as [H1 H2 H3 H4].
        split; cbn; rewrite ?occ_head; [done|lia|by intros []|]. intros _. split_and!; lia.
      * destruct (Hc m md Hm) as [H1 H2 H3 H4].
        split; rewrite ?(occ_cons m n), ?decide_False, ?HS, ?HW by done; auto.
    + intros m Hm. rewrite lookup_alter_is_Some. destruct (decide (m = n)) as [->|Hne]; [by eexists|].
      apply Hh. rewrite !occ_pos in *. rewrite occ_cons, decide_False, HS, HW in Hm by done. lia.
Qed.

Lemma release_node_spec T LS LW LS1 LW1 s n nd p :
  inv D None T LS LW [] s -> nodes s !! n = Some nd -> n_proc nd = Some p ->
  same_else n LS LS1 -> same_else n LW LW1 -> occ n LS1 <= occ n T -> occ n LW1 = 0 ->
  exists s', release_node n p (n_ptr nd) s = Some s' /\ inv D None T LS1 LW1 [] s' /\
    threads s' = threads s /\ context_mgr_node s' = context_mgr_node s /\ (forall q, lives s' q = lives s q) /\
    (forall m, m <> n -> nodes s' !! m = nodes s !! m) /\
    (forall nd', nodes s' !! n = Some nd' -> n_proc nd' = None).
Proof.
  intros Hi Hn Hp HS HW HST HW0. pose proof Hi as [Hs Hc].
  destruct (ok_counts _ _ _ _ _ _ Hc n nd Hn) as [_ Hct _ _]. pose proof (occ_nonneg n T). pose proof (occ_nonneg n LS1).
  unfold release_node, binder_inc_node_tmpref_ilocked. rewrite Hn. cbn [mbind option_bind].
  set (s1 := on_proc p _ _).
  assert (Hn1 : nodes s1 !! n = Some (nd <| tmp_refs ::= Z.add 1 |>)) by (unfold s1; cbn; by rewrite lookup_alter_eq, Hn).
  assert (Hlv : forall q, lives s1 q = lives s q).
  { intros q. unfold lives, s1. cbn. destruct (decide (p = q)) as [->|]; [rewrite lookup_alter_eq|by rewrite lookup_alter_ne].
    by destruct (procs s !! q). }
  unfold binder_node_release. rewrite Hn1. cbn [mbind option_bind].
  change (n_refs (nd <| tmp_refs ::= Z.add 1 |>)) with (n_refs nd).
  change (tmp_refs (nd <| tmp_refs ::= Z.add 1 |>)) with (1 + tmp_refs nd).
  rewrite (proj2 (Z.eqb_neq (1 + tmp_refs nd) 0)) by lia.
  assert (Ep : view_proc <$> alter (fun pr => pr <| p_nodes ::= tree_erase (n_ptr nd) |>) p (procs s) =
    alter (fun pr => pr <| v_nodes ::= tree_erase (n_ptr nd) |>) p (view_proc <$> procs s)) by by apply fmap_alter_view.
  destruct (_ && _) eqn:Ecase.
  - rewrite andb_true_iff, bool_decide_eq_true, Z.eqb_eq in Ecase. destruct Ecase as [Er Et].
    assert (HT0 : occ n T = 0) by lia.
    assert (Hda : forall f (m : gmap Z binder_node), delete n (alter f n m) = delete n m).
    { intros f m. apply map_eq. intros i. destruct (decide (i = n)) as [->|];
        [by rewrite !lookup_delete_eq|by rewrite !lookup_delete_ne, lookup_alter_ne]. }
    eexists. split; [done|]. split.
    + eapply (free_released T LS LW LS1 LW1 s n nd p); try done; [lia| |cbn; by rewrite Hda].
      unfold unlink_node, view, s1; cbn -[filter]. rewrite Hp, Hda, !fmap_delete. unfold set in *; cbn -[filter] in *.
      f_equal. exact Ep.
    + split; [done|]. split; [done|]. split; [exact Hlv|]. split.
      * intros m Hm. cbn. by rewrite lookup_delete_ne, lookup_alter_ne.
      * intros nd' Hn'. cbn in Hn'. by rewrite lookup_delete_eq in Hn'.
  - set (s2 := set dead_nodes _ _).
    assert (En : nodes s2 = alter (fun nd => nd <| tmp_refs ::= Z.add 1 |> <| n_proc := None |> <| local_strong_refs := 0 |>
                                 <| local_weak_refs := 0 |>) n (nodes s)).
    { unfold s2, s1. cbn. apply map_eq. intros i. destruct (decide (n = i)) as [->|]; [rewrite !lookup_alter_eq|by rewrite !lookup_alter_ne].
      by destruct (nodes s !! i). }
    assert (I2 : inv D None (n :: T) LS1 LW1 [] s2).
    { eapply (dead_released T LS LW LS1 LW1 s n nd p); try done.
      transitivity (kill_node n p (n_ptr nd) (view (binder_dequeue_work_ilocked (WNode n) s))); [|done].
      unfold kill_node, view; rewrite En; unfold s2, s1; cbn -[filter]. unfold set in *; cbn -[filter] in *.
      f_equal; [by apply fmap_alter_view|exact Ep]. }
    assert (Hn2 : nodes s2 !! n = Some (nd <| tmp_refs ::= Z.add 1 |> <| n_proc := None |> <| local_strong_refs := 0 |>
                                 <| local_weak_refs := 0 |>)) by (rewrite En, lookup_alter_eq, Hn; done).
    destruct (notify_spec (n :: T) LS1 LW1 s2 n (n_refs nd) I2) as (s3 & -> & I3 & N3 & T3 & C3 & L3).
    + apply (ok_refs_nodup _ _ Hs n _ (vn_lookup _ _ _ Hn)).
    + by eexists.
    + intros r Hr. destruct (struct_refs None _ _ _ _ Hs Hn Hr) as (rf & H1 & H2). exists rf. split; [done|]. split; [done|].
      intros d Hd. destruct (queued (WDeath d) s2) eqn:Eq; [|done]. apply queued_true in Eq as (l & Hl).
      cbn -[filter] in Hl. apply elem_dequeue in Hl as [_ Hl].
      pose proof (struct_deaths_ok _ Hs) as [_ _ _ Kr _]. destruct (Kr r _ d (vr_lookup _ _ _ H1) Hd) as (_ & _ & H3).
      destruct H3 as (m & md & E1 & E2 & E3); [by eapply in_works_snd|]. cbn in E1. rewrite H2 in E1. injection E1 as <-.
      apply vn_Some in E2 as (nd' & E2 & ->). rewrite Hn in E2. injection E2 as <-. cbn in E3. congruence.
    + cbn [mbind option_bind].
      destruct (put_node_spec (D:=D) None T LS1 LW1 [] s3 n I3) as (s4 & E4 & I4 & F4 & _); [done|by intros|].
      rewrite E4. exists s4. destruct F4 as (A1 & A2 & A3 & A4 & A5 & A6 & A7 & A8).
      split; [done|]. split; [done|]. split; [by rewrite A3, T3|]. split; [by rewrite A4, C3|]. split; [|split].
      * intros q. specialize (A7 q). apply (f_equal (fmap snd)) in A7. rewrite <- !option_fmap_compose in A7.
        etrans; [exact A7|]. etrans; [exact (L3 q)|]. exact (Hlv q).
      * intros m Hm. rewrite A5 by done. rewrite N3, En. by rewrite lookup_alter_ne.
      * intros nd' Hn'. destruct A8 as [_ A8]. specialize (A8 n). rewrite N3, Hn2 in A8. specialize (A8 _ eq_refl).
        rewrite Hn' in A8. unfold ident in A8. cbn in A8. congruence.
Qed.

Lemma release_nodes_step fuel p s pr ptr n t : procs s !! p = Some pr -> p_nodes pr = (ptr, n) :: t ->
  release_nodes (S fuel) p s = s ← release_node n p ptr s; release_nodes fuel p s.
Proof.
  intros Hp Hn. cbn [release_nodes]. rewrite Hp. cbn [mbind option_bind]. rewrite Hn. unfold release_node.
  by destruct (binder_inc_node_tmpref_ilocked n s).
Qed.

Lemma owned_in_tree L s n nd p : struct_ok D L (view s) -> nodes s !! n = Some nd -> n_proc nd = Some p ->
  exists pr, procs s !! p = Some pr /\ (n_ptr nd, n) ∈ p_nodes pr.
Proof.
  intros Hs Hn Hp. destruct (ok_owner _ _ Hs n _ p (vn_lookup _ _ _ Hn) Hp) as (v & (pr & E & ->)%vp_Some & Hin). eauto.
Qed.

Lemma lives_lookup s s' p pr : lives s' p = lives s p -> procs s !! p = Some pr -> exists pr', procs s' !! p = Some pr' /\ life pr' = life pr.
Proof. unfold lives. intros E Hp. rewrite Hp in E. destruct (procs s' !! p) as [pr'|]; [|done]. cbn in E. eexists. split; [done|congruence]. Qed.

(** The loop over the nodes: afterwards only transactions in progress hold
    them. *)
Lemma release_nodes_spec K KW T p fuel LS LW s pr :
  inv D None T LS LW [] s -> procs s !! p = Some pr -> (length (p_nodes pr) <= fuel)%nat ->
  (forall m nd, nodes s !! m = Some nd -> n_proc nd = Some p -> occ m K <= occ m T /\ occ m KW = 0) ->
  (forall m, (forall nd, nodes s !! m = Some nd -> n_proc nd <> Some p) -> occ m K = occ m LS /\ occ m KW = occ m LW) ->
  exists s', release_nodes fuel p s = Some s' /\ inv D None T K KW [] s' /\
    threads s' = threads s /\ context_mgr_node s' = context_mgr_node s /\ (forall q, lives s' q = lives s q) /\
    (forall m nd, nodes s !! m = Some nd -> n_proc nd <> Some p -> nodes s' !! m = Some nd) /\
    (forall m nd, nodes s' !! m = Some nd -> n_proc nd <> Some p /\
       (nodes s !! m = Some nd \/ n_proc nd = None /\ exists nd0, nodes s !! m = Some nd0 /\ n_proc nd0 = Some p)).
Proof.
  revert LS LW s pr. induction fuel as [|fuel IH]; intros LS LW s pr Hi Hp Hlen HK HK2.
  all: destruct (p_nodes pr) as [|[ptr n] t] eqn:En; [|cbn [length] in Hlen].
  1, 3: assert (Hnone : forall m nd, nodes s !! m = Some nd -> n_proc nd <> Some p) by
    (intros m nd Hm Ho; destruct (owned_in_tree _ _ _ _ _ (proj1 Hi) Hm Ho) as (pr' & E & Hin);
     rewrite Hp in E; injection E as <-; rewrite En in Hin; by apply not_elem_of_nil in Hin);
    exists s; (split; [cbn [release_nodes]; rewrite Hp; cbn [mbind option_bind]; by rewrite En|]);
    (split; [eapply inv_perm; [done|..|exact Hi]; intros m; symmetry; apply (HK2 m); eauto|]);
    split_and!; try done; intros m nd Hm; split; [by eapply Hnone|by left].
  { lia. }
  destruct (ok_nodes _ _ (proj1 Hi) p _ ptr n (vp_lookup _ _ _ Hp)) as (v & (nd & Hn & ->)%vn_Some & Ho & Hptr).
  { cbn. rewrite En. left. }
  cbn in Ho, Hptr. subst ptr.
  set (LS1 := filter (fun m => m ≠ n) LS ++ filter (fun m => m = n) K).
  set (LW1 := filter (fun m => m ≠ n) LW).
  assert (Hocc : forall m l, occ m (filter (fun m => m ≠ n) l) = if decide (m = n) then 0 else occ m l).
  { intros m l. induction l as [|x l IHl]; [by case_decide|]. rewrite filter_cons.
    destruct (decide (x ≠ n)); rewrite ?occ_cons, ?IHl; repeat case_decide; try done; try lia; naive_solver. }
  assert (Hocc2 : forall m l, occ m (filter (fun m => m = n) l) = if decide (m = n) then occ m l else 0).
  { intros m l. induction l as [|x l IHl]; [by case_decide|]. rewrite filter_cons.
    destruct (decide (x = n)); rewrite ?occ_cons, ?IHl; repeat case_decide; try done; try lia; naive_solver. }
  assert (HS1 : forall m, occ m LS1 = if decide (m = n) then occ m K else occ m LS).
  { intros m. unfold LS1. rewrite occ_app, Hocc, Hocc2. case_decide; lia. }
  assert (HW1 : forall m, occ m LW1 = if decide (m = n) then 0 else occ m LW) by (intros; apply Hocc).
  destruct (HK n nd Hn Ho) as [HKn HKWn].
  destruct (release_node_spec T LS LW LS1 LW1 s n nd p Hi Hn Ho) as (s1 & E1 & I1 & T1 & C1 & L1 & N1 & Nn).
  { intros m Hm. rewrite HS1. by rewrite decide_False. }
  { intros m Hm. rewrite HW1. by rewrite decide_False. }
  { rewrite HS1. by rewrite decide_True. }
  { rewrite HW1. by rewrite decide_True. }
  rewrite (release_nodes_step fuel p s pr (n_ptr nd) n t Hp En), E1. cbn [mbind option_bind].
  destruct (lives_lookup s s1 p pr (L1 p) Hp) as (pr1 & Hp1 & _).
  destruct (IH LS1 LW1 s1 pr1 I1 Hp1) as (s' & -> & I' & T' & C' & L' & N1' & N2').
  - (* the tree has lost a node *)
    assert (Hsub : forall e, e ∈ p_nodes pr1 -> e ∈ t).
    { intros [k m] Hin. destruct (ok_nodes _ _ (proj1 I1) p _ k m (vp_lookup _ _ _ Hp1) Hin) as (v & (md & Hm & ->)%vn_Some & Hmo & Hmp).
      assert (Hmn : m <> n). { intros ->. specialize (Nn md Hm). cbn in Hmo. congruence. }
      rewrite N1 in Hm by done. destruct (owned_in_tree _ _ _ _ _ (proj1 Hi) Hm Hmo) as (pr' & E & Hin').
      rewrite Hp in E. injection E as <-. rewrite En in Hin'. cbn in Hmp. rewrite Hmp in Hin'.
      apply elem_of_cons in Hin' as [[= _ ->]|Hin']; done. }
    assert (Hnd : NoDup (p_nodes pr1)).
    { destruct (ok_sorted _ _ (proj1 I1) p _ (vp_lookup _ _ _ Hp1)) as (S1 & _). cbn in S1.
      by apply (NoDup_fmap_1 fst), sorted_keys_nodup. }
    pose proof (NoDup_incl_length (l' := t) (proj1 (NoDup_ListNoDup _) Hnd)) as Hle.
    assert (length (p_nodes pr1) <= length t)%nat; [|lia]. apply Hle. intros e He. apply list_elem_of_In, Hsub, list_elem_of_In, He.
  - intros m md Hm Hmo. assert (Hmn : m <> n). { intros ->. specialize (Nn md Hm). congruence. }
    rewrite N1 in Hm by done. by apply (HK m md).
  - intros m Hm. rewrite HS1, HW1. destruct (decide (m = n)) as [->|Hmn]; [done|].
    apply HK2. intros md Hmd. apply Hm. by rewrite N1.
  - exists s'. split; [done|]. split; [done|]. split; [congruence|]. split; [congruence|].
    split; [intros q; by rewrite L', L1|]. split.
    + intros m md Hm Hmo. apply N1'; [|done]. rewrite N1; [done|]. intros ->. congruence.
    + intros m md Hm. destruct (N2' m md Hm) as [H1 H2]. split; [done|].
      destruct H2 as [H2|(H2 & md0 & H3 & H4)].
      * destruct (decide (m = n)) as [->|Hmn]; [|left; by rewrite <- N1]. right. split; [by apply Nn|by exists nd].
      * right. split; [done|]. exists md0. split; [|done]. rewrite <- N1; [done|]. intros ->. specialize (Nn _ H3). congruence.
Qed.

(** ** References *)

Lemma tree_erase_head k (v : Z) t : sorted_keys ((k, v) :: t) -> tree_erase k ((k, v) :: t) = t.
Proof.
  intros Hs%sorted_keys_nodup. cbn in Hs. apply NoDup_cons in Hs as [Hk _].
  unfold tree_erase. rewrite filter_cons, decide_False by (intros []; done). apply filter_same.
  intros e He Hek. apply Hk. rewrite <- Hek. apply list_elem_of_fmap. by exists e.
Qed.

Lemma release_refs_spec T LS LW p fuel s pr :
  inv D None T LS LW [] s -> procs s !! p = Some pr -> (length (refs_by_desc pr) <= fuel)%nat ->
  exists s', release_refs fuel p s = Some s' /\ inv D None T LS LW [] s' /\ ref_frame s s' /\
    (forall pr', procs s' !! p = Some pr' -> refs_by_desc pr' = []).
Proof.
  revert s pr. induction fuel as [|fuel IH]; intros s pr Hi Hp Hlen; cbn [release_refs]; rewrite Hp; cbn [mbind option_bind];
    destruct (refs_by_desc pr) as [|[d r] t] eqn:En; cbn [length] in Hlen; try lia.
  1, 2: exists s; (split; [done|]); (split; [done|]); (split; [apply ref_frame_refl|]); intros pr' E; rewrite Hp in E;
    by injection E as <-.
  destruct (ok_by_desc _ _ (proj1 Hi) p _ d r (vp_lookup _ _ _ Hp)) as (v & (rf & Hr & ->)%vr_Some & Hd & Hrp & _).
  { cbn. rewrite En. left. }
  cbn in Hd, Hrp.
  destruct (cleanup_free_spec T LS LW [] s r rf Hi Hr) as (s1 & rf1 & s2 & -> & _ & _ & E2 & I2 & F2 & _ & P2); [done|].
  cbn [mbind option_bind]. rewrite E2. cbn [mbind option_bind].
  specialize (P2 p). rewrite Hp in P2. destruct (procs s2 !! p) as [pr2|] eqn:Hp2; [|done]. cbn in P2.
  rewrite decide_True in P2 by done. injection P2 as P2. rewrite En, Hd, tree_erase_head in P2.
  2: { destruct (ok_sorted _ _ (proj1 Hi) p _ (vp_lookup _ _ _ Hp)) as (_ & S2 & _). cbn in S2. by rewrite En in S2. }
  destruct (IH s2 pr2 I2 Hp2) as (s' & -> & I' & F' & Hnil); [rewrite P2; lia|].
  exists s'. split; [done|]. split; [done|]. split; [by eapply ref_frame_trans|done].
Qed.
End Release.

(** ** Processes *)

Section Process.
Implicit Types (T LS LW : list Z) (s : binder_state).

(** The process starts to die. *)
Lemma inv_dying T LS LW s p f :
  (forall pr, view_proc (f pr) = (view_proc pr) <| v_dead := true |>) ->
  inv None None T LS LW [] s -> inv (Some p) None T LS LW [] (on_proc p f s).
Proof.
  intros Hf [Hs Hc]. split; [|by apply (counts_same _ _ _ _ _ s)].
  assert (Ev : view (on_proc p f s) = (view s) <| vp ::= alter (fun pr => pr <| v_dead := true |>) p |>).
  { unfold view, on_proc, set; cbn. f_equal. by apply fmap_alter_view. }
  rewrite Ev. clear Ev. set (v := view s) in *. clearbody v. pose proof Hs as []. set (v' := set vp _ v).
  assert (Hto : forall q qr, vp v !! q = Some qr -> exists qr', vp v' !! q = Some qr' /\ v_nodes qr' = v_nodes qr /\
    v_by_desc qr' = v_by_desc qr /\ v_by_node qr' = v_by_node qr /\ (q <> p -> qr' = qr)).
  { intros q qr Hq. cbn. destruct (decide (p = q)) as [->|].
    - rewrite lookup_alter_eq, Hq. eexists. by split_and!.
    - rewrite lookup_alter_ne by done. by exists qr. }
  assert (Hback : forall q qr', vp v' !! q = Some qr' -> exists qr, vp v !! q = Some qr /\ v_nodes qr' = v_nodes qr /\
    v_by_desc qr' = v_by_desc qr /\ v_by_node qr' = v_by_node qr /\ (q <> p -> qr' = qr)).
  { intros q qr'. cbn. rewrite lookup_alter_Some. intros [(<- & qr & Hq & ->)|[Hne Hq]].
    - exists qr. by split_and!.
    - by exists qr'. }
  assert (Hal : forall q, alive None v q -> alive (Some p) v' q).
  { intros q (qr & E & Hd). destruct (Hto _ _ E) as (qr' & E' & _ & _ & _ & Hq). exists qr'. split; [done|].
    intros Hd'. destruct (decide (q = p)) as [->|Hne]; [done|]. rewrite (Hq Hne) in Hd'. by discriminate (Hd Hd'). }
  split; try done.
  - intros r rf Hr HL. destruct (ok_ref r rf Hr HL) as (n & nd & qr & H1 & H2 & H3 & H4 & H5 & H6).
    destruct (Hto _ _ H4) as (qr' & E1 & E2 & E3 & E4 & _). exists n, nd, qr'. rewrite E3, E4. done.
  - intros q qr' d r Hq Hr. destruct (Hback _ _ Hq) as (qr & E1 & E2 & E3 & E4 & _). rewrite E3 in Hr. eauto.
  - intros q qr' n r Hq Hr. destruct (Hback _ _ Hq) as (qr & E1 & E2 & E3 & E4 & _). rewrite E4 in Hr. eauto.
  - intros q qr' Hq. destruct (Hback _ _ Hq) as (qr & E1 & E2 & E3 & E4 & _). rewrite E2, E3, E4. eauto.
  - intros q qr' ptr n Hq Hn. destruct (Hback _ _ Hq) as (qr & E1 & E2 & E3 & E4 & _). rewrite E2 in Hn. eauto.
  - intros n nd q Hn Ho. destruct (ok_owner n nd q Hn Ho) as (qr & E1 & E2).
    destruct (Hto _ _ E1) as (qr' & F1 & F2 & _). exists qr'. by rewrite F2.
  - intros t q Ht. apply Hal. eauto.
  - intros q qr' Hq Hd HD. destruct (Hback _ _ Hq) as (qr & E1 & _ & _ & _ & E2).
    rewrite E2 in * by congruence. by apply (ok_dead q qr).
  - intros l w Hl. destruct (ok_list l w Hl) as (q & H1 & H2). exists q. eauto.
Qed.

(** The process is dead, with nothing left. *)
Lemma struct_died v p pr :
  struct_ok (Some p) None v -> vp v !! p = Some pr -> v_nodes pr = [] -> v_by_desc pr = [] ->
  (forall t, vt v !! t <> Some p) -> (forall l w, (l, w) ∈ vw v -> ~ list_of (vt v) l p) ->
  struct_ok None None v.
Proof.
  intros Hs Hp Hn Hd Ht Hw. pose proof Hs as [].
  assert (Hal : forall q, alive (Some p) v q -> q <> p -> alive None v q).
  { intros q (qr & E & Hq) Hne. exists qr. split; [done|]. intros Hd'. specialize (Hq Hd'). congruence. }
  split; try done.
  - intros t q Htq. apply Hal; [eauto|]. intros ->. by apply (Ht t).
  - intros q qr Hq Hqd _. destruct (decide (q = p)) as [->|Hne]; [|apply (ok_dead q qr); congruence].
    rewrite Hp in Hq. injection Hq as <-. split_and!; try done.
    destruct (v_by_node pr) as [|[n r] l] eqn:E; [done|].
    destruct (ok_by_node p pr n r Hp) as (rf & H1 & H2 & H3 & _); [rewrite E; left|].
    destruct (ok_ref r rf H1 ltac:(done)) as (m & nd & qr & _ & _ & _ & G1 & G2 & _).
    rewrite H3, Hp in G1. injection G1 as <-. rewrite Hd in G2. by apply not_elem_of_nil in G2.
  - intros l w Hl. destruct (ok_list l w Hl) as (q & H1 & H2). exists q. split; [done|]. apply Hal; [done|].
    intros ->. by apply (Hw l w).
Qed.

(** The last temporary reference is dropped by the release, or later. *)
Lemma died_dec_spec T LS LW s p pr :
  inv (Some p) None T LS LW [] s -> procs s !! p = Some pr -> is_dead pr = true ->
  p_nodes pr = [] -> refs_by_desc pr = [] -> proc_threads p s = [] ->
  (forall l w, (l, w) ∈ works s -> ~ list_of (vt (view s)) l p) ->
  exists s', binder_proc_dec_tmpref p s = Some s' /\ inv None None T LS LW [] s' /\ nodes s' = nodes s /\
    dec_frame p s s'.
Proof.
  intros [Hs Hc] Hp Hd Hn Hr Ht Hw.
  assert (Hi : inv None None T LS LW [] s).
  { split; [|done]. eapply (struct_died (view s) p); [done|by apply vp_lookup|done|done| |done].
    intros t E. cbn in E. apply lookup_fmap_Some in E as (th & E1 & E2).
    assert (Hin : t ∈ proc_threads p s) by (apply proc_threads_elem; eauto).
    rewrite Ht in Hin. by apply not_elem_of_nil in Hin. }
  apply proc_dec_spec; [done|by eexists].
Qed.

(** The context manager's node, if it belongs to another process. *)
Definition other_manager (p : Z) s : option Z :=
  match context_mgr_node s with
  | Some n => match nodes s !! n with
              | Some nd => if decide (n_proc nd = Some p) then None else Some n
              | None => None
              end
  | None => None
  end.

(** What the end of the process [p] does to the others. *)
Definition death_frame (p : Z) s s' : Prop :=
  (forall t, threads s' !! t = if decide (t ∈ proc_threads p s) then None else threads s !! t) /\
  context_mgr_node s' = other_manager p s /\
  (forall q, q <> p -> lives s' q = lives s q) /\
  (forall m nd, nodes s !! m = Some nd -> n_proc nd <> Some p ->
     match nodes s' !! m with Some nd' => ident nd' = ident nd | None => gone nd end) /\
  (forall m nd', nodes s' !! m = Some nd' -> n_proc nd' <> Some p /\ exists nd, nodes s !! m = Some nd /\
     (n_proc nd = Some p /\ n_proc nd' = None \/ ident nd' = ident nd)).

Lemma proc_threads_nodup p s : NoDup (proc_threads p s).
Proof.
  unfold proc_threads. apply NoDup_fmap_fst; [|apply NoDup_map_to_list].
  intros t th th' H1 H2. apply elem_of_map_to_list in H1, H2. congruence.
Qed.

Lemma no_owned_nodes L D s p pr : struct_ok D L (view s) -> procs s !! p = Some pr ->
  (forall m nd, nodes s !! m = Some nd -> n_proc nd <> Some p) -> p_nodes pr = [].
Proof.
  intros Hs Hp Hno. destruct (p_nodes pr) as [|[k n] t] eqn:E; [done|].
  destruct (ok_nodes _ _ Hs p _ k n (vp_lookup _ _ _ Hp)) as (v & (nd & Hn & ->)%vn_Some & Ho & _); [cbn; rewrite E; left|].
  by destruct (Hno n nd Hn).
Qed.

Lemma binder_deferred_release_spec T LS LW K KW s p pr :
  inv None None T LS LW [] s -> procs s !! p = Some pr -> 0 <= p_tmp_ref pr ->
  (forall n, context_mgr_node s = Some n -> is_Some (nodes s !! n)) ->
  (forall m nd, nodes s !! m = Some nd -> n_proc nd = Some p -> occ m K <= occ m T /\ occ m KW = 0) ->
  (forall m, (forall nd, nodes s !! m = Some nd -> n_proc nd <> Some p) -> occ m K = occ m LS /\ occ m KW = occ m LW) ->
  exists s', binder_deferred_release p s = Some s' /\ inv None None T K KW [] s' /\ death_frame p s s' /\
    lives s' p = (if p_tmp_ref pr =? 0 then None else Some (true, p_tmp_ref pr)).
Proof.
  intros Hi Hp Htmp Hctx HK HK2. unfold binder_deferred_release.
  (* the context manager *)
  assert (H0 : exists s0, (match context_mgr_node s with
       | Some n => nd ← nodes s !! n;
           Some (if bool_decide (n_proc nd = Some p) then s <| context_mgr_node := None |> else s)
       | None => Some s end) = Some s0 /\ nodes s0 = nodes s /\ refs s0 = refs s /\ procs s0 = procs s /\
       threads s0 = threads s /\ context_mgr_node s0 = other_manager p s /\ view s0 = view s).
  { unfold other_manager. destruct (context_mgr_node s) as [n|] eqn:Ec; [|by exists s].
    destruct (Hctx n eq_refl) as [nd Hn]. rewrite Hn. cbn [mbind option_bind].
    destruct (decide (n_proc nd = Some p)) as [Ho|Ho]; [rewrite bool_decide_true by done|rewrite bool_decide_false by done].
    - eexists. by split_and!.
    - by exists s. }
  destruct H0 as (s0 & -> & N0 & R0 & P0 & T0 & C0 & V0). cbn [mbind option_bind].
  assert (I0 : inv None None T LS LW [] s0).
  { destruct Hi as [Hs Hc]. split; [by rewrite V0|]. by apply (counts_same _ _ _ _ _ s). }
  (* dying *)
  set (s1 := on_proc p _ s0).
  assert (I1 : inv (Some p) None T LS LW [] s1) by by apply inv_dying.
  set (pr1 := pr <| p_tmp_ref ::= Z.add 1 |> <| is_dead := true |>).
  assert (Hp1 : procs s1 !! p = Some pr1) by (unfold s1; cbn; by rewrite lookup_alter_eq, P0, Hp).
  (* threads *)
  replace (proc_threads p s1) with (proc_threads p s) by (unfold proc_threads, s1; cbn; by rewrite T0).
  destruct (release_threads_spec T LS LW (proc_threads p s) s1 p pr1 I1) as (s2 & -> & I2 & N2 & C2 & P2 & T2).
  { apply proc_threads_nodup. }
  { intros t (th & H1 & _)%proc_threads_elem. unfold s1. cbn. rewrite T0, H1. by eexists. }
  { done. }
  { right. cbn. lia. }
  cbn [mbind option_bind]. rewrite P2, Hp1. cbn [mbind option_bind].
  assert (N2' : nodes s2 = nodes s) by (rewrite N2; exact N0).
  (* nodes *)
  destruct (release_nodes_spec K KW T p (length (p_nodes pr1)) LS LW s2 pr1 I2) as
    (s3 & -> & I3 & T3 & C3 & L3 & M3 & M3').
  { by rewrite P2. }
  { lia. }
  { intros m nd. rewrite N2'. apply HK. }
  { intros m Hm. apply HK2. rewrite N2' in Hm. done. }
  cbn [mbind option_bind].
  destruct (lives_lookup s2 s3 p pr1 (L3 p)) as (pr3 & Hp3 & Hl3); [by rewrite P2|]. rewrite Hp3. cbn [mbind option_bind].
  (* references *)
  destruct (release_refs_spec T K KW p (length (refs_by_desc pr3)) s3 pr3 I3 Hp3) as (s4 & -> & I4 & F4 & Hnil4); [lia|].
  cbn [mbind option_bind]. destruct F4 as (T4 & C4 & Q4 & L4).
  (* works *)
  destruct (release_work_spec T K KW s4 (ProcTodo p) I4) as (s5 & -> & I5 & (N5 & R5 & T5 & C5 & P5) & W5). cbn [mbind option_bind].
  destruct (release_work_spec T K KW s5 (DeliveredDeath p) I5) as (s6 & -> & I6 & (N6 & R6 & T6 & C6 & P6) & W6). cbn [mbind option_bind].
  destruct (lives_lookup s3 s4 p pr3 (L4 p) Hp3) as (pr4 & Hp4 & Hl4).
  assert (Hp6 : procs s6 !! p = Some pr4) by (by rewrite P6, P5).
  assert (Hlife : life pr4 = (true, p_tmp_ref pr + 1)).
  { rewrite Hl4, Hl3. unfold life. cbn. f_equal. lia. }
  assert (Hth : forall t, threads s6 !! t = if decide (t ∈ proc_threads p s) then None else threads s !! t).
  { intros t. rewrite T6, T5, T4, T3, T2. unfold s1. cbn. by rewrite T0. }
  assert (Hno3 : forall m nd, nodes s3 !! m = Some nd -> n_proc nd <> Some p) by (intros m nd Hm; by apply (M3' m nd Hm)).
  assert (Hno6 : forall m nd, nodes s6 !! m = Some nd -> n_proc nd <> Some p).
  { intros m nd. rewrite N6, N5. intros Hm Ho. destruct Q4 as [Q1 Q2]. destruct (Q1 m) as [nd3 H3]; [by eexists|].
    specialize (Q2 m nd3 H3). rewrite Hm in Q2. unfold ident in Q2. apply (Hno3 m nd3 H3). congruence. }
  assert (Hthno : proc_threads p s6 = []).
  { destruct (proc_threads p s6) as [|t l] eqn:E; [done|].
    assert (Hin : t ∈ proc_threads p s6) by (rewrite E; left). apply proc_threads_elem in Hin as (th & H1 & H2).
    rewrite Hth in H1. destruct (decide (t ∈ proc_threads p s)) as [|Hne]; [done|]. destruct Hne. apply proc_threads_elem. eauto. }
  unfold life in Hlife. injection Hlife as Hd4 Ht4.
  destruct (died_dec_spec T K KW s6 p pr4 I6 Hp6 Hd4) as (s' & E' & I' & N' & F').
  - by eapply no_owned_nodes; [apply I6|..].
  - apply Hnil4. done.
  - done.
  - intros l w Hl. destruct (W6 _ _ Hl) as [Hl5 Hne6]. destruct (W5 _ _ Hl5) as [_ Hne5].
    destruct l as [t|q|q]; cbn; [|congruence|congruence]. intros (th & H1 & H2)%lookup_fmap_Some.
    assert (Hin : t ∈ proc_threads p s6) by (apply proc_threads_elem; eauto).
    rewrite Hthno in Hin. by apply not_elem_of_nil in Hin.
  - exists s'. split; [done|]. split; [done|]. destruct F' as (A1 & A2 & A3 & A4).
    assert (Hlv : forall q, lives s6 q = if decide (q = p) then Some (true, p_tmp_ref pr + 1) else lives s q).
    { intros q. case_decide as Hq; [subst q; unfold lives; rewrite Hp6; unfold life; cbn; by rewrite Hd4, Ht4|].
      unfold lives. rewrite P6, P5. transitivity (lives s3 q); [apply L4|]. transitivity (lives s2 q); [apply L3|].
      unfold lives. rewrite P2. unfold s1. cbn. by rewrite lookup_alter_ne, P0. }
    split; [split_and!|].
    + intros t. by rewrite A1.
    + rewrite A2, C6, C5, C4, C3, C2. exact C0.
    + intros q Hq. rewrite A4, decide_False by done. rewrite Hlv. by rewrite decide_False.
    + intros m nd Hm Ho. rewrite N', N6, N5. destruct Q4 as [_ Q2]. apply (Q2 m nd). apply M3; [by rewrite N2'|done].
    + intros m nd' Hm. rewrite N' in Hm. split; [by eapply Hno6|]. rewrite N6, N5 in Hm.
      destruct Q4 as [Q1 Q2]. destruct (Q1 m) as [nd3 H3]; [by eexists|]. specialize (Q2 m nd3 H3). rewrite Hm in Q2.
      destruct (M3' m nd3 H3) as [_ [H4|(H4 & nd0 & H5 & H6)]].
      * exists nd3. split; [by rewrite <- N2'|by right].
      * exists nd0. split; [by rewrite <- N2'|left]. split; [done|]. unfold ident in Q2. congruence.
    + rewrite A4, decide_True by done. rewrite Hlv, decide_True by done. cbn.
      destruct (Z.eqb_spec (p_tmp_ref pr) 0) as [->|Hne]; [done|].
      rewrite (proj2 (Z.eqb_neq (p_tmp_ref pr + 1) 1)) by lia. do 2 f_equal. lia.
Qed.
End Process.
