(* ===== verification/BinderRefRun.v ===== *)
(** * Binder driver: processes at work

    The driver as a whole: processes open it, start threads, send commands and
    transactions, read, and die, in any order.  A transaction in progress and a
    buffer not yet freed hold nodes; [system] records them next to the state of
    the driver, and the messages that were exchanged with the processes about
    their nodes. *)

From S2P Require Import Prelude BinderRef BinderRefInv BinderRefNode BinderRefHandle BinderRefOps.
From S2P Require Import BinderRefTxn BinderRefProto BinderRefDeath BinderRefRelease.

(** ** The system *)

(** The objects of a transaction or a buffer, each with the node that the
    receiver's object holds. *)
Definition objects := list (flat_binder_object * option Z).

Record transaction := {
  x_thread : Z;
  x_target_node : option Z;
  x_target_proc : Z;
  x_objects : objects;
}.

Record buffer := {
  b_proc : Z;
  b_target_node : option Z;
  b_objects : objects;
}.

#[global] Instance eta_transaction : Eta transaction := fun x =>
  Build_transaction (x_thread x) (x_target_node x) (x_target_proc x) (x_objects x).

Record system := {
  st : binder_state;
  transactions : list transaction;
  buffers : list buffer;
  log : list ((Z * Z) * message);
}.

#[global] Instance eta_system : Eta system := fun y =>
  Build_system (st y) (transactions y) (buffers y) (log y).

Definition init : system := {|
  st := {| nodes := ∅; refs := ∅; deaths := ∅; procs := ∅; threads := ∅; works := []; dead_nodes := [];
           context_mgr_node := None |};
  transactions := []; buffers := []; log := [] |}.

(** ** Events *)

(** The arguments [alloc] are answers of kzalloc; [t] is the calling thread. *)
Inductive event :=
  | Open (p : Z)
  | NewThread (t p : Z)
  | RegisterLooper (t : Z) (requested : bool)
  | EnterLooper (t : Z)
  | ExitLooper (t : Z)
  | Sleep (t : Z) (idle : bool)
  | WakeUp (t : Z)
  | ThreadExit (t : Z)
  | SetContextManager (t : Z) (alloc : option Z) (ptr cookie : Z)
  | RefCount (t handle : Z) (alloc : option Z) (increment strong : bool)
  | RefDone (t : Z) (acquire : bool) (ptr cookie : Z)
  | RequestDeath (t handle cookie : Z) (alloc : option Z)
  | ClearDeath (t handle cookie : Z)
  | DeadBinderDone (t cookie : Z)
  | Read (t : Z) (wait : bool)
  | OtherWork (l : work_list) (w : Z)
  | Begin (t handle : Z) (allowed : bool)
  | BeginReply (t q : Z)
  | Object (i : nat) (fp : flat_binder_object) (node_alloc ref_alloc : option Z) (allowed : bool)
  | End_ (i : nat)
  | Abort_ (i : nat)
  | Fail_ (i : nat)
  | FreeBuffer (j : nat)
  | Close (p : Z).

Section Step.
Implicit Types (y : system) (s : binder_state).

Definition proc_of (t : Z) s : option Z := t_proc <$> threads s !! t.

Definition new_proc : binder_proc := {|
  p_nodes := []; refs_by_desc := []; refs_by_node := []; waiting_threads := []; is_dead := false; p_tmp_ref := 0 |}.

(** The objects of a dead process hold nothing. *)
Definition forget_objects (p : Z) (x : transaction) : transaction :=
  if x_target_proc x =? p then x <| x_objects ::= map (fun o => (o.1, None)) |> else x.

(** The node held by an object that was translated for the process [q]. *)
Definition held_node (q : Z) (fp : flat_binder_object) s : option Z :=
  match fp with
  | BINDER _ ptr _ => p ← procs s !! q; tree_find ptr (p_nodes p)
  | HANDLE _ _ => None
  end.

Definition translate (t q : Z) (fp : flat_binder_object) (node_alloc ref_alloc : option Z) (allowed : bool) s :=
  match fp with
  | BINDER strong ptr cookie => binder_translate_binder node_alloc ref_alloc allowed strong ptr cookie q t s
  | HANDLE strong handle => binder_translate_handle ref_alloc allowed strong handle q t s
  end.

Definition release_transaction (x : transaction) s : option binder_state :=
  match x_target_node x with
  | Some n => abort_transaction n (x_target_proc x) s
  | None => binder_proc_dec_tmpref (x_target_proc x) s
  end.

(** One event; [None] is a fault. *)
Definition step (e : event) (y : system) : option system :=
  let s := st y in
  match e with
  | Open p => Some (y <| st ::= fun s => s <| procs ::= <[p := new_proc]> |> |>)
  | NewThread t p =>
      Some (y <| st ::= fun s => s <| threads ::= <[t := {| t_proc := p; looper := 0; process_todo := false |}]> |> |>)
  | RegisterLooper t requested => s ← bc_register_looper requested t s; Some (y <| st := s |>)
  | EnterLooper t => s ← bc_enter_looper t s; Some (y <| st := s |>)
  | ExitLooper t => s ← bc_exit_looper t s; Some (y <| st := s |>)
  | Sleep t idle => s ← binder_wait_for_work idle t s; Some (y <| st := s |>)
  | WakeUp t => s ← wake_up t s; Some (y <| st := s |>)
  | ThreadExit t => p ← proc_of t s; s ← binder_thread_release p t s; Some (y <| st := s |>)
  | SetContextManager t alloc ptr cookie =>
      p ← proc_of t s;
      '(ret, s) ← binder_ioctl_set_ctx_mgr p alloc (ptr, cookie) s;
      Some (y <| st := s |> <| log ::= fun l => l ++ (if ret =? 0 then [((p, ptr), Manager)] else []) |>)
  | RefCount t handle alloc increment strong =>
      p ← proc_of t s; '(_, s) ← bc_refcount p handle alloc increment strong s; Some (y <| st := s |>)
  | RefDone t acquire ptr cookie =>
      p ← proc_of t s;
      let expected := done_expected acquire p ptr cookie s in
      s ← bc_done acquire p ptr cookie s;
      Some (y <| st := s |> <| log ::= fun l => l ++ (if expected then [((p, ptr), Done acquire)] else []) |>)
  | RequestDeath t handle cookie alloc =>
      p ← proc_of t s; s ← bc_request_death p handle cookie alloc s; Some (y <| st := s |>)
  | ClearDeath t handle cookie => p ← proc_of t s; s ← bc_clear_death p t handle cookie s; Some (y <| st := s |>)
  | DeadBinderDone t cookie => p ← proc_of t s; s ← bc_dead_binder_done p t cookie s; Some (y <| st := s |>)
  | Read t wait =>
      p ← proc_of t s;
      '(m, s) ← read_work t wait s;
      Some (y <| st := s |> <| log ::= fun l => l ++
        match m with Some (BR_NODE cmds ptr _) => map (fun c => ((p, ptr), Told c)) cmds | _ => [] end |>)
  | OtherWork l w => s ← binder_enqueue_work_ilocked (WOther w) l s; Some (y <| st := s |>)
  | Begin t handle allowed =>
      p ← proc_of t s;
      '(target, s) ← begin_transaction p handle allowed s;
      Some (y <| st := s |> <| transactions ::= fun xs => xs ++
        match target with
        | Some (n, q) => [{| x_thread := t; x_target_node := Some n; x_target_proc := q; x_objects := [] |}]
        | None => []
        end |>)
  | BeginReply t q =>
      s ← begin_reply q s;
      Some (y <| st := s |> <| transactions ::= fun xs => xs ++
        [{| x_thread := t; x_target_node := None; x_target_proc := q; x_objects := [] |}] |>)
  | Object i fp node_alloc ref_alloc allowed =>
      x ← transactions y !! i;
      '(ret, fp', s) ← translate (x_thread x) (x_target_proc x) fp node_alloc ref_alloc allowed s;
      let os := match fp' with
                | Some fp' => if ret =? 0 then [(fp', held_node (x_target_proc x) fp' s)] else []
                | None => []
                end in
      Some (y <| st := s |> <| transactions ::= <[i := x <| x_objects ::= fun l => l ++ os |>]> |>)
  | End_ i =>
      x ← transactions y !! i;
      s ← end_transaction (x_target_node x) (x_target_proc x) s;
      Some (y <| st := s |> <| transactions ::= delete i |>
              <| buffers ::= cons {| b_proc := x_target_proc x; b_target_node := x_target_node x; b_objects := x_objects x |} |>)
  | Abort_ i =>
      x ← transactions y !! i;
      s ← release_transaction x s;
      Some (y <| st := s |> <| transactions ::= delete i |>)
  | Fail_ i =>
      x ← transactions y !! i;
      s ← fail_transaction (x_target_node x) (x_target_proc x) (x_objects x).*1 s;
      Some (y <| st := s |> <| transactions ::= delete i |>)
  | FreeBuffer j =>
      b ← buffers y !! j;
      s ← binder_transaction_buffer_release (b_proc b) (b_target_node b) (b_objects b).*1 s;
      Some (y <| st := s |> <| buffers ::= delete j |>)
  | Close p =>
      s ← binder_deferred_release p s;
      Some (y <| st := s |> <| transactions ::= map (forget_objects p) |>
              <| buffers ::= filter (fun b => b_proc b ≠ p) |> <| log ::= filter (fun e => e.1.1 ≠ p) |>)
  end.

(** ** What can happen *)

Definition live (p : Z) s : bool :=
  match procs s !! p with Some pr => negb (is_dead pr) | None => false end.

Definition fresh {A} (alloc : option Z) (m : gmap Z A) : bool :=
  match alloc with Some a => bool_decide (m !! a = None) | None => true end.

(** kzalloc answers with an address not in use, and the handles of a process
    are not exhausted. *)
Definition fresh_ref (alloc : option Z) (p : Z) s : bool :=
  fresh alloc (refs s) &&
  match procs s !! p with Some pr => zlen (refs_by_desc pr) <? 2 ^ 32 - 1 | None => false end.

Definition busy (t : Z) y : bool := bool_decide (t ∈ map x_thread (transactions y)).

(** The thread waits for work of its process. *)
Definition asleep (t : Z) s : bool :=
  match p ← proc_of t s; procs s !! p with Some pr => bool_decide (t ∈ waiting_threads pr) | None => false end.

(** A thread that sleeps does nothing before it wakes up. *)
Definition awake (t : Z) s : bool := bool_decide (is_Some (threads s !! t)) && negb (asleep t s).

(** A thread in a system call keeps its process open, and a transaction
    succeeds with a receiver that is alive (binder_proc_transaction checks).
    The runs are those in which an object is translated for a receiver that is
    still alive, which the code does not check; see [references_exact] for a
    run in which it is not. *)
Definition possible (e : event) (y : system) : bool :=
  let s := st y in
  match e with
  | Open p => bool_decide (procs s !! p = None)
  | NewThread t p => bool_decide (threads s !! t = None) && live p s
  | WakeUp t => bool_decide (is_Some (threads s !! t))
  | ThreadExit t => awake t s && negb (busy t y)
  | SetContextManager t alloc _ _ => awake t s && fresh alloc (nodes s)
  | RefCount t _ alloc _ _ =>
      match proc_of t s with Some p => awake t s && fresh_ref alloc p s | None => false end
  | RequestDeath t _ _ alloc => awake t s && fresh alloc (deaths s)
  | RegisterLooper t _ | EnterLooper t | ExitLooper t | Sleep t _
  | RefDone t _ _ _ | ClearDeath t _ _ | DeadBinderDone t _ | Read t _ | Begin t _ _ => awake t s
  | OtherWork l w =>
      negb (queued (WOther w) s) &&
      match l with
      | ThreadTodo t => bool_decide (is_Some (threads s !! t))
      | ProcTodo p => live p s
      | DeliveredDeath _ => false
      end
  | BeginReply t q => awake t s && live q s
  | Object i _ node_alloc ref_alloc _ =>
      match transactions y !! i with
      | Some x => live (x_target_proc x) s && fresh node_alloc (nodes s) && fresh_ref ref_alloc (x_target_proc x) s
      | None => false
      end
  | End_ i => match transactions y !! i with Some x => live (x_target_proc x) s | None => false end
  | Abort_ i => match transactions y !! i with Some x => bool_decide (map fst (x_objects x) = []) | None => false end
  | Fail_ i => bool_decide (is_Some (transactions y !! i))
  | FreeBuffer j => bool_decide (is_Some (buffers y !! j))
  | Close p =>
      live p s && forallb (fun t => negb (asleep t s)) (proc_threads p s) &&
      forallb (fun x => negb (bool_decide (proc_of (x_thread x) s = Some p))) (transactions y)
  end.

(** A run: events that cannot happen are left out. *)
Fixpoint run (es : list event) (y : system) : option system :=
  match es with
  | [] => Some y
  | e :: es => if possible e y then y ← step e y; run es y else run es y
  end.
End Step.
