(* ===== verification/BinderRefSafe.v ===== *)
(** * Binder driver: the invariant of the system

    What holds between events: the invariant of the driver with exactly the
    references that transactions, buffers and the context manager hold, and
    what is known of each transaction and buffer. *)

From S2P Require Import Prelude BinderRef BinderRefInv BinderRefNode BinderRefHandle BinderRefOps.
From S2P Require Import BinderRefTxn BinderRefProto BinderRefDeath BinderRefRelease BinderRefRun.

Implicit Types (s : binder_state) (x : transaction) (b : buffer) (xs : list transaction) (bs : list buffer).

(** ** What is held *)

Definition targets xs : list Z := flat_map (fun x => opt_list (x_target_node x)) xs.

Definition strong_held s xs bs : list Z :=
  flat_map (fun x => strong_nodes (x_objects x)) xs ++
  flat_map (fun b => opt_list (b_target_node b) ++ strong_nodes (b_objects b)) bs ++
  opt_list (context_mgr_node s).

Definition weak_held s xs bs : list Z :=
  flat_map (fun x => weak_nodes (x_objects x)) xs ++ flat_map (fun b => weak_nodes (b_objects b)) bs ++
  opt_list (context_mgr_node s).

Lemma occ_flat_map {A} (f : A -> list Z) n (l : list A) i (x : A) : l !! i = Some x ->
  occ n (flat_map f l) = occ n (f x) + occ n (flat_map f (delete i l)).
Proof.
  intros Hi. rewrite <- (take_drop_middle l i x Hi) at 1. rewrite delete_take_drop, !flat_map_app.
  cbn [flat_map]. rewrite !occ_app. lia.
Qed.

Lemma occ_flat_insert {A} (f : A -> list Z) n (l : list A) i (x x' : A) : l !! i = Some x ->
  occ n (flat_map f (<[i := x']> l)) + occ n (f x) = occ n (flat_map f l) + occ n (f x').
Proof.
  intros Hi. rewrite (occ_flat_map f n l i x Hi), delete_take_drop, insert_take_drop by (eapply lookup_lt_Some, Hi).
  rewrite !flat_map_app. cbn [flat_map]. rewrite !occ_app. lia.
Qed.

Lemma elem_flat_map {A} (f : A -> list Z) n (l : list A) : n ∈ flat_map f l <-> exists x : A, x ∈ l /\ n ∈ f x.
Proof.
  rewrite list_elem_of_In, in_flat_map. split; intros (x & H1 & H2); exists x; rewrite !list_elem_of_In in *; done.
Qed.

(** ** Transactions and buffers *)

Definition txn_nodes x : list Z := opt_list (x_target_node x) ++ strong_nodes (x_objects x) ++ weak_nodes (x_objects x).
Definition buf_nodes b : list Z := opt_list (b_target_node b) ++ strong_nodes (b_objects b) ++ weak_nodes (b_objects b).

(** A node of the process [q]; of a process that has died, it may be dead. *)
Definition target_of (q n : Z) s : Prop :=
  exists nd, nodes s !! n = Some nd /\ (n_proc nd = Some q \/ n_proc nd = None /\ exists c, lives s q = Some (true, c)).

Record txn_ok s x : Prop := {
  tx_thread : is_Some (threads s !! x_thread x);
  tx_objects o : o ∈ x_objects x -> held_object (x_target_proc x) s o;
  tx_proc : is_Some (lives s (x_target_proc x));
  tx_target n : x_target_node x = Some n -> target_of (x_target_proc x) n s;
}.

Record buf_ok s b : Prop := {
  bf_objects o : o ∈ b_objects b -> held_object (b_proc b) s o;
  bf_proc : exists c, lives s (b_proc b) = Some (false, c);
  bf_target n : b_target_node b = Some n -> exists nd, nodes s !! n = Some nd /\ n_proc nd = Some (b_proc b);
}.

Record good s xs bs : Prop := {
  g_inv : inv None None (targets xs) (targets xs ++ strong_held s xs bs) (weak_held s xs bs) [] s;
  g_manager n : context_mgr_node s = Some n -> exists nd, nodes s !! n = Some nd /\ is_Some (n_proc nd);
  g_txn x : x ∈ xs -> txn_ok s x;
  g_buf b : b ∈ bs -> buf_ok s b;
  (** A process is kept by the transactions to it; a dead one by nothing else. *)
  g_life p d c : lives s p = Some (d, c) -> c = occ p (map x_target_proc xs) /\ (d = true -> 0 < c);
}.

(** ** What stays *)

Definition node_stays s s' (n : Z) : Prop := forall nd, nodes s !! n = Some nd ->
  exists nd', nodes s' !! n = Some nd' /\ n_proc nd' = n_proc nd /\ n_ptr nd' = n_ptr nd.

Lemma places_stay s s' n : places s s' -> is_Some (nodes s' !! n) -> node_stays s s' n.
Proof. intros Hp [nd' Hn'] nd Hn. destruct (Hp n nd nd' Hn Hn'). eauto. Qed.

Definition same_death s s' (q : Z) : Prop := forall d c, lives s q = Some (d, c) -> exists c', lives s' q = Some (d, c').

Lemma same_lives_death s s' q : lives s' q = lives s q -> same_death s s' q.
Proof. intros E d c. rewrite E. eauto. Qed.

Lemma held_stays s s' q o : held_object q s o -> same_death s s' q ->
  (forall n, o.2 = Some n -> node_stays s s' n) -> held_object q s' o.
Proof.
  intros Ho Hl Hn. destruct o as [[st ptr c|st h] [n|]]; cbn in *; try done.
  - destruct Ho as (nd & H1 & H2 & H3). destruct (Hn n eq_refl nd H1) as (nd' & E1 & E2 & E3).
    exists nd'. split_and!; congruence.
  - destruct Ho as (d & Hd). destruct (Hl _ _ Hd) as (c' & E). eauto.
Qed.

Lemma object_nodes q s os o n : o ∈ os -> (forall o, o ∈ os -> held_object q s o) -> o.2 = Some n ->
  n ∈ strong_nodes os ++ weak_nodes os.
Proof.
  intros Hin Ho Hn. apply elem_of_app. apply held_in; [|eauto]. rewrite <- Hn. apply list_elem_of_fmap. by exists o.
Qed.

Lemma txn_stays s s' x : txn_ok s x -> is_Some (threads s' !! x_thread x) -> same_death s s' (x_target_proc x) ->
  (forall n, n ∈ txn_nodes x -> node_stays s s' n) -> txn_ok s' x.
Proof.
  intros [H1 H2 H3 H4] Ht Hl Hn. unfold txn_nodes in Hn. split; [done|..].
  - intros o Hin. eapply held_stays; [eauto|done|]. intros n Ho. apply Hn. apply elem_of_app. right. by eapply object_nodes.
  - destruct H3 as [[d c] H3]. destruct (Hl _ _ H3) as [c' E]. by eexists.
  - intros n Hx. destruct (H4 n Hx) as (nd & E1 & E2). destruct (Hn n) with (nd := nd) as (nd' & F1 & F2 & _); [|done|].
    { rewrite Hx. left. }
    exists nd'. split; [done|]. rewrite F2. destruct E2 as [|[E2 [c E3]]]; [by left|right]. split; [done|]. by apply (Hl _ _ E3).
Qed.

Lemma buf_stays s s' b : buf_ok s b -> same_death s s' (b_proc b) ->
  (forall n, n ∈ buf_nodes b -> node_stays s s' n) -> buf_ok s' b.
Proof.
  intros [H1 H2 H3] Hl Hn. unfold buf_nodes in Hn. split.
  - intros o Hin. eapply held_stays; [eauto|done|]. intros n Ho. apply Hn. apply elem_of_app. right. by eapply object_nodes.
  - destruct H2 as [c H2]. by apply (Hl _ _ H2).
  - intros n Hx. destruct (H3 n Hx) as (nd & E1 & E2). destruct (Hn n) with (nd := nd) as (nd' & F1 & F2 & _); [|done|].
    { rewrite Hx. left. }
    exists nd'. split; [done|]. congruence.
Qed.

(** The nodes of a transaction or a buffer are held. *)
Lemma txn_nodes_held s xs bs x n : x ∈ xs -> n ∈ txn_nodes x ->
  n ∈ targets xs ++ strong_held s xs bs \/ n ∈ weak_held s xs bs.
Proof.
  intros Hx Hn. unfold txn_nodes in Hn. apply elem_of_app in Hn as [Hn|Hn]; [|apply elem_of_app in Hn as [Hn|Hn]].
  - left. apply elem_of_app. left. apply elem_flat_map. eauto.
  - left. apply elem_of_app. right. apply elem_of_app. left. apply elem_flat_map. eauto.
  - right. apply elem_of_app. left. apply elem_flat_map. eauto.
Qed.

Lemma buf_nodes_held s xs bs b n : b ∈ bs -> n ∈ buf_nodes b ->
  n ∈ targets xs ++ strong_held s xs bs \/ n ∈ weak_held s xs bs.
Proof.
  intros Hb Hn. unfold buf_nodes in Hn. rewrite app_assoc in Hn. apply elem_of_app in Hn as [Hn|Hn].
  - left. do 2 (apply elem_of_app; right). apply elem_of_app. left. apply elem_flat_map. eauto.
  - right. apply elem_of_app. right. apply elem_of_app. left. apply elem_flat_map. eauto.
Qed.

Lemma inv_held s T LS LW n : inv None None T LS LW [] s -> n ∈ LS \/ n ∈ LW -> is_Some (nodes s !! n).
Proof. intros [_ Hc] Hn. apply (ok_held _ _ _ _ _ _ Hc). tauto. Qed.

(** The states that the transactions and buffers [xs'] and [bs'] go on in. *)
Lemma good_stays s s' xs bs xs' bs' :
  good s xs bs ->
  inv None None (targets xs') (targets xs' ++ strong_held s' xs' bs') (weak_held s' xs' bs') [] s' ->
  places s s' -> (forall x, x ∈ xs' -> x ∈ xs -> is_Some (threads s' !! x_thread x)) ->
  (forall x, x ∈ xs' -> x ∈ xs /\ same_death s s' (x_target_proc x) \/ txn_ok s' x) ->
  (forall b, b ∈ bs' -> b ∈ bs /\ same_death s s' (b_proc b) \/ buf_ok s' b) ->
  (context_mgr_node s' = context_mgr_node s \/
   forall n, context_mgr_node s' = Some n -> exists nd, nodes s' !! n = Some nd /\ is_Some (n_proc nd)) ->
  (forall p d c, lives s' p = Some (d, c) -> c = occ p (map x_target_proc xs') /\ (d = true -> 0 < c)) ->
  good s' xs' bs'.
Proof.
  intros [Gi Gm Gx Gb Gl] Hi Hp Ht Hx Hb Hm Hl. split; try done.
  - destruct Hm as [E|Hm]; [|done]. intros n Hn. assert (Hn0 := Hn). rewrite E in Hn0. destruct (Gm n Hn0) as (nd & H1 & H2).
    assert (Hs : is_Some (nodes s' !! n)).
    { eapply inv_held; [exact Hi|]. left. do 3 (apply elem_of_app; right). rewrite Hn. left. }
    destruct (places_stay s s' n Hp Hs nd H1) as (nd' & F1 & F2 & _). exists nd'. split; [done|]. by rewrite F2.
  - intros x Hin. destruct (Hx x Hin) as [[Hin0 Hd]|]; [|done]. pose proof (Gx x Hin0) as Hok. eapply txn_stays; [done|..|done|].
    + by apply Ht.
    + intros n Hn. apply places_stay; [done|]. eapply inv_held; [exact Hi|]. by eapply txn_nodes_held.
  - intros b Hin. destruct (Hb b Hin) as [[Hin0 Hd]|]; [|done]. eapply buf_stays; [by apply Gb|done|].
    intros n Hn. apply places_stay; [done|]. eapply inv_held; [exact Hi|]. by eapply buf_nodes_held.
Qed.

(** The common case: nothing but the driver's state changes. *)
Lemma good_keep s s' xs bs :
  good s xs bs ->
  inv None None (targets xs) (targets xs ++ strong_held s xs bs) (weak_held s xs bs) [] s' ->
  places s s' -> (forall x, x ∈ xs -> is_Some (threads s' !! x_thread x)) ->
  context_mgr_node s' = context_mgr_node s -> (forall p, lives s' p = lives s p) -> good s' xs bs.
Proof.
  intros Hg Hi Hp Ht Hm Hl. eapply good_stays; try done.
  - unfold strong_held, weak_held. by rewrite Hm.
  - intros x Hx _. by apply Ht.
  - intros x Hx. left. split; [done|]. by apply same_lives_death.
  - intros b Hb. left. split; [done|]. by apply same_lives_death.
  - by left.
  - intros p d c. rewrite Hl. apply Hg.
Qed.
