(* ===== verification/BinderRefStep.v ===== *)
(** * Binder driver: every event keeps the invariant

    One lemma per event: what can happen does not fault, and the system is as
    it should be afterwards. *)

From S2P Require Import Prelude BinderRef BinderRefInv BinderRefNode BinderRefHandle BinderRefOps.
From S2P Require Import BinderRefTxn BinderRefProto BinderRefDeath BinderRefRelease BinderRefRun BinderRefSafe.

Implicit Types (y : system) (s : binder_state).

(** The messages to the process [p] about its object at [ptr]. *)
Definition messages (p ptr : Z) (l : list ((Z * Z) * message)) : list message :=
  (filter (fun e => e.1 = (p, ptr)) l).*2.

(** The log is a run of the protocol for each object. *)
Definition logged (s : binder_state) (l : list ((Z * Z) * message)) : Prop :=
  forall p ptr, protocol (No, No) (messages p ptr l) = Some (known s p ptr).

Definition sys_good y : Prop := good (st y) (transactions y) (buffers y) /\ logged (st y) (log y).

Lemma messages_app p ptr l l' : messages p ptr (l ++ l') = messages p ptr l ++ messages p ptr l'.
Proof. unfold messages. by rewrite filter_app, fmap_app. Qed.

Lemma messages_own p ptr ms : messages p ptr (map (fun m => ((p, ptr), m)) ms) = ms.
Proof.
  unfold messages. induction ms as [|m ms IH]; [done|]. cbn [map]. rewrite filter_cons, decide_True by done.
  cbn [fmap list_fmap snd]. by rewrite IH.
Qed.

Lemma messages_other p ptr q ptr' ms : (q, ptr') <> (p, ptr) -> messages p ptr (map (fun m => ((q, ptr'), m)) ms) = [].
Proof.
  intros Hne. unfold messages. induction ms as [|m ms IH]; [done|]. cbn [map]. rewrite filter_cons, decide_False; [done|].
  cbn. congruence.
Qed.

Lemma logged_same s s' l : (forall p ptr, known s' p ptr = known s p ptr) -> logged s l -> logged s' l.
Proof. intros Hk Hl p ptr. by rewrite Hk. Qed.

Lemma logged_learns s s' l p ptr ms : learns p ptr ms s s' -> logged s l ->
  logged s' (l ++ map (fun m => ((p, ptr), m)) ms).
Proof.
  intros [H1 H2] Hl q ptr'. rewrite messages_app, (protocol_app _ _ _ _ (Hl q ptr')).
  destruct (decide (q = p /\ ptr' = ptr)) as [[-> ->]|Hne].
  - by rewrite messages_own.
  - rewrite messages_other by naive_solver. cbn. by rewrite H2.
Qed.

(** An event that changes the driver's state only, and tells nothing. *)
Lemma told_good y s' :
  sys_good y ->
  inv None None (targets (transactions y)) (targets (transactions y) ++ strong_held (st y) (transactions y) (buffers y))
    (weak_held (st y) (transactions y) (buffers y)) [] s' ->
  told (st y) s' -> (forall x, x ∈ transactions y -> is_Some (threads s' !! x_thread x)) ->
  context_mgr_node s' = context_mgr_node (st y) -> (forall p, lives s' p = lives (st y) p) ->
  sys_good (y <| st := s' |>).
Proof.
  intros [Hg Hlog] Hi Htold Ht Hm Hl. split; cbn.
  - eapply good_keep; try done. by apply told_places.
  - eapply logged_same; [|exact Hlog]. intros p ptr. apply told_known; [apply (g_inv _ _ _ Hg)|apply Hi|done].
Qed.

Lemma ref_good y s' :
  sys_good y ->
  inv None None (targets (transactions y)) (targets (transactions y) ++ strong_held (st y) (transactions y) (buffers y))
    (weak_held (st y) (transactions y) (buffers y)) [] s' ->
  ref_frame (st y) s' -> sys_good (y <| st := s' |>).
Proof.
  intros Hg Hi (A1 & A2 & A3 & A4). apply told_good; try done; [by apply quiet_told|].
  intros x Hx. rewrite A1. apply (g_txn _ _ _ (proj1 Hg) x Hx).
Qed.

Lemma vt_thread s s' : vt (view s') = vt (view s) -> forall t, is_Some (threads s !! t) -> is_Some (threads s' !! t).
Proof.
  intros E t [th Ht]. assert (Hv : vt (view s') !! t = Some (t_proc th)) by (rewrite E; cbn; by rewrite lookup_fmap, Ht).
  cbn in Hv. apply lookup_fmap_Some in Hv as (th' & _ & ?). by eexists.
Qed.

Lemma note_good y s' :
  sys_good y ->
  inv None None (targets (transactions y)) (targets (transactions y) ++ strong_held (st y) (transactions y) (buffers y))
    (weak_held (st y) (transactions y) (buffers y)) [] s' ->
  note_frame (st y) s' -> sys_good (y <| st := s' |>).
Proof.
  intros Hg Hi (A1 & A2 & A3 & A4). apply told_good; try done; [by apply quiet_told, quiet_nodes|].
  intros x Hx. eapply vt_thread; [exact A2|]. apply (g_txn _ _ _ (proj1 Hg) x Hx).
Qed.

(** ** Opening *)

Lemma struct_open v p pr : struct_ok None None v -> vp v !! p = None ->
  v_nodes pr = [] -> v_by_desc pr = [] -> v_by_node pr = [] -> v_dead pr = false ->
  struct_ok None None (v <| vp ::= <[p := pr]> |>).
Proof.
  intros Hs Hp H1 H2 H3 H4. pose proof Hs as []. set (v' := set vp _ v).
  assert (Hto : forall q qr, vp v !! q = Some qr -> vp v' !! q = Some qr).
  { intros q qr Hq. cbn. rewrite lookup_insert_ne; [done|]. congruence. }
  assert (Hback : forall q qr, vp v' !! q = Some qr -> q = p /\ qr = pr \/ vp v !! q = Some qr).
  { intros q qr. cbn. rewrite lookup_insert_Some. naive_solver. }
  assert (Hal : forall q, alive None v q -> alive None v' q) by (intros q (qr & E & Hq); exists qr; auto).
  split; try done.
  - intros r rf Hr HL. destruct (ok_ref r rf Hr HL) as (n & nd & qr & E). exists n, nd, qr. naive_solver.
  - intros q qr d r Hq Hr. destruct (Hback _ _ Hq) as [[-> ->]|Hq']; [|eauto]. rewrite H2 in Hr. by apply not_elem_of_nil in Hr.
  - intros q qr d r Hq Hr. destruct (Hback _ _ Hq) as [[-> ->]|Hq']; [|eauto]. rewrite H3 in Hr. by apply not_elem_of_nil in Hr.
  - intros q qr Hq. destruct (Hback _ _ Hq) as [[-> ->]|Hq']; [|eauto]. rewrite H1, H2, H3. split_and!; constructor.
  - intros q qr d r Hq Hr. destruct (Hback _ _ Hq) as [[-> ->]|Hq']; [|eauto]. rewrite H1 in Hr. by apply not_elem_of_nil in Hr.
  - intros n nd q Hn Ho. destruct (ok_owner n nd q Hn Ho) as (qr & E1 & E2). eauto.
  - intros t q Ht. apply Hal. eauto.
  - intros q qr Hq Hd HD. destruct (Hback _ _ Hq) as [[-> ->]|Hq']; [congruence|eauto].
  - intros l w Hl. destruct (ok_list l w Hl) as (q & E1 & E2). exists q. auto.
Qed.

Lemma struct_thread v t p : struct_ok None None v -> vt v !! t = None -> alive None v p ->
  struct_ok None None (v <| vt ::= <[t := p]> |>).
Proof.
  intros Hs Ht Hp. pose proof Hs as [].
  assert (Hl : forall l q, list_of (vt v) l q -> list_of (<[t := p]> (vt v)) l q).
  { intros l q. destruct l; cbn; try done. intros E. rewrite lookup_insert_ne; [done|]. congruence. }
  split; try done.
  - cbn. intros t' q. rewrite lookup_insert_Some. intros [[<- <-]|[_ E]]; [done|eauto].
  - intros l w Hin. destruct (ok_list l w Hin) as (q & E1 & E2). exists q. split; [by apply Hl|done].
  - intros l n Hin. destruct (ok_node_work l n Hin) as (nd & q & E1 & E2 & E3 & E4). exists nd, q. auto.
Qed.

Lemma lives_None s p : procs s !! p = None <-> lives s p = None.
Proof. unfold lives. destruct (procs s !! p); done. Qed.

Lemma step_open y p : sys_good y -> procs (st y) !! p = None ->
  sys_good (y <| st ::= fun s => s <| procs ::= <[p := new_proc]> |> |>).
Proof.
  intros [Hg Hlog] Hp. pose proof (g_inv _ _ _ Hg) as Hi. set (s' := (st y) <| procs ::= <[p := new_proc]> |>).
  assert (I' : inv None None (targets (transactions y)) (targets (transactions y) ++ strong_held (st y) (transactions y) (buffers y))
    (weak_held (st y) (transactions y) (buffers y)) [] s').
  { destruct Hi as [Hs Hc]. split; [|by apply (counts_same _ _ _ _ _ (st y))].
    eapply eq_ind; [apply (struct_open (view (st y)) p (view_proc new_proc) Hs); try done|].
    - cbn. by rewrite lookup_fmap, Hp.
    - unfold view, s', set; cbn. by rewrite fmap_insert. }
  assert (Hn : nodes s' = nodes (st y)) by done.
  assert (Hl : forall q, lives s' q = if decide (q = p) then Some (false, 0) else lives (st y) q).
  { intros q. unfold lives, s'. cbn. case_decide as E; [subst q; by rewrite lookup_insert_eq|by rewrite lookup_insert_ne]. }
  assert (Hd : forall q, is_Some (lives (st y) q) -> same_death (st y) s' q).
  { intros q [? Hq]. apply same_lives_death. rewrite Hl. case_decide; [|done]. subst q. apply lives_None in Hp. congruence. }
  split; cbn.
  - change (good s' (transactions y) (buffers y)). eapply good_stays; try done.
    + intros m md md' H1 H2. rewrite Hn in H2. by simplify_eq.
    + intros x Hx _. apply (g_txn _ _ _ Hg x Hx).
    + intros x Hx. left. split; [done|]. apply Hd. apply (tx_proc _ _ (g_txn _ _ _ Hg x Hx)).
    + intros b Hb. left. split; [done|]. apply Hd. destruct (bf_proc _ _ (g_buf _ _ _ Hg b Hb)). by eexists.
    + by left.
    + intros q d c. rewrite Hl. case_decide as E; [|apply (g_life _ _ _ Hg)]. intros [= <- <-]. subst q. split; [|done].
      symmetry. apply occ_zero. intros (x & Hx & Hin)%list_elem_of_fmap.
      destruct (tx_proc _ _ (g_txn _ _ _ Hg x Hin)) as [? E]. rewrite <- Hx in E. apply lives_None in Hp. congruence.
  - eapply logged_same; [|exact Hlog]. intros q ptr. apply told_known; [apply Hi|apply I'|]. by apply quiet_told, quiet_nodes.
Qed.

Lemma live_alive s p : live p s = true -> exists pr, procs s !! p = Some pr /\ is_dead pr = false /\ alive None (view s) p.
Proof.
  unfold live. destruct (procs s !! p) as [pr|] eqn:E; [|done]. intros Hd%negb_true_iff. exists pr. split; [done|].
  split; [done|]. exists (view_proc pr). split; [by apply vp_lookup|]. cbn. congruence.
Qed.

Lemma step_thread y t p : sys_good y -> threads (st y) !! t = None -> live p (st y) = true ->
  sys_good (y <| st ::= fun s => s <| threads ::= <[t := {| t_proc := p; looper := 0; process_todo := false |}]> |> |>).
Proof.
  intros Hg Ht (pr & Hp & _ & Hal)%live_alive. pose proof (g_inv _ _ _ (proj1 Hg)) as [Hs Hc].
  apply told_good; try done.
  - split; [|by apply (counts_same _ _ _ _ _ (st y))].
    eapply eq_ind; [apply (struct_thread (view (st y)) t p Hs); try done|].
    + cbn. by rewrite lookup_fmap, Ht.
    + unfold view, set; cbn. by rewrite fmap_insert.
  - by apply quiet_told, quiet_nodes.
  - intros x Hx. cbn. apply lookup_insert_is_Some'. right. apply (g_txn _ _ _ (proj1 Hg) x Hx).
Qed.

(** ** Commands and reading *)

Section Commands.
Context (y : system) (Hy : sys_good y).

Local Notation xs := (transactions y).
Local Notation bs := (buffers y).
Local Notation s := (st y).
Local Notation inv_y := (inv None None (targets xs) (targets xs ++ strong_held s xs bs) (weak_held s xs bs) []).

Lemma sys_inv : inv_y s.
Proof. apply (g_inv _ _ _ (proj1 Hy)). Qed.

Lemma txn_threads s' : threads s' = threads s -> forall x, x ∈ xs -> is_Some (threads s' !! x_thread x).
Proof. intros E x Hx. rewrite E. apply (g_txn _ _ _ (proj1 Hy) x Hx). Qed.

Lemma manager_node n : context_mgr_node s = Some n -> is_Some (nodes s !! n).
Proof. intros Hn. destruct (g_manager _ _ _ (proj1 Hy) n Hn) as (nd & E & _). by eexists. Qed.

Lemma caller t : is_Some (threads s !! t) -> exists th pr,
  threads s !! t = Some th /\ proc_of t s = Some (t_proc th) /\ procs s !! t_proc th = Some pr /\
  alive None (view s) (t_proc th).
Proof.
  intros [th Ht]. pose proof (thread_alive None _ _ _ (proj1 sys_inv) Ht) as Hal. destruct (Hal) as (v & Hv & _).
  cbn in Hv. apply lookup_fmap_Some in Hv as (pr & _ & Hp). exists th, pr. split_and!; try done. unfold proc_of. by rewrite Ht.
Qed.

(** Something is told to a process. *)
Lemma learns_good s' p ptr ms :
  inv_y s' -> learns p ptr ms s s' -> places s s' ->
  (forall x, x ∈ xs -> is_Some (threads s' !! x_thread x)) ->
  context_mgr_node s' = context_mgr_node s -> (forall q, lives s' q = lives s q) ->
  sys_good (y <| st := s' |> <| log ::= fun l => l ++ map (fun m => ((p, ptr), m)) ms |>).
Proof.
  intros Hi Hk Hp Ht Hm Hl. split; cbn; [by eapply good_keep; [apply Hy|..]|]. apply (logged_learns _ _ _ _ _ _ Hk), Hy.
Qed.

Lemma nothing_logged y' : sys_good y' -> sys_good (y' <| log ::= fun l => l ++ [] |>).
Proof. intros [H1 H2]. split; [done|]. cbn. by rewrite app_nil_r. Qed.

Lemma awake_thread t : awake t s = true -> is_Some (threads s !! t).
Proof using. unfold awake. by intros [H%bool_decide_eq_true _]%andb_true_iff. Qed.

(** What does not change nodes, references and lives of processes, nor what
    the view has. *)
Lemma unseen_good s' : view s' = view s -> nodes s' = nodes s -> refs s' = refs s -> context_mgr_node s' = context_mgr_node s ->
  (forall p, lives s' p = lives s p) -> sys_good (y <| st := s' |>).
Proof.
  intros Hv Hn Hr Hm Hl. pose proof sys_inv as [Hs Hc]. apply note_good; [done| |split_and!; [done|by rewrite Hv|done|done]].
  split; [by rewrite Hv|by apply (counts_same _ _ _ _ _ s)].
Qed.

(** The flags of a thread are not in the view. *)
Lemma thread_flags_good t th th' : threads s !! t = Some th -> t_proc th' = t_proc th ->
  sys_good (y <| st := s <| threads ::= <[t := th']> |> |>).
Proof.
  intros Ht Hp. apply unseen_good; try done. unfold view; cbn. by rewrite fmap_insert, Hp, insert_id by by rewrite lookup_fmap, Ht.
Qed.

(** Nor are the threads that wait. *)
Lemma waiting_good p f : (forall pr, view_proc (f pr) = view_proc pr) -> (forall pr, life (f pr) = life pr) ->
  sys_good (y <| st := on_proc p f s |>).
Proof.
  intros Hv Hl. apply unseen_good; try done; [by apply view_on_proc|]. intros q. unfold lives. cbn.
  destruct (decide (q = p)) as [->|]; [rewrite lookup_alter_eq|by rewrite lookup_alter_ne]. destruct (procs s !! p); cbn; [by rewrite Hl|done].
Qed.

Lemma step_looper e t : (e = EnterLooper t \/ e = ExitLooper t \/ exists requested, e = RegisterLooper t requested) -> possible e y = true ->
  exists y', step e y = Some y' /\ sys_good y'.
Proof.
  intros He Ha. assert (is_Some (threads s !! t)) as [th Ht] by (apply awake_thread; naive_solver).
  destruct He as [->|[->|[requested ->]]]; cbn; [unfold bc_enter_looper|unfold bc_exit_looper|unfold bc_register_looper];
    rewrite Ht; eexists; (split; [done|]); apply (thread_flags_good t th); try done;
    repeat match goal with |- context [if ?b then _ else _] => destruct b end; done.
Qed.

Lemma step_sleep t idle : possible (Sleep t idle) y = true -> exists y', step (Sleep t idle) y = Some y' /\ sys_good y'.
Proof.
  intros [th Ht]%awake_thread. cbn. unfold binder_wait_for_work. rewrite Ht. cbn [mbind option_bind].
  destruct (_ || _); [|destruct (binder_available_for_proc_work_ilocked _ _ _ _)]; cbn; eexists; (split; [done|]);
    [by apply unseen_good|by apply waiting_good|by apply unseen_good].
Qed.

Lemma step_wake t : possible (WakeUp t) y = true -> exists y', step (WakeUp t) y = Some y' /\ sys_good y'.
Proof.
  cbn. intros [th Ht]%bool_decide_eq_true. unfold wake_up. rewrite Ht. cbn. eexists. split; [done|]. by apply waiting_good.
Qed.

Lemma step_exit t : possible (ThreadExit t) y = true -> exists y', step (ThreadExit t) y = Some y' /\ sys_good y'.
Proof.
  cbn. intros [H1%awake_thread H2%negb_true_iff%bool_decide_eq_false]%andb_true_iff.
  destruct (caller t H1) as (th & pr & Ht & -> & Hp & (v & Hv & Hd)). cbn [mbind option_bind].
  destruct (thread_release_spec (D:=None) _ _ _ _ _ _ _ _ sys_inv Ht Hp) as (s' & -> & I' & N' & M' & P' & T').
  { left. rewrite (vp_lookup _ _ _ Hp) in Hv. injection Hv as <-. cbn in Hd. destruct (is_dead pr); naive_solver. }
  eexists. split; [done|]. apply told_good; try done; [by apply quiet_told, quiet_nodes| |intros q; unfold lives; by rewrite P'].
  intros x Hx. rewrite T', lookup_delete_ne; [apply (g_txn _ _ _ (proj1 Hy) x Hx)|].
  intros ->. apply H2. apply list_elem_of_fmap. by exists x.
Qed.

Lemma fresh_spec {A} alloc (m : gmap Z A) a : fresh alloc m = true -> alloc = Some a -> m !! a = None.
Proof. intros Hf ->. by apply bool_decide_eq_true in Hf. Qed.

Lemma fresh_ref_spec alloc p pr : procs s !! p = Some pr -> fresh_ref alloc p s = true -> ref_alloc_ok alloc pr s.
Proof.
  unfold fresh_ref. intros -> [H1 H2%Z.ltb_lt]%andb_true_iff r Hr. split; [by eapply fresh_spec|done].
Qed.

Lemma step_refcount t handle alloc increment strong : possible (RefCount t handle alloc increment strong) y = true ->
  exists y', step (RefCount t handle alloc increment strong) y = Some y' /\ sys_good y'.
Proof.
  cbn. intros Hf. destruct (proc_of t s) as [p|] eqn:Ep; [|done]. apply andb_true_iff in Hf as [_ Hf].
  assert (Ht : is_Some (threads s !! t)). { unfold proc_of in Ep. destruct (threads s !! t); [by eexists|done]. }
  destruct (caller t Ht) as (th & pr & Hth & E & Hp & Hal). rewrite Ep in E. injection E as ->.
  destruct (bc_refcount_spec (D:=None) _ _ _ _ _ _ handle alloc increment strong sys_inv Hp Hal) as (ret & s' & E1 & I' & F').
  { by eapply fresh_ref_spec. } { apply manager_node. }
  cbn [mbind option_bind]. rewrite E1. cbn. eexists. split; [done|]. by apply ref_good.
Qed.

Lemma step_done t acquire ptr cookie : possible (RefDone t acquire ptr cookie) y = true ->
  exists y', step (RefDone t acquire ptr cookie) y = Some y' /\ sys_good y'.
Proof.
  cbn. intros Ht%awake_thread. destruct (caller t Ht) as (th & pr & Hth & -> & Hp & Hal). cbn [mbind option_bind].
  destruct (bc_done_spec _ _ _ s (t_proc th) ptr cookie acquire sys_inv) as (s' & -> & I' & T' & M' & L' & K'); [by eexists|].
  cbn [mbind option_bind]. eexists. split; [done|]. destruct (done_expected _ _ _ _ _).
  - destruct K'. apply (learns_good s' (t_proc th) ptr [Done acquire]); try done. by apply txn_threads.
  - apply nothing_logged. apply told_good; try done; [by apply quiet_told|by apply txn_threads].
Qed.

Lemma step_request t handle cookie alloc : possible (RequestDeath t handle cookie alloc) y = true ->
  exists y', step (RequestDeath t handle cookie alloc) y = Some y' /\ sys_good y'.
Proof.
  cbn. intros [Ht%awake_thread Hf]%andb_true_iff. destruct (caller t Ht) as (th & pr & Hth & -> & Hp & Hal).
  destruct (request_death_spec _ _ _ s (t_proc th) handle cookie alloc sys_inv Hal) as (s' & E & I' & F').
  { intros d Hd. by eapply fresh_spec. }
  cbn [mbind option_bind]. rewrite E. eexists. split; [done|]. by apply note_good.
Qed.

Lemma step_clear t handle cookie : possible (ClearDeath t handle cookie) y = true ->
  exists y', step (ClearDeath t handle cookie) y = Some y' /\ sys_good y'.
Proof.
  cbn. intros Ht%awake_thread. destruct (caller t Ht) as (th & pr & Hth & -> & Hp & Hal).
  destruct (clear_death_spec _ _ _ s t th handle cookie sys_inv Hth) as (s' & E & I' & F').
  cbn [mbind option_bind]. rewrite E. eexists. split; [done|]. by apply note_good.
Qed.

Lemma step_dead_done t cookie : possible (DeadBinderDone t cookie) y = true ->
  exists y', step (DeadBinderDone t cookie) y = Some y' /\ sys_good y'.
Proof.
  cbn. intros Ht%awake_thread. destruct (caller t Ht) as (th & pr & Hth & -> & Hp & Hal).
  destruct (dead_binder_done_spec _ _ _ s t th cookie sys_inv Hth) as (s' & E & I' & F').
  cbn [mbind option_bind]. rewrite E. eexists. split; [done|]. by apply note_good.
Qed.

Lemma step_read t wait : possible (Read t wait) y = true -> exists y', step (Read t wait) y = Some y' /\ sys_good y'.
Proof.
  cbn. intros Ht%awake_thread. destruct (caller t Ht) as (th & pr & Hth & -> & Hp & Hal).
  destruct (read_work_spec _ _ _ s t th wait sys_inv Hth) as (m & s' & E & I' & V' & M' & L' & K').
  cbn [mbind option_bind]. rewrite E. cbn [mbind option_bind]. eexists. split; [done|].
  assert (Hx : forall x, x ∈ xs -> is_Some (threads s' !! x_thread x)).
  { intros x Hx. eapply vt_thread; [exact V'|]. apply (g_txn _ _ _ (proj1 Hy) x Hx). }
  destruct m as [[cmds ptr c|c|c|w]|]; [|apply nothing_logged, told_good; try done; by apply quiet_told, quiet_nodes..].
  destruct K'. rewrite <- (map_map Told (fun m => ((t_proc th, ptr), m))). by apply (learns_good s' _ _ (map Told cmds)).
Qed.

Lemma step_other l w : possible (OtherWork l w) y = true -> exists y', step (OtherWork l w) y = Some y' /\ sys_good y'.
Proof.
  cbn. intros [Hq%negb_true_iff Hl]%andb_true_iff. rewrite (enqueue_spec _ _ _ Hq). cbn [mbind option_bind].
  pose proof sys_inv as [Hs Hc]. eexists. split; [done|].
  assert (Hal : list_alive None (view s) l).
  { destruct l as [t|p|p]; [|by destruct (live_alive _ _ Hl) as (pr & _ & _ & Hal); exists p|done].
    apply bool_decide_eq_true in Hl as [th Ht]. exists (t_proc th). split; [cbn; by rewrite lookup_fmap, Ht|].
    by eapply thread_alive. }
  apply told_good; try done; [|by apply quiet_told, quiet_nodes|by apply txn_threads].
  split; [|by apply (counts_same _ _ _ _ _ s)]. by apply struct_enqueue.
Qed.
Lemma step_manager t alloc ptr cookie : possible (SetContextManager t alloc ptr cookie) y = true ->
  exists y', step (SetContextManager t alloc ptr cookie) y = Some y' /\ sys_good y'.
Proof.
  cbn. intros [Ht%awake_thread Hf]%andb_true_iff. destruct (caller t Ht) as (th & pr & Hth & -> & Hp & Hal).
  destruct (set_ctx_mgr_spec _ _ _ s (t_proc th) alloc (ptr, cookie) sys_inv Hal) as (ret & s' & E & Hcase).
  { intros n Hn. by eapply fresh_spec. }
  cbn [mbind option_bind]. rewrite E. cbn [mbind option_bind]. eexists. split; [done|].
  destruct Hcase as [[Hret ->]|(-> & Hnone & n & nd & M' & I' & Hn & Hown & T' & L' & K' & P')].
  - apply Z.eqb_neq in Hret. rewrite Hret. apply nothing_logged. split; apply Hy.
  - cbn [Z.eqb]. split; cbn; [|by apply (logged_learns _ _ _ (t_proc th) ptr [Manager] K'), Hy].
    eapply good_stays; [apply Hy|..]; try done.
    + eapply inv_perm; [..|exact I']; [done|..]; intros m; unfold strong_held, weak_held;
        rewrite M', Hnone; cbn [opt_list]; rewrite !occ_cons, !occ_app, !occ_cons, ?occ_nil; lia.
    + intros x Hx _. rewrite T'. apply (g_txn _ _ _ (proj1 Hy) x Hx).
    + intros x Hx. left. split; [done|]. by apply same_lives_death.
    + intros b Hb. left. split; [done|]. by apply same_lives_death.
    + right. intros m. rewrite M'. intros [= <-]. exists nd. split; [done|]. rewrite Hown. by eexists.
    + intros p d c. rewrite L'. apply Hy.
Qed.
End Commands.
