(* ===== verification/BinderRefCall.v ===== *)
(** * Binder driver: transactions keep the invariant

    The events of transactions, from their begin to their end, and of the
    buffers they leave behind. *)

From S2P Require Import Prelude BinderRef BinderRefInv BinderRefNode BinderRefHandle BinderRefOps.
From S2P Require Import BinderRefTxn BinderRefProto BinderRefDeath BinderRefRelease BinderRefRun BinderRefSafe.
From S2P Require Import BinderRefStep.

Implicit Types (y : system) (x : transaction) (b : buffer).

Lemma strong_nodes_app os os' : strong_nodes (os ++ os') = strong_nodes os ++ strong_nodes os'.
Proof. apply omap_app. Qed.
Lemma weak_nodes_app os os' : weak_nodes (os ++ os') = weak_nodes os ++ weak_nodes os'.
Proof. apply omap_app. Qed.

Lemma targets_app xs xs' : targets (xs ++ xs') = targets xs ++ targets xs'.
Proof. apply flat_map_app. Qed.

Lemma occ_map_delete {A} (f : A -> Z) n (l : list A) i (a : A) : l !! i = Some a ->
  occ n (map f l) = occ n [f a] + occ n (map f (delete i l)).
Proof.
  intros Hi. rewrite <- (take_drop_middle l i a Hi) at 1. rewrite delete_take_drop, !map_app. cbn [map].
  rewrite (occ_app _ (map f (take i l))), occ_cons, occ_app, occ_cons, occ_nil. lia.
Qed.

Lemma map_insert_same {A} (f : A -> Z) (l : list A) i (a a' : A) : l !! i = Some a -> f a' = f a ->
  map f (<[i := a']> l) = map f l.
Proof.
  intros Hi Hf. change (f <$> <[i := a']> l = f <$> l). rewrite list_fmap_insert, Hf. apply list_insert_id.
  by rewrite list_lookup_fmap, Hi.
Qed.

Lemma elem_insert {A} (l : list A) i (a a' : A) : a' ∈ <[i := a]> l -> a' ∈ l \/ a' = a.
Proof.
  intros (j & Hj)%list_elem_of_lookup. apply list_lookup_insert_Some in Hj as [(_ & -> & _)|[_ Hj]]; [by right|left].
  by eapply list_elem_of_lookup_2.
Qed.

(** ** Beginning *)

Section Calls.
Context (y : system) (Hy : sys_good y).

Local Notation xs := (transactions y).
Local Notation bs := (buffers y).
Local Notation s := (st y).

Lemma lives_procs q : is_Some (lives s q) -> is_Some (procs s !! q).
Proof. unfold lives. destruct (procs s !! q); [by eexists|by intros [? ?]]. Qed.

Lemma begin_good s' x :
  inv None None (opt_list (x_target_node x) ++ targets xs)
    (opt_list (x_target_node x) ++ targets xs ++ strong_held s xs bs) (weak_held s xs bs) [] s' ->
  begin_frame (x_target_proc x) s s' -> is_Some (threads s !! x_thread x) -> is_Some (procs s !! x_target_proc x) ->
  (forall n, x_target_node x = Some n -> exists nd, nodes s !! n = Some nd /\ n_proc nd = Some (x_target_proc x)) ->
  x_objects x = [] ->
  sys_good (y <| st := s' |> <| transactions ::= fun xs => xs ++ [x] |>).
Proof.
  intros Hi (T' & M' & Q' & L') Ht Hp Hn Ho.
  assert (Hd : forall q, same_death s s' q).
  { intros q d c E. rewrite L'. case_decide; [|eauto]. rewrite E. cbn. eauto. }
  assert (I' : inv None None (targets (xs ++ [x])) (targets (xs ++ [x]) ++ strong_held s' (xs ++ [x]) bs)
    (weak_held s' (xs ++ [x]) bs) [] s').
  { eapply inv_perm; [..|exact Hi]; intros m; unfold strong_held, weak_held;
      rewrite ?targets_app, ?flat_map_app, ?M'; unfold targets; cbn [flat_map]; rewrite ?Ho; cbn [strong_nodes weak_nodes omap list_omap];
      rewrite ?app_nil_r, !occ_app; lia. }
  split; cbn.
  - eapply good_stays; [apply Hy|exact I'|by apply told_places, quiet_told|..].
    + intros z _ Hz. rewrite T'. apply (g_txn _ _ _ (proj1 Hy) z Hz).
    + intros z [Hz| ->%list_elem_of_singleton]%elem_of_app; [by left|right]. split.
      * by rewrite T'.
      * rewrite Ho. by intros o Hin%not_elem_of_nil.
      * destruct Hp as [pr Hp]. rewrite L', decide_True by done. unfold lives. rewrite Hp. by eexists.
      * intros n Hxn. destruct (Hn n Hxn) as (nd & H1 & H2).
        destruct (quiet_node s s' n nd Q' H1) as (nd' & E1 & E2).
        { eapply inv_held; [exact Hi|]. left. rewrite Hxn. left. }
        exists nd'. split; [done|]. left. unfold ident in E2. congruence.
    + by left.
    + by left.
    + intros q d c. rewrite L', map_app, occ_app. cbn [map]. rewrite occ_cons, occ_nil.
      case_decide as E; [subst q; rewrite decide_True by done|rewrite decide_False by congruence].
      * destruct (lives s _) as [[d' c']|] eqn:E; [|done]. cbn. intros [= <- <-].
        destruct (g_life _ _ _ (proj1 Hy) _ _ _ E). split; [lia|naive_solver lia].
      * intros E'. destruct (g_life _ _ _ (proj1 Hy) _ _ _ E'). split; [lia|naive_solver lia].
  - eapply logged_same; [|apply Hy]. intros p ptr. apply told_known; [apply (sys_inv y Hy)|apply Hi|by apply quiet_told].
Qed.

Lemma step_begin t handle allowed : possible (Begin t handle allowed) y = true ->
  exists y', step (Begin t handle allowed) y = Some y' /\ sys_good y'.
Proof.
  cbn. intros Ht%awake_thread. destruct (caller y Hy t Ht) as (th & pr & Hth & -> & Hp & Hal).
  destruct (begin_transaction_spec _ _ _ s (t_proc th) handle allowed (sys_inv y Hy)) as (o & s' & E & H).
  { by eexists. } { apply (manager_node y Hy). }
  { intros q c Hq. destruct (g_life _ _ _ (proj1 Hy) _ _ _ Hq) as [_ H]. specialize (H eq_refl). lia. }
  cbn [mbind option_bind]. rewrite E. cbn [mbind option_bind]. eexists. split; [done|].
  destruct o as [[n q]|].
  - destruct H as (I' & F' & Hnd & Hq). apply begin_good; try done. by intros m [= <-].
  - destruct H as (I' & F'). assert (G : sys_good (y <| st := s' |>)) by by apply ref_good.
    destruct G as [G1 G2]. split; cbn; [by rewrite app_nil_r|done].
Qed.

Lemma step_begin_reply t q : possible (BeginReply t q) y = true ->
  exists y', step (BeginReply t q) y = Some y' /\ sys_good y'.
Proof.
  cbn. intros [Ht%awake_thread (pr & Hq & _ & Hal)%live_alive]%andb_true_iff. unfold begin_reply. rewrite Hq.
  cbn [mbind option_bind]. eexists. split; [done|].
  apply (begin_good _ {| x_thread := t; x_target_node := None; x_target_proc := q; x_objects := [] |}); try done.
  - apply inv_on_proc; [done|]. apply (sys_inv y Hy).
  - split_and!; [done..|by apply quiet_nodes|]. intros p. cbn. unfold lives. cbn. case_decide as E.
    + subst p. by rewrite lookup_alter_eq, Hq.
    + by rewrite lookup_alter_ne.
Qed.
(** ** Objects *)

(** The object [os] is added to the transaction [i]. *)
Lemma object_good s' i x os :
  xs !! i = Some x ->
  inv None None (targets xs) (strong_nodes os ++ targets xs ++ strong_held s xs bs) (weak_nodes os ++ weak_held s xs bs) [] s' ->
  threads s' = threads s -> context_mgr_node s' = context_mgr_node s -> told s s' -> (forall p, lives s' p = lives s p) ->
  (forall o, o ∈ os -> held_object (x_target_proc x) s' o) ->
  sys_good (y <| st := s' |> <| transactions ::= <[i := x <| x_objects ::= fun l => l ++ os |>]> |>).
Proof.
  intros Hi Hinv T' M' Q' L' Ho. set (x' := x <| x_objects ::= fun l => l ++ os |>). set (xs' := <[i := x']> xs).
  assert (Hd : forall q, same_death s s' q) by (intros q; by apply same_lives_death).
  assert (Etgt : forall m, occ m (targets xs') = occ m (targets xs)).
  { intros m. pose proof (occ_flat_insert (fun x => opt_list (x_target_node x)) m _ _ _ x' Hi) as E. cbn in E. unfold targets, xs'. lia. }
  assert (Estrong : forall m, occ m (strong_held s' xs' bs) = occ m (strong_nodes os) + occ m (strong_held s xs bs)).
  { intros m. pose proof (occ_flat_insert (fun x => strong_nodes (x_objects x)) m _ _ _ x' Hi) as E. cbn in E.
    rewrite strong_nodes_app, occ_app in E. unfold strong_held, xs'. rewrite M', !occ_app. lia. }
  assert (Eweak : forall m, occ m (weak_held s' xs' bs) = occ m (weak_nodes os) + occ m (weak_held s xs bs)).
  { intros m. pose proof (occ_flat_insert (fun x => weak_nodes (x_objects x)) m _ _ _ x' Hi) as E. cbn in E.
    rewrite weak_nodes_app, occ_app in E. unfold weak_held, xs'. rewrite M', !occ_app. lia. }
  assert (I' : inv None None (targets xs') (targets xs' ++ strong_held s' xs' bs) (weak_held s' xs' bs) [] s').
  { eapply inv_perm; [..|exact Hinv]; intros m; [by rewrite Etgt| |by rewrite Eweak, occ_app].
    rewrite !occ_app, Etgt, Estrong. lia. }
  assert (Hxin : x ∈ xs) by by eapply list_elem_of_lookup_2.
  split; cbn.
  - eapply good_stays; [apply Hy|exact I'|by apply told_places|..].
    + intros z _ Hz. rewrite T'. apply (g_txn _ _ _ (proj1 Hy) z Hz).
    + intros z [Hz| ->]%elem_insert; [by left|right].
      pose proof (g_txn _ _ _ (proj1 Hy) x Hxin) as Hok. eapply (txn_stays s s') in Hok; [|by rewrite T'; apply Hok|done|].
      * destruct Hok as [K1 K2 K3 K4]. split; [exact K1| |exact K3|exact K4]. intros o [|]%elem_of_app; [by apply K2|by apply Ho].
      * intros n Hn. apply places_stay; [by apply told_places|]. destruct Hinv as [_ Hc]. apply (ok_held _ _ _ _ _ _ Hc).
        destruct (txn_nodes_held s xs bs x n Hxin Hn); set_solver.
    + by left.
    + by left.
    + intros q d c. rewrite L'. unfold xs'. rewrite (map_insert_same _ _ _ _ _ Hi) by done. apply Hy.
  - eapply logged_same; [|apply Hy]. intros p ptr. apply told_known; [apply (sys_inv y Hy)|apply Hinv|done].
Qed.

Lemma held_node_found s' n nd q strong c T LS LW : inv None None T LS LW [] s' -> nodes s' !! n = Some nd ->
  n_proc nd = Some q -> held_node q (BINDER strong (n_ptr nd) c) s' = Some n.
Proof.
  intros [Hs _] Hn Hq. destruct (ok_owner _ _ Hs n _ q (vn_lookup _ _ _ Hn) Hq) as (v & Hv & Hin).
  cbn in Hv. apply lookup_fmap_Some in Hv as (pr & <- & Hp). cbn. rewrite Hp. cbn [mbind option_bind].
  apply tree_find_Some; [|exact Hin]. apply (ok_sorted _ _ Hs q _ (vp_lookup _ _ _ Hp)).
Qed.

Lemma step_object i fp node_alloc ref_alloc allowed : possible (Object i fp node_alloc ref_alloc allowed) y = true ->
  exists y', step (Object i fp node_alloc ref_alloc allowed) y = Some y' /\ sys_good y'.
Proof.
  cbn. destruct (xs !! i) as [x|] eqn:Hi; [|done]. cbn [mbind option_bind].
  intros [[(pq & Hq & _ & Hal)%live_alive Hfn]%andb_true_iff Hfr]%andb_true_iff.
  assert (Hx : txn_ok s x) by (apply Hy; by eapply list_elem_of_lookup_2).
  destruct (tx_thread _ _ Hx) as [th Ht]. assert (Hra : ref_alloc_ok ref_alloc pq s) by by eapply fresh_ref_spec.
  destruct fp as [strong ptr c|strong handle]; cbn [translate].
  - destruct (translate_binder_spec (D:=None) _ _ _ s node_alloc ref_alloc allowed strong ptr c _ pq _ _ (sys_inv y Hy) Ht Hq Hal)
      as (ret & fp & s' & E & I' & (T' & M' & K' & L') & Hret); [by intros n Hn; eapply fresh_spec|done|].
    rewrite E. cbn [mbind option_bind]. eexists. split; [done|]. destruct (ret =? 0) eqn:Er.
    + apply Z.eqb_eq in Er. destruct (Hret Er) as [d ->]. apply object_good; try done.
      by intros o ->%list_elem_of_singleton.
    + assert (G : sys_good (y <| st := s' |> <| transactions ::= <[i := x <| x_objects ::= fun l => l ++ [] |>]> |>)).
      { apply object_good; try done. by intros o ?%not_elem_of_nil. }
      destruct fp; exact G.
  - destruct (translate_handle_spec (D:=None) _ _ _ s ref_alloc allowed strong handle _ pq _ _ (sys_inv y Hy) Ht Hq Hal Hra)
      as (ret & fp & s' & E & (T' & M' & K' & L') & H & Hret).
    rewrite E. cbn [mbind option_bind]. eexists. split; [done|]. apply quiet_told in K'.
    assert (Hnil : forall o : flat_binder_object * option Z, o ∈ [] -> held_object (x_target_proc x) s' o) by (intros o []%not_elem_of_nil).
    destruct fp as [[st ptr c|st d]|].
    + destruct H as (-> & -> & n & nd & I' & Hn & Hown & <-). cbn [Z.eqb]. rewrite (held_node_found _ _ _ _ _ _ _ _ _ I' Hn Hown).
      apply object_good; try done; [by destruct strong|]. intros o ->%list_elem_of_singleton. exists nd. done.
    + apply object_good; try done; destruct (ret =? 0); try done. by intros o ->%list_elem_of_singleton.
    + apply object_good; done.
Qed.
(** ** The end of a transaction *)

(** The transaction [i] is over: its process loses a reference. *)
Lemma remove_good s' i x bs' :
  xs !! i = Some x ->
  inv None None (targets (delete i xs)) (targets (delete i xs) ++ strong_held s' (delete i xs) bs')
    (weak_held s' (delete i xs) bs') [] s' ->
  dec_frame (x_target_proc x) s s' ->
  (forall b, b ∈ bs' -> b ∈ bs \/ buf_ok s' b) ->
  sys_good (y <| st := s' |> <| transactions ::= delete i |> <| buffers := bs' |>).
Proof.
  intros Hi Hinv (T' & M' & Q' & L') Hb. set (q := x_target_proc x) in *.
  assert (Hocc : forall p, occ p (map x_target_proc xs) = occ p [q] + occ p (map x_target_proc (delete i xs))).
  { intros p. by apply occ_map_delete. }
  assert (Hdec : forall p, lives s' p = lives s p /\ p <> q \/ p = q /\ lives s' p = life_dec p (lives s p)).
  { intros p. rewrite L'. case_decide; [subst p; by right|by left]. }
  assert (Hother : forall p, p <> q -> occ p (map x_target_proc (delete i xs)) = occ p (map x_target_proc xs)).
  { intros p Hp. rewrite Hocc, occ_cons, occ_nil, decide_False by congruence. lia. }
  assert (Hself : occ q (map x_target_proc (delete i xs)) = occ q (map x_target_proc xs) - 1).
  { rewrite Hocc, occ_head, occ_nil. lia. }
  assert (Hd : forall p, (forall c, lives s p <> Some (true, c)) \/ 0 < occ p (map x_target_proc (delete i xs)) -> same_death s s' p).
  { intros p Hp d c E. destruct (Hdec p) as [[-> _]|[-> ->]]; [eauto|]. rewrite E. cbn [life_dec].
    destruct (g_life _ _ _ (proj1 Hy) _ _ _ E) as [Hc _]. destruct (d && (c =? 1)) eqn:Ed; [|eauto].
    apply andb_true_iff in Ed as [-> ->%Z.eqb_eq]. destruct Hp as [Hp|Hp]; [by destruct (Hp 1)|]. lia. }
  split; cbn.
  - eapply good_stays; [apply Hy|exact Hinv|by apply told_places, quiet_told|..].
    + intros z _ Hz. rewrite T'. apply (g_txn _ _ _ (proj1 Hy) z Hz).
    + intros z Hz. left. split; [by eapply list_elem_of_delete_inv|]. apply Hd. right. apply occ_pos, list_elem_of_fmap. by exists z.
    + intros b Hin. destruct (Hb b Hin) as [Hin'|]; [left|by right]. split; [done|]. apply Hd. left. intros c E.
      destruct (bf_proc _ _ (g_buf _ _ _ (proj1 Hy) b Hin')). congruence.
    + by left.
    + intros p d c E. destruct (Hdec p) as [[E' Hp]|[-> E']]; rewrite E' in E.
      * rewrite (Hother p Hp). by apply Hy.
      * destruct (lives s q) as [[d0 c0]|] eqn:Eq; [|done]. cbn [life_dec] in E.
        destruct (g_life _ _ _ (proj1 Hy) _ _ _ Eq) as [Hc Hpos]. destruct (d0 && (c0 =? 1)) eqn:Ed; [done|].
        injection E as -> <-. split; [lia|]. intros ->. cbn in Ed. apply Z.eqb_neq in Ed. specialize (Hpos eq_refl). lia.
  - eapply logged_same; [|apply Hy]. intros p ptr. apply told_known; [apply (sys_inv y Hy)|apply Hinv|by apply quiet_told].
Qed.

Lemma occ_targets i x m : xs !! i = Some x -> occ m (targets xs) = occ m (opt_list (x_target_node x)) + occ m (targets (delete i xs)).
Proof. intros Hi. apply (occ_flat_map (fun x => opt_list (x_target_node x)) m _ _ _ Hi). Qed.

Lemma occ_strong_held i x m : xs !! i = Some x ->
  occ m (strong_held s xs bs) = occ m (strong_nodes (x_objects x)) + occ m (strong_held s (delete i xs) bs).
Proof.
  intros Hi. pose proof (occ_flat_map (fun x => strong_nodes (x_objects x)) m _ _ _ Hi) as E. cbn in E.
  unfold strong_held. rewrite !occ_app. lia.
Qed.

Lemma occ_weak_held i x m : xs !! i = Some x ->
  occ m (weak_held s xs bs) = occ m (weak_nodes (x_objects x)) + occ m (weak_held s (delete i xs) bs).
Proof.
  intros Hi. pose proof (occ_flat_map (fun x => weak_nodes (x_objects x)) m _ _ _ Hi) as E. cbn in E.
  unfold weak_held. rewrite !occ_app. lia.
Qed.

Lemma manager_held s' zs cs : context_mgr_node s' = context_mgr_node s ->
  strong_held s' zs cs = strong_held s zs cs /\ weak_held s' zs cs = weak_held s zs cs.
Proof. intros M'. unfold strong_held, weak_held. by rewrite M'. Qed.

Lemma txn_invariant i x : xs !! i = Some x ->
  inv None None (opt_list (x_target_node x) ++ targets (delete i xs))
    (opt_list (x_target_node x) ++ strong_nodes (x_objects x) ++ targets (delete i xs) ++ strong_held s (delete i xs) bs)
    (weak_nodes (x_objects x) ++ weak_held s (delete i xs) bs) [] s.
Proof.
  intros Hi. eapply inv_perm; [..|apply (sys_inv y Hy)]; intros m; rewrite ?occ_app, ?(occ_targets i x m Hi),
    ?(occ_strong_held i x m Hi), ?(occ_weak_held i x m Hi); lia.
Qed.

Lemma step_end i : possible (End_ i) y = true -> exists y', step (End_ i) y = Some y' /\ sys_good y'.
Proof.
  cbn. destruct (xs !! i) as [x|] eqn:Hi; [|done]. intros (pq & Hq & Hdead & Hal)%live_alive. cbn [mbind option_bind].
  pose proof (txn_invariant i x Hi) as Hinv. assert (Hx : txn_ok s x) by (apply Hy; by eapply list_elem_of_lookup_2).
  assert (Hlq : lives s (x_target_proc x) = Some (false, p_tmp_ref pq)) by (unfold lives, life; by rewrite Hq; cbn; rewrite Hdead).
  assert (Htgt : forall n, x_target_node x = Some n -> exists nd, nodes s !! n = Some nd /\ n_proc nd = Some (x_target_proc x)).
  { intros n Hn. destruct (tx_target _ _ Hx n Hn) as (nd & E1 & [|[_ [c E2]]]); [by exists nd|congruence]. }
  destruct (end_spec _ _ _ _ _ (x_target_proc x) Hinv) as (s' & E & I' & F'); [by eexists| |].
  { intros n nd Hn E. destruct (Htgt n Hn) as (nd' & E1 & E2). simplify_eq. by eexists. }
  rewrite E. eexists. split; [done|]. pose proof F' as (T' & M' & Q' & L').
  destruct (manager_held s' (delete i xs) bs M') as [Es Ew].
  apply (remove_good s' i x (_ :: bs)); [done| |done|].
  - eapply inv_perm; [..|exact I']; [done|..]; intros m.
    + unfold strong_held. cbn [flat_map b_target_node b_objects]. rewrite M', !occ_app. lia.
    + unfold weak_held. cbn [flat_map b_objects]. rewrite M', !occ_app. lia.
  - intros b [-> |]%elem_of_cons; [right|by left].
    assert (Hstay : forall n, n ∈ txn_nodes x -> node_stays s s' n).
    { intros n Hn. apply places_stay; [by apply told_places, quiet_told|]. destruct I' as [_ Hc]. apply (ok_held _ _ _ _ _ _ Hc).
      unfold txn_nodes in Hn. set_solver. }
    assert (Hd : same_death s s' (x_target_proc x)).
    { intros d c. rewrite L', decide_True, Hlq by done. intros [= <- <-]. cbn. eauto. }
    split; cbn.
    + intros o Hin. eapply held_stays; [by apply (tx_objects _ _ Hx)|done|]. intros n Ho. apply Hstay. apply elem_of_app. right.
      eapply object_nodes; [done|apply (tx_objects _ _ Hx)|done].
    + apply (Hd _ _ Hlq).
    + intros n Hn. destruct (Htgt n Hn) as (nd & E1 & E2). destruct (Hstay n) with (nd := nd) as (nd' & F1 & F2 & _); [|done|].
      { unfold txn_nodes. rewrite Hn. left. }
      exists nd'. split; [done|]. congruence.
Qed.

Lemma same_buffers y' : y' <| buffers := buffers y' |> = y'.
Proof. by destruct y'. Qed.

Lemma step_abort i : possible (Abort_ i) y = true -> exists y', step (Abort_ i) y = Some y' /\ sys_good y'.
Proof.
  cbn. destruct (xs !! i) as [x|] eqn:Hi; [|done]. intros Ho%bool_decide_eq_true%map_eq_nil. cbn [mbind option_bind].
  pose proof (txn_invariant i x Hi) as Hinv. assert (Hx : txn_ok s x) by (apply Hy; by eapply list_elem_of_lookup_2).
  pose proof (lives_procs _ (tx_proc _ _ Hx)) as Hq. rewrite Ho in Hinv. cbn [strong_nodes weak_nodes omap list_omap app] in Hinv.
  assert (H : exists s', release_transaction x s = Some s' /\ dec_frame (x_target_proc x) s s' /\
    inv None None (targets (delete i xs)) (targets (delete i xs) ++ strong_held s (delete i xs) bs) (weak_held s (delete i xs) bs) [] s').
  { unfold release_transaction. destruct (x_target_node x) as [n|]; cbn [opt_list app] in Hinv.
    - destruct (abort_spec _ _ _ _ _ _ Hinv Hq) as (s' & ? & ? & ?). by exists s'.
    - destruct (proc_dec_spec _ _ _ _ _ Hinv Hq) as (s' & ? & ? & _ & ?). by exists s'. }
  destruct H as (s' & -> & F' & I'). eexists. split; [done|]. destruct (manager_held s' (delete i xs) bs (proj1 (proj2 F'))) as [Es Ew].
  rewrite <- same_buffers. apply (remove_good s' i x bs); try done; [by rewrite Es, Ew|]. by left.
Qed.

Lemma step_fail i : possible (Fail_ i) y = true -> exists y', step (Fail_ i) y = Some y' /\ sys_good y'.
Proof.
  cbn. intros [x Hi]%bool_decide_eq_true. rewrite Hi. cbn [mbind option_bind].
  pose proof (txn_invariant i x Hi) as Hinv. assert (Hx : txn_ok s x) by (apply Hy; by eapply list_elem_of_lookup_2).
  destruct (fail_spec _ _ _ _ _ (x_target_proc x) _ Hinv) as (s' & E & I' & F'); [apply Hx|apply lives_procs, Hx|]. rewrite E. eexists. split; [done|].
  destruct (manager_held s' (delete i xs) bs (proj1 (proj2 F'))) as [Es Ew].
  rewrite <- same_buffers. apply (remove_good s' i x bs); try done; [by rewrite Es, Ew|]. by left.
Qed.

Lemma step_free j : possible (FreeBuffer j) y = true -> exists y', step (FreeBuffer j) y = Some y' /\ sys_good y'.
Proof.
  cbn. intros [b Hj]%bool_decide_eq_true. rewrite Hj. cbn [mbind option_bind].
  assert (Hb : buf_ok s b) by (apply Hy; by eapply list_elem_of_lookup_2).
  assert (Hinv : inv None None (targets xs)
    (opt_list (b_target_node b) ++ strong_nodes (b_objects b) ++ targets xs ++ strong_held s xs (delete j bs))
    (weak_nodes (b_objects b) ++ weak_held s xs (delete j bs)) [] s).
  { eapply inv_perm; [..|apply (sys_inv y Hy)]; [done|..]; intros m.
    - pose proof (occ_flat_map (fun b => opt_list (b_target_node b) ++ strong_nodes (b_objects b)) m _ _ _ Hj) as E.
      cbn beta in E. unfold strong_held. rewrite !occ_app, E, occ_app. lia.
    - pose proof (occ_flat_map (fun b => weak_nodes (b_objects b)) m _ _ _ Hj) as E. cbn beta in E.
      unfold weak_held. rewrite !occ_app, E. lia. }
  destruct (bf_proc _ _ Hb) as [c Hc].
  destruct (buffer_release_spec _ _ _ _ (b_proc b) _ _ Hinv) as (s' & E & I' & (T' & M' & Q' & L')); [apply Hb|apply lives_procs; by rewrite Hc|].
  rewrite E. eexists. split; [done|]. destruct (manager_held s' xs (delete j bs) M') as [Es Ew]. split; cbn.
  - eapply good_stays; [apply Hy|by rewrite Es, Ew|by apply told_places, quiet_told|..].
    + intros z _ Hz. rewrite T'. apply (g_txn _ _ _ (proj1 Hy) z Hz).
    + intros z Hz. left. split; [done|]. apply same_lives_death, L'.
    + intros b' Hz. left. split; [by eapply list_elem_of_delete_inv|]. apply same_lives_death, L'.
    + by left.
    + intros p d c'. unfold lives. rewrite L'. apply (g_life _ _ _ (proj1 Hy)).
  - eapply logged_same; [|apply Hy]. intros p ptr. apply told_known; [apply (sys_inv y Hy)|apply I'|by apply quiet_told].
Qed.
End Calls.
