(* ===== verification/BinderRefClose.v ===== *)
(** * Binder driver: the death of a process keeps the invariant

    What transactions and buffers still hold when a process is released, and
    with it all events: a run never faults. *)

From S2P Require Import Prelude BinderRef BinderRefInv BinderRefNode BinderRefHandle BinderRefOps.
From S2P Require Import BinderRefTxn BinderRefProto BinderRefDeath BinderRefRelease BinderRefRun BinderRefSafe.
From S2P Require Import BinderRefStep BinderRefCall.

Implicit Types (y : system) (x : transaction) (b : buffer).

Lemma targets_forget p xs : targets (map (forget_objects p) xs) = targets xs.
Proof.
  unfold targets. induction xs as [|x l IH]; [done|]. cbn [map flat_map]. rewrite IH. f_equal.
  unfold forget_objects. by destruct (_ =? p).
Qed.

Lemma procs_forget p xs : map x_target_proc (map (forget_objects p) xs) = map x_target_proc xs.
Proof. rewrite map_map. apply map_ext. intros x. unfold forget_objects. by destruct (_ =? p). Qed.

Lemma occ_forgotten {A} (f : A -> list Z) g (l : list A) m : (forall a, a ∈ l -> occ m (f (g a)) = occ m (f a)) ->
  occ m (flat_map f (map g l)) = occ m (flat_map f l).
Proof.
  intros Hf. induction l as [|a l IH]; [done|]. cbn [map flat_map]. rewrite !occ_app, Hf by left.
  rewrite IH; [done|]. intros b Hb. apply Hf. by right.
Qed.

Lemma occ_filtered {A} (f : A -> list Z) (P : A -> Prop) `{forall a, Decision (P a)} (l : list A) m :
  (forall a, a ∈ l -> ~ P a -> occ m (f a) = 0) -> occ m (flat_map f (filter P l)) = occ m (flat_map f l).
Proof.
  intros Hf. induction l as [|a l IH]; [done|]. assert (IH' : occ m (flat_map f (filter P l)) = occ m (flat_map f l)).
  { apply IH. intros b Hb. apply Hf. by right. }
  rewrite filter_cons. case_decide as E; cbn [flat_map]; rewrite !occ_app, IH'; [done|]. rewrite (Hf a); [done|left|done].
Qed.

(** ** The death of a process *)

Section Close.
Context (y : system) (Hy : sys_good y).

Local Notation xs := (transactions y).
Local Notation bs := (buffers y).
Local Notation s := (st y).

(** What is held without the process [p]. *)
Lemma strong_of_process p m nd : nodes s !! m = Some nd -> n_proc nd = Some p ->
  occ m (flat_map (fun x => strong_nodes (x_objects x)) (map (forget_objects p) xs)) = 0 /\
  occ m (flat_map (fun x => weak_nodes (x_objects x)) (map (forget_objects p) xs)) = 0 /\
  occ m (flat_map (fun b => opt_list (b_target_node b) ++ strong_nodes (b_objects b)) (filter (fun b => b_proc b <> p) bs)) = 0 /\
  occ m (flat_map (fun b => weak_nodes (b_objects b)) (filter (fun b => b_proc b <> p) bs)) = 0 /\
  occ m (opt_list (other_manager p s)) = 0.
Proof.
  intros Hm Hp.
  assert (Hobj : forall q os g, (forall o, o ∈ os -> held_object q s o) -> q <> p ->
    g = strong_node \/ g = weak_node -> m ∉ (omap g os : list Z)).
  { intros q os g Ho Hq Hg ([[st ptr c|st h] [n|]] & Hin & E)%list_elem_of_omap; try by destruct Hg, st; subst.
    assert (n = m) as -> by (destruct Hg, st; subst; cbn in E; congruence).
    destruct (Ho _ Hin) as (nd' & E1 & E2 & _). congruence. }
  assert (Hforget : forall g, g = strong_node \/ g = weak_node ->
    m ∉ flat_map (fun x => (omap g (x_objects x) : list Z)) (map (forget_objects p) xs)).
  { intros g Hg (z & (x & -> & Hx)%list_elem_of_fmap & Hz)%elem_flat_map. unfold forget_objects in Hz.
    destruct (x_target_proc x =? p) eqn:Ex; cbn in Hz.
    - apply list_elem_of_omap in Hz as ([fp o] & ([fp0 o0] & [= -> ->] & _)%list_elem_of_fmap & E). by destruct Hg, fp0 as [[]|]; subst.
    - apply Z.eqb_neq in Ex. eapply Hobj, Hz; [apply (g_txn _ _ _ (proj1 Hy) x Hx)|done|done]. }
  split_and!; apply occ_zero; [apply (Hforget strong_node); by left|apply (Hforget weak_node); by right|..].
  - intros (b & [Hb Hin]%list_elem_of_filter & [E|E]%elem_of_app)%elem_flat_map; pose proof (g_buf _ _ _ (proj1 Hy) b Hin) as Hok.
    + destruct (b_target_node b) as [n|] eqn:En; [|by apply not_elem_of_nil in E]. apply list_elem_of_singleton in E as <-.
      destruct (bf_target _ _ Hok m En) as (nd' & E1 & E2). congruence.
    + eapply (Hobj (b_proc b)), E; [apply Hok|done|by left].
  - intros (b & [Hb Hin]%list_elem_of_filter & E)%elem_flat_map; pose proof (g_buf _ _ _ (proj1 Hy) b Hin) as Hok.
    eapply (Hobj (b_proc b)), E; [apply Hok|done|by right].
  - unfold other_manager. destruct (context_mgr_node s) as [n|]; [|by intros ?%not_elem_of_nil].
    destruct (nodes s !! n) as [nd'|] eqn:E; [|by intros ?%not_elem_of_nil]. case_decide as Eo; [by intros ?%not_elem_of_nil|].
    intros <-%list_elem_of_singleton. congruence.
Qed.
(** The nodes of the other processes are held as before. *)
Lemma strong_of_others p m : (forall nd, nodes s !! m = Some nd -> n_proc nd <> Some p) ->
  occ m (flat_map (fun x => strong_nodes (x_objects x)) (map (forget_objects p) xs)) =
    occ m (flat_map (fun x => strong_nodes (x_objects x)) xs) /\
  occ m (flat_map (fun x => weak_nodes (x_objects x)) (map (forget_objects p) xs)) =
    occ m (flat_map (fun x => weak_nodes (x_objects x)) xs) /\
  occ m (flat_map (fun b => opt_list (b_target_node b) ++ strong_nodes (b_objects b)) (filter (fun b => b_proc b <> p) bs)) =
    occ m (flat_map (fun b => opt_list (b_target_node b) ++ strong_nodes (b_objects b)) bs) /\
  occ m (flat_map (fun b => weak_nodes (b_objects b)) (filter (fun b => b_proc b <> p) bs)) =
    occ m (flat_map (fun b => weak_nodes (b_objects b)) bs) /\
  occ m (opt_list (other_manager p s)) = occ m (opt_list (context_mgr_node s)).
Proof.
  intros Hm.
  assert (Hobj : forall os g, (forall o, o ∈ os -> held_object p s o) -> g = strong_node \/ g = weak_node ->
    occ m (omap g os : list Z) = 0).
  { intros os g Ho Hg. apply occ_zero. intros ([[st ptr c|st h] [n|]] & Hin & E)%list_elem_of_omap; try by destruct Hg, st; subst.
    assert (n = m) as -> by (destruct Hg, st; subst; cbn in E; congruence).
    destruct (Ho _ Hin) as (nd & E1 & E2 & _). by destruct (Hm nd E1). }
  assert (Hforget : forall g x, g = strong_node \/ g = weak_node -> x ∈ xs ->
    occ m (omap g (x_objects (forget_objects p x)) : list Z) = occ m (omap g (x_objects x) : list Z)).
  { intros g x Hg Hx. unfold forget_objects. destruct (x_target_proc x =? p) eqn:Ex; [|done]. apply Z.eqb_eq in Ex.
    rewrite (Hobj (x_objects x)); [|rewrite <- Ex; apply (g_txn _ _ _ (proj1 Hy) x Hx)|done]. apply occ_zero. cbn.
    intros ([fp o] & ([fp0 o0] & [= -> ->] & _)%list_elem_of_fmap & E)%list_elem_of_omap. by destruct Hg, fp0 as [[]|]; subst. }
  split_and!.
  - apply occ_forgotten. intros x Hx. apply (Hforget strong_node); [by left|done].
  - apply occ_forgotten. intros x Hx. apply (Hforget weak_node); [by right|done].
  - apply occ_filtered. intros b Hb Ep%dec_stable. pose proof (g_buf _ _ _ (proj1 Hy) b Hb) as [Hok _ Ht]. rewrite occ_app.
    rewrite Ep in Hok, Ht. pose proof (Hobj (b_objects b) strong_node Hok (or_introl eq_refl)) as E1. unfold strong_nodes. rewrite E1.
    destruct (b_target_node b) as [n|]; cbn [opt_list]; [|by rewrite occ_nil]. rewrite occ_cons, occ_nil. case_decide as E; [|lia].
    subst n. destruct (Ht m eq_refl) as (nd & F1 & F2). by destruct (Hm nd F1).
  - apply occ_filtered. intros b Hb Ep%dec_stable. pose proof (g_buf _ _ _ (proj1 Hy) b Hb) as [Hok _ Ht]. rewrite Ep in Hok.
    apply (Hobj (b_objects b) weak_node Hok). by right.
  - unfold other_manager. destruct (context_mgr_node s) as [n|] eqn:En; [|done]. destruct (manager_node y Hy n En) as [nd E].
    rewrite E. case_decide as Eo; [|done]. cbn [opt_list]. rewrite occ_cons, occ_nil. case_decide; [|done]. subst n.
    by destruct (Hm nd E).
Qed.
Lemma dead_unknown s' p ptr : struct_ok None None (view s') -> (forall n nd, nodes s' !! n = Some nd -> n_proc nd <> Some p) ->
  known s' p ptr = (No, No).
Proof.
  intros Hs Hn. destruct (known_cases None s' p ptr Hs) as [(n & nd & E & Ep & _)|[]]; [|done]. by destruct (Hn n nd E).
Qed.

Lemma messages_filter p q ptr l :
  messages q ptr (filter (fun e => e.1.1 <> p) l) = if decide (q = p) then [] else messages q ptr l.
Proof.
  unfold messages. rewrite list_filter_filter. case_decide as E.
  - subst q. induction l as [|[[a b] m] l IH]; [done|]. rewrite filter_cons, decide_False; [done|]. cbn. naive_solver.
  - f_equal. apply list_filter_iff. intros [[a b] m]. cbn. naive_solver.
Qed.

(** The state [s'] is the one after the death of [p]. *)
Section Closed.
Context (p : Z) (s' : binder_state) (c0 : Z) (Hp : lives s p = Some (false, c0)) (F : death_frame p s s').

Lemma others_stay m nd : nodes s !! m = Some nd -> n_proc nd <> Some p -> is_Some (nodes s' !! m) ->
  exists nd', nodes s' !! m = Some nd' /\ n_proc nd' = n_proc nd /\ n_ptr nd' = n_ptr nd.
Proof.
  destruct F as (_ & _ & _ & N1 & _). intros Hm Ho [nd' Hm']. specialize (N1 m nd Hm Ho). rewrite Hm' in N1.
  exists nd'. unfold ident in N1. split_and!; congruence.
Qed.

Lemma own_node_dead m nd : nodes s !! m = Some nd -> n_proc nd = Some p -> is_Some (nodes s' !! m) ->
  exists nd', nodes s' !! m = Some nd' /\ n_proc nd' = None.
Proof.
  destruct F as (_ & _ & _ & _ & N2). intros Hm Ho [nd' Hm']. exists nd'. split; [done|].
  destruct (N2 m nd' Hm') as (Hne & nd0 & E & [[_ H]|H]); [done|]. unfold ident in H. congruence.
Qed.

Lemma close_death q : q <> p -> same_death s s' q.
Proof. intros Hq. apply same_lives_death. by apply F. Qed.

Lemma close_target q n : target_of q n s -> is_Some (nodes s' !! n) -> (q = p -> exists c, lives s' p = Some (true, c)) ->
  target_of q n s'.
Proof.
  intros (nd & E1 & E2) Hn Hq. destruct (decide (n_proc nd = Some p)) as [Eo|Eo].
  - destruct (own_node_dead n nd E1 Eo Hn) as (nd' & F1 & F2). exists nd'. split; [done|]. right. split; [done|].
    destruct E2 as [E2|[E2 _]]; [|congruence]. assert (q = p) as -> by congruence. by apply Hq.
  - destruct (others_stay n nd E1 Eo Hn) as (nd' & F1 & F2 & _). exists nd'. split; [done|]. rewrite F2.
    destruct E2 as [|[E2 [c E3]]]; [by left|right]. split; [done|]. destruct (decide (q = p)) as [->|Hqp]; [congruence|].
    by apply (close_death q Hqp _ _ E3).
Qed.

Lemma close_object q o : q <> p -> held_object q s o -> (forall n, o.2 = Some n -> is_Some (nodes s' !! n)) ->
  held_object q s' o.
Proof.
  intros Hq Ho Hn. destruct o as [[st ptr c|st h] [n|]]; cbn in *; try done.
  - destruct Ho as (nd & H1 & H2 & H3). destruct (others_stay n nd H1) as (nd' & E1 & E2 & E3); [congruence|by apply Hn|].
    exists nd'. split_and!; congruence.
  - destruct Ho as (d & Hd). by apply (close_death q Hq _ _ Hd).
Qed.

Lemma close_txn x :
  lives s' p = (if occ p (map x_target_proc xs) =? 0 then None else Some (true, occ p (map x_target_proc xs))) ->
  x ∈ xs -> proc_of (x_thread x) s <> Some p -> (forall n, n ∈ txn_nodes (forget_objects p x) -> is_Some (nodes s' !! n)) ->
  txn_ok s' (forget_objects p x).
Proof.
  intros Lp Hin Hthread Hn. pose proof (g_txn _ _ _ (proj1 Hy) x Hin) as [H1 H2 H3 H4].
  assert (Hlp : x_target_proc x = p -> exists c, lives s' p = Some (true, c)).
  { intros E. rewrite Lp. destruct (_ =? 0) eqn:E0; [|eauto]. apply Z.eqb_eq, occ_zero in E0. destruct E0.
    apply list_elem_of_fmap. by exists x. }
  assert (Hq : x_target_proc (forget_objects p x) = x_target_proc x) by (unfold forget_objects; by destruct (_ =? p)).
  assert (Ht : x_target_node (forget_objects p x) = x_target_node x) by (unfold forget_objects; by destruct (_ =? p)).
  assert (Hth : x_thread (forget_objects p x) = x_thread x) by (unfold forget_objects; by destruct (_ =? p)).
  split; rewrite ?Hq, ?Ht, ?Hth.
  - destruct F as (T' & _). rewrite T', decide_False; [done|]. intros (th & E1 & E2)%proc_threads_elem. destruct Hthread.
    unfold proc_of. by rewrite E1; cbn; rewrite E2.
  - intros o. unfold forget_objects in *. destruct (x_target_proc x =? p) eqn:Ex.
    + apply Z.eqb_eq in Ex. intros (o' & -> & _)%list_elem_of_fmap. rewrite Ex. destruct (o'.1); cbn; [|done]. by apply Hlp.
    + apply Z.eqb_neq in Ex. intros Ho. apply close_object; [done|by apply H2|]. intros n En. apply Hn.
      apply elem_of_app. right. eapply object_nodes; [done|apply H2|done].
  - destruct (decide (x_target_proc x = p)) as [E|E]; [rewrite E; destruct (Hlp E) as [c ->]; by eexists|].
    destruct H3 as [[d c] H3]. destruct (close_death _ E _ _ H3) as [c' ->]. by eexists.
  - intros n Hxn. apply close_target; [by apply H4| |done]. apply Hn. unfold txn_nodes. rewrite Ht, Hxn. left.
Qed.

Lemma close_buf b : b ∈ bs -> b_proc b <> p -> (forall n, n ∈ buf_nodes b -> is_Some (nodes s' !! n)) -> buf_ok s' b.
Proof.
  intros Hin Hb Hn. pose proof (g_buf _ _ _ (proj1 Hy) b Hin) as [H1 [c H2] H3]. split.
  - intros o Ho. apply close_object; [done|by apply H1|]. intros n En. apply Hn.
    apply elem_of_app. right. eapply object_nodes; [done|apply H1|done].
  - by apply (close_death _ Hb _ _ H2).
  - intros n Hbn. destruct (H3 n Hbn) as (nd & E1 & E2). destruct (others_stay n nd E1) as (nd' & F1 & F2 & _); [congruence| |].
    { apply Hn. unfold buf_nodes. rewrite Hbn. left. }
    exists nd'. split; [done|]. congruence.
Qed.

Lemma close_told_for q : q <> p -> told_for q s s'.
Proof.
  intros Hq. destruct F as (_ & _ & _ & N1 & N2). split.
  - intros m nd' Hm' Ho. destruct (N2 m nd' Hm') as (_ & nd & E & [[_ H]|H]); [congruence|]. by rewrite E.
  - intros m nd Hm Ho. apply N1; [done|congruence].
Qed.
End Closed.

Lemma step_close p : possible (Close p) y = true -> exists y', step (Close p) y = Some y' /\ sys_good y'.
Proof.
  cbn. intros [[(pr & Hp & Hdead & Hal)%live_alive _]%andb_true_iff Hthreads]%andb_true_iff. pose proof (sys_inv y Hy) as Hinv.
  assert (Hlp : lives s p = Some (false, p_tmp_ref pr)) by (unfold lives, life; by rewrite Hp; cbn; rewrite Hdead).
  destruct (g_life _ _ _ (proj1 Hy) _ _ _ Hlp) as [Hcount _].
  set (xs' := map (forget_objects p) xs). set (bs' := filter (fun b => b_proc b <> p) bs).
  pose proof (targets_forget p xs : targets xs' = targets xs) as Etgt.
  set (K := targets xs ++ flat_map (fun x => strong_nodes (x_objects x)) xs' ++
    flat_map (fun b => opt_list (b_target_node b) ++ strong_nodes (b_objects b)) bs' ++ opt_list (other_manager p s)).
  set (KW := flat_map (fun x => weak_nodes (x_objects x)) xs' ++ flat_map (fun b => weak_nodes (b_objects b)) bs' ++
    opt_list (other_manager p s)).
  destruct (binder_deferred_release_spec (targets xs) _ _ K KW s p pr Hinv Hp) as (s' & E & I' & (T' & M' & L' & N1 & N2) & Lp).
  { rewrite Hcount. apply occ_nonneg. }
  { apply (manager_node y Hy). }
  { intros m nd Hm Ho. destruct (strong_of_process p m nd Hm Ho) as (E1 & E2 & E3 & E4 & E5).
    unfold K, KW, xs', bs'. rewrite !occ_app, E1, E2, E3, E4, E5. lia. }
  { intros m Hm. destruct (strong_of_others p m Hm) as (E1 & E2 & E3 & E4 & E5).
    unfold K, KW, xs', bs', strong_held, weak_held. rewrite !occ_app, E1, E2, E3, E4, E5. lia. }
  rewrite E. eexists. split; [done|].
  assert (Hx : forall x, x ∈ xs -> proc_of (x_thread x) s <> Some p).
  { intros x Hx. apply forallb_forall with (x := x) in Hthreads; [|by apply list_elem_of_In].
    by apply negb_true_iff, bool_decide_eq_false in Hthreads. }
  assert (Ih : inv None None (targets xs') (targets xs' ++ strong_held s' xs' bs') (weak_held s' xs' bs') [] s').
  { unfold strong_held, weak_held. rewrite Etgt, M'. exact I'. }
  assert (F : death_frame p s s') by done. destruct Ih as [Hs' Hc'].
  assert (Hheld : forall n, n ∈ targets xs' ++ strong_held s' xs' bs' \/ n ∈ weak_held s' xs' bs' -> is_Some (nodes s' !! n)).
  { intros n Hn. apply (ok_held _ _ _ _ _ _ Hc'). tauto. }
  split; cbn; [split|].
  - by split.
  - intros n. rewrite M'. unfold other_manager. destruct (context_mgr_node s) as [k|] eqn:Ek; [|done].
    destruct (g_manager _ _ _ (proj1 Hy) k Ek) as (nd & E1 & E2). rewrite E1. case_decide as Eo; [done|]. intros [= <-].
    destruct (others_stay p s' F k nd E1 Eo) as (nd' & F1 & F2 & _).
    { apply Hheld. right. unfold weak_held. rewrite M'. unfold other_manager. rewrite Ek, E1, decide_False by done. set_solver. }
    exists nd'. by rewrite F2.
  - intros z (x & -> & Hin)%list_elem_of_fmap. eapply close_txn; eauto.
    { rewrite Hcount in Lp. exact Lp. }
    intros n Hn. apply Hheld. eapply txn_nodes_held, Hn. apply list_elem_of_fmap. by exists x.
  - intros b [Hb Hin]%list_elem_of_filter. eapply close_buf; eauto. intros n Hn. apply Hheld. eapply buf_nodes_held, Hn.
    by apply list_elem_of_filter.
  - intros q d c Hq. rewrite procs_forget. destruct (decide (q = p)) as [->|Hqp]; [|rewrite L' in Hq by done; by apply Hy].
    rewrite Lp in Hq. destruct (p_tmp_ref pr =? 0) eqn:E0; [done|]. injection Hq as <- <-. split; [done|]. intros _.
    apply Z.eqb_neq in E0. pose proof (occ_nonneg p (map x_target_proc xs)). lia.
  - intros q ptr. rewrite messages_filter. case_decide as E'.
    + subst q. by rewrite (dead_unknown s' p ptr Hs') by (intros n nd Hn; apply (N2 n nd Hn)).
    + rewrite (told_for_known s s' q ptr (proj1 Hinv) Hs'); [apply Hy|]. by eapply close_told_for.
Qed.
End Close.

(** ** Runs *)

Lemma step_ok e y : sys_good y -> possible e y = true -> exists y', step e y = Some y' /\ sys_good y'.
Proof.
  intros Hy H. destruct e.
  - eexists. split; [done|]. apply step_open; [done|]. by apply bool_decide_eq_true in H.
  - cbn in H. apply andb_true_iff in H as [H1%bool_decide_eq_true H2]. eexists. split; [done|]. by apply step_thread.
  - by eapply step_looper; try done; right; right; eexists.
  - by eapply step_looper; try done; left.
  - by eapply step_looper; try done; right; left.
  - by apply step_sleep.
  - by apply step_wake.
  - by apply step_exit.
  - by apply step_manager.
  - by apply step_refcount.
  - by apply step_done.
  - by apply step_request.
  - by apply step_clear.
  - by apply step_dead_done.
  - by apply step_read.
  - by apply step_other.
  - by apply step_begin.
  - by apply step_begin_reply.
  - by apply step_object.
  - by apply step_end.
  - by apply step_abort.
  - by apply step_fail.
  - by apply step_free.
  - by apply step_close.
Qed.

Lemma init_good : sys_good init.
Proof.
  split; cbn; [split|by intros p ptr].
  - split; [|split]; cbn; try (by intros n ?; simplify_map_eq); try done; try (intros n; set_solver).
    split; cbn; intros; simplify_map_eq; try done; try set_solver; constructor.
  - done.
  - intros x ?%not_elem_of_nil. done.
  - intros x ?%not_elem_of_nil. done.
  - intros p d c. unfold lives. cbn. by rewrite lookup_empty.
Qed.

Lemma run_good es y : sys_good y -> exists y', run es y = Some y' /\ sys_good y'.
Proof.
  revert y. induction es as [|e es IH]; intros y Hy; cbn; [by exists y|].
  destruct (possible e y) eqn:Ep; [|by apply IH]. destruct (step_ok e y Hy Ep) as (y1 & -> & H1). by apply IH.
Qed.
