(* ===== verification/BinderRefProps.v ===== *)
(** * Binder driver: properties of nodes, references and notifications

    What holds in every run of [BinderRefRun]. *)

From S2P Require Import Prelude BinderRef BinderRefInv BinderRefNode BinderRefHandle BinderRefOps.
From S2P Require Import BinderRefTxn BinderRefProto BinderRefDeath BinderRefRelease BinderRefRun BinderRefSafe.
From S2P Require Import BinderRefStep BinderRefCall BinderRefClose.

Implicit Types (s : binder_state) (y : system).

(** ** Specifications *)

(** The references to a node that hold it strongly. *)
Definition strong_references s (nd : binder_node) : list Z :=
  filter (fun r => default 0 (r_strong <$> refs s !! r) <> 0) (n_refs nd).

(** Handles and nodes belong together, and the counts of a node are the numbers
    of those who hold it. *)
Record exact y : Prop := {
  ex_handle p pr d r : procs (st y) !! p = Some pr -> (d, r) ∈ refs_by_desc pr -> exists rf n nd,
    refs (st y) !! r = Some rf /\ r_desc rf = d /\ r_proc rf = p /\ r_node rf = Some n /\
    nodes (st y) !! n = Some nd /\ r ∈ n_refs nd;
  ex_reference n nd r : nodes (st y) !! n = Some nd -> r ∈ n_refs nd -> exists rf pr,
    refs (st y) !! r = Some rf /\ r_node rf = Some n /\ procs (st y) !! r_proc rf = Some pr /\
    tree_find (r_desc rf) (refs_by_desc pr) = Some r /\ tree_find n (refs_by_node pr) = Some r;
  ex_internal n nd : nodes (st y) !! n = Some nd ->
    internal_strong_refs nd = zlen (strong_references (st y) nd);
  ex_tmp n nd : nodes (st y) !! n = Some nd -> tmp_refs nd = occ n (targets (transactions y));
  ex_local n nd : nodes (st y) !! n = Some nd -> is_Some (n_proc nd) ->
    local_strong_refs nd = b2z (pending_strong_ref nd) +
      occ n (targets (transactions y) ++ strong_held (st y) (transactions y) (buffers y)) /\
    local_weak_refs nd = b2z (pending_weak_ref nd) + occ n (weak_held (st y) (transactions y) (buffers y));
  ex_held n : n ∈ targets (transactions y) ++ strong_held (st y) (transactions y) (buffers y) \/
    n ∈ weak_held (st y) (transactions y) (buffers y) -> is_Some (nodes (st y) !! n);
}.


(** ** Every run *)

Lemma exact_good y : sys_good y -> exact y.
Proof.
  intros Hy. pose proof (sys_inv y Hy) as [Hs Hc]. pose proof Hs as []. split.
  - intros p pr d r Hp Hr. destruct (ok_by_desc p _ d r (vp_lookup _ _ _ Hp) Hr) as (v & (rf & Hrf & ->)%vr_Some & <- & <- & _).
    destruct (struct_ref None _ _ _ Hs Hrf ltac:(done)) as (n & nd & pr' & H1 & H2 & H3 & _). exists rf, n, nd. split_and!; done.
  - intros n nd r Hn Hr. destruct (ok_refs n _ r (vn_lookup _ _ _ Hn) Hr) as (v & (rf & Hrf & ->)%vr_Some & Hnode).
    destruct (struct_ref None _ _ _ Hs Hrf ltac:(done)) as (n' & nd' & pr & H1 & H2 & H3 & H4 & H5 & H6).
    cbn in Hnode. assert (n' = n) as -> by congruence. destruct (ok_sorted _ _ (vp_lookup _ _ _ H4)) as (_ & S2 & S3).
    exists rf, pr. split_and!; try done; by apply tree_find_Some.
  - intros n nd Hn. rewrite (cnt_internal _ _ _ _ _ _ _ _ (ok_counts _ _ _ _ _ _ Hc n nd Hn)), occ_nil, Z.add_0_r.
    unfold strong_count, strong_references. f_equal. apply list_filter_iff. intros r. unfold is_strong. rewrite bool_decide_eq_false_2 by done.
    destruct (refs (st y) !! r); cbn; [|done]. rewrite negb_true_iff. apply Z.eqb_neq.
  - intros n nd Hn. apply (cnt_tmp _ _ _ _ _ _ _ _ (ok_counts _ _ _ _ _ _ Hc n nd Hn)).
  - intros n nd Hn Hl. destruct (cnt_live _ _ _ _ _ _ _ _ (ok_counts _ _ _ _ _ _ Hc n nd Hn) Hl) as (H1 & H2 & _). done.
  - intros n Hn. apply (ok_held _ _ _ _ _ _ Hc). tauto.
Qed.


(** ** A receiver that dies *)

Definition state_after (es : list event) : system := default init (run es init).

(** Why [possible] asks that the receiver of an object be alive: a weak handle
    whose node cannot be counted, translated for a receiver that died since the
    transaction began, leaves a reference without counts; when the transaction
    ends the process is freed, and the node goes on listing a reference to it. *)
Definition dying_receiver : list event := [
  Open 10; Open 20; Open 30; NewThread 1 10; NewThread 2 20; NewThread 3 30;
  SetContextManager 2 (Some 100) 5 6;
  RefCount 3 0 (Some 200) true true; Begin 3 0 true; Object 0 (BINDER false 17 18) (Some 301) (Some 201) true; End_ 0;
  RefCount 1 0 (Some 202) true true; Begin 1 0 true; Object 0 (BINDER true 7 8) (Some 300) (Some 203) true; End_ 0;
  ThreadExit 3; Begin 2 2 true; Close 10].

Lemma late_translation_dangles : exists x y nd rf,
  transactions (state_after dying_receiver) !! 0%nat = Some x /\ live (x_target_proc x) (st (state_after dying_receiver)) = false /\
  (y ← step (Object 0 (HANDLE false 1) None (Some 210) true) (state_after dying_receiver); step (Fail_ 0) y) = Some y /\
  nodes (st y) !! 301 = Some nd /\ 210 ∈ n_refs nd /\ refs (st y) !! 210 = Some rf /\
  r_strong rf = 0 /\ r_weak rf = 0 /\ procs (st y) !! r_proc rf = None.
Proof.
  eexists _, _, _, _. split; [vm_compute; reflexivity|]. split; [vm_compute; reflexivity|].
  split; [vm_compute; reflexivity|]. split; [vm_compute; reflexivity|]. split; [left|].
  split; [vm_compute; reflexivity|]. split; [reflexivity|]. split; [reflexivity|]. vm_compute; reflexivity.
Qed.

(** ** Properties *)


(** C1. No run of processes that open the driver, send commands and
    transactions, read, and die reaches freed memory or a BUG_ON; and after it
    every handle denotes an existing node that lists the reference, the
    internal strong count of a node is the number of its strong references,
    its temporary count the number of transactions in progress to it, its local
    counts what pending messages, transactions, buffers and the context manager
    hold, and whatever is held exists.  In the runs ([possible]) the objects of
    a transaction are translated while its receiver is alive, and kzalloc
    answers with fresh addresses and a process has a handle left.  The first of
    these is needed, and the code does not ensure it: when the receiver dies
    between the look-up of the target and the translation of an object, a node
    can be left with a reference that belongs to a freed process. *)
Theorem references_exact :
  (forall es, exists y, run es init = Some y /\ exact y) /\
  (exists es x y,
     transactions (state_after es) !! 0%nat = Some x /\ live (x_target_proc x) (st (state_after es)) = false /\
     (y ← step (Object 0 (HANDLE false 1) None (Some 210) true) (state_after es); step (Fail_ 0) y) = Some y /\
     ~ exact y).
Proof.
  split.
  - intros es. destruct (run_good es init init_good) as (y & E & Hy). exists y. split; [done|]. by apply exact_good.
  - destruct late_translation_dangles as (x & y & nd & rf & H1 & H2 & H3 & H4 & H5 & H6 & _ & _ & H7).
    exists dying_receiver, x, y. split_and!; [done..|]. intros He.
    destruct (ex_reference _ He _ _ _ H4 H5) as (rf' & pr & E1 & _ & E2 & _). congruence.
Qed.

(** C2. In every run ([possible]), what a process is told about each of its objects
    (BR_INCREFS, BR_ACQUIRE, BR_RELEASE, BR_DECREFS) and its answers follow the
    protocol: a strong reference is asked for after a weak one, released only
    when it was acknowledged, and before the weak one; and the flags of the
    node are the state of the protocol. *)
Theorem protocol_followed es : exists y, run es init = Some y /\
  forall p ptr, protocol (No, No) (messages p ptr (log y)) = Some (known (st y) p ptr).
Proof. destruct (run_good es init init_good) as (y & E & _ & Hlog). by exists y. Qed.

Lemma target_list_ok s n nd tl : nodes s !! n = Some nd ->
  (forall l, tl = Some l -> exists t th, l = ThreadTodo t /\ threads s !! t = Some th /\ n_proc nd = Some (t_proc th)) ->
  target_ok n tl s.
Proof. intros Hn Ht l Hl. destruct (Ht l Hl) as (t & th & ? & ? & ?). by exists t, th, nd. Qed.

(** C17. After any run, a process that has no handle yet for a node gets the
    least one that it does not use, from 0 for the context manager and from 1
    for others; looking the handle up gives the new reference, which has one
    count unless an error is returned. *)
Theorem new_handle_least es y p pr n nd r strong tl :
  run es init = Some y -> procs (st y) !! p = Some pr -> is_dead pr = false ->
  nodes (st y) !! n = Some nd -> tree_find n (refs_by_node pr) = None ->
  refs (st y) !! r = None -> zlen (refs_by_desc pr) < 2 ^ 32 - 1 ->
  (forall l, tl = Some l -> exists t th,
     l = ThreadTodo t /\ threads (st y) !! t = Some th /\ n_proc nd = Some (t_proc th)) ->
  let lo := if is_context_mgr n (st y) then 0 else 1 in
  exists ret rf s', binder_inc_ref_for_node p n (Some r) strong tl (st y) = Some (ret, Some rf, s') /\
    lo <= r_desc rf /\ r_desc rf ∉ (refs_by_desc pr).*1 /\
    (forall d, lo <= d < r_desc rf -> d ∈ (refs_by_desc pr).*1) /\
    r_node rf = Some n /\ (if strong then r_strong rf else r_weak rf) = (if ret =? 0 then 1 else 0) /\
    binder_get_ref_olocked p (r_desc rf) false s' = Some (Some r).
Proof.
  intros E Hp Hd Hn Hnew Hr Hlen Ht lo. destruct (run_good es init init_good) as (y' & E' & Hy). simplify_eq.
  pose proof (sys_inv _ Hy) as Hi. destruct (new_handle_spec _ p pr n (proj1 Hi) Hp Hlen) as (H1 & H2 & H3).
  assert (Hal : alive None (view (st y)) p).
  { exists (view_proc pr). split; [by apply vp_lookup|]. cbn. congruence. }
  destruct (inc_ref_for_node_spec (D:=None) _ _ _ _ p pr n nd (Some r) strong tl Hi Hp Hal Hn) as
    (ret & rd & s' & -> & I' & _ & _ & Hrf & _); [by intros ? [= <-]|by eapply target_list_ok|].
  destruct (Hrf r Hnew eq_refl) as [Hrefs ->]. set (rf' := if ret =? 0 then _ else _) in *.
  assert (Hlook : refs s' !! r = Some rf') by (by rewrite Hrefs, lookup_insert_eq).
  assert (Hrf' : r_desc rf' = new_handle n pr (st y) /\ r_node rf' = Some n /\ r_proc rf' = p /\
    (if strong then r_strong rf' else r_weak rf') = if ret =? 0 then 1 else 0).
  { unfold rf'. destruct (ret =? 0), strong; done. }
  clearbody rf'. destruct Hrf' as (D1 & D2 & D3 & D4). exists ret, rf', s'. rewrite D1. split_and!; try done.
  destruct (struct_ref None _ _ _ (proj1 I') Hlook ltac:(done)) as (n' & nd' & pr' & _ & _ & _ & Hp' & Hin & _).
  destruct (ok_sorted _ _ (proj1 I') _ _ (vp_lookup _ _ _ Hp')) as (_ & S2 & _).
  unfold binder_get_ref_olocked. rewrite D3 in Hp'. rewrite Hp'. cbn [mbind option_bind]. rewrite D1 in Hin.
  apply (tree_find_Some _ _ _ S2) in Hin. cbn in Hin. rewrite Hin, Hlook. done.
Qed.

(** ** Witness and an example *)

(** Two processes each send an object of theirs to the context manager, which
    frees the first handle: it is the next to be given out. *)
Definition two_objects : list event := [
  Open 10; Open 20; Open 30; NewThread 1 10; NewThread 2 20; NewThread 3 30;
  SetContextManager 1 (Some 100) 5 6;
  RefCount 2 0 (Some 200) true true; Begin 2 0 true; Object 0 (BINDER true 7 8) (Some 300) (Some 201) true; End_ 0;
  RefCount 3 0 (Some 202) true true; Begin 3 0 true; Object 0 (BINDER true 17 18) (Some 301) (Some 203) true; End_ 0;
  Read 2 false; FreeBuffer 1].

Definition manager_proc : binder_proc := default new_proc (procs (st (state_after two_objects)) !! 10).

Definition first_object : option binder_node := nodes (st (state_after two_objects)) !! 300.

Lemma new_handle_least_witness : exists nd ret rf s',
  run two_objects init = Some (state_after two_objects) /\ first_object = Some nd /\
  (refs_by_desc manager_proc).*1 = [2] /\
  binder_inc_ref_for_node 10 300 (Some 210) true None (st (state_after two_objects)) = Some (ret, Some rf, s') /\
  1 <= r_desc rf /\ r_desc rf <> 2 /\ (forall d, 1 <= d < r_desc rf -> d = 2) /\ r_node rf = Some 300 /\
  binder_get_ref_olocked 10 (r_desc rf) false s' = Some (Some 210).
Proof.
  assert (E : run two_objects init = Some (state_after two_objects)) by (vm_compute; reflexivity).
  assert (Hn : exists nd, first_object = Some nd) by (eexists; vm_compute; reflexivity). destruct Hn as [nd Hn].
  assert (Hm : (refs_by_desc manager_proc).*1 = [2]) by (vm_compute; reflexivity).
  destruct (new_handle_least two_objects (state_after two_objects) 10 manager_proc 300 nd 210 true None E)
    as (ret & rf & s' & H1 & H2 & H3 & H4 & H5 & _ & H6).
  - vm_compute; reflexivity.
  - vm_compute; reflexivity.
  - exact Hn.
  - vm_compute; reflexivity.
  - vm_compute; reflexivity.
  - vm_compute; reflexivity.
  - intros l Hl; discriminate Hl.
  - assert (Elo : is_context_mgr 300 (st (state_after two_objects)) = false) by (vm_compute; reflexivity).
    rewrite Elo in H2, H4. rewrite Hm in H3, H4. exists nd, ret, rf, s'.
    split; [exact E|]. split; [exact Hn|]. split; [exact Hm|]. split; [exact H1|]. split; [exact H2|].
    split; [intros Heq; apply H3; rewrite Heq; apply list_elem_of_singleton; reflexivity|].
    split; [intros d Hd; apply list_elem_of_singleton, H4, Hd|]. split; [exact H5|exact H6].
Defined.

(** A looper clears a notification and is told so itself; with another process
    the death is queued with the process, whose waiting thread is woken. *)
Definition looper_clears : list event := [
  Open 10; Open 20; NewThread 1 10; NewThread 2 20; EnterLooper 1; RegisterLooper 2 true;
  SetContextManager 1 (Some 100) 5 6; RefCount 2 0 (Some 200) true true; RequestDeath 2 0 77 (Some 400)].

Lemma looper_is_told :
  filter (fun w => w.2 = WDeath 400) (works (st (state_after (looper_clears ++ [ClearDeath 2 0 77])))) = [(ThreadTodo 2, WDeath 400)] /\
  filter (fun w => w.2 = WDeath 400) (works (st (state_after (looper_clears ++ [Sleep 2 true; Close 10])))) = [(ProcTodo 20, WDeath 400)] /\
  waiting_threads <$> procs (st (state_after (looper_clears ++ [Sleep 2 true]))) !! 20 = Some [2].
Proof. split_and!; vm_compute; reflexivity. Qed.
