(* ===== verification/BinderBuf.v ===== *)
(** * Binder driver: the contents of a transaction

    Model of the part of binder_transaction of binder.c that copies a
    transaction from its sender into the buffer of the receiver and translates
    the objects in it, and of the functions it calls: objects are found by the
    array of offsets, nodes and handles are translated, descriptors are noted
    down, and buffers of a scatter-gather transaction are copied and the
    pointers to them fixed up.

    The buffer is the one of BinderAlloc.  The layout of objects is in a header
    of the kernel's user-space interface, which is not part of the repository:
    [Uapi] has its sizes and accessors.  What is done to nodes and handles is
    the interface [Translator], which BinderRef implements in BinderBufRef. *)

From S2P Require Import Prelude BinderRef.
From S2P Require Import BinderAlloc.

Definition EBADF : Z := 9.
Definition EFAULT : Z := 14.

(** ** Objects *)

(** [hdr.type] of an object. *)
Inductive object_type :=
  | BINDER_TYPE_BINDER | BINDER_TYPE_WEAK_BINDER | BINDER_TYPE_HANDLE | BINDER_TYPE_WEAK_HANDLE
  | BINDER_TYPE_FD | BINDER_TYPE_PTR | BINDER_TYPE_FDA | BINDER_TYPE_OTHER.

#[export] Instance object_type_eq : EqDecision object_type.
Proof. solve_decision. Defined.

Record binder_buffer_object := {
  has_parent : bool;           (* flags & BINDER_BUFFER_FLAG_HAS_PARENT *)
  bbo_buffer : Z;
  bbo_length : Z;
  bbo_parent : Z;
  bbo_parent_offset : Z;
}.

#[export] Instance eta_bbo : Eta binder_buffer_object := fun x =>
  Build_binder_buffer_object (has_parent x) (bbo_buffer x) (bbo_length x) (bbo_parent x) (bbo_parent_offset x).

Record binder_fd_array_object := { num_fds : Z; fda_parent : Z; fda_parent_offset : Z }.

(** An object is a list of bytes; [as_...] reads it as a struct and [put_...]
    assigns to the fields of the struct. *)
Class Uapi := {
  sizeof_object_header : Z;
  sizeof_flat_binder_object : Z;
  sizeof_fd_object : Z;
  sizeof_buffer_object : Z;
  sizeof_fd_array_object : Z;
  sizeof_object : Z;           (* struct binder_object, the union of all *)
  offsetof_fd : Z;
  hdr_type : list Z -> object_type;
  as_flat : list Z -> flat_binder_object;
  put_flat : flat_binder_object -> list Z -> list Z;
  as_fd : list Z -> Z;
  put_fd : list Z -> list Z;   (* pad_binder = 0 *)
  as_bbo : list Z -> binder_buffer_object;
  put_bbo : binder_buffer_object -> list Z -> list Z;
  as_fda : list Z -> binder_fd_array_object;
  as_u64 : list Z -> Z;
  u64_bytes : Z -> list Z;
  as_u32 : list Z -> Z;
}.

(** Nodes and handles for the receiver: the result is an error code, the object
    as the receiver sees it, and the state. *)
Class Translator := {
  tstate : Type;
  translate_flat : flat_binder_object -> tstate -> option (Z * option flat_binder_object * tstate);
}.

(** The sender: its memory, [n] bytes from an address; which part of a copy
    faults; and what the kernel answers about its descriptors. *)
Record sender := {
  user_bytes : Z -> Z -> list Z;
  user_fault : Z -> Z -> Z -> Z;
  target_allows_fd : bool;
  fget : Z -> option Z;
  security_binder_transfer_file : Z -> Z;
  kzalloc_fixup : Z -> bool;
}.

Record transaction_data := {
  data_ptr : Z;
  offsets_ptr : Z;
  tr_data_size : Z;
  tr_offsets_size : Z;
  tr_extra_size : Z;           (* with the security context *)
  secctx_size : Z;
}.

Section Buffers.
Context `{Uapi} `{Translator}.

Record txn_state := {
  t_alloc : binder_alloc;
  t_refs : tstate;
  fd_fixups : list (Z * Z);    (* files and the offsets of their descriptors *)
}.

#[export] Instance eta_txn_state : Eta txn_state := fun t => Build_txn_state (t_alloc t) (t_refs t) (fd_fixups t).

Definition sizeof_type (ty : object_type) : Z :=
  match ty with
  | BINDER_TYPE_BINDER | BINDER_TYPE_WEAK_BINDER | BINDER_TYPE_HANDLE | BINDER_TYPE_WEAK_HANDLE => sizeof_flat_binder_object
  | BINDER_TYPE_FD => sizeof_fd_object
  | BINDER_TYPE_PTR => sizeof_buffer_object
  | BINDER_TYPE_FDA => sizeof_fd_array_object
  | BINDER_TYPE_OTHER => 0
  end.

(** The size of the object at [offset], 0 for none, and its bytes. *)
Definition binder_get_object (a : binder_alloc) (b : ptr) (offset : Z) : option (Z * list Z) :=
  buf ← find_buf (buffers a) b;
  let read_size := Z.min sizeof_object (u64 (data_size buf - offset)) in
  if (offset >? data_size buf) || (read_size <? sizeof_object_header) then Some (0, [])
  else
    '(ret, object) ← binder_alloc_copy_from_buffer a b offset read_size;
    if truth ret then Some (0, [])
    else
      match hdr_type object with
      | BINDER_TYPE_OTHER => Some (0, object)
      | ty =>
          let object_size := sizeof_type ty in
          if (offset <=? u64 (data_size buf - object_size)) && (object_size <=? data_size buf)
          then Some (object_size, object) else Some (0, object)
      end.

(** The buffer object number [index] and its offset. *)
Definition binder_validate_ptr (a : binder_alloc) (b : ptr) (index start_offset num_valid : Z)
    : option (option (list Z * Z)) :=
  if index >=? num_valid then Some None
  else
    let buffer_offset := u64 (start_offset + u64 (8 * index)) in
    '(ret, bs) ← binder_alloc_copy_from_buffer a b buffer_offset 8;
    if truth ret then Some None
    else
      let object_offset := as_u64 bs in
      '(object_size, object) ← binder_get_object a b object_offset;
      if negb (truth object_size) || negb (bool_decide (hdr_type object = BINDER_TYPE_PTR)) then Some None
      else Some (Some (object, object_offset)).

(** [fuel] bounds the loop, which goes from an object to its parent. *)
Definition binder_validate_fixup (fuel : nat) (a : binder_alloc) (b : ptr)
    (objects_start_offset buffer_obj_offset fixup_offset last_obj_offset last_min_offset : Z) : option bool :=
  if negb (truth last_obj_offset) then Some false
  else
    loop fuel (fun '(last_obj_offset, last_min_offset) =>
      if last_obj_offset =? buffer_obj_offset then Some (inr (fixup_offset >=? last_min_offset))
      else
        '(object_size, object) ← binder_get_object a b last_obj_offset;
        if negb (object_size =? sizeof_buffer_object) then Some (inr false)
        else
          let last_bbo := as_bbo object in
          if negb (has_parent last_bbo) then Some (inr false)
          else
            let last_min_offset := u64 (bbo_parent_offset last_bbo + 8) in
            let buffer_offset := u64 (objects_start_offset + u64 (8 * bbo_parent last_bbo)) in
            '(ret, bs) ← binder_alloc_copy_from_buffer a b buffer_offset 8;
            if truth ret then Some (inr false)
            else Some (inl (as_u64 bs, last_min_offset))) (last_obj_offset, last_min_offset).

(** ** Descriptors *)

Definition binder_translate_fd (e : sender) (fd fd_offset : Z) (t : txn_state) : Z * txn_state :=
  if negb (target_allows_fd e) then (- EPERM, t)
  else
    match fget e fd with
    | None => (- EBADF, t)
    | Some file =>
        let ret := security_binder_transfer_file e file in
        if ret <? 0 then (- EPERM, t)
        else if negb (kzalloc_fixup e fd_offset) then (- ENOMEM, t)
        else (ret, t <| fd_fixups ::= fun l => l ++ [(file, fd_offset)] |>)
    end.

Definition SIZE_MAX : Z := 2 ^ 64 - 1.

Definition binder_translate_fd_array (e : sender) (b : ptr) (fda : binder_fd_array_object)
    (parent : binder_buffer_object) (t : txn_state) : option (Z * txn_state) :=
  buf ← find_buf (buffers (t_alloc t)) b;
  let fd_buf_size := u64 (4 * num_fds fda) in
  if num_fds fda >=? SIZE_MAX / 4 then Some (- EINVAL, t)
  else if (fd_buf_size >? bbo_length parent) ||
          (fda_parent_offset fda >? u64 (bbo_length parent - fd_buf_size)) then Some (- EINVAL, t)
  else
    let fda_offset := u64 (bbo_buffer parent - user_data buf + fda_parent_offset fda) in
    if negb (Z.land fda_offset 3 =? 0) then Some (- EINVAL, t)
    else
      loop (S (Z.to_nat (num_fds fda))) (fun '(fdi, t) =>
        if fdi <? num_fds fda then
          let offset := u64 (fda_offset + u64 (fdi * 4)) in
          '(ret, bs) ← binder_alloc_copy_from_buffer (t_alloc t) b offset 4;
          let '(ret, t) := if truth ret then (ret, t) else binder_translate_fd e (as_u32 bs) offset t in
          if ret <? 0 then Some (inr (ret, t)) else Some (inl (fdi + 1, t))
        else Some (inr (0, t))) (0, t).

(** ** Pointers *)

Definition binder_fixup_parent (fuel : nat) (b : ptr) (bp : binder_buffer_object)
    (off_start_offset num_valid last_fixup_obj_off last_fixup_min_off : Z) (a : binder_alloc)
    : option (Z * binder_alloc) :=
  buf ← find_buf (buffers a) b;
  if negb (has_parent bp) then Some (0, a)
  else
    parent ← binder_validate_ptr a b (bbo_parent bp) off_start_offset num_valid;
    match parent with
    | None => Some (- EINVAL, a)
    | Some (object, parent_offset) =>
        let parent := as_bbo object in
        ok ← binder_validate_fixup fuel a b off_start_offset parent_offset (bbo_parent_offset bp)
               last_fixup_obj_off last_fixup_min_off;
        if negb (ok : bool) then Some (- EINVAL, a)
        else if (bbo_length parent <? 8) || (bbo_parent_offset bp >? u64 (bbo_length parent - 8)) then
          Some (- EINVAL, a)
        else
          let buffer_offset := u64 (bbo_parent_offset bp + bbo_buffer parent - user_data buf) in
          '(ret, a) ← binder_alloc_copy_to_buffer a b buffer_offset (u64_bytes (bbo_buffer bp)) 8;
          Some (if truth ret then - EINVAL else 0, a)
    end.

(** ** The loop over the objects *)

(** The local variables of the loop. *)
Record cursor := {
  txn : txn_state;
  buffer_offset : Z;
  sg_buf_offset : Z;
  off_min : Z;
  last_fixup_obj_off : Z;
  last_fixup_min_off : Z;
}.

#[export] Instance eta_cursor : Eta cursor := fun c =>
  Build_cursor (txn c) (buffer_offset c) (sg_buf_offset c) (off_min c) (last_fixup_obj_off c) (last_fixup_min_off c).

Definition on_alloc (a : binder_alloc) (c : cursor) : cursor := c <| txn ::= set t_alloc (fun _ => a) |>.

(** One object: [Some err] jumps to the error exit with [return_error_param]. *)
Definition translate_flat_object (b : ptr) (object_offset : Z) (object : list Z) (c : cursor)
    : option (option Z * cursor) :=
  '(ret, fp, ts) ← translate_flat (as_flat object) (t_refs (txn c));
  let c := c <| txn ::= set t_refs (fun _ => ts) |> in
  if ret <? 0 then Some (Some ret, c)
  else
    fp ← fp;
    '(err, a) ← binder_alloc_copy_to_buffer (t_alloc (txn c)) b object_offset (put_flat fp object)
                  sizeof_flat_binder_object;
    Some (if truth err then Some ret else None, on_alloc a c).

Definition translate_fd_object (e : sender) (b : ptr) (object_offset : Z) (object : list Z) (c : cursor)
    : option (option Z * cursor) :=
  let '(ret, t) := binder_translate_fd e (as_fd object) (u64 (object_offset + offsetof_fd)) (txn c) in
  let c := c <| txn := t |> in
  if ret <? 0 then Some (Some ret, c)
  else
    '(err, a) ← binder_alloc_copy_to_buffer (t_alloc (txn c)) b object_offset (put_fd object) sizeof_fd_object;
    Some (if truth err then Some ret else None, on_alloc a c).

Definition translate_fda_object (e : sender) (fuel : nat) (b : ptr) (off_start_offset : Z) (object : list Z) (c : cursor)
    : option (option Z * cursor) :=
  let fda := as_fda object in
  let num_valid := (buffer_offset c - off_start_offset) / 8 in
  parent ← binder_validate_ptr (t_alloc (txn c)) b (fda_parent fda) off_start_offset num_valid;
  match parent with
  | None => Some (Some (- EINVAL), c)
  | Some (parent, parent_offset) =>
      ok ← binder_validate_fixup fuel (t_alloc (txn c)) b off_start_offset parent_offset
             (fda_parent_offset fda) (last_fixup_obj_off c) (last_fixup_min_off c);
      if negb (ok : bool) then Some (Some (- EINVAL), c)
      else
        '(ret, t) ← binder_translate_fd_array e b fda (as_bbo parent) (txn c);
        let c := c <| txn := t |> in
        if ret <? 0 then Some (Some ret, c)
        else Some (None, c <| last_fixup_obj_off := parent_offset |>
                           <| last_fixup_min_off := u64 (fda_parent_offset fda + u64 (4 * num_fds fda)) |>)
  end.

Definition translate_ptr_object (e : sender) (fuel : nat) (b : ptr) (off_start_offset sg_buf_end_offset : Z)
    (object_offset : Z) (object : list Z) (c : cursor) : option (option Z * cursor) :=
  buf ← find_buf (buffers (t_alloc (txn c))) b;
  let bp := as_bbo object in
  let buf_left := u64 (sg_buf_end_offset - sg_buf_offset c) in
  if bbo_length bp >? buf_left then Some (Some (- EINVAL), c)
  else
    '(rest, a) ← binder_alloc_copy_user_to_buffer (user_fault e (bbo_buffer bp)) (t_alloc (txn c)) b (sg_buf_offset c)
                   (user_bytes e (bbo_buffer bp) (bbo_length bp)) (bbo_length bp);
    let c := on_alloc a c in
    if truth rest then Some (Some (- EFAULT), c)
    else
      let bp := bp <| bbo_buffer := u64 (user_data buf + sg_buf_offset c) |> in
      let c := c <| sg_buf_offset ::= fun o => u64 (o + ALIGN8 (bbo_length bp)) |> in
      let num_valid := (buffer_offset c - off_start_offset) / 8 in
      '(ret, a) ← binder_fixup_parent fuel b bp off_start_offset num_valid (last_fixup_obj_off c)
                    (last_fixup_min_off c) (t_alloc (txn c));
      let c := on_alloc a c in
      if ret <? 0 then Some (Some ret, c)
      else
        '(err, a) ← binder_alloc_copy_to_buffer (t_alloc (txn c)) b object_offset (put_bbo bp object) sizeof_buffer_object;
        let c := on_alloc a c in
        if truth err then Some (Some ret, c)
        else Some (None, c <| last_fixup_obj_off := object_offset |> <| last_fixup_min_off := 0 |>).

Definition translate_object (e : sender) (fuel : nat) (b : ptr) (off_start_offset sg_buf_end_offset : Z) (c : cursor)
    : option (option Z * cursor) :=
  '(ret, bs) ← binder_alloc_copy_from_buffer (t_alloc (txn c)) b (buffer_offset c) 8;
  if truth ret then Some (Some (- EINVAL), c)
  else
    let object_offset := as_u64 bs in
    '(object_size, object) ← binder_get_object (t_alloc (txn c)) b object_offset;
    if negb (truth object_size) || (object_offset <? off_min c) then Some (Some (- EINVAL), c)
    else
      let c := c <| off_min := u64 (object_offset + object_size) |> in
      match hdr_type object with
      | BINDER_TYPE_BINDER | BINDER_TYPE_WEAK_BINDER | BINDER_TYPE_HANDLE | BINDER_TYPE_WEAK_HANDLE =>
          translate_flat_object b object_offset object c
      | BINDER_TYPE_FD => translate_fd_object e b object_offset object c
      | BINDER_TYPE_FDA => translate_fda_object e fuel b off_start_offset object c
      | BINDER_TYPE_PTR => translate_ptr_object e fuel b off_start_offset sg_buf_end_offset object_offset object c
      | BINDER_TYPE_OTHER => Some (Some (- EINVAL), c)
      end.

(** The loop: [None] for success, or the error, with the [buffer_offset] of the
    object that failed. *)
Definition translate_objects (e : sender) (b : ptr) (off_start_offset off_end_offset sg_buf_end_offset : Z) (c : cursor)
    : option (option Z * cursor) :=
  let fuel := S (Z.to_nat ((off_end_offset - off_start_offset) / 8)) in
  loop fuel (fun c =>
    if buffer_offset c <? off_end_offset then
      '(err, c) ← translate_object e fuel b off_start_offset sg_buf_end_offset c;
      match err with
      | Some err => Some (inr (Some err, c))
      | None => Some (inl (c <| buffer_offset ::= fun o => u64 (o + 8) |>))
      end
    else Some (inr (None, c))) c.

(** From the copying of the data on. *)
Definition fill_buffer (e : sender) (b : ptr) (tr : transaction_data) (t : txn_state) : option (option Z * cursor) :=
  let c := {| txn := t; buffer_offset := 0; sg_buf_offset := 0; off_min := 0; last_fixup_obj_off := 0;
              last_fixup_min_off := 0 |} in
  '(rest, a) ← binder_alloc_copy_user_to_buffer (user_fault e (data_ptr tr)) (t_alloc (txn c)) b 0
                 (user_bytes e (data_ptr tr) (tr_data_size tr)) (tr_data_size tr);
  let c := on_alloc a c in
  if truth rest then Some (Some (- EFAULT), c)
  else
    '(rest, a) ← binder_alloc_copy_user_to_buffer (user_fault e (offsets_ptr tr)) (t_alloc (txn c)) b
                   (ALIGN8 (tr_data_size tr)) (user_bytes e (offsets_ptr tr) (tr_offsets_size tr)) (tr_offsets_size tr);
    let c := on_alloc a c in
    if truth rest then Some (Some (- EFAULT), c)
    else if negb (Z.land (tr_offsets_size tr) 7 =? 0) then Some (Some (- EINVAL), c)
    else if negb (Z.land (tr_extra_size tr) 7 =? 0) then Some (Some (- EINVAL), c)
    else
      let off_start_offset := ALIGN8 (tr_data_size tr) in
      let off_end_offset := u64 (off_start_offset + tr_offsets_size tr) in
      let sg_buf_offset := ALIGN8 off_end_offset in
      let sg_buf_end_offset := u64 (sg_buf_offset + tr_extra_size tr - ALIGN8 (secctx_size tr)) in
      translate_objects e b off_start_offset off_end_offset sg_buf_end_offset
        {| txn := txn c; buffer_offset := off_start_offset; sg_buf_offset := sg_buf_offset; off_min := 0;
           last_fixup_obj_off := 0; last_fixup_min_off := 0 |}.
End Buffers.
