(* ===== verification/BinderBufFacts.v ===== *)
(** * Binder driver: reading and writing a transaction's buffer

    Seen from the driver a buffer is an array of bytes.  The laws of the layout
    of objects, and what the functions that look at objects find in it. *)

From S2P Require Import Prelude BinderRef.
From S2P Require Import BinderAlloc BinderAllocInv BinderAllocNew BinderAllocFree BinderAllocData BinderAllocLife.
From S2P Require Import BinderBuf.

(** The rule for a loop whose measure depends on more than its variables. *)
Lemma loop_rank {S R} (I : nat -> S -> Prop) (Q : R -> Prop) step fuel n s :
  I n s -> (n < fuel)%nat ->
  (forall n s, I n s ->
     (exists s' n', step s = Some (inl s') /\ I n' s' /\ (n' < n)%nat) \/ (exists r, step s = Some (inr r) /\ Q r)) ->
  exists r, loop fuel step s = Some r /\ Q r.
Proof.
  revert n s. induction fuel as [|fuel IH]; intros n s HI Hn Hs; [lia|]. cbn.
  destruct (Hs n s HI) as [(s' & n' & -> & HI' & Hn')|(r & -> & HQ)]; mstep; [|by exists r].
  apply (IH n'); [done|lia|done].
Qed.

(** ** Slices *)

Definition slice (f : Z -> Z) (off n : Z) : list Z := (fun i => f (off + i)) <$> seqZ 0 n.

Lemma zlen_slice f off n : 0 <= n -> zlen (slice f off n) = n.
Proof. intros Hn. unfold zlen, slice. rewrite length_fmap, length_seqZ. lia. Qed.

Lemma rd_slice f off n i : 0 <= i < n -> rd (slice f off n) i = Some (f (off + i)).
Proof.
  intros Hi. unfold rd, slice. rewrite (proj2 (Z.leb_le _ _)) by lia. rewrite list_lookup_fmap, lookup_seqZ_lt by lia.
  cbn. do 2 f_equal. lia.
Qed.

Lemma slice_ext f g off n : (forall i, off <= i < off + n -> f i = g i) -> slice f off n = slice g off n.
Proof.
  intros Hfg. unfold slice. apply list_fmap_ext. intros k i Hi. apply lookup_seqZ in Hi. apply Hfg. lia.
Qed.

Lemma rd_eq_slice (l : list Z) f off : (forall i, 0 <= i < zlen l -> rd l i = Some (f (off + i))) -> l = slice f off (zlen l).
Proof.
  intros Hl. apply rd_ext; [by rewrite zlen_slice by apply zlen_nonneg|]. intros i Hi. by rewrite Hl, rd_slice.
Qed.

Lemma take_slice f off n m : 0 <= n <= m -> take (Z.to_nat n) (slice f off m) = slice f off n.
Proof.
  intros Hn. apply rd_ext.
  - rewrite zlen_take; rewrite ?zlen_slice by lia; lia.
  - intros i Hi. rewrite zlen_take in Hi by (rewrite zlen_slice by lia; lia). rewrite rd_take by lia.
    rewrite !rd_slice by lia. done.
Qed.

(** Bytes written over others. *)
Definition put (f : Z -> Z) (off : Z) (l : list Z) (i : Z) : Z :=
  if (off <=? i) && (i <? off + zlen l) then default 0 (rd l (i - off)) else f i.

Lemma put_other f off l o n : o + n <= off \/ off + zlen l <= o -> slice (put f off l) o n = slice f o n.
Proof. intros Ho. apply slice_ext. intros i Hi. unfold put. repeat zcase; cbn [andb]; try done; lia. Qed.

Lemma put_same f off l : slice (put f off l) off (zlen l) = l.
Proof.
  symmetry. apply rd_eq_slice. intros i Hi. unfold put. rewrite (proj2 (Z.leb_le _ _)), (proj2 (Z.ltb_lt _ _)) by lia.
  cbn [andb]. replace (off + i - off) with i by lia. destruct (rd_ex l i Hi) as [x ->]. done.
Qed.

(** ** The layout of objects *)

Definition in_u64 (x : Z) : Prop := 0 <= x < 2 ^ 64.

Definition bbo_ok (x : binder_buffer_object) : Prop :=
  in_u64 (bbo_buffer x) /\ in_u64 (bbo_length x) /\ in_u64 (bbo_parent x) /\ in_u64 (bbo_parent_offset x).

Definition flat_type (ty : object_type) : Prop :=
  ty = BINDER_TYPE_BINDER \/ ty = BINDER_TYPE_WEAK_BINDER \/ ty = BINDER_TYPE_HANDLE \/ ty = BINDER_TYPE_WEAK_HANDLE.

(** Reading a struct looks at its own bytes only and gives back what was
    assigned; assigning to a struct leaves its type and size alone, but for a
    node that becomes a handle or a handle that becomes a node. *)
Class UapiLaws `{Uapi} := {
  header_size : 0 < sizeof_object_header;
  sizeof_types ty : ty <> BINDER_TYPE_OTHER -> sizeof_object_header <= sizeof_type ty <= sizeof_object;
  sizeof_object_small : sizeof_object < 2 ^ 16;
  hdr_type_local l l' : sizeof_object_header <= zlen l -> sizeof_object_header <= zlen l' ->
    take (Z.to_nat sizeof_object_header) l = take (Z.to_nat sizeof_object_header) l' -> hdr_type l = hdr_type l';
  as_bbo_local l l' : sizeof_buffer_object <= zlen l -> sizeof_buffer_object <= zlen l' ->
    take (Z.to_nat sizeof_buffer_object) l = take (Z.to_nat sizeof_buffer_object) l' -> as_bbo l = as_bbo l';
  as_fda_local l l' : sizeof_fd_array_object <= zlen l -> sizeof_fd_array_object <= zlen l' ->
    take (Z.to_nat sizeof_fd_array_object) l = take (Z.to_nat sizeof_fd_array_object) l' -> as_fda l = as_fda l';
  as_bbo_range l : bbo_ok (as_bbo l);
  as_fda_range l : in_u64 (num_fds (as_fda l)) /\ in_u64 (fda_parent (as_fda l)) /\ in_u64 (fda_parent_offset (as_fda l));
  as_bbo_put x l : bbo_ok x -> sizeof_buffer_object <= zlen l -> as_bbo (put_bbo x l) = x;
  hdr_type_put_bbo x l : hdr_type (put_bbo x l) = hdr_type l;
  zlen_put_bbo x l : zlen (put_bbo x l) = zlen l;
  hdr_type_put_flat o l : sizeof_flat_binder_object <= zlen l -> flat_type (hdr_type (put_flat o l));
  zlen_put_flat o l : zlen (put_flat o l) = zlen l;
  hdr_type_put_fd l : hdr_type (put_fd l) = hdr_type l;
  zlen_put_fd l : zlen (put_fd l) = zlen l;
  as_u64_range l : in_u64 (as_u64 l);
  as_u64_bytes x : in_u64 x -> as_u64 (u64_bytes x) = x;
  zlen_u64_bytes x : zlen (u64_bytes x) = 8;
}.

(** The contract of the translation of nodes and handles: while there is room
    for [n] more it does not fault and keeps an invariant of its state; success
    comes with an object. *)
Class TranslatorLaws `{Translator} := {
  tstate_ok : Z -> tstate -> Prop;
  tstate_less n m ts : m <= n -> tstate_ok n ts -> tstate_ok m ts;
  translate_total n fp ts : 0 <= n -> tstate_ok (n + 1) ts -> exists ret fp' ts',
    translate_flat fp ts = Some (ret, fp', ts') /\ tstate_ok n ts' /\ (0 <= ret -> is_Some fp');
}.

(** ** The buffer *)

Section Buffer.
Context (sizeof : Z) (Hsizeof : 0 <= sizeof < 2 ^ 32).
Context (l1 : list binder_buffer) (b : binder_buffer) (l2 : list binder_buffer) (hi : Z).

Definition size : Z := start_of l2 hi - user_data b.

(** The allocator with the buffer [b] in use. *)
Record buf_state (a : binder_alloc) : Prop := {
  bs_wf : alloc_wf sizeof a;
  bs_buffers : buffers a = l1 ++ b :: l2;
  bs_hi : hi_of a = hi;
  bs_free : free b = false;
  bs_user : allow_user_free b = false \/ BinderAlloc.transaction b = None;
}.

Definition byte (a : binder_alloc) (i : Z) : Z := default 0 (mem a (user_data b + i)).

(** The accesses that are let through. *)
Definition fits (off n : Z) : Prop := n <= size /\ off <= size - n /\ off mod 4 = 0.

#[export] Instance fits_dec off n : Decision (fits off n).
Proof. unfold fits. apply _. Defined.

Lemma may_access_fits a off n : buf_state a ->
  may_access b (start_of l2 (hi_of a) - user_data b) off n <-> fits off n.
Proof. intros Ha. rewrite (bs_hi _ Ha). unfold may_access, fits, size. destruct Ha. tauto. Qed.

Lemma size_range a : buf_state a -> 0 < size <= SZ_4M /\ 0 < user_data b /\ user_data b + size < 2 ^ 62 /\
  user_data b mod 8 = 0.
Proof.
  intros [Hwf E Eh _ _]. pose proof (wf_layout _ _ Hwf) as Hl. pose proof (start_of_le _ _ _ _ Hl E) as Hle.
  pose proof (base_le sizeof Hsizeof a l1 b l2 Hwf E). pose proof (wf_space _ Hl). destruct (wf_buffer _ Hl), (wf_size _ Hl).
  rewrite Eh in *. unfold size, hi_of in *. split; [lia|]. split; [lia|]. split; [lia|].
  pose proof (wf_tiled _ Hl) as Ht. rewrite E, tiled_app in Ht. destruct Ht as (_ & Ht). cbn in Ht. apply Ht.
Qed.

Lemma find_it a : buf_state a -> find_buf (buffers a) (entry b) = Some b.
Proof. intros [Hwf E _ _ _]. by eapply find_mid. Qed.

Lemma buf_state_pages a a' ps : buf_state a -> alloc_wf sizeof a' -> a' = with_pages a ps (pages_high a) -> buf_state a'.
Proof. intros [] Hwf ->. by split. Qed.

Lemma read_spec a off n : buf_state a -> 0 <= off -> 0 <= n ->
  binder_alloc_copy_from_buffer a (entry b) off n =
    Some (if decide (fits off n) then (0, slice (byte a) off n) else (- EINVAL, [])).
Proof.
  intros Ha Ho Hn. destruct (copy_from_spec (account:=true) sizeof Hsizeof a l1 b l2 off n) as (r & bs & E & H); try apply Ha; try done.
  rewrite (may_access_fits a off n Ha) in H. rewrite E. destruct H as [(-> & Hf & Hz & Hr)|(-> & Hf & ->)].
  - rewrite decide_True by done. do 2 f_equal. rewrite <- Hz. apply rd_eq_slice. intros i Hi. rewrite Hz in Hi.
    destruct (rd_ex bs i) as [x Hx]; [lia|]. rewrite Hx. unfold byte. rewrite Z.add_assoc, <- Hr by done. by rewrite Hx.
  - by rewrite decide_False.
Qed.

Lemma written_byte a a' off l n : zlen l = n -> written a a' (user_data b + off) n (rd l) ->
  forall i, byte a' i = put (byte a) off l i.
Proof.
  intros <- Hw i. unfold byte, put. rewrite Hw.
  replace (user_data b + i - (user_data b + off)) with (i - off) by lia.
  repeat zcase; cbn [andb]; try done; lia.
Qed.

(** Only the buffer's own bytes change. *)
Definition confined (a a' : binder_alloc) : Prop :=
  forall y, y < user_data b \/ user_data b + size <= y -> mem a' y = mem a y.

Lemma confined_refl a : confined a a.
Proof. done. Qed.
Lemma confined_trans a1 a2 a3 : confined a1 a2 -> confined a2 a3 -> confined a1 a3.
Proof. intros H1 H2 y Hy. by rewrite H2, H1. Qed.

Lemma write_spec a off l n : buf_state a -> 0 <= off -> 0 <= n <= zlen l ->
  exists r a', binder_alloc_copy_to_buffer a (entry b) off l n = Some (r, a') /\ buf_state a' /\ confined a a' /\
    (r = 0 /\ fits off n /\ (forall i, byte a' i = put (byte a) off (take (Z.to_nat n) l) i) \/
     r = - EINVAL /\ ~ fits off n /\ a' = a).
Proof.
  intros Ha Ho Hn. destruct (copy_to_spec (account:=true) sizeof Hsizeof a l1 b l2 off l n) as (r & a' & E & Hwf & (ps & Ea) & H);
    try apply Ha; try done.
  rewrite (may_access_fits a off n Ha) in H. exists r, a'. split; [done|].
  split; [by eapply buf_state_pages|]. destruct H as [(-> & Hf & Hw)|(-> & Hf & ->)]; [|by split; [|right]].
  split.
  - intros y Hy. rewrite Hw. unfold fits in Hf. repeat zcase; cbn [andb]; try done; lia.
  - left. split; [done|]. split; [done|]. apply (written_byte _ _ _ _ n); [rewrite zlen_take; lia|].
    intros y. rewrite Hw. repeat zcase; cbn [andb]; try done. rewrite rd_take; [done|lia].
Qed.

Lemma user_spec fault a off l n : fault_ok fault -> buf_state a -> 0 <= off -> zlen l = n ->
  exists r a', binder_alloc_copy_user_to_buffer fault a (entry b) off l n = Some (r, a') /\ buf_state a' /\
    confined a a' /\ 0 <= r /\
    (forall i, i < off \/ off + n <= i -> byte a' i = byte a i) /\
    (r = 0 -> 0 < n -> fits off n) /\ (r = 0 -> forall i, byte a' i = put (byte a) off l i).
Proof.
  intros Hfault Ha Ho Hn. pose proof (zlen_nonneg l).
  destruct (copy_user_spec (account:=true) sizeof Hsizeof fault a l1 b l2 off l n) as (r & a' & E & Hwf & (ps & Ea) & Hr & H');
    try apply Ha; try done; [lia|].
  rewrite (may_access_fits a off n Ha) in H'. exists r, a'. split; [done|]. split; [by eapply buf_state_pages|].
  destruct H' as [(Hf & _ & Hm)|(-> & Hf & ->)].
  - unfold fits in Hf. split; [|split; [lia|split; [|split; [done|]]]].
    + intros y Hy. rewrite Hm by lia. repeat zcase; cbn [andb]; try done; lia.
    + intros i Hi. unfold byte. rewrite Hm by lia. repeat zcase; cbn [andb]; try done; lia.
    + intros -> i. unfold byte, put. rewrite Hm by lia. rewrite Hn.
      replace (user_data b + i - (user_data b + off)) with (i - off) by lia. repeat zcase; cbn [andb]; try done; lia.
  - split; [apply confined_refl|]. split; [lia|]. split; [done|]. split; [lia|].
    intros -> i. unfold put. rewrite Hn. repeat zcase; cbn [andb]; try done; lia.
Qed.

(** ** Objects in the buffer *)

Context `{UapiLaws}.

Definition obj_type (f : Z -> Z) (o : Z) : object_type := hdr_type (slice f o sizeof_object_header).
Definition obj_bbo (f : Z -> Z) (o : Z) : binder_buffer_object := as_bbo (slice f o sizeof_buffer_object).
Definition obj_fda (f : Z -> Z) (o : Z) : binder_fd_array_object := as_fda (slice f o sizeof_fd_array_object).

(** There is an object at [o]. *)
Definition valid (f : Z -> Z) (o : Z) : Prop :=
  o mod 4 = 0 /\ obj_type f o <> BINDER_TYPE_OTHER /\ o + sizeof_type (obj_type f o) <= data_size b.

#[export] Instance valid_dec f o : Decision (valid f o).
Proof. unfold valid. apply _. Defined.

Lemma hdr_type_slice f o n : sizeof_object_header <= n -> hdr_type (slice f o n) = obj_type f o.
Proof.
  intros Hn. pose proof header_size. apply hdr_type_local; rewrite ?zlen_slice by lia; try lia.
  rewrite !take_slice by lia. done.
Qed.

Lemma as_bbo_slice f o n : sizeof_buffer_object <= n -> as_bbo (slice f o n) = obj_bbo f o.
Proof.
  intros Hn. pose proof header_size. pose proof (sizeof_types BINDER_TYPE_PTR ltac:(done)). cbn [sizeof_type] in *.
  apply as_bbo_local; rewrite ?zlen_slice by lia; try lia. rewrite !take_slice by lia. done.
Qed.

Lemma as_fda_slice f o n : sizeof_fd_array_object <= n -> as_fda (slice f o n) = obj_fda f o.
Proof.
  intros Hn. pose proof header_size. pose proof (sizeof_types BINDER_TYPE_FDA ltac:(done)). cbn [sizeof_type] in *.
  apply as_fda_local; rewrite ?zlen_slice by lia; try lia. rewrite !take_slice by lia. done.
Qed.

Lemma get_object_spec a o : buf_state a -> 0 <= data_size b <= size -> 0 <= o < 2 ^ 64 ->
  exists n obj, binder_get_object a (entry b) o = Some (n, obj) /\
    if decide (valid (byte a) o)
    then n = sizeof_type (obj_type (byte a) o) /\ n <= zlen obj /\ obj = slice (byte a) o (zlen obj) /\ 0 < n
    else n = 0.
Proof.
  intros Ha HD Ho. pose proof (size_range a Ha) as (Hsz & _). unfold SZ_4M in Hsz. pose proof header_size as Hh.
  pose proof sizeof_object_small. set (f := byte a). set (D := data_size b) in *.
  assert (Hpos : obj_type f o <> BINDER_TYPE_OTHER -> sizeof_object_header <= sizeof_type (obj_type f o) <= sizeof_object).
  { apply sizeof_types. }
  unfold binder_get_object. rewrite (find_it a Ha). mstep. fold D.
  destruct (o >? D) eqn:E1; [|rewrite Z.gtb_ltb in E1; apply Z.ltb_ge in E1; rewrite u64_id by lia].
  { exists 0, []. split; [done|]. rewrite Z.gtb_ltb in E1. apply Z.ltb_lt in E1.
    rewrite decide_False; [done|]. intros (_ & V2 & V3). specialize (Hpos V2). fold D in V3. lia. }
  cbn [orb]. set (rs := Z.min sizeof_object (D - o)). destruct (Z.ltb_spec rs sizeof_object_header).
  { exists 0, []. split; [done|]. rewrite decide_False; [done|]. intros (_ & V2 & V3). specialize (Hpos V2). fold D in V3. lia. }
  rewrite (read_spec a o rs Ha) by lia. fold f. mstep. destruct (decide (fits o rs)) as [Hf|Hf]; cbn [truth Z.eqb negb].
  2: { exists 0, []. split; [done|]. rewrite decide_False; [done|]. intros (V1 & V2 & V3). apply Hf. unfold fits. lia. }
  assert (Ety : hdr_type (slice f o rs) = obj_type f o) by (apply hdr_type_slice; lia). rewrite Ety.
  destruct (decide (obj_type f o = BINDER_TYPE_OTHER)) as [Eo|Eo].
  { rewrite Eo. exists 0. eexists. split; [done|]. rewrite decide_False; [done|]. by intros (_ & V2 & _). }
  specialize (Hpos Eo). set (os := sizeof_type (obj_type f o)) in *.
  assert (E : match obj_type f o with
    | BINDER_TYPE_OTHER => Some (0, slice f o rs)
    | _ => if (o <=? u64 (D - os)) && (os <=? D) then Some (os, slice f o rs) else Some (0, slice f o rs)
    end = if (o <=? u64 (D - os)) && (os <=? D) then Some (os, slice f o rs) else Some (0, slice f o rs)).
  { destruct (obj_type f o); done. }
  exists (if decide (valid f o) then os else 0), (slice f o rs). split.
  - transitivity (if (o <=? u64 (D - os)) && (os <=? D) then Some (os, slice f o rs) else Some (0, slice f o rs)).
    { rewrite <- E. unfold os. destruct (obj_type f o); done. }
    destruct (Z.leb_spec os D).
    + rewrite u64_id by lia. rewrite andb_true_r. destruct (Z.leb_spec o (D - os)).
      * rewrite decide_True; [done|]. split; [apply Hf|]. split; [done|]. fold os D. lia.
      * rewrite decide_False; [done|]. intros (_ & _ & V3). fold os D in V3. lia.
    + rewrite andb_false_r. rewrite decide_False; [done|]. intros (_ & _ & V3). fold os D in V3. lia.
  - destruct (decide (valid f o)) as [(V1 & V2 & V3)|]; [|done]. fold os D in V3. rewrite zlen_slice by lia.
    split; [done|]. split; [lia|]. split; [done|lia].
Qed.
End Buffer.
