(* ===== verification/BinderBufInv.v ===== *)
(** * Binder driver: the invariant of the translation of objects

    What holds after some objects of a transaction were translated: where they
    are, where the copies of buffers are, and which pointers have been fixed up
    in them. *)

From S2P Require Import Prelude BinderRef.
From S2P Require Import BinderAlloc BinderAllocInv BinderAllocNew BinderAllocFree BinderAllocData BinderAllocLife.
From S2P Require Import BinderBuf BinderBufFacts.

Section Invariant.
Context (sizeof : Z) (Hsizeof : 0 <= sizeof < 2 ^ 32).
Context (l1 : list binder_buffer) (b : binder_buffer) (l2 : list binder_buffer) (hi : Z).
Context `{UapiLaws}.

Local Notation size := (size b l2 hi).
Local Notation base := (user_data b).

(** The offset array starts at [start] and has [count] entries; copies of
    buffers go to [sg_start] and up to [sg_end]. *)
Context (count sg_end : Z).
Definition start : Z := round8 (data_size b).
Definition sg_start : Z := start + 8 * count.
Context (Hdata : 0 <= data_size b) (Hcount : 0 <= count) (Hend : sg_start <= sg_end <= size).

Definition offs (f : Z -> Z) (k : Z) : Z := as_u64 (slice f (start + 8 * k) 8).
Definition typ (f : Z -> Z) (k : Z) : object_type := obj_type f (offs f k).
Definition bbo (f : Z -> Z) (k : Z) : binder_buffer_object := obj_bbo f (offs f k).
Definition fda (f : Z -> Z) (k : Z) : binder_fd_array_object := obj_fda f (offs f k).
Definition osz (f : Z -> Z) (k : Z) : Z := sizeof_type (typ f k).

(** The object [k] has its pointer or its descriptors at [lo] to [top] in the
    buffer of the object [p]. *)
Definition fixes (f : Z -> Z) (k p lo top : Z) : Prop :=
  (typ f k = BINDER_TYPE_PTR /\ has_parent (bbo f k) = true /\ p = bbo_parent (bbo f k) /\
   lo = bbo_parent_offset (bbo f k) /\ top = lo + 8) \/
  (typ f k = BINDER_TYPE_FDA /\ p = fda_parent (fda f k) /\ lo = fda_parent_offset (fda f k) /\
   top = lo + 4 * num_fds (fda f k)).

Record translated (f : Z -> Z) (K sg : Z) : Prop := {
  tr_valid k : 0 <= k < K -> valid b f (offs f k);
  tr_order k k' : 0 <= k < k' -> k' < K -> offs f k + osz f k <= offs f k';
  tr_area k : 0 <= k < K -> typ f k = BINDER_TYPE_PTR ->
    sg_start <= bbo_buffer (bbo f k) - base /\ bbo_buffer (bbo f k) - base + bbo_length (bbo f k) <= sg;
  tr_apart k k' : 0 <= k < k' -> k' < K -> typ f k = BINDER_TYPE_PTR -> typ f k' = BINDER_TYPE_PTR ->
    bbo_buffer (bbo f k) + bbo_length (bbo f k) <= bbo_buffer (bbo f k');
  tr_fix k p lo top : 0 <= k < K -> fixes f k p lo top ->
    0 <= p < k /\ typ f p = BINDER_TYPE_PTR /\ 0 <= lo <= top /\ top <= bbo_length (bbo f p);
  tr_nonzero k p lo top : 0 <= k < K -> fixes f k p lo top -> offs f p <> 0;
  tr_placed k : 0 <= k < K -> typ f k = BINDER_TYPE_PTR -> has_parent (bbo f k) = true ->
    slice f (bbo_buffer (bbo f (bbo_parent (bbo f k))) - base + bbo_parent_offset (bbo f k)) 8 =
    u64_bytes (bbo_buffer (bbo f k));
  tr_disjoint k k' p lo top lo' top' : 0 <= k < k' -> k' < K ->
    fixes f k p lo top -> fixes f k' p lo' top' -> top <= lo';
}.

(** The fix-ups that are still possible: in the object [k] from [m] on, and in
    its ancestors behind the pointers that lead to [k]. *)
Inductive chain (f : Z -> Z) (K : Z) : Z -> Z -> Prop :=
  | chain_intro k m :
      0 <= k < K -> typ f k = BINDER_TYPE_PTR -> 0 <= m ->
      (forall k' lo top, 0 <= k' < K -> fixes f k' k lo top -> top <= m) ->
      (has_parent (bbo f k) = true -> chain f K (bbo_parent (bbo f k)) (bbo_parent_offset (bbo f k) + 8)) ->
      chain f K k m.

(** ** Memory that does not matter *)

(** The offsets and the objects before [K] are the same. *)
Definition agree (f f' : Z -> Z) (K : Z) : Prop :=
  (forall i, start <= i < sg_start -> f' i = f i) /\
  (forall k, 0 <= k < K -> forall i, offs f k <= i < offs f k + osz f k -> f' i = f i).

Section Agree.
Context (f f' : Z -> Z) (K : Z) (Ha : agree f f' K) (HK : K <= count).

Lemma agree_offs k : 0 <= k < count -> offs f' k = offs f k.
Proof. intros Hk. unfold offs. f_equal. apply slice_ext. intros i Hi. apply Ha. unfold sg_start. lia. Qed.

Lemma agree_object k : 0 <= k < K -> valid b f (offs f k) ->
  typ f' k = typ f k /\ (typ f k = BINDER_TYPE_PTR -> bbo f' k = bbo f k) /\
  (typ f k = BINDER_TYPE_FDA -> fda f' k = fda f k).
Proof.
  intros Hk (_ & V2 & _). destruct Ha as [_ Ho]. specialize (Ho k Hk). unfold typ, bbo, fda. rewrite agree_offs by lia.
  pose proof (sizeof_types _ V2) as Hty. fold (osz f k) in Hty. split; [|split].
  - unfold obj_type at 1. erewrite slice_ext; [done|]. intros i Hi. apply Ho. unfold osz, typ. lia.
  - intros E. unfold obj_bbo. erewrite slice_ext; [done|]. intros i Hi. apply Ho. unfold osz, typ. rewrite E. cbn. lia.
  - intros E. unfold obj_fda. erewrite slice_ext; [done|]. intros i Hi. apply Ho. unfold osz, typ. rewrite E. cbn. lia.
Qed.

Lemma agree_fixes k p lo top : 0 <= k < K -> valid b f (offs f k) -> fixes f' k p lo top <-> fixes f k p lo top.
Proof.
  intros Hk Hv. destruct (agree_object k Hk Hv) as (E1 & E2 & E3). unfold fixes. rewrite E1.
  split; intros [H1|H1]; [left|right|left|right]; destruct H1 as [H1 H2]; (split; [done|]);
    rewrite ?(E2 H1), ?(E3 H1) in *; done.
Qed.

Lemma agree_sym : (forall k, 0 <= k < K -> valid b f (offs f k)) -> agree f' f K.
Proof.
  intros Hv. destruct Ha as [A1 A2]. split; [intros i Hi; symmetry; auto|]. intros k Hk i. rewrite agree_offs by lia.
  unfold osz. destruct (agree_object k Hk (Hv k Hk)) as (-> & _). intros Hi. symmetry. by apply (A2 k).
Qed.

Lemma chain_keep k m : (forall k, 0 <= k < K -> valid b f (offs f k)) -> chain f K k m -> chain f' K k m.
Proof.
  intros Hv Hc. induction Hc as [k m Hk Ht Hm Hf _ IH]. destruct (agree_object k Hk (Hv k Hk)) as (E1 & E2 & _).
  constructor; rewrite ?E1, ?(E2 Ht); try done. intros k' lo top Hk' Hx. apply (Hf k' lo top Hk').
  apply agree_fixes; auto.
Qed.

Lemma translated_keep sg sg' : translated f K sg -> sg <= sg' ->
  (forall k, 0 <= k < K -> typ f k = BINDER_TYPE_PTR -> has_parent (bbo f k) = true ->
     let o := bbo_buffer (bbo f (bbo_parent (bbo f k))) - base + bbo_parent_offset (bbo f k) in
     forall i, o <= i < o + 8 -> f' i = f i) ->
  translated f' K sg'.
Proof.
  intros Hd Hsg Hslot. pose proof Hd as []. pose proof (fun k Hk => agree_object k Hk (tr_valid0 k Hk)) as Hobj.
  pose proof (fun k p lo top Hk => proj1 (agree_fixes k p lo top Hk (tr_valid0 k Hk))) as Hfix.
  split.
  - intros k Hk. destruct (tr_valid0 k Hk) as (V1 & V2 & V3). destruct (Hobj k Hk) as (E & _). unfold typ in E.
    rewrite agree_offs in E by lia. unfold valid. rewrite agree_offs by lia. rewrite E. done.
  - intros k k' Hk Hk'. rewrite !agree_offs by lia. unfold osz. destruct (Hobj k ltac:(lia)) as (-> & _). by apply tr_order0.
  - intros k Hk. destruct (Hobj k Hk) as (-> & E & _). intros Ht. rewrite (E Ht). destruct (tr_area0 k Hk Ht). lia.
  - intros k k' Hk Hk'. destruct (Hobj k ltac:(lia)) as (-> & E & _), (Hobj k' ltac:(lia)) as (-> & E' & _). intros Ht Ht'.
    rewrite (E Ht), (E' Ht'). auto.
  - intros k p lo top Hk Hx%Hfix; [|done]. destruct (tr_fix0 k p lo top Hk Hx) as (P1 & P2 & P3 & P4).
    destruct (Hobj p ltac:(lia)) as (-> & E & _). rewrite (E P2). done.
  - intros k p lo top Hk Hx%Hfix; [|done]. rewrite agree_offs; [eauto|]. destruct (tr_fix0 k p lo top Hk Hx). lia.
  - intros k Hk. destruct (Hobj k Hk) as (-> & E & _). intros Ht. rewrite (E Ht). intros Hpar.
    destruct (tr_fix0 k (bbo_parent (bbo f k)) (bbo_parent_offset (bbo f k)) (bbo_parent_offset (bbo f k) + 8) Hk) as (P1 & P2 & _).
    { left. done. }
    destruct (Hobj _ (ltac:(lia) : 0 <= bbo_parent (bbo f k) < K)) as (_ & E2 & _). rewrite (E2 P2), <- (tr_placed0 k Hk Ht Hpar).
    apply slice_ext. intros i Hi. by apply (Hslot k).
  - intros k k' p lo top lo' top' Hk Hk' H1%Hfix H2%Hfix; [|lia..]. by eapply tr_disjoint0.
Qed.
End Agree.

(** ** One more object *)

Section Extend.
Context (f : Z -> Z) (K sg : Z) (Hd : translated f K sg) (HK : 0 <= K).

Lemma translated_step :
  valid b f (offs f K) -> (forall k, 0 <= k < K -> offs f k + osz f k <= offs f K) ->
  (typ f K = BINDER_TYPE_PTR ->
     sg_start <= bbo_buffer (bbo f K) - base /\ bbo_buffer (bbo f K) - base + bbo_length (bbo f K) <= sg /\
     forall k, 0 <= k < K -> typ f k = BINDER_TYPE_PTR -> bbo_buffer (bbo f k) + bbo_length (bbo f k) <= bbo_buffer (bbo f K)) ->
  (forall p lo top, fixes f K p lo top ->
     0 <= p < K /\ typ f p = BINDER_TYPE_PTR /\ 0 <= lo <= top /\ top <= bbo_length (bbo f p) /\ offs f p <> 0 /\
     forall k lo' top', 0 <= k < K -> fixes f k p lo' top' -> top' <= lo) ->
  (typ f K = BINDER_TYPE_PTR -> has_parent (bbo f K) = true ->
     slice f (bbo_buffer (bbo f (bbo_parent (bbo f K))) - base + bbo_parent_offset (bbo f K)) 8 =
     u64_bytes (bbo_buffer (bbo f K))) ->
  translated f (K + 1) sg.
Proof.
  intros Hv Ho Ha Hf Hp. pose proof Hd as [].
  assert (Hcase : forall k, 0 <= k < K + 1 -> 0 <= k < K \/ k = K) by lia.
  split.
  - intros k [Hk| ->]%Hcase; auto.
  - intros k k' Hk Hk'. destruct (Hcase k' ltac:(lia)) as [?| ->]; [apply tr_order0|apply Ho]; lia.
  - intros k [Hk| ->]%Hcase Ht; [auto|]. destruct (Ha Ht) as (? & ? & _). done.
  - intros k k' Hk Hk' Ht Ht'. destruct (Hcase k' ltac:(lia)) as [?| ->]; [apply tr_apart0; auto; lia|].
    destruct (Ha Ht') as (_ & _ & Hb). apply Hb; [lia|done].
  - intros k p lo top [Hk| ->]%Hcase Hx; [eauto|]. destruct (Hf p lo top Hx) as (? & ? & ? & ? & _). done.
  - intros k p lo top [Hk| ->]%Hcase Hx; [eauto|]. destruct (Hf p lo top Hx) as (_ & _ & _ & _ & ? & _). done.
  - intros k [Hk| ->]%Hcase; auto.
  - intros k k' p lo top lo' top' Hk Hk' H1 H2. destruct (Hcase k' ltac:(lia)) as [?| ->].
    + eapply tr_disjoint0; [..|exact H1|exact H2]; lia.
    + destruct (Hf p lo' top' H2) as (_ & _ & _ & _ & _ & Hb). eapply Hb; [|exact H1]. lia.
Qed.

Lemma chain_lift k m : chain f K k m -> (forall p lo top, fixes f K p lo top -> k < p) -> chain f (K + 1) k m.
Proof.
  intros Hc. induction Hc as [k m Hk Ht Hm Hf _ IH]. intros Hx. constructor; [lia|done|done|..].
  - intros k' lo top Hk' Hy. destruct (decide (k' = K)) as [->|]; [specialize (Hx k lo top Hy); lia|].
    eapply Hf; [|exact Hy]. lia.
  - intros Hp. apply IH; [done|]. intros p lo top Hy. specialize (Hx p lo top Hy).
    destruct (tr_fix _ _ _ Hd k (bbo_parent (bbo f k)) (bbo_parent_offset (bbo f k)) (bbo_parent_offset (bbo f k) + 8) Hk) as (? & _).
    { by left. }
    lia.
Qed.

(** A fix-up in [p], behind the ones before. *)
Lemma chain_fixed p lo top m : chain f K p m -> fixes f K p lo top -> m <= lo -> lo <= top ->
  (forall q lo' top', fixes f K q lo' top' -> q = p /\ top' = top) -> chain f (K + 1) p top.
Proof.
  intros Hc Hx Hm Hlt Hq. inversion Hc as [k m' Hk Ht Hm' Hf Hp]; subst. constructor; [lia|done|lia|..].
  - intros k' lo' top' Hk' Hy. destruct (decide (k' = K)) as [->|].
    + destruct (Hq p lo' top' Hy) as [_ ->]. lia.
    + assert (top' <= m); [|lia]. eapply Hf; [|exact Hy]. lia.
  - intros Hpar. apply chain_lift; [by apply Hp|]. intros q lo' top' Hy. destruct (Hq q lo' top' Hy) as [-> _].
    destruct (tr_fix _ _ _ Hd p (bbo_parent (bbo f p)) (bbo_parent_offset (bbo f p)) (bbo_parent_offset (bbo f p) + 8) Hk) as (? & _).
    { by left. }
    lia.
Qed.

(** A new buffer. *)
Lemma chain_new m : typ f K = BINDER_TYPE_PTR -> (forall p lo top, fixes f K p lo top -> p < K) ->
  (has_parent (bbo f K) = true -> chain f (K + 1) (bbo_parent (bbo f K)) (bbo_parent_offset (bbo f K) + 8)) ->
  0 <= m -> chain f (K + 1) K m.
Proof.
  intros Ht Hx Hp Hm. constructor; [lia|done|done| |done]. intros k' lo top Hk' Hy.
  destruct (decide (k' = K)) as [->|]; [specialize (Hx K lo top Hy); lia|].
  destruct (tr_fix _ _ _ Hd k' K lo top ltac:(lia) Hy) as (? & _). lia.
Qed.
End Extend.
End Invariant.
