(* ===== verification/BinderBufOps.v ===== *)
(** * Binder driver: finding the parent of an object

    What binder_validate_ptr and binder_validate_fixup find in a buffer whose
    first objects have been translated, and what binder_fixup_parent and
    binder_translate_fd_array make of it. *)

From S2P Require Import Prelude BinderRef.
From S2P Require Import BinderAlloc BinderAllocInv BinderAllocNew BinderAllocFree BinderAllocData BinderAllocLife.
From S2P Require Import BinderBuf BinderBufFacts BinderBufInv.

(** An early return. *)
Local Ltac refuse := do 2 eexists; (split; [reflexivity|]); auto 8.

Section Ops.
Context (sizeof : Z) (Hsizeof : 0 <= sizeof < 2 ^ 32).
Context (l1 : list binder_buffer) (b : binder_buffer) (l2 : list binder_buffer) (hi : Z).
Context `{UapiLaws}.

Local Notation size := (size b l2 hi).
Local Notation base := (user_data b).
Local Notation byte := (byte b).
Local Notation buf_state := (buf_state sizeof l1 b l2 hi).
Local Notation start := (start b).
Local Notation offs := (offs b).
Local Notation typ := (typ b).
Local Notation bbo := (bbo b).
Local Notation fda := (fda b).
Local Notation osz := (osz b).

Context (count : Z).
Context (Hdata : 0 <= data_size b) (Hcount : 0 <= count) (Hend : sg_start b count <= size).

Local Notation chain := (chain b).
Local Notation translated := (translated b count).

Context (a : binder_alloc) (Ha : buf_state a).
Local Notation f := (byte a).

Lemma size_small : size < 2 ^ 62.
Proof. pose proof (size_range sizeof Hsizeof l1 b l2 hi a Ha) as ((_ & Hs) & _). unfold SZ_4M in Hs. lia. Qed.

Lemma layout : data_size b <= start /\ start + 8 * count <= size /\ start mod 4 = 0 /\ 0 <= start.
Proof.
  pose proof (round8_bounds (data_size b)). unfold sg_start, BinderBufInv.start in *. split; [lia|]. split; [lia|].
  split; [unfold round8; dlia|lia].
Qed.

Lemma offs_range k : in_u64 (offs f k).
Proof. apply as_u64_range. Qed.

(** An entry of the array of offsets. *)
Lemma read_offset k : 0 <= k < count ->
  binder_alloc_copy_from_buffer a (entry b) (start + 8 * k) 8 = Some (0, slice f (start + 8 * k) 8).
Proof.
  intros Hk. destruct layout as (? & ? & ? & ?). rewrite (read_spec sizeof Hsizeof l1 b l2 hi) by (done || lia).
  rewrite decide_True; [done|]. split; [lia|]. split; [lia|dlia].
Qed.

Lemma offset_wraps k : 0 <= k < count -> u64 (start + u64 (8 * k)) = start + 8 * k.
Proof. intros Hk. destruct layout as (? & ? & ? & ?). pose proof size_small. rewrite !(u64_id (8 * k)), u64_id by lia. done. Qed.

Lemma get_offset_object k :
  exists n obj, binder_get_object a (entry b) (offs f k) = Some (n, obj) /\
    if decide (valid b f (offs f k))
    then n = osz f k /\ n <= zlen obj /\ obj = slice f (offs f k) (zlen obj) /\ 0 < n
    else n = 0.
Proof.
  destruct layout as (? & ? & ? & ?). apply (get_object_spec sizeof Hsizeof l1 b l2 hi); [done|lia|apply offs_range].
Qed.

Lemma seen_type k (obj : list Z) n : obj = slice f (offs f k) (zlen obj) -> sizeof_object_header <= n <= zlen obj -> hdr_type obj = typ f k.
Proof. intros E Hn. rewrite E. apply hdr_type_slice. lia. Qed.

Lemma seen_bbo k (obj : list Z) : obj = slice f (offs f k) (zlen obj) -> sizeof_buffer_object <= zlen obj -> as_bbo obj = bbo f k.
Proof. intros E Hn. rewrite E. by apply as_bbo_slice. Qed.

Lemma seen_fda k (obj : list Z) : obj = slice f (offs f k) (zlen obj) -> sizeof_fd_array_object <= zlen obj -> as_fda obj = fda f k.
Proof. intros E Hn. rewrite E. by apply as_fda_slice. Qed.

(** The buffer object number [idx], when it is among the [K] first. *)
Lemma validate_ptr_spec K idx : 0 <= K <= count -> in_u64 idx ->
  exists r, binder_validate_ptr a (entry b) idx start K = Some r /\
    match r with
    | Some (obj, o) => idx < K /\ o = offs f idx /\ typ f idx = BINDER_TYPE_PTR /\ as_bbo obj = bbo f idx
    | None => True
    end.
Proof.
  intros HK [Hi _]. unfold binder_validate_ptr. destruct (idx >=? K) eqn:E; [by exists None|].
  rewrite Z.geb_leb in E. apply Z.leb_gt in E. rewrite offset_wraps, read_offset by lia. mstep. cbn [truth Z.eqb negb].
  fold (offs f idx). destruct (get_offset_object idx) as (n & obj & -> & Hobj). mstep.
  destruct (decide (valid b f (offs f idx))) as [Hv|_]; [|subst n; by exists None].
  destruct Hobj as (En & Hn & Eo & Hp). unfold truth. rewrite (proj2 (Z.eqb_neq n 0)) by lia. cbn [negb orb].
  pose proof (sizeof_types _ (proj1 (proj2 Hv))) as Hty. fold (typ f idx) in Hty. fold (osz f idx) in Hty.
  rewrite (seen_type idx obj n) by (done || lia).
  destruct (bool_decide (typ f idx = BINDER_TYPE_PTR)) eqn:Et; cbn [negb]; [|by exists None].
  apply bool_decide_eq_true in Et. eexists. split; [done|]. cbn. split; [done|]. split; [done|]. split; [done|].
  apply seen_bbo; [done|]. unfold BinderBufInv.osz in En. rewrite Et in En. cbn in En. lia.
Qed.

(** Different objects are at different offsets. *)
Lemma offs_inj K sg k k' : translated f K sg -> 0 <= k < K -> 0 <= k' < K -> offs f k = offs f k' -> k = k'.
Proof.
  intros Ht Hk Hk' E. pose proof header_size.
  assert (Hpos : forall k, 0 <= k < K -> 0 < osz f k).
  { intros j Hj. pose proof (sizeof_types _ (proj1 (proj2 (tr_valid _ _ _ _ _ Ht j Hj)))) as Hty.
    fold (typ f j) in Hty. fold (osz f j) in Hty. lia. }
  destruct (Z.lt_trichotomy k k') as [Hlt|[?|Hlt]]; [|done|].
  - pose proof (tr_order _ _ _ _ _ Ht k k' ltac:(lia) ltac:(lia)). pose proof (Hpos k ltac:(lia)). lia.
  - pose proof (tr_order _ _ _ _ _ Ht k' k ltac:(lia) ltac:(lia)). pose proof (Hpos k' ltac:(lia)). lia.
Qed.

(** A chain goes from objects to objects before them. *)
Lemma chain_parent K sg k m : translated f K sg -> chain f K k m -> has_parent (bbo f k) = true ->
  0 <= bbo_parent (bbo f k) < k /\ 0 <= bbo_parent_offset (bbo f k) /\ bbo_parent_offset (bbo f k) + 8 < 2 ^ 64 /\
  chain f K (bbo_parent (bbo f k)) (bbo_parent_offset (bbo f k) + 8).
Proof.
  intros Ht Hc Hp. inversion Hc as [k' m' Hk Hty _ _ Hnext]; subst.
  destruct (tr_fix _ _ _ _ _ Ht k (bbo_parent (bbo f k)) (bbo_parent_offset (bbo f k)) (bbo_parent_offset (bbo f k) + 8) Hk)
    as (? & _ & ? & ?); [by left|].
  pose proof (as_bbo_range (slice f (offs f (bbo_parent (bbo f k))) sizeof_buffer_object)) as (_ & [_ Hl] & _).
  change (as_bbo _) with (bbo f (bbo_parent (bbo f k))) in Hl. split; [done|]. split; [lia|]. split; [lia|auto].
Qed.

(** A fix-up is let through in an object of the chain only, behind the others. *)
Lemma validate_fixup_spec fuel K sg P fixup last last_min :
  translated f K sg -> 0 <= K <= count -> (Z.to_nat K < fuel)%nat -> 0 <= P < K ->
  last = 0 \/ (exists k, offs f k = last /\ chain f K k last_min) ->
  exists r, binder_validate_fixup fuel a (entry b) start (offs f P) fixup last last_min = Some r /\
    (r = true -> offs f P <> 0 /\ exists m, chain f K P m /\ m <= fixup).
Proof.
  intros Ht HK Hfuel HP Hlast. unfold binder_validate_fixup. destruct (Z.eqb_spec last 0) as [->|Hn]; cbn [truth Z.eqb negb].
  { exists false. by split. }
  unfold truth. rewrite (proj2 (Z.eqb_neq last 0)) by done. cbn [negb].
  destruct Hlast as [?|(k & Ek & Hc)]; [done|].
  apply (loop_rank (fun n s => exists k, Z.to_nat k = n /\ offs f k = s.1 /\ chain f K k s.2 /\ offs f k <> 0) _ _ _ (Z.to_nat k));
    [exists k; rewrite Ek; done|inversion Hc; lia|]. clear k Ek Hc. intros n [lo lm] (k & En & Ek & Hc & Hnz). cbn [fst snd] in Ek, Hc.
  assert (Hk : 0 <= k < K) by (by inversion Hc). rewrite <- Ek. destruct (Z.eqb_spec (offs f k) (offs f P)) as [Eo|Eo].
  - apply (offs_inj K sg) in Eo as <-; try done. right. eexists. split; [done|]. rewrite Z.geb_leb, Z.leb_le.
    intros Hm. split; [done|]. by exists lm.
  - destruct (get_offset_object k) as (sz & obj & -> & Hobj). mstep. pose proof (tr_valid _ _ _ _ _ Ht k Hk) as Hv.
    rewrite decide_True in Hobj by done. destruct Hobj as (-> & Hsz & Eobj & _).
    assert (Ety : typ f k = BINDER_TYPE_PTR) by (by inversion Hc). unfold BinderBufInv.osz in *. rewrite Ety in *.
    cbn [sizeof_type] in *. rewrite Z.eqb_refl. cbn [negb]. rewrite (seen_bbo k) by done.
    destruct (has_parent (bbo f k)) eqn:Ep; cbn [negb]; [|right; exists false; by split].
    destruct (chain_parent K sg k lm Ht Hc Ep) as (Q1 & Q2 & Q3 & Q4).
    rewrite offset_wraps, read_offset by lia. mstep. cbn [truth Z.eqb negb]. left. do 2 eexists. split; [done|].
    rewrite u64_id by lia. split; [|shelve]. exists (bbo_parent (bbo f k)). do 3 (split; [done|]).
    eapply (tr_nonzero _ _ _ _ _ Ht k); [done|by left]. Unshelve. lia.
Qed.

(** The pointer goes into the parent's buffer, behind the other fix-ups. *)
Lemma fixup_parent_spec fuel K sg last last_min bp :
  translated f K sg -> 0 <= K <= count -> (Z.to_nat K < fuel)%nat -> sg <= size -> bbo_ok bp ->
  last = 0 \/ (exists k, offs f k = last /\ chain f K k last_min) ->
  exists ret a', binder_fixup_parent fuel (entry b) bp start K last last_min a = Some (ret, a') /\
    (ret = - EINVAL /\ a' = a \/
     ret = 0 /\ has_parent bp = false /\ a' = a \/
     ret = 0 /\ has_parent bp = true /\ buf_state a' /\ confined b l2 hi a a' /\
     bbo_parent bp < K /\ typ f (bbo_parent bp) = BINDER_TYPE_PTR /\
     bbo_parent_offset bp + 8 <= bbo_length (bbo f (bbo_parent bp)) /\
     (offs f (bbo_parent bp) <> 0 /\ exists m, chain f K (bbo_parent bp) m /\ m <= bbo_parent_offset bp) /\
     forall i, byte a' i = put f (bbo_buffer (bbo f (bbo_parent bp)) - base + bbo_parent_offset bp)
                              (u64_bytes (bbo_buffer bp)) i).
Proof.
  intros Ht HK Hfuel Hsg (_ & _ & Hpi & Hpo & _) Hlast. unfold binder_fixup_parent.
  rewrite (find_it sizeof l1 b l2 hi a Ha). mstep. destruct (has_parent bp) eqn:Ep; cbn [negb]; [|refuse].
  destruct (validate_ptr_spec K (bbo_parent bp) HK Hpi) as ([[obj o]|] & -> & Hptr); mstep; [|refuse].
  destruct Hptr as (P1 & -> & P3 & ->). destruct Hpi as [P0 _]. set (p := bbo_parent bp) in *.
  destruct (validate_fixup_spec fuel K sg p (bbo_parent_offset bp) last last_min Ht HK Hfuel ltac:(lia) Hlast)
    as (ok & -> & Hok); mstep.
  destruct ok; cbn [negb]; [|refuse]. specialize (Hok eq_refl).
  pose proof (as_bbo_range (slice f (offs f p) sizeof_buffer_object)) as (_ & Hl & _). change (as_bbo _) with (bbo f p) in Hl.
  destruct Hl as [_ Hl]. destruct (Z.ltb_spec (bbo_length (bbo f p)) 8); cbn [orb]; [refuse|].
  rewrite u64_id by lia. rewrite Z.gtb_ltb. destruct (Z.ltb_spec (bbo_length (bbo f p) - 8) (bbo_parent_offset bp));
    [refuse|].
  destruct (tr_area _ _ _ _ _ Ht p ltac:(lia) P3) as [A1 A2]. destruct layout as (? & ? & ? & ?). pose proof size_small.
  unfold sg_start in *. rewrite u64_id by lia.
  destruct (write_spec sizeof Hsizeof l1 b l2 hi a (bbo_parent_offset bp + bbo_buffer (bbo f p) - base)
    (u64_bytes (bbo_buffer bp)) 8 Ha) as (r & a' & -> & Ha' & Hc & Hw); [lia|rewrite zlen_u64_bytes; lia|].
  mstep. destruct Hw as [(-> & _ & Hw)|(-> & _ & ->)]; cbn [truth Z.eqb negb]; [|refuse].
  do 2 eexists. split; [done|]. right; right. do 4 (split; [done|]). do 2 (split; [done|]). split; [lia|]. split; [done|].
  intros i. rewrite Hw. rewrite firstn_all2 by (pose proof (zlen_u64_bytes (bbo_buffer bp)); unfold zlen in *; lia).
  f_equal. lia.
Qed.

(** ** Descriptors *)

Context `{Translator} (e : sender).

Lemma translate_fd_spec fd fd_offset t ret t' :
  binder_translate_fd e fd fd_offset t = (ret, t') -> t_alloc t' = t_alloc t /\ t_refs t' = t_refs t.
Proof. unfold binder_translate_fd. repeat case_match; intros [= _ <-]; done. Qed.

(** The descriptors are in the parent's buffer. *)
Lemma translate_fd_array_spec (fd : binder_fd_array_object) (parent : binder_buffer_object) (t : txn_state) :
  t_alloc t = a -> in_u64 (num_fds fd) -> in_u64 (fda_parent_offset fd) -> in_u64 (bbo_length parent) ->
  exists ret t', binder_translate_fd_array e (entry b) fd parent t = Some (ret, t') /\
    t_alloc t' = a /\ t_refs t' = t_refs t /\
    (ret < 0 \/ ret = 0 /\ fda_parent_offset fd + 4 * num_fds fd <= bbo_length parent).
Proof.
  intros Ea [Hn Hn2] [Ho Ho2] [Hl Hl2]. unfold binder_translate_fd_array. rewrite Ea, (find_it sizeof l1 b l2 hi a Ha).
  mstep. assert (Hneg : - EINVAL < 0) by done. rewrite Z.geb_leb. destruct (Z.leb_spec (SIZE_MAX / 4) (num_fds fd)) as [|Hmax].
  { refuse. }
  unfold SIZE_MAX in Hmax. change ((2 ^ 64 - 1) / 4) with (2 ^ 62 - 1) in Hmax. rewrite u64_id by lia. rewrite !Z.gtb_ltb.
  destruct (Z.ltb_spec (bbo_length parent) (4 * num_fds fd)) as [|Hfit]; cbn [orb]; [refuse|].
  rewrite u64_id by lia. destruct (Z.ltb_spec (bbo_length parent - 4 * num_fds fd) (fda_parent_offset fd)) as [|Hin].
  { refuse. }
  set (o := u64 (bbo_buffer parent - base + fda_parent_offset fd)). destruct (negb (Z.land o 3 =? 0)).
  { refuse. }
  match goal with |- exists ret t', loop ?n ?st ?s0 = _ /\ _ =>
    destruct (loop_inv (fun s => 0 <= s.1 <= num_fds fd /\ t_alloc s.2 = a /\ t_refs s.2 = t_refs t)
      (fun r : Z * txn_state => t_alloc r.2 = a /\ t_refs r.2 = t_refs t /\ (r.1 < 0 \/ r.1 = 0))
      (fun s => Z.to_nat (num_fds fd - s.1)) st n s0) as ([ret t'] & E & Q1 & Q2 & Q3); [cbn; auto with lia|cbn; lia| |]
  end.
  - clear Ea. intros [fdi u] (Hi & Eu & Er). cbn [fst snd] in *. destruct (Z.ltb_spec fdi (num_fds fd)).
    2: { right. eexists. split; [done|]. cbn. auto. }
    rewrite Eu, (read_spec sizeof Hsizeof l1 b l2 hi) by (done || lia || apply u64_range). mstep.
    case_decide; cbn [truth Z.eqb negb].
    + destruct (binder_translate_fd e _ _ u) as [ret u'] eqn:Efd. apply translate_fd_spec in Efd as [E1 E2].
      rewrite Eu in E1. rewrite Er in E2. destruct (Z.ltb_spec ret 0); [right|left]; eexists; (split; [done|]); cbn [fst snd];
        [auto|]. split; [split; [lia|by split]|lia].
    + cbn. right. eexists. split; [done|]. cbn. auto.
  - exists ret, t'. split; [exact E|]. cbn in *. split; [done|]. split; [done|]. destruct Q3 as [| ->]; [auto|right; split; [done|lia]].
Qed.
End Ops.
