(* ===== verification/BinderBufStep.v ===== *)
(** * Binder driver: translating one object

    The invariant of the loop over the objects, and that every object keeps
    it: what was translated stays translated, and the receiver's buffer is a
    copy of what the sender sent, but for the translated objects and for the
    pointers that were fixed up. *)

From S2P Require Import Prelude BinderRef.
From S2P Require Import BinderAlloc BinderAllocInv BinderAllocNew BinderAllocFree BinderAllocData BinderAllocLife.
From S2P Require Import BinderBuf BinderBufFacts BinderBufInv BinderBufOps.

Section Copy.
Context (b : binder_buffer) (count : Z) (e : sender).
Context `{UapiLaws}.

Local Notation base := (user_data b).
Local Notation offs := (offs b).
Local Notation typ := (typ b).
Local Notation bbo := (bbo b).
Local Notation fda := (fda b).
Local Notation osz := (osz b).
Local Notation fixes := (fixes b).

(** The buffer [f], compared to the copy [f0] of the sender's data, after [K]
    objects: offsets and data between the objects are the sender's, and so are
    the lengths and the parents of buffer objects and arrays of descriptors;
    copies of buffers are the sender's buffers, but for pointers in them. *)
Record copied (f0 f : Z -> Z) (K : Z) : Prop := {
  cp_offsets i : start b <= i < sg_start b count -> f i = f0 i;
  cp_data i : 0 <= i < data_size b -> (forall k, 0 <= k < K -> ~ offs f k <= i < offs f k + osz f k) -> f i = f0 i;
  cp_type k : 0 <= k < K -> typ f k = typ f0 k \/ flat_type (typ f k) /\ flat_type (typ f0 k);
  cp_object k : 0 <= k < K -> typ f k = BINDER_TYPE_PTR -> bbo f k = (bbo f0 k) <| bbo_buffer := bbo_buffer (bbo f k) |>;
  cp_array k : 0 <= k < K -> typ f k = BINDER_TYPE_FDA -> fda f k = fda f0 k;
  cp_buffer k i : 0 <= k < K -> typ f k = BINDER_TYPE_PTR -> 0 <= i < bbo_length (bbo f k) ->
    (forall k' lo top, 0 <= k' < K -> typ f k' = BINDER_TYPE_PTR -> fixes f k' k lo top -> ~ lo <= i < top) ->
    rd (user_bytes e (bbo_buffer (bbo f0 k)) (bbo_length (bbo f0 k))) i = Some (f (bbo_buffer (bbo f k) - base + i));
}.

Context (Hdata : 0 <= data_size b) (Hcount : 0 <= count).
Context (f f' : Z -> Z) (K sg : Z) (HK : 0 <= K) (HKc : K < count).
Context (Hd : translated b count f K sg).
Context (Hbefore : forall k, 0 <= k < K -> offs f k + osz f k <= offs f K).
Context (Hsame : forall i, i < offs f K \/ start b <= i < sg_start b count -> f' i = f i).

(** The objects before are as they were. *)
Lemma agree_below : agree b count f f' K.
Proof. split; [auto|]. intros k Hk i Hi. apply Hsame. specialize (Hbefore k Hk). lia. Qed.

Lemma regions_apart k k' : 0 <= k < K -> 0 <= k' < K -> k <> k' -> typ f k = BINDER_TYPE_PTR -> typ f k' = BINDER_TYPE_PTR ->
  bbo_buffer (bbo f k) + bbo_length (bbo f k) <= bbo_buffer (bbo f k') \/
  bbo_buffer (bbo f k') + bbo_length (bbo f k') <= bbo_buffer (bbo f k).
Proof.
  intros Hk Hk' Hn Ht Ht'. destruct (Z.lt_total k k') as [?|[?|?]]; [left|done|right];
    apply (tr_apart _ _ _ _ _ Hd); by auto with lia.
Qed.

Lemma copied_step f0 :
  copied f0 f K ->
  offs f' K = offs f K ->
  (forall i, 0 <= i < data_size b -> ~ offs f K <= i < offs f K + osz f' K -> f' i = f i) ->
  (typ f' K = typ f0 K \/ flat_type (typ f' K) /\ flat_type (typ f0 K)) ->
  (typ f' K = BINDER_TYPE_PTR -> bbo f' K = (bbo f0 K) <| bbo_buffer := bbo_buffer (bbo f' K) |>) ->
  (typ f' K = BINDER_TYPE_FDA -> fda f' K = fda f0 K) ->
  (forall k i, 0 <= k < K -> typ f k = BINDER_TYPE_PTR -> 0 <= i < bbo_length (bbo f k) ->
     (forall lo top, typ f' K = BINDER_TYPE_PTR -> fixes f' K k lo top -> ~ lo <= i < top) ->
     f' (bbo_buffer (bbo f k) - base + i) = f (bbo_buffer (bbo f k) - base + i)) ->
  (forall i, typ f' K = BINDER_TYPE_PTR -> 0 <= i < bbo_length (bbo f' K) ->
     rd (user_bytes e (bbo_buffer (bbo f0 K)) (bbo_length (bbo f0 K))) i = Some (f' (bbo_buffer (bbo f' K) - base + i))) ->
  copied f0 f' (K + 1).
Proof.
  intros [] Eo Hout Hty Hbbo Hfda Hold Hnew. pose proof agree_below as Ha.
  assert (Hcase : forall k, 0 <= k < K + 1 -> 0 <= k < K \/ k = K) by lia.
  assert (Hobj : forall k, 0 <= k < K -> typ f' k = typ f k /\ (typ f k = BINDER_TYPE_PTR -> bbo f' k = bbo f k) /\
    (typ f k = BINDER_TYPE_FDA -> fda f' k = fda f k)).
  { intros k Hk. apply (agree_object b count f f' K); auto with lia. by eapply tr_valid. }
  assert (Eoffs : forall k, 0 <= k < K -> offs f' k = offs f k).
  { intros k Hk. apply (agree_offs b count f f' K); auto with lia. }
  split.
  - intros i Hi. rewrite Hsame by auto. auto.
  - intros i Hi Hk. rewrite Hout; [|done|].
    + apply cp_data0; [done|]. intros k Hk'. specialize (Hk k ltac:(lia)). rewrite Eoffs in Hk by done.
      unfold BinderBufInv.osz in *. destruct (Hobj k Hk') as (E & _). by rewrite E in Hk.
    + rewrite <- Eo. apply Hk. lia.
  - intros k [Hk| ->]%Hcase; [|done]. destruct (Hobj k Hk) as (-> & _). auto.
  - intros k [Hk| ->]%Hcase; [|done]. destruct (Hobj k Hk) as (-> & E & _). intros Ht. rewrite (E Ht). auto.
  - intros k [Hk| ->]%Hcase; [|done]. destruct (Hobj k Hk) as (-> & _ & E). intros Ht. rewrite (E Ht). auto.
  - intros k i [Hk| ->]%Hcase; [|auto]. destruct (Hobj k Hk) as (-> & E & _). intros Ht. rewrite (E Ht). intros Hi Hf.
    rewrite Hold; try done; [|intros lo top; apply Hf; lia]. apply cp_buffer0; try done. intros k' lo top Hk' Ht' Hx.
    apply (Hf k' lo top); [lia| |]; [by destruct (Hobj k' Hk') as (-> & _)|].
    apply (agree_fixes b count f f' K); auto with lia. by eapply tr_valid.
Qed.
End Copy.
