(* ===== verification/BinderBufObject.v ===== *)
(** * Binder driver: what the translation of an object does to the buffer

    The three ways the buffer changes: an object is replaced by another, an
    array of descriptors is checked, and a buffer is copied, its pointer put
    into its parent and into its object. *)

From S2P Require Import Prelude BinderRef.
From S2P Require Import BinderAlloc BinderAllocInv BinderAllocNew BinderAllocFree BinderAllocData BinderAllocLife.
From S2P Require Import BinderBuf BinderBufFacts BinderBufInv BinderBufOps BinderBufStep.

Lemma put_slice f off l n : 0 <= n <= zlen l -> slice (put f off l) off n = take (Z.to_nat n) l.
Proof. intros Hn. rewrite <- (take_slice _ off n (zlen l)) by lia. by rewrite put_same. Qed.

Lemma slice_eq f g off n : (forall i, f i = g i) -> slice f off n = slice g off n.
Proof. intros E. by apply slice_ext. Qed.

Lemma put_out f off l i : i < off \/ off + zlen l <= i -> put f off l i = f i.
Proof. intros Hi. unfold put. repeat zcase; cbn [andb]; try done; lia. Qed.

Lemma put_in f off l i : 0 <= i < zlen l -> rd l i = Some (put f off l (off + i)).
Proof.
  intros Hi. unfold put. rewrite (proj2 (Z.leb_le _ _)), (proj2 (Z.ltb_lt _ _)) by lia. cbn [andb].
  replace (off + i - off) with i by lia. by destruct (rd_ex l i Hi) as [x ->].
Qed.

Section Object.
Context (b : binder_buffer) (count : Z) (e : sender).
Context `{UapiLaws}.

Local Notation base := (user_data b).
Local Notation start := (start b).
Local Notation offs := (offs b).
Local Notation typ := (typ b).
Local Notation bbo := (bbo b).
Local Notation fda := (fda b).
Local Notation osz := (osz b).
Local Notation fixes := (fixes b).
Local Notation chain := (chain b).
Local Notation translated := (translated b count).
Local Notation copied := (copied b count e).

Context (Hdata : 0 <= data_size b) (Hcount : 0 <= count).
Context (f0 f : Z -> Z) (K sg : Z) (HK : 0 <= K) (HKc : K < count).
Context (Hd : translated f K sg) (Hcp : copied f0 f K).
Context (Hv : valid b f (offs f K)).
Context (Hbefore : forall k, 0 <= k < K -> offs f k + osz f k <= offs f K).

Lemma object_end : offs f K + osz f K <= data_size b.
Proof. apply Hv. Qed.
Lemma object_size : sizeof_object_header <= osz f K.
Proof. by apply sizeof_types, Hv. Qed.
Lemma offs_nonneg k : 0 <= offs f k.
Proof. apply as_u64_range. Qed.
Lemma data_before : data_size b <= start.
Proof. apply round8_bounds. Qed.

(** An object is the sender's until its turn. *)
Lemma fresh_object : offs f0 K = offs f K /\ typ f0 K = typ f K /\
  (typ f K = BINDER_TYPE_PTR -> bbo f0 K = bbo f K) /\ (typ f K = BINDER_TYPE_FDA -> fda f0 K = fda f K).
Proof.
  assert (Eo : offs f0 K = offs f K).
  { unfold BinderBufInv.offs. f_equal. apply slice_ext. intros i Hi. symmetry. apply (cp_offsets _ _ _ _ _ _ Hcp).
    unfold sg_start. lia. }
  pose proof object_end. pose proof object_size. pose proof (offs_nonneg K).
  assert (Es : forall n, n <= osz f K -> slice f0 (offs f0 K) n = slice f (offs f K) n).
  { intros n Hn. rewrite Eo. apply slice_ext. intros i Hi. symmetry. apply (cp_data _ _ _ _ _ _ Hcp); [lia|].
    intros k Hk Hin. specialize (Hbefore k Hk). lia. }
  split; [done|]. unfold BinderBufInv.typ, BinderBufInv.bbo, BinderBufInv.fda, obj_type, obj_bbo, obj_fda.
  split; [by rewrite Es|]. fold (obj_type f (offs f K)). fold (typ f K).
  split; intros Et; rewrite Es; unfold BinderBufInv.osz; rewrite ?Et; done.
Qed.

(** Where a pointer is put. *)
Definition slot (g : Z -> Z) (k : Z) : Z := bbo_buffer (bbo g (bbo_parent (bbo g k))) - base + bbo_parent_offset (bbo g k).

Lemma slot_area k : 0 <= k < K -> typ f k = BINDER_TYPE_PTR -> has_parent (bbo f k) = true ->
  sg_start b count <= slot f k /\ slot f k + 8 <= sg.
Proof.
  intros Hk Ht Hp.
  destruct (tr_fix _ _ _ _ _ Hd k (bbo_parent (bbo f k)) (bbo_parent_offset (bbo f k)) (bbo_parent_offset (bbo f k) + 8) Hk)
    as (P1 & P2 & P3 & P4); [by left|].
  assert (P0 : 0 <= bbo_parent (bbo f k) < K) by lia. destruct (tr_area _ _ _ _ _ Hd _ P0 P2). unfold slot. lia.
Qed.

(** ** An object that is replaced by another *)

Section Plain.
Context (f' : Z -> Z) (l : list Z).
Context (Hl : zlen l = osz f K) (Hf' : forall i, f' i = put f (offs f K) l i).
Context (Hsize : sizeof_type (hdr_type l) = osz f K).
Context (Hplain : hdr_type l <> BINDER_TYPE_PTR /\ hdr_type l <> BINDER_TYPE_FDA).
Context (Htype : hdr_type l = typ f K \/ flat_type (hdr_type l) /\ flat_type (typ f K)).

Lemma plain_same i : i < offs f K \/ start <= i < sg_start b count -> f' i = f i.
Proof. intros Hi. rewrite Hf'. apply put_out. pose proof object_end. pose proof data_before. lia. Qed.

Lemma plain_object : offs f' K = offs f K /\ typ f' K = hdr_type l.
Proof.
  assert (Eo : offs f' K = offs f K).
  { apply (agree_offs b count f f' K); [|lia]. apply (agree_below b count); [done|apply plain_same]. }
  split; [done|]. pose proof object_size. pose proof header_size. unfold BinderBufInv.typ, obj_type.
  rewrite Eo, (slice_eq _ _ _ _ Hf'), put_slice by lia. apply hdr_type_local; rewrite ?zlen_take by lia; try lia.
  rewrite take_take. f_equal. lia.
Qed.

Lemma plain_step :
  translated f' (K + 1) sg /\ copied f0 f' (K + 1) /\ (forall k m, chain f K k m -> chain f' (K + 1) k m) /\
  osz f' K = osz f K.
Proof.
  destruct plain_object as [Eo Et]. assert (Ez : osz f' K = osz f K) by (unfold BinderBufInv.osz at 1; by rewrite Et).
  assert (Ha : agree b count f f' K) by (apply (agree_below b count); [done|apply plain_same]).
  assert (Hnone : forall p lo top, ~ fixes f' K p lo top).
  { unfold BinderBufInv.fixes. rewrite Et. intros p lo top [[E _]|[E _]]; by apply Hplain in E. }
  pose proof object_end. pose proof data_before. pose proof (offs_nonneg K).
  assert (Habove : forall i, sg_start b count <= i -> f' i = f i).
  { intros i Hi. rewrite Hf'. apply put_out. unfold sg_start in Hi. lia. }
  assert (Hd' : translated f' K sg).
  { apply (translated_keep b count f f' K Ha ltac:(lia) sg sg Hd ltac:(lia)). intros k Hk Ht Hp o i Hi. subst o. fold (slot f k) in Hi.
    destruct (slot_area k Hk Ht Hp). apply Habove. lia. }
  assert (Hv' : valid b f' (offs f' K)).
  { unfold valid. rewrite Eo. destruct Hv as (V1 & V2 & V3). unfold BinderBufInv.typ in Et. rewrite Eo in Et. rewrite Et.
    split; [done|]. fold (osz f K) in V3. rewrite Hsize. split; [|done]. intros E. rewrite E in Hsize. cbn in Hsize.
    pose proof object_size. pose proof header_size. lia. }
  assert (Hb' : forall k, 0 <= k < K -> offs f' k + osz f' k <= offs f' K).
  { intros k Hk. rewrite !(agree_offs b count f f' K) by (done || lia). unfold BinderBufInv.osz.
    destruct (agree_object b count f f' K Ha ltac:(lia) k Hk) as (-> & _); [by eapply tr_valid|]. by apply Hbefore. }
  destruct fresh_object as (Eo0 & Et0 & _). split; [|split; [|split; [|done]]].
  - apply translated_step; try done; rewrite ?Et.
    + intros E. by apply Hplain in E.
    + intros p lo top Hx. by apply Hnone in Hx.
    + intros E. by apply Hplain in E.
  - apply (copied_step b count e f f' K sg); try done.
    + apply plain_same.
    + intros i Hi Ho. rewrite Hf'. apply put_out. lia.
    + by rewrite Et, Et0.
    + rewrite Et. intros E. by apply Hplain in E.
    + rewrite Et. intros E. by apply Hplain in E.
    + intros k i Hk Ht Hi _. apply Habove. destruct (tr_area _ _ _ _ _ Hd k Hk Ht). lia.
    + rewrite Et. intros i E. by apply Hplain in E.
  - intros k m Hc. apply (chain_lift b count f' K sg Hd'); [|intros p lo top Hx; by apply Hnone in Hx].
    apply (chain_keep b count f f' K Ha ltac:(lia)); [|done]. intros j Hj. by eapply tr_valid.
Qed.
End Plain.

(** ** An array of descriptors in a buffer *)

Lemma array_step m : let x := fda f K in
  typ f K = BINDER_TYPE_FDA -> fda_parent x < K -> typ f (fda_parent x) = BINDER_TYPE_PTR ->
  offs f (fda_parent x) <> 0 -> chain f K (fda_parent x) m -> m <= fda_parent_offset x ->
  fda_parent_offset x + 4 * num_fds x <= bbo_length (bbo f (fda_parent x)) ->
  translated f (K + 1) sg /\ copied f0 f (K + 1) /\ chain f (K + 1) (fda_parent x) (fda_parent_offset x + 4 * num_fds x).
Proof.
  intros x Ht HP HPt Hnz Hc Hm Hfit. destruct (as_fda_range (slice f (offs f K) sizeof_fd_array_object)) as ([Hn _] & [Hp _] & [Ho _]).
  change (as_fda _) with (fda f K) in Hn, Hp, Ho. fold x in Hn, Hp, Ho.
  assert (Hfix : forall p lo top, fixes f K p lo top -> p = fda_parent x /\ lo = fda_parent_offset x /\ top = lo + 4 * num_fds x).
  { intros p lo top [[E _]|(_ & -> & -> & ->)]; [by rewrite Ht in E|done]. }
  assert (Hx : fixes f K (fda_parent x) (fda_parent_offset x) (fda_parent_offset x + 4 * num_fds x)) by (right; done).
  destruct fresh_object as (Eo & Et & _ & Ef). split; [|split].
  - apply translated_step; try done; [by rewrite Ht| |by rewrite Ht].
    intros p lo top (-> & -> & ->)%Hfix. do 2 (split; [lia || done|]). split; [lia|]. do 2 (split; [done|]).
    intros k lo' top' Hk Hy. inversion Hc as [k' m' _ _ _ Hf _]; subst. specialize (Hf k lo' top' Hk Hy). lia.
  - apply (copied_step b count e f f K sg); try done; [by left|by rewrite Ht|by intros _; rewrite Ef|by rewrite Ht].
  - apply (chain_fixed b count f K sg Hd _ (fda_parent_offset x) _ m); try done; [lia|].
    intros q lo' top' (-> & -> & ->)%Hfix. done.
Qed.

(** ** A buffer *)

Section Pointer.
Context (Hsg : sg_start b count <= sg) (sg' : Z) (Ht : typ f K = BINDER_TYPE_PTR).
Local Notation bp := (bbo f K).
Context (user : list Z) (Huser : user = user_bytes e (bbo_buffer bp) (bbo_length bp)).
Context (Hlen : zlen user = bbo_length bp) (Hsg' : sg + bbo_length bp <= sg').
Context (f1 : Z -> Z) (Hf1 : forall i, f1 i = put f sg user i).

Lemma ptr_below i : i < sg -> f1 i = f i.
Proof. intros Hi. rewrite Hf1. apply put_out. lia. Qed.

Lemma ptr_agree : agree b count f f1 K.
Proof.
  apply (agree_below b count); [done|]. intros i Hi. apply ptr_below. pose proof object_end. pose proof object_size.
  pose proof header_size. pose proof data_before. unfold sg_start in *. lia.
Qed.

(** The copy of the buffer touches nothing. *)
Lemma user_copied : translated f1 K sg' /\ (forall k m, chain f K k m -> chain f1 K k m) /\
  (forall k, 0 <= k < K -> typ f1 k = typ f k /\ (typ f k = BINDER_TYPE_PTR -> bbo f1 k = bbo f k)).
Proof.
  pose proof (zlen_nonneg user). split; [|split].
  - apply (translated_keep b count f f1 K ptr_agree ltac:(lia) sg sg' Hd ltac:(lia)). intros k Hk Hty Hp o i Hi. subst o.
    fold (slot f k) in Hi. destruct (slot_area k Hk Hty Hp). apply ptr_below. lia.
  - intros k m Hc. apply (chain_keep b count f f1 K ptr_agree ltac:(lia)); [|done]. intros j Hj. by eapply tr_valid.
  - intros k Hk. destruct (agree_object b count f f1 K ptr_agree ltac:(lia) k Hk) as (E1 & E2 & _); [by eapply tr_valid|done].
Qed.

(** The pointer is put into the parent, and into the object. *)
Context (f2 f3 : Z -> Z) (bp' : binder_buffer_object) (l : list Z).
Context (Hbp' : bp' = bp <| bbo_buffer := base + sg |>).
Context (Hf2 : has_parent bp' = false /\ (forall i, f2 i = f1 i) \/
  has_parent bp' = true /\ bbo_parent bp' < K /\ typ f1 (bbo_parent bp') = BINDER_TYPE_PTR /\
  bbo_parent_offset bp' + 8 <= bbo_length (bbo f1 (bbo_parent bp')) /\
  (offs f1 (bbo_parent bp') <> 0 /\ exists m, chain f1 K (bbo_parent bp') m /\ m <= bbo_parent_offset bp') /\
  forall i, f2 i = put f1 (bbo_buffer (bbo f1 (bbo_parent bp')) - base + bbo_parent_offset bp') (u64_bytes (bbo_buffer bp')) i).
Context (Hl : zlen l = sizeof_buffer_object) (Hlt : hdr_type l = BINDER_TYPE_PTR) (Hlb : as_bbo l = bp').
Context (Hf3 : forall i, f3 i = put f2 (offs f K) l i).

Lemma ptr_osz : osz f K = sizeof_buffer_object.
Proof. unfold BinderBufInv.osz. by rewrite Ht. Qed.

(** The parent's buffer and the place in it. *)
Local Notation P := (bbo_parent bp).
Local Notation at_P := (bbo_buffer (bbo f P) - base + bbo_parent_offset bp).

Lemma ptr_parent : has_parent bp = true ->
  0 <= P < K /\ typ f P = BINDER_TYPE_PTR /\ 0 <= bbo_parent_offset bp /\ bbo_parent_offset bp + 8 <= bbo_length (bbo f P) /\
  (exists m, chain f K P m /\ m <= bbo_parent_offset bp /\ offs f P <> 0) /\ sg_start b count <= at_P /\ at_P + 8 <= sg /\
  forall i, f2 i = put f1 at_P (u64_bytes (base + sg)) i.
Proof.
  intros Hp. rewrite Hbp' in Hf2. cbn in Hf2. destruct Hf2 as [[E _]|(_ & F1 & F2 & F3 & (Fn & m & F4 & F5) & F6)]; [by rewrite Hp in E|].
  pose proof (as_bbo_range (slice f (offs f K) sizeof_buffer_object)) as (_ & _ & [Q1 _] & [Q2 _]).
  change (as_bbo _) with bp in Q1, Q2. assert (HP : 0 <= P < K) by lia. destruct user_copied as (_ & _ & Hobj).
  destruct (Hobj _ HP) as (E1 & E2). rewrite E1 in F2. rewrite (E2 F2) in F3, F6.
  destruct (tr_area _ _ _ _ _ Hd _ HP F2). do 4 (split; [done|]). split; [|split; [lia|split; [lia|done]]].
  rewrite (agree_offs b count f f1 K ptr_agree) in Fn by lia. exists m. split; [|done]. apply (chain_keep b count f1 f K); [|lia| |done].
  - apply (agree_sym b count f f1 K ptr_agree ltac:(lia)). intros j Hj. by eapply tr_valid.
  - intros j Hj. eapply tr_valid; [apply user_copied|done].
Qed.

(** Outside the object, and apart from the pointer. *)
Lemma ptr_same i : ~ offs f K <= i < offs f K + osz f K -> (has_parent bp = true -> ~ at_P <= i < at_P + 8) -> f3 i = f1 i.
Proof.
  intros Ho Hi. rewrite ptr_osz in Ho. rewrite Hf3, put_out by lia.
  destruct (has_parent bp) eqn:Hp.
  - destruct (ptr_parent Hp) as (_ & _ & _ & _ & _ & _ & _ & ->). rewrite put_out; [done|]. rewrite zlen_u64_bytes.
    specialize (Hi eq_refl). lia.
  - rewrite Hbp' in Hf2. cbn in Hf2. destruct Hf2 as [[_ ->]|(E & _)]; [done|by rewrite Hp in E].
Qed.

Lemma ptr_low i : i < sg_start b count -> ~ offs f K <= i < offs f K + osz f K -> f3 i = f i.
Proof.
  intros Hi Ho. rewrite ptr_same; [apply ptr_below; lia|done|]. intros Hp. destruct (ptr_parent Hp) as (_ & _ & _ & _ & _ & ? & _). lia.
Qed.

Lemma ptr_agree3 : agree b count f f3 K.
Proof.
  pose proof object_end. pose proof object_size. pose proof header_size. pose proof data_before.
  apply (agree_below b count); [done|]. intros i Hi. apply ptr_low; unfold sg_start in *; lia.
Qed.

Lemma ptr_object : offs f3 K = offs f K /\ typ f3 K = BINDER_TYPE_PTR /\ bbo f3 K = bp'.
Proof.
  assert (Eo : offs f3 K = offs f K) by (apply (agree_offs b count f f3 K); [apply ptr_agree3|lia]).
  pose proof object_size. pose proof header_size. pose proof ptr_osz. split; [done|].
  unfold BinderBufInv.typ, BinderBufInv.bbo, obj_type, obj_bbo. rewrite Eo, !(slice_eq _ _ _ _ Hf3), !put_slice by lia. split.
  - rewrite <- Hlt. apply hdr_type_local; rewrite ?zlen_take by lia; try lia. rewrite take_take. f_equal. lia.
  - rewrite <- Hl. unfold zlen. rewrite Nat2Z.id, firstn_all. done.
Qed.

(** The pointer is apart from those put in place before. *)
Lemma ptr_slots k i : 0 <= k < K -> typ f k = BINDER_TYPE_PTR -> has_parent (bbo f k) = true ->
  slot f k <= i < slot f k + 8 -> f3 i = f i.
Proof.
  intros Hk Hty Hp Hi. destruct (slot_area k Hk Hty Hp) as [S1 S2]. pose proof object_end. pose proof data_before.
  rewrite ptr_same; [apply ptr_below; lia|unfold sg_start in *; lia|]. intros Hp' Hi'.
  destruct (ptr_parent Hp') as (P1 & P2 & P3 & P4 & (m & P5 & P6 & P7) & _).
  destruct (tr_fix _ _ _ _ _ Hd k (bbo_parent (bbo f k)) (bbo_parent_offset (bbo f k)) (bbo_parent_offset (bbo f k) + 8) Hk)
    as (Q1 & Q2 & Q3 & Q4); [by left|].
  unfold slot in Hi. destruct (decide (bbo_parent (bbo f k) = P)) as [E|Hne].
  - inversion P5 as [k' m' _ _ _ Hf _]; subst. rewrite E in *.
    specialize (Hf k (bbo_parent_offset (bbo f k)) (bbo_parent_offset (bbo f k) + 8) Hk ltac:(left; done)). lia.
  - destruct (regions_apart b count f K sg Hd (bbo_parent (bbo f k)) P) as [?|?]; try done; lia.
Qed.

Lemma ptr_fixes p lo top : fixes f3 K p lo top -> has_parent bp = true /\ p = P /\ lo = bbo_parent_offset bp /\ top = lo + 8.
Proof.
  destruct ptr_object as (_ & E1 & E2). unfold BinderBufInv.fixes. rewrite E1, E2, Hbp'. intros [(_ & F)|[F _]]; [|done]. cbn in F.
  destruct F as (? & -> & -> & ->). done.
Qed.

Lemma ptr_kept : translated f3 K sg' /\ (forall k m, chain f K k m -> chain f3 K k m) /\
  (forall k, 0 <= k < K -> typ f3 k = typ f k /\ (typ f k = BINDER_TYPE_PTR -> bbo f3 k = bbo f k)).
Proof.
  pose proof (zlen_nonneg user). split; [|split].
  - apply (translated_keep b count f f3 K ptr_agree3 ltac:(lia) sg sg' Hd ltac:(lia)). intros k Hk Hty Hp o i Hi.
    by apply (ptr_slots k).
  - intros k m Hc. apply (chain_keep b count f f3 K ptr_agree3 ltac:(lia)); [|done]. intros j Hj. by eapply tr_valid.
  - intros k Hk. destruct (agree_object b count f f3 K ptr_agree3 ltac:(lia) k Hk) as (E1 & E2 & _); [by eapply tr_valid|done].
Qed.

(** The pointer is in its place, and apart from the others. *)
Lemma ptr_fixed p lo top : fixes f3 K p lo top ->
  0 <= p < K /\ typ f3 p = BINDER_TYPE_PTR /\ 0 <= lo <= top /\ top <= bbo_length (bbo f3 p) /\ offs f3 p <> 0 /\
  forall k lo' top', 0 <= k < K -> fixes f3 k p lo' top' -> top' <= lo.
Proof.
  intros (Hp & -> & -> & ->)%ptr_fixes. destruct (ptr_parent Hp) as (P1 & P2 & P3 & P4 & (m & P5 & P6 & P7) & _).
  destruct ptr_kept as (_ & Hc & Hobj). destruct (Hobj _ P1) as (-> & E). rewrite (E P2). do 2 (split; [done|]).
  split; [lia|]. split; [done|]. split; [by rewrite (agree_offs b count f f3 K ptr_agree3) by lia|]. apply Hc in P5. inversion P5 as [k' m' _ _ _ Hf _]; subst k' m'. intros k lo' top' Hk Hx.
  specialize (Hf k lo' top' Hk Hx). lia.
Qed.

Lemma ptr_placed : has_parent bp = true -> slice f3 (bbo_buffer (bbo f3 P) - base + bbo_parent_offset bp) 8 = u64_bytes (base + sg).
Proof.
  intros Hp. destruct (ptr_parent Hp) as (P1 & P2 & _ & _ & _ & P6 & _ & P8). destruct ptr_kept as (_ & _ & Hobj).
  destruct (Hobj _ P1) as (_ & E). rewrite (E P2). pose proof object_end. pose proof data_before. pose proof ptr_osz.
  rewrite <- (put_same f1 at_P (u64_bytes (base + sg))), zlen_u64_bytes. apply slice_ext. intros i Hi. rewrite Hf3, put_out, P8; [done|].
  unfold sg_start in *. lia.
Qed.

Lemma ptr_buffer i : 0 <= i < bbo_length bp -> rd user i = Some (f3 (sg + i)).
Proof.
  intros Hi. pose proof object_end. pose proof data_before. rewrite ptr_same.
  - rewrite Hf1. apply put_in. lia.
  - unfold sg_start in *. lia.
  - intros Hp. destruct (ptr_parent Hp) as (_ & _ & _ & _ & _ & _ & ? & _). lia.
Qed.

Lemma ptr_step :
  translated f3 (K + 1) sg' /\ copied f0 f3 (K + 1) /\ chain f3 (K + 1) K 0 /\ osz f3 K = osz f K.
Proof.
  destruct ptr_object as (Eo & Et & Eb), ptr_kept as (Hd3 & Hc3 & Hobj), fresh_object as (Eo0 & Et0 & Eb0 & _).
  assert (Ez : osz f3 K = osz f K) by (rewrite ptr_osz; unfold BinderBufInv.osz; by rewrite Et).
  pose proof object_end. pose proof data_before. assert (Ebuf : bbo_buffer bp' = base + sg) by by rewrite Hbp'.
  assert (Elen : bbo_length bp' = bbo_length bp) by by rewrite Hbp'.
  split; [|split; [|split; [|done]]].
  - apply translated_step; try done; rewrite ?Et, ?Eb.
    + unfold valid. fold (typ f3 K) (osz f3 K). rewrite Et, Ez, Eo. destruct Hv as (V1 & _ & V3). split; [done|]. split; [done|].
      apply object_end.
    + intros k Hk. rewrite Eo, (agree_offs b count f f3 K ptr_agree3) by lia. unfold BinderBufInv.osz.
      destruct (Hobj k Hk) as (-> & _). by apply Hbefore.
    + intros _. rewrite Ebuf, Elen. split; [lia|]. split; [lia|]. intros k Hk. destruct (Hobj k Hk) as (-> & E). intros Hty.
      rewrite (E Hty). destruct (tr_area _ _ _ _ _ Hd k Hk Hty). lia.
    + apply ptr_fixed.
    + intros _ Hp. rewrite Ebuf. rewrite Hbp' in Hp |- *. by apply ptr_placed.
  - apply (copied_step b count e f f3 K sg); try done.
    + intros i Hi. apply ptr_low; [|lia || idtac]; pose proof (offs_nonneg K); pose proof object_size; pose proof header_size;
        unfold sg_start in *; lia.
    + intros i Hi Ho. rewrite Ez in Ho. apply ptr_low; [unfold sg_start; lia|done].
    + left. by rewrite Et, Et0.
    + intros _. rewrite Eb, (Eb0 Ht), Ebuf, Hbp'. done.
    + by rewrite Et.
    + intros k i Hk Hty Hi Hf. destruct (tr_area _ _ _ _ _ Hd k Hk Hty). rewrite ptr_same; [apply ptr_below; lia|unfold sg_start in *; lia|].
      intros Hp Hin. destruct (ptr_parent Hp) as (P1 & P2 & P3 & P4 & _). destruct (decide (k = P)) as [->|Hne].
      * apply (Hf (bbo_parent_offset bp) (bbo_parent_offset bp + 8) Et); [|lia]. left. rewrite Et, Eb, Hbp'. done.
      * destruct (regions_apart b count f K sg Hd k P) as [?|?]; try done; lia.
    + intros i _ Hi. rewrite Eb, Ebuf, (Eb0 Ht), <- Huser. rewrite Eb, Elen in Hi. replace (base + sg - base + i) with (sg + i) by lia.
      by apply ptr_buffer.
  - apply (chain_new b count f3 K sg' Hd3); [lia|exact Et| | |lia].
    + intros p lo top Hx. by destruct (ptr_fixed p lo top Hx) as ((_ & ?) & _).
    + rewrite Eb, Hbp'. cbn. intros Hp. destruct (ptr_parent Hp) as (P1 & P2 & P3 & P4 & (m & P5 & P6 & P7) & _).
      apply (chain_fixed b count f3 K sg' Hd3 _ (bbo_parent_offset bp) _ m); [by apply Hc3| |done|lia|].
      * left. rewrite Et, Eb, Hbp'. done.
      * intros q lo' top' (_ & -> & -> & ->)%ptr_fixes. done.
Qed.
End Pointer.
End Object.
