(* ===== verification/BinderBufLoop.v ===== *)
(** * Binder driver: the loop over the objects

    The invariant of the loop, kept by every object, and what holds when the
    loop ends: with or without an error the receiver's allocator and its
    references are sound and nothing outside the buffer was written. *)

From S2P Require Import Prelude BinderRef.
From S2P Require Import BinderAlloc BinderAllocInv BinderAllocNew BinderAllocFree BinderAllocData BinderAllocLife.
From S2P Require Import BinderBuf BinderBufFacts BinderBufInv BinderBufOps BinderBufStep BinderBufObject.

(** What copying from the sender does: it delivers the bytes asked for, and
    reports the bytes that could not be copied. *)
Record sender_ok (e : sender) : Prop := {
  user_bytes_length p n : 0 <= n -> zlen (user_bytes e p n) = n;
  user_fault_ok p : fault_ok (user_fault e p);
}.

Section Loop.
Context (sizeof : Z) (Hsizeof : 0 <= sizeof < 2 ^ 32).
Context (l1 : list binder_buffer) (b : binder_buffer) (l2 : list binder_buffer) (hi : Z).
Context `{UapiLaws} `{TranslatorLaws} (e : sender) (He : sender_ok e).

Local Notation size := (size b l2 hi).
Local Notation base := (user_data b).
Local Notation byte := (byte b).
Local Notation buf_state := (buf_state sizeof l1 b l2 hi).
Local Notation confined := (confined b l2 hi).
Local Notation start := (start b).
Local Notation offs := (offs b).
Local Notation typ := (typ b).
Local Notation bbo := (bbo b).
Local Notation fda := (fda b).
Local Notation osz := (osz b).
Local Notation chain := (chain b).

Context (count sg_end : Z).
Context (Hdata : 0 <= data_size b) (Hcount : 0 <= count) (Hend : sg_start b count <= sg_end <= size) (Hend8 : sg_end mod 8 = 0).

Lemma Hend_size : sg_start b count <= size.
Proof. lia. Qed.

Definition view (c : cursor) : Z -> Z := byte (t_alloc (txn c)).

(** Allocator and references are sound, with room for [n] more objects. *)
Definition sound (n : Z) (c : cursor) : Prop := buf_state (t_alloc (txn c)) /\ tstate_ok n (t_refs (txn c)).

Lemma sound_less n m c : m <= n -> sound n c -> sound m c.
Proof. intros Hm [? ?]. split; [done|by eapply tstate_less]. Qed.

(** From [c] to [c'] only the buffer was written. *)
Definition inside (c c' : cursor) : Prop := confined (t_alloc (txn c)) (t_alloc (txn c')).

(** After [K] objects; [f0] is the sender's data. *)
Record cursor_ok (f0 : Z -> Z) (K : Z) (c : cursor) : Prop := {
  co_sound : sound (count - K) c;
  co_offset : buffer_offset c = start + 8 * K;
  co_sg : sg_start b count <= sg_buf_offset c <= sg_end /\ sg_buf_offset c mod 8 = 0;
  co_min k : 0 <= k < K -> offs (view c) k + osz (view c) k <= off_min c;
  co_translated : translated b count (view c) K (sg_buf_offset c);
  co_copied : copied b count e f0 (view c) K;
  co_last : last_fixup_obj_off c = 0 \/
    exists k, offs (view c) k = last_fixup_obj_off c /\ chain (view c) K k (last_fixup_min_off c);
}.

Definition next (c : cursor) : cursor := c <| buffer_offset ::= fun o => u64 (o + 8) |>.

(** What becomes of an object: an error, or the invariant. *)
Definition outcome (f0 : Z -> Z) (K : Z) (c : cursor) (r : option (option Z * cursor)) : Prop :=
  exists err c', r = Some (err, c') /\ sound (count - (K + 1)) c' /\ inside c c' /\ (err = None -> cursor_ok f0 (K + 1) (next c')).

Section One.
Context (f0 : Z -> Z) (K : Z) (HK : 0 <= K) (HKc : K < count).
Context (c : cursor) (Hsound : sound (count - K) c) (Hoff : buffer_offset c = start + 8 * K).
Context (Hsg : sg_start b count <= sg_buf_offset c <= sg_end) (Hsg8 : sg_buf_offset c mod 8 = 0).
Local Notation f := (view c).
Context (Hmin : off_min c = offs f K + osz f K) (Hbefore : forall k, 0 <= k < K -> offs f k + osz f k <= offs f K).
Context (Hd : translated b count f K (sg_buf_offset c)) (Hcp : copied b count e f0 f K) (Hv : valid b f (offs f K)).
Context (Hlast : last_fixup_obj_off c = 0 \/
  exists k, offs f k = last_fixup_obj_off c /\ chain f K k (last_fixup_min_off c)).
Context (obj : list Z) (Hlen : osz f K <= zlen obj) (Hobj : obj = slice f (offs f K) (zlen obj)).

Lemma next_offset : u64 (buffer_offset c + 8) = start + 8 * (K + 1).
Proof.
  destruct Hsound as [Ha _]. pose proof (size_small sizeof Hsizeof l1 b l2 hi _ Ha).
  destruct (layout sizeof Hsizeof b l2 hi count Hdata Hend_size) as (? & ? & ? & ?). rewrite Hoff, u64_id by lia. lia.
Qed.

Lemma object_type_seen : hdr_type obj = typ f K.
Proof.
  pose proof (object_size b f K Hv). apply (seen_type b _ K obj sizeof_object_header); [exact Hobj|lia].
Qed.

Lemma offset_kept f' : agree b count f f' K -> offs f' K = offs f K.
Proof. intros Ha. apply (agree_offs b count f f' K Ha). lia. Qed.

(** The invariant for the next object. *)
Lemma next_ok c' :
  sound (count - (K + 1)) c' -> buffer_offset c' = buffer_offset c -> off_min c' = off_min c ->
  sg_start b count <= sg_buf_offset c' <= sg_end -> sg_buf_offset c' mod 8 = 0 ->
  agree b count f (view c') K -> osz (view c') K = osz f K ->
  translated b count (view c') (K + 1) (sg_buf_offset c') -> copied b count e f0 (view c') (K + 1) ->
  (last_fixup_obj_off c' = 0 \/
   exists k, offs (view c') k = last_fixup_obj_off c' /\ chain (view c') (K + 1) k (last_fixup_min_off c')) ->
  cursor_ok f0 (K + 1) (next c').
Proof.
  intros Hs Eo Em Hsg1 Hsg2 Ha Ez Htr Hco Hla. split; try done.
  - cbn. rewrite Eo. apply next_offset.
  - intros k Hk. cbn. rewrite Em, Hmin. change (view (next c')) with (view c').
    destruct (decide (k = K)) as [->|]; [rewrite (offset_kept _ Ha), Ez; lia|].
    rewrite (agree_offs b count f (view c') K Ha) by lia. unfold BinderBufInv.osz at 1.
    destruct (agree_object b count f (view c') K Ha ltac:(lia) k ltac:(lia)) as (-> & _); [by apply (tr_valid _ _ _ _ _ Hd); lia|].
    fold (osz f k). pose proof (object_size b f K Hv). pose proof header_size. specialize (Hbefore k ltac:(lia)). lia.
Qed.

Lemma sound_next : sound (count - (K + 1)) c.
Proof. eapply sound_less; [|exact Hsound]. lia. Qed.

(** The object is written back, as another. *)
Lemma write_back (c' : cursor) (room : Z) (l : list Z) (n : Z) :
  sound room c' -> n = osz f K -> zlen l = zlen obj ->
  exists r a', binder_alloc_copy_to_buffer (t_alloc (txn c')) (entry b) (offs f K) l n = Some (r, a') /\
    buf_state a' /\ confined (t_alloc (txn c')) a' /\
    (r = 0 -> forall i, byte a' i = put (view c') (offs f K) (take (Z.to_nat n) l) i).
Proof.
  intros [Ha' _] -> El. pose proof (object_size b f K Hv). pose proof header_size.
  destruct (write_spec sizeof Hsizeof l1 b l2 hi (t_alloc (txn c')) (offs f K) l (osz f K) Ha') as (r & a' & E & Hb & Hc & Hr);
    [by apply offs_nonneg|lia|].
  exists r, a'. rewrite E. split; [done|]. split; [done|]. split; [done|]. intros ->.
  destruct Hr as [(_ & _ & Hr)|(? & _)]; [|done]. intros i. rewrite Hr. done.
Qed.

Lemma hdr_type_take l n : sizeof_object_header <= n <= zlen l -> hdr_type (take (Z.to_nat n) l) = hdr_type l.
Proof.
  intros Hn. pose proof header_size. apply hdr_type_local; rewrite ?zlen_take by lia; try lia. rewrite take_take. f_equal. lia.
Qed.

(** Objects that are replaced. *)
Lemma replaced (c' : cursor) (l : list Z) (ret n : Z) :
  sound (count - (K + 1)) c' -> t_alloc (txn c') = t_alloc (txn c) ->
  c' = c <| txn := txn c' |> -> zlen l = zlen obj -> n = osz f K ->
  hdr_type l <> BINDER_TYPE_PTR -> hdr_type l <> BINDER_TYPE_FDA -> sizeof_type (hdr_type l) = osz f K ->
  (hdr_type l = typ f K \/ flat_type (hdr_type l) /\ flat_type (typ f K)) ->
  outcome f0 K c ('(err, a) ← binder_alloc_copy_to_buffer (t_alloc (txn c')) (entry b) (offs f K) l n;
                  Some (if truth err then Some ret else None, on_alloc a c')).
Proof.
  intros Hs Ea Ec El -> Hp Hfd Hsz Hty. pose proof (object_size b f K Hv). pose proof header_size.
  destruct (write_back c' _ l (osz f K) Hs eq_refl El) as (r & a' & -> & Hb & Hc & Hw). rewrite Ea in Hc.
  assert (Ef : view c' = f) by (unfold view; by rewrite Ea). rewrite Ef in Hw.
  mstep. do 2 eexists. split; [done|]. split; [by split; [|apply Hs]|]. split; [done|].
  unfold truth. destruct (Z.eqb_spec r 0) as [->|]; cbn [negb]; [intros _; specialize (Hw eq_refl)|done].
  set (l' := take _ l) in Hw. assert (Hl' : zlen l' = osz f K) by (unfold l'; rewrite zlen_take; lia).
  assert (Ht' : hdr_type l' = hdr_type l) by (apply hdr_type_take; lia).
  destruct (plain_step b count e f0 f K (sg_buf_offset c) HK HKc Hd Hcp Hv Hbefore (byte a') l') as (T1 & T2 & T3 & T4);
    rewrite ?Ht'; try done.
  assert (Ha : agree b count f (byte a') K).
  { apply (agree_below b count); [done|]. intros i Hi. by eapply (plain_same b count f K) with (l := l'). }
  rewrite Ec. apply next_ok; try done; [by split; [|apply Hs]|].
  destruct Hlast as [?|(k & E & Hch)]; [by left|right]. exists k. split; [|by apply T3]. cbn.
  rewrite (agree_offs b count f (byte a') K Ha); [done|]. inversion Hch. lia.
Qed.

Lemma failed (c' : cursor) err : sound (count - (K + 1)) c' -> inside c c' -> outcome f0 K c (Some (Some err, c')).
Proof. intros Hs Hi. by do 2 eexists. Qed.

Lemma flat_object : flat_type (typ f K) -> outcome f0 K c (translate_flat_object (entry b) (offs f K) obj c).
Proof.
  intros Ht. destruct Hsound as [Ha Hr]. unfold translate_flat_object.
  destruct (translate_total (count - (K + 1)) (as_flat obj) (t_refs (txn c))) as (ret & fp & ts & -> & Hts & Hfp); [lia|by replace (count - (K + 1) + 1) with (count - K) by lia|]. mstep.
  destruct (Z.ltb_spec ret 0); [by apply failed|]. destruct Hfp as [x ->]; [done|]. mstep.
  set (c' := c <| txn ::= _ |>).
  assert (Hsz : forall ty, flat_type ty -> sizeof_type ty = sizeof_flat_binder_object /\ ty <> BINDER_TYPE_PTR /\ ty <> BINDER_TYPE_FDA).
  { by intros ty [-> |[-> |[-> | ->]]]. }
  destruct (Hsz _ Ht) as (S1 & _).
  assert (Hty : flat_type (hdr_type (put_flat x obj))) by (apply hdr_type_put_flat; rewrite <- S1; exact Hlen).
  destruct (Hsz _ Hty) as (S2 & S3 & S4).
  apply (replaced c'); try done; [apply zlen_put_flat|unfold BinderBufInv.osz; by rewrite S1|by right].
Qed.

Lemma fd_object : typ f K = BINDER_TYPE_FD -> outcome f0 K c (translate_fd_object e (entry b) (offs f K) obj c).
Proof.
  intros Ht. destruct sound_next as [Ha Hr]. unfold translate_fd_object. destruct (binder_translate_fd _ _ _ _) as [ret t] eqn:Efd.
  apply translate_fd_spec in Efd as [E1 E2]. set (c' := c <| txn := t |>).
  assert (Hs : sound (count - (K + 1)) c') by (split; cbn; [by rewrite E1|by rewrite E2]).
  destruct (Z.ltb_spec ret 0); [apply failed; [done|]; unfold inside; cbn; rewrite E1; apply confined_refl|].
  assert (Hty : hdr_type (put_fd obj) = BINDER_TYPE_FD) by by rewrite hdr_type_put_fd, object_type_seen.
  apply (replaced c'); try done; rewrite ?Hty; try done; [apply zlen_put_fd|by unfold BinderBufInv.osz; rewrite Ht..|by left].
Qed.

Context (fuel : nat) (Hfuel : (Z.to_nat count < fuel)%nat).

Lemma valid_count : (buffer_offset c - start) / 8 = K.
Proof. rewrite Hoff. replace (start + 8 * K - start) with (K * 8) by lia. by apply Z.div_mul. Qed.

Lemma fda_object : typ f K = BINDER_TYPE_FDA -> outcome f0 K c (translate_fda_object e fuel (entry b) start obj c).
Proof.
  intros Ht. pose proof sound_next as Hs0. pose proof Hs0 as [Ha Hr]. unfold translate_fda_object. rewrite valid_count.
  rewrite (seen_fda b _ K obj) by (try done; unfold BinderBufInv.osz in Hlen; by rewrite Ht in Hlen). fold f. set (x := fda f K).
  destruct (as_fda_range (slice f (offs f K) sizeof_fd_array_object)) as (Hn & Hp & Ho). change (as_fda _) with x in Hn, Hp, Ho.
  destruct (validate_ptr_spec sizeof Hsizeof l1 b l2 hi count Hdata Hcount Hend_size _ Ha K (fda_parent x)) as (r & -> & Hptr); try done; [lia|].
  mstep. destruct r as [[pobj o]|]; [|by apply failed]. destruct Hptr as (P1 & -> & P3 & ->). change (byte _) with f in P3.
  destruct (validate_fixup_spec sizeof Hsizeof l1 b l2 hi count Hdata Hcount Hend_size _ Ha fuel K (sg_buf_offset c) (fda_parent x)
    (fda_parent_offset x) (last_fixup_obj_off c) (last_fixup_min_off c)) as (ok & -> & Hok); try done; [lia|lia|by destruct Hp; lia|].
  change (byte (t_alloc (txn c))) with f. mstep. destruct ok; cbn [negb]; [|by apply failed]. destruct (Hok eq_refl) as (Hnz & m & Hc & Hm).
  destruct (translate_fd_array_spec sizeof Hsizeof l1 b l2 hi _ Ha e x (bbo f (fda_parent x)) (txn c)) as (ret & t & -> & E1 & E2 & Hret);
    try done; [apply as_bbo_range|].
  mstep. set (c' := c <| txn := t |>). assert (Hs : sound (count - (K + 1)) c') by (split; cbn; [by rewrite E1|by rewrite E2]).
  assert (Hin : inside c c') by (unfold inside; cbn; rewrite E1; apply confined_refl).
  destruct (Z.ltb_spec ret 0); [by apply failed|]. destruct Hret as [?|(_ & Hfit)]; [lia|].
  destruct (array_step b count e f0 f K (sg_buf_offset c) HK HKc Hd Hcp Hv Hbefore m) as (T1 & T2 & T3); try done.
  assert (Ef : view c' = f) by (unfold view; cbn; by rewrite E1).
  do 2 eexists. split; [done|]. split; [done|]. split; [done|]. intros _.
  pose proof (as_bbo_range (slice f (offs f (fda_parent x)) sizeof_buffer_object)) as (_ & [_ Hl] & _).
  change (as_bbo _) with (bbo f (fda_parent x)) in Hl. destruct Hn as [Hn _], Ho as [Ho _].
  assert (Ev : view (c' <| last_fixup_obj_off := offs f (fda_parent x) |>
    <| last_fixup_min_off := u64 (fda_parent_offset x + u64 (4 * num_fds x)) |>) = f) by exact Ef.
  apply next_ok; rewrite ?Ev; try done. right. exists (fda_parent x). split; [done|]. cbn.
  rewrite !(u64_id (4 * _)), u64_id by lia. done.
Qed.

(** The object with the new pointer. *)
Lemma bbo_take x : bbo_ok x -> sizeof_buffer_object <= zlen obj ->
  as_bbo (take (Z.to_nat sizeof_buffer_object) (put_bbo x obj)) = x.
Proof.
  intros Hx Hn. pose proof header_size. pose proof (sizeof_types BINDER_TYPE_PTR ltac:(done)) as Hty. cbn [sizeof_type] in Hty.
  rewrite <- (as_bbo_put x obj Hx Hn) at 2. apply as_bbo_local; rewrite ?zlen_take, ?zlen_put_bbo by (rewrite ?zlen_put_bbo; lia); try lia.
  rewrite take_take. f_equal. lia.
Qed.

(** The space left for buffers. *)
Lemma buffer_fits n : 0 <= n <= sg_end - sg_buf_offset c ->
  u64 (sg_buf_offset c + ALIGN8 n) = sg_buf_offset c + round8 n /\ sg_buf_offset c + round8 n <= sg_end /\
  (sg_buf_offset c + round8 n) mod 8 = 0 /\ 0 < base /\ base + sg_end < 2 ^ 62 /\ 0 <= sg_start b count /\ n <= round8 n.
Proof.
  intros Hn. destruct Hsound as [Ha _]. destruct (size_range sizeof Hsizeof l1 b l2 hi _ Ha) as (_ & Hb & Hs & _).
  destruct (layout sizeof Hsizeof b l2 hi count Hdata Hend_size) as (? & ? & ? & ?). pose proof (round8_bounds n).
  assert (Hle : sg_buf_offset c + round8 n <= sg_end) by (unfold round8 in *; dlia).
  assert (Hs0 : 0 <= sg_start b count) by (unfold sg_start; lia). rewrite ALIGN8_eq by lia. fold (round8 n). rewrite u64_id by lia.
  split; [done|]. split; [done|]. split; [unfold round8; dlia|]. split; [done|]. lia.
Qed.

(** The second half, when the buffer has been copied. *)
Lemma ptr_rest (c1 : cursor) (user : list Z) (sg' : Z) (bp' : binder_buffer_object) : let bp := bbo f K in let sg := sg_buf_offset c in
  typ f K = BINDER_TYPE_PTR -> sound (count - (K + 1)) c1 -> inside c c1 ->
  user = user_bytes e (bbo_buffer bp) (bbo_length bp) -> zlen user = bbo_length bp ->
  (forall i, view c1 i = put f sg user i) ->
  sg + bbo_length bp <= sg' <= sg_end -> sg' mod 8 = 0 -> bp' = bp <| bbo_buffer := base + sg |> -> bbo_ok bp' ->
  buffer_offset c1 = buffer_offset c -> off_min c1 = off_min c -> sg_buf_offset c1 = sg' ->
  outcome f0 K c (
    '(ret, a) ← binder_fixup_parent fuel (entry b) bp' start K (last_fixup_obj_off c) (last_fixup_min_off c) (t_alloc (txn c1));
    let c := on_alloc a c1 in
    if ret <? 0 then Some (Some ret, c)
    else
      '(err, a) ← binder_alloc_copy_to_buffer (t_alloc (txn c)) (entry b) (offs f K) (put_bbo bp' obj) sizeof_buffer_object;
      let c := on_alloc a c in
      if truth err then Some (Some ret, c)
      else Some (None, c <| last_fixup_obj_off := offs f K |> <| last_fixup_min_off := 0 |>)).
Proof.
  intros bp sg Ht Hs1 Hin1 Eu Hul Hf1 Hsg1 Hsg1' Ebp' Hok Eo1 Em1 Esg1.
  assert (Ez : osz f K = sizeof_buffer_object) by (unfold BinderBufInv.osz; by rewrite Ht).
  destruct (user_copied b count f K sg HK HKc Hd Hv Hbefore (proj1 Hsg) sg' user ltac:(done) (proj1 Hsg1) (view c1) Hf1)
    as (Hd1 & Hc1 & _).
  destruct (fixup_parent_spec sizeof Hsizeof l1 b l2 hi count Hdata Hcount Hend_size _ (proj1 Hs1) fuel K sg'
    (last_fixup_obj_off c) (last_fixup_min_off c) bp') as (ret & a2 & -> & Hfix); try done; [lia|lia|lia| |].
  { destruct Hlast as [?|(k & E & Hch)]; [by left|right]. exists k. split; [|by apply Hc1].
    rewrite <- E. symmetry in E. apply (agree_offs b count f (view c1) K); [|inversion Hch; lia].
    by apply (ptr_agree b count f K sg HK HKc Hv Hbefore (proj1 Hsg) user). }
  mstep. change (byte (t_alloc (txn c1))) with (view c1) in Hfix.
  assert (Hr : ret < 0 /\ a2 = t_alloc (txn c1) \/ ret = 0 /\ buf_state a2 /\ confined (t_alloc (txn c1)) a2).
  { destruct Hfix as [(-> & ->)|[(-> & _ & ->)|(-> & _ & ? & ? & _)]]; [by left|right..]; try done.
    split; [done|]. split; [apply Hs1|apply confined_refl]. }
  assert (Hs2 : sound (count - (K + 1)) (on_alloc a2 c1)) by (split; [by destruct Hr as [(_ & ->)|(_ & ? & _)]; [apply Hs1|]|apply Hs1]).
  assert (Hin2 : inside c (on_alloc a2 c1)).
  { eapply confined_trans; [exact Hin1|]. by destruct Hr as [(_ & ->)|(_ & _ & ?)]; [apply confined_refl|]. }
  destruct Hr as [[Hneg _]|(-> & Ha2 & _)]; [rewrite (proj2 (Z.ltb_lt ret 0)) by done; by apply failed|]. cbn [Z.ltb Z.compare].
  destruct (write_back (on_alloc a2 c1) _ (put_bbo bp' obj) sizeof_buffer_object Hs2) as (r & a3 & -> & Ha3 & Hin3 & Hw);
    [done|apply zlen_put_bbo|].
  mstep. set (c3 := on_alloc a3 (on_alloc a2 c1)). assert (Hs3 : sound (count - (K + 1)) c3) by (split; [done|apply Hs1]).
  assert (Hin : inside c c3) by by (eapply confined_trans).
  unfold truth. destruct (Z.eqb_spec r 0) as [->|]; cbn [negb]; [|by apply failed]. specialize (Hw eq_refl).
  change (byte a3) with (view c3) in Hw. change (view (on_alloc a2 c1)) with (byte a2) in Hw.
  pose proof header_size as Hh. pose proof (object_size b f K Hv) as Hos.
  set (l := take _ (put_bbo bp' obj)) in Hw.
  assert (Hl : zlen l = sizeof_buffer_object) by (unfold l; rewrite zlen_take by (rewrite zlen_put_bbo; lia); lia).
  assert (Hlt : hdr_type l = BINDER_TYPE_PTR).
  { unfold l. rewrite hdr_type_take by (rewrite zlen_put_bbo; lia). by rewrite hdr_type_put_bbo, object_type_seen. }
  assert (Hlb : as_bbo l = bp') by (apply bbo_take; [done|lia]).
  assert (Hf2 : has_parent bp' = false /\ (forall i, byte a2 i = view c1 i) \/
    has_parent bp' = true /\ bbo_parent bp' < K /\ typ (view c1) (bbo_parent bp') = BINDER_TYPE_PTR /\
    bbo_parent_offset bp' + 8 <= bbo_length (bbo (view c1) (bbo_parent bp')) /\
    (offs (view c1) (bbo_parent bp') <> 0 /\ exists m, chain (view c1) K (bbo_parent bp') m /\ m <= bbo_parent_offset bp') /\
    forall i, byte a2 i = put (view c1) (bbo_buffer (bbo (view c1) (bbo_parent bp')) - base + bbo_parent_offset bp')
                            (u64_bytes (bbo_buffer bp')) i).
  { destruct Hfix as [(? & _)|[(_ & ? & ->)|(_ & ? & _ & _ & ? & ? & ? & ? & ?)]]; [done|by left|by right]. }
  destruct (ptr_step b count e f0 f K sg HK HKc Hd Hcp Hv Hbefore (proj1 Hsg) sg' Ht user Eu Hul (proj1 Hsg1) (view c1) Hf1
    (byte a2) (view c3) bp' l Ebp' Hf2 Hl Hlt Hlb Hw) as (T1 & T2 & T3 & T4).
  pose proof (ptr_agree3 b count f K sg HK HKc Hd Hv Hbefore (proj1 Hsg) sg' Ht user Hul (proj1 Hsg1) (view c1) Hf1
    (byte a2) (view c3) bp' l Ebp' Hf2 Hl Hw) as Hag.
  do 2 eexists. split; [done|]. split; [done|]. split; [done|]. intros _.
  apply next_ok; try done; cbn; rewrite ?Esg1; try done; [pose proof (zlen_nonneg user); unfold sg in *; lia|]. right. exists K. split; [|done]. by apply offset_kept.
Qed.

Lemma ptr_object_spec : typ f K = BINDER_TYPE_PTR ->
  outcome f0 K c (translate_ptr_object e fuel (entry b) start sg_end (offs f K) obj c).
Proof.
  intros Ht. pose proof sound_next as Hsn. pose proof Hsn as [Ha Hr]. unfold translate_ptr_object. rewrite (find_it sizeof l1 b l2 hi _ Ha). mstep.
  assert (Ez : osz f K = sizeof_buffer_object) by (unfold BinderBufInv.osz; by rewrite Ht).
  rewrite (seen_bbo b _ K obj) by (try done; by rewrite Ez in Hlen). change (byte (t_alloc (txn c))) with f.
  set (bp := bbo f K) in *. set (sg := sg_buf_offset c) in *.
  pose proof (as_bbo_range (slice f (offs f K) sizeof_buffer_object)) as Hbp. change (as_bbo _) with bp in Hbp.
  pose proof Hbp as (_ & [Hn _] & Hbp3 & Hbp4).
  destruct (buffer_fits 0 ltac:(lia)) as (_ & _ & _ & Hb0 & Hb1 & Hs0 & _). fold sg in Hb0, Hb1.
  rewrite (u64_id (sg_end - sg)) by lia. rewrite Z.gtb_ltb. destruct (Z.ltb_spec (sg_end - sg) (bbo_length bp)); [by apply failed|].
  destruct (buffer_fits (bbo_length bp) ltac:(lia)) as (Hw1 & Hw2 & Hw3 & _ & _ & _ & Hw4). fold sg in Hw1, Hw2, Hw3.
  set (user := user_bytes e (bbo_buffer bp) (bbo_length bp)).
  assert (Hul : zlen user = bbo_length bp) by (apply He; lia).
  destruct (user_spec sizeof Hsizeof l1 b l2 hi (user_fault e (bbo_buffer bp)) _ sg user (bbo_length bp)
    (user_fault_ok _ He _) Ha ltac:(lia) Hul) as (r & a1 & -> & Ha1 & Hin1 & _ & _ & _ & Hf1). mstep.
  assert (Hs1 : sound (count - (K + 1)) (on_alloc a1 c)) by (by split).
  unfold truth at 1. destruct (Z.eqb_spec r 0) as [->|]; cbn [negb]; [|by apply failed]. specialize (Hf1 eq_refl).
  match goal with |- context [(buffer_offset ?x - start) / 8] => change (buffer_offset x) with (buffer_offset c) end.
  rewrite valid_count.
  assert (Eu : u64 (base + sg_buf_offset (on_alloc a1 c)) = base + sg) by (apply u64_id; unfold sg in *; cbn; lia).
  rewrite Eu. set (bp' := bp <| bbo_buffer := base + sg |>).
  apply (ptr_rest ((on_alloc a1 c) <| sg_buf_offset ::= fun o => u64 (o + ALIGN8 (bbo_length bp')) |>) user (sg + round8 (bbo_length bp)) bp');
    try done; [fold sg bp; lia|]. split; [unfold in_u64; cbn; lia|]. apply Hbp.
Qed.
End One.

(** ** One round *)

Lemma round_spec f0 K c fuel : cursor_ok f0 K c -> 0 <= K < count -> (Z.to_nat count < fuel)%nat ->
  outcome f0 K c (translate_object e fuel (entry b) start sg_end c).
Proof.
  intros Hc HK Hfuel. destruct Hc as [Hs Ho [Hsg Hsg8] Hm Hd Hcp Hla]. pose proof Hs as [Ha _]. set (f := view c) in *.
  assert (Hsn : sound (count - (K + 1)) c) by (eapply sound_less; [|exact Hs]; lia).
  assert (Hfail : forall x, outcome f0 K c (Some (Some x, c))) by (intros x; by do 2 eexists).
  unfold translate_object. rewrite Ho, (read_offset sizeof Hsizeof l1 b l2 hi count Hdata Hend_size _ Ha) by lia.
  mstep. cbn [truth Z.eqb negb]. fold (offs (byte (t_alloc (txn c))) K).
  destruct (get_offset_object sizeof Hsizeof l1 b l2 hi count Hdata Hcount Hend_size _ Ha K) as (n & obj & -> & Hobj).
  mstep. change (byte (t_alloc (txn c))) with f in *. destruct (decide (valid b f (offs f K))) as [Hv|_]; [|subst n; apply Hfail].
  destruct Hobj as (-> & Hlen & Hobj & Hpos). unfold truth. rewrite (proj2 (Z.eqb_neq (osz f K) 0)) by lia. cbn [negb orb].
  destruct (Z.ltb_spec (offs f K) (off_min c)); [by apply Hfail|].
  pose proof (object_end b f K Hv) as Hoe. pose proof (size_small sizeof Hsizeof l1 b l2 hi _ Ha).
  destruct (layout sizeof Hsizeof b l2 hi count Hdata Hend_size) as (? & ? & ? & ?).
  assert (Hnn : 0 <= offs f K) by by apply offs_nonneg.
  rewrite (u64_id (offs f K + osz f K)) by lia. set (c1 := c <| off_min := _ |>).
  assert (Hb : forall k, 0 <= k < K -> offs f k + osz f k <= offs f K) by (intros k Hk; specialize (Hm k Hk); lia).
  assert (Hty : hdr_type obj = typ f K) by (by apply (object_type_seen K c Hv)).
  rewrite Hty. change (outcome f0 K c) with (outcome f0 K c1).
  assert (Hcase : flat_type (typ f K) -> outcome f0 K c1 (translate_flat_object (entry b) (offs f K) obj c1)).
  { by apply (flat_object f0 K ltac:(lia) ltac:(lia) c1 Hs Ho Hsg Hsg8 eq_refl Hb Hd Hcp Hv Hla obj). }
  destruct (typ f K) eqn:Et; try (apply Hcase; unfold flat_type; by auto).
  - by apply (fd_object f0 K ltac:(lia) ltac:(lia) c1 Hs Ho Hsg Hsg8 eq_refl Hb Hd Hcp Hv Hla obj).
  - by apply (ptr_object_spec f0 K ltac:(lia) ltac:(lia) c1 Hs Ho Hsg Hsg8 eq_refl Hb Hd Hcp Hv Hla obj Hlen Hobj fuel Hfuel).
  - by apply (fda_object f0 K ltac:(lia) ltac:(lia) c1 Hs Ho Hsg Hsg8 eq_refl Hb Hd Hcp Hv Hla obj Hlen Hobj fuel Hfuel).
  - by do 2 eexists.
Qed.

(** All of them. *)
Lemma rounds_spec f0 c : cursor_ok f0 0 c ->
  exists err c', translate_objects e (entry b) start (sg_start b count) sg_end c = Some (err, c') /\ sound 0 c' /\ inside c c' /\
    (err = None -> cursor_ok f0 count c').
Proof.
  intros Hc. unfold translate_objects. replace ((sg_start b count - start) / 8) with count
    by (unfold sg_start; replace (start + 8 * count - start) with (count * 8) by lia; by rewrite Z.div_mul).
  match goal with |- context [loop ?fu ?st ?s] =>
    destruct (loop_rank (fun n c1 => exists K, 0 <= K <= count /\ n = Z.to_nat (count - K) /\ cursor_ok f0 K c1 /\ inside c c1)
      (fun r : option Z * cursor => sound 0 r.2 /\ inside c r.2 /\ (r.1 = None -> cursor_ok f0 count r.2)) st fu
      (Z.to_nat count) s) as ([err c'] & E & Q1 & Q2 & Q3)
  end.
  - exists 0. split; [lia|]. split; [f_equal; lia|]. split; [done|apply confined_refl].
  - lia.
  - intros n c1 (K & HK & -> & Hc1 & Hin). rewrite (co_offset _ _ _ Hc1). unfold sg_start.
    destruct (Z.ltb_spec (start + 8 * K) (start + 8 * count)).
    + destruct (round_spec f0 K c1 (S (Z.to_nat count)) Hc1 ltac:(lia) ltac:(lia)) as (err & c2 & -> & Hs2 & Hin2 & Hn). mstep.
      assert (Hin3 : inside c c2) by by (eapply confined_trans).
      destruct err as [err|]; [right; eexists; split; [done|]; split; [eapply sound_less; [|exact Hs2]; lia|done]|left]. do 2 eexists. split; [done|]. split; [|shelve].
      exists (K + 1). split; [lia|]. split; [done|]. split; [by apply Hn|exact Hin3]. Unshelve. lia.
    + right. eexists. split; [done|]. cbn. split; [eapply sound_less; [|apply Hc1]; lia|]. split; [done|]. intros _. by replace count with K by lia.
  - exists err, c'. split; [exact E|done].
Qed.
End Loop.
