(* ===== verification/BinderBufFill.v ===== *)
(** * Binder driver: filling the buffer of a transaction

    From the copies of the data and of the offsets to the last object. *)

From S2P Require Import Prelude BinderRef.
From S2P Require Import BinderAlloc BinderAllocInv BinderAllocNew BinderAllocFree BinderAllocData BinderAllocLife.
From S2P Require Import BinderBuf BinderBufFacts BinderBufInv BinderBufOps BinderBufStep BinderBufObject BinderBufLoop.

Lemma land_7 x : Z.land x 7 = x mod 8.
Proof. change 7 with (Z.ones 3). by rewrite Z.land_ones. Qed.

(** The buffer was allocated with the sizes of the transaction. *)
Record made_for (size : Z) (b : binder_buffer) (tr : transaction_data) : Prop := {
  mf_data : data_size b = tr_data_size tr;
  mf_sizes : 0 <= tr_data_size tr /\ 0 <= tr_offsets_size tr /\ 0 <= tr_extra_size tr;
  mf_secctx : 0 <= secctx_size tr /\ round8 (secctx_size tr) <= tr_extra_size tr;
  mf_fits : exact_size (tr_data_size tr) (tr_offsets_size tr) (tr_extra_size tr) <= size;
}.

(** The number of objects, and the end of the copies of buffers. *)
Definition num_objects (tr : transaction_data) : Z := tr_offsets_size tr / 8.

Definition sg_limit (b : binder_buffer) (tr : transaction_data) : Z :=
  sg_start b (num_objects tr) + tr_extra_size tr - round8 (secctx_size tr).

(** The sender's data and offsets are in the buffer. *)
Definition sent (e : sender) (b : binder_buffer) (tr : transaction_data) (f : Z -> Z) : Prop :=
  slice f 0 (tr_data_size tr) = user_bytes e (data_ptr tr) (tr_data_size tr) /\
  slice f (start b) (tr_offsets_size tr) = user_bytes e (offsets_ptr tr) (tr_offsets_size tr).

Section Fill.
Context (sizeof : Z) (Hsizeof : 0 <= sizeof < 2 ^ 32).
Context (l1 : list binder_buffer) (b : binder_buffer) (l2 : list binder_buffer) (hi : Z).
Context `{UapiLaws} `{TranslatorLaws} (e : sender) (He : sender_ok e).

Local Notation size := (size b l2 hi).
Local Notation byte := (byte b).
Local Notation buf_state := (buf_state sizeof l1 b l2 hi).
Local Notation start := (start b).
Local Notation sound := (sound sizeof l1 b l2 hi).
Local Notation inside := (inside b l2 hi).

Context (tr : transaction_data) (Hmade : made_for size b tr).

Lemma made_sizes (a : binder_alloc) : buf_state a -> size < 2 ^ 62 /\
  start = ALIGN8 (tr_data_size tr) /\ 0 <= start /\ tr_data_size tr <= start /\ start mod 8 = 0 /\
  start + round8 (tr_offsets_size tr) + round8 (tr_extra_size tr) <= size /\
  ALIGN8 (secctx_size tr) = round8 (secctx_size tr) /\ 0 <= round8 (secctx_size tr) /\ round8 (secctx_size tr) mod 8 = 0.
Proof.
  intros Ha. pose proof (size_small sizeof Hsizeof l1 b l2 hi a Ha). destruct Hmade as [Ed (? & ? & ?) (? & ?) Hf].
  unfold exact_size in Hf. unfold BinderBufInv.start. rewrite Ed. pose proof (round8_bounds (tr_data_size tr)).
  pose proof (round8_bounds (tr_offsets_size tr)). pose proof (round8_bounds (tr_extra_size tr)).
  pose proof (round8_bounds (secctx_size tr)).
  rewrite !ALIGN8_eq by lia. fold (round8 (tr_data_size tr)) (round8 (secctx_size tr)). split_and!; try done; try lia; unfold round8; dlia.
Qed.

(** The loop's invariant before the first object. *)
Lemma cursor_start (t : txn_state) : let count := num_objects tr in
  buf_state (t_alloc t) -> tstate_ok (num_objects tr) (t_refs t) -> tr_offsets_size tr mod 8 = 0 -> tr_extra_size tr mod 8 = 0 ->
  cursor_ok sizeof l1 b l2 hi e count (sg_limit b tr) (byte (t_alloc t)) 0
    {| txn := t; buffer_offset := start; sg_buf_offset := sg_start b count; off_min := 0; last_fixup_obj_off := 0;
       last_fixup_min_off := 0 |}.
Proof.
  intros count Ha Hr Ho Hx. destruct (made_sizes _ Ha) as (? & _ & ? & ? & ? & ? & _ & ? & ?).
  destruct Hmade as [_ _ (_ & ?) _].
  split; cbn; try done.
  - split; [done|]. by rewrite Z.sub_0_r.
  - lia.
  - unfold sg_limit, sg_start, count in *. split; [lia|dlia].
  - intros k Hk. lia.
  - split; intros; exfalso; lia.
  - split; intros; solve [done|exfalso; lia].
  - by left.
Qed.

(** Errors while copying, and the end of the loop. *)
Lemma fill_spec (t : txn_state) : buf_state (t_alloc t) -> tstate_ok (num_objects tr) (t_refs t) ->
  exists err c, fill_buffer e (entry b) tr t = Some (err, c) /\ sound 0 c /\
    confined b l2 hi (t_alloc t) (t_alloc (txn c)) /\
    (err = None -> exists f0, sent e b tr f0 /\ cursor_ok sizeof l1 b l2 hi e (num_objects tr) (sg_limit b tr) f0 (num_objects tr) c).
Proof.
  intros Ha Hr. destruct (made_sizes _ Ha) as (Hsz & Es & Hs0 & Hds & Hs8 & Hfit & Ec & Hc0 & Hc8).
  pose proof Hmade as [Ed (Hd0 & Ho0 & Hx0) (_ & Hcx) _].
  pose proof (round8_bounds (tr_offsets_size tr)). pose proof (round8_bounds (tr_extra_size tr)).
  assert (Hr0 : tstate_ok 0 (t_refs t)) by (eapply tstate_less; [|exact Hr]; unfold num_objects; dlia).
  unfold fill_buffer. rewrite <- Es. cbn [txn].
  set (D := user_bytes e (data_ptr tr) (tr_data_size tr)). assert (HD : zlen D = tr_data_size tr) by by apply He.
  destruct (user_spec sizeof Hsizeof l1 b l2 hi (user_fault e (data_ptr tr)) _ 0 D (tr_data_size tr)
    (user_fault_ok _ He _) Ha ltac:(lia) HD) as (r1 & a1 & -> & Ha1 & Hin1 & _ & _ & _ & Hf1). mstep.
  unfold truth at 1. destruct (Z.eqb_spec r1 0) as [->|]; cbn [negb]; [|by do 2 eexists]. specialize (Hf1 eq_refl).
  match goal with |- context [t_alloc (txn (on_alloc a1 ?c))] => change (t_alloc (txn (on_alloc a1 c))) with a1; set (c1 := on_alloc a1 c) end.
  set (O := user_bytes e (offsets_ptr tr) (tr_offsets_size tr)). assert (HO : zlen O = tr_offsets_size tr) by by apply He.
  destruct (user_spec sizeof Hsizeof l1 b l2 hi (user_fault e (offsets_ptr tr)) _ start O (tr_offsets_size tr)
    (user_fault_ok _ He _) Ha1 Hs0 HO) as (r2 & a2 & -> & Ha2 & Hin2 & _ & _ & _ & Hf2). mstep.
  assert (Hin : confined b l2 hi (t_alloc t) a2) by by (eapply confined_trans).
  unfold truth at 1. destruct (Z.eqb_spec r2 0) as [->|]; cbn [negb]; [|by do 2 eexists]. specialize (Hf2 eq_refl).
  rewrite !land_7. destruct (Z.eqb_spec (tr_offsets_size tr mod 8) 0) as [Ho8|]; cbn [negb]; [|by do 2 eexists].
  destruct (Z.eqb_spec (tr_extra_size tr mod 8) 0) as [Hx8|]; cbn [negb]; [|by do 2 eexists].
  assert (E1 : u64 (start + tr_offsets_size tr) = sg_start b (num_objects tr)).
  { rewrite u64_id by lia. unfold sg_start, num_objects. dlia. }
  assert (Hss : sg_start b (num_objects tr) = start + tr_offsets_size tr) by (unfold sg_start, num_objects; dlia).
  assert (E2 : ALIGN8 (sg_start b (num_objects tr)) = sg_start b (num_objects tr)) by (rewrite ALIGN8_eq by lia; dlia).
  rewrite E1, E2, Ec. rewrite (u64_id (_ + _ - _)) by lia. fold (sg_limit b tr).
  assert (Hend : sg_start b (num_objects tr) <= sg_limit b tr <= size) by (unfold sg_limit; lia).
  assert (Hend8 : sg_limit b tr mod 8 = 0) by (unfold sg_limit; rewrite Hss; dlia).
  assert (Hob : 0 <= num_objects tr) by (unfold num_objects; dlia).
  pose proof (cursor_start (txn (on_alloc a2 c1)) Ha2 Hr Ho8 Hx8) as Hc.
  destruct (rounds_spec sizeof Hsizeof l1 b l2 hi e He (num_objects tr) (sg_limit b tr) ltac:(lia) Hob Hend Hend8 _ _ Hc)
    as (err & c & E & Hs & Hi & Hok).
  exists err, c. split; [exact E|]. split; [exact Hs|]. split; [by eapply confined_trans|]. intros ->.
  exists (byte a2). split; [|by apply Hok]. split; rewrite (slice_eq _ _ _ _ Hf2).
  - rewrite put_other by lia. rewrite (slice_eq _ _ _ _ Hf1). pose proof (put_same (byte (t_alloc t)) 0 D) as Hput. rewrite HD in Hput. exact Hput.
  - pose proof (put_same (byte a1) start O) as Hput. rewrite HO in Hput. exact Hput.
Qed.
End Fill.
