(* ===== verification/BinderBufRef.v ===== *)
(** * Binder driver: the references behind the objects of a transaction

    BinderRef implements what the translation of a transaction's contents asks
    for: the nodes and handles of the objects are those of a transaction of the
    driver's state, and every object keeps the invariant of all references. *)

From S2P Require Import Prelude BinderRef BinderRefInv BinderRefNode BinderRefHandle BinderRefOps.
From S2P Require Import BinderRefTxn BinderRefProto BinderRefDeath BinderRefRelease BinderRefRun BinderRefSafe BinderRefStep BinderRefCall.
From S2P Require Import BinderBuf BinderBufFacts.

(** ** Errors and handles *)

(** The handles of a process. *)
Definition handles (s : binder_state) (p : Z) : list (Z * Z) := default [] (refs_by_desc <$> procs s !! p).

(** No process has more than [k] handles more, and none has died. *)
Definition grow (k : Z) (s s' : binder_state) : Prop := forall p,
  zlen (handles s' p) <= zlen (handles s p) + k /\ is_dead <$> procs s' !! p = is_dead <$> procs s !! p.

Lemma grow_procs s s' : procs s' = procs s -> grow 0 s s'.
Proof. intros E p. unfold handles. rewrite E. split; [lia|done]. Qed.

Lemma grow_trans k k' s1 s2 s3 : grow k s1 s2 -> grow k' s2 s3 -> grow (k + k') s1 s3.
Proof. intros H1 H2 p. destruct (H1 p) as [? E1], (H2 p) as [? E2]. split; [lia|by rewrite E2]. Qed.

Lemma grow_le k k' s s' : k <= k' -> grow k s s' -> grow k' s s'.
Proof. intros Hk H p. destruct (H p). split; [lia|done]. Qed.

Lemma grow_zero s : grow 1 s s.
Proof. intros q. split; [lia|done]. Qed.

Lemma grow_alter s s' p g : procs s' = alter g p (procs s) ->
  (forall pr, refs_by_desc (g pr) = refs_by_desc pr) -> (forall pr, is_dead (g pr) = is_dead pr) -> grow 0 s s'.
Proof.
  intros E Hg Hd q. unfold handles. rewrite E. destruct (decide (p = q)) as [->|].
  - rewrite lookup_alter_eq. destruct (procs s !! q); cbn; [rewrite Hg, Hd|]; (split; [lia|done]).
  - rewrite lookup_alter_ne by done. split; [lia|done].
Qed.

(** An operation that has succeeded, case by case. *)
Local Ltac cases E := unfold mbind, option_bind in E; repeat case_match; simplify_eq/=.

(** An operation that leaves handles alone. *)
Local Ltac quiet := first [by apply grow_procs|eapply grow_alter; [reflexivity|done|done]].

Lemma inc_node_result n strong internal l s ret s' :
  binder_inc_node_nilocked n strong internal l s = Some (ret, s') -> procs s' = procs s /\ ret <= 0.
Proof.
  unfold binder_inc_node_nilocked, binder_enqueue_deferred_thread_work_ilocked, binder_enqueue_work_ilocked. intros E. by cases E.
Qed.

Lemma put_node_grow n s s' : binder_put_node n s = Some s' -> grow 0 s s'.
Proof.
  unfold binder_put_node, binder_dec_node_tmpref, binder_dec_node_nilocked, dec_node_last, binder_enqueue_work_ilocked,
    binder_wakeup_proc_ilocked, binder_select_thread_ilocked. intros E. cases E; quiet.
Qed.

Lemma get_node_grow p ptr s o s' : binder_get_node p ptr s = Some (o, s') -> grow 0 s s'.
Proof. unfold binder_get_node, binder_inc_node_tmpref_ilocked. intros E. cases E; quiet. Qed.

Lemma new_node_grow p alloc ptr cookie s o s' : binder_new_node p alloc ptr cookie s = Some (o, s') -> grow 0 s s'.
Proof. unfold binder_new_node, binder_init_node_ilocked, binder_inc_node_tmpref_ilocked. intros E. cases E; quiet. Qed.

Lemma node_from_ref_grow p h strong s o s' : binder_get_node_from_ref p h strong s = Some (o, s') -> grow 0 s s'.
Proof. unfold binder_get_node_from_ref, binder_get_ref_olocked, binder_inc_node_tmpref_ilocked. intros E. cases E; quiet. Qed.

Lemma inc_ref_result r strong l s ret s' : binder_inc_ref_olocked r strong l s = Some (ret, s') -> procs s' = procs s /\ ret <= 0.
Proof.
  unfold binder_inc_ref_olocked. intros E. cases E; try done;
    match goal with H : binder_inc_node_nilocked _ _ _ _ _ = _ |- _ => apply inc_node_result in H as []; done end.
Qed.

Lemma zlen_tree_insert {A} k (v : A) t : zlen (tree_insert k v t) = zlen t + 1.
Proof.
  unfold zlen. induction t as [|[k' v'] t IH]; [done|]. cbn [tree_insert]. destruct (k <? k'); cbn [length]; lia.
Qed.

Lemma get_ref_grow p n alloc s o s' : binder_get_ref_for_node_olocked p n alloc s = Some (o, s') ->
  grow (match alloc with Some _ => 1 | None => 0 end) s s'.
Proof.
  unfold binder_get_ref_for_node_olocked. intros E. cases E; try apply grow_zero; try (by apply grow_procs);
    intros q; unfold handles; cbn;
    (destruct (decide (p = q)) as [<-|]; [rewrite lookup_alter_eq|rewrite lookup_alter_ne by done; split; [lia|done]]);
    destruct (procs s !! p); cbn; rewrite ?zlen_tree_insert; (split; [lia|done]).
Qed.

Lemma inc_ref_for_node_grow p n alloc strong l s ret rd s' :
  binder_inc_ref_for_node p n alloc strong l s = Some (ret, rd, s') -> grow 1 s s' /\ ret <= 0.
Proof.
  unfold binder_inc_ref_for_node. intros E. destruct (binder_get_ref_for_node_olocked p n None s) as [[o s1]|] eqn:E1; [|done].
  apply get_ref_grow in E1.
  assert (Hrest : forall s2, grow 1 s s2 -> forall r, ('(ret, s) ← binder_inc_ref_olocked r strong l s2;
    rdata ← refs s !! r; Some (ret, Some rdata, s)) = Some (ret, rd, s') -> grow 1 s s' /\ ret <= 0).
  { intros s2 H2 r E2. destruct (binder_inc_ref_olocked r strong l s2) as [[ret' s3]|] eqn:E3; [|done]. cbn in E2.
    apply inc_ref_result in E3 as [Hp Hr]. destruct (refs s3 !! r); [|done]. injection E2 as <- _ <-.
    split; [|done]. apply (grow_trans 1 0 _ s2); [done|by apply grow_procs]. }
  assert (H1 : grow 1 s s1) by by (eapply grow_le; [|exact E1]). cbn in E. destruct o as [r|].
  - destruct alloc; cbn in E; by apply (Hrest s1 H1 r).
  - destruct alloc as [a|]; [|injection E as <- _ <-; done].
    destruct (binder_get_ref_for_node_olocked p n (Some a) s1) as [[o s2]|] eqn:E2; [|done]. apply get_ref_grow in E2. cbn in E.
    destruct o as [r|]; [|done]. apply (Hrest s2) with (r := r); [|done]. by apply (grow_trans 0 1 _ s1).
Qed.

(** The end of a translation: the temporary reference is given back. *)
Lemma put_tail n (X : option (Z * option flat_binder_object * binder_state)) s ret fp s' :
  (forall ret fp s1, X = Some (ret, fp, s1) -> grow 1 s s1 /\ ret <= 0) ->
  ('(ret, fp, s) ← X; s ← binder_put_node n s; Some (ret, fp, s)) = Some (ret, fp, s') -> grow 1 s s' /\ ret <= 0.
Proof.
  intros HX E. destruct X as [[[ret1 fp1] s1]|]; [|done]. destruct (HX _ _ _ eq_refl) as [Hg Hr]. cbn in E.
  destruct (binder_put_node n s1) as [s2|] eqn:E2; [|done]. apply put_node_grow in E2. injection E as <- _ <-.
  split; [|done]. by apply (grow_trans 1 0 _ s1).
Qed.

Lemma translate_binder_grow node_alloc ref_alloc allowed strong ptr cookie q t s ret fp s' :
  binder_translate_binder node_alloc ref_alloc allowed strong ptr cookie q t s = Some (ret, fp, s') -> grow 1 s s' /\ ret <= 0.
Proof.
  unfold binder_translate_binder. intros E. destruct (threads s !! t) as [th|]; [|done]. cbn in E.
  destruct (binder_get_node (t_proc th) ptr s) as [[o s1]|] eqn:E1; [|done]. apply get_node_grow in E1. cbn in E.
  assert (H2 : forall o2 s2, (match o with Some n => Some (Some n, s1) | None => binder_new_node (t_proc th) node_alloc ptr cookie s1 end) =
    Some (o2, s2) -> grow 0 s s2).
  { intros o2 s2 E2. destruct o; [by injection E2 as _ <-|]. apply new_node_grow in E2. by apply (grow_trans 0 0 _ s1). }
  destruct (match o with Some n => _ | None => _ end) as [[o2 s2]|]; [|done]. specialize (H2 _ _ eq_refl). cbn in E.
  destruct o2 as [n|]; [|injection E as <- _ <-; split; [by eapply grow_le; [|exact H2]|done]].
  destruct (nodes s2 !! n) as [nd|]; [|done]. cbn in E. apply put_tail with (s := s2) in E as [Hg Hr].
  - split; [|done]. by apply (grow_trans 0 1 _ s2).
  - intros ret1 fp1 s3. destruct (negb _); [by intros [= <- _ <-]; split; [apply grow_zero|]|].
    destruct (negb allowed); [by intros [= <- _ <-]; split; [apply grow_zero|]|].
    destruct (binder_inc_ref_for_node q n ref_alloc strong _ s2) as [[[r1 rd] s4]|] eqn:E4; [|done].
    apply inc_ref_for_node_grow in E4. by intros [= <- _ <-].
Qed.

Lemma translate_handle_grow ref_alloc allowed strong h q t s ret fp s' :
  binder_translate_handle ref_alloc allowed strong h q t s = Some (ret, fp, s') -> grow 1 s s' /\ ret <= 0.
Proof.
  unfold binder_translate_handle. intros E. destruct (threads s !! t) as [th|]; [|done]. cbn in E.
  destruct (binder_get_node_from_ref (t_proc th) h strong s) as [[o s1]|] eqn:E1; [|done]. apply node_from_ref_grow in E1. cbn in E.
  destruct o as [n|]; [|injection E as <- _ <-; split; [by eapply grow_le; [|exact E1]|done]].
  destruct (nodes s1 !! n) as [nd|]; [|done]. cbn in E. apply put_tail with (s := s1) in E as [Hg Hr].
  - split; [|done]. by apply (grow_trans 0 1 _ s1).
  - intros ret1 fp1 s3. destruct (negb allowed); [by intros [= <- _ <-]; split; [apply grow_zero|]|].
    destruct (bool_decide _).
    + destruct (binder_inc_node_nilocked n strong false None s1) as [[r1 s4]|] eqn:E4; [|done]. apply inc_node_result in E4 as [Hp _].
      intros [= <- _ <-]. split; [|done]. by eapply grow_le; [|by apply grow_procs].
    + destruct (binder_inc_ref_for_node q n ref_alloc strong None s1) as [[[r1 rd] s4]|] eqn:E4; [|done].
      apply inc_ref_for_node_grow in E4. by intros [= <- _ <-].
Qed.

(** The translation of an object. *)
Lemma translate_grow t q fp node_alloc ref_alloc allowed s ret fp' s' :
  translate t q fp node_alloc ref_alloc allowed s = Some (ret, fp', s') -> grow 1 s s' /\ ret <= 0.
Proof. destruct fp; [apply translate_binder_grow|apply translate_handle_grow]. Qed.

(** ** The interface *)

Section Implementation.
Context (i : nat) (node_alloc ref_alloc : system -> option Z) (security : flat_binder_object -> bool).

(** The objects of the transaction [i] of the system. *)
Definition driver_translator : Translator := {|
  tstate := system;
  translate_flat fp y :=
    x ← transactions y !! i;
    '(ret, fp', _) ← translate (x_thread x) (x_target_proc x) fp (node_alloc y) (ref_alloc y) (security fp) (st y);
    y' ← step (Object i fp (node_alloc y) (ref_alloc y) (security fp)) y;
    Some (ret, fp', y') |}.

(** The receiver is alive and has handles left. *)
Definition receiver_ok (n : Z) (y : system) : Prop := sys_good y /\ exists x pr,
  transactions y !! i = Some x /\ procs (st y) !! x_target_proc x = Some pr /\ is_dead pr = false /\
  zlen (refs_by_desc pr) + n <= 2 ^ 32 - 1.

Context (Hnode : forall y, fresh (node_alloc y) (nodes (st y)) = true) (Href : forall y, fresh (ref_alloc y) (refs (st y)) = true).

Lemma translates y x pr fp na ra allowed : sys_good y -> transactions y !! i = Some x ->
  procs (st y) !! x_target_proc x = Some pr -> is_dead pr = false -> zlen (refs_by_desc pr) < 2 ^ 32 - 1 ->
  fresh na (nodes (st y)) = true -> fresh ra (refs (st y)) = true ->
  exists ret fp' s', translate (x_thread x) (x_target_proc x) fp na ra allowed (st y) = Some (ret, fp', s') /\
    (ret = 0 -> is_Some fp') /\ possible (Object i fp na ra allowed) y = true.
Proof.
  intros Hy Hi Hq Hd Hz Hna Hra.
  assert (Hl : live (x_target_proc x) (st y) = true) by (unfold live; by rewrite Hq, Hd).
  assert (Hfr : fresh_ref ra (x_target_proc x) (st y) = true).
  { unfold fresh_ref. rewrite Hra, Hq. by apply Z.ltb_lt. }
  destruct (live_alive _ _ Hl) as (pq & Hq' & _ & Hal). rewrite Hq in Hq'. injection Hq' as <-.
  assert (Hx : txn_ok (st y) x) by (apply Hy; by eapply list_elem_of_lookup_2).
  destruct (tx_thread _ _ Hx) as [th Ht]. assert (Hok : ref_alloc_ok ra pr (st y)) by by eapply fresh_ref_spec.
  assert (Hp : possible (Object i fp na ra allowed) y = true) by (cbn; by rewrite Hi, Hl, Hna, Hfr).
  destruct fp as [strong ptr c|strong h]; cbn [translate].
  - destruct (translate_binder_spec (D:=None) _ _ _ (st y) na ra allowed strong ptr c _ pr _ _ (sys_inv y Hy) Ht Hq Hal)
      as (ret & fp & s' & E & _ & _ & Hret); [by intros n Hn; eapply fresh_spec|done|].
    exists ret, fp, s'. split; [done|]. split; [|done]. intros Hr. destruct (Hret Hr) as [d ->]. done.
  - destruct (translate_handle_spec (D:=None) _ _ _ (st y) ra allowed strong h _ pr _ _ (sys_inv y Hy) Ht Hq Hal Hok)
      as (ret & fp & s' & E & _ & _ & Hret).
    by exists ret, fp, s'.
Qed.

(** What happens to the references of a transaction's objects is what the
    translation of its contents relies on. *)
Definition driver_translator_laws : @TranslatorLaws driver_translator.
Proof.
  exists receiver_ok.
  - intros n m y Hm (Hy & x & pr & ? & ? & ? & ?). split; [done|]. exists x, pr. split_and!; try done. lia.
  - intros n fp y Hn (Hy & x & pr & Hi & Hq & Hd & Hz).
    destruct (translates y x pr fp (node_alloc y) (ref_alloc y) (security fp)) as (ret & fp' & s' & E & Hret & Hp); try done; [lia|].
    destruct (step_object y Hy i fp (node_alloc y) (ref_alloc y) (security fp) Hp) as (y' & E' & Hy').
    exists ret, fp', y'. cbn [translate_flat driver_translator]. rewrite Hi. cbn [mbind option_bind]. rewrite E. cbn [mbind option_bind].
    rewrite E'. cbn [mbind option_bind]. split; [done|]. destruct (translate_grow _ _ _ _ _ _ _ _ _ _ E) as [Hg Hr].
    split; [split; [done|]|intros; apply Hret; lia].
    cbn in E'. rewrite Hi in E'. cbn [mbind option_bind] in E'. rewrite E in E'. cbn [mbind option_bind] in E'.
    injection E' as <-. cbn. destruct (Hg (x_target_proc x)) as [Hg1 Hg2]. unfold handles in Hg1. rewrite Hq in Hg1, Hg2.
    destruct (procs s' !! x_target_proc x) as [pr'|] eqn:Eq; [|done]. cbn in Hg1, Hg2. injection Hg2 as Hg2.
    eexists _, pr'. split; [apply list_lookup_insert_eq; by eapply lookup_lt_Some|]. cbn. rewrite Eq. split; [done|].
    split; [by rewrite Hg2|lia].
Defined.
End Implementation.
