(* ===== verification/BinderBufLayout.v ===== *)
(** * Binder driver: a layout of objects

    A layout that satisfies the laws BinderBufFacts states of the kernel's: an
    object is a sequence of 64-bit little-endian words, the type first. *)

From S2P Require Import Prelude BinderRef.
From S2P Require Import BinderAlloc BinderAllocInv BinderAllocNew BinderAllocFree BinderAllocData BinderAllocLife.
From S2P Require Import BinderBuf BinderBufFacts.

(** ** Words *)

Fixpoint le (l : list Z) (off n : nat) : Z :=
  match n with
  | O => 0
  | S n => default 0 (l !! off) mod 256 + 256 * le l (S off) n
  end.

Fixpoint bytes (n : nat) (x : Z) : list Z :=
  match n with
  | O => []
  | S n => x mod 256 :: bytes n (x / 256)
  end.

Lemma length_bytes n x : length (bytes n x) = n.
Proof. revert x. induction n as [|n IH]; intros x; [done|]. cbn. by rewrite IH. Qed.

Lemma le_range l off n : 0 <= le l off n < 256 ^ Z.of_nat n.
Proof.
  revert off. induction n as [|n IH]; intros off; [done|]. cbn [le]. specialize (IH (S off)).
  replace (Z.of_nat (S n)) with (Z.of_nat n + 1) by lia. rewrite Z.pow_add_r by lia. change (256 ^ 1) with 256.
  pose proof (Z.mod_pos_bound (default 0 (l !! off)) 256 ltac:(lia)). lia.
Qed.

Lemma le_ext l l' off n : (forall i, (off <= i < off + n)%nat -> l !! i = l' !! i) -> le l off n = le l' off n.
Proof.
  revert off. induction n as [|n IH]; intros off Hl; [done|]. cbn. rewrite Hl, IH by (intros; try apply Hl; lia). done.
Qed.

Lemma le_bytes n x l off : 0 <= x < 256 ^ Z.of_nat n ->
  (forall i, (i < n)%nat -> l !! (off + i)%nat = bytes n x !! i) -> le l off n = x.
Proof.
  revert x off. induction n as [|n IH]; intros x off Hx Hl; [cbn in *; lia|]. cbn [le].
  replace (Z.of_nat (S n)) with (Z.of_nat n + 1) in Hx by lia. rewrite Z.pow_add_r in Hx by lia. change (256 ^ 1) with 256 in Hx.
  rewrite (IH (x / 256)).
  - pose proof (Hl 0%nat ltac:(lia)) as H0. rewrite Nat.add_0_r in H0. rewrite H0. cbn. rewrite Z.mod_mod by lia. dlia.
  - split; [by apply Z.div_pos; lia|]. apply Z.div_lt_upper_bound; lia.
  - intros i Hi. specialize (Hl (S i) ltac:(lia)). rewrite <- Nat.add_succ_comm in Hl. exact Hl.
Qed.

Definition word (l : list Z) (i : nat) : Z := le l (8 * i) 8.
Definition put_word (i : nat) (x : Z) (l : list Z) : list Z := list_inserts (8 * i) (bytes 8 x) l.

Lemma word_range l i : in_u64 (word l i).
Proof. apply (le_range l (8 * i) 8). Qed.

Lemma word_put i x l : in_u64 x -> (8 * i + 8 <= length l)%nat -> word (put_word i x l) i = x.
Proof.
  intros Hx Hl. apply le_bytes; [exact Hx|]. intros j Hj. unfold put_word. rewrite list_lookup_inserts.
  - f_equal. lia.
  - rewrite length_bytes. lia.
  - lia.
Qed.

Lemma word_put_other i j x l : i <> j -> word (put_word i x l) j = word l j.
Proof.
  intros Hij. apply le_ext. intros k Hk. unfold put_word. destruct (decide (k < 8 * i)%nat).
  - by rewrite list_lookup_inserts_lt.
  - rewrite list_lookup_inserts_ge; [done|]. rewrite length_bytes. lia.
Qed.

Lemma length_put_word i x l : length (put_word i x l) = length l.
Proof. apply length_inserts. Qed.

Lemma word_local l l' n i : take n l = take n l' -> (8 * i + 8 <= n)%nat -> word l i = word l' i.
Proof.
  intros E Hi. apply le_ext. intros k Hk. rewrite <- (lookup_take_lt l n k), <- (lookup_take_lt l' n k) by lia. by rewrite E.
Qed.

#[local] Arguments word : simpl never.
#[local] Arguments put_word : simpl never.
#[local] Arguments bytes : simpl never.

(** ** Objects *)

Definition type_of (x : Z) : object_type :=
  match x with
  | 1 => BINDER_TYPE_BINDER
  | 2 => BINDER_TYPE_WEAK_BINDER
  | 3 => BINDER_TYPE_HANDLE
  | 4 => BINDER_TYPE_WEAK_HANDLE
  | 5 => BINDER_TYPE_FD
  | 6 => BINDER_TYPE_PTR
  | 7 => BINDER_TYPE_FDA
  | _ => BINDER_TYPE_OTHER
  end.

Definition get_flat (l : list Z) : flat_binder_object :=
  match type_of (word l 0) with
  | BINDER_TYPE_HANDLE => HANDLE true (word l 1)
  | BINDER_TYPE_WEAK_HANDLE => HANDLE false (word l 1)
  | ty => BINDER (bool_decide (ty = BINDER_TYPE_BINDER)) (word l 1) (word l 2)
  end.

Definition set_flat (o : flat_binder_object) (l : list Z) : list Z :=
  match o with
  | BINDER strong ptr cookie => put_word 0 (if strong then 1 else 2) (put_word 1 ptr (put_word 2 cookie l))
  | HANDLE strong handle => put_word 0 (if strong then 3 else 4) (put_word 1 handle l)
  end.

Definition get_bbo (l : list Z) : binder_buffer_object := {|
  has_parent := Z.odd (word l 1); bbo_buffer := word l 2; bbo_length := word l 3;
  bbo_parent := word l 4; bbo_parent_offset := word l 5 |}.

Definition set_bbo (x : binder_buffer_object) (l : list Z) : list Z :=
  put_word 1 (if has_parent x then 1 else 0) (put_word 2 (bbo_buffer x) (put_word 3 (bbo_length x)
    (put_word 4 (bbo_parent x) (put_word 5 (bbo_parent_offset x) l)))).

Definition words_uapi : Uapi := {|
  sizeof_object_header := 8;
  sizeof_flat_binder_object := 24;
  sizeof_fd_object := 24;
  sizeof_buffer_object := 48;
  sizeof_fd_array_object := 32;
  sizeof_object := 48;
  offsetof_fd := 8;
  hdr_type := fun l => type_of (word l 0);
  as_flat := get_flat;
  put_flat := set_flat;
  as_fd := fun l => le l 8 4;
  put_fd := put_word 1 0;
  as_bbo := get_bbo;
  put_bbo := set_bbo;
  as_fda := fun l => {| num_fds := word l 1; fda_parent := word l 2; fda_parent_offset := word l 3 |};
  as_u64 := fun l => word l 0;
  u64_bytes := bytes 8;
  as_u32 := fun l => le l 0 4;
|}.

Lemma zlen_put_word i x l : zlen (put_word i x l) = zlen l.
Proof. unfold zlen. by rewrite length_put_word. Qed.

Lemma words_laws : @UapiLaws words_uapi.
Proof.
  split; cbn; try done.
  - by intros [].
  - intros l l' _ _ E. by rewrite (word_local l l' (Z.to_nat 8)).
  - intros l l' _ _ E. unfold get_bbo. by rewrite !(word_local l l' (Z.to_nat 48)) by (done || lia).
  - intros l l' _ _ E. by rewrite !(word_local l l' (Z.to_nat 32)) by (done || lia).
  - intros l. by repeat split; apply word_range.
  - intros l. by repeat split; apply word_range.
  - intros x l (H1 & H2 & H3 & H4) Hl. unfold zlen in Hl. unfold get_bbo, set_bbo.
    assert (Hb : in_u64 (if has_parent x then 1 else 0)) by by destruct (has_parent x).
    repeat match goal with |- context [word (put_word ?i ?x ?l) ?j] => rewrite (word_put_other i j x l) by done end.
    rewrite !word_put by (rewrite ?length_put_word; done || lia).
    destruct x as [[] ? ? ? ?]; done.
  - intros x l. unfold set_bbo. by rewrite !word_put_other.
  - intros x l. unfold set_bbo. by rewrite !zlen_put_word.
  - intros [[] ? ?|[] ?] l Hl; unfold zlen in Hl; cbn; rewrite word_put by (rewrite ?length_put_word; done || lia);
      unfold flat_type; auto.
  - intros [? ? ?|? ?] l; cbn; by rewrite !zlen_put_word.
  - intros l. by rewrite word_put_other.
  - intros l. apply zlen_put_word.
  - intros l. apply word_range.
  - intros x Hx. apply le_bytes; [exact Hx|]. done.
Qed.
