(* ===== verification/BinderBufProps.v ===== *)
(** * What the receiver of a transaction finds in its buffer

    The properties of the part of binder_transaction that fills the receiver's
    buffer, for the translation of nodes and handles of BinderRef and for any
    sender and contents, and an example. *)

From S2P Require Import Prelude BinderRef BinderRefRun BinderRefSafe BinderRefStep BinderRefClose.
From S2P Require Import BinderAlloc BinderAllocInv BinderAllocNew BinderAllocFree BinderAllocData BinderAllocLife BinderAllocProps.
From S2P Require Import BinderBuf BinderBufFacts BinderBufInv BinderBufOps BinderBufStep BinderBufObject BinderBufLoop BinderBufFill BinderBufRef BinderBufLayout.

Section Props.
Context (sizeof : Z) (Hsizeof : 0 <= sizeof < 2 ^ 32).
Context `{UapiLaws}.

(** The buffer [b] of an allocator is in use for a transaction of these sizes. *)
Definition in_use_for (tr : transaction_data) (a : binder_alloc) (l1 : list binder_buffer) (b : binder_buffer)
    (l2 : list binder_buffer) : Prop :=
  alloc_wf sizeof a /\ buffers a = l1 ++ b :: l2 /\ free b = false /\ allow_user_free b = false /\
  made_for (size b l2 (hi_of a)) b tr.

Lemma in_use_state tr a l1 b l2 : in_use_for tr a l1 b l2 ->
  buf_state sizeof l1 b l2 (hi_of a) a /\ made_for (size b l2 (hi_of a)) b tr.
Proof. intros (? & ? & ? & ? & ?). split; [split; auto|done]. Qed.

(** C6. Whatever the sender's data is, filling the buffer for a receiver that
    is alive and has a handle left for every object ([receiver_ok]; neither is
    checked by the code on the way) ends without a fault, with or without an
    error, writes only to the buffer, leaves the allocator well formed with the
    same buffers, and keeps the invariant of nodes and references of all
    processes. *)
Theorem contents_contained (i : nat) node_alloc ref_alloc security
    (Hnode : forall y, fresh (node_alloc y) (nodes (st y)) = true) (Href : forall y, fresh (ref_alloc y) (refs (st y)) = true)
    (e : sender) (tr : transaction_data) l1 b l2 :
  let TR := driver_translator i node_alloc ref_alloc security in
  forall t : @txn_state TR,
  sender_ok e -> in_use_for tr (t_alloc t) l1 b l2 -> receiver_ok i (num_objects tr) (t_refs t) ->
  exists err c, fill_buffer e (entry b) tr t = Some (err, c) /\
    (forall y, y < user_data b \/ start_of l2 (hi_of (t_alloc t)) <= y -> mem (t_alloc (txn c)) y = mem (t_alloc t) y) /\
    alloc_wf sizeof (t_alloc (txn c)) /\ buffers (t_alloc (txn c)) = buffers (t_alloc t) /\
    sys_good (t_refs (txn c)).
Proof.
  intros TR t He Hb Hr. destruct (in_use_state _ _ _ _ _ Hb) as [Hs Hm].
  pose (TL := driver_translator_laws i node_alloc ref_alloc security Hnode Href).
  destruct (fill_spec (H2 := TL) sizeof Hsizeof l1 b l2 _ e He tr Hm t Hs Hr) as (err & c & E & [Ha [Hg _]] & Hc & _).
  exists err, c. split; [exact E|]. split; [|split; [apply Ha|split; [|exact Hg]]].
  - intros y Hy. apply Hc. unfold size. lia.
  - transitivity (l1 ++ b :: l2); [exact (bs_buffers _ _ _ _ _ _ Ha)|symmetry; exact (bs_buffers _ _ _ _ _ _ Hs)].
Qed.

Section Contents.
Context `{TranslatorLaws} (e : sender) (He : sender_ok e) (tr : transaction_data).
Context (l1 : list binder_buffer) (b : binder_buffer) (l2 : list binder_buffer) (t : txn_state).
Context (Hb : in_use_for tr (t_alloc t) l1 b l2) (Hr : tstate_ok (num_objects tr) (t_refs t)).

Lemma filled c : fill_buffer e (entry b) tr t = Some (None, c) ->
  exists f0, sent e b tr f0 /\
    cursor_ok sizeof l1 b l2 (hi_of (t_alloc t)) e (num_objects tr) (sg_limit b tr) f0 (num_objects tr) c.
Proof.
  intros E. destruct (in_use_state _ _ _ _ _ Hb) as [Hs Hm].
  destruct (fill_spec sizeof Hsizeof l1 b l2 _ e He tr Hm t Hs Hr) as (err & c' & E' & _ & _ & Hok).
  rewrite E in E'. injection E' as <- <-. by apply Hok.
Qed.

(** C4. When the contents were accepted, the objects are in
    the data, one behind the other; the copies of buffers are in the space for
    them and do not overlap; every pointer to a buffer with a parent is in its
    place inside the copy of the parent, which is an earlier object that is not
    at offset 0, and pointers and descriptors in the same parent do not
    overlap. *)
Theorem pointers_in_place c : fill_buffer e (entry b) tr t = Some (None, c) ->
  exists sg, sg <= sg_limit b tr /\ translated b (num_objects tr) (byte b (t_alloc (txn c))) (num_objects tr) sg.
Proof.
  intros E. destruct (filled c E) as (f0 & _ & Hc). exists (sg_buf_offset c). split; [apply Hc|apply Hc].
Qed.

(** C5. When the contents were accepted, the receiver has
    the sender's data and offsets, but for the objects; a buffer object has the
    sender's length, parent and parent offset, and its copy the bytes of the
    sender's buffer, but for the pointers put into it. *)
Theorem contents_copied c : fill_buffer e (entry b) tr t = Some (None, c) ->
  exists f0, sent e b tr f0 /\ copied b (num_objects tr) e f0 (byte b (t_alloc (txn c))) (num_objects tr).
Proof. intros E. destruct (filled c E) as (f0 & Hs & Hc). exists f0. split; [done|apply Hc]. Qed.

(** A buffer object at offset 0 is never a parent: its offset means that there
    is nothing to fix up in. *)
Lemma no_parent_at_zero c k p lo top : fill_buffer e (entry b) tr t = Some (None, c) ->
  let f := byte b (t_alloc (txn c)) in
  0 <= k < num_objects tr -> fixes b f k p lo top -> offs b f p <> 0.
Proof. intros E. destruct (pointers_in_place c E) as (sg & _ & Ht). intros f. apply (tr_nonzero _ _ _ _ _ Ht). Qed.
End Contents.
End Props.

(** ** An example *)

(** The process 1 has a handle for the context manager, a node of the process 2,
    and has begun a transaction to it. *)
Definition demo_system : system :=
  default init (run [Open 1; Open 2; NewThread 11 1; NewThread 22 2; SetContextManager 22 (Some 100) 64 65;
                     RefCount 11 0 (Some 200) true true; Begin 11 0 true] init).

Lemma demo_system_good : sys_good demo_system.
Proof. unfold demo_system. edestruct run_good as (y & -> & Hy); [exact init_good|exact Hy]. Qed.

(** It sends the handle and two buffers, the second with its pointer at offset 8
    of the first. *)
Definition demo_tr : transaction_data := {|
  data_ptr := 1000; offsets_ptr := 2000; tr_data_size := 128; tr_offsets_size := 24; tr_extra_size := 24; secctx_size := 0 |}.

Definition demo_memory : list (Z * list Z) := [
  (1000, flat_map (bytes 8) [0;  6; 0; 3000; 16; 0; 0;  6; 1; 4000; 8; 0; 8;  3; 0; 0]);
  (2000, flat_map (bytes 8) [8; 56; 104]);
  (3000, flat_map (bytes 8) [77; 0]);
  (4000, flat_map (bytes 8) [99])].

(** What a read from a process finds, zeros where it has nothing. *)
Definition read_memory (p n : Z) : list Z :=
  let l := default [] (snd <$> List.find (fun e => fst e =? p) demo_memory) in
  map (fun i => default 0 (rd l i)) (seqZ 0 n).

Definition demo_sender : sender := {|
  user_bytes := read_memory; user_fault := fun _ _ _ => 0; target_allows_fd := false; fget := fun _ => None;
  security_binder_transfer_file := fun _ => 0; kzalloc_fixup := fun _ => true |}.

Lemma demo_sender_ok : sender_ok demo_sender.
Proof.
  split; [|done]. intros p n Hn. cbn. unfold read_memory, zlen. rewrite length_map, length_seqZ. lia.
Qed.

(** Its buffer. *)
Definition demo_alloc : binder_alloc :=
  match @binder_alloc_new_buf_locked spine_rb 120 (demo_env 2%positive) demo 128 24 24 false 9 with
  | Some (_, a) => a
  | None => demo
  end.

Definition demo_buffer : binder_buffer := default (fresh_buffer 9%positive 0) (head (buffers demo_alloc)).
Definition demo_behind : list binder_buffer := drop 1 (buffers demo_alloc).

Lemma demo_in_use : in_use_for 120 demo_tr demo_alloc [] demo_buffer demo_behind.
Proof.
  split; [|split_and!; try (vm_compute; reflexivity)].
  - destruct (@new_buf_spec spine_rb 120 ltac:(lia) true (demo_env 2%positive) demo 128 24 24 false 9 demo_wf)
      as (r & a & E & Hwf & _); try lia.
    + intros n [= <-]. apply (bool_decide_unpack _). vm_compute. exact I.
    + unfold demo_alloc. by rewrite E.
  - split; vm_compute; repeat split; done.
Qed.

Definition demo_translator : Translator := driver_translator 0 (fun _ => None) (fun _ => None) (fun _ => true).

Definition demo_txn : @txn_state demo_translator := @Build_txn_state demo_translator demo_alloc demo_system [].

Lemma demo_receiver : receiver_ok 0 (num_objects demo_tr) demo_system.
Proof.
  split; [exact demo_system_good|]. do 2 eexists. split; [vm_compute; reflexivity|]. split; [vm_compute; reflexivity|].
  split; [reflexivity|]. vm_compute. done.
Qed.

Lemma demo_filled : exists c, @fill_buffer words_uapi demo_translator demo_sender (entry demo_buffer) demo_tr demo_txn = Some (None, c).
Proof.
  assert (E : match @fill_buffer words_uapi demo_translator demo_sender (entry demo_buffer) demo_tr demo_txn with
              | Some (None, _) => true | _ => false end = true) by (vm_compute; reflexivity).
  destruct fill_buffer as [[[] c]|]; [done| |done]. by exists c.
Qed.

Lemma contents_contained_witness : exists err c,
  @fill_buffer words_uapi demo_translator demo_sender (entry demo_buffer) demo_tr demo_txn = Some (err, c) /\
  sys_good (@t_refs demo_translator (@txn demo_translator c)).
Proof.
  destruct (@contents_contained 120 ltac:(lia) words_uapi words_laws 0 (fun _ => None) (fun _ => None) (fun _ => true)
    (fun _ => eq_refl) (fun _ => eq_refl) demo_sender demo_tr [] demo_buffer demo_behind demo_txn demo_sender_ok demo_in_use
    demo_receiver) as (err & c & E & _ & _ & _ & Hg).
  exists err, c. split; [exact E|exact Hg].
Defined.

Definition demo_laws : @TranslatorLaws demo_translator :=
  driver_translator_laws 0 (fun _ => None) (fun _ => None) (fun _ => true) (fun _ => eq_refl) (fun _ => eq_refl).

Lemma pointers_in_place_witness : exists c sg,
  @fill_buffer words_uapi demo_translator demo_sender (entry demo_buffer) demo_tr demo_txn = Some (None, c) /\
  @translated demo_buffer words_uapi 3 (byte demo_buffer (t_alloc (@txn demo_translator c))) 3 sg.
Proof.
  destruct demo_filled as [c E].
  destruct (@pointers_in_place 120 ltac:(lia) words_uapi words_laws demo_translator demo_laws demo_sender demo_sender_ok demo_tr
    [] demo_buffer demo_behind demo_txn demo_in_use demo_receiver c E) as (sg & _ & Ht).
  exists c, sg. split; [exact E|exact Ht].
Defined.

Lemma contents_copied_witness : exists c f0,
  @fill_buffer words_uapi demo_translator demo_sender (entry demo_buffer) demo_tr demo_txn = Some (None, c) /\
  sent demo_sender demo_buffer demo_tr f0 /\
  @copied demo_buffer 3 demo_sender words_uapi f0 (byte demo_buffer (t_alloc (@txn demo_translator c))) 3.
Proof.
  destruct demo_filled as [c E].
  destruct (@contents_copied 120 ltac:(lia) words_uapi words_laws demo_translator demo_laws demo_sender demo_sender_ok demo_tr
    [] demo_buffer demo_behind demo_txn demo_in_use demo_receiver c E) as (f0 & Hs & Hc).
  exists c, f0. split; [exact E|]. split; [exact Hs|exact Hc].
Defined.
