(* ===== verification/BinderCall.v ===== *)
(** * Binder driver: calls, replies and their transactions

    Model of the part of binder.c that makes a call out of transactions: the
    stack of transactions of each thread, the delivery of transactions and of
    replies, the queue of asynchronous transactions of a node, and what becomes
    of the transactions of a thread or process that dies.

    Nodes, references and the contents of buffers are in BinderRef and
    BinderBuf; here a call is given the node it goes to.  As there, the lists of
    works are one list, [works], in the order of their insertion, whose elements
    carry the list they are on.  A result [None] is a BUG of the code or the use
    of an object that has been freed.  What wakes a thread up is not part of the
    state: [wake_up] can happen at any time. *)

From S2P Require Import Prelude.

(** ** Data *)

(** [e->cmd] of an error, and what a process reads. *)
Inductive br := BR_OK | BR_DEAD_REPLY | BR_FAILED_REPLY | BR_TRANSACTION_COMPLETE | BR_TRANSACTION | BR_REPLY.

#[export] Instance br_eq : EqDecision br.
Proof. solve_decision. Defined.

Inductive queue := ThreadTodo (t : Z) | ProcTodo (p : Z) | AsyncTodo (n : Z).

#[export] Instance queue_eq : EqDecision queue.
Proof. solve_decision. Defined.

(** [Complete x] is the work [tcomplete] allocated with the transaction [x];
    [ReturnError] and [ReplyError] are fields of a thread; [Other] is work of
    other kinds. *)
Inductive work := Txn (x : Z) | Complete (x : Z) | ReturnError (t : Z) | ReplyError (t : Z) | Other (w : Z).

#[export] Instance work_eq : EqDecision work.
Proof. solve_decision. Defined.

(** [one_way] is TF_ONE_WAY. *)
Record binder_transaction := {
  from : option Z;
  from_parent : option Z;
  to_proc : option Z;
  to_thread : option Z;
  to_parent : option Z;
  one_way : bool;
  buffer : option Z;
}.

#[export] Instance eta_transaction : Eta binder_transaction := fun x =>
  Build_binder_transaction (from x) (from_parent x) (to_proc x) (to_thread x) (to_parent x) (one_way x) (buffer x).

Record binder_buffer := {
  b_proc : Z;
  transaction : option Z;
  target_node : option Z;
  async_transaction : bool;
  allow_user_free : bool;
}.

#[export] Instance eta_buffer : Eta binder_buffer := fun b =>
  Build_binder_buffer (b_proc b) (transaction b) (target_node b) (async_transaction b) (allow_user_free b).

(** [looper] is set for a thread that entered or was registered as a looper. *)
Record binder_thread := {
  t_proc : Z;
  looper : bool;
  transaction_stack : option Z;
  process_todo : bool;
  return_error : br;
  reply_error : br;
  is_dead : bool;
  tmp_ref : Z;
}.

#[export] Instance eta_thread : Eta binder_thread := fun t =>
  Build_binder_thread (t_proc t) (looper t) (transaction_stack t) (process_todo t) (return_error t) (reply_error t)
    (is_dead t) (tmp_ref t).

Record binder_proc := { waiting_threads : list Z; p_is_dead : bool; p_tmp_ref : Z }.

#[export] Instance eta_proc : Eta binder_proc := fun p =>
  Build_binder_proc (waiting_threads p) (p_is_dead p) (p_tmp_ref p).

Record binder_node := { n_proc : option Z; has_async_transaction : bool }.

#[export] Instance eta_node : Eta binder_node := fun n => Build_binder_node (n_proc n) (has_async_transaction n).

Record state := {
  txns : gmap Z binder_transaction;
  buffers : gmap Z binder_buffer;
  threads : gmap Z binder_thread;
  procs : gmap Z binder_proc;
  nodes : gmap Z binder_node;
  works : list (queue * work);
}.

#[export] Instance eta_state : Eta state := fun s =>
  Build_state (txns s) (buffers s) (threads s) (procs s) (nodes s) (works s).

Section Driver.
Implicit Types s : state.

Definition on_txn (x : Z) f s : state := s <| txns ::= alter f x |>.
Definition on_buffer (b : Z) f s : state := s <| buffers ::= alter f b |>.
Definition on_thread (t : Z) f s : state := s <| threads ::= alter f t |>.
Definition on_proc (p : Z) f s : state := s <| procs ::= alter f p |>.
Definition on_node (n : Z) f s : state := s <| nodes ::= alter f n |>.

(** ** Works *)

Definition binder_enqueue_work_ilocked (w : work) (l : queue) s : option state :=
  if bool_decide (w ∈ (works s).*2) then None else Some (s <| works ::= fun ws => ws ++ [(l, w)] |>).

(** The warning about a thread that waits for work of its process is not
    modelled: the work is queued all the same. *)
Definition binder_enqueue_deferred_thread_work_ilocked (t : Z) (w : work) s : option state :=
  _ ← threads s !! t; binder_enqueue_work_ilocked w (ThreadTodo t) s.

Definition binder_enqueue_thread_work_ilocked (t : Z) (w : work) s : option state :=
  s ← binder_enqueue_deferred_thread_work_ilocked t w s;
  Some (on_thread t (fun th => th <| process_todo := true |>) s).

Definition binder_dequeue_work (w : work) s : state := s <| works ::= filter (fun e => e.2 ≠ w) |>.

Definition work_head (l : queue) s : option work := snd <$> List.find (fun e => bool_decide (e.1 = l)) (works s).

Definition binder_worklist_empty_ilocked (l : queue) s : bool :=
  match work_head l s with Some _ => false | None => true end.

Definition binder_available_for_proc_work_ilocked (t : Z) (th : binder_thread) s : bool :=
  bool_decide (transaction_stack th = None) && binder_worklist_empty_ilocked (ThreadTodo t) s && looper th.

Definition binder_select_thread_ilocked (p : Z) s : option (option Z * state) :=
  pr ← procs s !! p;
  match waiting_threads pr with
  | [] => Some (None, s)
  | t :: ts => Some (Some t, on_proc p (fun pr => pr <| waiting_threads := ts |>) s)
  end.

(** A wake-up itself has no effect on the state. *)
Definition binder_wakeup_proc_ilocked (p : Z) s : option state :=
  '(_, s) ← binder_select_thread_ilocked p s; Some s.

(** ** Lifetimes *)

(** The tree of the threads of a process has those that have not been released. *)
Definition no_threads (p : Z) s : bool :=
  forallb (fun e => negb (t_proc (snd e) =? p) || is_dead (snd e)) (map_to_list (threads s)).

(** The buffers go with the process: binder_alloc_deferred_release.  The works
    of death notifications are those of BinderRef. *)
Definition binder_free_proc (p : Z) s : option state :=
  if negb (binder_worklist_empty_ilocked (ProcTodo p) s) then None
  else if existsb (fun e => (b_proc (snd e) =? p) && bool_decide (is_Some (transaction (snd e)))) (map_to_list (buffers s)) then None
  else Some (s <| procs ::= delete p |> <| buffers ::= filter (fun e => b_proc (snd e) <> p) |>).

Definition binder_proc_dec_tmpref (p : Z) s : option state :=
  let s := on_proc p (fun pr => pr <| p_tmp_ref ::= fun c => c - 1 |>) s in
  pr ← procs s !! p;
  if p_is_dead pr && no_threads p s && (p_tmp_ref pr =? 0) then binder_free_proc p s else Some s.

Definition binder_free_thread (t : Z) s : option state :=
  th ← threads s !! t;
  if negb (binder_worklist_empty_ilocked (ThreadTodo t) s) then None
  else s ← binder_proc_dec_tmpref (t_proc th) s; Some (s <| threads ::= delete t |>).

Definition binder_thread_dec_tmpref (t : Z) s : option state :=
  let s := on_thread t (fun th => th <| tmp_ref ::= fun c => c - 1 |>) s in
  th ← threads s !! t;
  if is_dead th && (tmp_ref th =? 0) then binder_free_thread t s else Some s.

Definition binder_get_txn_from (x : Z) s : option (option Z * state) :=
  tx ← txns s !! x;
  match from tx with
  | None => Some (None, s)
  | Some t => _ ← threads s !! t; Some (Some t, on_thread t (fun th => th <| tmp_ref ::= Z.add 1 |>) s)
  end.

(** ** The end of a transaction *)

Definition binder_pop_transaction_ilocked (t x : Z) s : option state :=
  th ← threads s !! t;
  tx ← txns s !! x;
  if bool_decide (transaction_stack th = Some x) && bool_decide (from tx = Some t) then
    Some (on_txn x (fun tx => tx <| from := None |>) (on_thread t (fun th => th <| transaction_stack := from_parent tx |>) s))
  else None.

Definition binder_free_transaction (x : Z) s : option state :=
  tx ← txns s !! x;
  s ← (match to_proc tx, buffer tx with
       | Some p, Some b => _ ← procs s !! p; _ ← buffers s !! b; Some (on_buffer b (fun b => b <| transaction := None |>) s)
       | _, _ => Some s
       end);
  Some (s <| txns ::= delete x |>).

(** The caller is told of an error; when it is dead, the one that called it. *)
Definition failed_reply_step (error : br) (x : Z) s : option ((Z * state) + state) :=
  tx ← txns s !! x;
  '(target, s) ← binder_get_txn_from x s;
  match target with
  | Some t =>
      s ← binder_pop_transaction_ilocked t x s;
      th ← threads s !! t;
      s ← (if bool_decide (reply_error th = BR_OK) then
             binder_enqueue_thread_work_ilocked t (ReplyError t) (on_thread t (fun th => th <| reply_error := error |>) s)
           else Some s);
      s ← binder_thread_dec_tmpref t s;
      s ← binder_free_transaction x s;
      Some (inr s)
  | None =>
      s ← binder_free_transaction x s;
      Some (match from_parent tx with Some next => inl (next, s) | None => inr s end)
  end.

Definition binder_send_failed_reply (x : Z) (error : br) s : option state :=
  tx ← txns s !! x;
  if one_way tx then None
  else loop (S (size (txns s))) (fun '(x, s) => failed_reply_step error x s) (x, s).

Definition binder_cleanup_transaction (x : Z) (error : br) s : option state :=
  tx ← txns s !! x;
  b ← buffer tx;
  bf ← buffers s !! b;
  if bool_decide (is_Some (target_node bf)) && negb (one_way tx) then binder_send_failed_reply x error s
  else binder_free_transaction x s.

(** ** binder_transaction *)

(** What binder_transaction knows between the choice of the target and the
    delivery, while it copies and translates the data. *)
Record in_progress := {
  d_thread : Z;                (* the sender *)
  d_one_way : bool;
  d_reply : option Z;          (* in_reply_to *)
  d_node : option Z;           (* target_node *)
  d_proc : Z;                  (* target_proc *)
  d_target : option Z;         (* target_thread *)
}.

(** The error exit, from err_dead_binder on. *)
Definition transaction_failed (t : Z) (error : br) (in_reply_to target_thread target_proc : option Z) s : option state :=
  s ← (match target_thread with Some t => binder_thread_dec_tmpref t s | None => Some s end);
  s ← (match target_proc with Some p => binder_proc_dec_tmpref p s | None => Some s end);
  th ← threads s !! t;
  if negb (bool_decide (return_error th = BR_OK)) then None
  else
    let cmd := if in_reply_to then BR_TRANSACTION_COMPLETE else error in
    s ← binder_enqueue_thread_work_ilocked t (ReturnError t) (on_thread t (fun th => th <| return_error := cmd |>) s);
    match in_reply_to with Some x => binder_send_failed_reply x error s | None => Some s end.

(** A reply goes to the thread that waits for it.  The result is None when the
    transaction has failed. *)
Definition begin_reply (t : Z) (one_way : bool) s : option (option in_progress * state) :=
  th ← threads s !! t;
  let failed error in_reply_to s := s ← transaction_failed t error in_reply_to None None s; Some (None, s) in
  match transaction_stack th with
  | None => failed BR_FAILED_REPLY None s
  | Some x =>
      tx ← txns s !! x;
      if negb (bool_decide (to_thread tx = Some t)) then failed BR_FAILED_REPLY None s
      else
        let s := on_thread t (fun th => th <| transaction_stack := to_parent tx |>) s in
        '(target, s) ← binder_get_txn_from x s;
        match target with
        | None => failed BR_DEAD_REPLY (Some x) s
        | Some target =>
            tg ← threads s !! target;
            if negb (bool_decide (transaction_stack tg = Some x)) then failed BR_FAILED_REPLY None s
            else
              _ ← procs s !! t_proc tg;
              Some (Some {| d_thread := t; d_one_way := one_way; d_reply := Some x; d_node := None; d_proc := t_proc tg;
                            d_target := Some target |},
                    on_proc (t_proc tg) (fun pr => pr <| p_tmp_ref ::= Z.add 1 |>) s)
        end
  end.

(** The nearest caller in the process [p]. *)
Definition find_caller (p : Z) (x : option Z) s : option (option Z) :=
  loop (S (size (txns s))) (fun x =>
    match x with
    | None => Some (inr None)
    | Some x =>
        tx ← txns s !! x;
        match from tx with
        | Some t =>
            th ← threads s !! t;
            if t_proc th =? p then Some (inr (Some t)) else Some (inl (from_parent tx))
        | None => Some (inl (from_parent tx))
        end
    end) x.

Definition head_is_txn (t : Z) s : bool := match work_head (ThreadTodo t) s with Some (Txn _) => true | _ => false end.

(** A call to the node [n], or the error that there is no such node. *)
Definition begin_call (t : Z) (one_way : bool) (n : br + Z) (allowed : bool) s : option (option in_progress * state) :=
  th ← threads s !! t;
  let failed error p s := s ← transaction_failed t error None None p s; Some (None, s) in
  match n with
  | inl error => failed error None s
  | inr n =>
      nd ← nodes s !! n;
      match n_proc nd with
      | None => failed BR_DEAD_REPLY None s
      | Some p =>
          _ ← procs s !! p;
          let s := on_proc p (fun pr => pr <| p_tmp_ref ::= Z.add 1 |>) s in
          if (t_proc th =? p) || negb allowed then failed BR_FAILED_REPLY (Some p) s
          else if negb one_way && head_is_txn t s then failed BR_FAILED_REPLY (Some p) s
          else
            bad ← (match transaction_stack th with
                   | Some x => if one_way then Some false
                               else tx ← txns s !! x; Some (negb (bool_decide (to_thread tx = Some t)))
                   | None => Some false
                   end);
            if bad : bool then failed BR_FAILED_REPLY (Some p) s
            else
              target ← (if one_way then Some None else find_caller p (transaction_stack th) s);
              let s := match target with Some t => on_thread t (fun th => th <| tmp_ref ::= Z.add 1 |>) s | None => s end in
              Some (Some {| d_thread := t; d_one_way := one_way; d_reply := None; d_node := Some n; d_proc := p; d_target := target |}, s)
      end
  end.

(** A transaction that fails before its delivery. *)
Definition break (d : in_progress) (error : br) s : option state :=
  transaction_failed (d_thread d) error (d_reply d) (d_target d) (Some (d_proc d)) s.

Definition binder_proc_transaction (x n p : Z) (one_way : bool) (thread : option Z) s : option (bool * state) :=
  nd ← nodes s !! n;
  let pending_async := one_way && has_async_transaction nd in
  let s := if one_way then on_node n (fun nd => nd <| has_async_transaction := true |>) s else s in
  pr ← procs s !! p;
  dead ← (match thread with Some t => th ← threads s !! t; Some (is_dead th) | None => Some false end);
  if one_way && bool_decide (is_Some thread) then None
  else if p_is_dead pr || dead then Some (false, s)
  else
    '(thread, s) ← (match thread with
                    | None => if pending_async then Some (None, s) else binder_select_thread_ilocked p s
                    | Some t => Some (Some t, s)
                    end);
    s ← (match thread with
         | Some t => binder_enqueue_thread_work_ilocked t (Txn x) s
         | None => binder_enqueue_work_ilocked (Txn x) (if pending_async then AsyncTodo n else ProcTodo p) s
         end);
    Some (true, s).

(** The delivery, with the addresses of the transaction and of its buffer;
    err_dead_proc_or_thread takes them back. *)
Definition new_transaction (d : in_progress) (x b : Z) s : state :=
  s <| txns ::= <[x := {| from := if d_reply d then None else if d_one_way d then None else Some (d_thread d);
                          from_parent := None; to_proc := Some (d_proc d); to_thread := d_target d; to_parent := None;
                          one_way := d_one_way d; buffer := Some b |}]> |>
    <| buffers ::= <[b := {| b_proc := d_proc d; transaction := Some x; target_node := d_node d;
                             async_transaction := negb (bool_decide (is_Some (d_reply d))) && d_one_way d;
                             allow_user_free := false |}]> |>.

Definition dead_proc_or_thread (d : in_progress) (x b : Z) s : option state :=
  let s := binder_dequeue_work (Complete x) s in
  break d BR_DEAD_REPLY (s <| buffers ::= delete b |> <| txns ::= delete x |>).

Definition delivered (d : in_progress) s : option state :=
  s ← (match d_target d with Some t => binder_thread_dec_tmpref t s | None => Some s end);
  binder_proc_dec_tmpref (d_proc d) s.

Definition finish (d : in_progress) (x b : Z) s : option state :=
  let t := d_thread d in
  let s := new_transaction d x b s in
  match d_reply d with
  | Some r =>
      s ← binder_enqueue_thread_work_ilocked t (Complete x) s;
      target ← d_target d;
      tg ← threads s !! target;
      if is_dead tg then dead_proc_or_thread d x b s
      else
        s ← binder_pop_transaction_ilocked target r s;
        s ← binder_enqueue_thread_work_ilocked target (Txn x) s;
        s ← binder_free_transaction r s;
        delivered d s
  | None =>
      n ← d_node d;
      if negb (d_one_way d) then
        s ← binder_enqueue_deferred_thread_work_ilocked t (Complete x) s;
        th ← threads s !! t;
        let s := on_txn x (fun tx => tx <| from_parent := transaction_stack th |>) s in
        let s := on_thread t (fun th => th <| transaction_stack := Some x |>) s in
        '(ok, s) ← binder_proc_transaction x n (d_proc d) false (d_target d) s;
        if ok : bool then delivered d s
        else s ← binder_pop_transaction_ilocked t x s; dead_proc_or_thread d x b s
      else
        s ← binder_enqueue_thread_work_ilocked t (Complete x) s;
        '(ok, s) ← binder_proc_transaction x n (d_proc d) true None s;
        if ok : bool then delivered d s else dead_proc_or_thread d x b s
  end.

(** ** Reading *)

(** BC_FREE_BUFFER, and buffers whose descriptors could not be installed. *)
Definition binder_free_buf (p b : Z) s : option state :=
  bf ← buffers s !! b;
  s ← (match transaction bf with
       | Some x => _ ← txns s !! x;
                   Some (on_txn x (fun tx => tx <| buffer := None |>) (on_buffer b (fun bf => bf <| transaction := None |>) s))
       | None => Some s
       end);
  s ← (match target_node bf with
       | Some n =>
           if async_transaction bf then
             nd ← nodes s !! n;
             if negb (has_async_transaction nd) || negb (bool_decide (n_proc nd = Some p)) then None
             else
               match work_head (AsyncTodo n) s with
               | None => Some (on_node n (fun nd => nd <| has_async_transaction := false |>) s)
               | Some w =>
                   s ← binder_enqueue_work_ilocked w (ProcTodo p) (binder_dequeue_work w s);
                   binder_wakeup_proc_ilocked p s
               end
           else Some s
       | None => Some s
       end);
  Some (s <| buffers ::= delete b |>).

(** A transaction is handed to a thread; [fixups] is the outcome of
    binder_apply_fd_fixups.  The result is what the thread reads. *)
Definition read_transaction (t p x : Z) (fixups : bool) s : option (option br * state) :=
  tx ← txns s !! x;
  b ← buffer tx;
  bf ← buffers s !! b;
  let cmd := if target_node bf then BR_TRANSACTION else BR_REPLY in
  _ ← (match from tx with Some t => _ ← threads s !! t; Some tt | None => Some tt end);
  if negb fixups then
    s ← binder_cleanup_transaction x BR_FAILED_REPLY (on_buffer b (fun bf => bf <| transaction := None |>) s);
    s ← binder_free_buf p b s;
    Some (if target_node bf then None else Some BR_FAILED_REPLY, s)
  else
    let s := on_buffer b (fun bf => bf <| allow_user_free := true |>) s in
    if target_node bf then
      if one_way tx then s ← binder_free_transaction x s; Some (Some cmd, s)
      else
        th ← threads s !! t;
        Some (Some cmd, on_thread t (fun th => th <| transaction_stack := Some x |>)
                          (on_txn x (fun tx => tx <| to_parent := transaction_stack th |> <| to_thread := Some t |>) s))
    else s ← binder_free_transaction x s; Some (Some cmd, s).

(** The next work of a thread, or of its process when the thread may do that. *)
Definition next_work (t : Z) (th : binder_thread) s : option work :=
  if negb (binder_worklist_empty_ilocked (ThreadTodo t) s) then work_head (ThreadTodo t) s
  else if binder_available_for_proc_work_ilocked t th s then work_head (ProcTodo (t_proc th)) s
  else None.

(** One round of the loop of binder_thread_read. *)
Definition binder_thread_read (t : Z) (fixups : bool) s : option (option br * state) :=
  th ← threads s !! t;
  match next_work t th s with
  | None => Some (None, s)
  | Some w =>
      let s := binder_dequeue_work w s in
      let s := if binder_worklist_empty_ilocked (ThreadTodo t) s
               then on_thread t (fun th => th <| process_todo := false |>) s else s in
      match w with
      | Txn x => read_transaction t (t_proc th) x fixups s
      | ReturnError e =>
          th ← threads s !! e;
          Some (Some (return_error th), on_thread e (fun th => th <| return_error := BR_OK |>) s)
      | ReplyError e =>
          th ← threads s !! e;
          Some (Some (reply_error th), on_thread e (fun th => th <| reply_error := BR_OK |>) s)
      | Complete _ => Some (Some BR_TRANSACTION_COMPLETE, s)
      | Other _ => Some (None, s)
      end
  end.

(** binder_wait_for_work: the thread goes to sleep, and it wakes up. *)
Definition binder_wait_for_work (t : Z) s : option state :=
  th ← threads s !! t;
  if process_todo th || (binder_available_for_proc_work_ilocked t th s && negb (binder_worklist_empty_ilocked (ProcTodo (t_proc th)) s))
  then Some s
  else if binder_available_for_proc_work_ilocked t th s then Some (on_proc (t_proc th) (fun pr => pr <| waiting_threads ::= cons t |>) s)
  else Some s.

Definition wake_up (t : Z) s : option state :=
  th ← threads s !! t;
  Some (on_proc (t_proc th) (fun pr => pr <| waiting_threads ::= filter (fun t' => t' ≠ t) |>) s).

(** ** Release *)

Definition release_one_work (w : work) s : option state :=
  match w with Txn x => binder_cleanup_transaction x BR_DEAD_REPLY s | _ => Some s end.

Definition binder_release_work (l : queue) s : option state :=
  loop (S (S (length (works s)))) (fun s =>
    match work_head l s with
    | None => Some (inr s)
    | Some w => s ← release_one_work w (binder_dequeue_work w s); Some (inl s)
    end) s.

(** The stack of a thread that dies. *)
Definition forget_transaction (t x : Z) s : option ((option Z * state) + state) :=
  tx ← txns s !! x;
  if bool_decide (to_thread tx = Some t) then
    let s := on_txn x (fun tx => tx <| to_proc := None |> <| to_thread := None |>) s in
    s ← (match buffer tx with
         | Some b => _ ← buffers s !! b;
                     Some (on_txn x (fun tx => tx <| buffer := None |>) (on_buffer b (fun bf => bf <| transaction := None |>) s))
         | None => Some s
         end);
    Some (inl (to_parent tx, s))
  else if bool_decide (from tx = Some t) then
    Some (inl (from_parent tx, on_txn x (fun tx => tx <| from := None |>) s))
  else None.

Definition release_stack (t : Z) (x : option Z) s : option state :=
  loop (S (size (txns s))) (fun '(x, s) =>
    match x with None => Some (inr s) | Some x => forget_transaction t x s end) (x, s).

Definition binder_thread_release (t : Z) s : option state :=
  th ← threads s !! t;
  let s := on_proc (t_proc th) (fun pr => pr <| p_tmp_ref ::= Z.add 1 |>) s in
  let s := on_thread t (fun th => th <| tmp_ref ::= Z.add 1 |> <| is_dead := true |>) s in
  send_reply ← (match transaction_stack th with
                | Some x => tx ← txns s !! x; Some (if bool_decide (to_thread tx = Some t) then Some x else None)
                | None => Some None
                end);
  s ← release_stack t (transaction_stack th) s;
  s ← (match send_reply with Some x => binder_send_failed_reply x BR_DEAD_REPLY s | None => Some s end);
  s ← binder_release_work (ThreadTodo t) s;
  binder_thread_dec_tmpref t s.

Fixpoint release_threads (ts : list Z) s : option state :=
  match ts with [] => Some s | t :: ts => s ← binder_thread_release t s; release_threads ts s end.

(** A node loses its process; BinderRef says when it is freed. *)
Fixpoint release_nodes (ns : list Z) s : option state :=
  match ns with
  | [] => Some s
  | n :: ns =>
      s ← binder_release_work (AsyncTodo n) s;
      release_nodes ns (on_node n (fun nd => nd <| n_proc := None |>) s)
  end.

(** The trees of a process are ordered by the numbers of the threads and by the
    addresses of the nodes, here by their keys. *)
Definition proc_threads (p : Z) s : list Z :=
  merge_sort Z.le (filter (fun e => t_proc (snd e) = p /\ is_dead (snd e) = false) (map_to_list (threads s))).*1.

Definition proc_nodes (p : Z) s : list Z :=
  merge_sort Z.le (filter (fun e => n_proc (snd e) = Some p) (map_to_list (nodes s))).*1.

Definition binder_deferred_release (p : Z) s : option state :=
  _ ← procs s !! p;
  let s := on_proc p (fun pr => pr <| p_tmp_ref ::= Z.add 1 |> <| p_is_dead := true |>) s in
  s ← release_threads (proc_threads p s) s;
  s ← release_nodes (proc_nodes p s) s;
  s ← binder_release_work (ProcTodo p) s;
  binder_proc_dec_tmpref p s.
End Driver.
