(* ===== verification/BinderCallFacts.v ===== *)
(** * Binder driver: works of calls

    Lists of works, and what sending an error to a caller does. *)

From S2P Require Import Prelude BinderCall.

(** ** Lists of works *)

Definition todo (l : queue) (s : state) : list work := (filter (fun e => e.1 = l) (works s)).*2.

Lemma work_head_todo l s : work_head l s = head (todo l s).
Proof.
  unfold work_head, todo. induction (works s) as [|[l' w] ws IH]; [done|]. cbn [List.find fst]. rewrite filter_cons. cbn.
  destruct (decide (l' = l)) as [->|]; [by rewrite bool_decide_eq_true_2|by rewrite bool_decide_eq_false_2].
Qed.

Lemma todo_queued l s w : w ∈ todo l s -> w ∈ (works s).*2.
Proof.
  intros ([l' w'] & -> & Hin)%list_elem_of_fmap. apply list_elem_of_filter in Hin as [_ Hin]. apply list_elem_of_fmap. by exists (l', w').
Qed.

Lemma todo_snoc l l' w s : todo l (s <| works ::= fun ws => ws ++ [(l', w)] |>) = todo l s ++ (if decide (l' = l) then [w] else []).
Proof.
  unfold todo. cbn. rewrite filter_app, fmap_app. f_equal. rewrite filter_cons. cbn. by destruct (decide (l' = l)).
Qed.

Lemma elem_of_todo l w s : w ∈ todo l s <-> (l, w) ∈ works s.
Proof.
  unfold todo. rewrite list_elem_of_fmap. split.
  - intros ([l' w'] & -> & [Hl Hin]%list_elem_of_filter). cbn in Hl. by subst.
  - intros Hin. exists (l, w). split; [done|]. by apply list_elem_of_filter.
Qed.

(** A work is queued once. *)
Lemma todo_once l l' w s : NoDup (works s).*2 -> w ∈ todo l s -> w ∈ todo l' s -> l = l'.
Proof.
  rewrite !elem_of_todo. generalize (works s). intros ws Hd H1 H2.
  apply list_elem_of_lookup in H1 as [i Hi], H2 as [j Hj].
  assert (i = j) as <- by (eapply (NoDup_lookup ws.*2); [done|by rewrite list_lookup_fmap, Hi|by rewrite list_lookup_fmap, Hj]).
  congruence.
Qed.

Lemma todo_NoDup l s : NoDup (works s).*2 -> NoDup (todo l s).
Proof. intros H. eapply sublist_NoDup; [done|]. apply fmap_sublist, sublist_filter. Qed.

Lemma todo_dequeue l w s : todo l (binder_dequeue_work w s) = filter (fun w' => w' <> w) (todo l s).
Proof.
  unfold todo, binder_dequeue_work. cbn. induction (works s) as [|[l' w'] ws IH]; [done|].
  rewrite !filter_cons. cbn. destruct (decide (w' <> w)) as [Hw|Hw], (decide (l' = l)) as [Hl|Hl]; rewrite ?filter_cons; cbn;
    rewrite ?(decide_True _ _ Hl), ?(decide_False _ _ Hl); cbn; rewrite ?filter_cons, ?(decide_True _ _ Hw), ?(decide_False _ _ Hw); cbn; by rewrite ?IH.
Qed.

Lemma filter_others (w : work) (ws : list work) : w ∉ ws -> filter (fun w' => w' <> w) ws = ws.
Proof.
  induction ws as [|w' ws IH]; [done|]. intros [Hn H]%not_elem_of_cons. rewrite filter_cons_True by congruence. by rewrite IH.
Qed.

Lemma todo_dequeue_other l l' w s : NoDup (works s).*2 -> w ∈ todo l s -> l' <> l -> todo l' (binder_dequeue_work w s) = todo l' s.
Proof. intros Hd Hw Hl. rewrite todo_dequeue. apply filter_others. intros Hw'. apply Hl. by eapply todo_once. Qed.

Lemma todo_dequeue_head l w ws s : NoDup (works s).*2 -> todo l s = w :: ws -> todo l (binder_dequeue_work w s) = ws.
Proof.
  intros Hd Hw. rewrite todo_dequeue, Hw. pose proof (todo_NoDup l s Hd) as Hn. rewrite Hw in Hn. apply NoDup_cons in Hn as [Hn _].
  rewrite filter_cons_False by (intros H; by apply H). by apply filter_others.
Qed.

Lemma dequeue_works w s w' : w' ∈ (works (binder_dequeue_work w s)).*2 <-> w' ∈ (works s).*2 /\ w' <> w.
Proof.
  unfold binder_dequeue_work. cbn. rewrite !list_elem_of_fmap. setoid_rewrite list_elem_of_filter. split.
  - intros (e & -> & Hne & Hin). split; [by exists e|done].
  - intros [(e & -> & Hin) Hne]. by exists e.
Qed.

Lemma dequeue_once w s : NoDup (works s).*2 -> NoDup (works (binder_dequeue_work w s)).*2.
Proof. intros H. eapply sublist_NoDup; [done|]. apply fmap_sublist, sublist_filter. Qed.

Lemma todo_app l s s' ws : works s' = works s ++ ws -> todo l s' = todo l s ++ (filter (fun e => e.1 = l) ws).*2.
Proof. intros H. unfold todo. by rewrite H, filter_app, fmap_app. Qed.

Lemma enqueue_ok w l s : w ∉ (works s).*2 -> binder_enqueue_work_ilocked w l s = Some (s <| works ::= fun ws => ws ++ [(l, w)] |>).
Proof. intros Hw. unfold binder_enqueue_work_ilocked. by rewrite bool_decide_eq_false_2. Qed.

Lemma thread_deferred_ok t th w s : threads s !! t = Some th -> w ∉ (works s).*2 ->
  binder_enqueue_deferred_thread_work_ilocked t w s = Some (s <| works ::= fun ws => ws ++ [(ThreadTodo t, w)] |>).
Proof.
  intros Ht Hn. unfold binder_enqueue_deferred_thread_work_ilocked. rewrite Ht. mstep. by apply enqueue_ok.
Qed.

Lemma thread_work_ok t th w s : threads s !! t = Some th -> w ∉ (works s).*2 ->
  binder_enqueue_thread_work_ilocked t w s =
    Some (on_thread t (fun th => th <| process_todo := true |>) (s <| works ::= fun ws => ws ++ [(ThreadTodo t, w)] |>)).
Proof. intros. unfold binder_enqueue_thread_work_ilocked. by erewrite thread_deferred_ok. Qed.

(** ** Transactions that end *)

(** The buffer of a transaction is there, as long as it has a receiver. *)
Definition buffer_ok (s : state) (tx : binder_transaction) : Prop :=
  forall p b, to_proc tx = Some p -> buffer tx = Some b -> is_Some (procs s !! p) /\ is_Some (buffers s !! b).

(** The buffer that forgets its transaction when that is freed. *)
Definition freed_buffer (tx : binder_transaction) : option Z := _ ← to_proc tx; buffer tx.

Definition forget (bs : gmap Z binder_buffer) (b : option Z) : gmap Z binder_buffer :=
  match b with Some b => alter (fun bf => bf <| transaction := None |>) b bs | None => bs end.

Lemma free_transaction_spec x tx s : txns s !! x = Some tx -> buffer_ok s tx ->
  binder_free_transaction x s =
    Some (s <| txns ::= delete x |> <| buffers ::= fun bs => forget bs (freed_buffer tx) |>).
Proof.
  intros Hx Hb. unfold binder_free_transaction, freed_buffer. rewrite Hx. mstep.
  destruct (to_proc tx) as [p|] eqn:Ep; [|by destruct s]. destruct (buffer tx) as [b|] eqn:Eb; [|by destruct s].
  destruct (Hb p b Ep Eb) as [[pr ->] [bf ->]]. mstep. done.
Qed.

(** ** Threads and processes *)

Lemma alter_is_insert {V} (m : gmap Z V) (i : Z) (x : V) f : m !! i = Some x -> alter f i m = <[i := f x]> m.
Proof.
  intros H. apply map_eq. intros j. destruct (decide (j = i)) as [->|].
  - by rewrite lookup_alter_eq, lookup_insert_eq, H.
  - by rewrite lookup_alter_ne, lookup_insert_ne.
Qed.

Lemma on_thread_lookup t f s th : threads s !! t = Some th -> threads (on_thread t f s) !! t = Some (f th).
Proof. intros H. cbn. by rewrite lookup_alter_eq, H. Qed.

Lemma pop_ok t x th tx s :
  threads s !! t = Some th -> txns s !! x = Some tx -> transaction_stack th = Some x -> from tx = Some t ->
  binder_pop_transaction_ilocked t x s =
    Some (on_txn x (fun tx => tx <| from := None |>) (on_thread t (fun th => th <| transaction_stack := from_parent tx |>) s)).
Proof.
  intros Ht Hx Hs Hf. unfold binder_pop_transaction_ilocked. rewrite Ht, Hx. mstep. by rewrite !bool_decide_eq_true_2.
Qed.

(** The last reference to a thread matters only after its end. *)
Lemma thread_dec_alive t th s : threads s !! t = Some th -> is_dead th = false ->
  binder_thread_dec_tmpref t s = Some (on_thread t (fun th => th <| tmp_ref ::= fun c => c - 1 |>) s).
Proof.
  intros Ht Hd. unfold binder_thread_dec_tmpref. erewrite on_thread_lookup by done. mstep. cbn. by rewrite Hd.
Qed.

Lemma proc_dec_alive p pr s : procs s !! p = Some pr -> p_is_dead pr = false ->
  binder_proc_dec_tmpref p s = Some (on_proc p (fun pr => pr <| p_tmp_ref ::= fun c => c - 1 |>) s).
Proof.
  intros Hp Hd. unfold binder_proc_dec_tmpref. cbn. rewrite lookup_alter_eq, Hp. mstep. cbn. by rewrite Hd.
Qed.

(** A reference that is taken and given back. *)
Lemma tmp_ref_back (th th' : binder_thread) (c : Z) : th' <| tmp_ref := tmp_ref th |> = th -> tmp_ref th' = c + tmp_ref th - c -> th' = th.
Proof. destruct th, th'. cbn. intros E. injection E as -> -> -> -> -> -> ->. intros ->. f_equal. lia. Qed.

Lemma proc_ref_back (pr pr' : binder_proc) (c : Z) : pr' <| p_tmp_ref := p_tmp_ref pr |> = pr -> p_tmp_ref pr' = c + p_tmp_ref pr - c -> pr' = pr.
Proof. destruct pr, pr'. cbn. intros E. injection E as -> ->. intros ->. f_equal. lia. Qed.

(** ** What is queued *)

Lemma enqueue_inv w l s s' : binder_enqueue_work_ilocked w l s = Some s' ->
  w ∉ (works s).*2 /\ s' = s <| works ::= fun ws => ws ++ [(l, w)] |>.
Proof. unfold binder_enqueue_work_ilocked. destruct (decide (w ∈ (works s).*2)); [by rewrite bool_decide_eq_true_2|]. rewrite bool_decide_eq_false_2 by done. naive_solver. Qed.

Lemma thread_deferred_inv t w s s' : binder_enqueue_deferred_thread_work_ilocked t w s = Some s' ->
  w ∉ (works s).*2 /\ s' = s <| works ::= fun ws => ws ++ [(ThreadTodo t, w)] |>.
Proof. unfold binder_enqueue_deferred_thread_work_ilocked. destruct (threads s !! t); [|done]. apply enqueue_inv. Qed.

Lemma thread_work_inv t w s s' : binder_enqueue_thread_work_ilocked t w s = Some s' ->
  w ∉ (works s).*2 /\ s' = on_thread t (fun th => th <| process_todo := true |>) (s <| works ::= fun ws => ws ++ [(ThreadTodo t, w)] |>).
Proof.
  unfold binder_enqueue_thread_work_ilocked. destruct (binder_enqueue_deferred_thread_work_ilocked t w s) as [s1|] eqn:E; [|done].
  apply thread_deferred_inv in E as [? ->]. cbn. naive_solver.
Qed.

(** Threads and processes neither die nor come to life. *)
Record same_life (s s' : state) : Prop := {
  sl_proc : forall p, p_is_dead <$> (procs s' !! p) = p_is_dead <$> (procs s !! p);
  sl_thread : forall t, is_dead <$> (threads s' !! t) = is_dead <$> (threads s !! t);
}.

Lemma fmap_alter {V W} (f : V -> W) g (m : gmap Z V) i j : (forall x, f (g x) = f x) -> f <$> (alter g i m !! j) = f <$> (m !! j).
Proof.
  intros H. destruct (decide (j = i)) as [->|]; [rewrite lookup_alter_eq|by rewrite lookup_alter_ne]. destruct (m !! i); cbn; [by rewrite H|done].
Qed.

#[export] Instance same_life_refl : Reflexive same_life.
Proof. done. Qed.

#[export] Instance same_life_trans : Transitive same_life.
Proof. intros s1 s2 s3 [H1 H2] [H3 H4]. split; intros; congruence. Qed.

Lemma same_life_thread t f s : (forall th, is_dead (f th) = is_dead th) -> same_life s (on_thread t f s).
Proof. intros H. split; intros; [done|]. cbn. by apply fmap_alter. Qed.

Lemma same_life_proc p f s : (forall pr, p_is_dead (f pr) = p_is_dead pr) -> same_life s (on_proc p f s).
Proof. intros H. split; intros; [|done]. cbn. by apply fmap_alter. Qed.

Lemma thread_dec_inv t s s' : (forall th, threads s !! t = Some th -> is_dead th = false) -> binder_thread_dec_tmpref t s = Some s' ->
  s' = on_thread t (fun th => th <| tmp_ref ::= fun c => c - 1 |>) s.
Proof.
  intros Ha H. unfold binder_thread_dec_tmpref in H. cbn in H. rewrite lookup_alter_eq in H. destruct (threads s !! t) as [th|]; [|done].
  cbn in H. rewrite (Ha th) in H by done. naive_solver.
Qed.

Lemma proc_dec_inv p s s' : (forall pr, procs s !! p = Some pr -> p_is_dead pr = false) -> binder_proc_dec_tmpref p s = Some s' ->
  s' = on_proc p (fun pr => pr <| p_tmp_ref ::= fun c => c - 1 |>) s.
Proof.
  intros Ha H. unfold binder_proc_dec_tmpref in H. cbn in H. rewrite lookup_alter_eq in H. destruct (procs s !! p) as [pr|]; [|done].
  cbn in H. rewrite (Ha pr) in H by done. naive_solver.
Qed.

Lemma select_inv p s t s' : binder_select_thread_ilocked p s = Some (t, s') -> exists f, s' = on_proc p f s /\ forall pr, p_is_dead (f pr) = p_is_dead pr.
Proof.
  unfold binder_select_thread_ilocked. destruct (procs s !! p) as [pr|] eqn:E; [|done]. cbn. destruct (waiting_threads pr) as [|t' ts]; intros [= <- <-].
  - exists id. split; [|done]. unfold on_proc, set. cbn. destruct s. cbn in *. f_equal. apply map_eq. intros j.
    destruct (decide (j = p)) as [->|]; [by rewrite lookup_alter_eq, E|by rewrite lookup_alter_ne].
  - eexists. split; [done|]. done.
Qed.

Lemma wakeup_proc_inv p s s' : binder_wakeup_proc_ilocked p s = Some s' -> exists f, s' = on_proc p f s /\ forall pr, p_is_dead (f pr) = p_is_dead pr.
Proof.
  unfold binder_wakeup_proc_ilocked. destruct (binder_select_thread_ilocked p s) as [[t s1]|] eqn:E; [|done]. cbn. intros [= <-]. by eapply select_inv.
Qed.

(** ** The delivery of a call *)

(** The node that a one-way transaction makes busy. *)
Definition occupy (ow : bool) (n : Z) (ns : gmap Z binder_node) : gmap Z binder_node :=
  if ow then alter (fun nd => nd <| has_async_transaction := true |>) n ns else ns.

(** A transaction [x] to the node [n] is queued on [q]. *)
Record queued (s s' : state) (x n : Z) (ow : bool) (nd : binder_node) (q : queue) : Prop := {
  qd_node : nodes s !! n = Some nd;
  qd_fresh : Txn x ∉ (works s).*2;
  qd_works : works s' = works s ++ [(q, Txn x)];
  qd_queue : if ow && has_async_transaction nd then q = AsyncTodo n else forall m, q <> AsyncTodo m;
  qd_nodes : nodes s' = occupy ow n (nodes s);
  qd_txns : txns s' = txns s;
  qd_buffers : buffers s' = buffers s;
  qd_life : same_life s s';
}.

Lemma proc_transaction_inv x n p ow t s s' : binder_proc_transaction x n p ow t s = Some (true, s') -> exists nd q, queued s s' x n ow nd q.
Proof.
  unfold binder_proc_transaction. destruct (nodes s !! n) as [nd|] eqn:En; [|done]. mstep. intros H. exists nd.
  set (s0 := if ow then _ else s) in H.
  assert (txns s0 = txns s /\ buffers s0 = buffers s /\ works s0 = works s /\ nodes s0 = occupy ow n (nodes s) /\ same_life s s0) as (E1 & E2 & E3 & E4 & E5).
  { subst s0. by destruct ow. }
  destruct (procs s0 !! p) as [pr|]; [|done]. cbn [mbind option_bind] in H.
  apply bind_Some in H as (dead & _ & H).
  destruct (ow && _) eqn:Eow; [done|]. destruct (p_is_dead pr || dead); [done|].
  apply bind_Some in H as ([t' s1] & Es & H).
  assert (exists f, s1 = on_proc p f s0 /\ (forall pr, p_is_dead (f pr) = p_is_dead pr)) as (f & -> & Hf).
  { assert (s0 = on_proc p id s0) as Hid.
    { unfold on_proc, set. cbn. destruct s0. cbn. f_equal. symmetry. apply alter_id. done. }
    destruct t; [|destruct (ow && has_async_transaction nd); [|by eapply select_inv]]; injection Es as <- <-; by exists id. }
  assert (t' <> None -> ow && has_async_transaction nd = false) as Ht'.
  { destruct t; [by destruct ow|]. destruct (ow && has_async_transaction nd); [|done]. by injection Es as <- _. }
  apply bind_Some in H as (s2 & Hq & [= <-]).
  assert (same_life s (on_proc p f s0)) as Hl by (etransitivity; [done|by apply same_life_proc]).
  destruct t' as [t'|].
  - apply thread_work_inv in Hq as [Hn ->]. exists (ThreadTodo t'). cbn in Hn. rewrite E3 in Hn.
    split; cbn; rewrite ?Ht', ?E1, ?E2, ?E3, ?E4 by done; try done.
    etransitivity; [done|]. etransitivity; [|by apply same_life_thread]. done.
  - apply enqueue_inv in Hq as [Hn ->]. eexists. cbn in Hn. rewrite E3 in Hn.
    split; cbn; rewrite ?E1, ?E2, ?E3, ?E4 by done; try done. 
    + by destruct (ow && has_async_transaction nd).
    + destruct Hl. by split.
Qed.

(** The effect of a call [d], whose transaction is [x] with the buffer [b]. *)
Record accepted (s s' : state) (d : in_progress) (x b n : Z) (nd : binder_node) (q : queue) : Prop := {
  ac_node : nodes s !! n = Some nd;
  ac_complete : Complete x ∉ (works s).*2;
  ac_fresh : Txn x ∉ (works s).*2;
  ac_works : works s' = works s ++ [(ThreadTodo (d_thread d), Complete x); (q, Txn x)];
  ac_queue : if d_one_way d && has_async_transaction nd then q = AsyncTodo n else forall m, q <> AsyncTodo m;
  ac_nodes : nodes s' = occupy (d_one_way d) n (nodes s);
  ac_txn : exists tx, txns s' !! x = Some tx /\ to_proc tx = Some (d_proc d) /\ one_way tx = d_one_way d /\ buffer tx = Some b;
  ac_txns : forall y, y <> x -> txns s' !! y = txns s !! y;
  ac_buffers : buffers s' = <[b := {| b_proc := d_proc d; transaction := Some x; target_node := Some n;
                                      async_transaction := d_one_way d; allow_user_free := false |}]> (buffers s);
}.

(** A call whose receiver lives. *)
Record receiver_lives (s : state) (d : in_progress) : Prop := {
  rl_proc : forall pr, procs s !! d_proc d = Some pr -> p_is_dead pr = false;
  rl_thread : forall t th, d_target d = Some t -> threads s !! t = Some th -> is_dead th = false;
}.

Lemma receiver_lives_life s s' d : same_life s s' -> receiver_lives s d -> receiver_lives s' d.
Proof.
  intros [Hp Ht] [H1 H2]. split.
  - intros pr E. specialize (Hp (d_proc d)). rewrite E in Hp. cbn in Hp. destruct (procs s !! d_proc d) as [pr0|]; [|done]. injection Hp as ->. by apply H1.
  - intros t th Hd E. specialize (Ht t). rewrite E in Ht. cbn in Ht. destruct (threads s !! t) as [th0|] eqn:E0; [|done]. injection Ht as ->. by eapply H2.
Qed.

Lemma delivered_inv d s s' : receiver_lives s d -> delivered d s = Some s' ->
  works s' = works s /\ nodes s' = nodes s /\ txns s' = txns s /\ buffers s' = buffers s.
Proof.
  intros [Hp Ht] H. unfold delivered in H. apply bind_Some in H as (s1 & H1 & H2).
  assert (s1 = match d_target d with Some t => on_thread t (fun th => th <| tmp_ref ::= fun c => c - 1 |>) s | None => s end) as ->.
  { destruct (d_target d) as [t|]; [|by injection H1]. apply thread_dec_inv in H1; [done|]. intros th. by apply Ht. }
  apply proc_dec_inv in H2; [|by destruct (d_target d)]. subst s'. by destruct (d_target d).
Qed.

(** A receiver that lives gets the transaction. *)
Lemma proc_transaction_alive x n d ow t s ok s' : receiver_lives s d -> (t = d_target d \/ t = None) ->
  binder_proc_transaction x n (d_proc d) ow t s = Some (ok, s') -> ok = true.
Proof.
  intros [Hp Ht] Hd H. unfold binder_proc_transaction in H. apply bind_Some in H as (nd & _ & H).
  apply bind_Some in H as (pr & Hpr & H). apply bind_Some in H as (dead & Hdead & H).
  assert (p_is_dead pr = false) as Hpd by (apply Hp; by destruct ow).
  assert (dead = false) as ->.
  { destruct t as [t|]; [|by injection Hdead]. apply bind_Some in Hdead as (th & Hth & [= <-]). destruct Hd as [Hd|]; [|done].
    eapply Ht; [done|]. by destruct ow. }
  destruct (ow && _); [done|]. rewrite Hpd in H. apply bind_Some in H as ([t' s1] & _ & H). apply bind_Some in H as (s2 & _ & H). naive_solver.
Qed.

(** Before the transaction is queued. *)
Record prepared (s s' : state) (d : in_progress) (x b n : Z) : Prop := {
  pp_complete : Complete x ∉ (works s).*2;
  pp_works : works s' = works s ++ [(ThreadTodo (d_thread d), Complete x)];
  pp_nodes : nodes s' = nodes s;
  pp_txn : exists tx, txns s' !! x = Some tx /\ to_proc tx = Some (d_proc d) /\ one_way tx = d_one_way d /\ buffer tx = Some b;
  pp_txns : forall y, y <> x -> txns s' !! y = txns s !! y;
  pp_buffers : buffers s' = <[b := {| b_proc := d_proc d; transaction := Some x; target_node := Some n;
                                      async_transaction := d_one_way d; allow_user_free := false |}]> (buffers s);
  pp_life : same_life s s';
}.

Lemma prepared_accepted d x b n t s s1 s2 s' ok (e : option state) : prepared s s1 d x b n -> receiver_lives s d -> (t = d_target d \/ t = None) ->
  binder_proc_transaction x n (d_proc d) (d_one_way d) t s1 = Some (ok, s2) ->
  (if ok : bool then delivered d s2 else e) = Some s' -> exists nd q, accepted s s' d x b n nd q.
Proof.
  intros [] Hl Ht Hq H. apply (receiver_lives_life s s1) in Hl; [|done].
  assert (ok = true) as -> by by eapply proc_transaction_alive.
  apply proc_transaction_inv in Hq as (nd & q & []). apply delivered_inv in H as (E1 & E2 & E3 & E4);
    [|by eapply receiver_lives_life].
  exists nd, q. rewrite pp_works0 in qd_fresh0, qd_works0. rewrite fmap_app, elem_of_app in qd_fresh0.
  split; rewrite ?E1, ?E2, ?E3, ?E4, ?qd_works0, ?qd_nodes0, ?qd_txns0, ?qd_buffers0, ?pp_nodes0; try done.
  - by rewrite <- pp_nodes0.
  - intros Hin. apply qd_fresh0. by left.
  - by rewrite <- app_assoc.
Qed.

Lemma call_accepted d x b n s s' : d_reply d = None -> d_node d = Some n -> (d_one_way d = true -> d_target d = None) ->
  receiver_lives s d -> finish d x b s = Some s' -> exists nd q, accepted s s' d x b n nd q.
Proof.
  intros Hr Hn How Hl H. unfold finish in H. rewrite Hr, Hn in H. cbn [mbind option_bind] in H.
  destruct (d_one_way d) eqn:Eow; cbn [negb] in H; apply bind_Some in H as (s1 & H1 & H).
  - apply thread_work_inv in H1 as [Hc ->]. apply bind_Some in H as ([ok s2] & Hq & H).
    eapply (prepared_accepted d x b n None); [|done|by right|by rewrite Eow|done].
    split; cbn in *; rewrite ?Hr, ?Hn, ?Eow; try done.
    + eexists. rewrite lookup_insert_eq. done.
    + intros y Hy. by rewrite lookup_insert_ne.
    + etransitivity; [|apply same_life_thread; done]. done.
  - apply thread_deferred_inv in H1 as [Hc ->]. apply bind_Some in H as (th & Hth & H). apply bind_Some in H as ([ok s2] & Hq & H).
    eapply (prepared_accepted d x b n (d_target d)); [|done|by left|by rewrite Eow|done].
    split; cbn in *; rewrite ?Hr, ?Hn, ?Eow; try done.
    + eexists. rewrite lookup_alter_eq, lookup_insert_eq. done.
    + intros y Hy. by rewrite lookup_alter_ne, lookup_insert_ne.
    + split; [done|]. intros t. cbn. by apply fmap_alter.
Qed.

(** ** Reading *)

Lemma work_head_elem l s w : work_head l s = Some w -> w ∈ todo l s.
Proof. rewrite work_head_todo. destruct (todo l s); [done|]. intros [= ->]. by left. Qed.

Lemma next_work_todo t th s w : next_work t th s = Some w -> exists q, w ∈ todo q s /\ forall n, q <> AsyncTodo n.
Proof.
  unfold next_work. destruct (negb _); [intros H%work_head_elem; by eexists|].
  destruct (binder_available_for_proc_work_ilocked _ _ _); [|done]. intros H%work_head_elem. by eexists.
Qed.

Definition not_txn (w : work) : Prop := match w with Txn _ => False | _ => True end.

(** Reading work other than a transaction. *)
Lemma read_other t th r s s' : threads s !! t = Some th -> binder_thread_read t true s = Some (r, s') ->
  (forall w, next_work t th s = Some w -> not_txn w) ->
  txns s' = txns s /\ buffers s' = buffers s /\ nodes s' = nodes s /\
    (s' = s \/ exists w, next_work t th s = Some w /\ works s' = works (binder_dequeue_work w s)).
Proof.
  intros Ht H Hw. unfold binder_thread_read in H. rewrite Ht in H. cbn [mbind option_bind] in H.
  destruct (next_work t th s) as [w|]; [|injection H as _ <-; by eauto].
  set (s1 := if binder_worklist_empty_ilocked _ _ then _ else _) in H.
  assert (txns s1 = txns s /\ buffers s1 = buffers s /\ nodes s1 = nodes s /\ works s1 = works (binder_dequeue_work w s)) as (E1 & E2 & E3 & E4).
  { subst s1. by destruct (binder_worklist_empty_ilocked _ _). }
  specialize (Hw w eq_refl). clearbody s1.
  destruct w as [x|x|e|e|w]; [done|injection H as _ <-|apply bind_Some in H as (the & _ & [= _ <-])
    |apply bind_Some in H as (the & _ & [= _ <-])|injection H as _ <-]; cbn; rewrite ?E1, ?E2, ?E3, ?E4; eauto 10.
Qed.

(** The transaction ends when it is read, as it needs no reply. *)
Definition ends_when_read (tx : binder_transaction) (bf : binder_buffer) : bool := one_way tx || negb (bool_decide (is_Some (target_node bf))).

(** Reading the transaction [x] with the buffer [b]. *)
Record read_txn (s s' : state) (x b : Z) (tx : binder_transaction) (bf : binder_buffer) : Prop := {
  rt_txn : txns s !! x = Some tx;
  rt_buffer : buffer tx = Some b;
  rt_there : buffers s !! b = Some bf;
  rt_works : works s' = works (binder_dequeue_work (Txn x) s);
  rt_nodes : nodes s' = nodes s;
  rt_txns : forall y, y <> x -> txns s' !! y = txns s !! y;
  rt_same : ends_when_read tx bf = false -> exists tx', txns s' !! x = Some tx' /\ buffer tx' = Some b;
  rt_buffers : buffers s' = <[b := (if ends_when_read tx bf && bool_decide (is_Some (to_proc tx)) then bf <| transaction := None |> else bf)
                                     <| allow_user_free := true |>]> (buffers s);
}.

Lemma free_transaction_inv x tx s s' : txns s !! x = Some tx -> binder_free_transaction x s = Some s' ->
  s' = s <| txns ::= delete x |> <| buffers ::= fun bs => forget bs (freed_buffer tx) |>.
Proof.
  intros Hx H. unfold binder_free_transaction in H. rewrite Hx in H. cbn [mbind option_bind] in H. unfold freed_buffer.
  destruct (to_proc tx) as [p|]; [|by injection H as <-; destruct s]. destruct (buffer tx) as [b|]; [|by injection H as <-; destruct s].
  apply bind_Some in H as (s1 & H1 & [= <-]). apply bind_Some in H1 as (pr & _ & H1). apply bind_Some in H1 as (bf & _ & [= <-]). done.
Qed.

Lemma read_txn_inv t th r s s' x : threads s !! t = Some th -> binder_thread_read t true s = Some (r, s') ->
  next_work t th s = Some (Txn x) -> exists tx b bf, read_txn s s' x b tx bf.
Proof.
  intros Ht H Hw. unfold binder_thread_read in H. rewrite Ht in H. cbn [mbind option_bind] in H. rewrite Hw in H.
  set (s1 := if binder_worklist_empty_ilocked _ _ then _ else _) in H.
  assert (txns s1 = txns s /\ buffers s1 = buffers s /\ nodes s1 = nodes s /\ works s1 = works (binder_dequeue_work (Txn x) s)) as (E1 & E2 & E3 & E4).
  { subst s1. by destruct (binder_worklist_empty_ilocked _ _). }
  clearbody s1. unfold read_transaction in H.
  apply bind_Some in H as (tx & Hx & H). apply bind_Some in H as (b & Hb & H). apply bind_Some in H as (bf & Hbf & H).
  apply bind_Some in H as (u & _ & H). cbn [negb] in H. exists tx, b, bf.
  set (s2 := on_buffer b _ s1) in H.
  assert (if ends_when_read tx bf then binder_free_transaction x s2 = Some s'
          else exists k, s' = on_thread t (fun th => th <| transaction_stack := Some x |>)
                 (on_txn x (fun tx => tx <| to_parent := k |> <| to_thread := Some t |>) s2)) as H'.
  { unfold ends_when_read. destruct (target_node bf) as [n|]; [rewrite bool_decide_eq_true_2 by done|rewrite bool_decide_eq_false_2 by (by intros [? ?])].
    - destruct (one_way tx); cbn.
      + apply bind_Some in H as (s3 & H & [= _ <-]). done.
      + apply bind_Some in H as (th' & _ & [= _ <-]). by eexists.
    - rewrite orb_true_r. apply bind_Some in H as (s3 & H & [= _ <-]). done. }
  clear H. assert (buffers s2 = <[b := bf <| allow_user_free := true |>]> (buffers s)) as E2'.
  { subst s2. cbn. rewrite E2 in Hbf |- *. by apply alter_is_insert. }
  assert (txns s2 = txns s /\ nodes s2 = nodes s /\ works s2 = works (binder_dequeue_work (Txn x) s)) as (E1' & E3' & E4') by done.
  rewrite E1 in Hx. rewrite E2 in Hbf. clearbody s2. destruct (ends_when_read tx bf) eqn:Ee.
  - apply (free_transaction_inv x tx) in H' as ->; [|by rewrite E1']. split; cbn; rewrite ?E1', ?E3', ?E4', ?Ee; try done.
    + intros y Hy. by rewrite lookup_delete_ne.
    + rewrite E2'. unfold freed_buffer. destruct (to_proc tx) as [p|]; cbn; rewrite ?Hb; [|done].
      cbn. by rewrite alter_insert_eq.
  - destruct H' as [k ->]. split; cbn; rewrite ?E1', ?E3', ?E4', ?Ee; try done.
    + intros y Hy. by rewrite lookup_alter_ne.
    + intros _. eexists. by rewrite lookup_alter_eq, Hx.
Qed.

(** ** Freeing buffers *)

Definition async_node (bf : binder_buffer) : option Z := if async_transaction bf then target_node bf else None.

(** The node [n] is given its next one-way transaction, if there is one. *)
Definition next_async (s s' : state) (n p : Z) : Prop :=
  exists nd, nodes s !! n = Some nd /\ n_proc nd = Some p /\ has_async_transaction nd = true /\
    match todo (AsyncTodo n) s with
    | [] => works s' = works s /\ nodes s' = alter (fun nd => nd <| has_async_transaction := false |>) n (nodes s)
    | w :: _ => works s' = works (binder_dequeue_work w s) ++ [(ProcTodo p, w)] /\ nodes s' = nodes s
    end.

Lemma free_buf_inv p b s s' : binder_free_buf p b s = Some s' -> exists bf, buffers s !! b = Some bf /\
  buffers s' = delete b (buffers s) /\
  txns s' = match transaction bf with Some x => alter (fun tx => tx <| buffer := None |>) x (txns s) | None => txns s end /\
  match async_node bf with Some n => next_async s s' n p | None => works s' = works s /\ nodes s' = nodes s end.
Proof.
  intros H. unfold binder_free_buf in H. apply bind_Some in H as (bf & Hbf & H). apply bind_Some in H as (s1 & H1 & H).
  apply bind_Some in H as (s2 & H2 & [= <-]). exists bf. split; [done|].
  assert (nodes s1 = nodes s /\ works s1 = works s /\ delete b (buffers s1) = delete b (buffers s) /\
    txns s1 = match transaction bf with Some x => alter (fun tx => tx <| buffer := None |>) x (txns s) | None => txns s end)
    as (E1 & E2 & E3 & E4).
  { destruct (transaction bf) as [x|]; [|by injection H1 as <-]. apply bind_Some in H1 as (tx & _ & [= <-]). cbn.
    by rewrite delete_alter_eq. }
  assert (forall l, todo l s1 = todo l s) as E5 by (intros l; unfold todo; by rewrite E2).
  cbn. rewrite <- E3, <- E4. unfold async_node. clear H1.
  destruct (async_transaction bf), (target_node bf) as [n|]; [|injection H2 as <-; by rewrite E1, E2..].
  apply bind_Some in H2 as (nd & Hnd & H2). rewrite E1 in Hnd.
  destruct (_ || _) eqn:Eb; [done|]. apply orb_false_iff in Eb as [Eb1 Eb2]. apply negb_false_iff in Eb1, Eb2.
  apply bool_decide_eq_true in Eb2. unfold next_async. rewrite work_head_todo, E5 in H2.
  destruct (todo (AsyncTodo n) s) as [|w ws] eqn:Ew; cbn in H2.
  - injection H2 as <-. cbn. rewrite E1, E2. split_and!; try done. by exists nd.
  - apply bind_Some in H2 as (s3 & H3 & H2). apply enqueue_inv in H3 as [_ ->]. apply wakeup_proc_inv in H2 as (f & -> & _).
    cbn. rewrite E1, E2. split_and!; try done. by exists nd.
Qed.
