(* ===== verification/BinderCallFuel.v ===== *)
(** * Binder driver: the loops over calls end

    The walks over the stack of a thread visit each transaction once, and the
    loop over the works of a list takes one away at each turn; so the fuel of
    these loops is enough. *)

From S2P Require Import Prelude BinderCall BinderCallFacts.

(** ** Walks *)

(** From [x] by [next], through transactions of [dm], to the end. *)
Inductive walk (dm : gset Z) (next : Z -> option Z) : option Z -> list Z -> Prop :=
| walk_end : walk dm next None []
| walk_step x xs : x ∈ dm -> walk dm next (next x) xs -> walk dm next (Some x) (x :: xs).

Section Walk.
Context (dm : gset Z) (next : Z -> option Z).

Lemma walk_unique x xs ys : walk dm next x xs -> walk dm next x ys -> xs = ys.
Proof.
  intros H. revert ys. induction H as [|x xs Hx H IH]; intros ys Hy; inversion Hy; subst; [done|]. f_equal. by apply IH.
Qed.

Lemma walk_cut x xs y : walk dm next x xs -> y ∈ xs -> exists ys, walk dm next (Some y) ys /\ (length ys <= length xs)%nat.
Proof.
  induction 1 as [|x xs Hx H IH]; [by intros ?%not_elem_of_nil|]. intros [->|Hy]%elem_of_cons.
  - exists (x :: xs). split; [by constructor|done].
  - destruct (IH Hy) as (ys & ? & ?). exists ys. split; [done|cbn; lia].
Qed.

Lemma walk_NoDup x xs : walk dm next x xs -> NoDup xs.
Proof.
  induction 1 as [|x xs Hx H IH]; [constructor|]. constructor; [|done]. intros Hin.
  destruct (walk_cut _ _ _ H Hin) as (ys & Hys & Hlen).
  assert (x :: xs = ys) as <- by (eapply walk_unique; [by constructor|done]). cbn in Hlen. lia.
Qed.

Lemma walk_dom x xs : walk dm next x xs -> forall y, y ∈ xs -> y ∈ dm.
Proof. induction 1 as [|x xs Hx H IH]; [by intros y ?%not_elem_of_nil|]. intros y [->|Hy]%elem_of_cons; auto. Qed.

Lemma walk_length x xs : walk dm next x xs -> (length xs <= size dm)%nat.
Proof.
  intros H. rewrite <- (size_list_to_set (C:=gset Z) xs) by by eapply walk_NoDup.
  apply subseteq_size. intros y Hy%elem_of_list_to_set. by eapply walk_dom.
Qed.
End Walk.

Lemma walk_ext dm next next' x xs : walk dm next x xs -> (forall y, y ∈ xs -> next' y = next y) -> walk dm next' x xs.
Proof.
  induction 1 as [|x xs Hx H IH]; intros He; [constructor|]. constructor; [done|]. rewrite He by left. apply IH. intros y Hy. apply He. by right.
Qed.

(** ** Looking for a caller *)

Definition parent (s : state) (x : Z) : option Z := tx ← txns s !! x; from_parent tx.

(** When the stack of callers ends and its threads exist, the search returns. *)
Lemma find_caller_returns p x xs s : walk (dom (txns s)) (parent s) x xs ->
  (forall y ty t, y ∈ xs -> txns s !! y = Some ty -> from ty = Some t -> is_Some (threads s !! t)) -> is_Some (find_caller p x s).
Proof.
  intros Hw Hf. unfold find_caller. pose proof (walk_length _ _ _ _ Hw) as Hlen. rewrite size_dom in Hlen.
  assert (length xs < S (size (txns s)))%nat as Hfuel by lia. clear Hlen. revert Hfuel. generalize (S (size (txns s))). intros fuel Hfuel.
  revert fuel Hfuel. induction Hw as [|x xs Hx Hw IH]; intros [|fuel] Hfuel; cbn in Hfuel; try lia; cbn [loop]; [by eexists|].
  apply elem_of_dom in Hx as [tx Hx]. rewrite Hx. mstep. unfold parent in IH. rewrite Hx in IH. mstep.
  assert (forall ty t, txns s !! x = Some ty -> from ty = Some t -> is_Some (threads s !! t)) as Hfx by (intros; eapply Hf; [left|done..]).
  assert (is_Some (loop fuel (fun x => match x with
    | None => Some (inr None)
    | Some x => tx ← txns s !! x; match from tx with
      | Some t => th ← threads s !! t; if t_proc th =? p then Some (inr (Some t)) else Some (inl (from_parent tx))
      | None => Some (inl (from_parent tx)) end end) (from_parent tx))) as IH'.
  { apply IH; [|lia]. intros y ty t Hy. apply Hf. by right. }
  destruct (from tx) as [t|] eqn:Ef; [|done]. destruct (Hfx tx t Hx Ef) as [th ->]. mstep. by destruct (t_proc th =? p).
Qed.

(** ** The stack of a thread that dies *)

Definition below (t : Z) (s : state) (x : Z) : option Z :=
  tx ← txns s !! x; if bool_decide (to_thread tx = Some t) then to_parent tx else from_parent tx.

(** The transaction is on the stack of [t]: [t] handles it, and its buffer is
    there, or [t] sent it. *)
Definition on_stack (t : Z) (s : state) (x : Z) : Prop := forall tx, txns s !! x = Some tx ->
  (to_thread tx = Some t -> forall b, buffer tx = Some b -> is_Some (buffers s !! b)) /\ (to_thread tx <> Some t -> from tx = Some t).

Lemma forget_ok t x s : x ∈ dom (txns s) -> on_stack t s x -> exists s1,
  forget_transaction t x s = Some (inl (below t s x, s1)) /\ dom (txns s1) = dom (txns s) /\
  (forall y, y <> x -> txns s1 !! y = txns s !! y) /\ (forall b, is_Some (buffers s !! b) -> is_Some (buffers s1 !! b)).
Proof.
  intros [tx Hx]%elem_of_dom Hs. destruct (Hs tx Hx) as [Hb Hf]. unfold forget_transaction, below. rewrite Hx. mstep.
  assert (forall f y (m : gmap Z binder_transaction), y <> x -> alter f x m !! y = m !! y) as Hne by (intros; by apply lookup_alter_ne).
  case_bool_decide as Ht.
  - specialize (Hb Ht). destruct (buffer tx) as [b|].
    + destruct (Hb b eq_refl) as [bf Hbf]. cbn [buffers on_txn set]. rewrite Hbf. mstep. eexists. split; [done|]. cbn.
      split_and!; [by rewrite !dom_alter_L|intros y Hy; by rewrite !Hne|]. intros b' Hb'. by rewrite lookup_alter_is_Some.
    + mstep. eexists. split; [done|]. cbn. split_and!; [by rewrite dom_alter_L|intros y Hy; by rewrite Hne|done].
  - rewrite bool_decide_eq_true_2 by auto. eexists. split; [done|]. cbn. split_and!; [by rewrite dom_alter_L|intros y Hy; by rewrite Hne|done].
Qed.

(** When the stack ends, all of it is forgotten. *)
Lemma release_stack_returns t x xs s : walk (dom (txns s)) (below t s) x xs -> (forall y, y ∈ xs -> on_stack t s y) ->
  is_Some (release_stack t x s).
Proof.
  intros Hw Hs. unfold release_stack. pose proof (walk_length _ _ _ _ Hw) as Hlen. rewrite size_dom in Hlen.
  assert (length xs < S (size (txns s)))%nat as Hfuel by lia. clear Hlen. revert Hfuel. generalize (S (size (txns s))). intros fuel.
  revert x s fuel Hw Hs. induction xs as [|x' xs IH]; intros x s fuel Hw Hs Hfuel; inversion Hw; subst; (destruct fuel as [|fuel]; [cbn in Hfuel; lia|]); cbn [loop]; [by eexists|].
  pose proof (walk_NoDup _ _ _ _ Hw) as [Hnx _]%NoDup_cons.
  destruct (forget_ok t x' s) as (s1 & -> & Hd & Hx & Hb); [done|by apply Hs; left|]. mstep.
  apply IH; [| |cbn in Hfuel; lia].
  - rewrite Hd. eapply walk_ext; [done|]. intros y Hy. unfold below. rewrite Hx; [done|]. by intros ->.
  - intros y Hy ty Hty. rewrite Hx in Hty by (by intros ->). destruct (Hs y) with (tx := ty) as [H1' H2']; [by right|done|]. split; [|done].
    intros Ht b Hbuf. eapply Hb, H1'; done.
Qed.

(** ** Works that are released *)

(** The works of [l], and the error that its thread may still be told. *)
Definition weight (l : queue) (s : state) : nat :=
  length (todo l s) + match l with ThreadTodo t => match threads s !! t with Some th => if bool_decide (reply_error th = BR_OK) then 1 else 0 | None => 0 end | _ => 0 end.

Lemma weight_rest l s s' : works s' = works s ->
  (forall t, reply_error <$> (threads s' !! t) = reply_error <$> (threads s !! t) \/ threads s' !! t = None) -> (weight l s' <= weight l s)%nat.
Proof.
  intros Hw Ht. unfold weight, todo. rewrite Hw. destruct l as [t|p|n]; [|lia..]. destruct (Ht t) as [E|E]; [|rewrite E; lia].
  destruct (threads s' !! t), (threads s !! t); cbn in E; [|done..]. injection E as ->. lia.
Qed.

Lemma weight_same l s s' : works s' = works s -> threads s' = threads s -> (weight l s' <= weight l s)%nat.
Proof. intros H1 H2. apply weight_rest; [done|]. intros t. left. by rewrite H2. Qed.

Lemma weight_thread l t f s : (forall th, reply_error (f th) = reply_error th) -> (weight l (on_thread t f s) <= weight l s)%nat.
Proof. intros Hf. apply weight_rest; [done|]. intros t'. left. cbn. by apply fmap_alter. Qed.

Lemma proc_dec_rest p s s' : binder_proc_dec_tmpref p s = Some s' -> works s' = works s /\ threads s' = threads s.
Proof.
  intros H. unfold binder_proc_dec_tmpref in H. apply bind_Some in H as (pr & _ & H). destruct (_ && _ && _); [|by injection H as <-].
  unfold binder_free_proc in H. destruct (negb _); [done|]. destruct (existsb _ _); [done|]. by injection H as <-.
Qed.

Lemma weight_thread_dec l t s s' : binder_thread_dec_tmpref t s = Some s' -> (weight l s' <= weight l s)%nat.
Proof.
  intros H. unfold binder_thread_dec_tmpref in H. apply bind_Some in H as (th & _ & H).
  etransitivity; [|apply (weight_thread l t (fun th => th <| tmp_ref ::= fun c => c - 1 |>)); done].
  destruct (_ && _); [|by injection H as <-]. unfold binder_free_thread in H. apply bind_Some in H as (th' & _ & H).
  destruct (negb _); [done|]. apply bind_Some in H as (s1 & H1 & [= <-]). apply proc_dec_rest in H1 as [Hw Ht].
  apply weight_rest; [done|]. intros t'. cbn. rewrite Ht. destruct (decide (t' = t)) as [->|Hne]; [right; apply lookup_delete_eq|left; by rewrite lookup_delete_ne].
Qed.

Lemma weight_tell l t th e s s' : threads s !! t = Some th -> reply_error th = BR_OK -> e <> BR_OK ->
  binder_enqueue_thread_work_ilocked t (ReplyError t) (on_thread t (fun th => th <| reply_error := e |>) s) = Some s' -> (weight l s' <= weight l s)%nat.
Proof.
  intros Ht Hr He H. apply thread_work_inv in H as [_ ->].
  etransitivity; [by apply weight_thread|]. unfold weight. rewrite (todo_app l s _ [(ThreadTodo t, ReplyError t)]) by done.
  destruct (decide (l = ThreadTodo t)) as [->|Hl].
  - rewrite filter_cons_True by done. cbn. rewrite lookup_alter_eq, Ht, length_app. cbn.
    rewrite bool_decide_eq_false_2, bool_decide_eq_true_2 by done. cbn. lia.
  - rewrite filter_cons_False by (cbn; congruence). cbn. rewrite app_nil_r. destruct l as [t'|p|n]; [|lia..].
    rewrite lookup_alter_ne by congruence. lia.
Qed.

Lemma weight_free_txn l x s s' : binder_free_transaction x s = Some s' -> (weight l s' <= weight l s)%nat.
Proof.
  intros H. pose proof H as Hx. unfold binder_free_transaction in Hx. apply bind_Some in Hx as (tx & Hx & _).
  apply (free_transaction_inv x tx) in H as ->; [|done]. by apply weight_same.
Qed.

Definition after_step (r : (Z * state) + state) : state := match r with inl (_, s) => s | inr s => s end.

Lemma weight_failed_step l e x s r : e <> BR_OK -> failed_reply_step e x s = Some r -> (weight l (after_step r) <= weight l s)%nat.
Proof.
  intros He H. unfold failed_reply_step in H. apply bind_Some in H as (tx & Hx & H). apply bind_Some in H as ([target s1] & H1 & H).
  assert (weight l s1 <= weight l s)%nat as Hw1.
  { unfold binder_get_txn_from in H1. rewrite Hx in H1. cbn [mbind option_bind] in H1. destruct (from tx) as [t|]; [|by injection H1 as <- <-].
    apply bind_Some in H1 as (th & _ & [= <- <-]). by apply weight_thread. }
  destruct target as [t|].
  - apply bind_Some in H as (s2 & H2 & H). apply bind_Some in H as (th & Hth & H). apply bind_Some in H as (s3 & H3 & H).
    apply bind_Some in H as (s4 & H4%(weight_thread_dec l) & H). apply bind_Some in H as (s5 & H5%(weight_free_txn l) & [= <-]). cbn [after_step].
    assert (weight l s2 <= weight l s1)%nat as Hw2.
    { unfold binder_pop_transaction_ilocked in H2. apply bind_Some in H2 as (th2 & _ & H2). apply bind_Some in H2 as (tx2 & _ & H2).
      destruct (_ && _); [|done]. injection H2 as <-. etransitivity; [|by apply (weight_thread l t (fun th => th <| transaction_stack := from_parent tx2 |>))].
      by apply weight_same. }
    assert (weight l s3 <= weight l s2)%nat as Hw3; [|lia].
    case_bool_decide as Hr; [by eapply weight_tell|by injection H3 as <-].
  - apply bind_Some in H as (s2 & H2%(weight_free_txn l) & [= <-]). destruct (from_parent tx); cbn [after_step]; lia.
Qed.

Lemma weight_failed_loop l e fuel x s s' : e <> BR_OK -> loop fuel (fun '(x, s) => failed_reply_step e x s) (x, s) = Some s' -> (weight l s' <= weight l s)%nat.
Proof.
  intros He. revert x s. induction fuel as [|fuel IH]; intros x s H; [done|]. cbn [loop] in H. apply bind_Some in H as (r & Hr & H).
  pose proof (weight_failed_step l e x s r He Hr) as Hw. destruct r as [[x1 s1]|s1]; [|by injection H as <-].
  apply IH in H. cbn in Hw. lia.
Qed.

Lemma weight_release l w s s' : release_one_work w s = Some s' -> (weight l s' <= weight l s)%nat.
Proof.
  intros H. destruct w as [x| | | |]; [|by injection H as <-..]. cbn in H. unfold binder_cleanup_transaction in H.
  apply bind_Some in H as (tx & _ & H). apply bind_Some in H as (b & _ & H). apply bind_Some in H as (bf & _ & H).
  destruct (_ && _); [|by eapply weight_free_txn]. unfold binder_send_failed_reply in H. apply bind_Some in H as (tx' & _ & H).
  destruct (one_way tx'); [done|]. by eapply (weight_failed_loop l BR_DEAD_REPLY).
Qed.

Lemma weight_dequeue l w s : work_head l s = Some w -> (weight l (binder_dequeue_work w s) < weight l s)%nat.
Proof.
  intros H. rewrite work_head_todo in H. unfold weight. change (threads (binder_dequeue_work w s)) with (threads s). rewrite todo_dequeue.
  destruct (todo l s) as [|w' ws]; [done|]. injection H as ->. rewrite filter_cons_False by tauto. cbn [length].
  pose proof (length_filter (fun w' => w' <> w) ws). lia.
Qed.

(** More fuel than the weight makes no difference to the loop of
    binder_release_work. *)
Definition release_step (l : queue) (s : state) : option (state + state) :=
  match work_head l s with None => Some (inr s) | Some w => s ← release_one_work w (binder_dequeue_work w s); Some (inl s) end.

Lemma release_step_fuel l k fuel s : (weight l s < fuel)%nat -> loop (fuel + k) (release_step l) s = loop fuel (release_step l) s.
Proof.
  revert s. induction fuel as [|fuel IH]; intros s Hf; [lia|]. cbn [loop Nat.add].
  destruct (release_step l s) as [[s1|s1]|] eqn:E; [|done..]. mstep. apply IH.
  unfold release_step in E. destruct (work_head l s) as [w|] eqn:Ew; [|done]. pose proof (weight_dequeue l w s Ew) as Hd.
  apply bind_Some in E as (s2 & Er%(weight_release l) & [= <-]). lia.
Qed.

Lemma release_work_enough l s k : binder_release_work l s = loop (S (S (length (works s))) + k) (release_step l) s.
Proof.
  rewrite release_step_fuel; [done|]. unfold weight, todo. rewrite length_fmap. pose proof (length_filter (fun e : queue * work => e.1 = l) (works s)).
  assert (forall l, (match l with ThreadTodo t => match threads s !! t with Some th => if bool_decide (reply_error th = BR_OK) then 1 else 0 | None => 0 end | _ => 0 end <= 1)%nat) as Hl.
  { intros [t| |]; [destruct (threads s !! t) as [th|]; [case_bool_decide|]|..]; lia. }
  specialize (Hl l). lia.
Qed.
