(* ===== verification/BinderCallReply.v ===== *)
(** * Binder driver: errors for callers

    A call that fails is answered with an error.  When the thread that made it is
    dead, the error goes to the thread that called that one, and so on. *)

From S2P Require Import Prelude BinderCall BinderCallFacts.

(** ** Callers *)

(** [up s x xs z]: from the transaction [x] through [xs], whose callers are
    dead, to [z]. *)
Inductive up (s : state) : Z -> list Z -> Z -> Prop :=
| up_here x : up s x [] x
| up_dead x tx y xs z : txns s !! x = Some tx -> from tx = None -> from_parent tx = Some y -> up s y xs z -> up s x (x :: xs) z.

(** [z] is the first transaction with a caller, or the last one. *)
Definition ends (s : state) (z : Z) : Prop :=
  exists tz, txns s !! z = Some tz /\ (from tz = None -> from_parent tz = None).

Lemma up_unique s x xs ys z : up s x xs z -> ends s z -> up s x ys z -> xs = ys.
Proof.
  intros H (tz & Hz & He). revert ys. induction H as [x|x tx y xs z Hx Hf Hp Hup IH]; intros ys Hy.
  - inversion Hy as [|? tx' y' ys' ? Hx' Hf' Hp']; [done|]. subst. assert (tx' = tz) as -> by congruence. by rewrite He in Hp'.
  - inversion Hy as [|? tx' y' ys' ? Hx' Hf' Hp' Hup']; subst.
    + assert (tx = tz) as -> by congruence. by rewrite He in Hp.
    + assert (tx' = tx) as -> by congruence. assert (y' = y) as -> by congruence. f_equal. by apply IH.
Qed.

Lemma up_cut s x xs z y : up s x xs z -> y ∈ xs ++ [z] -> exists ys, up s y ys z /\ (length ys <= length xs)%nat.
Proof.
  induction 1 as [x|x tx x' xs z Hx Hf Hp Hup IH]; cbn; intros Hy.
  - apply list_elem_of_singleton in Hy as ->. exists []. by split; [constructor|].
  - apply elem_of_cons in Hy as [->|Hy].
    + exists (x :: xs). split; [by eapply up_dead|done].
    + destruct (IH Hy) as (ys & ? & ?). exists ys. split; [done|lia].
Qed.

Lemma up_NoDup s x xs z : up s x xs z -> ends s z -> NoDup (xs ++ [z]).
Proof.
  induction 1 as [x|x tx y xs z Hx Hf Hp Hup IH]; intros He; cbn; [apply NoDup_singleton|].
  constructor; [|by apply IH]. intros Hin.
  destruct (up_cut s y xs z x Hup Hin) as (ys & Hys & Hlen).
  assert (x :: xs = ys) as <- by (eapply up_unique; [by eapply up_dead|done|done]). cbn in Hlen. lia.
Qed.

Lemma up_txns s x xs z y : up s x xs z -> ends s z -> y ∈ xs ++ [z] -> y ∈ dom (txns s).
Proof.
  induction 1 as [x|x tx x' xs z Hx Hf Hp Hup IH]; intros He; cbn; intros Hy.
  - apply list_elem_of_singleton in Hy as ->. destruct He as (tz & Hz & _). by apply elem_of_dom_2 in Hz.
  - apply elem_of_cons in Hy as [->|Hy]; [by apply elem_of_dom_2 in Hx|by apply IH].
Qed.

Lemma up_length s x xs z : up s x xs z -> ends s z -> (length xs < size (txns s))%nat.
Proof.
  intros Hup He. rewrite <- size_dom. pose proof (up_NoDup _ _ _ _ Hup He) as Hd.
  assert (length (xs ++ [z]) <= size (dom (txns s)))%nat as Hle.
  { rewrite <- (size_list_to_set (C:=gset Z) _ Hd). apply subseteq_size. intros y Hy%elem_of_list_to_set. by eapply up_txns. }
  rewrite length_app in Hle. cbn in Hle. lia.
Qed.

(** ** Transactions that are freed *)

Definition freed (x : Z) (s : state) : state :=
  match txns s !! x with
  | Some tx => s <| txns ::= delete x |> <| buffers ::= fun bs => forget bs (freed_buffer tx) |>
  | None => s
  end.

(** Freeing the transactions of a path does not use what is not there. *)
Definition free_ok (s : state) (xs : list Z) : Prop := forall y ty, y ∈ xs -> txns s !! y = Some ty -> buffer_ok s ty.

Lemma forget_is_Some bs o b : is_Some (forget bs o !! b) <-> is_Some (bs !! b).
Proof. destruct o as [b'|]; [|done]. cbn. apply lookup_alter_is_Some. Qed.

Lemma freed_free x s : is_Some (txns s !! x) -> free_ok s [x] -> binder_free_transaction x s = Some (freed x s).
Proof.
  intros [tx Hx] Hok. unfold freed. rewrite Hx. apply free_transaction_spec; [done|]. eapply Hok; [|done]. by apply list_elem_of_singleton.
Qed.

Lemma freed_txns x s y : y <> x -> txns (freed x s) !! y = txns s !! y.
Proof. intros. unfold freed. destruct (txns s !! x); [|done]. cbn. by apply lookup_delete_ne. Qed.

Lemma freed_gone x s : txns (freed x s) !! x = None.
Proof. unfold freed. destruct (txns s !! x) eqn:E; [|done]. cbn. apply lookup_delete_eq. Qed.

Lemma freed_rest x s : threads (freed x s) = threads s /\ procs (freed x s) = procs s /\ nodes (freed x s) = nodes s /\ works (freed x s) = works s.
Proof. unfold freed. by destruct (txns s !! x). Qed.

Lemma freed_has_buffer x s b : is_Some (buffers (freed x s) !! b) <-> is_Some (buffers s !! b).
Proof. unfold freed. destruct (txns s !! x); [|done]. cbn. apply forget_is_Some. Qed.

Lemma freed_buffer_ok x s tx : buffer_ok s tx -> buffer_ok (freed x s) tx.
Proof.
  intros H p b Hp Hb. destruct (freed_rest x s) as (_ & -> & _). destruct (H p b Hp Hb). split; [done|]. by apply freed_has_buffer.
Qed.

Lemma freed_free_ok x s xs : free_ok s xs -> free_ok (freed x s) xs.
Proof.
  intros H y ty Hy Hty. apply freed_buffer_ok. eapply H; [done|]. destruct (decide (y = x)) as [->|]; [by rewrite freed_gone in Hty|].
  by rewrite freed_txns in Hty.
Qed.

Lemma freed_up x s y ys z : x ∉ ys ++ [z] -> up s y ys z -> up (freed x s) y ys z.
Proof.
  intros Hx. induction 1 as [y|y ty y' ys z Hy Hf Hp Hup IH]; [constructor|]. cbn in Hx. apply not_elem_of_cons in Hx as [Hne Hx].
  eapply up_dead; [|done..|by apply IH]. by rewrite freed_txns.
Qed.

Definition free_all (xs : list Z) (s : state) : state := foldl (fun s x => freed x s) s xs.

Lemma free_all_rest xs s : threads (free_all xs s) = threads s /\ procs (free_all xs s) = procs s /\ nodes (free_all xs s) = nodes s /\ works (free_all xs s) = works s.
Proof.
  revert s. induction xs as [|x xs IH]; intros s; [done|]. cbn. fold (free_all xs (freed x s)). destruct (IH (freed x s)) as (-> & -> & -> & ->). apply freed_rest.
Qed.

Lemma free_all_txns xs s y : txns (free_all xs s) !! y = if decide (y ∈ xs) then None else txns s !! y.
Proof.
  revert s. induction xs as [|x xs IH]; intros s; [done|]. cbn. fold (free_all xs (freed x s)). rewrite IH.
  destruct (decide (y ∈ xs)) as [Hin|Hin]; [by rewrite decide_True by (by right)|].
  destruct (decide (y = x)) as [->|Hne]; [rewrite decide_True by left; apply freed_gone|].
  rewrite decide_False by (by intros [?|?]%elem_of_cons). by apply freed_txns.
Qed.

Lemma free_all_free_ok ys xs s : free_ok s ys -> free_ok (free_all xs s) ys.
Proof. revert s. induction xs as [|x xs IH]; intros s H; [done|]. cbn. fold (free_all xs (freed x s)). apply IH. by apply freed_free_ok. Qed.

(** The buffers that forget their transactions. *)
Definition freed_buffers (s : state) (xs : list Z) : list Z := omap (fun x => tx ← txns s !! x; freed_buffer tx) xs.

Definition forgotten (forgets : bool) (bf : binder_buffer) : binder_buffer := if forgets then bf <| transaction := None |> else bf.

Lemma forgotten_twice p q bf : forgotten q (forgotten p bf) = forgotten (p || q) bf.
Proof. by destruct p, q. Qed.

Lemma forget_lookup bs o b : forget bs o !! b = forgotten (bool_decide (o = Some b)) <$> bs !! b.
Proof.
  destruct o as [b'|]; cbn; [|by destruct (bs !! b)].
  destruct (decide (b' = b)) as [->|Hne].
  - rewrite lookup_alter_eq, bool_decide_eq_true_2 by done. done.
  - rewrite lookup_alter_ne by done. rewrite bool_decide_eq_false_2 by congruence. by destruct (bs !! b).
Qed.

Lemma freed_buffers_cons s x xs : freed_buffers s (x :: xs) = freed_buffers s [x] ++ freed_buffers s xs.
Proof. unfold freed_buffers. by rewrite <- omap_app. Qed.

Lemma freed_buffers_freed x s xs : x ∉ xs -> freed_buffers (freed x s) xs = freed_buffers s xs.
Proof.
  intros Hx. unfold freed_buffers. induction xs as [|y xs IH]; [done|]. apply not_elem_of_cons in Hx as [Hne Hx]. cbn.
  rewrite freed_txns by done. by rewrite IH.
Qed.

Lemma freed_lookup x s b : buffers (freed x s) !! b = forgotten (bool_decide (b ∈ freed_buffers s [x])) <$> buffers s !! b.
Proof.
  unfold freed, freed_buffers. cbn. destruct (txns s !! x) as [tx|]; cbn; [|by destruct (buffers s !! b)].
  rewrite forget_lookup. destruct (freed_buffer tx) as [b'|]; cbn; [|by destruct (buffers s !! b)].
  do 2 f_equal. apply bool_decide_ext. rewrite list_elem_of_singleton. naive_solver.
Qed.

Lemma free_all_buffers xs s b : NoDup xs ->
  buffers (free_all xs s) !! b = forgotten (bool_decide (b ∈ freed_buffers s xs)) <$> buffers s !! b.
Proof.
  intros Hd. revert s. induction Hd as [|x xs Hx Hd IH]; intros s; [by cbn; destruct (buffers s !! b)|].
  change (free_all (x :: xs) s) with (free_all xs (freed x s)). rewrite IH, freed_lookup, freed_buffers_freed, (freed_buffers_cons s x xs) by done.
  destruct (buffers s !! b) as [bf|]; [|done]. cbn [fmap option_fmap option_map]. f_equal. rewrite forgotten_twice. f_equal.
  rewrite <- bool_decide_or. apply bool_decide_ext. by rewrite elem_of_app.
Qed.

(** ** The error *)

(** What happens to the thread that waits for the reply. *)
Definition told (error : br) (parent : option Z) (th : binder_thread) : binder_thread :=
  let th := th <| transaction_stack := parent |> in
  if bool_decide (reply_error th = BR_OK) then th <| reply_error := error |> <| process_todo := true |> else th.

Definition told_works (t : Z) (th : binder_thread) : list (queue * work) :=
  if bool_decide (reply_error th = BR_OK) then [(ThreadTodo t, ReplyError t)] else [].

(** The thread [t] waits for the reply to [z]. *)
Record waits (s : state) (t z : Z) (th : binder_thread) : Prop := {
  w_thread : threads s !! t = Some th;
  w_alive : is_dead th = false;
  w_stack : transaction_stack th = Some z;
  w_error : reply_error th = BR_OK -> ReplyError t ∉ (works s).*2;
}.

Definition tell (t : Z) (th : binder_thread) (error : br) (parent : option Z) (s : state) : state :=
  s <| threads ::= <[t := told error parent th]> |> <| works ::= fun ws => ws ++ told_works t th |>.

Lemma step_caller error z tz t th s :
  txns s !! z = Some tz -> from tz = Some t -> waits s t z th -> free_ok s [z] ->
  exists s1, failed_reply_step error z s = Some (inr s1) /\
    threads s1 = <[t := told error (from_parent tz) th]> (threads s) /\ works s1 = works s ++ told_works t th /\
    procs s1 = procs s /\ nodes s1 = nodes s /\ txns s1 = delete z (txns s) /\ buffers s1 = forget (buffers s) (freed_buffer tz).
Proof.
  intros Hz Hf [Ht Ha Hst Her] Hok.
  assert (forall s', procs s' = procs s -> buffers s' = buffers s ->
    txns s' = alter (fun tx => tx <| from := None |>) z (txns s) ->
    binder_free_transaction z s' = Some (s' <| txns ::= delete z |> <| buffers ::= fun bs => forget bs (freed_buffer tz) |>)) as Hfree.
  { intros s' Hp Hb Hx. rewrite (free_transaction_spec z (tz <| from := None |>)); [done|by rewrite Hx, lookup_alter_eq, Hz|].
    intros p b H1 H2. rewrite Hp, Hb. eapply Hok; [by apply list_elem_of_singleton|done|done|done]. }
  unfold failed_reply_step, binder_get_txn_from. rewrite Hz. mstep. rewrite Hf, Ht. mstep.
  erewrite pop_ok; [|by apply on_thread_lookup|done|done|done]. mstep.
  set (th1 := th <| tmp_ref ::= Z.add 1 |> <| transaction_stack := from_parent tz |>).
  set (s1 := on_txn _ _ _). assert (threads s1 !! t = Some th1) as Ht1 by by repeat apply on_thread_lookup.
  rewrite Ht1. mstep. unfold told, told_works. change (reply_error th1) with (reply_error th).
  destruct (decide (reply_error th = BR_OK)) as [E|E].
  - rewrite !bool_decide_eq_true_2 by done.
    erewrite thread_work_ok; [|by apply on_thread_lookup|by apply Her]. mstep.
    erewrite thread_dec_alive; [|by repeat apply on_thread_lookup|done]. mstep. rewrite Hfree by done. mstep.
    eexists. split; [done|]. subst s1. cbn. split_and!; try done; [|by rewrite delete_alter_eq].
    rewrite (alter_is_insert (threads s) t th _ Ht), !alter_insert_eq. f_equal. by eapply (tmp_ref_back _ _ 1).
  - rewrite !bool_decide_eq_false_2 by done. mstep.
    erewrite thread_dec_alive; [|done|done]. mstep. rewrite Hfree by done. mstep.
    eexists. split; [done|]. subst s1. cbn. split_and!; try done; [|by rewrite app_nil_r|by rewrite delete_alter_eq].
    rewrite (alter_is_insert (threads s) t th _ Ht), !alter_insert_eq. f_equal. by eapply (tmp_ref_back _ _ 1).
Qed.

Lemma step_dead error x tx s : txns s !! x = Some tx -> from tx = None -> free_ok s [x] ->
  failed_reply_step error x s = Some (match from_parent tx with Some next => inl (next, freed x s) | None => inr (freed x s) end).
Proof.
  intros Hx Hf Hok. unfold failed_reply_step, binder_get_txn_from. rewrite Hx. mstep. rewrite Hf. mstep.
  by rewrite freed_free by eauto.
Qed.

Lemma free_ok_app s xs ys : free_ok s (xs ++ ys) <-> free_ok s xs /\ free_ok s ys.
Proof. unfold free_ok. setoid_rewrite elem_of_app. naive_solver. Qed.

(** What is left after the error has reached [z]. *)
Definition reached (s s' : state) (xs : list Z) (z : Z) : Prop :=
  (forall y, txns s' !! y = if decide (y ∈ xs ++ [z]) then None else txns s !! y) /\
  (forall b, buffers s' !! b = forgotten (bool_decide (b ∈ freed_buffers s (xs ++ [z]))) <$> buffers s !! b) /\
  procs s' = procs s /\ nodes s' = nodes s.

Lemma reached_free_all s s1 xs z tz : NoDup (xs ++ [z]) -> txns s !! z = Some tz ->
  txns s1 = delete z (txns (free_all xs s)) -> buffers s1 = forget (buffers (free_all xs s)) (freed_buffer tz) ->
  procs s1 = procs s -> nodes s1 = nodes s -> reached s s1 xs z.
Proof.
  intros Hd Hz Hx Hb Hp Hn.
  assert (z ∉ xs) as Hzx by (apply NoDup_app in Hd as (_ & Hd & _); intros H; by apply (Hd z H), list_elem_of_singleton).
  assert (txns (free_all xs s) !! z = Some tz) as Hz' by by rewrite free_all_txns, decide_False.
  assert (free_all (xs ++ [z]) s = freed z (free_all xs s)) as Hall by by unfold free_all; rewrite foldl_app.
  assert (txns s1 = txns (free_all (xs ++ [z]) s)) as Hx' by (rewrite Hall, Hx; unfold freed; by rewrite Hz').
  assert (buffers s1 = buffers (free_all (xs ++ [z]) s)) as Hb' by (rewrite Hall, Hb; unfold freed; by rewrite Hz').
  split_and!; [|intros b; rewrite Hb'; by apply free_all_buffers|done|done].
  intros y. rewrite Hx'. apply free_all_txns.
Qed.

(** The loop of binder_send_failed_reply, from [x]. *)
Lemma failed_reply_loop error s x xs z s' :
  up s x xs z -> ends s z -> free_ok s (xs ++ [z]) -> failed_reply_step error z (free_all xs s) = Some (inr s') ->
  forall fuel, (length xs < fuel)%nat -> loop fuel (fun '(x, s) => failed_reply_step error x s) (x, s) = Some s'.
Proof.
  intros Hup He Hok Hz fuel Hfuel. revert s x He Hok Hup Hz fuel Hfuel.
  induction xs as [|x' xs IH]; intros s x He Hok Hup Hz fuel Hfuel;
    inversion Hup as [|? tx y ? ? Hx Hf Hp Hup']; subst; (destruct fuel as [|fuel]; [cbn in Hfuel; lia|]); cbn [loop].
  - cbn in Hz. by rewrite Hz.
  - pose proof (up_NoDup _ _ _ _ Hup He) as Hd. cbn in Hd. apply NoDup_cons in Hd as [Hnx Hd].
    change (x' :: xs) with ([x'] ++ xs) in Hok. rewrite <- app_assoc, free_ok_app in Hok. destruct Hok as [Hokx Hok].
    rewrite (step_dead error x' tx) by done. mstep. rewrite Hp.
    assert (z <> x') as Hzx by (intros ->; apply Hnx, elem_of_app; right; by left).
    apply IH; [|by apply freed_free_ok|by apply freed_up|done|cbn in Hfuel; lia].
    destruct He as (tz & Hz' & He). exists tz. by rewrite freed_txns.
Qed.

Lemma waits_free_all s t z th xs : waits s t z th -> waits (free_all xs s) t z th.
Proof. intros []. destruct (free_all_rest xs s) as (E & _ & _ & E'). by constructor; rewrite ?E, ?E'. Qed.

Section Path.
Context (s : state) (x : Z) (xs : list Z) (z : Z) (tz : binder_transaction) (error : br).
Hypotheses (Hup : up s x xs z) (Hz : txns s !! z = Some tz) (Hok : free_ok s (xs ++ [z])).
Hypothesis Hsync : forall tx, txns s !! x = Some tx -> one_way tx = false.

Lemma path_start : exists tx, txns s !! x = Some tx.
Proof using All. destruct Hup as [y|y ty]; [by exists tz|by exists ty]. Qed.

Lemma last_txn : ends s z -> txns (free_all xs s) !! z = Some tz.
Proof using All.
  intros He. rewrite free_all_txns, decide_False; [done|].
  pose proof (up_NoDup _ _ _ _ Hup He) as (_ & Hd & _)%NoDup_app. intros H. by apply (Hd z H), list_elem_of_singleton.
Qed.

Lemma send_failed_reply_by_step s' : ends s z ->
  failed_reply_step error z (free_all xs s) = Some (inr s') -> binder_send_failed_reply x error s = Some s'.
Proof using All.
  intros He Hs. unfold binder_send_failed_reply. destruct path_start as [tx Hx]. rewrite Hx. mstep. rewrite (Hsync tx Hx).
  eapply failed_reply_loop; [done..|]. pose proof (up_length _ _ _ _ Hup He). lia.
Qed.

(** The thread that waits for the reply to [z] is told. *)
Lemma failed_reply_caller t th : from tz = Some t -> waits s t z th ->
  exists s', binder_send_failed_reply x error s = Some s' /\ reached s s' xs z /\
    threads s' = <[t := told error (from_parent tz) th]> (threads s) /\ works s' = works s ++ told_works t th.
Proof using All.
  intros Hf Hw. assert (ends s z) as He by (exists tz; split; [done|congruence]).
  destruct (proj1 (free_ok_app _ _ _) Hok) as [Hok1 Hok2].
  destruct (step_caller error z tz t th (free_all xs s)) as (s' & Hs & Ht & Hk & Hp & Hn & Hx & Hb);
    [by apply last_txn|done|by apply waits_free_all|by apply free_all_free_ok|].
  destruct (free_all_rest xs s) as (E1 & E2 & E3 & E4). exists s'. split_and!; [by apply send_failed_reply_by_step| |congruence..].
  apply (reached_free_all s s' xs z tz); [by eapply up_NoDup|done|done|done|congruence..].
Qed.

(** Nobody is left to be told. *)
Lemma failed_reply_root : from tz = None -> from_parent tz = None ->
  exists s', binder_send_failed_reply x error s = Some s' /\ reached s s' xs z /\ threads s' = threads s /\ works s' = works s.
Proof using All.
  intros Hf Hp. assert (ends s z) as He by by exists tz.
  destruct (proj1 (free_ok_app _ _ _) Hok) as [Hok1 Hok2]. pose proof (last_txn He) as Hz'.
  assert (failed_reply_step error z (free_all xs s) = Some (inr (freed z (free_all xs s)))) as Hs.
  { rewrite (step_dead error z tz) by (done || by apply free_all_free_ok). by rewrite Hp. }
  exists (freed z (free_all xs s)). destruct (freed_rest z (free_all xs s)) as (E1 & E2 & E3 & E4).
  destruct (free_all_rest xs s) as (F1 & F2 & F3 & F4). split_and!; [by apply send_failed_reply_by_step| |congruence..].
  apply (reached_free_all s _ xs z tz); [by eapply up_NoDup|done| | |congruence..]; unfold freed; by rewrite Hz'.
Qed.
End Path.
