(* ===== verification/BinderCallAsync.v ===== *)
(** * Binder driver: one-way transactions of a node

    A node handles its one-way transactions one at a time, in the order in which
    they were sent: while the buffer of one is in use, the others wait in the
    queue of the node. *)

From S2P Require Import Prelude BinderCall BinderCallFacts.

(** ** Steps *)

Inductive event :=
| Sent (n x : Z)   (* a one-way transaction [x] to the node [n] was accepted *)
| Got (n x : Z)    (* a thread has read it *)
| Freed (n : Z)    (* the buffer of one was freed *)
| Silent.

Definition read_event (w : option work) (s : state) : event :=
  match w with
  | Some (Txn x) =>
      match (tx ← txns s !! x; b ← buffer tx; bf ← buffers s !! b; async_node bf) with Some n => Got n x | None => Silent end
  | _ => Silent
  end.

(** Calls, one-way or not, to processes and threads that live; reading; the
    command BC_FREE_BUFFER for a buffer that may be freed; sleep and wake-up. *)
Inductive step (s : state) : event -> state -> Prop :=
| step_send d n x b s' :
    d_reply d = None -> d_node d = Some n -> (d_one_way d = true -> d_target d = None) ->
    receiver_lives s d ->
    txns s !! x = None -> buffers s !! b = None ->
    finish d x b s = Some s' -> step s (if d_one_way d then Sent n x else Silent) s'
| step_read t th r s' :
    threads s !! t = Some th -> binder_thread_read t true s = Some (r, s') -> step s (read_event (next_work t th s) s) s'
| step_free p b bf s' :
    buffers s !! b = Some bf -> allow_user_free bf = true -> binder_free_buf p b s = Some s' ->
    step s (match async_node bf with Some n => Freed n | None => Silent end) s'
| step_wait t s' : binder_wait_for_work t s = Some s' -> step s Silent s'
| step_wake t s' : wake_up t s = Some s' -> step s Silent s'.

Inductive runs (s : state) : list event -> state -> Prop :=
| runs_nil : runs s [] s
| runs_snoc es e s' s'' : runs s es s' -> step s' e s'' -> runs s (es ++ [e]) s''.

Definition sent (n : Z) (es : list event) : list Z :=
  omap (fun e => match e with Sent n' x => if decide (n' = n) then Some x else None | _ => None end) es.
Definition got (n : Z) (es : list event) : list Z :=
  omap (fun e => match e with Got n' x => if decide (n' = n) then Some x else None | _ => None end) es.
Definition freed_events (n : Z) (es : list event) : list () :=
  omap (fun e => match e with Freed n' => if decide (n' = n) then Some () else None | _ => None end) es.

(** ** Invariant *)

(** A transaction that is queued has its buffer, and a buffer in use by a
    transaction is the buffer of that transaction. *)
Record works_ok (s : state) : Prop := {
  wk_once : NoDup (works s).*2;
  wk_txn : forall x, Txn x ∈ (works s).*2 ->
    exists tx p b bf, txns s !! x = Some tx /\ to_proc tx = Some p /\ buffer tx = Some b /\ buffers s !! b = Some bf /\
      transaction bf = Some x /\ allow_user_free bf = false /\ (is_Some (target_node bf) -> async_transaction bf = one_way tx);
  wk_back : forall b bf x, buffers s !! b = Some bf -> transaction bf = Some x -> exists tx, txns s !! x = Some tx /\ buffer tx = Some b;
}.

(** What the node is busy with: nothing, a transaction that is queued for a
    thread, or one whose buffer the process has. *)
Inductive phase := Idle | Queued (x b : Z) | Handled (b : Z).

Definition busy (ph : phase) : bool := match ph with Idle => false | _ => true end.
Definition current (ph : phase) : option Z := match ph with Idle => None | Queued _ b | Handled b => Some b end.
Definition pending (ph : phase) : list Z := match ph with Queued x _ => [x] | _ => [] end.

Definition in_phase (s : state) (n : Z) (ph : phase) : Prop :=
  match ph with
  | Idle => True
  | Queued x b => exists bf, buffers s !! b = Some bf /\ async_node bf = Some n /\ transaction bf = Some x /\
      exists q, Txn x ∈ todo q s /\ (forall n, q <> AsyncTodo n)
  | Handled b => exists bf, buffers s !! b = Some bf /\ async_node bf = Some n /\ transaction bf = None /\ allow_user_free bf = true
  end.

Record node_ok (s : state) (n : Z) (nd : binder_node) (xs : list Z) (ph : phase) : Prop := {
  no_node : nodes s !! n = Some nd;
  no_busy : has_async_transaction nd = busy ph;
  no_todo : todo (AsyncTodo n) s = Txn <$> xs;
  no_idle : ph = Idle -> xs = [];
  no_phase : in_phase s n ph;
  no_queued : forall x, x ∈ xs -> exists b bf, buffers s !! b = Some bf /\ async_node bf = Some n /\ transaction bf = Some x;
  no_buffers : forall b bf, buffers s !! b = Some bf -> async_node bf = Some n ->
    current ph = Some b \/ exists x, x ∈ xs /\ transaction bf = Some x;
}.

(** ** Every step keeps queued transactions and their buffers together *)

Lemma works_ok_less s s' : works_ok s -> txns s' = txns s -> buffers s' = buffers s -> NoDup (works s').*2 ->
  (forall x, Txn x ∈ (works s').*2 -> Txn x ∈ (works s).*2) -> works_ok s'.
Proof. intros [H1 H2 H3] Ex Eb Hn Hw. split; rewrite ?Ex, ?Eb; auto. Qed.

Lemma works_ok_dequeue w s : works_ok s -> works_ok (binder_dequeue_work w s).
Proof. intros H. apply (works_ok_less s); [done..|apply dequeue_once, H|]. intros x [Hx _]%dequeue_works. done. Qed.

Lemma works_ok_accepted d x b n nd q s s' : accepted s s' d x b n nd q -> txns s !! x = None -> buffers s !! b = None ->
  works_ok s -> works_ok s'.
Proof.
  intros [] Hx Hb [H1 H2 H3]. split.
  - rewrite ac_works, fmap_app. apply NoDup_app. split_and!; [done| |].
    + intros w Hw [->|[->|[]%not_elem_of_nil]%elem_of_cons]%elem_of_cons; done.
    + apply NoDup_cons; split; [|apply NoDup_singleton]. by intros ?%list_elem_of_singleton.
  - intros y Hy. rewrite ac_works, fmap_app in Hy. rewrite ac_buffers.
    apply elem_of_app in Hy as [Hy|Hy].
    + destruct (H2 y Hy) as (tx & p & b' & bf & Etx & Ep & Eb & Ebf & Hr). exists tx, p, b', bf.
      rewrite ac_txns, lookup_insert_ne by congruence. done.
    + assert (y = x) as -> by (cbn in Hy; apply elem_of_cons in Hy as [|Hy]; [done|]; apply list_elem_of_singleton in Hy; congruence).
      destruct ac_txn as (tx & Etx & Ep & Eo & Eb). eexists tx, _, b, _. rewrite lookup_insert_eq. split_and!; done.
  - intros b' bf y. rewrite ac_buffers. destruct (decide (b' = b)) as [->|Hne].
    + rewrite lookup_insert_eq. intros [= <-] [= <-]. destruct ac_txn as (tx & Etx & Ep & Eo & Eb). by exists tx.
    + rewrite lookup_insert_ne by done. intros E1 E2. destruct (H3 b' bf y E1 E2) as (tx & Etx & Eb). exists tx.
      by rewrite ac_txns by congruence.
Qed.

(** The buffer of a queued transaction is its own. *)
Lemma queued_buffer s x tx b bf : works_ok s -> Txn x ∈ (works s).*2 -> txns s !! x = Some tx -> buffer tx = Some b -> buffers s !! b = Some bf ->
  transaction bf = Some x /\ allow_user_free bf = false /\ is_Some (to_proc tx) /\ (is_Some (target_node bf) -> async_transaction bf = one_way tx).
Proof.
  intros Hok Hx Etx Eb Ebf. destruct (wk_txn _ Hok x Hx) as (tx' & p & b' & bf' & E1 & E2 & E3 & E4 & E5 & E6 & E7).
  assert (tx' = tx) as -> by congruence. assert (b' = b) as -> by congruence. assert (bf' = bf) as -> by congruence. done.
Qed.

Lemma works_ok_read x b tx bf s s' : read_txn s s' x b tx bf -> Txn x ∈ (works s).*2 -> works_ok s -> works_ok s'.
Proof.
  intros [] Hx Hok. destruct (queued_buffer s x tx b bf) as (Ht & Hu & Hp & Ha); [done..|].
  rewrite (bool_decide_eq_true_2 _ Hp), andb_true_r in rt_buffers. split.
  - rewrite rt_works. apply dequeue_once, Hok.
  - intros y Hy. rewrite rt_works in Hy. apply dequeue_works in Hy as [Hy Hne].
    destruct (wk_txn _ Hok y Hy) as (tx' & p & b' & bf' & E1 & E2 & E3 & E4 & E5 & E6). exists tx', p, b', bf'.
    rewrite rt_buffers, rt_txns, lookup_insert_ne by congruence. done.
  - intros b' bf' y. rewrite rt_buffers. destruct (decide (b' = b)) as [->|Hne].
    + rewrite lookup_insert_eq. intros [= <-]. destruct (ends_when_read tx bf) eqn:Ee; [done|].
      cbn. intros Ey. assert (y = x) as -> by congruence. by apply rt_same.
    + rewrite lookup_insert_ne by done. intros E1 E2. destruct (wk_back _ Hok b' bf' y E1 E2) as (tx' & Etx & Eb). exists tx'.
      rewrite rt_txns; [done|]. intros ->. congruence.
Qed.

Lemma works_ok_free p b bf s s' : binder_free_buf p b s = Some s' -> buffers s !! b = Some bf -> allow_user_free bf = true ->
  works_ok s -> works_ok s'.
Proof.
  intros H Hbf Hu Hok. apply free_buf_inv in H as (bf' & Hbf' & Eb & Ex & Hn). assert (bf' = bf) as -> by congruence.
  assert (forall y tx, transaction bf = Some y -> txns s !! y = Some tx -> buffer tx = Some b) as Hback.
  { intros y tx Ey Etx. destruct (wk_back _ Hok b bf y Hbf Ey) as (? & ? & ?). congruence. }
  assert (forall y tx b', txns s !! y = Some tx -> buffer tx = Some b' -> b' <> b -> txns s' !! y = Some tx) as Hkeep.
  { intros y tx b' Ey Eb' Hne. rewrite Ex. destruct (transaction bf) as [z|] eqn:Ez; [|done].
    rewrite lookup_alter_ne; [done|]. intros ->. apply Hne. rewrite (Hback y tx) in Eb' by done. congruence. }
  assert (NoDup (works s').*2 /\ forall w, w ∈ (works s').*2 -> w ∈ (works s).*2) as [Hd Hsub].
  { destruct (async_node bf) as [n|]; [|by destruct Hn as [-> _]; split; [apply Hok|]].
    destruct Hn as (nd & _ & _ & _ & Hn). destruct (todo (AsyncTodo n) s) as [|w ws] eqn:Ew; [by destruct Hn as [-> _]; split; [apply Hok|]|].
    destruct Hn as [-> _]. rewrite fmap_app. split.
    - apply NoDup_app. split_and!; [apply dequeue_once, Hok| |apply NoDup_singleton].
      intros w' Hw' Hin%list_elem_of_singleton. apply dequeue_works in Hw' as [_ Hw']. by apply Hw'.
    - intros w' [Hw'|Hw'%list_elem_of_singleton]%elem_of_app; [by apply dequeue_works in Hw' as [? _]|].
      cbn in Hw'. subst w'. apply (todo_queued (AsyncTodo n)). rewrite Ew. by left. }
  split; [done| |].
  - intros y Hy%Hsub. destruct (wk_txn _ Hok y Hy) as (tx & p' & b' & bf' & E1 & E2 & E3 & E4 & E5 & E6 & E7).
    assert (b' <> b) as Hne by congruence. exists tx, p', b', bf'. rewrite Eb, lookup_delete_ne by done. split_and!; try done. by eapply Hkeep.
  - intros b' bf' y. rewrite Eb. intros [Hne E1]%lookup_delete_Some E2. destruct (wk_back _ Hok b' bf' y E1 E2) as (tx & Etx & Eb').
    exists tx. split; [|done]. eapply Hkeep; [done..|]. done.
Qed.

(** ** What does not concern a node *)

Lemma node_ok_other s s' n nd xs ph : node_ok s n nd xs ph ->
  nodes s' !! n = nodes s !! n -> todo (AsyncTodo n) s' = todo (AsyncTodo n) s ->
  (forall x q, pending ph = [x] -> (forall m, q <> AsyncTodo m) -> Txn x ∈ todo q s -> Txn x ∈ todo q s') ->
  (forall b bf, async_node bf = Some n -> (buffers s' !! b = Some bf <-> buffers s !! b = Some bf)) ->
  node_ok s' n nd xs ph.
Proof.
  intros [] Hn Ht Hq Hb. split; rewrite ?Hn, ?Ht; try done.
  - destruct ph as [|x b|b]; [done| |]; cbn in *.
    + destruct no_phase0 as (bf & H1 & H2 & H3 & q & H4 & H5). exists bf. rewrite Hb by done. split_and!; [done..|].
      exists q. split; [by apply Hq|done].
    + destruct no_phase0 as (bf & H1 & H2 & H3). exists bf. by rewrite Hb.
  - intros x Hx. destruct (no_queued0 x Hx) as (b & bf & H1 & H2 & H3). exists b, bf. by rewrite Hb.
  - intros b bf H1 H2. apply Hb in H1; [|done]. by apply (no_buffers0 b).
Qed.

(** The buffer of a one-way transaction to a node belongs to its turn. *)
Lemma async_buffer s n nd xs ph b bf x : works_ok s -> node_ok s n nd xs ph -> buffers s !! b = Some bf -> async_node bf = Some n ->
  transaction bf = Some x -> (exists q, Txn x ∈ todo q s /\ forall m, q <> AsyncTodo m) -> ph = Queued x b.
Proof.
  intros Hok [] Hb Ha Ht (q & Hq & Hna). destruct (no_buffers0 b bf Hb Ha) as [Hc|(y & Hy & Ht')].
  - destruct ph as [|x' b'|b']; cbn in *; [done| |]; injection Hc as ->; destruct no_phase0 as (bf' & H1 & H2 & H3 & _); congruence.
  - assert (y = x) as -> by congruence. exfalso. apply (Hna n). eapply todo_once; [apply Hok|done|].
    rewrite no_todo0. by apply list_elem_of_fmap_2.
Qed.

(** A waiting transaction has not been read. *)
Lemma async_unread s n nd xs ph b bf : works_ok s -> node_ok s n nd xs ph -> buffers s !! b = Some bf -> async_node bf = Some n ->
  allow_user_free bf = true -> ph = Handled b.
Proof.
  intros Hok [] Hb Ha Hu.
  assert (forall x q, Txn x ∈ todo q s -> transaction bf = Some x -> False) as Hno.
  { intros x q Hq Ht. destruct (wk_txn _ Hok x) as (tx & p & b' & bf' & E1 & E2 & E3 & E4 & E5 & E6 & _); [by eapply todo_queued|].
    destruct (wk_back _ Hok b bf x Hb Ht) as (tx' & E1' & E3'). congruence. }
  destruct (no_buffers0 b bf Hb Ha) as [Hc|(y & Hy & Ht')].
  - destruct ph as [|x' b'|b']; cbn in *; [done| |congruence]. injection Hc as ->. destruct no_phase0 as (bf' & H1 & H2 & H3 & q & H4 & _).
    exfalso. apply (Hno x' q); [done|congruence].
  - exfalso. apply (Hno y (AsyncTodo n)); [|done]. rewrite no_todo0. by apply list_elem_of_fmap_2.
Qed.

Lemma accepted_other d x b m nd' q s s' n nd xs ph : accepted s s' d x b m nd' q -> buffers s !! b = None ->
  (d_one_way d = true -> m <> n) -> node_ok s n nd xs ph -> node_ok s' n nd xs ph.
Proof.
  intros [] Hb Hm Hn. apply (node_ok_other s); [done| | | |].
  - rewrite ac_nodes. destruct (d_one_way d); [|done]. cbn. rewrite lookup_alter_ne; [done|]. by apply Hm.
  - rewrite (todo_app _ _ _ _ ac_works), filter_cons_False by done. rewrite filter_cons_False; [by rewrite app_nil_r|]. cbn.
    intros ->. destruct (d_one_way d); cbn in ac_queue; [|by eapply ac_queue].
    destruct (has_async_transaction nd'); [|by eapply ac_queue]. injection ac_queue as ->. by apply Hm.
  - intros y l _ _ Hy. rewrite (todo_app _ _ _ _ ac_works), elem_of_app. by left.
  - intros b' bf Ha. rewrite ac_buffers. destruct (decide (b' = b)) as [->|Hne]; [|by rewrite lookup_insert_ne].
    rewrite lookup_insert_eq, Hb. split; [|done]. intros [= <-]. unfold async_node in Ha. cbn in Ha.
    destruct (d_one_way d); [|done]. injection Ha as ->. by destruct Hm.
Qed.

Lemma todo_dequeue_keep w w' q s : w' <> w -> w' ∈ todo q s -> w' ∈ todo q (binder_dequeue_work w s).
Proof. intros Hne Hin. rewrite todo_dequeue. by apply list_elem_of_filter. Qed.

Lemma read_txn_other x b tx bf s s' n nd xs ph : read_txn s s' x b tx bf -> works_ok s ->
  (exists q, Txn x ∈ todo q s /\ forall m, q <> AsyncTodo m) -> async_node bf <> Some n -> node_ok s n nd xs ph -> node_ok s' n nd xs ph.
Proof.
  intros [] Hok (q & Hq & Hna) Ha Hn. apply (node_ok_other s); [done|by rewrite rt_nodes| | |].
  - unfold todo at 1. rewrite rt_works. by apply (todo_dequeue_other q); [apply Hok| |].
  - intros y l Hp Hl Hy. unfold todo. rewrite rt_works. apply todo_dequeue_keep; [|done]. intros [= ->].
    destruct ph as [|x' b'|b']; [done| |done]. injection Hp as ->. destruct (no_phase _ _ _ _ _ Hn) as (bf' & H1 & H2 & H3 & _).
    destruct (wk_back _ Hok b' bf' x H1 H3) as (tx' & E1 & E2). congruence.
  - intros b' bf' Ha'. rewrite rt_buffers. destruct (decide (b' = b)) as [->|Hne]; [|by rewrite lookup_insert_ne].
    rewrite lookup_insert_eq, rt_there. split; intros [= <-]; [|done]. exfalso. apply Ha. rewrite <- Ha'. by destruct (_ && _).
Qed.

Lemma read_other_other w s s' n nd xs ph : not_txn w -> (exists q, w ∈ todo q s /\ forall m, q <> AsyncTodo m) -> works_ok s ->
  works s' = works (binder_dequeue_work w s) -> nodes s' = nodes s -> buffers s' = buffers s ->
  node_ok s n nd xs ph -> node_ok s' n nd xs ph.
Proof.
  intros Hw (q & Hq & Hna) Hok Ew En Eb Hn. apply (node_ok_other s); [done|by rewrite En| | |by rewrite Eb].
  - unfold todo at 1. rewrite Ew. by apply (todo_dequeue_other q); [apply Hok| |].
  - intros y l _ _ Hy. unfold todo. rewrite Ew. apply todo_dequeue_keep; [|done]. by intros <-.
Qed.

Lemma free_other p b bf s s' n nd xs ph : binder_free_buf p b s = Some s' -> buffers s !! b = Some bf -> async_node bf <> Some n ->
  works_ok s -> node_ok s n nd xs ph -> node_ok s' n nd xs ph.
Proof.
  intros H Hbf Ha Hok Hn. apply free_buf_inv in H as (bf' & Hbf' & Eb & _ & Hm). assert (bf' = bf) as -> by congruence.
  assert (forall b' bf', async_node bf' = Some n -> (buffers s' !! b' = Some bf' <-> buffers s !! b' = Some bf')) as Hb.
  { intros b' bf' Ha'. rewrite Eb. destruct (decide (b' = b)) as [->|Hne]; [|by rewrite lookup_delete_ne].
    rewrite lookup_delete_eq, Hbf. split; [done|]. congruence. }
  destruct (async_node bf) as [m|]; [|destruct Hm as [Ew En]; apply (node_ok_other s); unfold todo; by rewrite ?Ew, ?En].
  assert (m <> n) as Hmn by congruence. destruct Hm as (nd' & Hnd' & _ & _ & Hm). destruct (todo (AsyncTodo m) s) as [|w ws] eqn:Et.
  - destruct Hm as [Ew En]. apply (node_ok_other s); [done| | | |done]; unfold todo; rewrite ?Ew; [|done..].
    by rewrite En, lookup_alter_ne.
  - destruct Hm as [Ew En]. assert (w ∈ todo (AsyncTodo m) s) as Hw by (rewrite Et; by left).
    apply (node_ok_other s); [done|by rewrite En| | |done].
    + rewrite (todo_app _ (binder_dequeue_work w s) _ _ Ew), filter_cons_False by done. rewrite app_nil_r.
      apply (todo_dequeue_other (AsyncTodo m)); [apply Hok|done|congruence].
    + intros y l _ Hl Hy. rewrite (todo_app _ (binder_dequeue_work w s) _ _ Ew), elem_of_app. left. apply todo_dequeue_keep; [|done].
      intros <-. apply (Hl m). eapply todo_once; [apply Hok|done|done].
Qed.

(** ** The turn of a node

    An abstract node: who has the turn, and who waits for it. *)

Inductive turn := Nobody | Ready (x : Z) | Serving.

Definition fifo (n : Z) (a : turn * list Z) (e : event) : option (turn * list Z) :=
  match e with
  | Sent m x =>
      if m =? n then Some (match a with (Nobody, xs) => (Ready x, xs) | (t, xs) => (t, xs ++ [x]) end) else Some a
  | Got m x => if m =? n then match a with (Ready y, xs) => if x =? y then Some (Serving, xs) else None | _ => None end else Some a
  | Freed m => if m =? n then match a with (Serving, x :: xs) => Some (Ready x, xs) | (Serving, []) => Some (Nobody, []) | _ => None end else Some a
  | Silent => Some a
  end.

Definition turn_of (ph : phase) : turn := match ph with Idle => Nobody | Queued x _ => Ready x | Handled _ => Serving end.

(** The node [n] of the driver is the abstract node [a]. *)
Definition abstracts (s : state) (n : Z) (a : turn * list Z) : Prop :=
  exists nd xs ph, node_ok s n nd xs ph /\ a = (turn_of ph, xs).

Lemma send_turn d x b nd' q s s' n a : d_one_way d = true -> accepted s s' d x b n nd' q -> buffers s !! b = None ->
  works_ok s -> abstracts s n a -> exists a', fifo n a (Sent n x) = Some a' /\ abstracts s' n a'.
Proof.
  intros How [] Hb Hok (nd & xs & ph & Hn & ->). rewrite How in *. cbn [andb occupy] in *. cbn [fifo]. rewrite Z.eqb_refl.
  eexists. split; [done|]. assert (nd' = nd) as -> by (destruct Hn; congruence).
  set (bf := {| b_proc := d_proc d; transaction := Some x; target_node := Some n; async_transaction := true; allow_user_free := false |}) in *.
  assert (forall b' bf', buffers s !! b' = Some bf' -> buffers s' !! b' = Some bf') as Hkeep.
  { intros b' bf' H. rewrite ac_buffers, lookup_insert_ne; [done|congruence]. }
  assert (buffers s' !! b = Some bf) as Hnew by by rewrite ac_buffers, lookup_insert_eq.
  assert (forall b' bf', buffers s' !! b' = Some bf' -> b' = b /\ bf' = bf \/ buffers s !! b' = Some bf') as Hor.
  { intros b' bf'. rewrite ac_buffers. destruct (decide (b' = b)) as [->|]; [rewrite lookup_insert_eq; intros [= <-]; by left|].
    rewrite lookup_insert_ne by done. by right. }
  rewrite (no_busy _ _ _ _ _ Hn) in ac_queue.
  assert (todo (AsyncTodo n) s' = (Txn <$> xs) ++ if busy ph then [Txn x] else []) as Htodo.
  { rewrite (todo_app _ _ _ _ ac_works), filter_cons_False, (no_todo _ _ _ _ _ Hn) by done. f_equal. rewrite filter_cons. cbn.
    destruct (busy ph); [by rewrite decide_True|]. by rewrite decide_False. }
  exists (nd <| has_async_transaction := true |>), (if busy ph then xs ++ [x] else xs), (if busy ph then ph else Queued x b).
  split; [|by destruct ph].
  assert (nodes s' !! n = Some (nd <| has_async_transaction := true |>)) as Hnd.
  { by rewrite ac_nodes, lookup_alter_eq, (no_node _ _ _ _ _ Hn). }
  assert (busy ph = true -> forall b' bf', buffers s' !! b' = Some bf' -> async_node bf' = Some n ->
    current ph = Some b' \/ exists y, y ∈ xs ++ [x] /\ transaction bf' = Some y) as Hbufs.
  { intros _ b' bf' [[-> ->]|H]%Hor Ha; [right; exists x; split; [apply elem_of_app; right; by left|done]|].
    destruct (no_buffers _ _ _ _ _ Hn b' bf' H Ha) as [Hc|(y & Hy & Ht)]; [by left|right].
    exists y. split; [apply elem_of_app; by left|done]. }
  assert (forall y, y ∈ xs ++ [x] -> exists b bf, buffers s' !! b = Some bf /\ async_node bf = Some n /\ transaction bf = Some y) as Hqs.
  { intros y [Hy|Hy%list_elem_of_singleton]%elem_of_app; [|subst y; by exists b, bf].
    destruct (no_queued _ _ _ _ _ Hn y Hy) as (b' & bf' & H1 & H2 & H3). exists b', bf'. eauto. }
  destruct Hn. destruct ph as [|y b'|b']; cbn [busy] in *; split; try done; cbn [current in_phase] in *.
  - by rewrite Htodo, app_nil_r.
  - exists bf. split_and!; [done..|]. exists q. split; [|done]. apply elem_of_todo. rewrite ac_works, elem_of_app. right. right. by left.
  - intros y Hy. rewrite no_idle0 in Hy by done. by apply not_elem_of_nil in Hy.
  - intros b' bf' [[-> ->]|H]%Hor Ha; [by left|]. destruct (no_buffers0 b' bf' H Ha) as [|(y & Hy & _)]; [done|].
    rewrite no_idle0 in Hy by done. by apply not_elem_of_nil in Hy.
  - by rewrite Htodo, fmap_app.
  - destruct no_phase0 as (bf' & H1 & H2 & H3 & q' & H4 & H5). exists bf'. split_and!; [by apply Hkeep|done..|].
    exists q'. split; [|done]. rewrite (todo_app _ _ _ _ ac_works), elem_of_app. by left.
  - by apply Hbufs.
  - by rewrite Htodo, fmap_app.
  - destruct no_phase0 as (bf' & H1 & H2 & H3 & H4). exists bf'. split_and!; [by apply Hkeep|done..].
  - by apply Hbufs.
Qed.

Lemma read_turn x b tx bf s s' n a : read_txn s s' x b tx bf -> works_ok s ->
  (exists q, Txn x ∈ todo q s /\ forall m, q <> AsyncTodo m) -> async_node bf = Some n -> abstracts s n a ->
  exists a', fifo n a (Got n x) = Some a' /\ abstracts s' n a'.
Proof.
  intros [] Hok Hq Ha (nd & xs & ph & Hn & ->). assert (Txn x ∈ (works s).*2) as Hx by (destruct Hq as (q & Hq & _); by eapply todo_queued).
  destruct (queued_buffer s x tx b bf) as (Ht & Hu & Hp & Hone); [done..|].
  assert (ph = Queued x b) as -> by by eapply async_buffer. cbn [turn_of fifo]. rewrite !Z.eqb_refl.
  eexists. split; [done|]. exists nd, xs, (Handled b). split; [|done].
  assert (async_transaction bf = true /\ is_Some (target_node bf)) as [Ha1 Ha2] by (unfold async_node in Ha; by destruct (async_transaction bf); eauto).
  assert (ends_when_read tx bf = true) as Ee by (unfold ends_when_read; by rewrite <- (Hone Ha2), Ha1).
  rewrite Ee, (bool_decide_eq_true_2 _ Hp) in rt_buffers. cbn [andb] in rt_buffers.
  destruct Hn. cbn [in_phase current] in *. destruct Hq as (q & Hq & Hna).
  assert (x ∉ xs) as Hxs.
  { intros Hin. apply (Hna n). eapply todo_once; [apply Hok|done|]. rewrite no_todo0. by apply list_elem_of_fmap_2. }
  split; rewrite ?rt_nodes; try done.
  - unfold todo at 1. rewrite rt_works. rewrite <- no_todo0. by apply (todo_dequeue_other q); [apply Hok| |].
  - cbn [in_phase]. eexists. by rewrite rt_buffers, lookup_insert_eq.
  - intros y Hy. destruct (no_queued0 y Hy) as (b' & bf' & H1 & H2 & H3). exists b', bf'.
    rewrite rt_buffers, lookup_insert_ne; [done|]. intros <-. apply Hxs. congruence.
  - intros b' bf'. rewrite rt_buffers. destruct (decide (b' = b)) as [->|Hne]; [by left|].
    rewrite lookup_insert_ne by done. apply no_buffers0.
Qed.

Lemma free_turn p b bf s s' n a : binder_free_buf p b s = Some s' -> buffers s !! b = Some bf -> allow_user_free bf = true ->
  async_node bf = Some n -> works_ok s -> abstracts s n a -> exists a', fifo n a (Freed n) = Some a' /\ abstracts s' n a'.
Proof.
  intros H Hbf Hu Ha Hok (nd & xs & ph & Hn & ->). assert (ph = Handled b) as -> by by eapply async_unread.
  apply free_buf_inv in H as (bf' & Hbf' & Eb & _ & Hm). assert (bf' = bf) as -> by congruence. rewrite Ha in Hm.
  destruct Hm as (nd' & Hnd' & Hp & Hb & Hm). destruct Hn. assert (nd' = nd) as -> by congruence.
  cbn [turn_of fifo in_phase current] in *. rewrite Z.eqb_refl.
  assert (forall b' bf', buffers s' !! b' = Some bf' -> async_node bf' = Some n -> exists y, y ∈ xs /\ transaction bf' = Some y) as Hbufs.
  { intros b' bf'. rewrite Eb. intros [Hne H1]%lookup_delete_Some H2. destruct (no_buffers0 b' bf' H1 H2) as [|]; [congruence|done]. }
  rewrite no_todo0 in Hm. destruct xs as [|x xs]; cbn [fmap list_fmap] in Hm; destruct Hm as [Ew En].
  - eexists. split; [done|]. exists (nd <| has_async_transaction := false |>), [], Idle. split; [|done]. split; try done.
    + by rewrite En, lookup_alter_eq, no_node0.
    + unfold todo. rewrite Ew. apply no_todo0.
    + intros y []%not_elem_of_nil.
    + intros b' bf' H1 H2. right. by eapply Hbufs.
  - eexists. split; [done|]. destruct (no_queued0 x) as (bx & bfx & Hbx & Hax & Htx); [by left|].
    assert (forall b' bf', buffers s !! b' = Some bf' -> is_Some (transaction bf') -> buffers s' !! b' = Some bf') as Hkeep.
    { intros b' bf'' H1 H2. rewrite Eb, lookup_delete_ne; [done|]. intros <-. destruct no_phase0 as (bf0 & F1 & _ & F3 & _).
      assert (bf'' = bf0) as -> by congruence. rewrite F3 in H2. by destruct H2. }
    exists nd, xs, (Queued x bx). split; [|done]. split; rewrite ?En; try done.
    + rewrite (todo_app _ (binder_dequeue_work (Txn x) s) _ _ Ew), filter_cons_False by done. rewrite app_nil_r.
      apply todo_dequeue_head; [apply Hok|done].
    + exists bfx. split_and!; [by apply Hkeep; eauto|done..|]. exists (ProcTodo p). split; [|done].
      apply elem_of_todo. rewrite Ew, elem_of_app. right. by left.
    + intros y Hy. destruct (no_queued0 y) as (b' & bf' & H1 & H2 & H3); [by right|]. exists b', bf'. split; [by apply Hkeep; eauto|done].
    + intros b' bf' H1 H2. destruct (Hbufs b' bf' H1 H2) as (y & [->|Hy]%elem_of_cons & Ht); [left|by right; exists y].
      rewrite Eb in H1. apply lookup_delete_Some in H1 as [_ H1].
      destruct (wk_back _ Hok b' bf' x H1 Ht) as (tx & E1 & E2), (wk_back _ Hok bx bfx x Hbx Htx) as (tx' & E1' & E2').
      cbn [current]. congruence.
Qed.

(** ** Every step *)

Lemma read_cases t th r s s' : threads s !! t = Some th -> binder_thread_read t true s = Some (r, s') ->
  (exists x tx b bf, next_work t th s = Some (Txn x) /\ read_txn s s' x b tx bf) \/
  (read_event (next_work t th s) s = Silent /\ txns s' = txns s /\ buffers s' = buffers s /\ nodes s' = nodes s /\
   (s' = s \/ exists w, next_work t th s = Some w /\ not_txn w /\ works s' = works (binder_dequeue_work w s))).
Proof.
  intros Ht H. assert ((exists x, next_work t th s = Some (Txn x)) \/ ~ exists x, next_work t th s = Some (Txn x)) as [[x Ew]|Hno].
  { destruct (next_work t th s) as [[x| | | |]|]; [left; by exists x|right; by intros [? ?]..]. }
  - left. destruct (read_txn_inv t th r s s' x) as (tx & b & bf & Hread); [done..|]. by exists x, tx, b, bf.
  - right. assert (forall w, next_work t th s = Some w -> not_txn w) as Hw by (intros [x| | | |] Ew; [by destruct Hno; exists x|done..]).
    destruct (read_other t th r s s') as (E1 & E2 & E3 & E4); [done..|]. split_and!; [|done..|].
    + destruct (next_work t th s) as [[x| | | |]|]; [by destruct Hno; exists x|done..].
    + destruct E4 as [->|(w & Ew & E4)]; [by left|right; eauto].
Qed.

(** Sleeping and waking up are no matter of transactions. *)
Lemma sleep_same s s' t : binder_wait_for_work t s = Some s' \/ wake_up t s = Some s' ->
  works s' = works s /\ txns s' = txns s /\ buffers s' = buffers s /\ nodes s' = nodes s.
Proof.
  intros [H|H]; unfold binder_wait_for_work, wake_up in H; apply bind_Some in H as (th & _ & H).
  - by repeat (match type of H with context [if ?c then _ else _] => destruct c end); injection H as <-.
  - by injection H as <-.
Qed.

Lemma step_works_ok s e s' : step s e s' -> works_ok s -> works_ok s'.
Proof.
  intros Hs Hok.
  assert (forall t, binder_wait_for_work t s = Some s' \/ wake_up t s = Some s' -> works_ok s') as Hsleep.
  { intros t (E1 & E2 & E3 & _)%sleep_same. apply (works_ok_less s); rewrite ?E1; done || apply Hok. }
  destruct Hs as [d n x b s' Hr Hd How Hl Hx Hb H|t th r s' Ht H|p b bf s' Hb Hu H|t s' H|t s' H].
  - destruct (call_accepted d x b n s s') as (nd & q & Ha); [done..|]. by eapply works_ok_accepted.
  - apply (read_cases t th) in H as [(x & tx & b & bf & Ew & H)|(_ & E1 & E2 & _ & [->|(w & _ & _ & E4)])]; [|done| |done].
    + destruct (next_work_todo _ _ _ _ Ew) as (q & Hq & _). eapply works_ok_read; [done|by eapply todo_queued|done].
    + eapply works_ok_less; [done..|rewrite E4; by apply dequeue_once, Hok|]. rewrite E4. by intros y [Hy _]%dequeue_works.
  - by eapply works_ok_free.
  - apply (Hsleep t). by left.
  - apply (Hsleep t). by right.
Qed.

(** The driver takes the steps of the abstract node. *)
Lemma step_turn s e s' n a : step s e s' -> works_ok s -> abstracts s n a -> exists a', fifo n a e = Some a' /\ abstracts s' n a'.
Proof.
  intros Hs Hok Ha. pose proof Ha as (nd & xs & ph & Hn & ->).
  assert (forall m, m <> n -> (m =? n) = false) as Hne by (intros m Hm; by apply Z.eqb_neq).
  assert (forall t, binder_wait_for_work t s = Some s' \/ wake_up t s = Some s' -> abstracts s' n (turn_of ph, xs)) as Hsleep.
  { intros t (E1 & E2 & E3 & E4)%sleep_same. exists nd, xs, ph. split; [|done]. apply (node_ok_other s); unfold todo; by rewrite ?E1, ?E3, ?E4. }
  assert (node_ok s' n nd xs ph -> abstracts s' n (turn_of ph, xs)) as Hsame by by exists nd, xs, ph.
  destruct Hs as [d m x b s' Hr Hd How Hl Hx Hb H|t th r s' Ht H|p b bf s' Hb Hu H|t s' H|t s' H].
  - destruct (call_accepted d x b m s s') as (nd' & q & Hacc); [done..|]. destruct (decide (d_one_way d = true /\ m = n)) as [[E ->]|E].
    + rewrite E. by eapply send_turn.
    + exists (turn_of ph, xs). split; [|by apply Hsame; eapply accepted_other; [done|done|naive_solver|done]].
      destruct (d_one_way d); [|done]. cbn. rewrite Hne by naive_solver. done.
  - apply (read_cases t th) in H as [(x & tx & b & bf & Ew & H)|(-> & E1 & E2 & E3 & [->|(w & Ew & Hw & E4)])]; [| | |done].
    + rewrite Ew. cbn [read_event]. rewrite (rt_txn _ _ _ _ _ _ H). cbn [mbind option_bind]. rewrite (rt_buffer _ _ _ _ _ _ H).
      cbn [mbind option_bind]. rewrite (rt_there _ _ _ _ _ _ H). cbn [mbind option_bind].
      apply next_work_todo in Ew. destruct (decide (async_node bf = Some n)) as [E|E]; [rewrite E; by eapply read_turn|].
      exists (turn_of ph, xs). split; [|by apply Hsame; eapply read_txn_other].
      destruct (async_node bf) as [m|]; [|done]. cbn. rewrite Hne by congruence. done.
    + eexists. split; [done|]. by exists nd, xs, ph.
    + apply next_work_todo in Ew. eexists. split; [done|]. apply Hsame. by eapply read_other_other.
  - destruct (decide (async_node bf = Some n)) as [E|E]; [rewrite E; by eapply free_turn|].
    exists (turn_of ph, xs). split; [|by apply Hsame; eapply free_other].
    destruct (async_node bf) as [m|]; [|done]. cbn. rewrite Hne by congruence. done.
  - eexists. split; [done|]. apply (Hsleep t). by left.
  - eexists. split; [done|]. apply (Hsleep t). by right.
Qed.

(** ** Runs *)

Definition fifo_all (n : Z) (es : list event) : option (turn * list Z) := foldl (fun a e => a ← a; fifo n a e) (Some (Nobody, [])) es.

Lemma fifo_snoc n es e : fifo_all n (es ++ [e]) = (a ← fifo_all n es; fifo n a e).
Proof. unfold fifo_all. by rewrite foldl_app. Qed.

Lemma omap_snoc {A B} (f : A -> option B) es e : omap f (es ++ [e]) = omap f es ++ match f e with Some y => [y] | None => [] end.
Proof. rewrite omap_app. cbn. by destruct (f e). Qed.

(** The transaction that has the turn but has not been read, and whether one is handled. *)
Definition ready (t : turn) : list Z := match t with Ready x => [x] | _ => [] end.
Definition serving (t : turn) : nat := match t with Serving => 1 | _ => 0 end.

(** The abstract node hands over in the order of arrival, one at a time. *)
Lemma fifo_order n es t xs : fifo_all n es = Some (t, xs) ->
  sent n es = got n es ++ ready t ++ xs /\ length (got n es) = (length (freed_events n es) + serving t)%nat /\ (t = Nobody -> xs = []).
Proof.
  revert t xs. induction es as [|e es IH] using rev_ind; intros t xs; [by intros [= <- <-]|].
  rewrite fifo_snoc. intros H. apply bind_Some in H as ([t0 xs0] & H0 & He). destruct (IH t0 xs0 H0) as (IH1 & IH2 & IH3).
  unfold sent, got, freed_events in *. rewrite !omap_snoc, length_app.
  destruct e as [m x|m x|m|]; cbn in He |- *; [destruct (Z.eqb_spec m n) as [->|Hne]..|];
    rewrite ?decide_True, ?decide_False by done; rewrite ?app_nil_r; try by (injection He as -> ->; split_and!; [|cbn; lia|]).
  - destruct t0; injection He as <- <-; cbn in *; rewrite IH1, <- ?app_assoc; cbn; rewrite ?app_nil_r.
    + rewrite (IH3 eq_refl). split_and!; [done|lia|done].
    + split_and!; [done|lia|done].
    + split_and!; [done|lia|done].
  - destruct t0 as [|y|]; [done| |done]. destruct (Z.eqb_spec x y) as [->|]; [|done]. injection He as <- <-. cbn in *.
    rewrite IH1, <- app_assoc. split_and!; [done|lia|done].
  - destruct t0; [done..|]. destruct xs0 as [|x xs0]; injection He as <- <-; cbn in *; rewrite IH1, ?app_nil_r, length_app; cbn;
      split_and!; try done; lia.
Qed.

(** The node [n] has no one-way transaction. *)
Definition at_rest (s : state) (n : Z) : Prop :=
  (exists nd, nodes s !! n = Some nd /\ has_async_transaction nd = false) /\ todo (AsyncTodo n) s = [] /\
  forall b bf, buffers s !! b = Some bf -> async_node bf <> Some n.

Lemma at_rest_abstracts s n : at_rest s n -> abstracts s n (Nobody, []).
Proof.
  intros ((nd & Hn & Hb) & Ht & Hbf). exists nd, [], Idle. split; [|done]. split; try done.
  - by intros x ?%not_elem_of_nil.
  - intros b bf H1 H2. by destruct (Hbf b bf).
Qed.

Lemma runs_turn s es s' n : runs s es s' -> works_ok s -> at_rest s n ->
  works_ok s' /\ exists a, fifo_all n es = Some a /\ abstracts s' n a.
Proof.
  intros Hr Hok Hrest. induction Hr as [|es e s' s'' Hr [IH1 (a & IH2 & IH3)] He].
  - split; [done|]. exists (Nobody, []). split; [done|]. by apply at_rest_abstracts.
  - split; [by eapply step_works_ok|]. destruct (step_turn s' e s'' n a) as (a' & Ha' & Habs); [done..|].
    exists a'. rewrite fifo_snoc, IH2. done.
Qed.
