(* ===== verification/BinderCallTrip.v ===== *)
(** * Binder driver: a call and its reply

    What the steps of a call do when nothing goes wrong: the caller sends, a
    thread of the other process reads and replies, the caller reads. *)

From S2P Require Import Prelude BinderCall BinderCallFacts.

(** ** Sending *)

(** The caller may make a call of the process [p]: its stack is empty, or it
    handles a call none of whose callers is in [p]. *)
Definition may_call (s : state) (c : Z) (k : option Z) (p : Z) : Prop :=
  (forall y, k = Some y -> exists ty, txns s !! y = Some ty /\ to_thread ty = Some c) /\ find_caller p k s = Some None.

Lemma begin_call_ok c thc n nd p pr s :
  threads s !! c = Some thc -> nodes s !! n = Some nd -> n_proc nd = Some p -> procs s !! p = Some pr -> t_proc thc <> p ->
  head_is_txn c s = false -> may_call s c (transaction_stack thc) p ->
  begin_call c false (inr n) true s =
    Some (Some {| d_thread := c; d_one_way := false; d_reply := None; d_node := Some n; d_proc := p; d_target := None |},
          on_proc p (fun pr => pr <| p_tmp_ref ::= Z.add 1 |>) s).
Proof.
  intros Hc Hn Hp Hpr Hne Hh [Hk Hf]. unfold begin_call. rewrite Hc. mstep. rewrite Hn. mstep. rewrite Hp, Hpr. mstep.
  apply Z.eqb_neq in Hne as ->. cbn [orb negb andb].
  change (head_is_txn c (on_proc p _ s)) with (head_is_txn c s). rewrite Hh.
  change (find_caller p ?k (on_proc p _ s)) with (find_caller p k s). rewrite Hf.
  destruct (transaction_stack thc) as [y|]; [|done]. cbn. destruct (Hk y eq_refl) as (ty & -> & Ht). mstep.
  rewrite Ht, bool_decide_eq_true_2 by done. done.
Qed.

(** A thread that waits for work of the process gets the call. *)
Lemma proc_transaction_waiting x n nd p pr w ws thw s :
  nodes s !! n = Some nd -> procs s !! p = Some pr -> p_is_dead pr = false -> waiting_threads pr = w :: ws ->
  threads s !! w = Some thw -> Txn x ∉ (works s).*2 ->
  binder_proc_transaction x n p false None s =
    Some (true, on_thread w (fun th => th <| process_todo := true |>)
                  (on_proc p (fun pr => pr <| waiting_threads := ws |>) s <| works ::= fun l => l ++ [(ThreadTodo w, Txn x)] |>)).
Proof.
  intros Hn Hp Hd Hws Hw Hx. unfold binder_proc_transaction. rewrite Hn. mstep. rewrite Hp. mstep. cbn [andb]. rewrite Hd. cbn [orb].
  unfold binder_select_thread_ilocked. rewrite Hp. mstep. rewrite Hws. mstep. by erewrite thread_work_ok.
Qed.

Lemma state_eq s s' : txns s = txns s' -> buffers s = buffers s' -> threads s = threads s' -> procs s = procs s' -> nodes s = nodes s' ->
  works s = works s' -> s = s'.
Proof. destruct s, s'. cbn. congruence. Qed.

(** Reading a call, and reading a reply. *)
Lemma read_transaction_call t p x tx b bf f th thf s :
  txns s !! x = Some tx -> buffer tx = Some b -> buffers s !! b = Some bf -> is_Some (target_node bf) -> one_way tx = false ->
  from tx = Some f -> threads s !! f = Some thf -> threads s !! t = Some th ->
  read_transaction t p x true s =
    Some (Some BR_TRANSACTION,
      on_thread t (fun th => th <| transaction_stack := Some x |>)
        (on_txn x (fun tx => tx <| to_parent := transaction_stack th |> <| to_thread := Some t |>)
          (on_buffer b (fun bf => bf <| allow_user_free := true |>) s))).
Proof.
  intros Hx Hb Hbf [n Hn] Ho Hf Hthf Ht. unfold read_transaction. rewrite Hx. mstep. rewrite Hb. mstep. rewrite Hbf. mstep.
  rewrite Hn, Hf, Hthf, Ho. mstep. cbn [negb]. change (threads (on_buffer b _ s)) with (threads s). by rewrite Ht.
Qed.

Lemma read_transaction_reply t p x tx b bf s :
  txns s !! x = Some tx -> buffer tx = Some b -> buffers s !! b = Some bf -> target_node bf = None -> from tx = None ->
  (exists p pr, to_proc tx = Some p /\ procs s !! p = Some pr) ->
  read_transaction t p x true s =
    Some (Some BR_REPLY, s <| txns ::= delete x |>
      <| buffers ::= alter (fun bf => bf <| allow_user_free := true |> <| transaction := None |>) b |>).
Proof.
  intros Hx Hb Hbf Hn Hf (q & pr & Hq & Hpr). unfold read_transaction. rewrite Hx. mstep. rewrite Hb. mstep. rewrite Hbf. mstep.
  rewrite Hn, Hf. mstep. cbn [negb].
  rewrite (free_transaction_spec x tx); [|done|].
  - mstep. do 2 f_equal. unfold freed_buffer. rewrite Hq. cbn. rewrite Hb. apply state_eq; try done. cbn.
    by rewrite !(alter_is_insert (buffers s) b bf), alter_insert_eq by done.
  - intros q' b' Hq' Hb'. cbn. rewrite lookup_alter_is_Some. assert (q' = q) as -> by congruence. assert (b' = b) as -> by congruence. eauto.
Qed.

(** The next lookup is [H] up to what has been written elsewhere. *)
Ltac look H :=
  match goal with |- context [@mbind option _ _ _ _ (?m !! ?i)] => rewrite (H : m !! i = Some _); mstep end.

(** A thread takes the first work of its own. *)
Definition taken (t : Z) (v : work) (vs : list work) (s : state) : state :=
  match vs with
  | [] => on_thread t (fun th => th <| process_todo := false |>) (binder_dequeue_work v s)
  | _ => binder_dequeue_work v s
  end.

Lemma read_own t th v vs s : threads s !! t = Some th -> todo (ThreadTodo t) s = v :: vs -> v ∉ vs ->
  match v with
  | Txn x => binder_thread_read t true s = read_transaction t (t_proc th) x true (taken t v vs s)
  | Complete _ => binder_thread_read t true s = Some (Some BR_TRANSACTION_COMPLETE, taken t v vs s)
  | _ => True
  end.
Proof.
  intros Ht Hv Hn. unfold binder_thread_read. rewrite Ht. mstep.
  assert (next_work t th s = Some v) as -> by (unfold next_work, binder_worklist_empty_ilocked; by rewrite !work_head_todo, Hv).
  assert (binder_worklist_empty_ilocked (ThreadTodo t) (binder_dequeue_work v s) = match vs with [] => true | _ => false end) as ->.
  { unfold binder_worklist_empty_ilocked. rewrite work_head_todo, todo_dequeue, Hv, filter_cons_False by (intros H; by apply H).
    rewrite filter_others by done. by destruct vs. }
  destruct v; try done; unfold taken; by destruct vs.
Qed.

Lemma dequeue_app v s l : v ∉ l.*2 -> filter (fun e => e.2 <> v) (l ++ s) = l ++ filter (fun e : queue * work => e.2 <> v) s.
Proof.
  intros H. rewrite filter_app. f_equal. induction l as [|[q v'] l IH]; [done|]. cbn in H. apply not_elem_of_cons in H as [Hne H].
  rewrite filter_cons_True by (cbn; congruence). by rewrite IH.
Qed.

(** The thread [t] replies to [x], for which the thread [f] waits. *)
Lemma begin_reply_ok t th x tx f thf pr ow s :
  threads s !! t = Some th -> transaction_stack th = Some x -> txns s !! x = Some tx -> to_thread tx = Some t -> from tx = Some f -> f <> t ->
  threads s !! f = Some thf -> transaction_stack thf = Some x -> procs s !! t_proc thf = Some pr ->
  begin_reply t ow s =
    Some (Some {| d_thread := t; d_one_way := ow; d_reply := Some x; d_node := None; d_proc := t_proc thf; d_target := Some f |},
      on_proc (t_proc thf) (fun pr => pr <| p_tmp_ref ::= Z.add 1 |>)
        (on_thread f (fun th => th <| tmp_ref ::= Z.add 1 |>) (on_thread t (fun th => th <| transaction_stack := to_parent tx |>) s))).
Proof.
  intros Ht Hst Hx Hto Hf Hne Hthf Hstf Hpr. unfold begin_reply. rewrite Ht. mstep. rewrite Hst, Hx. mstep.
  rewrite Hto, bool_decide_eq_true_2 by done. cbn [negb]. unfold binder_get_txn_from. cbn [txns on_thread set]. rewrite Hx. mstep.
  rewrite Hf. assert (threads (on_thread t (fun th => th <| transaction_stack := to_parent tx |>) s) !! f = Some thf) as Hthf'
    by (cbn; by rewrite lookup_alter_ne).
  rewrite Hthf'. mstep. rewrite (on_thread_lookup _ _ _ _ Hthf'). mstep.
  change (transaction_stack (thf <| tmp_ref ::= Z.add 1 |>)) with (transaction_stack thf).
  change (t_proc (thf <| tmp_ref ::= Z.add 1 |>)) with (t_proc thf).
  rewrite Hstf, bool_decide_eq_true_2 by done. cbn [negb]. cbn [procs on_thread set]. by rewrite Hpr.
Qed.

(** The reply [x] to the transaction [r] of the thread [f]. *)
Lemma finish_reply_ok d x b r f t th thf tx q bc pr s :
  d_reply d = Some r -> d_target d = Some f -> d_thread d = t -> f <> t -> threads s !! t = Some th ->
  threads s !! f = Some thf -> is_dead thf = false -> transaction_stack thf = Some r ->
  txns s !! r = Some tx -> from tx = Some f -> to_proc tx = Some q -> buffer tx = Some bc -> r <> x ->
  is_Some (procs s !! q) -> is_Some (buffers s !! bc) -> bc <> b -> procs s !! d_proc d = Some pr -> p_is_dead pr = false ->
  Complete x ∉ (works s).*2 -> Txn x ∉ (works s).*2 ->
  exists s', finish d x b s = Some s' /\
    txns s' = delete r (txns (new_transaction d x b s)) /\
    buffers s' = alter (fun bf => bf <| transaction := None |>) bc (buffers (new_transaction d x b s)) /\
    threads s' = <[f := thf <| transaction_stack := from_parent tx |> <| process_todo := true |> <| tmp_ref ::= fun c => c - 1 |>]>
                   (<[t := th <| process_todo := true |>]> (threads s)) /\
    procs s' = <[d_proc d := pr <| p_tmp_ref ::= fun c => c - 1 |>]> (procs s) /\ nodes s' = nodes s /\
    works s' = works s ++ [(ThreadTodo t, Complete x); (ThreadTodo f, Txn x)].
Proof.
  intros Hr Hd Ht Hne Hth Hthf Ha Hst Hx Hf Hq Hbc Hrx Hpq Hbf Hb Hp Hpa Hn1 Hn2. unfold finish. rewrite Hr, Ht.
  set (s0 := new_transaction d x b s).
  erewrite thread_work_ok; [|done|done]. mstep. rewrite Hd. mstep.
  set (s1 := on_thread t _ _). assert (threads s1 !! f = Some thf) as Hthf1 by (cbn; by rewrite lookup_alter_ne).
  assert (txns s1 !! r = Some tx) as Hx1 by (cbn; by rewrite lookup_insert_ne).
  rewrite Hthf1. mstep. rewrite Ha. erewrite pop_ok by done. mstep.
  erewrite thread_work_ok; [|by apply on_thread_lookup|].
  2: { cbn. rewrite fmap_app. intros [H|H%list_elem_of_singleton]%elem_of_app; done. }
  mstep. erewrite free_transaction_spec; [|cbn; by rewrite lookup_alter_eq, lookup_insert_ne, Hx by congruence|].
  2: { intros q' b2 Hq' Hb2. cbn in Hq', Hb2 |- *. rewrite lookup_insert_ne by congruence. assert (q' = q) as -> by congruence. by assert (b2 = bc) as -> by congruence. }
  mstep. unfold delivered. rewrite Hd.
  erewrite thread_dec_alive; [|by apply on_thread_lookup, on_thread_lookup|done]. mstep.
  erewrite proc_dec_alive; [|done|done]. eexists. split; [done|]. cbn. split_and!; try done.
  - by rewrite delete_alter_eq.
  - unfold freed_buffer. cbn. by rewrite Hq; cbn; rewrite Hbc.
  - rewrite (alter_is_insert (threads s) t th), (alter_is_insert (<[t := _]> (threads s)) f thf), !alter_insert_eq by (rewrite ?lookup_insert_ne; congruence). done.
  - by apply alter_is_insert.
  - by rewrite <- app_assoc.
Qed.

Section Trip.
Context (s : state) (c w n pw x b x' b' : Z) (thc thw : binder_thread) (nd : binder_node) (prw : binder_proc) (ws : list Z).

(** The caller [c] is alive and has nothing to read, the thread [w] waits for
    work of the process of the node [n], and what is allocated is new. *)
Record can_call : Prop := {
  cc_caller : threads s !! c = Some thc;
  cc_caller_alive : is_dead thc = false;
  cc_caller_idle : todo (ThreadTodo c) s = [];
  cc_worker : threads s !! w = Some thw;
  cc_worker_alive : is_dead thw = false;
  cc_worker_idle : todo (ThreadTodo w) s = [];
  cc_worker_stack : transaction_stack thw = None;
  cc_worker_proc : t_proc thw = pw;
  cc_node : nodes s !! n = Some nd;
  cc_node_proc : n_proc nd = Some pw;
  cc_proc : procs s !! pw = Some prw;
  cc_proc_alive : p_is_dead prw = false;
  cc_waiting : waiting_threads prw = w :: ws;
  cc_other : t_proc thc <> pw;
  cc_home : exists prc, procs s !! t_proc thc = Some prc /\ p_is_dead prc = false;
  cc_may : may_call s c (transaction_stack thc) pw;
  cc_fresh : txns s !! x = None /\ txns s !! x' = None /\ x <> x';
  cc_buffers : buffers s !! b = None /\ buffers s !! b' = None /\ b <> b';
  cc_works : forall v, v ∈ [Complete x; Txn x; Complete x'; Txn x'] -> v ∉ (works s).*2;
}.
Hypothesis Hcan : can_call.

Lemma caller_not_worker : c <> w.
Proof using Hcan. intros ->. destruct Hcan. apply cc_other0. congruence. Qed.

Definition call_of : in_progress :=
  {| d_thread := c; d_one_way := false; d_reply := None; d_node := Some n; d_proc := pw; d_target := None |}.

(** The transaction of the call and its buffer. *)
Definition call_txn : binder_transaction :=
  {| from := Some c; from_parent := transaction_stack thc; to_proc := Some pw; to_thread := None; to_parent := None;
     one_way := false; buffer := Some b |}.

Definition call_buffer : binder_buffer :=
  {| b_proc := pw; transaction := Some x; target_node := Some n; async_transaction := false; allow_user_free := false |}.

(** The call is delivered. *)
Definition after_call : state :=
  {| txns := <[x := call_txn]> (txns s); buffers := <[b := call_buffer]> (buffers s);
     threads := <[w := thw <| process_todo := true |>]> (<[c := thc <| transaction_stack := Some x |>]> (threads s));
     procs := <[pw := prw <| waiting_threads := ws |>]> (procs s); nodes := nodes s;
     works := works s ++ [(ThreadTodo c, Complete x); (ThreadTodo w, Txn x)] |}.

Lemma head_is_txn_idle t : todo (ThreadTodo t) s = [] -> head_is_txn t s = false.
Proof using. intros H. unfold head_is_txn. by rewrite work_head_todo, H. Qed.

Lemma fresh_works v l : v ∈ [Complete x; Txn x; Complete x'; Txn x'] -> v ∉ l -> v ∉ (works s).*2 ++ l.
Proof using Hcan. intros Hv Hl [H|H]%elem_of_app; [|done]. by apply (cc_works Hcan v). Qed.

Lemma call_ok : ('(d, s1) ← begin_call c false (inr n) true s; d ← d; finish d x b s1) = Some after_call.
Proof using Hcan.
  pose proof caller_not_worker as Hcw. pose proof Hcan as []. erewrite begin_call_ok; [|done..|by apply head_is_txn_idle|done]. mstep.
  fold call_of. unfold finish. cbn [d_reply d_node d_one_way d_thread call_of negb d_proc d_target]. mstep.
  erewrite thread_deferred_ok; [|done|apply cc_works0; by left]. mstep. look cc_caller0.
  erewrite proc_transaction_waiting; [|done|by cbn; rewrite lookup_alter_eq, cc_proc0|done|done|by cbn; rewrite lookup_alter_ne|].
  2: { cbn. rewrite fmap_app. apply fresh_works; [right; by left|]. by intros ?%list_elem_of_singleton. }
  mstep. unfold delivered. cbn [d_target d_proc call_of]. mstep.
  erewrite proc_dec_alive; [|cbn; by rewrite !lookup_alter_eq, cc_proc0|done]. f_equal.
  apply state_eq; cbn; rewrite ?app_nil_r, <- ?app_assoc; try done.
  - rewrite alter_insert_eq. done.
  - rewrite (alter_is_insert (threads s) c thc), (alter_is_insert _ w thw) by (rewrite ?lookup_insert_ne; done). done.
  - rewrite (alter_is_insert (procs s) pw prw), !alter_insert_eq by done. f_equal. by eapply (proc_ref_back _ _ 1).
Qed.

(** ** Receiving *)

Definition read_call_txn : binder_transaction := call_txn <| to_parent := None |> <| to_thread := Some w |>.

(** The worker has the call. *)
Definition after_read : state :=
  {| txns := <[x := read_call_txn]> (txns s); buffers := <[b := call_buffer <| allow_user_free := true |>]> (buffers s);
     threads := <[w := thw <| process_todo := false |> <| transaction_stack := Some x |>]>
                  (<[c := thc <| transaction_stack := Some x |>]> (threads s));
     procs := <[pw := prw <| waiting_threads := ws |>]> (procs s); nodes := nodes s;
     works := works s ++ [(ThreadTodo c, Complete x)] |}.

Lemma fresh_parts : txns s !! x = None /\ txns s !! x' = None /\ x <> x' /\ buffers s !! b = None /\ buffers s !! b' = None /\ b <> b'.
Proof using Hcan. destruct Hcan as []. tauto. Qed.

Lemma read_call_ok : binder_thread_read w true after_call = Some (Some BR_TRANSACTION, after_read).
Proof using Hcan.
  pose proof caller_not_worker as Hcw. pose proof fresh_parts as (_ & _ & _ & _ & _ & _).
  pose proof (fresh_works (Txn x)) as Hfresh. pose proof Hcan as [].
  erewrite (read_own w _ (Txn x) []); [|apply lookup_insert_eq| |apply not_elem_of_nil].
  2: { erewrite (todo_app _ s after_call); [|reflexivity]. rewrite cc_worker_idle0, filter_cons_False by (intros [= ?]; done). by rewrite filter_cons_True. }
  rewrite (read_transaction_call _ _ x call_txn b call_buffer c (thw <| process_todo := false |>) (thc <| transaction_stack := Some x |>));
    [|apply lookup_insert_eq|done|apply lookup_insert_eq|by eexists|done|done| |].
  - do 2 f_equal. apply state_eq; cbn; rewrite ?alter_insert_eq; try done.
    + by rewrite cc_worker_stack0.
    + rewrite dequeue_app by by apply cc_works0; right; left. by rewrite filter_cons_True, filter_cons_False by (cbn; congruence || tauto).
  - cbn. by rewrite lookup_alter_ne, lookup_insert_ne, lookup_insert_eq.
  - cbn. by rewrite lookup_alter_eq, lookup_insert_eq.
Qed.

(** ** Replying *)

Definition reply_of : in_progress :=
  {| d_thread := w; d_one_way := false; d_reply := Some x; d_node := None; d_proc := t_proc thc; d_target := Some c |}.

Definition reply_txn : binder_transaction :=
  {| from := None; from_parent := None; to_proc := Some (t_proc thc); to_thread := Some c; to_parent := None;
     one_way := false; buffer := Some b' |}.

Definition reply_buffer : binder_buffer :=
  {| b_proc := t_proc thc; transaction := Some x'; target_node := None; async_transaction := false; allow_user_free := false |}.

(** The buffer of the call stays until the process frees it. *)
Definition read_call_buffer : binder_buffer := call_buffer <| allow_user_free := true |> <| transaction := None |>.

(** The reply is delivered: the stacks are what they were before the call. *)
Definition after_reply : state :=
  {| txns := <[x' := reply_txn]> (txns s); buffers := <[b' := reply_buffer]> (<[b := read_call_buffer]> (buffers s));
     threads := <[w := thw <| process_todo := true |>]> (<[c := thc <| process_todo := true |>]> (threads s));
     procs := <[pw := prw <| waiting_threads := ws |>]> (procs s); nodes := nodes s;
     works := works s ++ [(ThreadTodo c, Complete x); (ThreadTodo w, Complete x'); (ThreadTodo c, Txn x')] |}.

Lemma thw_back th : transaction_stack th = None -> th <| process_todo := false |> <| transaction_stack := None |> <| process_todo := true |> = th <| process_todo := true |>.
Proof using. destruct th. cbn. by intros ->. Qed.

Lemma reply_ok : ('(d, s1) ← begin_reply w false after_read; d ← d; finish d x' b' s1) = Some after_reply.
Proof using Hcan.
  pose proof caller_not_worker as Hcw. pose proof fresh_works as Hfresh. pose proof Hcan as [].
  destruct cc_home0 as (prc & Hprc & Halive).
  assert (threads after_read !! c = Some (thc <| transaction_stack := Some x |>)) as Hc by (cbn; by rewrite lookup_insert_ne, lookup_insert_eq).
  assert (procs after_read !! t_proc thc = Some prc) as Hp by (cbn; by rewrite lookup_insert_ne).
  erewrite begin_reply_ok; [|apply lookup_insert_eq|done|apply lookup_insert_eq|done|done|done|exact Hc|done|exact Hp]. mstep.
  set (d := Build_in_progress w _ _ _ _ _). change d with reply_of. clear d. set (s0 := on_proc _ _ _).
  destruct (finish_reply_ok reply_of x' b' x c w (thw <| process_todo := false |> <| transaction_stack := None |>)
    (thc <| transaction_stack := Some x |> <| tmp_ref ::= Z.add 1 |>) read_call_txn pw b (prc <| p_tmp_ref ::= Z.add 1 |>) s0)
    as (s' & -> & E1 & E2 & E3 & E4 & E5 & E6); [done..| | |done|done| |done|done|done|tauto| | |tauto| |done| | |].
  9: { f_equal. apply state_eq; rewrite ?E1, ?E2, ?E3, ?E4, ?E5, ?E6; cbn; try done.
    - rewrite delete_insert_ne, delete_insert_eq, delete_id; tauto.
    - rewrite alter_insert_ne, alter_insert_eq by (destruct cc_buffers0 as (_ & _ & ?); congruence). done.
    - rewrite (thw_back thw) by done.
      replace (thc <| transaction_stack := Some x |> <| tmp_ref ::= Z.add 1 |> <| transaction_stack := transaction_stack thc |>
                 <| process_todo := true |> <| tmp_ref ::= fun k => k - 1 |>) with (thc <| process_todo := true |>)
        by (symmetry; by eapply (tmp_ref_back _ _ 1); [destruct thc|]).
      apply map_eq. intros j. destruct (decide (j = w)) as [->|Hjw]; [by rewrite lookup_insert_ne, !lookup_insert_eq|].
      rewrite (lookup_insert_ne _ w) by done.
      destruct (decide (j = c)) as [->|Hjc]; [by rewrite !lookup_insert_eq|].
      by rewrite !lookup_insert_ne, !lookup_alter_ne, !lookup_insert_ne by done.
    - replace (prc <| p_tmp_ref ::= Z.add 1 |> <| p_tmp_ref ::= fun k => k - 1 |>) with prc by (symmetry; by eapply (proc_ref_back _ _ 1); [destruct prc|]).
      apply map_eq. intros j. destruct (decide (j = t_proc thc)) as [->|]; rewrite ?lookup_insert_eq, ?lookup_insert_ne, ?lookup_alter_ne by done; done.
    - by rewrite <- app_assoc. }
  - cbn. by rewrite lookup_alter_ne, lookup_alter_eq, lookup_insert_eq.
  - cbn. by rewrite lookup_alter_eq, lookup_alter_ne, lookup_insert_ne, lookup_insert_eq.
  - apply lookup_insert_eq.
  - cbn. rewrite lookup_alter_ne, lookup_insert_eq by done. by eexists.
  - cbn. rewrite lookup_insert_eq. by eexists.
  - cbn. by rewrite lookup_alter_eq, lookup_insert_ne, Hprc.
  - cbn. rewrite fmap_app. apply Hfresh; [by do 2 right; left|].
    intros [= E]%list_elem_of_singleton. by destruct cc_fresh0 as (_ & _ & []).
  - cbn. rewrite fmap_app. apply Hfresh; [by do 3 right; left|]. by intros [= ?]%list_elem_of_singleton.
Qed.

(** ** The reply *)

Definition read_reply_buffer : binder_buffer := reply_buffer <| allow_user_free := true |> <| transaction := None |>.

(** Nothing is left of the call and its reply but the two buffers, which the
    processes may free. *)
Definition after_trip : state :=
  {| txns := txns s; buffers := <[b' := read_reply_buffer]> (<[b := read_call_buffer]> (buffers s));
     threads := <[w := thw <| process_todo := false |>]> (<[c := thc <| process_todo := false |>]> (threads s));
     procs := <[pw := prw <| waiting_threads := ws |>]> (procs s); nodes := nodes s; works := works s |}.

(** The caller has been told that its call was sent; then it has the reply. *)
Definition after_complete : state := after_reply <| works := works s ++ [(ThreadTodo w, Complete x'); (ThreadTodo c, Txn x')] |>.

Definition got_reply : state :=
  {| txns := txns s; buffers := <[b' := read_reply_buffer]> (<[b := read_call_buffer]> (buffers s));
     threads := <[w := thw <| process_todo := true |>]> (<[c := thc <| process_todo := false |>]> (threads s));
     procs := <[pw := prw <| waiting_threads := ws |>]> (procs s); nodes := nodes s;
     works := works s ++ [(ThreadTodo w, Complete x')] |}.

Lemma read_complete : binder_thread_read c true after_reply = Some (Some BR_TRANSACTION_COMPLETE, after_complete).
Proof using Hcan.
  pose proof caller_not_worker as Hcw. pose proof Hcan as [].
  rewrite (read_own c (thc <| process_todo := true |>) (Complete x) [Txn x']).
  - cbn [taken]. do 2 f_equal. apply state_eq; try done. cbn. rewrite dequeue_app by (apply cc_works0; left).
    rewrite filter_cons_False by (cbn; tauto). f_equal.
    rewrite !filter_cons_True; cbn; try congruence. intros [= E]. by destruct cc_fresh0 as (_ & _ & []).
  - cbn. by rewrite lookup_insert_ne, lookup_insert_eq.
  - erewrite (todo_app _ s after_reply); [|reflexivity]. rewrite cc_caller_idle0.
    rewrite filter_cons_True, filter_cons_False, filter_cons_True by (cbn; congruence). done.
  - by intros [= ?]%list_elem_of_singleton.
Qed.

Lemma read_reply : binder_thread_read c true after_complete = Some (Some BR_REPLY, got_reply).
Proof using Hcan.
  pose proof caller_not_worker as Hcw. pose proof Hcan as []. destruct cc_home0 as (prc & Hprc & _).
  rewrite (read_own c (thc <| process_todo := true |>) (Txn x') []); [| | |apply not_elem_of_nil].
  2: { cbn. by rewrite lookup_insert_ne, lookup_insert_eq. }
  2: { erewrite (todo_app _ s after_complete); [|reflexivity].
       rewrite cc_caller_idle0, filter_cons_False, filter_cons_True by (cbn; congruence). done. }
  rewrite (read_transaction_reply _ _ x' reply_txn b' reply_buffer);
    [|apply lookup_insert_eq|done|apply lookup_insert_eq|done|done|exists (t_proc thc), prc; split; [done|cbn; by rewrite lookup_insert_ne]].
  do 2 f_equal. apply state_eq; try done.
  - cbn. rewrite delete_insert_eq, delete_id; tauto.
  - cbn. by rewrite alter_insert_eq.
  - cbn. rewrite alter_insert_ne, alter_insert_eq by done. done.
  - cbn. rewrite dequeue_app by (apply cc_works0; by do 3 right; left).
    f_equal. by rewrite filter_cons_True, filter_cons_False by (cbn; congruence || tauto).
Qed.

Lemma read_last : binder_thread_read w true got_reply = Some (Some BR_TRANSACTION_COMPLETE, after_trip).
Proof using Hcan.
  pose proof Hcan as []. rewrite (read_own w (thw <| process_todo := true |>) (Complete x') []).
  - cbn [taken]. do 2 f_equal. apply state_eq; try done.
    + cbn. by rewrite alter_insert_eq.
    + cbn. rewrite dequeue_app by (apply cc_works0; by do 2 right; left). rewrite filter_cons_False by (cbn; tauto). apply app_nil_r.
  - apply lookup_insert_eq.
  - erewrite (todo_app _ s got_reply); [|reflexivity]. rewrite cc_worker_idle0. by rewrite filter_cons_True.
  - apply not_elem_of_nil.
Qed.
End Trip.
