(* ===== verification/BinderCallProps.v ===== *)
(** * Binder driver: what callers can rely on

    One-way transactions are handled in order and one at a time, an error finds
    the nearest living caller, and a call with its reply leaves the stacks as they
    were. *)

From S2P Require Import Prelude BinderCall BinderCallFacts BinderCallReply BinderCallAsync BinderCallTrip.

(** ** One-way transactions *)

(** C7. The one-way transactions of a node are read in the order in which they
    were sent, and the next one is not read before the buffer of the one before
    has been freed: for any sequence of calls, reads, frees, sleeps and
    wake-ups, of any threads and to any nodes, the driver takes the steps of an
    abstract queue with one turn.  The node is marked as busy as long as one of
    them has the turn, and its queue holds those that wait. *)
Theorem one_way_in_order s es s' n :
  runs s es s' -> works_ok s -> at_rest s n ->
  exists t xs nd, fifo_all n es = Some (t, xs) /\
    nodes s' !! n = Some nd /\ (has_async_transaction nd = true <-> t <> Nobody) /\ todo (AsyncTodo n) s' = Txn <$> xs /\
    sent n es = got n es ++ ready t ++ xs /\ length (got n es) = (length (freed_events n es) + serving t)%nat.
Proof.
  intros Hr Hok Hrest. destruct (runs_turn s es s' n) as (_ & [t xs] & Ha & nd & xs' & ph & Hn & [= -> ->]); [done..|].
  destruct (fifo_order n es _ _ Ha) as (H1 & H2 & _). exists (turn_of ph), xs', nd. split_and!; try done; [apply Hn| |apply Hn].
  rewrite (no_busy _ _ _ _ _ Hn). by destruct ph.
Qed.

(** ** Errors *)

(** C8. The error for a call that cannot be answered goes to the thread that
    waits for the reply; when that one is dead, to the one that called it, and so
    on.  The loop ends, all transactions on the way are freed and the buffers
    that still belong to them forget them.  The thread that is told gets back the
    stack from before its call, and a second error is not queued while one is.
    Nothing else changes, and when no caller is left nobody is told. *)
Theorem error_reaches_caller s x xs z tz error :
  up s x xs z -> txns s !! z = Some tz -> free_ok s (xs ++ [z]) ->
  (forall tx, txns s !! x = Some tx -> one_way tx = false) ->
  (forall t, from tz = Some t -> exists th, waits s t z th) -> (from tz = None -> from_parent tz = None) ->
  exists s', binder_send_failed_reply x error s = Some s' /\ reached s s' xs z /\
    (from tz = None -> threads s' = threads s /\ works s' = works s) /\
    (forall t th, from tz = Some t -> threads s !! t = Some th ->
       threads s' = <[t := told error (from_parent tz) th]> (threads s) /\ works s' = works s ++ told_works t th).
Proof.
  intros Hup Hz Hok Hsync Hcaller Hroot. destruct (from tz) as [t|] eqn:Hf.
  - destruct (Hcaller t eq_refl) as [th Hw].
    destruct (failed_reply_caller s x xs z tz error Hup Hz Hok Hsync t th Hf Hw) as (s' & H1 & H2 & H3 & H4).
    exists s'. split_and!; [done..|]. intros t' th' [= <-] Hth. assert (th' = th) as -> by (destruct Hw; congruence). done.
  - destruct (failed_reply_root s x xs z tz error Hup Hz Hok Hsync Hf (Hroot eq_refl)) as (s' & H1 & H2 & H3 & H4). by exists s'.
Qed.

(** ** Calls *)

(** The caller [c] calls the node [n], the worker [w] reads the call and replies,
    and both read what is left for them; [x], [b] and [x'], [b'] are the
    transactions and buffers that are allocated.  The result is what they read. *)
Definition round_trip (c w n x b x' b' : Z) (s : state) : option (list (option br) * state) :=
  '(d, s) ← begin_call c false (inr n) true s; d ← d; s ← finish d x b s;
  '(r1, s) ← binder_thread_read w true s;
  '(d, s) ← begin_reply w false s; d ← d; s ← finish d x' b' s;
  '(r2, s) ← binder_thread_read c true s; '(r3, s) ← binder_thread_read c true s; '(r4, s) ← binder_thread_read w true s;
  Some ([r1; r2; r3; r4], s).

(** C9. A call of a process with a waiting thread comes back: the worker reads
    the call, its reply reaches the thread that called and no other, both
    transactions are freed, all queues and both stacks are what they were, also
    when the caller is itself handling a call, no reference to a thread or
    process is left, and the two buffers belong to the processes. *)
Theorem call_comes_back s c w n pw x b x' b' thc thw nd prw ws :
  can_call s c w n pw x b x' b' thc thw nd prw ws ->
  round_trip c w n x b x' b' s =
    Some ([Some BR_TRANSACTION; Some BR_TRANSACTION_COMPLETE; Some BR_REPLY; Some BR_TRANSACTION_COMPLETE],
      {| txns := txns s;
         buffers := <[b' := {| b_proc := t_proc thc; transaction := None; target_node := None;
                               async_transaction := false; allow_user_free := true |}]>
                    (<[b := {| b_proc := pw; transaction := None; target_node := Some n;
                               async_transaction := false; allow_user_free := true |}]> (buffers s));
         threads := <[w := thw <| process_todo := false |>]> (<[c := thc <| process_todo := false |>]> (threads s));
         procs := <[pw := prw <| waiting_threads := ws |>]> (procs s);
         nodes := nodes s; works := works s |}).
Proof.
  intros Hcan. unfold round_trip.
  pose proof (call_ok _ _ _ _ _ _ _ _ _ _ _ _ _ _ Hcan) as Hcall. pose proof (reply_ok _ _ _ _ _ _ _ _ _ _ _ _ _ _ Hcan) as Hreply.
  apply bind_Some in Hcall as ([d s1] & -> & Hcall). mstep. destruct d as [d|]; [|done]. cbn [mbind option_bind] in Hcall |- *. rewrite Hcall. mstep.
  rewrite (read_call_ok _ _ _ _ _ _ _ _ _ _ _ _ _ _ Hcan). mstep.
  apply bind_Some in Hreply as ([d' s2] & -> & Hreply). mstep. destruct d' as [d'|]; [|done]. cbn [mbind option_bind] in Hreply |- *. rewrite Hreply. mstep.
  erewrite read_complete by done. mstep. erewrite read_reply by done. mstep. erewrite read_last by done. done.
Qed.

(** ** Examples *)

(** The thread 1 of the process 10 and the thread 2 of the process 20, which has
    the node 5 and waits for work. *)
Definition thread (p : Z) : binder_thread :=
  {| t_proc := p; looper := true; transaction_stack := None; process_todo := false; return_error := BR_OK; reply_error := BR_OK;
     is_dead := false; tmp_ref := 0 |}.

Definition proc (ws : list Z) : binder_proc := {| waiting_threads := ws; p_is_dead := false; p_tmp_ref := 0 |}.

Definition start : state :=
  {| txns := ∅; buffers := ∅; threads := {[1 := thread 10; 2 := thread 20]}; procs := {[10 := proc []; 20 := proc [2]]};
     nodes := {[5 := {| n_proc := Some 20; has_async_transaction := false |}]}; works := [] |}.

(** A one-way transaction of thread 1 to the node 5. *)
Definition one_way_call : in_progress :=
  {| d_thread := 1; d_one_way := true; d_reply := None; d_node := Some 5; d_proc := 20; d_target := None |}.

Definition result {A} (d : A) (o : option A) : A := default d o.

Definition s1 : state := result start (finish one_way_call 100 200 start).
Definition s2 : state := result start (finish one_way_call 101 201 s1).
Definition s3 : state := result start (snd <$> binder_thread_read 2 true s2).
Definition s4 : state := result start (snd <$> binder_thread_read 2 true s3).
Definition s5 : state := result start (binder_free_buf 20 200 s4).
Definition s6 : state := result start (snd <$> binder_thread_read 2 true s5).

Lemma start_ok : works_ok start.
Proof. split; [apply NoDup_nil_2|by intros x ?%not_elem_of_nil|done]. Qed.

Lemma start_at_rest : at_rest start 5.
Proof. split_and!; [by eexists|done|done]. Qed.

Lemma lives s : p_is_dead <$> (procs s !! 20) = Some false -> receiver_lives s one_way_call.
Proof. intros H. split; [|done]. cbn. intros pr E. rewrite E in H. by injection H. Qed.

Lemma step_read_event s t th r s' e : threads s !! t = Some th -> binder_thread_read t true s = Some (r, s') ->
  read_event (next_work t th s) s = e -> step s e s'.
Proof. intros H1 H2 <-. by eapply step_read. Qed.

Lemma step_free_event s p b bf s' e : buffers s !! b = Some bf -> allow_user_free bf = true -> binder_free_buf p b s = Some s' ->
  match async_node bf with Some n => Freed n | None => Silent end = e -> step s e s'.
Proof. intros H1 H2 H3 <-. by eapply step_free. Qed.

(** Two are sent; the second one is read when the buffer of the first is freed. *)
Lemma example_run : runs start [Sent 5 100; Sent 5 101; Got 5 100; Silent; Freed 5; Got 5 101] s6.
Proof.
  change [Sent 5 100; Sent 5 101; Got 5 100; Silent; Freed 5; Got 5 101] with
    (((((([] ++ [Sent 5 100]) ++ [Sent 5 101]) ++ [Got 5 100]) ++ [Silent]) ++ [Freed 5]) ++ [Got 5 101]).
  eapply (runs_snoc _ _ _ s5); [eapply (runs_snoc _ _ _ s4); [eapply (runs_snoc _ _ _ s3); [eapply (runs_snoc _ _ _ s2);
    [eapply (runs_snoc _ _ _ s1); [eapply (runs_snoc _ _ _ start); [constructor|]|]|]|]|]|].
  - by apply (step_send start one_way_call 5 100 200); try done; apply lives.
  - by apply (step_send s1 one_way_call 5 101 201); try done; apply lives.
  - eapply (step_read_event s2 2); vm_compute; reflexivity.
  - eapply (step_read_event s3 2); vm_compute; reflexivity.
  - eapply (step_free_event s4 20 200); vm_compute; reflexivity.
  - eapply (step_read_event s5 2); vm_compute; reflexivity.
Qed.

Lemma one_way_in_order_witness : exists t xs nd,
  fifo_all 5 [Sent 5 100; Sent 5 101; Got 5 100; Silent; Freed 5; Got 5 101] = Some (t, xs) /\
  nodes s6 !! 5 = Some nd /\ (has_async_transaction nd = true <-> t <> Nobody) /\ todo (AsyncTodo 5) s6 = Txn <$> xs /\
  [100; 101] = [100; 101] ++ ready t ++ xs /\ 2%nat = (1 + serving t)%nat.
Proof. exact (one_way_in_order start _ s6 5 example_run start_ok start_at_rest). Defined.

(** Thread 4 handles the call 1 of thread 3, which has died while it handled the
    call 2 of thread 1. *)
Definition chain : state :=
  {| txns := {[1 := {| from := None; from_parent := Some 2; to_proc := Some 30; to_thread := Some 4; to_parent := None; one_way := false; buffer := Some 200 |};
               2 := {| from := Some 1; from_parent := None; to_proc := None; to_thread := None; to_parent := None; one_way := false; buffer := None |}]};
     buffers := {[200 := {| b_proc := 30; transaction := Some 1; target_node := Some 6; async_transaction := false; allow_user_free := true |}]};
     threads := {[1 := (thread 10) <| transaction_stack := Some 2 |>; 4 := thread 30]}; procs := {[10 := proc []; 20 := proc []; 30 := proc []]};
     nodes := ∅; works := [] |}.

Lemma chain_up : up chain 1 [1] 2.
Proof. eapply up_dead; [reflexivity..|]. apply up_here. Qed.

Lemma chain_free_ok : free_ok chain [1; 2].
Proof.
  intros y ty Hy Hty p b Hp Hb. apply elem_of_cons in Hy as [->|Hy%list_elem_of_singleton].
  - injection Hty as <-. injection Hp as <-. injection Hb as <-. split; by eexists.
  - subst y. by injection Hty as <-.
Qed.

Lemma chain_waits : waits chain 1 2 ((thread 10) <| transaction_stack := Some 2 |>).
Proof. split; try done. by intros _ ?%not_elem_of_nil. Qed.

Lemma error_reaches_caller_witness : exists s', binder_send_failed_reply 1 BR_DEAD_REPLY chain = Some s' /\
  txns s' !! 1 = None /\ works s' = [(ThreadTodo 1, ReplyError 1)] /\ reply_error <$> (threads s' !! 1) = Some BR_DEAD_REPLY.
Proof.
  destruct (error_reaches_caller chain 1 [1] 2 _ BR_DEAD_REPLY chain_up eq_refl chain_free_ok) as (s' & H & (Hx & _) & _ & Hc).
  - intros tx E. by injection E as <-.
  - intros t E. injection E as <-. eexists. apply chain_waits.
  - done.
  - destruct (Hc 1 _ eq_refl eq_refl) as [Ht Hw]. exists s'. split_and!; [done|by rewrite Hx|by rewrite Hw|by rewrite Ht].
Defined.

Lemma start_can_call : can_call start 1 2 5 20 100 200 101 201 (thread 10) (thread 20) {| n_proc := Some 20; has_async_transaction := false |} (proc [2]) [].
Proof.
  split; try done.
  - by exists (proc []).
  - by intros v _ ?%not_elem_of_nil.
Qed.

Lemma call_comes_back_witness : exists s', round_trip 1 2 5 100 200 101 201 start =
  Some ([Some BR_TRANSACTION; Some BR_TRANSACTION_COMPLETE; Some BR_REPLY; Some BR_TRANSACTION_COMPLETE], s') /\ txns s' = ∅.
Proof. eexists. split; [exact (call_comes_back start 1 2 5 20 100 200 101 201 _ _ _ _ _ start_can_call)|reflexivity]. Defined.

(** A thread that leaves with a one-way transaction that it was given but has not
    read: the transaction is freed and its buffer is not, no process can free it,
    and the node stays busy, so that what is sent to it later is never read. *)
Lemma exit_strands_node : exists s s',
  binder_thread_release 2 s1 = Some s /\ finish one_way_call 101 201 s = Some s' /\
  txns s !! 100 = None /\ (allow_user_free <$> (buffers s' !! 200)) = Some false /\ transaction <$> (buffers s' !! 200) = Some None /\
  has_async_transaction <$> (nodes s' !! 5) = Some true /\ todo (AsyncTodo 5) s' = [Txn 101] /\ todo (ProcTodo 20) s' = [].
Proof. do 2 eexists. split_and!; vm_compute; reflexivity. Qed.
