(* ===== verification/PowerSupply.v ===== *)
(** * The power supply class

    Model of src/.../Power/Supply/power_supply_core.c: the registry of power
    supplies, who supplies whom, the notification of changes, and the life of
    a supply from registration to removal.

    The drivers behind the supplies share a state [W] their callbacks read and
    change.  Properties are named by their number, the position of their
    attribute in [power_supply_attrs] of power_supply_sysfs.c. *)

From Stdlib Require Export Strings.String.
From S2P Require Import Prelude.

Definition EINVAL : Z := 22.
Definition ENODEV : Z := 19.
Definition ENOMEM : Z := 12.
Definition EAGAIN : Z := 11.
Definition ENXIO : Z := 6.
Definition ENODATA : Z := 61.
Definition EPROBE_DEFER : Z := 517.

Definition POWER_SUPPLY_PROP_STATUS : Z := 0.
Definition POWER_SUPPLY_PROP_ONLINE : Z := 4.
Definition POWER_SUPPLY_PROP_CURRENT_MAX : Z := 16.
Definition POWER_SUPPLY_PROP_CHARGE_CONTROL_LIMIT : Z := 33.
Definition POWER_SUPPLY_PROP_CHARGE_CONTROL_LIMIT_MAX : Z := 34.
Definition POWER_SUPPLY_PROP_INPUT_CURRENT_LIMIT : Z := 35.
Definition POWER_SUPPLY_PROP_TEMP : Z := 46.
Definition POWER_SUPPLY_PROP_USB_TYPE : Z := 59.

(** enum power_supply_type, as far as the class looks at it. *)
Inductive power_supply_type :=
  POWER_SUPPLY_TYPE_UNKNOWN | POWER_SUPPLY_TYPE_BATTERY | POWER_SUPPLY_TYPE_UPS
  | POWER_SUPPLY_TYPE_MAINS | POWER_SUPPLY_TYPE_USB | POWER_SUPPLY_TYPE_OTHER (n : Z).

(** union power_supply_propval: an int, a 64-bit int or a string. *)
Inductive propval := Intval (z : Z) | Int64val (z : Z) | Strval (s : string).

(** [val.intval] of a value the driver stored in another member is whatever
    its bytes are: a fault of the model. *)
Definition intval_of (v : propval) : option Z :=
  match v with Intval z => Some z | _ => None end.

(** What the device tree answers: the phandles a property of a node lists, its
    strings and its integers. *)
Class DeviceTree := {
  of_phandles : Z -> string -> list Z;
  of_property_read_string : Z -> string -> Z + string;
  of_property_read_u32 : Z -> string -> option Z;
}.

(** [of_parse_phandle]: the node the [index]-th phandle points to, or null. *)
Definition of_parse_phandle `{DeviceTree} (np : Z) (property : string) (index : Z) : option Z :=
  rd (of_phandles np property) index.

Section PowerSupply.
Context {W : Type} `{DeviceTree}.

(** What a driver promises to the class: struct power_supply_desc.  A callback
    answers an error code or a value and may change the drivers' state. *)
Record power_supply_desc := {
  name : option string;
  type : power_supply_type;
  usb_types : list Z;
  properties : list Z;
  get_property : W -> Z -> (Z + propval) * W;
  set_property : option (W -> Z -> propval -> Z * W);
  property_is_writeable : option (W -> Z -> Z);
  external_power_changed : option (W -> W);
  set_charged : option (W -> W);
  no_thermal : bool;
}.

(** struct power_supply_config; [cfg_of_node] is the node its fwnode or its of_node
    field names. *)
Record power_supply_config := {
  cfg_of_node : option Z;
  cfg_supplied_to : option (list string);
}.

(** struct power_supply: [id] stands for its address.  [supplied_from] is the
    array as allocated; an entry is null or the string it points to. *)
Record power_supply := {
  id : Z;
  desc : power_supply_desc;
  supplied_to : option (list string);
  supplied_from : option (list (option string));
  num_supplies : Z;
  of_node : option Z;
  parent_node : option Z;
  use_cnt : Z;
  initialized : bool;
  removing : bool;
  wakeup : bool;
  tzd : bool;
  tcd : bool;
}.

#[global] Instance eta_psy : Eta power_supply := fun p =>
  Build_power_supply (id p) (desc p) (supplied_to p) (supplied_from p) (num_supplies p) (of_node p)
    (parent_node p) (use_cnt p) (initialized p) (removing p) (wakeup p) (tzd p) (tcd p).

(** ** The class

    [class_for_each_device] calls a function on every device of the class, in
    order, until one returns a nonzero code. *)

Fixpoint class_for_each_device {S} (devices : list power_supply)
    (fn : power_supply -> S -> option (Z * S)) (data : S) : option (Z * S) :=
  match devices with
  | [] => Some (0, data)
  | dev :: devices =>
      '(error, data) ← fn dev data;
      if truth error then Some (error, data) else class_for_each_device devices fn data
  end.

(** [for (i = 0; i < n; i++) if (!strcmp(s, array[i])) return true;] *)
Definition name_in (s : string) (array : list (option string)) (n : Z) : option bool :=
  loop (S (Z.to_nat n)) (fun i =>
    if i <? n then
      entry ← rd array i;
      t ← entry;
      if String.eqb s t then Some (inr true) else Some (inl (i + 1))
    else Some (inr false)) 0.

Definition __power_supply_is_supplied_by (supplier supply : power_supply) : option bool :=
  match supplied_from supply, supplied_to supplier with
  | None, None => Some false
  | Some from, _ =>
      match name (desc supplier) with
      | Some s => name_in s from (num_supplies supply)
      | None => Some false
      end
  | None, Some to =>
      match name (desc supply) with
      | Some s => name_in s (map Some to) (zlen to)
      | None => Some false
      end
  end.

Definition __power_supply_changed_work (psy : power_supply) (pst : power_supply) (w : W)
    : option (Z * W) :=
  supplied ← __power_supply_is_supplied_by psy pst;
  Some (0, if supplied : bool then
             match external_power_changed (desc pst) with
             | Some f => f w
             | None => w
             end
           else w).

Definition __power_supply_am_i_supplied (psy epsy : power_supply) (data : Z * W)
    : option (Z * (Z * W)) :=
  let '(count, w) := data in
  supplied ← __power_supply_is_supplied_by epsy psy;
  if supplied : bool then
    let count := u32 (count + 1) in
    let '(ret, w) := get_property (desc epsy) w POWER_SUPPLY_PROP_ONLINE in
    match ret with
    | inr v => i ← intval_of v; Some (i, (count, w))
    | inl _ => Some (0, (count, w))
    end
  else Some (0, (count, w)).

Definition power_supply_am_i_supplied (class : list power_supply) (psy : power_supply) (w : W)
    : option (Z * W) :=
  '(error, (count, w)) ← class_for_each_device class (__power_supply_am_i_supplied psy) (0, w);
  Some (if count =? 0 then - ENODEV else error, w).

Definition is_battery (p : power_supply) : bool :=
  match type (desc p) with POWER_SUPPLY_TYPE_BATTERY => true | _ => false end.

Definition __power_supply_is_system_supplied (psy : power_supply) (data : Z * W)
    : option (Z * (Z * W)) :=
  let '(count, w) := data in
  let count := u32 (count + 1) in
  if negb (is_battery psy) then
    let '(ret, w) := get_property (desc psy) w POWER_SUPPLY_PROP_ONLINE in
    match ret with
    | inr v => i ← intval_of v; Some (i, (count, w))
    | inl _ => Some (0, (count, w))
    end
  else Some (0, (count, w)).

Definition power_supply_is_system_supplied (class : list power_supply) (w : W) : option (Z * W) :=
  '(error, (count, w)) ← class_for_each_device class __power_supply_is_system_supplied (0, w);
  Some (if count =? 0 then 1 else error, w).

Definition __power_supply_get_supplier_max_current (psy epsy : power_supply) (w : W)
    : option (Z * W) :=
  supplied ← __power_supply_is_supplied_by epsy psy;
  if supplied : bool then
    let '(ret, w) := get_property (desc epsy) w POWER_SUPPLY_PROP_CURRENT_MAX in
    match ret with
    | inr v => i ← intval_of v; Some (i, w)
    | inl _ => Some (0, w)
    end
  else Some (0, w).

Definition power_supply_set_input_current_limit_from_supplier (class : list power_supply)
    (psy : power_supply) (w : W) : option (Z * W) :=
  match set_property (desc psy) with
  | None => Some (- EINVAL, w)
  | Some set =>
      '(curr, w) ← class_for_each_device class (__power_supply_get_supplier_max_current psy) w;
      if curr <=? 0 then Some (if curr =? 0 then - ENODEV else curr, w)
      else Some (set w POWER_SUPPLY_PROP_INPUT_CURRENT_LIMIT (Intval curr))
  end.

Definition power_supply_set_battery_charged (psy : power_supply) (w : W) : Z * W :=
  match set_charged (desc psy) with
  | Some f => if (use_cnt psy >=? 0) && is_battery psy then (0, f w) else (- EINVAL, w)
  | None => (- EINVAL, w)
  end.

(** ** References *)

(** An assignment through a pointer to the supply with this address. *)
Definition on (psy : Z) (f : power_supply -> power_supply) (class : list power_supply)
    : list power_supply :=
  map (fun p => if id p =? psy then f p else p) class.

Definition power_supply_match_device_by_name (p : power_supply) (s : string) : bool :=
  bool_decide (name (desc p) = Some s).

Definition power_supply_get_by_name (class : list power_supply) (s : string)
    : option Z * list power_supply :=
  match List.find (fun p => power_supply_match_device_by_name p s) class with
  | Some psy => (Some (id psy), on (id psy) (fun p => p <| use_cnt ::= Z.add 1 |>) class)
  | None => (None, class)
  end.

Definition power_supply_put (class : list power_supply) (psy : Z) : list power_supply :=
  on psy (fun p => p <| use_cnt ::= fun n => n - 1 |>) class.

Definition power_supply_match_device_node (p : power_supply) (np : Z) : bool :=
  bool_decide (parent_node p = Some np).

(** The result is an error code, a null pointer or the supply. *)
Definition power_supply_get_by_phandle (class : list power_supply) (np : Z) (property : string)
    : (Z + option Z) * list power_supply :=
  match of_parse_phandle np property 0 with
  | None => (inl (- ENODEV), class)
  | Some power_supply_np =>
      match List.find (fun p => power_supply_match_device_node p power_supply_np) class with
      | Some psy =>
          (inr (Some (id psy)), on (id psy) (fun p => p <| use_cnt ::= Z.add 1 |>) class)
      | None => (inr None, class)
      end
  end.

(** The managed version also answers whether a release was put on the device's
    list: [devres_ok] is the answer of devres_alloc. *)
Definition devm_power_supply_get_by_phandle (devres_ok : bool) (class : list power_supply)
    (dev_node : option Z) (property : string) : (Z + option Z) * list power_supply * option Z :=
  match dev_node with
  | None => (inl (- ENODEV), class, None)
  | Some np =>
      if negb devres_ok then (inl (- ENOMEM), class, None)
      else
        let '(psy, class) := power_supply_get_by_phandle class np property in
        (psy, class, match psy with inr (Some p) => Some p | _ => None end)
  end.

Definition devm_power_supply_put (class : list power_supply) (res : option Z) : list power_supply :=
  match res with Some psy => power_supply_put class psy | None => class end.

(** ** Properties *)

Definition power_supply_get_property (psy : power_supply) (psp : Z) (w : W) : (Z + propval) * W :=
  if use_cnt psy <=? 0 then
    (inl (if negb (initialized psy) then - EAGAIN else - ENODEV), w)
  else get_property (desc psy) w psp.

Definition power_supply_set_property (psy : power_supply) (psp : Z) (val : propval) (w : W) : Z * W :=
  match set_property (desc psy) with
  | Some set => if use_cnt psy <=? 0 then (- ENODEV, w) else set w psp val
  | None => (- ENODEV, w)
  end.

Definition power_supply_property_is_writeable (psy : power_supply) (psp : Z) (w : W) : Z :=
  match property_is_writeable (desc psy) with
  | Some f => if use_cnt psy <=? 0 then - ENODEV else f w psp
  | None => - ENODEV
  end.

Definition power_supply_external_power_changed (psy : power_supply) (w : W) : W :=
  match external_power_changed (desc psy) with
  | Some f => if use_cnt psy <=? 0 then w else f w
  | None => w
  end.

(** ** Suppliers named by the device tree

    [psy->supplied_from] is allocated with [sizeof(psy->supplied_from)] bytes:
    one pointer, whatever the number of supplies. *)

Definition __power_supply_populate_supplied_from (node : Z) (epsy psy : power_supply)
    : option (Z * power_supply) :=
  psy ← loop (S (length (of_phandles node "power-supplies"))) (fun i =>
    match of_parse_phandle node "power-supplies" i with
    | None => Some (inr psy)
    | Some np =>
        if bool_decide (of_node epsy = Some np) then
          match supplied_from psy with
          | None => None
          | Some from =>
              from ← wr from i (name (desc epsy));
              Some (inr (psy <| supplied_from := Some from |> <| num_supplies ::= Z.add 1 |>))
          end
        else Some (inl (i + 1))
    end) 0;
  Some (0, psy).

Definition power_supply_populate_supplied_from (class : list power_supply) (node : Z)
    (psy : power_supply) : option (Z * power_supply) :=
  class_for_each_device class (__power_supply_populate_supplied_from node) psy.

Definition __power_supply_find_supply_from_node (np : Z) (epsy : power_supply) (u : unit)
    : option (Z * unit) :=
  Some (if bool_decide (of_node epsy = Some np) then 1 else 0, u).

Definition power_supply_find_supply_from_node (class : list power_supply) (np : Z) : option Z :=
  '(error, _) ← class_for_each_device class (__power_supply_find_supply_from_node np) ();
  Some (if truth error then (if error =? 1 then 0 else error) else - EPROBE_DEFER).

(** [alloc] answers the two allocations. *)
Definition power_supply_check_supplies (alloc : bool * bool) (class : list power_supply)
    (psy : power_supply) : option (Z * power_supply) :=
  if (if supplied_from psy then num_supplies psy >? 0 else false) then Some (0, psy)
  else
    match of_node psy with
    | None => Some (0, psy)
    | Some node =>
        r ← loop (S (length (of_phandles node "power-supplies"))) (fun cnt =>
          match of_parse_phandle node "power-supplies" cnt with
          | None => Some (inr (inr (cnt + 1)))
          | Some np =>
              ret ← power_supply_find_supply_from_node class np;
              if truth ret then Some (inr (inl ret)) else Some (inl (cnt + 1))
          end) 0;
        match r with
        | inl ret => Some (ret, psy)
        | inr cnt =>
            if cnt =? 1 then Some (0, psy)
            else if negb alloc.1 then Some (- ENOMEM, psy <| supplied_from := None |>)
            else
              (* the entry points to memory that is all zeros: the empty string *)
              let psy := psy <| supplied_from := Some [if alloc.2 then Some EmptyString else None] |> in
              if negb alloc.2 then Some (- ENOMEM, psy)
              else power_supply_populate_supplied_from class node psy
        end
    end.

(** ** Battery information *)

Record power_supply_battery_info := {
  energy_full_design_uwh : Z;
  charge_full_design_uah : Z;
  voltage_min_design_uv : Z;
  precharge_current_ua : Z;
  charge_term_current_ua : Z;
  constant_charge_current_max_ua : Z;
  constant_charge_voltage_max_uv : Z;
}.

Definition no_battery_info : power_supply_battery_info := {|
  energy_full_design_uwh := - EINVAL; charge_full_design_uah := - EINVAL;
  voltage_min_design_uv := - EINVAL; precharge_current_ua := - EINVAL;
  charge_term_current_ua := - EINVAL; constant_charge_current_max_ua := - EINVAL;
  constant_charge_voltage_max_uv := - EINVAL |}.

(** [of_property_read_u32(np, s, &field)] stores into an int, and leaves the
    field when the property is absent. *)
Definition read_u32_into (np : Z) (s : string) : Z := match of_property_read_u32 np s with
  | Some v => s32 v
  | None => - EINVAL
  end.

Definition power_supply_get_battery_info (psy : power_supply) : Z * power_supply_battery_info :=
  match of_node psy with
  | None => (- ENXIO, no_battery_info)
  | Some np =>
      match of_parse_phandle np "monitored-battery" 0 with
      | None => (- ENODEV, no_battery_info)
      | Some battery_np =>
          match of_property_read_string battery_np "compatible" with
          | inl err => (err, no_battery_info)
          | inr value =>
              if negb (String.eqb "simple-battery" value) then (- ENODEV, no_battery_info)
              else
                (0, {| energy_full_design_uwh :=
                         read_u32_into battery_np "energy-full-design-microwatt-hours";
                       charge_full_design_uah :=
                         read_u32_into battery_np "charge-full-design-microamp-hours";
                       voltage_min_design_uv :=
                         read_u32_into battery_np "voltage-min-design-microvolt";
                       precharge_current_ua :=
                         read_u32_into battery_np "precharge-current-microamp";
                       charge_term_current_ua :=
                         read_u32_into battery_np "charge-term-current-microamp";
                       constant_charge_current_max_ua :=
                         read_u32_into battery_np "constant_charge_current_max_microamp";
                       constant_charge_voltage_max_uv :=
                         read_u32_into battery_np "constant_charge_voltage_max_microvolt" |})
          end
      end
  end.

(** ** Thermal zone and cooling device *)

(** [val.intval], as the thermal callbacks read it; an error is passed on. *)
Definition thermal_get (psy : power_supply) (psp : Z) (w : W) : option ((Z + Z) * W) :=
  let '(ret, w) := power_supply_get_property psy psp w in
  match ret with
  | inl err => Some (inl err, w)
  | inr v => i ← intval_of v; Some (inr i, w)
  end.

Definition power_supply_read_temp (psy : power_supply) (w : W) : option ((Z + Z) * W) :=
  '(r, w) ← thermal_get psy POWER_SUPPLY_PROP_TEMP w;
  Some (match r with inl err => inl err | inr v => inr (s32 (v * 100)) end, w).

(** The cooling states are unsigned longs. *)
Definition ps_get_max_charge_cntl_limit (psy : power_supply) (w : W) : option ((Z + Z) * W) :=
  '(r, w) ← thermal_get psy POWER_SUPPLY_PROP_CHARGE_CONTROL_LIMIT_MAX w;
  Some (match r with inl err => inl err | inr v => inr (u64 v) end, w).

Definition ps_get_cur_chrage_cntl_limit (psy : power_supply) (w : W) : option ((Z + Z) * W) :=
  '(r, w) ← thermal_get psy POWER_SUPPLY_PROP_CHARGE_CONTROL_LIMIT w;
  Some (match r with inl err => inl err | inr v => inr (u64 v) end, w).

(** Calls [desc->set_property] whether there is one or not. *)
Definition ps_set_cur_charge_cntl_limit (psy : power_supply) (state : Z) (w : W) : option (Z * W) :=
  set ← set_property (desc psy);
  Some (set w POWER_SUPPLY_PROP_CHARGE_CONTROL_LIMIT (Intval (s32 state))).

(** ** Registration

    What registration does outside of the supply is kept in [system]: the
    class, the thermal zones and cooling devices, the LED triggers and the
    delayed works that are queued. *)

Record system := {
  class : list power_supply;
  zones : list Z;
  coolers : list Z;
  led_triggers : list Z;
  deferred : list Z;
}.

#[global] Instance eta_system : Eta system := fun s =>
  Build_system (class s) (zones s) (coolers s) (led_triggers s) (deferred s).

(** What the kernel answers to the calls of a registration. *)
Record register_env := {
  psy_addr : Z;
  psy_alloc : bool;
  set_name_rc : Z;
  supplies_alloc : bool * bool;
  device_add_rc : Z;
  init_wakeup_rc : Z;
  thermal_rc : Z;
  cooler_rc : Z;
  triggers_rc : Z;
}.

Definition remove_id (psy : Z) (l : list Z) : list Z := filter (fun p => p ≠ psy) l.

Definition has_prop (d : power_supply_desc) (psp : Z) : bool :=
  existsb (Z.eqb psp) (properties d).

(** The handle of the zone or of the cooling device is kept in the supply. *)
Definition psy_register_thermal (rc : Z) (psy : Z) (d : power_supply_desc) (sys : system)
    : Z * system :=
  if no_thermal d then (0, sys)
  else if has_prop d POWER_SUPPLY_PROP_TEMP then
    if truth rc then (rc, sys)
    else (0, sys <| zones ::= cons psy |> <| class ::= on psy (fun p => p <| tzd := true |>) |>)
  else (0, sys).

Definition psy_unregister_thermal (psy : power_supply) (sys : system) : system :=
  if tzd psy then sys <| zones ::= remove_id (id psy) |> else sys.

Definition psy_register_cooler (rc : Z) (psy : Z) (d : power_supply_desc) (sys : system)
    : Z * system :=
  if has_prop d POWER_SUPPLY_PROP_CHARGE_CONTROL_LIMIT then
    if truth rc then (rc, sys)
    else (0, sys <| coolers ::= cons psy |> <| class ::= on psy (fun p => p <| tcd := true |>) |>)
  else (0, sys).

Definition psy_unregister_cooler (psy : power_supply) (sys : system) : system :=
  if tcd psy then sys <| coolers ::= remove_id (id psy) |> else sys.

Definition find_id (psy : Z) (class : list power_supply) : option power_supply :=
  List.find (fun p => id p =? psy) class.

Definition device_del (psy : Z) (sys : system) : system :=
  sys <| class ::= filter (fun p => id p ≠ psy) |>.

(** The exits of the goto chain, from the last to the first. *)
Definition register_thermal_failed (psy rc : Z) (sys : system) : option ((Z + Z) * system) :=
  Some (inl rc, device_del psy sys).

Definition register_cooler_failed (psy rc : Z) (sys : system) : option ((Z + Z) * system) :=
  p ← find_id psy (class sys);
  register_thermal_failed psy rc (psy_unregister_thermal p sys).

Definition create_triggers_failed (psy rc : Z) (sys : system) : option ((Z + Z) * system) :=
  p ← find_id psy (class sys);
  register_cooler_failed psy rc (psy_unregister_cooler p sys).

Definition new_power_supply (e : register_env) (parent_node : option Z) (d : power_supply_desc)
    (cfg : option power_supply_config) : power_supply := {|
  id := psy_addr e; desc := d;
  supplied_to := c ← cfg; cfg_supplied_to c;
  supplied_from := None; num_supplies := 0;
  of_node := c ← cfg; cfg_of_node c;
  parent_node := parent_node; use_cnt := 0; initialized := false; removing := false;
  wakeup := false; tzd := false; tcd := false |}.

(** What follows [device_add]. *)
Definition register_added (e : register_env) (d : power_supply_desc) (ws : bool) (psy : Z)
    (sys : system) : option ((Z + Z) * system) :=
  if truth (init_wakeup_rc e) then Some (inl (init_wakeup_rc e), sys)
  else
    let sys := sys <| class ::= on psy (fun p => p <| wakeup := ws |>) |> in
    let '(rc, sys) := psy_register_thermal (thermal_rc e) psy d sys in
    if truth rc then register_thermal_failed psy rc sys
    else
      let '(rc, sys) := psy_register_cooler (cooler_rc e) psy d sys in
      if truth rc then register_cooler_failed psy rc sys
      else if truth (triggers_rc e) then create_triggers_failed psy (triggers_rc e) sys
      else
        let sys := sys <| led_triggers ::= cons psy |> in
        let sys := sys <| class ::= on psy (fun p =>
          p <| use_cnt ::= Z.add 1 |> <| initialized := true |>) |> in
        Some (inr psy, sys <| deferred ::= cons psy |>).

(** [parent] is the device tree node of the parent device, if there is one and
    it has one. *)
Definition __power_supply_register (e : register_env) (parent : option (option Z))
    (desc : option power_supply_desc) (cfg : option power_supply_config) (ws : bool) (sys : system)
    : option ((Z + Z) * system) :=
  match parent, desc with
  | None, None => None
  | _, None => Some (inl (- EINVAL), sys)
  | _, Some d =>
      if bool_decide (name d = None) || bool_decide (properties d = []) then
        Some (inl (- EINVAL), sys)
      else if existsb (fun psp => (psp =? POWER_SUPPLY_PROP_USB_TYPE)
                                  && bool_decide (usb_types d = [])) (properties d) then
        Some (inl (- EINVAL), sys)
      else if negb (psy_alloc e) then Some (inl (- ENOMEM), sys)
      else
        let psy := new_power_supply e (p ← parent; p) d cfg in
        if truth (set_name_rc e) then Some (inl (set_name_rc e), sys)
        else
          '(rc, psy) ← power_supply_check_supplies (supplies_alloc e) (class sys) psy;
          if truth rc then Some (inl rc, sys)
          else if truth (device_add_rc e) then Some (inl (device_add_rc e), sys)
          else
            register_added e d ws (psy_addr e) (sys <| class ::= fun l => l ++ [psy] |>)
  end.

Definition power_supply_register e parent desc cfg sys :=
  __power_supply_register e parent desc cfg true sys.

Definition power_supply_register_no_ws e parent desc cfg sys :=
  __power_supply_register e parent desc cfg false sys.

(** Whether the reference count was not back at zero is the warning. *)
Definition power_supply_unregister (psy : Z) (sys : system) : option (bool * system) :=
  p ← find_id psy (class sys);
  let cnt := use_cnt p - 1 in
  let sys := sys <| class ::= on psy (fun p =>
    p <| use_cnt := cnt |> <| removing := true |>) |> in
  let sys := sys <| deferred ::= remove_id psy |> in
  let sys := sys <| led_triggers ::= remove_id psy |> in
  let sys := psy_unregister_cooler p sys in
  let sys := psy_unregister_thermal p sys in
  let sys := sys <| class ::= on psy (fun p => p <| wakeup := false |>) |> in
  Some (truth cnt, device_del psy sys).

(** The managed versions also answer the release put on the parent's list. *)
Definition devm_power_supply_register (devres_ok : bool) e parent desc cfg sys
    : option ((Z + Z) * system * option Z) :=
  if negb devres_ok then Some (inl (- ENOMEM), sys, None)
  else
    '(psy, sys) ← __power_supply_register e parent desc cfg true sys;
    Some (psy, sys, match psy with inr p => Some p | inl _ => None end).

Definition devm_power_supply_register_no_ws (devres_ok : bool) e parent desc cfg sys
    : option ((Z + Z) * system * option Z) :=
  if negb devres_ok then Some (inl (- ENOMEM), sys, None)
  else
    '(psy, sys) ← __power_supply_register e parent desc cfg false sys;
    Some (psy, sys, match psy with inr p => Some p | inl _ => None end).

Definition devm_power_supply_release (res : option Z) (sys : system) : option (bool * system) :=
  match res with Some psy => power_supply_unregister psy sys | None => Some (false, sys) end.

End PowerSupply.
