(* ===== verification/PowerSupplyNotify.v ===== *)
(** * Power supply class: the notification of changes

    Model of power_supply_changed(), power_supply_changed_work(),
    power_supply_deferred_register_work() and the part of
    power_supply_unregister() that stops them and takes the wakeup source away,
    of power_supply_core.c, as a step relation: every step is a section of code
    under [changed_lock], or a step of the work queue, and the steps of drivers,
    work queue and removal interleave in any order.

    The wakeup source belongs to the kernel: of it only the documented effect is
    used, that a device with a wakeup source that is kept awake keeps the system
    awake, and that pm_stay_awake and pm_relax do nothing on a device without
    one. *)

From stdpp Require Export relations.
From S2P Require Import Prelude.

(** ** State of one supply *)

(** power_supply_changed_work: waiting, started but not yet under the lock, or
    in the middle of the notifications, where the lock is not held. *)
Inductive worker := Idle | Started | Notifying.

(** power_supply_deferred_register_work: the delayed work is queued, polls for
    the parent's lock, holds it, has marked the change, or is over. *)
Inductive deferred_work := DQueued | DPolling | DLocked | DMarked | DOver.

(** The lock of the parent device. *)
Inductive lock := Free | HeldByCore | HeldByDeferred.

(** power_supply_unregister: not called, [removing] set, changed_work
    cancelled, deferred_register_work cancelled, the wakeup source and the
    device gone: the supply may be freed. *)
Inductive removal := Registered | Removing | WorkCancelled | Removed | Unregistered.

(** [calls] counts the calls of power_supply_changed, [taken] those whose
    change the worker has taken, [notified] those the supplies, the LEDs and the
    listeners have been told of; [scheduling] counts the callers between the
    lock and schedule_work.  [wakeup_source]: the device has one; [awake]: it
    keeps the system from sleeping. *)
Record nstate := {
  changed : bool;
  wakeup_source : bool;
  awake : bool;
  queued : bool;
  work : worker;
  scheduling : nat;
  deferred_register : deferred_work;
  parent_mutex : lock;
  has_parent : bool;
  unregister : removal;
  calls : nat;
  taken : nat;
  notified : nat;
}.

#[global] Instance eta_nstate : Eta nstate := fun s =>
  Build_nstate (changed s) (wakeup_source s) (awake s) (queued s) (work s) (scheduling s) (deferred_register s)
    (parent_mutex s) (has_parent s) (unregister s) (calls s) (taken s) (notified s).

(** Whose turn it is. *)
Inductive event :=
  | EvChanged | EvSchedule | EvWorkStart | EvWorkLock | EvWorkEnd
  | EvDeferredStart | EvDeferredPoll | EvDeferredMark | EvDeferredEnd
  | EvCoreLock | EvCoreUnlock | EvUnregister | EvCancelWork | EvCancelDeferred | EvDeviceGone.

(** After power_supply_register ([ws]) or power_supply_register_no_ws: the
    delayed work is queued; the parent's lock is held by the driver core if
    registration happens in a probe. *)
Definition registered_state (ws parent : bool) (m : lock) : nstate := {|
  changed := false; wakeup_source := ws; awake := false; queued := false; work := Idle; scheduling := 0;
  deferred_register := DQueued; parent_mutex := m; has_parent := parent;
  unregister := Registered; calls := 0; taken := 0; notified := 0 |}.

(** ** The sections of code *)

Definition pm_stay_awake (s : nstate) : nstate := if wakeup_source s then s <| awake := true |> else s.

Definition pm_relax (s : nstate) : nstate := if wakeup_source s then s <| awake := false |> else s.

(** The locked section of power_supply_changed. *)
Definition power_supply_changed (s : nstate) : nstate :=
  pm_stay_awake (s <| changed := true |>) <| calls ::= S |>.

(** [schedule_work(&psy->changed_work)]: no effect on a queued work. *)
Definition schedule_work (s : nstate) : nstate := s <| queued := true |>.

(** [if (likely(!psy->changed)) pm_relax(&psy->dev);] *)
Definition relax (s : nstate) : nstate := if changed s then s else pm_relax s.

(** The first locked section of power_supply_changed_work, which is the only
    one when there is no change. *)
Definition changed_work_lock (s : nstate) : nstate :=
  if changed s then s <| changed := false |> <| taken := calls s |> <| work := Notifying |>
  else relax s <| work := Idle |>.

(** The notifications are over; the second locked section. *)
Definition changed_work_end (s : nstate) : nstate :=
  relax (s <| notified := taken s |>) <| work := Idle |>.

(** One round of the polling loop of power_supply_deferred_register_work. *)
Definition deferred_poll (s : nstate) : nstate :=
  if has_parent s then
    match parent_mutex s with
    | Free => s <| parent_mutex := HeldByDeferred |> <| deferred_register := DLocked |>
    | _ =>
        match unregister s with
        | Registered => s
        | _ => s <| deferred_register := DOver |>
        end
    end
  else s <| deferred_register := DLocked |>.

(** Its tail: schedule_work, and the lock is released. *)
Definition deferred_end (s : nstate) : nstate :=
  let s := schedule_work s in
  let s := if has_parent s then s <| parent_mutex := Free |> else s in
  s <| deferred_register := DOver |>.

(** [device_init_wakeup(&psy->dev, false)] and [device_unregister(&psy->dev)]:
    a wakeup source that is removed no longer keeps the system awake. *)
Definition device_gone (s : nstate) : nstate :=
  s <| wakeup_source := false |> <| awake := false |> <| unregister := Unregistered |>.

(** ** Steps

    Drivers announce changes until they unregister the supply.  A removal by
    the driver core holds the parent's lock throughout ([core_removes]). *)

Section Steps.
Context (core_removes : bool).

Inductive nstep : event -> nstate -> nstate -> Prop :=
  | step_changed s :
      unregister s = Registered ->
      nstep EvChanged s (power_supply_changed s <| scheduling ::= S |>)
  | step_schedule s n :
      scheduling s = S n ->
      nstep EvSchedule s (schedule_work (s <| scheduling := n |>))
  | step_work_start s :
      queued s = true -> work s = Idle ->
      nstep EvWorkStart s (s <| queued := false |> <| work := Started |>)
  | step_work_lock s :
      work s = Started ->
      nstep EvWorkLock s (changed_work_lock s)
  | step_work_end s :
      work s = Notifying ->
      nstep EvWorkEnd s (changed_work_end s)
  | step_deferred_start s :
      deferred_register s = DQueued ->
      nstep EvDeferredStart s (s <| deferred_register := DPolling |>)
  | step_deferred_poll s :
      deferred_register s = DPolling ->
      nstep EvDeferredPoll s (deferred_poll s)
  | step_deferred_mark s :
      deferred_register s = DLocked ->
      nstep EvDeferredMark s (power_supply_changed s <| deferred_register := DMarked |>)
  | step_deferred_end s :
      deferred_register s = DMarked ->
      nstep EvDeferredEnd s (deferred_end s)
  | step_core_lock s :
      parent_mutex s = Free -> has_parent s = true ->
      nstep EvCoreLock s (s <| parent_mutex := HeldByCore |>)
  | step_core_unlock s :
      parent_mutex s = HeldByCore ->
      (core_removes = true -> unregister s = Registered \/ unregister s = Unregistered) ->
      nstep EvCoreUnlock s (s <| parent_mutex := Free |>)
  | step_unregister s :
      unregister s = Registered -> scheduling s = 0%nat ->
      (core_removes = true -> has_parent s = true /\ parent_mutex s = HeldByCore) ->
      nstep EvUnregister s (s <| unregister := Removing |>)
  | step_cancel_changed_work s :
      unregister s = Removing -> work s = Idle ->
      nstep EvCancelWork s (s <| queued := false |> <| unregister := WorkCancelled |>)
  | step_cancel_deferred_register_work s :
      unregister s = WorkCancelled ->
      (deferred_register s = DQueued \/ deferred_register s = DOver) ->
      nstep EvCancelDeferred s (s <| deferred_register := DOver |> <| unregister := Removed |>)
  | step_device_gone s :
      unregister s = Removed ->
      nstep EvDeviceGone s (device_gone s).

(** ** No change is lost *)

Record notify_invariant (ws : bool) (s : nstate) : Prop := {
  (** The wakeup source is there until the device goes. *)
  inv_source : wakeup_source s = match unregister s with Unregistered => false | _ => ws end;
  inv_sleep : awake s = true -> wakeup_source s = true;
  (** A change that was not taken keeps the system awake, and the worker will
      look at it. *)
  inv_pending : changed s = true -> (wakeup_source s = true -> awake s = true) /\
    (unregister s = Registered ->
     (0 < scheduling s)%nat \/ queued s = true \/ work s = Started \/ deferred_register s = DMarked);
  inv_running : work s = Notifying -> wakeup_source s = true -> awake s = true;
  inv_awake : awake s = true -> changed s = true \/ work s = Notifying;
  inv_taken : changed s = false -> taken s = calls s;
  inv_notified : work s <> Notifying -> notified s = taken s;
  inv_order : (notified s <= taken s <= calls s)%nat;
  (** The lock and its holder. *)
  inv_mutex : has_parent s = true ->
    parent_mutex s = HeldByDeferred <->
    (deferred_register s = DLocked \/ deferred_register s = DMarked);
  (** What the removal by the driver core has stopped. *)
  inv_core : core_removes = true -> unregister s <> Registered -> unregister s <> Unregistered ->
    has_parent s = true /\ parent_mutex s = HeldByCore /\ scheduling s = 0%nat;
  inv_cancelled : core_removes = true ->
    unregister s <> Registered -> unregister s <> Removing ->
    queued s = false /\ work s = Idle /\ scheduling s = 0%nat;
  inv_removed : unregister s = Removed \/ unregister s = Unregistered -> deferred_register s = DOver;
}.

Lemma registered_invariant ws parent m :
  m <> HeldByDeferred -> notify_invariant ws (registered_state ws parent m).
Proof. intros Hm. split; cbn; intuition (congruence || lia). Qed.

Lemma nstep_invariant ws e s s' : nstep e s s' -> notify_invariant ws s -> notify_invariant ws s'.
Proof.
  intros Hs [Hw Hl Hp Hr Ha Ht Hn Ho Hm Hc Hx Hd].
  destruct Hs; split; unfold power_supply_changed, schedule_work, changed_work_lock,
    changed_work_end, deferred_poll, deferred_end, device_gone, relax, pm_relax, pm_stay_awake in *; cbn in *;
    repeat (case_match; cbn in * );
    try solve [clear Hm Hc Hx Hd; intuition (congruence || lia)];
    clear Hp Hr Ha Ht Hn Ho; intuition congruence.
Qed.

(** What can happen to a supply that was registered. *)
Definition any_step (s s' : nstate) : Prop := exists e, nstep e s s'.

Definition happens (ws : bool) (s : nstate) : Prop :=
  exists parent m, m <> HeldByDeferred /\ rtc any_step (registered_state ws parent m) s.

Lemma happens_invariant ws s : happens ws s -> notify_invariant ws s.
Proof.
  intros (parent & m & Hm & Hs). apply (registered_invariant ws parent) in Hm.
  induction Hs as [|s s1 s' (e & He) _ IH]; [done|]. eauto using nstep_invariant.
Qed.

(** The steps of the callers, of the worker and of the registration work that
    holds its lock: what goes on when nobody starts anything new. *)
Definition winding_down (e : event) : bool :=
  match e with
  | EvSchedule | EvWorkStart | EvWorkLock | EvWorkEnd | EvDeferredMark | EvDeferredEnd => true
  | _ => false
  end.

Definition wstep (s s' : nstate) : Prop := exists e, winding_down e = true /\ nstep e s s'.

Definition pending_work (s : nstate) : nat :=
  8 * scheduling s + (if queued s then 4 else 0)
  + match work s with Idle => 0 | Started => 3 | Notifying => 1 end
  + match deferred_register s with DLocked => 8 | DMarked => 7 | _ => 0 end.

Lemma wstep_decreases s s' : wstep s s' -> (pending_work s' < pending_work s)%nat.
Proof.
  intros (e & Hw & Hs).
  destruct Hs; try done; unfold pending_work, power_supply_changed, schedule_work, changed_work_lock,
    changed_work_end, deferred_end, relax, pm_relax, pm_stay_awake; cbn;
    repeat (case_match; cbn); simplify_eq/=; try congruence; lia.
Qed.

Lemma wstep_keeps s s' : wstep s s' -> unregister s' = unregister s.
Proof.
  intros (e & Hw & Hs).
  destruct Hs; try done; unfold power_supply_changed, changed_work_lock, changed_work_end, deferred_end, relax, pm_relax, pm_stay_awake; cbn;
    repeat (case_match; cbn); done.
Qed.

Lemma wsteps_invariant ws s s' : rtc wstep s s' -> notify_invariant ws s ->
  notify_invariant ws s' /\ unregister s' = unregister s.
Proof.
  induction 1 as [|s s1 s' Hw _ IH]; [done|]. intros Hi. rewrite <- (wstep_keeps _ _ Hw).
  destruct Hw as (e & _ & He). eauto using nstep_invariant.
Qed.

(** When the winding down is over everybody has been told. *)
Lemma wound_down ws s : notify_invariant ws s -> unregister s = Registered ->
  (forall s', ~ wstep s s') -> notified s = calls s /\ awake s = false.
Proof.
  intros [_ _ Hp Hr Ha Ht Hn Ho _ _ _ _] Hu Hstop.
  assert (scheduling s = 0%nat).
  { destruct (scheduling s) as [|n] eqn:E; [done|].
    destruct (Hstop (schedule_work (s <| scheduling := n |>))). exists EvSchedule. eauto using nstep. }
  assert (work s = Idle).
  { destruct (work s) eqn:E; [done|..]; edestruct Hstop.
    - exists EvWorkLock. eauto using nstep.
    - exists EvWorkEnd. eauto using nstep. }
  assert (queued s = false).
  { destruct (queued s) eqn:E; [|done]. edestruct Hstop. exists EvWorkStart. eauto using nstep. }
  assert (deferred_register s <> DMarked).
  { intros E. edestruct Hstop. exists EvDeferredEnd. eauto using nstep. }
  destruct (changed s); [|destruct (awake s)]; intuition (congruence || lia).
Qed.
End Steps.

(** ** Properties *)

(** Evaluates a step of a concrete run. *)
Ltac run_step c := eapply rtc_l; [eexists; eapply c; cbn; try done; auto|].

(** A change announced when the driver core is about to remove the supply. *)
Lemma change_cancelled core_removes ws : exists s,
  happens core_removes ws s /\ unregister s = Unregistered /\ notified s = 0%nat /\ calls s = 1%nat.
Proof.
  destruct ws; eexists; (split; [exists true, HeldByCore; split; [done|]|]).
  1,3: run_step step_changed; run_step step_schedule; run_step step_unregister; run_step step_cancel_changed_work;
    run_step step_cancel_deferred_register_work; run_step step_device_gone; apply rtc_refl.
  all: done.
Qed.

(** C34: however calls of power_supply_changed, the worker, the registration
    work and the removal interleave:
    - a supply registered with a wakeup source lets the system sleep only when
      the listeners have been told of every change, until its device goes; a
      supply registered without one, and one whose device is gone, never keeps
      the system awake;
    - while the supply is registered, every run of the pending work ends, with
      the listeners told of every change and the system allowed to sleep;
    - the listeners are told of no change that was not announced, and a removal
      can lose one: it cancels the work of a change announced before. *)
Theorem changes_never_lost core_removes ws s :
  happens core_removes ws s ->
  (ws = true -> unregister s <> Unregistered -> awake s = false -> notified s = calls s) /\
  (ws = false \/ unregister s = Unregistered -> awake s = false) /\
  (unregister s = Registered ->
   (forall s', rtc (wstep core_removes) s s' -> (forall s'', ~ wstep core_removes s' s'') ->
      notified s' = calls s' /\ awake s' = false) /\
   Acc (flip (wstep core_removes)) s) /\
  (notified s <= calls s)%nat /\
  (exists s', happens core_removes ws s' /\ unregister s' = Unregistered /\ (notified s' < calls s')%nat).
Proof.
  intros Hs%happens_invariant. split_and!; [..|intros Hu; split| |].
  - intros Hws Hu Ha. destruct Hs as [Hw _ Hp Hr _ Ht Hn _ _ _ _ _].
    assert (wakeup_source s = true) by (rewrite Hw; destruct (unregister s); congruence).
    destruct (changed s), (work s); intuition congruence.
  - intros Hu. destruct Hs as [Hw Hl _ _ _ _ _ _ _ _ _ _].
    assert (wakeup_source s = false) by (rewrite Hw; destruct Hu as [->| ->]; [by destruct (unregister s)|done]).
    destruct (awake s); intuition congruence.
  - intros s' Hw Hstop.
    destruct (wsteps_invariant _ _ _ _ Hw Hs) as [Hi Hu']. eapply wound_down; eauto. congruence.
  - clear. induction s as [s IH] using (induction_ltof1 _ pending_work).
    constructor. intros s' Hw. by apply IH, (wstep_decreases core_removes).
  - destruct (inv_order _ _ _ Hs). lia.
  - destruct (change_cancelled core_removes ws) as (s' & H1 & H2 & H3 & H4). exists s'. split_and!; [done..|lia].
Qed.

(** The worker has taken a change and a second one was announced since. *)
Definition announced_twice : nstate := {|
  changed := true; wakeup_source := true; awake := true; queued := false; work := Notifying; scheduling := 1;
  deferred_register := DQueued; parent_mutex := Free; has_parent := true;
  unregister := Registered; calls := 2; taken := 1; notified := 0 |}.

Lemma changes_never_lost_witness :
  happens false true announced_twice /\
  (forall s', rtc (wstep false) announced_twice s' -> (forall s'', ~ wstep false s' s'') ->
     notified s' = calls s' /\ awake s' = false).
Proof.
  assert (Hs : happens false true announced_twice).
  { exists true, Free. split; [done|].
    run_step step_changed. run_step step_schedule. run_step step_work_start.
    run_step step_work_lock. run_step step_changed. apply rtc_refl. }
  split; [exact Hs | exact (proj1 (proj1 (proj2 (proj2 (changes_never_lost false true _ Hs))) eq_refl))].
Defined.

(** C35: a removal by the driver core, which holds the parent's lock, stops
    everything: once the registration work is cancelled no work is queued or
    running, and the only steps left are the end of the removal and the lock of
    the parent.  A removal that does not hold that lock can let the device go
    while its changed_work is queued: the registration work queues it again
    after it was cancelled. *)
Theorem removal_stops_work ws s :
  (happens true ws s -> unregister s = Removed \/ unregister s = Unregistered ->
     queued s = false /\ work s = Idle /\ deferred_register s = DOver /\
     (forall e s', nstep true e s s' -> e = EvCoreLock \/ e = EvCoreUnlock \/ e = EvDeviceGone /\ unregister s = Removed)) /\
  (exists s', happens false ws s' /\ unregister s' = Unregistered /\ queued s' = true).
Proof.
  split.
  - intros Hs%happens_invariant Hu.
    destruct (inv_cancelled _ _ _ Hs) as (Hq & Hw & Hn); [done | destruct Hu; congruence.. |].
    pose proof (inv_removed _ _ _ Hs Hu) as Hd. split_and!; try done.
    intros e s' He. destruct He; destruct Hu; try congruence; auto.
  - destruct ws; eexists; (split; [exists true, Free; split; [done|]|]).
    1,3: run_step step_deferred_start; run_step step_unregister; run_step step_cancel_changed_work;
      run_step step_deferred_poll; run_step step_deferred_mark; run_step step_deferred_end;
      run_step step_cancel_deferred_register_work; run_step step_device_gone; apply rtc_refl.
    all: done.
Qed.

(** The state after a removal by the driver core during the probe. *)
Definition removed_in_probe : nstate := device_gone (
  (registered_state true true HeldByCore) <| unregister := Removed |> <| deferred_register := DOver |>).

Lemma removal_stops_work_witness :
  happens true true removed_in_probe /\ queued removed_in_probe = false.
Proof.
  assert (Hs : happens true true removed_in_probe).
  { exists true, HeldByCore. split; [done|].
    run_step step_unregister. run_step step_cancel_changed_work.
    run_step step_cancel_deferred_register_work. run_step step_device_gone. apply rtc_refl. }
  split; [exact Hs|].
  exact (proj1 (proj1 (removal_stops_work true removed_in_probe) Hs (or_intror eq_refl))).
Defined.
