(* ===== verification/PowerSupplyProps.v ===== *)
(** * Power supply class: registration and suppliers

    Registration is all or nothing but for one error path, removal is its
    inverse, and the list of suppliers of a supply has room for one. *)

From S2P Require Import PowerSupply Prelude.


#[local] Arguments on : simpl never.
#[local] Arguments find_id : simpl never.
#[local] Arguments remove_id : simpl never.

Section Registration.
Context {W : Type} `{DeviceTree}.
Implicit Types (p : @power_supply W) (l : list (@power_supply W)) (sys : @system W).

(** ** The newest supply of the class *)

(** Nothing of the system knows the address [a]. *)
Definition fresh (a : Z) sys : Prop :=
  Forall (fun p => id p <> a) (class sys) /\ a ∉ zones sys /\ a ∉ coolers sys /\
  a ∉ led_triggers sys /\ a ∉ deferred sys.

Lemma on_last a f l p : Forall (fun p => id p <> a) l -> id p = a -> on a f (l ++ [p]) = l ++ [f p].
Proof.
  intros Hl Hp. unfold on. rewrite map_app. f_equal.
  - rewrite <- map_id. apply map_ext_Forall.
    eapply Forall_impl; [exact Hl|]. intros q Hq. by destruct (Z.eqb_spec (id q) a).
  - cbn. by rewrite (proj2 (Z.eqb_eq _ _) Hp).
Qed.

Lemma find_id_last a l p :
  Forall (fun p => id p <> a) l -> id p = a -> find_id a (l ++ [p]) = Some p.
Proof.
  intros Hl Hp. unfold find_id. induction Hl as [|q l Hq Hl IH]; cbn.
  - by rewrite (proj2 (Z.eqb_eq _ _) Hp).
  - by destruct (Z.eqb_spec (id q) a).
Qed.

Lemma filter_last a l p :
  Forall (fun p => id p <> a) l -> id p = a -> filter (fun p => id p ≠ a) (l ++ [p]) = l.
Proof.
  intros Hl Hp. induction Hl as [|q l Hq Hl IH]; cbn -[filter].
  - rewrite filter_cons, decide_False by naive_solver. done.
  - rewrite filter_cons, decide_True by done. by f_equal.
Qed.

Lemma remove_id_fresh (a : Z) (l : list Z) : a ∉ l -> remove_id a l = l.
Proof.
  intros Ha. induction l as [|x l IH]; [done|]. apply not_elem_of_cons in Ha as [Hx Hl].
  unfold remove_id in *. rewrite filter_cons, decide_True by done. f_equal. auto.
Qed.

Lemma remove_id_cons (a : Z) (l : list Z) : a ∉ l -> remove_id a (a :: l) = l.
Proof.
  intros Ha. unfold remove_id. rewrite filter_cons, decide_False by naive_solver.
  by apply remove_id_fresh.
Qed.

(** ** What registration leaves *)

(** A supply that is in the class but was never announced: no property of it
    can be read, and nobody removes it. *)
Definition stuck p : Prop :=
  use_cnt p = 0 /\ initialized p = false /\
  forall psp w, power_supply_get_property p psp w = (inl (- EAGAIN), w).

(** The record of a registered supply. *)
Definition registered (e : register_env) (d : @power_supply_desc W) (ws : bool) p : Prop :=
  id p = psy_addr e /\ desc p = d /\ use_cnt p = 1 /\ initialized p = true /\
  removing p = false /\ wakeup p = ws /\
  tzd p = negb (no_thermal d) && has_prop d POWER_SUPPLY_PROP_TEMP /\
  tcd p = has_prop d POWER_SUPPLY_PROP_CHARGE_CONTROL_LIMIT.

Definition joined (a : Z) (b : bool) (l : list Z) : list Z := if b then a :: l else l.

Definition with_supply (e : register_env) p sys : system := {|
  class := class sys ++ [p];
  zones := joined (psy_addr e) (tzd p) (zones sys);
  coolers := joined (psy_addr e) (tcd p) (coolers sys);
  led_triggers := psy_addr e :: led_triggers sys;
  deferred := psy_addr e :: deferred sys |}.

Lemma register_added_ok e d ws sys p :
  fresh (psy_addr e) sys -> id p = psy_addr e -> desc p = d -> use_cnt p = 0 ->
  initialized p = false -> removing p = false -> tzd p = false -> tcd p = false ->
  exists r sys',
    register_added e d ws (psy_addr e) (sys <| class ::= fun l => l ++ [p] |>) = Some (r, sys') /\
    match r with
    | inr a => a = psy_addr e /\ exists p', registered e d ws p' /\ sys' = with_supply e p' sys
    | inl rc => rc <> 0 /\
        if truth (init_wakeup_rc e) then rc = init_wakeup_rc e /\ class sys' = class sys ++ [p]
        else sys' = sys
    end.
Proof.
  intros (Hf & Hz & Hc & Ht & Hd) Hid Hdesc Huse Hinit Hrem Htz Htc. destruct sys as [l z c t df].
  cbn in *. unfold register_added.
  destruct (truth (init_wakeup_rc e)) eqn:Ew.
  { eexists _, _. split; [done|]. cbn. split; [by apply truth_true|done]. }
  destruct p; cbn in *; subst.
  unfold create_triggers_failed, psy_register_thermal, psy_register_cooler, register_cooler_failed,
    register_thermal_failed, psy_unregister_thermal, psy_unregister_cooler, device_del, set. cbn.
  destruct (no_thermal d) eqn:En; [|destruct (has_prop d POWER_SUPPLY_PROP_TEMP) eqn:Etemp;
    [destruct (truth (thermal_rc e)) eqn:Eth; [apply truth_true in Eth as Eth'|]|]];
  (destruct (has_prop d POWER_SUPPLY_PROP_CHARGE_CONTROL_LIMIT) eqn:Ecl;
    [destruct (truth (cooler_rc e)) eqn:Eco; [apply truth_true in Eco as Eco'|]|]);
  (destruct (truth (triggers_rc e)) eqn:Etr; [apply truth_true in Etr as Etr'|]);
  cbn; repeat (first
    [ rewrite Eth | rewrite Eco
    | rewrite on_last by (cbn; done)
    | rewrite find_id_last by (cbn; done)
    | rewrite filter_last by (cbn; done)
    | rewrite remove_id_cons by done ]; cbn);
  eexists _, _; (split; [reflexivity|]); cbn; (split; [done|]); try done;
  match goal with |- context [Build_system (_ ++ [?q])] => exists q end;
  (split; [|reflexivity]); unfold registered; cbn; by rewrite ?En, ?Etemp, ?Ecl.
Qed.

(** ** Loops over the class and over arrays *)

Lemma loop_result {S R} (step : S -> option (S + R)) fuel s r :
  loop fuel step s = Some r -> exists s', step s' = Some (inr r).
Proof.
  revert s. induction fuel as [|fuel IH]; intros s; [done|]. cbn.
  destruct (step s) as [[s'|r']|] eqn:E; cbn; [apply IH | | done]. intros [= <-]. eauto.
Qed.

Lemma class_for_each_device_keeps {S} (I : S -> Prop) l fn (s s' : S) e :
  class_for_each_device l fn s = Some (e, s') -> I s ->
  (forall p s e s1, I s -> fn p s = Some (e, s1) -> I s1) -> I s'.
Proof.
  intros Hl Hs Hfn. revert s Hl Hs. induction l as [|p l IH]; cbn; intros s.
  - by intros [= <- <-].
  - destruct (fn p s) as [[e1 s1]|] eqn:E; [|done]. cbn. intros Hl Hs.
    destruct (truth e1); [injection Hl as <- <-|]; eauto.
Qed.

(** A loop over the elements of an array, as a recursion over the list of them:
    [f] continues ([None]) or ends the loop, [fin] is what follows the last one. *)
Fixpoint scan {A R} (f : Z -> A -> option (option R)) (fin : Z -> option R) (i : Z) (l : list A)
    : option R :=
  match l with
  | [] => fin i
  | x :: l => r ← f i x; match r with Some r => Some r | None => scan f fin (i + 1) l end
  end.

Lemma loop_scan {A R} (step : Z -> option (Z + R)) (f : Z -> A -> option (option R))
    (fin : Z -> option R) (l : list A) n :
  (forall k x, l !! k = Some x ->
     step (n + Z.of_nat k) = r ← f (n + Z.of_nat k) x;
       Some (match r with Some r => inr r | None => inl (n + Z.of_nat k + 1) end)) ->
  step (n + zlen l) = inr <$> fin (n + zlen l) ->
  loop (S (length l)) step n = scan f fin n l.
Proof.
  revert n. induction l as [|x l IH]; intros n Hs Hf.
  - unfold zlen in Hf. cbn in *. rewrite Z.add_0_r in Hf. rewrite Hf. by destruct (fin n).
  - change (loop (S (length (x :: l))) step n) with
      (r' ← step n; match r' with inl s' => loop (S (length l)) step s' | inr x => Some x end).
    pose proof (Hs 0%nat x eq_refl) as Hz. rewrite Z.add_0_r in Hz. rewrite Hz. cbn.
    destruct (f n x) as [[r|]|]; [done| |done]. cbn [mbind option_bind]. apply IH.
    + intros k y Hk. specialize (Hs (S k) y Hk).
      by replace (n + Z.of_nat (S k)) with (n + 1 + Z.of_nat k) in Hs by lia.
    + unfold zlen in *. by replace (n + Z.of_nat (length (x :: l))) with
        (n + 1 + Z.of_nat (length l)) in Hf by (cbn; lia).
Qed.

(** ** Suppliers *)

(** [a] and [b] differ at most in their list of suppliers. *)
Definition same_but_suppliers (a b : @power_supply W) : Prop :=
  b = a <| supplied_from := supplied_from b |> <| num_supplies := num_supplies b |>.

Lemma populate_keeps l node p rc p' :
  power_supply_populate_supplied_from l node p = Some (rc, p') -> same_but_suppliers p p'.
Proof.
  intros Hp. refine (class_for_each_device_keeps (same_but_suppliers p) _ _ _ _ _ Hp _ _).
  - by destruct p.
  - clear. intros epsy s e s1 Hs. unfold __power_supply_populate_supplied_from.
    destruct (loop _ _ 0) as [p1|] eqn:El; [|done]. intros [= <- <-].
    apply loop_result in El as (i & Ei). cbn in Ei.
    destruct (of_parse_phandle node _ i); [|by simplify_eq].
    case_bool_decide; [|done]. destruct (supplied_from s) as [from|]; [|done].
    destruct (wr from i _) as [from'|]; [|done]. simplify_eq/=. revert Hs. by intros ->.
Qed.

Lemma check_supplies_keeps alloc l p rc p' :
  power_supply_check_supplies alloc l p = Some (rc, p') -> same_but_suppliers p p'.
Proof.
  unfold power_supply_check_supplies.
  destruct (if supplied_from p then _ else _); [intros [= <- <-]; by destruct p|].
  destruct (of_node p) as [node|]; [|intros [= <- <-]; by destruct p].
  destruct (loop _ _ 0) as [[ret|cnt]|]; cbn; [intros [= <- <-]; by destruct p| |done].
  destruct (cnt =? 1); [intros [= <- <-]; by destruct p|].
  destruct (negb alloc.1); [intros [= <- <-]; by destruct p|].
  destruct (negb alloc.2); [intros [= <- <-]; by destruct p|].
  intros ->%populate_keeps. by destruct p.
Qed.

(** The supply node [np] belongs to a device of the class. *)
Definition registered_node l (np : Z) : bool :=
  existsb (fun epsy => bool_decide (of_node epsy = Some np)) l.

Lemma find_supply_from_node_eq l np :
  power_supply_find_supply_from_node l np =
  Some (if registered_node l np then 0 else - EPROBE_DEFER).
Proof.
  unfold power_supply_find_supply_from_node, registered_node.
  assert (Hl : class_for_each_device l (__power_supply_find_supply_from_node np) () =
    Some (if existsb (fun epsy => bool_decide (of_node epsy = Some np)) l then 1 else 0, ())).
  { induction l as [|epsy l IH]; [done|]. cbn.
    by destruct (bool_decide (of_node epsy = Some np)). }
  rewrite Hl. cbn. by destruct (existsb _ l).
Qed.

(** The first index at which a list of nodes names [np]. *)
Definition index_of (np : option Z) (nodes : list Z) : option nat :=
  fst <$> list_find (fun n => np = Some n) nodes.

Lemma populate_one node epsy p :
  __power_supply_populate_supplied_from node epsy p =
  match index_of (of_node epsy) (of_phandles node "power-supplies") with
  | None => Some (0, p)
  | Some i =>
      from ← supplied_from p;
      from ← wr from (Z.of_nat i) (name (desc epsy));
      Some (0, p <| supplied_from := Some from |> <| num_supplies ::= Z.add 1 |>)
  end.
Proof.
  unfold __power_supply_populate_supplied_from, of_parse_phandle.
  generalize (of_phandles node "power-supplies") as nodes. intros nodes.
  set (hit := fun i => match supplied_from p with
    | Some from => from ← wr from i (name (desc epsy));
        Some (p <| supplied_from := Some from |> <| num_supplies ::= Z.add 1 |>)
    | None => None end).
  rewrite (loop_scan _ (fun i np => if bool_decide (of_node epsy = Some np)
    then Some <$> hit i else Some None) (fun _ => Some p) nodes 0).
  - unfold index_of.
    assert (Hs : forall n : nat, scan (fun i np => if bool_decide (of_node epsy = Some np)
        then Some <$> hit i else Some None) (fun _ => Some p) (Z.of_nat n) nodes =
      match fst <$> list_find (fun np => of_node epsy = Some np) nodes with
      | None => Some p | Some i => hit (Z.of_nat (n + i)) end).
    { induction nodes as [|np nodes IH]; intros n; [done|]. cbn [scan list_find].
      case_bool_decide as Hb; [rewrite decide_True by done|rewrite decide_False by done]; cbn.
      - rewrite Nat.add_0_r. by destruct (hit (Z.of_nat n)).
      - replace (Z.of_nat n + 1) with (Z.of_nat (S n)) by lia. rewrite IH.
        destruct (list_find _ nodes) as [[i x]|]; cbn; [|done]. do 2 f_equal. lia. }
    rewrite (Hs 0%nat : scan _ _ 0 nodes = _). destruct (fst <$> list_find _ nodes) as [i|]; cbn; [|done].
    unfold hit. destruct (supplied_from p) as [from|]; cbn; [|done].
    by destruct (wr from _ _).
  - intros k x Hk. rewrite !Z.add_0_l, rd_of_nat, Hk. case_bool_decide; cbn; [|done].
    unfold hit. destruct (supplied_from p) as [from|]; [|done]. by destruct (wr from _ _).
  - rewrite !Z.add_0_l. unfold zlen. rewrite rd_of_nat, lookup_ge_None_2 by lia. done.
Qed.

Lemma check_loop l nodes node :
  of_phandles node "power-supplies" = nodes ->
  loop (S (length nodes)) (fun cnt =>
    match of_parse_phandle node "power-supplies" cnt with
    | None => Some (inr (inr (cnt + 1)))
    | Some np =>
        ret ← power_supply_find_supply_from_node l np;
        if truth ret then Some (inr (inl ret)) else Some (inl (cnt + 1))
    end) 0 =
  Some (if forallb (registered_node l) nodes then inr (zlen nodes + 1) else inl (- EPROBE_DEFER)).
Proof.
  intros <-. unfold of_parse_phandle. generalize (of_phandles node "power-supplies") as nodes.
  intros nodes.
  rewrite (loop_scan _ (fun _ np => Some (if registered_node l np then None
    else Some (inl (- EPROBE_DEFER)))) (fun n => Some (inr (n + 1))) nodes 0).
  - assert (Hs : forall n, scan (fun _ np => Some (if registered_node l np then None
      else Some (inl (- EPROBE_DEFER)))) (fun n => Some (inr (n + 1))) n nodes =
      Some (if forallb (registered_node l) nodes then inr (n + zlen nodes + 1)
            else inl (- EPROBE_DEFER))).
    { induction nodes as [|np nodes IH]; intros n; cbn.
      - unfold zlen. cbn. by rewrite Z.add_0_r.
      - destruct (registered_node l np); cbn; [|done]. rewrite IH.
        destruct (forallb _ nodes); [|done]. unfold zlen. cbn. do 2 f_equal. lia. }
    by rewrite Hs, Z.add_0_l.
  - intros k np Hk. rewrite !Z.add_0_l, rd_of_nat, Hk, find_supply_from_node_eq. cbn.
    by destruct (registered_node l np).
  - rewrite !Z.add_0_l. unfold zlen. by rewrite rd_of_nat, lookup_ge_None_2 by lia.
Qed.

(** The devices of the class that supply the node [np]. *)
Definition suppliers l (np : Z) : list (@power_supply W) :=
  filter (fun epsy => of_node epsy = Some np) l.

Lemma list_find_all (np x : Z) nodes : Forall (eq np) nodes ->
  index_of (Some x) (np :: nodes) = if decide (x = np) then Some 0%nat else None.
Proof.
  intros Hn. unfold index_of. cbn. destruct (decide (Some x = Some np)) as [[= ->]|Hx].
  - by rewrite decide_True.
  - rewrite (decide_False (P := x = np)) by congruence.
    replace (list_find _ nodes) with (@None (nat * Z)); [done|].
    symmetry. apply list_find_None. eapply Forall_impl; [exact Hn|]. congruence.
Qed.

Lemma wr_single {A} (x y : A) : wr [x] (Z.of_nat 0) y = Some [y].
Proof. reflexivity. Qed.

(** All the phandles name one node: the list has one entry, the name of the
    last device of the node, but as many suppliers as it has devices. *)
Lemma populate_single l node np nodes p x :
  of_phandles node "power-supplies" = np :: nodes -> Forall (eq np) nodes ->
  supplied_from p = Some [x] ->
  power_supply_populate_supplied_from l node p =
  Some (0, p <| supplied_from := Some [default x (name ∘ desc <$> last (suppliers l np))] |>
             <| num_supplies ::= Z.add (zlen (suppliers l np)) |>).
Proof.
  intros Hn Ha. unfold power_supply_populate_supplied_from. revert p x.
  induction l as [|epsy l IH]; intros p x Hx.
  - cbn. destruct p; cbn in *. by subst.
  - cbn [class_for_each_device]. rewrite populate_one, Hn.
    unfold suppliers. rewrite filter_cons.
    destruct (of_node epsy) as [y|] eqn:Ey.
    + rewrite list_find_all by done. destruct (decide (y = np)) as [->|Hy].
      * rewrite decide_True by done. rewrite Hx. cbn -[filter wr]. rewrite wr_single. cbn -[filter].
        rewrite (IH _ (name (desc epsy))) by done. unfold suppliers.
        destruct p; unfold set; cbn -[filter last]; unfold zlen. do 2 f_equal; f_equal.
        -- rewrite last_cons. by destruct (last (filter _ l)).
        -- cbn [length]. lia.
      * rewrite decide_False by congruence. cbn. by apply IH.
    + replace (index_of None (np :: nodes)) with (@None nat).
      * rewrite decide_False by done. cbn. by apply IH.
      * unfold index_of. symmetry. apply fmap_None, list_find_None.
        apply Forall_forall. done.
Qed.

(** A phandle of a second node is written past the end of the list. *)
Lemma populate_overflow l node np nodes p x np' :
  of_phandles node "power-supplies" = np :: nodes -> np' ∈ nodes -> np' <> np ->
  registered_node l np' = true -> supplied_from p = Some [x] ->
  power_supply_populate_supplied_from l node p = None.
Proof.
  intros Hn Hin Hne Hr. unfold power_supply_populate_supplied_from. revert p x.
  induction l as [|epsy l IH]; intros p x Hx; [done|].
  cbn [class_for_each_device]. rewrite populate_one, Hn.
  destruct (index_of (of_node epsy) (np :: nodes)) as [[|i]|] eqn:Ei.
  - rewrite Hx. cbn -[wr]. rewrite wr_single. cbn. eapply IH; [|done]. cbn in Hr.
    case_bool_decide as Hb; [|exact Hr]. unfold index_of in Ei. cbn in Ei.
    rewrite decide_False in Ei by congruence. by destruct (list_find _ nodes).
  - rewrite Hx. cbn. unfold wr. by rewrite (proj2 (Z.ltb_ge _ _)) by (unfold zlen; cbn; lia).
  - cbn. eapply IH; [|done]. cbn in Hr. case_bool_decide as Hb; [|exact Hr].
    unfold index_of in Ei. apply fmap_None, list_find_None in Ei.
    rewrite Forall_forall in Ei. destruct (Ei np'); [by right | done].
Qed.
End Registration.

(** ** Properties *)

(** C36. The suppliers a device tree node names: the registration is deferred
    when one of them is not there yet; nothing is written when there are none;
    when all the phandles name one node the list is the name of its device, and
    counts one supplier per device of the node; and a second node, all of
    them being there, is written past the end of the list, which was allocated
    for one. *)
Theorem suppliers_found {W} `{DeviceTree} l (p : @power_supply W) node :
  of_node p = Some node -> supplied_from p = None ->
  let check := power_supply_check_supplies (true, true) l p in
  let nodes := of_phandles node "power-supplies" in
  if forallb (registered_node l) nodes then
    match nodes with
    | [] => check = Some (0, p)
    | np :: rest =>
        (Forall (eq np) rest ->
         check = Some (0, p
           <| supplied_from := Some [default (Some EmptyString) (name ∘ desc <$> last (suppliers l np))] |>
           <| num_supplies ::= Z.add (zlen (suppliers l np)) |>)) /\
        (~ Forall (eq np) rest -> check = None)
    end
  else check = Some (- EPROBE_DEFER, p).
Proof.
  intros Hn Hs. cbv zeta. unfold power_supply_check_supplies. rewrite Hs, Hn.
  rewrite (check_loop l _ node eq_refl).
  destruct (of_phandles node "power-supplies") as [|np rest] eqn:En; [done|].
  destruct (forallb _ _) eqn:Ea; [|done]. cbn [mbind option_bind].
  rewrite (proj2 (Z.eqb_neq _ _)) by (unfold zlen; cbn; lia). cbn [negb fst snd].
  split; intros Hr.
  - by rewrite (populate_single _ _ _ _ _ (Some EmptyString) En Hr).
  - apply not_Forall_Exists in Hr; [|apply _]. apply Exists_exists in Hr as (np' & Hin & Hne).
    apply (populate_overflow _ _ _ _ _ (Some EmptyString) _ En Hin); [congruence| |done].
    rewrite forallb_forall in Ea. apply Ea. right. by apply list_elem_of_In.
Qed.

(** C37. Registration either announces the supply, with one reference, its
    thermal zone and cooling device as its properties ask for, and then removal
    takes everything back without a warning; or it fails and leaves the system
    as it was, but for one error: when the wake-up source cannot be had the
    supply stays in the class for good, and reading it says try again. *)
Theorem registration_all_or_nothing {W} `{DeviceTree} e parent (d : @power_supply_desc W) cfg ws sys r sys' :
  fresh (psy_addr e) sys ->
  __power_supply_register e parent (Some d) cfg ws sys = Some (r, sys') ->
  match r with
  | inr a => a = psy_addr e /\
      (exists p, registered e d ws p /\ sys' = with_supply e p sys) /\
      power_supply_unregister a sys' = Some (false, sys)
  | inl rc => rc <> 0 /\
      (sys' = sys \/
       rc = init_wakeup_rc e /\ exists p, class sys' = class sys ++ [p] /\ stuck p)
  end.
Proof.
  intros Hf Hr. unfold __power_supply_register in Hr.
  assert (Hr' : (r = inl (- EINVAL) \/ r = inl (- ENOMEM) \/
      (exists rc, rc <> 0 /\ r = inl rc)) /\ sys' = sys \/
    exists p, let q := new_power_supply e (q ← parent; q) d cfg in same_but_suppliers q p /\
      register_added e d ws (psy_addr e) (sys <| class ::= fun l => l ++ [p] |>) = Some (r, sys')).
  { destruct parent;
    (destruct (_ || _); [simplify_eq; auto|]);
    (destruct (existsb _ _); [simplify_eq; auto|]);
    (destruct (negb _); [simplify_eq; auto|]);
    (destruct (truth (set_name_rc e)) eqn:E1;
      [apply truth_true in E1; simplify_eq; left; split; eauto 6|]);
    (destruct (power_supply_check_supplies _ _ _) as [[rc p]|] eqn:Ec; [|done]; cbn [mbind option_bind] in Hr);
    (destruct (truth rc) eqn:E2; [apply truth_true in E2; simplify_eq; left; split; eauto 6|]);
    (destruct (truth (device_add_rc e)) eqn:E3;
      [apply truth_true in E3; simplify_eq; left; split; eauto 6|]);
    right; exists p; split; eauto using check_supplies_keeps. }
  destruct Hr' as [[Hrc ->]|(p & Hk & Ha)].
  - destruct Hrc as [-> | [-> | (rc & Hrc & ->)]]; split; auto; done.
  - set (q := new_power_supply _ _ _ _) in *.
    assert (Hq : id p = psy_addr e /\ desc p = d /\ use_cnt p = 0 /\ initialized p = false /\
      removing p = false /\ tzd p = false /\ tcd p = false) by (rewrite Hk; done).
    destruct Hq as (H1 & H2 & H3 & H4 & H5 & H6 & H7).
    destruct (register_added_ok e d ws sys p) as (r' & s' & Ha' & Hres); auto.
    rewrite Ha in Ha'. injection Ha' as <- <-. destruct r as [rc|a].
    + destruct Hres as [Hrc Hres]. split; [done|]. destruct (truth (init_wakeup_rc e)); [right|by left].
      destruct Hres as [-> Hc]. split; [done|]. exists p. split; [done|].
      split_and!; auto. intros psp w. unfold power_supply_get_property. by rewrite H3, H4.
    + destruct Hres as (-> & p' & Hp & ->). split_and!; [done|eauto|].
      destruct Hf as (Hf & Hz & Hc & Ht & Hd), Hp as (P1 & P2 & P3 & P4 & P5 & P6 & P7 & P8).
      unfold power_supply_unregister, with_supply. cbn. rewrite find_id_last by done. cbn.
      rewrite P3. unfold psy_unregister_cooler, psy_unregister_thermal, device_del. cbn.
      destruct sys as [l z c t df]; cbn in *.
      destruct (tzd p'), (tcd p'); unfold set; cbn; rewrite ?P1;
        rewrite !on_last by (cbn; done); rewrite filter_last by (cbn; done);
        by rewrite ?remove_id_cons by done.
Qed.

(** ** Witnesses: a charger whose supply is a USB port *)

#[local] Instance demo_tree : DeviceTree := {
  of_phandles np property := if np =? 1 then [7] else [];
  of_property_read_string _ _ := inl (- EINVAL);
  of_property_read_u32 _ _ := None;
}.

Definition demo_desc (s : string) (props : list Z) : @power_supply_desc unit := {|
  name := Some s; type := POWER_SUPPLY_TYPE_MAINS; usb_types := []; properties := props;
  get_property := fun w _ => (inr (Intval 1), w); set_property := None;
  property_is_writeable := None; external_power_changed := None; set_charged := None;
  no_thermal := false |}.

Definition demo_env (addr triggers : Z) : register_env := {|
  psy_addr := addr; psy_alloc := true; set_name_rc := 0; supplies_alloc := (true, true);
  device_add_rc := 0; init_wakeup_rc := 0; thermal_rc := 0; cooler_rc := 0;
  triggers_rc := triggers |}.

Definition demo_supply (addr node : Z) (s : string) : power_supply :=
  new_power_supply (demo_env addr 0) None (demo_desc s [POWER_SUPPLY_PROP_ONLINE])
    (Some {| cfg_of_node := Some node; cfg_supplied_to := None |}).

Lemma suppliers_found_witness :
  let p := demo_supply 20 1 "ac"%string in
  let port := demo_supply 10 7 "usb"%string in
  power_supply_check_supplies (true, true) [port] p =
    Some (0, p <| supplied_from := Some [Some "usb"%string] |> <| num_supplies ::= Z.add 1 |>).
Proof.
  exact (proj1 (suppliers_found [demo_supply 10 7 "usb"%string] (demo_supply 20 1 "ac"%string)
                  1 eq_refl eq_refl) (List.Forall_nil _)).
Defined.

(** The LED triggers fail after the thermal zone was made. *)
Lemma registration_all_or_nothing_witness :
  let sys := {| class := [demo_supply 10 7 "usb"%string]; zones := []; coolers := [];
                led_triggers := []; deferred := [] |} in
  exists r, __power_supply_register (demo_env 20 (- ENOMEM)) None
    (Some (demo_desc "ac"%string [POWER_SUPPLY_PROP_TEMP])) None true sys = Some (r, sys) /\
    r = inl (- ENOMEM) /\ - ENOMEM <> 0.
Proof.
  intros sys. exists (inl (- ENOMEM)). split; [reflexivity|]. split; [reflexivity|].
  refine (proj1 (registration_all_or_nothing (demo_env 20 (- ENOMEM)) None
    (demo_desc "ac"%string [POWER_SUPPLY_PROP_TEMP]) None true sys (inl (- ENOMEM)) sys _ _)).
  - split; [|split_and!; apply not_elem_of_nil]. constructor; [discriminate|constructor].
  - reflexivity.
Defined.
