(* ===== verification/PowerSupplyRk817.v ===== *)
(** * The supplies of the RK817

    The battery and the charger driver meet in the power supply class: the
    charger registers a mains and a USB supply, the battery registers itself,
    finds the other two in the class and asks them whether they are online.
    The drivers' state is the pair of the two device records. *)

From S2P Require Import Rk817Regs Rk817Gauge Rk817Algo Rk817Driver Rk817Charger.
From S2P Require Import Rk817ChargerFacts Rk817ChargerProps.
From S2P Require Import PowerSupply Prelude.

(** ** Numbers of the class and enumerators of the drivers *)

Definition rk817_psp (psp : Z) : power_supply_property :=
  if psp =? 0 then Rk817Driver.POWER_SUPPLY_PROP_STATUS
  else if psp =? 2 then Rk817Driver.POWER_SUPPLY_PROP_HEALTH
  else if psp =? 4 then Rk817Driver.POWER_SUPPLY_PROP_ONLINE
  else if psp =? 8 then Rk817Driver.POWER_SUPPLY_PROP_VOLTAGE_MAX
  else if psp =? 12 then Rk817Driver.POWER_SUPPLY_PROP_VOLTAGE_NOW
  else if psp =? 16 then Rk817Driver.POWER_SUPPLY_PROP_CURRENT_MAX
  else if psp =? 17 then Rk817Driver.POWER_SUPPLY_PROP_CURRENT_NOW
  else if psp =? 22 then Rk817Driver.POWER_SUPPLY_PROP_CHARGE_FULL_DESIGN
  else if psp =? 24 then Rk817Driver.POWER_SUPPLY_PROP_CHARGE_FULL
  else if psp =? 28 then Rk817Driver.POWER_SUPPLY_PROP_CHARGE_COUNTER
  else if psp =? 42 then Rk817Driver.POWER_SUPPLY_PROP_CAPACITY
  else if psp =? 45 then Rk817Driver.POWER_SUPPLY_PROP_CAPACITY_LEVEL
  else if psp =? 46 then Rk817Driver.POWER_SUPPLY_PROP_TEMP
  else if psp =? 56 then Rk817Driver.POWER_SUPPLY_PROP_TIME_TO_FULL_NOW
  else Rk817Driver.POWER_SUPPLY_PROP_OTHER.

Definition status_number (s : power_supply_status) : Z :=
  match s with
  | POWER_SUPPLY_STATUS_UNKNOWN => 0
  | POWER_SUPPLY_STATUS_CHARGING => 1
  | POWER_SUPPLY_STATUS_DISCHARGING => 2
  | POWER_SUPPLY_STATUS_NOT_CHARGING => 3
  | POWER_SUPPLY_STATUS_FULL => 4
  end.

Definition level_number (l : power_supply_level) : Z :=
  match l with
  | POWER_SUPPLY_CAPACITY_LEVEL_CRITICAL => 1
  | POWER_SUPPLY_CAPACITY_LEVEL_LOW => 2
  | POWER_SUPPLY_CAPACITY_LEVEL_NORMAL => 3
  | POWER_SUPPLY_CAPACITY_LEVEL_HIGH => 4
  | POWER_SUPPLY_CAPACITY_LEVEL_FULL => 5
  end.

(** What a driver stores, as the union of the class holds it. *)
Definition class_val (v : Rk817Driver.propval) : propval :=
  Intval (match v with
          | intval z => z
          | status_val s => status_number s
          | level_val l => level_number l
          | HEALTH_GOOD => 1
          end).

Section Supplies.
Context `{Platform}.

#[local] Notation drivers := (rk817_battery_device * rk817_charger)%type.

Definition lift_val (r : Z + Rk817Driver.propval) : Z + propval :=
  match r with inl err => inl err | inr v => inr (class_val v) end.

(** ** The descriptions the drivers register *)

Definition rk817_bat_props : list Z := [0; 17; 12; 2; 42; 45; 46; 28; 24; 22; 56].
Definition rk817_chg_props : list Z := [4; 0; 8; 16].

Definition rk817_bat_desc : @power_supply_desc drivers := {|
  name := Some "battery"%string; type := POWER_SUPPLY_TYPE_BATTERY; usb_types := [];
  properties := rk817_bat_props;
  get_property := fun w psp =>
    let '(r, b) := rk817_battery_get_property w.1 (rk817_psp psp) in (lift_val r, (b, w.2));
  set_property := None; property_is_writeable := None; external_power_changed := None;
  set_charged := None; no_thermal := false |}.

Definition rk817_ac_desc : @power_supply_desc drivers := {|
  name := Some "ac"%string; type := POWER_SUPPLY_TYPE_MAINS; usb_types := [];
  properties := rk817_chg_props;
  get_property := fun w psp => (lift_val (rk817_charge_ac_get_property w.2 (rk817_psp psp)), w);
  set_property := None; property_is_writeable := None; external_power_changed := None;
  set_charged := None; no_thermal := false |}.

Definition rk817_usb_desc : @power_supply_desc drivers := {|
  name := Some "usb"%string; type := POWER_SUPPLY_TYPE_USB; usb_types := [];
  properties := rk817_chg_props;
  get_property := fun w psp => (lift_val (rk817_charge_usb_get_property w.2 (rk817_psp psp)), w);
  set_property := None; property_is_writeable := None; external_power_changed := None;
  set_charged := None; no_thermal := false |}.

(** ** The battery looks its chargers up *)

Definition rk817_bat_get_usb_psy (psy : @power_supply drivers) (usb_psy : option power_supply)
    : option (Z * option (@power_supply drivers)) :=
  match type (desc psy) with
  | POWER_SUPPLY_TYPE_USB => Some (1, Some psy)
  | _ => Some (0, usb_psy)
  end.

Definition rk817_bat_get_ac_psy (psy : @power_supply drivers) (ac_psy : option power_supply)
    : option (Z * option (@power_supply drivers)) :=
  match type (desc psy) with
  | POWER_SUPPLY_TYPE_MAINS => Some (1, Some psy)
  | _ => Some (0, ac_psy)
  end.

Definition rk817_bat_get_chrg_psy (class : list power_supply)
    (psys : option power_supply * option (@power_supply drivers))
    : option (option power_supply * option (@power_supply drivers)) :=
  usb ← match psys.1 with
        | None => snd <$> class_for_each_device class rk817_bat_get_usb_psy None
        | Some psy => Some (Some psy)
        end;
  ac ← match psys.2 with
       | None => snd <$> class_for_each_device class rk817_bat_get_ac_psy None
       | Some psy => Some (Some psy)
       end;
  Some (usb, ac).

(** [psy->desc->get_property(psy, POWER_SUPPLY_PROP_ONLINE, &val)], and the
    field when it succeeds. *)
Definition ask_online (psy : option (@power_supply drivers)) (w : drivers)
    (store : Z -> rk817_battery_device -> rk817_battery_device) : option drivers :=
  match psy with
  | None => Some w
  | Some psy =>
      let '(ret, w) := get_property (desc psy) w POWER_SUPPLY_PROP_ONLINE in
      match ret with
      | inl _ => Some w
      | inr v => i ← intval_of v; Some (store i w.1, w.2)
      end
  end.

(** [rk817_bat_get_charge_state] with the class it runs in; [psys] are the two
    supplies the battery remembers. *)
Definition rk817_bat_get_charge_state_in (class : list power_supply)
    (psys : option power_supply * option (@power_supply drivers)) (w : drivers)
    : option (bool * (option (@power_supply drivers) * option (@power_supply drivers)) * drivers) :=
  psys ← match psys with
         | (Some _, Some _) => Some psys
         | _ => rk817_bat_get_chrg_psy class psys
         end;
  w ← ask_online psys.1 w (fun i b => b <| Rk817Regs.usb_in := u8 i |>);
  w ← ask_online psys.2 w (fun i b => b <| Rk817Regs.ac_in := u8 i |>);
  Some (truth (Rk817Regs.usb_in w.1) || truth (Rk817Regs.ac_in w.1), psys, w).

(** ** The class with the three supplies *)

(** A supply of the class with this description and no suppliers of its own. *)
Definition plain (d : @power_supply_desc drivers) (p : power_supply) : Prop :=
  desc p = d /\ supplied_to p = None /\ supplied_from p = None.

(** A class of supplies of the two drivers, with the two chargers among them. *)
Definition of_drivers (p : power_supply) : Prop :=
  plain rk817_bat_desc p \/ plain rk817_usb_desc p \/ plain rk817_ac_desc p.

Definition rk817_class (class : list power_supply) : Prop :=
  Forall of_drivers class /\
  Exists (plain rk817_usb_desc) class /\ Exists (plain rk817_ac_desc) class.

(** What the charger driver says is there. *)
Definition usb_there (c : rk817_charger) : bool := truth (virtual_power (pdata c)) || (usb_in c =? 1).
Definition ac_there (c : rk817_charger) : bool :=
  truth (virtual_power (pdata c)) || (ac_in c =? 1) || (dc_in c =? 1).
Definition power_there (c : rk817_charger) : bool :=
  truth (virtual_power (pdata c)) || truth (rk817_charge_online c).

Lemma online_values c : flags_ok c ->
  power_there c = usb_there c || ac_there c /\
  rk817_charge_usb_get_property c Rk817Driver.POWER_SUPPLY_PROP_ONLINE =
    inr (intval (b2z (usb_there c))) /\
  rk817_charge_ac_get_property c Rk817Driver.POWER_SUPPLY_PROP_ONLINE =
    inr (intval (b2z (ac_there c))).
Proof.
  intros (Ha & Hu & Hd & _). unfold power_there, usb_there, ac_there, rk817_charge_online.
  cbn [rk817_charge_usb_get_property rk817_charge_ac_get_property].
  destruct (truth (virtual_power (pdata c))); [done|].
  destruct Ha as [-> | ->], Hu as [-> | ->], Hd as [-> | ->]; done.
Qed.

(** Which supplies of the class are online. *)
Definition online_psy (c : rk817_charger) (p : @power_supply drivers) : bool :=
  match type (desc p) with
  | POWER_SUPPLY_TYPE_USB => usb_there c
  | POWER_SUPPLY_TYPE_MAINS => ac_there c
  | _ => false
  end.

(** One device of the class, asked by [power_supply_is_system_supplied]. *)
Lemma system_supplied_one p c b n : flags_ok c -> of_drivers p ->
  __power_supply_is_system_supplied p (n, (b, c)) =
  Some (b2z (online_psy c p), (u32 (n + 1), (b, c))).
Proof.
  intros Hf Hp. destruct (online_values c Hf) as (_ & Hu & Ha).
  unfold __power_supply_is_system_supplied, is_battery, online_psy.
  destruct Hp as [(Hp & _)|[(Hp & _)|(Hp & _)]]; rewrite Hp; cbn [type desc rk817_bat_desc
    rk817_usb_desc rk817_ac_desc negb get_property snd]; [done|..].
  - change (rk817_psp POWER_SUPPLY_PROP_ONLINE) with Rk817Driver.POWER_SUPPLY_PROP_ONLINE.
    by rewrite Hu.
  - change (rk817_psp POWER_SUPPLY_PROP_ONLINE) with Rk817Driver.POWER_SUPPLY_PROP_ONLINE.
    by rewrite Ha.
Qed.

Lemma system_supplied_loop l c b n : flags_ok c -> Forall of_drivers l ->
  exists m, class_for_each_device l __power_supply_is_system_supplied (n, (b, c)) =
    Some (b2z (existsb (online_psy c) l), (m, (b, c))) /\
    (0 <= n -> n + zlen l < 2 ^ 32 -> n <= m /\ (l <> [] -> n < m)).
Proof.
  intros Hf Hl. revert n. induction Hl as [|p l Hp _ IH]; intros n.
  - exists n. split; [done|]. intros. split; [lia|done].
  - cbn [class_for_each_device existsb]. rewrite (system_supplied_one _ _ _ _ Hf Hp).
    unfold zlen in *. cbn [mbind option_bind length].
    destruct (online_psy c p); cbn [truth b2z orb].
    + eexists. split; [done|]. intros. rewrite u32_id by lia. lia.
    + destruct (IH (u32 (n + 1))) as (m & E & Hm). exists m. split; [exact E|].
      intros Hn Hlt. rewrite u32_id in Hm by lia. lia.
Qed.

Lemma existsb_online l c : rk817_class l -> existsb (online_psy c) l = usb_there c || ac_there c.
Proof.
  intros (Hl & Hu & Ha). apply eq_true_iff_eq. rewrite existsb_exists, orb_true_iff.
  rewrite Exists_exists in Hu, Ha. unfold of_drivers in Hl. rewrite Forall_forall in Hl. split.
  - intros (p & Hp & Ho). apply list_elem_of_In in Hp. unfold online_psy in Ho.
    destruct (Hl p Hp) as [(E & _)|[(E & _)|(E & _)]]; rewrite E in Ho; cbn in Ho; auto. done.
  - destruct Hu as (u & Hu & Eu & _), Ha as (a & Ha & Ea & _). intros [Ho|Ho].
    + exists u. split; [by apply list_elem_of_In|]. unfold online_psy. by rewrite Eu.
    + exists a. split; [by apply list_elem_of_In|]. unfold online_psy. by rewrite Ea.
Qed.

(** Nobody names a supplier. *)
Lemma not_supplied l p (w : drivers) n : Forall of_drivers l -> of_drivers p ->
  class_for_each_device l (__power_supply_am_i_supplied p) (n, w) = Some (0, (n, w)).
Proof.
  intros Hl Hp. induction Hl as [|q l Hq _ IH]; [done|].
  assert (E : __power_supply_am_i_supplied p q (n, w) = Some (0, (n, w))).
  { unfold __power_supply_am_i_supplied, __power_supply_is_supplied_by.
    destruct Hp as [(_ & _ & ->)|[(_ & _ & ->)|(_ & _ & ->)]];
    destruct Hq as [(_ & -> & _)|[(_ & -> & _)|(_ & -> & _)]]; done. }
  cbn [class_for_each_device]. rewrite E. exact IH.
Qed.

(** The look-ups find the two chargers. *)
Lemma find_usb l : Forall of_drivers l -> Exists (plain rk817_usb_desc) l -> exists p,
  class_for_each_device l rk817_bat_get_usb_psy None = Some (1, Some p) /\ desc p = rk817_usb_desc.
Proof.
  intros Hl Hu. induction Hl as [|q l Hq _ IH]; [by apply Exists_nil in Hu|].
  cbn [class_for_each_device]. pose proof (eq_refl (rk817_bat_get_usb_psy q None)) as Eq.
  unfold rk817_bat_get_usb_psy in Eq at 2. apply Exists_cons in Hu.
  destruct Hq as [(E & _)|[(E & _)|(E & _)]]; rewrite E in Eq; rewrite Eq; cbn -[class_for_each_device].
  - apply IH. destruct Hu as [[Hu _]|]; [|done]. rewrite E in Hu. by apply (f_equal type) in Hu.
  - eauto.
  - apply IH. destruct Hu as [[Hu _]|]; [|done]. rewrite E in Hu. by apply (f_equal type) in Hu.
Qed.

Lemma find_ac l : Forall of_drivers l -> Exists (plain rk817_ac_desc) l -> exists p,
  class_for_each_device l rk817_bat_get_ac_psy None = Some (1, Some p) /\ desc p = rk817_ac_desc.
Proof.
  intros Hl Hu. induction Hl as [|q l Hq _ IH]; [by apply Exists_nil in Hu|].
  cbn [class_for_each_device]. pose proof (eq_refl (rk817_bat_get_ac_psy q None)) as Eq.
  unfold rk817_bat_get_ac_psy in Eq at 2. apply Exists_cons in Hu.
  destruct Hq as [(E & _)|[(E & _)|(E & _)]]; rewrite E in Eq; rewrite Eq; cbn -[class_for_each_device].
  - apply IH. destruct Hu as [[Hu _]|]; [|done]. rewrite E in Hu. by apply (f_equal type) in Hu.
  - apply IH. destruct Hu as [[Hu _]|]; [|done]. rewrite E in Hu. by apply (f_equal type) in Hu.
  - eauto.
Qed.

(** What the battery stores. *)
Definition asked (c : rk817_charger) (b : rk817_battery_device) : rk817_battery_device :=
  b <| Rk817Regs.usb_in := b2z (usb_there c) |> <| Rk817Regs.ac_in := b2z (ac_there c) |>.

Lemma get_charge_state_in_ok l b c : flags_ok c -> rk817_class l -> exists usb ac,
  desc usb = rk817_usb_desc /\ desc ac = rk817_ac_desc /\
  rk817_bat_get_charge_state_in l (None, None) (b, c) =
    Some (power_there c, (Some usb, Some ac), (asked c b, c)).
Proof.
  intros Hf (Hl & Hlu & Hla). destruct (online_values c Hf) as (-> & Hu & Ha).
  destruct (find_usb l Hl Hlu) as (usb & E1 & Du), (find_ac l Hl Hla) as (ac & E2 & Da).
  exists usb, ac. split_and!; [done..|].
  unfold rk817_bat_get_charge_state_in, rk817_bat_get_chrg_psy. cbn [fst snd].
  rewrite E1, E2. cbn [fmap option_fmap option_map mbind option_bind snd fst].
  unfold ask_online. rewrite Du, Da. cbn [get_property rk817_usb_desc rk817_ac_desc].
  change (rk817_psp POWER_SUPPLY_PROP_ONLINE) with Rk817Driver.POWER_SUPPLY_PROP_ONLINE.
  cbn [snd fst]. rewrite Hu. cbn [lift_val class_val intval_of mbind option_bind fst snd].
  rewrite Ha. cbn [lift_val class_val intval_of mbind option_bind fst snd].
  unfold asked. by destruct (usb_there c), (ac_there c).
Qed.
End Supplies.

(** ** Properties *)

(** C38. In every run of the charger driver, whatever the order of the supplies
    in the class: the system is supplied exactly when the driver says that a
    source is there; the battery, which looks the two supplies up and asks them,
    concludes the same, as its own driver does when the kernel answers it what
    they say; and the class knows no supplier of any of them. *)
Theorem supplies_agree `{Platform} env np h es l (b : rk817_battery_device) :
  rk817_class l -> zlen l < 2 ^ 32 ->
  let c := run_charger (snd (rk817_charge_probe env np h)) es in
  power_supply_is_system_supplied l (b, c) = Some (b2z (power_there c), (b, c)) /\
  (exists usb ac, rk817_bat_get_charge_state_in l (None, None) (b, c) =
     Some (power_there c, (Some usb, Some ac), (asked c b, c))) /\
  (usb_online (Rk817Regs.regs b) = Some (b2z (usb_there c)) ->
   ac_online (Rk817Regs.regs b) = Some (b2z (ac_there c)) ->
   rk817_bat_get_charge_state b = (power_there c, asked c b)) /\
  Forall (fun p => power_supply_am_i_supplied l p (b, c) = Some (- ENODEV, (b, c))) l.
Proof.
  intros Hl Hlen. cbv zeta. pose proof (flags_run _ es (flags_probe env np h)) as Hf.
  set (c := run_charger _ es) in *. clearbody c. pose proof Hl as (Hall & Hu & _). split_and!.
  - unfold power_supply_is_system_supplied.
    destruct (system_supplied_loop l c b 0 Hf Hall) as (m & -> & Hm). cbn [mbind option_bind].
    rewrite (proj2 (Z.eqb_neq m 0)).
    + rewrite existsb_online by done. by destruct (online_values c Hf) as (-> & _).
    + assert (l <> []) by (intros ->; by apply Exists_nil in Hu). pose proof (zlen_nonneg l).
      destruct Hm as [_ Hm]; [lia..|]. specialize (Hm ltac:(done)). lia.
  - destruct (get_charge_state_in_ok l b c Hf Hl) as (usb & ac & _ & _ & E). eauto.
  - intros E1 E2. unfold rk817_bat_get_charge_state. cbn. rewrite E1. cbn. rewrite E2.
    destruct (online_values c Hf) as (-> & _). unfold asked.
    by destruct (usb_there c), (ac_there c).
  - rewrite Forall_forall in Hall |- *. intros p Hp. unfold power_supply_am_i_supplied.
    rewrite not_supplied; [done| |by apply Hall]. by apply Forall_forall.
Qed.

(** ** A witness: the battery and the chargers on a chip with an SDP port *)

#[local] Existing Instance chip_kernel.
#[local] Existing Instance chip_platform.

Definition rk817_psy (addr : Z) d : @power_supply (rk817_battery_device * rk817_charger) := {|
  id := addr; desc := d; supplied_to := None; supplied_from := None; num_supplies := 0;
  of_node := None; parent_node := None; use_cnt := 1; initialized := true; removing := false;
  wakeup := true; tzd := false; tcd := false |}.

Definition rk817_psys : list (@power_supply (rk817_battery_device * rk817_charger)) :=
  [rk817_psy 1 rk817_bat_desc; rk817_psy 2 rk817_usb_desc; rk817_psy 3 rk817_ac_desc].

#[local] Notation typec_charger :=
  (snd (rk817_charge_probe good_env (board true None 0) (chip_with 0 no_cable))).
#[local] Notation sdp_run := (run_charger typec_charger (plug_sdp typec_charger)).
#[local] Notation chip_battery := (battery_kzalloc (chip_with 0 no_cable) 0).

Lemma rk817_psys_class : rk817_class rk817_psys.
Proof.
  split; [|split].
  - constructor; [by left|]. constructor; [by right; left|]. constructor; [by right; right|].
    constructor.
  - right. left. done.
  - right. right. left. done.
Defined.

Lemma supplies_agree_witness :
  fst <$> power_supply_is_system_supplied rk817_psys (chip_battery, sdp_run) = Some 1.
Proof.
  assert (E : b2z (power_there sdp_run) = 1) by (vm_compute; reflexivity).
  pose proof (proj1 (supplies_agree good_env (board true None 0) (chip_with 0 no_cable)
    (plug_sdp typec_charger) rk817_psys chip_battery rk817_psys_class eq_refl)) as Hs.
  cbv zeta in Hs. revert Hs E. generalize sdp_run. intros c Hs E. rewrite Hs. cbn. by rewrite E.
Defined.
