(* ===== verification/PowerSupplySysfs.v ===== *)
(** * Power supply class: sysfs, uevents and LEDs

    Model of power_supply_sysfs.c and power_supply_leds.c: the attributes of a
    supply, the text they show and accept, the variables of a uevent, and the
    LED triggers.  Strings are C strings; the buffer of an attribute is a page
    and long enough. *)

From Stdlib Require Import DecimalString DecimalPos DecimalZ Ascii.
From S2P Require Import PowerSupply Prelude.

#[local] Open Scope string_scope.
#[local] Open Scope Z_scope.

(** ** Tables *)

Definition power_supply_type_text : list string := [
  "Unknown"; "Battery"; "UPS"; "Mains"; "USB"; "USB_DCP"; "USB_CDP"; "USB_ACA"; "USB_C";
  "USB_PD"; "USB_PD_DRP"; "BrickID"; "USB_HVDCP"; "USB_HVDCP_3"; "USB_HVDCP_3P5"; "Wireless";
  "USB_FLOAT"; "BMS"; "Parallel"; "Main"; "USB_C_UFP"; "USB_C_DFP"; "Charge_Pump"].

Definition power_supply_usb_type_text : list string := [
  "Unknown"; "SDP"; "DCP"; "CDP"; "ACA"; "C"; "PD"; "PD_DRP"; "PD_PPS"; "BrickID"].

Definition power_supply_status_text : list string := [
  "Unknown"; "Charging"; "Discharging"; "Not charging"; "Full"].

Definition power_supply_charge_type_text : list string := [
  "Unknown"; "N/A"; "Trickle"; "Fast"; "Taper"].

Definition power_supply_health_text : list string := [
  "Unknown"; "Good"; "Overheat"; "Dead"; "Over voltage"; "Unspecified failure"; "Cold";
  "Watchdog timer expire"; "Safety timer expire"; "Over current"; "Warm"; "Cool"; "Hot"].

Definition power_supply_technology_text : list string := [
  "Unknown"; "NiMH"; "Li-ion"; "Li-poly"; "LiFe"; "NiCd"; "LiMn"].

Definition power_supply_capacity_level_text : list string := [
  "Unknown"; "Critical"; "Low"; "Normal"; "High"; "Full"].

Definition power_supply_scope_text : list string := [
  "Unknown"; "System"; "Device"].

Definition power_supply_usbc_text : list string := [
  "Nothing attached"; "Sink attached"; "Powered cable w/ sink"; "Debug Accessory";
  "Audio Adapter"; "Powered cable w/o sink"; "Source attached (default current)";
  "Source attached (medium current)"; "Source attached (high current)";
  "Debug Accessory Mode (default current)"; "Debug Accessory Mode (medium current)";
  "Debug Accessory Mode (high current)"; "Non compliant";
  "Non compliant (Rp-Default/Rp-Default)"; "Non compliant (Rp-1.5A/Rp-1.5A)";
  "Non compliant (Rp-3A/Rp-3A)"].

Definition power_supply_usbc_pr_text : list string := [
  "none"; "dual power role"; "sink"; "source"].

Definition power_supply_typec_src_rp_text : list string := [
  "Rp-Default"; "Rp-1.5A"; "Rp-3A"].

(** The attributes, in the order of the properties. *)
Definition power_supply_attrs : list string := [
  "status"; "charge_type"; "health"; "present"; "online"; "authentic"; "technology";
  "cycle_count"; "voltage_max"; "voltage_min"; "voltage_max_design"; "voltage_min_design";
  "voltage_now"; "voltage_avg"; "voltage_ocv"; "voltage_boot"; "current_max"; "current_now";
  "current_avg"; "current_boot"; "power_now"; "power_avg"; "charge_full_design";
  "charge_empty_design"; "charge_full"; "charge_empty"; "charge_now"; "charge_avg";
  "charge_counter"; "constant_charge_current"; "constant_charge_current_max";
  "constant_charge_voltage"; "constant_charge_voltage_max"; "charge_control_limit";
  "charge_control_limit_max"; "input_current_limit"; "energy_full_design"; "energy_empty_design";
  "energy_full"; "energy_empty"; "energy_now"; "energy_avg"; "capacity"; "capacity_alert_min";
  "capacity_alert_max"; "capacity_level"; "temp"; "temp_max"; "temp_min"; "temp_alert_min";
  "temp_alert_max"; "temp_ambient"; "temp_ambient_alert_min"; "temp_ambient_alert_max";
  "time_to_empty_now"; "time_to_empty_avg"; "time_to_full_now"; "time_to_full_avg"; "type";
  "usb_type"; "scope"; "precharge_current"; "charge_term_current"; "calibrate"; "usb_hc";
  "usb_otg"; "charge_enabled"; "set_ship_mode"; "real_type"; "charge_now_raw";
  "charge_now_error"; "capacity_raw"; "battery_charging_enabled"; "charging_enabled";
  "step_charging_enabled"; "step_charging_step"; "pin_enabled"; "input_suspend";
  "input_voltage_regulation"; "input_current_max"; "input_current_trim"; "input_current_settled";
  "input_voltage_settled"; "bypass_vchg_loop_debouncer"; "charge_counter_shadow"; "hi_power";
  "low_power"; "temp_cool"; "temp_warm"; "temp_cold"; "temp_hot"; "system_temp_level";
  "resistance"; "resistance_capacitive"; "resistance_id"; "resistance_now"; "flash_current_max";
  "update_now"; "esr_count"; "buck_freq"; "boost_current"; "safety_timer_enabled"; "charge_done";
  "flash_active"; "flash_trigger"; "force_tlim"; "dp_dm"; "input_current_limited";
  "input_current_now"; "charge_qnovo_enable"; "current_qnovo"; "voltage_qnovo"; "rerun_aicl";
  "cycle_count_id"; "safety_timer_expired"; "restricted_charging"; "current_capability";
  "typec_mode"; "typec_cc_orientation"; "typec_power_role"; "typec_src_rp"; "pd_allowed";
  "pd_active"; "pd_in_hard_reset"; "pd_current_max"; "pd_usb_suspend_supported"; "charger_temp";
  "charger_temp_max"; "parallel_disable"; "pe_start"; "soc_reporting_ready"; "debug_battery";
  "fcc_delta"; "icl_reduction"; "parallel_mode"; "die_health"; "connector_health";
  "ctm_current_max"; "hw_current_max"; "pr_swap"; "cc_step"; "cc_step_sel"; "sw_jeita_enabled";
  "pd_voltage_max"; "pd_voltage_min"; "sdp_current_max"; "connector_type";
  "parallel_batfet_mode"; "parallel_fcc_max"; "min_icl"; "moisture_detected";
  "batt_profile_version"; "batt_full_current"; "recharge_soc"; "hvdcp_opti_allowed";
  "smb_en_mode"; "smb_en_reason"; "esr_actual"; "esr_nominal"; "soh"; "clear_soh";
  "force_recharge"; "fcc_stepper_enable"; "toggle_stat"; "main_fcc_max"; "fg_reset";
  "qc_opti_disable"; "cc_soc"; "batt_age_level"; "scale_mode_en"; "voltage_vph"; "chip_version";
  "therm_icl_limit"; "dc_reset"; "voltage_max_limit"; "real_capacity"; "force_main_icl";
  "force_main_fcc"; "comp_clamp_level"; "adapter_cc_mode"; "skin_health"; "charge_disable";
  "adapter_details"; "dead_battery"; "voltage_fifo"; "cc_uah"; "operating_freq"; "aicl_delay";
  "aicl_icl"; "rtx"; "cutoff_soc"; "sys_soc"; "batt_soc"; "batt_ce_ctrl"; "batt_ce_full";
  "resistance_avg"; "batt_res_filt_cnts"; "aicl_done"; "voltage_step"; "otg_fastroleswap";
  "apsd_rerun"; "apsd_timeout"; "cp_status1"; "cp_status2"; "cp_enable"; "cp_switcher_en";
  "cp_die_temp"; "cp_isns"; "cp_isns_slave"; "cp_toggle_switcher"; "cp_irq_status"; "cp_ilim";
  "irq_status"; "parallel_output_mode"; "alignment"; "moisture_detection_enabled";
  "cc_toggle_enable"; "fg_type"; "charger_status"; "charge_counter_ext"; "charge_charger_state";
  "model_name"; "ptmc_id"; "manufacturer"; "battery_type"; "cycle_counts"; "serial_number"].

Definition POWER_SUPPLY_PROP_CHARGE_TYPE : Z := 1.
Definition POWER_SUPPLY_PROP_HEALTH : Z := 2.
Definition POWER_SUPPLY_PROP_TECHNOLOGY : Z := 6.
Definition POWER_SUPPLY_PROP_CAPACITY_LEVEL : Z := 45.
Definition POWER_SUPPLY_PROP_TYPE : Z := 58.
Definition POWER_SUPPLY_PROP_SCOPE : Z := 60.
Definition POWER_SUPPLY_PROP_REAL_TYPE : Z := 68.
Definition POWER_SUPPLY_PROP_TYPEC_MODE : Z := 117.
Definition POWER_SUPPLY_PROP_TYPEC_POWER_ROLE : Z := 119.
Definition POWER_SUPPLY_PROP_TYPEC_SRC_RP : Z := 120.
Definition POWER_SUPPLY_PROP_DIE_HEALTH : Z := 135.
Definition POWER_SUPPLY_PROP_CONNECTOR_HEALTH : Z := 136.
Definition POWER_SUPPLY_PROP_SKIN_HEALTH : Z := 180.
Definition POWER_SUPPLY_PROP_CHARGE_COUNTER_EXT : Z := 219.
Definition POWER_SUPPLY_PROP_MODEL_NAME : Z := 221.
Definition POWER_SUPPLY_PROP_SERIAL_NUMBER : Z := 226.

(** The names the numbers were read off. *)
Example property_numbers :
  map (fun psp => power_supply_attrs !! Z.to_nat psp)
    [POWER_SUPPLY_PROP_STATUS; POWER_SUPPLY_PROP_CHARGE_TYPE; POWER_SUPPLY_PROP_HEALTH;
     POWER_SUPPLY_PROP_TECHNOLOGY; POWER_SUPPLY_PROP_CAPACITY_LEVEL; POWER_SUPPLY_PROP_TYPE;
     POWER_SUPPLY_PROP_USB_TYPE; POWER_SUPPLY_PROP_SCOPE; POWER_SUPPLY_PROP_REAL_TYPE;
     POWER_SUPPLY_PROP_TYPEC_MODE; POWER_SUPPLY_PROP_TYPEC_POWER_ROLE;
     POWER_SUPPLY_PROP_TYPEC_SRC_RP; POWER_SUPPLY_PROP_DIE_HEALTH;
     POWER_SUPPLY_PROP_CONNECTOR_HEALTH; POWER_SUPPLY_PROP_SKIN_HEALTH;
     POWER_SUPPLY_PROP_CHARGE_COUNTER_EXT; POWER_SUPPLY_PROP_MODEL_NAME;
     POWER_SUPPLY_PROP_SERIAL_NUMBER; POWER_SUPPLY_PROP_ONLINE; POWER_SUPPLY_PROP_TEMP;
     POWER_SUPPLY_PROP_CURRENT_MAX; POWER_SUPPLY_PROP_INPUT_CURRENT_LIMIT;
     POWER_SUPPLY_PROP_CHARGE_CONTROL_LIMIT; POWER_SUPPLY_PROP_CHARGE_CONTROL_LIMIT_MAX] =
  map Some ["status"; "charge_type"; "health"; "technology"; "capacity_level"; "type"; "usb_type";
    "scope"; "real_type"; "typec_mode"; "typec_power_role"; "typec_src_rp"; "die_health";
    "connector_health"; "skin_health"; "charge_counter_ext"; "model_name"; "serial_number";
    "online"; "temp"; "current_max"; "input_current_limit"; "charge_control_limit";
    "charge_control_limit_max"].
Proof. reflexivity. Qed.

(** ** Kernel string functions

    [sysfs_streq] compares up to a newline at the end, [kstrtol] reads a decimal
    number or answers an error, [env_room] says whether add_uevent_var finds
    room for one more variable. *)

Class StringLib := {
  sysfs_streq : string -> string -> bool;
  kstrtol : string -> Z + Z;
  env_room : list string -> string -> bool;
}.

Definition nl : string := String (ascii_of_nat 10) EmptyString.

(** [sprintf(buf, "%d", z)] *)
Definition dec (z : Z) : string := NilZero.string_of_int (Z.to_int z).

Definition type_number (t : power_supply_type) : Z :=
  match t with
  | POWER_SUPPLY_TYPE_UNKNOWN => 0
  | POWER_SUPPLY_TYPE_BATTERY => 1
  | POWER_SUPPLY_TYPE_UPS => 2
  | POWER_SUPPLY_TYPE_MAINS => 3
  | POWER_SUPPLY_TYPE_USB => 4
  | POWER_SUPPLY_TYPE_OTHER n => n
  end.

(** The table the cases of [power_supply_store_property] match the text with. *)
Definition store_table (psp : Z) : option (list string) :=
  if psp =? POWER_SUPPLY_PROP_STATUS then Some power_supply_status_text
  else if psp =? POWER_SUPPLY_PROP_CHARGE_TYPE then Some power_supply_charge_type_text
  else if psp =? POWER_SUPPLY_PROP_HEALTH then Some power_supply_health_text
  else if psp =? POWER_SUPPLY_PROP_TECHNOLOGY then Some power_supply_technology_text
  else if psp =? POWER_SUPPLY_PROP_CAPACITY_LEVEL then Some power_supply_capacity_level_text
  else if psp =? POWER_SUPPLY_PROP_SCOPE then Some power_supply_scope_text
  else None.

(** The table the cases of [power_supply_show_property] look the text up in. *)
Definition show_table (psp : Z) : option (list string) :=
  if psp =? POWER_SUPPLY_PROP_STATUS then Some power_supply_status_text
  else if psp =? POWER_SUPPLY_PROP_CHARGE_TYPE then Some power_supply_charge_type_text
  else if psp =? POWER_SUPPLY_PROP_HEALTH then Some power_supply_health_text
  else if psp =? POWER_SUPPLY_PROP_TECHNOLOGY then Some power_supply_technology_text
  else if psp =? POWER_SUPPLY_PROP_CAPACITY_LEVEL then Some power_supply_capacity_level_text
  else if (psp =? POWER_SUPPLY_PROP_TYPE) || (psp =? POWER_SUPPLY_PROP_REAL_TYPE)
  then Some power_supply_type_text
  else if psp =? POWER_SUPPLY_PROP_SCOPE then Some power_supply_scope_text
  else if psp =? POWER_SUPPLY_PROP_TYPEC_MODE then Some power_supply_usbc_text
  else if psp =? POWER_SUPPLY_PROP_TYPEC_POWER_ROLE then Some power_supply_usbc_pr_text
  else if psp =? POWER_SUPPLY_PROP_TYPEC_SRC_RP then Some power_supply_typec_src_rp_text
  else if (psp =? POWER_SUPPLY_PROP_DIE_HEALTH) || (psp =? POWER_SUPPLY_PROP_SKIN_HEALTH)
          || (psp =? POWER_SUPPLY_PROP_CONNECTOR_HEALTH)
  then Some power_supply_health_text
  else None.

Section Sysfs.
Context {W : Type} `{StringLib}.
Implicit Types (psy : @power_supply W) (w : W).

(** ** Showing *)

(** The loop of [power_supply_show_usb_type]: the text so far and whether the
    connected type was among the types. *)
Fixpoint show_usb_types (usb_types : list Z) (value : Z) (buf : string) (match_ : bool)
    : option (string * bool) :=
  match usb_types with
  | [] => Some (buf, match_)
  | usb_type :: usb_types =>
      text ← rd power_supply_usb_type_text usb_type;
      if value =? usb_type
      then show_usb_types usb_types value (buf ++ "[" ++ text ++ "] ")%string true
      else show_usb_types usb_types value (buf ++ text ++ " ")%string match_
  end.

(** [buf[count - 1] = '\n'] *)
Fixpoint end_line (buf : string) : string :=
  match buf with
  | EmptyString => EmptyString
  | String _ EmptyString => nl
  | String c buf => String c (end_line buf)
  end.

Definition power_supply_show_usb_type (usb_types : list Z) (value : Z) : option (Z + string) :=
  '(buf, match_) ← show_usb_types usb_types value EmptyString false;
  Some (if match_ : bool then inr (end_line buf) else inl (- EINVAL)).

(** An error that is not negative is taken for success, and the value is then
    whatever was on the stack: a fault of the model. *)
Definition shown_value psy (psp : Z) w : option ((Z + propval) * W) :=
  if psp =? POWER_SUPPLY_PROP_TYPE then Some (inr (Intval (type_number (type (desc psy)))), w)
  else
    let '(ret, w) := power_supply_get_property psy psp w in
    match ret with
    | inl err => if err <? 0 then Some (inl err, w) else None
    | inr v => Some (inr v, w)
    end.

Definition show_value psy (psp : Z) (value : propval) : option (Z + string) :=
  match show_table psp with
  | Some table => i ← intval_of value; text ← rd table i; Some (inr (text ++ nl)%string)
  | None =>
      if psp =? POWER_SUPPLY_PROP_USB_TYPE then
        i ← intval_of value; power_supply_show_usb_type (usb_types (desc psy)) i
      else if psp =? POWER_SUPPLY_PROP_CHARGE_COUNTER_EXT then
        match value with Int64val v => Some (inr (dec v ++ nl)%string) | _ => None end
      else if (POWER_SUPPLY_PROP_MODEL_NAME <=? psp) && (psp <=? POWER_SUPPLY_PROP_SERIAL_NUMBER)
      then match value with Strval s => Some (inr (s ++ nl)%string) | _ => None end
      else i ← intval_of value; Some (inr (dec i ++ nl)%string)
  end.

Definition power_supply_show_property psy (psp : Z) w : option ((Z + string) * W) :=
  '(r, w) ← shown_value psy psp w;
  match r with
  | inl err => Some (inl err, w)
  | inr value => r ← show_value psy psp value; Some (r, w)
  end.

(** ** Storing *)

(** [sysfs_match_string]: the first entry that is equal. *)
Definition sysfs_match_string (table : list string) (buf : string) : Z :=
  match list_find (fun s => sysfs_streq s buf = true) table with
  | Some (i, _) => Z.of_nat i
  | None => - EINVAL
  end.

(** The number the text stands for, or an error. *)
Definition stored_value (psp : Z) (buf : string) : Z + Z :=
  let ret := match store_table psp with
             | Some table => sysfs_match_string table buf
             | None => - EINVAL
             end in
  if ret <? 0 then kstrtol buf else inr ret.

Definition power_supply_store_property psy (psp : Z) (buf : string) (count : Z) w : Z * W :=
  match stored_value psp buf with
  | inl ret => (ret, w)
  | inr ret =>
      let '(ret, w) := power_supply_set_property psy psp (Intval (s32 ret)) w in
      (if ret <? 0 then ret else count, w)
  end.

(** ** Visibility *)

Definition S_IRUGO : Z := 292.
Definition S_IWUSR : Z := 128.

Definition power_supply_attr_is_visible psy (attrno : Z) w : Z :=
  if attrno =? POWER_SUPPLY_PROP_TYPE then S_IRUGO
  else if existsb (Z.eqb attrno) (properties (desc psy)) then
    match property_is_writeable (desc psy) with
    | Some f => if f w attrno >? 0 then Z.lor S_IRUGO S_IWUSR else S_IRUGO
    | None => S_IRUGO
    end
  else 0.

(** ** Uevents *)

(** The kernel's table has the letters of Latin-1. *)
Definition toupper (c : ascii) : ascii :=
  let n := nat_of_ascii c in
  if ((97 <=? n) && (n <=? 122) || (224 <=? n) && negb (n =? 247))%nat
  then ascii_of_nat (n - 32) else c.

Fixpoint kstruprdup (str : string) : string :=
  match str with
  | EmptyString => EmptyString
  | String c str => String (toupper c) (kstruprdup str)
  end.

(** [line = strchr(prop_buf, '\n'); if (line) *line = 0;] *)
Fixpoint first_line (s : string) : string :=
  match s with
  | EmptyString => EmptyString
  | String c s => if Ascii.eqb c (ascii_of_nat 10) then EmptyString else String c (first_line s)
  end.

Definition add_uevent_var (env : list string) (var : string) : Z * list string :=
  if env_room env var then (0, (env ++ [var])%list) else (- ENOMEM, env).

(** The loop over the properties; [alloc j] is the answer to the allocation of
    the name of the [j]-th of them. *)
Fixpoint uevent_properties (alloc : Z -> bool) psy (j : Z) (props : list Z) (env : list string) w
    : option (Z * list string * W) :=
  match props with
  | [] => Some (0, env, w)
  | psp :: props =>
      attr ← rd power_supply_attrs psp;
      '(ret, w) ← power_supply_show_property psy psp w;
      match ret with
      | inl err =>
          if (err =? - ENODEV) || (err =? - ENODATA)
          then uevent_properties alloc psy (j + 1) props env w
          else if err <? 0 then Some (err, env, w) else None
      | inr prop_buf =>
          if negb (alloc j) then Some (- ENOMEM, env, w)
          else
            let '(ret, env) := add_uevent_var env
              ("POWER_SUPPLY_" ++ kstruprdup attr ++ "=" ++ first_line prop_buf)%string in
            if truth ret then Some (ret, env, w)
            else uevent_properties alloc psy (j + 1) props env w
      end
  end.

Definition power_supply_uevent (page : bool) (alloc : Z -> bool) psy (env : list string) w
    : option (Z * list string * W) :=
  let '(ret, env) := add_uevent_var env
    ("POWER_SUPPLY_NAME=" ++ default "(null)" (name (desc psy)))%string in
  if truth ret then Some (ret, env, w)
  else if negb page then Some (- ENOMEM, env, w)
  else uevent_properties alloc psy 0 (properties (desc psy)) env w.

(** ** LED triggers *)

Inductive led_trigger := charging_full_trig | charging_trig | full_trig
  | charging_blink_full_solid_trig | online_trig.
#[export] Instance led_trigger_eq : EqDecision led_trigger.
Proof. solve_decision. Defined.

Inductive led_action := LED_OFF | LED_FULL | LED_BLINK.

(** What [led_trigger_event] and [led_trigger_blink] are called with. *)
Definition power_supply_update_bat_leds psy w : option (list (led_trigger * led_action) * W) :=
  let '(ret, w) := power_supply_get_property psy POWER_SUPPLY_PROP_STATUS w in
  match ret with
  | inl _ => Some ([], w)
  | inr v =>
      status ← intval_of v;
      Some (if status =? 4 then
              [(charging_full_trig, LED_FULL); (charging_trig, LED_OFF); (full_trig, LED_FULL);
               (charging_blink_full_solid_trig, LED_FULL)]
            else if status =? 1 then
              [(charging_full_trig, LED_FULL); (charging_trig, LED_FULL); (full_trig, LED_OFF);
               (charging_blink_full_solid_trig, LED_BLINK)]
            else
              [(charging_full_trig, LED_OFF); (charging_trig, LED_OFF); (full_trig, LED_OFF);
               (charging_blink_full_solid_trig, LED_OFF)], w)
  end.

Definition power_supply_update_gen_leds psy w : option (list (led_trigger * led_action) * W) :=
  let '(ret, w) := power_supply_get_property psy POWER_SUPPLY_PROP_ONLINE w in
  match ret with
  | inl _ => Some ([], w)
  | inr v =>
      online ← intval_of v;
      Some ([(online_trig, if truth online then LED_FULL else LED_OFF)], w)
  end.

Definition power_supply_update_leds psy w : option (list (led_trigger * led_action) * W) :=
  if is_battery psy then power_supply_update_bat_leds psy w else power_supply_update_gen_leds psy w.

(** The names that are allocated and the triggers that are registered for a
    supply. *)
Record leds := { trig_names : list string; triggers : list led_trigger }.

Definition psy_name psy : string := default "(null)" (name (desc psy)).

Definition kasprintf (s : string) (l : leds) : leds :=
  {| trig_names := s :: trig_names l; triggers := triggers l |}.
Definition kfree (s : string) (l : leds) : leds :=
  {| trig_names := List.remove string_dec s (trig_names l); triggers := triggers l |}.
Definition led_trigger_register_simple (t : led_trigger) (l : leds) : leds :=
  {| trig_names := trig_names l; triggers := t :: triggers l |}.
Definition led_trigger_unregister_simple (t : led_trigger) (l : leds) : leds :=
  {| trig_names := trig_names l; triggers := filter (fun t' => t' ≠ t) (triggers l) |}.

Definition charging_full_trig_name psy : string := (psy_name psy ++ "-charging-or-full")%string.
Definition charging_trig_name psy : string := (psy_name psy ++ "-charging")%string.
Definition full_trig_name psy : string := (psy_name psy ++ "-full")%string.
Definition charging_blink_full_solid_trig_name psy : string :=
  (psy_name psy ++ "-charging-blink-full-solid")%string.
Definition online_trig_name psy : string := (psy_name psy ++ "-online")%string.

(** [ok k] is the answer to the [k]-th kasprintf. *)
Definition power_supply_create_bat_triggers (ok : Z -> bool) psy (l : leds) : Z * leds :=
  if negb (ok 0) then (- ENOMEM, l)
  else
    let l := kasprintf (charging_full_trig_name psy) l in
    if negb (ok 1) then (- ENOMEM, kfree (charging_full_trig_name psy) l)
    else
      let l := kasprintf (charging_trig_name psy) l in
      if negb (ok 2) then
        (- ENOMEM, kfree (charging_full_trig_name psy) (kfree (charging_trig_name psy) l))
      else
        let l := kasprintf (full_trig_name psy) l in
        if negb (ok 3) then
          (- ENOMEM, kfree (charging_full_trig_name psy)
                       (kfree (charging_trig_name psy) (kfree (full_trig_name psy) l)))
        else
          let l := kasprintf (charging_blink_full_solid_trig_name psy) l in
          let l := led_trigger_register_simple charging_full_trig l in
          let l := led_trigger_register_simple charging_trig l in
          let l := led_trigger_register_simple full_trig l in
          (0, led_trigger_register_simple charging_blink_full_solid_trig l).

Definition power_supply_remove_bat_triggers psy (l : leds) : leds :=
  let l := led_trigger_unregister_simple charging_full_trig l in
  let l := led_trigger_unregister_simple charging_trig l in
  let l := led_trigger_unregister_simple full_trig l in
  let l := led_trigger_unregister_simple charging_blink_full_solid_trig l in
  let l := kfree (charging_blink_full_solid_trig_name psy) l in
  let l := kfree (full_trig_name psy) l in
  let l := kfree (charging_trig_name psy) l in
  kfree (charging_full_trig_name psy) l.

Definition power_supply_create_gen_triggers (ok : Z -> bool) psy (l : leds) : Z * leds :=
  if negb (ok 0) then (- ENOMEM, l)
  else (0, led_trigger_register_simple online_trig (kasprintf (online_trig_name psy) l)).

Definition power_supply_remove_gen_triggers psy (l : leds) : leds :=
  kfree (online_trig_name psy) (led_trigger_unregister_simple online_trig l).

Definition power_supply_create_triggers (ok : Z -> bool) psy (l : leds) : Z * leds :=
  if is_battery psy then power_supply_create_bat_triggers ok psy l
  else power_supply_create_gen_triggers ok psy l.

Definition power_supply_remove_triggers psy (l : leds) : leds :=
  if is_battery psy then power_supply_remove_bat_triggers psy l
  else power_supply_remove_gen_triggers psy l.
End Sysfs.

(** ** Lemmas *)

(** What the kernel's string functions do, as far as the class relies on it:
    equality up to one newline at the end; a decimal number of a long with a
    newline is read; a text that starts with a letter is not a number. *)
Definition letter (c : ascii) : bool :=
  let n := nat_of_ascii c in ((65 <=? n) && (n <=? 90) || (97 <=? n) && (n <=? 122))%nat.

Definition starts_with_letter (s : string) : bool :=
  match s with String c _ => letter c | EmptyString => false end.

Class StringLaws `{StringLib} := {
  streq_spec s t : sysfs_streq s t = true <->
    s = t \/ s = (t ++ nl)%string \/ (s ++ nl)%string = t;
  kstrtol_dec z : - 2 ^ 63 <= z < 2 ^ 63 -> kstrtol (dec z ++ nl) = inr z;
  kstrtol_text s : starts_with_letter s = true -> kstrtol s = inl (- EINVAL);
}.

(** A table of texts without a newline, all different. *)
Fixpoint has_nl (s : string) : bool :=
  match s with
  | EmptyString => false
  | String c s => Ascii.eqb c (ascii_of_nat 10) || has_nl s
  end.

Definition good_table (t : list string) : bool :=
  bool_decide (NoDup t) && forallb (fun s => negb (has_nl s) && starts_with_letter s) t.

Lemma tables_good psp t : show_table psp = Some t -> good_table t = true.
Proof.
  unfold show_table. intros Ht.
  repeat (case_match; [simplify_eq; vm_compute; reflexivity|]). done.
Qed.

Section Laws.
Context {W : Type} `{StringLaws}.
Implicit Types (psy : @power_supply W) (w : W).

Lemma append_nl_inj (s t : string) : (s ++ nl)%string = (t ++ nl)%string -> s = t.
Proof.
  revert t. induction s as [|c s IH]; intros [|d t]; cbn; [done|..]; intros [= E1 E2].
  - by destruct t.
  - by destruct s.
  - f_equal; auto.
Qed.

Lemma has_nl_append (s : string) : has_nl (s ++ nl) = true.
Proof.
  induction s as [|c s IH]; [done|]. change (Ascii.eqb c (ascii_of_nat 10) || has_nl (s ++ nl) = true).
  rewrite IH. apply orb_true_r.
Qed.

(** The text of an entry is matched with that entry. *)
Lemma match_entry t i s : good_table t = true -> t !! i = Some s ->
  sysfs_match_string t (s ++ nl) = Z.of_nat i.
Proof.
  unfold good_table. rewrite andb_true_iff, bool_decide_eq_true, forallb_forall. intros [Hd Ht] Hi.
  unfold sysfs_match_string.
  assert (Hf : list_find (fun s' => sysfs_streq s' (s ++ nl) = true) t = Some (i, s)).
  { apply list_find_Some. split; [done|]. split; [apply streq_spec; auto|].
    intros j s' Hj Hlt Hs. apply streq_spec in Hs.
    assert (Hl : has_nl s' = false).
    { apply negb_true_iff. assert (Hin : In s' t) by (eapply list_elem_of_In, list_elem_of_lookup_2; eauto).
      specialize (Ht s' Hin). by apply andb_true_iff in Ht as [? _]. }
    destruct Hs as [-> | [-> | Hs]].
    - by rewrite has_nl_append in Hl.
    - by rewrite has_nl_append in Hl.
    - apply append_nl_inj in Hs as ->. pose proof (NoDup_lookup _ _ _ _ Hd Hj Hi). lia. }
  by rewrite Hf.
Qed.

Lemma entry_not_number t i s : good_table t = true -> t !! i = Some s ->
  kstrtol (s ++ nl) = inl (- EINVAL).
Proof.
  unfold good_table. rewrite andb_true_iff, forallb_forall. intros [_ Ht] Hi.
  apply kstrtol_text. assert (Hin : In s t) by (eapply list_elem_of_In, list_elem_of_lookup_2; eauto).
  specialize (Ht s Hin). apply andb_true_iff in Ht as [_ Ht]. by destruct s.
Qed.
End Laws.

Lemma show_store_table psp t : store_table psp = Some t -> show_table psp = Some t.
Proof.
  unfold store_table, show_table. intros Ht.
  repeat (case_match; [done|]). case_match eqn:E; [|done].
  apply Z.eqb_eq in E as ->. done.
Qed.

(** ** Properties *)

(** C39. Text and value: an enumerated property shows the text of its value,
    and writing that text back sets the same value; an integer shows in
    decimal and is read back; but the properties that show a text and are not
    among those that accept one (the types, the type-C modes and the health of
    die, skin and connector) reject the text they show; a value outside of the
    table is a read past its end. *)
Theorem show_store_round_trip {W} `{StringLaws} (psy : @power_supply W) psp v w count :
  match show_table psp with
  | Some t =>
      (forall i s, v = Z.of_nat i -> t !! i = Some s ->
         show_value psy psp (Intval v) = Some (inr (s ++ nl)%string) /\
         power_supply_store_property psy psp (s ++ nl) count w =
           match store_table psp with
           | Some _ =>
               let '(ret, w) := power_supply_set_property psy psp (Intval v) w in
               (if ret <? 0 then ret else count, w)
           | None => (- EINVAL, w)
           end) /\
      (~ 0 <= v < zlen t -> show_value psy psp (Intval v) = None)
  | None =>
      psp <> POWER_SUPPLY_PROP_USB_TYPE -> psp <> POWER_SUPPLY_PROP_CHARGE_COUNTER_EXT ->
      ~ POWER_SUPPLY_PROP_MODEL_NAME <= psp <= POWER_SUPPLY_PROP_SERIAL_NUMBER ->
      - 2 ^ 31 <= v < 2 ^ 31 ->
      show_value psy psp (Intval v) = Some (inr (dec v ++ nl)%string) /\
      power_supply_store_property psy psp (dec v ++ nl) count w =
        let '(ret, w) := power_supply_set_property psy psp (Intval v) w in
        (if ret <? 0 then ret else count, w)
  end.
Proof.
  unfold power_supply_store_property, stored_value, show_value.
  destruct (show_table psp) as [t|] eqn:Et.
  - pose proof (tables_good _ _ Et) as Hg.
    assert (Hlen : zlen t < 2 ^ 31).
    { clear -Et. revert Et. unfold show_table. intros Et.
      repeat (case_match; [simplify_eq; vm_compute; reflexivity|]). done. }
    split.
    + intros i s -> Hi. cbn [intval_of mbind option_bind]. rewrite rd_of_nat, Hi. split; [done|].
      destruct (store_table psp) as [t'|] eqn:Es.
      * apply show_store_table in Es. rewrite Et in Es. injection Es as <-.
        rewrite (match_entry _ _ _ Hg Hi), (proj2 (Z.ltb_ge _ 0)) by lia.
        apply lookup_lt_Some in Hi. rewrite s32_id; [done|]. unfold zlen in Hlen. lia.
      * change (- EINVAL <? 0) with true. cbv beta iota. by rewrite (entry_not_number _ _ _ Hg Hi).
    + intros Hv. cbn [intval_of mbind option_bind].
      destruct (rd t v) eqn:E; [|done]. by apply rd_lt in E.
  - intros H1 H2 H3 Hv. rewrite !(proj2 (Z.eqb_neq _ _)) by done.
    destruct (_ && _) eqn:E.
    { apply andb_true_iff in E as [E1%Z.leb_le E2%Z.leb_le]. destruct H3. lia. }
    split; [done|]. destruct (store_table psp) eqn:Es.
    { apply show_store_table in Es. congruence. }
    change (- EINVAL <? 0) with true. cbv beta iota. rewrite kstrtol_dec by lia.
    by rewrite s32_id by lia.
Qed.

(** While a supply is being added, its uevent has the name only and fails. *)
Lemma uevent_while_adding {W} `{StringLib} (psy : @power_supply W) alloc env w psp props :
  use_cnt psy = 0 -> initialized psy = false ->
  properties (desc psy) = psp :: props -> 0 <= psp < zlen power_supply_attrs ->
  psp <> POWER_SUPPLY_PROP_TYPE ->
  env_room env ("POWER_SUPPLY_NAME=" ++ psy_name psy) = true ->
  power_supply_uevent true alloc psy env w =
    Some (- EAGAIN, (env ++ ["POWER_SUPPLY_NAME=" ++ psy_name psy]%string)%list, w).
Proof.
  intros Hu Hi Hp Hr Ht He. unfold power_supply_uevent, add_uevent_var. unfold psy_name in *.
  rewrite He. cbn [truth negb Z.eqb]. rewrite Hp. cbn [uevent_properties].
  destruct (rd_ex _ _ Hr) as [a ->]. cbn [mbind option_bind].
  unfold power_supply_show_property, shown_value, power_supply_get_property.
  rewrite (proj2 (Z.eqb_neq _ _) Ht), Hu, Hi. done.
Qed.

(** The triggers of a supply are made all or not at all: after an
    allocation failure no name is left and nothing is registered, and removal
    frees everything that was made. *)
Theorem triggers_all_or_nothing {W} (psy : @power_supply W) ok :
  let none := {| trig_names := []; triggers := [] |} in
  let '(rc, l) := power_supply_create_triggers ok psy none in
  (rc = 0 /\ power_supply_remove_triggers psy l = none /\
   length (trig_names l) = length (triggers l) /\ triggers l <> []) \/
  (rc = - ENOMEM /\ l = none).
Proof.
  cbv zeta. unfold power_supply_create_triggers, power_supply_remove_triggers.
  destruct (is_battery psy).
  - unfold power_supply_create_bat_triggers, power_supply_remove_bat_triggers.
    destruct (ok 0); [|by right]. destruct (ok 1); [|right; split; [done|]].
    2: { unfold kfree, kasprintf; cbn. by repeat destruct (string_dec _ _). }
    destruct (ok 2); [|right; split; [done|]].
    2: { unfold kfree, kasprintf; cbn. by repeat (destruct (string_dec _ _); cbn). }
    destruct (ok 3); [|right; split; [done|]].
    2: { unfold kfree, kasprintf; cbn. by repeat (destruct (string_dec _ _); cbn). }
    left. split; [done|]. split; [|done].
    unfold kfree, kasprintf; cbn. by repeat (destruct (string_dec _ _); cbn).
  - unfold power_supply_create_gen_triggers, power_supply_remove_gen_triggers.
    destruct (ok 0); [left|by right]. split; [done|]. split; [|done].
    unfold kfree; cbn. by destruct (string_dec _ _).
Qed.

(** ** Witness: string functions that do as the kernel's *)

Fixpoint drop_nl (s : string) : string :=
  match s with
  | EmptyString => EmptyString
  | String c EmptyString => if Ascii.eqb c (ascii_of_nat 10) then EmptyString else s
  | String c s => String c (drop_nl s)
  end.

#[local] Instance kernel_strings : StringLib := {
  sysfs_streq s t := String.eqb s t || String.eqb s (t ++ nl) || String.eqb (s ++ nl) t;
  kstrtol s :=
    if starts_with_letter s then inl (- EINVAL)
    else match NilZero.int_of_string (drop_nl s) with
         | Some d => let z := Z.of_int d in
             if (- 2 ^ 63 <=? z) && (z <? 2 ^ 63) then inr z else inl (-34)
         | None => inl (- EINVAL)
         end;
  env_room _ _ := true;
}.

Lemma drop_nl_append (s : string) : drop_nl (s ++ nl) = s.
Proof.
  induction s as [|c s IH]; [done|].
  change (String c s ++ nl)%string with (String c (s ++ nl)).
  cbn [drop_nl]. rewrite IH. by destruct s.
Qed.

Lemma dec_not_letter z : starts_with_letter (dec z ++ nl) = false.
Proof.
  unfold dec. assert (Hu : forall d, starts_with_letter (NilZero.string_of_uint d ++ nl) = false).
  { intros []; reflexivity. }
  destruct (Z.to_int z); [apply Hu|reflexivity].
Qed.

Lemma to_int_nonnil z : Z.to_int z <> Decimal.Pos Decimal.Nil /\ Z.to_int z <> Decimal.Neg Decimal.Nil.
Proof.
  destruct z as [|p|p]; cbn; split; try done; intros [= E];
    by apply DecimalPos.Unsigned.to_uint_nonnil in E.
Qed.

#[local] Instance kernel_strings_laws : StringLaws.
Proof.
  constructor.
  - intros s t. cbn. rewrite !orb_true_iff, !String.eqb_eq. tauto.
  - intros z Hz. cbn -[dec Z.pow]. rewrite dec_not_letter, drop_nl_append. unfold dec.
    rewrite NilZero.isi, DecimalZ.of_to by apply to_int_nonnil.
    rewrite (proj2 (Z.leb_le _ _)), (proj2 (Z.ltb_lt _ _)) by lia. done.
  - intros s Hs. cbn. by rewrite Hs.
Qed.

(** The health of a battery, which may be set, and of its die, which may not. *)
Definition health_supply : @power_supply Z := {|
  id := 1;
  desc := {| name := Some "battery"; type := POWER_SUPPLY_TYPE_BATTERY; usb_types := [];
             properties := [POWER_SUPPLY_PROP_HEALTH; POWER_SUPPLY_PROP_DIE_HEALTH];
             get_property := fun w _ => (inr (Intval w), w);
             set_property := Some (fun w _ v => match v with Intval z => (0, z) | _ => (- EINVAL, w) end);
             property_is_writeable := None; external_power_changed := None; set_charged := None;
             no_thermal := true |};
  supplied_to := None; supplied_from := None; num_supplies := 0; of_node := None;
  parent_node := None; use_cnt := 1; initialized := true; removing := false; wakeup := false;
  tzd := false; tcd := false |}.

Lemma show_store_round_trip_witness :
  power_supply_store_property health_supply POWER_SUPPLY_PROP_HEALTH ("Overheat" ++ nl) 9 1 = (9, 2) /\
  power_supply_store_property health_supply POWER_SUPPLY_PROP_DIE_HEALTH ("Overheat" ++ nl) 9 1 =
    (- EINVAL, 1) /\
  power_supply_store_property health_supply POWER_SUPPLY_PROP_CHARGE_CONTROL_LIMIT (dec 12 ++ nl) 3 1 = (3, 12).
Proof.
  split; [|split].
  - exact (proj2 (proj1 (show_store_round_trip health_supply POWER_SUPPLY_PROP_HEALTH 2 1 9)
                    2%nat "Overheat" eq_refl eq_refl)).
  - exact (proj2 (proj1 (show_store_round_trip health_supply POWER_SUPPLY_PROP_DIE_HEALTH 2 1 9)
                    2%nat "Overheat" eq_refl eq_refl)).
  - refine (proj2 (show_store_round_trip health_supply POWER_SUPPLY_PROP_CHARGE_CONTROL_LIMIT 12 1 3 _ _ _ _));
      unfold POWER_SUPPLY_PROP_CHARGE_CONTROL_LIMIT, POWER_SUPPLY_PROP_USB_TYPE,
        POWER_SUPPLY_PROP_CHARGE_COUNTER_EXT, POWER_SUPPLY_PROP_MODEL_NAME; lia.
Defined.
